(* ===== verification/_CoqProject ===== *)
-Q . S2P
Prelude.v
JsString.v
JsNumber.v
JsValue.v
JsJson.v
JsonRoundTrip.v
Catalog.v
Html.v
Marketplace.v
Checkout.v
Markdown.v
MarkdownSafety.v
Playground.v
Dom.v
I18nTables.v
StaticTables.v
I18n.v
PageText.v
Auth.v
UriRoundTrip.v
Registration.v
CoreRegistration.v
SnippetTables.v
Snippets.v
Clipboard.v
SelectorTables.v
SelectorLabels.v
SelectorStore.v
MeshNotice.v
MeshDiscovery.v
ImageFit.v
ModelChoice.v
ModelRouting.v
SelectorSessions.v
SessionViews.v
ModelInfo.v
SelectorFetch.v
MeshClient.v
AgentPanel.v
SelectorStart.v
Picker.v
AgentState.v
AgentViews.v
AgentInspector.v
Handover.v
PortalStart.v
Pacman.v
PacmanView.v
Base64.v
StudioAuth.v
StudioHead.v
PageScripts.v
VoiceMode.v
StudioPage.v
FleetSession.v
FleetTools.v
AgentPage.v
AgentRows.v
AgentMarkdown.v
AgentBoxes.v
FleetCards.v
