(* ===== verification/Prelude.v ===== *)
(** * ComputeMesh portal: a verification development

    ComputeMesh is a mesh of inference nodes behind a gateway.  The part of the
    repository written in JavaScript is the browser side: the public portal
    (src/portal/portal-core.js and portal.js), the agent workspace
    (src/portal/agent-workspace/), the model selector that the project adds to a bundled
    chat user interface (src/portal/webui/model-selector.js, and the same file for
    Android), a small arcade game served with it (src/portal/apps/pacman/game.js), and the
    scripts inside the pages themselves: the sign-in page of the AI studio
    (src/portal/ai-auth.html), the studio page (src/portal/webui/index.html), the fleet
    cockpit (src/portal/fleet.html) and the agent page (src/portal/agent.html).  This
    library models that code as Rocq functions and proves what makes it correct.

    ** How the program is put together

    portal-core.js holds the dictionaries and the language switch, the session handling
    (keys in [localStorage], a cookie, the routing of the AI subdomain), the deposit and
    contact forms, the Markdown renderer of the chat, and the chat playground that streams
    replies from the gateway.  portal.js adds the registration form, static translations
    and page metadata.  The agent workspace is a store (state.js) filled by asynchronous
    loaders, driven by app.js (selection, polling), composer.js (turns) and auth.js
    (tokens).  model-selector.js replaces [window.fetch] of the page it is loaded into: it
    looks for nodes, merges their catalogues, lets the user choose a model, sends completions
    to the node that offers it with pictures made small enough, translates notices in the
    answers and shows which node answered; besides it has a panel for agent sessions.  The
    sign-in page stores a key and hands over to the studio page, whose head script spreads
    it; the fleet cockpit signs in and out, rotates the key and sets the tools of a fleet;
    the agent page manages projects and sessions.  All pages but the studio load
    portal-core.js beside their own script, in one global scope.  The
    components share the browser's storage and the current language; they talk to the
    gateway by HTTP only.

    ** Conventions of the model

    An asynchronous function is cut at its [await]s: the synchronous part that a click
    runs is one definition, and each continuation ([on_response], [on_data], [on_done],
    [on_reject], with the [catch] and [finally] blocks as definitions of their own) is the
    handler of a network event.  A component's state has a table of the invocations in
    flight, so that several invocations, their replies and page events interleave in every
    possible order; [exec] runs a list of events and theorems quantify over that list.
    Requests are recorded in the state in the order they are sent.  DOM elements are
    optional records of the attributes the code reads and writes.  Code that can throw
    returns an [outcome].  Clock values, random numbers and fresh identifiers are
    arguments of the events.  What the language leaves open or what is too large to write
    out is a parameter of the definitions: the decimal form of a fraction ([show_frac]),
    [Date.parse], [Math.hypot], the parsing of addresses, the decoding and encoding of
    pictures, and [localeCompare] (class [Collation], with an instance).

    ** Files

    - Prelude: automation, the [outcome] type, runs of event-driven components and the
      invariant rules over them, list lemmas.
    - JsString: strings as lists of UTF-16 code units; [trim], [split], case mapping,
      literals ([js]) and the same with back-quotes for quotation marks ([jsq]).
    - JsNumber: numbers as rationals with a rounding function; class [Rounding] and its
      instance [binary64] (IEEE 754 round to nearest, ties to even), proved monotone,
      idempotent and exact on moderate multiples of 1/1024.
    - JsValue: numbers with infinities and NaN, JSON values, property access, truthiness,
      conversions, [localStorage].  JsJson: [JSON.parse] and [JSON.stringify]; the parser
      has fuel, which is proved sufficient (length of the text plus one).  Members of
      objects keep the order of insertion, also those with integer names.  JsonRoundTrip:
      parsing what was printed gives the value back.
    - Catalog: [loadLiveModelCatalog] with the model menu and cards, [loadLivePricing],
      [parseMeshTelemetryPayload] and the telemetry ticker of portal-core.js.
    - Html: templates with holes, the contexts of an HTML tokenizer, the two escaping
      functions; used by Marketplace ([loadRealMarketplaceData],
      [renderRealMarketplaceCards], [filterMarketplace]) and AgentViews.
    - Checkout: [openDepositModal], [handleDepositSubmit] (Module Deposit) and
      [handleContactSubmit] (Module Contact) of portal-core.js.
    - Markdown: [formatInlineMarkdown] and [formatChatMarkdown] of portal-core.js, each
      regular expression as a matcher; MarkdownSafety: its theorems.
    - Playground: [sendPlaygroundMessage] with its stream reader, the quota, the
      conversion dialog and [clearPlaygroundChat] (Module Chat), [runPlaygroundPrompt]
      (Module Prompt), [formatResetDuration].
    - I18nTables, StaticTables: the dictionaries and text tables, complete; I18n:
      [detectInitialLanguage], [switchLanguage], [toggleLanguage], quick prompts, the
      static translation of portal.js and of the agent workspace.  Dom: documents as trees,
      the search for elements and their paths.  PageText: [syncPortalStaticLanguage] and
      [plainPortalChrome] over such a document.
    - Auth: key normalisation, URI encoding and decoding, cookies; Module Portal for
      [getActiveComputeMeshApiKey], [hasActiveSession], [handleAiSubdomainRouting],
      [handleAuthNavClick], [updateAuthStateUI]; Module Agent for [resolveAuthToken].
      UriRoundTrip: percent encoding of all texts and [URLSearchParams].
    - Registration: [compliantRegistration] and [syncProviderControls] of portal.js;
      CoreRegistration: the handler of portal-core.js that it replaces.
    - SnippetTables, Snippets: the code samples of portal-core.js and the functions that show
      and copy them, the copy buttons, [openModal], [closeModal], the page header; composed
      with Registration, whose key field and store they use.  Clipboard: the copy buttons
      when the browser grants or refuses the clipboard.
    - PortalStart: [initPortal], [setupModalHooks] and the loading of portal-core.js,
      composed from Snippets, Registration, Checkout, I18n and PageText.  Handover: the
      address the agent button of the selector leaves for.
    - SelectorTables, SelectorLabels: the label tables of model-selector.js and the functions
      that choose a label.  SelectorStore: its stores, session cache and cursors.
    - MeshNotice: notices in answers ([localizeMeshNoticeResponse]).  MeshDiscovery:
      [mapWithConcurrency] (Module Pool), [probeLocalNode] and [discoverFleetEndpoints]
      (Module Probe).  ImageFit: [optimizeImageFile], [fitChatBody], the upload listener.
      ModelChoice: [compareModels], [initialize], the selection.  ModelRouting: the request
      side of the replaced [fetch] and its fallback.  ModelInfo: the model dialog, the
      execution status, the draft, the panel switch, the mesh status.  SelectorFetch: request
      and answer of a completion composed from these.  SelectorStart: the start composed
      from the probe, the pool and the merge of the catalogues.  Picker: the model dialog as
      a tree, [mountPicker] and the observer that runs it.  MeshClient: the posting functions
      of [ComputeMeshSharding] and the rewriter of [img] elements.
    - SelectorSessions: the agent panel ([initializeAgentSessions],
      [pollAgentSessionEvents], [submitAgentTask], [controlAgentSession],
      [resolveAgentApproval]) as one state machine of pending requests; SessionViews: the
      rows, links and buttons it shows; AgentPanel: [ensureAgentSessionPanel].
    - AgentState: state.js, app.js and composer.js of agent-workspace/ as one state
      machine of pending tasks (no page of the repository loads app.js; the page behind
      [/agent] is agent.html, in AgentPage); AgentViews: the HTML that timeline.js, sidebar.js and
      inspector.js write for its store; AgentInspector: [renderInspector] as a whole.
    - Pacman: the game; PacmanView: its drawing and its sounds.
    - PageScripts: the top-level declarations of the scripts of four pages and the loading of
      scripts into one scope.
    - Base64: [btoa], [atob] and the base64url codec of the pages.  StudioAuth: the script
      of ai-auth.html (key form, mailed link, registration, passkeys, listeners, start).
      StudioHead: the head script of webui/index.html, composed with StudioAuth, and the
      session cookie from the portal to the workspace.  VoiceMode:
      the voice mode of that page; StudioPage: its modality classes, file dialog guard,
      button recognition, side bar and external links, a Module each.
    - FleetSession: sign-in, sign-out, start, key rotation and the key of the commands of
      fleet.html; FleetTools: its tool settings.
      FleetCards: its node cards and the search for a local dashboard.
    - AgentPage: projects, sessions, prompts, polling and deletion in agent.html; AgentRows:
      the markup of a project row and the script a click on it runs; AgentMarkdown:
      [formatMarkdown]; AgentBoxes: its menus, dialogs, drawers, models, nodes and service
      box, a Module each.

    ** What the theorems show

    - Rendering: whatever the text, every [<] the renderer emits opens one of its own tags
      (chat_only_own_tags, inline_only_own_tags).  Attributes are not protected:
      link_address_breaks_attribute.
    - Templates: what nodes and agents report cannot change the markup of the marketplace
      cards, of the timeline and of the project list (market_card_markup,
      event_card_markup, workspace_markup), except through the fields that are inserted
      unescaped (event_sequence_is_html, approval_id_is_script,
      session_id_breaks_attribute); rendering never throws on what the store can hold
      (timeline_never_throws).  The inspector shows the session (inspector_shows_the_session,
      artifact_markup) unless an artifact makes it throw
      (failed_artifact_keeps_the_old_metrics).
    - Catalogue: menu, prices and grid show exactly what the gateway lists
      (menu_offers_available_models, prices_only_for_published_tiers,
      marketplace_shows_matching_nodes), the ticker the first payload
      (ticker_shows_first_payload).
    - Payments: one checkout in flight, one idempotency key, a completed checkout is final,
      errors re-enable the form (checkout_single_flight, checkout_one_idempotency_key,
      checkout_completed_is_final, checkout_reject_recovers); reopening the modal voids
      this (checkout_reopen_breaks_single_flight).
    - Playground: the lock is set exactly while one invocation runs and every ending
      releases it (playground_lock, playground_settles_unlocks), the button follows the
      lock but for menu_enables_the_button_early; the reply does not depend
      on how the stream is cut (sse_reply_is_stream_text), with the exceptions that
      sse_done_depends_on_chunks and sse_last_line_lost exhibit; requests are bounded
      (playground_requests_bounded) and name a model that was offered
      (requests_name_offered_models), but a model the menu lacks stops the playground
      (unknown_model_stops_the_playground).
    - Start: the page comes up the same in every order of its scripts, but for one notice
      (start_up_is_order_independent, notice_of_an_english_page); a registration button on
      any page ends in the open dialog (registration_button_opens_the_dialog); the link to
      the app is installed once (android_link_installed_once).
    - Addresses: what is percent-encoded is decoded again (uri_round_trip), so that the
      address of the agent button names the chosen session and model
      (agent_button_names_the_session); agent.html, which it opens, reads neither.
    - Sessions: keys are header safe, the routing never forwards a key, cookie round trip,
      portal and workspace agree on the key (normalized_key_is_header_safe,
      routing_never_forwards_the_key, session_cookie_round_trip, routed_key_is_active).
    - Registration: single flight, consent, reported failures; a key is shown only when an
      answer brought it (core_key_comes_from_an_answer).
    - Agent workspace: every poll asks after a cursor that covers the loaded events, and
      sequential polls, answered from their requests, rebuild the log exactly
      (cursor_covers_events, sequential_polls_reconstruct_the_log); overlapping and stale
      polls do not.
    - Code samples: the playground sample always shows the stored key
      (samples_follow_the_key), a copy button ends with the label its last click saw
      (label_is_what_the_last_click_saw), the header can be initialised again
      (header_is_idempotent); but the text of a running registration can become the key and
      a blocked store hides a new one (registration_status_becomes_the_key,
      blocked_store_hides_the_key), and the buttons of two commands confirm a copy that was
      refused (sample_buttons_copy_the_sample, command_buttons_confirm_a_refused_copy).
    - Model selector: labels are always defined (selector_labels_defined); what is stored is
      read back (session_cache_round_trip, cursor_round_trip, storage_round_trip,
      draft_round_trip, on top of json_round_trip); the stream of an answer is rewritten as
      if line by line (notice_stream_is_linewise) and a notice shows its message
      (notice_payload_shows_the_message); the pool of requests computes the map of its
      function, with bounded concurrency, and ends (pool_computes_map, pool_terminates);
      the probe runs once (probe_runs_once); of several offers of a model the best is kept
      and the selection is one of the list (catalogue_keeps_the_best,
      selection_is_listed), in whatever order the catalogues arrive
      (start_is_order_independent); a completion carries the selected model and falls back to the
      gateway (completion_carries_the_selected_model, fall_back_reaches_the_gateway);
      pictures are bounded in size and number of attempts, to the whole request
      (optimized_image_is_bounded, fitted_body_is_bounded, sent_pictures_are_bounded); the
      last execution report is shown (last_execution_is_shown,
      delivered_answer_is_observed); dialog tables, sizes, the panel switch and the mesh
      getters (info_table_shown_once, model_size_unit, panel_needs_the_legacy_switch,
      mesh_getter_is_latest).  The observer that mounts the picker is at rest while the
      picker is in its place and nothing was reported, and after a report only on a page
      without the dialog (observer_rests_only_without_a_report; on a page with the dialog
      dialog_without_a_report, dialog_with_a_report); the repair of the dialog keeps its scroll position
      (repair_keeps_the_scroll_position).  Calls to the mesh leave as they were made
      (mesh_call_reaches_the_gateway); pictures of a node are rewritten once
      (pictures_are_rewritten_once).
    - Agent panel: one poll and one task at a time, for every interleaving
      (session_poll_single_flight), bounded lists and a valid cursor
      (session_view_bounded), the poll goes on until the session ends (poll_goes_on), the
      buttons tell what a click does (task_buttons_match), links and approval buttons act on
      what they show (panel_acts_on_what_it_shows), the labels differ in every language
      (panel_buttons_are_distinct); a poll answered after another
      session was chosen spoils its cursor (stale_session_poll_skips_events).
    - Language: both dictionaries have the same keys and the same markup, toggling twice
      restores the page, static texts round trip but for the listed exceptions, also as
      texts of a document (page_text_round_trip), the structured data of a page keeps all
      but its description (json_ld_keeps_data), and exactly the emoji disappear from header
      and footer (chrome_loses_exactly_the_emoji), the copyright sign among them.
    - Game: pellet count and walls, Pac-Man stays on the path below a step of 11/2 pixels
      and not above, one life per frame, high score, the cheat code as an automaton; the
      picture shows the pellets that are left (drawn_pellets_are_those_left), the colour of a
      ghost whether it can be eaten (ghost_colour_tells_the_mode), tunes are audible and
      short (tunes_are_audible).
    - Pages: the sign-in page of the studio does not run beside portal-core.js, the others do
      (studio_script_is_refused).  As it is written it leaves with clean keys, but for
      two cases of its start, and sends only what the authenticator answered
      (sign_in_page_is_safe, on top of b64url_round_trip), but takes long addresses for keys
      and stores them (typing_an_address), and its
      check box has no effect (remembering_makes_no_difference).  The voice mode releases
      the microphone and sends one prompt per opening (closing_releases_the_microphone,
      one_prompt_per_opening), with the exceptions late_grant_keeps_the_microphone,
      second_opening_leaks_a_stream and dictation_sends_the_last_sentence; orb_is_bounded and rms_level_is_bounded.
    - Fleet cockpit: it is visible only to a visitor who is signed in
      (cockpit_shown_only_signed_in), a sign-out removes the keys and the session cookies every
      page reads (sign_out_is_complete), a rotation reaches one entry only
      (rotation_leaves_the_agent_on_the_old_key); the tools sent are those the owner chose,
      while neither settings of the gateway nor another account come in between, they are
      shown by the switches and kept over a reload (settings_refine_the_choices,
      switches_show_the_list, settings_survive_a_reload).
    - Agent page: a directory is deleted only by a click at which its name stands in the
      field, typed and not touched since (physical_deletion_is_confirmed), but the project stays listed
      (deleted_workspace_stays_listed); the chosen session keeps being polled
      (selected_session_is_polled), at times twice (overlapping_polls_repeat_events); a
      click on a row selects its project (click_selects_the_project, row_markup) unless its
      identifier is a script (project_id_is_script); replies bring no elements of their own
      (agent_reply_only_own_tags); one menu and one drawer at a time (one_menu_open,
      one_drawer_open), the box is offline for a stopped service (offline_means_stopped).
    - Node cards: what a node reports does not change the markup of its card, as long as its
      texts hold no quotation marks (node_card_markup); the summary counts the cards
      (summary_counts_the_cards), and only announced addresses are tried
      (candidates_origin).

    ** Bounds and fuel

    Arithmetic rounds to binary64 ([fl64]); the game is proved for every [Rounding].
    Counters that only count (scores, lives, identifiers) are unbounded integers.  Loops
    are structural recursions on the text or the list they scan, or take fuel equal to the
    length of the text, which each step shortens.  The step bound of 11/2 pixels leaves
    half a pixel to the centre of a tile for the rounding of positions.

    ** What is not modelled

    Locale-dependent dates and figures (parameters); styles, apart from those the layout
    repair of the model dialog and the canvas set, scrolling and focus; the module
    wrappers and the assignments that export functions; of fleet.html payouts, kill
    switch, bans, lists and forms, of webui/index.html
    the dismissal of dialogs, tooltips, the picture preview and the new-chat shortcut
    (which search the markup of the bundled application), and the scripts of status.html
    and of the appliance dashboard: they place one reply each into a template and keep no
    state of their own; pages in HTML without scripts; the minified bundles and service
    workers, which are third-party or generated code; the Python, C# and Kotlin programs
    behind the HTTP interfaces. *)
From Stdlib Require Import Lia.
From stdpp Require Import base numbers list gmap strings.

(** ** Proof automation *)

Create HintDb portal.
Create Rewrite HintDb portal.

(** Destruct the scrutinee of the first [if] or [match] met in the goal or in
    a hypothesis, keeping the equation. *)
Ltac split_ifs :=
  repeat match goal with
  | |- context [if ?b then _ else _] => destruct b eqn:?
  | H : context [if ?b then _ else _] |- _ => destruct b eqn:?
  end.

Ltac split_match :=
  match goal with
  | |- context [match ?x with _ => _ end] => destruct x eqn:?
  | H : context [match ?x with _ => _ end] |- _ => destruct x eqn:?
  end.

(** Boolean connectives to propositions. *)
Ltac bool_norm :=
  repeat match goal with
  | H : _ && _ = true |- _ => apply andb_true_iff in H; destruct H
  | H : _ || _ = false |- _ => apply orb_false_iff in H; destruct H
  | H : negb _ = true |- _ => apply negb_true_iff in H
  | H : negb _ = false |- _ => apply negb_false_iff in H
  | H : N.eqb _ _ = true |- _ => apply N.eqb_eq in H
  | H : N.eqb _ _ = false |- _ => apply N.eqb_neq in H
  | H : Z.eqb _ _ = true |- _ => apply Z.eqb_eq in H
  | H : Z.eqb _ _ = false |- _ => apply Z.eqb_neq in H
  | H : Z.leb _ _ = true |- _ => apply Z.leb_le in H
  | H : Z.leb _ _ = false |- _ => apply Z.leb_gt in H
  | H : Z.ltb _ _ = true |- _ => apply Z.ltb_lt in H
  | H : Z.ltb _ _ = false |- _ => apply Z.ltb_ge in H
  | H : bool_decide _ = true |- _ => apply bool_decide_eq_true in H
  | H : bool_decide _ = false |- _ => apply bool_decide_eq_false in H
  end.

(** ** Results of code that can throw *)

(** A JavaScript computation returns a value or throws; the thrown value is
    the [Error] message where the code reads it. *)
Inductive outcome (E A : Type) : Type :=
| Ret (a : A)
| Throw (e : E).
Arguments Ret {E A} a.
Arguments Throw {E A} e.

Definition obind {E A B} (m : outcome E A) (k : A -> outcome E B) : outcome E B :=
  match m with Ret a => k a | Throw e => Throw e end.

Declare Scope js_scope.
Delimit Scope js_scope with js.
Notation "'let*' x := m 'in' k" := (obind m (fun x => k))
  (at level 10, x name, m at level 100, k at level 200) : js_scope.

(** ** Languages of the portal *)

(** [currentLang]: [switchLanguage] only ever stores ['de'] or ['en']. *)
Inductive lang : Type := De | En.

#[export] Instance lang_eq_dec : EqDecision lang.
Proof. solve_decision. Defined.

(** [currentLang === 'de' ? a : b] *)
Definition tr {A} (l : lang) (a b : A) : A := match l with De => a | En => b end.

(** ** Event-driven state machines *)

(** A handler-based component is a transition relation labelled by events;
    [run] is a finite trace of it. *)
Section Runs.
Context {S E : Type} (step : S -> E -> S -> Prop).

Inductive run : S -> list E -> S -> Prop :=
| run_nil s : run s [] s
| run_cons s e s' es s'' : step s e s' -> run s' es s'' -> run s (e :: es) s''.

(** An invariant that every allowed event preserves holds along every run
    made of allowed events. *)
Lemma run_invariant (I : S -> Prop) (ok : E -> Prop) :
  (forall s e s', ok e -> I s -> step s e s' -> I s') ->
  forall s es s', Forall ok es -> I s -> run s es s' -> I s'.
Proof.
  intros Hpres s es s' Hok HI Hrun. induction Hrun as [|s e s1 es s2 Hs Hr IH]; [done|].
  inv Hok. eauto.
Qed.

Lemma run_app s es s1 es' s2 : run s es s1 -> run s1 es' s2 -> run s (es ++ es') s2.
Proof. induction 1; simpl; eauto using run. Qed.

Lemma run_app_inv s es es' s2 :
  run s (es ++ es') s2 -> exists s1, run s es s1 /\ run s1 es' s2.
Proof.
  revert s. induction es as [|e es IH]; simpl; intros s H; [eauto using run|].
  inv H. destruct (IH _ H5) as (s1 & ? & ?). eauto using run.
Qed.

End Runs.

(** Executable components give a function; its graph is a transition
    relation and its runs are the iterations of the function. *)
Section FunctionalRuns.
Context {S E : Type} (f : S -> E -> S).

Definition graph (s : S) (e : E) (s' : S) : Prop := s' = f s e.

Lemma run_graph s es s' : run graph s es s' <-> s' = fold_left f es s.
Proof.
  split.
  - induction 1 as [|? ? ? ? ? Hg ? IH]; [done|]. unfold graph in Hg. by subst.
  - revert s. induction es as [|e es IH]; simpl; intros s ->; [constructor|].
    econstructor; [reflexivity|by apply IH].
Qed.

Lemma fold_invariant (I : S -> Prop) (ok : E -> Prop) :
  (forall s e, ok e -> I s -> I (f s e)) ->
  forall es s, Forall ok es -> I s -> I (fold_left f es s).
Proof.
  intros Hpres es s Hok HI.
  apply (run_invariant graph I ok) with s es; [|done..|by apply run_graph].
  intros s0 e s' He Hs0 ->. by apply Hpres.
Qed.

End FunctionalRuns.

(** ** Lists *)

Section Lists.
Context {A : Type}.

(** [Array.prototype.slice(-n)]: the last [n] elements. *)
Definition last_n (n : nat) (l : list A) : list A := drop (length l - n) l.

Lemma length_last_n n l : length (last_n n l) = Nat.min n (length l).
Proof. unfold last_n. rewrite length_drop. lia. Qed.

Lemma last_n_suffix n l : exists p, l = p ++ last_n n l.
Proof. exists (take (length l - n) l). unfold last_n. by rewrite take_drop. Qed.

Lemma last_n_snoc n l x : (0 < n)%nat -> last (last_n n (l ++ [x])) = Some x.
Proof.
  intros Hn. unfold last_n. rewrite length_app; simpl.
  rewrite drop_app_le by lia. by rewrite last_snoc.
Qed.

Lemma Forall_last_n (P : A -> Prop) n l : Forall P l -> Forall P (last_n n l).
Proof. intros H. by apply Forall_drop. Qed.

Lemma find_In (p : A -> bool) l x : List.find p l = Some x -> In x l /\ p x = true.
Proof. apply List.find_some. Qed.

End Lists.

#[export] Hint Resolve Forall_last_n : portal.
