(* ===== verification/JsString.v ===== *)
(** * JavaScript strings

    A JavaScript string is a sequence of UTF-16 code units ([jsstring]); [js]
    turns a source literal (UTF-8 text) into one.  The file defines the
    [String.prototype] operations the portal uses ([trim], [startsWith],
    [endsWith], [includes], [split], [substring], [replace] with a global
    single-character class, [join]) and their laws. *)
From Stdlib Require Import Lia NArith Ascii.
From stdpp Require Import base numbers list gmap strings pretty.
From S2P Require Import Prelude.

Open Scope N_scope.

Abbreviation jsstring := (list N).

(** ** Literals *)

(** UTF-8 decoding into UTF-16 code units (source literals are well formed). *)
Fixpoint utf8_units (bs : list N) : jsstring :=
  match bs with
  | [] => []
  | b :: r =>
      if b <? 128 then b :: utf8_units r
      else match r with
           | [] => []
           | c1 :: r1 =>
               if b <? 224 then ((b - 192) * 64 + (c1 - 128)) :: utf8_units r1
               else match r1 with
                    | [] => []
                    | c2 :: r2 =>
                        if b <? 240
                        then ((b - 224) * 4096 + (c1 - 128) * 64 + (c2 - 128)) :: utf8_units r2
                        else match r2 with
                             | [] => []
                             | c3 :: r3 =>
                                 let cp := (b - 240) * 262144 + (c1 - 128) * 4096
                                           + (c2 - 128) * 64 + (c3 - 128) - 65536 in
                                 (55296 + cp / 1024) :: (56320 + cp mod 1024) :: utf8_units r3
                             end
                    end
           end
  end.

Definition js (s : string) : jsstring :=
  utf8_units (Ascii.N_of_ascii <$> String.list_ascii_of_string s).
Arguments js s%_string : simpl never.

(** A template literal in which a back-quote stands for the double quote. *)
Definition jsq (s : string) : jsstring :=
  (fun c => if c =? 96 then 34 else c) <$> js s.
Arguments jsq s%_string : simpl never.

(** One ASCII character as a code unit. *)
Definition ch (a : Ascii.ascii) : N := Ascii.N_of_ascii a.
Arguments ch a%_char : simpl never.

Definition seqb (a b : jsstring) : bool := bool_decide (a = b).

Lemma seqb_eq a b : seqb a b = true <-> a = b.
Proof. unfold seqb. apply bool_decide_eq_true. Qed.

Lemma seqb_neq a b : seqb a b = false <-> a <> b.
Proof. unfold seqb. apply bool_decide_eq_false. Qed.

Lemma seqb_refl a : seqb a a = true.
Proof. by apply seqb_eq. Qed.

(** A string is truthy when it is not empty. *)
Definition truthy (s : jsstring) : bool := match s with [] => false | _ => true end.

Lemma truthy_true s : truthy s = true <-> s <> [].
Proof. destruct s; simpl; split; congruence. Qed.

(** ** White space and [trim] *)

(** [WhiteSpace] and [LineTerminator] code units: what [trim] strips and what
    the regular-expression class [\s] matches. *)
Definition is_ws (c : N) : bool :=
  ((9 <=? c) && (c <=? 13)) || (c =? 32) || (c =? 160) || (c =? 5760)
  || ((8192 <=? c) && (c <=? 8202)) || (c =? 8232) || (c =? 8233)
  || (c =? 8239) || (c =? 8287) || (c =? 12288) || (c =? 65279).

Fixpoint trim_start (s : jsstring) : jsstring :=
  match s with
  | [] => []
  | c :: r => if is_ws c then trim_start r else s
  end.

Definition trim_end (s : jsstring) : jsstring := reverse (trim_start (reverse s)).
Definition trim (s : jsstring) : jsstring := trim_end (trim_start s).

Definition ws_free_ends (s : jsstring) : Prop :=
  (forall c, head s = Some c -> is_ws c = false) /\
  (forall c, last s = Some c -> is_ws c = false).

Lemma trim_start_suffix s : exists w, s = w ++ trim_start s /\ Forall (fun c => is_ws c = true) w.
Proof.
  induction s as [|c s (w & E & Hw)]; simpl; [by exists []|].
  destruct (is_ws c) eqn:Ec; [exists (c :: w)|by exists []].
  split; [simpl; congruence|by constructor].
Qed.

Lemma trim_start_head s c : head (trim_start s) = Some c -> is_ws c = false.
Proof.
  induction s as [|d s IH]; simpl; [done|].
  destruct (is_ws d) eqn:E; [done|]. simpl. congruence.
Qed.

Lemma trim_end_prefix s : exists w, s = trim_end s ++ w /\ Forall (fun c => is_ws c = true) w.
Proof.
  destruct (trim_start_suffix (reverse s)) as (w & E & Hw).
  exists (reverse w). unfold trim_end. rewrite <- reverse_app, <- E, reverse_involutive.
  split; [done|by apply Forall_reverse].
Qed.

Lemma trim_end_last s c : last (trim_end s) = Some c -> is_ws c = false.
Proof. unfold trim_end. rewrite last_reverse. apply trim_start_head. Qed.

Lemma trim_ends s : ws_free_ends (trim s).
Proof.
  split; intros c; unfold trim; [|apply trim_end_last].
  destruct (trim_end_prefix (trim_start s)) as (w & E & _).
  intros H. apply (trim_start_head s). rewrite E. by destruct (trim_end (trim_start s)).
Qed.

Lemma trim_start_id s : (forall c, head s = Some c -> is_ws c = false) -> trim_start s = s.
Proof. destruct s as [|c s]; simpl; [done|]. intros H. by rewrite H. Qed.

Lemma trim_end_id s : (forall c, last s = Some c -> is_ws c = false) -> trim_end s = s.
Proof.
  intros H. unfold trim_end. rewrite trim_start_id, reverse_involutive; [done|].
  intros c. rewrite <- last_reverse, reverse_involutive. apply H.
Qed.

Lemma trim_id s : ws_free_ends s -> trim s = s.
Proof. intros [H1 H2]. unfold trim. by rewrite trim_start_id, trim_end_id. Qed.

Lemma trim_idemp s : trim (trim s) = trim s.
Proof. apply trim_id, trim_ends. Qed.

(** [trim] keeps a contiguous part of the string. *)
Lemma trim_infix s : exists a b, s = a ++ trim s ++ b.
Proof.
  destruct (trim_start_suffix s) as (a & E & _).
  destruct (trim_end_prefix (trim_start s)) as (b & E' & _).
  exists a, b. unfold trim. rewrite <- E'. done.
Qed.

Lemma elem_of_trim s c : c ∈ trim s -> c ∈ s.
Proof. destruct (trim_infix s) as (a & b & E). rewrite E at 2. set_solver. Qed.

(** ** [startsWith], [endsWith], [includes] *)

Fixpoint starts_with (p s : jsstring) : bool :=
  match p, s with
  | [], _ => true
  | x :: p, y :: s => (x =? y) && starts_with p s
  | _ :: _, [] => false
  end.

Definition ends_with (p s : jsstring) : bool := starts_with (reverse p) (reverse s).

Fixpoint includes (p s : jsstring) : bool :=
  starts_with p s || match s with [] => false | _ :: r => includes p r end.

Lemma starts_with_spec p s : starts_with p s = true <-> exists r, s = p ++ r.
Proof.
  revert s. induction p as [|x p IH]; intros [|y s]; simpl.
  - split; [by exists []|done].
  - split; [by eexists|done].
  - split; [done|]. by intros [? ?].
  - rewrite andb_true_iff, N.eqb_eq, IH. split.
    + intros [-> [r ->]]. by exists r.
    + intros [r E]. simplify_eq. eauto.
Qed.

Lemma starts_with_app p r : starts_with p (p ++ r) = true.
Proof. apply starts_with_spec. by exists r. Qed.

Lemma starts_with_drop p s : starts_with p s = true -> s = p ++ drop (length p) s.
Proof. intros [r ->]%starts_with_spec. by rewrite drop_app_length. Qed.

Lemma ends_with_spec p s : ends_with p s = true <-> exists r, s = r ++ p.
Proof.
  unfold ends_with. rewrite starts_with_spec. split; intros [r E].
  - exists (reverse r). rewrite <- (reverse_involutive s), E, reverse_app.
    by rewrite reverse_involutive.
  - exists (reverse r). by rewrite E, reverse_app.
Qed.

Lemma includes_spec p s : includes p s = true <-> exists a b, s = a ++ p ++ b.
Proof.
  induction s as [|c s IH]; simpl; rewrite orb_true_iff, starts_with_spec.
  - split.
    + intros [[r E]|?]; [by exists [], r|done].
    + intros (a & b & E). left. destruct a; [by exists b|done].
  - rewrite IH. split.
    + intros [[r E]|(a & b & ->)]; [by exists [], r|by exists (c :: a), b].
    + intros (a & b & E). destruct a as [|x a]; simplify_eq/=; [left; by exists b|right; eauto].
Qed.

(** ** [split] and [join] *)

Fixpoint split_on (sep : N) (s : jsstring) : list jsstring :=
  match s with
  | [] => [[]]
  | c :: r =>
      if c =? sep then [] :: split_on sep r
      else match split_on sep r with
           | [] => [[c]]
           | h :: t => (c :: h) :: t
           end
  end.

Fixpoint join (sep : jsstring) (l : list jsstring) : jsstring :=
  match l with
  | [] => []
  | [x] => x
  | x :: r => x ++ sep ++ join sep r
  end.

(** Split by a class of single characters, e.g. [split(/[\r\n]/)]. *)
Fixpoint split_class (p : N -> bool) (s : jsstring) : list jsstring :=
  match s with
  | [] => [[]]
  | c :: r =>
      if p c then [] :: split_class p r
      else match split_class p r with
           | [] => [[c]]
           | h :: t => (c :: h) :: t
           end
  end.

Lemma split_on_cons sep s : exists h t, split_on sep s = h :: t.
Proof.
  destruct s as [|c s]; simpl; [eauto|].
  destruct (c =? sep); [eauto|]. destruct (split_on sep s); eauto.
Qed.

Lemma split_on_not_nil sep s : split_on sep s <> [].
Proof. destruct (split_on_cons sep s) as (? & ? & ->). done. Qed.

Lemma split_on_free sep s : Forall (fun l => sep ∉ l) (split_on sep s).
Proof.
  induction s as [|c s IH]; simpl; [repeat constructor; set_solver|].
  destruct (c =? sep) eqn:E; bool_norm; [constructor; [set_solver|done]|].
  destruct (split_on sep s) as [|h t]; inv IH; repeat constructor; set_solver.
Qed.

Lemma join_cons sep x l : l <> [] -> join sep (x :: l) = x ++ sep ++ join sep l.
Proof. by destruct l. Qed.

Lemma join_split sep s : join [sep] (split_on sep s) = s.
Proof.
  induction s as [|c s IH]; simpl; [done|].
  destruct (c =? sep) eqn:E; bool_norm; subst.
  - rewrite join_cons by apply split_on_not_nil. simpl. by rewrite IH.
  - destruct (split_on_cons sep s) as (h & t & Es). rewrite Es in *.
    destruct t; simpl in *; by rewrite IH.
Qed.

Lemma split_on_single sep s : sep ∉ s -> split_on sep s = [s].
Proof.
  induction s as [|c s IH]; simpl; [done|]. intros H.
  destruct (c =? sep) eqn:E; bool_norm; [set_solver|]. rewrite IH by set_solver. done.
Qed.

(** Splitting a concatenation: the last piece of the first part continues
    into the second part. *)
Lemma split_on_app sep a b init lst :
  split_on sep a = init ++ [lst] -> split_on sep (a ++ b) = init ++ split_on sep (lst ++ b).
Proof.
  revert init lst. induction a as [|c a IH]; simpl; intros init lst E.
  - destruct init as [|? []]; simplify_eq/=. done.
  - destruct (c =? sep) eqn:Ec.
    + destruct init as [|x init].
      { destruct (split_on_cons sep a) as (? & ? & Ea). rewrite Ea in E. simplify_eq/=. }
      simpl in E. simplify_eq. simpl. by erewrite IH.
    + destruct (split_on_cons sep a) as (h & t & Ea). rewrite Ea in E.
      destruct init as [|x init]; simplify_eq/=.
      * rewrite (IH [] h) by done. simpl. by rewrite Ec.
      * rewrite (IH (h :: init) lst) by done. done.
Qed.

Lemma split_on_line sep l r : sep ∉ l -> split_on sep (l ++ sep :: r) = l :: split_on sep r.
Proof.
  induction l as [|c l IH]; simpl; intros H; [by rewrite N.eqb_refl|].
  destruct (c =? sep) eqn:E; bool_norm; [set_solver|]. rewrite IH by set_solver. done.
Qed.

Lemma split_class_free p s : Forall (Forall (fun c => p c = false)) (split_class p s).
Proof.
  induction s as [|c s IH]; simpl; [repeat constructor|].
  destruct (p c) eqn:E; [by repeat constructor|].
  destruct (split_class p s) as [|h t]; inv IH; repeat constructor; done.
Qed.

Lemma split_class_not_nil p s : split_class p s <> [].
Proof. destruct s as [|c s]; simpl; [done|]. destruct (p c); [done|]. by destruct (split_class p s). Qed.

(** ** Character-wise replacement *)

(** [s.replace(/[...]/g, c => table[c])]: every character is replaced on its own. *)
Definition map_chars (f : N -> jsstring) (s : jsstring) : jsstring := s ≫= f.

Lemma map_chars_app f a b : map_chars f (a ++ b) = map_chars f a ++ map_chars f b.
Proof. apply bind_app. Qed.

Lemma elem_of_map_chars f s c : c ∈ map_chars f s <-> exists d, c ∈ f d /\ d ∈ s.
Proof. unfold map_chars. rewrite list_elem_of_bind. done. Qed.

(** ** ASCII case folding *)

(** [toLowerCase] where the result is compared with ASCII words, as the portal does: the
    ASCII letters and the two other characters whose lower case has an ASCII letter
    (dotted capital I, Kelvin sign) are mapped, the rest keeps its identity. *)
Definition ascii_lower (c : N) : N := if (65 <=? c) && (c <=? 90) then c + 32 else c.
Definition lower_unit (c : N) : jsstring :=
  if c =? 304 then [105; 775] else if c =? 8490 then [107] else [ascii_lower c].
Definition lower (s : jsstring) : jsstring := map_chars lower_unit s.

(** Case-insensitive [startsWith], as a regular expression with flag [i] and an
    ASCII letter pattern matches. *)
Fixpoint starts_with_ci (p s : jsstring) : bool :=
  match p, s with
  | [], _ => true
  | x :: p, y :: s => (ascii_lower x =? ascii_lower y) && starts_with_ci p s
  | _ :: _, [] => false
  end.

Lemma starts_with_ci_length p s : starts_with_ci p s = true -> (length p <= length s)%nat.
Proof.
  revert s. induction p as [|x p IH]; intros [|y s]; simpl; try done; try lia.
  intros H. bool_norm. apply IH in H0. lia.
Qed.

(** ** Decimal numerals *)

Definition digit (c : N) : bool := (48 <=? c) && (c <=? 57).

Fixpoint digits_value (acc : N) (s : jsstring) : N :=
  match s with
  | [] => acc
  | c :: r => digits_value (10 * acc + (c - 48)) r
  end.

Fixpoint take_digits (s : jsstring) : jsstring :=
  match s with
  | c :: r => if digit c then c :: take_digits r else []
  | [] => []
  end.

(** The decimal numeral of a natural number, as [String(n)] prints it. *)
Definition show_N (n : N) : jsstring := js (pretty.pretty n).
Definition show_Z (z : Z) : jsstring :=
  match z with
  | Z0 => js "0"
  | Zpos p => show_N (Npos p)
  | Zneg p => ch "-" :: show_N (Npos p)
  end.

(** Membership in a literal is decided by evaluation. *)
Lemma not_elem_existsb c s : existsb (N.eqb c) s = false -> c ∉ s.
Proof.
  intros H Hc. apply not_true_iff_false in H. apply H, existsb_exists. exists c.
  split; [by apply list_elem_of_In|apply N.eqb_refl].
Qed.

Ltac plain_lit := solve [apply not_elem_existsb; vm_compute; reflexivity].

(** ** Digits of printed integers *)

Lemma utf8_units_ascii bs : Forall (fun b => b < 128) bs -> utf8_units bs = bs.
Proof. induction 1 as [|b bs Hb _ IH]; [done|]. cbn. apply N.ltb_lt in Hb. by rewrite Hb, IH. Qed.

Definition digit_ascii (a : Ascii.ascii) : Prop := digit (Ascii.N_of_ascii a) = true.

Lemma pretty_N_char_digit x : digit_ascii (pretty.pretty_N_char x).
Proof.
  unfold digit_ascii, pretty.pretty_N_char.
  repeat match goal with |- context [match ?p with _ => _ end] => destruct p; try reflexivity end.
Qed.

Lemma pretty_N_go_digits x s :
  Forall digit_ascii (String.list_ascii_of_string s) ->
  Forall digit_ascii (String.list_ascii_of_string (pretty.pretty_N_go x s)).
Proof.
  revert s. induction (N.lt_wf_0 x) as [x _ IH]; intros s Hs.
  destruct (decide (x = 0)) as [->|Hx]; [by rewrite pretty.pretty_N_go_0|].
  rewrite pretty.pretty_N_go_step by lia. apply IH; [apply N.div_lt; lia|].
  constructor; [apply pretty_N_char_digit|done].
Qed.

Lemma show_N_digits n : Forall (fun c => digit c = true) (show_N n).
Proof.
  assert (H : Forall digit_ascii (String.list_ascii_of_string (pretty.pretty n))).
  { unfold pretty.pretty, pretty.pretty_N. destruct (decide _); [by repeat constructor|]. by apply pretty_N_go_digits. }
  unfold show_N, js. rewrite utf8_units_ascii; apply Forall_fmap; eapply Forall_impl; eauto.
  intros a Ha. unfold digit_ascii, digit in Ha. bool_norm. simpl. apply N.leb_le in H1. lia.
Qed.

Lemma digit_range c : digit c = true -> 48 <= c <= 57.
Proof. unfold digit. intros [H1 H2]%andb_true_iff. apply N.leb_le in H1, H2. lia. Qed.

(** Digits and a minus sign only. *)
Lemma show_Z_plain z c : c ∈ show_Z z -> c = 45 \/ 48 <= c <= 57.
Proof.
  assert (D : forall n, c ∈ show_N n -> 48 <= c <= 57).
  { intros n H. apply digit_range. pose proof (show_N_digits n) as F. rewrite Forall_forall in F. by apply F. }
  destruct z as [|p|p]; cbn [show_Z].
  - intros H. right. apply (D 0). exact H.
  - intros H. right. by eapply D.
  - rewrite elem_of_cons. intros [->|H]; [by left|right; by eapply D].
Qed.
