(* ===== verification/JsNumber.v ===== *)
(** * JavaScript numbers

    A finite JavaScript number is a rational ([Q]); every arithmetic operation
    of the language rounds its exact result with [fl].  [Rounding] states what
    the components rely on (monotone, idempotent, exact on multiples of 1/1024 of
    moderate size); [binary64] is the IEEE 754 double rounding of the language, and is
    an instance.  [num] adds the infinities and [NaN]. *)
From Stdlib Require Import Lia ZArith QArith Qround Qpower Qabs Qreduction Lqa.
From stdpp Require Import base numbers list.
From S2P Require Import Prelude.

Open Scope Q_scope.

(** ** Comparison as the language computes it *)

Definition Qleb (x y : Q) : bool := Qle_bool x y.
Definition Qltb (x y : Q) : bool := negb (Qle_bool y x).
Definition Qeqb (x y : Q) : bool := Qeq_bool x y.

Lemma Qleb_le x y : Qleb x y = true <-> x <= y.
Proof. apply Qle_bool_iff. Qed.

Lemma Qleb_gt x y : Qleb x y = false <-> y < x.
Proof.
  rewrite <- not_true_iff_false, Qleb_le. split; [apply Qnot_le_lt|apply Qlt_not_le].
Qed.

Lemma Qltb_lt x y : Qltb x y = true <-> x < y.
Proof. unfold Qltb. rewrite negb_true_iff. apply Qleb_gt. Qed.

Lemma Qltb_ge x y : Qltb x y = false <-> y <= x.
Proof. unfold Qltb. rewrite negb_false_iff. apply Qleb_le. Qed.

Lemma Qeqb_eq x y : Qeqb x y = true <-> x == y.
Proof. apply Qeq_bool_iff. Qed.

Ltac q_norm :=
  repeat match goal with
  | H : Qleb _ _ = true |- _ => apply Qleb_le in H
  | H : Qleb _ _ = false |- _ => apply Qleb_gt in H
  | H : Qltb _ _ = true |- _ => apply Qltb_lt in H
  | H : Qltb _ _ = false |- _ => apply Qltb_ge in H
  | H : Qeqb _ _ = true |- _ => apply Qeqb_eq in H
  end.

(** [Math.max], [Math.min] *)
Definition Qmax2 (x y : Q) : Q := if Qleb x y then y else x.
Definition Qmin2 (x y : Q) : Q := if Qleb x y then x else y.

(** ** Rounding interface *)

Class Rounding := {
  fl : Q -> Q;
  fl_mono x y : x <= y -> fl x <= fl y;
  fl_exact n : (Z.abs n <= 2 ^ 30)%Z -> fl (n # 1024) == n # 1024;
  fl_idem x : fl (fl x) == fl x;
}.

Section RoundingFacts.
Context {R : Rounding}.

#[global] Instance fl_proper : Proper (Qeq ==> Qeq) fl.
Proof. intros x y E. apply Qle_antisym; apply fl_mono; rewrite E; apply Qle_refl. Qed.

(** A bound on the exact result by an exactly representable number is a bound
    on the rounded result. *)
Lemma fl_le x n : (Z.abs n <= 2 ^ 30)%Z -> x <= n # 1024 -> fl x <= n # 1024.
Proof. intros Hn H. rewrite <- (fl_exact n Hn). by apply fl_mono. Qed.

Lemma fl_ge x n : (Z.abs n <= 2 ^ 30)%Z -> n # 1024 <= x -> n # 1024 <= fl x.
Proof. intros Hn H. rewrite <- (fl_exact n Hn) at 1. by apply fl_mono. Qed.

Lemma fl_le_of x b n :
  b == n # 1024 -> (Z.abs n <= 2 ^ 30)%Z -> x <= b -> fl x <= b.
Proof. intros E Hn H. rewrite E in *. by apply fl_le. Qed.

Lemma fl_ge_of x b n :
  b == n # 1024 -> (Z.abs n <= 2 ^ 30)%Z -> b <= x -> b <= fl x.
Proof. intros E Hn H. rewrite E in *. by apply fl_ge. Qed.

Lemma fl_of b n : b == n # 1024 -> (Z.abs n <= 2 ^ 30)%Z -> fl b == b.
Proof. intros E Hn. rewrite E. by apply fl_exact. Qed.

End RoundingFacts.

(** ** Binary64 *)

Definition pow2 (e : Z) : Q := (2 # 1) ^ e.

(** Round to the nearest integer, ties to even. *)
Definition round_even (q : Q) : Z :=
  let f := Qfloor q in
  let r := q - inject_Z f in
  if Qltb r (1 # 2) then f
  else if Qltb (1 # 2) r then (f + 1)%Z
  else if Z.even f then f else (f + 1)%Z.

(** [2 ^ expo x <= x < 2 ^ (expo x + 1)] for positive [x]. *)
Definition expo (x : Q) : Z :=
  let e := (Z.log2 (Qnum x) - Z.log2 (Zpos (Qden x)))%Z in
  if Qleb (pow2 e) x then e else (e - 1)%Z.

(** Exponent of the unit in the last place: 53-bit significand, gradual
    underflow at [2 ^ -1074]. *)
Definition ulp_expo (x : Q) : Z := Z.max (expo x - 52) (-1074).

Definition fl64_pos (x : Q) : Q :=
  let e := ulp_expo x in
  Qred (inject_Z (round_even (x * pow2 (- e))) * pow2 e).

Definition fl64 (x : Q) : Q :=
  if Qeqb x 0 then 0
  else if Qltb 0 x then fl64_pos x
  else - fl64_pos (- x).

Lemma round_even_bounds q : (Qfloor q <= round_even q <= Qfloor q + 1)%Z.
Proof. unfold round_even. split_ifs; lia. Qed.

Lemma round_even_mono p q : p <= q -> (round_even p <= round_even q)%Z.
Proof.
  intros H. pose proof (Qfloor_resp_le p q H).
  destruct (Z.eq_dec (Qfloor p) (Qfloor q)) as [E|E].
  - unfold round_even. rewrite <- E. split_ifs; q_norm; try lia; lra.
  - pose proof (round_even_bounds p). pose proof (round_even_bounds q). lia.
Qed.

Lemma round_even_Z q z : q == inject_Z z -> round_even q = z.
Proof.
  intros E. unfold round_even.
  assert (Hf : Qfloor q = z) by (rewrite E; apply Qfloor_Z).
  rewrite Hf. destruct (Qltb (q - inject_Z z) (1 # 2)) eqn:H; [done|].
  q_norm. rewrite E in H. lra.
Qed.

Lemma pow2_pos e : 0 < pow2 e.
Proof. apply Qpower_0_lt. lra. Qed.

Lemma pow2_plus a b : pow2 (a + b) == pow2 a * pow2 b.
Proof. apply Qpower_plus. lra. Qed.

Lemma pow2_mono a b : (a <= b)%Z -> pow2 a <= pow2 b.
Proof. intros H. apply Qpower_le_compat_l; [done|lra]. Qed.

Lemma pow2_Z e : (0 <= e)%Z -> pow2 e == inject_Z (2 ^ e).
Proof. intros H. unfold pow2. rewrite Zpower_Qpower by done. reflexivity. Qed.

Lemma pow2_inv e : pow2 e * pow2 (- e) == 1.
Proof. rewrite <- pow2_plus. by rewrite Z.add_opp_diag_r. Qed.

Lemma expo_spec x : 0 < x -> pow2 (expo x) <= x /\ x < pow2 (expo x + 1).
Proof.
  intros Hx. destruct x as [n d]. assert (Hn : (0 < n)%Z) by (unfold Qlt in Hx; simpl in Hx; lia).
  destruct (Z.log2_spec n Hn) as [Hn1 Hn2].
  destruct (Z.log2_spec (Zpos d)) as [Hd1 Hd2]; [lia|].
  pose proof (Z.log2_nonneg n). pose proof (Z.log2_nonneg (Zpos d)).
  set (ln := Z.log2 n) in *. set (ld := Z.log2 (Zpos d)) in *.
  assert (Ex : n # d == inject_Z n / inject_Z (Zpos d)) by apply Qmake_Qdiv.
  assert (Hdp : 0 < inject_Z (Zpos d)) by reflexivity.
  assert (B : forall a b : Z, (0 <= a)%Z -> (0 <= b)%Z ->
    (n < 2 ^ a)%Z -> (2 ^ b <= Zpos d)%Z -> n # d < pow2 (a - b)).
  { intros a b Ha Hb H1 H2. rewrite Ex. apply Qlt_shift_div_r; [done|].
    unfold Z.sub. rewrite pow2_plus, (pow2_Z a) by done.
    apply Qlt_le_trans with (inject_Z (2 ^ a)); [by rewrite <- Zlt_Qlt|].
    rewrite Zle_Qle, <- pow2_Z in H2 by done.
    pose proof (pow2_inv b). pose proof (pow2_pos (- b)) as Hp.
    assert (0 < inject_Z (2 ^ a)) by (rewrite <- pow2_Z by done; apply pow2_pos).
    assert (1 <= pow2 (- b) * inject_Z (Zpos d)) by (apply (Qmult_le_l _ _ _ Hp) in H2; lra).
    nra. }
  assert (C : forall a b : Z, (0 <= a)%Z -> (0 <= b)%Z ->
    (2 ^ a <= n)%Z -> (Zpos d < 2 ^ b)%Z -> pow2 (a - b) <= n # d).
  { intros a b Ha Hb H1 H2. rewrite Ex. apply Qle_shift_div_l; [done|].
    unfold Z.sub. rewrite pow2_plus, (pow2_Z a) by done.
    apply Qle_trans with (inject_Z (2 ^ a)); [|by rewrite <- Zle_Qle].
    rewrite Zlt_Qlt, <- pow2_Z in H2 by done.
    pose proof (pow2_inv b). pose proof (pow2_pos (- b)) as Hp.
    assert (0 < inject_Z (2 ^ a)) by (rewrite <- pow2_Z by done; apply pow2_pos).
    assert (pow2 (- b) * inject_Z (Zpos d) <= 1)
      by (apply Qlt_le_weak in H2; apply (Qmult_le_l _ _ _ Hp) in H2; lra).
    nra. }
  unfold expo. cbn [Qnum Qden]. fold ln ld.
  destruct (Qleb (pow2 (ln - ld)) (n # d)) eqn:E; q_norm.
  - split; [done|]. replace (ln - ld + 1)%Z with (Z.succ ln - ld)%Z by lia.
    apply B; lia || done.
  - split.
    + replace (ln - ld - 1)%Z with (ln - Z.succ ld)%Z by lia. apply C; lia || done.
    + by replace (ln - ld - 1 + 1)%Z with (ln - ld)%Z by lia.
Qed.

Lemma expo_mono x y : 0 < x -> x <= y -> (expo x <= expo y)%Z.
Proof.
  intros Hx Hxy. destruct (Z.le_gt_cases (expo x) (expo y)) as [|H]; [done|exfalso].
  destruct (expo_spec x Hx) as [H1 _]. destruct (expo_spec y) as [_ H2]; [lra|].
  assert (pow2 (expo y + 1) <= pow2 (expo x)) by (apply pow2_mono; lia). lra.
Qed.

Lemma fl64_pos_eq x :
  fl64_pos x == inject_Z (round_even (x * pow2 (- ulp_expo x))) * pow2 (ulp_expo x).
Proof. unfold fl64_pos. apply Qred_correct. Qed.

Lemma round_even_le_Z q z : q <= inject_Z z -> (round_even q <= z)%Z.
Proof. intros H. rewrite <- (round_even_Z (inject_Z z) z) by reflexivity. by apply round_even_mono. Qed.

Lemma round_even_ge_Z q z : inject_Z z <= q -> (z <= round_even q)%Z.
Proof. intros H. rewrite <- (round_even_Z (inject_Z z) z) by reflexivity. by apply round_even_mono. Qed.

(** The rounded value lies in the closed binade of the argument. *)
Lemma fl64_pos_upper x : 0 < x -> fl64_pos x <= pow2 (ulp_expo x + 53).
Proof.
  intros Hx. rewrite fl64_pos_eq, Z.add_comm, pow2_plus.
  apply Qmult_le_compat_r; [|apply Qlt_le_weak, pow2_pos].
  rewrite (pow2_Z 53), <- Zle_Qle by lia. apply round_even_le_Z. rewrite <- (pow2_Z 53) by lia.
  destruct (expo_spec x Hx) as [_ H].
  assert (Hb : pow2 (expo x + 1) <= pow2 (53 + ulp_expo x)) by (apply pow2_mono; unfold ulp_expo; lia).
  rewrite (pow2_plus 53) in Hb. pose proof (pow2_inv (ulp_expo x)).
  pose proof (pow2_pos (- ulp_expo x)) as Hp.
  apply Qle_trans with (pow2 53 * pow2 (ulp_expo x) * pow2 (- ulp_expo x)).
  - apply Qmult_le_compat_r; lra.
  - rewrite <- Qmult_assoc, H0, Qmult_1_r. apply Qle_refl.
Qed.

Lemma fl64_pos_lower x : 0 < x -> (-1074 <= expo x - 52)%Z -> pow2 (expo x) <= fl64_pos x.
Proof.
  intros Hx He. assert (Eu : ulp_expo x = (expo x - 52)%Z) by (unfold ulp_expo; lia).
  rewrite fl64_pos_eq. assert (Ee : pow2 (expo x) == pow2 52 * pow2 (ulp_expo x)).
  { rewrite <- pow2_plus, Eu. by replace (52 + (expo x - 52))%Z with (expo x) by lia. }
  rewrite Ee. apply Qmult_le_compat_r; [|apply Qlt_le_weak, pow2_pos].
  rewrite (pow2_Z 52), <- Zle_Qle by lia. apply round_even_ge_Z. rewrite <- (pow2_Z 52) by lia.
  destruct (expo_spec x Hx) as [H _]. rewrite Ee in H.
  pose proof (pow2_pos (- ulp_expo x)) as Hp. pose proof (pow2_inv (ulp_expo x)) as Hi.
  apply Qle_trans with (pow2 52 * pow2 (ulp_expo x) * pow2 (- ulp_expo x)).
  - rewrite <- Qmult_assoc, Hi, Qmult_1_r. apply Qle_refl.
  - apply Qmult_le_compat_r; lra.
Qed.

Lemma fl64_pos_mono x y : 0 < x -> x <= y -> fl64_pos x <= fl64_pos y.
Proof.
  intros Hx Hxy. assert (Hy : 0 < y) by lra. pose proof (expo_mono x y Hx Hxy) as He.
  destruct (Z.eq_dec (ulp_expo x) (ulp_expo y)) as [E|E].
  - rewrite !fl64_pos_eq, E. apply Qmult_le_compat_r; [|apply Qlt_le_weak, pow2_pos].
    rewrite <- Zle_Qle. apply round_even_mono.
    apply Qmult_le_compat_r; [done|apply Qlt_le_weak, pow2_pos].
  - assert ((expo x < expo y)%Z /\ (-1074 <= expo y - 52)%Z) as [Hlt Hn]
      by (unfold ulp_expo in *; lia).
    apply Qle_trans with (pow2 (ulp_expo x + 53)); [by apply fl64_pos_upper|].
    apply Qle_trans with (pow2 (expo y)); [apply pow2_mono; unfold ulp_expo in *; lia|].
    by apply fl64_pos_lower.
Qed.

Lemma fl64_pos_nonneg x : 0 < x -> 0 <= fl64_pos x.
Proof.
  intros Hx. rewrite fl64_pos_eq. apply Qmult_le_0_compat; [|apply Qlt_le_weak, pow2_pos].
  change 0 with (inject_Z 0). rewrite <- Zle_Qle. apply round_even_ge_Z.
  change (inject_Z 0) with 0. apply Qmult_le_0_compat; [lra|apply Qlt_le_weak, pow2_pos].
Qed.

Lemma fl64_mono x y : x <= y -> fl64 x <= fl64 y.
Proof.
  intros H. unfold fl64.
  destruct (Qeqb x 0) eqn:Ex, (Qeqb y 0) eqn:Ey, (Qltb 0 x) eqn:Px, (Qltb 0 y) eqn:Py;
    q_norm; try lra.
  all: try apply not_true_iff_false in Ex; try rewrite Qeqb_eq in Ex.
  all: try apply not_true_iff_false in Ey; try rewrite Qeqb_eq in Ey.
  all: try (assert (Hx : 0 < - x) by lra; pose proof (fl64_pos_nonneg _ Hx)).
  all: try (assert (Hy : 0 < - y) by lra; pose proof (fl64_pos_nonneg _ Hy)).
  all: try (pose proof (fl64_pos_nonneg x Px)); try (pose proof (fl64_pos_nonneg y Py)).
  all: try lra.
  - by apply fl64_pos_mono.
  - assert (fl64_pos (- y) <= fl64_pos (- x)) by (apply fl64_pos_mono; lra). lra.
Qed.

Lemma fl64_pos_exact (n : Z) : (0 < n <= 2 ^ 30)%Z -> fl64_pos (n # 1024) == n # 1024.
Proof.
  intros [Hn Hb]. assert (Hx : 0 < n # 1024) by (unfold Qlt; simpl; lia).
  assert (Hnq : inject_Z n <= inject_Z (2 ^ 30)) by (by rewrite <- Zle_Qle).
  assert (Ep : n # 1024 == inject_Z n * pow2 (-10)) by (rewrite Qmake_Qdiv; reflexivity).
  assert (He : (expo (n # 1024) <= 20)%Z).
  { destruct (Z.le_gt_cases (expo (n # 1024)) 20) as [|Hgt]; [done|exfalso].
    destruct (expo_spec _ Hx) as [H1 _].
    assert (H2 : pow2 21 <= pow2 (expo (n # 1024))) by (apply pow2_mono; lia).
    assert (H3 : n # 1024 <= pow2 20).
    { rewrite Ep. change (pow2 20) with (pow2 (30 + -10)). rewrite pow2_plus, (pow2_Z 30) by lia.
      apply Qmult_le_compat_r; [done|apply Qlt_le_weak, pow2_pos]. }
    assert (H4 : pow2 20 < pow2 21) by reflexivity. lra. }
  assert (Hu : (ulp_expo (n # 1024) <= -10)%Z) by (unfold ulp_expo; lia).
  rewrite fl64_pos_eq. set (e := ulp_expo (n # 1024)) in *.
  rewrite (round_even_Z _ (n * 2 ^ (- e - 10))).
  - rewrite inject_Z_mult, <- (pow2_Z (- e - 10)), <- Qmult_assoc, <- pow2_plus by lia.
    replace (- e - 10 + e)%Z with (-10)%Z by lia. by rewrite Ep.
  - rewrite Ep, inject_Z_mult, <- (pow2_Z (- e - 10)), <- Qmult_assoc, <- pow2_plus by lia.
    by replace (-10 + - e)%Z with (- e - 10)%Z by lia.
Qed.

Lemma fl64_exact n : (Z.abs n <= 2 ^ 30)%Z -> fl64 (n # 1024) == n # 1024.
Proof.
  intros Hn. unfold fl64. destruct (Qeqb (n # 1024) 0) eqn:E; q_norm; [by rewrite E|].
  destruct (Qltb 0 (n # 1024)) eqn:P; q_norm.
  - apply fl64_pos_exact. unfold Qlt in P. simpl in P. lia.
  - apply not_true_iff_false in E. rewrite Qeqb_eq in E.
    assert (n < 0)%Z.
    { destruct (Z.lt_trichotomy n 0) as [|[->|]]; [done|by destruct E|].
      unfold Qle in P. simpl in P. lia. }
    change (- (n # 1024)) with (- n # 1024). rewrite fl64_pos_exact by lia.
    unfold Qeq; simpl; lia.
Qed.

(** A number on the grid of an admissible exponent is its own rounding. *)
Lemma fl64_pos_grid x k e :
  (0 < k <= 2 ^ 53)%Z -> (-1074 <= e)%Z -> x == inject_Z k * pow2 e -> fl64_pos x == x.
Proof.
  intros [Hk Hk53] He Ex.
  assert (Hkq : 0 < inject_Z k) by (change 0 with (inject_Z 0); by rewrite <- Zlt_Qlt).
  assert (Hx : 0 < x) by (rewrite Ex; pose proof (pow2_pos e); nra).
  assert (Hin : exists z, x * pow2 (- ulp_expo x) == inject_Z z).
  { remember (ulp_expo x) as u eqn:Hu0. destruct (Z.le_gt_cases u e) as [Hu|Hu].
    - exists (k * 2 ^ (e - u))%Z.
      rewrite Ex, inject_Z_mult, <- (pow2_Z (e - u)), <- Qmult_assoc, <- pow2_plus by lia.
      by replace (e + - u)%Z with (e - u)%Z by lia.
    - assert (Eu : u = (expo x - 52)%Z) by (unfold ulp_expo in *; lia).
      destruct (expo_spec x Hx) as [H1 _]. set (ex := expo x) in *. clearbody ex.
      assert (H2 : pow2 (53 + e) <= pow2 ex) by (apply pow2_mono; lia).
      assert (H3 : x <= pow2 (53 + e)).
      { rewrite Ex, pow2_plus, (pow2_Z 53) by lia. apply Qmult_le_compat_r; [|apply Qlt_le_weak, pow2_pos].
        by rewrite <- Zle_Qle. }
      assert (Ex2 : x == pow2 (53 + e)) by lra.
      assert (H : ex = (53 + e)%Z).
      { destruct (Z.le_gt_cases ex (53 + e)) as [|Hgt]; [lia|].
        assert (H4 : pow2 (53 + e + 1) <= pow2 ex) by (apply pow2_mono; lia).
        rewrite (pow2_plus (53 + e) 1) in H4. change (pow2 1) with (2 # 1) in H4.
        pose proof (pow2_pos (53 + e)). lra. }
      exists (2 ^ 52)%Z. rewrite Ex2, <- pow2_plus, Eu, H, <- (pow2_Z 52) by lia.
      by replace (53 + e + - (53 + e - 52))%Z with 52%Z by lia. }
  destruct Hin as [z Hz]. rewrite fl64_pos_eq, (round_even_Z _ z Hz), <- Hz.
  rewrite <- Qmult_assoc, (Qmult_comm (pow2 (- _))), pow2_inv. apply Qmult_1_r.
Qed.

Lemma fl64_pos_idem x : 0 < x -> fl64 (fl64_pos x) == fl64_pos x.
Proof.
  intros Hx. pose proof (fl64_pos_nonneg x Hx) as Hn.
  unfold fl64. destruct (Qeqb (fl64_pos x) 0) eqn:E; q_norm; [by rewrite E|].
  destruct (Qltb 0 (fl64_pos x)) eqn:P; q_norm.
  - eapply fl64_pos_grid; [|apply Z.le_max_r|apply fl64_pos_eq]. split.
    + rewrite fl64_pos_eq in P. rewrite Zlt_Qlt. change (inject_Z 0) with 0.
      pose proof (pow2_pos (ulp_expo x)) as Hp. apply Qnot_le_lt. intros Hle. nra.
    + pose proof (fl64_pos_upper x Hx) as Hu. rewrite fl64_pos_eq, Z.add_comm, pow2_plus in Hu.
      rewrite Zle_Qle, <- (pow2_Z 53) by lia. by apply Qmult_lt_0_le_reg_r in Hu; [|apply pow2_pos].
  - apply not_true_iff_false in E. rewrite Qeqb_eq in E. destruct E. lra.
Qed.

Lemma fl64_opp x : fl64 (- x) == - fl64 x.
Proof.
  unfold fl64. destruct (Qeqb x 0) eqn:E.
  - q_norm. assert (E' : Qeqb (- x) 0 = true) by (apply Qeqb_eq; lra). rewrite E'. lra.
  - apply not_true_iff_false in E. rewrite Qeqb_eq in E.
    assert (E' : Qeqb (- x) 0 = false) by (apply not_true_iff_false; rewrite Qeqb_eq; intros H; apply E; lra).
    rewrite E'. destruct (Qltb 0 x) eqn:P, (Qltb 0 (- x)) eqn:P'; q_norm; try lra.
    assert (H : fl64_pos (- - x) == fl64_pos x); [|lra].
    apply Qle_antisym; apply fl64_pos_mono; lra.
Qed.

Lemma fl64_idem x : fl64 (fl64 x) == fl64 x.
Proof.
  assert (Hp : forall a b, a == b -> fl64 a == fl64 b).
  { intros a b Eab. apply Qle_antisym; apply fl64_mono; lra. }
  destruct (Qlt_le_dec 0 x) as [P|P].
  - assert (E : fl64 x = fl64_pos x).
    { unfold fl64. replace (Qeqb x 0) with false; [replace (Qltb 0 x) with true; [done|]|].
      - symmetry. by apply Qltb_lt.
      - symmetry. apply not_true_iff_false. rewrite Qeqb_eq. lra. }
    rewrite E. by apply fl64_pos_idem.
  - destruct (Qeqb x 0) eqn:E0; [q_norm; by rewrite (Hp _ _ (Hp _ _ E0)), (Hp _ _ E0)|].
    apply not_true_iff_false in E0. rewrite Qeqb_eq in E0.
    assert (Hneg : 0 < - x) by lra.
    assert (E : fl64 x = - fl64_pos (- x)).
    { unfold fl64. replace (Qeqb x 0) with false; [replace (Qltb 0 x) with false; [done|]|].
      - symmetry. apply Qltb_ge. lra.
      - symmetry. apply not_true_iff_false. by rewrite Qeqb_eq. }
    rewrite E, fl64_opp. by rewrite fl64_pos_idem.
Qed.

#[export] Instance binary64 : Rounding := {|
  fl := fl64;
  fl_mono := fl64_mono;
  fl_exact := fl64_exact;
  fl_idem := fl64_idem;
|}.

Example fl64_tenth : fl64 (1 # 10) = 3602879701896397 # 36028797018963968.
Proof. vm_compute. reflexivity. Qed.
