(* ===== verification/JsValue.v ===== *)
(** * JavaScript values

    Dynamic values as the portal receives them from [Response.json()] and
    [localStorage]: the value type, truthiness, property access (which throws on
    [undefined] and [null]), [Number], [parseFloat], [parseInt], [String],
    [toFixed] and the relational operators on numbers. *)
From Stdlib Require Import Lia ZArith QArith Qround Qpower Qreduction.
From stdpp Require Import base numbers list gmap strings.
From S2P Require Import Prelude JsString JsNumber.

(** ** Numbers *)

Inductive num : Type :=
| Fin (q : Q)
| PInf
| NInf
| NaN.

(** The sign of zero is not represented: the portal never divides by zero and
    never uses [Object.is]. *)
Definition of_exact (q : Q) : num :=
  let r := fl64 q in
  if Qleb (pow2 1024) r then PInf else if Qleb r (- pow2 1024) then NInf else Fin r.

Definition num_Z (z : Z) : num := Fin (inject_Z z).

Definition is_finite (n : num) : bool := match n with Fin _ => true | _ => false end.
Definition is_nan (n : num) : bool := match n with NaN => true | _ => false end.

(** [a < b], [a <= b] on numbers: false when an operand is [NaN]. *)
Definition num_lt (a b : num) : bool :=
  match a, b with
  | NaN, _ | _, NaN => false
  | Fin x, Fin y => Qltb x y
  | NInf, NInf => false
  | NInf, _ => true
  | _, NInf => false
  | PInf, _ => false
  | Fin _, PInf => true
  end.

Definition num_le (a b : num) : bool :=
  match a, b with
  | NaN, _ | _, NaN => false
  | Fin x, Fin y => Qleb x y
  | NInf, _ => true
  | _, NInf => false
  | _, PInf => true
  | PInf, Fin _ => false
  end.

Definition num_truthy (n : num) : bool :=
  match n with Fin q => negb (Qeqb q 0) | NaN => false | _ => true end.

Definition num_add (a b : num) : num :=
  match a, b with
  | Fin x, Fin y => of_exact (x + y)
  | NaN, _ | _, NaN => NaN
  | PInf, NInf | NInf, PInf => NaN
  | PInf, _ | _, PInf => PInf
  | NInf, _ | _, NInf => NInf
  end.

(** Multiplication by a positive constant. *)
Definition num_scale (k : Q) (a : num) : num :=
  match a with Fin x => of_exact (k * x) | _ => a end.

(** [Math.floor], [Math.ceil] and [Math.max] *)
Definition num_floor (a : num) : num := match a with Fin x => num_Z (Qfloor x) | _ => a end.
Definition num_ceil (a : num) : num := match a with Fin x => num_Z (Qceiling x) | _ => a end.
Definition num_max (a b : num) : num :=
  match a, b with
  | NaN, _ | _, NaN => NaN
  | _, _ => if num_lt a b then b else a
  end.

(** [a - b], [a / k] and [a % k] for a positive constant [k] and non-negative [a]. *)
Definition num_sub (a b : num) : num :=
  match b with
  | Fin y => num_add a (Fin (- y))
  | PInf => num_add a NInf
  | NInf => num_add a PInf
  | NaN => NaN
  end.
Definition num_div (a : num) (k : Q) : num := num_scale (/ k) a.
Definition num_mod (a : num) (k : Z) : num :=
  match a with
  | Fin x => of_exact (x - inject_Z (k * Qfloor (x / inject_Z k)))
  | _ => NaN
  end.

(** ** Numerals *)

Definition scan_sign (s : jsstring) : bool * jsstring :=
  match s with
  | c :: r => if (c =? 43)%N then (false, r) else if (c =? 45)%N then (true, r) else (false, s)
  | [] => (false, [])
  end.

Definition pow10 (e : Z) : Q := (10 # 1) ^ e.

(** An unsigned decimal literal at the head of the string. *)
Definition scan_decimal (s : jsstring) : option (Q * jsstring) :=
  let ip := take_digits s in
  let s1 := drop (length ip) s in
  let '(fp, s2) :=
    match s1 with
    | c :: r => if (c =? 46)%N then (take_digits r, drop (length (take_digits r)) r) else ([], s1)
    | [] => ([], [])
    end in
  match ip ++ fp with
  | [] => None
  | ds =>
      let m := (inject_Z (Z.of_N (digits_value 0 ds)) * pow10 (- Z.of_nat (length fp)))%Q in
      let '(e, s3) :=
        match s2 with
        | c :: r =>
            if (c =? 101)%N || (c =? 69)%N then
              let '(neg, r') := scan_sign r in
              match take_digits r' with
              | [] => (0%Z, s2)
              | ed => let v := Z.of_N (digits_value 0 ed) in
                      ((if neg then - v else v)%Z, drop (length ed) r')
              end
            else (0%Z, s2)
        | [] => (0%Z, [])
        end in
      Some ((m * pow10 e)%Q, s3)
  end.

Definition scan_number (s : jsstring) : option (num * jsstring) :=
  let '(neg, r) := scan_sign s in
  if starts_with (js "Infinity") r then
    Some (if neg then NInf else PInf, drop 8 r)
  else match scan_decimal r with
       | Some (q, rest) => Some (of_exact (if neg then - q else q)%Q, rest)
       | None => None
       end.

(** [parseFloat(s)] *)
Definition parseFloat (s : jsstring) : num :=
  match scan_number (trim_start s) with Some (n, _) => n | None => NaN end.

(** [parseInt(s, 10)] *)
Definition parseInt10 (s : jsstring) : num :=
  let '(neg, r) := scan_sign (trim_start s) in
  match take_digits r with
  | [] => NaN
  | ds => let v := inject_Z (Z.of_N (digits_value 0 ds)) in of_exact (if neg then - v else v)%Q
  end.

(** [Number(s)] of a string (decimal literals; the portal's payloads carry no
    binary, octal or hexadecimal literals, which are read as [NaN]). *)
Definition Number_of_string (s : jsstring) : num :=
  match trim s with
  | [] => num_Z 0
  | t => match scan_number t with Some (n, []) => n | _ => NaN end
  end.

(** [n.toFixed(d)] of a non-negative finite number below [10^21]: the decimal
    with [d] fraction digits nearest to [n], the larger one on a tie. *)
Definition pad_left (n : nat) (s : jsstring) : jsstring := replicate (n - length s) 48%N ++ s.

Definition toFixed_pos (d : nat) (q : Q) : jsstring :=
  let n := Qfloor (q * pow10 (Z.of_nat d) + (1 # 2))%Q in
  let ds := pad_left (S d) (show_Z n) in
  let k := (length ds - d)%nat in
  match d with
  | O => ds
  | _ => take k ds ++ [46%N] ++ drop k ds
  end.

Definition toFixed (d : nat) (q : Q) : jsstring :=
  if Qltb q 0 then 45%N :: toFixed_pos d (- q) else toFixed_pos d q.

(** ** Values *)

Inductive jsval : Type :=
| VUndef
| VNull
| VBool (b : bool)
| VNum (n : num)
| VStr (s : jsstring)
| VArr (l : list jsval)
| VObj (fields : list (jsstring * jsval)).

Definition vtruthy (v : jsval) : bool :=
  match v with
  | VUndef | VNull => false
  | VBool b => b
  | VNum n => num_truthy n
  | VStr s => truthy s
  | VArr _ | VObj _ => true
  end.

(** [a || b] on values *)
Definition vor (a b : jsval) : jsval := if vtruthy a then a else b.

Definition is_undef (v : jsval) : bool := match v with VUndef => true | _ => false end.
Definition is_object (v : jsval) : bool :=
  match v with VNull | VArr _ | VObj _ => true | _ => false end.
Definition is_string (v : jsval) : bool := match v with VStr _ => true | _ => false end.

Fixpoint assoc (k : jsstring) (l : list (jsstring * jsval)) : option jsval :=
  match l with
  | [] => None
  | (k', v) :: r => if seqb k k' then Some v else assoc k r
  end.

(** Own data properties; the portal reads no inherited property through a
    computed name. *)
Definition prop (v : jsval) (k : jsstring) : jsval :=
  match v with
  | VObj l => default VUndef (assoc k l)
  | VArr l => if seqb k (js "length") then VNum (num_Z (Z.of_nat (length l))) else VUndef
  | VStr s => if seqb k (js "length") then VNum (num_Z (Z.of_nat (length s))) else VUndef
  | _ => VUndef
  end.

(** [v.k]: a [TypeError] on [undefined] and [null]. *)
Definition get (v : jsval) (k : jsstring) : outcome jsstring jsval :=
  match v with
  | VUndef | VNull => Throw (js "Cannot read properties of null or undefined")
  | _ => Ret (prop v k)
  end.

(** [v?.k] and [v?.[i]] *)
Definition get_opt (v : jsval) (k : jsstring) : jsval :=
  match v with VUndef | VNull => VUndef | _ => prop v k end.

Definition index_opt (v : jsval) (i : nat) : jsval :=
  match v with
  | VArr l => default VUndef (l !! i)
  | VObj l => default VUndef (assoc (show_N (N.of_nat i)) l)
  | VStr s => match s !! i with Some c => VStr [c] | None => VUndef end
  | _ => VUndef
  end.

(** Strict equality ([===]) of primitive values; arrays and objects are compared by identity,
    which distinct values of a payload never share. *)
Definition strict_eq (a b : jsval) : bool :=
  match a, b with
  | VStr x, VStr y => seqb x y
  | VNum (Fin x), VNum (Fin y) => Qeqb x y
  | VNum PInf, VNum PInf | VNum NInf, VNum NInf => true
  | VNull, VNull | VUndef, VUndef => true
  | VBool x, VBool y => Bool.eqb x y
  | _, _ => false
  end.

(** [Array.isArray(v) ? v : []] *)
Definition array_or_nil (v : jsval) : list jsval := match v with VArr l => l | _ => [] end.

(** [String(v)]: integers below [10^21] print as decimal numerals; other numbers
    print through [show_frac], the language's shortest decimal form. *)
Section ToString.
Context (show_frac : Q -> jsstring).

Definition show_num (n : num) : jsstring :=
  match n with
  | Fin q =>
      if Qeqb q (inject_Z (Qfloor q)) && (Z.abs (Qfloor q) <? 10 ^ 21)%Z
      then show_Z (Qfloor q) else show_frac q
  | PInf => js "Infinity"
  | NInf => js "-Infinity"
  | NaN => js "NaN"
  end.

Fixpoint to_str (v : jsval) : jsstring :=
  match v with
  | VUndef => js "undefined"
  | VNull => js "null"
  | VBool true => js "true"
  | VBool false => js "false"
  | VNum n => show_num n
  | VStr s => s
  | VArr l => join (js ",") (map (fun x => match x with VUndef | VNull => [] | _ => to_str x end) l)
  | VObj _ => js "[object Object]"
  end.

End ToString.

(** [Number(v)] *)
Definition Number (v : jsval) : num :=
  match v with
  | VUndef => NaN
  | VNull => num_Z 0
  | VBool b => num_Z (if b then 1 else 0)
  | VNum n => n
  | VStr s => Number_of_string s
  | VArr [] => num_Z 0
  | VArr [VNum n] => n
  | VArr [VStr s] => Number_of_string s
  | VArr _ | VObj _ => NaN
  end.

(** ** [localStorage] *)

(** The store of the page's origin; [None] when every access to it throws (storage
    disabled by the browser). *)
Definition storage : Type := option (gmap jsstring jsstring).

Definition getItem (k : jsstring) (st : storage) : outcome jsstring (option jsstring) :=
  match st with Some m => Ret (m !! k) | None => Throw (js "SecurityError") end.

Definition setItem (k v : jsstring) (st : storage) : outcome jsstring storage :=
  match st with Some m => Ret (Some (<[k := v]> m)) | None => Throw (js "SecurityError") end.

(** [localStorage.getItem(k) || '']: [null] and the empty string are both falsy. *)
Definition item_or_empty (k : jsstring) (m : gmap jsstring jsstring) : jsstring := default [] (m !! k).

(** The first truthy value of a chain of [getItem]s joined by [||]. *)
Fixpoint first_item (ks : list jsstring) (m : gmap jsstring jsstring) : jsstring :=
  match ks with
  | [] => []
  | k :: r => let v := item_or_empty k m in if truthy v then v else first_item r m
  end.

Lemma first_item_In ks m :
  first_item ks m <> [] -> exists k, k ∈ ks /\ m !! k = Some (first_item ks m).
Proof.
  induction ks as [|k ks IH]; simpl; [done|]. unfold item_or_empty.
  destruct (m !! k) as [v|] eqn:E; simpl.
  - destruct (truthy v) eqn:Et; [|intros H; destruct (IH H) as (k' & ? & ?); exists k'; set_solver].
    intros _. exists k. set_solver.
  - intros H. destruct (IH H) as (k' & ? & ?). exists k'. set_solver.
Qed.

(** ** Facts *)

Lemma num_lt_finite a b : num_lt (Fin a) (Fin b) = true <-> (a < b)%Q.
Proof. apply Qltb_lt. Qed.

Lemma vor_l a b : vtruthy a = true -> vor a b = a.
Proof. intros H. unfold vor. by rewrite H. Qed.

Lemma assoc_cons_eq k v l : assoc k ((k, v) :: l) = Some v.
Proof. simpl. by rewrite seqb_refl. Qed.

Lemma assoc_cons_ne k k' v l : k <> k' -> assoc k ((k', v) :: l) = assoc k l.
Proof. intros H. simpl. by apply seqb_neq in H as ->. Qed.

Example parseFloat_25 : parseFloat (js " 25.50abc") = Fin (51 # 2).
Proof. vm_compute. reflexivity. Qed.

Example parseInt10_neg : parseInt10 (js "-12px") = Fin (-12).
Proof. vm_compute. reflexivity. Qed.

Example toFixed_example : toFixed 1 (163 # 10) = js "16.3" /\ toFixed 2 (1 # 2) = js "0.50".
Proof. vm_compute. done. Qed.

Example Number_bad : Number (VStr (js "12x")) = NaN /\ Number (VStr (js " 1e3 ")) = Fin 1000.
Proof. vm_compute. done. Qed.

#[export] Hint Rewrite seqb_refl : portal.

Lemma toFixed_plain d q c : c ∈ toFixed d q -> (c = 45 \/ c = 46 \/ 48 <= c <= 57)%N.
Proof.
  assert (P : forall q, c ∈ toFixed_pos d q -> (c = 45 \/ c = 46 \/ 48 <= c <= 57)%N).
  { intros q' H. unfold toFixed_pos in H. cbv zeta in H. set (ds := pad_left _ _) in H.
    assert (D : c ∈ ds -> (c = 45 \/ c = 46 \/ 48 <= c <= 57)%N).
    { subst ds. unfold pad_left. rewrite elem_of_app. intros [Hc|Hc].
      - apply elem_of_replicate in Hc as [-> _]. lia.
      - apply show_Z_plain in Hc. lia. }
    destruct d as [|d']; [by apply D|]. rewrite !elem_of_app in H. destruct H as [H|[H|H]].
    - apply D. rewrite <- (take_drop (length ds - S d') ds). apply elem_of_app. by left.
    - apply list_elem_of_singleton in H. auto.
    - apply D. rewrite <- (take_drop (length ds - S d') ds). apply elem_of_app. by right. }
  unfold toFixed. destruct (Qltb q 0); [|apply P]. rewrite elem_of_cons. intros [->|H]; [auto|by eapply P].
Qed.
