(* ===== verification/JsJson.v ===== *)
(** * [JSON.parse]

    The JSON grammar of ECMA-404 over UTF-16 text, as [JSON.parse] reads it: a
    recursive-descent parser whose fuel is a linear bound on the length of the
    text ([json_fuel_enough]: more fuel changes nothing). *)
From Stdlib Require Import Lia ZArith QArith.
From stdpp Require Import base numbers list strings.
From S2P Require Import Prelude JsString JsNumber JsValue.

Open Scope N_scope.

Definition json_ws (c : N) : bool := (c =? 32) || (c =? 9) || (c =? 10) || (c =? 13).

Fixpoint skip_ws (s : jsstring) : jsstring :=
  match s with
  | c :: r => if json_ws c then skip_ws r else s
  | [] => []
  end.

Definition hex_digit (c : N) : option N :=
  if digit c then Some (c - 48)
  else if (97 <=? c) && (c <=? 102) then Some (c - 87)
  else if (65 <=? c) && (c <=? 70) then Some (c - 55)
  else None.

Definition hex4 (a b c d : N) : option N :=
  match hex_digit a, hex_digit b, hex_digit c, hex_digit d with
  | Some a, Some b, Some c, Some d => Some (a * 4096 + b * 256 + c * 16 + d)
  | _, _, _, _ => None
  end.

(** The character after a back-slash, [u] apart. *)
Definition unescape (c : N) : option N :=
  if (c =? 34) || (c =? 92) || (c =? 47) then Some c
  else if c =? 98 then Some 8
  else if c =? 102 then Some 12
  else if c =? 110 then Some 10
  else if c =? 114 then Some 13
  else if c =? 116 then Some 9
  else None.

(** The text after the opening quotation mark. *)
Fixpoint json_string (s : jsstring) : option (jsstring * jsstring) :=
  match s with
  | [] => None
  | c :: r =>
      if c =? 34 then Some ([], r)
      else if c <? 32 then None
      else if c =? 92 then
        match r with
        | u :: r1 =>
            if u =? 117 then
              match r1 with
              | a :: b :: c1 :: d :: r2 =>
                  match hex4 a b c1 d, json_string r2 with
                  | Some x, Some (t, rest) => Some (x :: t, rest)
                  | _, _ => None
                  end
              | _ => None
              end
            else match unescape u, json_string r1 with
                 | Some x, Some (t, rest) => Some (x :: t, rest)
                 | _, _ => None
                 end
        | [] => None
        end
      else match json_string r with Some (t, rest) => Some (c :: t, rest) | None => None end
  end.

(** The number grammar: no leading zero, digits on both sides of the point. *)
Definition json_number (s : jsstring) : option (jsval * jsstring) :=
  let '(neg, r) := match s with c :: r => if c =? 45 then (true, r) else (false, s) | [] => (false, []) end in
  let ip := take_digits r in
  let r1 := drop (length ip) r in
  let point_ok := match r1 with
                  | p :: r2 => negb (p =? 46) || truthy (take_digits r2)
                  | [] => true
                  end in
  let zero_ok := match ip with z :: _ :: _ => negb (z =? 48) | [] => false | _ => true end in
  if zero_ok && point_ok then
    match scan_decimal r with
    | Some (q, rest) =>
        match rest with
        | e :: _ => if (e =? 101) || (e =? 69) then None
                    else Some (VNum (of_exact (if neg then - q else q)%Q), rest)
        | [] => Some (VNum (of_exact (if neg then - q else q)%Q), [])
        end
    | None => None
    end
  else None.

Definition literal (word : jsstring) (v : jsval) (s : jsstring) : option (jsval * jsstring) :=
  if starts_with word s then Some (v, drop (length word) s) else None.

(** A member of an object; a repeated name keeps its place and takes the new value. *)
Fixpoint set_member (k : jsstring) (v : jsval) (l : list (jsstring * jsval)) : list (jsstring * jsval) :=
  match l with
  | [] => [(k, v)]
  | (k', v') :: r => if seqb k k' then (k, v) :: r else (k', v') :: set_member k v r
  end.

Fixpoint json_value (f : nat) (s : jsstring) {struct f} : option (jsval * jsstring) :=
  match f with
  | O => None
  | S f =>
      match skip_ws s with
      | [] => None
      | c :: r =>
          if c =? 34 then match json_string r with Some (t, r1) => Some (VStr t, r1) | None => None end
          else if c =? 91 then
            match skip_ws r with
            | d :: r1 => if d =? 93 then Some (VArr [], r1) else json_elems f r []
            | [] => None
            end
          else if c =? 123 then
            match skip_ws r with
            | d :: r1 => if d =? 125 then Some (VObj [], r1) else json_members f r []
            | [] => None
            end
          else if c =? 116 then literal (js "true") (VBool true) (c :: r)
          else if c =? 102 then literal (js "false") (VBool false) (c :: r)
          else if c =? 110 then literal (js "null") VNull (c :: r)
          else json_number (c :: r)
      end
  end
with json_elems (f : nat) (s : jsstring) (acc : list jsval) {struct f} : option (jsval * jsstring) :=
  match f with
  | O => None
  | S f =>
      match json_value f s with
      | Some (v, r) =>
          match skip_ws r with
          | d :: r1 =>
              if d =? 44 then json_elems f r1 (acc ++ [v])
              else if d =? 93 then Some (VArr (acc ++ [v]), r1)
              else None
          | [] => None
          end
      | None => None
      end
  end
with json_members (f : nat) (s : jsstring) (acc : list (jsstring * jsval)) {struct f} : option (jsval * jsstring) :=
  match f with
  | O => None
  | S f =>
      match skip_ws s with
      | q :: r =>
          if q =? 34 then
            match json_string r with
            | Some (k, r1) =>
                match skip_ws r1 with
                | d :: r2 =>
                    if d =? 58 then
                      match json_value f r2 with
                      | Some (v, r3) =>
                          match skip_ws r3 with
                          | e :: r4 =>
                              if e =? 44 then json_members f r4 (set_member k v acc)
                              else if e =? 125 then Some (VObj (set_member k v acc), r4)
                              else None
                          | [] => None
                          end
                      | None => None
                      end
                    else None
                | [] => None
                end
            | None => None
            end
          else None
      | [] => None
      end
  end.

(** [JSON.parse(s)] *)
Definition JSON_parse (s : jsstring) : outcome jsstring jsval :=
  match json_value (2 * length s + 2) s with
  | Some (v, r) => match skip_ws r with [] => Ret v | _ => Throw (js "Unexpected non-whitespace character after JSON") end
  | None => Throw (js "Unexpected token in JSON")
  end.

Example JSON_parse_example :
  JSON_parse (jsq " {`a`: [1, -2.5e1, true], `b` : {`c`:`x\u00e9\n`}, `a`: null} ")
  = Ret (VObj [(js "a", VNull); (js "b", VObj [(js "c", VStr (js "xé" ++ [10]))])]).
Proof. vm_compute. reflexivity. Qed.

Example JSON_parse_errors :
  forallb (fun t => match JSON_parse (jsq t) with Throw _ => true | Ret _ => false end)
    [""; "{"; "[1,]"; "{`a`:1,}"; "01"; "1."; "tru"; "`a"; "1 2"; "{a:1}"; "1e"; "NaN"; "'a'"]%string = true.
Proof. vm_compute. reflexivity. Qed.

(** ** The fuel is enough *)

Lemma skip_ws_length s : (length (skip_ws s) <= length s)%nat.
Proof. induction s as [|c s IH]; simpl; [lia|]. destruct (json_ws c); simpl; lia. Qed.

Lemma json_string_length s t r : json_string s = Some (t, r) -> (length r < length s)%nat.
Proof.
  revert t r. induction s as [s IH] using (induction_ltof1 _ (@length N)). unfold ltof in IH.
  intros t r. destruct s as [|c s]; [done|]. cbn [json_string length].
  destruct (c =? 34); [intros; simplify_eq; lia|]. destruct (c <? 32); [done|].
  destruct (c =? 92).
  - destruct s as [|u s]; [done|]. destruct (u =? 117).
    + destruct s as [|a [|b [|c1 [|d s]]]]; try done. destruct (hex4 a b c1 d); [|done].
      destruct (json_string s) as [[t' r']|] eqn:E; [|done]. intros; simplify_eq.
      apply IH in E; simpl in *; lia.
    + destruct (unescape u); [|done]. destruct (json_string s) as [[t' r']|] eqn:E; [|done].
      intros; simplify_eq. apply IH in E; simpl in *; lia.
  - destruct (json_string s) as [[t' r']|] eqn:E; [|done]. intros; simplify_eq.
    apply IH in E; simpl in *; lia.
Qed.

Lemma scan_decimal_length s q r :
  scan_decimal s = Some (q, r) -> take_digits s <> [] -> (length r < length s)%nat.
Proof.
  unfold scan_decimal. intros E Hd. destruct (take_digits s) as [|x xs] eqn:Ed; [done|].
  destruct s as [|c s]; [done|].
  assert (Hs1 : (length (drop (length (x :: xs)) (c :: s)) <= length s)%nat)
    by (rewrite length_drop; simpl; lia).
  set (s1 := drop (length (x :: xs)) (c :: s)) in *.
  match type of E with context [let '(_, _) := ?m in _] => destruct m as [fp s2] eqn:E2 end.
  assert (Hs2 : (length s2 <= length s1)%nat).
  { destruct s1 as [|p s1']; [by simplify_eq|]. destruct (p =? 46); simplify_eq; [|lia].
    rewrite length_drop. simpl. lia. }
  simpl in E.
  match type of E with context [let '(_, _) := ?m in _] => destruct m as [e s3] eqn:E3 end.
  simplify_eq. enough (length r <= length s2)%nat by (simpl; lia).
  destruct s2 as [|g s2]; [by simplify_eq|].
  destruct ((g =? 101) || (g =? 69)); [|by simplify_eq].
  destruct (scan_sign s2) as [ng s4] eqn:E4.
  assert (length s4 <= length s2)%nat.
  { unfold scan_sign in E4. destruct s2 as [|h s2]; [by simplify_eq|].
    destruct (h =? 43); [simplify_eq; simpl; lia|]. destruct (h =? 45); simplify_eq; simpl; lia. }
  destruct (take_digits s4) as [|y ys]; simplify_eq; [done|].
  change (length (drop (length (y :: ys)) s4) <= length (g :: s2))%nat. rewrite length_drop. simpl. lia.
Qed.

Lemma json_number_length s v r : json_number s = Some (v, r) -> (length r < length s)%nat.
Proof.
  unfold json_number.
  match goal with |- context [let '(_, _) := ?m in _] => destruct m as [neg t] eqn:Et end.
  assert (length t <= length s)%nat.
  { destruct s as [|c s]; [by simplify_eq|]. destruct (c =? 45); simplify_eq; simpl; lia. }
  destruct (take_digits t) as [|x xs] eqn:Ed; [done|].
  destruct (_ && _); [|done]. destruct (scan_decimal t) as [[q rest]|] eqn:E; [|done].
  apply scan_decimal_length in E; [|by rewrite Ed].
  intros E2. enough (r = rest) by (subst; lia).
  destruct rest as [|e rest]; [by simplify_eq|]. by destruct ((e =? 101) || (e =? 69)); simplify_eq.
Qed.

Lemma literal_length w v s x r : w <> [] -> literal w v s = Some (x, r) -> (length r < length s)%nat.
Proof.
  unfold literal. intros Hw. destruct (starts_with w s) eqn:E; [|done].
  apply starts_with_drop in E. intros; simplify_eq. rewrite E at 2. rewrite length_app.
  destruct w; simpl in *; [done|lia].
Qed.

(** Length facts of the sub-parsers that apply to the hypotheses at hand. *)
Ltac json_lengths :=
  repeat match goal with
  | H : json_string _ = Some _ |- _ => apply json_string_length in H
  | H : json_number _ = Some _ |- _ => apply json_number_length in H
  | H : literal _ _ _ = Some _ |- _ => apply literal_length in H; [|by vm_compute]
  | H : skip_ws ?s = _ :: _ |- _ =>
      let L := fresh "L" in pose proof (skip_ws_length s) as L; rewrite H in L; clear H
  end; simpl in *.

Lemma json_lengths_ok f :
  (forall s v r, json_value f s = Some (v, r) -> (length r < length s)%nat) /\
  (forall s acc v r, json_elems f s acc = Some (v, r) -> (length r < length s)%nat) /\
  (forall s acc v r, json_members f s acc = Some (v, r) -> (length r < length s)%nat).
Proof.
  induction f as [|f (IHv & IHe & IHm)]; [done|]. split_and!.
  - intros s v r E. cbn [json_value] in E. repeat split_match; simplify_eq;
      repeat match goal with
      | H : json_elems _ _ _ = _ |- _ => apply IHe in H
      | H : json_members _ _ _ = _ |- _ => apply IHm in H
      end; json_lengths; lia.
  - intros s acc v r E. cbn [json_elems] in E. repeat split_match; simplify_eq;
      repeat match goal with
      | H : json_elems _ _ _ = _ |- _ => apply IHe in H
      | H : json_value _ _ = _ |- _ => apply IHv in H
      end; json_lengths; lia.
  - intros s acc v r E. cbn [json_members] in E. repeat split_match; simplify_eq;
      repeat match goal with
      | H : json_members _ _ _ = _ |- _ => apply IHm in H
      | H : json_value _ _ = _ |- _ => apply IHv in H
      end; json_lengths; lia.
Qed.

Lemma json_more_fuel f : forall g, (f <= g)%nat ->
  (forall s, (2 * length s < f)%nat -> json_value g s = json_value f s) /\
  (forall s acc, (2 * length s + 1 < f)%nat -> json_elems g s acc = json_elems f s acc) /\
  (forall s acc, (2 * length s < f)%nat -> json_members g s acc = json_members f s acc).
Proof.
  induction f as [|f IH]; [by intros g Hg; split_and!; intros; lia|]. intros [|g] Hg; [lia|].
  destruct (IH g) as (IHv & IHe & IHm); [lia|]. split_and!.
  - intros s Hf. cbn [json_value]. destruct (skip_ws s) as [|c r] eqn:Es; [done|].
    json_lengths. rewrite !(IHe r), !(IHm r) by lia. done.
  - intros s acc Hf. cbn [json_elems]. rewrite IHv by lia.
    destruct (json_value f s) as [[v r]|] eqn:Ev; [|done]. apply json_lengths_ok in Ev.
    destruct (skip_ws r) as [|d r1] eqn:Er; [done|]. json_lengths. rewrite IHe by lia. done.
  - intros s acc Hf. cbn [json_members]. destruct (skip_ws s) as [|q r] eqn:Es; [done|].
    destruct (q =? 34); [|done]. destruct (json_string r) as [[k r1]|] eqn:Ek; [|done].
    destruct (skip_ws r1) as [|d r2] eqn:E1; [done|]. json_lengths.
    destruct (d =? 58); [|done]. rewrite IHv by lia.
    destruct (json_value f r2) as [[v r3]|] eqn:Ev; [|done]. apply json_lengths_ok in Ev.
    destruct (skip_ws r3) as [|e r4] eqn:E3; [done|]. json_lengths. rewrite IHm by lia. done.
Qed.

(** More fuel than [JSON_parse] gives never changes the result. *)
Lemma json_fuel_enough s f :
  (2 * length s + 2 <= f)%nat -> json_value f s = json_value (2 * length s + 2) s.
Proof. intros H. apply (json_more_fuel (2 * length s + 2)); lia. Qed.

(** ** [JSON.stringify] *)

Definition hex_char (d : N) : N := if d <? 10 then 48 + d else 87 + d.

Definition u_escape (c : N) : jsstring :=
  js "\u" ++ [hex_char (c / 4096); hex_char (c / 256 mod 16); hex_char (c / 16 mod 16); hex_char (c mod 16)].

Definition high_surrogate (c : N) : bool := (55296 <=? c) && (c <=? 56319).
Definition low_surrogate (c : N) : bool := (56320 <=? c) && (c <=? 57343).

Definition escape_unit (c : N) : jsstring :=
  if c =? 34 then js "\" ++ [34]
  else if c =? 92 then js "\\"
  else if c =? 8 then js "\b"
  else if c =? 12 then js "\f"
  else if c =? 10 then js "\n"
  else if c =? 13 then js "\r"
  else if c =? 9 then js "\t"
  else if c <? 32 then u_escape c
  else [c].

(** The text of a string literal without its quotation marks; unpaired surrogates
    are written as escapes. *)
Fixpoint quote_body (s : jsstring) : jsstring :=
  match s with
  | [] => []
  | c :: r =>
      if high_surrogate c then
        match r with
        | d :: r' => if low_surrogate d then c :: d :: quote_body r' else u_escape c ++ quote_body r
        | [] => u_escape c
        end
      else if low_surrogate c then u_escape c ++ quote_body r
      else escape_unit c ++ quote_body r
  end.

Definition quote (s : jsstring) : jsstring := [34] ++ quote_body s ++ [34].

Section Stringify.
Context (show_frac : Q -> jsstring).

(** [JSON.stringify(v)] of a value that is not [undefined]. *)
Fixpoint JSON_stringify (v : jsval) : jsstring :=
  match v with
  | VUndef | VNull => js "null"
  | VBool true => js "true"
  | VBool false => js "false"
  | VNum n => match n with Fin _ => show_num show_frac n | _ => js "null" end
  | VStr s => quote s
  | VArr l => js "[" ++ join (js ",") (map JSON_stringify l) ++ js "]"
  | VObj fs =>
      js "{" ++ join (js ",")
        ((fix go (fs : list (jsstring * jsval)) : list jsstring :=
            match fs with
            | [] => []
            | (k, v) :: r =>
                if is_undef v then go r else (quote k ++ js ":" ++ JSON_stringify v) :: go r
            end) fs) ++ js "}"
  end.

End Stringify.

(** *** Round trip of strings *)

Lemma hex_digit_char d : d < 16 -> hex_digit (hex_char d) = Some d.
Proof.
  intros H. assert (C : forallb (fun d => bool_decide (hex_digit (hex_char d) = Some d))
    (N.of_nat <$> seq 0 16) = true) by (vm_compute; reflexivity).
  rewrite forallb_forall in C. apply (bool_decide_unpack (hex_digit (hex_char d) = Some d)), Is_true_true_2.
  apply C, list_elem_of_In, list_elem_of_fmap.
  exists (N.to_nat d). rewrite N2Nat.id. split; [done|]. apply elem_of_seq. lia.
Qed.

Lemma hex4_u c : c < 65536 ->
  hex4 (hex_char (c / 4096)) (hex_char (c / 256 mod 16)) (hex_char (c / 16 mod 16)) (hex_char (c mod 16)) = Some c.
Proof.
  intros H. unfold hex4. rewrite !hex_digit_char; [|apply N.mod_lt; lia..|apply N.Div0.div_lt_upper_bound; lia].
  f_equal. pose proof (N.div_mod c 16 ltac:(lia)). pose proof (N.div_mod (c / 16) 16 ltac:(lia)).
  pose proof (N.div_mod (c / 256) 16 ltac:(lia)).
  assert (c / 256 = c / 16 / 16) by (rewrite N.Div0.div_div; f_equal; lia).
  assert (c / 4096 = c / 256 / 16) by (rewrite N.Div0.div_div; f_equal; lia). lia.
Qed.

Lemma json_string_u c t rest s : c < 65536 -> json_string s = Some (t, rest) ->
  json_string (u_escape c ++ s) = Some (c :: t, rest).
Proof.
  intros Hc E. unfold u_escape. change (js "\u") with [92; 117]. cbn [app json_string].
  change (92 =? 34) with false. change (92 <? 32) with false. change (92 =? 92) with true.
  change (117 =? 117) with true. cbv iota. by rewrite hex4_u, E.
Qed.

Lemma json_string_plain c t rest s : c <> 34 -> c <> 92 -> 32 <= c -> json_string s = Some (t, rest) ->
  json_string (c :: s) = Some (c :: t, rest).
Proof.
  intros H1 H2 H3 E. cbn [json_string]. apply N.eqb_neq in H1, H2. apply N.ltb_ge in H3.
  by rewrite H1, H2, H3, E.
Qed.

Lemma json_string_escape c t rest s : c < 65536 -> json_string s = Some (t, rest) ->
  json_string (escape_unit c ++ s) = Some (c :: t, rest).
Proof.
  intros Hc E. unfold escape_unit.
  repeat match goal with
  | |- context [if c =? ?k then _ else _] =>
      destruct (c =? k) eqn:?;
      [bool_norm; subst; unfold js; simpl; by rewrite E|]
  end.
  destruct (c <? 32) eqn:Hlt; [by apply json_string_u|]. bool_norm. apply N.ltb_ge in Hlt.
  by apply json_string_plain.
Qed.

(** [JSON.parse] reads back what [JSON.stringify] writes for a string. *)
Lemma json_string_quote s rest :
  Forall (fun c => c < 65536) s -> json_string (quote_body s ++ [34] ++ rest) = Some (s, rest).
Proof.
  induction s as [s IH] using (induction_ltof1 _ (@length N)). unfold ltof in IH. intros H.
  destruct s as [|c s]; [done|]. inv H. cbn [quote_body].
  assert (Hs : json_string (quote_body s ++ [34] ++ rest) = Some (s, rest)) by (apply IH; simpl; [lia|done]).
  assert (Hu : json_string (u_escape c ++ quote_body s ++ [34] ++ rest) = Some (c :: s, rest)) by (by apply json_string_u).
  destruct (high_surrogate c) eqn:Hh.
  - destruct s as [|d s]; [by rewrite <- Hu|]. destruct (low_surrogate d) eqn:Hd; [|by rewrite <- app_assoc].
    unfold high_surrogate, low_surrogate in *. bool_norm. inv H3.
    apply N.leb_le in H, H0, H1, H4. rewrite <- !app_comm_cons.
    apply json_string_plain; [lia..|]. apply json_string_plain; [lia..|]. apply IH; simpl; [lia|done].
  - destruct (low_surrogate c); [by rewrite <- app_assoc|]. rewrite <- app_assoc. by apply json_string_escape.
Qed.

(** ** Well-formed texts *)

(** Surrogates occur in pairs only. *)
Fixpoint well_formed (s : jsstring) : bool :=
  match s with
  | [] => true
  | c :: r =>
      match r with
      | d :: r' => if high_surrogate c then low_surrogate d && well_formed r' else negb (low_surrogate c) && well_formed r
      | [] => negb (high_surrogate c) && negb (low_surrogate c)
      end
  end.

(** A well-formed text is made of pairs and of other characters. *)
Lemma well_formed_ind (P : jsstring -> Prop) :
  P [] ->
  (forall c r, high_surrogate c = false -> low_surrogate c = false -> well_formed r = true -> P r -> P (c :: r)) ->
  (forall c d r, high_surrogate c = true -> low_surrogate d = true -> well_formed r = true -> P r -> P (c :: d :: r)) ->
  forall s, well_formed s = true -> P s.
Proof.
  intros P0 P1 P2 s. remember (length s) as n eqn:E. revert s E.
  induction n as [n IH] using lt_wf_ind. intros [|c [|d r]] ->; [done| |].
  - cbn. intros [H1%negb_true_iff H2%negb_true_iff]%andb_true_iff. by apply P1.
  - cbn [well_formed]. destruct (high_surrogate c) eqn:Ec.
    + intros [Hd Hr]%andb_true_iff. apply P2; [done..|]. apply (IH (length r)); [cbn; lia|done..].
    + intros [Hc%negb_true_iff Hr]%andb_true_iff. apply P1; [done..|]. apply (IH (length (d :: r))); [cbn; lia|done..].
Qed.
