(* ===== verification/JsonRoundTrip.v ===== *)
(** * [JSON.parse(JSON.stringify(v))]

    The round trip of JSON values: what [JSON.stringify] writes for a value made of
    strings, booleans, [null], integers of at most 53 bits, arrays and objects without
    repeated names is read back by [JSON.parse] as the same value. *)
From Stdlib Require Import Lia NArith ZArith QArith Qround Qreduction.
From stdpp Require Import base numbers list gmap strings pretty.
From S2P Require Import Prelude JsString JsNumber JsValue JsJson.

#[local] Open Scope N_scope.

(** ** Induction on values *)

Section Induction.
Context (P : jsval -> Prop)
  (Hundef : P VUndef) (Hnull : P VNull) (Hbool : forall b, P (VBool b)) (Hnum : forall n, P (VNum n))
  (Hstr : forall s, P (VStr s)) (Harr : forall l, Forall P l -> P (VArr l))
  (Hobj : forall fs, Forall (fun e => P e.2) fs -> P (VObj fs)).

Fixpoint jsval_nested_ind (v : jsval) : P v :=
  match v with
  | VUndef => Hundef
  | VNull => Hnull
  | VBool b => Hbool b
  | VNum n => Hnum n
  | VStr s => Hstr s
  | VArr l =>
      Harr l ((fix go l := match l return Forall P l with
                           | [] => Forall_nil_2 P
                           | x :: r => Forall_cons_2 P x r (jsval_nested_ind x) (go r)
                           end) l)
  | VObj fs =>
      Hobj fs ((fix go l := match l return Forall (fun e => P e.2) l with
                            | [] => Forall_nil_2 _
                            | (k, x) :: r => Forall_cons_2 (fun e => P e.2) (k, x) r (jsval_nested_ind x) (go r)
                            end) fs)
  end.

End Induction.

(** ** Decimal numerals *)

Definition units (s : string) : jsstring := Ascii.N_of_ascii <$> String.list_ascii_of_string s.

Lemma pretty_N_char_value x : x < 10 -> Ascii.N_of_ascii (pretty.pretty_N_char x) = 48 + x.
Proof.
  intros H. assert (C : forallb (fun d => Ascii.N_of_ascii (pretty.pretty_N_char d) =? 48 + d) (N.of_nat <$> seq 0 10) = true)
    by (vm_compute; reflexivity).
  rewrite forallb_forall in C. apply N.eqb_eq, C, list_elem_of_In, list_elem_of_fmap.
  exists (N.to_nat x). rewrite N2Nat.id. split; [done|]. apply elem_of_seq. lia.
Qed.

Lemma pretty_N_go_value x s : digits_value 0 (units (pretty.pretty_N_go x s)) = digits_value x (units s).
Proof.
  revert s. induction (N.lt_wf_0 x) as [x _ IH]; intros s.
  destruct (decide (x = 0)) as [->|Hx]; [by rewrite pretty.pretty_N_go_0|].
  rewrite pretty.pretty_N_go_step by lia. rewrite IH by (apply N.div_lt; lia).
  unfold units. cbn [String.list_ascii_of_string fmap list_fmap digits_value].
  rewrite pretty_N_char_value by (apply N.mod_lt; lia).
  replace (10 * (x / 10) + (48 + x mod 10 - 48)) with x; [done|].
  rewrite (N.add_comm 48), N.add_sub. pose proof (N.div_mod x 10 ltac:(lia)). lia.
Qed.

Lemma pretty_N_go_head x s : 0 < x -> exists c r, units (pretty.pretty_N_go x s) = c :: r /\ c <> 48.
Proof.
  revert s. induction (N.lt_wf_0 x) as [x _ IH]; intros s Hx.
  rewrite pretty.pretty_N_go_step by lia.
  destruct (decide (x / 10 = 0)) as [E|E].
  - rewrite E, pretty.pretty_N_go_0. unfold units. cbn [String.list_ascii_of_string fmap list_fmap].
    do 2 eexists. split; [reflexivity|]. rewrite pretty_N_char_value by (apply N.mod_lt; lia).
    intros H. assert (x mod 10 = 0) by (revert H; generalize (x mod 10); lia).
    pose proof (N.div_mod x 10 ltac:(lia)). lia.
  - apply IH; [apply N.div_lt; lia|]. by apply N.neq_0_lt_0.
Qed.

Lemma show_N_units n : show_N n = units (pretty.pretty n).
Proof.
  unfold show_N, js, units. apply utf8_units_ascii, Forall_fmap.
  assert (D : Forall digit_ascii (String.list_ascii_of_string (pretty.pretty n))).
  { unfold pretty.pretty, pretty.pretty_N. destruct (decide _); [by repeat constructor|].
    apply pretty_N_go_digits. constructor. }
  eapply Forall_impl; [exact D|]. intros a Ha. apply digit_range in Ha. simpl. lia.
Qed.

Lemma show_N_value n : digits_value 0 (show_N n) = n.
Proof.
  rewrite show_N_units. unfold pretty.pretty, pretty.pretty_N.
  destruct (decide _) as [->|]; [done|]. by rewrite pretty_N_go_value.
Qed.

Lemma show_N_head n : exists c r, show_N n = c :: r /\ (c = 48 -> r = []).
Proof.
  destruct (decide (n = 0)) as [->|Hn]; [by exists 48, []|].
  rewrite show_N_units. unfold pretty.pretty, pretty.pretty_N. rewrite decide_False by done.
  destruct (pretty_N_go_head n "") as (c & r & E & Hc); [lia|]. exists c, r. split; [done|]. by intros ->.
Qed.

Lemma take_digits_app ds r :
  Forall (fun c => digit c = true) ds -> (forall c, head r = Some c -> digit c = false) ->
  take_digits (ds ++ r) = ds.
Proof.
  intros H Hr. induction H as [|c ds Hc _ IH]; simpl; [|by rewrite Hc, IH].
  destruct r as [|c r]; [done|]. simpl. by rewrite (Hr c).
Qed.

(** ** Numbers *)

Lemma Qred_integer z : Qred (inject_Z z) = inject_Z z.
Proof.
  unfold Qred, inject_Z. pose proof (Z.ggcd_gcd z 1) as Hg. pose proof (Z.ggcd_correct_divisors z 1) as Hd.
  destruct (Z.ggcd z 1) as [g [a b]]. simpl in Hg. rewrite Z.gcd_1_r in Hg. subst g.
  destruct Hd as [Ha Hb]. rewrite !Z.mul_1_l in *. by subst.
Qed.

(** An integer of at most 53 bits is its own rounding, in canonical form. *)
Lemma fl64_integer q z : (q == inject_Z z)%Q -> (Z.abs z <= 2 ^ 53)%Z -> fl64 q = inject_Z z.
Proof.
  intros E Hz.
  assert (Pos : forall p w, (p == inject_Z w)%Q -> (0 < w <= 2 ^ 53)%Z -> fl64_pos p = inject_Z w).
  { intros p w Ep Hw. assert (G : (fl64_pos p == inject_Z w)%Q).
    { rewrite <- Ep. apply (fl64_pos_grid p w 0); [lia..|]. rewrite Ep. unfold pow2. simpl. ring. }
    rewrite fl64_pos_eq in G. unfold fl64_pos. apply Qred_complete in G. rewrite G.
    apply Qred_integer. }
  unfold fl64. destruct (Qeqb q 0) eqn:E0.
  { q_norm. rewrite E in E0. unfold Qeq in E0. simpl in E0. assert (z = 0%Z) as -> by lia. done. }
  assert (z <> 0%Z).
  { intros ->. apply not_true_iff_false in E0. apply E0, Qeqb_eq. by rewrite E. }
  destruct (Qltb 0 q) eqn:P; q_norm; rewrite E in P; unfold Qlt, Qle in P; simpl in P.
  - apply Pos; [done|lia].
  - rewrite (Pos (- q)%Q (- z)%Z); [|by rewrite E, inject_Z_opp|lia]. unfold Qopp, inject_Z. simpl. by rewrite Z.opp_involutive.
Qed.

Lemma of_exact_integer q z : (q == inject_Z z)%Q -> (Z.abs z <= 2 ^ 53)%Z -> of_exact q = num_Z z.
Proof.
  intros E Hz. unfold of_exact. rewrite (fl64_integer q z) by done. cbv zeta.
  assert (B : (inject_Z z < pow2 1024 /\ - pow2 1024 < inject_Z z)%Q).
  { rewrite (pow2_Z 1024) by lia. rewrite <- inject_Z_opp, <- !Zlt_Qlt.
    assert (2 ^ 53 < 2 ^ 1024)%Z by (apply Z.pow_lt_mono_r; lia). lia. }
  destruct B as [B1 B2]. apply Qleb_gt in B1. rewrite B1. apply Qleb_gt in B2. by rewrite B2.
Qed.

Lemma show_num_integer show_frac z : (Z.abs z <= 2 ^ 53)%Z -> show_num show_frac (num_Z z) = show_Z z.
Proof.
  intros Hz. unfold show_num, num_Z. rewrite Qfloor_Z.
  assert (E : Qeqb (inject_Z z) (inject_Z z) = true) by (by apply Qeqb_eq). rewrite E.
  assert (L : (Z.abs z <? 10 ^ 21)%Z = true) by (apply Z.ltb_lt; assert (2 ^ 53 < 10 ^ 21)%Z by reflexivity; lia).
  by rewrite L.
Qed.

(** What may follow a value inside an array or an object, or at the end of the text. *)
Definition stops (r : jsstring) : Prop :=
  match r with [] => True | c :: _ => c = 44 \/ c = 93 \/ c = 125 end.

Lemma stops_digit r c : stops r -> head r = Some c -> digit c = false.
Proof. destruct r as [|d r]; simpl; [done|]. intros [->|[->| ->]] [= <-]; done. Qed.

Lemma scan_decimal_digits n r :
  stops r -> exists q, scan_decimal (show_N n ++ r) = Some (q, r) /\ (q == inject_Z (Z.of_N n))%Q.
Proof.
  intros Hr. unfold scan_decimal.
  rewrite take_digits_app by (apply show_N_digits || (intros c; by apply stops_digit)).
  rewrite drop_app_length. cbv zeta.
  assert (E1 : (match r with
    | c :: r0 => if c =? 46 then (take_digits r0, drop (length (take_digits r0)) r0) else ([], r)
    | [] => ([], []) end) = ([], r)) by (destruct r as [|c r]; [done|]; simpl in Hr; by destruct Hr as [->|[->| ->]]).
  rewrite E1. rewrite app_nil_r. destruct (show_N_head n) as (c & ds & Es & _).
  pose proof (show_N_value n) as V. rewrite Es in *.
  exists (inject_Z (Z.of_N (digits_value 0 (c :: ds))) * pow10 (- Z.of_nat 0) * pow10 0)%Q. split.
  - destruct r as [|d r]; [reflexivity|]. simpl in Hr. destruct Hr as [->|[->| ->]]; reflexivity.
  - rewrite V. unfold pow10. simpl. ring.
Qed.

Lemma json_number_integer z r :
  (Z.abs z <= 2 ^ 53)%Z -> stops r -> json_number (show_Z z ++ r) = Some (VNum (num_Z z), r).
Proof.
  intros Hz Hr.
  assert (Main : forall n (neg : bool), (Z.abs (Z.of_N n) <= 2 ^ 53)%Z ->
    (let ip := take_digits (show_N n ++ r) in
     let r1 := drop (length ip) (show_N n ++ r) in
     let point_ok := match r1 with p :: r2 => negb (p =? 46) || truthy (take_digits r2) | [] => true end in
     let zero_ok := match ip with z :: _ :: _ => negb (z =? 48) | [] => false | _ => true end in
     if zero_ok && point_ok then
       match scan_decimal (show_N n ++ r) with
       | Some (q, rest) =>
           match rest with
           | e :: _ => if (e =? 101) || (e =? 69) then None
                       else Some (VNum (of_exact (if neg then - q else q)%Q), rest)
           | [] => Some (VNum (of_exact (if neg then - q else q)%Q), [])
           end
       | None => None
       end
     else None) = Some (VNum (num_Z (if neg then - Z.of_N n else Z.of_N n)), r)).
  { intros n neg Hn. cbv zeta.
    rewrite take_digits_app by (apply show_N_digits || (intros c; by apply stops_digit)).
    rewrite drop_app_length.
    assert (E1 : (match r with p :: r2 => negb (p =? 46) || truthy (take_digits r2) | [] => true end) = true)
      by (destruct r as [|c r]; [done|]; simpl in Hr; by destruct Hr as [->|[->| ->]]).
    rewrite E1. destruct (show_N_head n) as (c & ds & Es & Hc). rewrite Es at 1.
    assert (E2 : (match ds with [] => true | _ :: _ => negb (c =? 48) end) = true).
    { destruct ds; [done|]. apply negb_true_iff, N.eqb_neq. intros ->. by specialize (Hc eq_refl). }
    assert (E3 : (match c :: ds with z0 :: _ :: _ => negb (z0 =? 48) | [] => false | _ => true end) = true) by (by destruct ds).
    rewrite E3. cbn [andb]. destruct (scan_decimal_digits n r Hr) as (q & -> & Eq).
    assert (E4 : of_exact (if neg then - q else q)%Q = num_Z (if neg then - Z.of_N n else Z.of_N n)).
    { apply of_exact_integer; [|destruct neg; lia]. destruct neg; rewrite Eq; [by rewrite inject_Z_opp|done]. }
    rewrite E4. destruct r as [|d r]; [done|]. simpl in Hr. by destruct Hr as [->|[->| ->]]. }
  unfold json_number. destruct z as [|p|p].
  - apply (Main 0 false). done.
  - cbn [show_Z]. destruct (show_N_head (Npos p)) as (c & ds & Es & _).
    assert (E : (match show_N (Npos p) ++ r with c :: r0 => if c =? 45 then (true, r0) else (false, show_N (Npos p) ++ r) | [] => (false, []) end)
      = (false, show_N (Npos p) ++ r)).
    { pose proof (show_N_digits (Npos p)) as D. rewrite Es in *. simpl. inv D. apply digit_range in H1.
      destruct (c =? 45) eqn:E; bool_norm; [lia|done]. }
    rewrite E. apply (Main (Npos p) false). done.
  - cbn [show_Z]. apply (Main (Npos p) true). done.
Qed.

(** ** Values *)

(** Values that JSON can express exactly: no [undefined], integers of at most 53 bits,
    strings of code units, objects whose names are distinct. *)
Definition code_units (s : jsstring) : Prop := Forall (fun c => c < 65536) s.

Lemma code_units_lit s : forallb (fun c => c <? 65536) s = true -> code_units s.
Proof. intros H. apply Forall_forall. intros c Hc. rewrite forallb_forall in H. by apply N.ltb_lt, H, list_elem_of_In. Qed.

Inductive json_normal : jsval -> Prop :=
| normal_null : json_normal VNull
| normal_bool b : json_normal (VBool b)
| normal_num z : (Z.abs z <= 2 ^ 53)%Z -> json_normal (VNum (num_Z z))
| normal_str s : code_units s -> json_normal (VStr s)
| normal_arr l : Forall json_normal l -> json_normal (VArr l)
| normal_obj fs :
    NoDup fs.*1 -> Forall (fun e => code_units e.1 /\ json_normal e.2) fs -> json_normal (VObj fs).

Section RoundTrip.
Context (show_frac : Q -> jsstring).
#[local] Abbreviation str := (JSON_stringify show_frac).

Definition member_text (e : jsstring * jsval) : jsstring := quote e.1 ++ js ":" ++ str e.2.

(** The value is read from the head of a text, with any large enough fuel. *)
Definition reads (v : jsval) : Prop :=
  forall r, stops r -> exists f0, forall f, (f0 <= f)%nat -> json_value f (str v ++ r) = Some (v, r).

Lemma set_member_fresh k v l : k ∉ l.*1 -> set_member k v l = l ++ [(k, v)].
Proof.
  induction l as [|[k' v'] l IH]; [done|]. cbn [fmap list_fmap fst]. rewrite not_elem_of_cons. intros [H1 H2]. simpl.
  apply seqb_neq in H1. by rewrite H1, IH.
Qed.

(** A value starts with a character that is not white space. *)
Lemma str_head v : json_normal v -> exists c t, str v = c :: t /\ json_ws c = false /\ c <> 93.
Proof.
  intros H. destruct H as [|[]|z Hz|s Hs|l Hl|fs Hf1 Hf2];
    try (do 2 eexists; split_and!; [reflexivity|reflexivity|done]).
  cbn [JSON_stringify num_Z]. rewrite (show_num_integer show_frac z) by done. unfold num_Z.
  assert (D : forall n, exists c t, show_N n = c :: t /\ json_ws c = false /\ c <> 93).
  { intros n. destruct (show_N_head n) as (c & t & E & _). exists c, t. split; [done|].
    pose proof (show_N_digits n) as D. rewrite E in D. inv D. apply digit_range in H1.
    split; [unfold json_ws|lia]. repeat (apply orb_false_iff; split); apply N.eqb_neq; lia. }
  destruct z as [|p|p]; cbn [show_Z]; [by apply (D 0)|apply D|by do 2 eexists].
Qed.

Lemma skip_ws_head c t : json_ws c = false -> skip_ws (c :: t) = c :: t.
Proof. intros H. simpl. by rewrite H. Qed.

Lemma reads_elems l : l <> [] -> Forall json_normal l -> Forall reads l -> forall acc r, exists f0, forall f,
  (f0 <= f)%nat ->
  json_elems f (join (js ",") (map str l) ++ js "]" ++ r) acc = Some (VArr (acc ++ l), r).
Proof.
  intros Hne Hn Hl. induction Hl as [|v l Hv Hl IH]; [done|]. inv Hn. intros acc r. destruct l as [|w l].
  - destruct (Hv (js "]" ++ r)) as [f0 Hf]; [by right; left|]. exists (S f0). intros [|f] Hle; [lia|].
    cbn [map join json_elems]. by rewrite Hf by lia.
  - destruct (IH ltac:(done) ltac:(done) (acc ++ [v]) r) as [f1 Hf1].
    destruct (Hv (js "," ++ join (js ",") (map str (w :: l)) ++ js "]" ++ r)) as [f0 Hf]; [by left|].
    exists (S (Nat.max f0 f1)). intros [|f] Hle; [lia|]. cbn [map]. rewrite join_cons by done.
    rewrite <- !app_assoc. cbn [json_elems]. rewrite Hf by lia. 
    change (js "," ++ join (js ",") (map str (w :: l)) ++ js "]" ++ r)
      with (44 :: join (js ",") (map str (w :: l)) ++ js "]" ++ r).
    rewrite skip_ws_head by done. cbn [N.eqb Pos.eqb]. rewrite Hf1 by lia. by rewrite <- app_assoc.
Qed.

Lemma reads_members fs : fs <> [] -> Forall (fun e => code_units e.1) fs -> Forall (fun e => reads e.2) fs ->
  forall acc r, NoDup (acc ++ fs).*1 -> exists f0, forall f, (f0 <= f)%nat ->
  json_members f (join (js ",") (map member_text fs) ++ js "}" ++ r) acc = Some (VObj (acc ++ fs), r).
Proof.
  intros Hne Hk Hl. induction Hl as [|[k v] fs Hv Hl IH]; [done|]. inv Hk. intros acc r Hd.
  assert (Hfresh : k ∉ acc.*1).
  { rewrite fmap_app, NoDup_app in Hd. destruct Hd as (_ & Hd & _). intros Hin. apply (Hd k Hin). left. }
  simpl in Hv, H1.
  assert (Step : forall f rest, json_members (S f) (member_text (k, v) ++ rest) acc =
    match json_value f (str v ++ rest) with
    | Some (v, r3) =>
        match skip_ws r3 with
        | e :: r4 =>
            if e =? 44 then json_members f r4 (set_member k v acc)
            else if e =? 125 then Some (VObj (set_member k v acc), r4) else None
        | [] => None
        end
    | None => None
    end).
  { intros f rest. unfold member_text, quote. cbn [fst snd]. rewrite <- !app_assoc.
    cbn [app json_members]. rewrite skip_ws_head by done. cbn [N.eqb Pos.eqb].
    change (quote_body k ++ 34 :: js ":" ++ str v ++ rest) with (quote_body k ++ [34] ++ js ":" ++ str v ++ rest).
    rewrite json_string_quote by done. change (js ":" ++ str v ++ rest) with (58 :: str v ++ rest).
    rewrite skip_ws_head by done. cbn [N.eqb Pos.eqb]. done. }
  destruct fs as [|e fs].
  - destruct (Hv (js "}" ++ r)) as [f0 Hf]; [by right; right|]. exists (S f0). intros [|f] Hle; [lia|].
    cbn [map join]. rewrite Step, Hf by lia. change (js "}" ++ r) with (125 :: r). rewrite skip_ws_head by done.
    cbn [N.eqb Pos.eqb]. by rewrite set_member_fresh.
  - destruct (IH ltac:(done) ltac:(done) (acc ++ [(k, v)]) r) as [f1 Hf1]; [by rewrite <- app_assoc|].
    destruct (Hv (js "," ++ join (js ",") (map member_text (e :: fs)) ++ js "}" ++ r)) as [f0 Hf]; [by left|].
    exists (S (Nat.max f0 f1)). intros [|f] Hle; [lia|]. cbn [map]. rewrite join_cons by done.
    rewrite <- !app_assoc. rewrite Step, Hf by lia.
    change (js "," ++ join (js ",") (map member_text (e :: fs)) ++ js "}" ++ r)
      with (44 :: join (js ",") (map member_text (e :: fs)) ++ js "}" ++ r).
    rewrite skip_ws_head by done. cbn [N.eqb Pos.eqb]. rewrite set_member_fresh by done.
    rewrite Hf1 by lia. by rewrite <- app_assoc.
Qed.

Lemma stringify_obj fs : Forall (fun e => json_normal e.2) fs ->
  str (VObj fs) = js "{" ++ join (js ",") (map member_text fs) ++ js "}".
Proof.
  intros H. cbn [JSON_stringify]. do 3 f_equal.
  induction H as [|[k v] fs Hv _ IH]; [done|]. cbn [map]. rewrite <- IH.
  cbn [snd] in Hv. by destruct Hv.
Qed.

(** A container is read by its element parser when its text does not close at once. *)
Lemma value_arr f c t rest : json_ws c = false -> c <> 93 ->
  json_value (S f) (js "[" ++ (c :: t) ++ rest) = json_elems f ((c :: t) ++ rest) [].
Proof.
  intros Hc H93. change (js "[" ++ (c :: t) ++ rest) with (91 :: c :: t ++ rest).
  cbn [json_value]. rewrite skip_ws_head by done. cbn [N.eqb Pos.eqb].
  rewrite skip_ws_head by done. apply N.eqb_neq in H93. by rewrite H93.
Qed.

Lemma value_obj f e fs rest :
  json_value (S f) (js "{" ++ join (js ",") (map member_text (e :: fs)) ++ rest) =
  json_members f (join (js ",") (map member_text (e :: fs)) ++ rest) [].
Proof.
  assert (E : exists t, join (js ",") (map member_text (e :: fs)) = 34 :: t).
  { cbn [map]. unfold member_text at 1, quote. destruct (map member_text fs); simpl; eauto. }
  destruct E as [t ->]. reflexivity.
Qed.

Lemma join_head c t x l : x = c :: t -> exists t', join (js ",") (x :: l) = c :: t'.
Proof. intros ->. destruct l; simpl; eauto. Qed.

Lemma normal_reads v : json_normal v -> reads v.
Proof.
  induction v as [| |b|n|s|l IH|fs IH] using jsval_nested_ind; intros Hv r Hr; inv Hv.
  - exists 1%nat. by intros [|f] Hf; [lia|].
  - exists 1%nat. intros [|f] Hf; [lia|]. by destruct b.
  - exists 1%nat. intros [|f] Hf; [lia|]. 
    assert (Es : str (VNum (num_Z z)) = show_Z z) by (by apply show_num_integer). rewrite Es.
    pose proof (json_number_integer z r ltac:(done) Hr) as J.
    assert (D : exists c t, show_Z z ++ r = c :: t /\ (c = 45 \/ 48 <= c <= 57)).
    { pose proof (show_Z_plain z) as P. destruct (show_Z z) as [|c t] eqn:E.
      - destruct z as [|p|p]; [done| |done]. cbn [show_Z] in E.
        destruct (show_N_head (Npos p)) as (? & ? & E' & _). by rewrite E' in E.
      - exists c, (t ++ r). split; [done|]. apply P. left. }
    destruct D as (c & t & E & Hc). rewrite E in *.
    cbn [json_value]. rewrite skip_ws_head by (unfold json_ws; repeat (apply orb_false_iff; split); apply N.eqb_neq; lia).
    repeat match goal with |- context [c =? ?k] => replace (c =? k) with false by (symmetry; apply N.eqb_neq; lia) end.
    exact J.
  - exists 1%nat. intros [|f] Hf; [lia|]. cbn [JSON_stringify]. unfold quote. rewrite <- !app_assoc.
    cbn [app json_value]. rewrite skip_ws_head by done. cbn [N.eqb Pos.eqb].
    change (quote_body s ++ 34 :: r) with (quote_body s ++ [34] ++ r). by rewrite json_string_quote.
  - destruct l as [|v l].
    { exists 1%nat. by intros [|f] Hf; [lia|]. }
    assert (Hreads : Forall reads (v :: l)).
    { rewrite Forall_forall in IH, H0 |- *. auto. }
    destruct (reads_elems (v :: l) ltac:(done) H0 Hreads [] r) as [f0 Hf0].
    exists (S f0). intros [|f] Hf; [lia|]. cbn [JSON_stringify]. rewrite <- !app_assoc.
    inv H0. destruct (str_head v) as (c & t & E & Hc & H93); [done|].
    destruct (join_head c t (str v) (map str l) E) as [t' E'].
    change (map str (v :: l)) with (str v :: map str l) in *. rewrite E' in *.
    rewrite value_arr by done. by rewrite Hf0 by lia.
  - assert (Hn : Forall (fun e => json_normal e.2) fs) by (eapply Forall_impl; [exact H1|]; by intros ? []).
    rewrite stringify_obj by done. destruct fs as [|e fs].
    { exists 1%nat. by intros [|f] Hf; [lia|]. }
    assert (Hreads : Forall (fun e => reads e.2) (e :: fs)).
    { rewrite Forall_forall in IH, Hn |- *. auto. }
    assert (Hk : Forall (fun e => code_units e.1) (e :: fs)) by (eapply Forall_impl; [exact H1|]; by intros ? []).
    destruct (reads_members (e :: fs) ltac:(done) Hk Hreads [] r) as [f0 Hf0]; [done|].
    exists (S f0). intros [|f] Hf; [lia|]. rewrite <- !app_assoc. rewrite value_obj. by rewrite Hf0 by lia.
Qed.

(** [JSON.parse(JSON.stringify(v))] is [v] for every value JSON can express exactly. *)
Theorem json_round_trip v : json_normal v -> JSON_parse (str v) = Ret v.
Proof.
  intros Hv. destruct (normal_reads v Hv []) as [f0 Hf]; [done|]. rewrite app_nil_r in Hf.
  unfold JSON_parse. rewrite <- (json_fuel_enough (str v) (Nat.max f0 (2 * length (str v) + 2))) by lia.
  by rewrite Hf by lia.
Qed.

End RoundTrip.

(** ** Setting a member *)

Lemma set_member_keys k v l k' : k' ∈ (set_member k v l).*1 -> k' = k \/ k' ∈ l.*1.
Proof.
  induction l as [|[a b] l IH]; simpl; [set_solver|]. destruct (seqb k a) eqn:E; simpl.
  - apply seqb_eq in E. set_solver.
  - rewrite !elem_of_cons. intros [->|Hi]; [auto|]. apply IH in Hi. tauto.
Qed.

Lemma set_member_nodup k v l : NoDup l.*1 -> NoDup (set_member k v l).*1.
Proof.
  induction l as [|[a b] l IH]; simpl; intros H; [apply NoDup_singleton|]. apply NoDup_cons in H as [Ha Hl].
  destruct (seqb k a) eqn:E; simpl; [apply seqb_eq in E; subst; by constructor|].
  constructor; [|by apply IH]. intros [->|Hin]%set_member_keys; [by rewrite seqb_refl in E|done].
Qed.

Lemma set_member_normal k v fs :
  code_units k -> json_normal v -> json_normal (VObj fs) -> json_normal (VObj (set_member k v fs)).
Proof.
  intros Hk Hv H. inversion H as [| | | | |fs' Hn Hf Efs]; subst. constructor; [by apply set_member_nodup|].
  clear H Hn. induction Hf as [|[a b] fs Hab Hfs IH]; simpl; [by apply Forall_singleton|].
  destruct (seqb k a); constructor; auto.
Qed.

(** Of two values set for a member the later one counts. *)
Lemma set_member_twice k v w l : set_member k w (set_member k v l) = set_member k w l.
Proof. induction l as [|[a b] l IH]; simpl; [by rewrite seqb_refl|]. destruct (seqb k a) eqn:E; simpl; [by rewrite seqb_refl|]. by rewrite E, IH. Qed.
