(* ===== verification/Catalog.v ===== *)
(** * Live model catalogue, prices and telemetry (portal-core.js)

    [loadLiveModelCatalog] with the model menu and the model cards it renders,
    [loadLivePricing], and [fetchMeshTelemetry] with its payload and its ticker. *)
From Stdlib Require Import Lia ZArith QArith.
From stdpp Require Import base numbers list gmap strings.
From S2P Require Import Prelude JsString JsNumber JsValue.

#[local] Open Scope string_scope.

Definition is_false (v : jsval) : bool := match v with VBool false => true | _ => false end.

(** The identifier of an entry of the catalogue, a string by [listable]. *)
Definition id_of (m : jsval) : jsstring := match prop m (js "id") with VStr s => s | _ => [] end.

Section Catalog.
Context (show_frac : Q -> jsstring).

(** [model.available !== false && !String(model.availability || '').startsWith('unavailable')] *)
Definition model_available (m : jsval) : bool :=
  negb (is_false (prop m (js "available")))
  && negb (starts_with (js "unavailable") (to_str show_frac (vor (prop m (js "availability")) (VStr [])))).

(** [model && typeof model.id === 'string' && model.id.length <= 128] *)
Definition listable (m : jsval) : bool :=
  vtruthy m && match prop m (js "id") with VStr s => (length s <=? 128)%nat | _ => false end.

(** The two awaits of [loadLiveModelCatalog] end with a body, or fail (network error, error
    status, unreadable body). *)
Inductive reply : Type := Failed | Body (payload : jsval).

(** [_lastFetchedModels] after the fetch; [None] is [null]. *)
Definition catalog_of (r : reply) : option (list jsval) :=
  match r with
  | Failed => None
  | Body payload =>
      if vtruthy payload then
        match prop payload (js "data") with VArr l => Some (List.filter listable l) | _ => None end
      else None
  end.

(** ** The model menu *)

Record menu := Menu {
  options : list (jsstring * jsstring);
  chosen : jsstring;
  menu_disabled : bool;
}.

Definition available_models (models : option (list jsval)) : list jsval :=
  List.filter model_available (default [] models).

(** [renderLivePlaygroundModels(models, isDe)] for one menu; [previous] is the value it
    had.  The send button next to it is disabled with the menu. *)
Definition renderLivePlaygroundModels (loaded : bool) (models : option (list jsval)) (isDe : bool)
    (previous : jsstring) : menu :=
  match available_models models with
  | [] =>
      let text := if negb loaded
        then if isDe then js "Live-Modelle werden geladen..." else js "Loading live models..."
        else if isDe then js "Keine Modelle verfügbar" else js "No models available" in
      Menu [([], text)] [] true
  | m :: r =>
      Menu ((fun x => (id_of x, id_of x)) <$> (m :: r))
        (if existsb (fun x => seqb (id_of x) previous) (m :: r) then previous else id_of m) false
  end.

(** ** The model cards *)

Inductive category : Type := Vision | Code | Reasoning | Fast.

#[global] Instance category_eq_dec : EqDecision category.
Proof. solve_decision. Defined.

(** [Array.isArray(model.capabilities) ? model.capabilities.filter(string) : []] *)
Definition capabilities (m : jsval) : list jsstring :=
  array_or_nil (prop m (js "capabilities")) ≫= fun v => match v with VStr s => [s] | _ => [] end.

Definition category_of (m : jsval) : category :=
  let lowerId := lower (id_of m) in
  if bool_decide (js "vision" ∈ capabilities m) || includes (js "llava") lowerId then Vision
  else if includes (js "coder") lowerId || includes (js "code") lowerId then Code
  else if includes (js "reason") lowerId || includes (js "deepseek") lowerId then Reasoning
  else Fast.

Record card := Card {
  c_category : category;
  c_badge : jsstring;
  c_context : jsstring;
  c_name : jsstring;
  c_desc : jsstring;
  c_actions : bool;
  c_shown : bool;
}.

Inductive cards : Type :=
| Notice (text : jsstring)
| Cards (l : list card).

Definition card_of (isDe : bool) (m : jsval) : card :=
  let cs := capabilities m in
  let joined := join (js ", ") cs in
  let available := model_available m in
  let cat := category_of m in
  Card cat
    (if available then if isDe then js "Im Gateway verfügbar" else js "Available in gateway"
     else if isDe then js "Derzeit nicht verfügbar" else js "Currently unavailable")
    (if decide (cat = Vision) then if isDe then js "Bild + Text" else js "Image + text" else js "Text")
    (id_of m)
    (if isDe then js "Live-Katalogeintrag · Fähigkeiten: " ++ (if truthy joined then joined else js "Text")
     else js "Live catalog entry · Capabilities: " ++ (if truthy joined then joined else js "text"))%list
    available true.

(** [filterModelCategory(cat)]; [None] is ['all']. *)
Definition filterModelCategory (cat : option category) (c : cards) : cards :=
  match c with
  | Notice t => Notice t
  | Cards l =>
      Cards ((fun k => Card (c_category k) (c_badge k) (c_context k) (c_name k) (c_desc k) (c_actions k)
                (match cat with None => true | Some x => bool_decide (c_category k = x) end)) <$> l)
  end.

(** [renderLiveModelCards(models, isDe)] *)
Definition renderLiveModelCards (loaded : bool) (current : option category) (models : option (list jsval))
    (isDe : bool) : cards :=
  match models with
  | None =>
      Notice (if negb loaded
        then if isDe then js "Der Live-Modellkatalog wird geladen..." else js "Loading the live model catalog..."
        else if isDe then js "Der Live-Modellkatalog ist momentan nicht erreichbar."
             else js "The live model catalog is currently unavailable.")
  | Some [] =>
      Notice (if isDe then js "Das Gateway meldet derzeit keine Modelle." else js "The gateway currently lists no models.")
  | Some l => filterModelCategory current (Cards (card_of isDe <$> l))
  end.

(** ** Prices *)

Definition finite (v : jsval) : option Q := match v with VNum (Fin q) => Some q | _ => None end.

(** [Object.prototype.hasOwnProperty.call(v, k)] with [v[k]], for objects and arrays. *)
Definition own_prop (v : jsval) (k : jsstring) : option jsval :=
  match v with
  | VObj l => assoc k l
  | VArr l => snd <$> List.find (fun x => seqb (show_N (N.of_nat x.1)) k) (imap pair l)
  | _ => None
  end.

(** The two finite prices of the tier published for exactly this identifier. *)
Definition tier_of (tiers : jsval) (id : jsstring) : option (Q * Q) :=
  t ← own_prop tiers id;
  guard (vtruthy t = true);;
  p ← finite (prop t (js "prompt_usd_per_million"));
  c ← finite (prop t (js "completion_usd_per_million"));
  Some (p, c).

Inductive pricing : Type :=
| PriceNotice (text : jsstring)
| PriceTable (header : list jsstring) (rows : list (list jsstring)).

Definition price (q : Q) : jsstring := (js "$" ++ toFixed 4 q)%list.

(** One row of the table, for an entry that is available and has a published tier. *)
Definition price_row (tiers m : jsval) : option (list jsstring) :=
  if vtruthy m && is_string (prop m (js "id")) && model_available m then
    match tier_of tiers (id_of m) with
    | Some (p, c) => Some [id_of m; price p; price c]
    | None => None
    end
  else None.

(** [loadLivePricing()] after both responses, [None] when one of them failed. *)
Definition loadLivePricing (german : bool) (replies : option (jsval * jsval)) : pricing :=
  let unavailable := PriceNotice (if german
    then js "Live-Preise sind derzeit nicht abrufbar. Bitte vor Nutzung die Abrechnung prüfen."
    else js "Live pricing is unavailable. Check billing before use.") in
  match replies with
  | None => unavailable
  | Some (models, prices) =>
      let t := if vtruthy prices then prop prices (js "tiers") else VUndef in
      let tiers := if vtruthy t && is_object t then t else VObj [] in
      match get models (js "data") with
      | Throw _ => unavailable
      | Ret d =>
          match omap (price_row tiers) (array_or_nil d) with
          | [] => PriceNotice (if german
              then js "Für die aktuell verfügbaren Modelle ist noch kein passender öffentlicher Preistier veröffentlicht. Bitte vor Nutzung die Abrechnung prüfen."
              else js "No matching public price tier is published for the currently available models. Check billing before use.")
          | rows => PriceTable (if german then [js "Modell"; js "Eingabe / 1 Mio. Tokens"; js "Ausgabe / 1 Mio. Tokens"]
                                else [js "Model"; js "Input / 1M tokens"; js "Output / 1M tokens"]) rows
          end
      end
  end.

(** ** Telemetry *)

Record telemetry := Telemetry {
  source : jsval;
  totalVramGb : num;
  activeGpus : num;
  totalNodes : num;
  totalTflops : num;
}.

(** [Number(a !== undefined ? a : (b !== undefined ? b : 0))] *)
Definition first_number (vs : list jsval) : num :=
  match List.find (fun v => negb (is_undef v)) vs with Some v => Number v | None => num_Z 0 end.

(** [parseMeshTelemetryPayload(data)] *)
Definition parseMeshTelemetryPayload (data : jsval) : option telemetry :=
  if negb (vtruthy data) || negb (is_object data) then None
  else
    let gm := prop data (js "global_mesh") in
    if vtruthy gm && is_object gm then
      let f k := prop gm (js k) in
      Some (Telemetry (vor (f "source") (vor (prop data (js "source")) (VStr (js "authenticated_registry"))))
        (first_number [f "total_vram_gb"])
        (first_number [f "total_gpus_active"; f "active_gpus"])
        (first_number [f "total_nodes_online"; f "total_nodes"])
        (first_number [f "total_compute_tflops"; f "total_tflops"]))
    else
      let f k := prop data (js k) in
      Some (Telemetry (vor (f "source") (VStr (js "authenticated_cluster")))
        (first_number [f "total_vram_gb"])
        (first_number [f "active_gpus"; f "total_gpus_active"])
        (first_number [f "total_nodes"; f "total_nodes_online"])
        (first_number [f "total_tflops"; f "total_compute_tflops"])).

(** ** The loop of [fetchMeshTelemetry] over its endpoints *)

(** The replies of the endpoints in order, [None] for a failed or refused request; the
    loop stops at the first payload that parses. *)
Fixpoint fetchMeshTelemetry (replies : list (option jsval)) : option telemetry * nat :=
  match replies with
  | [] => (None, O)
  | r :: rest =>
      match r ≫= parseMeshTelemetryPayload with
      | Some t => (Some t, 1%nat)
      | None => let '(t, n) := fetchMeshTelemetry rest in (t, S n)
      end
  end.

(** ** The ticker *)

Record ticker := Ticker { t_vram : jsstring; t_gpus : jsstring; t_tflops : jsstring; t_nodes : jsstring }.

(** [n.toLocaleString(locale, { maximumFractionDigits: 1, minimumFractionDigits: 1 })] *)
Context (locale_fixed1 : bool -> num -> jsstring).

(** [window.currentLang], the store and [navigator.language]: whether the figures and whether
    the words are German. *)
Definition ticker_languages (currentLang : jsstring) (st : storage) (navLang : jsstring) : outcome jsstring (bool * bool) :=
  if seqb currentLang (js "de") then Ret (true, true)
  else match st with
       | None => Throw (js "SecurityError")
       | Some m =>
           let saved := m !! js "cm_portal_lang" in
           let de := match saved with Some v => seqb v (js "de") | None => false end in
           let unset := match saved with Some v => negb (truthy v) | None => true end in
           Ret (de, de || (unset && starts_with (js "de") navLang))
       end.

Definition one_or_many (n : num) (one many : jsstring) : jsstring :=
  match n with Fin q => if Qeqb q 1 then one else many | _ => many end.

(** [updateMeshTelemetryTicker(stats)]; the fields of [stats] are numbers by
    [parseMeshTelemetryPayload]. *)
Definition updateMeshTelemetryTicker (currentLang : jsstring) (st : storage) (navLang : jsstring) (t : telemetry) : outcome jsstring ticker :=
  match ticker_languages currentLang st navLang with
  | Throw e => Throw e
  | Ret (locale, isDe) =>
      Ret (Ticker (locale_fixed1 locale (totalVramGb t) ++ js " GB")
        (show_num show_frac (activeGpus t) ++ js " " ++ one_or_many (activeGpus t) (js "GPU") (js "GPUs") ++ js " online")
        (if is_finite (totalTflops t) && num_lt (num_Z 0) (totalTflops t)
         then locale_fixed1 locale (totalTflops t) ++ js " TFLOPS"
         else if isDe then js "Nicht gemessen" else js "Not measured")
        (show_num show_frac (totalNodes t) ++ js " " ++ one_or_many (totalNodes t) (js "Node") (js "Nodes") ++ js " "
         ++ (if isDe then js "aktiv" else js "active")))%list
  end.

(** [fetchMeshTelemetry()]: an exception of the ticker leads to the next endpoint like a
    failed request. *)
Fixpoint show_telemetry (currentLang : jsstring) (st : storage) (navLang : jsstring) (replies : list (option jsval)) : option ticker :=
  match replies with
  | [] => None
  | r :: rest =>
      match r ≫= parseMeshTelemetryPayload with
      | Some t =>
          match updateMeshTelemetryTicker currentLang st navLang t with
          | Ret k => Some k
          | Throw _ => show_telemetry currentLang st navLang rest
          end
      | None => show_telemetry currentLang st navLang rest
      end
  end.

(** ** Properties *)

(** The model menu is usable exactly when the gateway lists an available model; what it
    then offers are the identifiers of the available models in the order of the
    catalogue, the chosen one is among them, and a choice that is still available is kept. *)
Theorem menu_offers_available_models loaded models isDe previous :
  let m := renderLivePlaygroundModels loaded models isDe previous in
  let ids := id_of <$> available_models models in
  (menu_disabled m = true <-> ids = [])
  /\ (menu_disabled m = false -> (options m).*1 = ids /\ chosen m ∈ ids /\ (previous ∈ ids -> chosen m = previous)).
Proof.
  unfold renderLivePlaygroundModels. destruct (available_models models) as [|x r] eqn:E; [done|].
  cbn [menu_disabled options chosen]. split; [done|]. intros _.
  set (l := x :: r). split; [by rewrite <- list_fmap_compose|].
  assert (Hex : existsb (fun y => seqb (id_of y) previous) l = true <-> previous ∈ id_of <$> l).
  { rewrite existsb_exists, list_elem_of_fmap. split; intros (y & H1 & H2); exists y.
    - apply seqb_eq in H2. split; [done|]. by apply list_elem_of_In.
    - split; [by apply list_elem_of_In|by apply seqb_eq]. }
  destruct (existsb _ l) eqn:Ex; [by split; [apply Hex|]|].
  split; [by left|]. intros Hp. by apply Hex in Hp.
Qed.

(** Identifiers that reach the page are strings of at most 128 code units. *)
Lemma catalog_ids_bounded r l m :
  catalog_of r = Some l -> m ∈ l -> (length (id_of m) <= 128)%nat /\ is_string (prop m (js "id")) = true.
Proof.
  unfold catalog_of. destruct r as [|p]; [done|]. destruct (vtruthy p); [|done].
  destruct (prop p (js "data")); try done. intros [= <-] Hm.
  apply list_elem_of_In, filter_In in Hm as [_ Hl]. unfold listable in Hl. apply andb_true_iff in Hl as [_ Hl].
  unfold id_of. destruct (prop m (js "id")); try done. split; [by apply Nat.leb_le|done].
Qed.

Definition tier_table (prices : jsval) : jsval :=
  let t := if vtruthy prices then prop prices (js "tiers") else VUndef in
  if vtruthy t && is_object t then t else VObj [].

(** A price is shown only for a model that the gateway lists as available and for whose
    exact identifier a tier with two finite prices is published, and for every such model
    one is shown. *)
Theorem prices_only_for_published_tiers german models prices header rows row :
  loadLivePricing german (Some (models, prices)) = PriceTable header rows ->
  row ∈ rows <->
  exists m p c, m ∈ array_or_nil (prop models (js "data")) /\ vtruthy m = true /\ is_string (prop m (js "id")) = true
    /\ model_available m = true /\ tier_of (tier_table prices) (id_of m) = Some (p, c)
    /\ row = [id_of m; price p; price c].
Proof.
  unfold loadLivePricing. fold (tier_table prices).
  destruct (get models (js "data")) as [d|e] eqn:Eg; [|done].
  assert (Ed : d = prop models (js "data")) by (unfold get in Eg; destruct models; congruence).
  destruct (omap (price_row (tier_table prices)) (array_or_nil d)) as [|r0 rs] eqn:E; [done|].
  intros [= _ <-]. rewrite <- E, list_elem_of_omap, <- Ed. split.
  - intros (m & Hm & Hr). unfold price_row in Hr.
    destruct (vtruthy m) eqn:H1, (is_string _) eqn:H2, (model_available m) eqn:H3; try done. cbn in Hr.
    destruct (tier_of _ _) as [[p c]|] eqn:H4; [|done]. injection Hr as <-. eauto 10.
  - intros (m & p & c & Hm & H1 & H2 & H3 & H4 & ->). exists m. split; [done|].
    unfold price_row. by rewrite H1, H2, H3, H4.
Qed.

(** The telemetry loop asks its endpoints in order and stops at the first payload that is
    an object: the figures shown come from it, and no endpoint after it is asked. *)
Theorem telemetry_from_first_object replies t n :
  fetchMeshTelemetry replies = (Some t, n) ->
  exists p, replies !! pred n = Some (Some p) /\ parseMeshTelemetryPayload p = Some t
    /\ (forall i q, (i < pred n)%nat -> replies !! i = Some (Some q) -> is_object q && vtruthy q = false).
Proof.
  revert n. induction replies as [|r replies IH]; intros n; cbn [fetchMeshTelemetry]; [done|].
  destruct (r ≫= parseMeshTelemetryPayload) as [t'|] eqn:E.
  - intros [= -> <-]. destruct r as [p|]; [|done]. exists p. repeat split; [done|]. intros i q Hi. cbn in Hi. lia.
  - destruct (fetchMeshTelemetry replies) as [t' n'] eqn:F. intros [= -> <-].
    destruct n' as [|n']; [destruct replies; cbn in F; [done|]; repeat case_match; simplify_eq|].
    destruct (IH _ eq_refl) as (p & H1 & H2 & H3). exists p. repeat split; [done..|].
    intros [|i] q Hi Hq; cbn in Hq.
    + injection Hq as ->. cbn in E. unfold parseMeshTelemetryPayload in E.
      destruct (vtruthy q), (is_object q); cbn in E |- *; try done. by case_match.
    + apply (H3 i q); [cbn in Hi |- *; lia|done].
Qed.

(** The ticker shows the figures of the first payload that is an object, and claims a speed
    exactly when the payload reports a positive finite one. *)
Theorem ticker_shows_first_payload currentLang m navLang replies :
  show_telemetry currentLang (Some m) navLang replies
  = (t ← (fetchMeshTelemetry replies).1;
     match updateMeshTelemetryTicker currentLang (Some m) navLang t with Ret k => Some k | Throw _ => None end) /\
  (forall t k, updateMeshTelemetryTicker currentLang (Some m) navLang t = Ret k ->
     (ends_with (js " TFLOPS") (t_tflops k) = true <-> exists q, totalTflops t = Fin q /\ (0 < q)%Q)).
Proof.
  assert (R : forall t, exists k, updateMeshTelemetryTicker currentLang (Some m) navLang t = Ret k).
  { intros t. unfold updateMeshTelemetryTicker, ticker_languages. destruct (seqb currentLang _); by eexists. }
  split.
  - induction replies as [|r replies IH]; [done|]. cbn [show_telemetry fetchMeshTelemetry].
    destruct (r ≫= parseMeshTelemetryPayload) as [t|]; [|by destruct (fetchMeshTelemetry replies)].
    cbn [fst mbind option_bind]. by destruct (R t) as [k ->].
  - intros t k. unfold updateMeshTelemetryTicker. destruct (ticker_languages _ _ _) as [[lo de]|]; [|done]. intros [= <-]. cbn [t_tflops].
    destruct (totalTflops t) as [q| | |]; cbn [is_finite andb]; try (split; [by destruct de; vm_compute|intros (? & ? & ?); done]).
    change (num_lt (num_Z 0) (Fin q)) with (Qltb (inject_Z 0) q). destruct (Qltb (inject_Z 0) q) eqn:E; q_norm.
    + split; [by exists q|]. intros _. apply ends_with_spec. by exists (locale_fixed1 lo (Fin q)).
    + split; [by destruct de; vm_compute|]. intros (q' & [= <-] & H). exfalso. by apply Qle_not_lt in E.
Qed.

End Catalog.

(** ** Concrete inputs *)

Definition no_frac (q : Q) : jsstring := [].

Definition two_models : jsval :=
  VObj [(js "data", VArr [VObj [(js "id", VStr (js "m1"))]; VObj [(js "id", VStr (js "m2")); (js "available", VBool false)]])].
Definition two_tiers : jsval :=
  let tier := VObj [(js "prompt_usd_per_million", VNum (Fin (1 # 4))); (js "completion_usd_per_million", VNum (num_Z 2))] in
  VObj [(js "tiers", VObj [(js "m1", tier); (js "m2", tier)])].

Lemma prices_only_for_published_tiers_witness :
  loadLivePricing no_frac false (Some (two_models, two_tiers))
    = PriceTable [js "Model"; js "Input / 1M tokens"; js "Output / 1M tokens"] [[js "m1"; js "$0.2500"; js "$2.0000"]]
  /\ exists m p c, m ∈ array_or_nil (prop two_models (js "data")) /\ vtruthy m = true /\ is_string (prop m (js "id")) = true
       /\ model_available no_frac m = true /\ tier_of (tier_table two_tiers) (id_of m) = Some (p, c)
       /\ [js "m1"; js "$0.2500"; js "$2.0000"] = [id_of m; price p; price c].
Proof.
  assert (E : loadLivePricing no_frac false (Some (two_models, two_tiers))
    = PriceTable [js "Model"; js "Input / 1M tokens"; js "Output / 1M tokens"] [[js "m1"; js "$0.2500"; js "$2.0000"]])
    by (vm_compute; reflexivity).
  split; [exact E|].
  exact (proj1 (prices_only_for_published_tiers no_frac false two_models two_tiers _ _ _ E) (list_elem_of_here _ _)).
Defined.

Lemma telemetry_from_first_object_witness :
  let d := VObj [(js "active_gpus", VNum (num_Z 3))] in
  exists p, [None; Some VNull; Some d] !! 2%nat = Some (Some p) /\ parseMeshTelemetryPayload p <> None.
Proof.
  intros d. destruct (telemetry_from_first_object [None; Some VNull; Some d]
    (Telemetry (VStr (js "authenticated_cluster")) (num_Z 0) (num_Z 3) (num_Z 0) (num_Z 0)) 3) as (p & H1 & H2 & _).
  - vm_compute. reflexivity.
  - exists p. split; [exact H1|]. by rewrite H2.
Defined.

(** A figure that is not a number is shown as it is, and with a blocked store nothing is
    shown on a page in English. *)
Example ticker_shows_nan :
  let d := VObj [(js "total_vram_gb", VStr (js "n/a"))] in
  let nan (_ : bool) (n : num) := show_num no_frac n in
  t_vram <$> show_telemetry no_frac nan (js "en") (Some ∅) (js "en") [Some d] = Some (js "NaN GB") /\
  show_telemetry no_frac nan (js "en") None (js "en") [Some d; Some d; Some d] = None.
Proof. vm_compute. done. Qed.
