(* ===== verification/Html.v ===== *)
(** * HTML templates

    A template is a list of literal pieces and holes for data.  [skeleton] is the markup
    of a text as a tokenizer sees it: what stands inside tags, without the text between
    them and without attribute values.  If every hole is filled with text that cannot
    leave its context, the data has no influence on the markup: it adds no element and no
    attribute.  (The tokenizer knows text, tags and quoted attribute values; the templates
    have no comments and no raw-text elements.) *)
From Stdlib Require Import Lia NArith.
From stdpp Require Import base numbers list strings.
From S2P Require Import Prelude JsString.

#[local] Open Scope N_scope.

(** ** Contexts *)

Inductive ctx : Type := InText | InTag | InDouble | InSingle.

Definition next (k : ctx) (c : N) : ctx :=
  match k with
  | InText => if c =? 60 then InTag else InText
  | InTag => if c =? 62 then InText else if c =? 34 then InDouble else if c =? 39 then InSingle else InTag
  | InDouble => if c =? 34 then InTag else InDouble
  | InSingle => if c =? 39 then InTag else InSingle
  end.

Definition in_tag (k : ctx) : bool := match k with InTag => true | _ => false end.

Definition scan (k : ctx) (s : jsstring) : ctx := fold_left next s k.

Fixpoint skeleton (k : ctx) (s : jsstring) : jsstring :=
  match s with
  | [] => []
  | c :: r => (if in_tag k || in_tag (next k c) then [c] else []) ++ skeleton (next k c) r
  end.

Lemma scan_app k a b : scan k (a ++ b) = scan (scan k a) b.
Proof. apply fold_left_app. Qed.

Lemma skeleton_app k a b : skeleton k (a ++ b) = skeleton k a ++ skeleton (scan k a) b.
Proof.
  revert k. induction a as [|c a IH]; intros k; [done|]. cbn [skeleton app]. rewrite IH, app_assoc. done.
Qed.

(** Text that cannot leave a context. *)
Definition quiet (k : ctx) (s : jsstring) : Prop :=
  match k with InText => 60 ∉ s | InDouble => 34 ∉ s | InSingle => 39 ∉ s | InTag => s = [] end.

Lemma quiet_next k c s : quiet k (c :: s) -> next k c = k /\ in_tag k = false /\ quiet k s.
Proof.
  destruct k; cbn; rewrite ?not_elem_of_cons; intros H; try done; destruct H as [H1 H2];
    (split; [|done]); (destruct (c =? _) eqn:E; [apply N.eqb_eq in E; congruence|done]).
Qed.

Lemma quiet_scan k s : quiet k s -> scan k s = k /\ skeleton k s = [].
Proof.
  induction s as [|c s IH]; [done|]. intros H. destruct (quiet_next k c s H) as (E1 & E2 & H').
  destruct (IH H') as [I1 I2]. cbn [scan fold_left skeleton]. rewrite E1, E2. cbn. by split.
Qed.

Lemma quiet_nil k : quiet k [].
Proof. destruct k; cbn; try apply not_elem_of_nil; done. Qed.

(** ** Templates *)

Inductive piece : Type := Lit (s : jsstring) | Hole (s : jsstring).

Definition piece_text (p : piece) : jsstring := match p with Lit s | Hole s => s end.
Definition fill (ps : list piece) : jsstring := ps ≫= piece_text.

Definition blank (p : piece) : piece := match p with Lit s => Lit s | Hole _ => Hole [] end.

(** Every hole is filled with text that cannot leave its context. *)
Fixpoint holes_ok (k : ctx) (ps : list piece) : Prop :=
  match ps with
  | [] => True
  | Lit s :: r => holes_ok (scan k s) r
  | Hole s :: r => quiet k s /\ holes_ok k r
  end.

Lemma holes_ok_lit k k' s r : scan k s = k' -> holes_ok k' r -> holes_ok k (Lit s :: r).
Proof. by intros <-. Qed.

Lemma holes_ok_hole k s r : quiet k s -> holes_ok k r -> holes_ok k (Hole s :: r).
Proof. done. Qed.

Lemma holes_ok_app k ps qs : holes_ok k ps -> holes_ok (scan k (fill ps)) qs -> holes_ok k (ps ++ qs).
Proof.
  revert k. induction ps as [|p ps IH]; intros k; [done|].
  destruct p as [s|s]; cbn [holes_ok app];
    [change (fill (Lit s :: ps)) with (s ++ fill ps)|change (fill (Hole s :: ps)) with (s ++ fill ps)].
  - intros H1 H2. apply IH; [done|]. by rewrite scan_app in H2.
  - intros [Hq H1] H2. split; [done|]. apply IH; [done|]. rewrite scan_app in H2.
    by rewrite (proj1 (quiet_scan k s Hq)) in H2.
Qed.

(** The markup of a filled template is that of the template with empty holes. *)
Lemma fill_skeleton ps : forall k, holes_ok k ps ->
  skeleton k (fill ps) = skeleton k (fill (blank <$> ps)) /\ scan k (fill ps) = scan k (fill (blank <$> ps)).
Proof.
  induction ps as [|[s|s] ps IH]; intros k H; [done| |].
  - change (fill (Lit s :: ps)) with (s ++ fill ps).
    change (fill (blank <$> Lit s :: ps)) with (s ++ fill (blank <$> ps)).
    rewrite !skeleton_app, !scan_app. destruct (IH _ H) as [E1 E2]. by rewrite <- E1, <- E2.
  - destruct H as [Hq H]. change (fill (Hole s :: ps)) with (s ++ fill ps).
    change (fill (blank <$> Hole s :: ps)) with (fill (blank <$> ps)).
    destruct (quiet_scan k s Hq) as [E1 E2]. rewrite skeleton_app, scan_app, E1, E2. apply (IH _ H).
Qed.

(** Contexts of the literals are computed; the quietness of each hole is left. *)
Ltac template_ok :=
  repeat first
    [ eapply holes_ok_lit; [vm_compute; reflexivity|]
    | apply holes_ok_hole
    | exact I ].

(** ** Escaping *)

(** [replace(/[&<>`']/g, ...)] with the double quotation mark for the back-quote, as the
    marketplace escapes. *)
Definition escape5_unit (c : N) : jsstring :=
  if c =? 38 then js "&amp;" else if c =? 60 then js "&lt;" else if c =? 62 then js "&gt;"
  else if c =? 34 then js "&quot;" else if c =? 39 then js "&#39;" else [c].
Definition escape5 (s : jsstring) : jsstring := map_chars escape5_unit s.

(** The four replacements of the agent workspace: the apostrophe stays. *)
Definition escape4_unit (c : N) : jsstring :=
  if c =? 38 then js "&amp;" else if c =? 60 then js "&lt;" else if c =? 62 then js "&gt;"
  else if c =? 34 then js "&quot;" else [c].
Definition escape4 (s : jsstring) : jsstring := map_chars escape4_unit s.

Lemma escape_free (f : N -> jsstring) c s : (forall d, c ∉ f d) -> c ∉ map_chars f s.
Proof. intros H. rewrite elem_of_map_chars. intros (d & Hd & _). by apply (H d). Qed.

Ltac escape_case :=
  repeat match goal with |- context [if ?b then _ else _] => destruct b eqn:? end; bool_norm;
  try (rewrite <- (bool_decide_eq_true (_ ∈ _)); by vm_compute);
  rewrite list_elem_of_singleton; congruence.

Lemma escape5_quiet k s : k <> InTag -> quiet k (escape5 s).
Proof.
  intros Hk. destruct k; cbn; try done; apply escape_free; intros d; unfold escape5_unit; escape_case.
Qed.

Lemma escape4_quiet k s : k = InText \/ k = InDouble -> quiet k (escape4 s).
Proof.
  intros [-> | ->]; cbn; apply escape_free; intros d; unfold escape4_unit; escape_case.
Qed.

(** Nothing is lost: the escaped text determines the text. *)
Fixpoint unescape (fuel : nat) (s : jsstring) : jsstring :=
  match fuel, s with
  | O, _ | _, [] => []
  | S n, c :: r =>
      if starts_with (js "&amp;") s then 38 :: unescape n (drop 5 s)
      else if starts_with (js "&lt;") s then 60 :: unescape n (drop 4 s)
      else if starts_with (js "&gt;") s then 62 :: unescape n (drop 4 s)
      else if starts_with (js "&quot;") s then 34 :: unescape n (drop 6 s)
      else if starts_with (js "&#39;") s then 39 :: unescape n (drop 5 s)
      else c :: unescape n r
  end.

Lemma unescape_plain n c r : c <> 38 -> unescape (S n) (c :: r) = c :: unescape n r.
Proof.
  intros H. assert (F : forall p, head p = Some 38 -> starts_with p (c :: r) = false).
  { intros [|x p] E; [done|]. injection E as ->. cbn [starts_with]. apply N.eqb_neq in H. rewrite N.eqb_sym in H. by rewrite H. }
  cbn [unescape]. by rewrite !F by (vm_compute; reflexivity).
Qed.

Lemma unescape_escape5 s n : (length s <= n)%nat -> unescape n (escape5 s) = s.
Proof.
  revert n. induction s as [|c s IH]; intros [|n] Hn; cbn [length] in Hn; try lia; try done.
  change (escape5 (c :: s)) with (escape5_unit c ++ escape5 s). unfold escape5_unit.
  repeat match goal with |- context [if ?b then _ else _] => destruct b eqn:? end; bool_norm; subst;
    try (cbn; by rewrite IH by lia).
  cbn [app]. rewrite unescape_plain by done. by rewrite IH by lia.
Qed.

(** Escaping as the marketplace does it is reversible: a reader of the page sees exactly
    the text the node sent, for every text. *)
Theorem escape5_round_trip s : unescape (length s) (escape5 s) = s.
Proof. by apply unescape_escape5. Qed.
