(* ===== verification/Marketplace.v ===== *)
(** * GPU marketplace (portal-core.js)

    [loadRealMarketplaceData] and what it shows: the cards of the nodes that the gateway
    reports, with their HTML, and the filters.  A node's fields are data of other
    operators of the mesh; the theorems show that they cannot change the markup. *)
From Stdlib Require Import Lia ZArith QArith Qround.
From stdpp Require Import base numbers list gmap strings.
From S2P Require Import Prelude JsString JsNumber JsValue Html.

#[local] Open Scope Z_scope.

(** [isDe ? de : en] *)
Definition word (isDe : bool) (de en : string) : jsstring := if isDe then js de else js en.

(** ** A node as the card reads it *)

Inductive gpu_category : Type := Nvidia | Amd | Apple | Rig.

#[global] Instance gpu_category_eq_dec : EqDecision gpu_category.
Proof. solve_decision. Defined.

Record card_data := CardData {
  d_id : jsstring;
  d_gpus : jsstring;
  d_count : nat;
  d_gpu : gpu_category;
  d_online : bool;
  d_vram : option jsstring;
  d_tflops : option jsstring;
  d_vram_attr : jsstring;
  d_remote : jsstring;
}.

Definition category_name (c : gpu_category) : jsstring :=
  match c with Nvidia => js "nvidia" | Amd => js "amd" | Apple => js "apple" | Rig => js "rig" end.

Definition badge_class (c : gpu_category) : jsstring :=
  match c with Nvidia => js "nvidia" | Amd => js "amd" | Apple => js "enterprise" | Rig => js "rig" end.

Definition badge_text (d : card_data) : jsstring :=
  match d_gpu d with
  | Nvidia => js "NVIDIA (CUDA)"
  | Amd => js "AMD ROCm / Vulkan"
  | Apple => js "Apple Silicon"
  | Rig => show_N (N.of_nat (d_count d)) ++ js "x Multi-GPU Cluster"
  end.

(** [vram] and [tflops]: the measured figure, or that there is none. *)
Definition measured (isDe : bool) (unit : string) (v : option jsstring) : jsstring :=
  match v with Some t => t ++ js unit | None => word isDe "Nicht gemessen" "Not measured" end.

Section Market.
(** [String] of numbers that are not integers, [new URL(s)] as protocol and normalised
    address ([None] when it throws), and [textContent] of an HTML fragment. *)
Context (show_frac : Q -> jsstring) (URL : jsstring -> option (jsstring * jsstring))
  (text_content : jsstring -> jsstring) (toLowerCase : jsstring -> jsstring).

(** [n.toFixed(1)] of a finite positive number. *)
Definition fixed1 (q : Q) : jsstring :=
  if Qltb q (inject_Z (10 ^ 21)) then toFixed 1 q else show_num show_frac (Fin q).

Definition positive (n : num) : option Q :=
  match n with Fin q => if Qltb 0 q then Some q else None | _ => None end.

(** [node.gpus.filter(string).slice(0, 16)] of a non-empty array, or the placeholder. *)
Definition gpus_of (node : jsval) : list jsstring :=
  match prop node (js "gpus") with
  | VArr (x :: l) => take 16 ((x :: l) ≫= fun v => match v with VStr s => [s] | _ => [] end)
  | _ => [js "ComputeMesh Hardware Worker"]
  end.

Definition mentions (ws : list string) (s : jsstring) : bool := existsb (fun w => includes (js w) s) ws.

(** The category is read off the escaped list of GPUs in lower case. *)
Definition category_of (gpus : list jsstring) (gpusStr : jsstring) : gpu_category :=
  let gpusLower := lower gpusStr in
  if mentions ["amd"; "radeon"; "rocm"; "mi25"] gpusLower then Amd
  else if mentions ["apple"; "metal"; "m1"; "m2"; "m3"] gpusLower then Apple
  else if (1 <? length gpus)%nat then Rig
  else Nvidia.

(** The address of the dashboard: only a valid [http:] or [https:] address. *)
Definition remote_of (node : jsval) : jsstring :=
  match URL (to_str show_frac (vor (prop node (js "remote_url")) (VStr []))) with
  | Some (protocol, href) =>
      if seqb protocol (js "https:") || seqb protocol (js "http:") then href else []
  | None => []
  end.

(** [Math.round] of a finite positive number. *)
Definition round_pos (q : Q) : Z := Qfloor (q + (1 # 2)).

Definition data_of (node : jsval) : card_data :=
  let gpus := gpus_of node in
  let vram := positive (Number (prop node (js "vram_gb"))) in
  let tflops := positive (Number (prop node (js "tflops"))) in
  let joined := join (js " • ") gpus in
  CardData
    (to_str show_frac (vor (prop node (js "node_id")) (VStr (js "Node"))))
    joined (length gpus) (category_of gpus (escape5 joined))
    (vtruthy (prop node (js "is_online"))
     || match prop node (js "status") with VStr s => seqb s (js "online") | _ => false end)
    (fixed1 <$> vram) (fixed1 <$> tflops)
    (match vram with Some q => show_num show_frac (num_Z (round_pos q)) | None => js "0" end)
    (remote_of node).

(** ** HTML *)

(** [card.innerHTML] of a node *)
Definition card_pieces (isDe : bool) (d : card_data) : list piece :=
  [Lit (jsq "
      <div class=`market-card-head`>
        <div class=`gpu-badge ");
   Hole (badge_class (d_gpu d));
   Lit (jsq "`>");
   Hole (badge_text d);
   Lit (jsq "</div>
        <span class=`status-pill ");
   Hole (if d_online d then js "online" else js "offline");
   Lit (jsq "`>
          ");
   Lit (if d_online d then jsq "<span class=`pulse-dot`></span> Online" else js "Standby");
   Lit (jsq "
        </span>
      </div>
      <h3 class=`market-gpu-name` style=`font-family: var(--font-mono); font-size: 1.15rem; color: #ffffff;`>");
   Hole (escape5 (d_id d));
   Lit (jsq "</h3>
      <p class=`market-gpu-sub`>");
   Hole (escape5 (d_gpus d));
   Lit (jsq "</p>
      <div class=`market-specs-row`>
        <div class=`spec-box`><span class=`spec-lbl`>VRAM</span><span class=`spec-val`>");
   Hole (measured isDe " GB" (d_vram d));
   Lit (jsq "</span></div>
        <div class=`spec-box`><span class=`spec-lbl`>AI Power</span><span class=`spec-val`>");
   Hole (measured isDe " TFLOPS" (d_tflops d));
   Lit (jsq "</span></div>
        <div class=`spec-box`><span class=`spec-lbl`>");
   Hole (word isDe "Status" "Status");
   Lit (jsq "</span><span class=`spec-val`>");
   Hole (if d_online d then js "Online" else js "Standby");
   Lit (jsq "</span></div>
      </div>
      <div class=`market-price-row`>
        <div>
          <span class=`price-val`>");
   Hole (word isDe "Tarif nach Modell" "Price by model");
   Lit (jsq "</span>
          <div class=`hourly-est`>");
   Hole (word isDe "Preis vor Auftrag prüfen" "Check price before request");
   Lit (jsq "</div>
        </div>
        <span class=`verified-tag`>");
   Hole (word isDe "✓ Echter Mesh-Knoten" "✓ Real Mesh Node");
   Lit (jsq "</span>
      </div>
      <div class=`market-card-actions`>
        <a class=`btn btn-primary btn-sm` href=`/models`>");
   Hole (word isDe "Modelle ansehen" "View models");
   Lit (js "</a>
        ")]
  ++ (if truthy (d_remote d) then
   [Lit (jsq "<a href=`");
   Hole (escape5 (d_remote d));
   Lit (jsq "` target=`_blank` rel=`noopener` class=`btn btn-secondary btn-sm`>🖥️ Node Dashboard</a>")]
   else [])
  ++ [Lit (js "
      </div>
    ")].

Definition card_html (isDe : bool) (d : card_data) : jsstring := fill (card_pieces isDe d).

(** The page when a successful answer lists no node. *)
Definition empty_pieces (isDe : bool) : list piece :=
  [Lit (jsq "
      <div class=`market-card highlight` style=`grid-column: 1 / -1; text-align: center; padding: 3rem 2rem; background: linear-gradient(145deg, rgba(15, 23, 42, 0.9), rgba(56, 189, 248, 0.08)); border: 1px dashed rgba(56, 189, 248, 0.35);`>
        <div style=`font-size: 2.5rem; margin-bottom: 0.75rem;`>🌐</div>
        <h3 style=`font-size: 1.5rem; margin-bottom: 0.5rem;`>");
   Hole (word isDe "Keine Knoten in dieser Flottenansicht" "No nodes in this fleet view");
   Lit (jsq "</h3>
        <p style=`color: var(--text-muted); max-width: 620px; margin: 0 auto 1.5rem auto; font-size: 0.95rem; line-height: 1.6;`>
          ");
   Hole (word isDe "Das Gateway hat für diese Anmeldung derzeit keine sichtbaren Knoten gemeldet." "The gateway currently reports no visible nodes for this sign-in.");
   Lit (jsq "
        </p>
        <div style=`display: flex; gap: 1rem; justify-content: center; flex-wrap: wrap;`>
          <button class=`btn btn-primary` onclick=`openModal('consumer')`>");
   Hole (word isDe "🚀 API-Key holen" "🚀 Get API Key");
   Lit (jsq "</button>
          <a href=`/downloads` class=`btn btn-emerald`>");
   Hole (word isDe "⚡ Provider-Software laden (.exe / Linux / NodeOS)" "⚡ Download Provider Agent");
   Lit (js "</a>
        </div>
      </div>
    ")].

(** The card that invites to connect a node, after the others. *)
Definition add_pieces (isDe : bool) : list piece :=
  [Lit (jsq "
    <div>
      <div class=`market-card-head`>
        <div class=`gpu-badge rig` style=`background: rgba(16, 185, 129, 0.15); color: var(--accent-emerald); border-color: rgba(16, 185, 129, 0.3);`>75% REVENUE SHARE</div>
        <span class=`status-pill online` style=`color: var(--accent-emerald);`><span class=`pulse-dot`></span> ");
   Hole (word isDe "Live-Kopplung" "Live Pairing");
   Lit (jsq "</span>
      </div>
      <h3 class=`market-gpu-name` style=`font-size: 1.25rem;`>+ ");
   Hole (word isDe "Eigenen GPU-Node verbinden" "Connect Your GPU Node");
   Lit (jsq "</h3>
      <p class=`market-gpu-sub`>");
   Hole (word isDe "Windows Agent, Linux Headless Daemon oder Mining Rig OS (NodeOS)." "Windows Agent, Linux Headless Daemon or Mining Rig OS (NodeOS).");
   Lit (jsq "</p>
      <div style=`font-size: 0.88rem; color: var(--text-muted); line-height: 1.5; margin-top: 0.75rem; margin-bottom: 1.25rem;`>
        ");
   Hole (word isDe "Schließe deine Gaming-GPU, Workstation oder dein Mining-Rig an und erhalte automatische Auszahlungen ab 25 €/$ über Stripe Connect." "Connect your gaming GPU, workstation or mining rig and receive automatic payouts from 25 €/$ via Stripe Connect.");
   Lit (jsq "
      </div>
    </div>
    <div class=`market-card-actions`>
      <a href=`/downloads` class=`btn btn-emerald btn-sm` style=`width: 100%; text-align: center; text-decoration: none; font-weight: 700;`>");
   Hole (word isDe "Provider-Software herunterladen ➔" "Download Provider Software ➔");
   Lit (js "</a>
    </div>
  ")].

(** ** State *)

Inductive fetch_state : Type := Loading | NeedsAuth | Ready | Broken.

Record filters := Filters { f_gpu : option jsstring; f_vram : option jsstring; f_status : option jsstring; f_search : jsstring }.

Record card := Card { c_data : card_data; c_html : jsstring; c_shown : bool }.

Inductive grid : Type :=
| AuthNotice (heading body link : jsstring) (shown : bool)
| EmptyGrid (html : jsstring) (shown : bool)
| CardGrid (cards : list card) (addCard : jsstring).

Record market := Market {
  lastNodes : list jsval;
  fetchState : fetch_state;
  currentFilters : filters;
  search_input : option jsstring;
  view : grid;
}.

(** ** Filters *)

(** The attributes and the text of an element of the grid against the filters ([None] is
    ['all']). *)
Definition passes (f : filters) (gpu vram status text : jsstring) : bool :=
  let matchGpu := match f_gpu f with None => true | Some g => seqb gpu g end in
  let matchVram := match f_vram f with None => true | Some v => num_le (parseInt10 v) (parseInt10 vram) end in
  let matchStatus := match f_status f with None => true | Some x => seqb status x end in
  let matchSearch := negb (truthy (f_search f)) || includes (f_search f) (toLowerCase text) in
  matchGpu && matchVram && matchStatus && matchSearch.

Definition matches (f : filters) (c : card) : bool :=
  let d := c_data c in
  passes f (category_name (d_gpu d)) (d_vram_attr d) (if d_online d then js "online" else js "standby")
    (text_content (c_html c)).

Definition show_card (f : filters) (c : card) : card := Card (c_data c) (c_html c) (matches f c).

(** The display of every element of the grid but the card that invites to connect a node;
    a notice has none of the attributes. *)
Definition show_grid (f : filters) (v : grid) : grid :=
  match v with
  | AuthNotice h b l _ => AuthNotice h b l (passes f [] (js "0") [] (h ++ b ++ l))
  | EmptyGrid html _ => EmptyGrid html (passes f [] (js "0") [] (text_content html))
  | CardGrid cs add => CardGrid (show_card f <$> cs) add
  end.

(** [filterMarketplace()]: reads the search box, then sets the display. *)
Definition filterMarketplace (s : market) : market :=
  let f := Filters (f_gpu (currentFilters s)) (f_vram (currentFilters s)) (f_status (currentFilters s))
             (match search_input s with Some v => trim (toLowerCase v) | None => [] end) in
  Market (lastNodes s) (fetchState s) f (search_input s) (show_grid f (view s)).

Inductive filter_type : Type := FGpu | FVram | FStatus.

(** [setMarketFilter(type, val)] *)
Definition setMarketFilter (t : filter_type) (v : option jsstring) (s : market) : market :=
  let f := currentFilters s in
  let f' := match t with
            | FGpu => Filters v (f_vram f) (f_status f) (f_search f)
            | FVram => Filters (f_gpu f) v (f_status f) (f_search f)
            | FStatus => Filters (f_gpu f) (f_vram f) v (f_search f)
            end in
  filterMarketplace (Market (lastNodes s) (fetchState s) f' (search_input s) (view s)).

(** ** Rendering and loading *)

Definition notice (isDe : bool) (st : fetch_state) : grid :=
  AuthNotice
    (match st with
     | NeedsAuth => word isDe "Knotendetails erfordern eine Anmeldung" "Sign in to view node details"
     | Loading => word isDe "Knotendaten werden geladen" "Loading node data"
     | _ => word isDe "Knotendaten sind momentan nicht verfügbar" "Node data is currently unavailable"
     end)
    (word isDe "Öffentliche GPU- und Knotenzahlen stehen in der Live-Übersicht. Persönliche Flottendetails sind geschützt."
               "Public GPU and node counts appear in the live overview. Personal fleet details are protected.")
    (word isDe "Zur Flottenanmeldung" "Open fleet sign-in") true.

(** [renderRealMarketplaceCards(nodes, isDe)]; entries that are no objects are skipped. *)
Definition renderRealMarketplaceCards (nodes : list jsval) (isDe : bool) (s : market) : market :=
  match nodes with
  | [] =>
      Market (lastNodes s) (fetchState s) (currentFilters s) (search_input s)
        (match fetchState s with Ready => EmptyGrid (fill (empty_pieces isDe)) true | st => notice isDe st end)
  | _ =>
      let cards := (fun n => let d := data_of n in Card d (card_html isDe d) true)
                     <$> List.filter (fun n => vtruthy n && is_object n) nodes in
      filterMarketplace (Market (lastNodes s) (fetchState s) (currentFilters s) (search_input s)
        (CardGrid cards (fill (add_pieces isDe))))
  end.

(** The answer to the poll of the fleet: a status with a body (when it is JSON), or a
    network failure. *)
Inductive fleet_reply : Type := FleetError | Fleet (status : Z) (body : option jsval).

(** [loadRealMarketplaceData()] after its awaits. *)
Definition loadRealMarketplaceData (isDe : bool) (r : fleet_reply) (s : market) : market :=
  let fail := renderRealMarketplaceCards (lastNodes s) isDe
    (Market (lastNodes s) (match fetchState s with Ready => Ready | _ => Broken end)
       (currentFilters s) (search_input s) (view s)) in
  match r with
  | FleetError => fail
  | Fleet status body =>
      if (status =? 401) || (status =? 403) then
        renderRealMarketplaceCards [] isDe (Market [] NeedsAuth (currentFilters s) (search_input s) (view s))
      else if negb ((200 <=? status) && (status <? 300)) then fail
      else match body with
           | None => fail
           | Some data =>
               let nodes := if vtruthy data then array_or_nil (prop data (js "nodes")) else [] in
               renderRealMarketplaceCards nodes isDe (Market nodes Ready (currentFilters s) (search_input s) (view s))
           end
  end.

Inductive event : Type :=
| Polled (isDe : bool) (r : fleet_reply)
| SetFilter (t : filter_type) (v : option jsstring)
| Search (v : jsstring)
| SwitchLanguage (isDe : bool).

Definition step (s : market) (e : event) : market :=
  match e with
  | Polled isDe r => loadRealMarketplaceData isDe r s
  | SetFilter t v => setMarketFilter t v s
  | Search v => filterMarketplace (Market (lastNodes s) (fetchState s) (currentFilters s) (Some v) (view s))
  | SwitchLanguage isDe => renderRealMarketplaceCards (lastNodes s) isDe s
  end.

Definition exec (s : market) (es : list event) : market := fold_left step es s.

Definition page_load (search : option jsstring) (v : grid) : market :=
  Market [] Loading (Filters None None None []) search v.

(** ** The markup of a card *)

(** [String] of a number has no angle bracket. *)
Context (show_frac_plain : forall q, 60%N ∉ show_frac q).

Lemma word_quiet isDe de en : 60%N ∉ js de -> 60%N ∉ js en -> quiet InText (word isDe de en).
Proof. by destruct isDe. Qed.

Lemma show_num_plain n : 60%N ∉ show_num show_frac n.
Proof.
  destruct n as [q| | |]; cbn [show_num]; [|plain_lit..].
  destruct (_ && _); [|apply show_frac_plain]. intros H%show_Z_plain. lia.
Qed.

Lemma fixed1_plain q : 60%N ∉ fixed1 q.
Proof. unfold fixed1. destruct (Qltb _ _); [|apply show_num_plain]. intros H%toFixed_plain. lia. Qed.

(** What [data_of] computes from a node: the figures are printed numbers. *)
Definition figures_ok (d : card_data) : Prop :=
  (forall t, d_vram d = Some t -> 60%N ∉ t) /\ (forall t, d_tflops d = Some t -> 60%N ∉ t).

Lemma data_of_figures node : figures_ok (data_of node).
Proof.
  split; intros t; cbn; destruct (positive _); cbn; try done; intros [= <-]; apply fixed1_plain.
Qed.

Lemma measured_quiet isDe u v :
  60%N ∉ js u -> (forall t, v = Some t -> 60%N ∉ t) -> quiet InText (measured isDe u v).
Proof.
  intros Hu Hv. destruct v as [t|]; cbn [measured]; [|apply word_quiet; plain_lit].
  cbn [quiet]. rewrite elem_of_app. intros [H|H]; [by apply (Hv t)|done].
Qed.

Lemma badge_text_quiet d : quiet InText (badge_text d).
Proof.
  unfold badge_text. destruct (d_gpu d); cbn [quiet]; [plain_lit..|].
  rewrite elem_of_app. intros [H|H].
  - pose proof (show_N_digits (N.of_nat (d_count d))) as F. rewrite Forall_forall in F.
    apply F, digit_range in H. lia.
  - revert H. change (60%N ∉ js "x Multi-GPU Cluster"). plain_lit.
Qed.

Lemma badge_class_quiet c : quiet InDouble (badge_class c).
Proof. destruct c; cbn [quiet badge_class]; plain_lit. Qed.

Ltac hole_quiet :=
  match goal with
  | |- quiet _ (escape5 _) => apply escape5_quiet; discriminate
  | |- quiet _ (word _ _ _) => apply word_quiet; plain_lit
  | |- quiet _ (measured _ _ _) => apply measured_quiet; [plain_lit|assumption]
  | |- quiet _ (badge_text _) => apply badge_text_quiet
  | |- quiet _ (badge_class _) => apply badge_class_quiet
  | |- quiet _ (js _) => cbn [quiet]; plain_lit
  end.

Lemma card_holes isDe d : figures_ok d -> holes_ok InText (card_pieces isDe d).
Proof.
  intros [Hv Ht]. unfold card_pieces. destruct (truthy (d_remote d)); cbn [app];
    destruct (d_online d); cbv iota; template_ok; hole_quiet.
Qed.

Lemma blank_card isDe isDe' d d' :
  d_online d = d_online d' -> truthy (d_remote d) = truthy (d_remote d') ->
  blank <$> card_pieces isDe d = blank <$> card_pieces isDe' d'.
Proof. intros E1 E2. unfold card_pieces. rewrite E1, E2. by destruct (truthy (d_remote d')). Qed.

(** The markup of a node's card depends on nothing but whether the node is online and has
    a dashboard address: whatever its operator reports as name, GPUs, figures or address
    adds no element and no attribute to the page, in either language. *)
Theorem market_card_markup isDe isDe' node node' :
  d_online (data_of node) = d_online (data_of node') ->
  truthy (d_remote (data_of node)) = truthy (d_remote (data_of node')) ->
  skeleton InText (card_html isDe (data_of node)) = skeleton InText (card_html isDe' (data_of node')).
Proof.
  intros E1 E2. unfold card_html.
  rewrite (proj1 (fill_skeleton _ _ (card_holes isDe _ (data_of_figures node)))).
  rewrite (proj1 (fill_skeleton _ _ (card_holes isDe' _ (data_of_figures node')))).
  by rewrite (blank_card isDe isDe' _ (data_of node') E1 E2).
Qed.

(** ** The grid *)

(** The grid holds the nodes of the last answer, in order, each as its card; nodes are only
    kept after a successful answer. *)
Definition listing (s : market) : Prop :=
  (lastNodes s <> [] -> fetchState s = Ready)
  /\ match view s with
     | CardGrid cs _ =>
         exists isDe, c_data <$> cs = data_of <$> List.filter (fun n => vtruthy n && is_object n) (lastNodes s)
           /\ Forall (fun c => c_html c = card_html isDe (c_data c)) cs
     | _ => lastNodes s = []
     end.

(** Exactly the cards that pass the filters are visible. *)
Definition filtered (s : market) : Prop :=
  match view s with
  | CardGrid cs _ => Forall (fun c => c_shown c = matches (currentFilters s) c) cs
  | _ => True
  end.

Lemma show_card_data f (cs : list card) : c_data <$> (show_card f <$> cs) = c_data <$> cs.
Proof. rewrite <- list_fmap_compose. by apply list_fmap_ext. Qed.

Lemma filter_consistent s : listing s -> listing (filterMarketplace s) /\ filtered (filterMarketplace s).
Proof.
  intros [H1 H2]. unfold listing, filtered, filterMarketplace. cbn [view lastNodes currentFilters fetchState].
  destruct (view s) as [h b l sh|html sh|cs add]; cbn [show_grid]; try done.
  destruct H2 as (isDe & E & F). split; [split; [done|]|].
  - exists isDe. rewrite show_card_data. split; [done|]. by apply Forall_fmap.
  - apply Forall_fmap, Forall_true. done.
Qed.

Lemma render_consistent nodes isDe s :
  lastNodes s = nodes -> (nodes <> [] -> fetchState s = Ready) ->
  listing (renderRealMarketplaceCards nodes isDe s) /\ filtered (renderRealMarketplaceCards nodes isDe s).
Proof.
  intros E Hr. unfold renderRealMarketplaceCards. destruct nodes as [|n ns].
  - unfold listing, filtered. cbn [view lastNodes fetchState]. rewrite E. by destruct (fetchState s).
  - cbv zeta. apply filter_consistent. split; cbn [view lastNodes fetchState]; rewrite E; [exact Hr|].
    exists isDe. rewrite <- list_fmap_compose. split; [done|]. by apply Forall_fmap, Forall_true.
Qed.

Lemma load_consistent isDe r s :
  listing s -> listing (loadRealMarketplaceData isDe r s) /\ filtered (loadRealMarketplaceData isDe r s).
Proof.
  intros [H1 _]. unfold loadRealMarketplaceData. cbv zeta.
  set (fail := renderRealMarketplaceCards _ _ _).
  assert (Hf : listing fail /\ filtered fail).
  { apply render_consistent; [done|]. cbn [fetchState]. intros Hn. by rewrite (H1 Hn). }
  destruct r as [|status body]; [exact Hf|]. destruct (_ || _); [by apply render_consistent|].
  destruct (negb _); [exact Hf|]. destruct body as [data|]; [|exact Hf]. by apply render_consistent.
Qed.

Lemma step_consistent s e : listing s -> listing (step s e) /\ filtered (step s e).
Proof.
  intros H. destruct e as [isDe r|t v|v|isDe]; cbn [step].
  - by apply load_consistent.
  - by apply filter_consistent.
  - by apply filter_consistent.
  - apply render_consistent; [done|apply H].
Qed.

(** Whatever answers, filters, searches and changes of the language follow each other, the
    grid holds exactly the nodes of the last successful answer in their order, every card
    is the rendering of its node, and after each event exactly the cards that pass the
    current filters are visible. *)
Theorem marketplace_shows_matching_nodes s es e :
  listing s -> listing (exec s (es ++ [e])) /\ filtered (exec s (es ++ [e])).
Proof.
  intros H. unfold exec. rewrite fold_left_app. apply step_consistent.
  apply (fold_invariant step listing (fun _ => True)); [|by apply Forall_true|done].
  intros s' e' _ Hs. by apply step_consistent.
Qed.

(** Filters of different kinds are independent of each other. *)
Theorem market_filters_commute t t' v v' s :
  t <> t' -> setMarketFilter t v (setMarketFilter t' v' s) = setMarketFilter t' v' (setMarketFilter t v s).
Proof.
  intros Ht. assert (G : forall f f' w, show_grid f (show_grid f' w) = show_grid f w).
  { intros f f' [h b l sh|html sh|cs add]; cbn; try done. f_equal. rewrite <- list_fmap_compose. by apply list_fmap_ext. }
  destruct t, t'; try done; unfold setMarketFilter, filterMarketplace; cbn; by rewrite !G.
Qed.

End Market.

(** ** Concrete inputs *)

Definition no_url (s : jsstring) : option (jsstring * jsstring) := None.
Definition plain_frac (q : Q) : jsstring := [].
Definition same (s : jsstring) : jsstring := s.

Definition hostile_node : jsval :=
  VObj [(js "node_id", VStr (jsq "<img src=x onerror=`alert(1)`>")); (js "is_online", VBool true);
        (js "gpus", VArr [VStr (js "RTX 3080"); VStr (js "</p><script>")]); (js "vram_gb", VNum (num_Z 20))].

Definition plain_node : jsval := VObj [(js "node_id", VStr (js "n1")); (js "status", VStr (js "online"))].

Lemma market_card_markup_witness :
  skeleton InText (card_html true (data_of plain_frac no_url hostile_node))
  = skeleton InText (card_html false (data_of plain_frac no_url plain_node)).
Proof.
  apply (market_card_markup plain_frac no_url); [|vm_compute; reflexivity..].
  intros q. apply not_elem_of_nil.
Defined.

Definition two_nodes : jsval := VObj [(js "nodes", VArr [hostile_node; plain_node])].

Lemma marketplace_shows_matching_nodes_witness :
  let s := exec plain_frac no_url same same (page_load (Some []) (notice false Loading))
             ([Polled false (Fleet 200 (Some two_nodes))] ++ [SetFilter FGpu (Some (js "rig"))]) in
  filtered same same s
  /\ (match view s with CardGrid cs _ => c_shown <$> cs | _ => [] end) = [true; false].
Proof.
  intros s. split; [|vm_compute; reflexivity].
  refine (proj2 (marketplace_shows_matching_nodes plain_frac no_url same same (page_load (Some []) (notice false Loading)) _ _ _)).
  split; done.
Defined.
