(* ===== verification/Checkout.v ===== *)
(** * Checkout and contact forms (portal-core.js)

    The deposit modal ([openDepositModal], [closeDepositModal],
    [handleDepositSubmit]) and the contact form ([handleContactSubmit]).  The
    asynchronous handlers are cut at their [await]s: the synchronous prefix is
    one step, and the continuation after each awaited promise is another, so
    that runs interleave user clicks with network events. *)
From Stdlib Require Import Lia ZArith QArith.
From stdpp Require Import base numbers list gmap strings.
From S2P Require Import Prelude JsString JsNumber JsValue.

Module Deposit.

(** ** State *)

(** [element.textContent = t] or [element.innerHTML = t] *)
Inductive content : Type := Text (t : jsstring) | Html (t : jsstring).

Record button := Button {
  checkoutBusy : option jsstring;
  checkoutCompleted : option jsstring;
  checkoutIdempotencyKey : option jsstring;
  disabled : bool;
  label : jsstring;
}.

Record box := Box {
  display : jsstring;
  background : jsstring;
  color : jsstring;
  body : content;
}.

(** What [fetch('/v1/billing/checkout', ...)] is given. *)
Record request := Request {
  authorization : jsstring;
  idempotency_key : jsstring;
  amount_usd : num;
}.

(** The promise an attempt is waiting for. *)
Inductive stage : Type := AwaitFetch | AwaitText | AwaitJson.

#[export] Instance stage_eq_dec : EqDecision stage.
Proof. solve_decision. Defined.

Record state := State {
  modal_active : option bool;
  keyInput : option jsstring;
  amountSelect : option jsstring;
  msgBox : option box;
  btn : option button;
  currentLang : lang;
  inflight : gmap nat stage;
  next_id : nat;
  requests : list request;
  alerts : list jsstring;
  opened : list jsval;
  href : option jsstring;
}.

Definition set_btn (b : option button) (s : state) : state :=
  State (modal_active s) (keyInput s) (amountSelect s) (msgBox s) b (currentLang s)
        (inflight s) (next_id s) (requests s) (alerts s) (opened s) (href s).
Definition set_box (m : option box) (s : state) : state :=
  State (modal_active s) (keyInput s) (amountSelect s) m (btn s) (currentLang s)
        (inflight s) (next_id s) (requests s) (alerts s) (opened s) (href s).
Definition set_inflight (f : gmap nat stage) (s : state) : state :=
  State (modal_active s) (keyInput s) (amountSelect s) (msgBox s) (btn s) (currentLang s)
        f (next_id s) (requests s) (alerts s) (opened s) (href s).

Definition box_msg (bg col : jsstring) (c : content) (m : box) : box :=
  Box (display m) bg col c.

Definition proceed_label (l : lang) : jsstring :=
  tr l (js "Weiter zu Stripe Checkout →") (js "Proceed to Stripe Checkout →").

(** ** Handlers *)

Section Handlers.
Context (show_frac : Q -> jsstring).

Definition openDepositModal (s : state) : state :=
  match modal_active s with
  | Some _ =>
      State (Some true) (keyInput s) (amountSelect s)
        ((fun m => Box (js "none") (background m) (color m) (body m)) <$> msgBox s)
        ((fun b => Button None None None false (label b)) <$> btn s)
        (currentLang s) (inflight s) (next_id s) (requests s) (alerts s) (opened s) (href s)
  | None =>
      State None (keyInput s) (amountSelect s) (msgBox s) (btn s) (currentLang s)
        (inflight s) (next_id s) (requests s) (alerts s) (opened s) (Some (js "/?action=deposit"))
  end.

Definition closeDepositModal (s : state) : state :=
  State ((fun _ => false) <$> modal_active s) (keyInput s) (amountSelect s) (msgBox s) (btn s)
    (currentLang s) (inflight s) (next_id s) (requests s) (alerts s) (opened s) (href s).

Definition is_one (d : option jsstring) : bool :=
  match d with Some v => seqb v (js "1") | None => false end.

(** [if (!btn.dataset.checkoutIdempotencyKey) ... = fresh] *)
Definition ensure_key (fresh : jsstring) (b : button) : jsstring :=
  match checkoutIdempotencyKey b with
  | Some k => if truthy k then k else fresh
  | None => fresh
  end.

(** The synchronous part of [handleDepositSubmit], up to [await fetch(...)].
    [fresh] is what [crypto.randomUUID()] (or its fallback) returns. *)
Definition handleDepositSubmit (fresh : jsstring) (s : state) : state :=
  match keyInput s, amountSelect s, msgBox s, btn s with
  | Some keyv, Some amountv, Some m, Some b =>
      if is_one (checkoutBusy b) || is_one (checkoutCompleted b) then s
      else
        let apiKey := trim keyv in
        let amountUsd := parseFloat amountv in
        if negb (truthy apiKey) then
          State (modal_active s) (keyInput s) (amountSelect s) (msgBox s) (btn s) (currentLang s)
            (inflight s) (next_id s) (requests s)
            (alerts s ++ [tr (currentLang s) (js "Bitte gib deinen API-Schlüssel ein.")
                            (js "Please enter your API key.")])
            (opened s) (href s)
        else
          let k := ensure_key fresh b in
          State (modal_active s) (keyInput s) (amountSelect s)
            (Some (Box (js "block") (js "rgba(0, 242, 254, 0.1)") (js "var(--primary)")
                     (Text (tr (currentLang s) (js "Verbinde mit Stripe...") (js "Connecting to Stripe...")))))
            (Some (Button (Some (js "1")) (checkoutCompleted b) (Some k) true
                     (tr (currentLang s) (js "Erstelle Checkout-Session...") (js "Creating checkout session..."))))
            (currentLang s) (<[next_id s := AwaitFetch]> (inflight s)) (S (next_id s))
            (requests s ++ [Request (js "Bearer " ++ apiKey) k amountUsd])
            (alerts s) (opened s) (href s)
  | _, _, _, _ => s
  end.

(** [btn.disabled = false; btn.textContent = ...] *)
Definition enable (l : lang) (b : button) : button :=
  Button (checkoutBusy b) (checkoutCompleted b) (checkoutIdempotencyKey b) false (proceed_label l).

(** The [finally] block; the attempt leaves the in-flight table. *)
Definition finally (id : nat) (s : state) : state :=
  let s1 := set_inflight (delete id (inflight s)) s in
  set_btn ((fun b =>
    let b1 := Button None (checkoutCompleted b) (checkoutIdempotencyKey b) (disabled b) (label b) in
    if is_one (checkoutCompleted b1) then b1 else enable (currentLang s) b1) <$> btn s) s1.

(** The [catch] block, then [finally]. *)
Definition catch_error (id : nat) (message : jsstring) (s : state) : state :=
  finally id (set_box (box_msg (js "rgba(239, 68, 68, 0.15)") (js "var(--accent-red)")
                        (Text (js "Network Error: " ++ message)) <$> msgBox s) s).

(** [await fetch(...)] resolves with [res.ok = ok]. *)
Definition on_response (id : nat) (ok : bool) (s : state) : state :=
  if decide (inflight s !! id = Some AwaitFetch)
  then set_inflight (<[id := if ok then AwaitJson else AwaitText]> (inflight s)) s
  else s.

(** [await res.text()] of a response that is not [ok]. *)
Definition on_error_text (id : nat) (err : jsstring) (s : state) : state :=
  if decide (inflight s !! id = Some AwaitText)
  then finally id
         (set_btn (enable (currentLang s) <$> btn s)
           (set_box (box_msg (js "rgba(239, 68, 68, 0.15)") (js "var(--accent-red)")
                       (Text (js "Error: " ++ err)) <$> msgBox s) s))
  else s.

(** [await res.json()]: the success message, [window.open] and [finally]; reading
    [data.checkout_url] of [null] throws into the [catch] block. *)
Definition on_data (id : nat) (data : jsval) (s : state) : state :=
  if decide (inflight s !! id = Some AwaitJson) then
    let paint c m := box_msg (js "rgba(16, 185, 129, 0.15)") (js "var(--accent-emerald)") c m in
    match get data (js "checkout_url") with
    | Throw message => catch_error id message (set_box ((fun m => paint (body m) m) <$> msgBox s) s)
    | Ret url =>
        let s1 := set_box (paint (Html (jsq "✓ Checkout Session created! <a href=`" ++ to_str show_frac url ++
                    jsq "` target=`_blank` style=`color: #00f2fe; text-decoration: underline; font-weight: bold;`>Click here to complete payment on Stripe →</a>"))
                    <$> msgBox s) s in
        let s2 := set_btn ((fun b => Button (checkoutBusy b) (Some (js "1")) (checkoutIdempotencyKey b)
                    (disabled b) (tr (currentLang s) (js "Checkout geöffnet") (js "Checkout opened"))) <$> btn s1) s1 in
        finally id (State (modal_active s2) (keyInput s2) (amountSelect s2) (msgBox s2) (btn s2)
          (currentLang s2) (inflight s2) (next_id s2) (requests s2) (alerts s2)
          (opened s2 ++ [url]) (href s2))
    end
  else s.

(** Any of the awaited promises rejects. *)
Definition on_reject (id : nat) (message : jsstring) (s : state) : state :=
  match inflight s !! id with Some _ => catch_error id message s | None => s end.

(** ** Events *)

Inductive event : Type :=
| Open
| Close
| Submit (fresh : jsstring)
| Response (id : nat) (ok : bool)
| ErrorText (id : nat) (err : jsstring)
| Data (id : nat) (data : jsval)
| Reject (id : nat) (message : jsstring)
| EditKey (v : jsstring)
| EditAmount (v : jsstring)
| SetLang (l : lang).

Definition step (s : state) (e : event) : state :=
  match e with
  | Open => openDepositModal s
  | Close => closeDepositModal s
  | Submit fresh => handleDepositSubmit fresh s
  | Response id ok => on_response id ok s
  | ErrorText id err => on_error_text id err s
  | Data id data => on_data id data s
  | Reject id message => on_reject id message s
  | EditKey v =>
      State (modal_active s) ((fun _ => v) <$> keyInput s) (amountSelect s) (msgBox s) (btn s)
        (currentLang s) (inflight s) (next_id s) (requests s) (alerts s) (opened s) (href s)
  | EditAmount v =>
      State (modal_active s) (keyInput s) ((fun _ => v) <$> amountSelect s) (msgBox s) (btn s)
        (currentLang s) (inflight s) (next_id s) (requests s) (alerts s) (opened s) (href s)
  | SetLang l =>
      State (modal_active s) (keyInput s) (amountSelect s) (msgBox s) (btn s) l
        (inflight s) (next_id s) (requests s) (alerts s) (opened s) (href s)
  end.

Definition exec (s : state) (es : list event) : state := fold_left step es s.

Definition not_open (e : event) : Prop := match e with Open => False | _ => True end.

(** ** Single flight *)

(** The button's busy flag is set exactly while one attempt is in flight. *)
Definition single_flight (s : state) : Prop :=
  match btn s with
  | None => inflight s = ∅
  | Some b =>
      (checkoutBusy b = None /\ inflight s = ∅ /\
       (is_one (checkoutCompleted b) = false -> requests s <> [] -> disabled b = false))
      \/ (checkoutBusy b = Some (js "1") /\ is_one (checkoutCompleted b) = false /\
          disabled b = true /\ exists id st, inflight s = {[id := st]})
  end.

(** What the [finally] block leaves behind. *)
Lemma finally_fields id s b :
  btn s = Some b ->
  inflight (finally id s) = delete id (inflight s) /\
  requests (finally id s) = requests s /\
  btn (finally id s) =
    Some (if is_one (checkoutCompleted b)
          then Button None (checkoutCompleted b) (checkoutIdempotencyKey b) (disabled b) (label b)
          else Button None (checkoutCompleted b) (checkoutIdempotencyKey b) false
                 (proceed_label (currentLang s))).
Proof. intros E. unfold finally. simpl. rewrite E. simpl. by destruct (is_one _). Qed.

Lemma finally_single id s b st :
  btn s = Some b -> inflight s = {[id := st]} ->
  single_flight (finally id s).
Proof.
  intros Eb Ef. destruct (finally_fields id s b Eb) as (F & Rq & B).
  unfold single_flight. rewrite B, F, Ef, delete_singleton_eq.
  left. destruct (is_one (checkoutCompleted b)) eqn:E; simpl; rewrite ?E; done.
Qed.

(** Under the invariant, a live attempt is the only one. *)
Lemma single_flight_live s id st :
  single_flight s -> inflight s !! id = Some st ->
  exists b, btn s = Some b /\ inflight s = {[id := st]} /\ is_one (checkoutCompleted b) = false
            /\ checkoutBusy b = Some (js "1") /\ disabled b = true.
Proof.
  unfold single_flight. intros HI Hl. destruct (btn s) as [b|]; [|by rewrite HI in Hl].
  destruct HI as [(_ & Hf & _)|(Hb & Hc & Hd & i & t & Hf)]; rewrite Hf in Hl.
  - by rewrite lookup_empty in Hl.
  - apply lookup_singleton_Some in Hl as [-> ->]. eauto 10.
Qed.

Lemma single_flight_submit fresh s : single_flight s -> single_flight (handleDepositSubmit fresh s).
Proof.
  intros HI. unfold handleDepositSubmit.
  destruct (btn s) as [b|] eqn:Eb, (keyInput s), (amountSelect s), (msgBox s); try done.
  destruct (is_one (checkoutBusy b) || is_one (checkoutCompleted b)) eqn:E; [done|].
  destruct (negb _); [by unfold single_flight in *; simpl; rewrite Eb in *|].
  bool_norm. unfold single_flight in *. rewrite Eb in HI. simpl. right.
  destruct HI as [(_ & -> & _)|(Hb & _)]; [|by rewrite Hb in *].
  split_and!; try done. exists (next_id s), AwaitFetch. by rewrite insert_empty.
Qed.

Lemma single_flight_step s e : not_open e -> single_flight s -> single_flight (step s e).
Proof.
  destruct e; simpl; intros Hno HI; try done.
  - by apply single_flight_submit.
  - unfold on_response. case_decide as Hl; [|done].
    destruct (single_flight_live _ _ _ HI Hl) as (b & Eb & Ef & Hc & Hb & Hd).
    unfold single_flight. simpl. rewrite Eb, Ef, insert_singleton_eq. right. eauto 10.
  - unfold on_error_text. case_decide as Hl; [|done].
    destruct (single_flight_live _ _ _ HI Hl) as (b & Eb & Ef & _).
    eapply finally_single; simpl; [by rewrite Eb|done].
  - unfold on_data. case_decide as Hl; [|done].
    destruct (single_flight_live _ _ _ HI Hl) as (b & Eb & Ef & _).
    destruct (get data _); eapply finally_single; simpl; by rewrite ?Eb.
  - unfold on_reject. destruct (inflight s !! id) eqn:Hl; [|done].
    destruct (single_flight_live _ _ _ HI Hl) as (b & Eb & Ef & _).
    by eapply finally_single.
Qed.

(** ** One idempotency key per opening of the modal *)

(** Every request sent so far carries the key stored on the button. *)
Definition keyed (s : state) : Prop :=
  forall r, r ∈ requests s -> truthy (idempotency_key r) = true /\
    exists b, btn s = Some b /\ checkoutIdempotencyKey b = Some (idempotency_key r).

(** [crypto.randomUUID()] never returns the empty string. *)
Definition fresh_ok (e : event) : Prop :=
  match e with Submit fresh => truthy fresh = true | _ => True end.

Lemma keyed_mono s s' :
  requests s' = requests s ->
  (forall b, btn s = Some b -> exists b', btn s' = Some b' /\
     checkoutIdempotencyKey b' = checkoutIdempotencyKey b) ->
  keyed s -> keyed s'.
Proof.
  intros Er Hb HK r Hr. rewrite Er in Hr. destruct (HK r Hr) as (Ht & b & Eb & Ek).
  split; [done|]. destruct (Hb b Eb) as (b' & Eb' & Ek'). exists b'. by rewrite Ek'.
Qed.

Lemma finally_keeps_key id s b k :
  btn s = Some b -> checkoutIdempotencyKey b = k ->
  exists b', btn (finally id s) = Some b' /\ checkoutIdempotencyKey b' = k.
Proof.
  intros E <-. destruct (finally_fields id s b E) as (_ & _ & ->).
  eexists; split; [done|]. by destruct (is_one _).
Qed.

Lemma finally_requests id s : requests (finally id s) = requests s.
Proof. done. Qed.

Lemma keyed_submit fresh s : truthy fresh = true -> keyed s -> keyed (handleDepositSubmit fresh s).
Proof.
  intros Hf HK. unfold handleDepositSubmit.
  destruct (btn s) as [b|] eqn:Eb, (keyInput s), (amountSelect s), (msgBox s); try done.
  destruct (_ || _); [done|].
  destruct (negb _); [revert HK; apply keyed_mono; [done|]; simpl; rewrite Eb; eauto|].
  assert (Hk : truthy (ensure_key fresh b) = true).
  { unfold ensure_key. destruct (checkoutIdempotencyKey b) as [k|]; [|done].
    by destruct (truthy k) eqn:?. }
  intros r. simpl. rewrite elem_of_app, list_elem_of_singleton. intros [Hr| ->]; [|by eauto].
  destruct (HK r Hr) as (Ht & b' & Eb' & Ek). split; [done|]. eexists; split; [done|]. simpl.
  rewrite Eb in Eb'. simplify_eq. unfold ensure_key. by rewrite Ek, Ht.
Qed.

Lemma keyed_step s e : not_open e -> fresh_ok e -> keyed s -> keyed (step s e).
Proof.
  destruct e; simpl; intros Hno Hf HK; try done.
  - by apply keyed_submit.
  - unfold on_response. by case_decide.
  - unfold on_error_text. case_decide; [|done]. revert HK. apply keyed_mono; [done|].
    intros b Eb. eapply finally_keeps_key; simpl; by rewrite ?Eb.
  - unfold on_data. case_decide; [|done]. revert HK. destruct (get data _).
    all: apply keyed_mono; [done|]; intros b Eb.
    all: eapply finally_keeps_key; simpl; [by rewrite Eb|done].
  - unfold on_reject. destruct (inflight s !! id); [|done]. revert HK.
    apply keyed_mono; [done|]. intros b Eb. by eapply finally_keeps_key.
Qed.

(** ** Completion *)

Definition done_btn (s : state) : Prop :=
  exists b, btn s = Some b /\ is_one (checkoutCompleted b) = true.

Lemma finally_done id s : done_btn s -> done_btn (finally id s).
Proof.
  intros (b & Eb & Hc). destruct (finally_fields id s b Eb) as (_ & _ & E).
  exists (Button None (checkoutCompleted b) (checkoutIdempotencyKey b) (disabled b) (label b)).
  by rewrite E, Hc.
Qed.

Lemma done_step s e :
  not_open e -> done_btn s -> done_btn (step s e) /\ requests (step s e) = requests s.
Proof.
  intros Hno Hd. pose proof Hd as (b & Eb & Hc). destruct e; simpl in *; try done.
  - unfold handleDepositSubmit. rewrite Eb, Hc, orb_true_r.
    by destruct (keyInput s), (amountSelect s), (msgBox s).
  - unfold on_response. by case_decide.
  - unfold on_error_text. case_decide; [|done]. split; [|done]. apply finally_done.
    exists (enable (currentLang s) b). simpl. by rewrite Eb.
  - unfold on_data. case_decide; [|done]. destruct (get data _); (split; [|done]); apply finally_done.
    + eexists. simpl. rewrite Eb. split; [done|]. simpl. apply seqb_refl.
    + by exists b.
  - unfold on_reject. destruct (inflight s !! id); [|done]. split; [|done].
    apply finally_done. by exists b.
Qed.

End Handlers.

(** ** Properties *)

(** The deposit modal as the page ships it. *)
Definition page_load : state :=
  State (Some false) (Some []) (Some (js "25")) (Some (Box (js "none") [] [] (Text [])))
    (Some (Button None None None false (proceed_label De))) De ∅ 0 [] [] [] None.

Definition no_frac (_ : Q) : jsstring := [].

(** C3: As long as the modal is not reopened, at most one checkout request is in
    flight, whatever the interleaving of clicks, edits and network events, and
    the busy flag on the button is set exactly while one is. *)
Theorem checkout_single_flight show_frac s es :
  single_flight s -> Forall not_open es ->
  single_flight (exec show_frac s es) /\ (size (inflight (exec show_frac s es)) <= 1)%nat.
Proof.
  intros HI Hes. assert (H : single_flight (exec show_frac s es)).
  { apply (fold_invariant _ single_flight not_open); [|done..].
    intros ? ? ? ?. by apply single_flight_step. }
  split; [done|]. revert H. generalize (exec show_frac s es). clear. intros s. unfold single_flight.
  destruct (btn s) as [b|]; [|intros ->; rewrite map_size_empty; lia].
  intros [(_ & -> & _)|(_ & _ & _ & i & t & ->)]; [rewrite map_size_empty; lia|].
  rewrite map_size_singleton. lia.
Qed.

Lemma checkout_single_flight_witness :
  (size (inflight (exec no_frac page_load
     [EditKey (js " cm_live_1 "); Submit (js "u1"); Submit (js "u2"); Response 0 true])) <= 1)%nat.
Proof.
  apply (checkout_single_flight no_frac page_load
    [EditKey (js " cm_live_1 "); Submit (js "u1"); Submit (js "u2"); Response 0 true]).
  - left. split_and!; done.
  - repeat constructor.
Defined.

(** C20: Between two openings of the modal every checkout request (retries
    included) carries the same idempotency key. *)
Theorem checkout_one_idempotency_key show_frac s es r1 r2 :
  requests s = [] -> Forall (fun e => not_open e /\ fresh_ok e) es ->
  r1 ∈ requests (exec show_frac s es) -> r2 ∈ requests (exec show_frac s es) ->
  idempotency_key r1 = idempotency_key r2.
Proof.
  intros Hr Hes H1 H2. assert (HK : keyed (exec show_frac s es)).
  { apply (fold_invariant _ keyed (fun e => not_open e /\ fresh_ok e)); [|done|].
    - intros ? ? [? ?] ?. by apply keyed_step.
    - intros r Hr'. rewrite Hr in Hr'. by apply not_elem_of_nil in Hr'. }
  destruct (HK r1 H1) as (_ & b1 & E1 & K1), (HK r2 H2) as (_ & b2 & E2 & K2). congruence.
Qed.

Definition retry_run : list event :=
  [EditKey (js "cm_live_1"); Submit (js "u1"); Reject 0 (js "offline"); Submit (js "u2")].

Lemma checkout_one_idempotency_key_witness :
  (idempotency_key <$> requests (exec no_frac page_load retry_run)) = [js "u1"; js "u1"] /\
  forall r1 r2, r1 ∈ requests (exec no_frac page_load retry_run) ->
    r2 ∈ requests (exec no_frac page_load retry_run) -> idempotency_key r1 = idempotency_key r2.
Proof.
  split; [by vm_compute|]. intros r1 r2.
  apply (checkout_one_idempotency_key no_frac page_load retry_run r1 r2); [done|].
  repeat constructor.
Defined.

(** Once a checkout session was created, no later event short of reopening the
    modal sends another request, and the button stays marked as completed. *)
Theorem checkout_completed_is_final show_frac s es :
  done_btn s -> Forall not_open es ->
  requests (exec show_frac s es) = requests s /\ done_btn (exec show_frac s es).
Proof.
  intros Hd Hes.
  apply (fold_invariant (step show_frac)
    (fun s' => requests s' = requests s /\ done_btn s') not_open); [|done..].
  intros s' e He [Er Hd']. destruct (done_step show_frac s' e He Hd') as [? ->]. done.
Qed.

Definition completed_run : list event :=
  [EditKey (js "cm_live_1"); Submit (js "u1"); Response 0 true;
   Data 0 (VObj [(js "checkout_url", VStr (js "https://stripe/s"))])].

Lemma checkout_completed_is_final_witness :
  done_btn (exec no_frac page_load completed_run) /\
  requests (exec no_frac (exec no_frac page_load completed_run) [Submit (js "u2"); Close])
    = requests (exec no_frac page_load completed_run).
Proof.
  assert (done_btn (exec no_frac page_load completed_run)) by (eexists; by vm_compute).
  split; [done|].
  by apply (checkout_completed_is_final no_frac (exec no_frac page_load completed_run)
    [Submit (js "u2"); Close]); [|repeat constructor].
Defined.

(** A rejected attempt (network failure, unreadable body) reports the error,
    re-enables the button with its call to action, clears the busy flag, keeps the
    idempotency key for the retry and sends nothing. *)
Theorem checkout_reject_recovers show_frac s id st m b message :
  inflight s !! id = Some st -> msgBox s = Some m -> btn s = Some b ->
  is_one (checkoutCompleted b) = false ->
  let s' := step show_frac s (Reject id message) in
  (body <$> msgBox s') = Some (Text (js "Network Error: " ++ message)) /\
  btn s' = Some (Button None (checkoutCompleted b) (checkoutIdempotencyKey b) false
                   (proceed_label (currentLang s))) /\
  inflight s' !! id = None /\ requests s' = requests s.
Proof.
  intros Hl Hm Hb Hc. simpl. unfold on_reject. rewrite Hl. unfold catch_error.
  destruct (finally_fields id (set_box (box_msg (js "rgba(239, 68, 68, 0.15)")
    (js "var(--accent-red)") (Text (js "Network Error: " ++ message)) <$> msgBox s) s) b Hb)
    as (F & Rq & B).
  rewrite F, Rq, B, Hc. simpl. rewrite Hm. split_and!; try done. by rewrite lookup_delete_eq.
Qed.

Lemma checkout_reject_recovers_witness :
  let s := exec no_frac page_load [EditKey (js "cm_live_1"); Submit (js "u1")] in
  inflight (step no_frac s (Reject 0 (js "offline"))) !! 0%nat = None.
Proof.
  intros s. by eapply (checkout_reject_recovers no_frac s 0%nat AwaitFetch).
Defined.

(** Reopening the modal while a request is in flight drops the busy flag and
    the idempotency key, so that a second request with a different key can be in
    flight at the same time. *)
Theorem checkout_reopen_breaks_single_flight :
  let s := exec no_frac page_load [EditKey (js "cm_live_1"); Submit (js "u1"); Open; Submit (js "u2")] in
  size (inflight s) = 2%nat /\
  (idempotency_key <$> requests s) = [js "u1"; js "u2"].
Proof. vm_compute. done. Qed.

End Deposit.

Module Contact.

(** ** State of the contact form *)

Record button := Button { disabled : bool; label : jsstring; originalText : option jsstring }.
Record notice := Notice { text : jsstring; color : jsstring; display : jsstring }.
Record message := Message { m_name : jsstring; m_email : jsstring; m_topic : jsstring; m_message : jsstring }.

Record state := State {
  nameEl : option jsstring;
  emailEl : option jsstring;
  topicEl : option jsstring;
  messageEl : option jsstring;
  btn : option button;
  successEl : option notice;
  errorEl : option notice;
  currentLang : lang;
  sent : list message;
  resets : nat;
}.

Definition set_ui (b : option button) (ok err : option notice) (s : state) : state :=
  State (nameEl s) (emailEl s) (topicEl s) (messageEl s) b ok err (currentLang s) (sent s) (resets s).

Definition hide (n : notice) : notice := Notice (text n) (color n) (js "none").

Definition field (dflt : jsstring) (el : option jsstring) : jsstring :=
  match el with Some v => trim v | None => dflt end.

Definition send_label (l : lang) : jsstring := tr l (js "Nachricht absenden") (js "Send Message").

(** The synchronous part of [handleContactSubmit], up to [await fetch(...)]; the
    second component tells whether a request was sent. *)
Definition handleContactSubmit (s : state) : state * bool :=
  let s1 := set_ui (btn s) (hide <$> successEl s) (hide <$> errorEl s) s in
  let name := field [] (nameEl s) in
  let email := field [] (emailEl s) in
  let topic := field (js "developer") (topicEl s) in
  let message := field [] (messageEl s) in
  if negb (truthy name) || negb (truthy email) || negb (truthy message) then (s1, false)
  else
    let b := (fun b => Button true
                (tr (currentLang s) (js "⏳ Nachricht wird gesendet...") (js "⏳ Sending message..."))
                (Some (label b))) <$> btn s1 in
    (State (nameEl s1) (emailEl s1) (topicEl s1) (messageEl s1) b (successEl s1) (errorEl s1)
       (currentLang s1) (sent s1 ++ [Message name email topic message]) (resets s1), true).

Section Settle.
Context (show_frac : Q -> jsstring).

(** Both failure branches: show the message, restore the button. *)
Definition fail_with (errMsg : jsstring) (s : state) : state :=
  let restore b := Button false
    (match originalText b with
     | Some t => if truthy t then t else send_label (currentLang s)
     | None => send_label (currentLang s)
     end) (originalText b) in
  match errorEl s with
  | Some e => set_ui (restore <$> btn s) (successEl s)
                (Some (Notice errMsg (color e) (js "block"))) s
  | None => set_ui (restore <$> btn s)
              ((fun _ => Notice errMsg (js "#ef4444") (js "block")) <$> successEl s) None s
  end.

Definition network_error (l : lang) (m : jsstring) : jsstring :=
  tr l (js "Netzwerkfehler: " ++ m ++ js ". Bitte schreibe direkt an mesh@inetconnector.com.")
       (js "Network error: " ++ m ++ js ". Please contact mesh@inetconnector.com directly.").

(** [await fetch(...)] and [await res.json().catch(() => ({}))] have resolved. *)
Definition on_settled (ok : bool) (data : jsval) (s : state) : state :=
  let status := if ok then get data (js "status") else Ret VUndef in
  match status with
  | Throw m => fail_with (network_error (currentLang s) m) s
  | Ret st =>
      if ok && match st with VStr t => seqb t (js "ok") | _ => false end then
        State (nameEl s) (emailEl s) (topicEl s) (messageEl s)
          ((fun b => Button (disabled b) (tr (currentLang s) (js "✓ Nachricht gesendet") (js "✓ Message sent"))
             (originalText b)) <$> btn s)
          ((fun n => Notice (text n) (js "var(--accent-emerald)") (js "block")) <$> successEl s)
          (errorEl s) (currentLang s) (sent s) (S (resets s))
      else
        match get data (js "error") with
        | Throw m => fail_with (network_error (currentLang s) m) s
        | Ret e =>
            fail_with (if vtruthy e then to_str show_frac e else
              tr (currentLang s)
                (js "Fehler beim Absenden. Bitte versuche es später erneut oder schreibe direkt an mesh@inetconnector.com.")
                (js "Failed to send message. Please try again later or email mesh@inetconnector.com directly.")) s
        end
  end.

(** [await fetch(...)] rejects. *)
Definition on_reject (m : jsstring) (s : state) : state :=
  fail_with (network_error (currentLang s) m) s.

End Settle.

Lemma fail_with_button e s b :
  btn s = Some b -> exists o, originalText b = o /\
  btn (fail_with e s) = Some (Button false
    (match o with Some t => if truthy t then t else send_label (currentLang s)
                | None => send_label (currentLang s) end) o).
Proof. intros E. eexists; split; [done|]. unfold fail_with. by destruct (errorEl s); simpl; rewrite E. Qed.

(** A settled answer fails unless the response is [ok] and says so. *)
Lemma on_settled_fails show_frac ok data s :
  ok = false \/ get_opt data (js "status") <> VStr (js "ok") ->
  exists e, on_settled show_frac ok data s = fail_with e s.
Proof.
  intros H. unfold on_settled.
  assert (Hc : forall st, (if ok then get data (js "status") else Ret VUndef) = Ret st ->
    ok && match st with VStr t => seqb t (js "ok") | _ => false end = false).
  { intros st Est. destruct ok; [|done]. destruct H as [|H]; [done|].
    simpl. destruct st as [| | | |t| |]; try done. apply seqb_neq. intros ->. apply H.
    destruct data; simpl in *; congruence. }
  destruct (if ok then _ else _) as [st|m] eqn:Est; [|eauto].
  rewrite Hc by done. destruct (get data (js "error")); eauto.
Qed.

(** A contact message that fails for whatever reason (server error, a body that
    is not the agreed JSON, network failure) leaves the submit button enabled with
    exactly the label it had before the attempt. *)
Theorem contact_failure_restores_button show_frac s b ok data :
  btn s = Some b -> truthy (label b) = true -> snd (handleContactSubmit s) = true ->
  ok = false \/ get_opt data (js "status") <> VStr (js "ok") ->
  btn (on_settled show_frac ok data (fst (handleContactSubmit s)))
    = Some (Button false (label b) (Some (label b))).
Proof.
  intros Hb Hl Hs Hf. unfold handleContactSubmit in *.
  destruct (_ || _); [done|]. cbn [fst] in *.
  destruct (on_settled_fails show_frac ok data
    (State (nameEl s) (emailEl s) (topicEl s) (messageEl s)
      ((fun b => Button true (tr (currentLang s) (js "⏳ Nachricht wird gesendet...")
          (js "⏳ Sending message...")) (Some (label b))) <$> btn s)
      (hide <$> successEl s) (hide <$> errorEl s) (currentLang s)
      (sent s ++ [Message (field [] (nameEl s)) (field [] (emailEl s))
         (field (js "developer") (topicEl s)) (field [] (messageEl s))]) (resets s)) Hf) as [e He].
  cbn [btn nameEl emailEl topicEl messageEl successEl errorEl currentLang sent resets set_ui].
  rewrite He. edestruct fail_with_button as (o & Eo & ->); [cbn; by rewrite Hb|].
  cbn in Eo. subst o. cbn. by rewrite Hl.
Qed.

Definition filled : state :=
  State (Some (js " Ada ")) (Some (js "a@b.c")) None (Some (js "Hi")) (Some (Button false (js "Send") None))
    (Some (Notice (js "ok") [] (js "block"))) None En [] 0.

Lemma contact_failure_restores_button_witness :
  btn (on_settled Deposit.no_frac false VNull (fst (handleContactSubmit filled)))
    = Some (Button false (js "Send") (Some (js "Send"))).
Proof.
  apply (contact_failure_restores_button Deposit.no_frac filled (Button false (js "Send") None) false VNull);
    [done|done|by vm_compute|by left].
Defined.

(** An attempt with a blank name, e-mail or message sends nothing and does not
    touch the button; otherwise exactly one message with the trimmed fields is sent. *)
Theorem contact_submit_sends_iff_complete s :
  let blank el := truthy (field [] el) = false in
  let s' := fst (handleContactSubmit s) in
  (blank (nameEl s) \/ blank (emailEl s) \/ blank (messageEl s) ->
     sent s' = sent s /\ btn s' = btn s) /\
  (~ blank (nameEl s) /\ ~ blank (emailEl s) /\ ~ blank (messageEl s) ->
     exists m, sent s' = sent s ++ [m] /\ m_name m = field [] (nameEl s) /\
       m_email m = field [] (emailEl s) /\ m_message m = field [] (messageEl s) /\
       ws_free_ends (m_name m) /\ ws_free_ends (m_email m) /\ ws_free_ends (m_message m)).
Proof.
  simpl. unfold handleContactSubmit.
  assert (Hw : forall el, ws_free_ends (field [] el)).
  { intros [v|]; simpl; [apply trim_ends|by split]. }
  destruct (truthy (field [] (nameEl s))) eqn:E1, (truthy (field [] (emailEl s))) eqn:E2,
    (truthy (field [] (messageEl s))) eqn:E3; simpl; split; naive_solver.
Qed.

End Contact.
