(* ===== verification/Markdown.v ===== *)
(** * Chat Markdown renderer (portal-core.js, [formatInlineMarkdown] and
    [formatChatMarkdown])

    Every regular-expression replacement of the source is a [matcher] (what the
    pattern accepts at a position, and what it is replaced with) run by [gsub],
    the left-to-right scan of [String.prototype.replace] with flag [g].  The
    block parser is the source's line loop over an explicit record of its
    local variables. *)
From Stdlib Require Import Lia NArith.
From stdpp Require Import base numbers list strings pretty.
From S2P Require Import Prelude JsString.

Open Scope N_scope.

(** ** Global replacement *)

(** [m at_start s]: the pattern matches at the head of [s] (a suffix of the
    subject, [at_start] when it is the whole subject); the result is the
    replacement and the number of code units consumed. *)
Definition matcher := bool -> jsstring -> option (jsstring * nat).

Fixpoint gsub_at (m : matcher) (start : bool) (skip : nat) (s : jsstring) : jsstring :=
  match s with
  | [] => []
  | c :: r =>
      match skip with
      | S k => gsub_at m false k r
      | O => match m start s with
             | Some (out, n) => out ++ gsub_at m false (pred n) r
             | None => c :: gsub_at m false 0 r
             end
      end
  end.

Definition gsub (m : matcher) (s : jsstring) : jsstring := gsub_at m true 0 s.

(** Longest prefix of characters in a class, and the rest. *)
Fixpoint span (p : N -> bool) (s : jsstring) : jsstring * jsstring :=
  match s with
  | c :: r => if p c then let '(a, b) := span p r in (c :: a, b) else ([], s)
  | [] => ([], [])
  end.

Definition isnt (d : N) (c : N) : bool := negb (c =? d).

(** ** Inline patterns *)

(** [.replace(/&/g, "&amp;").replace(/</g, "&lt;").replace(/>/g, "&gt;")]: the
    three replacements act on distinct characters, and the entities they insert
    contain [&] only from the first one. *)
Definition escape_char (c : N) : jsstring :=
  if c =? 38 then js "&amp;" else if c =? 60 then js "&lt;" else if c =? 62 then js "&gt;" else [c].
Definition escape_entities (s : jsstring) : jsstring := map_chars escape_char s.

(** [/`([^`]+)`/g] *)
Definition m_code : matcher := fun _ s =>
  match s with
  | 96 :: r =>
      let '(g, t) := span (isnt 96) r in
      match g, t with
      | _ :: _, 96 :: _ => Some (js "<code>" ++ g ++ js "</code>", (length g + 2)%nat)
      | _, _ => None
      end
  | _ => None
  end.

(** [[^\s\)]+] followed by a closing parenthesis; the result is the run. *)
Definition url_tail (s : jsstring) : option jsstring :=
  let '(g, t) := span (fun c => negb (is_ws c) && isnt 41 c) s in
  match g, t with
  | _ :: _, 41 :: _ => Some g
  | _, _ => None
  end.

Definition url_after (p : jsstring) (s : jsstring) : option jsstring :=
  if starts_with p s then (app p) <$> url_tail (drop (length p) s) else None.

(** [https?:\/\/[^\s\)]+] before [\)] *)
Definition http_url (s : jsstring) : option jsstring :=
  match url_after (js "https://") s with
  | Some u => Some u
  | None => url_after (js "http://") s
  end.

(** [(https?:\/\/[^\s\)]+|data:image\/[^\s\)]+)] before [\)] *)
Definition image_url (s : jsstring) : option jsstring :=
  match http_url s with
  | Some u => Some u
  | None => url_after (js "data:image/") s
  end.

Definition line_terminator (c : N) : bool := (c =? 10) || (c =? 13) || (c =? 8232) || (c =? 8233).

(** [(.*?)\]\((url)\)]: the shortest alternative text whose closing bracket is
    followed by a parenthesised address. *)
Fixpoint find_alt (s : jsstring) : option (jsstring * jsstring) :=
  let here := if starts_with (js "](") s then image_url (drop 2 s) else None in
  match here with
  | Some u => Some ([], u)
  | None =>
      match s with
      | [] => None
      | c :: r =>
          if line_terminator c then None
          else match find_alt r with
               | Some (alt, u) => Some (c :: alt, u)
               | None => None
               end
      end
  end.

(** [/&amp;/g] *)
Definition m_amp : matcher := fun _ s =>
  if starts_with (js "&amp;") s then Some (js "&", 5%nat) else None.
Definition cleanUrl (url : jsstring) : jsstring := gsub m_amp url.

Definition image_html (url alt : jsstring) : jsstring :=
  jsq "<div class=`chat-image-wrap` style=`margin: 0.9rem 0; text-align: center;`>
      <a href=`" ++ cleanUrl url ++ jsq "` target=`_blank` rel=`noopener` title=`Klicken für Vollbild`>
        <img src=`" ++ cleanUrl url ++ jsq "` alt=`" ++ alt ++ jsq "` style=`max-width: 100%; max-height: 480px; border-radius: 12px; border: 1px solid rgba(255,255,255,0.2); box-shadow: 0 10px 30px rgba(0,0,0,0.5); display: inline-block; cursor: pointer; transition: transform 0.25s ease;` loading=`lazy` onmouseover=`this.style.transform='scale(1.01)'` onmouseout=`this.style.transform='scale(1)'` />
      </a>
      <div style=`font-size: 0.8rem; color: var(--text-muted); margin-top: 0.4rem; font-style: italic;`>🖼️ " ++ alt ++ jsq "</div>
    </div>".

(** [/!\[(.*?)\]\((...)\)/g] *)
Definition m_image : matcher := fun _ s =>
  match s with
  | 33 :: 91 :: r =>
      match find_alt r with
      | Some (alt, u) => Some (image_html u alt, (length alt + length u + 5)%nat)
      | None => None
      end
  | _ => None
  end.

Definition link_html (url txt : jsstring) : jsstring :=
  jsq "<a href=`" ++ cleanUrl url ++ jsq "` target=`_blank` rel=`noopener noreferrer` class=`chat-link`>"
  ++ txt ++ jsq "</a>".

(** [/\[([^\]]+)\]\((https?:\/\/[^\s\)]+)\)/g] *)
Definition m_link : matcher := fun _ s =>
  match s with
  | 91 :: r =>
      let '(g, t) := span (isnt 93) r in
      match g, t with
      | _ :: _, 93 :: 40 :: t' =>
          match http_url t' with
          | Some u => Some (link_html u g, (length g + length u + 4)%nat)
          | None => None
          end
      | _, _ => None
      end
  | _ => None
  end.

(** [/DD([^D]+)DD/g] for a doubled delimiter [D] *)
Definition m_pair (d : N) (tag : jsstring) : matcher := fun _ s =>
  if starts_with [d; d] s then
    let '(g, t) := span (isnt d) (drop 2 s) in
    match g with
    | [] => None
    | _ => if starts_with [d; d] t
           then Some (js "<" ++ tag ++ js ">" ++ g ++ js "</" ++ tag ++ js ">", (length g + 4)%nat)
           else None
    end
  else None.

(** [\*([^\*]+)\*([^\*]|$)] after the first group *)
Definition em_body (s : jsstring) : option (jsstring * jsstring) :=
  match s with
  | 42 :: r =>
      let '(g, t) := span (isnt 42) r in
      match g, t with
      | _ :: _, 42 :: t' =>
          match t' with
          | [] => Some (g, [])
          | c :: _ => if isnt 42 c then Some (g, [c]) else None
          end
      | _, _ => None
      end
  | _ => None
  end.

(** [/(^|[^\*])\*([^\*]+)\*([^\*]|$)/g] *)
Definition m_em : matcher := fun start s =>
  match (if start then em_body s else None) with
  | Some (g, post) =>
      Some (js "<em>" ++ g ++ js "</em>" ++ post, (length g + length post + 2)%nat)
  | None =>
      match s with
      | c :: r =>
          if isnt 42 c then
            match em_body r with
            | Some (g, post) =>
                Some (c :: js "<em>" ++ g ++ js "</em>" ++ post, (length g + length post + 3)%nat)
            | None => None
            end
          else None
      | [] => None
      end
  end.

Definition formatInlineMarkdown (text : jsstring) : jsstring :=
  let s := escape_entities text in
  let s := gsub m_code s in
  let s := gsub m_image s in
  let s := gsub m_link s in
  let s := gsub (m_pair 42 (js "strong")) s in
  let s := gsub (m_pair 95 (js "strong")) s in
  let s := gsub m_em s in
  gsub (m_pair 126 (js "del")) s.

(** ** Block structure *)

(** [/(?:&lt;think&gt;|<think>)([\s\S]*?)(?:&lt;\/think&gt;|<\/think>)/gi] *)
Definition think_open (s : jsstring) : option nat :=
  if starts_with_ci (js "&lt;think&gt;") s then Some 13%nat
  else if starts_with_ci (js "<think>") s then Some 7%nat else None.

Definition think_close (s : jsstring) : option nat :=
  if starts_with_ci (js "&lt;/think&gt;") s then Some 14%nat
  else if starts_with_ci (js "</think>") s then Some 8%nat else None.

Fixpoint until (stop : jsstring -> option nat) (s : jsstring) : option (jsstring * nat) :=
  match stop s with
  | Some n => Some ([], n)
  | None =>
      match s with
      | [] => None
      | c :: r => match until stop r with Some (g, n) => Some (c :: g, n) | None => None end
      end
  end.

Definition match_think (s : jsstring) : option (jsstring * nat) :=
  match think_open s with
  | Some n =>
      match until think_close (drop n s) with
      | Some (g, k) => Some (g, (n + length g + k)%nat)
      | None => None
      end
  | None => None
  end.

(** A fenced block: three back-quotes, a language word of [a-zA-Z0-9_-], a newline
    and the shortest text before the next three back-quotes. *)
Definition lang_char (c : N) : bool :=
  ((97 <=? c) && (c <=? 122)) || ((65 <=? c) && (c <=? 90)) || digit c || (c =? 95) || (c =? 45).

Definition fence : jsstring := [96; 96; 96].
Definition fence_stop (s : jsstring) : option nat := if starts_with fence s then Some 3%nat else None.

Definition match_fence (s : jsstring) : option ((jsstring * jsstring) * nat) :=
  if starts_with fence s then
    let '(lg, t) := span lang_char (drop 3 s) in
    match t with
    | 10 :: t' =>
        match until fence_stop t' with
        | Some (code, k) => Some ((lg, code), (3 + length lg + 1 + length code + k)%nat)
        | None => None
        end
    | _ => None
    end
  else None.

(** [replace] with a callback that pushes to an array: the callback returns the
    replacement and the array. *)
Section Extract.
Context {A : Type} (m : jsstring -> option (A * nat)) (f : A -> list jsstring -> jsstring * list jsstring).

Fixpoint extract (skip : nat) (acc : list jsstring) (s : jsstring) : jsstring * list jsstring :=
  match s with
  | [] => ([], acc)
  | c :: r =>
      match skip with
      | S k => extract k acc r
      | O => match m s with
             | Some (g, n) =>
                 let '(out, acc1) := f g acc in
                 let '(rest, acc2) := extract (pred n) acc1 r in (out ++ rest, acc2)
             | None => let '(rest, acc2) := extract 0 acc r in (c :: rest, acc2)
             end
      end
  end.
End Extract.

Definition placeholder (kind : jsstring) (i : nat) : jsstring :=
  js "___CM_" ++ kind ++ js "_BLOCK_" ++ show_N (N.of_nat i) ++ js "___".

Definition think_html (l : lang) (thought : jsstring) : jsstring :=
  jsq "<details class=`cm-thinking-block` style=`background: rgba(15,23,42,0.65); border: 1px solid rgba(99,102,241,0.35); border-radius: 10px; padding: 0.65rem 0.9rem; margin: 0.8rem 0; font-size: 0.85rem;`>
      <summary style=`cursor: pointer; color: #a5b4fc; font-weight: 600; outline: none; user-select: none;`>"
  ++ tr l (js "🧠 Gedankengang anzeigen (Deep Reasoning & Planung)") (js "🧠 Show Thinking Process (Deep Reasoning & Plan)")
  ++ jsq "</summary>
      <div style=`margin-top: 0.5rem; padding-top: 0.5rem; border-top: 1px solid rgba(255,255,255,0.08); white-space: pre-wrap; font-family: var(--font-mono, monospace); font-size: 0.82rem; color: #cbd5e1; line-height: 1.5;`>"
  ++ escape_entities thought ++ jsq "</div>
    </details>".

Definition on_think (l : lang) (thought : jsstring) (blocks : list jsstring) : jsstring * list jsstring :=
  let clean := trim thought in
  if truthy clean
  then (placeholder (js "THINK") (length blocks), blocks ++ [think_html l clean])
  else ([], blocks).

Definition code_html (lg code : jsstring) : jsstring :=
  js "<pre>" ++
  (if truthy lg then jsq "<div style=`font-size:0.7rem; color:var(--accent-cyan); text-transform:uppercase; margin-bottom:0.25rem;`>" ++ lg ++ js "</div>" else [])
  ++ js "<code>" ++ trim (escape_entities code) ++ js "</code></pre>".

Definition on_fence (g : jsstring * jsstring) (blocks : list jsstring) : jsstring * list jsstring :=
  (placeholder (js "CODE") (length blocks), blocks ++ [code_html (fst g) (snd g)]).

(** *** Tables *)

Definition isTableLine (line : jsstring) : bool :=
  let t := trim line in
  starts_with (js "|") t && (ends_with (js "|") t || includes (js "|") t).

(** [\s*:?-+:?\s*] *)
Definition sep_cell (s : jsstring) : option jsstring :=
  let opt_colon s := match s with 58 :: r => r | _ => s end in
  match span (N.eqb 45) (opt_colon (snd (span is_ws s))) with
  | ([], _) => None
  | (_, t) => Some (snd (span is_ws (opt_colon t)))
  end.

(** One or more further cells, each after a bar, an optional closing bar and the
    end of the line; [some] tells whether a further cell was seen. *)
Fixpoint sep_rest (fuel : nat) (some : bool) (s : jsstring) : bool :=
  match s with
  | [] => some
  | 124 :: [] => some
  | 124 :: r =>
      match fuel, sep_cell r with
      | S n, Some t => sep_rest n true t
      | _, _ => false
      end
  | _ => false
  end.

Definition isTableSeparator (line : jsstring) : bool :=
  let t := trim line in
  starts_with (js "|") t &&
  match sep_cell (match t with 124 :: r => r | _ => t end) with
  | Some r => sep_rest (length t) false r
  | None => false
  end.

Definition parseTableCells (line : jsstring) : list jsstring :=
  let t := trim line in
  let t := if starts_with (js "|") t then drop 1 t else t in
  let t := if ends_with (js "|") t then take (length t - 1) t else t in
  trim <$> split_on 124 t.

Definition parseAlignments (line : jsstring) : list jsstring :=
  (fun cell =>
     let left := starts_with (js ":") cell in
     let right := ends_with (js ":") cell in
     if left && right then js "center" else if right then js "right" else js "left")
  <$> parseTableCells line.

(** *** The line loop *)

Record blocks := Blocks {
  resultBlocks : list jsstring;
  inTable : bool;
  tableHeader : list jsstring;
  tableAlignments : list jsstring;
  tableRows : list (list jsstring);
  inList : bool;
  listType : jsstring;
  listItems : list jsstring;
  inBlockquote : bool;
  blockquoteLines : list jsstring;
}.

Definition blocks0 : blocks := Blocks [] false [] [] [] false (js "ul") [] false [].

Definition push (html : jsstring) (b : blocks) : blocks :=
  Blocks (resultBlocks b ++ [html]) (inTable b) (tableHeader b) (tableAlignments b) (tableRows b)
    (inList b) (listType b) (listItems b) (inBlockquote b) (blockquoteLines b).

Definition set_table (i : bool) (h al : list jsstring) (rows : list (list jsstring)) (b : blocks) : blocks :=
  Blocks (resultBlocks b) i h al rows (inList b) (listType b) (listItems b) (inBlockquote b) (blockquoteLines b).
Definition set_list (i : bool) (ty : jsstring) (items : list jsstring) (b : blocks) : blocks :=
  Blocks (resultBlocks b) (inTable b) (tableHeader b) (tableAlignments b) (tableRows b) i ty items
    (inBlockquote b) (blockquoteLines b).
Definition set_quote (i : bool) (ls : list jsstring) (b : blocks) : blocks :=
  Blocks (resultBlocks b) (inTable b) (tableHeader b) (tableAlignments b) (tableRows b) (inList b)
    (listType b) (listItems b) i ls.

Definition cell_html (tag : jsstring) (aligns : list jsstring) (idx : nat) (cell : jsstring) : jsstring :=
  let align := match aligns !! idx with
               | Some a => if truthy a then jsq " style=`text-align:" ++ a ++ jsq "`" else []
               | None => []
               end in
  js "<" ++ tag ++ align ++ js ">" ++ formatInlineMarkdown cell ++ js "</" ++ tag ++ js ">".

Definition row_html (tag : jsstring) (aligns : list jsstring) (row : list jsstring) : jsstring :=
  concat (imap (cell_html tag aligns) row).

Definition table_html (b : blocks) : jsstring :=
  jsq "<div class=`table-responsive`><table class=`chat-table`>" ++
  match tableHeader b with
  | [] => []
  | h => js "<thead><tr>" ++ row_html (js "th") (tableAlignments b) h ++ js "</tr></thead>"
  end ++
  match tableRows b with
  | [] => []
  | rs => js "<tbody>" ++
          concat ((fun row => js "<tr>" ++ row_html (js "td") (tableAlignments b) row ++ js "</tr>") <$> rs)
          ++ js "</tbody>"
  end ++ js "</table></div>".

Definition flushTable (b : blocks) : blocks :=
  if inTable b then
    let b1 := match tableHeader b, tableRows b with
              | [], [] => b
              | _, _ => push (table_html b) b
              end in
    set_table false [] [] [] b1
  else b.

Definition list_html (b : blocks) : jsstring :=
  js "<" ++ listType b ++ jsq " class=`chat-list`>" ++
  concat ((fun item => js "<li>" ++ formatInlineMarkdown item ++ js "</li>") <$> listItems b) ++
  js "</" ++ listType b ++ js ">".

Definition flushList (b : blocks) : blocks :=
  if inList b then
    let b1 := match listItems b with [] => b | _ => push (list_html b) b end in
    set_list false (listType b1) [] b1
  else b.

Definition quote_html (b : blocks) : jsstring :=
  jsq "<blockquote class=`chat-blockquote`>" ++
  join (js "<br>") (formatInlineMarkdown <$> blockquoteLines b) ++ js "</blockquote>".

Definition flushBlockquote (b : blocks) : blocks :=
  if inBlockquote b then
    let b1 := match blockquoteLines b with [] => b | _ => push (quote_html b) b end in
    set_quote false [] b1
  else b.

(** [/^(\-{3,}|\*{3,}|_{3,})$/] *)
Definition is_rule (t : jsstring) : bool :=
  match t with
  | c :: _ => ((c =? 45) || (c =? 42) || (c =? 95)) && forallb (N.eqb c) t && (3 <=? length t)%nat
  | [] => false
  end.

(** [/^[-*+]\s+/]: the text after the marker *)
Definition ul_item (t : jsstring) : option jsstring :=
  match t with
  | c :: d :: r =>
      if ((c =? 45) || (c =? 42) || (c =? 43)) && is_ws d then Some (trim_start r) else None
  | _ => None
  end.

(** [/^\d+\.\s+/] *)
Definition ol_item (t : jsstring) : option jsstring :=
  match span digit t with
  | (_ :: _, 46 :: d :: r) => if is_ws d then Some (trim_start r) else None
  | _ => None
  end.

Definition heading (k : jsstring) (text : jsstring) : jsstring :=
  js "<" ++ k ++ jsq " class=`chat-" ++ k ++ jsq "`>" ++ formatInlineMarkdown text ++ js "</" ++ k ++ js ">".

(** [trimmed.replace(/^>\s?/, '')] *)
Definition unquote (t : jsstring) : jsstring :=
  match t with
  | _ :: d :: r => if is_ws d then r else d :: r
  | _ => []
  end.

Definition add_item (ty item : jsstring) (b : blocks) : blocks :=
  let b1 := if inList b && negb (seqb (listType b) ty) then flushList b else b in
  set_list true ty (listItems b1 ++ [item]) b1.

(** Everything after the table test of one iteration. *)
Definition text_line (line : jsstring) (b : blocks) : blocks :=
  let t := trim line in
  if starts_with (js ">") t then
    let b1 := flushList b in set_quote true (blockquoteLines b1 ++ [unquote t]) b1
  else
  let b := if inBlockquote b then flushBlockquote b else b in
  if starts_with (js "#### ") t then push (heading (js "h4") (drop 5 t)) (flushList b)
  else if starts_with (js "### ") t then push (heading (js "h3") (drop 4 t)) (flushList b)
  else if starts_with (js "## ") t then push (heading (js "h2") (drop 3 t)) (flushList b)
  else if starts_with (js "# ") t then push (heading (js "h1") (drop 2 t)) (flushList b)
  else if is_rule t then push (jsq "<hr class=`chat-hr`>") (flushList b)
  else match ul_item t with
  | Some item => add_item (js "ul") item b
  | None =>
  match ol_item t with
  | Some item => add_item (js "ol") item b
  | None =>
  let b := if inList b then flushList b else b in
  match t with
  | [] => push (jsq "<div class=`chat-spacer`></div>") b
  | _ => push (jsq "<p class=`chat-p`>" ++ formatInlineMarkdown t ++ js "</p>") b
  end end end.

(** One iteration; the second component is [true] when the next line was consumed
    as the table's separator ([i++]). *)
Definition one_line (line : jsstring) (next : option jsstring) (b : blocks) : blocks * bool :=
  if isTableLine line then
    let b := flushBlockquote (flushList b) in
    if negb (inTable b) then
      let header := parseTableCells line in
      match next with
      | Some n =>
          if isTableSeparator n
          then (set_table true header (parseAlignments n) (tableRows b) b, true)
          else (set_table true header ((fun _ => js "left") <$> header) (tableRows b) b, false)
      | None => (set_table true header ((fun _ => js "left") <$> header) (tableRows b) b, false)
      end
    else if isTableSeparator line
    then (set_table true (tableHeader b) (parseAlignments line) (tableRows b) b, false)
    else (set_table true (tableHeader b) (tableAlignments b) (tableRows b ++ [parseTableCells line]) b, false)
  else (text_line line (if inTable b then flushTable b else b), false).

Fixpoint line_loop (lines : list jsstring) (b : blocks) : blocks :=
  match lines with
  | [] => b
  | line :: rest =>
      let '(b1, skip) := one_line line (head rest) b in
      match rest with
      | _ :: rest' => if skip then line_loop rest' b1 else line_loop rest b1
      | [] => b1
      end
  end.

(** *** Restoring the extracted blocks *)

(** [GetSubstitution] of a string pattern: the dollar sequences [$$], [$&], [$`] and
    [$'] of the replacement are expanded. *)
Definition m_dollar (pre matched post : jsstring) : matcher := fun _ s =>
  match s with
  | 36 :: 36 :: _ => Some ([36], 2%nat)
  | 36 :: 38 :: _ => Some (matched, 2%nat)
  | 36 :: 96 :: _ => Some (pre, 2%nat)
  | 36 :: 39 :: _ => Some (post, 2%nat)
  | _ => None
  end.

(** The first occurrence of a pattern: what precedes and what follows it. *)
Fixpoint find_first (p s : jsstring) : option (jsstring * jsstring) :=
  if starts_with p s then Some ([], drop (length p) s)
  else match s with
       | [] => None
       | c :: r => match find_first p r with Some (a, b) => Some (c :: a, b) | None => None end
       end.

(** [html.replace(pattern, replacement)] with a string pattern *)
Definition replace_first (p replacement s : jsstring) : jsstring :=
  match find_first p s with
  | Some (pre, post) => pre ++ gsub (m_dollar pre p post) replacement ++ post
  | None => s
  end.

Definition restore (kind : jsstring) (bs : list jsstring) (html : jsstring) : jsstring :=
  fst (fold_left (fun '(h, i) b => (replace_first (placeholder kind i) b h, S i)) bs (html, O)).

Definition formatChatMarkdown (l : lang) (text : jsstring) : jsstring :=
  if negb (truthy text) then [] else
  let '(processed, thinkBlocks) := extract match_think (on_think l) 0 [] text in
  let '(processed, codeBlocks) := extract match_fence on_fence 0 [] processed in
  let b := flushBlockquote (flushList (flushTable (line_loop (split_on 10 processed) blocks0))) in
  restore (js "THINK") thinkBlocks (restore (js "CODE") codeBlocks (concat (resultBlocks b))).
