(* ===== verification/MarkdownSafety.v ===== *)
(** * Safety of the chat Markdown renderer

    [lt_ok]: every [<] of a string opens one of the renderer's own tags.  The
    property holds of the output of [formatInlineMarkdown] and
    [formatChatMarkdown] for every input: chat text (of the user or of a model)
    cannot introduce an element of its own.  The file also records what the
    renderer does not protect: attribute values and the dollar sequences of code
    blocks. *)
From Stdlib Require Import Lia NArith.
From stdpp Require Import base numbers list gmap strings pretty.
From S2P Require Import Prelude JsString Markdown.

Open Scope N_scope.

(** ** Allowed tags *)

(** What follows [<] in the templates of the renderer. *)
Definition openers : list jsstring := js <$>
  ["code>"; "/code>"; "div class="; "div style="; "/div>"; "a href="; "/a>"; "img src=";
   "strong>"; "/strong>"; "em>"; "/em>"; "del>"; "/del>"; "details class="; "/details>";
   "summary style="; "/summary>"; "pre>"; "/pre>"; "table class="; "/table>"; "thead>"; "/thead>";
   "tbody>"; "/tbody>"; "tr>"; "/tr>"; "th>"; "th style="; "/th>"; "td>"; "td style="; "/td>";
   "ul class="; "/ul>"; "ol class="; "/ol>"; "li>"; "/li>"; "blockquote class="; "/blockquote>";
   "br>"; "h1 class="; "/h1>"; "h2 class="; "/h2>"; "h3 class="; "/h3>"; "h4 class="; "/h4>";
   "hr class="; "p class="; "/p>"]%string.

(** Characters with a meaning for the renderer's patterns: none occurs in a tag. *)
Definition delims : list N := [96; 33; 91; 93; 40; 41; 42; 95; 126; 38; 36].
Definition is_delim (c : N) : bool := existsb (N.eqb c) delims.

Fixpoint lt_okb (s : jsstring) : bool :=
  match s with
  | [] => true
  | c :: r => (if c =? 60 then existsb (fun t => starts_with t r) openers else true) && lt_okb r
  end.
Definition lt_ok (s : jsstring) : Prop := lt_okb s = true.

Lemma openers_plain t c : t ∈ openers -> c ∈ t -> is_delim c = false.
Proof.
  intros Ht Hc.
  assert (H : forallb (forallb (fun c => negb (is_delim c))) openers = true) by (vm_compute; done).
  rewrite forallb_forall in H. apply list_elem_of_In in Ht. specialize (H t Ht).
  rewrite forallb_forall in H. apply list_elem_of_In in Hc. specialize (H c Hc).
  by bool_norm.
Qed.

Lemma starts_with_app_r t a b : starts_with t a = true -> starts_with t (a ++ b) = true.
Proof. intros [r ->]%starts_with_spec. rewrite <- app_assoc. apply starts_with_app. Qed.

Lemma starts_with_cut t a d b :
  d ∉ t -> starts_with t (a ++ d :: b) = true -> starts_with t a = true.
Proof.
  revert a. induction t as [|x t IH]; intros [|y a] Hd H; simpl in *; try done.
  - bool_norm. subst. set_solver.
  - bool_norm. subst. rewrite N.eqb_refl. apply IH; [set_solver|done].
Qed.

(** An allowed tag at the head of a string is found by [lt_okb]. *)
Lemma opener_exists r :
  existsb (fun t => starts_with t r) openers = true <->
  exists t, t ∈ openers /\ starts_with t r = true.
Proof.
  rewrite existsb_exists. split; intros (t & H & ?); exists t; split; try done;
    by apply list_elem_of_In.
Qed.

Lemma lt_ok_cons c r :
  lt_ok (c :: r) <-> (c = 60 -> exists t, t ∈ openers /\ starts_with t r = true) /\ lt_ok r.
Proof.
  unfold lt_ok. cbn [lt_okb]. rewrite andb_true_iff. destruct (c =? 60) eqn:E; bool_norm.
  - rewrite opener_exists. naive_solver.
  - naive_solver.
Qed.

Lemma lt_ok_nil : lt_ok [].
Proof. done. Qed.

Lemma lt_ok_app a b : lt_ok a -> lt_ok b -> lt_ok (a ++ b).
Proof.
  induction a as [|c a IH]; [done|]. intros Ha Hb. simpl.
  apply lt_ok_cons in Ha as [Hc Ha]. apply lt_ok_cons. split; [|by apply IH].
  intros E. destruct (Hc E) as (t & Ht & Hs). exists t. eauto using starts_with_app_r.
Qed.

Lemma lt_ok_suffix a b : lt_ok (a ++ b) -> lt_ok b.
Proof. induction a as [|c a IH]; [done|]. simpl. intros [_ H]%lt_ok_cons. auto. Qed.

Lemma lt_ok_tail c r : lt_ok (c :: r) -> lt_ok r.
Proof. apply (lt_ok_suffix [c]). Qed.

Lemma lt_ok_drop n s : lt_ok s -> lt_ok (drop n s).
Proof. intros H. rewrite <- (take_drop n s) in H. by eapply lt_ok_suffix. Qed.

(** A tag cannot straddle a delimiter, so what precedes one is fine by itself. *)
Lemma lt_ok_cut a d b : is_delim d = true -> lt_ok (a ++ d :: b) -> lt_ok a.
Proof.
  intros Hd. induction a as [|c a IH]; [done|]. simpl. intros [Hc H]%lt_ok_cons.
  apply lt_ok_cons. split; [|by apply IH]. intros E. destruct (Hc E) as (t & Ht & Hs).
  exists t. split; [done|]. eapply starts_with_cut; [|done].
  intros Hin. by rewrite (openers_plain t d) in Hd.
Qed.

Lemma lt_ok_no_lt s : 60 ∉ s -> lt_ok s.
Proof.
  induction s as [|c s IH]; [done|]. intros H. apply lt_ok_cons. split; [set_solver|].
  apply IH. set_solver.
Qed.

Lemma lt_ok_concat l : Forall lt_ok l -> lt_ok (concat l).
Proof. induction 1; simpl; [done|by apply lt_ok_app]. Qed.

Lemma lt_ok_join sep l : lt_ok sep -> Forall lt_ok l -> lt_ok (join sep l).
Proof.
  intros Hs. induction 1 as [|x l Hx Hl IH]; [done|].
  destruct l as [|y l]; [done|]. rewrite join_cons by done. auto using lt_ok_app.
Qed.

(** Template literals are checked by evaluation. *)
Ltac template := solve [vm_compute; reflexivity].
#[export] Hint Extern 1 (lt_ok (jsq _)) => template : portal.
#[export] Hint Extern 1 (lt_ok (js _)) => template : portal.
#[export] Hint Resolve lt_ok_app lt_ok_nil lt_ok_concat : portal.

Lemma escape_no_lt s : 60 ∉ escape_entities s.
Proof.
  unfold escape_entities. rewrite elem_of_map_chars. intros (d & Hd & _). revert Hd.
  unfold escape_char. destruct (d =? 38) eqn:?, (d =? 60) eqn:?, (d =? 62) eqn:?; bool_norm;
    try (rewrite <- (bool_decide_eq_true (60 ∈ _)); by vm_compute).
  intros H%list_elem_of_singleton. congruence.
Qed.

Lemma lt_ok_escape s : lt_ok (escape_entities s).
Proof. apply lt_ok_no_lt, escape_no_lt. Qed.
#[export] Hint Resolve lt_ok_escape : portal.

(** ** Replacements that preserve the property *)

(** A match starts at a delimiter, or keeps the plain character it starts at and
    is followed by a delimiter; what it inserts is fine when the subject is, except
    that it may end with the last character it consumed, unchanged. *)
Record good_matcher (m : matcher) : Prop := {
  gm_out start s out n : m start s = Some (out, n) -> lt_ok s ->
    lt_ok out \/ exists body c, out = body ++ [c] /\ lt_ok body /\ lt_ok (c :: drop n s) /\ (1 <= n)%nat;
  gm_head start c r out n :
    m start (c :: r) = Some (out, n) -> is_delim c = false ->
    (exists out', out = c :: out') /\ exists d r', r = d :: r' /\ is_delim d = true;
}.

Lemma gsub_at_prefix m p s :
  good_matcher m -> Forall (fun c => is_delim c = false) p ->
  forall start, exists s', gsub_at m start 0 (p ++ s) = p ++ s'.
Proof.
  intros G Hp. induction Hp as [|c p Hc Hp IH]; intros start; [by eexists|].
  simpl. destruct (m start (c :: p ++ s)) as [[out n]|] eqn:E.
  - destruct (gm_head m G _ _ _ _ _ E Hc) as ([out' ->] & d & r' & Ed & Hd).
    destruct p as [|x p]; [simpl; eauto|]. simplify_eq/=. inv Hp. congruence.
  - destruct (IH false) as [s' ->]. eauto.
Qed.

Lemma gsub_at_skip m k s : gsub_at m false k s = gsub_at m false 0 (drop k s).
Proof. revert k. induction s as [|c s IH]; intros [|k]; simpl; try done. Qed.

(** A plain character in front of rewritten text keeps the tag it opens. *)
Lemma gsub_at_after m c s :
  good_matcher m -> lt_ok (c :: s) -> lt_ok (gsub_at m false 0 s) -> lt_ok (c :: gsub_at m false 0 s).
Proof.
  intros G H Hs. apply lt_ok_cons. split; [|done]. intros ->.
  apply lt_ok_cons in H as [Hc _]. destruct (Hc eq_refl) as (t & Ht & Hst).
  apply starts_with_spec in Hst as [r' ->].
  destruct (gsub_at_prefix m t r' G) with (start := false) as [s' ->].
  { apply Forall_forall. eauto using openers_plain. }
  exists t. eauto using starts_with_app.
Qed.

Lemma gsub_at_ok m s : good_matcher m -> forall start skip, lt_ok s -> lt_ok (gsub_at m start skip s).
Proof.
  intros G. induction s as [|c r IH]; intros start skip H; [done|]. simpl.
  pose proof (lt_ok_tail _ _ H) as Hr.
  destruct skip as [|k]; [|by apply IH].
  destruct (m start (c :: r)) as [[out n]|] eqn:E.
  - destruct (gm_out m G _ _ _ _ E H) as [Ho|(body & d & -> & Hb & Hd & Hn)].
    + apply lt_ok_app; [done|by apply IH].
    + rewrite <- app_assoc. apply lt_ok_app; [done|]. simpl.
      assert (IH' := IH false (pred n) Hr). rewrite gsub_at_skip in *.
      destruct n as [|n]; [lia|]. by apply gsub_at_after.
  - by apply gsub_at_after; [..|apply IH].
Qed.

Lemma gsub_ok m s : good_matcher m -> lt_ok s -> lt_ok (gsub m s).
Proof. intros. by apply gsub_at_ok. Qed.

(** *** The patterns of the renderer *)

Lemma span_app p s : fst (span p s) ++ snd (span p s) = s.
Proof. induction s as [|c s IH]; simpl; [done|]. destruct (p c); [|done]. destruct (span p s). simpl in *. congruence. Qed.

Lemma span_eq p s a b : span p s = (a, b) -> s = a ++ b.
Proof. intros E. rewrite <- (span_app p s), E. done. Qed.

(** A matcher whose matches start with a delimiter. *)
Lemma good_matcher_delim m :
  (forall start s out n, m start s = Some (out, n) -> lt_ok s -> lt_ok out) ->
  (forall start c r out n, m start (c :: r) = Some (out, n) -> is_delim c = true) ->
  good_matcher m.
Proof. intros H1 H2. split; [eauto|]. intros ????? E Hc. apply H2 in E. congruence. Qed.

(** Destruct the matches of a matcher's definition until it is decided. *)
Ltac matched :=
  repeat match goal with
  | H : Some _ = Some _ |- _ => injection H as H; subst
  | H : None = Some _ |- _ => discriminate H
  | H : (if ?b then _ else _) = Some _ |- _ => destruct b eqn:?
  | H : match ?x with _ => _ end = Some _ |- _ => destruct x eqn:?
  end.

Lemma good_code : good_matcher m_code.
Proof.
  apply good_matcher_delim; unfold m_code.
  - intros _ s out n E H.
    destruct s as [|c r]; [done|]. destruct (decide (c = 96)) as [->|]; [|by matched].
    destruct (span (isnt 96) r) as [g t] eqn:Es. apply span_eq in Es. subst r.
    destruct g as [|x g]; [done|]. destruct t as [|y t]; [done|].
    destruct (decide (y = 96)) as [->|]; [|by matched]. simplify_eq.
    apply lt_ok_tail in H. apply (lt_ok_cut (x :: g)) in H; [|done]. auto with portal.
  - intros _ c r out n E. destruct (decide (c = 96)) as [->|]; [done|]. by matched.
Qed.

Lemma url_tail_spec s g : url_tail s = Some g -> exists t, s = g ++ 41 :: t.
Proof.
  unfold url_tail. destruct (span _ s) as [g' t] eqn:Es. apply span_eq in Es. subst s.
  destruct g' as [|x g']; [done|]. destruct t as [|y t]; [done|].
  destruct (decide (y = 41)) as [->|]; intros E; [|by matched]. simplify_eq. by exists t.
Qed.

Lemma url_after_spec p s u : url_after p s = Some u -> exists t, s = u ++ 41 :: t.
Proof.
  unfold url_after. destruct (starts_with p s) eqn:E; [|done].
  apply starts_with_drop in E. destruct (url_tail _) as [g|] eqn:Eg; [|done]. simpl. intros [= <-].
  apply url_tail_spec in Eg as [t Eg]. exists t. rewrite Eg in E. by rewrite E, <- app_assoc.
Qed.

Lemma http_url_spec s u : http_url s = Some u -> exists t, s = u ++ 41 :: t.
Proof.
  unfold http_url. destruct (url_after (js "https://") s) eqn:E.
  - intros [= <-]. by eapply url_after_spec.
  - apply url_after_spec.
Qed.

Lemma image_url_spec s u : image_url s = Some u -> exists t, s = u ++ 41 :: t.
Proof.
  unfold image_url. destruct (http_url s) eqn:E.
  - intros [= <-]. by apply http_url_spec.
  - apply url_after_spec.
Qed.

Lemma find_alt_spec s alt u : find_alt s = Some (alt, u) -> exists t, s = alt ++ 93 :: 40 :: u ++ 41 :: t.
Proof.
  assert (Hh : forall r v, (if starts_with (js "](") r then image_url (drop 2 r) else None) = Some v ->
    exists t, r = 93 :: 40 :: v ++ 41 :: t).
  { intros r v. destruct (starts_with _ r) eqn:E; [|done]. apply starts_with_drop in E.
    intros [t Et]%image_url_spec. exists t. change (length (js "](")) with 2%nat in E. rewrite Et in E. exact E. }
  revert alt u. induction s as [|c s IH]; intros alt u; cbn [find_alt].
  - destruct (if starts_with _ _ then _ else _) eqn:E; [|done].
    intros [= <- <-]. by apply Hh.
  - destruct (if starts_with _ (c :: s) then _ else _) eqn:E.
    { intros [= <- <-]. by apply Hh. }
    destruct (line_terminator c); [done|].
    destruct (find_alt s) as [[alt' u']|]; [|done]. intros [= <- <-].
    destruct (IH alt' u' eq_refl) as [t ->]. by exists t.
Qed.

Lemma good_amp : good_matcher m_amp.
Proof.
  apply good_matcher_delim; unfold m_amp.
  - intros _ s out n E _. matched. template.
  - intros _ c r out n E. matched. apply starts_with_spec in Heqb as [t Et]. by simplify_eq/=.
Qed.

Lemma lt_ok_cleanUrl u : lt_ok u -> lt_ok (cleanUrl u).
Proof. apply gsub_ok, good_amp. Qed.
#[export] Hint Resolve lt_ok_cleanUrl : portal.

Lemma lt_ok_image u alt : lt_ok u -> lt_ok alt -> lt_ok (image_html u alt).
Proof. intros. unfold image_html. auto 20 with portal. Qed.

Lemma lt_ok_link u txt : lt_ok u -> lt_ok txt -> lt_ok (link_html u txt).
Proof. intros. unfold link_html. auto 20 with portal. Qed.

Lemma good_image : good_matcher m_image.
Proof.
  apply good_matcher_delim; unfold m_image.
  - intros _ s out n E H. destruct s as [|c1 s]; [done|].
    destruct (decide (c1 = 33)) as [->|]; [|by matched]. destruct s as [|c2 r]; [done|].
    destruct (decide (c2 = 91)) as [->|]; [|by matched].
    destruct (find_alt r) as [[alt u]|] eqn:Ef; [|done]. simplify_eq.
    apply find_alt_spec in Ef as [t ->]. do 2 apply lt_ok_tail in H.
    apply lt_ok_image; [|by eapply lt_ok_cut; [|exact H]].
    apply lt_ok_suffix in H. do 2 apply lt_ok_tail in H. by eapply lt_ok_cut; [|exact H].
  - intros _ c r out n E. destruct (decide (c = 33)) as [->|]; [done|]. by matched.
Qed.

Lemma good_link : good_matcher m_link.
Proof.
  apply good_matcher_delim; unfold m_link.
  - intros _ s out n E H. destruct s as [|c1 r]; [done|].
    destruct (decide (c1 = 91)) as [->|]; [|by matched].
    destruct (span (isnt 93) r) as [g t] eqn:Es. apply span_eq in Es. subst r.
    destruct g as [|x g]; [done|]. destruct t as [|y t]; [done|].
    destruct (decide (y = 93)) as [->|]; [|by matched]. destruct t as [|z t]; [done|].
    destruct (decide (z = 40)) as [->|]; [|by matched].
    destruct (http_url t) as [u|] eqn:Eu; [|done]. simplify_eq.
    apply http_url_spec in Eu as [t' ->]. apply lt_ok_tail in H.
    apply lt_ok_link; [|by eapply (lt_ok_cut (x :: g)); [|exact H]].
    apply (lt_ok_suffix (x :: g)) in H. do 2 apply lt_ok_tail in H. by eapply lt_ok_cut; [|exact H].
  - intros _ c r out n E. destruct (decide (c = 91)) as [->|]; [done|]. by matched.
Qed.

Lemma good_pair d tag :
  is_delim d = true -> lt_ok (js "<" ++ tag ++ js ">") -> lt_ok (js "</" ++ tag ++ js ">") ->
  good_matcher (m_pair d tag).
Proof.
  intros Hd H1 H2. apply good_matcher_delim; unfold m_pair.
  - intros _ s out n E H. destruct (starts_with [d; d] s) eqn:Es; [|done].
    apply (lt_ok_drop 2) in H. destruct (span (isnt d) (drop 2 s)) as [g t] eqn:Eg.
    apply span_eq in Eg. rewrite Eg in H. destruct g as [|x g]; [done|].
    destruct (starts_with [d; d] t) eqn:Et; [|done]. simplify_eq.
    apply starts_with_spec in Et as [t' ->].
    assert (Hg : lt_ok (x :: g)) by (eapply (lt_ok_cut (x :: g) d); [done|exact H]).
    rewrite !app_assoc in H1, H2. rewrite !app_assoc, <- (app_assoc _ (js "</")), <- (app_assoc _ (js "</" ++ tag)).
    auto with portal.
  - intros _ c r out n E. matched. apply starts_with_spec in Heqb as [t Et]. by simplify_eq/=.
Qed.

Lemma em_body_spec s g post :
  em_body s = Some (g, post) ->
  exists t, s = 42 :: g ++ 42 :: post ++ t /\ (post = [] \/ exists c, post = [c] /\ c <> 42).
Proof.
  unfold em_body. destruct s as [|c r]; [done|]. destruct (decide (c = 42)) as [->|]; [|intros; by matched].
  destruct (span (isnt 42) r) as [g' t] eqn:Es. apply span_eq in Es. subst r.
  destruct g' as [|x g']; [done|]. destruct t as [|y t]; [done|].
  destruct (decide (y = 42)) as [->|]; [|intros; by matched].
  destruct t as [|z t]; [intros [= <- <-]; exists []; auto|].
  destruct (isnt 42 z) eqn:Ez; [|done]. intros [= <- <-]. exists t.
  split; [done|]. right. exists z. unfold isnt in Ez. bool_norm. eauto.
Qed.

Lemma lt_ok_delim_head c r : lt_ok (c :: r) -> (exists d r', r = d :: r' /\ is_delim d = true) -> c <> 60.
Proof.
  intros [Hc _]%lt_ok_cons (d & r' & -> & Hd) E. destruct (Hc E) as (t & Ht & Hs).
  destruct t as [|x t].
  - assert (forallb truthy openers = true) as Hf by (by vm_compute).
    rewrite forallb_forall in Hf. by apply list_elem_of_In, Hf in Ht.
  - simpl in Hs. bool_norm. subst x. rewrite (openers_plain (d :: t) d) in Hd; [done..|set_solver].
Qed.

(** The body of an emphasis: the text and the character after it. *)
Lemma em_out_ok s g post t :
  s = 42 :: g ++ 42 :: post ++ t -> (post = [] \/ exists c, post = [c] /\ c <> 42) -> lt_ok s ->
  lt_ok (js "<em>" ++ g ++ js "</em>") /\ (post = [] \/ exists c, post = [c] /\ lt_ok (c :: t)).
Proof.
  intros -> Hp H. apply lt_ok_tail in H. split.
  - assert (lt_ok g) by (by eapply (lt_ok_cut g 42); [|exact H]). auto with portal.
  - apply lt_ok_suffix, lt_ok_tail in H. destruct Hp as [->|(c & -> & _)]; eauto.
Qed.

Lemma good_em : good_matcher m_em.
Proof.
  split; unfold m_em.
  - intros start s out n E H. destruct (if start then em_body s else None) as [[g post]|] eqn:Eb.
    + destruct start; [|done]. apply em_body_spec in Eb as (t & Es & Hp). simplify_eq.
      destruct (em_out_ok _ _ _ _ eq_refl Hp H) as [Ho [->|(c & -> & Hc)]].
      * left. by rewrite app_nil_r.
      * right. exists (js "<em>" ++ g ++ js "</em>"), c. rewrite <- !app_assoc. split_and!; try done; [|lia].
        replace (drop _ _) with t; [done|]. symmetry.
        replace (length g + length [c] + 2)%nat with (length (42 :: g ++ 42 :: [c])) by (simpl; rewrite length_app; simpl; lia).
        change (42 :: g ++ 42 :: [c] ++ t) with ((42 :: g) ++ (42 :: [c]) ++ t).
        rewrite app_assoc. apply drop_app_length.
    + destruct s as [|c0 r]; [done|]. destruct (isnt 42 c0); [|done].
      destruct (em_body r) as [[g post]|] eqn:Er; [|done]. apply em_body_spec in Er as (t & Es & Hp). simplify_eq.
      assert (Hc0 : c0 <> 60) by (eapply lt_ok_delim_head; [exact H|eauto]).
      assert (H1 : lt_ok [c0]) by (apply lt_ok_no_lt; set_solver).
      apply lt_ok_tail in H. destruct (em_out_ok _ _ _ _ eq_refl Hp H) as [Ho [->|(c & -> & Hc)]].
      * left. rewrite app_nil_r. by apply (lt_ok_app [c0]).
      * right. exists (c0 :: js "<em>" ++ g ++ js "</em>"), c. simpl. rewrite <- !app_assoc.
        split_and!; try done; [by apply (lt_ok_app [c0])| |lia].
        replace (drop _ _) with t; [done|]. symmetry.
        replace (length g + 1 + 3)%nat with (length (c0 :: 42 :: g ++ 42 :: [c])) by (simpl; rewrite length_app; simpl; lia).
        change (c0 :: 42 :: g ++ 42 :: [c] ++ t) with ((c0 :: 42 :: g) ++ (42 :: [c]) ++ t).
        change (c0 :: 42 :: g ++ 42 :: c :: t) with ((c0 :: 42 :: g) ++ (42 :: [c]) ++ t).
        rewrite app_assoc. apply drop_app_length.
  - intros start c r out n E Hc.
    destruct (if start then em_body (c :: r) else None) as [[g post]|] eqn:Eb.
    + destruct start; [|done]. apply em_body_spec in Eb as (t & Es & Hp). by simplify_eq.
    + destruct (isnt 42 c); [|done]. destruct (em_body r) as [[g post]|] eqn:Er; [|done]. simplify_eq.
      apply em_body_spec in Er as (t & -> & _). split; [by eexists|]. by eexists _, _.
Qed.

Lemma lt_ok_inline text : lt_ok (formatInlineMarkdown text).
Proof.
  unfold formatInlineMarkdown.
  repeat (apply gsub_ok; [first [apply good_code|apply good_image|apply good_link|apply good_em
                               |apply good_pair; [done|template..]]|]).
  apply lt_ok_escape.
Qed.
#[export] Hint Resolve lt_ok_inline : portal.

(** ** Blocks *)

Definition aligned (a : jsstring) : Prop := a = js "left" \/ a = js "right" \/ a = js "center".

Record blocks_ok (b : blocks) : Prop := {
  bo_result : Forall lt_ok (resultBlocks b);
  bo_list : listType b = js "ul" \/ listType b = js "ol";
  bo_align : Forall aligned (tableAlignments b);
}.

Lemma blocks_ok_push html b : lt_ok html -> blocks_ok b -> blocks_ok (push html b).
Proof. intros H []. split; [apply Forall_app; auto|done..]. Qed.

Lemma blocks_ok_set_list i ty items b :
  ty = js "ul" \/ ty = js "ol" -> blocks_ok b -> blocks_ok (set_list i ty items b).
Proof. by intros ? []. Qed.

Lemma blocks_ok_set_quote i ls b : blocks_ok b -> blocks_ok (set_quote i ls b).
Proof. by intros []. Qed.

Lemma blocks_ok_set_table i h al rows b :
  Forall aligned al -> blocks_ok b -> blocks_ok (set_table i h al rows b).
Proof. by intros ? []. Qed.
#[export] Hint Resolve blocks_ok_push blocks_ok_set_quote blocks_ok_set_table bo_list bo_align : portal.

Lemma lt_ok_cell tag aligns idx cell :
  tag = js "th" \/ tag = js "td" -> Forall aligned aligns -> lt_ok (cell_html tag aligns idx cell).
Proof.
  intros Ht Ha. unfold cell_html.
  set (align := match _ with Some a => _ | None => _ end).
  replace (js "<" ++ tag ++ align ++ _) with
    ((js "<" ++ tag ++ align ++ js ">") ++ formatInlineMarkdown cell ++ (js "</" ++ tag ++ js ">"))
    by (by rewrite <- !app_assoc).
  apply lt_ok_app; [|apply lt_ok_app; [apply lt_ok_inline|by destruct Ht as [->| ->]; template]].
  subst align. rewrite Forall_forall in Ha.
  destruct (aligns !! idx) as [a|] eqn:E; [|by destruct Ht as [->| ->]; template].
  destruct (Ha a) as [->|[->| ->]]; [by eapply list_elem_of_lookup_2|..]; by destruct Ht as [->| ->]; template.
Qed.

Lemma lt_ok_row tag aligns row :
  tag = js "th" \/ tag = js "td" -> Forall aligned aligns -> lt_ok (row_html tag aligns row).
Proof.
  intros Ht Ha. apply lt_ok_concat, Forall_forall. intros x (i & y & -> & _)%elem_of_lookup_imap.
  by apply lt_ok_cell.
Qed.

Lemma lt_ok_table b : blocks_ok b -> lt_ok (table_html b).
Proof.
  intros []. unfold table_html. apply lt_ok_app; [template|]. apply lt_ok_app; [|apply lt_ok_app; [|template]].
  - destruct (tableHeader b); [done|].
    apply lt_ok_app; [template|apply lt_ok_app; [|template]]. apply lt_ok_row; auto.
  - destruct (tableRows b); [done|]. apply lt_ok_app; [template|apply lt_ok_app; [|template]].
    apply lt_ok_concat, Forall_fmap, Forall_true. intros row. unfold compose.
    apply lt_ok_app; [template|apply lt_ok_app; [|template]]. apply lt_ok_row; auto.
Qed.

Lemma lt_ok_list b : blocks_ok b -> lt_ok (list_html b).
Proof.
  intros []. unfold list_html. rewrite (app_assoc (listType b)), (app_assoc (js "<")).
  apply lt_ok_app; [destruct bo_list0 as [->| ->]; template|].
  apply lt_ok_app; [|destruct bo_list0 as [->| ->]; template].
  apply lt_ok_concat, Forall_fmap, Forall_true. intros item. unfold compose. auto with portal.
Qed.

Lemma lt_ok_quote b : lt_ok (quote_html b).
Proof.
  unfold quote_html. apply lt_ok_app; [template|apply lt_ok_app; [|template]].
  apply lt_ok_join; [template|]. apply Forall_fmap, Forall_true. intros. unfold compose. apply lt_ok_inline.
Qed.

Lemma flushTable_ok b : blocks_ok b -> blocks_ok (flushTable b).
Proof.
  intros H. unfold flushTable. destruct (inTable b); [|done].
  apply blocks_ok_set_table; [done|]. destruct (tableHeader b), (tableRows b); auto using blocks_ok_push, lt_ok_table.
Qed.

Lemma flushList_ok b : blocks_ok b -> blocks_ok (flushList b).
Proof.
  intros H. unfold flushList. destruct (inList b); [|done].
  assert (blocks_ok (match listItems b with [] => b | _ => push (list_html b) b end)).
  { destruct (listItems b); auto using blocks_ok_push, lt_ok_list. }
  apply blocks_ok_set_list; [by apply bo_list|done].
Qed.

Lemma flushBlockquote_ok b : blocks_ok b -> blocks_ok (flushBlockquote b).
Proof.
  intros H. unfold flushBlockquote. destruct (inBlockquote b); [|done].
  apply blocks_ok_set_quote. destruct (blockquoteLines b); auto using blocks_ok_push, lt_ok_quote.
Qed.
#[export] Hint Resolve flushTable_ok flushList_ok flushBlockquote_ok : portal.

Lemma add_item_ok ty item b : ty = js "ul" \/ ty = js "ol" -> blocks_ok b -> blocks_ok (add_item ty item b).
Proof. intros Ht H. apply blocks_ok_set_list; [done|]. destruct (_ && _); auto with portal. Qed.

Lemma heading_ok k text b :
  lt_ok (js "<" ++ k ++ jsq " class=`chat-" ++ k ++ jsq "`>") -> lt_ok (js "</" ++ k ++ js ">") ->
  blocks_ok b -> blocks_ok (push (heading k text) b).
Proof.
  intros H1 H2 Hb. apply blocks_ok_push; [|done]. unfold heading.
  replace (js "<" ++ k ++ _) with ((js "<" ++ k ++ jsq " class=`chat-" ++ k ++ jsq "`>") ++
    formatInlineMarkdown text ++ (js "</" ++ k ++ js ">")) by (by rewrite <- !app_assoc).
  auto using lt_ok_app, lt_ok_inline.
Qed.

Lemma text_line_ok line b : blocks_ok b -> blocks_ok (text_line line b).
Proof.
  intros H. unfold text_line. destruct (starts_with (js ">") _); [auto with portal|].
  assert (Hb : blocks_ok (if inBlockquote b then flushBlockquote b else b)) by (destruct (inBlockquote b); auto with portal).
  revert Hb. generalize (if inBlockquote b then flushBlockquote b else b). clear b H. intros b H.
  repeat (destruct (starts_with _ _); [apply heading_ok; [template..|auto with portal]|]).
  destruct (is_rule _); [apply blocks_ok_push; [template|auto with portal]|].
  destruct (ul_item _); [auto using add_item_ok|]. destruct (ol_item _); [auto using add_item_ok|].
  assert (blocks_ok (if inList b then flushList b else b)) by (destruct (inList b); auto with portal).
  destruct (trim line); apply blocks_ok_push; auto with portal.
Qed.

Lemma parseAlignments_ok line : Forall aligned (parseAlignments line).
Proof.
  apply Forall_fmap, Forall_true. intros cell. unfold compose, aligned.
  destruct (starts_with _ _), (ends_with _ _); simpl; auto.
Qed.

Lemma one_line_ok line next b : blocks_ok b -> blocks_ok (fst (one_line line next b)).
Proof.
  intros H. unfold one_line. destruct (isTableLine line).
  - assert (Hb : blocks_ok (flushBlockquote (flushList b))) by auto with portal.
    assert (Hl : forall l : list jsstring, Forall aligned ((fun _ => js "left") <$> l)).
    { intros l. apply Forall_fmap, Forall_true. by left. }
    pose proof parseAlignments_ok. revert Hb. generalize (flushBlockquote (flushList b)). intros b' Hb.
    destruct (negb _); [destruct next as [n|]; [destruct (isTableSeparator n)|]|destruct (isTableSeparator line)];
      simpl; apply blocks_ok_set_table; auto with portal.
  - apply text_line_ok. destruct (inTable b); auto with portal.
Qed.

Lemma line_loop_ok lines b : blocks_ok b -> blocks_ok (line_loop lines b).
Proof.
  revert b. induction lines as [lines IH] using (induction_ltof1 _ (@length jsstring)).
  intros b H. destruct lines as [|line rest]; [done|]. simpl.
  pose proof (one_line_ok line (head rest) b H) as H1. destruct (one_line _ _ b) as [b1 skip].
  destruct rest as [|r rest]; [done|]. unfold ltof in IH.
  destruct skip; apply IH; simpl in *; try lia; done.
Qed.

(** ** Extraction and restoration *)

Lemma span_all p s : Forall (fun c => p c = true) (fst (span p s)).
Proof.
  induction s as [|c s IH]; simpl; [constructor|]. destruct (p c) eqn:E; [|constructor].
  destruct (span p s). by constructor.
Qed.

Lemma extract_ok {A} (m : jsstring -> option (A * nat)) f s :
  (forall s g n acc, m s = Some (g, n) -> Forall lt_ok acc -> Forall lt_ok (snd (f g acc))) ->
  forall skip acc, Forall lt_ok acc -> Forall lt_ok (snd (extract m f skip acc s)).
Proof.
  intros Hf. induction s as [|c r IH]; intros skip acc H; [done|]. simpl.
  destruct skip as [|k]; [|by apply IH].
  destruct (m (c :: r)) as [[g n]|] eqn:E.
  - pose proof (Hf _ g n acc E H) as H1. destruct (f g acc) as [out acc1]. simpl in H1.
    pose proof (IH (pred n) acc1 H1). by destruct (extract m f (pred n) acc1 r).
  - pose proof (IH 0%nat acc H). by destruct (extract m f 0 acc r).
Qed.

Lemma lt_ok_think l t : lt_ok (think_html l t).
Proof.
  unfold think_html. apply lt_ok_app; [template|]. apply lt_ok_app; [destruct l; template|].
  apply lt_ok_app; [template|]. apply lt_ok_app; [apply lt_ok_escape|template].
Qed.

Lemma on_think_ok l g acc : Forall lt_ok acc -> Forall lt_ok (snd (on_think l g acc)).
Proof.
  intros H. unfold on_think. destruct (truthy _); [|done]. apply Forall_app.
  auto using lt_ok_think.
Qed.

Lemma lt_ok_code lg code : Forall (fun c => lang_char c = true) lg -> lt_ok (code_html lg code).
Proof.
  intros H. unfold code_html.
  assert (lt_ok (trim (escape_entities code))).
  { apply lt_ok_no_lt. intros Hin%elem_of_trim. by apply escape_no_lt in Hin. }
  assert (lt_ok lg).
  { apply lt_ok_no_lt. intros Hin. rewrite Forall_forall in H. by apply H in Hin. }
  repeat apply lt_ok_app; try done; try template.
  destruct (truthy lg); [|done]. repeat apply lt_ok_app; try done; template.
Qed.

Lemma on_fence_ok s g n acc :
  match_fence s = Some (g, n) -> Forall lt_ok acc -> Forall lt_ok (snd (on_fence g acc)).
Proof.
  intros E H. apply Forall_app. split; [done|]. constructor; [|constructor].
  unfold match_fence in E. destruct (starts_with fence s); [|done].
  pose proof (span_all lang_char (drop 3 s)) as Hs. destruct (span lang_char (drop 3 s)) as [lg t].
  destruct t as [|c t]; [done|]. destruct (decide (c = 10)) as [->|]; [|by matched].
  destruct (until fence_stop t) as [[code k]|]; [|done]. simplify_eq. by apply lt_ok_code.
Qed.

Lemma find_first_spec p s a b : find_first p s = Some (a, b) -> s = a ++ p ++ b.
Proof.
  revert a b. induction s as [|c s IH]; intros a b; cbn [find_first].
  - destruct (starts_with p []) eqn:E; [|done]. apply starts_with_drop in E. by intros [= <- <-].
  - destruct (starts_with p (c :: s)) eqn:E.
    + apply starts_with_drop in E. by intros [= <- <-].
    + destruct (find_first p s) as [[a' b']|]; [|done]. intros [= <- <-]. simpl. by rewrite (IH a' b').
Qed.

Lemma good_dollar pre p post : lt_ok pre -> lt_ok p -> lt_ok post -> good_matcher (m_dollar pre p post).
Proof.
  intros H1 H2 H3. apply good_matcher_delim; unfold m_dollar.
  - intros _ s out n E _. matched; done.
  - intros _ c r out n E. destruct (decide (c = 36)) as [->|]; [done|]. by matched.
Qed.

Lemma replace_first_ok p x r s :
  p = 95 :: x ++ [95] -> lt_ok r -> lt_ok s -> lt_ok (replace_first p r s).
Proof.
  intros Ep Hr Hs. unfold replace_first. destruct (find_first p s) as [[pre post]|] eqn:E; [|done].
  apply find_first_spec in E. subst s.
  assert (Hpre : lt_ok pre) by (eapply (lt_ok_cut pre 95); [done|]; by rewrite Ep in Hs).
  assert (Hpost : lt_ok post) by (by do 2 apply lt_ok_suffix in Hs).
  assert (Hp : lt_ok p).
  { apply lt_ok_suffix in Hs. rewrite Ep in Hs |- *.
    apply (lt_ok_app (95 :: x)); [|by apply lt_ok_no_lt; set_solver].
    eapply (lt_ok_cut (95 :: x) 95); [done|]. simpl in Hs. rewrite <- app_assoc in Hs. exact Hs. }
  apply lt_ok_app; [done|apply lt_ok_app; [|done]]. apply gsub_ok; [|done]. by apply good_dollar.
Qed.

Lemma placeholder_shape kind i : exists x, placeholder kind i = 95 :: x ++ [95].
Proof.
  exists (js "__CM_" ++ kind ++ js "_BLOCK_" ++ show_N (N.of_nat i) ++ js "__").
  unfold placeholder. rewrite <- !app_assoc. reflexivity.
Qed.

Lemma restore_ok kind bs html : Forall lt_ok bs -> lt_ok html -> lt_ok (restore kind bs html).
Proof.
  unfold restore. generalize O as i. intros i H. revert html i.
  induction H as [|b bs Hb Hbs IH]; intros html i Hh; [done|]. simpl. apply IH.
  destruct (placeholder_shape kind i) as [x E]. by eapply replace_first_ok.
Qed.

(** ** Properties *)

(** Whatever the text, every tag in the HTML that [formatInlineMarkdown]
    produces is one of the renderer's own: the text cannot introduce an element. *)
Theorem inline_only_own_tags text a b :
  formatInlineMarkdown text = a ++ 60 :: b -> exists t, t ∈ openers /\ starts_with t b = true.
Proof.
  intros E. pose proof (lt_ok_inline text) as H. rewrite E in H.
  apply lt_ok_suffix, lt_ok_cons in H as [H _]. auto.
Qed.

Lemma inline_only_own_tags_witness : exists t, t ∈ openers /\ starts_with t (js "code>&lt;script</code>") = true.
Proof.
  apply (inline_only_own_tags (96 :: js "<script" ++ [96]) []). vm_compute. reflexivity.
Defined.

(** C1: The same for whole chat messages, with tables, lists, quotes, headings, code
    fences and reasoning blocks: every [<] that [formatChatMarkdown] hands to
    [innerHTML] opens one of the renderer's own tags. *)
Theorem chat_only_own_tags l text a b :
  formatChatMarkdown l text = a ++ 60 :: b -> exists t, t ∈ openers /\ starts_with t b = true.
Proof.
  intros E. assert (H : lt_ok (formatChatMarkdown l text)).
  { unfold formatChatMarkdown. destruct (negb (truthy text)); [done|].
    pose proof (extract_ok match_think (on_think l) text
      (fun _ g _ acc _ => on_think_ok l g acc) 0 [] (Forall_nil_2 _)) as H1.
    destruct (extract match_think _ _ _ _) as [p1 thinkBlocks].
    pose proof (extract_ok match_fence on_fence p1 on_fence_ok 0 [] (Forall_nil_2 _)) as H2.
    destruct (extract match_fence _ _ _ _) as [p2 codeBlocks].
    apply restore_ok; [done|]. apply restore_ok; [done|]. apply lt_ok_concat, bo_result.
    apply flushBlockquote_ok, flushList_ok, flushTable_ok, line_loop_ok. split; simpl; auto. }
  rewrite E in H. apply lt_ok_suffix, lt_ok_cons in H as [H _]. auto.
Qed.

Lemma chat_only_own_tags_witness :
  exists t, t ∈ openers /\ starts_with t (jsq "p class=`chat-p`>&lt;b&gt;</p>") = true.
Proof. apply (chat_only_own_tags En (js "<b>") []). vm_compute. reflexivity. Defined.

(** A character none of the patterns looks at. *)
Definition plain_char (c : N) : bool :=
  negb (existsb (N.eqb c) [38; 60; 62; 96; 33; 91; 42; 95; 126]).

Lemma gsub_at_id m start s :
  (forall st c r, Forall (fun c => plain_char c = true) (c :: r) -> m st (c :: r) = None) ->
  Forall (fun c => plain_char c = true) s -> gsub_at m start 0 s = s.
Proof.
  intros Hm. revert start. induction s as [|c s IH]; intros start H; [done|]. simpl.
  rewrite Hm by done. inv H. by rewrite IH.
Qed.

Lemma plain_head d c r :
  Forall (fun c => plain_char c = true) (c :: r) -> plain_char d = false -> c <> d.
Proof. intros H Hd ->. inv H. congruence. Qed.

Lemma escape_id s : Forall (fun c => plain_char c = true) s -> escape_entities s = s.
Proof.
  unfold escape_entities, map_chars. induction 1 as [|c s Hc H IH]; [done|].
  rewrite bind_cons, IH.
  unfold escape_char. destruct (c =? 38) eqn:?, (c =? 60) eqn:?, (c =? 62) eqn:?; bool_norm; by subst.
Qed.

Lemma pair_none d tag st c r :
  Forall (fun c => plain_char c = true) (c :: r) -> plain_char d = false -> m_pair d tag st (c :: r) = None.
Proof.
  intros H Hd. unfold m_pair. simpl. pose proof (plain_head d c r H Hd).
  destruct (d =? c) eqn:E; bool_norm; [by subst|done].
Qed.

(** Text without Markdown or HTML characters is rendered unchanged. *)
Theorem inline_plain_text s :
  Forall (fun c => plain_char c = true) s -> formatInlineMarkdown s = s.
Proof.
  intros H. unfold formatInlineMarkdown, gsub. rewrite escape_id by done.
  rewrite !(gsub_at_id _ true s); try done; intros st c r Hp; try (by apply pair_none).
  - unfold m_em. destruct (em_body (c :: r)) as [[g post]|] eqn:E.
    { apply em_body_spec in E as (t & E & _). simplify_eq. by inv Hp. }
    destruct st; (destruct (isnt 42 c); [|done]);
    (destruct (em_body r) as [[g post]|] eqn:Er; [|done]);
    apply em_body_spec in Er as (t & -> & _); inv Hp; by inv H3.
  - unfold m_link. pose proof (plain_head 91 c r Hp eq_refl). destruct (decide (c = 91)); [done|].
    destruct (match c with 91 => _ | _ => _ end) eqn:E; [|done]. exfalso. by matched.
  - unfold m_image. pose proof (plain_head 33 c r Hp eq_refl).
    destruct (match c with 33 => _ | _ => _ end) eqn:E; [|done]. exfalso. by matched.
  - unfold m_code. pose proof (plain_head 96 c r Hp eq_refl).
    destruct (match c with 96 => _ | _ => _ end) eqn:E; [|done]. exfalso. by matched.
Qed.

Lemma inline_plain_text_witness : formatInlineMarkdown (js "Grüße, 2+2=4") = js "Grüße, 2+2=4".
Proof. apply inline_plain_text. vm_compute. repeat constructor. Defined.

(** The address of a link reaches the [href] attribute unescaped, so that a
    quotation mark in it ends the attribute and starts a new one. *)
Theorem link_address_breaks_attribute :
  formatInlineMarkdown (jsq "[x](https://e/`onmouseover=`alert)")
  = jsq "<a href=`https://e/`onmouseover=`alert` target=`_blank` rel=`noopener noreferrer` class=`chat-link`>x</a>".
Proof. vm_compute. reflexivity. Qed.

(** The emphasis passes run over the links already rendered and rewrite their
    addresses. *)
Theorem emphasis_rewrites_link_address :
  formatInlineMarkdown (js "[x](https://e/__init__)")
  = jsq "<a href=`https://e/<strong>init</strong>` target=`_blank` rel=`noopener noreferrer` class=`chat-link`>x</a>".
Proof. vm_compute. reflexivity. Qed.

(** Dollar sequences of a code block are interpreted when the block is put back:
    two dollar signs in the code are shown as one. *)
Theorem code_block_dollars_are_lost :
  formatChatMarkdown En (fence ++ [10] ++ js "$$" ++ fence)
  = jsq "<p class=`chat-p`><pre><code>$</code></pre></p>".
Proof. vm_compute. reflexivity. Qed.
