(* ===== verification/Playground.v ===== *)
(** * The AI playground (portal-core.js)

    [sendPlaygroundMessage] with its quota, its server-sent-event reader and its
    conversation history, [clearPlaygroundChat], [updateTeaserQuota],
    [formatResetDuration], the model menu ([selectModelInPlayground],
    [syncPlaygroundModel], [handlePlaygroundKey]) and [runPlaygroundPrompt].  The
    asynchronous handlers are
    cut at their [await]s; a chunk event carries the text that the [TextDecoder]
    returned for it, and the times it reads ([Date.now], [performance.now]) are part
    of the event. *)
From Stdlib Require Import Lia ZArith QArith Qround.
From stdpp Require Import base numbers list gmap strings.
From S2P Require Import Prelude JsString JsNumber JsValue JsJson Catalog Markdown.

(** ** Quota text *)

(** [formatResetDuration(ms)] *)
Definition formatResetDuration (show_frac : Q -> jsstring) (l : lang) (ms : num) : jsstring :=
  let totalSeconds := num_max (num_Z 0) (num_ceil (num_div ms 1000)) in
  let hours := num_floor (num_div totalSeconds 3600) in
  let minutes := num_ceil (num_div (num_mod totalSeconds 3600) 60) in
  let show := show_num show_frac in
  if num_lt (num_Z 0) hours then show hours ++ js "h " ++ show minutes ++ js "m"
  else tr l (show (num_max (num_Z 1) minutes) ++ js " Min.")
            (show (num_max (num_Z 1) minutes) ++ js " min").

Module Chat.

(** ** State *)

Inductive role : Type := User | Assistant.
Record message := Message { msg_role : role; content : jsstring }.

Record request := Request { req_model : jsstring; req_messages : list message }.

(** The bubbles of [#playground-chat-stream]; the body of an AI bubble is reached
    through an element reference, which outlives the bubble's removal. *)
Inductive node : Type :=
| Welcome (text : jsstring)
| UserMsg (body : jsstring)
| AiMsg (ref : nat) (dom_id : jsstring) (body : jsstring).

Record input := Input { value : jsstring; height : Z }.
(** The values of the menu's options, its value, whether it is disabled. *)
Record select := Select { sel_disabled : bool; sel_value : jsstring; sel_options : list jsstring }.

Record page := Page {
  inputEl : option input;
  modelEl : option select;
  streamEl : option (list node);
  sendBtn : option bool;
  sendBtnText : option jsstring;
  statusEl : option (jsstring * jsstring);
  tpsEl : option jsstring;
  latEl : option jsstring;
  tokEl : option jsstring;
  quotaTextEl : option jsstring;
  welcomeEl : bool;
  metricsHidden : option bool;
  quickPromptsHidden : option bool;
  resetBtnHidden : option bool;
  studioMetaHidden : option bool;
  conversionModal : option (jsstring * bool);
  clusterEl : option jsstring;
}.

(** The [await] an invocation of [sendPlaygroundMessage] is suspended at. *)
Inductive phase : Type :=
| AwaitFetch
| AwaitErrJson (retryAfterHdr : option jsstring)
| AwaitErrText (status : Z)
| Reading.

(** Its local variables. *)
Record attempt := Attempt {
  at_phase : phase;
  aiBodyEl : option nat;
  startTime : Q;
  firstTokenTime : Q;
  rawAiText : jsstring;
  tokenCount : nat;
  buffer : jsstring;
}.

Record state := State {
  isPlaygroundInferencing : bool;
  playgroundChatHistory : list message;
  teaserRequestsRemaining : num;
  teaserResetAtMs : num;
  currentLang : lang;
  dom : page;
  running : gmap nat attempt;
  next_ref : nat;
  requests : list request;
}.

Definition set_dom (p : page) (s : state) : state :=
  State (isPlaygroundInferencing s) (playgroundChatHistory s) (teaserRequestsRemaining s)
    (teaserResetAtMs s) (currentLang s) p (running s) (next_ref s) (requests s).
Definition set_running (r : gmap nat attempt) (s : state) : state :=
  State (isPlaygroundInferencing s) (playgroundChatHistory s) (teaserRequestsRemaining s)
    (teaserResetAtMs s) (currentLang s) (dom s) r (next_ref s) (requests s).
Definition set_history (h : list message) (s : state) : state :=
  State (isPlaygroundInferencing s) h (teaserRequestsRemaining s)
    (teaserResetAtMs s) (currentLang s) (dom s) (running s) (next_ref s) (requests s).
Definition set_quota (remaining resetAt : num) (s : state) : state :=
  State (isPlaygroundInferencing s) (playgroundChatHistory s) remaining resetAt
    (currentLang s) (dom s) (running s) (next_ref s) (requests s).

Definition set_stream (n : option (list node)) (p : page) : page :=
  Page (inputEl p) (modelEl p) n (sendBtn p) (sendBtnText p) (statusEl p) (tpsEl p) (latEl p)
    (tokEl p) (quotaTextEl p) (welcomeEl p) (metricsHidden p) (quickPromptsHidden p)
    (resetBtnHidden p) (studioMetaHidden p) (conversionModal p) (clusterEl p).
Definition set_metrics (st : option (jsstring * jsstring)) (tps lat tok : option jsstring) (p : page) : page :=
  Page (inputEl p) (modelEl p) (streamEl p) (sendBtn p) (sendBtnText p) st tps lat tok
    (quotaTextEl p) (welcomeEl p) (metricsHidden p) (quickPromptsHidden p)
    (resetBtnHidden p) (studioMetaHidden p) (conversionModal p) (clusterEl p).
Definition set_send (b : option bool) (t : option jsstring) (p : page) : page :=
  Page (inputEl p) (modelEl p) (streamEl p) b t (statusEl p) (tpsEl p) (latEl p)
    (tokEl p) (quotaTextEl p) (welcomeEl p) (metricsHidden p) (quickPromptsHidden p)
    (resetBtnHidden p) (studioMetaHidden p) (conversionModal p) (clusterEl p).
Definition set_quotaText (t : option jsstring) (p : page) : page :=
  Page (inputEl p) (modelEl p) (streamEl p) (sendBtn p) (sendBtnText p) (statusEl p) (tpsEl p)
    (latEl p) (tokEl p) t (welcomeEl p) (metricsHidden p) (quickPromptsHidden p)
    (resetBtnHidden p) (studioMetaHidden p) (conversionModal p) (clusterEl p).
Definition set_modal (m : option (jsstring * bool)) (p : page) : page :=
  Page (inputEl p) (modelEl p) (streamEl p) (sendBtn p) (sendBtnText p) (statusEl p) (tpsEl p)
    (latEl p) (tokEl p) (quotaTextEl p) (welcomeEl p) (metricsHidden p) (quickPromptsHidden p)
    (resetBtnHidden p) (studioMetaHidden p) m (clusterEl p).

Section Handlers.
(** [String] of numbers that are not integers, and [Date.parse], whose result on
    other than ISO dates is implementation defined. *)
Context (show_frac : Q -> jsstring) (date_parse : jsstring -> num).

(** ** Modal, quota, reset *)

Definition openTeaserConversionModal (p : page) : page :=
  set_modal ((fun _ => (js "flex", true)) <$> conversionModal p) p.

Definition closeTeaserConversionModal (p : page) : page :=
  set_modal ((fun _ => (js "none", false)) <$> conversionModal p) p.

(** [updateTeaserQuota(remaining, limit, resetSeconds, resetAt)]; [limit] is not read. *)
Definition updateTeaserQuota (now : Z) (remaining : num) (resetSeconds resetAt : jsstring) (s : state) : state :=
  if is_nan remaining then s
  else
    let parsedResetSeconds := parseInt10 (if truthy resetSeconds then resetSeconds else js "0") in
    let parsedResetAt := if truthy resetAt then date_parse resetAt else num_Z 0 in
    let at_ms :=
      if num_truthy parsedResetAt then parsedResetAt
      else if num_lt (num_Z 0) parsedResetSeconds
           then num_add (num_Z now) (num_scale 1000 parsedResetSeconds)
           else num_Z 0 in
    let s1 := set_quota remaining at_ms s in
    let text :=
      if num_le remaining (num_Z 0) && num_lt (num_Z now) at_ms then
        tr (currentLang s) (js "Pause: ") (js "Paused: ")
        ++ formatResetDuration show_frac (currentLang s) (num_sub at_ms (num_Z now))
      else show_num show_frac remaining
        ++ tr (currentLang s) (js " Gratis-Anfragen übrig") (js " Free Requests Left") in
    set_dom (set_quotaText ((fun _ => text) <$> quotaTextEl (dom s1)) (dom s1)) s1.

Definition welcomeMsg (l : lang) : jsstring :=
  tr l (js "Willkommen bei ComputeMesh! Du kannst das Live-Gateway direkt hier mit 20 kostenlosen Anfragen pro 4-Stunden-Fenster ausprobieren. Stelle Programmierfragen, fasse Texte zusammen oder teste den Token-Durchsatz.")
       (js "Welcome to ComputeMesh! You can test the live gateway directly here with 20 free requests per 4-hour window. Ask a coding question, summarize text, or benchmark token throughput.").

Definition clearPlaygroundChat (s : state) : state :=
  let p := dom s in
  let l := currentLang s in
  let p1 := set_stream ((fun _ => [Welcome (welcomeMsg l)]) <$> streamEl p) p in
  let p2 := set_metrics ((fun st => (tr l (js "Bereit") (js "Ready"), snd st)) <$> statusEl p1)
              ((fun _ => js "— tok/s") <$> tpsEl p1) ((fun _ => js "— ms") <$> latEl p1)
              ((fun _ => js "0") <$> tokEl p1) p1 in
  set_dom p2 (set_history [] s).

(** ** Sending a message *)

(** [resizePlaygroundComposer(inputEl)] *)
Definition resizePlaygroundComposer (scrollHeight : Z) (i : input) : input :=
  Input (value i) (Z.min (Z.max scrollHeight 82) 190).

Definition cursor : jsstring := jsq "<span class=`chat-cursor`></span>".

(** [document.getElementById(id)]: the first element with that id. *)
Fixpoint find_body (id : jsstring) (ns : list node) : option nat :=
  match ns with
  | [] => None
  | AiMsg r id' _ :: ns => if seqb id id' then Some r else find_body id ns
  | _ :: ns => find_body id ns
  end.

(** [if (aiBodyEl) aiBodyEl.innerHTML = html] *)
Definition write_body (ref : option nat) (html : jsstring) (p : page) : page :=
  match ref with
  | None => p
  | Some r =>
      set_stream (map (fun n => match n with
                                | AiMsg r' id b => if Nat.eqb r r' then AiMsg r' id html else n
                                | _ => n
                                end) <$> streamEl p) p
  end.

Definition quota_blocked (now : Z) (s : state) : bool :=
  num_le (teaserRequestsRemaining s) (num_Z 0) && num_lt (num_Z now) (teaserResetAtMs s).

(** The synchronous part of [sendPlaygroundMessage]. *)
Definition sendPlaygroundMessage (scrollHeight now : Z) (perf : Q) (s : state) : state :=
  let p := dom s in
  if isPlaygroundInferencing s then s else
  match inputEl p, modelEl p, streamEl p with
  | Some inp, Some mdl, Some ns =>
      let promptText := trim (value inp) in
      if negb (truthy promptText) then s
      else if sel_disabled mdl || negb (truthy (sel_value mdl)) then s
      else if quota_blocked now s then set_dom (openTeaserConversionModal p) s
      else
        let l := currentLang s in
        let ref := next_ref s in
        let aiMsgId := js "ai-msg-" ++ show_Z now in
        let ns' := ns ++ [UserMsg (formatChatMarkdown l promptText); AiMsg ref aiMsgId cursor] in
        let history := playgroundChatHistory s ++ [Message User promptText] in
        let p1 := Page (Some (resizePlaygroundComposer scrollHeight (Input [] (height inp))))
          (modelEl p) (Some ns') ((fun _ => true) <$> sendBtn p)
          ((fun _ => tr l (js "Generiere...") (js "Inferencing...")) <$> sendBtnText p)
          ((fun _ => (js "Routing Mesh...", js "pg-metric-val")) <$> statusEl p)
          (tpsEl p) (latEl p) (tokEl p) (quotaTextEl p) false
          ((fun _ => false) <$> metricsHidden p) ((fun _ => true) <$> quickPromptsHidden p)
          ((fun _ => false) <$> resetBtnHidden p) ((fun _ => true) <$> studioMetaHidden p)
          (conversionModal p) (clusterEl p) in
        State true history (teaserRequestsRemaining s) (teaserResetAtMs s) l p1
          (<[ref := Attempt AwaitFetch (find_body aiMsgId ns') perf 0 [] 0 []]> (running s))
          (S ref) (requests s ++ [Request (sel_value mdl) (last_n 6 history)])
  | _, _, _ => s
  end.

(** [finally { ... }] *)
Definition finally (id : nat) (s : state) : state :=
  State false (playgroundChatHistory s) (teaserRequestsRemaining s) (teaserResetAtMs s) (currentLang s)
    (set_send ((fun _ => false) <$> sendBtn (dom s))
       ((fun _ => tr (currentLang s) (js "Prompt senden") (js "Send Prompt")) <$> sendBtnText (dom s)) (dom s))
    (delete id (running s)) (next_ref s) (requests s).

Definition error_span (msg : jsstring) : jsstring :=
  jsq "<span style=`color: #f87171;`>" ++ msg ++ js "</span>".

(** [catch (err) { ... } finally { ... }] *)
Definition catch_error (id : nat) (a : attempt) (message : jsstring) (s : state) : state :=
  let p1 := write_body (aiBodyEl a) (error_span (js "Connection error: " ++ message)) (dom s) in
  let p2 := set_metrics ((fun _ => (tr (currentLang s) (js "Fehler") (js "Error"), js "pg-metric-val")) <$> statusEl p1)
              (tpsEl p1) (latEl p1) (tokEl p1) p1 in
  finally id (set_dom p2 s).

(** ** The response *)

Record response := Response {
  status : Z;
  has_body : bool;
  teaserRemaining : option jsstring;
  teaserResetSeconds : option jsstring;
  teaserResetAt : option jsstring;
  retryAfterHdr : option jsstring;
}.

Definition resp_ok (r : response) : bool := (200 <=? status r)%Z && (status r <=? 299)%Z.

(** [header || dflt] *)
Definition hdr_or (h : option jsstring) (dflt : jsstring) : jsstring :=
  match h with Some v => if truthy v then v else dflt | None => dflt end.

Definition set_phase (ph : phase) (a : attempt) : attempt :=
  Attempt ph (aiBodyEl a) (startTime a) (firstTokenTime a) (rawAiText a) (tokenCount a) (buffer a).

(** Quota headers, or one request less when the gateway sends none. *)
Definition read_quota (now : Z) (r : response) (s : state) : state :=
  let hdr := hdr_or (teaserRemaining r) [] in
  if truthy hdr then
    updateTeaserQuota now (parseInt10 hdr) (hdr_or (teaserResetSeconds r) (js "0"))
      (hdr_or (teaserResetAt r) []) s
  else
    let n := num_max (num_Z 0) (num_sub (teaserRequestsRemaining s) (num_Z 1)) in
    updateTeaserQuota now n [] [] (set_quota n (teaserResetAtMs s) s).

(** [await fetch(...)] resolves. *)
Definition on_response (id : nat) (r : response) (now : Z) (s : state) : state :=
  match running s !! id with
  | Some a =>
      match at_phase a with
      | AwaitFetch =>
          let s1 := read_quota now r s in
          let wait ph := set_running (<[id := set_phase ph a]> (running s1)) s1 in
          if (status r =? 402)%Z || (status r =? 429)%Z then wait (AwaitErrJson (retryAfterHdr r))
          else if negb (resp_ok r) then wait (AwaitErrText (status r))
          else if has_body r then wait Reading
          else catch_error id a (js "Cannot read properties of null (reading 'getReader')") s1
      | _ => s
      end
  | None => s
  end.

Definition limit_message (l : lang) (retryAfter : num) : jsstring :=
  let d := formatResetDuration show_frac l (num_scale 1000 (if num_truthy retryAfter then retryAfter else num_Z 3600)) in
  tr l (js "Kostenloses Demo-Limit erreicht. Deine Anfragen werden in " ++ d ++ js " automatisch freigeschaltet.")
       (js "Free demo limit reached. Your requests refresh automatically in " ++ d ++ js ".").

Definition retry_after (hdr : option jsstring) (errJson : jsval) : outcome jsstring num :=
  let h := hdr_or hdr [] in
  if truthy h then Ret (parseInt10 h)
  else (let* t := get errJson (js "teaser") in
        Ret (parseInt10 (to_str show_frac (vor (get_opt t (js "retry_after_seconds")) (VStr (js "0"))))))%js.

Definition error_message (errJson : jsval) (fallbackMsg : jsstring) : outcome jsstring jsval :=
  (let* m := get errJson (js "message") in
   let* e := get errJson (js "error") in
   Ret (vor m (vor (get_opt e (js "message")) (VStr fallbackMsg))))%js.

(** [await response.json().catch(() => ({}))] of a 402 or 429 response. *)
Definition on_err_json (id : nat) (body : option jsval) (now : Z) (s : state) : state :=
  match running s !! id with
  | Some a =>
      match at_phase a with
      | AwaitErrJson hdr =>
          let errJson := default (VObj []) body in
          match retry_after hdr errJson with
          | Throw m => catch_error id a m s
          | Ret ra =>
              let s1 := if num_lt (num_Z 0) ra
                        then set_quota (teaserRequestsRemaining s) (num_add (num_Z now) (num_scale 1000 ra)) s
                        else s in
              match error_message errJson (limit_message (currentLang s) ra) with
              | Throw m => catch_error id a m s1
              | Ret errMsg =>
                  finally id (set_dom (openTeaserConversionModal
                    (write_body (aiBodyEl a) (error_span (to_str show_frac errMsg)) (dom s1))) s1)
              end
          end
      | _ => s
      end
  | None => s
  end.

(** [await response.text()] of any other failed response. *)
Definition on_err_text (id : nat) (errText : jsstring) (s : state) : state :=
  match running s !! id with
  | Some a =>
      match at_phase a with
      | AwaitErrText st =>
          finally id (set_dom (write_body (aiBodyEl a)
            (error_span (js "Inference error (" ++ show_Z st ++ js "): " ++ errText)) (dom s)) s)
      | _ => s
      end
  | None => s
  end.

(** ** Server-sent events *)

(** What one line of the stream asks for. *)
Inductive line_event : Type :=
| Skip
| Stop
| Delta (text : jsstring).

(** [parsed.choices?.[0]?.delta?.content || ""] *)
Definition delta_of (parsed : jsval) : outcome jsstring jsval :=
  (let* choices := get parsed (js "choices") in
   Ret (vor (get_opt (get_opt (index_opt choices 0) (js "delta")) (js "content")) (VStr [])))%js.

Definition read_line (line : jsstring) : line_event :=
  let trimmed := trim line in
  if starts_with (js "data: ") trimmed then
    let dataStr := drop 6 trimmed in
    if seqb dataStr (js "[DONE]") then Stop
    else match (let* parsed := JSON_parse dataStr in delta_of parsed)%js with
         | Ret delta => if vtruthy delta then Delta (to_str show_frac delta) else Skip
         | Throw _ => Skip
         end
  else Skip.

(** [Math.round] of a difference of times *)
Definition round_ms (a b : Q) : Z := Qfloor (fl64 (a - b) + (1 # 2))%Q.

Definition twentieth : Q := fl64 (5 # 100).

(** [(tokenCount / Math.max(sec, 0.05)).toFixed(1)] *)
Definition tps (tokens : nat) (sec : Q) : jsstring :=
  toFixed 1 (fl64 (inject_Z (Z.of_nat tokens) / Qmax2 sec twentieth)).

(** The body of [if (delta)]. *)
Definition on_delta (l : lang) (perf : Q) (delta : jsstring) (ap : attempt * page) : attempt * page :=
  let '(a, p) := ap in
  let fresh := Qeqb (firstTokenTime a) 0 in
  let first := if fresh then perf else firstTokenTime a in
  let lat := if fresh then (fun _ => show_Z (round_ms first (startTime a)) ++ js " ms") <$> latEl p
             else latEl p in
  let raw := rawAiText a ++ delta in
  let n := S (tokenCount a) in
  let p1 := write_body (aiBodyEl a) (formatChatMarkdown l raw ++ cursor) p in
  let elapsedSec := fl64 (fl64 (perf - (if Qeqb first 0 then startTime a else first)) / 1000) in
  (Attempt (at_phase a) (aiBodyEl a) (startTime a) first raw n (buffer a),
   set_metrics (statusEl p1) ((fun _ => tps n elapsedSec ++ js " tok/s") <$> tpsEl p1) lat
     ((fun _ => show_N (N.of_nat n)) <$> tokEl p1) p1).

(** [for (const line of lines) { ... }]: [[DONE]] leaves this loop only. *)
Fixpoint read_lines (l : lang) (perf : Q) (lines : list jsstring) (ap : attempt * page) : attempt * page :=
  match lines with
  | [] => ap
  | line :: rest =>
      match read_line line with
      | Skip => read_lines l perf rest ap
      | Stop => ap
      | Delta d => read_lines l perf rest (on_delta l perf d ap)
      end
  end.

(** [const lines = buffer.split("\n"); buffer = lines.pop()] *)
Definition complete_lines (buf : jsstring) : list jsstring * jsstring :=
  let lines := split_on 10 buf in
  (take (pred (length lines)) lines, default [] (last lines)).
Arguments complete_lines : simpl never.

(** [await reader.read()] returns a chunk. *)
Definition on_chunk (id : nat) (text : jsstring) (perf : Q) (s : state) : state :=
  match running s !! id with
  | Some a =>
      match at_phase a with
      | Reading =>
          let '(lines, rest) := complete_lines (buffer a ++ text) in
          let a0 := Attempt Reading (aiBodyEl a) (startTime a) (firstTokenTime a) (rawAiText a)
                      (tokenCount a) rest in
          let '(a1, p1) := read_lines (currentLang s) perf lines (a0, dom s) in
          set_dom p1 (set_running (<[id := a1]> (running s)) s)
      | _ => s
      end
  | None => s
  end.

(** [await reader.read()] returns [done]: final rendering, then [finally]. *)
Definition on_done (id : nat) (perf : Q) (s : state) : state :=
  match running s !! id with
  | Some a =>
      match at_phase a with
      | Reading =>
          let p1 := write_body (aiBodyEl a) (formatChatMarkdown (currentLang s) (rawAiText a)) (dom s) in
          let totalElapsedSec := toFixed 2 (fl64 (fl64 (perf - startTime a) / 1000)) in
          let sec := match parseFloat totalElapsedSec with Fin q => q | _ => 0%Q end in
          let p2 := set_metrics
            ((fun _ => (tr (currentLang s) (js "Abgeschlossen") (js "Completed"), js "pg-metric-val emerald")) <$> statusEl p1)
            ((fun _ => tps (tokenCount a) sec ++ js " tok/s") <$> tpsEl p1) (latEl p1)
            ((fun _ => show_N (N.of_nat (tokenCount a))) <$> tokEl p1) p1 in
          finally id (set_dom p2
            (set_history (playgroundChatHistory s ++ [Message Assistant (rawAiText a)]) s))
      | _ => s
      end
  | None => s
  end.

(** An awaited promise rejects ([response.json()] has its own handler). *)
Definition on_reject (id : nat) (message : jsstring) (s : state) : state :=
  match running s !! id with
  | Some a => match at_phase a with AwaitErrJson _ => s | _ => catch_error id a message s end
  | None => s
  end.

(** ** Events *)

Inductive event : Type :=
| Send (scrollHeight now : Z) (perf : Q)
| Responded (id : nat) (r : response) (now : Z)
| ErrJson (id : nat) (body : option jsval) (now : Z)
| ErrText (id : nat) (errText : jsstring)
| Chunk (id : nat) (text : jsstring) (perf : Q)
| Done (id : nat) (perf : Q)
| Reject (id : nat) (message : jsstring)
| Clear
| CloseModal
| Type_ (v : jsstring)
| PickModel (v : jsstring)
| SelectModel (modelId : jsstring)
| KeyDown (key : jsstring) (shiftKey : bool) (scrollHeight now : Z) (perf : Q)
| RenderModels (loaded : bool) (models : option (list jsval))
| SetLang (l : lang).

Definition set_input (v : jsstring) (p : page) : page :=
  Page ((fun i => Input v (height i)) <$> inputEl p) (modelEl p) (streamEl p) (sendBtn p)
    (sendBtnText p) (statusEl p) (tpsEl p) (latEl p) (tokEl p) (quotaTextEl p) (welcomeEl p)
    (metricsHidden p) (quickPromptsHidden p) (resetBtnHidden p) (studioMetaHidden p) (conversionModal p) (clusterEl p).
Definition set_model (m : select) (p : page) : page :=
  Page (inputEl p) ((fun _ => m) <$> modelEl p) (streamEl p) (sendBtn p)
    (sendBtnText p) (statusEl p) (tpsEl p) (latEl p) (tokEl p) (quotaTextEl p) (welcomeEl p)
    (metricsHidden p) (quickPromptsHidden p) (resetBtnHidden p) (studioMetaHidden p) (conversionModal p) (clusterEl p).

(** [select.value = v]: without such an option none is selected. *)
Definition assign_value (v : jsstring) (m : select) : select :=
  Select (sel_disabled m) (if bool_decide (v ∈ sel_options m) then v else []) (sel_options m).

(** [syncPlaygroundModel(modelId)] *)
Definition syncPlaygroundModel (l : lang) (modelId : jsstring) (p : page) : page :=
  Page (inputEl p) (modelEl p) (streamEl p) (sendBtn p) (sendBtnText p) (statusEl p) (tpsEl p) (latEl p) (tokEl p)
    (quotaTextEl p) (welcomeEl p) (metricsHidden p) (quickPromptsHidden p) (resetBtnHidden p) (studioMetaHidden p)
    (conversionModal p) ((fun _ => tr l (js "Modell ausgewählt (") (js "Model selected (") ++ modelId ++ js ")") <$> clusterEl p).

(** [selectModelInPlayground(modelId)], also as [deployMarketplaceOffer]; scrolling and focus
    are not part of the page here. *)
Definition selectModelInPlayground (modelId : jsstring) (s : state) : state :=
  match modelEl (dom s) with
  | Some m => set_dom (syncPlaygroundModel (currentLang s) modelId (set_model (assign_value modelId m) (dom s))) s
  | None => s
  end.

(** The visitor picks an option of the menu, whose [onchange] is [syncPlaygroundModel]. *)
Definition pick_model (v : jsstring) (s : state) : state :=
  match modelEl (dom s) with
  | Some m => if sel_disabled m || bool_decide (v ∉ sel_options m) then s else selectModelInPlayground v s
  | None => s
  end.

(** [handlePlaygroundKey(e)] *)
Definition handlePlaygroundKey (key : jsstring) (shiftKey : bool) (scrollHeight now : Z) (perf : Q) (s : state) : state :=
  if seqb key (js "Enter") && negb shiftKey then sendPlaygroundMessage scrollHeight now perf s else s.

(** [renderLivePlaygroundModels] for the menu of the chat, with its send button and
    [syncPlaygroundModel]; it runs when the catalogue has been fetched and, with the last
    catalogue, whenever the language is switched. *)
Definition render_models (loaded : bool) (models : option (list jsval)) (s : state) : state :=
  let p := dom s in
  match modelEl p with
  | None => s
  | Some sel =>
      let m := renderLivePlaygroundModels show_frac loaded models (bool_decide (currentLang s = De)) (sel_value sel) in
      let p1 := set_send ((fun _ => menu_disabled m) <$> sendBtn p) (sendBtnText p)
                  (set_model (Select (menu_disabled m) (chosen m) (options m).*1) p) in
      set_dom (if menu_disabled m then p1 else syncPlaygroundModel (currentLang s) (chosen m) p1) s
  end.

Definition step (s : state) (e : event) : state :=
  match e with
  | Send h now perf => sendPlaygroundMessage h now perf s
  | Responded id r now => on_response id r now s
  | ErrJson id body now => on_err_json id body now s
  | ErrText id t => on_err_text id t s
  | Chunk id t perf => on_chunk id t perf s
  | Done id perf => on_done id perf s
  | Reject id m => on_reject id m s
  | Clear => clearPlaygroundChat s
  | CloseModal => set_dom (closeTeaserConversionModal (dom s)) s
  | Type_ v => set_dom (set_input v (dom s)) s
  | PickModel v => pick_model v s
  | SelectModel id => selectModelInPlayground id s
  | KeyDown key shift h now perf => handlePlaygroundKey key shift h now perf s
  | RenderModels loaded models => render_models loaded models s
  | SetLang l =>
      State (isPlaygroundInferencing s) (playgroundChatHistory s) (teaserRequestsRemaining s)
        (teaserResetAtMs s) l (dom s) (running s) (next_ref s) (requests s)
  end.

Definition exec (s : state) (es : list event) : state := fold_left step es s.

(** ** The lock *)

(** [isPlaygroundInferencing] holds exactly while one invocation is suspended. *)
Definition lock_ok (s : state) : Prop :=
  if isPlaygroundInferencing s then exists id a, running s = {[id := a]} else running s = ∅.

(** The send button is disabled exactly while the lock is held. *)
Definition button_ok (s : state) : Prop :=
  forall b, sendBtn (dom s) = Some b -> b = isPlaygroundInferencing s.

(** The lock, and the button where [btn] asks for it. *)
Definition locked (btn : bool) (s : state) : Prop := lock_ok s /\ (btn = true -> button_ok s).

(** Every state with a suspended invocation that satisfies [locked] is locked by it. *)
Lemma locked_live btn s id a :
  locked btn s -> running s !! id = Some a ->
  isPlaygroundInferencing s = true /\ running s = {[id := a]} /\ (btn = true -> button_ok s).
Proof.
  intros [HL Hb] H. unfold lock_ok in HL. destruct (isPlaygroundInferencing s).
  - destruct HL as (i & c & E). rewrite E in H. apply lookup_singleton_Some in H as [-> ->]. done.
  - rewrite HL in H. by rewrite lookup_empty in H.
Qed.

Lemma locked_finally btn id s a : running s = {[id := a]} -> locked btn (finally id s).
Proof.
  intros E. split.
  - unfold lock_ok, finally. simpl. by rewrite E, delete_singleton_eq.
  - intros _ b. unfold finally. simpl. destruct (sendBtn (dom s)); simpl; congruence.
Qed.

Lemma locked_advance btn s s' id a a' :
  isPlaygroundInferencing s' = isPlaygroundInferencing s -> running s !! id = Some a ->
  running s' = <[id := a']> (running s) ->
  sendBtn (dom s') = sendBtn (dom s) -> locked btn s -> locked btn s'.
Proof.
  intros E1 Hl E2 E3 HL. destruct (locked_live btn s id a HL Hl) as (H1 & H2 & H3). split.
  - unfold lock_ok. rewrite E1, E2, H1, H2. exists id, a'. by rewrite insert_singleton_eq.
  - intros Hb. specialize (H3 Hb). unfold button_ok in *. by rewrite E1, E3.
Qed.

(** ** What the helpers leave alone *)

Lemma write_body_sendBtn ref html p : sendBtn (write_body ref html p) = sendBtn p.
Proof. by destruct ref. Qed.

Lemma updateTeaserQuota_frame now n rs ra s :
  let s' := updateTeaserQuota now n rs ra s in
  isPlaygroundInferencing s' = isPlaygroundInferencing s /\ running s' = running s /\
  sendBtn (dom s') = sendBtn (dom s) /\ playgroundChatHistory s' = playgroundChatHistory s /\
  requests s' = requests s.
Proof. unfold updateTeaserQuota. simpl. by destruct (is_nan n). Qed.

Lemma read_quota_frame now r s :
  let s' := read_quota now r s in
  isPlaygroundInferencing s' = isPlaygroundInferencing s /\ running s' = running s /\
  sendBtn (dom s') = sendBtn (dom s) /\ playgroundChatHistory s' = playgroundChatHistory s /\
  requests s' = requests s.
Proof.
  unfold read_quota. simpl. destruct (truthy _); [apply updateTeaserQuota_frame|].
  pose proof (updateTeaserQuota_frame now (num_max (num_Z 0) (num_sub (teaserRequestsRemaining s) (num_Z 1)))
    [] [] (set_quota (num_max (num_Z 0) (num_sub (teaserRequestsRemaining s) (num_Z 1))) (teaserResetAtMs s) s)) as H.
  simpl in H. exact H.
Qed.

Lemma on_delta_sendBtn l perf d ap : sendBtn (on_delta l perf d ap).2 = sendBtn ap.2.
Proof. destruct ap as [a p]. simpl. apply write_body_sendBtn. Qed.

Lemma read_lines_sendBtn l perf lines ap : sendBtn (read_lines l perf lines ap).2 = sendBtn ap.2.
Proof.
  revert ap. induction lines as [|x lines IH]; intros ap; simpl; [done|].
  destruct (read_line x); auto. by rewrite IH, on_delta_sendBtn.
Qed.

(** ** Events that end an invocation *)

(** The event is the settlement of the promise that [a] awaits, and the code after
    it does not suspend again. *)
Definition settles (id : nat) (a : attempt) (e : event) : bool :=
  match e, at_phase a with
  | ErrJson i _ _, AwaitErrJson _ => Nat.eqb i id
  | ErrText i _, AwaitErrText _ => Nat.eqb i id
  | Done i _, Reading => Nat.eqb i id
  | Reject i _, AwaitFetch | Reject i _, AwaitErrText _ | Reject i _, Reading => Nat.eqb i id
  | _, _ => false
  end.

(** An ending event runs the [finally] block last, on a state with the same
    suspended invocations. *)
Lemma settles_finally s id a e :
  running s !! id = Some a -> settles id a e = true ->
  exists s1, step s e = finally id s1 /\ running s1 = running s /\ requests s1 = requests s.
Proof.
  intros Hl He. destruct e; simpl in He; try done; destruct (at_phase a) eqn:Ep; try done;
    apply Nat.eqb_eq in He; subst; simpl;
    unfold on_err_json, on_err_text, on_done, on_reject, catch_error; rewrite Hl, Ep;
    try (eexists; split; [reflexivity|done]).
  destruct (retry_after _ _) as [ra|m]; [|by eexists; split].
  cbv zeta. destruct (num_lt (num_Z 0) ra), (error_message _ _) as [em|m];
    by eexists; (split; [reflexivity|]).
Qed.

Lemma catch_finally id a m s : exists s1, catch_error id a m s = finally id s1 /\
  running s1 = running s /\ playgroundChatHistory s1 = playgroundChatHistory s /\ requests s1 = requests s.
Proof. by eexists. Qed.

Lemma locked_response btn id r now s : locked btn s -> locked btn (on_response id r now s).
Proof.
  intros HL. unfold on_response. destruct (running s !! id) as [a|] eqn:Hl; [|done].
  destruct (at_phase a); try done.
  destruct (read_quota_frame now r s) as (F1 & F2 & F3 & _ & _).
  assert (Hw : forall ph, locked btn (set_running (<[id:=set_phase ph a]> (running (read_quota now r s))) (read_quota now r s))).
  { intros ph. apply (locked_advance btn s _ id a (set_phase ph a)); simpl; by rewrite ?F1, ?F2, ?F3. }
  destruct (_ || _); [done|]. destruct (negb _); [done|]. destruct (has_body r); [done|].
  apply (locked_finally btn id _ a). simpl. rewrite F2. by eapply locked_live in Hl as (_ & -> & _).
Qed.

Lemma locked_send btn h now perf s : locked btn s -> locked btn (sendPlaygroundMessage h now perf s).
Proof.
  intros HL. unfold sendPlaygroundMessage. destruct (isPlaygroundInferencing s) eqn:Ei; [done|].
  destruct (inputEl (dom s)), (modelEl (dom s)), (streamEl (dom s)); try done.
  destruct (negb _); [done|]. destruct (_ || _); [done|]. destruct (quota_blocked now s); [done|].
  destruct HL as [E _]. unfold lock_ok in E. rewrite Ei in E. split.
  - unfold lock_ok. simpl. rewrite E. exists (next_ref s). eexists. apply insert_empty.
  - intros _ b. simpl. destruct (sendBtn (dom s)); simpl; congruence.
Qed.

Lemma locked_chunk btn id t perf s : locked btn s -> locked btn (on_chunk id t perf s).
Proof.
  intros HL. unfold on_chunk. destruct (running s !! id) as [a|] eqn:Hl; [|done].
  destruct (at_phase a) eqn:Ep; try done. destruct (complete_lines _) as [lines rest].
  match goal with |- context [read_lines ?l ?p ?ls ?ap] =>
    pose proof (read_lines_sendBtn l p ls ap) as Hs; destruct (read_lines l p ls ap) as [a1 p1] end.
  by apply (locked_advance btn s _ id a a1).
Qed.

Lemma locked_settle btn s id a e :
  locked btn s -> running s !! id = Some a -> settles id a e = true -> locked btn (step s e).
Proof.
  intros HL Hl He. destruct (settles_finally s id a e Hl He) as (s1 & -> & E & _).
  apply (locked_finally btn id s1 a). rewrite E. by eapply locked_live in Hl as (_ & -> & _).
Qed.

(** An event for an invocation that does not wait for it changes nothing. *)
Definition target (e : event) : option nat :=
  match e with
  | ErrJson i _ _ | ErrText i _ | Done i _ | Reject i _ => Some i
  | _ => None
  end.

Lemma idle_event s e id :
  target e = Some id -> (forall a, running s !! id = Some a -> settles id a e = false) -> step s e = s.
Proof.
  intros Ht H. destruct e; simplify_eq/=; unfold on_err_json, on_err_text, on_done, on_reject;
    destruct (running s !! id) as [a|] eqn:Hl; try done; specialize (H a eq_refl); simpl in H;
    destruct (at_phase a); try done; by rewrite Nat.eqb_refl in H.
Qed.

Definition renders (e : event) : bool := match e with RenderModels _ _ => true | _ => false end.

Lemma lock_ok_render loaded models s : lock_ok s -> lock_ok (render_models loaded models s).
Proof. unfold render_models. destruct (modelEl (dom s)); [|done]. cbv zeta. by destruct (menu_disabled _). Qed.

Lemma locked_pick_model btn id s : locked btn s -> locked btn (selectModelInPlayground id s).
Proof. intros H. unfold selectModelInPlayground. by destruct (modelEl (dom s)). Qed.

Lemma locked_pick btn v s : locked btn s -> locked btn (pick_model v s).
Proof.
  intros H. unfold pick_model. destruct (modelEl (dom s)) as [m|]; [|done]. destruct (_ || _); [done|]. by apply locked_pick_model.
Qed.

Lemma locked_step btn s e : (btn = true -> renders e = false) -> locked btn s -> locked btn (step s e).
Proof.
  intros Hr HL. destruct (target e) as [id|] eqn:Ht.
  - destruct (running s !! id) as [a|] eqn:Hl.
    + destruct (settles id a e) eqn:He; [by eapply locked_settle|].
      rewrite (idle_event s e id); [done..|]. intros a' Ha. by simplify_eq.
    + rewrite (idle_event s e id); [done..|]. intros a' Ha. by simplify_eq.
  - destruct e; try done; simpl.
    + by apply locked_send.
    + by apply locked_response.
    + by apply locked_chunk.
    + by apply locked_pick.
    + by apply locked_pick_model.
    + unfold handlePlaygroundKey. destruct (_ && _); [by apply locked_send|done].
    + split; [apply lock_ok_render, HL|]. intros Hb. by specialize (Hr Hb).
Qed.

(** ** The text of a stream *)

Definition delta_text (line : jsstring) : option jsstring :=
  match read_line line with Delta d => Some d | _ => None end.

(** Reference semantics: the contents of the complete lines, in order. *)
Definition lines_text (lines : list jsstring) : jsstring := concat (omap delta_text lines).

Definition no_stop (line : jsstring) : Prop := read_line line <> Stop.

Lemma no_stop_forallb lines :
  forallb (fun x => match read_line x with Stop => false | _ => true end) lines = true -> Forall no_stop lines.
Proof.
  rewrite forallb_forall, Forall_forall. intros H x Hx E. apply list_elem_of_In, H in Hx. by rewrite E in Hx.
Qed.

Lemma lines_text_app l1 l2 : lines_text (l1 ++ l2) = lines_text l1 ++ lines_text l2.
Proof. unfold lines_text. rewrite omap_app. apply concat_app. Qed.

Lemma read_lines_text l perf lines ap :
  Forall no_stop lines ->
  let a' := (read_lines l perf lines ap).1 in
  rawAiText a' = rawAiText ap.1 ++ lines_text lines /\ buffer a' = buffer ap.1 /\
  at_phase a' = at_phase ap.1.
Proof.
  intros H. revert ap. induction H as [|x lines Hx H IH]; intros ap; simpl.
  - by rewrite app_nil_r.
  - unfold no_stop in Hx. change (x :: lines) with ([x] ++ lines). rewrite lines_text_app.
    unfold lines_text at 1, delta_text. simpl. destruct (read_line x) as [| |d]; [apply IH|done|].
    destruct (IH (on_delta l perf d ap)) as (-> & -> & ->). destruct ap as [a p]. simpl.
    by rewrite app_nil_r, app_assoc.
Qed.

Lemma complete_lines_split buf init lst :
  split_on 10 buf = init ++ [lst] -> complete_lines buf = (init, lst).
Proof.
  intros E. unfold complete_lines. rewrite E, length_app. simpl.
  rewrite Nat.add_1_r. simpl. by rewrite take_app_length, last_snoc.
Qed.

Lemma split_on_snoc sep s : exists init lst, split_on sep s = init ++ [lst].
Proof.
  destruct (split_on sep s) as [|x l _] eqn:E using rev_ind; [by apply split_on_not_nil in E|]. eauto.
Qed.

(** Reading a text in two chunks is reading it in one. *)
Lemma complete_lines_app a b :
  complete_lines (a ++ b) =
  ((complete_lines a).1 ++ (complete_lines ((complete_lines a).2 ++ b)).1,
   (complete_lines ((complete_lines a).2 ++ b)).2).
Proof.
  destruct (split_on_snoc 10 a) as (i1 & l1 & E1). rewrite (complete_lines_split a i1 l1 E1). cbn [fst snd].
  destruct (split_on_snoc 10 (l1 ++ b)) as (i2 & l2 & E2).
  rewrite (complete_lines_split (l1 ++ b) i2 l2 E2). cbn [fst snd].
  apply complete_lines_split. rewrite (split_on_app 10 a b i1 l1 E1), E2. by rewrite app_assoc.
Qed.

Definition chunk_events (id : nat) (cs : list (jsstring * Q)) : list event :=
  (fun c => Chunk id c.1 c.2) <$> cs.

Lemma on_chunk_text id t perf s a :
  running s !! id = Some a -> at_phase a = Reading ->
  Forall no_stop (complete_lines (buffer a ++ t)).1 ->
  exists a', running (on_chunk id t perf s) !! id = Some a' /\ at_phase a' = Reading /\
    rawAiText a' = rawAiText a ++ lines_text (complete_lines (buffer a ++ t)).1 /\
    buffer a' = (complete_lines (buffer a ++ t)).2 /\
    playgroundChatHistory (on_chunk id t perf s) = playgroundChatHistory s.
Proof.
  intros Hl Hp Hs. unfold on_chunk. rewrite Hl, Hp. destruct (complete_lines _) as [lines rest].
  set (a0 := Attempt Reading (aiBodyEl a) (startTime a) (firstTokenTime a) (rawAiText a) (tokenCount a) rest).
  destruct (read_lines_text (currentLang s) perf lines (a0, dom s) Hs) as (E1 & E2 & E3).
  destruct (read_lines _ _ _ _) as [a1 p1]. simpl in *. exists a1.
  by rewrite lookup_insert_eq.
Qed.

Lemma chunks_text id cs s a :
  running s !! id = Some a -> at_phase a = Reading -> 10%N ∉ buffer a ->
  let text := buffer a ++ concat cs.*1 in
  Forall no_stop (complete_lines text).1 ->
  exists a', running (exec s (chunk_events id cs)) !! id = Some a' /\ at_phase a' = Reading /\
    rawAiText a' = rawAiText a ++ lines_text (complete_lines text).1 /\
    buffer a' = (complete_lines text).2 /\
    playgroundChatHistory (exec s (chunk_events id cs)) = playgroundChatHistory s.
Proof.
  revert s a. induction cs as [|[c p] cs IH]; intros s a Hl Hp Hb; cbv zeta;
    [change (concat (fst <$> ([] : list (jsstring * Q)))) with ([] : jsstring)
    |change (concat (fst <$> (c, p) :: cs)) with (c ++ concat cs.*1);
     change (exec s (chunk_events id ((c, p) :: cs))) with (exec (on_chunk id c p s) (chunk_events id cs))].
  - rewrite app_nil_r, (complete_lines_split (buffer a) [] (buffer a)) by (by rewrite split_on_single).
    intros _. exists a. simpl. unfold lines_text. simpl. by rewrite app_nil_r.
  - rewrite app_assoc. intros Hs. rewrite complete_lines_app in Hs |- *. cbn [fst snd] in Hs |- *.
    apply Forall_app in Hs as [Hs1 Hs2].
    destruct (on_chunk_text id c p s a Hl Hp Hs1) as (a1 & Hl1 & Hp1 & Hr1 & Hb1 & Hh1).
    rewrite <- Hb1 in Hs2 |- *.
    destruct (IH (on_chunk id c p s) a1) as (a2 & Hl2 & Hp2 & Hr2 & Hb2 & Hh2); try done.
    { rewrite Hb1. destruct (split_on_snoc 10 (buffer a ++ c)) as (i & l & E).
      rewrite (complete_lines_split _ _ _ E). simpl.
      pose proof (split_on_free 10 (buffer a ++ c)) as F. rewrite E, Forall_app in F.
      destruct F as [_ F]. by inv F. }
    exists a2. split_and!; try done.
    + by rewrite Hr2, Hr1, lines_text_app, app_assoc.
    + by rewrite <- Hh1.
Qed.

End Handlers.

(** ** Witness states *)

Definition no_frac (_ : Q) : jsstring := [].
Definition no_date (_ : jsstring) : num := NaN.

(** The page after loading, with a model selected and [prompt] typed. *)
Definition fresh_page (prompt : jsstring) : state :=
  State false [] (num_Z 20) (num_Z 0) En
    (Page (Some (Input prompt 82)) (Some (Select false (js "m1") [js "m1"])) (Some []) (Some false)
       (Some (js "Send Prompt")) (Some (js "Ready", js "pg-metric-val")) (Some []) (Some []) (Some [])
       (Some []) false (Some true) (Some false) (Some true) (Some false) (Some (js "none", false)) (Some []))
    ∅ 0 [].

Definition sse (delta : string) : jsstring :=
  jsq "data: {`choices`:[{`delta`:{`content`:`" ++ js delta ++ jsq "`}}]}".

Definition ok_response : response := Response 200 true None None None None.

Abbreviation exec0 := (exec no_frac no_date).

(** ** Properties *)

Definition reading_state : state := exec0 (fresh_page (js "hi")) [Send 90 1000 5; Responded 0 ok_response 1002].

(** C5: The lock [isPlaygroundInferencing] is sound and released: along every
    interleaving of clicks, network events and page actions it is set exactly while one
    invocation of [sendPlaygroundMessage] is suspended (there are never two).  As long as
    the model menu is not rendered anew, the send button is disabled exactly then. *)
Theorem playground_lock show_frac date_parse s es :
  lock_ok s ->
  lock_ok (exec show_frac date_parse s es)
  /\ (button_ok s -> Forall (fun e => renders e = false) es -> button_ok (exec show_frac date_parse s es)).
Proof.
  intros H. split.
  - apply (fold_invariant (step show_frac date_parse) lock_ok (fun _ => True)); [|by apply Forall_true|done].
    intros s' e _ Hs. by apply (locked_step show_frac date_parse false).
  - intros Hb He. refine (proj2 (fold_invariant (step show_frac date_parse) (locked true) _ _ es s He _) eq_refl); [|done].
    intros s' e He' Hs. by apply locked_step.
Qed.

Lemma playground_lock_witness :
  let es := [Send 90 1000 5; Send 90 1001 6; Responded 0 ok_response 1002] in
  lock_ok (fresh_page (js "hi")) /\ lock_ok (exec0 (fresh_page (js "hi")) es) /\
  size (running (exec0 (fresh_page (js "hi")) es)) = 1%nat.
Proof.
  intros es. assert (H : lock_ok (fresh_page (js "hi"))) by done.
  split; [done|]. split; [|by vm_compute]. exact (proj1 (playground_lock no_frac no_date _ es H)).
Defined.

(** Rendering the model menu anew, which a change of the language does, enables the send
    button while a reply is still streaming; the click it then invites is ignored because
    the lock is still held. *)
Theorem menu_enables_the_button_early :
  let s := exec0 reading_state [RenderModels true (Some [VObj [(js "id", VStr (js "m1"))]])] in
  isPlaygroundInferencing s = true /\ sendBtn (dom s) = Some false
  /\ requests (exec0 s [Type_ (js "again"); Send 90 1010 9]) = requests s.
Proof. vm_compute. done. Qed.

(** Every way an invocation can end (network failure, quota refusal with any
    body, other error status, end of the stream) releases the lock and re-enables the
    button, and sends no request. *)
Theorem playground_settles_unlocks show_frac date_parse s id a e :
  lock_ok s -> running s !! id = Some a -> settles id a e = true ->
  let s' := step show_frac date_parse s e in
  isPlaygroundInferencing s' = false /\ running s' = ∅ /\
  (forall b, sendBtn (dom s') = Some b -> b = false) /\ requests s' = requests s.
Proof.
  intros HL Hl He. destruct (settles_finally show_frac date_parse s id a e Hl He) as (s1 & E & Er & Eq).
  assert (HL' : locked false s) by done. destruct (locked_live false s id a HL' Hl) as (_ & Hrun & _).
  destruct (locked_finally true id s1 a (eq_trans Er Hrun)) as [H1 H2]. cbv zeta. rewrite E.
  split_and!; [done|exact H1|exact (H2 eq_refl)|done].
Qed.

Lemma playground_settles_unlocks_witness :
  let s := exec0 (fresh_page (js "hi")) [Send 90 1000 5; Responded 0 (Response 429 true None None None None) 1002] in
  isPlaygroundInferencing s = true /\
  isPlaygroundInferencing (step no_frac no_date s (ErrJson 0 (Some VNull) 1003)) = false.
Proof.
  intros s. assert (HL : lock_ok s) by (vm_compute; by eexists 0%nat, _).
  split; [done|].
  destruct (running s !! 0%nat) as [a|] eqn:Hl; [|by vm_compute in Hl].
  assert (He : settles 0 a (ErrJson 0 (Some VNull) 1003) = true) by (vm_compute in Hl; by inv Hl).
  exact (proj1 (playground_settles_unlocks no_frac no_date s 0 a _ HL Hl He)).
Defined.

(** C22: The reply is the text of the stream however the network cuts it into chunks:
    when no complete line is the end marker, the assistant message pushed at the end of
    the stream is the concatenation of the [delta.content]s of the complete lines of
    the whole text. *)
Theorem sse_reply_is_stream_text show_frac date_parse s id a cs perf :
  running s !! id = Some a -> at_phase a = Reading -> rawAiText a = [] -> buffer a = [] ->
  Forall (no_stop show_frac) (complete_lines (concat cs.*1)).1 ->
  playgroundChatHistory (exec show_frac date_parse s (chunk_events id cs ++ [Done id perf]))
  = playgroundChatHistory s ++ [Message Assistant (lines_text show_frac (complete_lines (concat cs.*1)).1)].
Proof.
  intros Hl Hp Hr Hb Hs. unfold exec. rewrite fold_left_app.
  destruct (chunks_text show_frac date_parse id cs s a Hl Hp) as (a' & Hl' & Hp' & Hr' & _ & Hh).
  - rewrite Hb. apply not_elem_of_nil.
  - by rewrite Hb.
  - fold (exec show_frac date_parse s (chunk_events id cs)). rewrite <- Hh. simpl. unfold on_done.
    rewrite Hl', Hp'. simpl. by rewrite Hr', Hr, Hb.
Qed.

(** The chunks cut a line and a name in the middle. *)
Definition cut_stream : list (jsstring * Q) :=
  let t := sse "Hel" ++ [10%N] ++ sse "lo" ++ [10%N] in
  [(take 20 t, 6%Q); (take 50 (drop 20 t), 7%Q); (drop 70 t, 8%Q)].

Lemma sse_reply_is_stream_text_witness :
  playgroundChatHistory (exec0 reading_state (chunk_events 0 cut_stream ++ [Done 0 9]))
  = [Message User (js "hi"); Message Assistant (js "Hello")].
Proof.
  destruct (running reading_state !! 0%nat) as [a|] eqn:Hl; [|by vm_compute in Hl].
  rewrite (sse_reply_is_stream_text no_frac no_date reading_state 0 a cut_stream 9);
    [by vm_compute|done|by vm_compute in Hl; inv Hl..|].
  apply no_stop_forallb. vm_compute. reflexivity.
Defined.

(** The end marker leaves the loop over the lines of its chunk only, so that
    what follows it is dropped or kept depending on how the network cuts the stream. *)
Theorem sse_done_depends_on_chunks :
  let t1 := js "data: [DONE]" ++ [10%N] in
  let t2 := sse "late" ++ [10%N] in
  playgroundChatHistory (exec0 reading_state [Chunk 0 (t1 ++ t2) 6; Done 0 7])
    = [Message User (js "hi"); Message Assistant []] /\
  playgroundChatHistory (exec0 reading_state [Chunk 0 t1 6; Chunk 0 t2 6; Done 0 7])
    = [Message User (js "hi"); Message Assistant (js "late")].
Proof. vm_compute. done. Qed.

(** A last line that the server does not end with a line feed is lost. *)
Theorem sse_last_line_lost :
  playgroundChatHistory (exec0 reading_state [Chunk 0 (sse "a" ++ [10%N] ++ sse "b") 6; Done 0 7])
    = [Message User (js "hi"); Message Assistant (js "a")].
Proof. vm_compute. done. Qed.

(** A request carries at most six messages, the last one the prompt being sent. *)
Definition request_ok (r : request) : Prop :=
  (length (req_messages r) <= 6)%nat /\ req_model r <> [] /\
  exists t, last (req_messages r) = Some (Message User t) /\ t <> [] /\ ws_free_ends t.

Lemma requests_ok_send h now perf s :
  Forall request_ok (requests s) -> Forall request_ok (requests (sendPlaygroundMessage h now perf s)).
Proof.
  intros H. unfold sendPlaygroundMessage. destruct (isPlaygroundInferencing s); [done|].
  destruct (inputEl (dom s)) as [inp|], (modelEl (dom s)) as [mdl|], (streamEl (dom s)); try done.
  destruct (truthy (trim (value inp))) eqn:Et; [|done]. simpl.
  destruct (_ || _) eqn:Em; [done|]. destruct (quota_blocked now s); [done|]. cbn [requests].
  apply Forall_app; split; [done|]. constructor; [|constructor]. bool_norm.
  split_and!; cbn [req_messages req_model].
  - rewrite length_last_n. lia.
  - by apply truthy_true.
  - exists (trim (value inp)). split; [by apply last_n_snoc; lia|].
    split; [by apply truthy_true|apply trim_ends].
Qed.

Lemma requests_kept show_frac date_parse s e :
  match e with Send _ _ _ | KeyDown _ _ _ _ _ => True | _ => requests (step show_frac date_parse s e) = requests s end.
Proof.
  destruct e; try done; simpl.
  - unfold on_response. destruct (running s !! id) as [a|]; [|done]. destruct (at_phase a); try done.
    destruct (read_quota_frame show_frac date_parse now r s) as (_ & _ & _ & _ & F).
    destruct (_ || _); [done|]. destruct (negb _); [done|]. by destruct (has_body r).
  - unfold on_err_json. destruct (running s !! id) as [a|]; [|done]. destruct (at_phase a); try done.
    destruct (retry_after _ _ _); [|done]. cbv zeta.
    match goal with |- context [num_lt (num_Z 0) ?x] => destruct (num_lt (num_Z 0) x) end;
      by destruct (error_message _ _).
  - unfold on_err_text. destruct (running s !! id) as [a|]; [|done]. by destruct (at_phase a).
  - unfold on_chunk. destruct (running s !! id) as [a|]; [|done]. destruct (at_phase a); try done.
    destruct (complete_lines _). by destruct (read_lines _ _ _ _ _).
  - unfold on_done. destruct (running s !! id) as [a|]; [|done]. by destruct (at_phase a).
  - unfold on_reject. destruct (running s !! id) as [a|]; [|done]. by destruct (at_phase a).
  - unfold pick_model, selectModelInPlayground. destruct (modelEl (dom s)) as [m|] eqn:E; [|done]. by destruct (_ || _).
  - unfold selectModelInPlayground. by destruct (modelEl (dom s)).
  - unfold render_models. destruct (modelEl (dom s)); [|done]. cbv zeta. by destruct (menu_disabled _).
Qed.

(** Every request the playground ever sends names a model and carries at most six
    messages, the last of which is the trimmed, non-empty prompt of the user. *)
Theorem playground_requests_bounded show_frac date_parse s es :
  Forall request_ok (requests s) -> Forall request_ok (requests (exec show_frac date_parse s es)).
Proof.
  intros H. apply (fold_invariant (step show_frac date_parse) (fun s => Forall request_ok (requests s))
    (fun _ => True)); [|by apply Forall_true|done].
  intros s' e _ Hs. pose proof (requests_kept show_frac date_parse s' e) as Hk.
  destruct e; try (by rewrite Hk); [by apply requests_ok_send|]. cbn [step]. unfold handlePlaygroundKey.
  destruct (_ && _); [by apply requests_ok_send|done].
Qed.

(** ** The models of the requests *)

(** What an event offers: the available models of a catalogue. *)
Definition offer (show_frac : Q -> jsstring) (e : event) : list jsstring :=
  match e with RenderModels _ models => id_of <$> available_models show_frac models | _ => [] end.

(** The menu's value and options are among [l], but for the empty placeholder. *)
Definition within (l : list jsstring) (m : select) : Prop :=
  sel_value m ∈ [] :: l /\ forall o, o ∈ sel_options m -> o ∈ [] :: l.

Definition models_ok (l : list jsstring) (s : state) : Prop :=
  (forall m, modelEl (dom s) = Some m -> within l m) /\ Forall (fun r => req_model r ∈ l) (requests s).

Lemma read_lines_model show_frac l perf lines ap : modelEl (read_lines show_frac l perf lines ap).2 = modelEl ap.2.
Proof.
  revert ap. induction lines as [|x lines IH]; intros ap; simpl; [done|]. destruct (read_line show_frac x); auto.
  rewrite IH. destruct ap as [a p]. simpl. by destruct (aiBodyEl a).
Qed.

Lemma write_body_model ref html p : modelEl (write_body ref html p) = modelEl p.
Proof. by destruct ref. Qed.

Lemma read_quota_model show_frac date_parse now r s : modelEl (dom (read_quota show_frac date_parse now r s)) = modelEl (dom s).
Proof. unfold read_quota, updateTeaserQuota. destruct (truthy _); by destruct (is_nan _). Qed.

(** The other events leave the menu alone. *)
Lemma menu_kept show_frac date_parse s e :
  match e with
  | RenderModels _ _ | PickModel _ | SelectModel _ => True
  | _ => modelEl (dom (step show_frac date_parse s e)) = modelEl (dom s)
  end.
Proof.
  assert (Hsend : forall h now perf, modelEl (dom (sendPlaygroundMessage h now perf s)) = modelEl (dom s)).
  { intros h now perf. unfold sendPlaygroundMessage. destruct (isPlaygroundInferencing s); [done|].
    destruct (inputEl (dom s)), (modelEl (dom s)) eqn:E, (streamEl (dom s)); try done.
    destruct (negb _); [done|]. destruct (_ || _); [done|]. by destruct (quota_blocked now s). }
  destruct e; try done; simpl; [apply Hsend|..].
  - unfold on_response. destruct (running s !! id) as [a|]; [|done]. destruct (at_phase a); try done.
    pose proof (read_quota_model show_frac date_parse now r s) as F.
    destruct (_ || _); [done|]. destruct (negb _); [done|]. destruct (has_body r); [done|]. cbn. by rewrite write_body_model.
  - unfold on_err_json. destruct (running s !! id) as [a|]; [|done]. destruct (at_phase a); try done.
    destruct (retry_after _ _ _); [|cbn; by rewrite write_body_model]. cbv zeta.
    match goal with |- context [num_lt (num_Z 0) ?x] => destruct (num_lt (num_Z 0) x) end;
      destruct (error_message _ _); cbn; by rewrite write_body_model.
  - unfold on_err_text. destruct (running s !! id) as [a|]; [|done]. destruct (at_phase a); try done. cbn. by rewrite write_body_model.
  - unfold on_chunk. destruct (running s !! id) as [a|]; [|done]. destruct (at_phase a); try done.
    destruct (complete_lines _). match goal with |- context [read_lines ?f ?l ?p ?ls ?ap] =>
      pose proof (read_lines_model f l p ls ap) as H; destruct (read_lines f l p ls ap) as [a1 p1] end. done.
  - unfold on_done. destruct (running s !! id) as [a|]; [|done]. destruct (at_phase a); try done. cbn. by rewrite write_body_model.
  - unfold on_reject. destruct (running s !! id) as [a|]; [|done]. destruct (at_phase a); try done; cbn; by rewrite write_body_model.
  - unfold handlePlaygroundKey. by destruct (_ && _).
Qed.

Lemma models_ok_send l h now perf s : models_ok l s -> models_ok l (sendPlaygroundMessage h now perf s).
Proof.
  intros H. pose proof H as [Hm Hr]. unfold sendPlaygroundMessage. destruct (isPlaygroundInferencing s); [done|].
  destruct (inputEl (dom s)), (modelEl (dom s)) as [m|] eqn:E, (streamEl (dom s)); try exact H.
  destruct (negb _); [exact H|]. destruct (_ || _) eqn:Ev; [exact H|].
  destruct (quota_blocked now s); [split; [cbn; intros m' Em; apply Hm; congruence|exact Hr]|].
  split; cbn; [intros m' Em; apply Hm; congruence|]. apply Forall_app. split; [done|]. constructor; [|done]. cbn. destruct (Hm m eq_refl) as [[Hv|Hv]%elem_of_cons _]; [|done].
  rewrite Hv, orb_true_r in Ev. done.
Qed.

Lemma models_ok_select l id s : models_ok l s -> models_ok l (selectModelInPlayground id s).
Proof.
  intros H. pose proof H as [Hm Hr]. unfold selectModelInPlayground. destruct (modelEl (dom s)) as [m|] eqn:E; [|done]. split; [|done]. cbn. rewrite E.
  intros m' [= <-]. destruct (Hm m eq_refl) as [Hv Ho]. split; [|done]. cbn. destruct (bool_decide _) eqn:Eb; [|by left].
  apply bool_decide_eq_true in Eb. by apply Ho.
Qed.

Lemma models_ok_weaken l k s : models_ok l s -> models_ok (l ++ k) s.
Proof.
  intros [Hm Hr]. split; [intros m E; destruct (Hm m E); unfold within; set_solver|].
  eapply Forall_impl; [exact Hr|]. intros r H. apply elem_of_app. by left.
Qed.

(** What the rendering puts into the menu. *)
Lemma rendered_within show_frac loaded models isDe previous l :
  let m := renderLivePlaygroundModels show_frac loaded models isDe previous in
  within (l ++ (id_of <$> available_models show_frac models)) (Select (menu_disabled m) (chosen m) (options m).*1).
Proof.
  unfold renderLivePlaygroundModels, within. destruct (available_models show_frac models) as [|x r]; cbn [menu_disabled chosen options sel_value sel_options].
  - split; [by left|]. intros o [->|[]%not_elem_of_nil]%elem_of_cons. by left.
  - rewrite <- list_fmap_compose. change (fst ∘ _) with id_of. split; [|intros o Ho; apply elem_of_cons; right; apply elem_of_app; by right].
    apply elem_of_cons. right. apply elem_of_app. right. destruct (existsb _ _) eqn:E; [|by left].
    apply existsb_exists in E as (y & Hy & <-%seqb_eq). by apply list_elem_of_fmap_2, list_elem_of_In.
Qed.

Lemma models_ok_step show_frac date_parse l s e : models_ok l s -> models_ok (l ++ offer show_frac e) (step show_frac date_parse s e).
Proof.
  intros H. pose proof (menu_kept show_frac date_parse s e) as Hk. pose proof (requests_kept show_frac date_parse s e) as Hq.
  pose proof (models_ok_weaken l (offer show_frac e) s H) as W.
  destruct e; try (by destruct W as [W1 W2]; split; [rewrite Hk|rewrite Hq]); cbn [step].
  - by apply models_ok_send.
  - unfold pick_model. destruct (modelEl (dom s)); [|done]. destruct (_ || _); [done|]. by apply models_ok_select.
  - by apply models_ok_select.
  - unfold handlePlaygroundKey. destruct (_ && _); [by apply models_ok_send|done].
  - split; [|by cbn [step] in Hq; rewrite Hq; apply W]. unfold render_models. destruct (modelEl (dom s)) as [m0|] eqn:E; [|by rewrite E].
    cbv zeta. pose proof (rendered_within show_frac loaded models (bool_decide (currentLang s = De)) (sel_value m0) l) as R.
    destruct (menu_disabled _) eqn:Ed; cbn; rewrite E; intros m [= <-]; exact R.
Qed.

(** Every request of the playground names a model that was offered: along every
    interleaving of key presses, choices, deployments from the marketplace, renderings of
    the catalogue and network events, the model of a request is an option the menu had at
    the beginning or an available model of a catalogue rendered since. *)
Theorem requests_name_offered_models show_frac date_parse s es l :
  models_ok l s ->
  Forall (fun r => req_model r ∈ l ++ concat (offer show_frac <$> es)) (requests (exec show_frac date_parse s es)).
Proof.
  revert l s. induction es as [|e es IH]; intros l s H.
  - cbn [fmap list_fmap concat]. rewrite app_nil_r. apply H.
  - cbn [fmap list_fmap concat]. rewrite app_assoc. apply (IH _ (step show_frac date_parse s e)). by apply models_ok_step.
Qed.

Definition two_models : option (list jsval) := Some [VObj [(js "id", VStr (js "a"))]; VObj [(js "id", VStr (js "b"))]].

Lemma requests_name_offered_models_witness :
  let es := [RenderModels true two_models; PickModel (js "b"); KeyDown (js "Enter") false 90 1000 5] in
  let run := exec0 (fresh_page (js "hi")) es in
  (req_model <$> requests run) = [js "b"] /\
  Forall (fun r => req_model r ∈ [js "m1"] ++ concat (offer no_frac <$> es)) (requests run).
Proof.
  intros es run. split; [vm_compute; reflexivity|].
  apply (requests_name_offered_models no_frac no_date (fresh_page (js "hi")) es [js "m1"]).
  split; [|apply Forall_nil; exact I]. intros m [= <-]. split; [right; left|]. intros o Ho. right. exact Ho.
Defined.

(** A model that the menu does not offer is announced as selected, and nothing is sent any
    more. *)
Theorem unknown_model_stops_the_playground :
  let s := exec0 (fresh_page (js "hi")) [SelectModel (js "x")] in
  clusterEl (dom s) = Some (js "Model selected (x)") /\ sel_value <$> modelEl (dom s) = Some [] /\
  requests (exec0 s [Send 90 1000 5]) = [].
Proof. vm_compute. split_and!; reflexivity. Qed.

Definition long_chat : list event :=
  concat (replicate 4 [Type_ (js " more "); Send 90 1000 5; Reject 0 []; Reject 1 []; Reject 2 []; Reject 3 []]).

Lemma playground_requests_bounded_witness :
  Forall request_ok (requests (exec0 (fresh_page (js "hi")) long_chat)) /\
  length (requests (exec0 (fresh_page (js "hi")) long_chat)) = 4%nat.
Proof.
  split; [|by vm_compute]. apply (playground_requests_bounded no_frac no_date). constructor.
Defined.

(** An exhausted quota whose reset lies in the future sends nothing and leaves
    the prompt in place; it only opens the conversion dialog. *)
Theorem playground_quota_blocks h now perf s :
  quota_blocked now s = true ->
  let s' := sendPlaygroundMessage h now perf s in
  requests s' = requests s /\ playgroundChatHistory s' = playgroundChatHistory s /\
  isPlaygroundInferencing s' = isPlaygroundInferencing s /\ inputEl (dom s') = inputEl (dom s).
Proof.
  intros Hq. unfold sendPlaygroundMessage. cbv zeta. rewrite Hq.
  destruct (isPlaygroundInferencing s) eqn:E; [done|].
  destruct (inputEl (dom s)) as [inp|] eqn:Ei, (modelEl (dom s)) as [mdl|], (streamEl (dom s)); try done.
  destruct (negb _); [done|]. by destruct (_ || _).
Qed.

Lemma playground_quota_blocks_witness :
  let s := set_quota (num_Z 0) (num_Z 9000) (fresh_page (js "hi")) in
  requests (sendPlaygroundMessage 90 1000 5 s) = [] /\
  conversionModal (dom (sendPlaygroundMessage 90 1000 5 s)) = Some (js "flex", true).
Proof.
  intros s. split; [|by vm_compute]. by apply (playground_quota_blocks 90 1000 5 s).
Defined.

(** Without quota headers the client counts down by itself but forgets the reset
    time, so that its own count never blocks a request. *)
Theorem quota_countdown_never_blocks show_frac date_parse s r now now' :
  hdr_or (teaserRemaining r) [] = [] -> teaserRequestsRemaining s <> NaN -> (0 <= now')%Z ->
  quota_blocked now' (read_quota show_frac date_parse now r s) = false.
Proof.
  intros Hh Hr Hn. unfold read_quota. rewrite Hh. cbn [truthy]. unfold updateTeaserQuota.
  destruct (is_nan _) eqn:En.
  - destruct (teaserRequestsRemaining s) as [q| | |]; try done. exfalso. revert En. simpl.
    unfold of_exact. by repeat case_match.
  - unfold quota_blocked. cbn. apply andb_false_iff. right. apply Qltb_ge.
    change (0 <= inject_Z now')%Q. unfold Qle. simpl. lia.
Qed.

Lemma quota_countdown_never_blocks_witness :
  let s := set_quota (num_Z 1) (num_Z 0) (fresh_page (js "hi")) in
  quota_blocked 500 (read_quota no_frac no_date 400 ok_response s) = false.
Proof.
  intros s. by apply (quota_countdown_never_blocks no_frac no_date s ok_response 400 500).
Defined.

(** Resetting the chat does not abort the running request: its reply becomes the
    first message of the new conversation. *)
Theorem clear_keeps_running_reply :
  playgroundChatHistory (exec0 reading_state [Clear; Chunk 0 (sse "old" ++ [10%N]) 6; Done 0 7])
  = [Message Assistant (js "old")].
Proof. vm_compute. done. Qed.

(** The body of a failed response is shown as HTML without escaping. *)
Theorem gateway_error_is_html :
  (match streamEl (dom (exec0 (fresh_page (js "hi"))
      [Send 90 1000 5; Responded 0 (Response 500 true None None None None) 1001; ErrText 0 (js "<script>")])) with
   | Some ns => last ns
   | None => None
   end) = Some (AiMsg 0 (js "ai-msg-1000") (error_span (js "Inference error (500): <script>"))).
Proof. vm_compute. done. Qed.

End Chat.

(** The remaining time is rounded up in its minutes alone: one second short of two
    hours is announced as one hour and sixty minutes. *)
Theorem reset_duration_sixty_minutes show_frac :
  formatResetDuration show_frac En (num_Z 7199000) = js "1h 60m".
Proof. vm_compute. reflexivity. Qed.

(** ** The one-shot prompt of the landing page *)

Module Prompt.

Record state := State {
  model_disabled : option bool;
  model_value : jsstring;
  inputEl : option jsstring;
  outputEl : option jsstring;
  statsEl : option jsstring;
  btn_disabled : option bool;
  currentLang : lang;
  pending : gmap nat (lang * Q);
  next_id : nat;
  requests : list (jsstring * jsstring);
}.

Definition set_out (out stats : option jsstring) (b : option bool) (pend : gmap nat (lang * Q)) (s : state) : state :=
  State (model_disabled s) (model_value s) (inputEl s) out stats b (currentLang s) pend (next_id s) (requests s).

(** The synchronous part of [runPlaygroundPrompt]. *)
Definition runPlaygroundPrompt (perf : Q) (s : state) : state :=
  match model_disabled s, inputEl s, outputEl s with
  | Some dis, Some inp, Some _ =>
      if dis || negb (truthy (model_value s)) then s
      else
        let promptText := trim inp in
        if negb (truthy promptText) then s
        else
          let l := currentLang s in
          State (model_disabled s) (model_value s) (inputEl s)
            (Some (tr l (js "Gateway wird angefragt...") (js "Contacting gateway...")))
            ((fun _ => tr l (js "Anfrage läuft...") (js "Running request...")) <$> statsEl s)
            ((fun _ => true) <$> btn_disabled s) l
            (<[next_id s := (l, perf)]> (pending s)) (S (next_id s))
            (requests s ++ [(model_value s, promptText)])
  | _, _, _ => s
  end.

Section Settle.
Context (show_frac : Q -> jsstring).

(** What the [try] block computes from the response. *)
Definition answer_of (ok : bool) (statusText : jsstring) (data : jsval) : outcome jsstring jsval :=
  (if ok then
     let* choices := get data (js "choices") in
     let* message := get data (js "message") in
     Ret (vor (get_opt (get_opt (index_opt choices 0) (js "message")) (js "content"))
            (vor (get_opt message (js "content")) (VStr [])))
   else
     let* err := get data (js "error") in
     Throw (to_str show_frac (vor (get_opt err (js "message")) (vor err (VStr statusText)))))%js.

Definition failure_text (l : lang) (message : jsstring) : jsstring :=
  tr l (js "Gateway-Anfrage fehlgeschlagen: ") (js "Gateway request failed: ")
  ++ (if truthy message then message else tr l (js "unbekannter Fehler") (js "unknown error")).

(** [catch] and [finally] *)
Definition fail_with (id : nat) (l : lang) (message : jsstring) (s : state) : state :=
  set_out ((fun _ => failure_text l message) <$> outputEl s)
    ((fun _ => tr l (js "Fehlgeschlagen") (js "Failed")) <$> statsEl s)
    ((fun _ => false) <$> btn_disabled s) (delete id (pending s)) s.

(** Both awaited promises resolved; [data] is [None] when the body is not JSON. *)
Definition on_settled (id : nat) (ok : bool) (statusText : jsstring) (data : option jsval) (perf : Q) (s : state) : state :=
  match pending s !! id with
  | Some (l, started) =>
      match answer_of ok statusText (default (VObj []) data) with
      | Throw m => fail_with id l m s
      | Ret answer =>
          let text := if vtruthy answer then to_str show_frac answer
                      else tr l (js "Keine Antwort erhalten.") (js "No response received.") in
          set_out ((fun _ => text) <$> outputEl s)
            ((fun _ => show_Z (Chat.round_ms perf started) ++ js " ms") <$> statsEl s)
            ((fun _ => false) <$> btn_disabled s) (delete id (pending s)) s
      end
  | None => s
  end.

Definition on_reject (id : nat) (message : jsstring) (s : state) : state :=
  match pending s !! id with
  | Some (l, _) => fail_with id l message s
  | None => s
  end.

(** Whatever the gateway answers, the one-shot prompt re-enables its button,
    closes the request and replaces the waiting text: by the answer, by the notice that
    there is none, or by a failure message that names a cause. *)
Theorem prompt_settles id l started ok statusText data perf s o :
  pending s !! id = Some (l, started) -> outputEl s = Some o ->
  let s' := on_settled id ok statusText data perf s in
  (forall b, btn_disabled s' = Some b -> b = false) /\ pending s' !! id = None /\
  requests s' = requests s /\
  exists t, outputEl s' = Some t /\
    ((exists m, m <> [] /\ t = tr l (js "Gateway-Anfrage fehlgeschlagen: ") (js "Gateway request failed: ") ++ m)
     \/ t = tr l (js "Keine Antwort erhalten.") (js "No response received.")
     \/ exists v, vtruthy v = true /\ t = to_str show_frac v).
Proof.
  intros Hp Ho. unfold on_settled. rewrite Hp. cbv zeta.
  assert (Hb : forall b, ((fun _ : bool => false) <$> btn_disabled s) = Some b -> b = false)
    by (intros b; destruct (btn_disabled s); simpl; congruence).
  destruct (answer_of _ _ _) as [v|m]; unfold fail_with, set_out; simpl; rewrite Ho; split_and!; try done;
    try apply lookup_delete_eq; eexists; (split; [reflexivity|]).
  - destruct (vtruthy v) eqn:Ev; eauto.
  - left. unfold failure_text. destruct (truthy m) eqn:Em.
    + exists m. split; [by apply truthy_true|done].
    + eexists. split; [|reflexivity]. by destruct l.
Qed.

End Settle.

Lemma prompt_settles_witness :
  let s := runPlaygroundPrompt 3 (State (Some false) (js "m1") (Some (js "q")) (Some []) None (Some false) En ∅ 0 []) in
  btn_disabled s = Some true /\
  (forall b, btn_disabled (on_settled Chat.no_frac 0 false (js "Bad Gateway") None 4 s) = Some b -> b = false).
Proof.
  intros s. split; [done|].
  exact (proj1 (prompt_settles Chat.no_frac 0 En 3 false (js "Bad Gateway") None 4 s _ eq_refl eq_refl)).
Defined.

End Prompt.
