(* ===== verification/Dom.v ===== *)
(** * Document trees

    Elements and text nodes as a tree, as far as the scripts look at it: attributes, the
    current value of a control, texts, the search for elements in tree order, and elements
    by their path from the root (for [parentElement] and [closest]).  The property
    [style.display] stands among the attributes. *)
From Stdlib Require Import Lia NArith.
From stdpp Require Import base numbers list strings.
From S2P Require Import Prelude JsString.

#[local] Open Scope N_scope.

(** ** Nodes *)

Inductive node : Type :=
| Text (s : jsstring)
| Elem (name : jsstring) (attrs : list (jsstring * jsstring)) (val : jsstring) (children : list node).

Section NodeInd.
Context (P : node -> Prop) (HT : forall s, P (Text s)) (HE : forall t a v cs, Forall P cs -> P (Elem t a v cs)).
Fixpoint node_nested_ind (n : node) : P n :=
  match n with
  | Text s => HT s
  | Elem t a v cs =>
      HE t a v cs ((fix go (cs : list node) : Forall P cs :=
        match cs with [] => Forall_nil_2 P | c :: r => Forall_cons_2 P c r (node_nested_ind c) (go r) end) cs)
  end.
End NodeInd.

Definition attr (k : jsstring) (a : list (jsstring * jsstring)) : option jsstring :=
  snd <$> List.find (fun e => seqb k e.1) a.

(** [setAttribute] *)
Fixpoint set_attr (k v : jsstring) (a : list (jsstring * jsstring)) : list (jsstring * jsstring) :=
  match a with
  | [] => [(k, v)]
  | e :: r => if seqb k e.1 then (k, v) :: r else e :: set_attr k v r
  end.

Definition has (k v : jsstring) (a : list (jsstring * jsstring)) : bool :=
  match attr k a with Some w => seqb v w | None => false end.

(** [.name] *)
Definition has_class (c : jsstring) (a : list (jsstring * jsstring)) : bool :=
  existsb (seqb c) (split_class is_ws (default [] (attr (js "class") a))).

Fixpoint textContent (n : node) : jsstring :=
  match n with Text s => s | Elem _ _ _ cs => concat (textContent <$> cs) end.

(** [node.textContent = s] *)
Definition set_text (s : jsstring) (n : node) : node :=
  match n with
  | Text _ => Text s
  | Elem t a v _ => Elem t a v (if truthy s then [Text s] else [])
  end.

(** A change of every text; [enter] follows the ancestors of a text from the root. *)
Section Walk.
Context {C : Type} (enter : C -> jsstring -> list (jsstring * jsstring) -> C).

Fixpoint map_texts (f : C -> jsstring -> jsstring) (c : C) (n : node) : node :=
  match n with
  | Text s => Text (f c s)
  | Elem t a v cs => Elem t a v (map_texts f (enter c t a) <$> cs)
  end.

(** The texts with what is known of their ancestors, in tree order. *)
Fixpoint texts (c : C) (n : node) : list (C * jsstring) :=
  match n with
  | Text s => [(c, s)]
  | Elem t a v cs => cs ≫= texts (enter c t a)
  end.

Lemma texts_map f c n : texts c (map_texts f c n) = (fun e => (e.1, f e.1 e.2)) <$> texts c n.
Proof.
  revert c. induction n as [s|t a v cs IH] using node_nested_ind; intros c; [done|]. cbn [texts map_texts].
  revert IH. generalize (enter c t a) as c'. intros c'. induction 1 as [|x cs Hx _ IHcs]; [done|].
  rewrite fmap_cons, !bind_cons, fmap_app. by rewrite Hx, IHcs.
Qed.

Lemma map_texts_compose f g c n :
  Forall (fun e => g e.1 (f e.1 e.2) = e.2) (texts c n) -> map_texts g c (map_texts f c n) = n.
Proof.
  revert c. induction n as [s|t a v cs IH] using node_nested_ind; intros c; cbn [texts map_texts].
  - intros [H _]%Forall_cons. cbn in H. by rewrite H.
  - revert IH. generalize (enter c t a) as c'. intros c' IH H. f_equal.
    induction IH as [|x cs Hx _ IHcs]; [done|]. rewrite bind_cons in H. apply Forall_app in H as [H1 H2].
    rewrite !fmap_cons. by rewrite Hx, IHcs.
Qed.
End Walk.

(** A change of every element's attributes and value. *)
Fixpoint map_elems (g : jsstring -> list (jsstring * jsstring) -> jsstring -> list (jsstring * jsstring) * jsstring) (n : node) : node :=
  match n with
  | Text s => Text s
  | Elem t a v cs => Elem t (g t a v).1 (g t a v).2 (map_elems g <$> cs)
  end.

(** The first element in tree order that satisfies [p] is changed; [None] without one. *)
Section First.
Context (p : jsstring -> list (jsstring * jsstring) -> bool) (g : node -> node).

Fixpoint update_first (n : node) : option node :=
  match n with
  | Text _ => None
  | Elem t a v cs =>
      if p t a then Some (g n)
      else Elem t a v <$> (fix go (cs : list node) : option (list node) :=
             match cs with
             | [] => None
             | c :: r => match update_first c with Some c' => Some (c' :: r) | None => cons c <$> go r end
             end) cs
  end.
End First.

Fixpoint find_first (p : jsstring -> list (jsstring * jsstring) -> bool) (n : node) : option node :=
  match n with
  | Text _ => None
  | Elem t a v cs =>
      if p t a then Some n
      else (fix go (cs : list node) : option node :=
              match cs with [] => None | c :: r => match find_first p c with Some x => Some x | None => go r end end) cs
  end.

(** ** Elements by their path *)

Fixpoint at_path (p : list nat) (n : node) : option node :=
  match p with
  | [] => Some n
  | i :: q => match n with Elem _ _ _ cs => match cs !! i with Some c => at_path q c | None => None end | Text _ => None end
  end.

Fixpoint alter_path (g : node -> node) (p : list nat) (n : node) : node :=
  match p with
  | [] => g n
  | i :: q => match n with Elem t a v cs => Elem t a v (alter (alter_path g q) i cs) | Text _ => n end
  end.

(** The paths of all elements in tree order. *)
Fixpoint paths (n : node) : list (list nat) :=
  match n with
  | Text _ => []
  | Elem _ _ _ cs =>
      [] :: (fix go (i : nat) (cs : list node) : list (list nat) :=
               match cs with [] => [] | c :: r => (cons i <$> paths c) ++ go (S i) r end) O cs
  end.

(** [querySelector] with its place. *)
Definition find_path (f : node -> bool) (n : node) : option (list nat) :=
  List.find (fun p => from_option f false (at_path p n)) (paths n).

(** [parentElement] *)
Definition parentElement (p : list nat) : option (list nat) :=
  match p with [] => None | _ => Some (removelast p) end.

Definition children (n : node) : list node := match n with Text _ => [] | Elem _ _ _ cs => cs end.
Definition with_children (cs : list node) (n : node) : node := match n with Text _ => n | Elem t a v _ => Elem t a v cs end.
Definition is_elem (n : node) : bool := match n with Elem _ _ _ _ => true | Text _ => false end.

(** [children.length === 0]: no child is an element. *)
Definition is_leaf (n : node) : bool := negb (existsb is_elem (children n)).

(** [remove()] of the element at a path. *)
Definition remove_path (p : list nat) (n : node) : node :=
  match reverse p with
  | [] => n
  | i :: q => alter_path (fun m => with_children (delete i (children m)) m) (reverse q) n
  end.

(** Selectors: the tag is one of the names, an attribute has a value. *)
Definition named (names : list string) (n : node) : bool :=
  match n with Elem t _ _ _ => existsb (fun x => seqb t (js x)) names | Text _ => false end.
Definition with_attr (k v : jsstring) (n : node) : bool :=
  match n with Elem _ a _ _ => has k v a | Text _ => false end.

(** [closest(selector)]: the element or its nearest ancestor; the length of the path is
    enough fuel. *)
Fixpoint closest (fuel : nat) (f : node -> bool) (p : list nat) (n : node) : option (list nat) :=
  if from_option f false (at_path p n) then Some p
  else match fuel, parentElement p with S k, Some q => closest k f q n | _, _ => None end.

Lemma at_alter g p n x : at_path p n = Some x -> at_path p (alter_path g p n) = Some (g x).
Proof.
  revert n. induction p as [|i q IH]; intros n; cbn; [by intros [= <-]|]. destruct n as [|t a v cs]; [done|].
  destruct (cs !! i) as [c|] eqn:E; [|done]. intros H. by rewrite list_lookup_alter_eq, E; apply IH.
Qed.

Lemma find_path_spec f n p : find_path f n = Some p -> exists x, at_path p n = Some x /\ f x = true.
Proof. intros H%find_some. destruct H as [_ H]. destruct (at_path p n) as [x|]; [by exists x|done]. Qed.

(** The search goes through the element itself and then through its children. *)
Fixpoint find_children (f : node -> bool) (i : nat) (cs : list node) : option (list nat) :=
  match cs with
  | [] => None
  | c :: r => match find_path f c with Some p => Some (i :: p) | None => find_children f (S i) r end
  end.

Lemma find_app {A} (f : A -> bool) l k : List.find f (l ++ k) = match List.find f l with Some x => Some x | None => List.find f k end.
Proof. induction l as [|x l IH]; cbn; [done|]. by destruct (f x). Qed.

Lemma find_fmap {A B} (g : A -> B) f l : List.find f (g <$> l) = g <$> List.find (fun x => f (g x)) l.
Proof. induction l as [|x l IH]; cbn; [done|]. by destruct (f (g x)). Qed.

Lemma find_ext {A} (f g : A -> bool) l : (forall x, f x = g x) -> List.find f l = List.find g l.
Proof. intros H. induction l as [|x l IH]; cbn; [done|]. by rewrite H, IH. Qed.

Lemma find_path_elem f t a v cs : find_path f (Elem t a v cs) = if f (Elem t a v cs) then Some [] else find_children f 0 cs.
Proof.
  unfold find_path at 1. cbn [paths List.find at_path from_option]. destruct (f (Elem t a v cs)); [done|].
  assert (G : forall pre cs', cs = pre ++ cs' ->
    List.find (fun p => from_option f false (at_path p (Elem t a v cs)))
      ((fix go (i : nat) (cs : list node) : list (list nat) :=
          match cs with [] => [] | c :: r => (cons i <$> paths c) ++ go (S i) r end) (length pre) cs')
    = find_children f (length pre) cs'); [|by apply (G [] cs)].
  intros pre cs'. revert pre. induction cs' as [|c r IH]; intros pre E; [done|]. cbn [find_children].
  rewrite find_app, find_fmap. unfold find_path.
  rewrite (find_ext _ (fun p => from_option f false (at_path p c))).
  2: { intros p. cbn [at_path]. rewrite E, lookup_app_r, Nat.sub_diag by lia. done. }
  destruct (List.find _ (paths c)); [done|]. cbn [fmap option_fmap option_map].
  specialize (IH (pre ++ [c])). rewrite length_app in IH. cbn [length] in IH. rewrite Nat.add_1_r in IH. apply IH.
  by rewrite E, <- app_assoc.
Qed.

Lemma find_children_none f i cs : Forall (fun c => find_path f c = None) cs -> find_children f i cs = None.
Proof. intros H. revert i. induction H as [|c r Hc _ IH]; intros i; cbn; [done|]. by rewrite Hc. Qed.

(** A change that leaves the element as it is leaves the tree as it is. *)
Lemma alter_path_id g p n x : at_path p n = Some x -> g x = x -> alter_path g p n = n.
Proof.
  intros H Hg. revert n H. induction p as [|i q IH]; intros n; cbn; [by intros [= <-]|]. destruct n as [|t a v cs]; [done|].
  destruct (cs !! i) as [c|] eqn:E; [|done]. intros H. f_equal. apply list_eq. intros j.
  destruct (decide (i = j)) as [<-|Hne]; [rewrite list_lookup_alter_eq, E; cbn; by rewrite IH|by rewrite list_lookup_alter_ne].
Qed.

Lemma find_children_last f i cs x : find_children f i cs = None -> find_path f x = Some [] ->
  find_children f i (cs ++ [x]) = Some [(i + length cs)%nat].
Proof.
  revert i. induction cs as [|c r IH]; intros i; cbn [find_children app length].
  - intros _ ->. by rewrite Nat.add_0_r.
  - destruct (find_path f c); [done|]. intros H Hx. rewrite IH by done. do 2 f_equal. lia.
Qed.

Lemma find_children_snoc f i cs x : find_children f i cs = None -> find_path f x = None -> find_children f i (cs ++ [x]) = None.
Proof.
  revert i. induction cs as [|c r IH]; intros i; cbn [find_children app].
  - by intros _ ->.
  - destruct (find_path f c); [done|]. apply IH.
Qed.

Lemma attr_set k k' v a : attr k (set_attr k' v a) = if seqb k k' then Some v else attr k a.
Proof.
  unfold attr. induction a as [|[j w] a IH]; cbn [set_attr List.find fst].
  - by destruct (seqb k k').
  - destruct (seqb k' j) eqn:E; cbn [List.find fst].
    + apply seqb_eq in E. subst. by destruct (seqb k j).
    + destruct (seqb k j) eqn:Ej; [|apply IH]. destruct (seqb k k') eqn:Ek; [|done].
      apply seqb_eq in Ek, Ej. subst. by rewrite seqb_refl in E.
Qed.

Lemma set_attr_same k v a : attr k a = Some v -> set_attr k v a = a.
Proof.
  unfold attr. induction a as [|[j w] a IH]; cbn [set_attr List.find fst]; [done|]. destruct (seqb k j) eqn:E.
  - apply seqb_eq in E. subst. by intros [= ->].
  - intros H. by rewrite IH.
Qed.

Lemma fmap_Some_1' {A B} (f : A -> B) o y : f <$> o = Some y -> exists x, f x = y /\ o = Some x.
Proof. destruct o as [x|]; [|done]. intros [= <-]. by exists x. Qed.

(** What a change of the first element adds is found afterwards, unless the search finds
    something before. *)
Lemma find_after_append p q x n n' :
  update_first p (fun m => with_children (children m ++ [x]) m) n = Some n' ->
  find_first q x <> None -> find_first q n' <> None.
Proof.
  intros H Hx. revert n' H. induction n as [s|t a v cs IH] using node_nested_ind; intros n'; [done|]. cbn [update_first].
  assert (Last : forall l, (fix go (cs : list node) : option node :=
      match cs with [] => None | c :: r => match find_first q c with Some y => Some y | None => go r end end) (l ++ [x]) <> None).
  { induction l as [|c l IHl]; cbn; [by destruct (find_first q x)|]. by destruct (find_first q c). }
  destruct (p t a).
  - intros [= <-]. cbn [with_children children find_first]. destruct (q t a); [done|]. apply Last.
  - clear Last. intros (cs' & <- & E)%fmap_Some_1'. cbn [find_first]. destruct (q t a); [done|]. revert cs' E.
    induction IH as [|c r Hc _ IHr]; intros cs'; [done|]. destruct (update_first p _ c) as [c'|] eqn:Ec.
    + intros [= <-]. specialize (Hc _ eq_refl). by destruct (find_first q c').
    + intros (r' & <- & Er)%fmap_Some_1'. destruct (find_first q c); [done|]. by apply IHr.
Qed.

(** ** Elements appended to an element *)

(** A selector that looks at the element's name, attributes and value only. *)
Definition shallow (f : node -> bool) : Prop := forall t a v cs cs', f (Elem t a v cs) = f (Elem t a v cs').

(** [parent.appendChild(x)] *)
Definition append_child (x m : node) : node := with_children (children m ++ [x]) m.

Lemma find_children_append f i cs x : find_path f x = None -> find_children f i (cs ++ [x]) = find_children f i cs.
Proof.
  intros Hx. revert i. induction cs as [|c r IH]; intros i; cbn [app find_children]; [by rewrite Hx|]. by rewrite IH.
Qed.

Lemma find_children_alter f g i j cs : (forall c, find_path f (g c) = find_path f c) ->
  find_children f j (alter g i cs) = find_children f j cs.
Proof.
  intros H. revert i j. induction cs as [|c r IH]; intros [|i] j; cbn [alter list_alter find_children]; [done|done|by rewrite H|].
  by rewrite <- (IH i (S j)).
Qed.

(** Appending an element without a match does not change what is found. *)
Lemma find_path_append f c x n : shallow f -> find_path f x = None -> find_path f (alter_path (append_child x) c n) = find_path f n.
Proof.
  intros Hf Hx. revert n. induction c as [|i q IH]; intros [s|t a v cs]; try done; cbn [alter_path append_child with_children children];
    rewrite !find_path_elem, (Hf _ _ _ _ cs); destruct (f (Elem t a v cs)); try done.
  - by apply find_children_append.
  - by apply find_children_alter.
Qed.

Lemma at_path_append f c x p n y : shallow f -> at_path p n = Some y ->
  exists y', at_path p (alter_path (append_child x) c n) = Some y' /\ f y' = f y.
Proof.
  intros Hf. revert c n. induction p as [|i q IH]; intros [|j d] [s|t a v cs]; cbn [at_path alter_path append_child with_children children];
    try (intros [= <-]; eauto); try done.
  - destruct (cs !! i) as [m|] eqn:E; [|done]. rewrite (lookup_app_l_Some _ _ _ _ E). eauto.
  - destruct (cs !! i) as [m|] eqn:E; [|done]. intros H. destruct (decide (j = i)) as [->|Hne].
    + rewrite list_lookup_alter_eq, E. by apply IH.
    + rewrite list_lookup_alter_ne, E by done. eauto.
Qed.

Lemma at_path_parent p n y : at_path p n = Some y -> exists z, at_path (removelast p) n = Some z.
Proof.
  revert n. induction p as [|i q IH]; intros n; [by exists n|]. cbn [at_path]. destruct n as [|t a v cs]; [done|].
  destruct (cs !! i) as [c|] eqn:E; [|done]. intros H. destruct q as [|j r]; [by eexists|].
  destruct (IH c H) as [z Hz]. exists z. change (removelast (i :: j :: r)) with (i :: removelast (j :: r)). cbn [at_path]. by rewrite E.
Qed.

Lemma closest_spec f fuel p n c : closest fuel f p n = Some c -> exists x, at_path c n = Some x /\ f x = true.
Proof.
  revert p. induction fuel as [|k IH]; intros p; cbn [closest]; (destruct (at_path p n) as [x|] eqn:E; cbn [from_option]; [destruct (f x) eqn:Ef|]);
    try (intros [= <-]; by exists x); try done; destruct (parentElement p); [apply IH|done|apply IH|done].
Qed.

Lemma closest_append f fuel c x p n y : shallow f -> at_path p n = Some y ->
  closest fuel f p (alter_path (append_child x) c n) = closest fuel f p n.
Proof.
  intros Hf. revert p y. induction fuel as [|k IH]; intros p y Hy; cbn [closest];
    destruct (at_path_append f c x p n y Hf Hy) as (y' & -> & Ey); rewrite Hy; cbn [from_option]; rewrite Ey; destruct (f y); try done.
  unfold parentElement. destruct p as [|i q]; [done|]. destruct (at_path_parent _ _ _ Hy) as [z Hz]. by apply (IH _ z).
Qed.

Lemma map_elems_append g c x n :
  map_elems g (alter_path (append_child x) c n) = alter_path (append_child (map_elems g x)) c (map_elems g n).
Proof.
  revert n. induction c as [|i q IH]; intros [s|t a v cs]; cbn [alter_path append_child with_children children map_elems]; try done.
  - by rewrite fmap_app.
  - f_equal. apply list_eq. intros j. rewrite list_lookup_fmap. destruct (decide (i = j)) as [<-|Hne].
    + rewrite !list_lookup_alter_eq, list_lookup_fmap. destruct (cs !! i); cbn; [by rewrite IH|done].
    + by rewrite !list_lookup_alter_ne, list_lookup_fmap by done.
Qed.

(** A change of the attributes that changes nothing the second time. *)
Lemma map_elems_twice g h n : (forall t a v, h t (g t a v).1 (g t a v).2 = g t a v) -> map_elems h (map_elems g n) = map_elems g n.
Proof.
  intros H. induction n as [s|t a v cs IH] using node_nested_ind; [done|]. cbn [map_elems]. rewrite !H. f_equal.
  rewrite <- list_fmap_compose. by apply Forall_fmap_ext_1.
Qed.
