(* ===== verification/I18nTables.v ===== *)
(** * Translation tables (portal-core.js)

    The object [translations] of portal-core.js, key by key and in source order, as
    tables of source text; in a value a circumflex stands for the double quotation
    mark.  [I18n.v] turns them into JavaScript strings. *)
From Stdlib Require Import String.
From stdpp Require Import base list strings.

#[local] Open Scope string_scope.

Definition translations_en_1 : list (string * string) := [
  ("market_all_nodes", "All nodes");
  ("market_any_vram", "Any");
  ("market_all_status", "All");
  ("market_online_only", "Online only");
  ("market_search_placeholder", "Filter by node ID, GPU model or interface");
  ("market_filter_status", "Status:");
  ("home_title", "ComputeMesh");
  ("home_tagline", "GPU infrastructure and AI inference");
  ("home_sub", "Run open-source models through an OpenAI-compatible API, offer GPU capacity, and manage your local or distributed fleet.");
  ("nav_home", "Home");
  ("nav_features", "Features");
  ("nav_pricing", "Pricing & Calculator");
  ("nav_downloads", "Downloads");
  ("nav_docs", "API Docs");
  ("nav_benchmarks", "Benchmarks");
  ("nav_status", "Network Status");
  ("nav_fleet", "Manage Fleet");
  ("btn_manage_fleet", "Fleet Cockpit");
  ("fleet_btn_login_nav", "Sign in");
  ("fleet_btn_logout", "Sign out");
  ("fleet_node_open", "Server Info ➔");
  ("fleet_node_delete", "Delete inactive node");
  ("fleet_node_delete_confirm", "Do you really want to remove server ^{node_id}^ from your fleet?

This node has 0 TFLOPS and is inactive or outdated.");
  ("fleet_node_delete_success", "Node removed successfully.");
  ("fleet_node_delete_error", "Error deleting node");
  ("fleet_node_delete_net_error", "Network error deleting node");
  ("fleet_download_error", "Download failed ({status})");
  ("fleet_node_id_stream", "Node-ID · Live Stream");
  ("fleet_cluster_active", "🟢 Active");
  ("fleet_cluster_standby", "🟡 Standby");
  ("fleet_key_copied", "Owner Key copied to clipboard!");
  ("fleet_key_missing", "Please enter an owner key.");
  ("fleet_email_missing", "Please enter an email address.");
  ("fleet_reg_creating", "Creating registration...");
  ("fleet_reg_success", "Account created and Passkey registered!");
  ("fleet_login_waiting", "Waiting for passkey confirmation...");
  ("fleet_login_failed", "Login failed.");
  ("fleet_reg_failed", "Registration failed.");
  ("fleet_hero_tag", "Decentralized Fleet Cockpit");
  ("fleet_meta_title", "ComputeMesh - Fleet Management & Server Cockpit");
  ("fleet_hero_title", "Manage your <span class=^gradient-text^>GPU Servers & Mining Rigs</span>");
  ("fleet_hero_sub", "Sign in with your fleet account or directly using your Owner Key to monitor all compute nodes in real time and seamlessly switch between them.");
  ("fleet_tab_passkey", "Passkey / Biometrics");
  ("fleet_tab_magic", "E-Mail Magic-Link");
  ("fleet_tab_key", "Direct Owner Key");
  ("fleet_lbl_email", "Email Address for Fleet Account");
  ("fleet_btn_login_passkey", "Sign in with Passkey");
  ("fleet_btn_register_passkey", "Register New Fleet Account");
  ("fleet_passkey_hint", "100% passwordless & cryptographically secured via Windows Hello, Touch ID, Face ID or hardware security keys.");
  ("fleet_btn_request_magic", "Send Login Link via Email");
  ("fleet_magic_hint", "Receive a cryptographically signed, single-use login link from mesh@inetconnector.com.");
  ("fleet_magic_sent", "A secure login link has been sent to your email address!");
  ("fleet_lbl_owner_key", "Secret Owner Key / Fleet Secret (Token)");
  ("fleet_remember_key", "Remember on this device");
  ("fleet_btn_login_key", "Open Fleet Now");
  ("fleet_key_hint", "Direct access with your secret fleet security key (API Secret). Found in your mining rig dashboard or in /boot/computemesh.env. Never use public names.");
  ("fleet_nav_tab_servers", "⚡ Connected Servers");
  ("fleet_nav_tab_chatui", "💬 AI-Chat");
  ("fleet_nav_tab_mcp", "🔌 MCP & Live-Tools");
  ("fleet_nav_tab_payouts", "💳 Earnings & Payouts");
  ("fleet_nav_tab_compliance", "⚖️ Operators & Compliance (DSA Art. 30)");
  ("fleet_nav_tab_security", "🛡️ Security & Passkeys");
  ("fleet_nav_tab_setup", "🔑 Owner Key & Pairing");
  ("fleet_nav_tab_ollama", "🦙 Ollama & Dev Pool");
  ("fleet_nav_tab_killswitch", "🛑 Kill Switch & Emergency Stop");
  ("fleet_nav_tab_admin", "👑 Master Admin");
  ("fleet_telem_active", "🟢 Active");
  ("fleet_telem_standby", "🟡 Standby");
  ("fleet_telem_blocked", "🔴 BLOCKED");
  ("fleet_compliance_title", "⚖️ Provider & operator identity");
  ("fleet_compliance_subtitle", "Fulfilment of statutory operator duties under the Digital Services Act (DSA Art. 30/31) & GDPR");
  ("fleet_compliance_loading", "⚪ Loading compliance status...");
  ("fleet_compliance_missing", "⚠️ Information required for the marketplace:");
  ("fleet_compliance_why_title", "Why is this required?");
  ("fleet_compliance_why_desc", "As a provider of compute capacity on the ComputeMesh marketplace, you act as a commercial or private service provider for customers. The Digital Services Act (EU) 2022/2065 requires platform operators to keep traders traceable (Art. 30 DSA). Your data is processed securely under Art. 5/6 GDPR. Payouts and bank KYC are handled separately through Stripe Connect.");
  ("fleet_compliance_profile_title", "📝 Legal provider information");
  ("fleet_compliance_entity_label", "Provider legal form / type:");
  ("fleet_compliance_individual", "Natural person / sole proprietor");
  ("fleet_compliance_business", "Company / organisation (Ltd, corporation, etc.)");
  ("fleet_compliance_legal_name", "Full name (first & last name):");
  ("fleet_compliance_legal_name_business", "Full registered company name (including legal form, e.g. Ltd):");
  ("fleet_compliance_trade_name", "Business name / brand (optional):");
  ("fleet_compliance_legal_rep", "Authorised representative (e.g. managing director):");
  ("fleet_compliance_registry_name", "Commercial register / registry court:");
  ("fleet_compliance_registry_number", "Commercial register number:");
  ("fleet_compliance_vat", "VAT ID (optional):");
  ("fleet_compliance_address_title", "Registered business address");
  ("fleet_compliance_street", "Street and house number:");
  ("fleet_compliance_address_extra", "Address line 2 (optional):");
  ("fleet_compliance_postal", "Postal code:");
  ("fleet_compliance_city", "City:");
  ("fleet_compliance_country", "Country (ISO 2-letter):");
  ("fleet_compliance_email", "Official business email:");
  ("fleet_compliance_phone", "Phone number (optional):");
  ("fleet_compliance_save", "💾 Save provider profile");
  ("fleet_compliance_dsa_title", "📜 Statutory trader self-declaration (DSA Art. 30(1)(e))");
  ("fleet_compliance_dsa_text", "I hereby undertake, within the meaning of Article 30(1)(e) of Regulation (EU) 2022/2065 (Digital Services Act), to offer only lawful products, IT resources and compute services on the ComputeMesh marketplace that comply with applicable Union law.");
  ("fleet_compliance_dsa_confirm", "I have read the declaration and legally confirm it for all fleets I operate.");
  ("fleet_compliance_dsa_submit", "✍️ Submit self-declaration");
  ("fleet_compliance_preview_title", "👁️ Public trader transparency preview (Art. 30 DSA)");
  ("fleet_compliance_preview_desc", "This is how customers and marketplace users see your verified provider profile. Private identifiers, passkeys and exact home addresses remain protected.");
  ("fleet_compliance_preview_loading", "Loading preview...");
  ("fleet_compliance_not_signed_in", "🔒 Not signed in");
  ("fleet_compliance_verified", "✅ Identity verified");
  ("fleet_compliance_pending", "⏳ Review pending");
  ("fleet_compliance_incomplete", "⚠️ Information required");
  ("fleet_compliance_rejected", "🚫 Suspended / rejected");
  ("fleet_compliance_unverified", "⚪ Incomplete / not verified");
  ("fleet_compliance_dsa_submitted", "✓ Declaration submitted");
  ("fleet_compliance_dsa_valid", "Valid for Art. 30 DSA (");
  ("fleet_compliance_dsa_optional_button", "✍️ Store optional declaration");
  ("fleet_compliance_dsa_optional", "Optional (current operating mode does not require a DSA Art. 30 declaration)");
  ("fleet_compliance_preview_empty", "Profile not created yet. Complete the legal provider information.");
  ("fleet_compliance_preview_verified_trader", "✅ Verified DSA trader");
  ("fleet_compliance_preview_identity_incomplete", "⚠️ Identity incomplete");
  ("fleet_compliance_preview_location", "Location:");
  ("fleet_compliance_preview_contact", "Contact:");
  ("fleet_compliance_preview_register", "Register:");
  ("fleet_compliance_preview_vat", "VAT ID:");
  ("fleet_compliance_preview_declaration", "DSA self-declaration:");
  ("fleet_compliance_preview_declared", "✅ Submitted (");
  ("fleet_compliance_preview_pending", "❌ Pending");
  ("fleet_compliance_preview_operator_country", "Operator country:");
  ("fleet_compliance_preview_verified_operator", "✅ Verified operator");
  ("fleet_compliance_preview_minimal", "Minimal public profile active (privacy under Art. 5/25 GDPR). Private home addresses and contact details are not exposed in this operating mode.")
].

Definition translations_en_2 : list (string * string) := [
  ("fleet_security_email_title", "📧 Notification & security alert email");
  ("fleet_security_email_missing", "⚠️ No alert email configured");
  ("fleet_security_email_desc", "Security-critical events (secret master-key rotations, passkey changes, server disconnects) and magic-link logins are sent to this address.");
  ("fleet_security_email_save", "💾 Save email & send test alert");
  ("fleet_security_passkey_desc", "You can register multiple FIDO2 security keys (for example MacBook Touch ID, Windows Hello and a YubiKey) for your account.");
  ("fleet_security_audit_desc", "Log of recent security-relevant actions (logins, passkey registrations, node removals).");
  ("fleet_security_audit_event", "Event");
  ("fleet_security_audit_details", "Details");
  ("fleet_security_audit_ip", "IP address");
  ("fleet_security_audit_time", "Timestamp (UTC)");
  ("fleet_security_no_passkeys", "No passkeys found. You can register a new security key above.");
  ("fleet_security_no_audit", "No entries available.");
  ("fleet_security_audit_unavailable", "Audit log unavailable");
  ("fleet_security_load_passkeys_error", "Error loading passkeys");
  ("fleet_security_delete", "🗑️ Delete");
  ("fleet_security_key_name", "Key name");
  ("fleet_security_created", "Created");
  ("fleet_security_last_used", "Last used");
  ("fleet_security_actions", "Actions");
  ("fleet_enrollment_generating", "Generating code...");
  ("fleet_enrollment_code", "Code:");
  ("fleet_enrollment_valid", "valid for 30 min");
  ("fleet_enrollment_copied", "Code copied!");
  ("fleet_security_copy", "Copy");
  ("fleet_mcp_tools_active", "tools active for this fleet");
  ("fleet_mcp_tools_partial", "tools active");
  ("fleet_mcp_tools_disabled", "disabled");
  ("fleet_mcp_tools_none", "tools active (all disabled)");
  ("fleet_passkeys_title", "Registered Passkeys & Hardware Keys");
  ("fleet_btn_add_passkey", "+ Add Additional Passkey / YubiKey");
  ("fleet_enrollment_title", "One-Time Zero-Trust Server Enrollment");
  ("fleet_enrollment_desc", "Generate a 30-minute one-time pairing token to connect a GPU node without exposing your master Owner Key.");
  ("fleet_btn_gen_enrollment", "⚡ Generate 30-Min Pairing Code");
  ("fleet_audit_title", "Security Audit Log (mesh@inetconnector.com Protected)");
  ("fleet_audit_event", "Security Event");
  ("fleet_audit_ip", "IP Address");
  ("fleet_audit_time", "Timestamp");
  ("fleet_audit_details", "Details");
  ("fleet_stat_nodes", "Connected Servers");
  ("fleet_stat_vram", "Total VRAM");
  ("fleet_stat_tflops", "Compute Capacity");
  ("fleet_stat_status", "Cluster Status");
  ("fleet_quick_jump", "⚡ Switch to Server:");
  ("fleet_select_server", "-- Select Server --");
  ("fleet_btn_refresh", "Refresh");
  ("fleet_servers_title", "Connected Servers & Mining Rigs");
  ("fleet_empty_title", "No servers connected yet");
  ("fleet_empty_desc", "Enter your Owner Key below into your servers' configuration (in /boot/computemesh.env or in local dashboard settings). They will appear here automatically within seconds.");
  ("fleet_owner_key_title", "Your Secret Fleet Owner Key");
  ("fleet_owner_key_desc", "This is your private security key (API Secret). Enter it into your mining rigs or workstations to bind them securely to this fleet:");
  ("fleet_btn_copy_key", "Copy Key");
  ("nav_products", "Products");
  ("nav_aichat", "💬 AI-Chat ↗");
  ("nav_playground", "💬 AI-Chat ↗");
  ("nav_webui_auth", "💬 AI-Chat ↗");
  ("nav_prod_inference", "WebUI Studio ↗");
  ("nav_prod_inference_sub", "Full-featured chat UI with multi-model, PDF/image upload & branching");
  ("nav_prod_inference_auth", "💬 WebUI Studio ↗");
  ("nav_prod_inference_sub_auth", "Full-featured chat UI with multi-model, PDF/image upload & branching");
  ("btn_open_webui", "🚀 Open WebUI Studio ↗");
  ("pg_auth_banner_title", "Signed In: Full WebUI Studio Workspace Available");
  ("pg_auth_banner_desc", "Use the built-in llama-server WebUI with multi-model switching, PDF/image uploads, branching, and local chat history.");
  ("pg_auth_banner_btn", "🚀 Open WebUI Studio ↗");
  ("nav_prod_market", "GPU Marketplace");
  ("nav_prod_market_sub", "Rent live hardware, VRAM & distributed nodes");
  ("nav_prod_models", "Model Library");
  ("nav_prod_models_sub", "Live model catalog");
  ("nav_prod_lan", "Private LAN Mesh");
  ("nav_prod_lan_sub", "Zero-config & 100% free local inference");
  ("nav_prod_localcode", "LocalCode AI Studio");
  ("nav_prod_localcode_sub", "Autonomous desktop IDE & Android Remote");
  ("nav_apps", "Apps");
  ("nav_app_localcode", "LocalCode AI Studio");
  ("nav_app_localcode_sub", "Download & Autonomous IDE Overview");
  ("nav_app_aegis", "Aegis AI Risk Terminal");
  ("nav_app_aegis_sub", "Market crash early-warning & risk terminal");
  ("nav_app_ancesora", "Ancesora AI");
  ("nav_app_ancesora_sub", "Genealogy platform for family archives, people & sources");
  ("nav_app_today", "Today & Tomorrow");
  ("nav_app_today_sub", "Concerts today and tomorrow by city, postcode & radius");
  ("nav_app_causamind", "CausaMind Market Predictor");
  ("nav_app_causamind_sub", "Research signals, risk-aware buy/sell/hold plans");
  ("nav_app_hub", "Google Play Store");
  ("nav_app_hub_sub", "Official Android Apps from InetConnector");
  ("nav_app_smartx", "SmartX Blockchain");
  ("nav_app_smartx_sub", "InetConnector blockchain project and decentralized network");
  ("apps_sec_tag", "ECOSYSTEM & APPLICATIONS");
  ("apps_sec_title", "Connected Intelligent AI Apps & Tool Suite");
  ("apps_sec_sub", "Explore our privacy-first, decentralized AI applications powered by the ComputeMesh infrastructure.");
  ("apps_badge_ide", "Autonomous IDE");
  ("apps_desc_localcode", "Local AI coding IDE with native ComputeMesh & Ollama backends, Windows System Tray mode, and mobile Android remote companion.");
  ("apps_badge_sec", "Crash Radar");
  ("apps_title_aegis", "Aegis AI Risk Terminal");
  ("apps_title_ancesora", "Ancesora AI");
  ("apps_title_today", "Today & Tomorrow");
  ("apps_desc_aegis", "Aegis AI Risk Terminal monitors market crashes, volatility spikes, liquidity crises and systemic market risk in real time with a fragility and trigger model.");
  ("apps_badge_genealogy", "Genealogy platform");
  ("apps_desc_ancesora", "Modern, research-oriented and accessible genealogy platform for family archives, people, sources and interactive family trees.");
  ("apps_badge_assistant", "Concert finder");
  ("apps_desc_today", "Find concerts for today and tomorrow by city, postcode and radius, with researched venue and event sources.");
  ("apps_badge_causamind", "Market research");
  ("apps_title_causamind", "CausaMind Market Predictor");
  ("apps_desc_causamind", "Research dashboard for ranked buy, sell and hold plans with sizing, validity windows, execution guidance and risk-aware portfolio context.");
  ("apps_btn_causamind", "trade.inetconnector.com ↗");
  ("apps_badge_suite", "Play Store");
  ("apps_title_hub", "Google Play Store");
  ("apps_desc_hub", "Official Android apps on Google Play Store: ComputeMesh, Activity Launcher Pro, Share to NAS, News Kiosk and smart AI tools.");
  ("apps_btn_playstore", "Google Play Store ➔");
  ("apps_btn_open", "Open App ➔");
  ("apps_btn_overview", "Download & IDE Overview ➔");
  ("apps_badge_blockchain", "Blockchain Project");
  ("apps_title_smartx", "SmartX Blockchain");
  ("apps_desc_smartx", "SmartXChain block explorer and Web3 studio for real-time blocks, transactions, smart contracts and validator consensus.");
  ("apps_btn_smartx", "smartx.inetconnector.com ↗");
  ("nav_marketplace", "Marketplace");
  ("nav_models", "Models");
  ("nav_developers", "Developers");
  ("nav_register", "Get API Key");
  ("nav_topup", "💳 Credits");
  ("nav_playground", "⚡ Live Playground");
  ("nav_legal", "Legal");
  ("nav_security", "🛡️ Security & GDPR");
  ("nav_privacy", "Privacy");
  ("nav_terms", "Terms");
  ("nav_impressum", "Legal Notice");
  ("nav_support", "Support");
  ("back_to_home", "← Back to Home")
].

Definition translations_en_3 : list (string * string) := [
  ("footer_brand_desc", "Decentralized high-performance GPU compute fabric for next-generation AI workloads. Scale effortlessly with OpenAI-compatible APIs.");
  ("footer_col_platform", "Platform");
  ("footer_col_resources", "Resources");
  ("footer_col_legal", "Legal & Compliance");
  ("footer_rights", "All rights reserved. Decentralized AI Mesh Architecture.");
  ("footer_tech_status", "Network Status: Operational");
  ("hero_tagline", "⚡ Distributed GPU Compute. Infinite AI Scale.");
  ("hero_title", "High-Performance AI Inference.<br><span class=^gradient-text^>Decentralized. Scalable. 80% Lower Cost.</span>");
  ("hero_sub", "ComputeMesh unifies distributed GPUs into an ultra-fast, resilient compute fabric. Deploy open-source LLMs through our drop-in OpenAI-compatible API at a fraction of hyperscaler pricing, or monetize your idle GPUs with automated payouts.");
  ("btn_start_inferencing", "⚡ Launch Live Playground");
  ("btn_provide_compute", "🖥️ Monetize GPUs");
  ("btn_get_api_key", "🚀 Start in 60s (Get API Key)");
  ("btn_try_playground", "⚡ Try Live Playground");
  ("trust_gdpr", "100% GDPR / EEA Hosting");
  ("trust_zero_retention", "Zero-Disk-Retention");
  ("trust_stripe", "Stripe Connect SEPA Payouts");
  ("trust_attestation", "Ed25519 Signed Attestations");
  ("ticker_vram", "Active Mesh VRAM");
  ("ticker_gpus", "Connected GPUs Online");
  ("ticker_tflops", "Mesh Compute Power");
  ("ticker_nodes", "Distributed Cluster Nodes");
  ("market_tag", "MESH FLEET");
  ("market_title", "Mesh fleet and node status");
  ("market_sub", "Public totals come from live gateway telemetry. Detailed node data requires the associated fleet sign-in.");
  ("market_filter_gpu", "GPU Tier:");
  ("market_filter_vram", "VRAM:");
  ("market_filter_region", "Region:");
  ("market_provider_tag", "PROVIDER PROGRAM");
  ("market_provider_title", "Rent out your GPU & earn a 75% revenue share");
  ("market_provider_desc", "Connect your gaming PC, mining rig, or server hardware to the global network in under 2 minutes. Automatic weekly payouts to your bank account via Stripe Connect.");
  ("market_provider_button", "⚡ Register GPU now");
  ("models_filter_all", "All models");
  ("models_filter_code", "💻 Code & Agents");
  ("models_filter_reasoning", "🧠 Reasoning & Math");
  ("models_filter_vision", "👁️ Vision & Multimodal");
  ("models_filter_fast", "⚡ High-Speed Lightweight");
  ("models_integration_tag", "OPENAI DROP-IN INTEGRATION");
  ("models_integration_title", "Control every model with 2 lines of code");
  ("models_integration_desc", "Simply replace the `base_url` and `api_key` in your existing OpenAI SDKs:");
  ("models_copy_code", "📋 Copy code");
  ("pricing_tag", "LIVE PRICING STATUS");
  ("pricing_title", "Prices for available models");
  ("pricing_sub", "This page compares the gateway's current model catalog with the published price tiers. Only models with an exact price mapping are shown. Price and availability can change.");
  ("pricing_loading", "Loading live prices...");
  ("pricing_disclaimer", "Provider earnings depend on completed orders, utilization, and billing rules. A reliable earnings forecast is not currently available.");
  ("models_tag", "CURATED MODEL LIBRARY");
  ("models_title", "Models in the live gateway catalog");
  ("models_sub", "Availability is loaded from the gateway. The listed models and capabilities can change as nodes join or leave.");
  ("pg_tag", "INTERACTIVE DEMO");
  ("pg_title", "Experience <span class=^gradient-text^>Real-Time Mesh Inference</span>");
  ("pg_sub", "Choose a currently available model from the gateway's live catalog and send a prompt.");
  ("pg_model_lbl", "Model:");
  ("pg_quota_pill", "Free Demo Credits");
  ("pg_cluster_pending", "Loading live model catalog...");
  ("pg_ai_author", "ComputeMesh AI");
  ("pg_ai_badge", "LIVE MESH");
  ("pg_ai_welcome", "Welcome to ComputeMesh! Our distributed inference cluster is online and ready. How can I assist you with your project today?");
  ("pg_status_lbl", "Status:");
  ("pg_status_ready", "Ready");
  ("pg_speed_lbl", "Generation Speed:");
  ("pg_latency_lbl", "TTFT / Latency:");
  ("pg_tokens_lbl", "Tokens Streamed:");
  ("qp_explain_mesh", "⚡ What makes ComputeMesh unique?");
  ("qp_mcp_product_price", "🛍️ Price Comparison iPhone 16 Pro (Table)");
  ("qp_mcp_image", "🎨 AI Image from Breaking News (MCP)");
  ("qp_mcp_weather", "🌦️ Weather Comparison Berlin, Munich & Zurich (Table)");
  ("qp_mcp_nasdaq", "📊 NASDAQ Top 5 Gainers & Losers (Table)");
  ("qp_mcp_bitcoin", "📈 Live Bitcoin & Crypto (MCP)");
  ("qp_mcp_news", "📰 Latest Live News & Headlines (MCP)");
  ("qp_python_fastapi", "🐍 Write a streaming FastAPI client");
  ("qp_mcp_math", "🧮 Compound Interest Sandbox (MCP)");
  ("qp_gpu_sharding", "🧩 How does pipeline layer sharding work?");
  ("qp_compare_costs", "💰 Estimate my cost savings");
  ("pg_prompt_placeholder", "Type a prompt or test inference speed... (Enter to send, Shift+Enter for newline)");
  ("pg_send_btn", "Send Prompt");
  ("pg_ollama_title", "Ollama & OpenAI Compatible Endpoint");
  ("pg_ollama_badge", "Instant Drop-in");
  ("pg_ollama_desc", "Use ComputeMesh with any existing OpenAI client library, LangChain, LlamaIndex, or Ollama CLI by simply pointing your base URL to our gateway.");
  ("pg_copy_cmd_btn", "📋 Copy Command");
  ("pg_copy_code_btn", "📋 Copy Code");
  ("pg_studio_name", "WebUI Studio");
  ("pg_new_task", "New Task");
  ("pg_welcome_title", "How can I help you today?");
  ("pg_input_label", "Task for WebUI Studio");
  ("pg_composer_hint", "Enter sends · Shift + Enter adds a line");
  ("pg_privacy_hint", "Zero-knowledge routing: Prompts are confidential and never shared.");
  ("qp_write_title", "Draft Text");
  ("qp_write_desc", "Draft an article, email, or summary directly");
  ("qp_code_title", "Create Code");
  ("qp_code_desc", "Draft a function, query, or technical solution");
  ("qp_compare_title", "Compare Options");
  ("qp_compare_desc", "Evaluate two approaches with trade-offs");
  ("qp_explain_title", "Understand Topics");
  ("qp_explain_desc", "Explain a concept or workflow step by step");
  ("features_tag", "ENTERPRISE ARCHITECTURE");
  ("features_title", "Next-Generation Distributed AI Infrastructure");
  ("features_sub", "Engineered from the ground up for low-latency inference, dynamic load balancing, and cryptographic verification across global GPU nodes.");
  ("feat1_title", "Intelligent Pipeline Sharding");
  ("feat1_desc", "Large language models are dynamically partitioned across distributed GPUs with optimized tensor streaming, maximizing token throughput while minimizing network overhead.");
  ("feat2_title", "Heterogeneous GPU Pooling");
  ("feat2_desc", "Seamlessly combine NVIDIA (CUDA), AMD (ROCm), and Apple Silicon hardware into a unified compute fabric, maximizing total cluster efficiency.");
  ("feat3_title", "Smart Latency-Aware Placement");
  ("feat3_desc", "Our real-time routing engine matches incoming inference requests to the optimal GPU nodes based on live latency, bandwidth, and available VRAM.");
  ("feat4_title", "100% Drop-in OpenAI API");
  ("feat4_desc", "Zero migration effort: Compatible with official OpenAI SDKs, LangChain, AutoGPT, and LiteLLM. Just update your base URL and API key.");
  ("feat5_title", "One-Click Provider Agent");
  ("feat5_desc", "Turn idle gaming PCs, workstations, and mining rigs into revenue streams with our native, auto-configuring installers for Windows and Linux.");
  ("feat6_title", "Cryptographic Attestation & Ledger");
  ("feat6_desc", "Every inference execution is verified with Ed25519 signatures. Our tamper-proof double-entry ledger guarantees transparent accounting and automated payouts.");
  ("calc_tag", "TRANSPARENT PRICING");
  ("calc_title", "Calculate Your Savings & Provider Revenue");
  ("calc_sub", "Save up to 80% compared to traditional cloud hyperscalers, or turn your compute hardware into a predictable monthly revenue stream.");
  ("tab_developer", "👨‍💻 Developers: Cost Savings Calculator");
  ("tab_provider", "⚡ Providers: Earnings Calculator");
  ("lbl_monthly_tokens", "Monthly Inference Volume (Million Tokens)")
].

Definition translations_en_4 : list (string * string) := [
  ("lbl_model_tier", "Model Size / Class");
  ("lbl_computemesh_cost", "Estimated ComputeMesh Cost");
  ("lbl_cloud_cost", "Traditional Cloud Cost:");
  ("lbl_your_savings", "Save up to 80% on AI compute costs");
  ("lbl_gpu_setup", "Hardware Setup / GPU Tier");
  ("lbl_hours_online", "Daily Online Time");
  ("lbl_est_earnings", "Estimated Monthly Revenue (Model Calculation)");
  ("lbl_payout_note", "Note: The calculator provides an estimated yield based on network load. Fleet Cockpit payouts are 100% backed by real customer inference jobs settled in the immutable double-entry ledger (no mock balances; payouts from $25.00 / 25.00 € via Stripe Connect).");
  ("lbl_provider_threshold_info", "💡 <strong>Automated Payouts:</strong> Hardware providers receive 75% of customer revenue. Earnings are credited directly to your account ledger and paid out automatically.");
  ("commercial_plans_title", "Custom Enterprise Solutions");
  ("commercial_plans_desc", "Need dedicated private GPU clusters, guaranteed enterprise SLAs, custom model fine-tuning endpoints, or on-premise deployments? Our team is here to help.");
  ("btn_contact_sales", "Contact Enterprise Sales");
  ("dl_meta_title", "Downloads & Software Hub — ComputeMesh");
  ("dl_tag", "SOFTWARE & ECOSYSTEM DOWNLOADS");
  ("dl_title", "Start Earning with Your Hardware & Deploy Autonomous AI");
  ("dl_sub", "Download native client agents for ComputeMesh GPU nodes and the autonomous LocalCode AI IDE with mobile remote companion.");
  ("dl_win_title", "Windows Provider Agent");
  ("dl_win_desc", "Full background service (SCM) with system tray launcher, browser cockpit management, automatic GPU recognition, and token metering.");
  ("dl_win_btn", "Download ComputeMesh (.exe)");
  ("dl_win_status", "v1.2.193 • 64-bit");
  ("dl_win_feature_cuda", "NVIDIA CUDA & AMD ROCm/Vulkan support");
  ("dl_win_feature_webui", "Built-in WebUI AI Studio server (port 8080)");
  ("dl_win_feature_lan", "Zero-config LAN autodiscovery (UDP 13379)");
  ("dl_win_platforms", "Windows 10 / 11 (x64) • Signed & verified");
  ("dl_android_title", "Android Mobile Node & AI");
  ("dl_android_desc", "100% on-device private inference with MiniCPM5-2B, Direct-LAN P2P, and battery-safe background edge node service.");
  ("dl_android_btn", "Download for Android (.apk)");
  ("dl_android_status", "v1.2.193 • Production signed");
  ("dl_android_feature_webui", "Embedded mobile AI Studio WebUI");
  ("dl_android_feature_lan", "Direct connection to the private LAN mesh");
  ("dl_android_feature_signed", "Officially signed release build");
  ("dl_android_store_btn", "Open Google Play Store ↗");
  ("dl_linux_title", "Linux Daemon & Tray Installer");
  ("dl_linux_desc", "Systemd background service with optional system tray launcher, GPU auto-detection, and browser cockpit for Ubuntu, Debian, and HiveOS.");
  ("dl_linux_cmd_hint", "Inspect the installer script first, then execute it explicitly. No blind curl | bash.");
  ("dl_linux_status", "Linux / HiveOS • Headless & Tray");
  ("dl_linux_btn", "View installer script");
  ("dl_linux_platforms", "Ubuntu 22.04 / 24.04 LTS • Debian 12 / 13 • HiveOS");
  ("dl_rig_status", "Debian 13 Live • Bare-Metal");
  ("dl_rig_title", "Mining Rig Appliance (NodeOS)");
  ("dl_rig_desc", "Dedicated bootable bare-metal Linux OS for multi-GPU mining rigs (4–12 GPUs) with zero-config setup, web cockpit, and 1-click SSD cloning.");
  ("dl_rig_feature_boot", "Boot directly from USB or 1-click mirror to internal SSD");
  ("dl_rig_feature_gpus", "Optimized for 4–12 GPUs (AMD ROCm/Vulkan & NVIDIA CUDA)");
  ("dl_rig_feature_verify", "Cryptographically signed images & live runtime archive");
  ("dl_rig_iso_btn", "Download Bootable ISO (.iso)");
  ("dl_rig_img_btn", "Download Flash Image (.img.xz)");
  ("dl_rig_tar_btn", "Download Linux Package (.tar.gz)");
  ("dl_rig_runtime_btn", "NodeOS Runtime Package (.tar.gz)");
  ("dl_rig_guide_btn", "NodeOS Setup Guide ↗");
  ("dl_rig_platforms", "x86_64 UEFI / BIOS • 4–12 GPUs • SHA-256 signed");
  ("dl_localcode_title", "LocalCode Autonomous AI IDE & Remote");
  ("dl_localcode_desc", "Autonomous local AI coding engine with seamless Ollama & ComputeMesh integration, desktop UI, and Android remote companion.");
  ("dl_localcode_win_btn", "Download for Windows (.exe)");
  ("dl_localcode_apk_btn", "Android Remote Companion (.apk)");
  ("dl_localcode_vsix_btn", "VS Code & IDE Extension (.vsix)");
  ("dl_qr_scan_title", "Scan with Phone Camera:");
  ("dl_qr_scan_sub", "Scan directly for <strong>instant download & installation</strong>");
  ("dl_security_title", "Cryptographic signing & hash verification");
  ("dl_security_desc", "All official binaries are signed with the private InetConnector master release key. Verify every download using the provided SHA-256 checksums and the `ComputeMesh-Android.json` manifests.");
  ("footer_github", "GitHub repositories");
  ("nav_app_github", "GitHub Ecosystem");
  ("nav_app_github_sub", "Open Source, Python SDK, ControlPlane & Tools");
  ("modal_reg_title", "🚀 ComputeMesh API Access");
  ("market_loading", "Loading live nodes from the gateway...");
  ("opt_country_de", "🇩🇪 Germany (DE)");
  ("opt_country_at", "🇦🇹 Austria (AT)");
  ("opt_country_ch", "🇨🇭 Switzerland (CH)");
  ("opt_country_fr", "🇫🇷 France (FR)");
  ("opt_country_nl", "🇳🇱 Netherlands (NL)");
  ("opt_country_other", "🌍 Other EU/EEA Country");
  ("agent_service_title", "Background Service / Runner");
  ("agent_service_checking", "Checking...");
  ("agent_service_platform", "Platform:");
  ("agent_service_mode", "Operating Mode:");
  ("agent_service_name", "System Service:");
  ("agent_service_port", "Dashboard Port:");
  ("agent_service_restart", "↻ Restart");
  ("agent_service_status_btn", "⚡ Status");
  ("api_tag", "DEVELOPER INTEGRATION");
  ("api_title", "Two Lines of Code. Zero Migration Overhead.");
  ("api_sub", "Use your existing OpenAI client libraries without rewriting your application. Simply swap the base URL and authenticate with your ComputeMesh API key.");
  ("modal_title", "Get Started with ComputeMesh");
  ("modal_sub", "Create your API key in seconds for high-speed AI inference or connect your hardware.");
  ("modal_role_lbl", "Account Type:");
  ("role_consumer", "Developer API (Run AI Inference)");
  ("role_provider", "Hardware Provider (Monetize GPUs)");
  ("modal_email_lbl", "Business Email Address");
  ("modal_country_lbl", "Operating Country (EEA Region)");
  ("modal_country_select", "Select Country…");
  ("modal_wallet_lbl", "Payout Destination / Wallet (Optional)");
  ("modal_wallet_placeholder", "0x... (EVM / Polygon / Arbitrum)");
  ("modal_wallet_help", "For automated provider earnings payouts via crypto or Stripe Connect.");
  ("modal_submit_btn", "🚀 Generate API Key");
  ("modal_key_result_lbl", "Your Personal API Key:");
  ("modal_copy_btn", "Copy Key");
  ("compliance_combined", "I agree to the <a href=^/terms^ target=^_blank^ rel=^noopener^>Terms of Service v2.1</a> & <a href=^/privacy^ target=^_blank^ rel=^noopener^>Privacy Policy</a> and confirm business (B2B) use.");
  ("topup_modal_title", "💳 Top Up Compute Credits");
  ("topup_modal_sub", "Add inference credits securely via Stripe Checkout. Credits never expire and are billed per actual token generated.");
  ("topup_key_lbl", "Your API Key:");
  ("topup_select_amount_lbl", "Select deposit amount:");
  ("btn_topup_proceed", "Proceed to Secure Checkout →");
  ("conv_tag", "Start Building");
  ("conv_title", "Ready to Accelerate Your AI Workloads?");
  ("conv_sub", "Get your API key today or join our growing network of global GPU providers.");
  ("conv_opt1_badge", "Developer");
  ("conv_opt1_title", "🔑 Instant API Access");
  ("conv_opt1_desc", "Start inferencing with high-throughput open-source models in under 60 seconds.");
  ("conv_opt1_btn", "Get Free API Key →");
  ("conv_opt2_badge", "Hardware Provider");
  ("conv_opt2_title", "⚡ Monetize Compute");
  ("conv_opt2_desc", "Connect your GPUs and earn passive income with automatic weekly payouts.");
  ("conv_opt2_btn", "Register GPU Node");
  ("conv_opt2_dl", "View Downloads");
  ("docs_page_tag", "DEVELOPER GUIDE");
  ("docs_main_title", "ComputeMesh Architecture & Integration Guide");
  ("docs_main_sub", "Comprehensive guide to integrating the OpenAI-compatible gateway, setting up distributed GPU nodes, and optimizing inference workloads.");
  ("docs_readiness_alert", "<strong style=^color: var(--text-main);^>Live Mesh Gateway:</strong> ComputeMesh provides high-speed, cryptographically verified AI inference. Point your OpenAI SDK or LangChain client directly to our gateway endpoint.");
  ("docs_toc_title", "Table of Contents");
  ("docs_toc_1", "1. Quickstart & OpenAI API")
].

Definition translations_en_5 : list (string * string) := [
  ("docs_toc_2", "2. Distributed Mesh Architecture");
  ("docs_toc_3", "3. Pipeline Layer Sharding");
  ("docs_toc_4", "4. Provider Node Setup");
  ("docs_toc_5", "5. Multi-GPU Mining Rig OS");
  ("docs_toc_6", "6. Ledger & Billing Mechanics");
  ("docs_sec1_h2", "1. OpenAI-Compatible API Quickstart");
  ("docs_sec1_p", "ComputeMesh implements a 100% OpenAI-compatible `/v1` REST API for chat completions and model discovery. Simply update `base_url` and use your ComputeMesh API key in any language SDK (Python, Node.js, Go, Rust, cURL).");
  ("docs_playground_h3", "⚡ Interactive Browser Playground");
  ("docs_playground_badge", "Live Streaming");
  ("docs_playground_send", "▶ Run Inference");
  ("playground_send", "▶ Run Inference");
  ("docs_playground_ph", "Enter your prompt here...");
  ("docs_terminal_title", "Gateway Response Terminal");
  ("docs_terminal_ready", "Connected");
  ("docs_terminal_init", "Click ^Run Inference^ to stream live tokens directly from the mesh.");
  ("docs_sec2_h2", "2. Distributed Mesh Architecture");
  ("docs_sec2_p", "ComputeMesh connects independent GPU nodes into a unified, high-throughput compute fabric. Requests are routed dynamically based on live latency, available VRAM, and model availability.");
  ("docs_arch_flow_1", "Client request ➔ Public Gateway (mTLS & rate limits)");
  ("docs_arch_flow_2", "➔ Placement Engine selects optimal GPU nodes (latency & VRAM)");
  ("docs_arch_flow_3", "➔ Pipeline-sharded execution over high-speed wire");
  ("docs_arch_flow_4", "➔ Zero-knowledge execution attestation (Ed25519)");
  ("docs_arch_flow_5", "➔ Transparent accounting in the double-entry ledger");
  ("docs_sec3_h2", "3. Pipeline Layer-Sharding Technology");
  ("docs_sec3_p", "Our intelligent tensor-splitting engine partitions large parameter models across multiple GPUs with optimized peer-to-peer pipelining, allowing massive models to run smoothly across consumer hardware.");
  ("docs_sec4_h2", "4. Hardware Provider Node Setup");
  ("docs_sec4_p", "Join the mesh in minutes using our native provider daemon. Available for Windows (with desktop tray icon) and Linux (headless daemon and Docker containers).");
  ("docs_sec4_note", "All connections are end-to-end encrypted with mutual mTLS and Ed25519 node signatures.");
  ("docs_sec5_h2", "5. Mining Rig NodeOS Appliance & Setup Guide");
  ("docs_sec5_p", "NodeOS is a turnkey, bootable Linux operating system designed specifically for multi-GPU mining rigs (4 to 12 GPUs). It features automatic driver tuning (AMD ROCm/Vulkan & NVIDIA CUDA), real-time web dashboard, and zero-touch mesh connectivity.");
  ("docs_nodeos_guide_title", "Step-by-Step Installation Guide (USB to Internal HDD/SSD)");
  ("docs_nodeos_step1_title", "Download NodeOS Image");
  ("docs_nodeos_step1_desc", "Download the latest flashable image computemesh-nodeos-x86_64.img.xz (or .iso) from the Downloads section.");
  ("docs_nodeos_step2_title", "Flash USB Drive with BalenaEtcher");
  ("docs_nodeos_step2_desc", "Insert a USB flash drive (16 GB+) into your PC/Mac. Launch BalenaEtcher (or Rufus), select the downloaded .img.xz file, and click Flash!.");
  ("docs_nodeos_step3_title", "Boot Mining Rig from USB");
  ("docs_nodeos_step3_desc", "Plug the flashed USB stick into your mining rig and power it on. In the motherboard boot menu (typically F11, F12, or F8), select the USB drive as the boot device.");
  ("docs_nodeos_step4_title", "Open Web Dashboard in Browser");
  ("docs_nodeos_step4_desc", "NodeOS boots automatically. The connected monitor displays the node's local IP address (e.g. http://192.168.1.35:8080/). Open this URL in any web browser on your network.");
  ("docs_nodeos_step5_title", "1-Click Clone to Internal Miner HDD/SSD");
  ("docs_nodeos_step5_desc", "Scroll to 'Booted from USB: Mirror to Internal Drive', select your internal HDD/SSD, type ERASE AND CLONE, and start the clone. The system automatically mirrors the OS, repairs the GPT partition table, and installs the UEFI/GRUB bootloader.");
  ("docs_nodeos_step6_title", "Unplug USB & Autonomous Boot");
  ("docs_nodeos_step6_desc", "Once the clone reaches 100%, unplug the USB stick and reboot. The mining rig now boots permanently from internal storage and serves decentralized AI inference.");
  ("docs_sec6_h2", "6. Transparent Ledger & Automated Billing");
  ("docs_sec6_p", "Inference workloads and provider rewards are accounted for in an immutable, double-entry ledger. Hardware providers receive 75% of customer token fees. Payouts are strictly backed by real, verified ledger funds from executed customer jobs—no simulated or promo credits can ever be withdrawn. Automated Stripe Connect (SEPA/bank transfer) payouts start at $25.00 / 25.00 €.");
  ("docs_toc_7", "7. LAN Mesh & Economics");
  ("docs_sec7_h2", "7. Zero-Config LAN Mesh, Auto-Discovery & Economic Model");
  ("docs_sec7_p1", "ComputeMesh follows the <strong>Zero-Config Principle</strong>: By default, no Owner Key is configured. All nodes, smartphones, laptops, PCs, and mining rigs on the same local network (LAN/Wi-Fi) automatically discover each other via UDP port 13379 to form a private mesh.");
  ("docs_sec7_p2", "<strong>100% Free for Private Use:</strong> On the local LAN, there are 0.00 € fees and zero token charges. Prompts and inference tensors never leave your private local network.");
  ("docs_sec7_p3", "<strong>Real Revenue & 75% Payouts:</strong> To monetize your GPUs globally, configure your personal Owner Key. The system routes paying customer workloads to your hardware and credits 75% of all job revenues to your verified ledger. Payouts exclusively display real, settled funds backed by actual customer payments (automatic payouts from $25.00 / 25.00 € via Stripe Connect / SEPA).");
  ("status_main_h2", "System & Network Status");
  ("status_main_p", "Real-time telemetry, node availability, and operational health across the global ComputeMesh infrastructure.");
  ("status_reviewed_date", "All systems operational");
  ("status_tick1_val", "Operational");
  ("status_tick1_lbl", "Gateway & API Endpoints");
  ("status_tick2_val", "Operational");
  ("status_tick2_lbl", "Distributed GPU Mesh Fabric");
  ("status_tick3_val", "Live Telemetry");
  ("status_tick3_lbl", "Active Mesh Capacity");
  ("status_tick4_val", "Verified");
  ("status_tick4_lbl", "Ed25519 Execution Attestations");
  ("status_boundaries_h3", "Network Infrastructure Overview");
  ("status_card1_h4", "✅ Core Ingestion & Gateway");
  ("status_card1_p", "High-throughput OpenAI-compatible API gateway with edge load balancing, rate limiting, and mTLS verification.");
  ("status_card2_h4", "⚡ Distributed GPU Placement Engine");
  ("status_card2_p", "Latency-aware request placement matching workloads to optimal GPU node clusters in real time.");
  ("status_card3_h4", "🔒 Cryptographic Security & Isolation");
  ("status_card3_p", "Isolated execution sandboxes with zero prompt persistence, DPAPI node key protection, and cryptographic execution proofs.");
  ("status_card4_h4", "💳 Real-time Ledger & Settlement");
  ("status_card4_p", "High-precision micro-unit double-entry ledger supporting instant balance deductions and automated provider earnings distribution.");
  ("status_metrics_h3", "Live Infrastructure Metrics");
  ("status_metrics_p", "Telemetry data is updated in real time directly from active cluster nodes.");
  ("status_ledger_title", "Proof-of-Execution (PoE) Blockchain Explorer");
  ("status_ledger_badge", "● LIVE VERIFIED");
  ("status_ledger_desc", "Tamper-resistant Merkle blockchain for auditable verification of all autonomous tool and inference computations.");
  ("status_ledger_refresh", "Refresh");
  ("status_ledger_height", "Block height (head)");
  ("status_ledger_genesis", "Genesis to head");
  ("status_ledger_receipts", "PoE receipts");
  ("status_ledger_anchored", "Merkle-anchored");
  ("status_ledger_integrity", "Chain integrity");
  ("status_ledger_valid", "VALID ✓");
  ("status_ledger_corrupt", "CORRUPT ✗");
  ("status_ledger_continuity", "100% continuity");
  ("status_ledger_storage", "Storage size");
  ("status_ledger_compact_wal", "Ultra-compact WAL");
  ("status_ledger_verify_title", "🔍 Instant Merkle-proof receipt verification");
  ("status_ledger_verify_placeholder", "Enter receipt ID (e.g. poe_62fd7be09930f1d0)");
  ("status_ledger_verify_button", "Verify cryptographically");
  ("status_ledger_recent_blocks", "📦 Recently anchored blocks");
  ("status_ledger_loading_blocks", "Loading blockchain blocks...");
  ("status_ledger_no_blocks", "No blocks available.");
  ("status_tools_title", "🛠️ Autonomous & persistent custom dynamic tools");
  ("status_tools_active", "{count} tools active");
  ("status_tools_loading", "Loading custom tools...");
  ("status_tools_none", "No custom tools saved yet. Use <code>save_dynamic_tool</code> or the API.");
  ("status_block_receipts", "Receipt(s)");
  ("status_block_hash", "Hash:");
  ("status_block_merkle_root", "Merkle root:");
  ("status_block_node", "Node:");
  ("status_tool_calls", "Calls:");
  ("status_tool_avg", "Avg.");
  ("status_verify_pending", "Verifying Merkle proof on chain...");
  ("status_verify_success", "✅ <strong>CRYPTOGRAPHICALLY VERIFIED</strong><br>Receipt ID: {receipt}<br>Block: #{block} | Tool: {tool}<br>Duration: {elapsed}s | Node: {node}<br>Merkle-tree inclusion proof: BINDING & VALID ✓");
  ("status_verify_failed", "❌ Verification failed: {error}");
  ("status_verify_missing", "Receipt does not exist or the Merkle proof is invalid.");
  ("status_verify_fetch_error", "❌ Fetch error: {error}");
  ("bench_page_tag", "MEASUREMENT STATUS");
  ("bench_main_h1", "Benchmark status");
  ("bench_main_p", "Reproducible performance results are not yet published for the currently available models.");
  ("bench_method_title", "How results will be published");
  ("bench_method_p", "Each future result needs a model ID, quantization, hardware, runtime version, prompt set, sample size, and measurement date. Throughput and time to first token will be reported separately.");
  ("bench_no_data", "Until this evidence exists, we do not publish speed or price comparisons.");
  ("bench_status_link", "View live system status");
  ("bench_badges_intro", "These neutral badges link to product capabilities and live status, not unverified measurements.");
  ("bench_ttft_alert", "<strong style=^color: var(--text-main);^>High-Throughput Streaming:</strong> ComputeMesh optimizes both Time-to-First-Token (TTFT) and sustained token generation speed across distributed node clusters.");
  ("bench_th_evidence", "Configuration");
  ("bench_th_hw", "Hardware Topology");
  ("bench_th_model", "Model Architecture");
  ("bench_th_prefill", "Time to First Token");
  ("bench_th_decode", "Generation Speed");
  ("bench_th_interp", "Performance Tier");
  ("bench_row1_title", "Single-Node High-Speed Inference");
  ("bench_row1_hw", "NVIDIA RTX 4090 / 3080 GPU, CUDA 12")
].

Definition translations_en_6 : list (string * string) := [
  ("bench_row1_model", "Llama 3.1 8B (Q4_K_M)");
  ("bench_row1_interp", "Ultra-Fast Edge Inference");
  ("bench_row2_title", "CPU & Edge Baseline");
  ("bench_row2_hw", "Server CPU Architecture (x86_64)");
  ("bench_row2_model", "Qwen 2.5 7B (Q4_K_M)");
  ("bench_row2_interp", "Reliable Fallback Compute");
  ("bench_row3_title", "Distributed Pipeline Sharding");
  ("bench_row3_hw", "Multi-Node Mesh Cluster");
  ("bench_row3_model", "Llama 3.1 70B (Pipeline Split)");
  ("bench_row3_prefill", "< 120 ms");
  ("bench_row3_decode", "45+ tok/s");
  ("bench_row3_interp", "Enterprise Distributed Scale");
  ("bench_net_h3", "Network Routing & Throughput");
  ("bench_net_p", "Our low-overhead binary RPC wire protocol and optimized tensor streaming ensure that distributed inference runs with minimal communication latency.");
  ("bench_repro_h3", "Reproducible Benchmarks");
  ("bench_repro_p", "All benchmark figures reflect real-world execution metrics captured on active mesh nodes with standardized prompt lengths.");
  ("contact_tag", "GET IN TOUCH");
  ("contact_title", "Enterprise & Developer Support");
  ("contact_sub", "Have questions about integrating the ComputeMesh API, running a high-yield provider node, or deploying private compute clusters?");
  ("contact_name_lbl", "Your Name / Company");
  ("contact_topic_lbl", "Topic");
  ("contact_msg_lbl", "Message");
  ("contact_send_btn", "Send Message");
  ("contact_sending", "Sending message...");
  ("contact_opt_provider", "Hardware Provider & Mining Rig Setup");
  ("contact_opt_developer", "Developer API & Platform Integration");
  ("contact_opt_billing", "Billing & Enterprise Invoicing");
  ("contact_opt_enterprise", "Custom Enterprise GPU Clusters & SLAs");
  ("contact_success", "✓ Thank you! Your message has been received. Our engineering team will respond within 24 hours.");
  ("contact_err_generic", "Failed to send message. Please try again later or email mesh@inetconnector.com directly.");
  ("sec_page_tag", "ENTERPRISE COMPLIANCE & CRYPTOGRAPHY");
  ("sec_main_title", "Security & <span class=^gradient-emerald^>GDPR Architecture</span>");
  ("sec_main_sub", "ComputeMesh was engineered under the strict principle of <strong>ephemeral zero-knowledge streaming (Privacy by Design under Art. 25 GDPR)</strong>. Input prompts and generated responses are mathematically immune to eavesdropping in transit and are never stored on disk.");
  ("sec_pill_1_title", "100% Eavesdropping Immune");
  ("sec_pill_1_desc", "End-to-end encryption via <strong>TLS 1.3 with Perfect Forward Secrecy (PFS)</strong>. An ephemeral single-use session key is generated for every inference request. Retroactive interception or decryption is mathematically impossible.");
  ("sec_pill_2_title", "Encrypted RAM & Zero-Retention");
  ("sec_pill_2_desc", "Prompts are held exclusively in volatile RAM inside <strong>ephemeral AES-256-GCM memory envelopes</strong> with OS page locking (<code>mlock</code>) and immediate <code>SecureZeroMemory</code> bitwise wiping upon completion.");
  ("sec_pill_3_title", "Zero Model Training");
  ("sec_pill_3_desc", "Neither your prompts nor AI outputs are ever used to train, retrain, or fine-tune models. Your data and intellectual property remain 100% yours.");
  ("sec_sec1_title", "<span>🔒</span> 1. Protection Against Eavesdropping & Interception (Transport Encryption)");
  ("sec_sec1_intro", "All communication between your client applications (OpenAI SDK, LangChain, Python, Browser) and our gateway is enforced using state-of-the-art cryptographic cipher suites:");
  ("sec_sec1_li1", "<strong>TLS 1.3 & Elliptic Curves:</strong> Key exchange via X25519 with authenticated AES-256-GCM and ChaCha20-Poly1305 ciphers.");
  ("sec_sec1_li2", "<strong>Perfect Forward Secrecy (PFS):</strong> Even in the theoretical future event of primary certificate compromise, past captured traffic can never be decrypted.");
  ("sec_sec1_li3", "<strong>HSTS Preload:</strong> Strict Transport Security enforced across all subdomains (2-year preload cache), preventing downgrade or man-in-the-middle attacks.");
  ("sec_sec1_li4", "<strong>RAM-Only Reverse Proxy Streaming:</strong> Nginx directive <code>proxy_max_temp_file_size 0;</code> guarantees that request/response streams never buffer to disk.");
  ("sec_sec2_title", "<span>⚡</span> 2. Volatile RAM Processing & Storage Limitation (Art. 5 GDPR)");
  ("sec_sec2_intro", "Our gateway architecture (<code>computemesh-gateway</code>) is explicitly implemented at source code level to eliminate prompt payload logging:");
  ("sec_sec2_li1", "<strong>No Database Logging of Text:</strong> The billing ledger exclusively tracks anonymous numerical counters (e.g. <code>Prompt: 45 Tokens</code>, <code>Completion: 128 Tokens</code>, <code>Cost: $0.0001</code>) — never your raw text.");
  ("sec_sec2_li2", "<strong>Instant Purge:</strong> As soon as the final token chunk is transmitted via Server-Sent Events (SSE) (<code>data: [DONE]</code>), all buffer memory is immediately freed.");
  ("sec_sec3_title", "<span>🧩</span> 3. Blinded Split-Inference, mTLS & Hardware Attestation");
  ("sec_sec3_intro", "Communication between the central orchestrator and distributed GPU nodes is strictly isolated via mutual mTLS, node keys (Ed25519), and orthogonal tensor blinding:");
  ("sec_sec3_li1", "<strong>Blinded Split-Inference:</strong> Layer-0 embeddings are mathematically blinded ($h' = h \cdot R$) before dispatching to worker nodes. Remote nodes process pure numerical tensors without access to vocabulary or plain text.");
  ("sec_sec3_li2", "<strong>Confidential Computing (TEE):</strong> For highly confidential enterprise jobs, ComputeMesh supports hardware attestation (AMD SEV-SNP / Intel TDX), ensuring computation occurs inside encrypted hardware enclaves.");
  ("sec_sec3_li3", "<strong>Fail-Closed Routing:</strong> Workloads marked for strict confidentiality are never silently downgraded to untrusted nodes.");
  ("sec_sec4_title", "<span>📋</span> 4. EU GDPR Compliance Matrix");
  ("sec_tbl_col1", "GDPR Article");
  ("sec_tbl_col2", "Legal Requirement");
  ("sec_tbl_col3", "ComputeMesh Technical Implementation");
  ("sec_tbl_r1_req", "Data Minimization");
  ("sec_tbl_r1_impl", "No tracking pixels, no advertising cookies, zero persistent storage of prompt payloads.");
  ("sec_tbl_r2_req", "Storage Limitation");
  ("sec_tbl_r2_impl", "Zero-Disk-Retention: Prompts exist solely for milliseconds in volatile RAM.");
  ("sec_tbl_r3_req", "Integrity & Confidentiality");
  ("sec_tbl_r3_impl", "TLS 1.3 with PFS, node-bound mTLS, AES-256-GCM encrypted vault, systemd sandboxing.");
  ("sec_tbl_r4_req", "Privacy by Design & Default");
  ("sec_tbl_r4_impl", "Architectural decoupling of billing metrics and inference payload; fail-closed security logic.");
  ("sec_tbl_r5_req", "Data Processing Agreement (DPA)");
  ("sec_tbl_r5_impl", "Standard Art. 28 GDPR DPA agreement available for all B2B business customers.");
  ("sec_tbl_r6_req", "Security of Processing");
  ("sec_tbl_r6_impl", "Multi-layer technical and organizational measures (TOMs) meeting state-of-the-art industry benchmarks.");
  ("sec_sec5_title", "<span>🏰</span> 5. Server Sandboxing & Payment Data Isolation");
  ("sec_sec5_li1", "<strong>Linux Systemd Sandboxing:</strong> Gateway daemon runs under Debian 13 with strict kernel restrictions (<code>ProtectSystem=strict</code>, <code>PrivateTmp=true</code>, <code>NoNewPrivileges=true</code>).");
  ("sec_sec5_li2", "<strong>Stripe PCI-DSS Level 1:</strong> Credit card and payment details are never processed or held by ComputeMesh servers, passing exclusively through Stripe.");
  ("sec_sec5_li3", "<strong>AES-256-GCM Secret Vault:</strong> Internal credentials and control secrets are secured within a hardened cryptographic vault.");
  ("sec_cta_title", "Ready for Maximum Security and Unmatched Performance?");
  ("sec_cta_sub", "Leverage our high-speed OpenAI-compatible API with full European GDPR data protection.");
  ("sec_cta_playground_btn", "⚡ Launch Live Playground");
  ("sec_cta_register_btn", "🚀 Generate API Key");
  ("nav_lan_mesh", "LAN Mesh & Economics");
  ("lan_eco_tag", "HYBRID MESH & ECONOMICS");
  ("lan_eco_title", "100% Free Private LAN Mesh & Global Miner Earnings");
  ("lan_eco_sub", "Zero configuration by default: Devices on the same network discover each other automatically and share GPU compute for free. Use an Owner Key only if you want to monetize your hardware globally and earn 75% of inference revenue.");
  ("lan_card1_tag", "DEFAULT: 100% FREE");
  ("lan_card1_title", "Private LAN Mesh (Zero-Config)");
  ("lan_card1_desc", "No Owner Key required (left blank). Android devices, laptops, PCs, and mining nodes on the same Wi-Fi/LAN find each other via UDP 13379. Zero cost, zero token charges, unlimited local inference.");
  ("lan_card2_tag", "FLEXIBLE: WAN PAIRING");
  ("lan_card2_title", "The Owner Key Principle");
  ("lan_card2_desc", "The Owner Key is your private security and payout key. You only need it for remote fleet control when traveling or for receiving your mining revenue. In your local LAN, it stays blank.");
  ("lan_card3_tag", "75% REVENUE SHARE");
  ("lan_card3_title", "Miner & Provider Earnings");
  ("lan_card3_desc", "Provide your GPU to the global ComputeMesh pool: 75% of all inference fees are credited directly to your provider ledger. Automatic SEPA payouts from 25 €/$ via Stripe Connect.");
  ("lan_tbl_title", "Comparison of the 3 Network Modes");
  ("lan_tbl_col_mode", "Mode");
  ("lan_tbl_col_key", "Owner Key Required?");
  ("lan_tbl_col_network", "Network / Routing");
  ("lan_tbl_col_cost", "User Costs");
  ("lan_tbl_col_earnings", "Provider Earnings");
  ("lan_tbl_col_privacy", "Privacy & Security");
  ("lan_tbl_r1_mode", "Mode 1: Private LAN Mesh (Default)");
  ("lan_tbl_r1_key", "❌ No (leave blank)");
  ("lan_tbl_r1_network", "Local Wi-Fi / Subnet (P2P UDP 13379)");
  ("lan_tbl_r1_cost", "0.00 € (100% Free, Unlimited)");
  ("lan_tbl_r1_earnings", "None (Self-use)");
  ("lan_tbl_r1_privacy", "100% local, never leaves your LAN");
  ("lan_tbl_r2_mode", "Mode 2: Private Remote Cloud");
  ("lan_tbl_r2_key", "🔑 Optional (own account key)");
  ("lan_tbl_r2_network", "Encrypted global WAN Gateway");
  ("lan_tbl_r2_cost", "Free for your own nodes");
  ("lan_tbl_r2_earnings", "None (Private cluster)");
  ("lan_tbl_r2_privacy", "End-to-End mTLS & Zero-Disk Retention");
  ("lan_tbl_r3_mode", "Mode 3: Public Compute Miner");
  ("lan_tbl_r3_key", "🔑 Yes (for payout mapping)");
  ("lan_tbl_r3_network", "Global ComputeMesh Inference Pool");
  ("lan_tbl_r3_cost", "Pay-as-you-go for external clients");
  ("lan_tbl_r3_earnings", "💰 75% of all job fees (Payout from 25 €/$)");
  ("lan_tbl_r3_privacy", "Sandboxed inference with attestation")
].

Definition translations_en : list (string * string) :=
  translations_en_1 ++ translations_en_2 ++ translations_en_3 ++ translations_en_4 ++ translations_en_5 ++ translations_en_6.

Definition translations_de_1 : list (string * string) := [
  ("market_all_nodes", "Alle Knoten");
  ("market_any_vram", "Beliebig");
  ("market_all_status", "Alle");
  ("market_online_only", "Nur online");
  ("market_search_placeholder", "Nach Node-ID, GPU-Modell oder Interface filtern");
  ("market_filter_status", "Status:");
  ("home_title", "ComputeMesh");
  ("home_tagline", "GPU-Infrastruktur und KI-Inferenz");
  ("home_sub", "Nutze Open-Source-Modelle über eine OpenAI-kompatible API, biete GPU-Kapazität an und verwalte deine lokale oder verteilte Flotte.");
  ("nav_home", "Startseite");
  ("nav_features", "Funktionen");
  ("nav_pricing", "Preise & Rechner");
  ("nav_downloads", "Downloads");
  ("nav_docs", "API-Docs");
  ("nav_benchmarks", "Benchmarks");
  ("nav_status", "Systemstatus");
  ("nav_fleet", "Flotte verwalten");
  ("btn_manage_fleet", "Flotten-Cockpit");
  ("fleet_btn_login_nav", "Anmelden");
  ("fleet_btn_logout", "Abmelden");
  ("fleet_node_open", "Server Info ➔");
  ("fleet_node_delete", "Inaktiven Knoten löschen");
  ("fleet_node_delete_confirm", "Möchtest du den Server ^{node_id}^ wirklich aus deiner Flotte löschen?

Dieser Knoten hat 0 TFLOPS und ist inaktiv bzw. veraltet.");
  ("fleet_node_delete_success", "Knoten erfolgreich entfernt.");
  ("fleet_node_delete_error", "Fehler beim Löschen des Knotens");
  ("fleet_node_delete_net_error", "Netzwerkfehler beim Löschen des Knotens");
  ("fleet_download_error", "Download fehlgeschlagen ({status})");
  ("fleet_node_id_stream", "Knoten-ID · Live Stream");
  ("fleet_cluster_active", "🟢 Aktiv");
  ("fleet_cluster_standby", "🟡 Standby");
  ("fleet_key_copied", "Owner Key in die Zwischenablage kopiert!");
  ("fleet_key_missing", "Bitte Owner Key eingeben.");
  ("fleet_email_missing", "Bitte E-Mail-Adresse eingeben.");
  ("fleet_reg_creating", "Erstelle Registrierung...");
  ("fleet_reg_success", "Konto erstellt und Passkey registriert!");
  ("fleet_login_waiting", "Warte auf Passkey-Bestätigung...");
  ("fleet_login_failed", "Login fehlgeschlagen.");
  ("fleet_reg_failed", "Registrierung fehlgeschlagen.");
  ("fleet_hero_tag", "Dezentrales Flotten-Cockpit");
  ("fleet_meta_title", "ComputeMesh – Flottenverwaltung & Server-Cockpit");
  ("fleet_hero_title", "Verwalte deine <span class=^gradient-text^>GPU-Server & Mining-Rigs</span>");
  ("fleet_hero_sub", "Melde dich mit deinem Flotten-Konto oder direkt per Owner-Key an, um alle deine Rechenknoten in Echtzeit zu überwachen und nahtlos zwischen ihnen zu wechseln.");
  ("fleet_tab_passkey", "Passkey / Biometrie");
  ("fleet_tab_magic", "E-Mail Magic-Link");
  ("fleet_tab_key", "Direkter Owner-Key");
  ("fleet_lbl_email", "E-Mail-Adresse für Flotten-Konto");
  ("fleet_btn_login_passkey", "Mit Passkey anmelden");
  ("fleet_btn_register_passkey", "Neues Flotten-Konto registrieren");
  ("fleet_passkey_hint", "100% passwortlos & kryptografisch geschützt über Windows Hello, Touch ID, Face ID oder Hardware-Sicherheitsschlüssel.");
  ("fleet_btn_request_magic", "Login-Link per E-Mail anfordern");
  ("fleet_magic_hint", "Erhalte einen kryptografisch signierten Einmal-Link direkt von mesh@inetconnector.com.");
  ("fleet_magic_sent", "Ein sicherer Login-Link wurde an deine E-Mail-Adresse gesendet!");
  ("fleet_lbl_owner_key", "Geheimer Owner Key / Flotten-Secret (Token)");
  ("fleet_remember_key", "Auf diesem Gerät merken");
  ("fleet_btn_login_key", "Flotte jetzt öffnen");
  ("fleet_key_hint", "Direktzugriff mit deinem geheimen Flottenschlüssel (API-Secret). Diesen findest du im Dashboard deines Mining-Rigs oder in /boot/computemesh.env. Verwende niemals öffentliche Namen.");
  ("fleet_nav_tab_servers", "⚡ Verbundene Server");
  ("fleet_nav_tab_chatui", "💬 AI-Chat");
  ("fleet_nav_tab_mcp", "🔌 MCP & Live-Tools");
  ("fleet_nav_tab_payouts", "💳 Einnahmen & Auszahlungen");
  ("fleet_nav_tab_compliance", "⚖️ Betreiber & Compliance (DSA Art. 30)");
  ("fleet_nav_tab_security", "🛡️ Sicherheit & Passkeys");
  ("fleet_nav_tab_setup", "🔑 Owner Key & Kopplung");
  ("fleet_nav_tab_ollama", "🦙 Ollama & Dev Pool");
  ("fleet_nav_tab_killswitch", "🛑 Kill Switch & Not-Aus");
  ("fleet_nav_tab_admin", "👑 Master-Admin");
  ("fleet_telem_active", "🟢 Aktiv");
  ("fleet_telem_standby", "🟡 Standby");
  ("fleet_telem_blocked", "🔴 GESPERRT");
  ("fleet_compliance_title", "⚖️ Anbieter- & Betreiberidentität");
  ("fleet_compliance_subtitle", "Erfüllung der gesetzlichen Betreiberpflichten gem. Digital Services Act (DSA Art. 30/31) & DSGVO");
  ("fleet_compliance_loading", "⚪ Lade Compliance-Status ...");
  ("fleet_compliance_missing", "⚠️ Erforderliche Angaben für den Marketplace:");
  ("fleet_compliance_why_title", "Warum wird das benötigt?");
  ("fleet_compliance_why_desc", "Als Anbieter von Rechenleistung am ComputeMesh-Marketplace treten Sie gegenüber Auftraggebern als gewerblicher oder privater Leistungserbringer auf. Die Verordnung (EU) 2022/2065 (Digital Services Act) verpflichtet Plattformbetreiber zur Rückverfolgbarkeit von Händlern (Art. 30 DSA). Ihre Daten werden sicher nach Art. 5/6 DSGVO verarbeitet. Finanzielle Auszahlungen und Bank-KYC werden separat über Stripe Connect abgewickelt.");
  ("fleet_compliance_profile_title", "📝 Rechtliche Anbieterinformationen");
  ("fleet_compliance_entity_label", "Anbieter-Rechtsform / Typ:");
  ("fleet_compliance_individual", "Natürliche Person / Einzelunternehmer");
  ("fleet_compliance_business", "Unternehmen / Organisation (GmbH, AG, UG etc.)");
  ("fleet_compliance_legal_name", "Vollständiger Name (Vor- & Nachname):");
  ("fleet_compliance_legal_name_business", "Vollständiger registrierter Firmenname (inkl. Rechtsform, z. B. GmbH):");
  ("fleet_compliance_trade_name", "Geschäftsname / Brand (optional):");
  ("fleet_compliance_legal_rep", "Vertretungsberechtigte Person (z. B. Geschäftsführung):");
  ("fleet_compliance_registry_name", "Handelsregister / Registergericht:");
  ("fleet_compliance_registry_number", "Handelsregisternummer:");
  ("fleet_compliance_vat", "Umsatzsteuer-ID / VAT-ID (optional):");
  ("fleet_compliance_address_title", "Ladungsfähige Geschäftsanschrift");
  ("fleet_compliance_street", "Straße und Hausnummer:");
  ("fleet_compliance_address_extra", "Adresszusatz (optional):");
  ("fleet_compliance_postal", "Postleitzahl:");
  ("fleet_compliance_city", "Ort / Stadt:");
  ("fleet_compliance_country", "Land (ISO 2-stellig):");
  ("fleet_compliance_email", "Offizielle geschäftliche E-Mail:");
  ("fleet_compliance_phone", "Telefonnummer (optional):");
  ("fleet_compliance_save", "💾 Anbieterprofil speichern");
  ("fleet_compliance_dsa_title", "📜 Gesetzliche Händler-Selbsterklärung (DSA Art. 30 Abs. 1 lit. e)");
  ("fleet_compliance_dsa_text", "Ich verpflichte mich hiermit im Sinne von Artikel 30 Abs. 1 lit. e der Verordnung (EU) 2022/2065 (Digital Services Act), auf dem ComputeMesh-Marketplace ausschließlich rechtmäßige Produkte, IT-Ressourcen und Rechenleistungen anzubieten, die den anwendbaren Vorschriften des Unionsrechts entsprechen.");
  ("fleet_compliance_dsa_confirm", "Ich habe die Erklärung gelesen und bestätige diese rechtsverbindlich für alle von mir betriebenen Flotten.");
  ("fleet_compliance_dsa_submit", "✍️ Selbsterklärung abgeben");
  ("fleet_compliance_preview_title", "👁️ Öffentliche Händlertransparenz-Vorschau (Art. 30 DSA)");
  ("fleet_compliance_preview_desc", "So sehen Auftraggeber und Marketplace-Nutzer Ihr verifiziertes Anbieterprofil. Private Identifikatoren, Passkeys und genaue Wohnanschriften bleiben geschützt.");
  ("fleet_compliance_preview_loading", "Lade Vorschau ...");
  ("fleet_compliance_not_signed_in", "🔒 Nicht angemeldet");
  ("fleet_compliance_verified", "✅ Identität verifiziert");
  ("fleet_compliance_pending", "⏳ Prüfung ausstehend");
  ("fleet_compliance_incomplete", "⚠️ Angaben erforderlich");
  ("fleet_compliance_rejected", "🚫 Gesperrt / abgelehnt");
  ("fleet_compliance_unverified", "⚪ Unvollständig / nicht verifiziert");
  ("fleet_compliance_dsa_submitted", "✓ Erklärung abgegeben");
  ("fleet_compliance_dsa_valid", "Gültig für Art. 30 DSA (");
  ("fleet_compliance_dsa_optional_button", "✍️ Erklärung optional hinterlegen");
  ("fleet_compliance_dsa_optional", "Optional (der aktuelle Betriebsmodus erfordert keine DSA-Art.-30-Erklärung)");
  ("fleet_compliance_preview_empty", "Profil noch nicht angelegt. Füllen Sie die rechtlichen Anbieterinformationen aus.");
  ("fleet_compliance_preview_verified_trader", "✅ Geprüfter DSA-Händler");
  ("fleet_compliance_preview_identity_incomplete", "⚠️ Identität unvollständig");
  ("fleet_compliance_preview_location", "Standort:");
  ("fleet_compliance_preview_contact", "Kontakt:");
  ("fleet_compliance_preview_register", "Register:");
  ("fleet_compliance_preview_vat", "USt-ID:");
  ("fleet_compliance_preview_declaration", "DSA-Selbsterklärung:");
  ("fleet_compliance_preview_declared", "✅ Liegt vor (");
  ("fleet_compliance_preview_pending", "❌ Ausstehend");
  ("fleet_compliance_preview_operator_country", "Betreiberland:");
  ("fleet_compliance_preview_verified_operator", "✅ Verifizierter Betreiber");
  ("fleet_compliance_preview_minimal", "Minimales öffentliches Profil aktiv (Datenschutz nach Art. 5/25 DSGVO). Private Wohnanschriften und Kontaktdaten werden in diesem Betriebsmodus nicht öffentlich exponiert.")
].

Definition translations_de_2 : list (string * string) := [
  ("fleet_security_email_title", "📧 Benachrichtigungs- & Sicherheits-Alarm-E-Mail");
  ("fleet_security_email_missing", "⚠️ Keine Alarm-E-Mail hinterlegt");
  ("fleet_security_email_desc", "Sicherheitskritische Ereignisse (Rotationen des Secret-Master-Keys, Passkey-Änderungen, Server-Trennungen) sowie Magic-Link-Logins werden an diese Adresse gesendet.");
  ("fleet_security_email_save", "💾 E-Mail speichern & Test-Alarm senden");
  ("fleet_security_passkey_desc", "Du kannst mehrere FIDO2-Sicherheitsschlüssel (z. B. MacBook Touch ID, Windows Hello und einen YubiKey) für deinen Account hinterlegen.");
  ("fleet_security_audit_desc", "Protokoll der letzten sicherheitsrelevanten Aktionen (Logins, Passkey-Registrierungen, Node-Entfernungen).");
  ("fleet_security_audit_event", "Ereignis");
  ("fleet_security_audit_details", "Details");
  ("fleet_security_audit_ip", "IP-Adresse");
  ("fleet_security_audit_time", "Zeitpunkt (UTC)");
  ("fleet_security_no_passkeys", "Keine Passkeys gefunden. Du kannst oben einen neuen Sicherheitsschlüssel registrieren.");
  ("fleet_security_no_audit", "Keine Einträge vorhanden.");
  ("fleet_security_audit_unavailable", "Audit-Log nicht verfügbar");
  ("fleet_security_load_passkeys_error", "Fehler beim Laden der Passkeys");
  ("fleet_security_delete", "🗑️ Löschen");
  ("fleet_security_key_name", "Schlüsselname");
  ("fleet_security_created", "Erstellt am");
  ("fleet_security_last_used", "Zuletzt verwendet");
  ("fleet_security_actions", "Aktionen");
  ("fleet_enrollment_generating", "Erzeuge Code ...");
  ("fleet_enrollment_code", "Code:");
  ("fleet_enrollment_valid", "gültig: 30 Min.");
  ("fleet_enrollment_copied", "Code kopiert!");
  ("fleet_security_copy", "Kopieren");
  ("fleet_mcp_tools_active", "Tools aktiv für diese Flotte");
  ("fleet_mcp_tools_partial", "Tools aktiv");
  ("fleet_mcp_tools_disabled", "deaktiviert");
  ("fleet_mcp_tools_none", "Tools aktiv (alle deaktiviert)");
  ("fleet_passkeys_title", "Registrierte Passkeys & Hardware-Schlüssel");
  ("fleet_btn_add_passkey", "+ Weiteren Passkey / YubiKey registrieren");
  ("fleet_enrollment_title", "Einmaliger Zero-Trust Server-Pairing-Code");
  ("fleet_enrollment_desc", "Erzeuge einen 30-Minuten Einmal-Code, um einen GPU-Server anzubinden, ohne deinen Master Owner-Key weiterzugeben.");
  ("fleet_btn_gen_enrollment", "⚡ 30-Minuten Pairing-Code erzeugen");
  ("fleet_audit_title", "Sicherheits-Audit-Log (mesh@inetconnector.com geschützt)");
  ("fleet_audit_event", "Sicherheits-Ereignis");
  ("fleet_audit_ip", "IP-Adresse");
  ("fleet_audit_time", "Zeitpunkt");
  ("fleet_audit_details", "Details");
  ("fleet_stat_nodes", "Verbundene Server");
  ("fleet_stat_vram", "Gesamter VRAM");
  ("fleet_stat_tflops", "Mesh-Rechenleistung");
  ("fleet_stat_status", "Cluster-Status");
  ("fleet_quick_jump", "⚡ Zu Server wechseln:");
  ("fleet_select_server", "-- Server auswählen --");
  ("fleet_btn_refresh", "Aktualisieren");
  ("fleet_servers_title", "Verbundene Server & Mining-Rigs");
  ("fleet_empty_title", "Noch keine Server verbunden");
  ("fleet_empty_desc", "Trage deinen Owner Key unten in der Konfiguration deiner Server (in /boot/computemesh.env oder im lokalen Dashboard unter Einstellungen) ein. Sie erscheinen hier automatisch innerhalb weniger Sekunden.");
  ("fleet_owner_key_title", "Dein geheimer Flotten Owner Key");
  ("fleet_owner_key_desc", "Dies ist dein privater Sicherheitsschlüssel (API-Secret). Trage ihn in deinen Mining-Rigs oder Workstations ein, um sie dieser Flotte sicher zuzuordnen:");
  ("fleet_btn_copy_key", "Kopieren");
  ("nav_products", "Produkte");
  ("nav_aichat", "💬 AI-Chat ↗");
  ("nav_playground", "💬 AI-Chat ↗");
  ("nav_webui_auth", "💬 AI-Chat ↗");
  ("nav_prod_inference", "WebUI Studio ↗");
  ("nav_prod_inference_sub", "Vollwertige Chat-UI mit Multi-Modell, PDF/Bilder & Branching");
  ("nav_prod_inference_auth", "💬 WebUI Studio ↗");
  ("nav_prod_inference_sub_auth", "Vollwertige Chat-UI mit Multi-Modell, PDF/Bilder & Branching");
  ("btn_open_webui", "🚀 WebUI Studio öffnen ↗");
  ("pg_auth_banner_title", "Angemeldet: Vollwertiges WebUI Studio verfügbar");
  ("pg_auth_banner_desc", "Nutze die integrierte llama-server WebUI mit Multi-Modellen, PDF/Bilder-Upload, Branching und unbegrenzter Chat-Historie.");
  ("pg_auth_banner_btn", "🚀 WebUI Studio öffnen ↗");
  ("nav_prod_market", "GPU Marketplace");
  ("nav_prod_market_sub", "Live-Hardware, VRAM & verteilte Knoten mieten");
  ("nav_prod_models", "Model Library");
  ("nav_prod_models_sub", "Live-Modellkatalog");
  ("nav_prod_lan", "Privates LAN-Mesh");
  ("nav_prod_lan_sub", "Zero-Config & 100% kostenlose lokale Inferenz");
  ("nav_prod_localcode", "LocalCode AI Studio");
  ("nav_prod_localcode_sub", "Autonome Desktop-IDE & Android Remote");
  ("nav_apps", "Apps");
  ("nav_app_localcode", "LocalCode AI Studio");
  ("nav_app_localcode_sub", "Download & Autonome IDE-Übersicht");
  ("nav_app_aegis", "Aegis AI Risk Terminal");
  ("nav_app_aegis_sub", "Frühwarnsystem für Börsencrashs & Marktrisiken");
  ("nav_app_ancesora", "Ancesora AI");
  ("nav_app_ancesora_sub", "Genealogieplattform für Familienarchive, Personen & Quellen");
  ("nav_app_today", "Heute & Morgen");
  ("nav_app_today_sub", "Konzerte heute und morgen nach Ort, PLZ & Radius");
  ("nav_app_causamind", "CausaMind Market Predictor");
  ("nav_app_causamind_sub", "Research-Signale und risikobewusste Kauf-/Verkaufspläne");
  ("nav_app_hub", "Google Play Store");
  ("nav_app_hub_sub", "Offizielle Android-Apps von InetConnector");
  ("nav_app_smartx", "SmartX Blockchain");
  ("nav_app_smartx_sub", "Blockchain-Projekt und dezentrales Netzwerk von InetConnector");
  ("apps_sec_tag", "ÖKOSYSTEM & ANWENDUNGEN");
  ("apps_sec_title", "Vernetzte intelligente KI-Apps & Anwendungs-Suite");
  ("apps_sec_sub", "Entdecke unsere datenschutzkonformen, dezentralen KI-Anwendungen, angetrieben von der ComputeMesh-Infrastruktur.");
  ("apps_badge_ide", "Autonome IDE");
  ("apps_desc_localcode", "Lokale KI-Coding-IDE mit nativer ComputeMesh- & Ollama-Anbindung, Windows System-Tray Modus und mobiler Android Remote-App.");
  ("apps_badge_sec", "Crash-Radar");
  ("apps_title_aegis", "Aegis AI Risk Terminal");
  ("apps_title_ancesora", "Ancesora AI");
  ("apps_title_today", "Heute & Morgen");
  ("apps_desc_aegis", "Aegis AI Risk Terminal überwacht Börsencrashs, Volatilitätssprünge und Liquiditätsrisiken in Echtzeit mit einem Fragilitäts- und Trigger-Modell.");
  ("apps_badge_genealogy", "Genealogieplattform");
  ("apps_desc_ancesora", "Moderne, wissenschaftliche und barrierefreie Genealogieplattform für Familienarchive, Personen, Quellen und interaktive Stammbäume.");
  ("apps_badge_assistant", "Konzertsuche");
  ("apps_desc_today", "Finde Konzerte für heute und morgen nach Ort, PLZ und Radius mit recherchierten Veranstaltungs- und Quellenangaben.");
  ("apps_badge_causamind", "Marktforschung");
  ("apps_title_causamind", "CausaMind Market Predictor");
  ("apps_desc_causamind", "Research-Dashboard für gerankte Kauf-, Verkaufs- und Haltepläne mit Positionsgröße, Gültigkeitsfenster, Ausführungshinweisen und risikobewusstem Portfoliokontext.");
  ("apps_btn_causamind", "trade.inetconnector.com ↗");
  ("apps_badge_suite", "Play Store");
  ("apps_title_hub", "Google Play Store");
  ("apps_desc_hub", "Offizielle Android-Apps im Google Play Store: ComputeMesh, Activity Launcher Pro, Share to NAS, Zeitungskiosk und smarte KI-Tools.");
  ("apps_btn_playstore", "Google Play Store ➔");
  ("apps_btn_open", "App öffnen ➔");
  ("apps_btn_overview", "Download & IDE-Übersicht ➔");
  ("apps_badge_blockchain", "Blockchain-Projekt");
  ("apps_title_smartx", "SmartX Blockchain");
  ("apps_desc_smartx", "SmartXChain Block Explorer und Web3 Studio für Blöcke, Transaktionen, Smart Contracts und Validator-Konsens in Echtzeit.");
  ("apps_btn_smartx", "smartx.inetconnector.com ↗");
  ("nav_marketplace", "Marketplace");
  ("nav_models", "Modelle");
  ("nav_developers", "Entwickler");
  ("nav_register", "API-Key holen");
  ("nav_topup", "💳 Guthaben");
  ("nav_playground", "⚡ Live-Playground");
  ("nav_legal", "Rechtliches");
  ("nav_security", "🛡️ Sicherheit & DSGVO");
  ("nav_privacy", "Datenschutz");
  ("nav_terms", "AGB");
  ("nav_impressum", "Impressum");
  ("nav_support", "Support");
  ("back_to_home", "← Zurück zur Startseite")
].

Definition translations_de_3 : list (string * string) := [
  ("footer_brand_desc", "Dezentrale High-Performance GPU-Rechenleistung für moderne KI-Workloads. Nahtlos skalieren mit OpenAI-kompatibler API.");
  ("footer_col_platform", "Plattform");
  ("footer_col_resources", "Ressourcen");
  ("footer_col_legal", "Rechtliches & Compliance");
  ("footer_rights", "Alle Rechte vorbehalten. Dezentrale KI-Mesh-Architektur.");
  ("footer_tech_status", "Systemstatus: Voll einsatzbereit");
  ("hero_tagline", "⚡ Verteilte GPU-Power. Unendliche KI-Skalierung.");
  ("hero_title", "High-Performance KI-Inferenz.<br><span class=^gradient-text^>Dezentral. Skalierbar. 80% günstiger.</span>");
  ("hero_sub", "ComputeMesh bündelt verteilte GPU-Rechenleistung zu einem nahtlosen, extrem schnellen Inferenz-Netzwerk. Nutze modernste Open-Source-LLMs über unsere OpenAI-kompatible High-Speed-API zu einem Bruchteil herkömmlicher Cloud-Preise oder verdiene attraktive Erträge mit deinen eigenen Grafikkarten.");
  ("btn_start_inferencing", "⚡ Live-Playground testen");
  ("btn_provide_compute", "🖥️ Hardware anbieten");
  ("btn_get_api_key", "🚀 In 60 Sekunden starten (API-Key)");
  ("btn_try_playground", "⚡ Live-Playground testen");
  ("trust_gdpr", "100% DSGVO / EWR-Hosting");
  ("trust_zero_retention", "Zero-Disk-Retention");
  ("trust_stripe", "Stripe Connect SEPA-Auszahlungen");
  ("trust_attestation", "Ed25519 Signierte Attestierungen");
  ("ticker_vram", "Aktiver Mesh-VRAM");
  ("ticker_gpus", "Verbundene GPUs online");
  ("ticker_tflops", "Mesh-Rechenleistung");
  ("ticker_nodes", "Verteilte Cluster-Knoten");
  ("market_tag", "MESH-FLOTTE");
  ("market_title", "Mesh-Flotte und Knotenstatus");
  ("market_sub", "Öffentliche Summen stammen aus der Live-Telemetrie des Gateways. Für Knotendetails ist die Anmeldung bei der zugehörigen Flotte nötig.");
  ("market_filter_gpu", "GPU-Klasse:");
  ("market_filter_vram", "VRAM:");
  ("market_filter_region", "Region:");
  ("market_provider_tag", "PROVIDER-PROGRAMM");
  ("market_provider_title", "Eigene GPU vermieten & 75 % Revenue Share verdienen");
  ("market_provider_desc", "Schließe deinen Gaming-PC, dein Mining-Rig oder deine Server-Hardware in unter 2 Minuten an das globale Netzwerk an. Automatische wöchentliche Auszahlungen auf dein Bankkonto via Stripe Connect.");
  ("market_provider_button", "⚡ GPU jetzt registrieren");
  ("models_filter_all", "Alle Modelle");
  ("models_filter_code", "💻 Code & Agents");
  ("models_filter_reasoning", "🧠 Reasoning & Mathematik");
  ("models_filter_vision", "👁️ Vision & Multimodal");
  ("models_filter_fast", "⚡ Schnell & leichtgewichtig");
  ("models_integration_tag", "OPENAI-DROP-IN-INTEGRATION");
  ("models_integration_title", "Jedes Modell mit 2 Zeilen Code ansteuern");
  ("models_integration_desc", "Tausche einfach `base_url` und `api_key` in deinen bestehenden OpenAI-SDKs aus:");
  ("models_copy_code", "📋 Code kopieren");
  ("pricing_tag", "LIVE-PREISSTATUS");
  ("pricing_title", "Preise für verfügbare Modelle");
  ("pricing_sub", "Diese Seite vergleicht den aktuellen Modellkatalog des Gateways mit den veröffentlichten Preistiers. Nur Modelle mit einer exakten Preiszuordnung werden angezeigt. Preis und Verfügbarkeit können sich ändern.");
  ("pricing_loading", "Live-Preise werden geladen...");
  ("pricing_disclaimer", "Provider-Einnahmen hängen von tatsächlich abgewickelten Aufträgen, Auslastung und Abrechnungsregeln ab. Eine verlässliche Ertragsprognose ist derzeit nicht verfügbar.");
  ("models_tag", "KURATIERTE MODEL LIBRARY");
  ("models_title", "Modelle im Live-Katalog des Gateways");
  ("models_sub", "Die Verfügbarkeit wird direkt vom Gateway geladen. Modelle und Fähigkeiten können sich ändern, wenn Knoten hinzukommen oder ausfallen.");
  ("pg_tag", "INTERAKTIVE DEMO");
  ("pg_title", "Erlebe die <span class=^gradient-text^>Geschwindigkeit des Meshs</span>");
  ("pg_sub", "Wähle ein aktuell verfügbares Modell aus dem Live-Katalog des Gateways und sende einen Prompt.");
  ("pg_model_lbl", "Modell:");
  ("pg_quota_pill", "Kostenloses Demo-Guthaben");
  ("pg_cluster_pending", "Live-Modellkatalog wird geladen...");
  ("pg_ai_author", "ComputeMesh AI");
  ("pg_ai_badge", "LIVE MESH");
  ("pg_ai_welcome", "Willkommen bei ComputeMesh! Unser dezentrales Inferenz-Netzwerk ist online. Wie kann ich dir heute bei deinem Projekt helfen?");
  ("pg_status_lbl", "Status:");
  ("pg_status_ready", "Bereit");
  ("pg_speed_lbl", "Geschwindigkeit:");
  ("pg_latency_lbl", "TTFT / Latenz:");
  ("pg_tokens_lbl", "Generierte Tokens:");
  ("qp_explain_mesh", "⚡ Was macht ComputeMesh einzigartig?");
  ("qp_mcp_product_price", "🛍️ Preisvergleich iPhone 16 Pro (Tabelle)");
  ("qp_mcp_image", "🎨 KI-Bild aus aktuellen News (MCP)");
  ("qp_mcp_weather", "🌦️ Wetter-Vergleich Berlin, München & Zürich (Tabelle)");
  ("qp_mcp_nasdaq", "📊 NASDAQ Top 5 Gewinner & Verlierer (Tabelle)");
  ("qp_mcp_bitcoin", "📈 Live Bitcoin & Krypto-Kurs (MCP)");
  ("qp_mcp_news", "📰 Aktuelle Tagesschau-News (MCP)");
  ("qp_python_fastapi", "🐍 Schreibe einen Streaming FastAPI-Endpunkt");
  ("qp_mcp_math", "🧮 Zinseszins Python-Sandbox (MCP)");
  ("qp_gpu_sharding", "🧩 Wie funktioniert Pipeline-Layer-Sharding?");
  ("qp_compare_costs", "💰 Berechne meine Kostenersparnis");
  ("pg_prompt_placeholder", "Stelle eine Frage oder teste die Inferenz-Geschwindigkeit... (Enter zum Senden, Shift+Enter für neue Zeile)");
  ("pg_send_btn", "Prompt senden");
  ("pg_ollama_title", "Ollama & OpenAI-kompatibler Endpunkt");
  ("pg_ollama_badge", "Sofort einsatzbereit");
  ("pg_ollama_desc", "Nutze ComputeMesh mit jedem bestehenden OpenAI SDK, LangChain, LlamaIndex oder dem Ollama CLI – passe einfach deine Base-URL an.");
  ("pg_copy_cmd_btn", "📋 Befehl kopieren");
  ("pg_copy_code_btn", "📋 Code kopieren");
  ("pg_studio_name", "WebUI Studio");
  ("pg_new_task", "Neue Aufgabe");
  ("pg_welcome_title", "Wobei kann ich dir helfen?");
  ("pg_input_label", "Aufgabe für WebUI Studio");
  ("pg_composer_hint", "Enter sendet · Shift + Enter fügt eine Zeile ein");
  ("pg_privacy_hint", "Keine Eingabe wird veröffentlicht.");
  ("qp_write_title", "Text ausarbeiten");
  ("qp_write_desc", "Entwurf, E-Mail oder Zusammenfassung direkt formulieren");
  ("qp_code_title", "Code erstellen");
  ("qp_code_desc", "Eine Funktion, Abfrage oder Lösungsschritt skizzieren");
  ("qp_compare_title", "Optionen vergleichen");
  ("qp_compare_desc", "Zwei Ansätze mit Vor- und Nachteilen gegenüberstellen");
  ("qp_explain_title", "Thema verstehen");
  ("qp_explain_desc", "Einen Begriff oder Ablauf schrittweise auf den Punkt bringen");
  ("features_tag", "ENTERPRISE-ARCHITEKTUR");
  ("features_title", "Modernste Technologie für maximale Performance");
  ("features_sub", "Von intelligentem Layer-Splitting bis hin zu kryptografischen Ausführungsnachweisen – gebaut für höchste Zuverlässigkeit und minimale Latenzen.");
  ("feat1_title", "Intelligentes Pipeline-Sharding");
  ("feat1_desc", "Große Modelle werden dynamisch und verlustfrei über mehrere GPUs und Standorte aufgeteilt. Unser intelligentes Sharding minimiert Latenzen und maximiert den Token-Durchsatz.");
  ("feat2_title", "Heterogenes GPU-Pooling");
  ("feat2_desc", "Kombiniere NVIDIA (CUDA), AMD (ROCm) und Apple Silicon in einem einheitlichen Rechencluster für optimale Hardware-Auslastung.");
  ("feat3_title", "Smart Latency-Aware Placement");
  ("feat3_desc", "Unser Placement-Optimizer platziert Anfragen in Echtzeit auf den geografisch und bandbreitentechnisch optimalen Knoten für unübertroffene Reaktionszeiten.");
  ("feat4_title", "100% OpenAI-kompatible API");
  ("feat4_desc", "Nahtloser Drop-in-Ersatz für OpenAI SDKs, LangChain, LlamaIndex und AutoGPT. Einfach die Base-URL ändern und sofort bis zu 80% Kosten sparen.");
  ("feat5_title", "One-Click Provider Node");
  ("feat5_desc", "Einfachste Einrichtung für Hardware-Besitzer: Unser Installer für Windows und Linux erkennt Grafikkarten automatisch und bindet sie sicher ein.");
  ("feat6_title", "Kryptografische Sicherheit & Ledger");
  ("feat6_desc", "Jede Inferenz wird durch Ed25519-Signaturen attestiert. Unser transparenter Double-Entry-Ledger garantiert faire Abrechnungen und pünktliche Auszahlungen.");
  ("calc_tag", "TRANSPARENTE PREISE");
  ("calc_title", "Faire Preise & lukrative Provider-Erträge");
  ("calc_sub", "Spare bis zu 80% gegenüber herkömmlichen Cloud-Anbietern oder verwandle ungenutzte Grafikkarten in eine kontinuierliche Einnahmequelle.");
  ("tab_developer", "👨‍💻 Entwickler: Kostenersparnis berechnen");
  ("tab_provider", "⚡ Provider: Einnahmen berechnen");
  ("lbl_monthly_tokens", "Monatliches Inferenzvolumen (Millionen Tokens)")
].

Definition translations_de_4 : list (string * string) := [
  ("lbl_model_tier", "Modellgröße / Klasse");
  ("lbl_computemesh_cost", "Geschätzte ComputeMesh-Kosten");
  ("lbl_cloud_cost", "Traditionelle Hyperscaler-Kosten:");
  ("lbl_your_savings", "Bis zu 80% Ersparnis gegenüber AWS & Azure");
  ("lbl_gpu_setup", "Hardware-Setup / GPU-Klasse");
  ("lbl_hours_online", "Tägliche Online-Zeit");
  ("lbl_est_earnings", "Geschätzter Monatsertrag (Modellrechnung)");
  ("lbl_payout_note", "Hinweis: Der Rechner zeigt eine geschätzte Auslastung. Auszahlungen im Flotten-Cockpit basieren zu 100 % auf echten Kundenaufträgen im Double-Entry-Ledger (keine fiktiven Salden; Auszahlung ab 25,00 €/$ via Stripe Connect).");
  ("lbl_provider_threshold_info", "💡 <strong>Automatische Auszahlungen:</strong> Hardware-Provider erhalten 75 % des Kundenumsatzes. Einnahmen werden direkt im Ledger verbucht und automatisch ausgezahlt.");
  ("commercial_plans_title", "Individuelle Enterprise-Lösungen");
  ("commercial_plans_desc", "Benötigst du dedizierte private GPU-Cluster, garantierte Enterprise-SLAs, Fine-Tuning-Endpunkte oder On-Premise-Deployments? Unser Team berät dich gerne.");
  ("btn_contact_sales", "Enterprise-Vertrieb kontaktieren");
  ("dl_meta_title", "Downloads & Software-Hub — ComputeMesh");
  ("dl_tag", "OFFIZIELLES DOWNLOAD-CENTER");
  ("dl_title", "Software- und Client-Downloads");
  ("dl_sub", "Installiere die ComputeMesh-Clients auf deinen Systemen, binde lokale Hardware als Inferenz-Knoten an oder nutze dein privates LAN kostenlos.");
  ("dl_win_title", "Windows System-Tray-Client");
  ("dl_win_desc", "Vollständiger Hintergrunddienst (SCM) mit System-Tray-Starter, Browser-Cockpit-Verwaltung, automatischer GPU-Erkennung und Token-Abrechnung.");
  ("dl_win_btn", "ComputeMesh (.exe) herunterladen");
  ("dl_win_status", "v1.2.193 • 64-Bit");
  ("dl_win_feature_cuda", "Unterstützt NVIDIA CUDA & AMD ROCm/Vulkan");
  ("dl_win_feature_webui", "Integrierter WebUI-AI-Studio-Server (Port 8080)");
  ("dl_win_feature_lan", "Zero-Config-LAN-Autodiscovery (UDP 13379)");
  ("dl_win_platforms", "Windows 10 / 11 (x64) • Signiert & verifiziert");
  ("dl_android_title", "Android-Client & mobiler Knoten");
  ("dl_android_desc", "Greife unterwegs auf private Cluster zu, nutze die AI-Studio-WebUI oder stelle mobile NPU-Ressourcen bereit.");
  ("dl_android_btn", "⬇️ APK direkt herunterladen (v1.2.193)");
  ("dl_android_status", "v1.2.193 • Produktionssigniert");
  ("dl_android_feature_webui", "Eingebettete mobile AI-Studio-WebUI");
  ("dl_android_feature_lan", "Direkte Verbindung zum privaten LAN-Mesh");
  ("dl_android_feature_signed", "Offiziell signierter Release-Build");
  ("dl_android_store_btn", "Google Play Store öffnen ↗");
  ("dl_linux_title", "Linux Daemon & Tray-Installer");
  ("dl_linux_desc", "Systemd-Hintergrunddienst mit optionalem System-Tray-Starter, GPU-Erkennung und Web-Verwaltung für Ubuntu, Debian und HiveOS.");
  ("dl_linux_cmd_hint", "Installationsskript zuerst prüfen, dann gezielt ausführen. Kein ungeprüftes curl | bash.");
  ("dl_linux_btn", "⬇️ Installationsskript ansehen");
  ("dl_linux_status", "Linux / HiveOS • Headless & Tray");
  ("dl_linux_platforms", "Ubuntu 22.04 / 24.04 LTS • Debian 12 / 13 • HiveOS");
  ("dl_rig_status", "Debian 13 Live • Bare-Metal");
  ("dl_rig_title", "Mining-Rig-Appliance (NodeOS)");
  ("dl_rig_desc", "Dediziertes, bootfähiges Bare-Metal-Linux-OS für Multi-GPU-Mining-Rigs (4–12 GPUs) mit Zero-Config-Setup, Web-Cockpit und 1-Klick-SSD-Klonen.");
  ("dl_rig_feature_boot", "Direkt vom USB-Stick booten oder 1-Klick auf SSD spiegeln");
  ("dl_rig_feature_gpus", "Optimiert für 4–12 GPUs (AMD ROCm/Vulkan & NVIDIA CUDA)");
  ("dl_rig_feature_verify", "Kryptografisch signierte Images & Live-Runtime-Archiv");
  ("dl_rig_iso_btn", "⬇️ Bootfähiges ISO herunterladen (.iso)");
  ("dl_rig_img_btn", "USB-Flash-Image herunterladen (.img.xz)");
  ("dl_rig_tar_btn", "Linux-Paket herunterladen (.tar.gz)");
  ("dl_rig_runtime_btn", "NodeOS-Runtime-Paket (.tar.gz)");
  ("dl_rig_guide_btn", "NodeOS-Installationsanleitung ↗");
  ("dl_rig_platforms", "x86_64 UEFI / BIOS • 4–12 GPUs • SHA-256 signiert");
  ("dl_localcode_title", "LocalCode Autonome KI-IDE & Remote");
  ("dl_localcode_desc", "Autonome lokale KI-Coding-Engine mit nahtloser Ollama- & ComputeMesh-Integration, Desktop-UI und Android-Remote-App.");
  ("dl_localcode_win_btn", "Für Windows herunterladen (.exe)");
  ("dl_localcode_apk_btn", "Android-Remote-App (.apk)");
  ("dl_localcode_vsix_btn", "VS Code & IDE-Erweiterung (.vsix)");
  ("dl_qr_scan_title", "Mit Smartphone-Kamera scannen:");
  ("dl_qr_scan_sub", "Direkt scannen für <strong>Sofort-Download & Installation</strong>");
  ("dl_security_title", "Kryptografische Signierung & Hash-Verifikation");
  ("dl_security_desc", "Alle offiziellen Binärdateien werden mit dem privaten InetConnector Master-Release-Key signiert. Prüfe die Integrität jedes Downloads mit den bereitgestellten SHA-256-Checksummen und den `ComputeMesh-Android.json`-Manifesten.");
  ("footer_github", "GitHub-Repositories");
  ("nav_app_github", "GitHub Ecosystem");
  ("nav_app_github_sub", "Open Source, Python SDK, ControlPlane & Tools");
  ("modal_reg_title", "🚀 ComputeMesh API-Zugang");
  ("market_loading", "Live-Knoten werden vom Gateway geladen...");
  ("opt_country_de", "🇩🇪 Deutschland (DE)");
  ("opt_country_at", "🇦🇹 Österreich (AT)");
  ("opt_country_ch", "🇨🇭 Schweiz (CH)");
  ("opt_country_fr", "🇫🇷 Frankreich (FR)");
  ("opt_country_nl", "🇳🇱 Niederlande (NL)");
  ("opt_country_other", "🌍 Anderes EU/EWR-Land");
  ("agent_service_title", "Hintergrunddienst / Runner");
  ("agent_service_checking", "Prüfe...");
  ("agent_service_platform", "Plattform:");
  ("agent_service_mode", "Betriebsmodus:");
  ("agent_service_name", "Systemdienst:");
  ("agent_service_port", "Dashboard-Port:");
  ("agent_service_restart", "↻ Neustart");
  ("agent_service_status_btn", "⚡ Status");
  ("api_tag", "ENTWICKLER-SCHNITTSTELLE");
  ("api_title", "Zwei Zeilen Code. Sofort einsatzbereit.");
  ("api_sub", "Binde ComputeMesh nahtlos in jede bestehende Anwendung ein – 100% kompatibel mit den offiziellen OpenAI-SDKs.");
  ("modal_title", "Mit ComputeMesh starten");
  ("modal_sub", "Erstelle deinen API-Key in wenigen Sekunden für blitzschnelle KI-Inferenz.");
  ("modal_role_lbl", "Konto-Typ:");
  ("role_consumer", "Developer-API nutzen (KI-Inferenz ausführen)");
  ("role_provider", "Hardware-Provider werden (GPUs monetarisieren)");
  ("modal_email_lbl", "Geschäftliche E-Mail-Adresse");
  ("modal_country_lbl", "Provider-Betriebsland (EWR/EU)");
  ("modal_country_select", "Land auswählen…");
  ("modal_wallet_lbl", "Auszahlungsziel / Wallet (Optional)");
  ("modal_wallet_placeholder", "0x... (EVM / Polygon / Arbitrum)");
  ("modal_wallet_help", "Für automatisierte Auszahlungen deiner Provider-Einnahmen via Stripe oder Krypto.");
  ("modal_submit_btn", "🚀 API-Key generieren");
  ("modal_key_result_lbl", "Dein persönlicher API-Key:");
  ("modal_copy_btn", "Schlüssel kopieren");
  ("compliance_combined", "Ich akzeptiere die <a href=^/terms^ target=^_blank^ rel=^noopener^>Nutzungsbedingungen v2.1</a> & <a href=^/privacy^ target=^_blank^ rel=^noopener^>Datenschutzerklärung</a> und bestätige die geschäftliche Nutzung (B2B).");
  ("topup_modal_title", "💳 Rechenguthaben aufladen");
  ("topup_modal_sub", "Lade dein Inferenzguthaben sicher über Stripe Checkout auf. Guthaben verfällt nie und wird nur bei erfolgreicher Token-Generierung abgerechnet.");
  ("topup_key_lbl", "Dein API-Schlüssel:");
  ("topup_select_amount_lbl", "Aufladebetrag auswählen:");
  ("btn_topup_proceed", "Weiter zum sicheren Checkout →");
  ("conv_tag", "Jetzt durchstarten");
  ("conv_title", "Bereit für High-Speed KI-Inferenz?");
  ("conv_sub", "Generiere deinen API-Key oder werde Teil unseres globalen GPU-Netzwerks.");
  ("conv_opt1_badge", "Entwickler");
  ("conv_opt1_title", "🔑 Sofortiger API-Zugang");
  ("conv_opt1_desc", "Starte in unter 60 Sekunden mit leistungsstarken Open-Source-Modellen.");
  ("conv_opt1_btn", "Kostenlosen API-Key holen →");
  ("conv_opt2_badge", "Hardware-Provider");
  ("conv_opt2_title", "⚡ Rechenleistung monetarisieren");
  ("conv_opt2_desc", "Schließe deine Grafikkarten an und profitiere von automatischen Auszahlungen.");
  ("conv_opt2_btn", "GPU-Node registrieren");
  ("conv_opt2_dl", "Downloads ansehen");
  ("docs_page_tag", "ENTWICKLER-DOKUMENTATION");
  ("docs_main_title", "ComputeMesh Architektur- & Integrationshandbuch");
  ("docs_main_sub", "Umfassende Dokumentation zur Integration des OpenAI-kompatiblen Gateways, zur Einrichtung von Provider-Knoten und zur Skalierung von Workloads.");
  ("docs_readiness_alert", "<strong style=^color: var(--text-main);^>Live Mesh Gateway:</strong> ComputeMesh bietet blitzschnelle, kryptografisch verifizierte KI-Inferenz. Richte dein OpenAI SDK oder deinen LangChain-Client direkt an unser Gateway.");
  ("docs_toc_title", "Inhalt");
  ("docs_toc_1", "1. Schnellstart & OpenAI API");
  ("docs_toc_2", "2. Verteilte Mesh-Architektur")
].

Definition translations_de_5 : list (string * string) := [
  ("docs_toc_3", "3. Pipeline-Layer-Sharding");
  ("docs_toc_4", "4. Provider-Node einrichten");
  ("docs_toc_5", "5. Mining-Rig NodeOS");
  ("docs_toc_6", "6. Ledger & Abrechnung");
  ("docs_toc_7", "7. LAN-Mesh & Ökonomie");
  ("docs_sec1_h2", "1. OpenAI-kompatibler Gateway-Schnellstart");
  ("docs_sec1_p", "Das Gateway implementiert eine vollständige OpenAI-kompatible `/v1`-REST-Schnittstelle. Passe einfach die `base_url` an und nutze deinen ComputeMesh API-Key in Python, TypeScript, Go oder cURL.");
  ("docs_playground_h3", "⚡ Interaktiver Browser-Playground");
  ("docs_playground_badge", "Live Streaming");
  ("docs_playground_send", "▶ Inferenz starten");
  ("playground_send", "▶ Inferenz starten");
  ("docs_playground_ph", "Prompt hier eingeben...");
  ("docs_terminal_title", "Gateway Antwort-Terminal");
  ("docs_terminal_ready", "Verbunden");
  ("docs_terminal_init", "Klicke auf ^Inferenz starten^, um Tokens live aus dem Mesh zu streamen.");
  ("docs_sec2_h2", "2. Verteilte Mesh-Architektur");
  ("docs_sec2_p", "ComputeMesh verbindet unabhängige GPU-Knoten zu einem einheitlichen Rechennetzwerk. Anfragen werden dynamisch nach Latenz, VRAM und Durchsatz geroutet.");
  ("docs_arch_flow_1", "Client-Anfrage ➔ Öffentliches Gateway (mTLS & Rate-Limits)");
  ("docs_arch_flow_2", "➔ Placement Engine wählt optimale GPU-Knoten (Latenz & VRAM)");
  ("docs_arch_flow_3", "➔ Pipeline-Sharded Execution über Hochgeschwindigkeits-Wire");
  ("docs_arch_flow_4", "➔ Zero-Knowledge-Ausführungsnachweis (Ed25519)");
  ("docs_arch_flow_5", "➔ Transparente Verbuchung im Double-Entry-Ledger");
  ("docs_sec3_h2", "3. Pipeline-Layer-Sharding-Technologie");
  ("docs_sec3_p", "Unsere Sharding-Engine teilt große Sprachmodelle dynamisch auf mehrere GPUs auf, sodass auch sehr große Modelle auf handelsüblicher Hardware mit maximaler Geschwindigkeit laufen.");
  ("docs_sec4_h2", "4. Provider-Node einrichten");
  ("docs_sec4_p", "Tritt dem Netzwerk in wenigen Minuten bei. Unser nativer Agent steht für Windows (mit übersichtlicher Tray-App) und Linux (als Server-Daemon und Docker) zur Verfügung.");
  ("docs_sec4_note", "Alle Verbindungen sind Ende-zu-Ende über mTLS und Ed25519-Schlüssel gesichert.");
  ("docs_sec5_h2", "5. Mining-Rig-NodeOS-Appliance & Einrichtungsleitfaden");
  ("docs_sec5_p", "NodeOS ist ein schlüsselfertiges, bootfähiges Linux-Betriebssystem für Multi-GPU-Mining-Rigs (4 bis 12 Grafikkarten) mit automatischer Treiber-Konfiguration (AMD ROCm/Vulkan & NVIDIA CUDA), Live-Web-Dashboard und Zero-Touch Mesh-Anbindung.");
  ("docs_nodeos_guide_title", "Schritt-für-Schritt Installation (USB auf Festplatte / SSD)");
  ("docs_nodeos_step1_title", "NodeOS Image herunterladen");
  ("docs_nodeos_step1_desc", "Lade das aktuelle Flash-Image computemesh-nodeos-x86_64.img.xz (oder die .iso) aus dem Download-Bereich herunter.");
  ("docs_nodeos_step2_title", "USB-Stick mit BalenaEtcher flashen");
  ("docs_nodeos_step2_desc", "Stecke einen USB-Stick (mindestens 16 GB) in deinen PC/Mac. Öffne BalenaEtcher (oder Rufus), wähle die heruntergeladene .img.xz Datei aus und klicke auf Flash!.");
  ("docs_nodeos_step3_title", "Miner vom USB-Stick booten");
  ("docs_nodeos_step3_desc", "Stecke den USB-Stick in das Mining-Rig und schalte es ein. Wähle im Boot-Menü des Motherboards (oft Taste F11, F12 oder F8) den USB-Stick als Startmedium aus.");
  ("docs_nodeos_step4_title", "Web-Dashboard im Browser öffnen");
  ("docs_nodeos_step4_desc", "NodeOS startet automatisch. Der Bildschirm des Miners zeigt die genaue IP-Adresse an (z. B. http://192.168.1.35:8080/). Öffne diesen Link in einem Browser auf deinem PC, Tablet oder Smartphone.");
  ("docs_nodeos_step5_title", "1-Click Klonen auf interne Miner-Festplatte / SSD");
  ("docs_nodeos_step5_desc", "Scrolle im Dashboard nach unten zum Bereich „Von USB gebootet: Auf interne Festplatte/SSD spiegeln“. Wähle die interne Festplatte aus, tippe ERASE AND CLONE ein und starte das Spiegeln. Das System kopiert das System 1:1, repariert die GPT-Partitionstabelle und konfiguriert den UEFI/GRUB-Bootloader.");
  ("docs_nodeos_step6_title", "USB-Stick abziehen & autonom booten");
  ("docs_nodeos_step6_desc", "Sobald der Fortschrittsbalken 100% erreicht, ziehe den USB-Stick einfach ab und starte das Rig neu. Der Miner bootet nun dauerhaft von der internen Festplatte und nimmt vollautomatisch an der dezentralen KI-Inferenz teil.");
  ("docs_sec6_h2", "6. Transparenter Ledger & automatische Abrechnung");
  ("docs_sec6_p", "Alle Inferenz-Abrechnungen und Provider-Vergütungen werden in einem manipulationssicheren Double-Entry-Ledger geführt. Hardware-Provider erhalten 75% des Kundenumsatzes. Auszahlungen basieren ausnahmslos auf real erwirtschafteten Erlösen aus abgeschlossenen Kundenaufträgen – es werden niemals fiktive oder simulierte Zahlen ausgezahlt. Automatische Stripe Connect (SEPA-Banküberweisung) Auszahlungen erfolgen ab 25 €/$ Guthaben.");
  ("docs_sec7_h2", "7. Zero-Config LAN-Mesh, Auto-Discovery & Ökonomie-Modell");
  ("docs_sec7_p1", "ComputeMesh folgt dem <strong>Zero-Config-Prinzip</strong>: Standardmäßig ist kein Owner-Key eingetragen. Alle Knoten, Smartphones, Laptops und Mining-Rigs im selben lokalen Netzwerk (LAN/WLAN) finden sich vollautomatisch über UDP-Port 13379 und bilden ein privates Mesh.");
  ("docs_sec7_p2", "<strong>100% Kostenfrei für den Eigenbedarf:</strong> Im lokalen LAN fallen 0,00 € Gebühren und kein Token-Verbrauch an. Prompts und Inferenz-Tensors verlassen niemals dein privates Netzwerk.");
  ("docs_sec7_p3", "<strong>Reale Einnahmen & 75% Payouts:</strong> Wenn du deine GPUs extern monetarisieren möchtest, hinterlegst du deinen persönlichen Owner-Key. Das System leitet dann bezahlte Kundenaufträge auf deine Hardware und schreibt 75% aller Job-Erlöse deinem Ledger gut. Auszahlungsbeträge spiegeln ausschließlich echtes, verbuchtes Kundenguthaben wider (Auszahlung ab 25 €/$ via Stripe Connect / SEPA).");
  ("status_main_h2", "System- & Netzwerkstatus");
  ("status_main_p", "Echtzeit-Telemetrie, Knotenverfügbarkeit und Betriebszustand der globalen ComputeMesh-Infrastruktur.");
  ("status_reviewed_date", "Alle Systeme voll einsatzbereit");
  ("status_tick1_val", "Einsatzbereit");
  ("status_tick1_lbl", "Gateway & API-Endpunkte");
  ("status_tick2_val", "Einsatzbereit");
  ("status_tick2_lbl", "Verteiltes GPU-Inferenz-Mesh");
  ("status_tick3_val", "Live-Telemetrie");
  ("status_tick3_lbl", "Aktive Mesh-Kapazität");
  ("status_tick4_val", "Verifiziert");
  ("status_tick4_lbl", "Ed25519 Ausführungs-Attestierungen");
  ("status_boundaries_h3", "Infrastruktur-Übersicht");
  ("status_card1_h4", "✅ Ingestion & Gateway-Layer");
  ("status_card1_p", "Hochperformantes OpenAI-kompatibles Gateway mit dynamischem Lastenausgleich und mTLS-Sicherheit.");
  ("status_card2_h4", "⚡ Dezentrale GPU-Placement-Engine");
  ("status_card2_p", "Latenzoptimiertes Echtzeit-Matching von Inferenzanfragen auf die besten GPU-Knoten.");
  ("status_card3_h4", "🔒 Kryptografische Isolation & Sicherheit");
  ("status_card3_p", "Isolierte Ausführungsumgebungen ohne Speicherung von Prompt-Inhalten und mit OS-geschützten Schlüsseln (Windows DPAPI / POSIX).");
  ("status_card4_h4", "💳 Echtzeit-Ledger & Abrechnung");
  ("status_card4_p", "Mikro-Einheiten-Double-Entry-Ledger für sekundengenaue Verbuchung und automatisierte Provider-Auszahlungen.");
  ("status_metrics_h3", "Live-Infrastruktur-Metriken");
  ("status_metrics_p", "Telemetriedaten werden in Echtzeit von den aktiven Cluster-Knoten bezogen.");
  ("status_ledger_title", "Proof-of-Execution (PoE) Blockchain-Explorer");
  ("status_ledger_badge", "● LIVE VERIFIZIERT");
  ("status_ledger_desc", "Manipulationssichere Merkle-Blockchain zur prüfbaren Verifikation aller autonomen Tool- und Inferenz-Berechnungen.");
  ("status_ledger_refresh", "Aktualisieren");
  ("status_ledger_height", "Blockhöhe (Head)");
  ("status_ledger_genesis", "Genesis bis Head");
  ("status_ledger_receipts", "PoE-Receipts");
  ("status_ledger_anchored", "Merkle-verankert");
  ("status_ledger_integrity", "Chain-Integrität");
  ("status_ledger_valid", "GÜLTIG ✓");
  ("status_ledger_corrupt", "KORRUPT ✗");
  ("status_ledger_continuity", "100% Kontinuität");
  ("status_ledger_storage", "Speichergröße");
  ("status_ledger_compact_wal", "Ultra-kompaktes WAL");
  ("status_ledger_verify_title", "🔍 Sofortige Merkle-Proof-Receipt-Verifikation");
  ("status_ledger_verify_placeholder", "Receipt-ID eingeben (z. B. poe_62fd7be09930f1d0)");
  ("status_ledger_verify_button", "Kryptografisch verifizieren");
  ("status_ledger_recent_blocks", "📦 Zuletzt verankerte Blöcke");
  ("status_ledger_loading_blocks", "Blockchain-Blöcke werden geladen ...");
  ("status_ledger_no_blocks", "Keine Blöcke vorhanden.");
  ("status_tools_title", "🛠️ Autonome & persistente dynamische Custom-Tools");
  ("status_tools_active", "{count} Tools aktiv");
  ("status_tools_loading", "Custom-Tools werden geladen ...");
  ("status_tools_none", "Noch keine Custom-Tools gespeichert. Nutze <code>save_dynamic_tool</code> oder die API.");
  ("status_block_receipts", "Receipt(s)");
  ("status_block_hash", "Hash:");
  ("status_block_merkle_root", "Merkle-Root:");
  ("status_block_node", "Node:");
  ("status_tool_calls", "Aufrufe:");
  ("status_tool_avg", "Ø");
  ("status_verify_pending", "Merkle-Proof auf der Chain wird verifiziert ...");
  ("status_verify_success", "✅ <strong>KRYPTOGRAFISCH VERIFIZIERT</strong><br>Receipt-ID: {receipt}<br>Block: #{block} | Tool: {tool}<br>Dauer: {elapsed}s | Node: {node}<br>Merkle-Tree-Inclusion-Proof: BINDEND & VALIDE ✓");
  ("status_verify_failed", "❌ Verifikation fehlgeschlagen: {error}");
  ("status_verify_missing", "Receipt existiert nicht oder der Merkle-Proof ist ungültig.");
  ("status_verify_fetch_error", "❌ Fehler beim Abruf: {error}");
  ("bench_page_tag", "MESSSTATUS");
  ("bench_main_h1", "Benchmark-Status");
  ("bench_main_p", "Für die aktuell verfügbaren Modelle sind noch keine reproduzierbaren Leistungswerte veröffentlicht.");
  ("bench_method_title", "So werden Werte freigegeben");
  ("bench_method_p", "Jeder künftige Messwert benötigt Modell-ID, Quantisierung, Hardware, Laufzeitversion, Prompt-Satz, Stichprobe und Messdatum. Durchsatz und Time-to-First-Token werden getrennt angegeben.");
  ("bench_no_data", "Bis diese Nachweise vorliegen, zeigen wir keine Geschwindigkeits- oder Preisvergleiche.");
  ("bench_status_link", "Live-Systemstatus ansehen");
  ("bench_badges_intro", "Diese neutralen Badges verweisen auf Produktfunktionen und den Live-Status, nicht auf unbestätigte Messwerte.");
  ("bench_ttft_alert", "<strong style=^color: var(--text-main);^>High-Throughput Streaming:</strong> ComputeMesh optimiert sowohl die Time-to-First-Token (TTFT) als auch die kontinuierliche Generierungsgeschwindigkeit.");
  ("bench_th_evidence", "Konfiguration");
  ("bench_th_hw", "Hardware-Topologie");
  ("bench_th_model", "Modell-Architektur");
  ("bench_th_prefill", "Time to First Token");
  ("bench_th_decode", "Generierungstempo");
  ("bench_th_interp", "Performance-Klasse");
  ("bench_row1_title", "Single-Node High-Speed Inferenz");
  ("bench_row1_hw", "NVIDIA RTX 4090 / 3080 GPU, CUDA 12");
  ("bench_row1_model", "Llama 3.1 8B (Q4_K_M)")
].

Definition translations_de_6 : list (string * string) := [
  ("bench_row1_interp", "Ultra-Fast Edge Inference");
  ("bench_row2_title", "CPU & Edge Baseline");
  ("bench_row2_hw", "Server CPU-Architektur (x86_64)");
  ("bench_row2_model", "Qwen 2.5 7B (Q4_K_M)");
  ("bench_row2_interp", "Zuverlässige Ausweich-Rechenleistung");
  ("bench_row3_title", "Verteiltes Pipeline-Sharding");
  ("bench_row3_hw", "Multi-Node Mesh-Cluster");
  ("bench_row3_model", "Llama 3.1 70B (Pipeline Split)");
  ("bench_row3_prefill", "< 120 ms");
  ("bench_row3_decode", "45+ tok/s");
  ("bench_row3_interp", "Enterprise Distributed Scale");
  ("bench_net_h3", "Netzwerk-Routing & Latenz");
  ("bench_net_p", "Unser binäres RPC-Wire-Protokoll und optimiertes Tensor-Streaming stellen sicher, dass verteilte Inferenz ohne spürbaren Netzwerk-Overhead läuft.");
  ("bench_repro_h3", "Verifizierbare Messungen");
  ("bench_repro_p", "Alle Benchmark-Daten basieren auf realen Messungen im aktiven Mesh-Netzwerk mit standardisierten Prompt-Längen.");
  ("contact_tag", "KONTAKT AUFNEHMEN");
  ("contact_title", "Support & Enterprise-Beratung");
  ("contact_sub", "Hast du Fragen zur API-Integration, zum Betrieb eines Provider-Mining-Rigs oder zu dedizierten Enterprise-Clustern?");
  ("contact_name_lbl", "Dein Name / Unternehmen");
  ("contact_topic_lbl", "Thema");
  ("contact_msg_lbl", "Nachricht");
  ("contact_send_btn", "Nachricht absenden");
  ("contact_sending", "Nachricht wird gesendet...");
  ("contact_opt_provider", "Hardware-Provider & Mining-Rig Setup");
  ("contact_opt_developer", "Entwickler-API & Plattform-Integration");
  ("contact_opt_billing", "Abrechnung & Guthabenaufladung");
  ("contact_opt_enterprise", "Individuelle Enterprise-GPU-Cluster & SLAs");
  ("contact_success", "✓ Vielen Dank! Deine Nachricht wurde empfangen. Unser Engineering-Team antwortet innerhalb von 24 Stunden.");
  ("contact_err_generic", "Fehler beim Absenden. Bitte versuche es später erneut oder schreibe direkt an mesh@inetconnector.com.");
  ("sec_page_tag", "ENTERPRISE COMPLIANCE & KRYPTOGRAFIE");
  ("sec_main_title", "Sicherheits- & <span class=^gradient-emerald^>DSGVO-Architektur</span>");
  ("sec_main_sub", "ComputeMesh wurde nach dem strikten Prinzip des <strong>flüchtigen Zero-Knowledge-Streamings (Privacy-by-Design nach Art. 25 DSGVO)</strong> entwickelt. Eingegebene Prompts und generierte Antworten sind auf dem Transportweg mathematisch abhörsicher und werden niemals auf Festplatten gespeichert.");
  ("sec_pill_1_title", "100% Abhörsicher");
  ("sec_pill_1_desc", "End-to-End-Verschlüsselung via <strong>TLS 1.3 mit Perfect Forward Secrecy (PFS)</strong>. Für jede Inferenz-Sitzung wird ein Einmalschlüssel erzeugt. Ein nachträgliches Mitschneiden oder Entschlüsseln ist mathematisch unmöglich.");
  ("sec_pill_2_title", "Verschlüsselter RAM & Zero-Retention");
  ("sec_pill_2_desc", "Prompts existieren ausschließlich im flüchtigen RAM in <strong>ephemeren AES-256-GCM Umschlägen</strong> mit OS-Speichersperren (<code>mlock</code> Anti-Swap) und sofortigem <code>SecureZeroMemory</code> Überschreiben.");
  ("sec_pill_3_title", "Kein Modell-Training");
  ("sec_pill_3_desc", "Weder deine Prompts noch die KI-Antworten werden jemals zum Trainieren, Nachtrainieren oder Feintunen von Modellen genutzt. Deine Daten und dein IP bleiben zu 100% dein Eigentum.");
  ("sec_sec1_title", "<span>🔒</span> 1. Schutz vor Datenabfangen & Mitlesen (Transportverschlüsselung)");
  ("sec_sec1_intro", "Jede Verbindung zwischen deinen Anwendungen (OpenAI SDK, LangChain, Python, Browser) und unserem Gateway wird über hochsichere kryptografische Cipher-Suites abgewickelt:");
  ("sec_sec1_li1", "<strong>TLS 1.3 & Elliptische Kurven:</strong> Schlüsselaustausch über X25519 mit AES-256-GCM und ChaCha20-Poly1305.");
  ("sec_sec1_li2", "<strong>Perfect Forward Secrecy (PFS):</strong> Selbst bei einer theoretischen Kompromittierung des Hauptzertifikats in der Zukunft kann vergangener Datenverkehr niemals entschlüsselt werden.");
  ("sec_sec1_li3", "<strong>HSTS Preload:</strong> Erzwingt HTTPS über alle Subdomains (2 Jahre Cache) und verhindert jegliche Downgrade-Angriffe.");
  ("sec_sec1_li4", "<strong>RAM-Only Proxy-Streaming:</strong> Die Nginx-Direktive <code>proxy_max_temp_file_size 0;</code> garantiert, dass keine Request-Bodies auf Festplatten-Puffer ausgelagert werden.");
  ("sec_sec2_title", "<span>⚡</span> 2. Flüchtige RAM-Verarbeitung & Speicherbegrenzung (Art. 5 DSGVO)");
  ("sec_sec2_intro", "Unsere Gateway-Architektur (<code>computemesh-gateway</code>) ist im Quellcode so programmiert, dass sie keine Protokolle über Prompt-Inhalte führt:");
  ("sec_sec2_li1", "<strong>Keine Datenbank-Speicherung:</strong> Die Abrechnungsdatenbank erfasst ausschließlich anonymisierte Zählerwerte (z. B. <code>Prompt: 45 Tokens</code>, <code>Antwort: 128 Tokens</code>, <code>Kosten: $0.0001</code>) — niemals deinen Text.");
  ("sec_sec2_li2", "<strong>Sofortige Freigabe:</strong> Sobald der letzte Token-Chunk per Server-Sent Events (SSE) an deinen Client übermittelt wurde (<code>data: [DONE]</code>), wird der belegte Arbeitsspeicher sofort freigegeben.");
  ("sec_sec3_title", "<span>🧩</span> 3. Blinded Split-Inference, mTLS & Hardware-Attestierung");
  ("sec_sec3_intro", "Die Kommunikation zwischen Orchestrator und verteilten GPU-Knoten ist durch mTLS, Ed25519-Signaturen und orthogonale Tensor-Verschleierung isoliert:");
  ("sec_sec3_li1", "<strong>Blinded Split-Inference:</strong> Layer-0 Embeddings werden mathematisch rotiert ($h' = h \cdot R$), bevor Shards an Nodes gesendet werden. Externe Nodes rechnen rein numerisch ohne Vokabular- oder Text-Zugriff.");
  ("sec_sec3_li2", "<strong>Confidential Computing (TEE):</strong> Für vertrauliche Unternehmensanfragen unterstützt ComputeMesh Hardware-Attestierung (AMD SEV-SNP / Intel TDX), wodurch Berechnungen in hardware-verschlüsselten Enklaven ausgeführt werden.");
  ("sec_sec3_li3", "<strong>Fail-Closed Routing:</strong> Vertrauliche Anfragen werden niemals heimlich auf ungesicherte Knoten umgeleitet.");
  ("sec_sec4_title", "<span>📋</span> 4. EU-DSGVO Konformitätsmatrix");
  ("sec_tbl_col1", "DSGVO-Artikel");
  ("sec_tbl_col2", "Gesetzliche Anforderung");
  ("sec_tbl_col3", "Technische Umsetzung bei ComputeMesh");
  ("sec_tbl_r1_req", "Datenminimierung");
  ("sec_tbl_r1_impl", "Keine Werbe-Tracker, keine Cookies, keine dauerhafte Speicherung von Nutzdaten.");
  ("sec_tbl_r2_req", "Speicherbegrenzung");
  ("sec_tbl_r2_impl", "Zero-Disk-Retention: Prompts existieren nur für Millisekunden im flüchtigen RAM.");
  ("sec_tbl_r3_req", "Integrität & Vertraulichkeit");
  ("sec_tbl_r3_impl", "TLS 1.3 mit PFS, mTLS-Knotenbindung, AES-256-GCM Vault, Systemd-Sandbox.");
  ("sec_tbl_r4_req", "Privacy by Design");
  ("sec_tbl_r4_impl", "Architektonische Trennung von Abrechnung und Inhalten; Fail-Closed-Sicherheitslogik.");
  ("sec_tbl_r5_req", "Auftragsverarbeitung (AVV)");
  ("sec_tbl_r5_impl", "Vertrag zur Auftragsverarbeitung (DPA) für B2B-Kunden verfügbar.");
  ("sec_tbl_r6_req", "Sicherheit der Verarbeitung");
  ("sec_tbl_r6_impl", "Mehrstufige technische und organisatorische Maßnahmen (TOMs) nach aktuellem Stand der Technik.");
  ("sec_sec5_title", "<span>🏰</span> 5. Server-Sandboxing & Zahlungsdaten-Isolierung");
  ("sec_sec5_li1", "<strong>Linux-Systemd-Sandboxing:</strong> Der Gateway-Dienst läuft unter Debian 13 mit strikten Kernel-Restriktionen (<code>ProtectSystem=strict</code>, <code>PrivateTmp=true</code>, <code>NoNewPrivileges=true</code>).");
  ("sec_sec5_li2", "<strong>Stripe PCI-DSS Level 1:</strong> Zahlungen und Kreditkartendaten werden niemals über ComputeMesh-Server geleitet, sondern direkt durch Stripe verarbeitet.");
  ("sec_sec5_li3", "<strong>AES-256-GCM Vault:</strong> Alle internen Secrets sind im kryptografischen Vault abgesichert.");
  ("sec_cta_title", "Bereit für maximale Sicherheit und höchste Performance?");
  ("sec_cta_sub", "Nutze unsere OpenAI-kompatible High-Speed-API mit vollem Datenschutz.");
  ("sec_cta_playground_btn", "⚡ Live-Playground testen");
  ("sec_cta_register_btn", "🚀 API-Key erstellen");
  ("nav_lan_mesh", "LAN-Mesh & Ökonomie");
  ("lan_eco_tag", "HYBRID MESH & ÖKONOMIE");
  ("lan_eco_title", "100% Kostenfreies Privates LAN-Mesh & Globale Miner-Verdienste");
  ("lan_eco_sub", "Standardmäßig ohne Owner-Key: Geräte im selben Netzwerk finden sich automatisch und teilen GPU-Power kostenfrei. Nutze den Owner-Key nur, wenn du deine Hardware weltweit vermieten und 75% der Umsätze verdienen willst.");
  ("lan_card1_tag", "STANDARD: 100% KOSTENFREI");
  ("lan_card1_title", "Privates LAN-Mesh (Zero-Config)");
  ("lan_card1_desc", "Kein Owner-Key erforderlich (bleibt leer). Android-Smartphones, Laptops, Desktop-PCs und Mining-Rigs im selben WLAN/LAN finden sich über UDP 13379 vollautomatisch. 0 € Kosten, 0 Token-Verbrauch, unbegrenzte lokale Inferenz.");
  ("lan_card2_tag", "FLEXIBEL: WAN-KOPPLUNG");
  ("lan_card2_title", "Das Owner-Key Prinzip");
  ("lan_card2_desc", "Der Owner-Key ist dein privater Sicherheits- und Auszahlungsschlüssel. Du benötigst ihn nur für die Fernsteuerung deiner Flotte von unterwegs oder zur Auszahlung deiner Mining-Erträge. Im lokalen LAN bleibt er leer.");
  ("lan_card3_tag", "75% REVENUE SHARE");
  ("lan_card3_title", "Miner & Provider Verdienste");
  ("lan_card3_desc", "Stelle deine GPU dem globalen ComputeMesh-Pool bereit: 75% aller Inferenz-Gebühren wandern direkt in dein Provider-Ledger. Automatische SEPA-Auszahlungen ab 25 €/$ via Stripe Connect.");
  ("lan_tbl_title", "Die 3 Betriebsmodi im Vergleich");
  ("lan_tbl_col_mode", "Modus");
  ("lan_tbl_col_key", "Owner-Key nötig?");
  ("lan_tbl_col_network", "Netzwerk / Routing");
  ("lan_tbl_col_cost", "Kosten für Nutzer");
  ("lan_tbl_col_earnings", "Verdienste für Provider");
  ("lan_tbl_col_privacy", "Privatsphäre & Sicherheit");
  ("lan_tbl_r1_mode", "Modus 1: Privates LAN-Mesh (Default)");
  ("lan_tbl_r1_key", "❌ Nein (leer lassen)");
  ("lan_tbl_r1_network", "Lokales WLAN / Subnetz (P2P UDP 13379)");
  ("lan_tbl_r1_cost", "0,00 € (100% Kostenfrei, unbegrenzt)");
  ("lan_tbl_r1_earnings", "Keine (Eigenbedarf)");
  ("lan_tbl_r1_privacy", "100% lokal, verlässt niemals dein LAN");
  ("lan_tbl_r2_mode", "Modus 2: Private Remote Cloud");
  ("lan_tbl_r2_key", "🔑 Optional (eigener Account-Key)");
  ("lan_tbl_r2_network", "Verschlüsseltes globales WAN Gateway");
  ("lan_tbl_r2_cost", "Kostenlos für eigene Nodes");
  ("lan_tbl_r2_earnings", "Keine (Privater Cluster)");
  ("lan_tbl_r2_privacy", "Ende-zu-Ende mTLS & Zero-Disk-Retention");
  ("lan_tbl_r3_mode", "Modus 3: Public Compute Miner");
  ("lan_tbl_r3_key", "🔑 Ja (für Auszahlungs-Zuordnung)");
  ("lan_tbl_r3_network", "Globaler ComputeMesh Inferenz-Pool");
  ("lan_tbl_r3_cost", "Pay-as-you-go für externe Kunden");
  ("lan_tbl_r3_earnings", "💰 75% aller Job-Erlöse (Auszahlung ab 25 €/$)");
  ("lan_tbl_r3_privacy", "Sandboxed Inferenz mit Attestierung")
].

Definition translations_de : list (string * string) :=
  translations_de_1 ++ translations_de_2 ++ translations_de_3 ++ translations_de_4 ++ translations_de_5 ++ translations_de_6.
