(* ===== verification/I18n.v ===== *)
(** * Languages of the portal (portal-core.js, portal.js, agent-workspace/i18n.js)

    The dictionaries of [I18nTables] and [StaticTables] as maps of JavaScript strings,
    [detectInitialLanguage], [switchLanguage], [toggleLanguage], the static-text
    translation of portal.js, the quick prompts and the agent workspace's [t]. *)
From Stdlib Require Import Lia NArith.
From stdpp Require Import base numbers list gmap strings.
From S2P Require Import Prelude JsString JsNumber JsValue I18nTables StaticTables.

#[local] Open Scope N_scope.

(** ** Dictionaries *)

(** The source text of a table entry: a circumflex is the double quotation mark. *)
Definition unquote (s : string) : jsstring := (fun c => if c =? 94 then 34 else c) <$> js s.

Definition dict (t : list (string * string)) : list (jsstring * jsstring) :=
  (fun e => (js e.1, unquote e.2)) <$> t.

Definition dict_q (t : list (string * string)) : list (jsstring * jsstring) :=
  (fun e => (unquote e.1, unquote e.2)) <$> t.

(** A property of an object literal: of repeated names, the last one counts. *)
Fixpoint last_assoc (k : jsstring) (t : list (jsstring * jsstring)) : option jsstring :=
  match t with
  | [] => None
  | (k', v) :: r =>
      match last_assoc k r with
      | Some w => Some w
      | None => if seqb k k' then Some v else None
      end
  end.

Lemma last_assoc_In k t v : last_assoc k t = Some v -> (k, v) ∈ t.
Proof.
  induction t as [|[k' v'] t IH]; simpl; [done|]. destruct (last_assoc k t); [set_solver|].
  destruct (seqb k k') eqn:E; [|done]. apply seqb_eq in E. set_solver.
Qed.

Lemma last_assoc_None k t : last_assoc k t = None -> forall v, (k, v) ∉ t.
Proof.
  induction t as [|[k' v'] t IH]; simpl; [set_solver|]. destruct (last_assoc k t); [done|].
  destruct (seqb k k') eqn:E; [done|]. apply seqb_neq in E. set_solver.
Qed.

(** [translations[lang]] *)
Definition translations (l : lang) : list (jsstring * jsstring) :=
  dict (match l with De => translations_de | En => translations_en end).

(** [translations[lang][key]] *)
Definition translate (l : lang) (key : jsstring) : option jsstring := last_assoc key (translations l).

(** [t.key || fallback] *)
Definition translate_or (l : lang) (key fallback : jsstring) : jsstring :=
  match translate l key with Some v => if truthy v then v else fallback | None => fallback end.

(** ** Initial language *)

Definition lang_name (l : lang) : jsstring := tr l (js "de") (js "en").

Definition lang_of (s : option jsstring) : option lang :=
  match s with
  | Some v => if seqb v (js "de") then Some De else if seqb v (js "en") then Some En else None
  | None => None
  end.

Definition lang_key : jsstring := js "cm_portal_lang".

(** [detectInitialLanguage()]: the [try] block returns, or falls through on an
    unusable value or an exception to the detection from the browser. *)
Definition detectInitialLanguage (urlLang : option jsstring) (browserLangs : list jsstring)
    (timeZone hostname : jsstring) (st : storage) : lang * storage :=
  let fallback :=
    if existsb (fun x => starts_with (js "de") (lower x)) (List.filter truthy browserLangs)
       || seqb timeZone (js "Europe/Berlin") || ends_with (js ".de") hostname
    then De else De in
  match lang_of urlLang with
  | Some l =>
      match setItem lang_key (lang_name l) st with
      | Ret st' => (l, st')
      | Throw _ => (fallback, st)
      end
  | None =>
      match getItem lang_key st with
      | Ret saved => match lang_of saved with Some l => (l, st) | None => (fallback, st) end
      | Throw _ => (fallback, st)
      end
  end.

(** ** Switching the language *)

Inductive tag : Type := INPUT | TEXTAREA | OPTION | OtherTag.

Record element := Element {
  tagName : tag;
  data_i18n : option jsstring;
  data_i18n_ph : option jsstring;
  data_i18n_title : option jsstring;
  placeholder : option jsstring;
  value : jsstring;
  content : jsstring;
  title : option jsstring;
}.

(** The components [switchLanguage] asks to render again. *)
Inductive hook : Type :=
| LoadLivePricing
| UpdateAuthNavBtn
| RenderMarketplace (de : bool)
| RenderModels (de : bool)
| SyncCompliance (l : lang)
| SyncStatic (l : lang)
| OnLanguageChanged (l : lang).

(** Which of the optional components the page has loaded. *)
Record loaded := Loaded {
  has_marketplace : bool;
  has_models : bool;
  has_compliance : bool;
  has_static : bool;
  has_listener : bool;
}.

Record page := Page {
  currentLang : lang;
  window_lang : option jsstring;
  html_lang : jsstring;
  elements : list element;
  toggleBtn : option jsstring;
  btnDe_active : option bool;
  btnEn_active : option bool;
  store : storage;
  hooks : list hook;
}.

Definition known (l : lang) (k : option jsstring) : option jsstring :=
  match k with Some key => translate l key | None => None end.

(** The bodies of the three [querySelectorAll(...).forEach(...)] loops, given the
    translation of the element's key. *)
Definition set_i18n (o : option jsstring) (e : element) : element :=
  match o with
  | None => e
  | Some t =>
      match tagName e with
      | INPUT | TEXTAREA =>
          if truthy (default [] (placeholder e))
          then Element (tagName e) (data_i18n e) (data_i18n_ph e) (data_i18n_title e) (Some t) (value e) (content e) (title e)
          else Element (tagName e) (data_i18n e) (data_i18n_ph e) (data_i18n_title e) (placeholder e) t (content e) (title e)
      | OPTION | OtherTag =>
          Element (tagName e) (data_i18n e) (data_i18n_ph e) (data_i18n_title e) (placeholder e) (value e) t (title e)
      end
  end.

Definition set_ph (o : option jsstring) (e : element) : element :=
  match o with
  | None => e
  | Some t => Element (tagName e) (data_i18n e) (data_i18n_ph e) (data_i18n_title e) (Some t) (value e) (content e) (title e)
  end.

Definition set_title (o : option jsstring) (e : element) : element :=
  match o with
  | None => e
  | Some t => Element (tagName e) (data_i18n e) (data_i18n_ph e) (data_i18n_title e) (placeholder e) (value e) (content e) (Some t)
  end.

Definition pass_i18n (l : lang) (e : element) : element := set_i18n (known l (data_i18n e)) e.
Definition pass_ph (l : lang) (e : element) : element := set_ph (known l (data_i18n_ph e)) e.
Definition pass_title (l : lang) (e : element) : element := set_title (known l (data_i18n_title e)) e.

Definition is_de (l : lang) : bool := tr l true false.

Definition hooks_of (ld : loaded) (l : lang) : list hook :=
  [LoadLivePricing; UpdateAuthNavBtn]
  ++ (if has_marketplace ld then [RenderMarketplace (is_de l)] else [])
  ++ (if has_models ld then [RenderModels (is_de l)] else [])
  ++ (if has_compliance ld then [SyncCompliance l] else [])
  ++ (if has_static ld then [SyncStatic l] else [])
  ++ (if has_listener ld then [OnLanguageChanged l] else []).

(** [switchLanguage(lang)] on the elements of the document. *)
Definition switchLanguage (ld : loaded) (arg : option jsstring) (p : page) : page :=
  let l := default De (lang_of arg) in
  Page l (Some (lang_name l)) (lang_name l)
    (map (pass_title l) (map (pass_ph l) (map (pass_i18n l) (elements p))))
    ((fun _ => tr l (js "🇬🇧 English") (js "🇩🇪 Deutsch")) <$> toggleBtn p)
    ((fun _ => is_de l) <$> btnDe_active p)
    ((fun _ => negb (is_de l)) <$> btnEn_active p)
    (match setItem lang_key (lang_name l) (store p) with Ret st => st | Throw _ => store p end)
    (hooks p ++ hooks_of ld l).

Definition toggleLanguage (ld : loaded) (p : page) : page :=
  switchLanguage ld (Some (tr (currentLang p) (js "en") (js "de"))) p.

(** ** Quick prompts *)

(** The language [applyQuickPrompt] and portal.js choose: [window.currentLang], the
    stored language, then the browser's. *)
Definition ui_lang (window_lang stored : option jsstring) (navLang : jsstring) : lang :=
  if bool_decide (window_lang = Some (js "de")) || bool_decide (stored = Some (js "de"))
     || (negb (truthy (default [] stored)) && starts_with (js "de") navLang)
  then De else En.

Definition quick_prompts (l : lang) : list (jsstring * jsstring) :=
  dict (match l with De => QUICK_PROMPTS_de | En => QUICK_PROMPTS_en end).

(** [dict[lang][promptKey] || dict.en[promptKey] || ''] *)
Definition prompt_for (l : lang) (key : jsstring) : jsstring :=
  let v := default [] (last_assoc key (quick_prompts l)) in
  if truthy v then v else default [] (last_assoc key (quick_prompts En)).

(** [applyQuickPrompt(promptKey)] on the value and height of the prompt input. *)
Definition applyQuickPrompt (l : lang) (key : jsstring) (scrollHeight : Z) (inp : option (jsstring * Z)) : option (jsstring * Z) :=
  let prompt := prompt_for l key in
  if truthy prompt then (fun _ => (prompt, Z.min (Z.max scrollHeight 60) 140)) <$> inp else inp.

(** ** Static text (portal.js) *)

Fixpoint collapse (s : jsstring) : jsstring :=
  match s with
  | [] => []
  | c :: r =>
      if is_ws c
      then match r with d :: _ => if is_ws d then collapse r else 32 :: collapse r | [] => [32] end
      else c :: collapse r
  end.

(** [String(value || '').replace(/\s+/g, ' ').trim()] *)
Definition normalizeText (s : jsstring) : jsstring := trim (collapse s).

Definition static_de : list (jsstring * jsstring) := dict_q STATIC_TEXT_DE.

(** [Object.fromEntries(Object.entries(STATIC_TEXT_DE).map(([en, de]) => [de, en]))] *)
Definition static_en : list (jsstring * jsstring) := (fun e => (e.2, e.1)) <$> static_de.

Definition static_text (l : lang) : list (jsstring * jsstring) := tr l static_de static_en.

Section Static.
(** [node.innerHTML = html; node.textContent]: the browser's HTML parser. *)
Context (html_text : jsstring -> jsstring).

Definition plainText (html : jsstring) : jsstring := normalizeText (html_text html).

Definition other (l : lang) : lang := tr l En De.

(** The entries of [getStaticMap(lang)] in the order of the [map.set] calls. *)
Definition getStaticMap (l : lang) : list (jsstring * jsstring) :=
  omap (fun k =>
    match translate De k with
    | None => None
    | Some _ =>
        let from := plainText (default [] (translate (other l) k)) in
        let to := plainText (default [] (translate l k)) in
        if truthy from && truthy to && negb (seqb from to) then Some (from, to) else None
    end) (translations En).*1
  ++ ((fun e => (normalizeText e.1, e.2)) <$> static_text l).

Definition leading (s : jsstring) : jsstring := take (length s - length (trim_start s)) s.
Definition trailing (s : jsstring) : jsstring := drop (length (trim_end s)) s.

(** [translateTextNodes]: what becomes of one text node that the walker accepts. *)
Definition translateTextNode (map : list (jsstring * jsstring)) (v : jsstring) : jsstring :=
  let normalized := normalizeText v in
  if truthy normalized then
    match last_assoc normalized map with
    | Some translated =>
        if truthy translated && negb (seqb translated normalized)
        then leading v ++ translated ++ trailing v else v
    | None => v
    end
  else v.

(** [translateStaticAttributes] and [translateFormValues] on one value. *)
Definition translateValue (map : list (jsstring * jsstring)) (v : jsstring) : jsstring :=
  match last_assoc (normalizeText v) map with
  | Some t => if truthy t then t else v
  | None => v
  end.

End Static.

(** [window.location.pathname.replace(/\/$/, '') || '/'] *)
Definition clean_path (path : jsstring) : jsstring :=
  let p := if ends_with (js "/") path then take (length path - 1) path else path in
  if truthy p then p else js "/".

(** [PAGE_META_I18N[path]?.[lang]]: title and description. *)
Definition page_meta (path : jsstring) (l : lang) : option (jsstring * jsstring) :=
  let p := clean_path path in
  snd <$> List.find (fun e => seqb (e.1.1) p && seqb (e.1.2) (lang_name l))
    ((fun e => ((js e.1.1, js e.1.2), (unquote e.2.1, unquote e.2.2))) <$> PAGE_META_I18N).

(** ** The agent workspace's dictionary (agent-workspace/i18n.js) *)

Definition agent_translations (l : lang) : list (jsstring * jsstring) :=
  dict (match l with De => agent_de | En => agent_en end).

(** [setLocale(locale)]: an unknown locale keeps the current one. *)
Definition setLocale (locale : jsstring) (current : lang) : lang :=
  default current (lang_of (Some locale)).

(** [t(key)] *)
Definition t_ (current : lang) (key : jsstring) : jsstring :=
  let v := default [] (last_assoc key (agent_translations current)) in
  if truthy v then v
  else let w := default [] (last_assoc key (agent_translations En)) in
       if truthy w then w else key.

(** ** Facts about the dictionaries, by evaluation *)

(** Every key of [a] has a non-empty value in [b]. *)
Definition covers (a b : list (jsstring * jsstring)) : bool :=
  forallb (fun e => match last_assoc e.1 b with Some v => truthy v | None => false end) a.

Lemma covers_spec a b k v :
  covers a b = true -> last_assoc k a = Some v -> exists w, last_assoc k b = Some w /\ w <> [].
Proof.
  unfold covers. rewrite forallb_forall. intros H Hk. apply last_assoc_In, list_elem_of_In in Hk.
  specialize (H _ Hk). simpl in H. destruct (last_assoc k b) as [w|]; [|done].
  exists w. split; [done|]. by apply truthy_true.
Qed.

Lemma translations_cover l l' : covers (translations l) (translations l') = true.
Proof. destruct l, l'; vm_compute; reflexivity. Qed.

Lemma translate_other l l' k v : translate l k = Some v -> exists w, translate l' k = Some w /\ w <> [].
Proof. apply covers_spec, translations_cover. Qed.

Lemma known_other l l' k v : known l k = Some v -> exists w, known l' k = Some w /\ w <> [].
Proof. destruct k as [k|]; [|done]. apply translate_other. Qed.

Lemma known_none l l' k : known l k = None -> known l' k = None.
Proof.
  intros H. destruct (known l' k) as [v|] eqn:E; [|done].
  destruct (known_other l' l k v E) as (w & E' & _). congruence.
Qed.

Lemma known_pair l l' k :
  (known l k = None /\ known l' k = None) \/
  (exists v w, known l k = Some v /\ v <> [] /\ known l' k = Some w /\ w <> []).
Proof.
  destruct (known l k) as [v|] eqn:E; [right|left; split; [done|by eapply known_none]].
  destruct (known_other l l' k v E) as (w & Ew & Hw). destruct (known_other l l k v E) as (v' & Ev & Hv).
  simplify_eq. eauto 10.
Qed.

(** The markup of a text: what stands between each opening and closing bracket. *)
Fixpoint until_gt (s : jsstring) : jsstring :=
  match s with c :: r => if c =? 62 then [] else c :: until_gt r | [] => [] end.

Definition tags_of (s : jsstring) : list jsstring := map until_gt (tail (split_on 60 s)).

Definition count (t : jsstring) (l : list jsstring) : nat := length (List.filter (seqb t) l).

Definition same_tags (a b : list jsstring) : bool :=
  forallb (fun t => Nat.eqb (count t a) (count t b)) (a ++ b).

Lemma count_0 t l : t ∉ l -> count t l = 0%nat.
Proof.
  unfold count. induction l as [|x l IH]; simpl; [done|]. intros H.
  destruct (seqb t x) eqn:E; [apply seqb_eq in E; set_solver|]. apply IH. set_solver.
Qed.

Lemma same_tags_spec a b : same_tags a b = true -> forall t, count t a = count t b.
Proof.
  unfold same_tags. rewrite forallb_forall. intros H t. destruct (decide (t ∈ a ++ b)) as [Ht|Ht].
  - apply list_elem_of_In, H in Ht. by apply Nat.eqb_eq.
  - rewrite !count_0; [done|set_solver..].
Qed.

(** ** Properties of the language switch *)

(** An input is not keyed for its value and for its placeholder at the same time. *)
Definition well_keyed (e : element) : Prop :=
  match tagName e with
  | INPUT | TEXTAREA => data_i18n e = None \/ data_i18n_ph e = None
  | _ => True
  end.

Definition translate_element (l : lang) (e : element) : element := pass_title l (pass_ph l (pass_i18n l e)).

Lemma elements_switch ld a p :
  elements (switchLanguage ld a p) = translate_element (default De (lang_of a)) <$> elements p.
Proof. simpl. rewrite !map_map. reflexivity. Qed.

(** The keys of an element are never changed. *)
Lemma set_keys o e :
  data_i18n_ph (set_i18n o e) = data_i18n_ph e /\ data_i18n_title (set_i18n o e) = data_i18n_title e /\
  data_i18n_title (set_ph o e) = data_i18n_title e /\ data_i18n (set_title o e) = data_i18n e /\
  data_i18n_ph (set_title o e) = data_i18n_ph e /\ data_i18n_title (set_title o e) = data_i18n_title e /\
  data_i18n (set_ph o e) = data_i18n e /\ data_i18n_ph (set_ph o e) = data_i18n_ph e /\
  data_i18n (set_i18n o e) = data_i18n e.
Proof.
  destruct o as [t|]; [|by split_and!]. simpl.
  by destruct (tagName e); simpl; try destruct (truthy _); split_and!.
Qed.

Lemma translate_element_eq l e :
  translate_element l e =
  set_title (known l (data_i18n_title e)) (set_ph (known l (data_i18n_ph e)) (set_i18n (known l (data_i18n e)) e)).
Proof.
  unfold translate_element, pass_title, pass_ph, pass_i18n.
  pose proof (set_keys (known l (data_i18n e)) e) as (-> & Ht & _).
  pose proof (set_keys (known l (data_i18n_ph e)) (set_i18n (known l (data_i18n e)) e)) as (_ & _ & -> & _).
  by rewrite Ht.
Qed.

(** Both absent, or both present and not empty. *)
Definition together (o o' : option jsstring) : Prop :=
  match o, o' with
  | None, None => True
  | Some (_ :: _), Some (_ :: _) => True
  | _, _ => False
  end.

Lemma set_overrides k k' ph ph' ti ti' e :
  together k k' -> together ph ph' -> together ti ti' ->
  (match tagName e with INPUT | TEXTAREA => k = None \/ ph = None | _ => True end) ->
  set_title ti (set_ph ph (set_i18n k (set_title ti' (set_ph ph' (set_i18n k' e)))))
  = set_title ti (set_ph ph (set_i18n k e)).
Proof.
  destruct e as [tg a b c pl v co tt]. simpl.
  destruct k as [[|]|], k' as [[|]|], ph as [[|]|], ph' as [[|]|], ti as [[|]|], ti' as [[|]|]; try done;
    intros _ _ _ H; destruct tg; try (by destruct H); simpl; try done;
    destruct pl as [[|]|]; done.
Qed.

Lemma known_together l l' k : together (known l k) (known l' k).
Proof.
  destruct (known_pair l l' k) as [[-> ->]|(v & w & -> & Hv & -> & Hw)]; [done|]. by destruct v, w.
Qed.

Lemma translate_element_overrides l l' e :
  well_keyed e -> translate_element l (translate_element l' e) = translate_element l e.
Proof.
  intros Hk. rewrite (translate_element_eq l (translate_element l' e)).
  assert (K : data_i18n (translate_element l' e) = data_i18n e /\
              data_i18n_ph (translate_element l' e) = data_i18n_ph e /\
              data_i18n_title (translate_element l' e) = data_i18n_title e).
  { unfold translate_element, pass_title, pass_ph, pass_i18n.
    repeat match goal with |- context [set_title ?o ?x] => destruct (set_keys o x) as (_ & _ & _ & -> & -> & -> & _) end.
    repeat match goal with |- context [set_ph ?o ?x] =>
      let H := fresh in destruct (set_keys o x) as (_ & _ & -> & _ & _ & _ & H & -> & _); rewrite H; clear H end.
    by destruct (set_keys (known l' (data_i18n e)) e) as (-> & -> & _ & _ & _ & _ & _ & _ & ->). }
  destruct K as (-> & -> & ->). rewrite !translate_element_eq.
  apply set_overrides; [apply known_together..|].
  unfold well_keyed in Hk. destruct (tagName e); try done; by destruct Hk as [-> | ->]; simpl; auto.
Qed.

(** ** Claims *)

(** The two dictionaries of the portal have the same keys, and no text is empty:
    every key that one language translates, the other translates. *)
Theorem translations_parity l l' k v :
  translate l k = Some v -> exists w, translate l' k = Some w /\ w <> [].
Proof. apply translate_other. Qed.

Lemma translations_parity_witness :
  translate En (js "nav_home") = Some (js "Home") /\
  exists w, translate De (js "nav_home") = Some w /\ w <> [].
Proof.
  assert (E : translate En (js "nav_home") = Some (js "Home")) by (vm_compute; reflexivity).
  split; [exact E|]. exact (translations_parity En De (js "nav_home") (js "Home") E).
Defined.

(** The translations of one key carry the same markup, tag by tag with their
    attributes, so that switching the language (which assigns them to [innerHTML])
    never changes the elements of a page. *)
Theorem translations_same_markup k a b t :
  translate De k = Some a -> translate En k = Some b -> count t (tags_of a) = count t (tags_of b).
Proof.
  intros Ha Hb. apply same_tags_spec.
  assert (H : (let en := translations En in
    forallb (fun e => match last_assoc e.1 en with Some v => same_tags (tags_of e.2) (tags_of v) | None => true end)
      (translations De)) = true) by (vm_compute; reflexivity).
  cbv zeta in H. rewrite forallb_forall in H. apply last_assoc_In, list_elem_of_In, H in Ha.
  cbn [fst snd] in Ha. unfold translate in Hb. rewrite Hb in Ha. exact Ha.
Qed.

Lemma translations_same_markup_witness :
  exists a b, translate De (js "home_title") = Some a /\ translate En (js "home_title") = Some b /\
    count (js "br") (tags_of a) = count (js "br") (tags_of b).
Proof.
  destruct (translate De (js "home_title")) as [a|] eqn:Ea; [|by vm_compute in Ea].
  destruct (translate En (js "home_title")) as [b|] eqn:Eb; [|by vm_compute in Eb].
  exists a, b. split_and!; try done.
  exact (translations_same_markup (js "home_title") a b (js "br") Ea Eb).
Defined.

(** Switching the language leaves no residue of the language shown before, and
    toggling twice restores every text, placeholder and title that the three passes of
    [switchLanguage] over the translation attributes write (the hooks it calls afterwards
    are recorded, not run). *)
Theorem toggle_twice_restores ld a p :
  Forall well_keyed (elements p) ->
  let shown := switchLanguage ld a p in
  elements (toggleLanguage ld (toggleLanguage ld shown)) = elements shown /\
  currentLang (toggleLanguage ld (toggleLanguage ld shown)) = currentLang shown.
Proof.
  intros Hk shown. unfold toggleLanguage. split.
  - rewrite !elements_switch. unfold shown. rewrite !elements_switch, <- !list_fmap_compose.
    apply list_fmap_ext. intros i e He. unfold compose.
    apply (Forall_lookup_1 _ _ _ _ Hk) in He.
    assert (Hl : default De (lang_of (Some (tr (currentLang (switchLanguage ld (Some (tr (currentLang
      (switchLanguage ld a p)) (js "en") (js "de"))) (switchLanguage ld a p))) (js "en") (js "de"))))
      = default De (lang_of a)).
    { simpl. by destruct (lang_of a) as [[]|]. }
    rewrite Hl. assert (W : forall l, well_keyed (translate_element l e)).
    { intros l. rewrite translate_element_eq. revert He. unfold well_keyed.
      destruct e as [tg k ph ti pl v c tt]. simpl.
      destruct (known l k), (known l ph), (known l ti), tg; simpl; try done;
        by destruct (truthy (default [] pl)). }
    rewrite !translate_element_overrides by done. done.
  - simpl. by destruct (lang_of a) as [[]|].
Qed.

Definition demo_page : page :=
  Page De None [] [Element INPUT None (Some (js "market_search_placeholder")) None None [] [] None;
                   Element OtherTag (Some (js "nav_home")) None None None [] [] None]
    None None None None [].

Lemma toggle_twice_restores_witness :
  let shown := switchLanguage (Loaded true true false true false) (Some (js "en")) demo_page in
  map content (elements shown) = [[]; js "Home"] /\
  elements (toggleLanguage (Loaded true true false true false)
    (toggleLanguage (Loaded true true false true false) shown)) = elements shown.
Proof.
  split; [by vm_compute|].
  apply (toggle_twice_restores (Loaded true true false true false) (Some (js "en")) demo_page).
  constructor; [by left|]. constructor; [done|constructor].
Defined.

(** The language preferences of the browser, its time zone and the host name have
    no influence: without a stored choice or a [lang] parameter the portal is German. *)
Theorem browser_language_is_ignored urlLang browserLangs timeZone hostname st :
  lang_of urlLang = None ->
  (forall m, st = Some m -> lang_of (m !! lang_key) = None) ->
  detectInitialLanguage urlLang browserLangs timeZone hostname st = (De, st).
Proof.
  intros Hu Hs. unfold detectInitialLanguage. rewrite Hu.
  destruct st as [m|]; simpl; [rewrite (Hs m eq_refl)|]; by destruct (_ || _).
Qed.

Lemma browser_language_is_ignored_witness :
  detectInitialLanguage None [js "en-US"; js "en"] (js "America/New_York") (js "mesh.inetconnector.com") (Some ∅)
  = (De, Some ∅).
Proof. apply browser_language_is_ignored; [done|]. intros m E. by simplify_eq. Defined.

(** A language asked for by the [lang] parameter is used and remembered: the next
    visit without the parameter starts in it. *)
Theorem url_language_is_remembered l bl tz h bl' tz' h' m :
  let '(l1, st1) := detectInitialLanguage (Some (lang_name l)) bl tz h (Some m) in
  l1 = l /\ detectInitialLanguage None bl' tz' h' st1 = (l, st1).
Proof.
  unfold detectInitialLanguage. assert (E : lang_of (Some (lang_name l)) = Some l) by (by destruct l).
  rewrite E. simpl. split; [done|]. rewrite lookup_insert_eq. simpl. by destruct l.
Qed.

(** The entries of the static dictionary that its inverse does not restore. *)
Definition ambiguous : list jsstring := [js "Privacy"; js "Privacy Policy"].

(** Translating a static text to German and back restores it, but for the two
    texts whose German form is also that of another text. *)
Theorem static_text_round_trip en de :
  (en, de) ∈ static_de ->
  last_assoc en (static_text De) = Some de /\
  (last_assoc de (static_text En) = Some en <-> en ∉ ambiguous).
Proof.
  intros H.
  assert (C : (let a := static_de in let b := static_en in
    forallb (fun e => bool_decide (last_assoc e.1 a = Some e.2) &&
      Bool.eqb (bool_decide (last_assoc e.2 b = Some e.1)) (negb (existsb (seqb e.1) ambiguous))) a) = true)
    by (vm_compute; reflexivity).
  cbv zeta in C. rewrite forallb_forall in C. apply list_elem_of_In, C in H. cbn [fst snd] in H.
  apply andb_true_iff in H as [H1 H2]. apply bool_decide_eq_true in H1. split; [exact H1|].
  apply Bool.eqb_prop in H2. rewrite <- (bool_decide_eq_true (_ = _)).
  change (static_text En) with static_en. rewrite H2, negb_true_iff. split.
  - intros E Hin. apply list_elem_of_In in Hin.
    assert (T : existsb (seqb en) ambiguous = true) by (apply existsb_exists; exists en; split; [done|apply seqb_refl]).
    congruence.
  - intros Hn. destruct (existsb _ _) eqn:E; [|done]. apply existsb_exists in E as (x & Hx & E).
    apply seqb_eq in E. subst. by apply list_elem_of_In in Hx.
Qed.

Lemma static_text_round_trip_witness :
  last_assoc (js "Rechtliches") (static_text En) = Some (js "Legal").
Proof.
  apply (static_text_round_trip (js "Legal") (js "Rechtliches")).
  - apply (list_elem_of_lookup_2 _ 1%nat). vm_compute. reflexivity.
  - intros H. unfold ambiguous in H. apply list_elem_of_In in H. destruct H as [H|[H|[]]]; by vm_compute in H.
Defined.

(** Every quick prompt of one language exists in the other, is not empty, and the
    fallback table of portal.js is the table of portal-core.js. *)
Theorem quick_prompts_agree :
  covers (quick_prompts De) (quick_prompts En) = true /\
  covers (quick_prompts En) (quick_prompts De) = true /\
  QUICK_PROMPTS_FALLBACK_de = QUICK_PROMPTS_de /\ QUICK_PROMPTS_FALLBACK_en = QUICK_PROMPTS_en.
Proof. split_and!; vm_compute; reflexivity. Qed.

Lemma agent_dictionary_total l : covers (agent_translations l) (agent_translations (other l)) = true.
Proof. destruct l; vm_compute; reflexivity. Qed.
