(* ===== verification/PageText.v ===== *)
(** * The texts of a document (portal.js, portal-core.js)

    [syncPortalStaticLanguage] of portal.js with the functions it calls, and
    [plainPortalChrome] of portal-core.js, on a document as a tree.  What becomes of one
    text is in [I18n.v], the trees are those of [Dom.v].  Selectors are written out as
    predicates on an element; [querySelector] finds the first element in tree order. *)
From Stdlib Require Import Lia NArith QArith.
From stdpp Require Import base numbers list gmap strings.
From S2P Require Import Prelude JsString JsNumber JsValue JsJson JsonRoundTrip Dom I18nTables StaticTables I18n.

#[local] Open Scope N_scope.

(** ** Documents *)

Record document := Document { doc_head : node; doc_body : node }.

(** [document.querySelector(p)], and a change of what it finds. *)
Definition querySelector (p : jsstring -> list (jsstring * jsstring) -> bool) (d : document) : option node :=
  match find_first p (doc_head d) with Some x => Some x | None => find_first p (doc_body d) end.

Definition query (p : jsstring -> list (jsstring * jsstring) -> bool) (g : node -> node) (d : document) : document :=
  match update_first p g (doc_head d) with
  | Some h => Document h (doc_body d)
  | None => Document (doc_head d) (default (doc_body d) (update_first p g (doc_body d)))
  end.

Definition by_id (id t : jsstring) (a : list (jsstring * jsstring)) : bool := has (js "id") id a.

(** ** Page metadata *)

(** [meta[k=v]] *)
Definition meta_with (k v : jsstring) (t : jsstring) (a : list (jsstring * jsstring)) : bool := seqb t (js "meta") && has k v a.

Definition set_content (s : jsstring) (n : node) : node :=
  match n with Text _ => n | Elem t a v cs => Elem t (set_attr (js "content") s a) v cs end.

(** [document.title = s] *)
Definition set_title_element (s : jsstring) (d : document) : document :=
  let is_title t (_ : list (jsstring * jsstring)) := seqb t (js "title") in
  match querySelector is_title d with
  | Some _ => query is_title (set_text s) d
  | None =>
      match doc_head d with
      | Elem t a v cs => Document (Elem t a v (cs ++ [set_text s (Elem (js "title") [] [] [])])) (doc_body d)
      | Text _ => d
      end
  end.

Definition is_ld (t : jsstring) (a : list (jsstring * jsstring)) : bool :=
  seqb t (js "script") && has (js "type") (js "application/ld+json") a.

Section Sync.
Context (show_frac : Q -> jsstring) (html_text : jsstring -> jsstring).

(** The text of the JSON-LD script with the description [desc].  In strict mode the
    assignment to a member of a primitive value throws; an array takes the member, which
    [JSON.stringify] leaves out. *)
Definition describe_ld (desc text : jsstring) : jsstring :=
  match JSON_parse (if truthy text then text else js "{}") with
  | Ret (VObj fs) => JSON_stringify show_frac (VObj (set_member (js "description") (VStr desc) fs))
  | Ret (VArr l) => JSON_stringify show_frac (VArr l)
  | _ => text
  end.

(** [syncPortalMetadata(lang)] *)
Definition syncPortalMetadata (path : jsstring) (l : lang) (d : document) : document :=
  match page_meta path l with
  | None => d
  | Some (title, desc) =>
      let d1 := set_title_element title d in
      let d2 := query (meta_with (js "name") (js "description")) (set_content desc) d1 in
      let d3 := query (meta_with (js "property") (js "og:description")) (set_content desc) d2 in
      let d4 := query (meta_with (js "name") (js "twitter:description")) (set_content desc) d3 in
      let d5 := query (meta_with (js "property") (js "og:title")) (set_content title) d4 in
      let d6 := query (meta_with (js "name") (js "twitter:title")) (set_content title) d5 in
      query is_ld (fun n => set_text (describe_ld desc (textContent n)) n) d6
  end.

(** ** Static texts *)

(** [parent.closest('script, style, pre, code, textarea, input')] *)
Definition protected (inside : bool) (t : jsstring) (_ : list (jsstring * jsstring)) : bool :=
  inside || existsb (seqb t) [js "script"; js "style"; js "pre"; js "code"; js "textarea"; js "input"].

(** [translateTextNodes(root, lang)] *)
Definition translateTextNodes (l : lang) (root : node) : node :=
  let map := getStaticMap html_text l in
  map_texts protected (fun inside s => if inside : bool then s else translateTextNode map s) false root.

Definition translate_attr (map : list (jsstring * jsstring)) (k : jsstring) (a : list (jsstring * jsstring)) : list (jsstring * jsstring) :=
  match attr k a with Some v => set_attr k (translateValue map v) a | None => a end.

(** [translateStaticAttributes(lang)] *)
Definition translateStaticAttributes (l : lang) (d : document) : document :=
  let map := getStaticMap html_text l in
  let go := map_elems (fun _ a v => (translate_attr map (js "title") (translate_attr map (js "placeholder") a), v)) in
  Document (go (doc_head d)) (go (doc_body d)).

(** [translateFormValues(lang)]: the text areas, then the output of the playground. *)
Definition translateFormValues (l : lang) (d : document) : document :=
  let map := getStaticMap html_text l in
  let go := map_elems (fun t a v => (a, if seqb t (js "textarea") then translateValue map v else v)) in
  query (by_id (js "playground-output"))
    (fun n => match last_assoc (normalizeText (textContent n)) map with
              | Some t => if truthy t then set_text t n else n
              | None => n
              end)
    (Document (go (doc_head d)) (go (doc_body d))).

(** ** The whole synchronisation *)

(** [getLang()] *)
Definition getLang (window_lang : option jsstring) (st : storage) (navLang : jsstring) : outcome jsstring lang :=
  match window_lang, st with
  | _, Some m => Ret (ui_lang window_lang (m !! lang_key) navLang)
  | Some w, None => if seqb w (js "de") then Ret De else Throw (js "SecurityError")
  | None, None => Throw (js "SecurityError")
  end.

Definition set_display (s : jsstring) (n : node) : node :=
  match n with Text _ => n | Elem t a v cs => Elem t (set_attr (js "style.display") s a) v cs end.

Definition value_of (n : node) : jsstring := match n with Text _ => [] | Elem _ _ v _ => v end.

(** [syncProviderControls()] in the language of [getLang()]. *)
Definition sync_provider (l : lang) (d : document) : document :=
  let v := default [] (value_of <$> querySelector (by_id (js "modal-role")) d) in
  let is_provider := seqb (if truthy v then v else js "consumer") (js "provider") in
  let d1 := query (by_id (js "provider-extra-fields")) (set_display (if is_provider then js "flex" else js "none")) d in
  query (by_id (js "modal-submit-btn"))
    (set_text (if is_provider then tr l (js "⚡ GPU-Node registrieren") (js "⚡ Register GPU Node")
               else tr l (js "🚀 API-Key generieren") (js "🚀 Generate API Key"))) d1.

(** [clarifyVisionCapabilities()] in the language of [getLang()]; options have their value
    as an attribute. *)
Definition vision_option (t : jsstring) (a : list (jsstring * jsstring)) : bool :=
  seqb t (js "option") && has (js "value") (js "qwen2.5-vl:7b") a.

Definition clarify (l : lang) (d : document) : document :=
  query (by_id (js "playground-model-select"))
    (fun select => default select (update_first vision_option
       (set_text (tr l (js "Qwen 2.5 VL 7B (Vision / Bildanalyse – keine Bildgenerierung)")
                       (js "Qwen 2.5 VL 7B (Vision / image analysis – not image generation)"))) select)) d.

(** [syncPortalStaticLanguage(lang)]: the document, and whether an exception ended it. *)
Definition syncPortalStaticLanguage (path : jsstring) (window_lang : option jsstring) (st : storage) (navLang : jsstring)
    (arg : option jsstring) (d : document) : document * option jsstring :=
  let stored := getLang window_lang st navLang in
  match (match lang_of arg with Some l => Ret l | None => stored end) with
  | Throw e => (d, Some e)
  | Ret l =>
      let d1 := syncPortalMetadata path l d in
      let d2 := Document (doc_head d1) (translateTextNodes l (doc_body d1)) in
      let d3 := translateFormValues l (translateStaticAttributes l d2) in
      match stored with
      | Throw e => (d3, Some e)
      | Ret l' => (clarify l' (sync_provider l' d3), None)
      end
  end.

End Sync.

(** ** Emoji in header, hero and footer *)

Section Chrome.
(** [\p{Extended_Pictographic}]: a table of the Unicode standard. *)
Context (pictographic : N -> bool).

(** The class of the regular expression. *)
Definition stripped (cp : N) : bool :=
  pictographic cp || ((127462 <=? cp) && (cp <=? 127487)) || (cp =? 65039) || (cp =? 8205).

Definition code_point (hi lo : N) : N := 65536 + (hi - 55296) * 1024 + (lo - 56320).

(** [replace(…, '')] with the flag [u]: a surrogate pair is one character. *)
Fixpoint strip (s : jsstring) : jsstring :=
  match s with
  | [] => []
  | c :: r =>
      let one := (if stripped c then [] else [c]) ++ strip r in
      match r with
      | d :: r' =>
          if high_surrogate c && low_surrogate d
          then (if stripped (code_point c d) then [] else [c; d]) ++ strip r'
          else one
      | [] => one
      end
  end.

(** [header.site-header, .hero, footer] *)
Definition is_chrome (t : jsstring) (a : list (jsstring * jsstring)) : bool :=
  (seqb t (js "header") && has_class (js "site-header") a) || has_class (js "hero") a || seqb t (js "footer").

(** How many of the roots hold a text, and whether a script or style does. *)
Definition chrome_enter (c : nat * bool) (t : jsstring) (a : list (jsstring * jsstring)) : nat * bool :=
  ((if is_chrome t a then S c.1 else c.1), c.2 || seqb t (js "script") || seqb t (js "style")).

(** [plainPortalChrome()]: a text is changed once for every root around it. *)
Definition plainPortalChrome (n : node) : node :=
  map_texts chrome_enter (fun c s => if c.2 then s else Nat.iter c.1 strip s) (O, false) n.

End Chrome.

(** ** Texts with white space around them *)

#[local] Abbreviation blank s := (Forall (fun c => is_ws c = true) s).

Lemma collapse_blank b : blank b -> collapse b = match b with [] => [] | _ => [32] end.
Proof.
  induction 1 as [|c b Hc Hb IH]; [done|]. cbn [collapse]. rewrite Hc. destruct Hb as [|d b Hd Hb]; [done|]. by rewrite Hd.
Qed.

Lemma collapse_head x c : head x = Some c -> is_ws c = false -> head (collapse x) = Some c.
Proof. destruct x as [|d x]; [done|]. cbn. intros [= ->] ->. done. Qed.

Lemma collapse_lead a x c : blank a -> head x = Some c -> is_ws c = false ->
  collapse (a ++ x) = match a with [] => [] | _ => [32] end ++ collapse x.
Proof.
  intros Ha Hx Hc. induction Ha as [|w a Hw Ha IH]; [done|]. cbn [app collapse]. rewrite Hw.
  destruct Ha as [|w' a Hw' Ha]; cbn [app] in IH |- *.
  - destruct x as [|d x]; [done|]. cbn in Hx. injection Hx as ->. by rewrite Hc.
  - by rewrite Hw'.
Qed.

Lemma collapse_trail x b c : blank b -> last x = Some c -> is_ws c = false ->
  collapse (x ++ b) = collapse x ++ match b with [] => [] | _ => [32] end.
Proof.
  intros Hb. induction x as [|d x IH]; [done|]. destruct x as [|e x]; intros Hx Hc.
  - injection Hx as ->. cbn [app collapse]. rewrite Hc. cbn. by rewrite collapse_blank.
  - change (last (e :: x) = Some c) in Hx. specialize (IH Hx Hc). cbn [app collapse] in IH |- *. destruct (is_ws d); [|by rewrite IH].
    destruct (is_ws e); by rewrite IH.
Qed.

(** A text that is not empty and that [normalizeText] leaves as it is. *)
Definition normal (x : jsstring) : bool := truthy x && seqb (normalizeText x) x.

Lemma normal_ends x : normal x = true -> ws_free_ends x /\ x <> [].
Proof.
  unfold normal. intros [H1 H2]%andb_true_iff. apply seqb_eq in H2. split; [|by apply truthy_true].
  rewrite <- H2. apply trim_ends.
Qed.

Lemma trim_start_blank a s : blank a -> trim_start (a ++ s) = trim_start s.
Proof. induction 1 as [|c a Hc _ IH]; [done|]. cbn [app trim_start]. by rewrite Hc. Qed.

Lemma trim_end_blank s b : blank b -> trim_end (s ++ b) = trim_end s.
Proof. intros Hb. unfold trim_end. rewrite reverse_app, trim_start_blank; [done|by apply Forall_reverse]. Qed.

Section Padded.
Context (a x b : jsstring) (Ha : blank a) (Hb : blank b) (Hx : normal x = true).

Lemma padded_ends : exists c e r r', x = c :: r /\ x = r' ++ [e] /\ is_ws c = false /\ is_ws e = false.
Proof.
  destruct (normal_ends x Hx) as [[H1 H2] Hn]. destruct x as [|c r] eqn:E; [done|].
  destruct (last (c :: r)) as [e|] eqn:El; [|by apply last_None in El].
  pose proof El as El'. apply last_Some in El' as [r' Er]. exists c, e, r, r'. split_and!; [done..| |by apply H2].
  by apply H1.
Qed.

Lemma padded_normal : normalizeText (a ++ x ++ b) = x.
Proof.
  destruct padded_ends as (c & e & r & r' & E1 & E2 & Hc & He).
  assert (Hn : normalizeText x = x) by (apply andb_true_iff in Hx as [_ H]; by apply seqb_eq in H).
  unfold normalizeText in *. rewrite (collapse_lead a (x ++ b) c), (collapse_trail x b e); [|done| |done..|by rewrite E1|done].
  2: { by rewrite E2, last_snoc. }
  rewrite <- Hn at 2. unfold trim. rewrite trim_start_blank; [|destruct a; [done|by repeat constructor]].
  assert (Hh : head (collapse x) = Some c) by (apply collapse_head; [by rewrite E1|done]).
  assert (Hh' : forall t, head (collapse x ++ t) = Some c) by (intros t; by destruct (collapse x)).
  rewrite (trim_start_id (collapse x ++ _)), (trim_start_id (collapse x)) by (rewrite ?Hh', ?Hh; by intros ? [= <-]).
  apply trim_end_blank. destruct b; [done|by repeat constructor].
Qed.

Lemma padded_leading : leading (a ++ x ++ b) = a.
Proof.
  destruct padded_ends as (c & e & r & r' & E1 & _ & Hc & _). unfold leading. rewrite trim_start_blank by done.
  rewrite trim_start_id; [|rewrite E1; cbn; congruence]. rewrite (length_app a). apply take_app_length'. lia.
Qed.

Lemma padded_trailing : trailing (a ++ x ++ b) = b.
Proof.
  destruct padded_ends as (c & e & r & r' & _ & E2 & _ & He). unfold trailing. rewrite (app_assoc a x b), trim_end_blank by done.
  rewrite trim_end_id; [by rewrite drop_app_length|]. rewrite E2, app_assoc, last_snoc. congruence.
Qed.

(** A text whose normal form is in the map gets its translation, and keeps the white space. *)
Lemma translate_padded m y : last_assoc x m = Some y -> truthy y = true ->
  translateTextNode m (a ++ x ++ b) = a ++ y ++ b.
Proof.
  intros E Hy. unfold translateTextNode. rewrite padded_normal. pose proof Hx as [Ht _]%andb_true_iff. rewrite Ht, E, Hy. cbn [andb].
  destruct (seqb y x) eqn:Es; cbn [negb]; [apply seqb_eq in Es; by subst|]. by rewrite padded_leading, padded_trailing.
Qed.
End Padded.

(** ** What the functions promise *)

Lemma last_assoc_app k m m' :
  last_assoc k (m ++ m') = match last_assoc k m' with Some v => Some v | None => last_assoc k m end.
Proof.
  induction m as [|[k' v'] m IH]; cbn [app last_assoc]; [by destruct (last_assoc k m')|].
  rewrite IH. by destruct (last_assoc k m'), (last_assoc k m).
Qed.

Lemma static_normal : forallb (fun e => normal e.1 && normal e.2) static_de = true.
Proof. vm_compute. reflexivity. Qed.

Lemma static_entry en de : (en, de) ∈ static_de -> normal en = true /\ normal de = true.
Proof.
  intros H. pose proof static_normal as N. rewrite forallb_forall in N. apply list_elem_of_In, N in H. by apply andb_true_iff in H.
Qed.

Lemma static_text_normal l : (fun e : jsstring * jsstring => (normalizeText e.1, e.2)) <$> static_text l = static_text l.
Proof. destruct l; vm_compute; reflexivity. Qed.

Lemma static_map_entry html_text l k v :
  last_assoc k (static_text l) = Some v -> last_assoc k (getStaticMap html_text l) = Some v.
Proof. intros E. unfold getStaticMap. by rewrite last_assoc_app, static_text_normal, E. Qed.

(** A text the switch of the language restores: white space, a text no map knows, or a
    static text with white space around it, but for those that share a German text. *)
Definition restorable (html_text : jsstring -> jsstring) (s : jsstring) : Prop :=
  blank s \/
  (forall l, last_assoc (normalizeText s) (getStaticMap html_text l) = None) \/
  (exists a en de b, s = a ++ en ++ b /\ blank a /\ blank b /\ (en, de) ∈ static_de /\ en ∉ ambiguous).

Lemma blank_normal s : blank s -> normalizeText s = [].
Proof. intros H. unfold normalizeText. rewrite collapse_blank by done. by destruct s. Qed.

Lemma restorable_restored html_text s : restorable html_text s ->
  translateTextNode (getStaticMap html_text En) (translateTextNode (getStaticMap html_text De) s) = s.
Proof.
  intros [H|[H|(a & en & de & b & -> & Ha & Hb & Hin & Hamb)]].
  - unfold translateTextNode. by rewrite (blank_normal s H); cbn [truthy]; rewrite (blank_normal s H).
  - assert (E : forall l, translateTextNode (getStaticMap html_text l) s = s).
    { intros l. unfold translateTextNode. rewrite H. by destruct (truthy _). }
    by rewrite !E.
  - destruct (static_entry en de Hin) as [He Hd]. destruct (static_text_round_trip en de Hin) as [T1 T2].
    rewrite (translate_padded a en b Ha Hb He _ de); [|by apply static_map_entry|by apply andb_true_iff in Hd as [? _]].
    apply (translate_padded a de b Ha Hb Hd); [|by apply andb_true_iff in He as [? _]].
    by apply static_map_entry, T2.
Qed.

Lemma filter_kept (l : list (bool * jsstring)) f :
  List.filter fst ((fun e : bool * jsstring => (e.1, if e.1 then e.2 else f e.2)) <$> l) = List.filter fst l.
Proof. induction l as [|[[|] s] l IH]; cbn; [done|f_equal; exact IH|exact IH]. Qed.

(** Translating a page to German and back restores it: when every text outside scripts,
    styles, code and controls is white space, a text the tables do not know, or a static
    text with white space around it (but for the two that share their German text), the
    document tree is the same again; and in each direction the protected texts are left
    alone. *)
Theorem page_text_round_trip html_text root :
  Forall (fun e => e.1 = false -> restorable html_text e.2) (texts protected false root) ->
  translateTextNodes html_text En (translateTextNodes html_text De root) = root /\
  (forall l, List.filter fst (texts protected false (translateTextNodes html_text l root))
     = List.filter fst (texts protected false root)).
Proof.
  intros H. split.
  - apply map_texts_compose. eapply Forall_impl; [exact H|]. intros [[|] s] Hs; [done|]. by apply restorable_restored, Hs.
  - intros l. unfold translateTextNodes. rewrite texts_map. apply (filter_kept _ (translateTextNode (getStaticMap html_text l))).
Qed.

(** A footer with a static text, and a script with the same text. *)
Definition footer_page : node :=
  Elem (js "body") [] [] [Elem (js "footer") [] [] [Text [10; 32]; Elem (js "a") [] [] [Text (js " Legal ")]];
                          Elem (js "script") [] [] [Text (js "Legal")]].

Lemma page_text_round_trip_witness :
  translateTextNodes id En (translateTextNodes id De footer_page) = footer_page.
Proof.
  refine (proj1 (page_text_round_trip id footer_page _)).
  change (texts protected false footer_page) with [(false, [10; 32]); (false, js " Legal "); (true, js "Legal")].
  apply Forall_cons. split; [intros _; left; by repeat constructor|]. apply Forall_cons. split; [|by repeat constructor].
  intros _. right. right. exists [32], (js "Legal"), (js "Rechtliches"), [32].
  split_and!; [done|by repeat constructor..| |].
  - apply (list_elem_of_lookup_2 _ 1%nat). vm_compute. reflexivity.
  - intros H. unfold ambiguous in H. apply list_elem_of_In in H. destruct H as [H|[H|[]]]; by vm_compute in H.
Defined.


Lemma described_ld show_frac fs desc : json_normal (VObj fs) ->
  describe_ld show_frac desc (JSON_stringify show_frac (VObj fs))
  = JSON_stringify show_frac (VObj (set_member (js "description") (VStr desc) fs)).
Proof.
  intros H. unfold describe_ld. change (truthy (JSON_stringify show_frac (VObj fs))) with true. cbv iota.
  by rewrite json_round_trip.
Qed.

(** Only the description of a JSON-LD object changes, however often the language is
    switched. *)
Theorem json_ld_keeps_data show_frac fs desc desc' :
  json_normal (VObj fs) -> code_units desc ->
  let text := JSON_stringify show_frac (VObj fs) in
  JSON_parse (describe_ld show_frac desc text) = Ret (VObj (set_member (js "description") (VStr desc) fs)) /\
  describe_ld show_frac desc' (describe_ld show_frac desc text) = describe_ld show_frac desc' text.
Proof.
  intros H Hd. cbv zeta.
  assert (Hn : json_normal (VObj (set_member (js "description") (VStr desc) fs))).
  { apply set_member_normal; [by repeat constructor|by constructor|done]. }
  rewrite !described_ld by done. split; [by apply json_round_trip|]. by rewrite set_member_twice.
Qed.

Lemma json_ld_keeps_data_witness :
  let fs := [(js "@type", VStr (js "WebSite")); (js "description", VStr (js "Netz"))] in
  JSON_parse (describe_ld (fun _ => []) (js "Mesh") (JSON_stringify (fun _ => []) (VObj fs)))
  = Ret (VObj [(js "@type", VStr (js "WebSite")); (js "description", VStr (js "Mesh"))]).
Proof.
  cbv zeta. refine (proj1 (json_ld_keeps_data (fun _ => []) _ (js "Mesh") [] _ _)).
  - constructor; [|by repeat constructor]. vm_compute. rewrite !NoDup_cons. split_and!; [|set_solver|constructor].
    rewrite list_elem_of_singleton. done.
  - by repeat constructor.
Defined.

(** ** Emoji *)

(** The characters of a text. *)
Fixpoint code_points (s : jsstring) : list N :=
  match s with
  | [] => []
  | c :: r =>
      match r with
      | d :: r' => if high_surrogate c && low_surrogate d then code_point c d :: code_points r' else c :: code_points r
      | [] => [c]
      end
  end.

Section Strip.
Context (pictographic : N -> bool).
#[local] Abbreviation strip := (strip pictographic).

Lemma strip_single c r : high_surrogate c = false -> strip (c :: r) = (if stripped pictographic c then [] else [c]) ++ strip r.
Proof. intros H. cbn [PageText.strip]. destruct r as [|d r]; [done|]. by rewrite H. Qed.

Lemma points_single c r : high_surrogate c = false -> code_points (c :: r) = c :: code_points r.
Proof. intros H. cbn [code_points]. destruct r as [|d r]; [done|]. by rewrite H. Qed.

Lemma well_formed_single c r : high_surrogate c = false -> low_surrogate c = false -> well_formed (c :: r) = well_formed r.
Proof. intros H1 H2. cbn [well_formed]. destruct r; rewrite H1, ?H2; done. Qed.

(** The characters of the class disappear from a well-formed text, all others stay, and the
    text stays well formed; doing it again, as every switch of the language does and as
    nested roots do, changes nothing more. *)
Theorem chrome_loses_exactly_the_emoji s : well_formed s = true ->
  code_points (strip s) = List.filter (fun c => negb (stripped pictographic c)) (code_points s) /\
  well_formed (strip s) = true /\ forall n, Nat.iter (S n) strip s = strip s.
Proof.
  intros Hs. assert (K : code_points (strip s) = List.filter (fun c => negb (stripped pictographic c)) (code_points s) /\
    well_formed (strip s) = true /\ strip (strip s) = strip s).
  { revert s Hs. apply well_formed_ind; [done| |].
    - intros c r Hc Hl _ (I1 & I2 & I3). rewrite strip_single, points_single by done. cbn [List.filter].
      destruct (stripped pictographic c) eqn:E; cbn [app negb]; [done|].
      rewrite points_single, well_formed_single, strip_single, E by done. cbn [app]. by rewrite I1, I3.
    - intros c d r Hc Hd _ (I1 & I2 & I3). cbn [PageText.strip code_points]. rewrite Hc, Hd. cbn [andb List.filter].
      destruct (stripped pictographic (code_point c d)) eqn:E; cbn [app negb]; [done|].
      cbn [PageText.strip code_points well_formed]. rewrite Hc, Hd, E. cbn [andb app]. by rewrite I1, I2, I3. }
  destruct K as (K1 & K2 & K3). split_and!; [done..|]. induction n as [|n IH]; [done|]. cbn [Nat.iter nat_rect] in IH |- *. by rewrite IH.
Qed.

(** The copyright sign of a footer is a pictograph for Unicode, and is removed. *)
Theorem copyright_sign_is_removed s : pictographic 169 = true -> strip (169 :: s) = strip s.
Proof. intros H. rewrite strip_single by done. unfold stripped. by rewrite H. Qed.
End Strip.

Lemma chrome_loses_exactly_the_emoji_witness :
  strip (fun c => c =? 128640) (js "🚀 Start") = js " Start" /\ well_formed (js " Start") = true.
Proof.
  refine (conj eq_refl _). exact (proj1 (proj2 (chrome_loses_exactly_the_emoji (fun c => c =? 128640) (js "🚀 Start") eq_refl))).
Defined.

Lemma copyright_sign_is_removed_witness : strip (fun c => c =? 169) (js "© 2026 ComputeMesh.") = js " 2026 ComputeMesh.".
Proof. exact (copyright_sign_is_removed (fun c => c =? 169) (js " 2026 ComputeMesh.") eq_refl). Defined.

(** In a text that is not well formed the removal can put the halves of a pair together. *)
Example strip_can_make_an_emoji :
  let pict c := (c =? 128512) in
  strip pict [55357; 8205; 56832] = [55357; 56832] /\ strip pict (strip pict [55357; 8205; 56832]) = [].
Proof. vm_compute. done. Qed.

(** ** The whole synchronisation *)

(** With a blocked store the language cannot be looked up on a page that is not German:
    whatever the argument, the synchronisation ends with an exception, which
    [switchLanguage] does not catch. *)
Theorem blocked_store_ends_the_sync show_frac html_text path window_lang navLang arg d :
  window_lang <> Some (js "de") ->
  snd (syncPortalStaticLanguage show_frac html_text path window_lang None navLang arg d) = Some (js "SecurityError").
Proof.
  intros H. unfold syncPortalStaticLanguage.
  assert (E : getLang window_lang None navLang = Throw (js "SecurityError")).
  { destruct window_lang as [w|]; [|done]. cbn [getLang]. destruct (seqb w (js "de")) eqn:Ew; [|done]. apply seqb_eq in Ew. congruence. }
  rewrite E. by destruct (lang_of arg).
Qed.

Lemma blocked_store_ends_the_sync_witness :
  snd (syncPortalStaticLanguage (fun _ => []) id (js "/") (Some (js "en")) None (js "en") (Some (js "en"))
         (Document (Elem (js "head") [] [] []) footer_page)) = Some (js "SecurityError").
Proof. apply (blocked_store_ends_the_sync (fun _ => []) id). done. Defined.

(** The metadata of a page whose address ends with a slash. *)
Example metadata_of_docs :
  let metas d := match doc_head d with Elem _ _ _ cs => (fun n => match n with Elem t a _ c => (t, default (concat (textContent <$> c)) (attr (js "content") a)) | Text s => ([], s) end) <$> cs | _ => [] end in
  let meta k v := Elem (js "meta") [(k, v); (js "content", js "?")] [] [] in
  let d := Document (Elem (js "head") [] [] [Elem (js "title") [] [] [Text (js "?")]; meta (js "name") (js "description");
                       meta (js "property") (js "og:title"); Elem (js "script") [(js "type", js "application/ld+json")] [] [Text (js "{")]]) (Text []) in
  exists title desc, page_meta (js "/docs/") En = Some (title, desc) /\
  metas (syncPortalMetadata (fun _ => []) (js "/docs/") En d)
  = [(js "title", title); (js "meta", desc); (js "meta", title); (js "script", js "{")].
Proof. vm_compute. do 2 eexists. split; reflexivity. Qed.
