(* ===== verification/Auth.v ===== *)
(** * Sessions and credentials (portal-core.js, agent-workspace/auth.js)

    Where the portal and the agent workspace find the user's key ([localStorage] and
    the [cm_session] cookie), how they clean it, how a key arriving in a legacy link of
    the AI subdomain is stored and removed from the address, and what the sign-out
    button does. *)
From Stdlib Require Import Lia NArith QArith.
From stdpp Require Import base numbers list gmap strings.
From S2P Require Import Prelude JsString JsNumber JsValue JsJson I18n.

#[local] Open Scope N_scope.

(** ** Cleaning a key *)

Definition is_quote (c : N) : bool := (c =? 34) || (c =? 39) || (c =? 96).

(** [s.replace(/^["'`]|["'`]$/g, '')] *)
Definition strip_head (s : jsstring) : jsstring :=
  match s with c :: r => if is_quote c then r else s | [] => [] end.
Definition strip_quotes (s : jsstring) : jsstring :=
  let t := strip_head s in
  match last t with
  | Some c => if is_quote c then take (length t - 1) t else t
  | None => t
  end.

(** [s.replace(/^Bearer\s+/i, '')] *)
Definition strip_bearer (s : jsstring) : jsstring :=
  if starts_with_ci (js "bearer") s then
    match drop 6 s with
    | c :: r => if is_ws c then trim_start (c :: r) else s
    | [] => s
    end
  else s.

Definition line_break (c : N) : bool := (c =? 13) || (c =? 10).

(** [s.split(/[\r\n]/)[0]] *)
Definition first_line (s : jsstring) : jsstring := default [] (head (split_class line_break s)).

(** [String(raw).trim().replace(quotes).replace(Bearer).split(/[\r\n]/)[0].trim()] *)
Definition normalize_key (raw : jsstring) : jsstring :=
  trim (first_line (strip_bearer (strip_quotes (trim raw)))).

(** A key as the gateway issues it: nothing to strip. *)
Definition clean_key (k : jsstring) : bool :=
  forallb (fun c => negb (is_ws c) && negb (is_quote c)) k.

(** ** Cookies *)

(** A cookie is identified by its name and the domain it was set for ([None]: only
    the host that set it). *)
Record cookie := Cookie { c_name : jsstring; c_value : jsstring; c_domain : option jsstring }.

Definition same_cookie (n : jsstring) (d : option jsstring) (c : cookie) : bool :=
  seqb (c_name c) n && bool_decide (c_domain c = d).

(** [document.cookie = '...']: replaces the cookie of that name and domain. *)
Definition set_cookie (c : cookie) (jar : list cookie) : list cookie :=
  List.filter (fun x => negb (same_cookie (c_name c) (c_domain c) x)) jar ++ [c].

(** The same with an expiry date in the past. *)
Definition expire_cookie (n : jsstring) (d : option jsstring) (jar : list cookie) : list cookie :=
  List.filter (fun x => negb (same_cookie n d x)) jar.

(** [document.cookie] *)
Definition cookie_string (jar : list cookie) : jsstring :=
  join (js "; ") ((fun c => c_name c ++ js "=" ++ c_value c) <$> jar).

(** ** Percent encoding *)

Definition hex_upper (d : N) : N := if d <? 10 then 48 + d else 55 + d.
Definition pct (b : N) : jsstring := [37; hex_upper (b / 16); hex_upper (b mod 16)].

(** The characters [encodeURIComponent] keeps. *)
Definition uri_unreserved (c : N) : bool :=
  digit c || ((65 <=? c) && (c <=? 90)) || ((97 <=? c) && (c <=? 122))
  || existsb (N.eqb c) [45; 95; 46; 33; 126; 42; 39; 40; 41].

(** [encodeURIComponent(s)]: a [URIError] ([None]) on an unpaired surrogate. *)
Fixpoint encodeURIComponent (s : jsstring) : option jsstring :=
  match s with
  | [] => Some []
  | c :: r =>
      if c <? 128 then
        (fun t => (if uri_unreserved c then [c] else pct c) ++ t) <$> encodeURIComponent r
      else if c <? 2048 then
        (fun t => pct (192 + c / 64) ++ pct (128 + c mod 64) ++ t) <$> encodeURIComponent r
      else if high_surrogate c then
        match r with
        | d :: r' =>
            if low_surrogate d then
              let cp := 65536 + (c - 55296) * 1024 + (d - 56320) in
              (fun t => pct (240 + cp / 262144) ++ pct (128 + cp / 4096 mod 64)
                        ++ pct (128 + cp / 64 mod 64) ++ pct (128 + cp mod 64) ++ t) <$> encodeURIComponent r'
            else None
        | [] => None
        end
      else if low_surrogate c then None
      else (fun t => pct (224 + c / 4096) ++ pct (128 + c / 64 mod 64) ++ pct (128 + c mod 64) ++ t)
             <$> encodeURIComponent r
  end.

Definition hex_byte (a b : N) : option N :=
  match hex_digit a, hex_digit b with Some x, Some y => Some (x * 16 + y) | _, _ => None end.

(** The next escape of the text, when it is a continuation byte: its six low bits. *)
Definition continuation (s : jsstring) : option (N * jsstring) :=
  match s with
  | p :: a :: b :: r =>
      if p =? 37 then
        match hex_byte a b with
        | Some x => if (128 <=? x) && (x <=? 191) then Some (x - 128, r) else None
        | None => None
        end
      else None
  | _ => None
  end.

Definition utf16 (cp : N) : jsstring :=
  if cp <? 65536 then [cp] else [55296 + (cp - 65536) / 1024; 56320 + (cp - 65536) mod 1024].

(** The code point that starts with byte [x]; over-long forms and surrogates are refused. *)
Definition decode_multi (x : N) (r : jsstring) : option (N * jsstring) :=
  if (194 <=? x) && (x <=? 223) then
    match continuation r with Some (y, r1) => Some ((x - 192) * 64 + y, r1) | None => None end
  else if (224 <=? x) && (x <=? 239) then
    match continuation r with
    | Some (y, r1) =>
        match continuation r1 with
        | Some (z, r2) =>
            let cp := (x - 224) * 4096 + y * 64 + z in
            if (cp <? 2048) || high_surrogate cp || low_surrogate cp then None else Some (cp, r2)
        | None => None
        end
    | None => None
    end
  else if (240 <=? x) && (x <=? 244) then
    match continuation r with
    | Some (y, r1) =>
        match continuation r1 with
        | Some (z, r2) =>
            match continuation r2 with
            | Some (w, r3) =>
                let cp := (x - 240) * 262144 + y * 4096 + z * 64 + w in
                if (cp <? 65536) || (1114111 <? cp) then None else Some (cp, r3)
            | None => None
            end
        | None => None
        end
    | None => None
    end
  else None.

(** [decodeURIComponent(s)]; the fuel is the length of the text. *)
Fixpoint decode_uri (fuel : nat) (s : jsstring) : option jsstring :=
  match fuel with
  | O => Some []
  | S fuel =>
      match s with
      | [] => Some []
      | c :: r =>
          if c =? 37 then
            match r with
            | a :: b :: r1 =>
                match hex_byte a b with
                | Some x =>
                    if x <? 128 then (cons x) <$> decode_uri fuel r1
                    else match decode_multi x r1 with
                         | Some (cp, r2) => (app (utf16 cp)) <$> decode_uri fuel r2
                         | None => None
                         end
                | None => None
                end
            | _ => None
            end
          else (cons c) <$> decode_uri fuel r
      end
  end.

Definition decodeURIComponent (s : jsstring) : option jsstring := decode_uri (length s) s.

Example uri_example :
  encodeURIComponent (js "a b/ü€😀") = Some (js "a%20b%2F%C3%BC%E2%82%AC%F0%9F%98%80") /\
  decodeURIComponent (js "a%20b%2F%C3%BC%E2%82%AC%F0%9F%98%80") = Some (js "a b/ü€😀") /\
  decodeURIComponent (js "%C0%80") = None /\ decodeURIComponent (js "100%") = None.
Proof. vm_compute. done. Qed.

(** ** The portal *)

Module Portal.

Record location := Location {
  hostname : jsstring;
  protocol : jsstring;
  pathname : jsstring;
  params : list (jsstring * jsstring);
}.

(** What the address bar and the navigation see. *)
Inductive navigation : Type :=
| ReplaceState (url : jsstring)
| Replace (url : jsstring)
| Href (url : jsstring)
| Reload.

Record browser := Browser {
  ls : storage;
  jar : list cookie;
  isLoggedIn : option bool;
  navs : list navigation;
  logouts : nat;
  auth_section_hidden : option bool;
}.

Definition set_ls (st : storage) (b : browser) : browser :=
  Browser st (jar b) (isLoggedIn b) (navs b) (logouts b) (auth_section_hidden b).
Definition set_jar (j : list cookie) (b : browser) : browser :=
  Browser (ls b) j (isLoggedIn b) (navs b) (logouts b) (auth_section_hidden b).
Definition navigate (n : navigation) (b : browser) : browser :=
  Browser (ls b) (jar b) (isLoggedIn b) (navs b ++ [n]) (logouts b) (auth_section_hidden b).

Definition key_names : list jsstring :=
  [js "cm_fleet_owner_key"; js "cm_owner_key"; js "cm_api_key"; js "cm_token"; js "apiKey"].

(** [getActiveComputeMeshApiKey()] *)
Definition getActiveComputeMeshApiKey (st : storage) : jsstring :=
  match st with
  | Some m => let raw := first_item key_names m in if truthy raw then normalize_key raw else []
  | None => []
  end.

(** [hasActiveSession()]: a throwing storage makes the answer [false], unless an
    earlier test already decided. *)
Definition hasActiveSession (b : browser) : bool :=
  default false (isLoggedIn b)
  || includes (js "cm_session=") (cookie_string (jar b))
  || match ls b with
     | Some m => existsb (fun k => truthy (item_or_empty k m)) (key_names ++ [js "cm_fleet_email"])
     | None => false
     end.

(** [urlParams.get(name)], and [a || b || c] of three of them *)
Definition param (l : location) (name : jsstring) : jsstring := default [] (last_assoc name (rev (params l))).

Definition query_key (l : location) : jsstring :=
  let a := param l (js "key") in
  let b := param l (js "api_key") in
  if truthy a then a else if truthy b then b else param l (js "token").

Section Routing.
Context (show_frac : Q -> jsstring).

(** [cfg.apiKey = qKey] on a parsed value: an exception on [null], no effect on
    primitives and on what is serialised of an array. *)
Definition with_api_key (q : jsstring) (v : jsval) : option jsval :=
  match v with
  | VNull | VUndef => None
  | VObj fs => Some (VObj (set_member (js "apiKey") (VStr q) fs))
  | _ => Some v
  end.

Definition config_keys : list jsstring :=
  js <$> ["LlamaUi.config"; "LlamaCppWebui.config"; "LlamacppWebui.config"; "settings"; "config"]%string.

(** One round of [configKeys.forEach]: any exception leaves the entry alone. *)
Definition update_config (q : jsstring) (m : gmap jsstring jsstring) (k : jsstring) : gmap jsstring jsstring :=
  let cfgRaw := item_or_empty k m in
  match JSON_parse (if truthy cfgRaw then cfgRaw else js "{}") with
  | Ret v => match with_api_key q v with Some v' => <[k := JSON_stringify show_frac v']> m | None => m end
  | Throw _ => m
  end.

Definition overrides_key : jsstring := js "LlamaUi.userOverrides".

Definition is_api_key (v : jsval) : bool := match v with VStr s => seqb s (js "apiKey") | _ => false end.

Definition update_overrides (m : gmap jsstring jsstring) : gmap jsstring jsstring :=
  let ovRaw := item_or_empty overrides_key m in
  match JSON_parse (if truthy ovRaw then ovRaw else js "[]") with
  | Ret v =>
      let ov := array_or_nil v in
      let ov' := if existsb is_api_key ov then ov else ov ++ [VStr (js "apiKey")] in
      <[overrides_key := JSON_stringify show_frac (VArr ov')]> m
  | Throw _ => m
  end.

Definition store_key (q : jsstring) (m : gmap jsstring jsstring) : gmap jsstring jsstring :=
  let m1 := fold_left (fun m k => <[k := q]> m) key_names m in
  update_overrides (fold_left (update_config q) config_keys m1).

Definition session_cookie (q : jsstring) : option cookie :=
  (fun v => Cookie (js "cm_session") v (Some (js ".inetconnector.com"))) <$> encodeURIComponent q.

Definition is_root (path : jsstring) : bool :=
  seqb path (js "/") || seqb path (js "/index.html") || negb (truthy path).

Definition webui : jsstring := js "/webui/".

(** [handleAiSubdomainRouting()] *)
Definition handleAiSubdomainRouting (l : location) (b : browser) : browser :=
  if seqb (hostname l) (js "ai.inetconnector.com") then
    let qKey := normalize_key (query_key l) in
    if truthy (query_key l) && truthy qKey then
      match ls b with
      | None => b
      | Some m =>
          let b1 := set_ls (Some (store_key qKey m)) b in
          let b2 := match session_cookie qKey with Some c => set_jar (set_cookie c (jar b1)) b1 | None => b1 end in
          navigate (Replace webui) (navigate (ReplaceState webui) b2)
      end
    else if is_root (pathname l) then
      navigate (Replace (if hasActiveSession b then webui else js "/ai-auth.html")) b
    else b
  else b.

End Routing.

(** [handleAuthNavClick()]; [doLogout]: whether the page defines [window.doLogout]. *)
Definition handleAuthNavClick (doLogout : bool) (l : location) (b : browser) : browser :=
  if doLogout && default false (isLoggedIn b) then
    Browser (ls b) (jar b) (isLoggedIn b) (navs b) (S (logouts b)) (auth_section_hidden b)
  else if hasActiveSession b then
    let b1 := match ls b with
              | Some m =>
                  set_jar (expire_cookie (js "cm_session") None (jar b))
                    (set_ls (Some (delete (js "cm_fleet_email") (delete (js "cm_api_key") (delete (js "cm_owner_key") m)))) b)
              | None => b
              end in
    let b2 := Browser (ls b1) (jar b1) ((fun _ => false) <$> isLoggedIn b1) (navs b1) (logouts b1) (auth_section_hidden b1) in
    if starts_with (js "/fleet") (pathname l) then navigate Reload b2 else b2
  else if starts_with (js "/fleet") (pathname l) then
    Browser (ls b) (jar b) (isLoggedIn b) (navs b) (logouts b) ((fun _ => false) <$> auth_section_hidden b)
  else navigate (Href (js "/fleet")) b.

(** ** The navigation bar *)

Record link := Link {
  lk_href : jsstring; lk_target : jsstring; lk_rel : jsstring; lk_text : jsstring;
  lk_i18n : jsstring; lk_title : jsstring; in_dropdown : bool;
}.

Record drop_item := DropItem {
  di_href : jsstring; di_target : jsstring; di_rel : jsstring; di_icon : option jsstring;
  di_title : option (jsstring * jsstring); di_sub : option (jsstring * jsstring);
}.

Record navbar := Navbar {
  nav_btn : bool;
  nav_icon : option jsstring;
  nav_text : option (jsstring * jsstring);
  links : list link;
  drop_items : list drop_item;
  studio : bool;
  banner : option (jsstring * jsstring);
}.

Definition aiChatUrl : jsstring := js "https://ai.inetconnector.com/".

Definition t (l : lang) (key fallback : jsstring) : jsstring := translate_or l key fallback.

Definition update_link (l : lang) (k : link) : link :=
  if in_dropdown k then k
  else Link aiChatUrl (js "_blank") (js "noopener noreferrer") (t l (js "nav_aichat") (js "💬 AI-Chat ↗"))
         (js "nav_aichat")
         (tr l (js "ComputeMesh AI-Chat in neuem Fenster öffnen") (js "Open ComputeMesh AI-Chat in a new window"))
         false.

Definition update_drop (l : lang) (isAuth : bool) (d : drop_item) : drop_item :=
  let sub := js "Vollwertige Chat-UI mit Multi-Modell, PDF/Bilder & Branching" in
  let tkey := if isAuth then js "nav_prod_inference_auth" else js "nav_prod_inference" in
  let skey := if isAuth then js "nav_prod_inference_sub_auth" else js "nav_prod_inference_sub" in
  DropItem aiChatUrl (js "_blank") (js "noopener noreferrer") ((fun _ => js "💬") <$> di_icon d)
    ((fun _ => (t l tkey (if isAuth then js "💬 WebUI Studio ↗" else js "WebUI Studio ↗"), tkey)) <$> di_title d)
    ((fun _ => (t l skey sub, skey)) <$> di_sub d).

Definition banner_html (l : lang) : jsstring :=
  jsq "
        <div class=`pg-auth-banner-content`>
          <div class=`pg-auth-banner-icon`>🚀</div>
          <div class=`pg-auth-banner-text`>
            <h4 data-i18n=`pg_auth_banner_title`>"
  ++ t l (js "pg_auth_banner_title") (tr l (js "Angemeldet: Vollwertiges WebUI Studio verfügbar")
            (js "Signed In: Full WebUI Studio Workspace Available"))
  ++ jsq "</h4>
            <p data-i18n=`pg_auth_banner_desc`>"
  ++ t l (js "pg_auth_banner_desc")
       (tr l (js "Nutze die integrierte llama-server WebUI mit Multi-Modellen, PDF/Bilder-Upload, Branching und unbegrenzter Chat-Historie.")
             (js "Use the built-in llama-server WebUI with multi-model switching, PDF/image uploads, branching, and local chat history."))
  ++ jsq "</p>
          </div>
        </div>
        <a href=`" ++ aiChatUrl ++ jsq "` target=`_blank` rel=`noopener noreferrer` class=`btn btn-primary btn-sm pg-auth-banner-btn` onclick=`openWebUI(event)` data-i18n=`pg_auth_banner_btn`>
          "
  ++ t l (js "pg_auth_banner_btn") (tr l (js "🚀 WebUI Studio öffnen ↗") (js "🚀 Open WebUI Studio ↗"))
  ++ jsq "
        </a>
      ".

(** [updateAuthStateUI()] *)
Definition updateAuthStateUI (l : lang) (b : browser) (n : navbar) : navbar :=
  let isAuth := hasActiveSession b in
  let key := if isAuth then js "fleet_btn_logout" else js "fleet_btn_login_nav" in
  let label := if isAuth then t l key (tr l (js "Abmelden") (js "Sign out"))
               else t l key (tr l (js "Anmelden") (js "Sign in")) in
  Navbar (nav_btn n)
    (if nav_btn n then (fun _ => if isAuth then js "🚪" else js "🔑") <$> nav_icon n else nav_icon n)
    (if nav_btn n then (fun _ => (label, key)) <$> nav_text n else nav_text n)
    (update_link l <$> links n) (update_drop l isAuth <$> drop_items n) (studio n)
    (if studio n then
       if isAuth then Some (js "flex", banner_html l)
       else (fun x => (js "none", snd x)) <$> banner n
     else banner n).

End Portal.

(** ** The agent workspace *)

Module Agent.

Definition token_names : list jsstring :=
  [js "cm_auth_token"; js "cm_session_token"; js "cm_api_key"; js "apiKey"].

(** The value group of the session-cookie pattern of [resolveAuthToken], at the given
    position: at least one character other than a semicolon. *)
Definition value_at (s : jsstring) : option jsstring :=
  if starts_with (js "cm_session=") s then
    let v := default [] (head (split_on 59 (drop 11 s))) in
    if truthy v then Some v else None
  else None.

(** The leftmost match after a semicolon and white space. *)
Fixpoint scan_cookie (s : jsstring) : option jsstring :=
  match s with
  | [] => None
  | c :: r =>
      if c =? 59 then
        match value_at (trim_start r) with Some v => Some v | None => scan_cookie r end
      else scan_cookie r
  end.

Definition match_session (cookies : jsstring) : option jsstring :=
  match value_at cookies with Some v => Some v | None => scan_cookie cookies end.

(** [resolveAuthToken()]; the second argument is [document.cookie]. *)
Definition resolveAuthToken (st : storage) (cookies : jsstring) : option jsstring :=
  match st with
  | None => None
  | Some m =>
      let explicit := first_item token_names m in
      if truthy explicit && truthy (trim explicit) then Some (strip_bearer (strip_quotes (trim explicit)))
      else match match_session cookies with
           | Some v => trim <$> decodeURIComponent v
           | None => None
           end
  end.

(** The headers [fetchWithAuth] sends: the caller's over the default content type, and
    the token, when there is one, over everything. *)
Definition auth_headers (st : storage) (cookies : jsstring) (headers : list (jsstring * jsstring)) : list (jsstring * jsstring) :=
  [(js "Content-Type", js "application/json")] ++ headers
  ++ match resolveAuthToken st cookies with
     | Some tok => if truthy tok then [(js "Authorization", js "Bearer " ++ tok)] else []
     | None => []
     end.

End Agent.

(** ** Facts about cleaning *)

Lemma strip_quotes_sub s c : c ∈ strip_quotes s -> c ∈ s.
Proof.
  assert (Hh : c ∈ strip_head s -> c ∈ s).
  { destruct s as [|d s]; simpl; [done|]. destruct (is_quote d); set_solver. }
  unfold strip_quotes. destruct (last (strip_head s)) as [d|]; [|done]. destruct (is_quote d); [|done].
  intros H. apply Hh. rewrite <- (take_drop (length (strip_head s) - 1) (strip_head s)). set_solver.
Qed.

Lemma elem_of_trim_start s c : c ∈ trim_start s -> c ∈ s.
Proof. destruct (trim_start_suffix s) as (w & E & _). rewrite E at 2. set_solver. Qed.

Lemma strip_bearer_sub s c : c ∈ strip_bearer s -> c ∈ s.
Proof.
  unfold strip_bearer. destruct (starts_with_ci _ s); [|done].
  destruct (drop 6 s) as [|d r] eqn:E; [done|]. destruct (is_ws d); [|done].
  intros H%elem_of_trim_start. rewrite <- E in H. rewrite <- (take_drop 6 s). set_solver.
Qed.

Lemma first_line_spec s :
  (exists r, s = first_line s ++ r) /\ Forall (fun c => line_break c = false) (first_line s).
Proof.
  unfold first_line. split.
  - induction s as [|c s [r IH]]; simpl; [by exists []|].
    destruct (line_break c); simpl; [by eexists|].
    destruct (split_class line_break s) as [|h t]; simpl in *; [by exists s|].
    exists r. by rewrite IH at 1.
  - pose proof (split_class_free line_break s) as F.
    destruct (split_class line_break s); simpl; [constructor|]. by inv F.
Qed.

Lemma no_break_first_line s : Forall (fun c => line_break c = false) s -> first_line s = s.
Proof.
  unfold first_line. intros H. assert (E : split_class line_break s = [s]); [|by rewrite E].
  induction H as [|c s Hc H IH]; [done|]. simpl. by rewrite Hc, IH.
Qed.

Lemma ws_not_clean c : negb (is_ws c) && negb (is_quote c) = true -> is_ws c = false /\ is_quote c = false.
Proof. intros H. by bool_norm. Qed.

Lemma line_break_ws c : line_break c = true -> is_ws c = true.
Proof.
  unfold line_break. intros [E|E]%orb_true_iff; bool_norm; subst; reflexivity.
Qed.

Section Clean.
Context (k : jsstring) (Hk : clean_key k = true).

Lemma clean_char c : c ∈ k -> is_ws c = false /\ is_quote c = false.
Proof.
  intros H. unfold clean_key in Hk. rewrite forallb_forall in Hk. apply ws_not_clean, Hk.
  by apply list_elem_of_In.
Qed.

Lemma clean_trim : trim k = k.
Proof.
  apply trim_id. split; intros c Hc; apply clean_char.
  - destruct k; [done|]. simplify_eq/=. set_solver.
  - apply last_Some in Hc as [l' ->]. set_solver.
Qed.

Lemma clean_quotes : strip_quotes k = k.
Proof.
  assert (Hh : strip_head k = k).
  { pose proof clean_char as C. destruct k as [|d r]; [done|]. simpl. by destruct (C d) as [_ ->]; [set_solver|]. }
  unfold strip_quotes. rewrite Hh. destruct (last k) as [c|] eqn:E; [|done].
  apply last_Some in E as [l' E]. destruct (clean_char c) as [_ ->]; [rewrite E; set_solver|done].
Qed.

Lemma clean_bearer : strip_bearer k = k.
Proof.
  unfold strip_bearer. destruct (starts_with_ci _ k); [|done].
  destruct (drop 6 k) as [|d r] eqn:E; [done|].
  destruct (clean_char d) as [-> _]; [|done]. rewrite <- (take_drop 6 k), E. set_solver.
Qed.

Lemma clean_normal : normalize_key k = k.
Proof.
  unfold normalize_key. rewrite clean_trim, clean_quotes, clean_bearer, no_break_first_line; [apply clean_trim|].
  apply Forall_forall. intros c Hc. destruct (line_break c) eqn:E; [|done].
  apply line_break_ws in E. destruct (clean_char c Hc). congruence.
Qed.

End Clean.

(** ** Facts about the cookie *)

Lemma hex_digit_upper d : d < 16 -> hex_digit (hex_upper d) = Some d.
Proof.
  intros H. assert (C : forallb (fun d => bool_decide (hex_digit (hex_upper d) = Some d))
    (N.of_nat <$> seq 0 16) = true) by (vm_compute; reflexivity).
  rewrite forallb_forall in C. apply (bool_decide_unpack (hex_digit (hex_upper d) = Some d)), Is_true_true_2.
  apply C, list_elem_of_In, list_elem_of_fmap.
  exists (N.to_nat d). rewrite N2Nat.id. split; [done|]. apply elem_of_seq. lia.
Qed.

Lemma hex_byte_pct b : b < 256 -> hex_byte (hex_upper (b / 16)) (hex_upper (b mod 16)) = Some b.
Proof.
  intros H. unfold hex_byte. rewrite !hex_digit_upper;
    [|apply N.mod_lt; lia|apply N.Div0.div_lt_upper_bound; lia].
  f_equal. pose proof (N.div_mod b 16 ltac:(lia)). lia.
Qed.

Lemma unreserved_not_pct c : uri_unreserved c = true -> (c =? 37) = false.
Proof. intros H. destruct (c =? 37) eqn:E; [|done]. bool_norm. by subst. Qed.

(** ASCII text survives percent encoding; the encoded text has no semicolon. *)
Lemma encode_ascii s : Forall (fun c => c < 128) s ->
  exists e, encodeURIComponent s = Some e /\ (length s <= length e)%nat /\ 59 ∉ e /\
    forall fuel, (length s <= fuel)%nat -> decode_uri fuel e = Some s.
Proof.
  induction 1 as [|c s Hc H (e & E & Hl & H59 & Hd)].
  { exists []. split_and!; [done|simpl; lia|set_solver|by intros []]. }
  cbn [encodeURIComponent]. apply N.ltb_lt in Hc as Hc'. rewrite Hc', E. cbn [fmap option_fmap option_map].
  eexists. split; [reflexivity|]. destruct (uri_unreserved c) eqn:Hu.
  - split_and!; [simpl; lia| |].
    + simpl. intros [Hin|Hin]%elem_of_cons; [by subst|auto].
    + intros [|fuel] Hf; [simpl in Hf; lia|]. simpl. rewrite (unreserved_not_pct c Hu), Hd; [done|simpl in Hf; lia].
  - split_and!; [simpl; lia| |].
    + assert (Hx : forall d, d < 16 -> hex_upper d <> 59).
      { intros d Hd59. unfold hex_upper. destruct (d <? 10) eqn:E10; [apply N.ltb_lt in E10|apply N.ltb_ge in E10]; lia. }
      assert (c / 16 < 16) by (apply N.Div0.div_lt_upper_bound; lia).
      assert (c mod 16 < 16) by (apply N.mod_lt; lia).
      unfold pct. simpl. intros Hin. repeat (apply elem_of_cons in Hin as [Hin|Hin]); try done.
      * by apply (Hx (c / 16)).
      * by apply (Hx (c mod 16)).
    + intros [|fuel] Hf; [simpl in Hf; lia|]. unfold pct. cbn [app decode_uri].
      change (37 =? 37) with true. cbv iota. rewrite hex_byte_pct by lia. rewrite Hc', Hd; [done|simpl in Hf; lia].
Qed.

Lemma encode_decode s : Forall (fun c => c < 128) s ->
  exists e, encodeURIComponent s = Some e /\ 59 ∉ e /\ decodeURIComponent e = Some s /\ (s <> [] -> e <> []).
Proof.
  intros H. destruct (encode_ascii s H) as (e & E & Hl & H59 & Hd). exists e. split_and!; try done.
  - by apply Hd.
  - intros Hs ->. destruct s; [done|simpl in Hl; lia].
Qed.

(** ** Facts about the stored key *)

(** Membership in a concrete list, and its absence, by evaluation. *)
Ltac mem := rewrite <- (bool_decide_eq_true (_ ∈ _)); vm_compute; reflexivity.
Ltac not_mem := rewrite <- (bool_decide_eq_false (_ ∈ _)); vm_compute; reflexivity.


Lemma fold_insert_lookup (q : jsstring) (ks : list jsstring) (m : gmap jsstring jsstring) k :
  k ∈ ks -> fold_left (fun m k => <[k := q]> m) ks m !! k = Some q.
Proof.
  revert m. induction ks as [|k' ks IH] using rev_ind; intros m H; [set_solver|].
  rewrite fold_left_app. simpl. destruct (decide (k' = k)) as [->|Hne]; [by rewrite lookup_insert_eq|].
  rewrite lookup_insert_ne by done. apply IH. set_solver.
Qed.

Lemma update_config_other sf q m k k' : k <> k' -> Portal.update_config sf q m k !! k' = m !! k'.
Proof.
  intros H. unfold Portal.update_config. destruct (JSON_parse _); [|done].
  destruct (Portal.with_api_key q _); [|done]. by rewrite lookup_insert_ne.
Qed.

Lemma fold_config_other sf q ks m k :
  k ∉ ks -> fold_left (Portal.update_config sf q) ks m !! k = m !! k.
Proof.
  revert m. induction ks as [|k' ks IH]; intros m H; [done|]. apply not_elem_of_cons in H as [? ?]. simpl.
  rewrite IH by done. by apply update_config_other.
Qed.

Lemma fold_insert_other (q : jsstring) (ks : list jsstring) (m : gmap jsstring jsstring) k :
  k ∉ ks -> fold_left (fun m k => <[k:=q]> m) ks m !! k = m !! k.
Proof.
  revert m. induction ks as [|k' ks IH]; intros m H; [done|]. apply not_elem_of_cons in H as [? ?]. simpl.
  rewrite IH by done. by apply lookup_insert_ne.
Qed.

Lemma update_overrides_other sf m k :
  k <> Portal.overrides_key -> Portal.update_overrides sf m !! k = m !! k.
Proof. intros H. unfold Portal.update_overrides. destruct (JSON_parse _); [by rewrite lookup_insert_ne|done]. Qed.

(** The names of the keys are not those of the settings. *)
Lemma key_names_apart k :
  k ∈ Portal.key_names -> k <> Portal.overrides_key /\ k ∉ Portal.config_keys.
Proof.
  assert (C : forallb (fun k => negb (seqb k Portal.overrides_key) && bool_decide (k ∉ Portal.config_keys))
    Portal.key_names = true) by (vm_compute; reflexivity).
  rewrite forallb_forall in C. intros H%list_elem_of_In%C. bool_norm. by apply seqb_neq in H.
Qed.

Lemma store_key_lookup sf q m k : k ∈ Portal.key_names -> Portal.store_key sf q m !! k = Some q.
Proof.
  intros Hk. destruct (key_names_apart k Hk) as [H1 H2]. unfold Portal.store_key.
  rewrite update_overrides_other, fold_config_other by done. by apply fold_insert_lookup.
Qed.

Lemma store_key_other sf q m k :
  k ∉ Portal.key_names ++ Portal.overrides_key :: Portal.config_keys -> Portal.store_key sf q m !! k = m !! k.
Proof.
  rewrite not_elem_of_app, not_elem_of_cons. intros (Hn & Ho & Hc). unfold Portal.store_key.
  rewrite update_overrides_other, fold_config_other by done. by apply fold_insert_other.
Qed.

Lemma first_item_miss k ks m : m !! k = None -> first_item (k :: ks) m = first_item ks m.
Proof. intros E. simpl. unfold item_or_empty. by rewrite E. Qed.

Lemma first_item_hit k ks m q : m !! k = Some q -> q <> [] -> first_item (k :: ks) m = q.
Proof. intros E Hq. simpl. unfold item_or_empty. rewrite E. simpl. apply truthy_true in Hq. by rewrite Hq. Qed.

Lemma session_from_key b m k v :
  Portal.ls b = Some m -> k ∈ Portal.key_names ++ [js "cm_fleet_email"] -> m !! k = Some v -> v <> [] ->
  Portal.hasActiveSession b = true.
Proof.
  intros Hm Hk Hv Hn. unfold Portal.hasActiveSession. rewrite Hm. apply orb_true_iff. right.
  apply existsb_exists. exists k. split; [by apply list_elem_of_In|].
  unfold item_or_empty. rewrite Hv. by apply truthy_true.
Qed.

(** ** Claims *)

(** Whatever was stored or pasted, the key the portal sends has no line break, no
    white space at its ends and consists of characters of the stored text: it cannot
    split a header. *)
Theorem normalized_key_is_header_safe raw :
  let k := normalize_key raw in
  10 ∉ k /\ 13 ∉ k /\ ws_free_ends k /\ (forall c, c ∈ k -> c ∈ raw).
Proof.
  cbv zeta. unfold normalize_key. destruct (first_line_spec (strip_bearer (strip_quotes (trim raw)))) as [(r & E) F].
  rewrite Forall_forall in F. split_and!.
  - intros H%elem_of_trim%F. done.
  - intros H%elem_of_trim%F. done.
  - apply trim_ends.
  - intros c H%elem_of_trim. apply elem_of_trim, strip_quotes_sub, strip_bearer_sub. rewrite E. set_solver.
Qed.

(** A key without white space and quotation marks is taken as it is. *)
Theorem clean_key_is_unchanged k : clean_key k = true -> normalize_key k = k.
Proof. apply clean_normal. Qed.

Lemma clean_key_is_unchanged_witness : normalize_key (js "cm_live_Bearer42") = js "cm_live_Bearer42".
Proof. apply clean_key_is_unchanged. reflexivity. Defined.

(** C27: The routing of the AI subdomain only ever navigates to two fixed addresses:
    a key that arrived in the address is never forwarded in one. *)
Theorem routing_never_forwards_the_key show_frac l b :
  exists new, Portal.navs (Portal.handleAiSubdomainRouting show_frac l b) = Portal.navs b ++ new /\
    Forall (fun n => n ∈ [Portal.ReplaceState Portal.webui; Portal.Replace Portal.webui;
                          Portal.Replace (js "/ai-auth.html")]) new.
Proof.
  unfold Portal.handleAiSubdomainRouting. destruct (seqb _ _); [|exists []; by rewrite app_nil_r].
  destruct (_ && _).
  - destruct (Portal.ls b) as [m|]; [|exists []; by rewrite app_nil_r].
    destruct (Portal.session_cookie _); simpl; rewrite <- app_assoc; eexists; (split; [reflexivity|]);
      repeat (apply Forall_cons; split); try apply Forall_nil; try done; unfold Portal.webui; repeat (first [by left|right]).
  - destruct (Portal.is_root _); [|exists []; by rewrite app_nil_r].
    simpl. eexists. split; [reflexivity|]. destruct (Portal.hasActiveSession b); repeat (apply Forall_cons; split); try apply Forall_nil; try done; unfold Portal.webui; repeat (first [by left|right]).
Qed.

(** The browser after a legacy link with key [q]. *)
Lemma routed_storage show_frac l b m q :
  Portal.hostname l = js "ai.inetconnector.com" -> Portal.query_key l = q ->
  clean_key q = true -> q <> [] -> Portal.ls b = Some m ->
  Portal.ls (Portal.handleAiSubdomainRouting show_frac l b) = Some (Portal.store_key show_frac q m).
Proof.
  intros Hh Hq Hc Hn Hm. unfold Portal.handleAiSubdomainRouting.
  rewrite Hh, seqb_refl, Hq, (clean_normal q Hc). apply truthy_true in Hn. rewrite Hn, Hm. simpl.
  by destruct (Portal.session_cookie q).
Qed.

(** After a legacy link with a clean key, the portal and the agent workspace (when
    it has no token of its own) both resolve to that key, and the visitor counts as
    signed in. *)
Theorem routed_key_is_active show_frac l b m q cookies :
  Portal.hostname l = js "ai.inetconnector.com" -> Portal.query_key l = q ->
  clean_key q = true -> q <> [] -> Portal.ls b = Some m ->
  m !! js "cm_auth_token" = None -> m !! js "cm_session_token" = None ->
  let b' := Portal.handleAiSubdomainRouting show_frac l b in
  Portal.getActiveComputeMeshApiKey (Portal.ls b') = q /\
  Portal.hasActiveSession b' = true /\
  Agent.resolveAuthToken (Portal.ls b') cookies = Some q.
Proof.
  intros Hh Hq Hc Hn Hm H1 H2. cbv zeta.
  assert (L : forall k, k ∈ Portal.key_names -> Portal.store_key show_frac q m !! k = Some q)
    by (intros k; apply store_key_lookup).
  apply truthy_true in Hn as Ht. pose proof (routed_storage show_frac l b m q Hh Hq Hc Hn Hm) as Hs.
  rewrite Hs. split_and!.
  - unfold Portal.getActiveComputeMeshApiKey, Portal.key_names.
    rewrite (first_item_hit _ _ _ q); [|apply L; mem|done]. by rewrite Ht, (clean_normal q Hc).
  - apply (session_from_key _ _ (js "cm_token") q Hs); [mem|apply L; mem|done].
  - unfold Agent.resolveAuthToken, Agent.token_names.
    do 2 (rewrite first_item_miss by (rewrite store_key_other; [done|not_mem])).
    rewrite (first_item_hit _ _ _ q); [|apply L; mem|done].
    by rewrite (clean_trim q Hc), Ht, (clean_quotes q Hc), (clean_bearer q Hc).
Qed.

Definition no_frac (_ : Q) : jsstring := [].

Definition legacy_link : Portal.location :=
  Portal.Location (js "ai.inetconnector.com") (js "https:") (js "/") [(js "token", js "cm_live_1")].

Definition fresh_browser : Portal.browser := Portal.Browser (Some ∅) [] None [] 0 None.

Lemma routed_key_is_active_witness :
  let b' := Portal.handleAiSubdomainRouting no_frac legacy_link fresh_browser in
  Portal.getActiveComputeMeshApiKey (Portal.ls b') = js "cm_live_1" /\
  Portal.navs b' = [Portal.ReplaceState Portal.webui; Portal.Replace Portal.webui].
Proof.
  split; [|by vm_compute].
  apply (routed_key_is_active no_frac legacy_link fresh_browser ∅ (js "cm_live_1") []); done.
Defined.

Definition kept_keys : list jsstring := [js "cm_fleet_owner_key"; js "cm_token"; js "apiKey"].

Lemma kept_names k : k ∈ kept_keys -> k ∈ Portal.key_names ++ [js "cm_fleet_email"].
Proof.
  assert (C : forallb (fun k => bool_decide (k ∈ Portal.key_names ++ [js "cm_fleet_email"])) kept_keys = true)
    by (vm_compute; reflexivity).
  rewrite forallb_forall in C. intros H%list_elem_of_In%C. by apply bool_decide_eq_true in H.
Qed.

Lemma kept_not_removed k : k ∈ kept_keys ->
  js "cm_fleet_email" <> k /\ js "cm_api_key" <> k /\ js "cm_owner_key" <> k.
Proof.
  intros H. split_and!; intros <-; revert H; rewrite <- (bool_decide_eq_true (_ ∈ _)); by vm_compute.
Qed.

(** C39: Signing out with the button of the navigation bar leaves three of the five key
    entries in place: whoever was signed in through one of them still is. *)
Theorem sign_out_keeps_the_session l b m k v :
  Portal.ls b = Some m -> k ∈ kept_keys ->
  m !! k = Some v -> v <> [] ->
  Portal.hasActiveSession (Portal.handleAuthNavClick false l b) = true.
Proof.
  intros Hm Hk Hv Hn. unfold Portal.handleAuthNavClick. cbn [andb].
  rewrite (session_from_key b m k v Hm (kept_names k Hk) Hv Hn), Hm.
  destruct (kept_not_removed k Hk) as (N1 & N2 & N3).
  destruct (starts_with _ _); (eapply session_from_key; [reflexivity|by apply kept_names| |done]);
    by rewrite !lookup_delete_ne.
Qed.

Lemma sign_out_keeps_the_session_witness :
  let b := Portal.Browser (Some {[ js "cm_token" := js "cm_live_1" ]}) [] None [] 0 None in
  Portal.hasActiveSession (Portal.handleAuthNavClick false legacy_link b) = true.
Proof.
  intros b. apply (sign_out_keeps_the_session legacy_link b {[ js "cm_token" := js "cm_live_1" ]}
    (js "cm_token") (js "cm_live_1")); [done|mem|by vm_compute|done].
Defined.

(** A token with a line break is cleaned by the portal and passed on unchanged by
    the agent workspace. *)
Theorem agent_token_may_hold_line_break :
  let raw := js "abc" ++ [10] ++ js "def" in
  normalize_key raw = js "abc" /\
  Agent.resolveAuthToken (Some {[ js "cm_api_key" := raw ]}) [] = Some raw.
Proof. vm_compute. done. Qed.
