(* ===== verification/UriRoundTrip.v ===== *)
(** * Percent encoding of all texts

    [decodeURIComponent] gives back what [encodeURIComponent] has encoded, for every
    well-formed text, and [URLSearchParams] reads it from an address.  The components hand
    identifiers to each other in this form. *)
From Stdlib Require Import Lia NArith ZArith ZifyN.
From stdpp Require Import base numbers list strings.
From S2P Require Import Prelude JsString JsNumber JsValue JsJson JsonRoundTrip I18n Auth.

#[local] Open Scope N_scope.

(** ** One character *)

Lemma continuation_pct y r : y < 64 -> continuation (pct (128 + y) ++ r) = Some (y, r).
Proof.
  intros H. unfold pct. cbn [app continuation]. change (37 =? 37) with true. cbv iota. rewrite hex_byte_pct by lia.
  replace ((128 <=? 128 + y) && (128 + y <=? 191)) with true; [|symmetry; rewrite andb_true_iff, !N.leb_le; lia].
  repeat f_equal. lia.
Qed.

(** A percent-encoded character in front of an encoded text. *)
Lemma decode_first x r fuel cp r' : 128 <= x < 256 -> decode_multi x r = Some (cp, r') ->
  decode_uri (S fuel) (pct x ++ r) = app (utf16 cp) <$> decode_uri fuel r'.
Proof.
  intros Hx Hm. unfold pct. cbn [app decode_uri]. change (37 =? 37) with true. cbv iota. rewrite hex_byte_pct by lia.
  destruct (x <? 128) eqn:E; [apply N.ltb_lt in E; lia|]. by rewrite Hm.
Qed.

Ltac in_range := rewrite ?andb_true_iff, ?orb_false_iff, ?andb_false_iff, ?N.leb_le, ?N.ltb_ge, ?N.leb_gt, ?N.ltb_lt; lia.

Lemma decode_two c r : 128 <= c < 2048 -> decode_multi (192 + c / 64) (pct (128 + c mod 64) ++ r) = Some (c, r).
Proof.
  intros H. unfold decode_multi.
  replace ((194 <=? 192 + c / 64) && (192 + c / 64 <=? 223)) with true by (symmetry; in_range).
  rewrite continuation_pct by lia. repeat f_equal. lia.
Qed.

Lemma decode_three c r : 2048 <= c < 65536 -> high_surrogate c = false -> low_surrogate c = false ->
  decode_multi (224 + c / 4096) (pct (128 + c / 64 mod 64) ++ pct (128 + c mod 64) ++ r) = Some (c, r).
Proof.
  intros H Hh Hl. unfold decode_multi.
  replace ((194 <=? 224 + c / 4096) && (224 + c / 4096 <=? 223)) with false by (symmetry; in_range).
  replace ((224 <=? 224 + c / 4096) && (224 + c / 4096 <=? 239)) with true by (symmetry; in_range).
  rewrite continuation_pct by lia. rewrite continuation_pct by lia.
  replace ((224 + c / 4096 - 224) * 4096 + c / 64 mod 64 * 64 + c mod 64) with c by lia. cbv zeta.
  rewrite Hh, Hl. replace (c <? 2048) with false by (symmetry; in_range). done.
Qed.

Lemma decode_four cp r : 65536 <= cp <= 1114111 ->
  decode_multi (240 + cp / 262144) (pct (128 + cp / 4096 mod 64) ++ pct (128 + cp / 64 mod 64) ++ pct (128 + cp mod 64) ++ r) = Some (cp, r).
Proof.
  intros H. unfold decode_multi.
  replace ((194 <=? 240 + cp / 262144) && (240 + cp / 262144 <=? 223)) with false by (symmetry; in_range).
  replace ((224 <=? 240 + cp / 262144) && (240 + cp / 262144 <=? 239)) with false by (symmetry; in_range).
  replace ((240 <=? 240 + cp / 262144) && (240 + cp / 262144 <=? 244)) with true by (symmetry; in_range).
  do 3 rewrite continuation_pct by lia.
  replace ((240 + cp / 262144 - 240) * 262144 + cp / 4096 mod 64 * 4096 + cp / 64 mod 64 * 64 + cp mod 64) with cp by lia. cbv zeta.
  replace ((cp <? 65536) || (1114111 <? cp)) with false by (symmetry; in_range). done.
Qed.

(** ** Texts *)

(** What an encoded text consists of. *)
Definition uri_char (c : N) : bool := uri_unreserved c || (c =? 37).

Lemma hex_upper_char d : d < 16 -> uri_char (hex_upper d) = true.
Proof.
  intros H. unfold uri_char, uri_unreserved, hex_upper, digit. destruct (d <? 10) eqn:E; [apply N.ltb_lt in E|apply N.ltb_ge in E].
  - replace ((48 <=? 48 + d) && (48 + d <=? 57)) with true by (symmetry; in_range). done.
  - replace ((65 <=? 55 + d) && (55 + d <=? 90)) with true by (symmetry; in_range). by rewrite orb_true_r.
Qed.

Lemma pct_chars b : b < 256 -> Forall (fun c => uri_char c = true) (pct b).
Proof. intros H. unfold pct. repeat constructor; apply hex_upper_char; lia. Qed.

(** The parser of addresses escapes the apostrophes of a query. *)
Definition apos (s : jsstring) : jsstring := concat ((fun c => if c =? 39 then pct 39 else [c]) <$> s).

Lemma apos_app a b : apos (a ++ b) = apos a ++ apos b.
Proof. unfold apos. by rewrite fmap_app, concat_app. Qed.

Lemma apos_pct b : b < 256 -> apos (pct b) = pct b.
Proof.
  intros H. assert (N : forall d, d < 16 -> (hex_upper d =? 39) = false).
  { intros d Hd. apply N.eqb_neq. unfold hex_upper. destruct (d <? 10); lia. }
  unfold apos, pct. cbn [fmap list_fmap concat]. by rewrite !N by lia.
Qed.

(** A character at the head is encoded by [e] and comes back. *)
Definition encodes_as (u e : jsstring) : Prop :=
  (length u <= length e)%nat /\ Forall (fun c => uri_char c = true) e /\
  forall fuel t, decode_uri (S fuel) (e ++ t) = app u <$> decode_uri fuel t.

Lemma encodes_single c : c < 65536 -> high_surrogate c = false -> low_surrogate c = false ->
  exists e, encodes_as [c] e /\ encodes_as [c] (apos e) /\ forall r, encodeURIComponent (c :: r) = app e <$> encodeURIComponent r.
Proof.
  intros H Hh Hl. cbn [encodeURIComponent]. destruct (c <? 128) eqn:E1; [apply N.ltb_lt in E1|apply N.ltb_ge in E1].
  - assert (Hp : encodes_as [c] (pct c)).
    { split_and!; [cbn; lia|apply pct_chars; lia|]. intros fuel t. unfold pct. cbn [app decode_uri]. change (37 =? 37) with true.
      cbv iota. rewrite hex_byte_pct by lia. by replace (c <? 128) with true by (symmetry; in_range). }
    eexists. split; [|split; [|intros r; reflexivity]]; destruct (uri_unreserved c) eqn:Hu; [|done| |by rewrite apos_pct by lia].
    all: assert (Ho : encodes_as [c] [c]) by
      (split_and!; [done|constructor; [unfold uri_char; by rewrite Hu|done]|intros fuel t; cbn [app decode_uri]; by rewrite unreserved_not_pct]).
    + done.
    + unfold apos. cbn [fmap list_fmap concat]. destruct (c =? 39) eqn:E39; [apply N.eqb_eq in E39; subst|]; by rewrite app_nil_r.
  - assert (U : utf16 c = [c]) by (unfold utf16; by replace (c <? 65536) with true by (symmetry; in_range)).
    destruct (c <? 2048) eqn:E2; [apply N.ltb_lt in E2|apply N.ltb_ge in E2].
    + set (e := pct (192 + c / 64) ++ pct (128 + c mod 64)).
      assert (X : encodes_as [c] e).
      { split_and!; [cbn; lia|apply Forall_app; split; apply pct_chars; lia|].
        intros fuel t. unfold e. rewrite <- app_assoc. rewrite (decode_first _ _ _ c t), U; [done|lia|by apply decode_two]. }
      exists e. split; [exact X|]. split; [unfold e; by rewrite apos_app, !apos_pct by lia|].
      unfold e. intros r. destruct (encodeURIComponent r); [|done]. cbn. by rewrite <- ?app_assoc.
    + rewrite Hh, Hl. set (e := pct (224 + c / 4096) ++ pct (128 + c / 64 mod 64) ++ pct (128 + c mod 64)).
      assert (X : encodes_as [c] e).
      { split_and!; [cbn; lia|unfold e; rewrite !Forall_app; split_and!; apply pct_chars; lia|].
        intros fuel t. unfold e. rewrite <- !app_assoc. rewrite (decode_first _ _ _ c t), U; [done|lia|by apply decode_three]. }
      exists e. split; [exact X|]. split; [unfold e; by rewrite !apos_app, !apos_pct by lia|].
      unfold e. intros r. destruct (encodeURIComponent r); [|done]. cbn. by rewrite <- ?app_assoc.
Qed.

Lemma encodes_pair c d : high_surrogate c = true -> low_surrogate d = true ->
  exists e, encodes_as [c; d] e /\ encodes_as [c; d] (apos e) /\ forall r, encodeURIComponent (c :: d :: r) = app e <$> encodeURIComponent r.
Proof.
  intros Hc Hd. unfold high_surrogate, low_surrogate in Hc, Hd. rewrite andb_true_iff, !N.leb_le in Hc, Hd.
  set (cp := 65536 + (c - 55296) * 1024 + (d - 56320)).
  assert (Hcp : 65536 <= cp <= 1114111) by (unfold cp; lia).
  assert (U : utf16 cp = [c; d]).
  { unfold utf16. replace (cp <? 65536) with false by (symmetry; in_range). unfold cp. repeat f_equal; lia. }
  set (e := pct (240 + cp / 262144) ++ pct (128 + cp / 4096 mod 64) ++ pct (128 + cp / 64 mod 64) ++ pct (128 + cp mod 64)).
  assert (X : encodes_as [c; d] e).
  { split_and!; [cbn; lia|unfold e; rewrite !Forall_app; split_and!; apply pct_chars; lia|].
    intros fuel t. unfold e. rewrite <- !app_assoc. rewrite (decode_first _ _ _ cp t), U; [done|lia|by apply decode_four]. }
  exists e. split; [exact X|]. split; [unfold e; by rewrite !apos_app, !apos_pct by lia|].
  unfold e. intros r. cbn [encodeURIComponent]. replace (c <? 128) with false by (symmetry; in_range).
    replace (c <? 2048) with false by (symmetry; in_range). unfold high_surrogate, low_surrogate.
    replace ((55296 <=? c) && (c <=? 56319)) with true by (symmetry; in_range).
  replace ((56320 <=? d) && (d <=? 57343)) with true by (symmetry; in_range). fold cp.
  destruct (encodeURIComponent r); [|done]. cbn. by rewrite <- ?app_assoc.
Qed.

(** Every well-formed text is encoded with unreserved characters and escapes only, and
    decoding gives it back, also when the apostrophes have been escaped since. *)
Theorem uri_round_trip s : code_units s -> well_formed s = true ->
  exists e, encodeURIComponent s = Some e /\ decodeURIComponent e = Some s /\ decodeURIComponent (apos e) = Some s /\
    Forall (fun c => uri_char c = true) (apos e) /\ (length s <= length (apos e))%nat.
Proof.
  intros Hu Hw.
  assert (G : exists e, encodeURIComponent s = Some e /\ forall f, f = id \/ f = apos ->
    (length s <= length (f e))%nat /\ Forall (fun c => uri_char c = true) (f e) /\
    forall fuel, (length s <= fuel)%nat -> decode_uri fuel (f e) = Some s).
  { assert (Step : forall u r e x, encodeURIComponent (u ++ r) = app x <$> encodeURIComponent r -> encodeURIComponent r = Some e ->
      u <> [] -> encodes_as u x -> encodes_as u (apos x) ->
      (forall f, f = id \/ f = apos -> (length r <= length (f e))%nat /\ Forall (fun c => uri_char c = true) (f e) /\
         forall fuel, (length r <= fuel)%nat -> decode_uri fuel (f e) = Some r) ->
      exists e', encodeURIComponent (u ++ r) = Some e' /\ forall f, f = id \/ f = apos ->
        (length (u ++ r) <= length (f e'))%nat /\ Forall (fun c => uri_char c = true) (f e') /\
        forall fuel, (length (u ++ r) <= fuel)%nat -> decode_uri fuel (f e') = Some (u ++ r)).
    { intros u r e x E1 E2 Hne X1 X2 IH. exists (x ++ e). rewrite E1, E2. split; [done|]. intros f Hf. destruct (IH f Hf) as (L & K & D).
      assert (Ef : f (x ++ e) = f x ++ f e) by (destruct Hf as [->| ->]; [done|apply apos_app]).
      assert (X : encodes_as u (f x)) by (destruct Hf as [->| ->]; done). destruct X as (X3 & X4 & X5). rewrite Ef.
      split_and!; [rewrite !length_app; lia|by apply Forall_app|]. intros fuel Hl. rewrite length_app in Hl.
      destruct u as [|c u]; [done|]. cbn [length] in Hl. destruct fuel as [|fuel]; [lia|]. rewrite X5, D by lia. done. }
    revert Hu. revert s Hw. apply (well_formed_ind (fun s => code_units s -> _)).
    - intros _. exists []. split; [done|]. intros f Hf. assert (f [] = []) as -> by (by destruct Hf as [->| ->]).
      split_and!; [done|constructor|by intros []].
    - intros c r Hh Hl _ IH Hu. apply Forall_cons in Hu as [Hc Hr]. destruct (IH Hr) as (e & E & K).
      destruct (encodes_single c Hc Hh Hl) as (x & X1 & X2 & X3). apply (Step [c] r e x); [apply X3|done..].
    - intros c d r Hh Hl _ IH Hu. apply Forall_cons in Hu as [Hc Hr]. apply Forall_cons in Hr as [Hd Hr].
      destruct (IH Hr) as (e & E & K). destruct (encodes_pair c d Hh Hl) as (x & X1 & X2 & X3). apply (Step [c; d] r e x); [apply X3|done..]. }
  destruct G as (e & E & K). destruct (K id (or_introl eq_refl)) as (L1 & _ & D1). destruct (K apos (or_intror eq_refl)) as (L2 & C2 & D2).
  exists e. split_and!; [done|by apply D1|by apply D2|done|done].
Qed.

(** ** [URLSearchParams] *)

(** The text before and after the first [c]. *)
Fixpoint cut (c : N) (s : jsstring) : jsstring * jsstring :=
  match s with
  | [] => ([], [])
  | d :: r => if d =? c then ([], r) else let '(a, b) := cut c r in (d :: a, b)
  end.

Section Params.
(** The decoding of texts with broken escapes. *)
Context (lossy : jsstring -> jsstring).

Definition form_decode (s : jsstring) : jsstring :=
  let t := (fun c => if c =? 43 then 32 else c) <$> s in default (lossy t) (decodeURIComponent t).

(** [new URLSearchParams(search)] *)
Definition search_params (search : jsstring) : list (jsstring * jsstring) :=
  let s := match search with c :: r => if c =? 63 then r else search | [] => [] end in
  (fun p => let '(k, v) := cut 61 p in (form_decode k, form_decode v)) <$> List.filter truthy (split_on 38 s).

(** [params.get(name)] *)
Definition get_param (name : jsstring) (l : list (jsstring * jsstring)) : option jsstring :=
  snd <$> List.find (fun e => seqb name e.1) l.

Lemma cut_free c a b : c ∉ a -> cut c (a ++ c :: b) = (a, b).
Proof.
  induction a as [|d a IH]; cbn; [by rewrite N.eqb_refl|]. intros [H1 H2]%not_elem_of_cons. rewrite IH by done.
  destruct (d =? c) eqn:E; [apply N.eqb_eq in E; congruence|done].
Qed.

Lemma uri_free c e : uri_char c = false -> Forall (fun c => uri_char c = true) e -> c ∉ e.
Proof. intros H He Hin. rewrite Forall_forall in He. apply He in Hin. congruence. Qed.

Lemma form_decode_uri e s : Forall (fun c => uri_char c = true) e -> decodeURIComponent e = Some s -> form_decode e = s.
Proof.
  intros H E. unfold form_decode.
  assert (Id : (fun c => if c =? 43 then 32 else c) <$> e = e).
  { clear E. induction H as [|c e Hc _ IH]; [done|]. cbn. f_equal; [|exact IH].
    destruct (c =? 43) eqn:Ec; [apply N.eqb_eq in Ec; by subst|done]. }
  rewrite Id. by rewrite E.
Qed.

Lemma uri_name name : forallb (fun c => uri_char c && negb (c =? 37)) name = true ->
  Forall (fun c => uri_char c = true) name /\ form_decode name = name.
Proof.
  intros Hn. assert (Hc : Forall (fun c => uri_char c = true) name /\ 37 ∉ name).
  { rewrite forallb_forall in Hn. split.
    - apply Forall_forall. intros c Hc. apply list_elem_of_In, Hn, andb_true_iff in Hc as [H _]. done.
    - intros Hc. apply list_elem_of_In, Hn, andb_true_iff in Hc as [_ H]. done. }
  destruct Hc as [Hc H37]. split; [done|]. apply form_decode_uri; [done|].
  unfold decodeURIComponent. clear -H37. induction name as [|c r IH]; [done|]. apply not_elem_of_cons in H37 as [H1 H2].
  cbn [length decode_uri]. destruct (c =? 37) eqn:E; [apply N.eqb_eq in E; congruence|]. by rewrite IH.
Qed.

(** The parameters of an address: the first one, and those behind the ampersand. *)
Lemma params_cons name e s rest : forallb (fun c => uri_char c && negb (c =? 37)) name = true -> name <> [] ->
  Forall (fun c => uri_char c = true) e -> decodeURIComponent e = Some s ->
  rest = [] \/ (exists r, rest = 38 :: r) ->
  search_params (63 :: name ++ 61 :: e ++ rest) = (name, s) :: search_params (63 :: drop 1 rest).
Proof.
  intros Hn Hne He Hd Hr. destruct (uri_name name Hn) as [Hc Dn].
  assert (Free : 38 ∉ name ++ 61 :: e).
  { rewrite elem_of_app, elem_of_cons. intros [H|[H|H]]; [by apply (uri_free 38 name) in H|done|by apply (uri_free 38 e) in H]. }
  unfold search_params. change (63 =? 63) with true. cbv iota.
  assert (Sp : List.filter truthy (split_on 38 (name ++ 61 :: e ++ rest))
    = (name ++ 61 :: e) :: List.filter truthy (split_on 38 (drop 1 rest))).
  { assert (truthy (name ++ 61 :: e) = true) as Ht by (by destruct name).
    destruct Hr as [->|[r ->]].
    - rewrite app_nil_r, split_on_single by done. cbn [List.filter]. by rewrite Ht.
    - rewrite app_comm_cons, app_assoc, split_on_line by done. cbn [List.filter]. by rewrite Ht. }
  rewrite Sp, fmap_cons, cut_free by (by apply uri_free). by rewrite Dn, (form_decode_uri e s).
Qed.

(** A parameter whose value was encoded is read back, whatever follows it. *)
Lemma first_param name e s rest : forallb (fun c => uri_char c && negb (c =? 37)) name = true -> name <> [] ->
  Forall (fun c => uri_char c = true) e -> decodeURIComponent e = Some s ->
  rest = [] \/ (exists r, rest = 38 :: r) ->
  get_param name (search_params (63 :: name ++ 61 :: e ++ rest)) = Some s.
Proof.
  intros Hn Hne He Hd Hr. rewrite (params_cons name e s rest) by done. unfold get_param. cbn [List.find fst].
  by rewrite seqb_refl.
Qed.

End Params.
