(* ===== verification/Registration.v ===== *)
(** * Account registration (portal.js)

    [compliantRegistration], [registrationErrorMessage] and [syncProviderControls]: the
    form asks for the acceptance of the terms and, of providers, for a country; a busy
    flag on the form admits one request at a time. *)
From Stdlib Require Import Lia ZArith QArith.
From stdpp Require Import base numbers list gmap strings.
From S2P Require Import Prelude JsString JsNumber JsValue.

(** ** State *)

Record button := Button { disabled : bool; aria_busy : bool; label : jsstring }.

(** The body of [POST /api/v1/register] that depends on the form; the consent fields
    are constants of the source, except those that follow the role. *)
Record request := Request {
  email : jsstring;
  role : jsstring;
  wallet : jsstring;
  country_code : jsstring;
  provider_terms : bool;
  no_prompt_logging : bool;
}.

Inductive stage : Type := AwaitFetch | AwaitJson (ok : bool).

Record state := State {
  form_busy : option (option jsstring);
  submitBtn : option button;
  roleEl : option jsstring;
  emailEl : option jsstring;
  countryEl : option jsstring;
  walletEl : option jsstring;
  bizCheck : option bool;
  keyInput : option jsstring;
  resBox : option jsstring;
  providerFields : option jsstring;
  ls : storage;
  snippets : list jsstring;
  inflight : gmap nat (stage * lang);
  next_id : nat;
  requests : list request;
}.

Definition set_ui (busy : option (option jsstring)) (b : option button) (k box : option jsstring) (s : state) : state :=
  State busy b (roleEl s) (emailEl s) (countryEl s) (walletEl s) (bizCheck s) k box
    (providerFields s) (ls s) (snippets s) (inflight s) (next_id s) (requests s).
Definition set_inflight (f : gmap nat (stage * lang)) (s : state) : state :=
  State (form_busy s) (submitBtn s) (roleEl s) (emailEl s) (countryEl s) (walletEl s) (bizCheck s)
    (keyInput s) (resBox s) (providerFields s) (ls s) (snippets s) f (next_id s) (requests s).

(** [el?.value || dflt] *)
Definition value_or (el : option jsstring) (dflt : jsstring) : jsstring :=
  match el with Some v => if truthy v then v else dflt | None => dflt end.

Definition provider : jsstring := js "provider".

(** [syncProviderControls()] *)
Definition syncProviderControls (l : lang) (s : state) : state :=
  let isProvider := seqb (value_or (roleEl s) (js "consumer")) provider in
  State (form_busy s)
    ((fun b => Button (disabled b) (aria_busy b)
        (if isProvider then tr l (js "⚡ GPU-Node registrieren") (js "⚡ Register GPU Node")
         else tr l (js "🚀 API-Key generieren") (js "🚀 Generate API Key"))) <$> submitBtn s)
    (roleEl s) (emailEl s) (countryEl s) (walletEl s) (bizCheck s) (keyInput s) (resBox s)
    ((fun _ => if isProvider then js "flex" else js "none") <$> providerFields s)
    (ls s) (snippets s) (inflight s) (next_id s) (requests s).

(** [if (keyInput) keyInput.value = msg; if (resBox) resBox.style.display = 'block'] *)
Definition show_message (msg : jsstring) (s : state) : state :=
  set_ui (form_busy s) (submitBtn s) ((fun _ => msg) <$> keyInput s) ((fun _ => js "block") <$> resBox s) s.

Definition busy (s : state) : bool :=
  match form_busy s with Some (Some v) => seqb v (js "1") | _ => false end.

Definition consented (s : state) : bool := match bizCheck s with Some true => true | _ => false end.

Section Handlers.
Context (show_frac : Q -> jsstring).

(** [registrationErrorMessage(payload, fallback)] *)
Definition registrationErrorMessage (payload : jsval) (fallback : jsstring) : jsstring :=
  let trimmed v := match v with VStr t => trim t | _ => [] end in
  let error := if vtruthy payload then prop payload (js "error") else payload in
  if is_string error && truthy (trimmed error) then trimmed error
  else if vtruthy error && is_string (prop error (js "message")) && truthy (trimmed (prop error (js "message")))
       then trimmed (prop error (js "message"))
  else if vtruthy payload && is_string (prop payload (js "message")) && truthy (trimmed (prop payload (js "message")))
       then trimmed (prop payload (js "message"))
  else fallback.

(** The synchronous part of [compliantRegistration]. *)
Definition compliantRegistration (l : lang) (s : state) : state :=
  if busy s then s else
  let rl := value_or (roleEl s) (js "consumer") in
  let mail := trim (value_or (emailEl s) []) in
  let country := value_or (countryEl s) [] in
  let wal := trim (value_or (walletEl s) []) in
  let isProvider := seqb rl provider in
  if negb (consented s) then
    show_message (tr l (js "Bitte akzeptiere die Nutzungsbedingungen und bestätige die geschäftliche Nutzung (B2B).")
                      (js "Please accept the Terms of Service & Privacy Policy and confirm business (B2B) use.")) s
  else if isProvider && negb (truthy country) then
    show_message (tr l (js "Bitte wähle dein Betriebsland (EWR/EU).") (js "Please select your operating country.")) s
  else
    let s1 := show_message (tr l (js "Zugangsdaten werden generiert…") (js "Generating API credentials…"))
      (set_ui ((fun _ => Some (js "1")) <$> form_busy s)
         ((fun b => Button true true (label b)) <$> submitBtn s) (keyInput s) (resBox s) s) in
    State (form_busy s1) (submitBtn s1) (roleEl s1) (emailEl s1) (countryEl s1) (walletEl s1) (bizCheck s1)
      (keyInput s1) (resBox s1) (providerFields s1) (ls s1) (snippets s1)
      (<[next_id s := (AwaitFetch, l)]> (inflight s1)) (S (next_id s))
      (requests s1 ++ [Request mail rl (if isProvider then wal else []) (if isProvider then country else [])
                         isProvider isProvider]).

(** The [finally] block. *)
Definition finally (id : nat) (s : state) : state :=
  set_inflight (delete id (inflight s))
    (set_ui ((fun _ => None) <$> form_busy s) ((fun b => Button false false (label b)) <$> submitBtn s)
       (keyInput s) (resBox s) s).

(** The [catch] block; [name] is the constructor name [String(error)] starts with. *)
Definition catch_error (id : nat) (l : lang) (name message : jsstring) (s : state) : state :=
  let text := tr l (js "Registrierung fehlgeschlagen: ") (js "Registration failed: ")
              ++ take 160 (if truthy message then message else name) in
  finally id (set_ui (form_busy s) (submitBtn s) ((fun _ => text) <$> keyInput s) (resBox s) s).

Definition on_response (id : nat) (ok : bool) (s : state) : state :=
  match inflight s !! id with
  | Some (AwaitFetch, l) => set_inflight (<[id := (AwaitJson ok, l)]> (inflight s)) s
  | _ => s
  end.

(** The status texts of the key field that are not taken for a key by
    [updateCodeSnippetsWithKey]. *)
Definition not_a_key (k : jsstring) : bool :=
  negb (truthy k) || starts_with (js "Bitte") k || starts_with (js "Please") k || starts_with (js "Reg") k.

(** The exception of [updateCodeSnippetsWithKey(key)], name and message: a key that is not
    a string has no [startsWith], and a blocked [localStorage] throws when it is read. *)
Definition snippets_throw (key : jsval) (st : storage) : option (jsstring * jsstring) :=
  match key with
  | VStr k =>
      if not_a_key k then None
      else match getItem (js "cm_api_key") st with Throw m => Some (js "SecurityError", m) | Ret _ => None end
  | _ => Some (js "TypeError", js "apiKey.startsWith is not a function")
  end.

(** [await response.json()] resolves with [data]; [has_snippets]: whether the page
    defines [updateCodeSnippetsWithKey]. *)
Definition on_data (id : nat) (data : jsval) (has_snippets : bool) (s : state) : state :=
  match inflight s !! id with
  | Some (AwaitJson ok, l) =>
      let refuse := registrationErrorMessage data
        (tr l (js "Registrierung konnte nicht abgeschlossen werden.") (js "Registration could not be completed.")) in
      if ok then
        match get data (js "api_key") with
        | Throw m => catch_error id l (js "TypeError") m s
        | Ret key =>
            if vtruthy key then
              let k := to_str show_frac key in
              let s1 := State (form_busy s) (submitBtn s) (roleEl s) (emailEl s) (countryEl s) (walletEl s)
                (bizCheck s) ((fun _ => k) <$> keyInput s) (resBox s) (providerFields s)
                (match setItem (js "cm_api_key") k (ls s) with Ret st => st | Throw _ => ls s end)
                (if has_snippets then snippets s ++ [k] else snippets s)
                (inflight s) (next_id s) (requests s) in
              match (if has_snippets then snippets_throw key (ls s1) else None) with
              | Some (name, m) => catch_error id l name m s1
              | None => finally id s1
              end
            else catch_error id l (js "Error") refuse s
        end
      else catch_error id l (js "Error") refuse s
  | _ => s
  end.

Definition on_reject (id : nat) (name message : jsstring) (s : state) : state :=
  match inflight s !! id with Some (_, l) => catch_error id l name message s | None => s end.

(** ** Events *)

Inductive event : Type :=
| Submit (l : lang)
| Response (id : nat) (ok : bool)
| Data (id : nat) (data : jsval) (has_snippets : bool)
| Reject (id : nat) (name message : jsstring)
| Fill (role_ email_ country wallet_ : option jsstring) (biz : option bool)
| Sync (l : lang).

Definition step (s : state) (e : event) : state :=
  match e with
  | Submit l => compliantRegistration l s
  | Response id ok => on_response id ok s
  | Data id d h => on_data id d h s
  | Reject id n m => on_reject id n m s
  | Fill r em c w bz =>
      State (form_busy s) (submitBtn s) r em c w bz (keyInput s) (resBox s) (providerFields s) (ls s)
        (snippets s) (inflight s) (next_id s) (requests s)
  | Sync l => syncProviderControls l s
  end.

Definition exec (s : state) (es : list event) : state := fold_left step es s.

(** ** Invariants *)

(** With a form on the page, the busy flag is set exactly while one request runs. *)
Definition single (s : state) : Prop :=
  match form_busy s with
  | Some (Some v) => v = js "1" /\ exists id st, inflight s = {[id := st]}
  | Some None => inflight s = ∅
  | None => False
  end.

Lemma single_live s id st : single s -> inflight s !! id = Some st -> inflight s = {[id := st]} /\ form_busy s = Some (Some (js "1")).
Proof.
  unfold single. intros H Hl. destruct (form_busy s) as [[v|]|]; [|by rewrite H in Hl|done].
  destruct H as [-> (i & t & E)]. rewrite E in Hl. apply lookup_singleton_Some in Hl as [-> ->]. done.
Qed.

Lemma single_finally s id st : form_busy s <> None -> inflight s = {[id := st]} -> single (finally id s).
Proof.
  intros Hf E. unfold single, finally. simpl. destruct (form_busy s) as [v|]; [|done]. simpl.
  by rewrite E, delete_singleton_eq.
Qed.

Lemma single_submit l s : single s -> single (compliantRegistration l s).
Proof.
  intros H. unfold compliantRegistration. destruct (busy s) eqn:Eb; [done|].
  destruct (negb (consented s)); [done|]. destruct (_ && _); [done|].
  unfold single, busy in *. simpl. destruct (form_busy s) as [[v|]|]; [|simpl|done].
  - destruct H as [-> _]. by rewrite seqb_refl in Eb.
  - split; [done|]. rewrite H. eexists _, _. apply insert_empty.
Qed.

Lemma single_step s e : single s -> single (step s e).
Proof.
  intros H. destruct e; simpl; try done.
  - by apply single_submit.
  - unfold on_response. destruct (inflight s !! id) as [[[|] l]|] eqn:Hl; try done.
    destruct (single_live s id _ H Hl) as [E F]. unfold single. simpl. rewrite F, E, insert_singleton_eq. eauto.
  - unfold on_data. destruct (inflight s !! id) as [[[|ok] l]|] eqn:Hl; try done.
    destruct (single_live s id _ H Hl) as [E F].
    destruct ok; [destruct (get data _) as [key|m]; [destruct (vtruthy key)|]|]; cbv zeta;
      try destruct (if has_snippets then _ else None) as [[]|]; eapply single_finally; simpl; by rewrite ?F.
  - unfold on_reject. destruct (inflight s !! id) as [[st l]|] eqn:Hl; [|done].
    destruct (single_live s id _ H Hl) as [E F]. eapply single_finally; simpl; by rewrite ?F.
Qed.

(** What every request satisfies. *)
Definition request_ok (r : request) : Prop :=
  (role r = provider -> country_code r <> [] /\ provider_terms r = true /\ no_prompt_logging r = true) /\
  (role r <> provider -> country_code r = [] /\ wallet r = [] /\ provider_terms r = false).

Lemma requests_step s e :
  requests (step s e) = requests s \/
  (consented s = true /\ exists r, request_ok r /\ requests (step s e) = requests s ++ [r]).
Proof.
  destruct e; simpl; auto.
  - unfold compliantRegistration. destruct (busy s); [auto|].
    destruct (consented s) eqn:Ec; simpl; [|auto]. destruct (seqb (value_or (roleEl s) (js "consumer")) provider) eqn:Er; simpl.
    + destruct (truthy (value_or (countryEl s) [])) eqn:Et; simpl; [|auto]. right. split; [done|].
      eexists. split; [|reflexivity]. apply seqb_eq in Er. apply truthy_true in Et. by split; simpl.
    + right. split; [done|]. eexists. split; [|reflexivity]. apply seqb_neq in Er. by split; simpl.
  - unfold on_response. destruct (inflight s !! id) as [[[|] l]|]; auto.
  - unfold on_data. destruct (inflight s !! id) as [[[|ok] l]|]; auto.
    destruct ok; [destruct (get data _) as [key|m]; [destruct (vtruthy key)|]|]; cbv zeta;
      try destruct (if has_snippets then _ else None) as [[]|]; auto.
  - unfold on_reject. destruct (inflight s !! id) as [[st l]|]; auto.
Qed.

Lemma error_message_not_empty payload fallback : fallback <> [] -> registrationErrorMessage payload fallback <> [].
Proof.
  intros Hf. unfold registrationErrorMessage. cbv zeta.
  repeat match goal with |- context [if ?b then _ else _] =>
    lazymatch b with vtruthy payload => fail | _ => destruct b eqn:? end end; bool_norm; try done;
    by apply truthy_true.
Qed.

End Handlers.

(** ** Claims *)

Definition no_frac (_ : Q) : jsstring := [].

Definition blank_form : state :=
  State (Some None) (Some (Button false false [])) (Some provider) (Some (js "a@b.c")) (Some (js "DE"))
    (Some []) (Some true) (Some []) (Some (js "none")) None (Some ∅) [] ∅ 0 [].

(** C25: At most one registration is in flight, and the busy flag of the form tells so,
    however submissions and network events interleave. *)
Theorem registration_single_flight show_frac s es :
  single s -> single (exec show_frac s es).
Proof.
  intros H. apply (fold_invariant (step show_frac) single (fun _ => True)); [|by apply Forall_true|done].
  intros s' e _ Hs. by apply single_step.
Qed.

Lemma registration_single_flight_witness :
  single (exec no_frac blank_form [Submit De; Submit De; Response 0 true; Submit En]) /\
  length (requests (exec no_frac blank_form [Submit De; Submit De; Response 0 true; Submit En])) = 1%nat.
Proof. split; [|by vm_compute]. by apply (registration_single_flight no_frac blank_form). Defined.

(** C29: No registration is sent without the confirmed business use; a provider's names
    a country and accepts the provider terms, anybody else's carries neither country nor
    wallet. *)
Theorem registration_requires_consent show_frac s es :
  Forall request_ok (requests s) ->
  Forall request_ok (requests (exec show_frac s es)) /\
  (bizCheck s <> Some true -> Forall (fun e => match e with Fill _ _ _ _ bz => bz <> Some true | _ => True end) es ->
   requests (exec show_frac s es) = requests s).
Proof.
  intros H0. split.
  - apply (fold_invariant (step show_frac) (fun s => Forall request_ok (requests s)) (fun _ => True));
      [|by apply Forall_true|done].
    intros s' e _ Hs. destruct (requests_step show_frac s' e) as [->|(_ & r & Hr & ->)]; [done|].
    apply Forall_app. auto.
  - intros Hb Hes.
    apply (fold_invariant (step show_frac) (fun s' => bizCheck s' <> Some true /\ requests s' = requests s)
      (fun e => match e with Fill _ _ _ _ bz => bz <> Some true | _ => True end)); [|done|done].
    intros s' e He [Hc Hr]. split.
    + destruct e; simpl; try done.
      * unfold compliantRegistration. destruct (busy s'); [done|]. destruct (negb _); [done|]. by destruct (_ && _).
      * unfold on_response. by destruct (inflight s' !! id) as [[[|] ?]|].
      * unfold on_data. destruct (inflight s' !! id) as [[[|ok] ?]|]; try done.
        destruct ok; [destruct (get data _) as [key|m]; [destruct (vtruthy key)|]|]; cbv zeta;
          try destruct (if has_snippets then _ else None) as [[]|]; done.
      * unfold on_reject. by destruct (inflight s' !! id) as [[? ?]|].
    + destruct (requests_step show_frac s' e) as [->|(Hcc & _)]; [done|].
      unfold consented in Hcc. destruct (bizCheck s') as [[]|]; done.
Qed.

Lemma registration_requires_consent_witness :
  (country_code <$> requests (exec no_frac blank_form [Submit De])) = [js "DE"] /\
  Forall request_ok (requests (exec no_frac blank_form [Submit De])).
Proof.
  split; [by vm_compute|]. by apply (registration_requires_consent no_frac blank_form [Submit De]).
Defined.

(** A refused or failed registration clears the busy flag, enables the button and
    shows a failure text of at most 160 characters after its prefix. *)
Theorem registration_failure_is_reported show_frac s id l name message k :
  inflight s !! id = Some (AwaitFetch, l) \/ (exists ok, inflight s !! id = Some (AwaitJson ok, l)) ->
  keyInput s = Some k -> name <> [] ->
  let s' := step show_frac s (Reject id name message) in
  busy s' = false /\ (forall b, submitBtn s' = Some b -> disabled b = false) /\ ls s' = ls s /\
  exists t, keyInput s' = Some (tr l (js "Registrierung fehlgeschlagen: ") (js "Registration failed: ") ++ t) /\
    t <> [] /\ (length t <= 160)%nat.
Proof.
  intros Hl Hk Hn. cbv zeta. simpl. unfold on_reject.
  assert (E : exists st, inflight s !! id = Some (st, l)) by (destruct Hl as [->|[ok ->]]; eauto).
  destruct E as [st ->]. unfold catch_error, busy. simpl. rewrite Hk. split_and!; try done.
  - by destruct (form_busy s).
  - intros b. destruct (submitBtn s); simpl; intros; simplify_eq. done.
  - eexists. split; [reflexivity|]. split.
    + destruct (truthy message) eqn:Em; [destruct message|destruct name]; done.
    + rewrite length_take. lia.
Qed.

Lemma registration_failure_is_reported_witness :
  let s := exec no_frac blank_form [Submit De] in
  busy s = true /\ busy (step no_frac s (Reject 0 (js "TypeError") (js "offline"))) = false.
Proof.
  split; [done|].
  eapply (registration_failure_is_reported no_frac (exec no_frac blank_form [Submit De]) 0 De); [by left|done|done].
Defined.
