(* ===== verification/CoreRegistration.v ===== *)
(** * The registration handler of portal-core.js

    [handleRegistration], which serves the registration form until [setupModalHooks] of
    portal.js has replaced it by [compliantRegistration].  It is cut at its [await]s like
    the others; it has no busy flag and asks for no consent. *)
From Stdlib Require Import Lia ZArith QArith.
From stdpp Require Import base numbers list gmap strings.
From S2P Require Import Prelude JsString JsNumber JsValue Registration.

(** The body of [POST /api/v1/register]. *)
Record core_request := CoreRequest { c_email : jsstring; c_role : jsstring; c_wallet : jsstring }.

Record core_state := CoreState {
  c_lang : lang;
  c_roleEl : option jsstring;
  c_emailEl : option jsstring;
  c_walletEl : option jsstring;
  c_keyInput : option jsstring;
  c_resBox : option jsstring;
  c_inflight : gmap nat stage;
  c_next : nat;
  c_requests : list core_request;
}.

Definition show_key (t : jsstring) (s : core_state) : core_state :=
  CoreState (c_lang s) (c_roleEl s) (c_emailEl s) (c_walletEl s) ((fun _ => t) <$> c_keyInput s) (c_resBox s)
    (c_inflight s) (c_next s) (c_requests s).
Definition set_waiting (f : gmap nat stage) (s : core_state) : core_state :=
  CoreState (c_lang s) (c_roleEl s) (c_emailEl s) (c_walletEl s) (c_keyInput s) (c_resBox s) f (c_next s) (c_requests s).

Definition registering (l : lang) : jsstring := tr l (js "Registrierung läuft...") (js "Registering...").
Definition registration_failed (l : lang) : jsstring :=
  tr l (js "Registrierung fehlgeschlagen. Bitte später erneut versuchen.") (js "Registration failed. Please try again later.").

Section Core.
Context (show_frac : Q -> jsstring).

(** The synchronous part; without the menu of the role it throws before anything is done. *)
Definition handleRegistration (s : core_state) : core_state :=
  match c_roleEl s with
  | None => s
  | Some role =>
      let s1 := show_key (registering (c_lang s)) s in
      CoreState (c_lang s1) (c_roleEl s1) (c_emailEl s1) (c_walletEl s1) (c_keyInput s1) ((fun _ => js "block") <$> c_resBox s1)
        (<[c_next s1 := AwaitFetch]> (c_inflight s1)) (S (c_next s1))
        (c_requests s1 ++ [CoreRequest (value_or (c_emailEl s1) []) role (value_or (c_walletEl s1) [])])
  end.

(** [const resp = await fetch(...)] *)
Definition core_response (id : nat) (ok : bool) (s : core_state) : core_state :=
  match c_inflight s !! id with
  | Some AwaitFetch => set_waiting (<[id := AwaitJson ok]> (c_inflight s)) s
  | _ => s
  end.

(** The key of a successful answer; reading a property of [null] throws like the rest. *)
Definition key_of (ok : bool) (data : jsval) : option jsstring :=
  match get data (js "api_key") with
  | Ret v => if ok && vtruthy v then Some (to_str show_frac v) else None
  | Throw _ => None
  end.

(** [const data = await resp.json(); ...] *)
Definition core_data (id : nat) (data : jsval) (s : core_state) : core_state :=
  match c_inflight s !! id with
  | Some (AwaitJson ok) =>
      show_key (default (registration_failed (c_lang s)) (key_of ok data)) (set_waiting (delete id (c_inflight s)) s)
  | _ => s
  end.

(** A promise rejects. *)
Definition core_reject (id : nat) (s : core_state) : core_state :=
  match c_inflight s !! id with
  | Some _ => show_key (registration_failed (c_lang s)) (set_waiting (delete id (c_inflight s)) s)
  | None => s
  end.

Inductive core_event : Type :=
| CoreSubmit
| CoreResponse (id : nat) (ok : bool)
| CoreData (id : nat) (data : jsval)
| CoreReject (id : nat)
| CoreLang (l : lang).

Definition core_step (s : core_state) (e : core_event) : core_state :=
  match e with
  | CoreSubmit => handleRegistration s
  | CoreResponse id ok => core_response id ok s
  | CoreData id d => core_data id d s
  | CoreReject id => core_reject id s
  | CoreLang l =>
      CoreState l (c_roleEl s) (c_emailEl s) (c_walletEl s) (c_keyInput s) (c_resBox s) (c_inflight s) (c_next s) (c_requests s)
  end.

Definition core_exec (s : core_state) (es : list core_event) : core_state := fold_left core_step es s.

(** What the key field can show: what it showed at first, the text of a running or of a failed
    registration, or the key of an answer. *)
Definition answered (es : list core_event) (t : jsstring) : Prop :=
  exists id d, CoreData id d ∈ es /\ key_of true d = Some t.
Definition shown_ok (before : option jsstring) (es : list core_event) (o : option jsstring) : Prop :=
  o = before \/ (exists l, o = Some (registering l) \/ o = Some (registration_failed l)) \/ exists t, o = Some t /\ answered es t.

Lemma core_step_shows s e :
  c_keyInput (core_step s e) = c_keyInput s \/
  exists t, c_keyInput (core_step s e) = (fun _ => t) <$> c_keyInput s /\
    ((exists l, t = registering l \/ t = registration_failed l) \/ exists id d, e = CoreData id d /\ key_of true d = Some t).
Proof.
  destruct e as [|id ok|id d|id|l]; cbn [core_step]; [..|by left].
  - unfold handleRegistration. destruct (c_roleEl s); [|by left]. cbn. right. eexists. split; [done|]. left. exists (c_lang s). by left.
  - unfold core_response. destruct (c_inflight s !! id) as [[]|]; by left.
  - unfold core_data. destruct (c_inflight s !! id) as [[|ok]|]; [by left| |by left]. cbn. right. eexists. split; [done|].
    destruct (key_of ok d) as [t|] eqn:E; cbn; [|left; exists (c_lang s); by right]. right. exists id, d. split; [done|].
    unfold key_of in *. destruct (get d _); [|done]. by destruct ok.
  - unfold core_reject. destruct (c_inflight s !! id); [|by left]. cbn. right. eexists. split; [done|]. left. exists (c_lang s). by right.
Qed.

Lemma shown_step before es s e : shown_ok before es (c_keyInput s) -> shown_ok before (es ++ [e]) (c_keyInput (core_step s e)).
Proof.
  intros H.
  assert (W : shown_ok before (es ++ [e]) (c_keyInput s)).
  { destruct H as [H|[H|(t & Ht & id & d & Hd & Hk)]]; [by left|right; by left|].
    right. right. exists t. split; [done|]. exists id, d. split; [apply elem_of_app; by left|done]. }
  destruct (core_step_shows s e) as [->|(t & -> & Ht)]; [done|]. destruct (c_keyInput s) as [k|] eqn:E; [|done]. cbn.
  destruct Ht as [(l & [-> | ->])|(id & d & -> & Hk)]; [right; left; exists l; by left|right; left; exists l; by right|].
  right. right. exists t. split; [done|]. exists id, d. split; [|done]. apply elem_of_app. right. by left.
Qed.

(** Whatever the order of clicks, answers and changes of the language, the key field shows a
    key only when an answer with a successful status brought it. *)
Theorem core_key_comes_from_an_answer s es : shown_ok (c_keyInput s) es (c_keyInput (core_exec s es)).
Proof.
  assert (G : forall es0 s0, shown_ok (c_keyInput s) es0 (c_keyInput s0) ->
    shown_ok (c_keyInput s) (es0 ++ es) (c_keyInput (core_exec s0 es))); [|by apply (G [] s); left].
  induction es as [|e es IH]; intros es0 s0 H; [by rewrite app_nil_r|].
  rewrite cons_middle, app_assoc. apply (IH (es0 ++ [e]) (core_step s0 e)). by apply shown_step.
Qed.

(** Every registration that was sent is settled by its answer: the field then shows the key
    or the text of a failure, and the request is no longer pending. *)
Theorem core_registration_settles s id st e : c_inflight s !! id = Some st ->
  (exists ok d, st = AwaitJson ok /\ e = CoreData id d) \/ e = CoreReject id ->
  let s' := core_step s e in
  c_inflight s' = delete id (c_inflight s) /\ c_requests s' = c_requests s /\
  c_keyInput s' = (fun _ => match e, st with CoreData _ d, AwaitJson ok => default (registration_failed (c_lang s)) (key_of ok d)
                                          | _, _ => registration_failed (c_lang s) end) <$> c_keyInput s.
Proof.
  intros H [(ok & d & -> & ->) | ->]; cbn [core_step]; unfold core_data, core_reject; rewrite H; done.
Qed.
End Core.

(** A form with its fields filled in. *)
Definition core_form : core_state :=
  CoreState En (Some (js "consumer")) (Some (js "a@b.c")) None (Some []) (Some (js "none")) ∅ 0 [].

Lemma core_registration_settles_witness :
  c_keyInput (core_exec (fun _ => []) core_form
    [CoreSubmit; CoreResponse 0 true; CoreData 0 (VObj [(js "api_key", VStr (js "cm_live_1"))])]) = Some (js "cm_live_1").
Proof.
  refine (proj2 (proj2 (core_registration_settles (fun _ => []) (core_exec (fun _ => []) core_form [CoreSubmit; CoreResponse 0 true]) 0
    (AwaitJson true) (CoreData 0 (VObj [(js "api_key", VStr (js "cm_live_1"))])) _ _))); [reflexivity|left; exists true, (VObj [(js "api_key", VStr (js "cm_live_1"))]); split; reflexivity].
Defined.

(** Unlike the handler that replaces it, this one sends a request for every click. *)
Example core_registration_repeats :
  length (c_requests (core_exec (fun _ => []) core_form [CoreSubmit; CoreSubmit])) = 2%nat.
Proof. reflexivity. Qed.
