(* ===== verification/SnippetTables.v ===== *)
(** * The code samples of the portal (portal-core.js)

    The template literals of [renderPlaygroundSnippet], [updateCodeSnippetsWithKey],
    [copyModelApiSnippet] and [DX_CODE_TEMPLATES] in source order, with a hole for the API
    key and one for the model; a back-quote stands for the double quote.  [Snippets.v]
    renders them. *)
From Stdlib Require Import String.
From stdpp Require Import base list strings.

#[local] Open Scope string_scope.

Inductive part : Type := Lit (s : string) | Key | Model.

Definition pg_curl_bash : list part :=
  [Lit "# Linux / macOS (cURL / Bash)
export OLLAMA_HOST=https://mesh.inetconnector.com
curl https://mesh.inetconnector.com/v1/chat/completions \
  -H `Content-Type: application/json` \
  -H `Authorization: Bearer "; Key; Lit "` \
  -d '{`model`:`qwen2.5:7b`,`messages`:[{`role`:`user`,`content`:`What is ComputeMesh?`}],`stream`:true}'"].

Definition pg_curl_win : list part :=
  [Lit "REM Windows Eingabeaufforderung (CMD - Einzeiler)
curl -X POST `https://mesh.inetconnector.com/v1/chat/completions` -H `Content-Type: application/json` -H `Authorization: Bearer "; Key; Lit "` -d `{\`model\`:\`qwen2.5:7b\`,\`messages\`:[{\`role\`:\`user\`,\`content\`:\`What is ComputeMesh?\`}],\`stream\`:false}`"].

Definition pg_powershell : list part :=
  [Lit "# Windows PowerShell (Native REST-Abfrage)
$headers = @{ `Content-Type` = `application/json`; `Authorization` = `Bearer "; Key; Lit "` }
$body = @{ model = `qwen2.5:7b`; messages = @(@{ role = `user`; content = `What is ComputeMesh?` }); stream = $false } | ConvertTo-Json
Invoke-RestMethod -Uri `https://mesh.inetconnector.com/v1/chat/completions` -Method Post -Headers $headers -Body $body"].

Definition pg_python : list part :=
  [Lit "# Python 3 (OpenAI SDK oder urllib mit SSE Streaming)
import urllib.request, json

req = urllib.request.Request(
    `https://mesh.inetconnector.com/v1/chat/completions`,
    data=json.dumps({`model`: `qwen2.5:7b`, `messages`: [{`role`: `user`, `content`: `What is ComputeMesh?`}], `stream`: True}).encode(`utf-8`),
    headers={`Content-Type`: `application/json`, `Authorization`: `Bearer "; Key; Lit "`}
)
with urllib.request.urlopen(req) as resp:
    for line in resp:
        txt = line.decode(`utf-8`).strip()
        if txt.startswith(`data: `) and not txt.endswith(`[DONE]`):
            print(json.loads(txt[6:])[`choices`][0][`delta`].get(`content`, ``), end=``, flush=True)
print()"].

Definition pg_ollama : list part :=
  [Lit "# Offizielle Ollama CLI (Linux/macOS: export, Windows CMD: set, PowerShell: $env:OLLAMA_HOST)
export OLLAMA_HOST=https://mesh.inetconnector.com
ollama run qwen2.5:7b `What is ComputeMesh?`"].

Definition python_sdk : list part :=
  [Lit "from openai import OpenAI

# 100% drop-in replacement for OpenAI SDK
client = OpenAI(
    base_url=`https://mesh.inetconnector.com/v1`,
    api_key=`"; Key; Lit "`
)

response = client.chat.completions.create(
    model=`qwen2.5:7b`,
    messages=[{`role`: `user`, `content`: `Explain decentralized AI in 3 sentences.`}],
    stream=True
)

for chunk in response:
    print(chunk.choices[0].delta.content or ``, end=``)"].

Definition model_api : list part :=
  [Lit "from openai import OpenAI

client = OpenAI(
    base_url=`https://mesh.inetconnector.com/v1`,
    api_key=`"; Key; Lit "`
)

response = client.chat.completions.create(
    model=`"; Model; Lit "`,
    messages=[{`role`: `user`, `content`: `Hello from ComputeMesh!`}],
    stream=True
)

for chunk in response:
    print(chunk.choices[0].delta.content or ``, end=``, flush=True)"].

Definition DX_CODE_TEMPLATES : list (string * (string * list part)) := [
  ("python", ("inference_client.py",
    [Lit "from openai import OpenAI

# 100% drop-in replacement for OpenAI SDK
client = OpenAI(
    base_url=`https://mesh.inetconnector.com/v1`,
    api_key=`"; Key; Lit "`
)

response = client.chat.completions.create(
    model=`qwen2.5:7b`,
    messages=[{`role`: `user`, `content`: `Explain distributed AI inference in simple terms.`}],
    stream=True
)

for chunk in response:
    if chunk.choices[0].delta.content:
        print(chunk.choices[0].delta.content, end=``, flush=True)"]));
  ("nodejs", ("inference.ts",
    [Lit "import OpenAI from `openai`;

const openai = new OpenAI({
  baseURL: `https://mesh.inetconnector.com/v1`,
  apiKey: `"; Key; Lit "`,
});

async function main() {
  const stream = await openai.chat.completions.create({
    model: `qwen2.5:7b`,
    messages: [{ role: `user`, content: `Write a quick TypeScript helper.` }],
    stream: true,
  });

  for await (const chunk of stream) {
    process.stdout.write(chunk.choices[0]?.delta?.content || ``);
  }
}

main();"]));
  ("curl", ("curl_request.sh",
    [Lit "curl https://mesh.inetconnector.com/v1/chat/completions \
  -H `Content-Type: application/json` \
  -H `Authorization: Bearer "; Key; Lit "` \
  -d '{
    `model`: `qwen2.5:7b`,
    `messages`: [{`role`: `user`, `content`: `What is ComputeMesh?`}],
    `stream`: true
  }'"]));
  ("ollama", ("ollama_cli.sh",
    [Lit "# Point Ollama CLI to the ComputeMesh distributed pool
export OLLAMA_HOST=https://mesh.inetconnector.com

# Run any open-source model instantly
ollama run qwen2.5:7b `Explain pipeline layer sharding.`"]));
  ("langchain", ("langchain_mesh.py",
    [Lit "from langchain_openai import ChatOpenAI

llm = ChatOpenAI(
    base_url=`https://mesh.inetconnector.com/v1`,
    api_key=`"; Key; Lit "`,
    model=`qwen2.5:7b`,
    temperature=0.7
)

for chunk in llm.stream(`Summarize the benefits of decentralized GPUs:`):
    print(chunk.content, end=``, flush=True)"]))].
