(* ===== verification/Snippets.v ===== *)
(** * Code samples, copy buttons and page header (portal-core.js)

    The samples of the playground and of the developer window with the visitor's API key
    ([renderPlaygroundSnippet], [switchPlaygroundCodeTab], [updateCodeSnippetsWithKey],
    [switchDxTab], [copyModelApiSnippet]), the copy buttons and their two-second feedback
    ([copyKey], [copyPlaygroundCommand], [copyPythonCode], [copyLinuxCommand],
    [copyDxCode], [copyCliCommand]), the registration dialog ([openModal], [closeModal])
    and the header ([initUnifiedPortalHeader], [ensureCausaMindMenuItem]).  The samples are
    composed with the registration of [Registration.v]: they share the key field and the
    stored key. *)
From Stdlib Require Import Lia NArith ZArith QArith.
From stdpp Require Import base numbers list gmap strings.
From S2P Require Import Prelude JsString JsNumber JsValue SnippetTables Registration.

(** ** Templates *)

Definition render_part (key model : jsstring) (p : part) : jsstring :=
  match p with Lit s => jsq s | Key => key | Model => model end.

Definition render (t : list part) (key model : jsstring) : jsstring := concat (render_part key model <$> t).

Definition cm_api_key : jsstring := js "cm_api_key".

(** [localStorage.getItem('cm_api_key') || 'cm_live_your_key'] *)
Definition shown_key (m : gmap jsstring jsstring) : jsstring :=
  let k := item_or_empty cm_api_key m in if truthy k then k else js "cm_live_your_key".

Definition playground_template (tab : jsstring) : option (list part) :=
  snd <$> List.find (fun e => seqb e.1 tab)
    [(js "curl_bash", pg_curl_bash); (js "curl_win", pg_curl_win); (js "powershell", pg_powershell);
     (js "python", pg_python); (js "ollama", pg_ollama)].

(** The names are those of the tab buttons. *)
Definition dx_template (lang : jsstring) : jsstring * list part :=
  let t := (fun e => (js e.1, (js e.2.1, e.2.2))) <$> DX_CODE_TEMPLATES in
  match List.find (fun e => seqb e.1 lang) t with
  | Some e => e.2
  | None => match t with e :: _ => e.2 | [] => ([], []) end
  end.

(** ** Samples *)

(** The elements of the page; [None] when it has none.  [dx] are the file name and the
    code of the developer window. *)
Record codes := Codes {
  tab : jsstring;
  playground : option jsstring;
  python : option jsstring;
  dx : option jsstring * option jsstring;
}.

Definition set_playground (c : option jsstring) (k : codes) : codes := Codes (tab k) c (python k) (dx k).

(** [renderPlaygroundSnippet()] *)
Definition renderPlaygroundSnippet (st : storage) (c : codes) : outcome jsstring codes :=
  match st with
  | None => Throw (js "SecurityError")
  | Some m =>
      Ret match playground c, playground_template (tab c) with
          | Some _, Some t => set_playground (Some (render t (shown_key m) [])) c
          | _, _ => c
          end
  end.

(** [switchPlaygroundCodeTab(tab)]; the tab stays chosen when the sample cannot be shown. *)
Definition switchPlaygroundCodeTab (st : storage) (name : jsstring) (c : codes) : codes :=
  let c1 := Codes name (playground c) (python c) (dx c) in
  match renderPlaygroundSnippet st c1 with Ret c2 => c2 | Throw _ => c1 end.

(** [updateCodeSnippetsWithKey(apiKey)]: the store and the samples, and whether it threw. *)
Definition updateCodeSnippetsWithKey (k : jsstring) (st : storage) (c : codes) : storage * codes * bool :=
  if not_a_key k then (st, c, false)
  else
    let st' := match setItem cm_api_key k st with Ret st' => st' | Throw _ => st end in
    match renderPlaygroundSnippet st' c with
    | Throw _ => (st', c, true)
    | Ret c' => (st', Codes (tab c') (playground c') ((fun _ => render python_sdk k []) <$> python c') (dx c'), false)
    end.

(** [switchDxTab(lang, btn)] *)
Definition switchDxTab (st : storage) (lang : jsstring) (c : codes) : codes :=
  match st with
  | None => c
  | Some m =>
      let '(file, t) := dx_template lang in
      Codes (tab c) (playground c) (python c)
        ((fun _ => file) <$> (dx c).1, (fun _ => render t (shown_key m) []) <$> (dx c).2)
  end.

(** [copyModelApiSnippet(modelId)]: what goes to the clipboard. *)
Definition copyModelApiSnippet (st : storage) (modelId : jsstring) : outcome jsstring jsstring :=
  match st with None => Throw (js "SecurityError") | Some m => Ret (render model_api (shown_key m) modelId) end.

(** ** Copy buttons *)

(** The label, and the labels the running timers will restore, oldest first: all timers
    run for two seconds. *)
Record copier := Copier { text : jsstring; timers : list jsstring }.

Inductive copy_kind : Type := CopyKey | CopyPlayground | CopyPython | CopyLinux | CopyDx | CopyCli.

(** The feedback of [copyKey], [copyPlaygroundCommand], [copyPythonCode],
    [copyLinuxCommand], [copyDxCode] and [copyCliCommand]. *)
Definition copied (k : copy_kind) (l : lang) : jsstring :=
  match k with
  | CopyKey | CopyLinux | CopyDx => tr l (js "✓ Kopiert!") (js "✓ Copied!")
  | CopyPlayground => tr l (js "✓ Befehl kopiert!") (js "✓ Command copied!")
  | CopyPython => tr l (js "✓ Code kopiert!") (js "✓ Code copied!")
  | CopyCli => js "✓"
  end.

(** [orig = btn.textContent; btn.textContent = ...; setTimeout(() => btn.textContent = orig, 2000)] *)
Definition flash (feedback : jsstring) (b : copier) : copier := Copier feedback (timers b ++ [text b]).

(** The oldest timer fires. *)
Definition fire (b : copier) : copier :=
  match timers b with [] => b | o :: r => Copier o r end.

(** [applyTranslations] writes the label of the new language. *)
Definition relabel (t : jsstring) (b : copier) : copier := Copier t (timers b).

(** ** The page *)

(** [modal]: whether the registration dialog is active, [None] when the page has none;
    [location]: the pages the script navigated to. *)
Record page := Page {
  reg : Registration.state; code : codes; keyBtn : option copier; clipboard : list jsstring;
  modal : option bool; location : list jsstring;
}.

Definition with_reg (r : Registration.state) (p : page) : page := Page r (code p) (keyBtn p) (clipboard p) (modal p) (location p).
Definition with_code (c : codes) (p : page) : page := Page (reg p) c (keyBtn p) (clipboard p) (modal p) (location p).
Definition with_btn (b : option copier) (p : page) : page := Page (reg p) (code p) b (clipboard p) (modal p) (location p).
Definition with_clipboard (t : jsstring) (p : page) : page :=
  Page (reg p) (code p) (keyBtn p) (clipboard p ++ [t]) (modal p) (location p).

Definition set_ls (st : storage) (s : Registration.state) : Registration.state :=
  Registration.State (form_busy s) (submitBtn s) (roleEl s) (emailEl s) (countryEl s) (walletEl s) (bizCheck s)
    (keyInput s) (resBox s) (providerFields s) st (snippets s) (inflight s) (next_id s) (requests s).

(** [copyKey()] *)
Definition copyKey (l : lang) (p : page) : page :=
  match keyInput (reg p) with
  | Some k =>
      if truthy k then
        let '(st, c, threw) := updateCodeSnippetsWithKey k (ls (reg p)) (code p) in
        with_clipboard k (with_btn (if threw then keyBtn p else flash (copied CopyKey l) <$> keyBtn p)
                            (with_code c (with_reg (set_ls st (reg p)) p)))
      else p
  | None => p
  end.

(** [copyPlaygroundCommand()], [copyPythonCode()] and [copyDxCode()] put a sample on the
    clipboard. *)
Definition copy_sample (sample : codes -> option jsstring) (p : page) : page :=
  match sample (code p) with
  | Some t => with_clipboard t p
  | None => p
  end.

(** The end of [initPortal()]: the samples of the stored key. *)
Definition init_samples (p : page) : page :=
  match ls (reg p) with
  | None => p
  | Some m =>
      let k := item_or_empty cm_api_key m in
      if truthy k then
        let '(st, c, _) := updateCodeSnippetsWithKey k (ls (reg p)) (code p) in with_code c (with_reg (set_ls st (reg p)) p)
      else match renderPlaygroundSnippet (ls (reg p)) (code p) with
           | Ret c => with_code c p
           | Throw _ => p
           end
  end.

(** The menu of the role. *)
Definition set_role (role : jsstring) (s : Registration.state) : Registration.state :=
  Registration.State (form_busy s) (submitBtn s) ((fun _ => role) <$> roleEl s) (emailEl s) (countryEl s) (walletEl s) (bizCheck s)
    (keyInput s) (resBox s) (providerFields s) (ls s) (snippets s) (inflight s) (next_id s) (requests s).

(** [openModal(role)] of [portal-core.js]; the roles are [consumer] and [provider], which
    [encodeURIComponent] leaves as they are. *)
Definition openModal_core (role : jsstring) (p : page) : page :=
  match modal p with
  | Some _ => Page (set_role role (reg p)) (code p) (keyBtn p) (clipboard p) (Some true) (location p)
  | None => Page (reg p) (code p) (keyBtn p) (clipboard p) None (location p ++ [js "/?action=register&role=" ++ role])
  end.

(** [openModal(role)] as [portal.js] wraps it. *)
Definition openModal (l : lang) (role : jsstring) (p : page) : page :=
  let p1 := openModal_core role p in
  with_reg (syncProviderControls l (set_role role (reg p1))) p1.

(** [closeModal()] *)
Definition closeModal (p : page) : page :=
  let s := reg p in
  Page (set_ui (form_busy s) (submitBtn s) (keyInput s) ((fun _ => js "none") <$> resBox s) s)
    (code p) (keyBtn p) (clipboard p) ((fun _ => false) <$> modal p) (location p).

Section Page.
Context (show_frac : Q -> jsstring).

(** A step of the registration; the keys it hands to [updateCodeSnippetsWithKey] are shown. *)
Definition registration_step (e : Registration.event) (p : page) : page :=
  let r := Registration.step show_frac (reg p) e in
  let c := fold_left (fun c k => (updateCodeSnippetsWithKey k (ls r) c).1.2) (drop (length (snippets (reg p))) (snippets r)) (code p) in
  with_code c (with_reg r p).

Inductive event : Type :=
| Init
| Reg (e : Registration.event)
| Copy (l : lang)
| Restore
| Translate (t : jsstring)
| Tab (name : jsstring)
| DxTab (name : jsstring)
| CopyPlaygroundSample
| CopyDxSample
| Open (l : lang) (role : jsstring)
| Close.

Definition step (p : page) (e : event) : page :=
  match e with
  | Init => init_samples p
  | Reg e => registration_step e p
  | Copy l => copyKey l p
  | Restore => with_btn (fire <$> keyBtn p) p
  | Translate t => with_btn (relabel t <$> keyBtn p) p
  | Tab n => with_code (switchPlaygroundCodeTab (ls (reg p)) n (code p)) p
  | DxTab n => with_code (switchDxTab (ls (reg p)) n (code p)) p
  | CopyPlaygroundSample => copy_sample playground p
  | CopyDxSample => copy_sample (fun c => (dx c).2) p
  | Open l role => openModal l role p
  | Close => closeModal p
  end.

Definition exec (p : page) (evs : list event) : page := fold_left step evs p.

End Page.

(** ** The label of a copy button *)

Fixpoint fires (n : nat) (b : copier) : copier := match n with O => b | S n => fires n (fire b) end.

Lemma fires_enough n b : (length (timers b) <= n)%nat ->
  fires n b = Copier (default (text b) (last (timers b))) [].
Proof.
  revert b. induction n as [|n IH]; intros [t l] Hn; destruct l as [|o r]; cbn in *; try lia; try done.
  - rewrite IH by (cbn; lia). done.
  - rewrite IH by (cbn; lia). cbn [text timers]. destruct r as [|o' r]; [done|]. rewrite last_cons_cons.
    destruct (last (o' :: r)) eqn:E; [done|]. by apply last_None in E.
Qed.

(** When every timer has fired, a copy button shows what it showed at its last click,
    whatever happened before that click.  So a click on the resting label restores it, and a
    click during the feedback of the previous one leaves the feedback for good. *)
Theorem label_is_what_the_last_click_saw feedback b n : (length (timers b) < n)%nat ->
  fires n (flash feedback b) = Copier (text b) [].
Proof. intros Hn. rewrite fires_enough by (cbn; rewrite length_app; cbn; lia). cbn [flash timers text]. by rewrite last_snoc. Qed.

Lemma label_is_what_the_last_click_saw_witness :
  fires 2 (flash (js "✓ Copied!") (flash (js "✓ Copied!") (Copier (js "Copy") []))) = Copier (js "✓ Copied!") [].
Proof. refine (label_is_what_the_last_click_saw (js "✓ Copied!") (flash (js "✓ Copied!") (Copier (js "Copy") [])) 2 _). cbn. lia. Defined.

(** ** The samples show the stored key *)

Definition stored_ok (m : gmap jsstring jsstring) : Prop :=
  item_or_empty cm_api_key m = [] \/ not_a_key (item_or_empty cm_api_key m) = false.

(** The playground sample is the chosen template with the stored key. *)
Definition in_step (st : storage) (c : codes) : Prop :=
  match st, playground c, playground_template (tab c) with
  | Some m, Some t, Some tpl => t = render tpl (shown_key m) []
  | _, _, _ => True
  end.

(** A registration answer brings no key or one that is taken for a key. *)
Definition key_answer (d : jsval) : Prop :=
  match prop d (js "api_key") with
  | VStr k => k = [] \/ not_a_key k = false
  | v => vtruthy v = false
  end.

Definition safe_event (e : event) : Prop :=
  match e with Reg (Data _ d has_snippets) => has_snippets = true /\ key_answer d | _ => True end.

Lemma render_in_step m c c' : renderPlaygroundSnippet (Some m) c = Ret c' -> in_step (Some m) c' /\ tab c' = tab c.
Proof.
  unfold renderPlaygroundSnippet, in_step. intros [= <-].
  destruct (playground c) eqn:E1; [|by rewrite E1]. destruct (playground_template (tab c)) eqn:E2; cbn [set_playground playground tab python dx]; rewrite ?E1, ?E2; done.
Qed.

Lemma update_in_step k st c : in_step st c ->
  in_step (updateCodeSnippetsWithKey k st c).1.1 (updateCodeSnippetsWithKey k st c).1.2.
Proof.
  intros H. unfold updateCodeSnippetsWithKey. destruct (not_a_key k); [done|]. destruct st as [m|]; [|done]. cbn [setItem].
  destruct (renderPlaygroundSnippet _ c) as [c'|] eqn:E; [|done]. by apply render_in_step in E as [E _].
Qed.

Lemma update_shows k m c : not_a_key k = false ->
  in_step (Some (<[cm_api_key := k]> m)) (updateCodeSnippetsWithKey k (Some (<[cm_api_key := k]> m)) c).1.2.
Proof.
  intros Hk. unfold updateCodeSnippetsWithKey. rewrite Hk. cbn [setItem]. rewrite insert_insert_eq.
  destruct (renderPlaygroundSnippet _ c) as [c'|] eqn:E; [|done]. by apply render_in_step in E as [E _].
Qed.

Definition good (p : page) : Prop := in_step (ls (reg p)) (code p).

Section Good.
Context (show_frac : Q -> jsstring).

(** A step of the registration leaves the store and the samples alone, or brings a key to
    both. *)
Lemma registration_keys e s : safe_event (Reg e) ->
  (ls (Registration.step show_frac s e) = ls s /\ drop (length (snippets s)) (snippets (Registration.step show_frac s e)) = []) \/
  (exists k, not_a_key k = false /\ drop (length (snippets s)) (snippets (Registration.step show_frac s e)) = [k] /\
     ls (Registration.step show_frac s e) = <[cm_api_key := k]> <$> ls s).
Proof.
  intros He. destruct e as [l|id ok|id d h|id n m|r em c w bz|l]; cbn [Registration.step];
    try (left; split; [done|]; by rewrite drop_ge).
  - left. unfold compliantRegistration. destruct (busy s); [by rewrite drop_ge|]. destruct (negb (consented s)); [by rewrite drop_ge|].
    destruct (_ && _); by rewrite drop_ge.
  - left. unfold on_response. destruct (inflight s !! id) as [[[|] ?]|]; by rewrite drop_ge.
  - unfold on_data. destruct (inflight s !! id) as [[[|ok] l]|]; try (left; by rewrite drop_ge).
    destruct ok; [|left; by rewrite drop_ge]. destruct (get d (js "api_key")) as [key|m] eqn:Eg; [|left; by rewrite drop_ge].
    destruct (vtruthy key) eqn:Et; [|left; by rewrite drop_ge]. right. destruct He as [-> Hk].
    assert (Ep : prop d (js "api_key") = key) by (destruct d; inversion Eg; done).
    unfold key_answer in Hk. rewrite Ep in Hk. destruct key as [| | | |k| |]; try (rewrite Et in Hk; done); [].
    destruct Hk as [->|Hk]; [done|]. cbv zeta.
    exists k. split; [done|]. destruct (ls s) as [mm|] eqn:Els; cbn [setItem snippets_throw getItem ls to_str]; rewrite Hk;
      cbn [catch_error finally set_inflight set_ui snippets ls]; (split; [|done]); rewrite drop_app_ge by lia;
      by replace (length (snippets s) - length (snippets s))%nat with 0%nat by lia.
  - left. unfold on_reject. destruct (inflight s !! id) as [[? ?]|]; by rewrite drop_ge.
Qed.

Lemma step_good e p : safe_event e -> good p -> good (step show_frac p e).
Proof.
  intros He H. destruct e as [|e|l|t|t|n|n| | |l r|]; cbn [step]; try done.
  - unfold init_samples. destruct (ls (reg p)) as [m|] eqn:E; [|done]. destruct (truthy _).
    + pose proof (update_in_step (item_or_empty cm_api_key m) (ls (reg p)) (code p) H) as G. rewrite E in G.
      destruct (updateCodeSnippetsWithKey _ _ _) as [[st c] b]. exact G.
    + destruct (renderPlaygroundSnippet (Some m) (code p)) as [c|] eqn:Er; [|done]. apply render_in_step in Er as [Er _].
      unfold good. cbn [reg code with_code]. by rewrite E.
  - unfold good, registration_step. cbv zeta. cbn [reg code with_code with_reg]. destruct (registration_keys e (reg p) He) as [[-> ->]|(k & Hk & -> & ->)]; [exact H|].
    cbn [fold_left]. destruct (ls (reg p)) as [m|]; [|done]. by apply update_shows.
  - unfold copyKey. destruct (keyInput (reg p)) as [k|]; [|done]. destruct (truthy k); [|done].
    pose proof (update_in_step k (ls (reg p)) (code p) H) as G. destruct (updateCodeSnippetsWithKey _ _ _) as [[st c] b]. exact G.
  - unfold good, switchPlaygroundCodeTab. cbn [reg code with_code]. cbv zeta. destruct (ls (reg p)) as [m|] eqn:E; [|done].
    destruct (renderPlaygroundSnippet (Some m) _) as [c|] eqn:Er; [|done]. by apply render_in_step in Er as [Er _].
  - unfold good, switchDxTab. cbn [reg code with_code]. destruct (ls (reg p)) as [m|] eqn:E; [|done]. destruct (dx_template n).
    unfold good in H. by rewrite E in H.
  - unfold copy_sample. by destruct (playground (code p)).
  - unfold copy_sample. by destruct (dx (code p)).2.
  - unfold openModal, openModal_core. by destruct (modal p).
Qed.

Lemma init_good p : match ls (reg p) with Some m => stored_ok m | None => True end -> good (init_samples p).
Proof.
  intros H. unfold init_samples. destruct (ls (reg p)) as [m|] eqn:E; [|by unfold good; rewrite E].
  destruct (truthy (item_or_empty cm_api_key m)) eqn:Et.
  - destruct H as [H|H]; [by rewrite H in Et|]. unfold updateCodeSnippetsWithKey. rewrite H. cbn [setItem].
    destruct (renderPlaygroundSnippet _ (code p)) as [c|] eqn:Er; [|done]. by apply render_in_step in Er as [Er _].
  - destruct (renderPlaygroundSnippet (Some m) (code p)) as [c|] eqn:Er; [|done]. apply render_in_step in Er as [Er _].
    unfold good. cbn [reg code with_code]. by rewrite E.
Qed.

End Good.

(** From the start of the page on, through registrations, copies, tab changes and
    dialogs in any order, the playground sample is the template of the chosen tab with the
    key of the store, provided the stored key and the keys the gateway hands out are
    not mistaken for status texts. *)
Theorem samples_follow_the_key show_frac p evs :
  match ls (reg p) with Some m => stored_ok m | None => True end -> Forall safe_event evs ->
  in_step (ls (reg (exec show_frac (init_samples p) evs))) (code (exec show_frac (init_samples p) evs)).
Proof.
  intros H0 He. apply (fold_invariant (step show_frac) good safe_event); [|done|by apply init_good].
  intros q e Hq. by apply step_good.
Qed.

Definition blank_page (st : storage) : page :=
  Page (set_ls st blank_form) (Codes (js "curl_bash") (Some []) (Some []) (Some [], Some [])) (Some (Copier (js "Copy") [])) [] (Some false) [].

Definition new_key : list event :=
  [Reg (Submit En); Reg (Response 0 true); Reg (Data 0 (VObj [(js "api_key", VStr (js "cm_live_42"))]) true)].

Lemma samples_follow_the_key_witness :
  in_step (ls (reg (exec no_frac (init_samples (blank_page (Some ∅))) (new_key ++ [Tab (js "python")]))))
    (code (exec no_frac (init_samples (blank_page (Some ∅))) (new_key ++ [Tab (js "python")]))) /\
  playground (code (exec no_frac (init_samples (blank_page (Some ∅))) (new_key ++ [Tab (js "python")])))
  = Some (render pg_python (js "cm_live_42") []).
Proof.
  split; [|vm_compute; reflexivity]. refine (samples_follow_the_key no_frac (blank_page (Some ∅)) (new_key ++ [Tab (js "python")]) _ _).
  - left. vm_compute. reflexivity.
  - repeat apply Forall_cons_2; try exact I; [|apply Forall_nil_2]. split; [reflexivity|]. right. vm_compute. reflexivity.
Defined.

(** ** Where the samples and the registration disagree *)

(** The text of a running registration is not among the status texts that are refused
    as a key: the copy button stores it, the samples show it, and it is used as the visitor's
    API key from then on. *)
Theorem registration_status_becomes_the_key :
  let p := exec no_frac (init_samples (blank_page (Some ∅))) [Reg (Submit En); Copy En] in
  (exists m, ls (reg p) = Some m /\ m !! cm_api_key = Some (js "Generating API credentials…")) /\
  playground (code p) = Some (render pg_curl_bash (js "Generating API credentials…") []) /\
  clipboard p = [js "Generating API credentials…"].
Proof. split_and!; [eexists; split|..]; vm_compute; reflexivity. Qed.

(** With a blocked store a successful registration is reported as a failure: the
    update of the samples throws after the key was shown, and the failure text replaces
    the key, which is shown nowhere else. *)
Theorem blocked_store_hides_the_key :
  let p := exec no_frac (init_samples (blank_page None)) new_key in
  keyInput (reg p) = Some (js "Registration failed: SecurityError") /\
  busy (reg p) = false /\ python (code p) = Some [].
Proof. vm_compute. done. Qed.

(** The developer window keeps the sample of the old key until its tab is changed. *)
Example developer_window_keeps_the_old_key :
  let p := exec no_frac (init_samples (blank_page (Some ∅))) ([DxTab (js "curl")] ++ new_key) in
  (dx (code p)).2 = Some (render (dx_template (js "curl")).2 (js "cm_live_your_key") []) /\
  playground (code p) = Some (render pg_curl_bash (js "cm_live_42") []).
Proof. vm_compute. done. Qed.

(** A second click within two seconds leaves the feedback on the button, and a change of
    the language during the feedback restores the label of the old language. *)
Example feedback_stays_on_the_button :
  let p := exec no_frac (init_samples (blank_page (Some ∅))) (new_key ++ [Copy En; Copy En; Restore; Restore]) in
  text <$> keyBtn p = Some (js "✓ Copied!") /\
  (let q := exec no_frac (init_samples (blank_page (Some ∅))) (new_key ++ [Copy En; Translate (js "Kopieren"); Restore]) in
   text <$> keyBtn q = Some (js "Copy")).
Proof. vm_compute. done. Qed.

(** ** The header *)

(** The items of the dropdown menu by their addresses. *)
Definition menu := list jsstring.

Definition causamind : jsstring := js "https://trade.inetconnector.com/".

Fixpoint insert_after (p : jsstring -> bool) (x : jsstring) (l : menu) : menu :=
  match l with
  | [] => [x]
  | y :: r => if p y then y :: x :: r else y :: insert_after p x r
  end.

(** [ensureCausaMindMenuItem(header)]: after the Today item when there is one, else at the
    end. *)
Definition ensureCausaMindMenuItem (l : menu) : menu :=
  if existsb (includes (js "trade.inetconnector.com")) l then l
  else insert_after (includes (js "today.inetconnector.com")) causamind l.

Record nav_link := NavLink { href : option jsstring; active : bool }.

(** [s.replace(/\/$/, '') || '/'] *)
Definition clean_path (s : jsstring) : jsstring :=
  let t := match last s with Some c => if (c =? 47)%N then take (pred (length s)) s else s | None => s end in
  if truthy t then t else js "/".

Definition link_path (h : jsstring) : jsstring := clean_path (default [] (head (split_on 35%N h))).

(** The loop of [initUnifiedPortalHeader()]. *)
Definition mark_link (path : jsstring) (k : nav_link) : nav_link :=
  match href k with
  | None | Some [] => k
  | Some h =>
      NavLink (Some h)
        ((seqb (link_path h) path && negb (seqb path (js "/")))
         || (seqb (link_path h) (js "/") && seqb path (js "/") && negb (includes (js "#") h)))
  end.

Definition initUnifiedPortalHeader (pathname : jsstring) (l : list nav_link) (m : menu) : list nav_link * menu :=
  (mark_link (clean_path pathname) <$> l, ensureCausaMindMenuItem m).

Lemma insert_after_perm p x l : insert_after p x l ≡ₚ x :: l.
Proof.
  induction l as [|y l IH]; [done|]. cbn [insert_after]. destruct (p y); [apply perm_swap|]. rewrite IH. apply perm_swap.
Qed.

Lemma ensure_item l : existsb (includes (js "trade.inetconnector.com")) (ensureCausaMindMenuItem l) = true.
Proof.
  unfold ensureCausaMindMenuItem. destruct (existsb _ l) eqn:E; [done|]. apply existsb_exists. exists causamind.
  split; [|vm_compute; reflexivity]. apply list_elem_of_In. rewrite insert_after_perm. apply list_elem_of_here.
Qed.

(** However often the header is initialised, every menu item stays, the extra item is
    added at most once, and the links that carry the marker are exactly those to the page
    itself: any two of them lead to the same path, and none of them is a fragment of the start page. *)
Theorem header_is_idempotent pathname l m :
  let '(l1, m1) := initUnifiedPortalHeader pathname l m in
  initUnifiedPortalHeader pathname l1 m1 = (l1, m1) /\
  (m1 = m \/ m1 ≡ₚ causamind :: m) /\
  (forall k h, k ∈ l1 -> href k = Some h -> h <> [] ->
     (active k = true <-> link_path h = clean_path pathname /\ (clean_path pathname = js "/" -> includes (js "#") h = false))).
Proof.
  unfold initUnifiedPortalHeader. set (path := clean_path pathname). split_and!.
  - f_equal; [|unfold ensureCausaMindMenuItem at 1; by rewrite ensure_item].
    rewrite <- list_fmap_compose. apply list_fmap_ext. intros i k _. cbn. unfold mark_link at 2.
    destruct (href k) as [[|c h]|] eqn:E; unfold mark_link; rewrite ?E; done.
  - unfold ensureCausaMindMenuItem. destruct (existsb _ m); [by left|right; apply insert_after_perm].
  - intros k h (k0 & -> & Hk)%list_elem_of_fmap. unfold mark_link. destruct (href k0) as [[|c h']|] eqn:E; cbn [href active];
      rewrite ?E; try done; [by intros [= <-]|]. intros [= <-] _. set (h := c :: h') in *.
    destruct (decide (path = js "/")) as [Ep|Np].
    + rewrite Ep, seqb_refl. cbn [negb]. rewrite andb_false_r, andb_true_r. cbn [orb].
      rewrite andb_true_iff, seqb_eq, negb_true_iff. naive_solver.
    + rewrite (proj2 (seqb_neq path (js "/")) Np). cbn [negb]. rewrite andb_true_r, andb_false_r. cbn [andb]. rewrite orb_false_r, seqb_eq.
      naive_solver.
Qed.

