(* ===== verification/Clipboard.v ===== *)
(** * The copy buttons and the clipboard (portal-core.js)

    [copyPlaygroundCommand], [copyPythonCode], [copyLinuxCommand], [copyCliCommand] and
    [copyDxCode] when the browser grants or refuses the access to the clipboard: what is on
    the clipboard afterwards and what the visitor is told.  The buttons are those of
    Snippets. *)
From Stdlib Require Import Lia NArith QArith.
From stdpp Require Import base numbers list gmap strings.
From S2P Require Import Prelude JsString JsNumber JsValue I18n Registration SnippetTables Snippets.

(** How [navigator.clipboard.writeText] settles, and whether [document.execCommand('copy')]
    on a selected text area works. *)
Record browser := Browser { granted : bool; legacy : bool }.

(** The text on the clipboard, [None] when it is untouched; the button; the alerts. *)
Record effect := Effect { written : option jsstring; button : option copier; alerts : list jsstring }.

Definition write (b : browser) (t : jsstring) : option jsstring := if granted b then Some t else None.

(** [writeText(text).catch(() => { ... execCommand('copy') ... })] *)
Definition write_or_select (b : browser) (t : jsstring) : option jsstring := if granted b || legacy b then Some t else None.

Definition copyPlaygroundCommand (b : browser) (l : lang) (code : option jsstring) (btn : option copier) : effect :=
  match code with
  | None => Effect None btn []
  | Some t => Effect (write_or_select b t) (flash (copied CopyPlayground l) <$> btn) []
  end.

Definition copyPythonCode (b : browser) (l : lang) (code : option jsstring) (btn : option copier) : effect :=
  match code with
  | None => Effect None btn []
  | Some t => Effect (write_or_select b t) (flash (copied CopyPython l) <$> btn) []
  end.

Definition linux_command : jsstring := js "curl -fsSL https://mesh.inetconnector.com/downloads/install.sh | sudo bash".

Definition copyLinuxCommand (b : browser) (l : lang) (btn : option copier) : effect :=
  Effect (write b linux_command) (flash (copied CopyLinux l) <$> btn) [].

(** [copyCliCommand(btn, cmd)] *)
Definition copyCliCommand (b : browser) (l : lang) (btn : copier) (cmd : jsstring) : effect :=
  if granted b then Effect (Some cmd) (Some (flash (copied CopyCli l) btn)) []
  else Effect None (Some btn) [js "Copied: " ++ cmd].

Definition copyDxCode (b : browser) (l : lang) (code : option jsstring) (btn : option copier) : effect :=
  match code with
  | None => Effect None btn []
  | Some t => if granted b then Effect (Some t) (flash (copied CopyDx l) <$> btn) [] else Effect None btn []
  end.

(** The visitor is told that something was copied: the button shows it, or an alert. *)
Definition told (old : option copier) (e : effect) : Prop := button e <> old \/ alerts e <> [].

Lemma flash_changes f b : flash f b <> b.
Proof. intros H. apply (f_equal (fun b => length (timers b))) in H. cbn in H. rewrite length_app in H. cbn in H. lia. Qed.

(** What the buttons of the samples put on the clipboard is the sample shown.  The button of
    the developer samples confirms exactly what happened; those of the other samples confirm
    it wherever one of the two ways to copy works. *)
Theorem sample_buttons_copy_the_sample b l t btn :
  let dx := copyDxCode b l (Some t) (Some btn) in
  (written dx = Some t <-> told (Some btn) dx) /\
  (granted b = true \/ legacy b = true ->
   written (copyPlaygroundCommand b l (Some t) (Some btn)) = Some t /\ written (copyPythonCode b l (Some t) (Some btn)) = Some t).
Proof.
  split.
  - unfold copyDxCode, told. destruct (granted b); cbn.
    + split; [|done]. intros _. left. intros [= H]. by apply flash_changes in H.
    + split; [done|]. by intros [H|H].
  - unfold copyPlaygroundCommand, copyPythonCode, write_or_select. cbn. intros [-> | ->]; rewrite ?orb_true_r; done.
Qed.

(** Where the access is refused, the buttons of the two commands tell the visitor that the
    command was copied while the clipboard is untouched. *)
Theorem command_buttons_confirm_a_refused_copy b l btn cmd : granted b = false ->
  (written (copyLinuxCommand b l (Some btn)) = None /\ told (Some btn) (copyLinuxCommand b l (Some btn))) /\
  (written (copyCliCommand b l btn cmd) = None /\ alerts (copyCliCommand b l btn cmd) = [js "Copied: " ++ cmd]).
Proof.
  intros H. unfold copyLinuxCommand, copyCliCommand, write, told. rewrite H. split_and!; try done.
  left. cbn. intros [= E]. by apply flash_changes in E.
Qed.

Lemma command_buttons_confirm_a_refused_copy_witness :
  written (copyLinuxCommand (Browser false true) De (Some (Copier (js "Copy") []))) = None.
Proof. apply (command_buttons_confirm_a_refused_copy (Browser false true) De (Copier (js "Copy") []) []). reflexivity. Defined.
