(* ===== verification/SelectorTables.v ===== *)
(** * Label tables of the web UI's model selector (webui/model-selector.js)

    The label objects of model-selector.js in source order: for every locale the labels
    by key, and for every session status its name by locale.  [SelectorLabels.v] turns
    them into JavaScript strings. *)
From Stdlib Require Import String.
From stdpp Require Import base list strings.

#[local] Open Scope string_scope.

Definition agentPanelLabels : list (string * list (string * string)) := [
  ("de", [
     ("open", "Agenten");
     ("close", "Agenten schließen");
     ("help", "Agenten erledigen längere Aufgaben in mehreren Schritten. Hier kannst du Aufgaben starten, Fortschritt sehen und nötige Freigaben erteilen.")]);
  ("en", [
     ("open", "Agents");
     ("close", "Close agents");
     ("help", "Agents handle longer, multi-step tasks. Start work here, follow progress and review required approvals.")])
].

Definition agentControlLabels : list (string * list (string * string)) := [
  ("de", [
     ("pause", "Pausieren");
     ("resume", "Fortsetzen");
     ("cancel", "Abbrechen");
     ("controlError", "Steuerung konnte nicht gespeichert werden");
     ("controlQueued", "Steuerung angefordert")]);
  ("en", [
     ("pause", "Pause");
     ("resume", "Resume");
     ("cancel", "Cancel");
     ("controlError", "Control request was not saved");
     ("controlQueued", "Control request accepted")]);
  ("fr", [
     ("pause", "Pause");
     ("resume", "Reprendre");
     ("cancel", "Annuler");
     ("controlError", "La commande n’a pas été enregistrée");
     ("controlQueued", "Commande acceptée")]);
  ("es", [
     ("pause", "Pausar");
     ("resume", "Continuar");
     ("cancel", "Cancelar");
     ("controlError", "No se guardó el control");
     ("controlQueued", "Control aceptado")]);
  ("it", [
     ("pause", "Pausa");
     ("resume", "Riprendi");
     ("cancel", "Annulla");
     ("controlError", "Controllo non salvato");
     ("controlQueued", "Controllo accettato")]);
  ("pt-BR", [
     ("pause", "Pausar");
     ("resume", "Retomar");
     ("cancel", "Cancelar");
     ("controlError", "O controle não foi salvo");
     ("controlQueued", "Controle aceito")]);
  ("nl", [
     ("pause", "Pauzeren");
     ("resume", "Hervatten");
     ("cancel", "Annuleren");
     ("controlError", "Besturing niet opgeslagen");
     ("controlQueued", "Besturing geaccepteerd")]);
  ("pl", [
     ("pause", "Wstrzymaj");
     ("resume", "Wznów");
     ("cancel", "Anuluj");
     ("controlError", "Nie zapisano sterowania");
     ("controlQueued", "Sterowanie przyjęte")]);
  ("tr", [
     ("pause", "Duraklat");
     ("resume", "Sürdür");
     ("cancel", "İptal");
     ("controlError", "Denetim kaydedilmedi");
     ("controlQueued", "Denetim kabul edildi")])
].

Definition agentArtifactLabels : list (string * list (string * string)) := [
  ("de", [
     ("title", "Artefakte");
     ("empty", "Keine Artefakte");
     ("download", "Herunterladen")]);
  ("en", [
     ("title", "Artifacts");
     ("empty", "No artifacts");
     ("download", "Download")]);
  ("fr", [
     ("title", "Artefacts");
     ("empty", "Aucun artefact");
     ("download", "Télécharger")]);
  ("es", [
     ("title", "Artefactos");
     ("empty", "No hay artefactos");
     ("download", "Descargar")]);
  ("it", [
     ("title", "Artefatti");
     ("empty", "Nessun artefatto");
     ("download", "Scarica")]);
  ("pt-BR", [
     ("title", "Artefatos");
     ("empty", "Nenhum artefato");
     ("download", "Baixar")]);
  ("nl", [
     ("title", "Artefacten");
     ("empty", "Geen artefacten");
     ("download", "Downloaden")]);
  ("pl", [
     ("title", "Artefakty");
     ("empty", "Brak artefaktów");
     ("download", "Pobierz")]);
  ("tr", [
     ("title", "Yapay eserler");
     ("empty", "Yapay eser yok");
     ("download", "İndir")])
].

Definition executionStatusLabels : list (string * list (string * string)) := [
  ("de", [
     ("last", "Letzte Ausführung");
     ("unknown", "unbekannt");
     ("unspecified", "nicht angegeben");
     ("evidence", "Ausführungsnachweis des letzten Laufs");
     ("id", "Ausführungs-ID")]);
  ("en", [
     ("last", "Last execution");
     ("unknown", "unknown");
     ("unspecified", "not specified");
     ("evidence", "Execution evidence for the last run");
     ("id", "Execution ID")]);
  ("fr", [
     ("last", "Dernière exécution");
     ("unknown", "inconnu");
     ("unspecified", "non indiqué");
     ("evidence", "Preuve de la dernière exécution");
     ("id", "ID d’exécution")]);
  ("es", [
     ("last", "Última ejecución");
     ("unknown", "desconocido");
     ("unspecified", "no indicado");
     ("evidence", "Evidencia de la última ejecución");
     ("id", "ID de ejecución")]);
  ("it", [
     ("last", "Ultima esecuzione");
     ("unknown", "sconosciuto");
     ("unspecified", "non indicato");
     ("evidence", "Prova dell’ultima esecuzione");
     ("id", "ID esecuzione")]);
  ("pt-BR", [
     ("last", "Última execução");
     ("unknown", "desconhecido");
     ("unspecified", "não especificado");
     ("evidence", "Evidência da última execução");
     ("id", "ID da execução")]);
  ("nl", [
     ("last", "Laatste uitvoering");
     ("unknown", "onbekend");
     ("unspecified", "niet opgegeven");
     ("evidence", "Uitvoeringsbewijs van de laatste run");
     ("id", "Uitvoerings-ID")]);
  ("pl", [
     ("last", "Ostatnie wykonanie");
     ("unknown", "nieznane");
     ("unspecified", "nie podano");
     ("evidence", "Dowód ostatniego wykonania");
     ("id", "Identyfikator wykonania")]);
  ("tr", [
     ("last", "Son çalıştırma");
     ("unknown", "bilinmiyor");
     ("unspecified", "belirtilmedi");
     ("evidence", "Son çalıştırmanın kanıtı");
     ("id", "Çalıştırma kimliği")])
].

Definition agentSessionLabels : list (string * list (string * string)) := [
  ("de", [
     ("title", "Agent-Sitzungen");
     ("select", "Agent-Sitzung auswählen");
     ("prompt", "Aufgabe für den Agenten …");
     ("create", "Neue Aufgabe");
     ("continueTask", "Fortsetzen");
     ("taskCreated", "Aufgabe gestartet");
     ("turnQueued", "Nächster Turn eingereiht");
     ("taskError", "Aufgabe konnte nicht gestartet werden");
     ("noModel", "Kein Modell verfügbar");
     ("waiting", "Warte auf Fortschritt …");
     ("unavailable", "Sitzung nicht erreichbar");
     ("idle", "Bereit");
     ("approvals", "Offene Freigaben");
     ("approve", "Freigeben");
     ("reject", "Ablehnen");
     ("noApprovals", "Keine offenen Freigaben");
     ("approvalError", "Freigabe nicht gespeichert")]);
  ("en", [
     ("title", "Agent sessions");
     ("select", "Select agent session");
     ("prompt", "Task for the agent …");
     ("create", "New task");
     ("continueTask", "Continue");
     ("taskCreated", "Task started");
     ("turnQueued", "Next turn queued");
     ("taskError", "Task could not be started");
     ("noModel", "No model available");
     ("waiting", "Waiting for progress …");
     ("unavailable", "Session unavailable");
     ("idle", "Ready");
     ("approvals", "Pending approvals");
     ("approve", "Approve");
     ("reject", "Reject");
     ("noApprovals", "No pending approvals");
     ("approvalError", "Approval was not saved")]);
  ("fr", [
     ("title", "Sessions agent");
     ("select", "Sélectionner une session agent");
     ("prompt", "Tâche pour l’agent …");
     ("create", "Nouvelle tâche");
     ("continueTask", "Continuer");
     ("taskCreated", "Tâche démarrée");
     ("turnQueued", "Tour suivant en file");
     ("taskError", "Impossible de démarrer la tâche");
     ("noModel", "Aucun modèle disponible");
     ("waiting", "En attente de progression …");
     ("unavailable", "Session indisponible");
     ("idle", "Prête");
     ("approvals", "Approbations en attente");
     ("approve", "Approuver");
     ("reject", "Refuser");
     ("noApprovals", "Aucune approbation en attente");
     ("approvalError", "Approbation non enregistrée")]);
  ("es", [
     ("title", "Sesiones de agente");
     ("select", "Seleccionar sesión de agente");
     ("prompt", "Tarea para el agente …");
     ("create", "Nueva tarea");
     ("continueTask", "Continuar");
     ("taskCreated", "Tarea iniciada");
     ("turnQueued", "Siguiente turno en cola");
     ("taskError", "No se pudo iniciar la tarea");
     ("noModel", "No hay ningún modelo disponible");
     ("waiting", "Esperando progreso …");
     ("unavailable", "Sesión no disponible");
     ("idle", "Lista");
     ("approvals", "Aprobaciones pendientes");
     ("approve", "Aprobar");
     ("reject", "Rechazar");
     ("noApprovals", "No hay aprobaciones pendientes");
     ("approvalError", "No se guardó la aprobación")]);
  ("it", [
     ("title", "Sessioni agente");
     ("select", "Seleziona sessione agente");
     ("prompt", "Attività per l’agente …");
     ("create", "Nuova attività");
     ("continueTask", "Continua");
     ("taskCreated", "Attività avviata");
     ("turnQueued", "Turno successivo in coda");
     ("taskError", "Impossibile avviare l’attività");
     ("noModel", "Nessun modello disponibile");
     ("waiting", "In attesa di progressi …");
     ("unavailable", "Sessione non disponibile");
     ("idle", "Pronta");
     ("approvals", "Approvazioni in sospeso");
     ("approve", "Approva");
     ("reject", "Rifiuta");
     ("noApprovals", "Nessuna approvazione in sospeso");
     ("approvalError", "Approvazione non salvata")]);
  ("pt-BR", [
     ("title", "Sessões do agente");
     ("select", "Selecionar sessão do agente");
     ("prompt", "Tarefa para o agente …");
     ("create", "Nova tarefa");
     ("continueTask", "Continuar");
     ("taskCreated", "Tarefa iniciada");
     ("turnQueued", "Próximo turno na fila");
     ("taskError", "Não foi possível iniciar a tarefa");
     ("noModel", "Nenhum modelo disponível");
     ("waiting", "Aguardando progresso …");
     ("unavailable", "Sessão indisponível");
     ("idle", "Pronta");
     ("approvals", "Aprovações pendentes");
     ("approve", "Aprovar");
     ("reject", "Rejeitar");
     ("noApprovals", "Nenhuma aprovação pendente");
     ("approvalError", "A aprovação não foi salva")]);
  ("nl", [
     ("title", "Agentsessies");
     ("select", "Agentsessie selecteren");
     ("prompt", "Taak voor de agent …");
     ("create", "Nieuwe taak");
     ("continueTask", "Doorgaan");
     ("taskCreated", "Taak gestart");
     ("turnQueued", "Volgende beurt in wachtrij");
     ("taskError", "Taak kon niet worden gestart");
     ("noModel", "Geen model beschikbaar");
     ("waiting", "Wachten op voortgang …");
     ("unavailable", "Sessie niet beschikbaar");
     ("idle", "Gereed");
     ("approvals", "Openstaande goedkeuringen");
     ("approve", "Goedkeuren");
     ("reject", "Afwijzen");
     ("noApprovals", "Geen openstaande goedkeuringen");
     ("approvalError", "Goedkeuring niet opgeslagen")]);
  ("pl", [
     ("title", "Sesje agenta");
     ("select", "Wybierz sesję agenta");
     ("prompt", "Zadanie dla agenta …");
     ("create", "Nowe zadanie");
     ("continueTask", "Kontynuuj");
     ("taskCreated", "Zadanie uruchomione");
     ("turnQueued", "Następna tura w kolejce");
     ("taskError", "Nie udało się uruchomić zadania");
     ("noModel", "Brak dostępnego modelu");
     ("waiting", "Oczekiwanie na postęp …");
     ("unavailable", "Sesja niedostępna");
     ("idle", "Gotowe");
     ("approvals", "Oczekujące zgody");
     ("approve", "Zatwierdź");
     ("reject", "Odrzuć");
     ("noApprovals", "Brak oczekujących zgód");
     ("approvalError", "Nie zapisano decyzji")]);
  ("tr", [
     ("title", "Aracı oturumları");
     ("select", "Aracı oturumu seç");
     ("prompt", "Aracı için görev …");
     ("create", "Yeni görev");
     ("continueTask", "Sürdür");
     ("taskCreated", "Görev başlatıldı");
     ("turnQueued", "Sonraki tur sıraya alındı");
     ("taskError", "Görev başlatılamadı");
     ("noModel", "Kullanılabilir model yok");
     ("waiting", "İlerleme bekleniyor …");
     ("unavailable", "Oturum kullanılamıyor");
     ("idle", "Hazır");
     ("approvals", "Bekleyen onaylar");
     ("approve", "Onayla");
     ("reject", "Reddet");
     ("noApprovals", "Bekleyen onay yok");
     ("approvalError", "Onay kaydedilmedi")])
].

Definition agentSessionActivityLabels : list (string * list (string * string)) := [
  ("de", [
     ("title", "Aktivität");
     ("empty", "Noch keine Aktivität")]);
  ("en", [
     ("title", "Activity");
     ("empty", "No activity yet")]);
  ("fr", [
     ("title", "Activité");
     ("empty", "Aucune activité")]);
  ("es", [
     ("title", "Actividad");
     ("empty", "Aún no hay actividad")]);
  ("it", [
     ("title", "Attività");
     ("empty", "Nessuna attività")]);
  ("pt-BR", [
     ("title", "Atividade");
     ("empty", "Ainda não há atividade")]);
  ("nl", [
     ("title", "Activiteit");
     ("empty", "Nog geen activiteit")]);
  ("pl", [
     ("title", "Aktywność");
     ("empty", "Brak aktywności")]);
  ("tr", [
     ("title", "Etkinlik");
     ("empty", "Henüz etkinlik yok")])
].

Definition agentSessionStatuses : list (string * list (string * string)) := [
  ("creating", [
     ("de", "Wird erstellt");
     ("en", "Creating");
     ("fr", "Création");
     ("es", "Creando");
     ("it", "Creazione");
     ("pt-BR", "Criando");
     ("nl", "Wordt gemaakt");
     ("pl", "Tworzenie");
     ("tr", "Oluşturuluyor")]);
  ("ready", [
     ("de", "Bereit");
     ("en", "Ready");
     ("fr", "Prête");
     ("es", "Lista");
     ("it", "Pronta");
     ("pt-BR", "Pronta");
     ("nl", "Gereed");
     ("pl", "Gotowe");
     ("tr", "Hazır")]);
  ("running", [
     ("de", "Läuft");
     ("en", "Running");
     ("fr", "En cours");
     ("es", "En ejecución");
     ("it", "In esecuzione");
     ("pt-BR", "Em execução");
     ("nl", "Actief");
     ("pl", "W toku");
     ("tr", "Çalışıyor")]);
  ("waiting_for_tool", [
     ("de", "Wartet auf Tool");
     ("en", "Waiting for tool");
     ("fr", "En attente d’un outil");
     ("es", "Esperando una herramienta");
     ("it", "In attesa di uno strumento");
     ("pt-BR", "Aguardando uma ferramenta");
     ("nl", "Wacht op tool");
     ("pl", "Oczekiwanie na narzędzie");
     ("tr", "Araç bekleniyor")]);
  ("waiting_for_approval", [
     ("de", "Wartet auf Freigabe");
     ("en", "Waiting for approval");
     ("fr", "En attente d’approbation");
     ("es", "Esperando aprobación");
     ("it", "In attesa di approvazione");
     ("pt-BR", "Aguardando aprovação");
     ("nl", "Wacht op goedkeuring");
     ("pl", "Oczekiwanie na zgodę");
     ("tr", "Onay bekleniyor")]);
  ("waiting_for_subagents", [
     ("de", "Wartet auf Subagenten");
     ("en", "Waiting for subagents");
     ("fr", "En attente de sous-agents");
     ("es", "Esperando subagentes");
     ("it", "In attesa dei subagenti");
     ("pt-BR", "Aguardando subagentes");
     ("nl", "Wacht op subagents");
     ("pl", "Oczekiwanie na podagentów");
     ("tr", "Alt aracılar bekleniyor")]);
  ("compacting", [
     ("de", "Kontext wird verdichtet");
     ("en", "Compacting context");
     ("fr", "Condensation du contexte");
     ("es", "Compactando contexto");
     ("it", "Compattazione del contesto");
     ("pt-BR", "Compactando contexto");
     ("nl", "Context comprimeren");
     ("pl", "Kompaktowanie kontekstu");
     ("tr", "Bağlam sıkıştırılıyor")]);
  ("paused", [
     ("de", "Pausiert");
     ("en", "Paused");
     ("fr", "En pause");
     ("es", "En pausa");
     ("it", "In pausa");
     ("pt-BR", "Pausada");
     ("nl", "Gepauzeerd");
     ("pl", "Wstrzymana");
     ("tr", "Duraklatıldı")]);
  ("resuming", [
     ("de", "Wird fortgesetzt");
     ("en", "Resuming");
     ("fr", "Reprise");
     ("es", "Reanudando");
     ("it", "Ripresa");
     ("pt-BR", "Retomando");
     ("nl", "Hervatten");
     ("pl", "Wznawianie");
     ("tr", "Sürdürülüyor")]);
  ("completed", [
     ("de", "Abgeschlossen");
     ("en", "Completed");
     ("fr", "Terminée");
     ("es", "Completada");
     ("it", "Completata");
     ("pt-BR", "Concluída");
     ("nl", "Voltooid");
     ("pl", "Ukończona");
     ("tr", "Tamamlandı")]);
  ("failed", [
     ("de", "Fehlgeschlagen");
     ("en", "Failed");
     ("fr", "Échec");
     ("es", "Fallida");
     ("it", "Fallita");
     ("pt-BR", "Falhou");
     ("nl", "Mislukt");
     ("pl", "Nieudana");
     ("tr", "Başarısız")]);
  ("cancelled", [
     ("de", "Abgebrochen");
     ("en", "Cancelled");
     ("fr", "Annulée");
     ("es", "Cancelada");
     ("it", "Annullata");
     ("pt-BR", "Cancelada");
     ("nl", "Geannuleerd");
     ("pl", "Anulowana");
     ("tr", "İptal edildi")]);
  ("expired", [
     ("de", "Abgelaufen");
     ("en", "Expired");
     ("fr", "Expirée");
     ("es", "Expirada");
     ("it", "Scaduta");
     ("pt-BR", "Expirada");
     ("nl", "Verlopen");
     ("pl", "Wygasła");
     ("tr", "Süresi doldu")])
].

Definition modelInfoLabels : list (string * list (string * string)) := [
  ("de", [
     ("model", "Modell");
     ("path", "Dateipfad");
     ("context", "Kontextgroesse");
     ("training", "Trainingskontext");
     ("size", "Modellgroesse");
     ("parameters", "Parameter");
     ("embedding", "Embedding-Groesse");
     ("vocabulary", "Vokabulargroesse");
     ("vocabType", "Vokabulartyp");
     ("slots", "Parallele Slots");
     ("modalities", "Modalitaeten");
     ("build", "Build-Info")]);
  ("en", [
     ("model", "Model");
     ("path", "File path");
     ("context", "Context size");
     ("training", "Training context");
     ("size", "Model size");
     ("parameters", "Parameters");
     ("embedding", "Embedding size");
     ("vocabulary", "Vocabulary size");
     ("vocabType", "Vocabulary type");
     ("slots", "Parallel slots");
     ("modalities", "Modalities");
     ("build", "Build info")]);
  ("fr", [
     ("model", "Modèle");
     ("path", "Chemin du fichier");
     ("context", "Taille du contexte");
     ("training", "Contexte d'entraînement");
     ("size", "Taille du modèle");
     ("parameters", "Paramètres");
     ("embedding", "Taille de l'embedding");
     ("vocabulary", "Taille du vocabulaire");
     ("vocabType", "Type de vocabulaire");
     ("slots", "Emplacements parallèles");
     ("modalities", "Modalités");
     ("build", "Informations de build")]);
  ("es", [
     ("model", "Modelo");
     ("path", "Ruta del archivo");
     ("context", "Tamaño del contexto");
     ("training", "Contexto de entrenamiento");
     ("size", "Tamaño del modelo");
     ("parameters", "Parámetros");
     ("embedding", "Tamaño del embedding");
     ("vocabulary", "Tamaño del vocabulario");
     ("vocabType", "Tipo de vocabulario");
     ("slots", "Slots paralelos");
     ("modalities", "Modalidades");
     ("build", "Información de compilación")]);
  ("it", [
     ("model", "Modello");
     ("path", "Percorso file");
     ("context", "Dimensione contesto");
     ("training", "Contesto di addestramento");
     ("size", "Dimensione modello");
     ("parameters", "Parametri");
     ("embedding", "Dimensione embedding");
     ("vocabulary", "Dimensione vocabolario");
     ("vocabType", "Tipo di vocabolario");
     ("slots", "Slot paralleli");
     ("modalities", "Modalità");
     ("build", "Informazioni build")]);
  ("pt-BR", [
     ("model", "Modelo");
     ("path", "Caminho do arquivo");
     ("context", "Tamanho do contexto");
     ("training", "Contexto de treinamento");
     ("size", "Tamanho do modelo");
     ("parameters", "Parâmetros");
     ("embedding", "Tamanho do embedding");
     ("vocabulary", "Tamanho do vocabulário");
     ("vocabType", "Tipo de vocabulário");
     ("slots", "Slots paralelos");
     ("modalities", "Modalidades");
     ("build", "Informações da compilação")]);
  ("nl", [
     ("model", "Model");
     ("path", "Bestandspad");
     ("context", "Contextgrootte");
     ("training", "Trainingscontext");
     ("size", "Modelgrootte");
     ("parameters", "Parameters");
     ("embedding", "Embeddinggrootte");
     ("vocabulary", "Woorden­schatgrootte");
     ("vocabType", "Woorden­schattype");
     ("slots", "Parallelle slots");
     ("modalities", "Modaliteiten");
     ("build", "Buildinformatie")]);
  ("pl", [
     ("model", "Model");
     ("path", "Sciezka pliku");
     ("context", "Rozmiar kontekstu");
     ("training", "Kontekst treningowy");
     ("size", "Rozmiar modelu");
     ("parameters", "Parametry");
     ("embedding", "Rozmiar embeddingu");
     ("vocabulary", "Rozmiar slownika");
     ("vocabType", "Typ slownika");
     ("slots", "Sloty równolegle");
     ("modalities", "Modalnosci");
     ("build", "Informacje o kompilacji")]);
  ("tr", [
     ("model", "Model");
     ("path", "Dosya yolu");
     ("context", "Baglam boyutu");
     ("training", "Egitim baglami");
     ("size", "Model boyutu");
     ("parameters", "Parametreler");
     ("embedding", "Embedding boyutu");
     ("vocabulary", "Kelime dagarcigi boyutu");
     ("vocabType", "Kelime dagarcigi türü");
     ("slots", "Paralel yuvalar");
     ("modalities", "Modaliteler");
     ("build", "Derleme bilgisi")])
].

Definition localizedMeshNotices : list (string * string) := [
  ("de", "LAN-Node erkannt, aber er verlangt eine manuelle Kopplung. Öffne Setup und hinterlege den Owner-Key oder scanne den Einmal-QR-Code.");
  ("en", "LAN node detected, but it requires manual pairing. Open Setup and enter the owner key or scan the one-time QR code.");
  ("fr", "Nœud LAN détecté, mais il nécessite un appairage manuel. Ouvrez Setup et saisissez la clé propriétaire ou scannez le QR code à usage unique.");
  ("es", "Nodo LAN detectado, pero requiere vinculación manual. Abre Setup e introduce la clave del propietario o escanea el código QR de un solo uso.");
  ("it", "Nodo LAN rilevato, ma richiede un abbinamento manuale. Apri Setup e inserisci la chiave del proprietario oppure scansiona il codice QR monouso.");
  ("pt-BR", "Nó LAN detectado, mas ele exige pareamento manual. Abra Setup e informe a chave do proprietário ou escaneie o código QR de uso único.");
  ("nl", "LAN-node gevonden, maar handmatig koppelen is vereist. Open Setup en voer de eigenaarsleutel in of scan de eenmalige QR-code.");
  ("pl", "Wykryto węzeł LAN, ale wymaga on ręcznego parowania. Otwórz Setup i podaj klucz właściciela albo zeskanuj jednorazowy kod QR.");
  ("tr", "LAN düğümü algılandı, ancak manuel eşleştirme gerekiyor. Setup bölümünü açıp sahip anahtarını girin veya tek kullanımlık QR kodunu tarayın.")
].
