(* ===== verification/SelectorLabels.v ===== *)
(** * Labels of the web UI's model selector (webui/model-selector.js)

    The label objects of [SelectorTables], member access on an object literal with the
    names every object inherits, the locale of the page, and the functions that look a
    label up with their fallbacks. *)
From Stdlib Require Import Lia NArith QArith.
From stdpp Require Import base numbers list gmap strings.
From S2P Require Import Prelude JsString JsNumber JsValue SelectorTables.

#[local] Open Scope N_scope.

(** ** Members of an object literal *)

(** What [o[k]] finds: a property of the literal, a property of [Object.prototype], or
    nothing. *)
Inductive member (A : Type) : Type :=
| Own (a : A)
| Inherited
| Missing.
Arguments Own {A} a.
Arguments Inherited {A}.
Arguments Missing {A}.

Definition inherited_names : list jsstring :=
  js <$> ["constructor"; "__defineGetter__"; "__defineSetter__"; "hasOwnProperty"; "__lookupGetter__";
          "__lookupSetter__"; "isPrototypeOf"; "propertyIsEnumerable"; "toString"; "valueOf";
          "__proto__"; "toLocaleString"]%string.

(** [Object.prototype.hasOwnProperty.call(o, k)] with [o[k]] *)
Fixpoint own {A} (k : jsstring) (t : list (jsstring * A)) : option A :=
  match t with
  | [] => None
  | (k', a) :: r => if seqb k k' then Some a else own k r
  end.

Definition member_of {A} (k : jsstring) (t : list (jsstring * A)) : member A :=
  match own k t with
  | Some a => Own a
  | None => if bool_decide (k ∈ inherited_names) then Inherited else Missing
  end.

Lemma own_In {A} k (t : list (jsstring * A)) a : own k t = Some a -> (k, a) ∈ t.
Proof.
  induction t as [|[k' a'] t IH]; simpl; [done|]. destruct (seqb k k') eqn:E; [|set_solver].
  apply seqb_eq in E. intros. simplify_eq. set_solver.
Qed.

Lemma own_key {A} k (t : list (jsstring * A)) a : own k t = Some a -> k ∈ t.*1.
Proof. intros H%own_In. apply list_elem_of_fmap. by exists (k, a). Qed.

(** ** The tables as objects *)

Definition labels : Type := list (jsstring * jsstring).

Definition object (t : list (string * string)) : labels := (fun e => (js e.1, js e.2)) <$> t.
Definition objects (t : list (string * list (string * string))) : list (jsstring * labels) :=
  (fun e => (js e.1, object e.2)) <$> t.

(** [l[k] || o.en[k]] for [l = o[locale] || o.en]; an inherited [l] is a function or
    [Object.prototype] and has none of the label names.  [None] is [undefined]. *)
Definition or_text (a b : option jsstring) : option jsstring :=
  match a with Some s => if truthy s then Some s else b | None => b end.

Definition english (o : list (jsstring * labels)) : labels := default [] (own (js "en") o).

Definition label_in (o : list (jsstring * labels)) (locale key : jsstring) : option jsstring :=
  let l := match member_of locale o with Own l => l | Inherited => [] | Missing => english o end in
  or_text (own key l) (own key (english o)).

(** ** The locale of the page *)

Section Locale.
(** [document.documentElement.lang] and [navigator.language], empty when not set. *)
Context (htmlLang navLang : jsstring).

(** [s.replace('_', '-')]: the first underscore only. *)
Fixpoint dash (s : jsstring) : jsstring :=
  match s with
  | [] => []
  | c :: r => if c =? 95 then 45 :: r else c :: dash r
  end.

Definition raw_locale : jsstring :=
  dash (if truthy htmlLang then htmlLang else if truthy navLang then navLang else js "en").

(** [raw.split('-')[0]] *)
Definition base_locale (raw : jsstring) : jsstring := default [] (head (split_on 45 raw)).

(** [agentSessionLocale()] *)
Definition agentSessionLocale : jsstring :=
  let t := objects agentSessionLabels in
  match own raw_locale t with
  | Some _ => raw_locale
  | None => match own (base_locale raw_locale) t with Some _ => base_locale raw_locale | None => js "en" end
  end.

(** [agentSessionText(key)]: the locale is one of the table. *)
Definition agentSessionText (key : jsstring) : option jsstring :=
  or_text (l ← own agentSessionLocale (objects agentSessionLabels); own key l)
          (own key (english (objects agentSessionLabels))).

Definition agentPanelText (key : jsstring) : option jsstring :=
  label_in (objects agentPanelLabels) agentSessionLocale key.
Definition agentControlText (key : jsstring) : option jsstring :=
  label_in (objects agentControlLabels) agentSessionLocale key.
Definition agentArtifactText (key : jsstring) : option jsstring :=
  label_in (objects agentArtifactLabels) agentSessionLocale key.
Definition agentSessionActivityText (key : jsstring) : option jsstring :=
  label_in (objects agentSessionActivityLabels) agentSessionLocale key.

(** [executionStatusText(key)]: the base of the locale is looked up without a check that
    the table owns it. *)
Definition executionStatusText (key : jsstring) : option jsstring :=
  let t := objects executionStatusLabels in
  let locale := match own raw_locale t with Some _ => raw_locale | None => base_locale raw_locale end in
  label_in t locale key.

(** [modelInfoLocale()]: the first truthy of the three tables, an inherited member as a
    table without labels. *)
Definition modelInfoLocale : labels :=
  let t := objects modelInfoLabels in
  match member_of raw_locale t with
  | Own l => l
  | Inherited => []
  | Missing =>
      match member_of (base_locale raw_locale) t with
      | Own l => l
      | Inherited => []
      | Missing => english t
      end
  end.

(** [agentSessionStatusText(status)], [String(status || '').toLowerCase()] given. *)
Definition status_text (name : jsstring) : option jsstring :=
  match member_of name (objects agentSessionStatuses) with
  | Own entry => or_text (own agentSessionLocale entry) (own (js "en") entry)
  | Inherited => None
  | Missing => agentSessionText (js "idle")
  end.

End Locale.

Section Status.
Context (show_frac : Q -> jsstring).

(** [String(v || '').toLowerCase()] *)
Definition status_name (v : jsval) : jsstring := lower (to_str show_frac (vor v (VStr []))).

Definition agentSessionStatusText (htmlLang navLang : jsstring) (status : jsval) : option jsstring :=
  status_text htmlLang navLang (status_name status).

(** [agentSessionTerminal(status)] *)
Definition agentSessionTerminal (status : jsval) : bool :=
  bool_decide (status_name status ∈ js <$> ["completed"; "failed"; "cancelled"; "expired"]%string).

End Status.

(** ** Every label is defined *)

Definition locales : list jsstring := (objects agentSessionLabels).*1.

Lemma agentSessionLocale_In h n : agentSessionLocale h n ∈ locales.
Proof.
  unfold agentSessionLocale, locales. cbv zeta.
  destruct (own (raw_locale h n) _) eqn:E; [by eapply own_key|].
  destruct (own (base_locale _) _) eqn:E'; [by eapply own_key|].
  apply (bool_decide_unpack _). by vm_compute.
Qed.

(** A text is a non-empty string. *)
Definition is_text (o : option jsstring) : bool := match o with Some s => truthy s | None => false end.

Lemma forallb_elem {A} (f : A -> bool) l x : forallb f l = true -> x ∈ l -> f x = true.
Proof. rewrite forallb_forall. intros H Hx. by apply H, list_elem_of_In. Qed.

(** A lookup that is a text for every locale of the selector and every listed key. *)
Lemma texts_by_table (f : jsstring -> jsstring -> option jsstring) keys :
  forallb (fun l => forallb (fun k => is_text (f l k)) keys) locales = true ->
  forall h n k, k ∈ keys -> is_text (f (agentSessionLocale h n) k) = true.
Proof.
  intros H h n k Hk. pose proof (forallb_elem _ _ _ H (agentSessionLocale_In h n)) as H1.
  exact (forallb_elem _ _ _ H1 Hk).
Qed.

Definition keys_of (t : list (string * list (string * string))) : list jsstring := (english (objects t)).*1.

(** An inherited table or a missing one leads to the English text. *)
Lemma label_in_default o locale key :
  is_text (own key (english o)) = true -> own locale o = None -> label_in o locale key = own key (english o).
Proof.
  intros H E. unfold label_in, member_of. rewrite E.
  destruct (bool_decide _); cbn [own or_text]; [done|].
  unfold or_text. destruct (own key (english o)) as [s|]; [|done]. simpl in H. by rewrite H.
Qed.

Lemma label_in_text o locale key :
  forallb (fun e => forallb (fun k => is_text (label_in o e.1 k)) (english o).*1) o = true ->
  forallb (fun k => is_text (own k (english o))) (english o).*1 = true ->
  key ∈ (english o).*1 -> is_text (label_in o locale key) = true.
Proof.
  intros H He Hk. destruct (own locale o) as [l|] eqn:E.
  - apply own_In in E. pose proof (forallb_elem _ _ _ H E) as H1. exact (forallb_elem _ _ _ H1 Hk).
  - pose proof (forallb_elem _ _ _ He Hk) as H1. cbv beta in H1. by rewrite label_in_default.
Qed.

(** Session statuses that [Object.prototype] answers instead of the table. *)
Definition inherited_status (name : jsstring) : bool := bool_decide (name ∈ inherited_names).

Lemma status_table_texts :
  forallb (fun l => forallb (fun e => is_text (or_text (own l e.2) (own (js "en") e.2))) (objects agentSessionStatuses))
    locales = true.
Proof. vm_compute. reflexivity. Qed.

Lemma idle_text h n : is_text (agentSessionText h n (js "idle")) = true.
Proof.
  apply (texts_by_table (fun l k => or_text (t ← own l (objects agentSessionLabels); own k t)
    (own k (english (objects agentSessionLabels)))) (keys_of agentSessionLabels)); [vm_compute; reflexivity|].
  apply (bool_decide_unpack _). by vm_compute.
Qed.

(** C40: Every label function of the selector is total on its keys: whatever the language of
    the document and of the browser, the session, panel, control, artifact, activity and
    execution labels and the names of the session statuses are non-empty strings.  The
    only statuses without a text are the names that every object inherits
    ([constructor], [__proto__]). *)
Theorem selector_labels_defined (h n key name : jsstring) :
  (key ∈ keys_of agentSessionLabels -> is_text (agentSessionText h n key) = true) /\
  (key ∈ keys_of agentPanelLabels -> is_text (agentPanelText h n key) = true) /\
  (key ∈ keys_of agentControlLabels -> is_text (agentControlText h n key) = true) /\
  (key ∈ keys_of agentArtifactLabels -> is_text (agentArtifactText h n key) = true) /\
  (key ∈ keys_of agentSessionActivityLabels -> is_text (agentSessionActivityText h n key) = true) /\
  (key ∈ keys_of executionStatusLabels -> is_text (executionStatusText h n key) = true) /\
  is_text (status_text h n name) = negb (inherited_status name).
Proof.
  split_and!.
  1-5: intros Hk; first [
    apply (texts_by_table (fun l k => or_text (t ← own l (objects agentSessionLabels); own k t)
      (own k (english (objects agentSessionLabels)))) (keys_of agentSessionLabels)); [vm_compute; reflexivity|done]
  | apply label_in_text; [vm_compute; reflexivity..|exact Hk]].
  - intros Hk. unfold executionStatusText. cbv zeta. apply label_in_text; [vm_compute; reflexivity..|exact Hk].
  - unfold status_text, member_of, inherited_status.
    destruct (own name (objects agentSessionStatuses)) as [e|] eqn:E.
    + apply own_In in E. pose proof (forallb_elem _ _ _ status_table_texts (agentSessionLocale_In h n)) as H1.
      pose proof (forallb_elem _ _ _ H1 E) as H2. cbn [snd] in H2. rewrite H2.
      symmetry. apply negb_true_iff, bool_decide_eq_false. intros Hi.
      assert (C : forallb (fun e => negb (bool_decide (e.1 ∈ inherited_names))) (objects agentSessionStatuses) = true)
        by (vm_compute; reflexivity).
      pose proof (forallb_elem _ _ _ C E) as H3. cbn [fst] in H3. bool_norm. done.
    + destruct (bool_decide (name ∈ inherited_names)) eqn:Ei; simpl; [done|]. apply idle_text.
Qed.

(** A session whose status is the word [constructor] has no status text. *)
Example constructor_status_is_undefined :
  status_text (js "de") [] (js "constructor") = None /\
  status_text (js "de") [] (js "running") = Some (js "Läuft") /\
  status_text (js "pt_BR") [] (js "dreaming") = Some (js "Pronta").
Proof. vm_compute. done. Qed.

(** [modelInfoLocale] has all labels of the dialog unless the language of the page is the
    name of an inherited member. *)
Lemma modelInfoLocale_complete h n key :
  raw_locale h n ∉ inherited_names -> base_locale (raw_locale h n) ∉ inherited_names ->
  key ∈ keys_of modelInfoLabels -> is_text (own key (modelInfoLocale h n)) = true.
Proof.
  intros H1 H2 Hk. unfold modelInfoLocale, member_of.
  assert (C : forallb (fun e => forallb (fun k => is_text (own k e.2)) (keys_of modelInfoLabels))
    (objects modelInfoLabels) = true) by (vm_compute; reflexivity).
  assert (Own_ok : forall k l, own k (objects modelInfoLabels) = Some l -> is_text (own key l) = true).
  { intros k l E%own_In. pose proof (forallb_elem _ _ _ C E) as H3. exact (forallb_elem _ _ _ H3 Hk). }
  rewrite (bool_decide_eq_false_2 _ H1), (bool_decide_eq_false_2 _ H2).
  destruct (own (raw_locale h n) _) eqn:E1; [by eapply Own_ok|].
  destruct (own (base_locale _) _) eqn:E2; [by eapply Own_ok|].
  apply (Own_ok (js "en")). vm_compute. reflexivity.
Qed.
