(* ===== verification/SelectorStore.v ===== *)
(** * What the web UI's selector keeps in the browser (webui/model-selector.js)

    [agentStorageGet], [agentStorageSet] and [agentStorageRemove] over [localStorage] with
    [sessionStorage] behind it, the cached session list ([saveAgentSessionCache],
    [restoreAgentSessionCache]) and the event cursor of a session
    ([agentSessionStorageKey], [saveAgentSessionCursor], [restoreAgentSessionCursor]). *)
From Stdlib Require Import Lia NArith ZArith QArith Qround.
From stdpp Require Import base numbers list gmap strings.
From S2P Require Import Prelude JsString JsNumber JsValue JsJson JsonRoundTrip.

(** ** Two stores *)

(** A storage area: whether the page may use it at all, whether its quota is used up
    (then [setItem] throws while [getItem] works), and its items. *)
Record area := Area { usable : bool; full : bool; items : gmap jsstring jsstring }.

Definition area_get (k : jsstring) (a : area) : outcome jsstring (option jsstring) :=
  if usable a then Ret (items a !! k) else Throw (js "SecurityError").
Definition area_set (k v : jsstring) (a : area) : outcome jsstring area :=
  if usable a then
    if full a then Throw (js "QuotaExceededError") else Ret (Area true false (<[k := v]> (items a)))
  else Throw (js "SecurityError").
Definition area_remove (k : jsstring) (a : area) : area :=
  if usable a then Area true (full a) (delete k (items a)) else a.

Record stores := Stores { localStorage : area; sessionStorage : area }.

(** [agentStorageGet(key)] *)
Definition agentStorageGet (k : jsstring) (st : stores) : option jsstring :=
  match area_get k (localStorage st) with
  | Ret (Some v) => Some v
  | _ => match area_get k (sessionStorage st) with Ret o => o | Throw _ => None end
  end.

(** [agentStorageSet(key, value)] *)
Definition agentStorageSet (k v : jsstring) (st : stores) : stores :=
  match area_set k v (localStorage st) with
  | Ret a => Stores a (sessionStorage st)
  | Throw _ => match area_set k v (sessionStorage st) with
               | Ret a => Stores (localStorage st) a
               | Throw _ => st
               end
  end.

(** [agentStorageRemove(key)] *)
Definition agentStorageRemove (k : jsstring) (st : stores) : stores :=
  Stores (area_remove k (localStorage st)) (area_remove k (sessionStorage st)).

(** Where a new value is written and found again. *)
Definition writable (a : area) : bool := usable a && negb (full a).
Definition keeps (k : jsstring) (st : stores) : bool :=
  writable (localStorage st)
  || (writable (sessionStorage st)
      && negb (usable (localStorage st) && bool_decide (is_Some (items (localStorage st) !! k)))).

Lemma storage_keeps k v st : keeps k st = true -> agentStorageGet k (agentStorageSet k v st) = Some v.
Proof.
  destruct st as [[lu lf li] [su sf si]].
  unfold agentStorageGet, agentStorageSet, keeps, writable, area_get, area_set. cbn [localStorage sessionStorage usable full items].
  destruct lu, lf; cbn; rewrite ?lookup_insert_eq; try done; destruct su, sf; cbn; rewrite ?lookup_insert_eq; try done.
  by destruct (li !! k) as [w|] eqn:E.
Qed.

(** A value that is written is read back exactly when [localStorage] takes it, or
    [sessionStorage] takes it and no older value in [localStorage] hides it. *)
Theorem storage_round_trip (k v : jsstring) (st : stores) :
  agentStorageGet k st <> Some v ->
  (agentStorageGet k (agentStorageSet k v st) = Some v <-> keeps k st = true).
Proof.
  destruct st as [[lu lf li] [su sf si]].
  unfold agentStorageGet, agentStorageSet, keeps, writable, area_get, area_set. cbn [localStorage sessionStorage usable full items].
  destruct lu, lf; cbn; rewrite ?lookup_insert_eq; try done; destruct su, sf; cbn; rewrite ?lookup_insert_eq; try done;
    destruct (li !! k) as [w|] eqn:E; cbn; rewrite ?E; cbn; try done.
  all: try (split; [congruence|]; try done).
  all: rewrite ?bool_decide_eq_true_2 by (by eexists); cbn; try done.
  all: rewrite ?bool_decide_eq_false_2 by (by intros [? ?]); cbn; try done.
Qed.

Definition open_store : stores := Stores (Area true false ∅) (Area true false ∅).

Lemma storage_round_trip_witness :
  agentStorageGet (js "k") open_store <> Some (js "v") /\
  (agentStorageGet (js "k") (agentStorageSet (js "k") (js "v") open_store) = Some (js "v") <-> keeps (js "k") open_store = true).
Proof.
  assert (H : agentStorageGet (js "k") open_store <> Some (js "v")) by (vm_compute; discriminate).
  split; [exact H|exact (storage_round_trip (js "k") (js "v") open_store H)].
Defined.

(** When the quota is used up, the new value goes to [sessionStorage] and the old one in
    [localStorage] is still what is read. *)
Example full_store_hides_the_new_value :
  let st := Stores (Area true true {[js "k" := js "old"]}) (Area true false ∅) in
  agentStorageGet (js "k") (agentStorageSet (js "k") (js "new") st) = Some (js "old").
Proof. vm_compute. reflexivity. Qed.

(** ** The cached sessions *)

Section Cache.
Context (show_frac : Q -> jsstring).
#[local] Abbreviation str := (to_str show_frac).

Definition AGENT_SESSION_CACHE_KEY : jsstring := js "cm_agent_sessions_cache_v1".

(** [String(v || '')] and [Number(v || 0)] *)
Definition text_of (v : jsval) : jsstring := str (vor v (VStr [])).
Definition number_of (v : jsval) : num := Number (vor v (VNum (num_Z 0))).

(** The copy of a session that is cached. *)
Definition safe_session (session : jsval) : jsval :=
  VObj [(js "session_id", VStr (text_of (prop session (js "session_id"))));
        (js "agent_id", VStr (text_of (prop session (js "agent_id"))));
        (js "agent_version", VStr (text_of (prop session (js "agent_version"))));
        (js "status", VStr (text_of (prop session (js "status"))));
        (js "environment_type", VStr (text_of (prop session (js "environment_type"))));
        (js "version", VNum (number_of (prop session (js "version"))));
        (js "created_at", VNum (number_of (prop session (js "created_at"))));
        (js "updated_at", VNum (number_of (prop session (js "updated_at"))))].

Definition named_session (s : jsval) : bool :=
  vtruthy (prop s (js "session_id")) && vtruthy (prop s (js "agent_id")).

Definition safe_sessions (sessions : list jsval) : list jsval :=
  List.filter named_session (safe_session <$> take 50 sessions).

Definition nullish (v : jsval) : bool := match v with VUndef | VNull => true | _ => false end.

(** [saveAgentSessionCache()]: a [null] among the sessions throws, which is caught. *)
Definition saveAgentSessionCache (sessions : list jsval) (st : stores) : stores :=
  if existsb nullish (take 50 sessions) then st
  else agentStorageSet AGENT_SESSION_CACHE_KEY (JSON_stringify show_frac (VArr (safe_sessions sessions))) st.

Definition short_session (s : jsval) : bool :=
  vtruthy s && is_object s
  && (length (text_of (prop s (js "session_id"))) <=? 160)%nat && (length (text_of (prop s (js "agent_id"))) <=? 160)%nat.

(** [restoreAgentSessionCache()] *)
Definition restoreAgentSessionCache (st : stores) : list jsval :=
  match agentStorageGet AGENT_SESSION_CACHE_KEY st with
  | Some raw =>
      if truthy raw then
        match JSON_parse raw with
        | Ret (VArr l) => List.filter short_session (take 50 l)
        | _ => []
        end
      else []
  | None => []
  end.

(** A session whose texts are code units and whose numbers are integers of at most 53 bits. *)
Definition plain_number (v : jsval) : Prop := exists z, number_of v = num_Z z /\ (Z.abs z <= 2 ^ 53)%Z.
Definition plain_text (v : jsval) : Prop := code_units (text_of v).

Definition plain_session (s : jsval) : Prop :=
  nullish s = false /\
  Forall (fun k => plain_text (prop s (js k))) ["session_id"; "agent_id"; "agent_version"; "status"; "environment_type"]%string /\
  Forall (fun k => plain_number (prop s (js k))) ["version"; "created_at"; "updated_at"]%string.

Lemma safe_session_normal s : plain_session s -> json_normal (safe_session s).
Proof.
  intros (_ & Ht & Hn). repeat match goal with H : Forall _ (_ :: _) |- _ => inv H end.
  repeat match goal with H : plain_number _ |- _ => destruct H as (? & ? & ?) end.
  unfold safe_session. repeat match goal with H : number_of _ = _ |- _ => rewrite H; clear H end.
  constructor; [by apply (bool_decide_unpack _); vm_compute|].
  repeat (apply Forall_cons_2; [split; [apply code_units_lit; vm_compute; reflexivity|by constructor]|]). constructor.
Qed.

Lemma safe_sessions_normal l : Forall plain_session l -> json_normal (VArr (safe_sessions l)).
Proof.
  intros H. constructor. unfold safe_sessions. rewrite Forall_forall in *. intros x Hx.
  apply list_elem_of_In, List.filter_In in Hx as [Hx _]. apply list_elem_of_In, list_elem_of_fmap in Hx as (s & -> & Hs).
  apply safe_session_normal, H. eapply elem_of_take in Hs as (? & Hs & _). by eapply list_elem_of_lookup_2.
Qed.

Lemma length_filter_le {A} (p : A -> bool) l : (length (List.filter p l) <= length l)%nat.
Proof. induction l as [|x l IH]; simpl; [lia|]. destruct (p x); simpl; lia. Qed.

Lemma safe_sessions_length l : (length (safe_sessions l) <= 50)%nat.
Proof.
  unfold safe_sessions. etransitivity; [apply length_filter_le|]. rewrite length_fmap, length_take. lia.
Qed.

End Cache.

(** The cached session list survives a reload: what is restored is what was saved, the
    first fifty sessions that have a session and an agent identifier, without those whose
    identifiers are longer than 160 characters. *)
Theorem session_cache_round_trip (show_frac : Q -> jsstring) (sessions : list jsval) (st : stores) :
  Forall (plain_session show_frac) sessions -> keeps AGENT_SESSION_CACHE_KEY st = true ->
  restoreAgentSessionCache show_frac (saveAgentSessionCache show_frac sessions st)
  = List.filter (short_session show_frac) (safe_sessions show_frac sessions).
Proof.
  intros Hs Hk. unfold restoreAgentSessionCache, saveAgentSessionCache.
  assert (Hn : existsb nullish (take 50 sessions) = false).
  { apply not_true_iff_false. rewrite existsb_exists. intros (x & Hx & En). apply list_elem_of_In in Hx.
    eapply elem_of_take in Hx as (? & Hx & _). apply list_elem_of_lookup_2 in Hx.
    rewrite Forall_forall in Hs. destruct (Hs x Hx) as [E _]. congruence. }
  rewrite Hn. set (raw := JSON_stringify show_frac (VArr (safe_sessions show_frac sessions))).
  rewrite storage_keeps by done. change (truthy raw) with true. unfold raw.
  rewrite json_round_trip by (by apply safe_sessions_normal). by rewrite take_ge by apply safe_sessions_length.
Qed.

Definition cached_sample : list jsval :=
  [VObj [(js "session_id", VStr (js "s1")); (js "agent_id", VStr (js "computemesh.agent")); (js "status", VStr (js "ready"));
         (js "version", VNum (num_Z 3))];
   VObj [(js "session_id", VStr (js "s2"))]].

Lemma session_cache_round_trip_witness :
  restoreAgentSessionCache (fun _ => []) (saveAgentSessionCache (fun _ => []) cached_sample open_store)
  = List.filter (short_session (fun _ => [])) (safe_sessions (fun _ => []) cached_sample) /\
  length (safe_sessions (fun _ => []) cached_sample) = 1%nat.
Proof.
  split; [|vm_compute; reflexivity].
  refine (session_cache_round_trip (fun _ => []) cached_sample open_store _ _); [|vm_compute; reflexivity].
  repeat (apply Forall_cons_2; [split_and!; [reflexivity| |]|]); try done;
    repeat (apply Forall_cons_2; [first
      [apply code_units_lit; vm_compute; reflexivity
      |exists 3%Z; split; [vm_compute; reflexivity|lia]
      |exists 0%Z; split; [vm_compute; reflexivity|lia]]|]); constructor.
Defined.

(** ** The cursor of a session *)

(** [agentSessionStorageKey(id)] *)
Definition key_unit (c : N) : bool :=
  digit c || ((65 <=? c) && (c <=? 90))%N || ((97 <=? c) && (c <=? 122))%N || (c =? 95)%N || (c =? 46)%N || (c =? 45)%N.

Definition agentSessionStorageKey (id : jsstring) : jsstring :=
  (js "cm_agent_session_cursor_" ++ ((fun c => if key_unit c then c else 95%N) <$> id))%list.

Definition saveAgentSessionCursor (show_frac : Q -> jsstring) (id : jsstring) (cursor : num) (st : stores) : stores :=
  agentStorageSet (agentSessionStorageKey id) (show_num show_frac cursor) st.

(** [restoreAgentSessionCursor(id)]: the new value of [agentSessionCursor]. *)
Definition restoreAgentSessionCursor (id : jsstring) (st : stores) : num :=
  let stored := match agentStorageGet (agentSessionStorageKey id) st with
                | Some v => if truthy v then Number_of_string v else num_Z 0
                | None => num_Z 0
                end in
  match stored with
  | Fin q => if Qltb q 0 then num_Z 0 else num_floor stored
  | _ => num_Z 0
  end.

(** Whatever the store holds, the cursor is a natural number. *)
Lemma restored_cursor_natural id st : exists z, restoreAgentSessionCursor id st = num_Z z /\ (0 <= z)%Z.
Proof.
  unfold restoreAgentSessionCursor. cbv zeta. set (n := match agentStorageGet _ _ with Some _ => _ | None => _ end).
  destruct n as [q| | |]; try (by exists 0%Z). destruct (Qltb q 0) eqn:E; [by exists 0%Z|]. q_norm.
  exists (Qfloor q). split; [done|]. rewrite <- (Qfloor_Z 0). by apply Qfloor_resp_le.
Qed.

Lemma digit_not_ws c : digit c = true -> is_ws c = false.
Proof.
  intros H%digit_range. unfold is_ws. repeat (apply orb_false_iff; split); try (apply N.eqb_neq; lia);
    apply andb_false_iff; rewrite ?N.leb_gt; lia.
Qed.

Lemma show_N_trim n : trim (show_N n) = show_N n.
Proof.
  apply trim_id. pose proof (show_N_digits n) as D. rewrite Forall_forall in D.
  split; intros c Hc; apply digit_not_ws, D; [by apply head_Some_elem_of|by apply last_Some_elem_of].
Qed.

(** [Number(String(n))] of a natural number of at most 53 bits. *)
Lemma Number_show_N n : (Z.of_N n <= 2 ^ 53)%Z -> Number_of_string (show_N n) = num_Z (Z.of_N n).
Proof.
  intros Hn. unfold Number_of_string. rewrite show_N_trim.
  destruct (scan_decimal_digits n [] I) as (q & E & Eq). rewrite app_nil_r in E.
  destruct (show_N_head n) as (c & r & Es & _). pose proof (show_N_digits n) as D. rewrite Es in *.
  apply Forall_cons_1 in D as [Hc _]. apply digit_range in Hc.
  unfold scan_number, scan_sign. replace (c =? 43)%N with false by (symmetry; apply N.eqb_neq; lia).
  replace (c =? 45)%N with false by (symmetry; apply N.eqb_neq; lia).
  replace (starts_with (js "Infinity") (c :: r)) with false.
  2: { symmetry. change (js "Infinity") with (73%N :: js "nfinity"). cbn [starts_with].
       replace (73 =? c)%N with false by (symmetry; apply N.eqb_neq; lia). done. }
  rewrite E. apply of_exact_integer; [done|lia].
Qed.

(** The event cursor of a session survives a reload. *)
Theorem cursor_round_trip (show_frac : Q -> jsstring) (id : jsstring) (z : Z) (st : stores) :
  (0 <= z <= 2 ^ 53)%Z -> keeps (agentSessionStorageKey id) st = true ->
  restoreAgentSessionCursor id (saveAgentSessionCursor show_frac id (num_Z z) st) = num_Z z.
Proof.
  intros Hz Hk. unfold restoreAgentSessionCursor, saveAgentSessionCursor. rewrite storage_keeps by done.
  rewrite show_num_integer by lia.
  assert (E : show_Z z = show_N (Z.to_N z)) by (destruct z; [done|done|lia]). rewrite E.
  destruct (show_N_head (Z.to_N z)) as (c & r & Es & _).
  assert (Ht : truthy (show_N (Z.to_N z)) = true) by (by rewrite Es). rewrite Ht.
  rewrite Number_show_N, Z2N.id by (rewrite ?Z2N.id; lia). cbv zeta. unfold num_Z at 1.
  assert (Hq : Qltb (inject_Z z) 0 = false) by (apply Qltb_ge; change 0%Q with (inject_Z 0); rewrite <- Zle_Qle; lia).
  rewrite Hq. cbn [num_floor num_Z]. by rewrite Qfloor_Z.
Qed.

Lemma cursor_round_trip_witness :
  restoreAgentSessionCursor (js "s1") (saveAgentSessionCursor (fun _ => []) (js "s1") (num_Z 1234) open_store) = num_Z 1234.
Proof. refine (cursor_round_trip (fun _ => []) (js "s1") 1234 open_store _ _); [lia|vm_compute; reflexivity]. Defined.

(** Two sessions can share the key of their cursor: every other character becomes an
    underscore. *)
Example cursor_keys_collide :
  agentSessionStorageKey (js "team/7") = agentSessionStorageKey (js "team:7") /\
  restoreAgentSessionCursor (js "team:7") (saveAgentSessionCursor (fun _ => []) (js "team/7") (num_Z 40) open_store) = num_Z 40.
Proof. vm_compute. done. Qed.
