(* ===== verification/MeshNotice.v ===== *)
(** * Localised mesh notices (webui/model-selector.js)

    A completion reply can carry a notice code of the gateway; the selector replaces the
    text the user sees by a message in the language of the page: [localizedMeshNotice],
    [rewriteMeshNoticePayload], [rewriteMeshNoticeSseLine] and
    [localizeMeshNoticeResponse] with its stream transformer.  The stream is proved
    equivalent to rewriting the lines of the whole text. *)
From Stdlib Require Import Lia NArith QArith.
From stdpp Require Import base numbers list gmap strings.
From S2P Require Import Prelude JsString JsNumber JsValue JsJson SelectorTables SelectorLabels.

#[local] Open Scope N_scope.

(** ** Objects *)

(** The own enumerable properties [Object.assign] copies. *)
Definition own_entries (v : jsval) : list (jsstring * jsval) :=
  match v with
  | VObj l => l
  | VArr l => imap (fun i x => (show_N (N.of_nat i), x)) l
  | VStr s => imap (fun i c => (show_N (N.of_nat i), VStr [c])) s
  | _ => []
  end.

(** [Object.assign({}, v, { [k]: x })] *)
Definition assign_with (v : jsval) (k : jsstring) (x : jsval) : jsval :=
  VObj (set_member k x (own_entries v)).

(** [o.k = x] of a fresh object *)
Definition put (k : jsstring) (x : jsval) (v : jsval) : jsval :=
  match v with VObj l => VObj (set_member k x l) | _ => v end.

Section Notice.
Context (show_frac : Q -> jsstring) (htmlLang navLang : jsstring).

(** ** Payloads *)

(** [localizedMeshNotice(code)]: [None] is the empty string.  The base of the locale is
    looked up without a check that the table owns it; an inherited member is a function,
    which [JSON.stringify] leaves out like [undefined]. *)
Definition localizedMeshNotice (code : jsval) : option jsval :=
  match code with
  | VStr c =>
      if seqb c (js "local_node_auth_required") then
        let t := object localizedMeshNotices in
        let raw := raw_locale htmlLang navLang in
        let exact := match own raw t with Some _ => raw | None => base_locale raw end in
        Some (match member_of exact t with
              | Own m => VStr m
              | Inherited => VUndef
              | Missing => VStr (default [] (own (js "en") t))
              end)
      else None
  | _ => None
  end.

(** [payload.compute_mesh_notice || (payload.error && payload.error.compute_mesh_notice)] *)
Definition notice_of (payload : jsval) : jsval :=
  let error := prop payload (js "error") in
  vor (prop payload (js "compute_mesh_notice"))
      (if vtruthy error then prop error (js "compute_mesh_notice") else error).

Definition message_of (payload : jsval) : option jsval :=
  let notice := notice_of payload in
  localizedMeshNotice (if vtruthy notice then prop notice (js "code") else notice).

(** [Object.assign({}, next.delta, { content: message })] when [next.delta] is truthy *)
Definition rewrite_part (k : jsstring) (message next : jsval) : jsval :=
  let part := prop next k in
  if vtruthy part then put k (assign_with part (js "content") message) next else next.

Definition rewrite_choice (message choice : jsval) : jsval :=
  rewrite_part (js "message") message
    (rewrite_part (js "delta") message (VObj (own_entries choice))).

Definition rewrite_error (message payload : jsval) : jsval :=
  let error := prop payload (js "error") in
  if vtruthy error && is_object error
  then put (js "error") (assign_with error (js "message") message) payload
  else payload.

Definition rewrite_choices (message payload : jsval) : jsval :=
  match prop payload (js "choices") with
  | VArr l => put (js "choices") (VArr (rewrite_choice message <$> l)) payload
  | _ => payload
  end.

(** [rewriteMeshNoticePayload(payload)]: [None] when it returns its argument itself. *)
Definition rewriteMeshNoticePayload (payload : jsval) : option jsval :=
  if vtruthy payload && is_object payload then
    match message_of payload with
    | None => None
    | Some message => Some (rewrite_choices message (rewrite_error message (VObj (own_entries payload))))
    end
  else None.

(** ** Lines of an event stream *)

(** [rewriteMeshNoticeSseLine(line)] *)
Definition rewriteMeshNoticeSseLine (line : jsstring) : jsstring :=
  if starts_with (js "data: ") line then
    let raw := trim (drop 6 line) in
    if negb (truthy raw) || seqb raw (js "[DONE]") then line
    else match JSON_parse raw with
         | Ret parsed =>
             match rewriteMeshNoticePayload parsed with
             | Some rewritten => js "data: " ++ JSON_stringify show_frac rewritten
             | None => line
             end
         | Throw _ => line
         end
  else line.

(** ** Responses *)

Record response := Response { status : Z; headers : list (jsstring * jsstring); body : jsstring }.

(** [response.headers.get('content-type') || ''] (header names are lower case). *)
Definition content_type (r : response) : jsstring := default [] (own (js "content-type") (headers r)).

Definition stale_headers : list jsstring :=
  js <$> ["content-length"; "content-encoding"; "content-md5"; "etag"]%string.

Definition without_headers (names : list jsstring) (h : list (jsstring * jsstring)) : list (jsstring * jsstring) :=
  filter (fun e => e.1 ∉ names) h.

(** The transformer of [localizeMeshNoticeResponse]: one [pull] with a part of the text,
    and the [pull] that meets the end with what the decoder still holds. *)
Definition on_part (carry text : jsstring) : jsstring * jsstring :=
  let lines := split_on 10 (carry ++ text) in
  let complete := take (pred (length lines)) lines in
  (join [10] (rewriteMeshNoticeSseLine <$> complete) ++ (if decide (complete = []) then [] else [10]),
   default [] (last lines)).

Definition on_end (carry flush : jsstring) : jsstring :=
  let carry := carry ++ flush in
  if truthy carry then rewriteMeshNoticeSseLine carry else [].

(** What the transformer enqueues, from the first part to the end. *)
Fixpoint transform (carry : jsstring) (parts : list jsstring) (flush : jsstring) : jsstring :=
  match parts with
  | [] => on_end carry flush
  | p :: r => (on_part carry p).1 ++ transform (on_part carry p).2 r flush
  end.

(** [localizeMeshNoticeResponse(response)]; [parts] is the text of the body as the
    decoder hands it out, part by part. *)
Definition localizeMeshNoticeResponse (r : response) (parts : list jsstring) (flush : jsstring) : response :=
  let ct := content_type r in
  if includes (js "application/json") ct then
    match JSON_parse (body r) with
    | Ret payload =>
        match rewriteMeshNoticePayload payload with
        | None => r
        | Some rewritten =>
            Response (status r) (without_headers stale_headers (headers r)) (JSON_stringify show_frac rewritten)
        end
    | Throw _ => r
    end
  else if includes (js "text/event-stream") ct
  then Response (status r) (headers r) (transform [] parts flush)
  else r.

(** ** The stream is rewritten line by line *)

(** The reference: every line of the text is rewritten on its own. *)
Definition rewrite_lines (text : jsstring) : jsstring :=
  join [10] (rewriteMeshNoticeSseLine <$> split_on 10 text).

Lemma rewrite_empty_line : rewriteMeshNoticeSseLine [] = [].
Proof. reflexivity. Qed.

(** A text is its complete lines and a rest without line feed. *)
Lemma split_last s : exists init lst, split_on 10 s = init ++ [lst] /\ 10 ∉ lst.
Proof.
  destruct (split_on_cons 10 s) as (h & t & E).
  destruct (exists_last (split_on_not_nil 10 s)) as (init & lst & El). exists init, lst. split; [done|].
  pose proof (split_on_free 10 s) as F. rewrite El, Forall_app, Forall_singleton in F. tauto.
Qed.

Lemma rewrite_lines_app a b init lst : split_on 10 a = init ++ [lst] ->
  rewrite_lines (a ++ b) =
  join [10] (rewriteMeshNoticeSseLine <$> init) ++ (if decide (init = []) then [] else [10]) ++ rewrite_lines (lst ++ b).
Proof.
  intros E. unfold rewrite_lines. rewrite (split_on_app 10 a b init lst E), fmap_app.
  pose proof (split_on_not_nil 10 (lst ++ b)) as Hne. destruct (split_on 10 (lst ++ b)) as [|x l]; [done|].
  clear E Hne. induction init as [|y init IH]; [done|]. rewrite decide_False by done.
  rewrite !fmap_cons, <- app_comm_cons, join_cons by (by destruct init).
  rewrite <- fmap_cons, IH. destruct init as [|z init].
  - rewrite decide_True by done. simpl. done.
  - rewrite decide_False by done. rewrite (fmap_cons _ z init), (join_cons _ _ (_ :: _)) by done.
    by rewrite <- !app_assoc.
Qed.

(** What the decoder still holds at the end is at most a replacement character, so it has
    no line feed. *)
Lemma transform_lines carry parts flush :
  10 ∉ carry -> 10 ∉ flush -> transform carry parts flush = rewrite_lines (carry ++ concat parts ++ flush).
Proof.
  intros Hc Hf. revert carry Hc. induction parts as [|p parts IH]; intros carry Hc; cbn [transform concat app].
  - unfold on_end, rewrite_lines. rewrite split_on_single by set_solver. cbn [fmap list_fmap join].
    by destruct (carry ++ flush).
  - destruct (split_last (carry ++ p)) as (init & lst & E & Hl).
    unfold on_part. rewrite E. cbv zeta. rewrite length_app, last_snoc, Nat.add_1_r. cbn [length pred fst snd default].
    rewrite take_app_length, IH by done.
    rewrite <- (app_assoc p), (app_assoc carry), (rewrite_lines_app (carry ++ p) _ init lst E).
    by rewrite !app_assoc.
Qed.

(** Lines that carry no notice are left as they are. *)
Definition plain_line (line : jsstring) : Prop :=
  forall v, starts_with (js "data: ") line = true -> JSON_parse (trim (drop 6 line)) = Ret v ->
  rewriteMeshNoticePayload v = None.

Lemma plain_line_id line : plain_line line -> rewriteMeshNoticeSseLine line = line.
Proof.
  intros H. unfold rewriteMeshNoticeSseLine. destruct (starts_with _ line) eqn:E; [|done].
  destruct (_ || _); [done|]. destruct (JSON_parse _) as [v|] eqn:Ej; [|done]. by rewrite (H v).
Qed.

Lemma plain_lines_id text : Forall plain_line (split_on 10 text) -> rewrite_lines text = text.
Proof.
  intros H. unfold rewrite_lines. assert (E : rewriteMeshNoticeSseLine <$> split_on 10 text = split_on 10 text).
  { induction H as [|l ls Hl _ IH]; [done|]. cbn. by rewrite plain_line_id, IH. }
  rewrite E. apply join_split.
Qed.

End Notice.

(** C8: The event stream of a reply is rewritten line by line, however the network cuts it:
    the transformer's output is the whole text with every line rewritten on its own, and
    a stream without notices reaches the page unchanged. *)
Theorem notice_stream_is_linewise (show_frac : Q -> jsstring) (h n : jsstring) (r : response)
    (parts : list jsstring) (flush : jsstring) :
  includes (js "application/json") (content_type r) = false ->
  includes (js "text/event-stream") (content_type r) = true ->
  10 ∉ flush ->
  let text := concat parts ++ flush in
  body (localizeMeshNoticeResponse show_frac h n r parts flush) = rewrite_lines show_frac h n text /\
  (Forall (plain_line h n) (split_on 10 text) ->
   body (localizeMeshNoticeResponse show_frac h n r parts flush) = text).
Proof.
  intros Hj He Hf text. unfold localizeMeshNoticeResponse. rewrite Hj, He. cbn [body].
  rewrite transform_lines by set_solver. split; [done|]. apply plain_lines_id.
Qed.

(** ** What rewriting a payload changes *)

Lemma assoc_set_member k k' v l : assoc k (set_member k' v l) = if seqb k k' then Some v else assoc k l.
Proof.
  induction l as [|[k1 v1] l IH]; simpl; [done|]. destruct (seqb k' k1) eqn:E1; simpl.
  - apply seqb_eq in E1. subst. by destruct (seqb k k1).
  - rewrite IH. destruct (seqb k k1) eqn:E2; [|done]. apply seqb_eq in E2. subst.
    destruct (seqb k1 k') eqn:E3; [|done]. apply seqb_eq in E3. subst. by rewrite seqb_refl in E1.
Qed.

Lemma set_member_idemp k v l : set_member k v (set_member k v l) = set_member k v l.
Proof.
  induction l as [|[k1 v1] l IH]; simpl; [by rewrite seqb_refl|].
  destruct (seqb k k1) eqn:E; simpl; [by rewrite seqb_refl|]. by rewrite E, IH.
Qed.

Lemma prop_put k k' x l : prop (put k' x (VObj l)) k = if seqb k k' then x else prop (VObj l) k.
Proof. unfold prop, put. rewrite assoc_set_member. by destruct (seqb k k'). Qed.

Lemma prop_put_eq k x l : prop (put k x (VObj l)) k = x.
Proof. by rewrite prop_put, seqb_refl. Qed.

Lemma prop_put_ne k k' x l : k <> k' -> prop (put k' x (VObj l)) k = prop (VObj l) k.
Proof. intros H%seqb_neq. by rewrite prop_put, H. Qed.

Lemma put_same k l x : prop (VObj l) k = x -> vtruthy x = true -> put k x (VObj l) = VObj l.
Proof.
  unfold prop, put. intros E H. f_equal. induction l as [|[k1 v1] l IH]; simpl in *; [by subst|].
  destruct (seqb k k1) eqn:E1; simpl in *; [apply seqb_eq in E1; by subst|]. by rewrite IH.
Qed.

Lemma assign_with_obj v k x : exists l, assign_with v k x = VObj l /\ prop (VObj l) k = x.
Proof. eexists. split; [reflexivity|]. apply (prop_put_eq k x (own_entries v)). Qed.

Lemma assign_with_idemp v k x : assign_with (assign_with v k x) k x = assign_with v k x.
Proof. unfold assign_with. cbn [own_entries]. by rewrite set_member_idemp. Qed.

(** A part that already holds the message is not changed again. *)
Definition settled (k : jsstring) (m v : jsval) : Prop :=
  vtruthy (prop v k) = true -> exists p, prop v k = assign_with p (js "content") m.

Lemma rewrite_part_spec k m l : exists l',
  rewrite_part k m (VObj l) = VObj l' /\ settled k m (VObj l') /\
  vtruthy (prop (VObj l') k) = vtruthy (prop (VObj l) k) /\
  (forall k', k' <> k -> prop (VObj l') k' = prop (VObj l) k').
Proof.
  unfold rewrite_part. cbv zeta. destruct (vtruthy (prop (VObj l) k)) eqn:E.
  - eexists. split; [reflexivity|]. pose proof (prop_put_eq k (assign_with (prop (VObj l) k) (js "content") m) l) as P.
    cbn [put] in P. split_and!.
    + intros _. by eexists.
    + by rewrite P.
    + intros k' Hk. by apply prop_put_ne.
  - exists l. split_and!; [done| |done|done]. intros H. congruence.
Qed.

Lemma rewrite_part_settled k m l : settled k m (VObj l) -> rewrite_part k m (VObj l) = VObj l.
Proof.
  intros H. unfold rewrite_part. cbv zeta. destruct (vtruthy (prop (VObj l) k)) eqn:E; [|done].
  destruct (H E) as [p Ep]. rewrite Ep, assign_with_idemp. apply put_same; [done|]. reflexivity.
Qed.

Definition shows (k : jsstring) (m v : jsval) : Prop :=
  vtruthy (prop v k) = true -> prop (prop v k) (js "content") = m.

Lemma settled_shows k m v : settled k m v -> shows k m v.
Proof.
  intros H E. destruct (H E) as [p ->]. destruct (assign_with_obj p (js "content") m) as (l & -> & P). exact P.
Qed.

Lemma rewrite_choice_spec m c : exists l, rewrite_choice m c = VObj l /\
  shows (js "delta") m (VObj l) /\ shows (js "message") m (VObj l) /\ rewrite_choice m (VObj l) = VObj l.
Proof.
  unfold rewrite_choice. destruct (rewrite_part_spec (js "delta") m (own_entries c)) as (l1 & E1 & S1 & _ & _).
  destruct (rewrite_part_spec (js "message") m l1) as (l2 & E2 & S2 & _ & F2).
  exists l2. rewrite E1, E2. assert (S1' : settled (js "delta") m (VObj l2)).
  { unfold settled in *. rewrite F2 by done. exact S1. }
  split_and!; [done|by apply settled_shows..|]. cbn [own_entries].
  by rewrite rewrite_part_settled, rewrite_part_settled.
Qed.

Lemma rewrite_error_spec m l : exists l', rewrite_error m (VObj l) = VObj l' /\
  (forall k, k <> js "error" -> prop (VObj l') k = prop (VObj l) k) /\
  prop (VObj l') (js "error") =
    (let e := prop (VObj l) (js "error") in
     if vtruthy e && is_object e then assign_with e (js "message") m else e).
Proof.
  unfold rewrite_error. cbv zeta. set (e := prop (VObj l) (js "error")). destruct (vtruthy e && is_object e).
  - eexists. split; [reflexivity|]. split; [intros k Hk; by apply prop_put_ne|apply (prop_put_eq _ _ l)].
  - by exists l.
Qed.

Lemma rewrite_choices_spec m l : exists l', rewrite_choices m (VObj l) = VObj l' /\
  (forall k, k <> js "choices" -> prop (VObj l') k = prop (VObj l) k) /\
  prop (VObj l') (js "choices") =
    match prop (VObj l) (js "choices") with VArr cs => VArr (rewrite_choice m <$> cs) | v => v end.
Proof.
  unfold rewrite_choices. destruct (prop (VObj l) (js "choices")) as [| | | | |cs|] eqn:E;
    try by exists l; rewrite E.
  eexists. split; [reflexivity|]. split; [intros k Hk; by apply prop_put_ne|apply (prop_put_eq _ _ l)].
Qed.

(** The members of an array are named by digits. *)
Lemma prop_index_entries k (l : list jsval) :
  match k with c :: _ => digit c | [] => true end = false ->
  prop (VObj (own_entries (VArr l))) k = VUndef.
Proof.
  intros Hk. cbn [own_entries prop].
  assert (G : forall i, assoc k (imap (fun j x => (show_N (N.of_nat (i + j)), x)) l) = None).
  { induction l as [|x l IH]; intros i; [done|]. cbn [imap assoc].
    assert (Hne : seqb k (show_N (N.of_nat (i + 0))) = false).
    { apply seqb_neq. intros E. pose proof (show_N_digits (N.of_nat (i + 0))) as D. rewrite <- E in D.
      destruct k; [done|]. inv D. congruence. }
    rewrite Hne. rewrite (imap_ext _ (fun j x => (show_N (N.of_nat (S i + j)), x))); [apply IH|].
    intros j y _. simpl. by rewrite Nat.add_succ_r. }
  specialize (G 0%nat). simpl in G. by rewrite G.
Qed.

(** Rewriting again finds the message in place. *)
Lemma rewrite_error_settled m l p :
  prop (VObj l) (js "error") = assign_with p (js "message") m -> rewrite_error m (VObj l) = VObj l.
Proof.
  intros E. unfold rewrite_error. rewrite E. change (vtruthy (assign_with p (js "message") m) && is_object (assign_with p (js "message") m)) with true.
  cbv iota zeta. rewrite assign_with_idemp. by apply put_same.
Qed.

Lemma rewrite_choices_settled m l cs :
  prop (VObj l) (js "choices") = VArr (rewrite_choice m <$> cs) -> rewrite_choices m (VObj l) = VObj l.
Proof.
  intros E. unfold rewrite_choices. rewrite E. rewrite <- list_fmap_compose.
  rewrite (list_fmap_ext (rewrite_choice m ∘ rewrite_choice m) (rewrite_choice m)); [by apply put_same|].
  intros i c _. simpl. destruct (rewrite_choice_spec m c) as (l' & -> & _ & _ & ->). done.
Qed.

(** Rewriting a payload with a notice: the error message and the text of every choice are
    the localised message, no other member changes, and rewriting again changes nothing. *)
Theorem notice_payload_shows_the_message (h n : jsstring) (fields : list (jsstring * jsval)) (m : jsval) :
  message_of h n (VObj fields) = Some m ->
  exists l, rewriteMeshNoticePayload h n (VObj fields) = Some (VObj l) /\
    (forall k, k <> js "error" -> k <> js "choices" -> prop (VObj l) k = prop (VObj fields) k) /\
    (forall e, prop (VObj fields) (js "error") = VObj e ->
       prop (prop (VObj l) (js "error")) (js "message") = m /\
       forall k, k <> js "message" -> prop (prop (VObj l) (js "error")) k = prop (VObj e) k) /\
    (forall cs, prop (VObj fields) (js "choices") = VArr cs ->
       exists cs', prop (VObj l) (js "choices") = VArr cs' /\ length cs' = length cs /\
         Forall (fun c => shows (js "delta") m c /\ shows (js "message") m c) cs') /\
    message_of h n (VObj l) = Some m /\ rewriteMeshNoticePayload h n (VObj l) = Some (VObj l).
Proof.
  intros Hm. unfold rewriteMeshNoticePayload at 1. cbn [vtruthy is_object andb own_entries]. rewrite Hm.
  destruct (rewrite_error_spec m fields) as (l1 & E1 & F1 & R1).
  destruct (rewrite_choices_spec m l1) as (l & E2 & F2 & R2).
  exists l. rewrite E1, E2. assert (F : forall k, k <> js "error" -> k <> js "choices" -> prop (VObj l) k = prop (VObj fields) k).
  { intros k H1 H2. rewrite F2 by done. by apply F1. }
  assert (Re : prop (VObj l) (js "error") = (let e := prop (VObj fields) (js "error") in
     if vtruthy e && is_object e then assign_with e (js "message") m else e)) by (rewrite F2 by done; done).
  assert (Rc : prop (VObj l) (js "choices") =
    match prop (VObj fields) (js "choices") with VArr cs => VArr (rewrite_choice m <$> cs) | v => v end)
    by (rewrite R2, F1 by done; done).
  assert (Hm' : message_of h n (VObj l) = Some m).
  { rewrite <- Hm. unfold message_of, notice_of. rewrite F by done. rewrite Re. cbv zeta.
    set (e := prop (VObj fields) (js "error")). destruct (vtruthy e && is_object e) eqn:Eo; [|done]. bool_norm.
    rewrite H. change (vtruthy (assign_with e (js "message") m)) with true. cbv iota.
    replace (prop (assign_with e (js "message") m) (js "compute_mesh_notice")) with (prop e (js "compute_mesh_notice")); [done|].
    unfold assign_with. rewrite (prop_put_ne _ (js "message") m (own_entries e)) by done.
    destruct e as [| | | | |le|]; try done. symmetry. apply prop_index_entries. reflexivity. }
  split_and!; [done|done| | |done|].
  - intros e Ee. rewrite Re, Ee. cbn [vtruthy is_object andb]. unfold assign_with. cbn [own_entries]. split.
    + apply (prop_put_eq _ m e).
    + intros k Hk. by apply (prop_put_ne _ _ m e).
  - intros cs Ec. rewrite Rc, Ec. eexists. split_and!; [done|by rewrite length_fmap|].
    apply Forall_fmap, Forall_true. intros c. simpl. destruct (rewrite_choice_spec m c) as (l' & -> & ? & ? & _). done.
  - unfold rewriteMeshNoticePayload. cbn [vtruthy is_object andb own_entries]. rewrite Hm'. f_equal.
    assert (Ee : rewrite_error m (VObj l) = VObj l).
    { cbv zeta in Re. destruct (vtruthy _ && is_object _) eqn:Eo in Re; [by eapply rewrite_error_settled|].
      unfold rewrite_error. by rewrite Re, Eo. }
    rewrite Ee. unfold rewrite_choices. destruct (prop (VObj fields) (js "choices")) eqn:Ec; try by rewrite Rc.
    by apply (rewrite_choices_settled m l l0).
Qed.

(** A gateway reply that asks for pairing, as JSON and as an event of a stream. *)
Definition pairing_fields : list (jsstring * jsval) :=
  [(js "compute_mesh_notice", VObj [(js "code", VStr (js "local_node_auth_required"))]);
   (js "error", VObj [(js "message", VStr (js "pairing required")); (js "type", VStr (js "auth"))]);
   (js "choices", VArr [VObj [(js "delta", VObj [(js "content", VStr (js "raw"))])]; VNull])].

Definition pairing_message : jsval :=
  VStr (js "LAN node detected, but it requires manual pairing. Open Setup and enter the owner key or scan the one-time QR code.").

Lemma notice_payload_shows_the_message_witness :
  message_of (js "en-GB") [] (VObj pairing_fields) = Some pairing_message /\
  exists l, rewriteMeshNoticePayload (js "en-GB") [] (VObj pairing_fields) = Some (VObj l) /\
    prop (prop (VObj l) (js "error")) (js "message") = pairing_message.
Proof.
  assert (E : message_of (js "en-GB") [] (VObj pairing_fields) = Some pairing_message) by (vm_compute; reflexivity).
  split; [exact E|].
  destruct (notice_payload_shows_the_message (js "en-GB") [] pairing_fields pairing_message E) as (l & H & _ & He & _).
  exists l. split; [exact H|]. eapply proj1, (He [(js "message", VStr (js "pairing required")); (js "type", VStr (js "auth"))]).
  vm_compute. reflexivity.
Defined.

Definition sse_response : response := Response 200 [(js "content-type", js "text/event-stream; charset=utf-8")] [].

Lemma notice_stream_is_linewise_witness :
  body (localizeMeshNoticeResponse (fun _ => []) (js "de") [] sse_response
    [jsq "data: {`compute_mesh_no"; jsq "tice`:{`code`:`local_node_auth_required`},`choices`:[]}" ++ [10]; js "data: [DONE]" ++ [10]] [])
  = jsq "data: {`compute_mesh_notice`:{`code`:`local_node_auth_required`},`choices`:[]}" ++ [10] ++ js "data: [DONE]" ++ [10] /\
  body (localizeMeshNoticeResponse (fun _ => []) (js "de") [] sse_response
    [jsq "data: {`compute_mesh_notice`:{`code`:`local_node_auth_required`},"; jsq "`choices`:[{`delta`:{`content`:`x`}}]}"] [])
  = rewrite_lines (fun _ => []) (js "de") []
      (jsq "data: {`compute_mesh_notice`:{`code`:`local_node_auth_required`},`choices`:[{`delta`:{`content`:`x`}}]}").
Proof.
  split.
  - vm_compute. reflexivity.
  - refine (eq_trans (proj1 (notice_stream_is_linewise (fun _ => []) (js "de") [] sse_response _ _ _ _ _)) _);
      [vm_compute; reflexivity..|plain_lit|vm_compute; reflexivity].
Defined.
