(* ===== verification/MeshDiscovery.v ===== *)
(** * Discovery of mesh endpoints (webui/model-selector.js)

    [addMeshEndpoint], [discoverFleetEndpoints], the bounded worker pool
    [mapWithConcurrency] and the memoised probe [probeLocalNode].  Address parsing is the
    browser's [URL] class and a parameter. *)
From Stdlib Require Import Lia NArith QArith.
From stdpp Require Import base numbers list gmap strings.
From S2P Require Import Prelude JsString JsNumber JsValue.

(** ** The worker pool *)

Module Pool.
Section Pool.
Context {A B Err : Type}.

(** A worker of [mapWithConcurrency] waits for the mapper of an item ([Some index]) or has
    returned. *)
Record pool := MkPool {
  results : list (option B);
  nextIndex : nat;
  workers : list (option nat);
  failure : option Err;
}.

(** The loop test of a worker and the index it takes. *)
Definition take_next (n w : nat) (p : pool) : pool :=
  if (nextIndex p <? n)%nat
  then MkPool (results p) (S (nextIndex p)) (<[w := Some (nextIndex p)]> (workers p)) (failure p)
  else MkPool (results p) (nextIndex p) (<[w := None]> (workers p)) (failure p).

(** [Math.min(Math.max(1, limit), items.length)] *)
Definition workerCount (items : list A) (limit : nat) : nat := Nat.min (Nat.max 1 limit) (length items).

(** The synchronous part: every worker runs to its first [await]. *)
Definition start (items : list A) (limit : nat) : pool :=
  let k := workerCount items limit in
  fold_left (fun p w => take_next (length items) w p) (seq 0 k)
    (MkPool (replicate (length items) None) 0 (replicate k None) None).

(** A mapper settles: the worker stores the result and takes the next item, or its
    promise is rejected, which rejects [Promise.all] the first time. *)
Inductive event : Type :=
| Resolved (w : nat) (v : B)
| Rejected (w : nat) (e : Err).

Definition step (n : nat) (p : pool) (ev : event) : option pool :=
  match ev with
  | Resolved w v =>
      match workers p !! w with
      | Some (Some i) =>
          Some (take_next n w (MkPool (<[i := Some v]> (results p)) (nextIndex p) (workers p) (failure p)))
      | _ => None
      end
  | Rejected w e =>
      match workers p !! w with
      | Some (Some i) =>
          Some (MkPool (results p) (nextIndex p) (<[w := None]> (workers p))
                  (match failure p with Some e0 => Some e0 | None => Some e end))
      | _ => None
      end
  end.

Fixpoint exec (n : nat) (p : pool) (evs : list event) : option pool :=
  match evs with
  | [] => Some p
  | ev :: r => match step n p ev with Some q => exec n q r | None => None end
  end.

Definition in_flight (p : pool) : list nat := omap id (workers p).

(** What the promise of [mapWithConcurrency] has become; [None] while it is pending. *)
Definition promise (p : pool) : option (outcome Err (list (option B))) :=
  match failure p with
  | Some e => Some (Throw e)
  | None => match in_flight p with [] => Some (Ret (results p)) | _ => None end
  end.

(** The item a worker waits for. *)
Definition item_of (p : pool) (ev : event) : option nat :=
  match ev with Resolved w _ | Rejected w _ => mjoin (workers p !! w) end.

(** ** Its invariant *)

(** [done] events have settled; without a failure the results are exactly those of the
    items that were taken and are not in flight. *)
Record inv (n k settled : nat) (got : nat -> option B) (p : pool) : Prop := {
  inv_len : length (results p) = n;
  inv_workers : length (workers p) = k;
  inv_next : (nextIndex p <= n)%nat;
  inv_nodup : NoDup (in_flight p);
  inv_bound : Forall (fun i => i < nextIndex p)%nat (in_flight p);
  inv_count : (settled + length (in_flight p) = nextIndex p)%nat;
  inv_results : forall i, (i < n)%nat -> results p !! i = Some (got i);
  inv_got : forall i, got i <> None -> (i < nextIndex p)%nat /\ i ∉ in_flight p;
  inv_idle : failure p = None -> None ∈ workers p -> nextIndex p = n;
  inv_done : failure p = None -> forall i, (i < nextIndex p)%nat -> i ∉ in_flight p -> got i <> None;
}.

Lemma in_flight_split p w i : workers p !! w = Some (Some i) -> exists l1 l2,
  workers p = l1 ++ Some i :: l2 /\ in_flight p = omap id l1 ++ i :: omap id l2 /\
  forall x, <[w := x]> (workers p) = l1 ++ x :: l2.
Proof.
  intros H. exists (take w (workers p)), (drop (S w) (workers p)).
  pose proof (take_drop_middle _ _ _ H) as E. split_and!; [done| |].
  - unfold in_flight. rewrite <- E at 1. by rewrite omap_app.
  - intros x. rewrite insert_take_drop by (by eapply lookup_lt_Some). done.
Qed.

Lemma start_closed items limit :
  let k := workerCount items limit in
  start items limit = MkPool (replicate (length items) None) k (Some <$> seq 0 k) None.
Proof.
  cbv zeta. unfold start. cbv zeta. set (k := workerCount items limit).
  assert (Hk : (k <= length items)%nat) by (unfold k, workerCount; lia).
  set (rs := replicate (length items) None).
  assert (G : forall j m, (j + m = k)%nat ->
    fold_left (fun p w => take_next (length items) w p) (seq j m)
      (MkPool rs j ((Some <$> seq 0 j) ++ replicate m None) None)
    = MkPool rs k (Some <$> seq 0 k) None).
  { intros j m. revert j. induction m as [|m IH]; intros j Hj.
    - simpl. rewrite app_nil_r. by replace j with k by lia.
    - cbn [seq fold_left replicate]. unfold take_next at 2. cbn [nextIndex results workers failure].
      replace (j <? length items)%nat with true by (symmetry; apply Nat.ltb_lt; lia).
      rewrite insert_app_r_alt by (rewrite length_fmap, length_seq; lia).
      rewrite length_fmap, length_seq, Nat.sub_diag. cbn [insert list_insert].
      rewrite <- (IH (S j)) by lia. rewrite seq_S, fmap_app, <- app_assoc. done. }
  exact (G 0%nat k eq_refl).
Qed.

Lemma in_flight_start items limit :
  in_flight (start items limit) = seq 0 (workerCount items limit).
Proof.
  rewrite start_closed. unfold in_flight. cbn [workers].
  induction (seq 0 (workerCount items limit)) as [|x l IH]; [done|]. cbn. by rewrite IH.
Qed.

Lemma start_inv items limit :
  inv (length items) (workerCount items limit) 0 (fun _ => None) (start items limit).
Proof.
  pose proof (in_flight_start items limit) as F. rewrite start_closed in *.
  assert (Hk : (workerCount items limit <= length items)%nat) by (unfold workerCount; lia).
  constructor; rewrite ?F; cbn [results nextIndex workers failure].
  - apply length_replicate.
  - by rewrite length_fmap, length_seq.
  - done.
  - apply NoDup_ListNoDup, List.seq_NoDup.
  - apply Forall_forall. intros i Hi%elem_of_seq. lia.
  - rewrite length_seq. lia.
  - intros i Hi. by apply lookup_replicate_2.
  - done.
  - intros _ H. apply list_elem_of_fmap in H as (? & ? & _). done.
  - intros _ i Hi Hn. destruct Hn. apply elem_of_seq. lia.
Qed.

(** The mapper of item [i] settles with [v] ([None]: it is rejected). *)
Definition got_after (i : nat) (v : option B) (got : nat -> option B) : nat -> option B :=
  fun j => if decide (j = i) then v else got j.

Lemma in_flight_replace (l1 l2 : list (option nat)) (x : option nat) rs m f :
  in_flight (MkPool rs m (l1 ++ x :: l2) f) = omap id l1 ++ match x with Some i => [i] | None => [] end ++ omap id l2.
Proof. unfold in_flight. cbn [workers]. rewrite omap_app. by destruct x. Qed.

(** What the invariant says about the item that settles. *)
Lemma inv_settling n k settled got p a i b :
  inv n k settled got p -> in_flight p = a ++ i :: b ->
  (i < nextIndex p)%nat /\ (nextIndex p <= n)%nat /\ NoDup (a ++ b) /\ i ∉ a ++ b /\
  Forall (fun j => j < nextIndex p)%nat (a ++ b) /\ (settled + S (length (a ++ b)) = nextIndex p)%nat.
Proof.
  intros [] E. rewrite E in *. rewrite Forall_app, Forall_cons in inv_bound0. rewrite length_app in inv_count0.
  apply NoDup_app in inv_nodup0 as (Na & Hab & Nb). apply NoDup_cons in Nb as [Hi Nb].
  split_and!; [naive_solver|done| | |rewrite Forall_app; naive_solver|rewrite length_app; simpl in *; lia].
  - apply NoDup_app. split_and!; [done|set_solver|done].
  - set_solver.
Qed.

Lemma resolve_inv n k settled got p w i v :
  inv n k settled got p -> workers p !! w = Some (Some i) ->
  inv n k (S settled) (got_after i (Some v) got)
    (take_next n w (MkPool (<[i := Some v]> (results p)) (nextIndex p) (workers p) (failure p))).
Proof.
  intros I Hw. destruct (in_flight_split p w i Hw) as (l1 & l2 & Ew & Ef & Ei).
  destruct (inv_settling _ _ _ _ _ _ _ _ I Ef) as (Hi & Hn & Nd & Hni & Hb & Hc).
  assert (Hlen : forall x, length (<[w:=x]> (workers p)) = k) by (intros x; rewrite length_insert; apply I).
  unfold take_next. cbn [nextIndex results workers failure].
  assert (R : forall j, (j < n)%nat -> <[i:=Some v]> (results p) !! j = Some (got_after i (Some v) got j)).
  { intros j Hj. unfold got_after. destruct (decide (j = i)) as [->|Hne].
    - apply list_lookup_insert_eq. rewrite (inv_len _ _ _ _ _ I). lia.
    - rewrite list_lookup_insert_ne by done. by apply I. }
  assert (Gold : forall j, j <> i -> got j <> None -> (j < nextIndex p)%nat /\ j ∉ omap id l1 ++ omap id l2).
  { intros j Hj Hg. destruct (inv_got _ _ _ _ _ I j Hg) as [H1 H2]. rewrite Ef in H2. set_solver. }
  assert (Dold : failure p = None -> forall j, (j < nextIndex p)%nat -> j ∉ omap id l1 ++ omap id l2 -> j <> i -> got j <> None).
  { intros Hf j H1 H2 H3. apply (inv_done _ _ _ _ _ I Hf); [done|]. rewrite Ef. set_solver. }
  destruct (nextIndex p <? n)%nat eqn:En; [apply Nat.ltb_lt in En|apply Nat.ltb_ge in En].
  - assert (Hfresh : nextIndex p ∉ omap id l1 ++ omap id l2).
    { intros H. rewrite Forall_forall in Hb. specialize (Hb _ H). lia. }
    constructor; rewrite ?Ei, ?in_flight_replace; cbn [results nextIndex workers failure app].
    + rewrite length_insert. apply I.
    + rewrite <- (Hlen (Some (nextIndex p))), Ei. done.
    + lia.
    + apply (NoDup_app) in Nd as (? & ? & ?). apply NoDup_app. split_and!; [done|set_solver|constructor; set_solver].
    + rewrite Forall_app in Hb |- *. destruct Hb. split; [|constructor; [lia|]];
        (eapply Forall_impl; [eassumption|]; simpl; lia).
    + rewrite length_app in *. simpl. lia.
    + exact R.
    + intros j Hg. unfold got_after in Hg. destruct (decide (j = i)) as [->|Hne]; [split; [lia|set_solver by lia]|].
      destruct (Gold j Hne Hg) as [H1 H2]. split; [lia|]. rewrite elem_of_app, elem_of_cons. intros [H|[->|H]]; [set_solver|lia|set_solver].
    + intros Hf H. exfalso. assert (nextIndex p = n); [|lia]. apply (inv_idle _ _ _ _ _ I Hf). rewrite Ew. set_solver.
    + intros Hf j Hj Hnj. unfold got_after. destruct (decide (j = i)) as [->|Hne]; [done|].
      apply (Dold Hf); [|set_solver|done]. assert (j <> nextIndex p) by set_solver. lia.
  - constructor; rewrite ?Ei, ?in_flight_replace; cbn [results nextIndex workers failure app].
    + rewrite length_insert. apply I.
    + rewrite <- (Hlen None), Ei. done.
    + done.
    + done.
    + done.
    + lia.
    + exact R.
    + intros j Hg. unfold got_after in Hg. destruct (decide (j = i)) as [->|Hne]; [done|by apply Gold].
    + lia.
    + intros Hf j Hj Hnj. unfold got_after. destruct (decide (j = i)); [done|by apply (Dold Hf)].
Qed.

Lemma reject_inv n k settled got p w i e :
  inv n k settled got p -> workers p !! w = Some (Some i) ->
  inv n k (S settled) got
    (MkPool (results p) (nextIndex p) (<[w := None]> (workers p))
       (match failure p with Some e0 => Some e0 | None => Some e end)).
Proof.
  intros I Hw. destruct (in_flight_split p w i Hw) as (l1 & l2 & Ew & Ef & Ei).
  destruct (inv_settling _ _ _ _ _ _ _ _ I Ef) as (Hi & Hn & Nd & Hni & Hb & Hc).
  assert (Hlen : length (<[w:=None]> (workers p)) = k) by (rewrite length_insert; apply I).
  rewrite Ei in *. constructor; rewrite ?in_flight_replace; cbn [results nextIndex workers failure app]; try done.
  - apply I.
  - lia.
  - apply I.
  - intros j Hg. destruct (inv_got _ _ _ _ _ I j Hg) as [H1 H2]. rewrite Ef in H2. set_solver.
  - by destruct (failure p).
  - by destruct (failure p).
Qed.

(** The values the items were answered with, along a run. *)
Fixpoint answers (n : nat) (p : pool) (got : nat -> option B) (evs : list event) : nat -> option B :=
  match evs with
  | [] => got
  | ev :: r =>
      match step n p ev, item_of p ev with
      | Some q, Some i => answers n q (match ev with Resolved _ v => got_after i (Some v) got | Rejected _ _ => got end) r
      | _, _ => got
      end
  end.

Lemma exec_inv n k evs : forall p q settled got,
  inv n k settled got p -> exec n p evs = Some q ->
  inv n k (settled + length evs) (answers n p got evs) q.
Proof.
  induction evs as [|ev evs IH]; intros p q settled got I E; cbn [exec answers length] in *.
  - simplify_eq. by rewrite Nat.add_0_r.
  - rewrite Nat.add_succ_r, <- Nat.add_succ_l. destruct ev as [w v|w e]; cbn [step item_of] in *;
      destruct (workers p !! w) as [[i|]|] eqn:Hw; cbn [mjoin option_join] in *; try done; (eapply IH; [|done]).
    + by apply resolve_inv.
    + by eapply reject_inv.
Qed.

Lemma length_omap_le (ws : list (option nat)) : (length (omap id ws) <= length ws)%nat.
Proof. induction ws as [|[x|] ws IH]; cbn in *; unfold omap in *; lia. Qed.

Lemma busy_workers (ws : list (option nat)) : None ∉ ws -> length (omap id ws) = length ws.
Proof.
  induction ws as [|[x|] ws IH]; intros H; [done| |set_solver].
  change (S (length (omap id ws)) = S (length ws)). f_equal. apply IH. set_solver.
Qed.

Lemma none_dec (ws : list (option nat)) : {None ∈ ws} + {None ∉ ws}.
Proof. apply (decide (None ∈ ws)). Defined.

(** Without a failure the workers are as busy as the remaining items allow. *)
Lemma inv_in_flight n k settled got p :
  inv n k settled got p -> failure p = None -> length (in_flight p) = Nat.min k (n - settled).
Proof.
  intros I Hf. pose proof (length_omap_le (workers p)) as L. fold (in_flight p) in L.
  rewrite (inv_workers _ _ _ _ _ I) in L. pose proof (inv_count _ _ _ _ _ I). pose proof (inv_next _ _ _ _ _ I).
  destruct (none_dec (workers p)) as [H1|H1].
  - pose proof (inv_idle _ _ _ _ _ I Hf H1). lia.
  - pose proof (busy_workers _ H1) as H2. fold (in_flight p) in H2. rewrite (inv_workers _ _ _ _ _ I) in H2. lia.
Qed.

Lemma promise_pending p : failure p = None -> promise p = None <-> in_flight p <> [].
Proof. intros Hf. unfold promise. rewrite Hf. by destruct (in_flight p). Qed.

(** Every mapper of the run settles with the value of [f] on its item. *)
Fixpoint honest (f : A -> nat -> B) (items : list A) (p : pool) (evs : list event) : Prop :=
  match evs with
  | [] => True
  | ev :: r =>
      match ev, item_of p ev, step (length items) p ev with
      | Resolved _ v, Some i, Some q => (fun a => f a i) <$> items !! i = Some v /\ honest f items q r
      | _, _, _ => False
      end
  end.

Lemma honest_exec f items evs : forall p got,
  honest f items p evs -> failure p = None ->
  (forall i v, got i = Some v -> exists a, items !! i = Some a /\ v = f a i) ->
  exists q, exec (length items) p evs = Some q /\ failure q = None /\
    forall i v, answers (length items) p got evs i = Some v -> exists a, items !! i = Some a /\ v = f a i.
Proof.
  induction evs as [|ev evs IH]; intros p got H Hf Hg; cbn [honest exec answers] in *; [by eauto|].
  destruct ev as [w v|]; [|done]. destruct (item_of p (Resolved w v)) as [i|] eqn:Ei; [|done].
  destruct (step (length items) p (Resolved w v)) as [q|] eqn:Es; [|done]. destruct H as [Hv H].
  apply IH; [done| |].
  - cbn [step] in Es. destruct (workers p !! w) as [[j|]|]; simplify_eq. unfold take_next. cbn [nextIndex].
    by destruct (nextIndex p <? length items)%nat.
  - intros j x. unfold got_after. destruct (decide (j = i)) as [->|]; [|apply Hg]. intros [= ->].
    destruct (items !! i) as [a|]; [|done]. exists a. split; [done|]. by injection Hv.
Qed.

Lemma all_answered items got :
  (forall i, (i < length items)%nat -> got i <> None) -> forall rs : list (option B), length rs = length items ->
  (forall i, (i < length items)%nat -> rs !! i = Some (got i)) -> forall f : A -> nat -> B,
  (forall i v, got i = Some v -> exists a, items !! i = Some a /\ v = f a i) ->
  rs = Some <$> imap (fun i a => f a i) items.
Proof.
  intros Hall rs Hl Hr f Hv. apply list_eq. intros i. rewrite list_lookup_fmap, list_lookup_imap.
  destruct (items !! i) as [a|] eqn:E.
  - assert (Hi : (i < length items)%nat) by (by eapply lookup_lt_Some). rewrite Hr by done.
    destruct (got i) as [v|] eqn:Eg; [|by destruct (Hall i Hi)]. destruct (Hv i v Eg) as (a' & E' & ->).
    by simplify_eq/=.
  - simpl. apply lookup_ge_None_2. apply lookup_ge_None_1 in E. lia.
Qed.
End Pool.
End Pool.

(** An honest run with one event per item fulfils the promise with the values. *)
Lemma pool_map {A B Err : Type} (f : A -> nat -> B) (items : list A) (limit : nat)
    (evs : list (Pool.event (B := B) (Err := Err))) :
  Pool.honest f items (Pool.start items limit) evs -> length evs = length items ->
  exists q, Pool.exec (length items) (Pool.start items limit) evs = Some q /\
    Pool.promise q = Some (Ret (Some <$> imap (fun i a => f a i) items)).
Proof.
  intros H Hl. pose proof (Pool.start_inv (B := B) (Err := Err) items limit) as I.
  destruct (Pool.honest_exec f items evs _ (fun _ => None) H) as (q & E & Hf & Hv); [by rewrite Pool.start_closed|done|].
  exists q. split; [done|]. pose proof (Pool.exec_inv _ _ _ _ _ _ _ I E) as J.
  pose proof (Pool.inv_in_flight _ _ _ _ _ J Hf) as L. rewrite Hl, Nat.add_0_l, Nat.sub_diag, Nat.min_0_r in L.
  apply nil_length_inv in L. unfold Pool.promise. rewrite Hf, L. do 2 f_equal.
  pose proof (Pool.inv_count _ _ _ _ _ J) as Hc. rewrite L in Hc. simpl in Hc.
  eapply Pool.all_answered; [|apply J|apply J|exact Hv].
  intros i Hi. apply (Pool.inv_done _ _ _ _ _ J Hf); [lia|]. rewrite L. set_solver.
Qed.

(** C7: The pool computes [items.map]: when the mapper's promises settle, in any order, with
    the values of [f], the pool's promise is fulfilled after the last of them with the
    list of those values in the order of the items. *)
Theorem pool_computes_map {A B Err : Type} (f : A -> nat -> B) (items : list A) (limit : nat)
    (evs : list (Pool.event (B := B) (Err := Err))) :
  Pool.honest f items (Pool.start items limit) evs -> length evs = length items ->
  exists q, Pool.exec (length items) (Pool.start items limit) evs = Some q /\
    Pool.promise q = Some (Ret (Some <$> imap (fun i a => f a i) items)).
Proof. intros H Hl. destruct (pool_map f items limit evs H Hl) as (q & E & P). by exists q. Qed.

(** C38: The pool terminates and is bounded: in every run at most [length items] promises of
    mappers settle, so every run is finite; no two workers have the same item, and at most
    [max(1, limit)] mappers are in flight. As long as none was rejected, exactly
    [min(workers, remaining items)] mappers are in flight and the promise of the pool is
    pending exactly while some item is missing: it can always go on until every mapper has
    answered, and settles then. *)
Theorem pool_terminates {A B Err : Type} (items : list A) (limit : nat)
    (evs : list (Pool.event (B := B) (Err := Err))) (q : Pool.pool) :
  Pool.exec (length items) (Pool.start items limit) evs = Some q ->
  (length evs <= length items)%nat /\
  (length (Pool.in_flight q) <= Nat.max 1 limit)%nat /\ NoDup (Pool.in_flight q) /\
  (Pool.failure q = None ->
   length (Pool.in_flight q) = Nat.min (Pool.workerCount items limit) (length items - length evs) /\
   (Pool.promise q = None <-> (length evs < length items)%nat)).
Proof.
  intros E. pose proof (Pool.exec_inv _ _ _ _ _ _ _ (Pool.start_inv items limit) E) as J. rewrite Nat.add_0_l in J.
  pose proof (Pool.inv_count _ _ _ _ _ J). pose proof (Pool.inv_next _ _ _ _ _ J).
  pose proof (Pool.length_omap_le (Pool.workers q)) as L. fold (Pool.in_flight q) in L.
  rewrite (Pool.inv_workers _ _ _ _ _ J) in L.
  split_and!; [lia|unfold Pool.workerCount in L; lia|apply J|].
  intros Hf. pose proof (Pool.inv_in_flight _ _ _ _ _ J Hf) as F. split; [done|].
  rewrite Pool.promise_pending by done. rewrite <- length_zero_iff_nil, F. unfold Pool.workerCount. lia.
Qed.

(** Three items, two workers: the second mapper answers first. *)
Definition pool_trace : list (Pool.event (B := nat) (Err := unit)) :=
  [Pool.Resolved 1 25; Pool.Resolved 1 37; Pool.Resolved 0 13]%nat.

Lemma pool_computes_map_witness :
  Pool.honest (fun a i => a + i)%nat [13; 24; 35]%nat (Pool.start [13; 24; 35]%nat 2) pool_trace /\
  exists q, Pool.exec 3 (Pool.start [13; 24; 35]%nat 2) pool_trace = Some q /\
    Pool.promise q = Some (Ret [Some 13; Some 25; Some 37]%nat).
Proof.
  assert (H : Pool.honest (fun a i => a + i)%nat [13; 24; 35]%nat (Pool.start [13; 24; 35]%nat 2) pool_trace).
  { vm_compute. repeat split. }
  split; [exact H|]. exact (pool_computes_map (fun a i => a + i)%nat [13; 24; 35]%nat 2 pool_trace H eq_refl).
Defined.

Lemma pool_terminates_witness :
  exists q, Pool.exec 3 (Pool.start [13; 24; 35]%nat 2) (take 1 pool_trace) = Some q /\
    length (Pool.in_flight q) = 2%nat /\ Pool.promise q = None.
Proof.
  eexists. split; [vm_compute; reflexivity|].
  destruct (pool_terminates [13; 24; 35]%nat 2 (take 1 pool_trace) _ eq_refl) as (_ & _ & _ & H).
  destruct (H eq_refl) as [H1 H2]. split; [exact H1|]. apply H2. simpl. lia.
Defined.

(** ** Endpoints and the probe for a local node *)

Module Probe.
Section Probe.
(** [new URL(value, base).href] and [new URL(value).protocol], [None] when the constructor
    throws; [String] of a fraction; [window.location]. *)
Context (url_href : jsstring -> jsstring -> option jsstring) (url_protocol : jsstring -> option jsstring)
  (show_frac : Q -> jsstring) (origin hostname : jsstring).

(** [s.replace(/\/$/, '')] *)
Definition strip_slash (s : jsstring) : jsstring :=
  match reverse s with c :: r => if (c =? 47)%N then reverse r else s | [] => [] end.

(** [/^https?:$/i.test(p)] *)
Definition http_protocol (p : jsstring) : bool :=
  let l := ascii_lower <$> p in seqb l (js "http:") || seqb l (js "https:").

(** [addMeshEndpoint(value)] *)
Definition addMeshEndpoint (value : jsval) (meshEndpoints : list jsstring) : list jsstring :=
  if vtruthy value then
    match url_href (to_str show_frac value) origin with
    | None => meshEndpoints
    | Some href =>
        let endpoint := strip_slash href in
        match url_protocol endpoint with
        | None => meshEndpoints
        | Some p =>
            if http_protocol p then
              if bool_decide (endpoint ∈ meshEndpoints) then meshEndpoints else meshEndpoints ++ [endpoint]
            else meshEndpoints
        end
    end
  else meshEndpoints.

(** [!node || node.is_online === false || node.status === 'offline'] *)
Definition node_skipped (node : jsval) : bool :=
  negb (vtruthy node)
  || match prop node (js "is_online") with VBool false => true | _ => false end
  || match prop node (js "status") with VStr s => seqb s (js "offline") | _ => false end.

Definition node_address (node : jsval) : jsval :=
  vor (prop node (js "remote_url")) (vor (prop node (js "endpoint")) (vor (prop node (js "node_url")) (prop node (js "url")))).

Definition add_node (l : list jsstring) (node : jsval) : list jsstring :=
  if node_skipped node then l else addMeshEndpoint (node_address node) l.

(** [Array.isArray(payload && payload.nodes) ? payload.nodes : []] *)
Definition nodes_of (payload : jsval) : list jsval :=
  if vtruthy payload then array_or_nil (prop payload (js "nodes")) else [].

Definition paths : list jsstring := [js "/api/v1/mesh/fleet"; js "/api/portal/fleet"].
Definition candidates : list jsstring := [js "http://127.0.0.1:8080"; js "http://localhost:8080"].

(** The awaits of [probeLocalNode]: the answer of a candidate, of a fleet address of
    [discoverFleetEndpoints]; [Finished] when the shared promise is fulfilled. *)
Inductive phase : Type :=
| Candidate (i : nat)
| Fleet (i : nat)
| Finished.

Record probe := MkProbe {
  localNodeChecked : bool;
  localNodeCheckingPromise : option phase;
  localNodeEndpoint : option jsstring;
  meshEndpoints : list jsstring;
  sent : list jsstring;
}.

Definition probe0 : probe := MkProbe false None None [] [].

Definition ask_fleet (i : nat) (p : probe) : probe :=
  match paths !! i with
  | Some path => MkProbe false (Some (Fleet i)) (localNodeEndpoint p) (meshEndpoints p) (sent p ++ [path])
  | None => MkProbe true (Some Finished) (localNodeEndpoint p) (meshEndpoints p) (sent p)
  end.

Definition ask_candidate (i : nat) (p : probe) : probe :=
  match candidates !! i with
  | Some c => MkProbe false (Some (Candidate i)) (localNodeEndpoint p) (meshEndpoints p) (sent p ++ [c ++ js "/webui/props"])
  | None => ask_fleet 0 p
  end.

(** [window.location.hostname === '127.0.0.1' || ... === 'localhost'] *)
Definition isLocalHost : bool := seqb hostname (js "127.0.0.1") || seqb hostname (js "localhost").

(** [probeLocalNode()] up to its first [await]. *)
Definition probeLocalNode (p : probe) : probe :=
  if localNodeChecked p then p
  else match localNodeCheckingPromise p with
       | Some _ => p
       | None =>
           if isLocalHost
           then MkProbe true (Some Finished) (Some origin) (addMeshEndpoint (VStr origin) (meshEndpoints p)) (sent p)
           else ask_candidate 0 p
       end.

(** The answer of a candidate: [true] for [resp.ok], [false] for another response, an
    exception or the time-out of 600 ms. *)
Definition on_candidate (ok : bool) (p : probe) : probe :=
  match localNodeCheckingPromise p with
  | Some (Candidate i) =>
      let candidate := default [] (candidates !! i) in
      if ok
      then ask_fleet 0 (MkProbe false (Some (Candidate i)) (Some candidate)
                          (addMeshEndpoint (VStr candidate) (meshEndpoints p)) (sent p))
      else ask_candidate (S i) p
  | _ => p
  end.

(** The answer of a fleet address: the JSON body, [null] for a response that is not [ok],
    [None] for an exception or the time-out. *)
Definition on_fleet (payload : option jsval) (p : probe) : probe :=
  match localNodeCheckingPromise p with
  | Some (Fleet i) =>
      let l := match payload with
               | Some v => fold_left add_node (nodes_of v) (meshEndpoints p)
               | None => meshEndpoints p
               end in
      ask_fleet (S i) (MkProbe false (Some (Fleet i)) (localNodeEndpoint p) l (sent p))
  | _ => p
  end.

Inductive event : Type :=
| Call
| CandidateReply (ok : bool)
| FleetReply (payload : option jsval).

Definition step (p : probe) (e : event) : probe :=
  match e with
  | Call => probeLocalNode p
  | CandidateReply ok => on_candidate ok p
  | FleetReply v => on_fleet v p
  end.

Definition exec (evs : list event) : probe := fold_left step evs probe0.

(** ** Invariants *)

(** An address the list may hold: absolute, over HTTP, without a final slash added. *)
Definition good_endpoint (e : jsstring) : Prop :=
  exists p, url_protocol e = Some p /\ http_protocol p = true.

Definition good_list (l : list jsstring) : Prop := NoDup l /\ Forall good_endpoint l.

Lemma add_good v l : good_list l -> good_list (addMeshEndpoint v l).
Proof.
  intros [Hn Hg]. unfold addMeshEndpoint. destruct (vtruthy v); [|done].
  destruct (url_href _ _) as [href|]; [|done]. cbv zeta. destruct (url_protocol _) as [p|] eqn:Ep; [|done].
  destruct (http_protocol p) eqn:Eh; [|done]. destruct (bool_decide _) eqn:Eb; [done|]. bool_norm. split.
  - apply NoDup_app. split_and!; [done|set_solver|apply NoDup_singleton].
  - apply Forall_app. split; [done|]. apply Forall_singleton. by exists p.
Qed.

Lemma add_prefix v l : l `prefix_of` addMeshEndpoint v l.
Proof.
  unfold addMeshEndpoint. repeat split_match; try done; by eexists.
Qed.

Lemma nodes_good nodes l : good_list l -> good_list (fold_left add_node nodes l).
Proof.
  revert l. induction nodes as [|n nodes IH]; intros l H; [done|]. apply IH. unfold add_node.
  destruct (node_skipped n); [done|by apply add_good].
Qed.

(** The requests of a probe in a given phase: a candidate prefix, then a fleet prefix. *)
Definition sent_ok (ph : option phase) (l : list jsstring) : Prop :=
  match ph with
  | None => l = []
  | Some (Candidate i) => l = (fun c => c ++ js "/webui/props") <$> take (S i) candidates /\ (i < 2)%nat
  | Some (Fleet i) => exists j, (j <= 2)%nat /\ (i < 2)%nat /\
      l = ((fun c => c ++ js "/webui/props") <$> take j candidates) ++ take (S i) paths
  | Some Finished => l = [] \/ exists j, (j <= 2)%nat /\
      l = ((fun c => c ++ js "/webui/props") <$> take j candidates) ++ paths
  end.

Record probe_ok (p : probe) : Prop := {
  ok_checked : localNodeChecked p = true <-> localNodeCheckingPromise p = Some Finished;
  ok_sent : sent_ok (localNodeCheckingPromise p) (sent p);
  ok_list : good_list (meshEndpoints p);
  ok_endpoint : forall e, localNodeEndpoint p = Some e -> e ∈ candidates \/ e = origin;
}.

Definition endpoint_ok (o : option jsstring) : Prop := forall e, o = Some e -> e ∈ candidates \/ e = origin.

Definition props_urls (j : nat) : list jsstring := (fun c => c ++ js "/webui/props") <$> take j candidates.

Lemma ask_fleet_ok i j p : (i <= 2)%nat -> (j <= 2)%nat ->
  sent p = props_urls j ++ take i paths -> good_list (meshEndpoints p) -> endpoint_ok (localNodeEndpoint p) ->
  probe_ok (ask_fleet i p).
Proof.
  intros Hi Hj Hs Hg He. unfold ask_fleet. destruct i as [|[|[|i]]]; [| | |lia]; cbn [lookup list_lookup paths];
    constructor; cbn [localNodeChecked localNodeCheckingPromise localNodeEndpoint meshEndpoints sent]; try done.
  - exists j. rewrite Hs. cbn [take]. rewrite app_nil_r. split_and!; [done|lia|done].
  - exists j. rewrite Hs. cbn [take]. rewrite <- app_assoc. split_and!; [done|lia|done].
  - right. exists j. rewrite Hs. done.
Qed.

Lemma ask_candidate_ok i p : (i <= 2)%nat ->
  sent p = props_urls i -> good_list (meshEndpoints p) -> endpoint_ok (localNodeEndpoint p) ->
  probe_ok (ask_candidate i p).
Proof.
  intros Hi Hs Hg He. unfold ask_candidate. destruct i as [|[|[|i]]]; [| | |lia]; cbn [lookup list_lookup candidates].
  3: { apply (ask_fleet_ok 0 2); [lia..| |done|done]. by rewrite Hs, app_nil_r. }
  all: constructor; cbn [localNodeChecked localNodeCheckingPromise localNodeEndpoint meshEndpoints sent]; try done;
    rewrite Hs; (split; [reflexivity|lia]).
Qed.

Lemma endpoint_candidate i : (i < 2)%nat -> endpoint_ok (Some (default [] (candidates !! i))).
Proof. intros Hi e [= <-]. left. destruct i as [|[|i]]; [left|right; left|lia]. Qed.

Lemma step_ok p e : probe_ok p -> probe_ok (step p e).
Proof.
  intros [Hc Hs Hl He]. destruct e as [|ok|v]; cbn [step].
  - unfold probeLocalNode. destruct (localNodeChecked p) eqn:Ec; [by constructor; rewrite ?Ec|].
    destruct (localNodeCheckingPromise p) as [ph|] eqn:Ep; [by constructor; rewrite ?Ec, ?Ep|].
    cbn [sent_ok] in Hs. destruct isLocalHost.
    + constructor; cbn [localNodeChecked localNodeCheckingPromise localNodeEndpoint meshEndpoints sent]; [done| | |].
      * by left.
      * by apply add_good.
      * intros e [= <-]. by right.
    + by apply ask_candidate_ok; [lia|..].
  - unfold on_candidate. destruct (localNodeCheckingPromise p) as [[i| |]|] eqn:Ep; try by constructor; rewrite ?Ep.
    destruct Hs as [Hs Hi]. cbv zeta. destruct ok.
    + apply (ask_fleet_ok 0 (S i)); [lia..| | |]; cbn [localNodeEndpoint meshEndpoints sent].
      * rewrite Hs. cbn [take]. by rewrite app_nil_r.
      * by apply add_good.
      * by apply endpoint_candidate.
    + apply ask_candidate_ok; [lia|done..].
  - unfold on_fleet. destruct (localNodeCheckingPromise p) as [[|i|]|] eqn:Ep; try by constructor; rewrite ?Ep.
    destruct Hs as (j & Hj & Hi & Hs). cbv zeta. apply (ask_fleet_ok (S i) j); [lia..|done| |done].
    cbn [meshEndpoints]. destruct v; [by apply nodes_good|done].
Qed.

Lemma exec_ok evs : probe_ok (exec evs).
Proof.
  unfold exec. assert (H0 : probe_ok probe0).
  { constructor; cbn; try done. split; [constructor|done]. }
  revert H0. generalize probe0. induction evs as [|e evs IH]; intros p H; [done|]. by apply IH, step_ok.
Qed.

Lemma sent_ok_bounded ph l : sent_ok ph l -> NoDup l /\ l ⊆ props_urls 2 ++ paths.
Proof.
  assert (Main : forall i j, (i <= 2)%nat -> (j <= 2)%nat ->
    NoDup (props_urls j ++ take i paths) /\ props_urls j ++ take i paths ⊆ props_urls 2 ++ paths).
  { intros i j Hi Hj. split.
    - destruct i as [|[|[|]]], j as [|[|[|]]]; try lia; apply (bool_decide_unpack _); vm_compute; done.
    - unfold props_urls. intros x. rewrite !elem_of_app. intros [H|H]; [left|right].
      + apply list_elem_of_fmap in H as (c & -> & Hc). apply list_elem_of_fmap. exists c. split; [done|].
        rewrite take_ge by (simpl; lia). eapply elem_of_take in Hc as (? & Hc & _). by eapply list_elem_of_lookup_2.
      + eapply elem_of_take in H as (? & H & _). by eapply list_elem_of_lookup_2. }
  destruct ph as [[i|i|]|]; cbn [sent_ok].
  - intros [-> Hi]. specialize (Main 0 (S i))%nat. cbn [take] in Main. rewrite app_nil_r in Main. apply Main; lia.
  - intros (j & Hj & Hi & ->). apply Main; lia.
  - intros [->|(j & Hj & ->)]; [split; [constructor|set_solver]|]. by apply (Main 2 j)%nat.
  - intros ->. split; [constructor|set_solver].
Qed.

(** Replies that are still needed. *)
Definition remaining (p : probe) : nat :=
  match localNodeCheckingPromise p with
  | None => 4 | Some (Candidate i) => 4 - i | Some (Fleet i) => 2 - i | Some Finished => 0
  end.

(** The reply a probe waits for. *)
Definition awaited (p : probe) (e : event) : Prop :=
  match localNodeCheckingPromise p, e with
  | Some (Candidate _), CandidateReply _ | Some (Fleet _), FleetReply _ => True
  | _, _ => False
  end.

Lemma awaited_decreases p e : probe_ok p -> awaited p e -> (remaining (step p e) < remaining p)%nat.
Proof.
  intros [_ Hs _ _] Ha. unfold awaited in Ha.
  destruct (localNodeCheckingPromise p) as [[i|i|]|] eqn:Ep; [| |done|done]; destruct e as [|ok|v]; try done;
    cbn [step]; unfold remaining at 2; rewrite Ep.
  - destruct Hs as [_ Hi]. unfold on_candidate. rewrite Ep. cbv zeta. destruct i as [|[|]], ok; try lia; cbn; lia.
  - destruct Hs as (_ & _ & Hi & _). unfold on_fleet. rewrite Ep. cbv zeta. destruct i as [|[|]]; try lia; cbn; lia.
Qed.

End Probe.
End Probe.

(** The probe for a local node runs once: however many callers there are and however its
    requests end, every address is asked at most once and only the two loopback
    addresses and the two fleet addresses are; the list of mesh endpoints holds distinct
    HTTP addresses; the discovered endpoint is a loopback candidate or the page's own
    origin; every awaited answer brings the probe closer to its end, at most four are
    needed, and after the end no call sends anything. *)
Theorem probe_runs_once (url_href : jsstring -> jsstring -> option jsstring) (url_protocol : jsstring -> option jsstring)
    (show_frac : Q -> jsstring) (origin hostname : jsstring) (evs : list Probe.event) :
  let p := Probe.exec url_href url_protocol show_frac origin hostname evs in
  NoDup (Probe.sent p) /\ Probe.sent p ⊆ Probe.props_urls 2 ++ Probe.paths /\
  NoDup (Probe.meshEndpoints p) /\ Forall (Probe.good_endpoint url_protocol) (Probe.meshEndpoints p) /\
  (forall e, Probe.localNodeEndpoint p = Some e -> e ∈ Probe.candidates \/ e = origin) /\
  (Probe.remaining p <= 4)%nat /\
  (forall e, Probe.awaited p e ->
     (Probe.remaining (Probe.step url_href url_protocol show_frac origin hostname p e) < Probe.remaining p)%nat) /\
  (Probe.remaining p = 0%nat -> Probe.localNodeChecked p = true /\
     forall e, Probe.step url_href url_protocol show_frac origin hostname p e = p).
Proof.
  intros p. pose proof (Probe.exec_ok url_href url_protocol show_frac origin hostname evs) as H. fold p in H.
  destruct (Probe.sent_ok_bounded _ _ (Probe.ok_sent _ _ _ H)) as [Hn Hs].
  destruct (Probe.ok_list _ _ _ H) as [Hl Hg].
  split_and!; [done..| | |intros e He; by eapply Probe.awaited_decreases|].
  - apply H.
  - unfold Probe.remaining. destruct (Probe.localNodeCheckingPromise p) as [[]|]; lia.
  - intros E. pose proof (Probe.ok_checked _ _ _ H) as Hc. pose proof (Probe.ok_sent _ _ _ H) as Hso.
    unfold Probe.remaining in E.
    destruct (Probe.localNodeCheckingPromise p) as [[i|i|]|] eqn:Ep; cbn [Probe.sent_ok] in Hso; [| |clear E|done].
    + destruct Hso as [_ ?]. lia.
    + destruct Hso as (? & ? & ? & _). lia.
    + assert (Probe.localNodeChecked p = true) as Ec by (by apply Hc). split; [done|].
      intros [| |]; cbn [Probe.step]; unfold Probe.probeLocalNode, Probe.on_candidate, Probe.on_fleet; by rewrite ?Ec, ?Ep.
Qed.

(** Two callers, no node on the first address, one on the second; the fleet lists a node. *)
Example probe_example :
  let p := Probe.exec (fun v _ => Some v) (fun _ => Some (js "https:")) (fun _ => []) (js "https://mesh.example") (js "mesh.example")
    [Probe.Call; Probe.Call; Probe.CandidateReply false; Probe.Call; Probe.CandidateReply true;
     Probe.FleetReply (Some (VObj [(js "nodes", VArr [VObj [(js "url", VStr (js "https://a.example/"))];
       VObj [(js "url", VStr (js "https://b.example")); (js "status", VStr (js "offline"))]; VNull])]));
     Probe.FleetReply None; Probe.Call] in
  Probe.localNodeEndpoint p = Some (js "http://localhost:8080") /\
  Probe.meshEndpoints p = [js "http://localhost:8080"; js "https://a.example"] /\
  Probe.remaining p = 0%nat /\ length (Probe.sent p) = 4%nat.
Proof. vm_compute. done. Qed.
