(* ===== verification/ImageFit.v ===== *)
(** * Fitting images into a chat request (webui/model-selector.js)

    [optimizeImageFile], which re-encodes a picture until it is small enough,
    [installImageUploadOptimization]'s budget, [findImageDataUrls] and [fitChatBody], which
    shrinks the pictures of a request body below the limits of the gateway.  The browser's
    image decoder, canvas encoder and file reader are parameters. *)
From Stdlib Require Import Lia NArith ZArith QArith Qround Qreduction Lqa.
From stdpp Require Import base numbers list gmap strings.
From S2P Require Import Prelude JsString JsNumber JsValue JsJson JsonRoundTrip.

(** ** Limits *)

Definition uploadLimitBytes : Z := 5 * 1024 * 1024.
Definition maxChatRequestBytes : Z := 9 * 1024 * 1024.
Definition gatewayRequestLimitBytes : Z := 10 * 1024 * 1024.
Definition maxImageEdge : Z := 1600.

(** [Math.round(x)] *)
Definition math_round (x : Q) : Z := Qfloor (x + (1 # 2)).

(** Decimal literals of the source as doubles. *)
Definition lit84 : Q := fl64 (84 # 100).
Definition lit82 : Q := fl64 (82 # 100).
Definition lit78 : Q := fl64 (78 # 100).
Definition lit74 : Q := fl64 (74 # 100).
Definition lit72 : Q := fl64 (72 # 100).
Definition lit56 : Q := fl64 (56 # 100).
Definition lit10 : Q := fl64 (1 # 10).

(** ** One picture *)

Inductive output : Type := Png | Jpeg.

Record file := File { f_type : jsstring; f_size : Z; f_name : jsstring; f_data : jsstring }.
Record blob := Blob { b_size : Z; b_data : jsstring }.

(** [file.type && file.type.startsWith('image/') && !/image\/(gif|svg\+xml)/i.test(file.type)] *)
Fixpoint includes_ci (p s : jsstring) : bool :=
  starts_with_ci p s || match s with [] => false | _ :: r => includes_ci p r end.

Definition is_image (type : jsstring) : bool := truthy type && starts_with (js "image/") type.
Definition compressible (type : jsstring) : bool :=
  is_image type && negb (includes_ci (js "image/gif") type || includes_ci (js "image/svg+xml") type).

Section Optimize.
(** [createImageBitmap] (the size of the picture, [None] when it is missing or rejects),
    [canvas.getContext], and [canvas.toBlob] at a size, a type and a quality. *)
Context (bitmap : file -> option (positive * positive)) (context2d : bool)
  (toBlob : file -> Z -> Z -> output -> option Q -> option blob).

Definition outputType (f : file) : output := if seqb (f_type f) (js "image/png") then Png else Jpeg.

(** The values of the loop variables of one attempt. *)
Record attempt := Attempt { width : Z; height : Z; quality : Q }.

Definition encode (f : file) (a : attempt) : option blob :=
  let t := outputType f in
  toBlob f (width a) (height a) t (match t with Jpeg => Some (quality a) | Png => None end).

(** [if (outputType === 'image/jpeg' && quality > 0.56) ... else ...] *)
Definition next_attempt (t : output) (a : attempt) : attempt :=
  if match t with Jpeg => Qltb lit56 (quality a) | Png => false end
  then Attempt (width a) (height a) (Qmax2 lit56 (fl64 (quality a - lit10)))
  else Attempt (Z.max 1 (math_round (fl64 (inject_Z (width a) * lit78))))
               (Z.max 1 (math_round (fl64 (inject_Z (height a) * lit78)))) lit82.

(** The loop; it returns the last blob and the attempts it encoded. *)
Fixpoint attempts (n : nat) (f : file) (maxOutputBytes : Z) (a : attempt) : option blob * list attempt :=
  match n with
  | O => (None, [])
  | S m =>
      let b := encode f a in
      let stop := match b with Some x => (b_size x <=? maxOutputBytes)%Z | None => true end in
      if stop then (b, [a])
      else match m with
           | O => (b, [a])
           | _ => let '(b', l) := attempts m f maxOutputBytes (next_attempt (outputType f) a) in (b', a :: l)
           end
  end.

(** [Math.min(1, maxImageEdge / longestEdge)] *)
Definition scale (longest : Z) : Q := Qmin2 1 (fl64 (inject_Z maxImageEdge / inject_Z longest)).

Definition scaled (edge longest : Z) : Z := Z.max 1 (math_round (fl64 (inject_Z edge * scale longest))).

Definition first_attempt (w h : positive) : attempt :=
  let longest := Z.max (Zpos w) (Zpos h) in Attempt (scaled (Zpos w) longest) (scaled (Zpos h) longest) lit84.

(** [file.name.replace(/\.[^.]+$/, '')] *)
Definition base_name (s : jsstring) : jsstring :=
  let r := reverse s in
  let ext := (fix go l := match l with c :: t => if (c =? 46)%N then [] else c :: go t | [] => [] end) r in
  match drop (length ext) r with
  | _ :: rest => match ext with [] => s | _ => reverse rest end
  | [] => s
  end.

(** [optimizeImageFile(file, maxOutputBytes)] *)
Definition optimizeImageFile (f : file) (maxOutputBytes : Z) : file :=
  if negb (compressible (f_type f)) then f
  else match bitmap f with
       | None => f
       | Some (w, h) =>
           let longestEdge := Z.max (Zpos w) (Zpos h) in
           if (longestEdge <=? maxImageEdge)%Z && (f_size f <=? maxOutputBytes)%Z then f
           else if negb context2d then f
           else match (attempts 12 f maxOutputBytes (first_attempt w h)).1 with
                | None => f
                | Some b =>
                    if (maxOutputBytes <? b_size b)%Z then f
                    else let t := outputType f in
                         File (match t with Png => js "image/png" | Jpeg => js "image/jpeg" end) (b_size b)
                           (base_name (f_name f) ++ match t with Png => js ".png" | Jpeg => js ".jpg" end)%list (b_data b)
                end
       end.

End Optimize.

(** ** Bounds of the attempts *)

Lemma round_even_half q : (inject_Z (round_even q) <= q + (1 # 2))%Q.
Proof.
  pose proof (Qfloor_le q) as H. pose proof (Qlt_floor q) as H2. rewrite inject_Z_plus in H2. change (inject_Z 1) with 1%Q in H2.
  unfold round_even. split_ifs; q_norm; rewrite ?inject_Z_plus; change (inject_Z 1) with 1%Q; lra.
Qed.

(** The rounding error of a normal number is at most one part in [2 ^ 52]. *)
Lemma fl64_upper x : (pow2 (-1000) <= x)%Q -> (fl64 x <= x + x * pow2 (-52))%Q.
Proof.
  intros Hx. pose proof (pow2_pos (-1000)) as Hp. assert (H0 : (0 < x)%Q) by lra.
  assert (E : fl64 x = fl64_pos x).
  { unfold fl64. replace (Qeqb x 0) with false; [replace (Qltb 0 x) with true; [done|]|].
    - symmetry. by apply Qltb_lt.
    - symmetry. apply not_true_iff_false. rewrite Qeqb_eq. lra. }
  rewrite E, fl64_pos_eq. destruct (expo_spec x H0) as [H1 H2].
  assert (He : (-1001 < expo x)%Z).
  { destruct (Z.le_gt_cases (expo x) (-1001)) as [Hle|]; [|lia]. exfalso.
    assert (pow2 (expo x + 1) <= pow2 (-1000))%Q by (apply pow2_mono; lia). lra. }
  assert (Eu : ulp_expo x = (expo x - 52)%Z) by (unfold ulp_expo; lia). rewrite Eu.
  pose proof (round_even_half (x * pow2 (- (expo x - 52)))) as Hr. pose proof (pow2_pos (expo x - 52)) as Hu.
  apply (Qmult_le_r _ _ _ Hu) in Hr. rewrite Qmult_plus_distr_l, <- Qmult_assoc in Hr.
  rewrite (Qmult_comm (pow2 (- (expo x - 52)))), pow2_inv, Qmult_1_r in Hr.
  assert (Hv : (pow2 (expo x - 52) <= x * pow2 (-52))%Q).
  { unfold Z.sub. rewrite pow2_plus. change (- 52)%Z with (-52)%Z. apply Qmult_le_compat_r; [done|]. apply Qlt_le_weak, pow2_pos. }
  lra.
Qed.

Lemma math_round_le x z : (x < inject_Z z + (1 # 2))%Q -> (math_round x <= z)%Z.
Proof.
  intros H. unfold math_round. destruct (Z.le_gt_cases (Qfloor (x + (1 # 2))) z) as [|Hgt]; [done|exfalso].
  pose proof (Qfloor_le (x + (1 # 2))) as Hf. assert (Hz : (inject_Z (z + 1) <= inject_Z (Qfloor (x + (1 # 2))))%Q).
  { rewrite <- Zle_Qle. lia. }
  rewrite inject_Z_plus in Hz. change (inject_Z 1) with 1%Q in Hz. lra.
Qed.

Lemma scaled_bounds (edge longest : Z) :
  (0 < edge <= longest)%Z -> (longest <= 2 ^ 32)%Z -> (1 <= scaled edge longest <= maxImageEdge)%Z.
Proof.
  intros [He Hl] Hb. unfold scaled. split; [lia|]. apply Z.max_lub; [done|]. apply math_round_le.
  set (L := inject_Z longest). set (w := inject_Z edge).
  assert (HL : (0 < L)%Q) by (unfold L; change 0%Q with (inject_Z 0); rewrite <- Zlt_Qlt; lia).
  assert (Hw0 : (0 < w)%Q /\ (w <= L)%Q).
  { unfold w, L. change 0%Q with (inject_Z 0). rewrite <- Zlt_Qlt, <- Zle_Qle. lia. }
  destruct Hw0 as [Hw HwL].
  assert (HLb : (L <= inject_Z (2 ^ 32))%Q) by (unfold L; rewrite <- Zle_Qle; lia).
  set (x := (inject_Z maxImageEdge / L)%Q). assert (Ex : (x * L == 1600)%Q) by (unfold x; rewrite Qmult_comm; apply (Qmult_div_r 1600 L); lra).
  assert (Hx : (pow2 (-1000) <= x)%Q).
  { assert (H1 : (1 # 10000000 <= x)%Q).
    { apply Qle_shift_div_l; [done|]. change (inject_Z maxImageEdge) with 1600%Q. change (inject_Z (2 ^ 32)) with 4294967296%Q in HLb. lra. }
    assert (H2 : (pow2 (-1000) <= pow2 (-30))%Q) by (apply pow2_mono; lia). assert (H3 : (pow2 (-30) <= 1 # 10000000)%Q) by (vm_compute; discriminate). lra. }
  pose proof (fl64_upper x Hx) as Hf.
  assert (Hs : (scale longest <= x + x * pow2 (-52))%Q).
  { unfold scale, Qmin2. fold L. fold x. destruct (Qleb 1 (fl64 x)) eqn:E; q_norm; lra. }
  assert (Hp : (w * scale longest <= 1638656 # 1024)%Q).
  { assert (Hk : (pow2 (-52) <= 1 # 1000000)%Q) by (vm_compute; discriminate). pose proof (pow2_pos (-52)).
    assert (Hx0 : (0 < x)%Q) by (pose proof (pow2_pos (-1000)); lra).
    assert (H1 : (w * scale longest <= w * (x + x * pow2 (-52)))%Q) by (apply Qmult_le_l; [exact Hw|exact Hs]).
    assert (H2 : (w * (x + x * pow2 (-52)) <= L * (x + x * pow2 (-52)))%Q) by (apply Qmult_le_compat_r; nra).
    assert (H3 : (L * (x + x * pow2 (-52)) == 1600 + 1600 * pow2 (-52))%Q) by (rewrite <- Ex; ring). lra. }
  pose proof (fl_le (R := binary64) _ 1638656 ltac:(lia) Hp) as Hfl. cbn [fl binary64] in Hfl.
  change (inject_Z maxImageEdge) with 1600%Q. lra.
Qed.

(** What every encoded attempt satisfies. *)
Definition attempt_ok (a : attempt) : Prop :=
  (1 <= width a <= maxImageEdge)%Z /\ (1 <= height a <= maxImageEdge)%Z /\ (lit56 <= quality a <= lit84)%Q.

Lemma shrink_bounds z : (1 <= z <= maxImageEdge)%Z ->
  (1 <= Z.max 1 (math_round (fl64 (inject_Z z * lit78))) <= z)%Z.
Proof.
  intros Hz. split; [lia|]. apply Z.max_lub; [lia|]. apply math_round_le.
  assert (H : (fl64 (inject_Z z * lit78) <= inject_Z z)%Q); [|lra].
  apply (fl_le_of (R := binary64) _ _ (z * 1024)).
  - unfold Qeq, inject_Z. simpl. lia.
  - unfold maxImageEdge in Hz. lia.
  - assert (Hz0 : (0 <= inject_Z z)%Q) by (change 0%Q with (inject_Z 0); rewrite <- Zle_Qle; lia).
    assert (H78 : (lit78 <= 1)%Q) by (vm_compute; discriminate).
    assert (Hm : (inject_Z z * lit78 <= inject_Z z * 1)%Q) by (rewrite !(Qmult_comm (inject_Z z)); by apply Qmult_le_compat_r). lra.
Qed.

Lemma next_attempt_ok t a : attempt_ok a -> attempt_ok (next_attempt t a).
Proof.
  intros (Hw & Hh & Hq1 & Hq2). unfold next_attempt, attempt_ok.
  destruct (match t with Jpeg => _ | Png => _ end); cbn [width height quality].
  - split_and!; [lia..| |].
    + unfold Qmax2. destruct (Qleb lit56 _) eqn:E; q_norm; lra.
    + unfold Qmax2. destruct (Qleb lit56 _) eqn:E; [|vm_compute; discriminate].
      apply Qle_trans with (fl64 (lit84 - lit10)); [apply fl64_mono; lra|vm_compute; discriminate].
  - pose proof (shrink_bounds _ Hw). pose proof (shrink_bounds _ Hh). split_and!; try lia; vm_compute; discriminate.
Qed.

Section OptimizeFacts.
Context (toBlob : file -> Z -> Z -> output -> option Q -> option blob).
#[local] Abbreviation tries := (attempts toBlob).

Definition too_big (maxOutputBytes : Z) (b : option blob) : Prop :=
  match b with Some x => (maxOutputBytes < b_size x)%Z | None => False end.

Lemma attempts_spec n f m a :
  attempt_ok a -> (0 < n)%nat ->
  let '(b, l) := tries n f m a in
  Forall attempt_ok l /\ (1 <= length l <= n)%nat /\ (exists a', last l = Some a' /\ encode toBlob f a' = b) /\
  (too_big m b -> Forall (fun x => too_big m (encode toBlob f x)) l /\ length l = n).
Proof.
  revert a. induction n as [|n IH]; intros a Ha Hn; [lia|]. cbn [attempts]. cbv zeta.
  destruct (encode toBlob f a) as [x|] eqn:E.
  2: { split_and!; [by apply Forall_singleton|simpl; lia|simpl; lia|by exists a|done]. }
  destruct (b_size x <=? m)%Z eqn:Es; bool_norm.
  - split_and!; [by apply Forall_singleton|simpl; lia|simpl; lia|by exists a|]. simpl. lia.
  - destruct n as [|n].
    + split_and!; [by apply Forall_singleton|simpl; lia|simpl; lia|by exists a|]. intros H. split; [|done]. constructor; [|done]. by rewrite E.
    + destruct (tries (S n) f m (next_attempt (outputType f) a)) as [b l] eqn:Et.
      specialize (IH (next_attempt (outputType f) a) (next_attempt_ok _ _ Ha) ltac:(lia)). rewrite Et in IH.
      destruct IH as (H1 & H2 & (a' & H3 & H4) & H5). split_and!; [by constructor|simpl; lia|simpl; lia| |].
      * exists a'. split; [|done]. destruct l; [simpl in H2; lia|done].
      * intros H. destruct (H5 H) as [H6 H7]. split; [|simpl; lia]. constructor; [|done]. rewrite E. simpl. lia.
Qed.

Lemma first_attempt_ok w h : (Zpos w <= 2 ^ 32)%Z -> (Zpos h <= 2 ^ 32)%Z -> attempt_ok (first_attempt w h).
Proof.
  intros Hw Hh. unfold first_attempt, attempt_ok. cbn [width height quality].
  split; [apply scaled_bounds; lia|]. split; [apply scaled_bounds; lia|]. split; vm_compute; discriminate.
Qed.

End OptimizeFacts.

(** Re-encoding a picture is bounded: at most twelve encodings are tried, each at least
    one pixel and at most 1600 pixels wide and high and with a quality between 0.56 and
    0.84; the result is the original file or a PNG or JPEG file of at most the requested
    size, and it is too large only when the twelve encodings (or the original, when the
    browser cannot decode it) are. *)
Theorem optimized_image_is_bounded (bitmap : file -> option (positive * positive)) (context2d : bool)
    (toBlob : file -> Z -> Z -> output -> option Q -> option blob) (f : file) (maxBytes : Z) (w h : positive) :
  bitmap f = Some (w, h) -> (Zpos w <= 2 ^ 32)%Z -> (Zpos h <= 2 ^ 32)%Z ->
  let g := optimizeImageFile bitmap context2d toBlob f maxBytes in
  let tried := (attempts toBlob 12 f maxBytes (first_attempt w h)).2 in
  (length tried <= 12)%nat /\ Forall attempt_ok tried /\
  (g = f \/ (f_size g <= maxBytes)%Z /\ f_type g ∈ [js "image/png"; js "image/jpeg"]) /\
  ((maxBytes < f_size g)%Z -> compressible (f_type f) = true -> context2d = true ->
   Forall (fun a => too_big maxBytes (encode toBlob f a)) tried \/
   exists a, last tried = Some a /\ encode toBlob f a = None).
Proof.
  intros Eb Hw Hh. cbv zeta. pose proof (attempts_spec toBlob 12 f maxBytes _ (first_attempt_ok w h Hw Hh) ltac:(lia)) as S.
  unfold optimizeImageFile. rewrite Eb.
  destruct (attempts toBlob 12 f maxBytes (first_attempt w h)) as [b l]. cbn [fst snd].
  destruct S as (S1 & S2 & (a & Sl & Sa) & S3). split; [lia|]. split; [done|].
  destruct (compressible (f_type f)) eqn:Ec; cbn [negb]; [|split; [by left|done]].
  cbv zeta. destruct (_ && _) eqn:Esmall; [bool_norm; split; [by left|lia]|].
  destruct context2d; cbn [negb]; [|split; [by left|done]].
  destruct b as [b|]; [|split; [by left|intros _ _ _; right; eauto]].
  destruct (maxBytes <? b_size b)%Z eqn:Et; bool_norm; cbn [f_size f_type].
  - split; [by left|]. intros _ _ _. left. by apply S3.
  - split; [right; split; [lia|destruct (outputType f); set_solver]|lia].
Qed.

(** A picture of 4000 by 3000 pixels whose encoding shrinks with its area. *)
Definition toy_blob (f : file) (w h : Z) (t : output) (q : option Q) : option blob :=
  Some (Blob (w * h / 4) []).
Definition photo : file := File (js "image/jpeg") 5000000 (js "holiday.photo.jpeg") [].

Lemma optimized_image_is_bounded_witness :
  let g := optimizeImageFile (fun _ => Some (4000, 3000)%positive) true toy_blob photo 200000 in
  f_name g = js "holiday.photo.jpg" /\ f_size g = 177572%Z /\
  (length (attempts toy_blob 12 photo 200000 (first_attempt 4000 3000)).2 <= 12)%nat.
Proof.
  cbv zeta. split; [vm_compute; reflexivity|]. split; [vm_compute; reflexivity|].
  exact (proj1 (optimized_image_is_bounded (fun _ => Some (4000, 3000)%positive) true toy_blob photo 200000 4000 3000
    eq_refl ltac:(lia) ltac:(lia))).
Defined.

(** ** The body of a chat request *)

(** [new Blob([s]).size]: the length of the UTF-8 encoding; an unpaired surrogate becomes
    the replacement character. *)
Fixpoint utf8_size (s : jsstring) : Z :=
  (match s with
   | [] => 0
   | c :: r =>
       if (c <? 128)%N then 1 + utf8_size r
       else if (c <? 2048)%N then 2 + utf8_size r
       else if high_surrogate c then
         match r with
         | d :: r' => if low_surrogate d then 4 + utf8_size r' else 3 + utf8_size r
         | [] => 3
         end
       else 3 + utf8_size r
   end)%Z.

(** [/^data:image\//i.test(s)] *)
Definition image_url (s : jsstring) : bool := starts_with_ci (js "data:image/") s.

(** [findImageDataUrls(value, found)]: the data addresses in the order of the keys. *)
Fixpoint findImageDataUrls (v : jsval) : list jsstring :=
  match v with
  | VArr l =>
      flat_map (fun x => match x with VStr s => if image_url s then [s] else [] | _ => findImageDataUrls x end) l
  | VObj fs =>
      flat_map (fun e => match e.2 with VStr s => if image_url s then [s] else [] | _ => findImageDataUrls e.2 end) fs
  | _ => []
  end.

(** [ref.parent[ref.key] = ...] for every reference found, in the same order; the rest of
    the list is returned. *)
Fixpoint replaceImages (v : jsval) (imgs : list jsstring) : jsval * list jsstring :=
  match v with
  | VArr l =>
      let '(l', r) :=
        (fix go (l : list jsval) (imgs : list jsstring) : list jsval * list jsstring :=
           match l with
           | [] => ([], imgs)
           | x :: t =>
               let '(x', r) :=
                 match x with
                 | VStr s => if image_url s then match imgs with i :: r => (VStr i, r) | [] => (x, []) end else (x, imgs)
                 | _ => replaceImages x imgs
                 end in
               let '(t', r') := go t r in (x' :: t', r')
           end) l imgs in
      (VArr l', r)
  | VObj fs =>
      let '(fs', r) :=
        (fix go (fs : list (jsstring * jsval)) (imgs : list jsstring) : list (jsstring * jsval) * list jsstring :=
           match fs with
           | [] => ([], imgs)
           | (k, x) :: t =>
               let '(x', r) :=
                 match x with
                 | VStr s => if image_url s then match imgs with i :: r => (VStr i, r) | [] => (x, []) end else (x, imgs)
                 | _ => replaceImages x imgs
                 end in
               let '(t', r') := go t r in ((k, x') :: t', r')
           end) fs imgs in
      (VObj fs', r)
  | _ => (v, imgs)
  end.

Section Fit.
(** The browser: [fetch] of a data address ([blob.type], [blob.size], the bytes), the file
    reader, and the parameters of [optimizeImageFile]. *)
Context (show_frac : Q -> jsstring)
  (fetch_blob : jsstring -> outcome jsstring (jsstring * Z * jsstring))
  (readAsDataURL : file -> outcome jsstring jsstring)
  (bitmap : file -> option (positive * positive)) (context2d : bool)
  (toBlob : file -> Z -> Z -> output -> option Q -> option blob).
#[local] Open Scope js_scope.

(** [dataUrlToFile(dataUrl, index)] *)
Definition dataUrlToFile (dataUrl : jsstring) (index : nat) : outcome jsstring file :=
  let* b := fetch_blob dataUrl in
  let type := if truthy b.1.1 then b.1.1 else js "image/jpeg" in
  let extension := if seqb type (js "image/png") then js ".png" else js ".jpg" in
  Ret (File type b.1.2 (js "chat-image-" ++ show_N (N.of_nat index) ++ extension)%list b.2).

(** One pass of the inner loop over the references, from image [index] on. *)
Fixpoint shrink_all (index : nat) (budget : Z) (refs : list jsstring) : outcome jsstring (list jsstring) :=
  match refs with
  | [] => Ret []
  | r :: rest =>
      let* f := dataUrlToFile r index in
      let* u := readAsDataURL (optimizeImageFile bitmap context2d toBlob f budget) in
      let* us := shrink_all (S index) budget rest in
      Ret (u :: us)
  end.

(** What the outer loop does next: return a body, or go on to the test after the loop
    with the last body it built. *)
Inductive loop_result : Type :=
| Fits (s : jsstring)
| Rest (s : jsstring).

(** The outer loop; the budgets of its passes are recorded. *)
Fixpoint fit_loop (n : nat) (body : jsval) (refs : list jsstring) (budget : Z) (serialized : jsstring)
    : outcome jsstring loop_result * list Z :=
  match n with
  | O => (Ret (Rest serialized), [])
  | S m =>
      if (budget <? 32768)%Z then (Ret (Rest serialized), [])
      else match shrink_all 0 budget refs with
           | Throw e => (Throw e, [budget])
           | Ret us =>
               let serialized := JSON_stringify show_frac (replaceImages body us).1 in
               if (utf8_size serialized <=? maxChatRequestBytes)%Z then (Ret (Fits serialized), [budget])
               else let '(o, l) := fit_loop m body refs (Qfloor (fl64 (inject_Z budget * lit72))) serialized in
                    (o, budget :: l)
           end
  end.

Definition history_error : jsstring :=
  js "The message and conversation history alone exceed the gateway size limit. Shorten the prompt or remove older messages.".
Definition images_error : jsstring :=
  js "The images could not be reduced enough for this request. Remove an image or use a smaller photo.".

Definition image_budget (nonImageSize : Z) (count : nat) : Z :=
  let available := (maxChatRequestBytes - nonImageSize - Z.of_nat count * 128)%Z in
  Qfloor (fl64 (fl64 (inject_Z (Z.max 0 available) * lit74) / inject_Z (Z.of_nat count))).

(** [fitChatBody(body)] *)
Definition fitChatBody (body : jsval) : outcome jsstring jsstring :=
  let serialized := JSON_stringify show_frac body in
  let size := utf8_size serialized in
  if (size <=? maxChatRequestBytes)%Z then Ret serialized
  else
    let refs := findImageDataUrls body in
    match refs with
    | [] => Ret serialized
    | _ =>
        let encodedImagesSize := foldr (fun r t => (Z.of_nat (length r) + t)%Z) 0%Z refs in
        let nonImageSize := (size - encodedImagesSize)%Z in
        if (gatewayRequestLimitBytes <=? nonImageSize)%Z then Throw history_error
        else if (size <=? gatewayRequestLimitBytes)%Z && (maxChatRequestBytes <=? nonImageSize)%Z then Ret serialized
        else match (fit_loop 5 body refs (image_budget nonImageSize (length refs)) serialized).1 with
             | Throw e => Throw e
             | Ret (Fits s) => Ret s
             | Ret (Rest s) => if (utf8_size s <=? gatewayRequestLimitBytes)%Z then Ret s else Throw images_error
             end
    end.

End Fit.

(** ** What fitting returns *)

(** Putting the pictures of a body back where they were found gives the body. *)
Lemma replaceImages_own v r : replaceImages v (findImageDataUrls v ++ r) = (v, r).
Proof.
  revert r. induction v as [| |b|n|s|l IH|fs IH] using jsval_nested_ind; intros r; try done.
  - cbn [replaceImages findImageDataUrls].
    match goal with |- (let '(l', r0) := ?g l ?i in _) = _ => enough (E : g l i = (l, r)) by (by rewrite E) end.
    revert r. induction IH as [|x l Hx _ IHl]; intros r; [done|]. cbn [flat_map]. rewrite <- app_assoc.
    destruct x as [| | | |s| |]; try (rewrite Hx, IHl; done).
    destruct (image_url s); cbn [app]; by rewrite IHl.
  - cbn [replaceImages findImageDataUrls].
    match goal with |- (let '(l', r0) := ?g fs ?i in _) = _ => enough (E : g fs i = (fs, r)) by (by rewrite E) end.
    revert r. induction IH as [|[k x] fs Hx _ IHl]; intros r; [done|]. cbn [flat_map snd] in *. rewrite <- app_assoc.
    destruct x as [| | | |s| |]; try (rewrite Hx, IHl; done).
    destruct (image_url s); cbn [app]; by rewrite IHl.
Qed.

(** The budget of the next pass is not larger. *)
Lemma next_budget b : (32768 <= b)%Z -> (Qfloor (fl64 (inject_Z b * lit72)) <= b)%Z.
Proof.
  intros Hb. rewrite <- (Qfloor_Z b) at 2. apply Qfloor_resp_le. set (x := (inject_Z b * lit72)%Q).
  assert (Hq : (32768 <= inject_Z b)%Q) by (change 32768%Q with (inject_Z 32768); by rewrite <- Zle_Qle).
  assert (H1 : (1 # 2 <= lit72)%Q /\ (lit72 <= 3 # 4)%Q) by (split; vm_compute; discriminate). destruct H1 as [H1 H2].
  assert (Hx : (x <= inject_Z b * (3 # 4))%Q) by (unfold x; rewrite !(Qmult_comm (inject_Z b)); apply Qmult_le_compat_r; lra).
  assert (Hx2 : (16384 <= x)%Q) by (unfold x; nra).
  assert (Hp : (pow2 (-1000) <= x)%Q).
  { assert (pow2 (-1000) <= pow2 0)%Q by (apply pow2_mono; lia). change (pow2 0) with 1%Q in *. lra. }
  pose proof (fl64_upper x Hp) as Hu. assert (Hk : (pow2 (-52) <= 1 # 1000000)%Q) by (vm_compute; discriminate).
  pose proof (pow2_pos (-52)). nra.
Qed.

Section FitFacts.
Context (show_frac : Q -> jsstring)
  (fetch_blob : jsstring -> outcome jsstring (jsstring * Z * jsstring))
  (readAsDataURL : file -> outcome jsstring jsstring)
  (bitmap : file -> option (positive * positive)) (context2d : bool)
  (toBlob : file -> Z -> Z -> output -> option Q -> option blob).
#[local] Abbreviation loop := (fit_loop show_frac fetch_blob readAsDataURL bitmap context2d toBlob).
#[local] Abbreviation shrink := (shrink_all fetch_blob readAsDataURL bitmap context2d toBlob).

Lemma shrink_length refs : forall i budget us, shrink i budget refs = Ret us -> length us = length refs.
Proof.
  induction refs as [|r refs IH]; intros i budget us; cbn [shrink_all]; [by intros [= <-]|].
  destruct (dataUrlToFile _ _ _); [|done]. cbn [obind]. destruct (readAsDataURL _); [|done]. cbn [obind].
  destruct (shrink (S i) budget refs) as [l|] eqn:E; [|done]. cbn [obind]. intros [= <-]. simpl. by rewrite (IH _ _ _ E).
Qed.

(** A body with the pictures of [body] replaced. *)
Definition with_images (body : jsval) (s : jsstring) : Prop :=
  exists us, length us = length (findImageDataUrls body) /\ s = JSON_stringify show_frac (replaceImages body us).1.

Lemma with_images_own body : with_images body (JSON_stringify show_frac body).
Proof.
  exists (findImageDataUrls body). split; [done|]. pose proof (replaceImages_own body []) as E.
  rewrite app_nil_r in E. by rewrite E.
Qed.

Lemma fit_loop_spec n body : forall budget s0,
  with_images body s0 ->
  let '(o, l) := loop n body (findImageDataUrls body) budget s0 in
  (length l <= n)%nat /\ Forall (fun b => 32768 <= b <= Z.max 32768 budget)%Z l /\
  match o with
  | Ret (Fits s) => with_images body s /\ (utf8_size s <= maxChatRequestBytes)%Z
  | Ret (Rest s) => with_images body s
  | Throw _ => True
  end.
Proof.
  induction n as [|n IH]; intros budget s0 H0; cbn [fit_loop]; [done|].
  destruct (budget <? 32768)%Z eqn:Eb; bool_norm; [split_and!; [simpl; lia|done|done]|].
  assert (Hb : Forall (fun b => 32768 <= b <= Z.max 32768 budget)%Z [budget]) by (apply Forall_singleton; lia).
  destruct (shrink 0 budget (findImageDataUrls body)) as [us|] eqn:Es; [|split_and!; [simpl; lia|done|done]].
  cbv zeta. set (s := JSON_stringify show_frac (replaceImages body us).1).
  assert (Hs : with_images body s) by (exists us; split; [by eapply shrink_length|done]).
  destruct (utf8_size s <=? maxChatRequestBytes)%Z eqn:Ef; bool_norm; [split_and!; [simpl; lia|done|done|done]|].
  set (b' := Qfloor (fl64 (inject_Z budget * lit72))). specialize (IH b' s Hs).
  destruct (loop n body _ b' s) as [o l]. destruct IH as (H1 & H2 & H3). split_and!; [simpl; lia| |done].
  constructor; [lia|]. eapply Forall_impl; [exact H2|]. intros b [H4 H5]. split; [done|]. cbv beta in *.
  pose proof (next_budget budget Eb). lia.
Qed.

Lemma fitChatBody_spec body s :
  fitChatBody show_frac fetch_blob readAsDataURL bitmap context2d toBlob body = Ret s ->
  with_images body s /\ (findImageDataUrls body <> [] -> (utf8_size s <= gatewayRequestLimitBytes)%Z).
Proof.
  unfold fitChatBody. cbv zeta. pose proof (with_images_own body) as H0.
  set (s0 := JSON_stringify show_frac body) in *.
  assert (Hlim : (maxChatRequestBytes <= gatewayRequestLimitBytes)%Z) by done.
  destruct (utf8_size s0 <=? maxChatRequestBytes)%Z eqn:E0; bool_norm; [intros [= <-]; split; [done|lia]|].
  destruct (findImageDataUrls body) as [|r rs] eqn:Er; [by intros [= <-]|]. rewrite <- Er.
  destruct (gatewayRequestLimitBytes <=? _)%Z; [done|].
  destruct (_ && _) eqn:E1; bool_norm; [by intros [= <-]|].
  pose proof (fit_loop_spec 5 body (image_budget (utf8_size s0 - foldr (fun r t => (Z.of_nat (length r) + t)%Z) 0%Z (findImageDataUrls body)) (length (findImageDataUrls body))) s0 H0) as L.
  destruct (loop 5 body _ _ s0) as [o l]. destruct L as (_ & _ & L). cbn [fst].
  destruct o as [[x|x]|e]; [|destruct (utf8_size x <=? _)%Z eqn:E2; bool_norm|]; try done; intros [= <-].
  - destruct L. split; [done|lia].
  - done.
Qed.

End FitFacts.

(** A chat body that is sent holds the request unchanged but for its pictures, and when
    it has pictures it is at most as large as the gateway accepts; the pictures are
    re-encoded in at most five passes, each with a budget of at least 32 KiB that never
    grows. *)
Theorem fitted_body_is_bounded (show_frac : Q -> jsstring)
    (fetch_blob : jsstring -> outcome jsstring (jsstring * Z * jsstring)) (readAsDataURL : file -> outcome jsstring jsstring)
    (bitmap : file -> option (positive * positive)) (context2d : bool)
    (toBlob : file -> Z -> Z -> output -> option Q -> option blob) (body : jsval) (s : jsstring) (budget : Z) :
  fitChatBody show_frac fetch_blob readAsDataURL bitmap context2d toBlob body = Ret s ->
  (exists us, length us = length (findImageDataUrls body) /\ s = JSON_stringify show_frac (replaceImages body us).1) /\
  (findImageDataUrls body <> [] -> (utf8_size s <= gatewayRequestLimitBytes)%Z) /\
  let passes := (fit_loop show_frac fetch_blob readAsDataURL bitmap context2d toBlob 5 body (findImageDataUrls body)
                   budget (JSON_stringify show_frac body)).2 in
  (length passes <= 5)%nat /\ Forall (fun b => 32768 <= b <= Z.max 32768 budget)%Z passes.
Proof.
  intros E. destruct (fitChatBody_spec _ _ _ _ _ _ _ _ E) as [H1 H2]. split; [exact H1|]. split; [exact H2|]. cbv zeta.
  pose proof (fit_loop_spec show_frac fetch_blob readAsDataURL bitmap context2d toBlob 5 body budget _ (with_images_own show_frac body)) as L.
  destruct (fit_loop _ _ _ _ _ _ 5 body _ budget _) as [o l]. cbn [snd]. tauto.
Qed.

(** A picture whose address is short in the toy encoder below. *)
Definition toy_body : jsval :=
  VObj [(js "messages", VArr [VObj [(js "image_url", VStr (js "data:image/png;base64,AAAA"))]; VStr (js "hi")])].

Lemma fitted_body_is_bounded_witness :
  fitChatBody (fun _ => []) (fun _ => Throw []) (fun _ => Throw []) (fun _ => None) false toy_blob toy_body
    = Ret (jsq "{`messages`:[{`image_url`:`data:image/png;base64,AAAA`},`hi`]}") /\
  (utf8_size (jsq "{`messages`:[{`image_url`:`data:image/png;base64,AAAA`},`hi`]}") <= gatewayRequestLimitBytes)%Z.
Proof.
  assert (E : fitChatBody (fun _ => []) (fun _ => Throw []) (fun _ => Throw []) (fun _ => None) false toy_blob toy_body
    = Ret (jsq "{`messages`:[{`image_url`:`data:image/png;base64,AAAA`},`hi`]}")) by (vm_compute; reflexivity).
  split; [exact E|].
  exact (proj1 (proj2 (fitted_body_is_bounded (fun _ => []) (fun _ => Throw []) (fun _ => Throw []) (fun _ => None) false
    toy_blob toy_body _ 40000 E)) ltac:(vm_compute; discriminate)).
Defined.

(** A conversation without pictures is sent whatever its size: the limits are only
    compared with bodies that have pictures. *)
Lemma text_only_body_is_not_limited show_frac fetch_blob readAsDataURL bitmap context2d toBlob body :
  findImageDataUrls body = [] ->
  fitChatBody show_frac fetch_blob readAsDataURL bitmap context2d toBlob body = Ret (JSON_stringify show_frac body).
Proof. intros E. unfold fitChatBody. cbv zeta. rewrite E. by destruct (_ <=? _)%Z. Qed.

(** ** Uploads *)

Section Upload.
Context (bitmap : file -> option (positive * positive)) (context2d : bool)
  (toBlob : file -> Z -> Z -> output -> option Q -> option blob).

(** [Math.floor(uploadLimitBytes / Math.max(1, compressibleImages.length))] *)
Definition upload_budget (files : list file) : Z :=
  let n := length (List.filter (fun f => compressible (f_type f)) files) in
  Qfloor (fl64 (inject_Z uploadLimitBytes / inject_Z (Z.of_nat (Nat.max 1 n)))).

Definition optimized_files (files : list file) : list file :=
  (fun f => if compressible (f_type f) then optimizeImageFile bitmap context2d toBlob f (upload_budget files) else f) <$> files.

(** A file input: whether it is in [replayingFileInputs], its files, the changes held back
    while their pictures are optimised, and the file lists that reached the uploader. *)
Record input := Input {
  replaying : bool;
  files : list file;
  held : list (list file);
  delivered : list (list file);
}.

(** The capturing listener of [change]. *)
Definition on_change (i : input) : input :=
  if replaying i then Input false (files i) (held i) (delivered i ++ [files i])
  else if existsb (fun f => is_image (f_type f)) (files i)
  then Input false (files i) (held i ++ [files i]) (delivered i)
  else Input false (files i) (held i) (delivered i ++ [files i]).

(** The user picks files. *)
Definition pick (fs : list file) (i : input) : input :=
  on_change (Input (replaying i) fs (held i) (delivered i)).

(** The optimisation of the [k]-th held change ends; [replaced] is false when the browser
    cannot replace a [FileList]. *)
Definition on_optimized (k : nat) (replaced : bool) (i : input) : input :=
  match held i !! k with
  | Some originals =>
      on_change (Input true (if replaced then optimized_files originals else files i) (delete k (held i)) (delivered i))
  | None => i
  end.

Inductive upload_event : Type :=
| Pick (fs : list file)
| Optimized (k : nat) (replaced : bool).

Definition upload_step (i : input) (e : upload_event) : input :=
  match e with Pick fs => pick fs i | Optimized k r => on_optimized k r i end.

Definition picks (evs : list upload_event) : nat :=
  length (List.filter (fun e => match e with Pick _ => true | _ => false end) evs).

(** Every selection of files reaches the uploader exactly once: it has been delivered or
    it is being optimised, and the replayed event is never held back again. *)
Theorem every_upload_is_delivered_once (evs : list upload_event) :
  let i := fold_left upload_step evs (Input false [] [] []) in
  replaying i = false /\ (length (delivered i) + length (held i) = picks evs)%nat /\
  forall k r, (k < length (held i))%nat ->
    length (held (upload_step i (Optimized k r))) = pred (length (held i)) /\
    length (delivered (upload_step i (Optimized k r))) = S (length (delivered i)).
Proof.
  assert (Pk : forall fs i, replaying i = false -> replaying (pick fs i) = false /\
    (length (delivered (pick fs i)) + length (held (pick fs i)) = S (length (delivered i) + length (held i)))%nat).
  { intros fs i Hr. unfold pick, on_change. cbn [replaying]. rewrite Hr. cbn [files held delivered].
    destruct (existsb _ fs); cbn [replaying held delivered]; rewrite length_app; simpl; lia. }
  assert (Op : forall k r i, (k < length (held i))%nat ->
    replaying (on_optimized k r i) = false /\ length (held (on_optimized k r i)) = pred (length (held i)) /\
    length (delivered (on_optimized k r i)) = S (length (delivered i))).
  { intros k r i Hk. destruct (lookup_lt_is_Some_2 _ _ Hk) as [fs E]. unfold on_optimized, on_change. rewrite E. cbn [replaying].
    cbn [files held delivered replaying]. rewrite length_delete, length_app by (rewrite E; eauto). simpl. lia. }
  cbv zeta. enough (G : forall i, replaying i = false -> let j := fold_left upload_step evs i in
    replaying j = false /\ (length (delivered j) + length (held j) = picks evs + (length (delivered i) + length (held i)))%nat).
  { specialize (G (Input false [] [] []) eq_refl). cbv zeta in G. destruct G as [G1 G2]. split; [done|]. split; [simpl in G2; lia|].
    intros k r Hk. by destruct (Op k r _ Hk). }
  induction evs as [|e evs IH]; intros i Hr; [done|]. cbn [fold_left]. destruct e as [fs|k r]; cbn [upload_step].
  - destruct (Pk fs i Hr) as [H1 H2]. destruct (IH _ H1) as [H3 H4]. split; [done|].
    change (picks (Pick fs :: evs)) with (S (picks evs)). lia.
  - change (picks (Optimized k r :: evs)) with (picks evs). destruct (decide (k < length (held i))%nat) as [Hk|Hk].
    + destruct (Op k r i Hk) as (H1 & H2 & H3). destruct (IH _ H1) as [H4 H5]. split; [done|]. lia.
    + assert (E : on_optimized k r i = i); [|rewrite E; by apply IH].
      unfold on_optimized. by rewrite lookup_ge_None_2 by lia.
Qed.

End Upload.
