(* ===== verification/ModelChoice.v ===== *)
(** * Choosing a model (webui/model-selector.js)

    [modalitiesFor], [modelParameterBillions], [compareModels], the merge of the catalogues
    in [initialize], the selection with its stored hint, [applyCapabilities] and
    [displayName].  [String.prototype.localeCompare] is an interface ([Collation]) with an
    instance. *)
From Stdlib Require Import Lia NArith ZArith QArith Sorting.Sorted.
From stdpp Require Import base numbers list gmap strings sorting.
From S2P Require Import Prelude JsString JsNumber JsValue JsJson MeshNotice.

(** ** Collation *)

(** What sorting relies on: [localeCompare] is a consistent comparison of strings. *)
Class Collation := {
  localeCompare : jsstring -> jsstring -> comparison;
  collate_opp a b : localeCompare b a = CompOpp (localeCompare a b);
  collate_trans a b c : localeCompare a b <> Gt -> localeCompare b c <> Gt -> localeCompare a c <> Gt;
}.

(** Comparison by code units is one. *)
Fixpoint unit_compare (a b : jsstring) : comparison :=
  match a, b with
  | [], [] => Eq
  | [], _ :: _ => Lt
  | _ :: _, [] => Gt
  | x :: a, y :: b => match N.compare x y with Eq => unit_compare a b | c => c end
  end.

Lemma unit_compare_opp a b : unit_compare b a = CompOpp (unit_compare a b).
Proof.
  revert b. induction a as [|x a IH]; intros [|y b]; simpl; try done.
  rewrite N.compare_antisym. destruct (N.compare x y); simpl; [apply IH|done|done].
Qed.

Lemma unit_compare_trans a b c : unit_compare a b <> Gt -> unit_compare b c <> Gt -> unit_compare a c <> Gt.
Proof.
  revert b c. induction a as [|x a IH]; intros [|y b] [|z c]; simpl; try done.
  destruct (N.compare_spec x y), (N.compare_spec y z), (N.compare_spec x z); subst; try done; try lia. apply IH.
Qed.

#[export] Instance by_code_units : Collation := {|
  localeCompare := unit_compare;
  collate_opp := unit_compare_opp;
  collate_trans := unit_compare_trans;
|}.

(** ** What a catalogue entry says about a model *)

(** [/(^|[-_./])(vl|vision)([-_./]|$)|llava|moondream/.test(id)] *)
Definition id_separator (c : N) : bool := (c =? 45)%N || (c =? 95)%N || (c =? 46)%N || (c =? 47)%N.
Definition ends_word (s : jsstring) : bool := match s with [] => true | c :: _ => id_separator c end.

Fixpoint vision_word (at_start : bool) (s : jsstring) : bool :=
  (at_start &&
   ((starts_with (js "vl") s && ends_word (drop 2 s)) || (starts_with (js "vision") s && ends_word (drop 6 s))))
  || match s with [] => false | c :: r => vision_word (id_separator c) r end.

Definition vision_id (id : jsstring) : bool :=
  vision_word true id || includes (js "llava") id || includes (js "moondream") id.

(** [/(\d+(?:\.\d+)?)\s*b(?:illion)?\b/i], the first group of a match at the head. *)
Definition word_unit (c : N) : bool :=
  digit c || ((65 <=? c) && (c <=? 90))%N || ((97 <=? c) && (c <=? 122))%N || (c =? 95)%N.

Definition match_billions (s : jsstring) : option jsstring :=
  match take_digits s with
  | [] => None
  | ip =>
      let r := drop (length ip) s in
      let fp := match r with
                | c :: r' => if (c =? 46)%N then match take_digits r' with [] => [] | ds => 46%N :: ds end else []
                | [] => []
                end in
      match trim_start (drop (length fp) r) with
      | c :: r2 =>
          if (c =? 98)%N || (c =? 66)%N then
            let r3 := if starts_with_ci (js "illion") r2 then drop 6 r2 else r2 in
            match r3 with
            | d :: _ => if word_unit d then None else Some (ip ++ fp)
            | [] => Some (ip ++ fp)
            end
          else None
      | [] => None
      end
  end.

Fixpoint find_billions (s : jsstring) : option jsstring :=
  match match_billions s with
  | Some g => Some g
  | None => match s with [] => None | _ :: r => find_billions r end
  end.

Section Models.
Context (show_frac : Q -> jsstring) {C : Collation}.
#[local] Abbreviation str := (to_str show_frac).

Definition id_text (model : jsval) : jsstring := str (vor (prop model (js "id")) (VStr [])).

(** [modalitiesFor(model)]; [VNull] is a missing model. *)
Definition modalitiesFor (model : jsval) : list jsval :=
  match (if vtruthy model then prop model (js "modalities") else VUndef) with
  | VArr l => l
  | _ =>
      let id := lower (if vtruthy model then id_text model else []) in
      ([VStr (js "text")] ++ (if vision_id id then [VStr (js "vision")] else [])
       ++ (if includes (js "audio") id || includes (js "omni") id || includes (js "whisper") id then [VStr (js "audio")] else [])
       ++ (if includes (js "video") id then [VStr (js "video")] else []))%list
  end.

Definition has_modality (name : jsstring) (model : jsval) : bool :=
  existsb (fun v => strict_eq v (VStr name)) (modalitiesFor model).

(** [applyCapabilities(model)]: the classes [cm-model-no-vision], [-no-audio] and
    [-no-video] of the document. *)
Definition applyCapabilities (model : jsval) : bool * bool * bool :=
  (negb (has_modality (js "vision") model), negb (has_modality (js "audio") model), negb (has_modality (js "video") model)).

(** [model.k && model.k.parameter_size] *)
Definition nested_size (model : jsval) (k : jsstring) : jsval :=
  let d := prop model k in if vtruthy d then prop d (js "parameter_size") else d.

(** [modelParameterBillions(model)] *)
Definition modelParameterBillions (model : jsval) : num :=
  fold_left (fun best v =>
      match find_billions (str (vor v (VStr []))) with
      | Some g => num_max best (let n := Number_of_string g in if num_truthy n then n else num_Z 0)
      | None => best
      end)
    [prop model (js "parameter_size"); nested_size model (js "details"); nested_size model (js "meta"); prop model (js "id")]
    (num_Z 0).

(** [String(model.status && (model.status.value || model.status) || model.availability || '').toLowerCase()] *)
Definition model_status (model : jsval) : jsstring :=
  let s := prop model (js "status") in
  let v := if vtruthy s then vor (prop s (js "value")) s else s in
  lower (str (vor v (vor (prop model (js "availability")) (VStr [])))).

Definition has_capability (name : jsstring) (model : jsval) : bool :=
  existsb (fun v => strict_eq v (VStr name)) (array_or_nil (prop model (js "capabilities"))).

(** [score(model)] of [compareModels] *)
Definition score (model : jsval) : num :=
  let status := model_status model in
  num_add
    (num_add (num_scale 1000 (modelParameterBillions model))
       (num_Z (if seqb status (js "loaded") || seqb status (js "available_warm") then 100 else 0)))
    (num_Z (if has_capability (js "tools") model || has_capability (js "tool_calling") model then 10 else 0)).

(** [compareModels(left, right)]: the sign of [score(right) - score(left)], which is that
    of their comparison, and the identifiers when the difference is zero or [NaN]. *)
Definition compareModels (left right : jsval) : comparison :=
  if num_lt (score right) (score left) then Lt
  else if num_lt (score left) (score right) then Gt
  else localeCompare (str (prop left (js "id"))) (str (prop right (js "id"))).

(** ** The merged catalogue *)

(** The entries [initialize] keeps of one catalogue. *)
Definition offered : list jsstring := js <$> ["catalogued"; "available"; "available_cold"; "available_warm"]%string.

Definition selectable (model : jsval) : bool :=
  vtruthy model && vtruthy (prop model (js "id"))
  && negb (strict_eq (prop model (js "available")) (VBool false))
  && (negb (vtruthy (prop model (js "availability")))
      || existsb (fun o => strict_eq (prop model (js "availability")) (VStr o)) offered).

Definition source_key : jsstring := js "__sourceEndpoint".

(** The answer of one endpoint ([None]: an exception, [null]: a response that is not
    [ok]), with the endpoint noted in each entry. *)
Definition catalogue (endpoint : jsstring) (result : option jsval) : list jsval :=
  match result with
  | Some v =>
      let data := if vtruthy v then array_or_nil (prop v (js "data")) else [] in
      (fun m => assign_with m source_key (VStr endpoint)) <$> List.filter selectable data
  | None => []
  end.

Definition same_id (a b : jsval) : bool := strict_eq (prop a (js "id")) (prop b (js "id")).

(** [byModelId]: a map in the order of first insertion; [set] keeps the place. *)
Fixpoint keep_best (m : jsval) (acc : list jsval) : list jsval :=
  match acc with
  | [] => [m]
  | e :: r =>
      if same_id m e
      then match compareModels m e with Lt => m :: r | _ => e :: r end
      else e :: keep_best m r
  end.

Definition by_model_id (l : list jsval) : list jsval := fold_left (fun acc m => keep_best m acc) l [].

(** [Array.prototype.sort(compareModels)]: the stable sort. *)
Fixpoint insert_model (m : jsval) (l : list jsval) : list jsval :=
  match l with
  | [] => [m]
  | e :: r => match compareModels m e with Gt => e :: insert_model m r | _ => m :: l end
  end.

Definition sort_models (l : list jsval) : list jsval := foldr insert_model [] l.

(** [initialize] up to the list of models: the answers of all endpoints, in order. *)
Definition merged_models (answers : list (jsstring * option jsval)) : list jsval :=
  sort_models (by_model_id (answers ≫= fun a => catalogue a.1 a.2)).

(** ** The selection *)

Definition STORAGE_KEY : jsstring := js "cm_selected_model_id".

Record selection := Selection {
  models : list jsval;
  selectedModel : option jsval;
  localNodeEndpoint : option jsstring;
  stored : storage;
  classes : bool * bool * bool;
}.

Definition find_id (id : jsval) (l : list jsval) : option jsval :=
  List.find (fun m => strict_eq (prop m (js "id")) id) l.

(** [m.__sourceEndpoint && m.__sourceEndpoint !== window.location.origin ? ... : null] *)
Definition route_of (origin : jsstring) (m : jsval) : option jsstring :=
  match prop m source_key with
  | VStr e => if truthy e && negb (seqb e origin) then Some e else None
  | _ => None
  end.

(** [Array.isArray(slots) && slots[0] && slots[0].model] *)
Definition active_id (slots : jsval) : jsval :=
  match slots with
  | VArr l => let s := default VUndef (head l) in if vtruthy s then prop s (js "model") else s
  | _ => VBool false
  end.

Definition remember (m : jsval) (st : storage) : storage :=
  match setItem STORAGE_KEY (str (prop m (js "id"))) st with Ret st' => st' | Throw _ => st end.

(** [initialize()] after the catalogues: [slots] is the answer of [/slots], asked only
    when no stored identifier is in the list ([None]: an exception). *)
Definition initialize (origin : jsstring) (answers : list (jsstring * option jsval)) (slots : option jsval)
    (probed : option jsstring) (st : storage) : selection :=
  let ms := merged_models answers in
  match ms with
  | [] => Selection [] None probed st (applyCapabilities VNull)
  | first :: _ =>
      let savedId := match getItem STORAGE_KEY st with Ret (Some v) => v | _ => [] end in
      let '(m, st') :=
        match find_id (VStr savedId) ms with
        | Some m => (m, st)
        | None =>
            let m := match slots with
                     | Some v => default first (find_id (active_id v) ms)
                     | None => first
                     end in
            (m, remember m st)
        end in
      Selection ms (Some m) (route_of origin m) st' (applyCapabilities m)
  end.

(** The menu's [change] listener. *)
Definition select_model (origin : jsstring) (id : jsstring) (s : selection) : selection :=
  match find_id (VStr id) (models s) with
  | None => Selection (models s) None (localNodeEndpoint s) (stored s) (classes s)
  | Some m => Selection (models s) (Some m) (route_of origin m) (remember m (stored s)) (applyCapabilities m)
  end.

(** [displayName(model)]: the part before the first slash is dropped, dashes and
    underscores become spaces. *)
Fixpoint after_slash (s : jsstring) : option jsstring :=
  match s with [] => None | c :: r => if (c =? 47)%N then Some r else after_slash r end.

Definition displayName (model : jsval) : jsstring :=
  let s := str (vor (prop model (js "name")) (vor (prop model (js "id")) (VStr []))) in
  let s := match s with
           | c :: _ => if (c =? 47)%N then s else default s (after_slash s)
           | [] => s
           end in
  (fun c => if (c =? 45)%N || (c =? 95)%N then 32%N else c) <$> s.

(** The options of the menu: value and text. *)
Definition renderOptions (s : selection) : list (jsval * jsstring) :=
  (fun m => (prop m (js "id"),
             displayName m ++ (if has_modality (js "vision") m then js " · Bilder" else js " · Text"))%list) <$> models s.

End Models.

(** ** The comparison is a total preorder *)

Lemma num_lt_asym a b : num_lt a b = true -> num_lt b a = false.
Proof. destruct a, b; simpl; try done. rewrite Qltb_lt, Qltb_ge. apply Qlt_le_weak. Qed.

Lemma num_ge_trans a b c : is_nan a = false -> is_nan b = false -> is_nan c = false ->
  num_lt b a = false -> num_lt c b = false -> num_lt c a = false.
Proof.
  destruct a, b, c; simpl; try done. rewrite !Qltb_ge. intros _ _ _ H1 H2. by eapply Qle_trans.
Qed.

Lemma of_exact_not_nan q : is_nan (of_exact q) = false.
Proof. unfold of_exact. cbv zeta. by destruct (Qleb _ _); [|destruct (Qleb _ _)]. Qed.

Lemma num_max_not_nan a b : is_nan a = false -> is_nan b = false -> is_nan (num_max a b) = false.
Proof. destruct a, b; simpl; try done; by destruct (Qltb _ _). Qed.

Lemma num_add_not_nan a z : is_nan a = false -> is_nan (num_add a (num_Z z)) = false.
Proof. destruct a; simpl; try done. intros _. apply of_exact_not_nan. Qed.

Section Order.
Context (show_frac : Q -> jsstring) {C : Collation}.
#[local] Abbreviation cmp := (compareModels show_frac).

Lemma billions_not_nan m : is_nan (modelParameterBillions show_frac m) = false.
Proof.
  unfold modelParameterBillions.
  assert (G : forall l best, is_nan best = false ->
    is_nan (fold_left (fun best v => match find_billions (to_str show_frac (vor v (VStr []))) with
      | Some g => num_max best (let n := Number_of_string g in if num_truthy n then n else num_Z 0)
      | None => best end) l best) = false); [|by apply G].
  induction l as [|v l IH]; intros best Hb; [done|]. cbn [fold_left]. apply IH.
  destruct (find_billions _) as [g|]; [|done]. cbv zeta. apply num_max_not_nan; [done|].
  destruct (num_truthy (Number_of_string g)) eqn:E; [|done]. by destruct (Number_of_string g).
Qed.

Lemma score_not_nan m : is_nan (score show_frac m) = false.
Proof.
  unfold score. cbv zeta. do 2 apply num_add_not_nan. pose proof (billions_not_nan m) as H.
  destruct (modelParameterBillions show_frac m); simpl in *; try done. apply of_exact_not_nan.
Qed.

Lemma compareModels_opp a b : cmp b a = CompOpp (cmp a b).
Proof.
  unfold compareModels. destruct (num_lt (score show_frac a) (score show_frac b)) eqn:E1.
  - by rewrite (num_lt_asym _ _ E1).
  - destruct (num_lt (score show_frac b) (score show_frac a)); [done|]. apply collate_opp.
Qed.

Lemma compareModels_trans a b c : cmp a b <> Gt -> cmp b c <> Gt -> cmp a c <> Gt.
Proof.
  unfold compareModels. pose proof (score_not_nan a) as Na. pose proof (score_not_nan b) as Nb.
  pose proof (score_not_nan c) as Nc. revert Na Nb Nc.
  generalize (score show_frac a), (score show_frac b), (score show_frac c). intros x y z Nx Ny Nz.
  intros H1 H2.
  assert (G1 : num_lt x y = false).
  { destruct (num_lt y x) eqn:E; [by apply num_lt_asym|]. by destruct (num_lt x y). }
  assert (G2 : num_lt y z = false).
  { destruct (num_lt z y) eqn:E; [by apply num_lt_asym|]. by destruct (num_lt y z). }
  rewrite G1 in H1. rewrite G2 in H2. rewrite (num_ge_trans z y x) by done.
  destruct (num_lt z x) eqn:E; [done|].
  rewrite (num_ge_trans x z y) in H1 by done. rewrite (num_ge_trans y x z) in H2 by done.
  by eapply collate_trans.
Qed.

Lemma compareModels_refl a : cmp a a = Eq.
Proof. pose proof (compareModels_opp a a) as H. by destruct (cmp a a). Qed.

(** ** Sorting *)

Definition not_after (a b : jsval) : Prop := cmp a b <> Gt.

#[local] Instance not_after_trans : Transitive not_after.
Proof. intros a b c. apply compareModels_trans. Qed.

Lemma insert_model_perm m l : insert_model show_frac m l ≡ₚ m :: l.
Proof.
  induction l as [|e l IH]; [done|]. cbn [insert_model]. destruct (cmp m e); try done. rewrite IH. constructor.
Qed.

Lemma insert_model_sorted m l : StronglySorted not_after l -> StronglySorted not_after (insert_model show_frac m l).
Proof.
  induction 1 as [|e l Hl IH He]; cbn [insert_model]; [by repeat constructor|].
  destruct (cmp m e) eqn:E.
  1,2: assert (Hme : not_after m e) by (unfold not_after; congruence); constructor; [by constructor|];
    constructor; [done|]; eapply Forall_impl; [exact He|]; intros x Hx; by transitivity e.
  constructor; [done|]. rewrite Forall_forall in He |- *. intros x Hx. rewrite insert_model_perm in Hx.
  apply elem_of_cons in Hx as [->|Hx]; [|by apply He]. unfold not_after. rewrite compareModels_opp, E. done.
Qed.

Lemma sort_models_perm l : sort_models show_frac l ≡ₚ l.
Proof. induction l as [|m l IH]; [done|]. unfold sort_models in *. cbn [foldr]. by rewrite insert_model_perm, IH. Qed.

Lemma sort_models_sorted l : StronglySorted not_after (sort_models show_frac l).
Proof. induction l as [|m l IH]; [constructor|]. by apply insert_model_sorted. Qed.

(** ** Merging *)

Lemma strict_eq_sym a b : strict_eq a b = strict_eq b a.
Proof.
  destruct a as [| |x|[x| | |]|x| |], b as [| |y|[y| | |]|y| |]; cbn [strict_eq]; try done.
  - by destruct x, y.
  - apply eq_bool_prop_intro. split; intros H%Is_true_true; apply Is_true_true; rewrite Qeqb_eq in *; by symmetry.
  - apply eq_bool_prop_intro. split; intros H%Is_true_true; apply Is_true_true; rewrite seqb_eq in *; by symmetry.
Qed.

Lemma strict_eq_trans a b c : strict_eq a b = true -> strict_eq b c = true -> strict_eq a c = true.
Proof.
  destruct a as [| |x|[x| | |]|x| |], b as [| |y|[y| | |]|y| |], c as [| |z|[z| | |]|z| |]; cbn [strict_eq]; try done.
  - by destruct x, y, z.
  - rewrite !Qeqb_eq. intros H1 H2. by rewrite H1.
  - rewrite !seqb_eq. congruence.
Qed.

(** The entries are pairwise of different identifiers. *)
Definition unique_ids (l : list jsval) : Prop :=
  forall i j a b, l !! i = Some a -> l !! j = Some b -> same_id a b = true -> i = j.

(** Every primitive identifier of the input has an entry that sorts not after it. *)
Definition represented (m : jsval) (l : list jsval) : Prop :=
  same_id m m = true -> exists e, e ∈ l /\ same_id m e = true /\ not_after e m.

Lemma keep_best_sub m acc x : x ∈ keep_best show_frac m acc -> x = m \/ x ∈ acc.
Proof.
  induction acc as [|e acc IH]; cbn [keep_best]; [set_solver|]. destruct (same_id m e); [destruct (cmp m e)|]; set_solver.
Qed.

Lemma keep_best_new m acc : represented m (keep_best show_frac m acc).
Proof.
  intros Hm. induction acc as [|e acc IH]; cbn [keep_best].
  - exists m. split_and!; [set_solver|done|]. unfold not_after. by rewrite compareModels_refl.
  - destruct (same_id m e) eqn:E; [|destruct IH as (x & ? & ? & ?); exists x; set_solver].
    destruct (cmp m e) eqn:Ec.
    2: { exists m. split_and!; [set_solver|done|]. unfold not_after. by rewrite compareModels_refl. }
    all: exists e; split_and!; [set_solver|done|]; unfold not_after; rewrite compareModels_opp, Ec; done.
Qed.

Lemma keep_best_old m x acc : represented x acc -> represented x (keep_best show_frac m acc).
Proof.
  intros H Hx. destruct (H Hx) as (e & He & Hi & Hn). clear H. induction acc as [|y acc IH]; [set_solver|].
  cbn [keep_best]. apply elem_of_cons in He as [->|He].
  - destruct (same_id m y) eqn:E; [|exists y; set_solver]. destruct (cmp m y) eqn:Ec; [by exists y; set_solver| |by exists y; set_solver].
    exists m. split_and!; [set_solver| |].
    + unfold same_id in *. eapply strict_eq_trans; [exact Hi|]. by rewrite strict_eq_sym.
    + apply compareModels_trans with y; [congruence|done].
  - destruct (same_id m y); [destruct (cmp m y); exists e; set_solver|].
    destruct (IH He) as (z & ? & ? & ?). exists z. set_solver.
Qed.

Lemma keep_best_ids m acc i x : keep_best show_frac m acc !! i = Some x ->
  (i = length acc /\ x = m /\ Forall (fun e => same_id m e = false) acc) \/
  exists y, acc !! i = Some y /\ (x = y \/ (x = m /\ same_id m y = true)).
Proof.
  revert i. induction acc as [|e acc IH]; intros i; cbn [keep_best].
  - destruct i; [|done]. intros [= <-]. by left.
  - destruct (same_id m e) eqn:E.
    + intros H. right. destruct i as [|i].
      * exists e. split; [done|]. destruct (cmp m e); simplify_eq/=; auto.
      * exists x. destruct (cmp m e); simplify_eq/=; auto.
    + destruct i as [|i]; [intros [= <-]; right; eauto|]. intros H. destruct (IH i H) as [(-> & -> & Hf)|(y & Hy & Hx)].
      * left. split_and!; [done|done|by constructor].
      * right. exists y. auto.
Qed.

Lemma same_id_sym a b : same_id a b = same_id b a.
Proof. apply strict_eq_sym. Qed.
Lemma same_id_trans a b c : same_id a b = true -> same_id b c = true -> same_id a c = true.
Proof. apply strict_eq_trans. Qed.

Lemma keep_best_unique m acc : unique_ids acc -> unique_ids (keep_best show_frac m acc).
Proof.
  intros H i j a b Hi Hj Hab. apply keep_best_ids in Hi as [(-> & -> & Fi)|(y & Hy & Hay)];
    apply keep_best_ids in Hj as [(-> & -> & Fj)|(z & Hz & Hbz)]; [done| | |].
  - rewrite Forall_forall in Fi. assert (same_id m z = false) by (by eapply Fi, list_elem_of_lookup_2).
    destruct Hbz as [->|[-> Hmz]]; congruence.
  - rewrite Forall_forall in Fj. assert (same_id m y = false) by (by eapply Fj, list_elem_of_lookup_2).
    destruct Hay as [->|[-> Hmz]]; [rewrite same_id_sym in Hab|]; congruence.
  - eapply H; [exact Hy|exact Hz|]. destruct Hay as [->|[-> Hmy]], Hbz as [->|[-> Hmz]]; [done| | |].
    + eapply same_id_trans; [exact Hab|exact Hmz].
    + eapply same_id_trans; [|exact Hab]. by rewrite same_id_sym.
    + eapply same_id_trans; [|exact Hmz]. by rewrite same_id_sym.
Qed.

Lemma by_model_id_spec l : unique_ids (by_model_id show_frac l) /\
  (forall x, x ∈ by_model_id show_frac l -> x ∈ l) /\ (forall m, m ∈ l -> represented m (by_model_id show_frac l)).
Proof.
  unfold by_model_id. assert (G : forall acc pre, unique_ids acc -> (forall x, x ∈ acc -> x ∈ pre) ->
    (forall m, m ∈ pre -> represented m acc) ->
    let r := fold_left (fun acc m => keep_best show_frac m acc) l acc in
    unique_ids r /\ (forall x, x ∈ r -> x ∈ pre ++ l) /\ (forall m, m ∈ pre ++ l -> represented m r)).
  { induction l as [|m l IH]; intros acc pre H1 H2 H3; cbn [fold_left]; [by rewrite app_nil_r|].
    specialize (IH (keep_best show_frac m acc) (pre ++ [m])). rewrite <- app_assoc in IH. apply IH.
    - by apply keep_best_unique.
    - intros x Hx. apply keep_best_sub in Hx as [->|Hx]; [set_solver|]. apply elem_of_app. left. by apply H2.
    - intros x Hx. apply elem_of_app in Hx as [Hx|Hx]; [by apply keep_best_old, H3|].
      apply list_elem_of_singleton in Hx as ->. apply keep_best_new. }
  apply (G [] []); [|set_solver|set_solver]. intros i j a b Hi. by rewrite lookup_nil in Hi.
Qed.

Lemma unique_ids_perm l l' : l ≡ₚ l' -> unique_ids l -> unique_ids l'.
Proof.
  intros Hp H i j a b Hi Hj Hab. symmetry in Hp. apply Permutation_inj in Hp as (_ & g & Hg & E).
  rewrite E in Hi, Hj. apply Hg. by eapply H.
Qed.

Lemma find_id_spec id l m : find_id id l = Some m -> m ∈ l /\ strict_eq (prop m (js "id")) id = true.
Proof. intros [H1 H2]%List.find_some. split; [by apply list_elem_of_In|done]. Qed.

Lemma strict_eq_str v s : strict_eq v (VStr s) = true -> v = VStr s.
Proof. destruct v as [| | |[]|x| |]; cbn; try done. by intros ->%seqb_eq. Qed.

End Order.

(** A listed model has a truthy identifier, the one the endpoint gave it. *)
Lemma catalogue_id endpoint result m : m ∈ catalogue endpoint result ->
  vtruthy (prop m (js "id")) = true /\ prop m source_key = VStr endpoint.
Proof.
  unfold catalogue. destruct result as [v|]; [|set_solver]. intros H. apply list_elem_of_fmap in H as (x & -> & Hx).
  apply list_elem_of_In, List.filter_In in Hx as [_ Hs]. unfold selectable in Hs. bool_norm.
  destruct x as [| | | | | |l]; try done. unfold assign_with. cbn [own_entries]. split.
  - assert (Hne : js "id" <> source_key) by done. pose proof (prop_put_ne _ _ (VStr endpoint) l Hne) as E.
    cbn [put] in E. by rewrite E.
  - apply (prop_put_eq source_key (VStr endpoint) l).
Qed.

Lemma merged_id show_frac {C : Collation} answers m :
  m ∈ merged_models show_frac answers -> vtruthy (prop m (js "id")) = true.
Proof.
  unfold merged_models. rewrite sort_models_perm. set (offers := answers ≫= _).
  destruct (by_model_id_spec show_frac offers) as (_ & H & _). intros Hm%H.
  apply list_elem_of_bind in Hm as (a & Hm & _).
  by destruct (catalogue_id _ _ _ Hm).
Qed.

(** Every offer has an entry with its identifier that sorts not after it. *)
Lemma merged_offers (show_frac : Q -> jsstring) {C : Collation} (answers : list (jsstring * option jsval)) m :
  m ∈ answers ≫= (fun a => catalogue a.1 a.2) -> same_id m m = true ->
  exists e, e ∈ merged_models show_frac answers /\ same_id m e = true /\ compareModels show_frac e m <> Gt.
Proof.
  intros Hm Hs. unfold merged_models. set (offers := answers ≫= _) in *.
  destruct (by_model_id_spec show_frac offers) as (_ & _ & H3). destruct (H3 m Hm Hs) as (e & He & Hi & Hn).
  exists e. split_and!; [|done|done]. by rewrite sort_models_perm.
Qed.

(** C9: The catalogue that [initialize] builds from the answers of all endpoints is sorted by
    [compareModels], holds only models an endpoint offers, has one entry per identifier,
    and for every offered model an entry with its identifier that does not sort after it:
    of several offers the best one is kept. *)
Theorem catalogue_keeps_the_best (show_frac : Q -> jsstring) {C : Collation} (answers : list (jsstring * option jsval)) :
  let ms := merged_models show_frac answers in
  let offers := answers ≫= fun a => catalogue a.1 a.2 in
  StronglySorted (fun a b => compareModels show_frac a b <> Gt) ms /\
  (forall m, m ∈ ms -> m ∈ offers) /\
  unique_ids ms /\
  (forall m, m ∈ offers -> same_id m m = true ->
     exists e, e ∈ ms /\ same_id m e = true /\ compareModels show_frac e m <> Gt).
Proof.
  cbv zeta. unfold merged_models. set (offers := answers ≫= _).
  destruct (by_model_id_spec show_frac offers) as (H1 & H2 & _).
  pose proof (sort_models_perm show_frac (by_model_id show_frac offers)) as P. split_and!.
  - apply sort_models_sorted.
  - intros m Hm. rewrite P in Hm. by apply H2.
  - eapply unique_ids_perm; [|exact H1]. by symmetry.
  - apply merged_offers.
Qed.

(** The selection is always one of the listed models, requests are routed to the endpoint
    that offers it, and its identifier is what the next visit finds in the store; a
    stored identifier is honoured exactly when the live catalogue lists it, otherwise the
    best model or the one a slot is running is taken. *)
Theorem selection_is_listed (show_frac : Q -> jsstring) {C : Collation} (origin : jsstring)
    (answers : list (jsstring * option jsval)) (slots : option jsval) (probed : option jsstring)
    (store : gmap jsstring jsstring) :
  let s := initialize show_frac origin answers slots probed (Some store) in
  (selectedModel s = None <-> models s = []) /\
  (forall m, selectedModel s = Some m ->
     m ∈ models s /\ localNodeEndpoint s = route_of origin m /\
     classes s = applyCapabilities show_frac m /\
     (exists st', stored s = Some st' /\ st' !! STORAGE_KEY = Some (to_str show_frac (prop m (js "id")))) /\
     (forall id, store !! STORAGE_KEY = Some id -> (exists x, x ∈ models s /\ prop x (js "id") = VStr id) ->
        prop m (js "id") = VStr id) /\
     (slots = None -> (forall x, x ∈ models s -> forall id, store !! STORAGE_KEY = Some id -> prop x (js "id") <> VStr id) ->
        Forall (fun x => compareModels show_frac m x <> Gt) (models s))).
Proof.
  cbv zeta. unfold initialize. pose proof (merged_id show_frac answers) as Hid.
  assert (Hsort : StronglySorted (not_after show_frac) (merged_models show_frac answers)) by apply sort_models_sorted.
  destruct (merged_models show_frac answers) as [|first rest]; [done|]. cbn [getItem].
  set (ms := first :: rest) in *. set (savedId := match store !! STORAGE_KEY with Some v => v | None => [] end).
  destruct (find_id (VStr savedId) ms) as [m|] eqn:Ef.
  - cbn [selectedModel models]. split; [done|]. intros m' [= <-]. cbn [localNodeEndpoint classes stored].
    apply find_id_spec in Ef as [Hm Hs]. apply strict_eq_str in Hs. split_and!; [done|done|done| | |].
    + exists store. split; [done|]. rewrite Hs. unfold savedId in *. specialize (Hid m Hm). rewrite Hs in Hid.
      by destruct (store !! STORAGE_KEY).
    + intros id Eid _. unfold savedId in Hs. by rewrite Eid in Hs.
    + intros _ Hnone. exfalso. specialize (Hid m Hm). rewrite Hs in Hid. unfold savedId in *.
      destruct (store !! STORAGE_KEY) as [id|] eqn:Eid; [|done]. by apply (Hnone m Hm id).
  - cbv zeta. set (m := match slots with Some v => _ | None => _ end). cbn [selectedModel models]. split; [done|].
    intros m' [= <-]. cbn [localNodeEndpoint classes stored].
    assert (Hfirst : first ∈ ms) by (by left).
    assert (Hm : m ∈ ms).
    { unfold m. destruct slots as [v|]; [|done]. destruct (find_id (active_id v) ms) eqn:E; [|done].
      by destruct (find_id_spec _ _ _ E). }
    split_and!; [done|done|done| | |].
    + unfold remember. cbn [setItem]. eexists. split; [reflexivity|]. apply lookup_insert_eq.
    + intros id Eid (x & Hx & Ex). exfalso. unfold savedId in Ef. rewrite Eid in Ef.
      apply list_elem_of_In in Hx. apply (List.find_none _ _ Ef) in Hx. rewrite Ex in Hx. cbn [strict_eq] in Hx.
      by rewrite seqb_refl in Hx.
    + intros Hs _. unfold m. rewrite Hs. inv Hsort. constructor; [|done].
      unfold not_after. by rewrite compareModels_refl.
Qed.

(** Two endpoints that both offer one model. *)
Definition two_answers : list (jsstring * option jsval) :=
  [(js "https://mesh.example", Some (VObj [(js "data", VArr [
      VObj [(js "id", VStr (js "qwen2.5:7b"))];
      VObj [(js "id", VStr (js "llama-70b")); (js "available", VBool false)];
      VObj [(js "id", VStr (js "gemma3 4 billion"))]])]));
   (js "http://127.0.0.1:8080", Some (VObj [(js "data", VArr [
      VObj [(js "id", VStr (js "qwen2.5:7b")); (js "status", VStr (js "loaded"))]])]));
   (js "https://down.example", None)].

Lemma catalogue_keeps_the_best_witness :
  unique_ids (merged_models (fun _ => []) two_answers) /\ length (merged_models (fun _ => []) two_answers) = 2%nat.
Proof.
  split; [|vm_compute; reflexivity].
  exact (proj1 (proj2 (proj2 (catalogue_keeps_the_best (fun _ => []) two_answers)))).
Defined.

Example two_answers_merged :
  (fun m => (prop m (js "id"), prop m source_key)) <$> merged_models (fun _ => []) two_answers =
  [(VStr (js "qwen2.5:7b"), VStr (js "http://127.0.0.1:8080")); (VStr (js "gemma3 4 billion"), VStr (js "https://mesh.example"))].
Proof. vm_compute. reflexivity. Qed.

Example stored_hint_is_checked :
  let start st := initialize (fun _ => []) (js "https://mesh.example") two_answers None None (Some st) in
  let chosen st := (fun m => prop m (js "id")) <$> selectedModel (start st) in
  chosen ∅ = Some (VStr (js "qwen2.5:7b")) /\
  chosen (<[STORAGE_KEY := js "gemma3 4 billion"]> ∅) = Some (VStr (js "gemma3 4 billion")) /\
  chosen (<[STORAGE_KEY := js "llama-70b"]> ∅) = Some (VStr (js "qwen2.5:7b")) /\
  localNodeEndpoint (start ∅) = Some (js "http://127.0.0.1:8080").
Proof. vm_compute. done. Qed.
