(* ===== verification/ModelRouting.v ===== *)
(** * The intercepted [fetch] of the web UI (webui/model-selector.js)

    [isCompletionUrl], [isPropsUrl], [withSelectedModel], the routing of completion
    requests to the node that offers the selected model, the fallback to the gateway, the
    rewriting of [/props] and of the addresses of generated pictures.  Address parsing is
    the browser's [URL] class and a parameter. *)
From Stdlib Require Import Lia NArith ZArith QArith.
From stdpp Require Import base numbers list gmap strings.
From S2P Require Import Prelude JsString JsNumber JsValue JsJson JsonRoundTrip MeshNotice ImageFit ModelChoice.

(** ** Requests *)

Definition header_list : Type := list (jsstring * jsstring).

(** [fetchOptions.body]: a string, or a value that is not one (a form, a blob). *)
Inductive body_init : Type :=
| TextBody (s : jsstring)
| OtherBody.

Record options := Options {
  o_method : option jsstring;
  o_headers : option header_list;
  o_body : option body_init;
}.

Record request_object := RequestObject { r_url : jsstring; r_method : jsstring; r_headers : header_list; r_text : jsstring }.

(** The first argument of [fetch]. *)
Inductive input : Type :=
| Address (url : jsstring)
| Request (r : request_object).

Definition raw_url (i : input) : jsstring := match i with Address u => u | Request r => r_url r end.

(** What is handed to [originalFetch]. *)
Record sent := Sent { to : input; with_options : option options }.

(** The functions of the browser that [fitChatBody] uses on pictures. *)
Record pictures := Pictures {
  p_fetch : jsstring -> outcome jsstring (jsstring * Z * jsstring);
  p_read : file -> outcome jsstring jsstring;
  p_bitmap : file -> option (positive * positive);
  p_context2d : bool;
  p_toBlob : file -> Z -> Z -> output -> option Q -> option blob;
}.

Section Routing.
(** [new URL(raw, window.location.href).pathname], [None] when it throws. *)
Context (url_pathname : jsstring -> option jsstring) (show_frac : Q -> jsstring) (origin : jsstring) {C : Collation}
  (P : pictures).

#[local] Abbreviation fit := (fitChatBody show_frac (p_fetch P) (p_read P) (p_bitmap P) (p_context2d P) (p_toBlob P)).

(** ** Which requests are intercepted *)

(** [path.replace(/\/$/, '')] *)
Definition strip_slash (s : jsstring) : jsstring :=
  match reverse s with c :: r => if (c =? 47)%N then reverse r else s | [] => [] end.

(** A path that ends with a name after its start or after a slash. *)
Definition ends_in (path name : jsstring) : bool := seqb path name || ends_with (47%N :: name) path.

(** [/(?:^|\/)(?:v1\/)?(?:chat\/completions|completions|completion)$/] *)
Definition completion_names : list jsstring :=
  js <$> ["v1/chat/completions"; "v1/completions"; "v1/completion"; "chat/completions"; "completions"; "completion"]%string.

(** [/(?:^|\/)(?:webui\/)?(?:api\/)?(?:v1\/)?props$/] *)
Definition props_names : list jsstring :=
  js <$> ["webui/api/v1/props"; "webui/api/props"; "webui/v1/props"; "webui/props"; "api/v1/props"; "api/props"; "v1/props"; "props"]%string.

Definition url_ends_in (names : list jsstring) (i : input) : bool :=
  truthy (raw_url i) &&
  match url_pathname (raw_url i) with
  | Some p => existsb (ends_in (strip_slash p)) names
  | None => false
  end.

Definition isCompletionUrl : input -> bool := url_ends_in completion_names.
Definition isPropsUrl : input -> bool := url_ends_in props_names.

(** ** Completion requests *)

(** The test of [withSelectedModel] on the parsed body. *)
Definition chat_body (v : jsval) : bool :=
  vtruthy v && is_object v &&
  (match prop v (js "messages") with VArr _ => true | _ => false end || is_string (prop v (js "prompt"))).

(** [withSelectedModel(bodyText)]: [None] is [null]. *)
Definition withSelectedModel (selected : option jsval) (bodyText : jsstring) : outcome jsstring (option jsstring) :=
  match selected with
  | Some m =>
      if truthy bodyText then
        match JSON_parse bodyText with
        | Ret body =>
            if chat_body body
            then match fit (put (js "model") (prop m (js "id")) body) with Ret s => Ret (Some s) | Throw e => Throw e end
            else Ret None
        | Throw _ => Ret None
        end
      else Ret None
  | None => Ret None
  end.

(** [init ? Object.assign({}, init) : {}] *)
Definition no_options : options := Options None None None.

Definition without_length (h : header_list) : header_list := filter (fun e => e.1 <> js "content-length") h.

(** The options of a completion request after its body was rewritten. *)
Definition completion_options (selected : option jsval) (i : input) (init : option options) : outcome jsstring options :=
  let o := default no_options init in
  match o_body o, i with
  | Some (TextBody s), _ =>
      match withSelectedModel selected s with
      | Ret (Some s') => if truthy s' then Ret (Options (o_method o) (o_headers o) (Some (TextBody s'))) else Ret o
      | Ret None => Ret o
      | Throw e => Throw e
      end
  | _, Request r =>
      match withSelectedModel selected (r_text r) with
      | Ret (Some s') =>
          if truthy s' then Ret (Options (Some (r_method r)) (Some (without_length (r_headers r))) (Some (TextBody s')))
          else Ret o
      | Ret None => Ret o
      | Throw e => Throw e
      end
  | _, Address _ => Ret o
  end.

(** [Boolean(localNodeEndpoint && window.location.origin !== localNodeEndpoint)] *)
Definition cross_route (s : selection) : option jsstring :=
  match localNodeEndpoint s with
  | Some e => if truthy e && negb (seqb e origin) then Some e else None
  | None => None
  end.

Definition completion_target (s : selection) (i : input) : input :=
  match cross_route s with
  | Some e => Address (e ++ js "/webui/chat/completions")%list
  | None => i
  end.

(** The request [window.fetch(input, init)] makes once the probe and the selection are
    ready; [Throw] when the body cannot be fitted. *)
Definition intercept (s : selection) (i : input) (init : option options) : outcome jsstring sent :=
  if isPropsUrl i && (if selectedModel s then true else false) then Ret (Sent i init)
  else if isCompletionUrl i then
    match completion_options (selectedModel s) i init with
    | Ret o => Ret (Sent (completion_target s i) (Some o))
    | Throw e => Throw e
    end
  else Ret (Sent i init).

(** The [catch] of a completion request that failed with [err] after [o] was sent to a
    node: the gateway's first model is selected and the request goes to [input]. *)
Definition fall_back (s : selection) (i : input) (o : options) (err : jsstring) : selection * outcome jsstring sent :=
  match cross_route s with
  | None => (s, Throw err)
  | Some _ =>
      match List.find (fun m => strict_eq (prop m source_key) (VStr origin)) (models s) with
      | None => (Selection (models s) (selectedModel s) None (stored s) (classes s), Throw err)
      | Some m =>
          let s' := Selection (models s) (Some m) None (remember show_frac m (stored s)) (applyCapabilities show_frac m) in
          (s', match withSelectedModel (Some m) (match o_body o with Some (TextBody t) => t | _ => [] end) with
               | Ret (Some t) =>
                   if truthy t then Ret (Sent i (Some (Options (o_method o) (o_headers o) (Some (TextBody t)))))
                   else Ret (Sent i (Some o))
               | Ret None => Ret (Sent i (Some o))
               | Throw e => Throw e
               end)
      end
  end.

(** ** The properties of the model *)

(** The edit of a [/props] answer; [Throw] where an assignment to a primitive throws. *)
Definition rewrite_props (m props : jsval) : outcome jsstring jsval :=
  match props with
  | VObj l =>
      let dgs := prop props (js "default_generation_settings") in
      let dgs := if vtruthy dgs then dgs else VObj [] in
      match dgs with
      | VObj _ | VArr _ =>
          Ret (put (js "modalities")
                 (VObj [(js "vision", VBool (has_modality show_frac (js "vision") m));
                        (js "audio", VBool (has_modality show_frac (js "audio") m));
                        (js "video", VBool (has_modality show_frac (js "video") m))])
              (put (js "model_alias") (VStr (displayName show_frac m))
              (put (js "model_path") (prop m (js "id"))
              (put (js "default_generation_settings") (put (js "model") (prop m (js "id")) dgs) props))))
      | _ => Throw (js "TypeError")
      end
  | VArr _ => Ret props
  | _ => Throw (js "TypeError")
  end.

(** The response to a [/props] request while a model is selected. *)
Definition props_response (m : jsval) (ok : bool) (r : response) : response :=
  if ok then
    match JSON_parse (body r) with
    | Ret props =>
        match rewrite_props m props with
        | Ret p => Response (status r) (without_headers stale_headers (headers r)) (JSON_stringify show_frac p)
        | Throw _ => r
        end
    | Throw _ => r
    end
  else r.

(** ** Addresses of generated pictures *)

Definition name_unit (c : N) : bool := word_unit c || (c =? 45)%N.

Fixpoint take_name (s : jsstring) : jsstring :=
  match s with c :: r => if name_unit c then c :: take_name r else [] | [] => [] end.

(** [/\/generated\/image_[a-zA-Z0-9_-]+\.(?:png|jpg|jpeg|webp)/] at the head: its length. *)
Definition match_image (s : jsstring) : option nat :=
  if starts_with (js "/generated/image_") s then
    let r := drop 17 s in
    let name := take_name r in
    match name with
    | [] => None
    | _ =>
        let k := (17 + length name)%nat in
        let ext := List.find (fun e => starts_with e (drop (length name) r)) [js ".png"; js ".jpg"; js ".jpeg"; js ".webp"] in
        (fun e => k + length e)%nat <$> ext
    end
  else None.

(** [text.replace(regexp, endpoint + '$1')]; an endpoint has no dollar sign. *)
Fixpoint rewrite_images (endpoint : jsstring) (skip : nat) (s : jsstring) : jsstring :=
  match s with
  | [] => []
  | c :: r =>
      match skip with
      | S k => c :: rewrite_images endpoint k r
      | O => match match_image s with
             | Some n => (endpoint ++ c :: rewrite_images endpoint (pred n) r)%list
             | None => c :: rewrite_images endpoint 0 r
             end
      end
  end.

(** The transformer of a stream from a node rewrites each part on its own. *)
Definition rewrite_parts (endpoint : jsstring) (parts : list jsstring) : jsstring :=
  concat (rewrite_images endpoint 0 <$> parts).

End Routing.

(** ** What reaches the network *)

Lemma str_not_empty show_frac l : truthy (JSON_stringify show_frac (VObj l)) = true.
Proof. reflexivity. Qed.

(** A body without pictures, or one that is small enough, is sent as it is. *)
Lemma fit_as_is show_frac P v :
  (utf8_size (JSON_stringify show_frac v) <= maxChatRequestBytes)%Z \/ findImageDataUrls v = [] ->
  fitChatBody show_frac (p_fetch P) (p_read P) (p_bitmap P) (p_context2d P) (p_toBlob P) v = Ret (JSON_stringify show_frac v).
Proof.
  intros H. unfold fitChatBody. cbv zeta. destruct (_ <=? maxChatRequestBytes)%Z eqn:E; [done|].
  destruct H as [H|H]; [apply Z.leb_le in H; congruence|]. by rewrite H.
Qed.

(** Where a completion goes is where its selection says. *)
Lemma routed_target origin s m url : localNodeEndpoint s = route_of origin m ->
  completion_target origin s (Address url)
  = match route_of origin m with Some e => Address (e ++ js "/webui/chat/completions")%list | None => Address url end.
Proof.
  intros Hr. unfold completion_target, cross_route. rewrite Hr. unfold route_of.
  destruct (prop m source_key) as [| | | |e| |]; try done. destruct (truthy e && negb (seqb e origin)) eqn:E; [|done]. by rewrite E.
Qed.

(** The paths of the examples: an address is its own path. *)
Definition whole_path (u : jsstring) : option jsstring := Some u.
(** A browser that can do nothing with pictures. *)
Definition no_pictures : pictures := Pictures (fun _ => Throw []) (fun _ => Throw []) (fun _ => None) false (fun _ _ _ _ _ => None).

Definition node_model : jsval :=
  VObj [(js "id", VStr (js "qwen2.5:7b")); (source_key, VStr (js "http://127.0.0.1:8080"))].
Definition gateway_model : jsval :=
  VObj [(js "id", VStr (js "gemma3:4b")); (source_key, VStr (js "https://mesh.example"))].
Definition on_node (l : list jsval) : selection :=
  Selection l (Some node_model) (Some (js "http://127.0.0.1:8080")) (Some ∅) (true, true, true).

Definition sample_text : jsstring := jsq "{`model`:`x`,`messages`:[],`stream`:true}".
Definition sample_fields : list (jsstring * jsval) :=
  [(js "model", VStr (js "x")); (js "messages", VArr []); (js "stream", VBool true)].

Lemma with_model_small show_frac P m text fields : JSON_parse text = Ret (VObj fields) -> chat_body (VObj fields) = true ->
  let v := put (js "model") (prop m (js "id")) (VObj fields) in
  ((utf8_size (JSON_stringify show_frac v) <= maxChatRequestBytes)%Z \/ findImageDataUrls v = []) ->
  withSelectedModel show_frac P (Some m) text = Ret (Some (JSON_stringify show_frac v)) /\
  truthy (JSON_stringify show_frac v) = true.
Proof.
  intros Ht Hb v Hv. unfold withSelectedModel. assert (Et : truthy text = true) by (by destruct text).
  rewrite Et, Ht, Hb. fold v. by rewrite (fit_as_is show_frac P v Hv).
Qed.



(** ** Where the routing goes wrong *)

(** Without a gateway model the fallback forgets the route but keeps the selection: the
    next request asks the gateway for a model that only the node offers. *)
Theorem fallback_keeps_an_unroutable_model :
  let s := on_node [node_model] in
  let call := Options (Some (js "POST")) None (Some (TextBody (jsq "{`messages`:[]}"))) in
  let '(s', r) := fall_back (fun _ => []) (js "https://mesh.example") no_pictures s (Address (js "/v1/chat/completions"))
    call (js "unreachable") in
  r = Throw (js "unreachable") /\
  intercept whole_path (fun _ => []) (js "https://mesh.example") no_pictures s' (Address (js "/v1/chat/completions")) (Some call)
  = Ret (Sent (Address (js "/v1/chat/completions"))
      (Some (Options (Some (js "POST")) None (Some (TextBody (jsq "{`messages`:[],`model`:`qwen2.5:7b`}")))))).
Proof. vm_compute. done. Qed.

(** A [Request] object that is routed to a node while no model is selected loses its
    method, headers and body. *)
Lemma routed_request_object_becomes_a_get :
  let s := Selection [] None (Some (js "http://127.0.0.1:8080")) None (true, true, true) in
  intercept whole_path (fun _ => []) (js "https://mesh.example") no_pictures s
    (Request (RequestObject (js "/v1/chat/completions") (js "POST") [] (jsq "{`messages`:[]}"))) None
  = Ret (Sent (Address (js "http://127.0.0.1:8080/webui/chat/completions")) (Some no_options)).
Proof. vm_compute. done. Qed.

(** A prompt for text completion is sent to the chat address of the node. *)
Lemma text_completion_is_sent_to_chat :
  exists o, intercept whole_path (fun _ => []) (js "https://mesh.example") no_pictures (on_node [node_model]) (Address (js "/v1/completions"))
    (Some (Options (Some (js "POST")) None (Some (TextBody (jsq "{`prompt`:`a`}")))))
  = Ret (Sent (Address (js "http://127.0.0.1:8080/webui/chat/completions")) o).
Proof. eexists. vm_compute. reflexivity. Qed.

(** The address of a picture is completed when it arrives in one part of the stream and
    not when the network cuts it in two. *)
Theorem split_picture_address_is_not_completed :
  let node := js "http://127.0.0.1:8080" in
  rewrite_parts node [js "see /generated/image_7.png!"] = js "see http://127.0.0.1:8080/generated/image_7.png!" /\
  rewrite_parts node [js "see /generated/ima"; js "ge_7.png!"] = js "see /generated/image_7.png!".
Proof. vm_compute. done. Qed.
