(* ===== verification/SelectorSessions.v ===== *)
(** * The agent sessions of the web UI (webui/model-selector.js)

    The session list, its selection, the 1.5 s event poll, tasks, controls and approvals:
    [initializeAgentSessions], [pollAgentSessionEvents], [renderAgentSessionPanel],
    [submitAgentTask], [controlAgentSession], [resolveAgentApproval],
    [refreshAgentApprovals], [refreshAgentArtifacts] and the listener of the session menu.
    An asynchronous function is cut at its requests; between a request and its answer any
    other event may happen.  The panel exists (the page has a body), and the gateway's
    lists hold objects whose artifact references [encodeURIComponent] accepts, so that
    drawing the lists ([SessionViews.v]) does not throw. *)
From Stdlib Require Import Lia NArith ZArith QArith Qround.
From stdpp Require Import base numbers list gmap strings.
From S2P Require Import Prelude JsString JsNumber JsValue JsJson Auth MeshNotice SelectorLabels SelectorStore.

(** ** Requests *)

Inductive task_mode : Type := Create | Continue.

Inductive request : Type :=
| GetSessions
| GetEvents (id : jsstring) (after : num)
| GetApprovals
| GetArtifacts (id : jsstring)
| PostSession (model prompt : jsstring)
| PostTurn (id prompt : jsstring)
| PostControl (id action : jsstring)
| PostApproval (id decision : jsstring).

(** The answer: a response with its JSON body ([None] when it has none), or an exception. *)
Inductive reply : Type :=
| Resp (ok : bool) (status : Z) (body : option jsval)
| Failed.

(** ** State *)

(** What a pending request continues with.  [InitFor] tells whether the session list was
    asked for by a task or a control, which holds the busy flag. *)
Inductive pending : Type :=
| Poll
| PollApprovals
| PollArtifacts
| InitFor (busy : bool)
| Submit (m : task_mode)
| Control
| Resolve
| Approvals
| Artifacts.

Record poller := Poller { inFlight : bool; blocked : bool; timer : bool }.

Record view := View {
  lastEvent : option jsstring;
  activity : list (option jsstring);
  artifacts : list jsval;
  approvals : list jsval;
  message : option jsstring;
  failed : bool;
}.

Record state := State {
  sessions : list jsval;
  sessionId : jsstring;
  cursor : num;
  poll : poller;
  shown : view;
  busy : bool;
  prompt : jsstring;
  kept : stores;
  tasks : gmap nat pending;
  next : nat;
  log : list request;
}.

Definition state0 (st : stores) : state :=
  State [] [] (num_Z 0) (Poller false false false) (View (Some []) [] [] [] None false) false [] st ∅ 0 [].

Definition with_sessions (l : list jsval) (s : state) : state :=
  State l (sessionId s) (cursor s) (poll s) (shown s) (busy s) (prompt s) (kept s) (tasks s) (next s) (log s).
Definition with_id (id : jsstring) (c : num) (s : state) : state :=
  State (sessions s) id c (poll s) (shown s) (busy s) (prompt s) (kept s) (tasks s) (next s) (log s).
Definition with_poll (p : poller) (s : state) : state :=
  State (sessions s) (sessionId s) (cursor s) p (shown s) (busy s) (prompt s) (kept s) (tasks s) (next s) (log s).
Definition with_view (v : view) (s : state) : state :=
  State (sessions s) (sessionId s) (cursor s) (poll s) v (busy s) (prompt s) (kept s) (tasks s) (next s) (log s).
Definition with_busy (b : bool) (s : state) : state :=
  State (sessions s) (sessionId s) (cursor s) (poll s) (shown s) b (prompt s) (kept s) (tasks s) (next s) (log s).
Definition with_prompt (p : jsstring) (s : state) : state :=
  State (sessions s) (sessionId s) (cursor s) (poll s) (shown s) (busy s) p (kept s) (tasks s) (next s) (log s).
Definition with_kept (st : stores) (s : state) : state :=
  State (sessions s) (sessionId s) (cursor s) (poll s) (shown s) (busy s) (prompt s) st (tasks s) (next s) (log s).
Definition with_tasks (t : gmap nat pending) (s : state) : state :=
  State (sessions s) (sessionId s) (cursor s) (poll s) (shown s) (busy s) (prompt s) (kept s) t (next s) (log s).

Definition with_event (o : option jsstring) (v : view) : view :=
  View o (activity v) (artifacts v) (approvals v) (message v) (failed v).
Definition with_artifacts (l : list jsval) (v : view) : view :=
  View (lastEvent v) (activity v) l (approvals v) (message v) (failed v).
Definition with_approvals (l : list jsval) (v : view) : view :=
  View (lastEvent v) (activity v) (artifacts v) l (message v) (failed v).
Definition with_message (o : option jsstring) (bad : bool) (v : view) : view :=
  View (lastEvent v) (activity v) (artifacts v) (approvals v) o bad.

(** A request is sent and its continuation waits for the answer. *)
Definition send (r : request) (k : pending) (s : state) : state :=
  State (sessions s) (sessionId s) (cursor s) (poll s) (shown s) (busy s) (prompt s) (kept s)
    (<[next s := k]> (tasks s)) (S (next s)) (log s ++ [r]).

Section Panel.
Context (show_frac : Q -> jsstring) (htmlLang navLang : jsstring).
#[local] Abbreviation str := (to_str show_frac).
#[local] Abbreviation text key := (agentSessionText htmlLang navLang (js key)).
#[local] Abbreviation status_label := (agentSessionStatusText show_frac htmlLang navLang).

(** [encodeURIComponent] of an identifier throws on an unpaired surrogate. *)
Definition encodable (id : jsstring) : bool := match encodeURIComponent id with Some _ => true | None => false end.

(** [agentSessions.find(session => String(session.session_id) === agentSessionId)] *)
Definition session_with (id : jsstring) (l : list jsval) : option jsval :=
  List.find (fun x => seqb (str (prop x (js "session_id"))) id) l.
Definition selected (s : state) : option jsval := session_with (sessionId s) (sessions s).

Definition terminal (x : jsval) : bool := agentSessionTerminal show_frac (prop x (js "status")).

Definition restore_cursor (id : jsstring) (s : state) : state := with_id id (restoreAgentSessionCursor id (kept s)) s.

(** The values of the options of the session menu. *)
Definition option_values (s : state) : list jsstring := (fun x => text_of show_frac (prop x (js "session_id"))) <$> sessions s.

(** [renderAgentSessionPanel()]: the part that changes the state.  A menu whose value is
    set to a missing option has the empty value. *)
Definition renderAgentSessionPanel (s : state) : state :=
  match option_values s with
  | [] => with_view (with_artifacts [] (shown s)) s
  | first :: _ =>
      if bool_decide (sessionId s ∈ option_values s) || negb (truthy (sessionId s)) then s
      else restore_cursor first s
  end.

Definition fail_event (key : string) (s : state) : state :=
  renderAgentSessionPanel (with_view (with_event (text key) (shown s)) s).

(** [describeAgentSessionEvent(event)] *)
Definition describeAgentSessionEvent (event : jsval) : option jsstring :=
  let type := lower (str (vor (if vtruthy event then prop event (js "event_type") else event) (VStr []))) in
  let p := if vtruthy event then prop event (js "payload") else event in
  let to := if vtruthy p && is_object p then prop p (js "to") else VUndef in
  if seqb type (js "session.status_changed") && vtruthy to then status_label to
  else if seqb type (js "approval.required") then status_label (VStr (js "waiting_for_approval"))
  else if includes (js "tool.started") type || includes (js "inference.started") type then status_label (VStr (js "running"))
  else if includes (js "completed") type then status_label (VStr (js "completed"))
  else if includes (js "failed") type then status_label (VStr (js "failed"))
  else text "waiting".

(** [Array.isArray(payload && payload.k) ? payload.k : []] *)
Definition list_at (payload : jsval) (k : jsstring) : list jsval :=
  if vtruthy payload then array_or_nil (prop payload k) else [].

(** ** Approvals and artifacts *)

(** [refreshAgentApprovals()], with the continuation of its caller. *)
Definition refreshAgentApprovals (k : pending) (s : state) : state := send GetApprovals k s.

Definition on_approvals (r : reply) (s : state) : state :=
  match r with
  | Resp true _ (Some payload) =>
      renderAgentSessionPanel (with_view (with_approvals (list_at payload (js "approvals")) (shown s)) s)
  | _ => s
  end.

Definition on_artifacts (r : reply) (s : state) : state :=
  match r with
  | Resp true _ (Some payload) => with_view (with_artifacts (list_at payload (js "artifacts")) (shown s)) s
  | _ => s
  end.

(** [refreshAgentArtifacts()] returns at once without a session or when its address cannot
    be built; [done] is what the caller does then. *)
Definition refreshAgentArtifacts (k : pending) (done : state -> state) (s : state) : state :=
  if truthy (sessionId s) && encodable (sessionId s) then send (GetArtifacts (sessionId s)) k s else done s.

(** ** Polling *)

(** The [finally] of a poll: the flag is cleared and the next poll is scheduled unless the
    session has ended. *)
Definition finish_poll (s : state) : state :=
  let p := poll s in
  let go_on := truthy (sessionId s) && match selected s with Some x => negb (terminal x) | None => true end in
  with_poll (Poller false (blocked p) (go_on || timer p)) s.

(** [pollAgentSessionEvents()] up to its request. *)
Definition pollAgentSessionEvents (s : state) : state :=
  let p := poll s in
  if negb (truthy (sessionId s)) || inFlight p || blocked p then s
  else if match selected s with Some x => terminal x | None => false end
          && match lastEvent (shown s) with Some t => truthy t | None => false end then s
  else
    let s1 := with_poll (Poller true (blocked p) (timer p)) s in
    if encodable (sessionId s) then send (GetEvents (sessionId s) (cursor s)) Poll s1
    else finish_poll (fail_event "unavailable" s1).

Definition last_12 (l : list (option jsstring)) : list (option jsstring) := last_n 12 l.

(** [agentSessions[index] = Object.assign({}, agentSessions[index], payload.session)] *)
Fixpoint merge_session (id : jsstring) (x : jsval) (l : list jsval) : list jsval :=
  match l with
  | [] => []
  | y :: r =>
      if seqb (str (prop y (js "session_id"))) id
      then VObj (fold_left (fun o e => set_member e.1 e.2 o) (own_entries x) (own_entries y)) :: r
      else y :: merge_session id x r
  end.

Definition take_session (payload : jsval) (s : state) : state :=
  let x := if vtruthy payload then prop payload (js "session") else payload in
  if vtruthy x then
    let l := merge_session (sessionId s) x (sessions s) in
    with_kept (saveAgentSessionCache show_frac l (kept s)) (with_sessions l s)
  else s.

Definition take_events (payload : jsval) (s : state) : state :=
  match list_at payload (js "events") with
  | [] => s
  | es =>
      let v := shown s in
      with_view (View (describeAgentSessionEvent (default VUndef (last es)))
                   (last_12 (activity v ++ (describeAgentSessionEvent <$> es)))
                   (artifacts v) (approvals v) (message v) (failed v)) s
  end.

Definition take_cursor (payload : jsval) (s : state) : state :=
  let n := Number (prop payload (js "next_sequence")) in
  if vtruthy payload && is_finite n then
    let c := num_max (cursor s) n in
    with_kept (saveAgentSessionCursor show_frac (sessionId s) c (kept s)) (with_id (sessionId s) c s)
  else s.

(** The answer of the event request. *)
Definition on_poll (r : reply) (s : state) : state :=
  match r with
  | Resp true _ (Some payload) =>
      refreshAgentApprovals PollApprovals (take_cursor payload (take_events payload (take_session payload s)))
  | Resp false status _ =>
      finish_poll
        (if bool_decide (status ∈ [401; 403; 404]%Z)
         then fail_event "unavailable" (with_poll (Poller (inFlight (poll s)) true (timer (poll s))) s)
         else s)
  | _ => finish_poll (fail_event "unavailable" s)
  end.

Definition end_poll (s : state) : state := finish_poll (renderAgentSessionPanel s).

Definition on_poll_approvals (r : reply) (s : state) : state :=
  refreshAgentArtifacts PollArtifacts end_poll (on_approvals r s).
Definition on_poll_artifacts (r : reply) (s : state) : state := end_poll (on_artifacts r s).

(** The timer of [setTimeout(pollAgentSessionEvents, 1500)] fires. *)
Definition on_timer (s : state) : state :=
  if timer (poll s) then pollAgentSessionEvents (with_poll (Poller (inFlight (poll s)) (blocked (poll s)) false) s) else s.

(** ** The session list *)

Definition session_id_key : jsstring := js "cm_agent_session_id".

(** The preferred session: the stored one, the first that runs, the first. *)
Definition preferred (stored : jsstring) (l : list jsval) : jsval :=
  match session_with stored l with
  | Some x => x
  | None => match List.find (fun x => negb (terminal x)) l with
            | Some x => x
            | None => default VUndef (head l)
            end
  end.

Definition stored_id (s : state) : jsstring := default [] (agentStorageGet session_id_key (kept s)).

(** [initializeAgentSessions()] up to its request. *)
Definition initializeAgentSessions (b : bool) (s : state) : state :=
  let cached := restoreAgentSessionCache show_frac (kept s) in
  let s1 :=
    match sessions s, cached with
    | [], _ :: _ =>
        let s1 := with_sessions cached s in
        let id := text_of show_frac (prop (preferred (stored_id s) cached) (js "session_id")) in
        pollAgentSessionEvents (renderAgentSessionPanel (restore_cursor id s1))
    | _, _ => s
    end in
  send GetSessions (InitFor b) (renderAgentSessionPanel s1).

(** The list arrived. *)
Definition take_sessions (l : list jsval) (s : state) : state :=
  match l with
  | [] =>
      renderAgentSessionPanel
        (with_kept (agentStorageRemove AGENT_SESSION_CACHE_KEY (kept s)) (with_sessions [] s))
  | _ =>
      let s1 := with_kept (saveAgentSessionCache show_frac l (kept s)) (with_sessions l s) in
      let s2 := with_poll (Poller (inFlight (poll s1)) false (timer (poll s1))) s1 in
      let id := text_of show_frac (prop (preferred (stored_id s2) l) (js "session_id")) in
      let s3 := with_kept (agentStorageSet session_id_key id (kept s2)) s2 in
      pollAgentSessionEvents (refreshAgentApprovals Approvals (renderAgentSessionPanel (restore_cursor id s3)))
  end.

(** The [finally] of a task or a control that waited for the list. *)
Definition release (b : bool) (s : state) : state := if b then with_busy false s else s.

Definition on_init (b : bool) (r : reply) (s : state) : state :=
  release b
    match r with
    | Resp true _ (Some payload) => take_sessions (list_at payload (js "sessions")) s
    | Resp false status _ =>
        if bool_decide (status ∈ [401; 403]%Z)
        then renderAgentSessionPanel
               (with_kept (agentStorageRemove AGENT_SESSION_CACHE_KEY (kept s)) (with_id [] (cursor s) (with_sessions [] s)))
        else s
    | _ => s
    end.

(** ** Tasks and controls *)

Definition set_message (o : option jsstring) (bad : bool) (s : state) : state :=
  with_view (with_message o bad (shown s)) s.

(** The [catch] and [finally] of a task: [error.message], or the default text when it is
    empty. *)
Definition fail_task (e : jsstring) (fallback : option jsstring) (s : state) : state :=
  with_busy false (set_message (if truthy e then Some e else fallback) true s).

Definition ready (x : jsval) : bool := seqb (status_name show_frac (prop x (js "status"))) (js "ready").

(** [submitAgentTask(mode)] up to its request; [model] is the selected model. *)
Definition submitAgentTask (m : task_mode) (model : option jsval) (s : state) : state :=
  let input := trim (prompt s) in
  match model with
  | None => s
  | Some model =>
      if busy s || negb (truthy input) then s
      else if match m with
              | Continue => negb (match selected s with Some x => ready x | None => false end)
              | Create => false
              end then s
      else
        let s1 := set_message (Some []) false (with_busy true s) in
        match m with
        | Create => send (PostSession (str (prop model (js "id"))) input) (Submit Create) s1
        | Continue =>
            if encodable (sessionId s) then send (PostTurn (sessionId s) input) (Submit Continue) s1
            else fail_task (js "URI malformed") (text "taskError") s1
        end
  end.

(** [(payload.error && payload.error.message) || fallback], thrown as an [Error]; a
    [null] payload throws a [TypeError]. *)
Definition error_text (payload : jsval) (fallback : option jsstring) : jsstring :=
  match payload with
  | VNull | VUndef => js "Cannot read properties of null"
  | _ =>
      let e := prop payload (js "error") in
      let m := if vtruthy e then prop e (js "message") else e in
      if vtruthy m then str m else default [] fallback
  end.

Definition on_submit (m : task_mode) (r : reply) (s : state) : state :=
  match r with
  | Failed => fail_task (js "Failed to fetch") (text "taskError") s
  | Resp ok _ b =>
      let payload := default (VObj []) b in
      if negb ok then fail_task (error_text payload (text "taskError")) (text "taskError") s
      else
        let s1 : outcome jsstring state :=
          match m, payload with
          | Create, (VNull | VUndef) => Throw (js "Cannot read properties of null")
          | Create, _ =>
              let x := prop payload (js "session") in
              let id := if vtruthy x then prop x (js "session_id") else x in
              if vtruthy id
              then Ret (let s' := with_kept (agentStorageSet session_id_key (str id) (kept s)) s in restore_cursor (str id) s')
              else Ret s
          | Continue, _ => Ret s
          end in
        match s1 with
        | Throw e => fail_task e (text "taskError") s
        | Ret s1 =>
            initializeAgentSessions true
              (set_message (match m with Create => text "taskCreated" | Continue => text "turnQueued" end) false (with_prompt [] s1))
        end
  end.

Definition control_text (key : string) : option jsstring := agentControlText htmlLang navLang (js key).

(** [controlAgentSession(action)] up to its request. *)
Definition controlAgentSession (action : jsstring) (s : state) : state :=
  if busy s || negb (truthy (sessionId s)) then s
  else
    let s1 := set_message (Some []) false (with_busy true s) in
    if encodable (sessionId s) then send (PostControl (sessionId s) action) Control s1
    else fail_task (js "URI malformed") (control_text "controlError") s1.

Definition on_control (r : reply) (s : state) : state :=
  match r with
  | Failed => fail_task (js "Failed to fetch") (control_text "controlError") s
  | Resp ok _ b =>
      if negb ok
      then fail_task (error_text (default (VObj []) b) (control_text "controlError")) (control_text "controlError") s
      else initializeAgentSessions true (set_message (control_text "controlQueued") false s)
  end.

(** [resolveAgentApproval(approvalId, decision)] *)
Definition resolveAgentApproval (approvalId decision : jsstring) (s : state) : state :=
  if encodable approvalId then send (PostApproval approvalId decision) Resolve s else fail_event "approvalError" s.

Definition on_resolve (r : reply) (s : state) : state :=
  match r with
  | Resp true _ _ => refreshAgentApprovals Approvals s
  | _ => fail_event "approvalError" s
  end.

(** The [change] listener of the session menu. *)
Definition select_session (id : jsstring) (s : state) : state :=
  let s1 := with_poll (Poller (inFlight (poll s)) false (timer (poll s))) s in
  let s2 := restore_cursor id s1 in
  let v := shown s2 in
  let s3 := with_view (View (Some []) [] [] (approvals v) (message v) (failed v)) s2 in
  pollAgentSessionEvents (refreshAgentArtifacts Artifacts (fun x => x) (renderAgentSessionPanel s3)).

(** ** The buttons *)

Record buttons := Buttons {
  createDisabled : bool; continueDisabled : bool;
  pauseHidden : bool; resumeHidden : bool; cancelHidden : bool;
  controlDisabled : bool;
}.

(** [String(selected && selected.status || '').toLowerCase()] *)
Definition selected_status (s : state) : jsstring :=
  match selected s with Some x => status_name show_frac (prop x (js "status")) | None => [] end.

Definition pausable : list jsstring :=
  js <$> ["creating"; "ready"; "running"; "waiting_for_tool"; "waiting_for_approval"; "waiting_for_subagents"; "compacting"; "resuming"]%string.
Definition resumable : list jsstring := js <$> ["paused"; "failed"]%string.

(** [renderAgentTaskControls()] *)
Definition renderAgentTaskControls (model : option jsval) (s : state) : buttons :=
  let hasPrompt := truthy (trim (prompt s)) in
  let has := match selected s with Some _ => true | None => false end in
  let status := selected_status s in
  let canContinue := has && seqb status (js "ready") in
  let canPause := has && bool_decide (status ∈ pausable) in
  let canResume := has && bool_decide (status ∈ resumable) in
  let canCancel := has && negb (agentSessionTerminal show_frac (VStr status)) && negb (seqb status (js "paused")) in
  Buttons (busy s || negb hasPrompt || match model with Some _ => false | None => true end)
    (busy s || negb hasPrompt || negb canContinue)
    (negb canPause) (negb canResume) (negb canCancel) (busy s).

(** ** Events *)

Inductive event : Type :=
| Init
| Timer
| Select (id : jsstring)
| Type_ (p : jsstring)
| SubmitClick (m : task_mode) (model : option jsval)
| ControlClick (action : jsstring)
| ApprovalClick (approvalId decision : jsstring)
| Answer (i : nat) (r : reply).

Definition continue (k : pending) (r : reply) (s : state) : state :=
  match k with
  | Poll => on_poll r s
  | PollApprovals => on_poll_approvals r s
  | PollArtifacts => on_poll_artifacts r s
  | InitFor b => on_init b r s
  | Submit m => on_submit m r s
  | Control => on_control r s
  | Resolve => on_resolve r s
  | Approvals => on_approvals r s
  | Artifacts => on_artifacts r s
  end.

Definition step (s : state) (e : event) : state :=
  match e with
  | Init => initializeAgentSessions false s
  | Timer => on_timer s
  | Select id => select_session id s
  | Type_ p => with_prompt p s
  | SubmitClick m model => submitAgentTask m model s
  | ControlClick a => controlAgentSession a s
  | ApprovalClick a d => resolveAgentApproval a d s
  | Answer i r =>
      match tasks s !! i with
      | Some k => continue k r (with_tasks (delete i (tasks s)) s)
      | None => s
      end
  end.

Definition exec (st : stores) (evs : list event) : state := fold_left step evs (state0 st).

(** ** One poll and one task at a time *)

Definition is_poll (k : pending) : bool := match k with Poll | PollApprovals | PollArtifacts => true | _ => false end.
Definition is_busy (k : pending) : bool := match k with Submit _ | Control | InitFor true => true | _ => false end.

(** [b] tells whether a task of the kind is pending; there is at most one. *)
Definition at_most_one (P : pending -> bool) (b : bool) (t : gmap nat pending) : Prop :=
  (b = true <-> exists i k, t !! i = Some k /\ P k = true) /\
  (forall i j k k', t !! i = Some k -> P k = true -> t !! j = Some k' -> P k' = true -> i = j).

(** The pending poll and the pending task, and the two flags; between the arrival of an
    answer and the end of its handler they differ. *)
Record holds (pt bt pf bf : bool) (s : state) : Prop := {
  h_fresh : forall i, (next s <= i)%nat -> tasks s !! i = None;
  h_poll : at_most_one is_poll pt (tasks s);
  h_busy : at_most_one is_busy bt (tasks s);
  h_pf : inFlight (poll s) = pf;
  h_bf : busy s = bf;
}.

Lemma at_most_one_insert P b t n k : t !! n = None -> at_most_one P b t -> P k = false -> at_most_one P b (<[n := k]> t).
Proof.
  intros Hn [H1 H2] Hk. assert (L : forall i x, <[n := k]> t !! i = Some x -> P x = true -> t !! i = Some x).
  { intros i x Hi Hx. destruct (decide (i = n)) as [->|]; [rewrite lookup_insert_eq in Hi; congruence|].
    by rewrite lookup_insert_ne in Hi. }
  split; [|by eauto]. rewrite H1. split; intros (i & x & Hi & Hx); exists i, x; split; eauto.
  rewrite lookup_insert_ne; [done|]. congruence.
Qed.

Lemma at_most_one_new P t n k : t !! n = None -> at_most_one P false t -> P k = true -> at_most_one P true (<[n := k]> t).
Proof.
  intros Hn [H1 H2] Hk. assert (L : forall i x, <[n := k]> t !! i = Some x -> P x = true -> i = n).
  { intros i x Hi Hx. destruct (decide (i = n)) as [->|]; [done|]. rewrite lookup_insert_ne in Hi by done.
    assert (false = true) by (apply H1; eauto). done. }
  split; [|intros i j x y Hi Hx Hj Hy; by rewrite (L i x), (L j y)].
  split; [|done]. intros _. exists n, k. by rewrite lookup_insert_eq.
Qed.

Lemma at_most_one_delete P b t i k : t !! i = Some k -> at_most_one P b t ->
  at_most_one P (b && negb (P k)) (delete i t).
Proof.
  intros Hi [H1 H2]. assert (L : forall j x, delete i t !! j = Some x -> j <> i /\ t !! j = Some x).
  { intros j x Hj. apply lookup_delete_Some in Hj. naive_solver. }
  split; [|intros j j' x y Hj Hx Hj' Hy; apply L in Hj, Hj'; naive_solver].
  destruct (P k) eqn:Ek; rewrite ?andb_false_r, ?andb_true_r.
  - split; [done|]. intros (j & x & Hj & Hx). apply L in Hj as [Hne Hj]. destruct Hne. by eapply H2.
  - rewrite H1. split; intros (j & x & Hj & Hx); exists j, x; [|by apply L in Hj as [? ?]].
    split; [|done]. rewrite lookup_delete_ne; [done|]. congruence.
Qed.

Lemma send_holds r k pt bt pf bf s : holds pt bt pf bf s ->
  (is_poll k = true -> pt = false) -> (is_busy k = true -> bt = false) ->
  holds (pt || is_poll k) (bt || is_busy k) pf bf (send r k s).
Proof.
  intros [Hf Hp Hb H1 H2] Gp Gb. pose proof (Hf (next s) (le_n _)) as Hn. constructor; cbn [send tasks next poll busy]; try done.
  - intros i Hi. rewrite lookup_insert_ne by lia. apply Hf. lia.
  - destruct (is_poll k) eqn:E; [rewrite Gp in * by done; by apply at_most_one_new|].
    rewrite orb_false_r. by apply at_most_one_insert.
  - destruct (is_busy k) eqn:E; [rewrite Gb in * by done; by apply at_most_one_new|].
    rewrite orb_false_r. by apply at_most_one_insert.
Qed.

(** Changes that touch neither the pending requests nor the two flags. *)
Definition frame (f : state -> state) : Prop := forall s,
  tasks (f s) = tasks s /\ next (f s) = next s /\ inFlight (poll (f s)) = inFlight (poll s) /\ busy (f s) = busy s.

Lemma frame_holds f pt bt pf bf s : frame f -> holds pt bt pf bf s -> holds pt bt pf bf (f s).
Proof. intros F []. destruct (F s) as (E1 & E2 & E3 & E4). constructor; rewrite ?E1, ?E2, ?E3, ?E4; done. Qed.

Lemma frame_render : frame renderAgentSessionPanel.
Proof.
  intros s. unfold renderAgentSessionPanel. destruct (option_values s); [done|]. by destruct (_ || _).
Qed.

Lemma frame_fail key : frame (fail_event key).
Proof. intros s. unfold fail_event. destruct (frame_render (with_view (with_event (text key) (shown s)) s)) as (-> & -> & -> & ->). done. Qed.

Lemma frame_approvals r : frame (on_approvals r).
Proof.
  intros s. unfold on_approvals. destruct r as [[] st [v|]|]; try done.
  destruct (frame_render (with_view (with_approvals (list_at v (js "approvals")) (shown s)) s)) as (-> & -> & -> & ->). done.
Qed.

Lemma frame_artifacts r : frame (on_artifacts r).
Proof. intros s. unfold on_artifacts. by destruct r as [[] st [v|]|]. Qed.

Lemma frame_take payload : frame (fun s => take_cursor payload (take_events payload (take_session payload s))).
Proof.
  intros s. assert (F1 : frame (take_session payload)).
  { intros x. unfold take_session. cbv zeta. by destruct (vtruthy (if vtruthy payload then _ else _)). }
  assert (F2 : frame (take_events payload)) by (intros x; unfold take_events; by destruct (list_at payload _)).
  assert (F3 : frame (take_cursor payload)) by (intros x; unfold take_cursor; cbv zeta; by destruct (_ && _)).
  destruct (F1 s) as (E1 & E2 & E3 & E4). destruct (F2 (take_session payload s)) as (E5 & E6 & E7 & E8).
  destruct (F3 (take_events payload (take_session payload s))) as (E9 & E10 & E11 & E12). cbv beta. split_and!; congruence.
Qed.

Lemma frame_take_events payload : frame (take_events payload).
Proof. intros s. unfold take_events. by destruct (list_at payload _). Qed.

Lemma frame_blocked b : frame (fun s => with_poll (Poller (inFlight (poll s)) b (timer (poll s))) s).
Proof. done. Qed.

Lemma finish_poll_holds bt pf bf s : holds false bt pf bf s -> holds false bt false bf (finish_poll s).
Proof. intros []. by constructor. Qed.

Lemma end_poll_holds bt pf bf s : holds false bt pf bf s -> holds false bt false bf (end_poll s).
Proof. intros H. eapply finish_poll_holds, frame_holds; [exact frame_render|exact H]. Qed.

(** A handler keeps the correspondence of flags and pending requests. *)
Definition settled (s : state) : Prop := exists p b, holds p b p b s.

Lemma poll_holds p bt bf s : holds p bt p bf s -> exists p', holds p' bt p' bf (pollAgentSessionEvents s).
Proof.
  intros H. unfold pollAgentSessionEvents. cbv zeta.
  destruct (negb (truthy (sessionId s)) || inFlight (poll s) || blocked (poll s)) eqn:E; [by exists p|].
  destruct (match selected s with Some x => terminal x | None => false end && _); [by exists p|].
  assert (p = false) as ->. { apply orb_false_iff in E as [E _]. apply orb_false_iff in E as [_ E]. by rewrite <- (h_pf _ _ _ _ _ H). }
  assert (H1 : holds false bt true bf (with_poll (Poller true (blocked (poll s)) (timer (poll s))) s)) by (by destruct H; constructor).
  destruct (encodable (sessionId s)).
  - exists true. pose proof (send_holds (GetEvents (sessionId s) (cursor s)) Poll false bt true bf _ H1 ltac:(done) ltac:(done)) as H2.
    by rewrite orb_false_r in H2.
  - exists false. eapply finish_poll_holds, frame_holds; [apply frame_fail|exact H1].
Qed.

Lemma approvals_holds k pt bt pf bf s : is_busy k = false -> (is_poll k = true -> pt = false) ->
  holds pt bt pf bf s -> holds (pt || is_poll k) bt pf bf (refreshAgentApprovals k s).
Proof.
  intros Hb Hp H. pose proof (send_holds GetApprovals k _ _ _ _ _ H Hp ltac:(congruence)) as G.
  rewrite Hb, orb_false_r in G. exact G.
Qed.

Lemma on_poll_holds b r s : holds false b true b s -> settled (on_poll r s).
Proof.
  intros H. unfold on_poll. destruct r as [[] st [v|]|].
  - exists true, b. apply (approvals_holds PollApprovals false); [done|done|].
    apply (frame_holds (fun s => take_cursor v (take_events v (take_session v s)))); [apply frame_take|done].
  - exists false, b. eapply finish_poll_holds, frame_holds; [apply frame_fail|exact H].
  - exists false, b. eapply finish_poll_holds. destruct (bool_decide _); [|exact H].
    apply frame_holds; [apply frame_fail|]. by apply (frame_holds _ _ _ _ _ _ (frame_blocked true)).
  - exists false, b. eapply finish_poll_holds. destruct (bool_decide _); [|exact H].
    apply frame_holds; [apply frame_fail|]. by apply (frame_holds _ _ _ _ _ _ (frame_blocked true)).
  - exists false, b. eapply finish_poll_holds, frame_holds; [apply frame_fail|exact H].
Qed.

Lemma artifacts_holds pt bt pf bf k s done : is_busy k = false -> (is_poll k = true -> pt = false) ->
  holds pt bt pf bf s ->
  refreshAgentArtifacts k done s = done s \/ holds (pt || is_poll k) bt pf bf (refreshAgentArtifacts k done s).
Proof.
  intros Hb Hp H. unfold refreshAgentArtifacts. destruct (_ && _); [right|by left].
  pose proof (send_holds (GetArtifacts (sessionId s)) k _ _ _ _ _ H Hp ltac:(congruence)) as G.
  rewrite Hb, orb_false_r in G. exact G.
Qed.

Lemma on_poll_approvals_holds b r s : holds false b true b s -> settled (on_poll_approvals r s).
Proof.
  intros H. assert (H1 : holds false b true b (on_approvals r s)) by (apply frame_holds; [apply frame_approvals|done]).
  unfold on_poll_approvals. destruct (artifacts_holds _ _ _ _ PollArtifacts _ end_poll eq_refl ltac:(done) H1) as [->|G].
  - exists false, b. by eapply end_poll_holds.
  - by exists true, b.
Qed.

Lemma init_holds b p bt bf s : (b = true -> bt = false) -> holds p bt p bf s ->
  exists p', holds p' (bt || b) p' bf (initializeAgentSessions b s).
Proof.
  intros Hb H. unfold initializeAgentSessions. cbv zeta.
  match goal with |- exists p', holds p' _ p' _ (send _ _ (renderAgentSessionPanel ?x)) => assert (exists p', holds p' bt p' bf x) as [p' H'] end.
  { destruct (sessions s); [|by exists p]. destruct (restoreAgentSessionCache show_frac (kept s)) as [|c l]; [by exists p|].
    apply (poll_holds p). apply frame_holds; [apply frame_render|]. by destruct H; constructor. }
  exists p'. apply (frame_holds _ _ _ _ _ _ frame_render) in H'.
  pose proof (send_holds GetSessions (InitFor b) _ _ _ _ _ H' ltac:(done) ltac:(by destruct b)) as G.
  rewrite orb_false_r in G. by destruct b.
Qed.

Lemma take_sessions_holds l p bt bf s : holds p bt p bf s -> exists p', holds p' bt p' bf (take_sessions l s).
Proof.
  intros H. unfold take_sessions. destruct l as [|x l].
  - exists p. apply frame_holds; [apply frame_render|]. by destruct H; constructor.
  - cbv zeta. apply (poll_holds p). pose proof (approvals_holds Approvals p bt p bf) as G. rewrite orb_false_r in G.
    apply G; [done|done|]. apply frame_holds; [apply frame_render|]. by destruct H; constructor.
Qed.

Lemma release_holds b p bt s : holds p bt p (bt || b) s -> (b = true -> bt = false) -> settled (release b s).
Proof. intros H Hb. exists p, bt. unfold release. destruct b; [|by rewrite orb_false_r in H]. rewrite Hb in H |- * by done. by destruct H; constructor. Qed.

Lemma on_init_holds b p bt r s : (b = true -> bt = false) -> holds p bt p (bt || b) s -> settled (on_init b r s).
Proof.
  intros Hb H. unfold on_init.
  assert (exists p', holds p' bt p' (bt || b)
    match r with
    | Resp true _ (Some payload) => take_sessions (list_at payload (js "sessions")) s
    | Resp false status _ =>
        if bool_decide (status ∈ [401; 403]%Z)
        then renderAgentSessionPanel
               (with_kept (agentStorageRemove AGENT_SESSION_CACHE_KEY (kept s)) (with_id [] (cursor s) (with_sessions [] s)))
        else s
    | _ => s
    end) as [p' G]; [|by eapply release_holds].
  destruct r as [[] st [v|]|]; try (by exists p); [by eapply take_sessions_holds|..];
    exists p; (destruct (bool_decide _); [|done]); (apply frame_holds; [apply frame_render|]); by destruct H; constructor.
Qed.

Lemma fail_task_holds e o p bt bf s : holds p bt p bf s -> holds p bt p false (fail_task e o s).
Proof. intros []. by constructor. Qed.

Lemma submit_holds m model p b s : holds p b p b s -> settled (submitAgentTask m model s).
Proof.
  intros H. unfold submitAgentTask. destruct model as [model|]; [|by exists p, b]. cbv zeta.
  destruct (busy s || negb (truthy (trim (prompt s)))) eqn:E; [by exists p, b|].
  destruct (match m with Continue => _ | Create => false end); [by exists p, b|].
  assert (b = false) as -> by (apply orb_false_iff in E as [E _]; by rewrite <- (h_bf _ _ _ _ _ H)).
  assert (H1 : holds p false p true (set_message (Some []) false (with_busy true s))) by (by destruct H; constructor).
  destruct m; [|destruct (encodable (sessionId s)); [|by exists p, false; eapply fail_task_holds]]; exists p, true.
  all: eassert (G : holds _ _ _ _ _) by (eapply (send_holds _ (Submit _) p false p true); [exact H1|done|done]); rewrite orb_false_r in G; exact G.
Qed.

Lemma control_holds a p b s : holds p b p b s -> settled (controlAgentSession a s).
Proof.
  intros H. unfold controlAgentSession. cbv zeta.
  destruct (busy s || negb (truthy (sessionId s))) eqn:E; [by exists p, b|].
  assert (b = false) as -> by (apply orb_false_iff in E as [E _]; by rewrite <- (h_bf _ _ _ _ _ H)).
  assert (H1 : holds p false p true (set_message (Some []) false (with_busy true s))) by (by destruct H; constructor).
  destruct (encodable (sessionId s)); [|by exists p, false; eapply fail_task_holds].
  exists p, true. pose proof (send_holds (PostControl (sessionId s) a) Control p false p true _ H1 ltac:(done) ltac:(done)) as G.
  by rewrite orb_false_r in G.
Qed.

Lemma on_submit_holds m r p s : holds p false p true s -> settled (on_submit m r s).
Proof.
  intros H. unfold on_submit. destruct r as [ok st body|]; [|by exists p, false; eapply fail_task_holds]. cbv zeta.
  destruct (negb ok); [by exists p, false; eapply fail_task_holds|].
  match goal with |- settled (match ?x with Ret _ => _ | Throw _ => _ end) =>
    assert (forall s1, x = Ret s1 -> holds p false p true s1) as G; [|destruct x as [s1|e]] end.
  - intros s1. destruct m; [|by intros [= <-]].
    destruct (default (VObj []) body); try done; destruct (vtruthy _); intros [= <-]; by destruct H; constructor.
  - specialize (G s1 eq_refl).
    edestruct (init_holds true p false true) as [p' G']; [done| |exists p', true; exact G'].
    by destruct G; constructor.
  - exists p, false. by eapply fail_task_holds.
Qed.

Lemma on_control_holds r p s : holds p false p true s -> settled (on_control r s).
Proof.
  intros H. unfold on_control. destruct r as [ok st body|]; [|by exists p, false; eapply fail_task_holds].
  destruct (negb ok); [by exists p, false; eapply fail_task_holds|].
  edestruct (init_holds true p false true) as [p' G']; [done| |exists p', true; exact G'].
  by destruct H; constructor.
Qed.

Lemma select_session_holds id p b s : holds p b p b s -> settled (select_session id s).
Proof.
  intros H. unfold select_session. cbv zeta.
  match goal with |- context [refreshAgentArtifacts _ _ (renderAgentSessionPanel ?x)] =>
    assert (H1 : holds p b p b (renderAgentSessionPanel x)) by (apply frame_holds; [apply frame_render|]; by destruct H; constructor) end.
  edestruct (poll_holds p b b) as [p' G]; [|by exists p', b].
  destruct (artifacts_holds p b p b Artifacts _ (fun x => x) eq_refl ltac:(done) H1) as [->|G]; [done|].
  by rewrite orb_false_r in G.
Qed.

Lemma on_timer_holds p b s : holds p b p b s -> settled (on_timer s).
Proof.
  intros H. unfold on_timer. destruct (timer (poll s)); [|by exists p, b].
  edestruct (poll_holds p b b) as [p' G]; [|by exists p', b]. by destruct H; constructor.
Qed.

Lemma resolve_holds a d p b s : holds p b p b s -> settled (resolveAgentApproval a d s).
Proof.
  intros H. exists p, b. unfold resolveAgentApproval. destruct (encodable a); [|by apply frame_holds; [apply frame_fail|]].
  pose proof (send_holds (PostApproval a d) Resolve p b p b _ H ltac:(done) ltac:(done)) as G. by rewrite !orb_false_r in G.
Qed.

Lemma on_resolve_holds r p b s : holds p b p b s -> settled (on_resolve r s).
Proof.
  intros H. exists p, b. assert (F : forall key, holds p b p b (fail_event key s)) by (intros; apply frame_holds; [apply frame_fail|done]).
  unfold on_resolve. destruct r as [[] st v|]; [|apply F..].
  pose proof (approvals_holds Approvals p b p b s eq_refl ltac:(done) H) as G. by rewrite orb_false_r in G.
Qed.

(** The answer of a request is taken from the pending ones. *)
Lemma take_holds i k p b s : tasks s !! i = Some k -> holds p b p b s ->
  (is_poll k = true -> p = true) /\ (is_busy k = true -> b = true) /\
  holds (p && negb (is_poll k)) (b && negb (is_busy k)) p b (with_tasks (delete i (tasks s)) s).
Proof.
  intros Hi [Hf Hp Hb H1 H2]. split_and!.
  - intros Hk. apply Hp. eauto.
  - intros Hk. apply Hb. eauto.
  - constructor; cbn [with_tasks tasks next poll busy]; [|by apply at_most_one_delete..|done|done].
    intros j Hj. rewrite lookup_delete_None. right. by apply Hf.
Qed.

Lemma step_settled e s : settled s -> settled (step s e).
Proof.
  intros (p & b & H). destruct e as [| |id|t|m model|a|a d|i r]; cbn [step].
  - destruct (init_holds false p b b s ltac:(done) H) as [p' G]. rewrite orb_false_r in G. by exists p', b.
  - by eapply on_timer_holds.
  - by eapply select_session_holds.
  - exists p, b. by destruct H; constructor.
  - by eapply submit_holds.
  - by eapply control_holds.
  - by eapply resolve_holds.
  - destruct (tasks s !! i) as [k|] eqn:E; [|by exists p, b].
    destruct (take_holds i k p b s E H) as (Hp & Hb & G).
    destruct k as [| | |c|m| | | |]; cbn [is_poll is_busy continue] in *;
      rewrite ?andb_true_r, ?andb_false_r in G; try (rewrite Hp in G by done); try (rewrite Hb in G by done).
    + by eapply on_poll_holds.
    + by eapply on_poll_approvals_holds.
    + exists false, b. eapply end_poll_holds, frame_holds; [apply frame_artifacts|exact G].
    + destruct c; cbn [negb] in G; rewrite ?andb_true_r, ?andb_false_r in G; [rewrite Hb in G by done|];
        (eapply on_init_holds; [|by (rewrite orb_true_r || rewrite orb_false_r); exact G]; done).
    + by eapply on_submit_holds.
    + by eapply on_control_holds.
    + by eapply on_resolve_holds.
    + exists p, b. apply frame_holds; [apply frame_approvals|done].
    + exists p, b. apply frame_holds; [apply frame_artifacts|done].
Qed.

Lemma exec_settled st evs : settled (exec st evs).
Proof.
  unfold exec. assert (H : settled (state0 st)).
  { exists false, false. constructor; try done; split; try done; (split; [done|]); by intros (? & ? & ? & ?). }
  revert H. generalize (state0 st). induction evs as [|e evs IH]; intros s H; [done|]. cbn [fold_left]. by apply IH, step_settled.
Qed.

(** C4: Whatever the user does and in whatever order the answers arrive, the in-flight flag
    of the session poll is set exactly while one poll request (its event, approval or
    artifact part) is pending, the busy flag exactly while one task or control is pending,
    and there is never a second poll or a second task. *)
Theorem session_poll_single_flight st evs :
  at_most_one is_poll (inFlight (poll (exec st evs))) (tasks (exec st evs)) /\
  at_most_one is_busy (busy (exec st evs)) (tasks (exec st evs)).
Proof. destruct (exec_settled st evs) as (p & b & H). destruct H as [? ? ? -> ->]. done. Qed.

(** ** Bounds of the shown state *)

(** At most twelve activities are kept and the cursor is a finite number, not negative. *)
Record tidy (s : state) : Prop := {
  t_activity : (length (activity (shown s)) <= 12)%nat;
  t_cursor : exists q, cursor s = Fin q /\ (0 <= q)%Q;
}.

Lemma tidy_same s s' : activity (shown s') = activity (shown s) -> cursor s' = cursor s -> tidy s -> tidy s'.
Proof. intros E1 E2 []. by constructor; rewrite ?E1, ?E2. Qed.

Lemma tidy_restore id s : tidy s -> tidy (restore_cursor id s).
Proof.
  intros []. constructor; [done|]. cbn. destruct (restored_cursor_natural id (kept s)) as (z & -> & Hz).
  exists (inject_Z z). split; [done|]. change 0%Q with (inject_Z 0). by rewrite <- Zle_Qle.
Qed.

Lemma tidy_render s : tidy s -> tidy (renderAgentSessionPanel s).
Proof.
  intros H. unfold renderAgentSessionPanel. destruct (option_values s); [by apply (tidy_same s)|].
  destruct (_ || _); [done|by apply tidy_restore].
Qed.

Create HintDb tidy.
#[local] Hint Resolve tidy_restore tidy_render : tidy.
Ltac tidy := solve [eauto with tidy | match goal with H : tidy ?s |- _ => apply (tidy_same s); [reflexivity|reflexivity|exact H] end].

Lemma tidy_fail key s : tidy s -> tidy (fail_event key s).
Proof. intros H. apply tidy_render. tidy. Qed.
Lemma tidy_send r k s : tidy s -> tidy (send r k s).
Proof. intros H. tidy. Qed.
Lemma tidy_finish s : tidy s -> tidy (finish_poll s).
Proof. intros H. tidy. Qed.
Lemma tidy_message o b s : tidy s -> tidy (set_message o b s).
Proof. intros H. tidy. Qed.
#[local] Hint Resolve tidy_fail tidy_send tidy_finish tidy_message : tidy.
Lemma tidy_busy b s : tidy s -> tidy (with_busy b s).
Proof. intros H. tidy. Qed.
Lemma tidy_poll p s : tidy s -> tidy (with_poll p s).
Proof. intros H. tidy. Qed.
Lemma tidy_kept st s : tidy s -> tidy (with_kept st s).
Proof. intros H. tidy. Qed.
Lemma tidy_sessions l s : tidy s -> tidy (with_sessions l s).
Proof. intros H. tidy. Qed.
Lemma tidy_prompt p s : tidy s -> tidy (with_prompt p s).
Proof. intros H. tidy. Qed.
#[local] Hint Resolve tidy_busy tidy_poll tidy_kept tidy_sessions tidy_prompt : tidy.

Lemma tidy_poll_events s : tidy s -> tidy (pollAgentSessionEvents s).
Proof. intros H. unfold pollAgentSessionEvents. repeat case_match; tidy. Qed.
Lemma tidy_approvals r s : tidy s -> tidy (on_approvals r s).
Proof. intros H. unfold on_approvals. repeat case_match; try tidy. apply tidy_render. tidy. Qed.
Lemma tidy_artifacts r s : tidy s -> tidy (on_artifacts r s).
Proof. intros H. unfold on_artifacts. repeat case_match; tidy. Qed.
Lemma tidy_refresh k f s : (tidy s -> tidy (f s)) -> tidy s -> tidy (refreshAgentArtifacts k f s).
Proof. intros F H. unfold refreshAgentArtifacts. case_match; tidy. Qed.
Lemma tidy_end s : tidy s -> tidy (end_poll s).
Proof. intros H. unfold end_poll. tidy. Qed.
Lemma tidy_take_session payload s : tidy s -> tidy (take_session payload s).
Proof. intros H. unfold take_session. cbv zeta. repeat case_match; tidy. Qed.

Lemma tidy_take_events payload s : tidy s -> tidy (take_events payload s).
Proof.
  intros []. unfold take_events. case_match; [by constructor|]. constructor; [|done]. cbn [with_view shown activity].
  unfold last_12. rewrite length_last_n. lia.
Qed.

Lemma tidy_take_cursor payload s : tidy s -> tidy (take_cursor payload s).
Proof.
  intros [H (q & E & Hq)]. unfold take_cursor. cbv zeta. destruct (Number _) as [n| | |]; rewrite ?andb_false_r; try by constructor; eauto.
  destruct (vtruthy payload && is_finite (Fin n)); [|by constructor; eauto]. constructor; [done|]. cbn [with_kept with_id cursor].
  rewrite E. unfold num_max. cbn [num_lt]. destruct (Qltb q n) eqn:L; eexists; (split; [reflexivity|]); [|done]. q_norm.
  apply Qlt_le_weak. by eapply Qle_lt_trans.
Qed.
#[local] Hint Resolve tidy_poll_events tidy_approvals tidy_artifacts tidy_refresh tidy_end tidy_take_session tidy_take_events tidy_take_cursor : tidy.

Lemma tidy_init b s : tidy s -> tidy (initializeAgentSessions b s).
Proof. intros H. unfold initializeAgentSessions. cbv zeta. apply tidy_send, tidy_render. repeat case_match; eauto 6 with tidy. Qed.
#[local] Hint Resolve tidy_init : tidy.

Lemma tidy_take_sessions l s : tidy s -> tidy (take_sessions l s).
Proof.
  intros H. unfold take_sessions. case_match; [eauto with tidy|]. cbv zeta.
  apply tidy_poll_events, tidy_send, tidy_render, tidy_restore. eauto with tidy.
Qed.

Lemma tidy_on_init b r s : tidy s -> tidy (on_init b r s).
Proof.
  intros H. assert (C : tidy (with_id [] (cursor s) (with_sessions [] s))) by tidy.
  unfold on_init, release. repeat case_match; eauto using tidy_take_sessions with tidy.
Qed.

Lemma tidy_on_poll r s : tidy s -> tidy (on_poll r s).
Proof. intros H. unfold on_poll, refreshAgentApprovals. repeat case_match; eauto with tidy. Qed.

Lemma tidy_submit m model s : tidy s -> tidy (submitAgentTask m model s).
Proof. intros H. unfold submitAgentTask, fail_task. cbv zeta. repeat case_match; eauto with tidy. Qed.

Lemma tidy_on_submit m r s : tidy s -> tidy (on_submit m r s).
Proof.
  intros H. unfold on_submit, fail_task. cbv zeta. destruct r as [ok st body|]; [|eauto with tidy].
  destruct (negb ok); [eauto with tidy|].
  destruct m; [|eauto with tidy].
  destruct (default (VObj []) body); try (destruct (vtruthy _)); eauto 6 with tidy.
Qed.

Lemma tidy_control a s : tidy s -> tidy (controlAgentSession a s).
Proof. intros H. unfold controlAgentSession, fail_task. cbv zeta. repeat case_match; eauto with tidy. Qed.
Lemma tidy_on_control r s : tidy s -> tidy (on_control r s).
Proof. intros H. unfold on_control, fail_task. repeat case_match; eauto with tidy. Qed.
Lemma tidy_resolve a d s : tidy s -> tidy (resolveAgentApproval a d s).
Proof. intros H. unfold resolveAgentApproval. case_match; eauto with tidy. Qed.
Lemma tidy_on_resolve r s : tidy s -> tidy (on_resolve r s).
Proof. intros H. unfold on_resolve, refreshAgentApprovals. repeat case_match; eauto with tidy. Qed.

Lemma tidy_select id s : tidy s -> tidy (select_session id s).
Proof.
  intros H. unfold select_session. cbv zeta. apply tidy_poll_events, tidy_refresh; [done|]. apply tidy_render.
  destruct (tidy_restore id _ (tidy_poll (Poller (inFlight (poll s)) false (timer (poll s))) _ H)). constructor; [cbn; lia|done].
Qed.

Lemma step_tidy e s : tidy s -> tidy (step s e).
Proof.
  intros H. destruct e as [| |id|t|m model|a|a d|i r]; cbn [step].
  - by apply tidy_init.
  - unfold on_timer. case_match; eauto with tidy.
  - by apply tidy_select.
  - by apply tidy_prompt.
  - by apply tidy_submit.
  - by apply tidy_control.
  - by apply tidy_resolve.
  - destruct (tasks s !! i) as [k|]; [|done]. assert (G : tidy (with_tasks (delete i (tasks s)) s)) by tidy.
    destruct k; cbn [continue]; unfold on_poll_approvals, on_poll_artifacts;
      eauto using tidy_on_poll, tidy_on_init, tidy_on_submit, tidy_on_control, tidy_on_resolve with tidy.
Qed.

(** After any sequence of events and answers the panel shows at most the twelve latest
    activities and the event cursor it asks with is a finite number, never negative, whatever
    the stores and the gateway hold. *)
Theorem session_view_bounded st evs :
  (length (activity (shown (exec st evs))) <= 12)%nat /\
  (exists q, cursor (exec st evs) = Fin q /\ (0 <= q)%Q).
Proof.
  assert (tidy (exec st evs)) as []; [|done]. unfold exec. assert (H : tidy (state0 st)) by (constructor; [cbn; lia|by exists 0%Q]).
  revert H. generalize (state0 st). induction evs as [|e evs IH]; intros s H; [done|]. cbn [fold_left]. by apply IH, step_tidy.
Qed.

(** ** The poll goes on *)

Lemma poll_part_ends k r s : is_poll k = true -> inFlight (poll s) = true ->
  inFlight (poll (continue k r s)) = true \/ exists x, continue k r s = finish_poll x.
Proof.
  intros Hk H. destruct k; try done; cbn [continue].
  - unfold on_poll. destruct r as [[] st [v|]|]; [left|eauto..].
    cbn [refreshAgentApprovals send poll]. by destruct (frame_take v s) as (_ & _ & -> & _).
  - unfold on_poll_approvals, refreshAgentArtifacts, end_poll. destruct (_ && _); [left|eauto].
    cbn [send poll]. by destruct (frame_approvals r s) as (_ & _ & -> & _).
  - unfold on_poll_artifacts, end_poll. eauto.
Qed.

(** The state allows another poll. *)
Definition pollable (s : state) : Prop :=
  truthy (sessionId s) = true /\ encodable (sessionId s) = true /\ blocked (poll s) = false /\
  match selected s with Some x => terminal x | None => false end = false.

Lemma pollable_sends s : pollable s -> inFlight (poll s) = false ->
  log (pollAgentSessionEvents s) = log s ++ [GetEvents (sessionId s) (cursor s)].
Proof.
  intros (H1 & H2 & H3 & H4) Hf. unfold pollAgentSessionEvents. cbv zeta. rewrite H1, H2, H3, Hf. cbn [negb orb].
  by rewrite H4.
Qed.

(** The poll of a session never dies silently: when the answer of one of its requests
    was handled and the chosen session is pollable (has an identifier, was not refused and
    has not ended), then either another part of the same poll is pending, or the timer is
    set and its next tick asks for the events after the current cursor. *)
Theorem poll_goes_on st evs i k r : let s := exec st evs in let s' := step s (Answer i r) in
  tasks s !! i = Some k -> is_poll k = true -> pollable s' ->
  inFlight (poll s') = true \/
  log (step s' Timer) = log s' ++ [GetEvents (sessionId s') (cursor s')].
Proof.
  cbv zeta. intros Hi Hk Hp. destruct (exec_settled st evs) as (p & b & H).
  destruct (take_holds i k p b _ Hi H) as (Ep & _ & G). specialize (Ep Hk). subst p.
  revert Hp. cbn [step]. rewrite Hi. set (s := with_tasks (delete i (tasks (exec st evs))) (exec st evs)) in *.
  destruct (poll_part_ends k r s Hk (h_pf _ _ _ _ _ G)) as [E|[x ->]]; [by left|]. intros Hp. right.
  destruct Hp as (H1 & H2 & H3 & H4). unfold on_timer.
  assert (timer (poll (finish_poll x)) = true) as ->.
  { change (truthy (sessionId x) = true) in H1. change (match selected x with Some y => terminal y | None => false end = false) in H4.
    cbn [finish_poll poll with_poll timer]. rewrite H1. destruct (selected x) as [y|]; [by rewrite H4|done]. }
  by apply (pollable_sends (with_poll (Poller false (blocked (poll x)) false) (finish_poll x))).
Qed.

(** ** The buttons and the tasks *)

Lemma selected_ready s : match selected s with Some x => ready x | None => false end =
  match selected s with Some _ => true | None => false end && seqb (selected_status s) (js "ready").
Proof. unfold selected_status, ready. by destruct (selected s). Qed.

Lemma pausable_status t : t ∈ pausable ->
  agentSessionTerminal show_frac (VStr t) = false /\ seqb t (js "paused") = false /\ t ∉ resumable.
Proof.
  intros H. assert (A : forallb (fun t => negb (agentSessionTerminal show_frac (VStr t)) && negb (seqb t (js "paused")) &&
    negb (bool_decide (t ∈ resumable))) pausable = true) by (vm_compute; reflexivity).
  rewrite forallb_forall in A. apply list_elem_of_In, A in H.
  apply andb_true_iff in H as [[H1 H2]%andb_true_iff H3]. rewrite negb_true_iff in H1, H2, H3.
  by apply bool_decide_eq_false in H3.
Qed.

(** The buttons of the panel tell what a click does.  The create button is disabled
    exactly when a click does nothing, and otherwise a click sends one session request with
    the trimmed prompt and the selected model; a disabled continue button sends nothing; a
    session that can be paused can be cancelled and cannot be resumed. *)
Theorem task_buttons_match model s : let b := renderAgentTaskControls model s in
  (createDisabled b = true <-> submitAgentTask Create model s = s) /\
  (createDisabled b = false -> exists x, model = Some x /\
     log (submitAgentTask Create model s) = log s ++ [PostSession (str (prop x (js "id"))) (trim (prompt s))]) /\
  (continueDisabled b = true -> submitAgentTask Continue model s = s) /\
  (pauseHidden b = false -> cancelHidden b = false /\ resumeHidden b = true).
Proof.
  cbv zeta. cbn [renderAgentTaskControls createDisabled continueDisabled pauseHidden cancelHidden resumeHidden].
  split_and!.
  - unfold submitAgentTask. destruct model as [x|]; [|by rewrite orb_true_r]. cbv zeta. rewrite orb_false_r.
    destruct (busy s) eqn:Eb; [done|]. destruct (negb (truthy (trim (prompt s)))); [done|]. split; [done|].
    intros E%(f_equal busy). cbn in E. congruence.
  - unfold submitAgentTask. destruct model as [x|]; [|by rewrite orb_true_r]. rewrite orb_false_r. cbv zeta. intros ->.
    by exists x.
  - unfold submitAgentTask. destruct model as [x|]; [|done]. cbv zeta. rewrite selected_ready.
    intros [->| ->]%orb_true_iff; [done|]. by destruct (busy s || _).
  - intros [E1 E2]%negb_false_iff%andb_true_iff. rewrite E1. apply bool_decide_eq_true in E2.
    destruct (pausable_status _ E2) as (-> & -> & E3). by rewrite bool_decide_eq_false_2.
Qed.
End Panel.

(** ** Examples *)

Definition sample_session (id status : string) : jsval :=
  VObj [(js "session_id", VStr (js id)); (js "status", VStr (js status))].

Definition two_sessions : list event :=
  [Init; Answer 0 (Resp true 200 (Some (VObj [(js "sessions", VArr [sample_session "A" "running"; sample_session "B" "running"])])))].

Definition empty_answer (i : nat) : event := Answer i (Resp true 200 (Some (VObj []))).

#[local] Abbreviation run evs := (exec (fun _ => []) (js "en") (js "en") open_store evs).

(** The whole poll of session A: events, approvals, artifacts; then the timer. *)
Lemma poll_goes_on_witness :
  let s := run (two_sessions ++ [empty_answer 2; empty_answer 3]) in
  tasks s !! 4%nat = Some PollArtifacts /\
  (inFlight (poll (step (fun _ => []) (js "en") (js "en") s (empty_answer 4))) = true \/
   log (step (fun _ => []) (js "en") (js "en") (step (fun _ => []) (js "en") (js "en") s (empty_answer 4)) Timer)
   = log (step (fun _ => []) (js "en") (js "en") s (empty_answer 4)) ++
     [GetEvents (sessionId (step (fun _ => []) (js "en") (js "en") s (empty_answer 4)))
        (cursor (step (fun _ => []) (js "en") (js "en") s (empty_answer 4)))]).
Proof.
  assert (H : tasks (run (two_sessions ++ [empty_answer 2; empty_answer 3])) !! 4%nat = Some PollArtifacts) by (vm_compute; reflexivity).
  split; [exact H|].
  refine (poll_goes_on (fun _ => []) (js "en") (js "en") open_store (two_sessions ++ [empty_answer 2; empty_answer 3]) 4%nat PollArtifacts
           (Resp true 200 (Some (VObj []))) H eq_refl _).
  split_and!; vm_compute; reflexivity.
Defined.

(** An answer that arrives after the user has chosen another session is taken for the
    new one: the poll of A says that its next event is 90, the user has chosen B meanwhile,
    and the only request ever made for the events of B starts after event 90.  The stored
    cursor of B is 90 as well. *)
Theorem stale_session_poll_skips_events :
  let s := run (two_sessions ++ [Select (js "B");
                Answer 2 (Resp true 200 (Some (VObj [(js "events", VArr []); (js "next_sequence", VNum (num_Z 90))])));
                empty_answer 4; empty_answer 5; Timer]) in
  (exists l, log s = [GetSessions; GetApprovals; GetEvents (js "A") (num_Z 0); GetArtifacts (js "B"); GetApprovals;
                      GetArtifacts (js "B"); GetEvents (js "B") (num_Z 90)] ++ l) /\
  restoreAgentSessionCursor (js "B") (kept s) = num_Z 90.
Proof. split; [exists []|]; vm_compute; reflexivity. Qed.

(** The continue button does not look at the selected model, but the click needs one: it is
    enabled and does nothing. *)
Example continue_needs_a_model :
  let s := run [Init; Answer 0 (Resp true 200 (Some (VObj [(js "sessions", VArr [sample_session "A" "ready"])]))); Type_ (js "go on")] in
  continueDisabled (renderAgentTaskControls (fun _ => []) None s) = false /\
  submitAgentTask (fun _ => []) (js "en") (js "en") Continue None s = s.
Proof. vm_compute. done. Qed.
