(* ===== verification/SessionViews.v ===== *)
(** * What the agent panel shows (webui/model-selector.js)

    The texts, links and buttons of [renderAgentArtifacts], [renderAgentApprovals],
    [renderAgentSessionActivity] and [renderAgentSessionPanel], for the state of
    [SelectorSessions.v].  Everything is written with [textContent] and properties, so that
    the views are lists of rows; their styles are not modelled.  As in [SelectorSessions.v]
    the lists hold objects. *)
From Stdlib Require Import Lia NArith ZArith QArith.
From stdpp Require Import base numbers list gmap strings.
From S2P Require Import Prelude JsString JsNumber JsValue Auth MeshNotice SelectorLabels SelectorStore SelectorSessions.

Section Views.
Context (show_frac : Q -> jsstring) (htmlLang navLang : jsstring).
#[local] Abbreviation str := (to_str show_frac).

(** A label as it is concatenated. *)
Definition label (o : option jsstring) : jsstring := default (js "undefined") o.
#[local] Abbreviation text key := (label (agentSessionText htmlLang navLang (js key))).

(** ** Artifacts *)

Record artifact_row := ArtifactRow { a_name : jsstring; a_href : jsstring; a_download : jsstring; a_aria : jsstring }.

Definition artifacts_path : jsstring := js "/v1/agents/artifacts/".

(** A row; [None] where [encodeURIComponent] throws. *)
Definition artifact_row_of (artifact : jsval) : option artifact_row :=
  let name := str (vor (prop artifact (js "name")) (vor (prop artifact (js "ref_id")) (VStr (js "artifact")))) in
  let download := label (agentArtifactText htmlLang navLang (js "download")) in
  (fun e => ArtifactRow name (artifacts_path ++ e) (str (vor (prop artifact (js "name")) (VStr (js "artifact")))) (download ++ js " " ++ name))
    <$> encodeURIComponent (str (vor (prop artifact (js "ref_id")) (VStr []))).

(** [renderAgentArtifacts()]: the heading, and the rows or the text of an empty list. *)
Definition renderAgentArtifacts (l : list jsval) : option (jsstring * (jsstring + list artifact_row)) :=
  let title := label (agentArtifactText htmlLang navLang (js "title")) in
  match l with
  | [] => Some (title, inl (label (agentArtifactText htmlLang navLang (js "empty"))))
  | _ => (fun rows => (title, inr rows)) <$> mapM artifact_row_of l
  end.

(** ** Activity *)

(** [renderAgentSessionActivity()]: the latest first. *)
Definition renderAgentSessionActivity (l : list (option jsstring)) : jsstring * (jsstring + list jsstring) :=
  (label (agentSessionActivityText htmlLang navLang (js "title")),
   match l with
   | [] => inl (label (agentSessionActivityText htmlLang navLang (js "empty")))
   | _ => inr (default [] <$> reverse l)
   end).

(** ** Approvals *)

(** A button: its text, and the arguments of [resolveAgentApproval] on a click. *)
Record approval_button := ApprovalButton { b_text : jsstring; b_id : jsstring; b_decision : jsstring }.
Record approval_row := ApprovalRow { p_label : jsstring; p_buttons : list approval_button }.

Definition pending_approval (approval : jsval) : bool := seqb (str (prop approval (js "status"))) (js "pending").

Definition approval_row_of (approval : jsval) : approval_row :=
  ApprovalRow
    (str (vor (prop approval (js "tool_id")) (vor (prop approval (js "call_id")) (VStr (js "Tool")))) ++ [32; 183; 32]%N
     ++ str (vor (prop approval (js "status")) (VStr (js "pending"))))
    (if pending_approval approval then
       let id := str (prop approval (js "approval_id")) in
       [ApprovalButton (js "✓ " ++ text "approve") id (js "approved"); ApprovalButton (js "× " ++ text "reject") id (js "rejected")]
     else []).

(** [renderAgentApprovals()] *)
Definition renderAgentApprovals (l : list jsval) : jsstring * (jsstring + list approval_row) :=
  (text "approvals", match l with [] => inl (text "noApprovals") | _ => inr (approval_row_of <$> l) end).

(** ** The menu and the status line *)

Definition menu_option (session : jsval) : jsstring * jsstring :=
  (str (vor (prop session (js "session_id")) (VStr [])),
   str (vor (prop session (js "agent_id")) (vor (prop session (js "session_id")) (VStr (js "Agent")))) ++ [32; 183; 32]%N
   ++ label (agentSessionStatusText show_frac htmlLang navLang (prop session (js "status")))).

(** The text of the status line after [renderAgentSessionPanel()]. *)
Definition panel_status (s : state) : jsstring :=
  match sessions s with
  | [] => text "idle"
  | _ =>
      let status := match selected show_frac s with
                    | Some x => label (agentSessionStatusText show_frac htmlLang navLang (prop x (js "status")))
                    | None => text "unavailable"
                    end in
      match lastEvent (shown s) with
      | Some e => if truthy e then status ++ [32; 183; 32]%N ++ e else status
      | None => status
      end
  end.

(** A click on an approval button. *)
Definition click (b : approval_button) (s : state) : state :=
  step show_frac htmlLang navLang s (ApprovalClick (b_id b) (b_decision b)).

(** ** What the views promise *)

(** The panel acts on what it shows.  An artifact's link leads to the artifact itself:
    decoding its last segment gives the reference back.  An approval has buttons exactly
    when its status is [pending], one for each decision, and a click sends one decision for
    that approval.  The first row of the activity is the latest event. *)
Theorem panel_acts_on_what_it_shows :
  (forall artifact, Forall (fun c => c < 128)%N (str (vor (prop artifact (js "ref_id")) (VStr []))) ->
     exists row, artifact_row_of artifact = Some row /\
       decodeURIComponent (drop (length artifacts_path) (a_href row)) = Some (str (vor (prop artifact (js "ref_id")) (VStr [])))) /\
  (forall approval, b_decision <$> p_buttons (approval_row_of approval)
     = if pending_approval approval then [js "approved"; js "rejected"] else []) /\
  (forall approval b s, b ∈ p_buttons (approval_row_of approval) ->
     let id := str (prop approval (js "approval_id")) in
     encodable id = true -> log (click b s) = log s ++ [PostApproval id (b_decision b)]) /\
  (forall l e, renderAgentSessionActivity (l ++ [e]) =
     (label (agentSessionActivityText htmlLang navLang (js "title")), inr (default [] e :: (default [] <$> reverse l)))).
Proof.
  split_and!.
  - intros a Ha. destruct (encode_decode _ Ha) as (e & E & _ & D & _). unfold artifact_row_of. rewrite E. cbn [fmap option_fmap option_map].
    eexists. split; [reflexivity|]. cbn [a_href]. by rewrite drop_app_length.
  - intros a. unfold approval_row_of. cbn [p_buttons]. by destruct (pending_approval a).
  - intros a b s Hb. cbv zeta. intros He.
    assert (Ei : b_id b = str (prop a (js "approval_id"))).
    { revert Hb. unfold approval_row_of. cbn [p_buttons]. destruct (pending_approval a); [|by intros Hb%elem_of_nil].
      intros [->|[->|Hb%elem_of_nil]%elem_of_cons]%elem_of_cons; done. }
    unfold click. cbn [step]. unfold resolveAgentApproval. by rewrite Ei, He.
  - intros l e. unfold renderAgentSessionActivity. rewrite reverse_snoc. by destruct (l ++ [e]) eqn:E; [destruct l|].
Qed.

End Views.

(** A click disables its own button only, and the buttons are built anew with every
    rendering: while the answer is awaited the opposite decision can be sent as well. *)
Example approval_is_decided_twice :
  let approval := VObj [(js "approval_id", VStr (js "a1")); (js "status", VStr (js "pending"))] in
  let run := exec (fun _ => []) (js "en") (js "en") open_store in
  let s := run [Init; Answer 0 (Resp true 200 (Some (VObj [(js "sessions", VArr [sample_session "A" "running"])])));
                Answer 1 (Resp true 200 (Some (VObj [(js "approvals", VArr [approval])])))] in
  let buttons s := match (renderAgentApprovals (fun _ => []) (js "en") (js "en") (approvals (shown s))).2 with
                   | inr rows => rows ≫= p_buttons | inl _ => [] end in
  let press i s := match buttons s !! i with Some b => click (fun _ => []) (js "en") (js "en") b s | None => s end in
  last_n 2 (log (press 1%nat (press 0%nat s))) = [PostApproval (js "a1") (js "approved"); PostApproval (js "a1") (js "rejected")].
Proof. vm_compute. reflexivity. Qed.
