(* ===== verification/ModelInfo.v ===== *)
(** * The model dialog and the execution status (webui/model-selector.js)

    The rows the selector adds to an empty model dialog ([modelInfoModel],
    [modelInfoValue], [formatModelBytes], [formatModelParameters],
    [renderModelInfoFallback]), the line with the node that executed the last completion
    ([updateExecutionStatus], [observeExecutionPayload], [observeExecutionResponse]), the
    draft kept over the reload of a model change ([restoreDraft]), the switch of the agent
    panel ([setAgentSessionPanelOpen]) and the mesh status the selector fetches every 15 s
    ([fetchMeshShardingPlan]).  The search for the dialog's elements is in Picker. *)
From Stdlib Require Import Lia NArith ZArith QArith Qround Lqa.
From stdpp Require Import base numbers list gmap strings.
From S2P Require Import Prelude JsString JsNumber JsValue JsJson SelectorTables SelectorLabels Auth SelectorStore MeshNotice.

Section Info.
Context (show_frac : Q -> jsstring) (htmlLang navLang : jsstring).
#[local] Abbreviation str := (to_str show_frac).

(** ** Values of the dialog *)

(** [modelInfoModel()]: the selected model, the first one, or one with the stored name. *)
Definition modelInfoModel (selected : option jsval) (models : list jsval) (stored : option jsstring) : jsval :=
  match selected, models with
  | Some m, _ => m
  | None, m :: _ => m
  | None, [] =>
      let id := default [] stored in
      let id := if truthy id then id else js "qwen2.5:3b" in
      VObj [(js "id", VStr id); (js "name", VStr id)]
  end.

(** [modelInfoValue(props, key)] *)
Definition modelInfoValue (props : jsval) (key : jsstring) : jsval :=
  if vtruthy props then
    match prop props key with
    | VUndef | VNull => VStr []
    | v => if truthy (trim (str v)) then v else VStr []
    end
  else VStr [].

(** [n.toFixed(d)] of a number that is not negative. *)
Definition fixed (d : nat) (n : num) : jsstring :=
  match n with
  | Fin q => if Qltb q (pow10 21) then toFixed d q else show_num show_frac n
  | _ => show_num show_frac n
  end.

Definition units : list jsstring := js <$> ["B"; "KB"; "MB"; "GB"; "TB"]%string.

(** The loop of [formatModelBytes]: at most one round per unit after the first. *)
Fixpoint scale_bytes (fuel unit : nat) (bytes : num) : num * nat :=
  match fuel with
  | O => (bytes, unit)
  | S k => if num_le (num_Z 1024) bytes && bool_decide (unit < length units - 1)%nat
           then scale_bytes k (S unit) (num_div bytes (1024 # 1)) else (bytes, unit)
  end.

(** [Math.round(n)] *)
Definition num_round (n : num) : num := match n with Fin q => num_Z (Qfloor (q + (1 # 2))) | _ => n end.

(** [formatModelBytes(value)] *)
Definition formatModelBytes (value : jsval) : jsstring :=
  let bytes := Number value in
  if negb (is_finite bytes) || num_le bytes (num_Z 0) then []
  else
    let '(bytes, unit) := scale_bytes (length units) 0 bytes in
    (if decide (unit = 0%nat) then show_num show_frac (num_round bytes) else fixed 1 bytes)
    ++ js " " ++ default (js "undefined") (units !! unit).

(** [s.replace('.0', '')] *)
Fixpoint drop_point_zero (s : jsstring) : jsstring :=
  match s with
  | [] => []
  | c :: r => if starts_with (js ".0") s then drop 2 s else c :: drop_point_zero r
  end.

(** [formatModelParameters(value)] *)
Definition formatModelParameters (value : jsval) : jsstring :=
  let n := Number value in
  if negb (is_finite n) || num_le n (num_Z 0) then []
  else if num_le (num_Z 1000000000) n
  then drop_point_zero (fixed (if num_le (num_Z 10000000000) n then 0 else 1) (num_div n (1000000000 # 1))) ++ js "B"
  else if num_le (num_Z 1000000) n
  then drop_point_zero (fixed 1 (num_div n (1000000 # 1))) ++ js "M"
  else show_num show_frac n.

(** ** The rows *)

Definition row : Type := jsstring * jsstring.

(** [appendModelInfoRow(container, label, value)] *)
Definition appendModelInfoRow (label : option jsstring) (value : jsval) (rows : list row) : list row :=
  match value with
  | VUndef | VNull | VStr [] => rows
  | _ => rows ++ [(default [] label, str value)]
  end.

(** [modelInfoValue(o, key) ? o[key] + ' tokens' : ''] *)
Definition tokens (o : jsval) (key : jsstring) : jsval :=
  if vtruthy (modelInfoValue o key) then VStr (str (prop o key) ++ js " tokens") else VStr [].

(** [Object.keys(modalities).filter(key => modalities[key]).join(', ')] *)
Definition modality_names (modalities : jsval) : jsstring :=
  join (js ", ") (List.filter (fun e => vtruthy e.2) (own_entries modalities)).*1.

(** The table of [renderModelInfoFallback]; [props] is not [null], which would throw. *)
Definition info_rows (model props : jsval) (modelId : jsstring) : list row :=
  let label k := own (js k) (modelInfoLocale htmlLang navLang) in
  let value k := modelInfoValue props (js k) in
  let meta := prop model (js "meta") in
  let modalities := vor (prop props (js "modalities")) (prop model (js "modalities")) in
  let add k v rows := appendModelInfoRow (label k) v rows in
  let rows :=
    add "slots"%string (value "total_slots"%string)
    (add "vocabType"%string (value "vocab_type"%string)
    (add "vocabulary"%string (tokens props (js "n_vocab"))
    (add "embedding"%string (value "n_embd"%string)
    (add "parameters"%string (vor (VStr (formatModelParameters (prop props (js "n_params"))))
                           (vor (if vtruthy meta then prop meta (js "parameter_size") else meta) (VStr [])))
    (add "size"%string (VStr (formatModelBytes (prop props (js "size"))))
    (add "training"%string (tokens props (js "n_ctx_train"))
    (add "context"%string (tokens (prop props (js "default_generation_settings")) (js "n_ctx"))
    (add "path"%string (vor (value "model_path"%string) (VStr modelId))
    (add "model"%string (vor (prop props (js "model_alias")) (vor (prop model (js "name")) (VStr modelId))) []))))))))) in
  let rows := if vtruthy modalities && is_object modalities
              then add "modalities"%string (VStr (modality_names modalities)) rows else rows in
  add "build"%string (value "build_info"%string) rows.

(** ** The dialog *)

(** [tables] are the dialogs that have their table; [promise] is the flag of
    [modelInfoFallbackPromise], [promiseModel] its model. *)
Record dialogs := Dialogs {
  promise : bool;
  promiseModel : jsstring;
  tables : gmap nat (list row);
  requests : gmap nat (nat * jsval * jsstring);
  next : nat;
}.

Definition dialogs0 : dialogs := Dialogs false [] ∅ ∅ 0.

Definition model_id (model : jsval) : jsstring := trim (str (vor (prop model (js "id")) (VStr []))).

(** [renderModelInfoFallback()] up to its request: the dialog that is open and whether its
    text already has a row of the bundled table. *)
Definition renderModelInfoFallback (dialog : option (nat * bool)) (model : jsval) (s : dialogs) : dialogs :=
  match dialog with
  | None => s
  | Some (d, filled) =>
      let id := model_id model in
      if bool_decide (is_Some (tables s !! d)) || filled || negb (truthy id) || (promise s && seqb (promiseModel s) id) then s
      else match encodeURIComponent id with
           | None => Dialogs false id (tables s) (requests s) (next s)
           | Some _ => Dialogs true id (tables s) (<[next s := (d, model, id)]> (requests s)) (S (next s))
           end
  end.

(** The answer: a JSON value, or [None] when the request failed. *)
Definition on_props (i : nat) (answer : option jsval) (s : dialogs) : dialogs :=
  match requests s !! i with
  | None => s
  | Some (d, model, id) =>
      let tables' :=
        match answer with
        | None | Some (VNull | VUndef) => tables s
        | Some props =>
            match tables s !! d with
            | Some _ => tables s
            | None => <[d := info_rows model props id]> (tables s)
            end
        end in
      Dialogs false (promiseModel s) tables' (delete i (requests s)) (next s)
  end.

Inductive info_event : Type :=
| Tick (dialog : option (nat * bool)) (model : jsval)
| Props (i : nat) (answer : option jsval).

Definition info_step (s : dialogs) (e : info_event) : dialogs :=
  match e with
  | Tick d m => renderModelInfoFallback d m s
  | Props i a => on_props i a s
  end.

Definition info_exec (evs : list info_event) (s : dialogs) : dialogs := fold_left info_step evs s.

(** ** Execution status *)

(** [textContent] and [title] of the status line; [None] before the first report. *)
Record execution := Execution { lastExecution : jsval; line : option (jsstring * jsstring) }.

Definition execution0 : execution := Execution VNull None.

#[local] Abbreviation status_text k := (default (js "undefined") (executionStatusText htmlLang navLang (js k))).

Definition status_line (metadata : jsval) : jsstring * jsstring :=
  let model := trim (str (vor (prop metadata (js "model_id")) (vor (prop metadata (js "model")) (VStr [])))) in
  let nodeIds := List.filter vtruthy (array_or_nil (prop metadata (js "provider_node_ids"))) in
  let nodeLabel := match nodeIds with [] => status_text "unspecified" | _ => join (js ", ") (str <$> nodeIds) end in
  (status_text "last" ++ js ": " ++ (if truthy model then model else status_text "unknown") ++ [32; 183; 32]%N ++ js "Node: " ++ nodeLabel,
   if vtruthy (prop metadata (js "execution_id"))
   then status_text "id" ++ js ": " ++ str (prop metadata (js "execution_id")) else status_text "evidence").

(** [updateExecutionStatus(metadata)] *)
Definition updateExecutionStatus (metadata : jsval) (s : execution) : execution :=
  if vtruthy metadata && is_object metadata then Execution metadata (Some (status_line metadata)) else s.

(** [observeExecutionPayload(payload)] *)
Definition observeExecutionPayload (payload : jsval) (s : execution) : execution :=
  if vtruthy payload && is_object payload && vtruthy (prop payload (js "compute_mesh_execution"))
  then updateExecutionStatus (prop payload (js "compute_mesh_execution")) s else s.

(** [text.split(/\r?\n/)]: a carriage return in front of a line feed goes with it. *)
Definition strip_cr (l : jsstring) : jsstring :=
  match last l with Some c => if (c =? 13)%N then take (pred (length l)) l else l | None => l end.

Definition stream_lines (text : jsstring) : list jsstring :=
  let l := split_on 10%N text in
  (strip_cr <$> take (pred (length l)) l) ++ drop (pred (length l)) l.

Definition observe_line (s : execution) (l : jsstring) : execution :=
  if negb (starts_with (js "data: ") l) || seqb l (js "data: [DONE]") then s
  else match JSON_parse (drop 6 l) with Ret v => observeExecutionPayload v s | Throw _ => s end.

(** [observeExecutionResponse(response)] *)
Definition observeExecutionResponse (r : response) (s : execution) : execution :=
  if includes (js "application/json") (content_type r)
  then match JSON_parse (body r) with Ret v => observeExecutionPayload v s | Throw _ => s end
  else if includes (js "text/event-stream") (content_type r)
  then fold_left observe_line (stream_lines (body r)) s
  else s.

(** ** The last report is shown *)

(** The execution metadata a payload carries. *)
Definition metadata_of (payload : jsval) : option jsval :=
  let x := prop payload (js "compute_mesh_execution") in
  if vtruthy payload && is_object payload && vtruthy x && is_object x then Some x else None.

Definition line_metadata (l : jsstring) : option jsval :=
  if negb (starts_with (js "data: ") l) || seqb l (js "data: [DONE]") then None
  else match JSON_parse (drop 6 l) with Ret v => metadata_of v | Throw _ => None end.

(** What a response reports, in order. *)
Definition reports (r : response) : list jsval :=
  if includes (js "application/json") (content_type r)
  then match JSON_parse (body r) with Ret v => option_list (metadata_of v) | Throw _ => [] end
  else if includes (js "text/event-stream") (content_type r)
  then omap line_metadata (stream_lines (body r))
  else [].

Definition report (x : jsval) : execution := Execution x (Some (status_line x)).

Lemma observe_payload v s : observeExecutionPayload v s = from_option report s (metadata_of v).
Proof.
  unfold observeExecutionPayload, metadata_of, updateExecutionStatus. cbv zeta.
  destruct (vtruthy v && is_object v); [|done]. set (x := prop v _). cbn [andb].
  destruct (vtruthy x) eqn:E; [|done]. by destruct (is_object x).
Qed.

Lemma observe_line_report s l : observe_line s l = from_option report s (line_metadata l).
Proof.
  unfold observe_line, line_metadata. destruct (_ || _); [done|]. destruct (JSON_parse _); [|done]. apply observe_payload.
Qed.

Lemma observe_lines ls s : fold_left observe_line ls s = from_option report s (last (omap line_metadata ls)).
Proof.
  revert s. induction ls as [|l ls IH]; intros s; [done|]. cbn [fold_left]. rewrite IH, observe_line_report.
  cbn [omap list_omap]. destruct (line_metadata l) as [x|]; [|done].
  by destruct (omap line_metadata ls) as [|y r]; [|rewrite last_cons_cons; destruct (last (y :: r)) eqn:E; [|by apply last_None in E]].
Qed.

(** After any sequence of completion answers, JSON or event streams, the status line
    shows the last execution report among them, however many reports, broken lines and
    answers without a report surround it; without any report it is unchanged. *)
Theorem last_execution_is_shown rs s :
  fold_left (fun s r => observeExecutionResponse r s) rs s = from_option report s (last (concat (reports <$> rs))).
Proof.
  assert (One : forall r s, observeExecutionResponse r s = from_option report s (last (reports r))).
  { intros r x. unfold observeExecutionResponse, reports. destruct (includes _ _).
    - destruct (JSON_parse (body r)) as [v|]; [|done]. rewrite observe_payload. by destruct (metadata_of v).
    - destruct (includes _ _); [apply observe_lines|done]. }
  revert s. induction rs as [|r rs IH]; intros s; [done|]. cbn [fold_left]. rewrite IH, One. cbn [fmap list_fmap concat].
  rewrite last_app. by destruct (last (concat (reports <$> rs))).
Qed.

(** ** One table per dialog *)

Lemma info_rows_path model props id : truthy id = true -> info_rows model props id <> [].
Proof.
  intros Hid. assert (Keep : forall l v rows, rows <> [] -> appendModelInfoRow l v rows <> []).
  { intros l v rows H. unfold appendModelInfoRow. destruct v as [| | | |[]| |]; try done; intros E%(f_equal length);
      rewrite length_app in E; simpl in E; lia. }
  unfold info_rows. cbv zeta. apply Keep. destruct (_ && _); [apply Keep|]; do 8 apply Keep.
  all: unfold vor; destruct (vtruthy (modelInfoValue _ _)) eqn:E; unfold appendModelInfoRow at 1;
    [destruct (modelInfoValue props _) as [| | | |[]| |]; try done|destruct id; [done|]]; intros E'%(f_equal length);
    rewrite length_app in E'; simpl in E'; lia.
Qed.

Definition info_ok (s : dialogs) : Prop :=
  (forall d rows, tables s !! d = Some rows -> rows <> []) /\
  (forall i d m id, requests s !! i = Some (d, m, id) -> truthy id = true).

Lemma info_step_ok e s : info_ok s ->
  info_ok (info_step s e) /\ (forall d rows, tables s !! d = Some rows -> tables (info_step s e) !! d = Some rows).
Proof.
  intros [H1 H2]. destruct e as [[[d b]|] m|i a]; cbn [info_step]; [| done|].
  - unfold renderModelInfoFallback. cbv zeta.
    destruct (bool_decide _ || b); [done|]. cbn [orb]. destruct (truthy (model_id m)) eqn:E; [|done].
    cbn [negb orb]. destruct (_ && _); [done|]. destruct (encodeURIComponent _); [|done].
    split; [split; [exact H1|]|done]. cbn [requests]. intros j d' m' id [[_ [= <- <- <-]]|[_ Hj]]%lookup_insert_Some; eauto.
  - unfold on_props. destruct (requests s !! i) as [[[d m] id]|] eqn:E; [|done].
    assert (H3 : forall j d m id, delete i (requests s) !! j = Some (d, m, id) -> truthy id = true).
    { intros j d' m' id' [_ Hj]%lookup_delete_Some. eauto. }
    assert (New : tables s !! d = None -> forall props, info_ok (Dialogs false (promiseModel s) (<[d := info_rows m props id]> (tables s)) (delete i (requests s)) (next s)) /\
      (forall d' rows, tables s !! d' = Some rows -> <[d := info_rows m props id]> (tables s) !! d' = Some rows)).
    { intros En props. split; [split; [|exact H3]|].
      - cbn [tables]. intros d' rows [[-> <-]|[_ Hd]]%lookup_insert_Some; [apply info_rows_path|]; eauto.
      - intros d' rows Hd. rewrite lookup_insert_ne; [done|congruence]. }
    assert (Old : info_ok (Dialogs false (promiseModel s) (tables s) (delete i (requests s)) (next s))) by done.
    destruct a as [v|]; [|done]. destruct (tables s !! d) eqn:Ed; destruct v; try done; by apply New.
Qed.

Lemma info_exec_ok evs s : info_ok s ->
  info_ok (info_exec evs s) /\ (forall d rows, tables s !! d = Some rows -> tables (info_exec evs s) !! d = Some rows).
Proof.
  revert s. induction evs as [|e evs IH]; intros s H; [done|]. destruct (info_step_ok e s H) as [H1 H2].
  destruct (IH _ H1) as [H3 H4]. split; [exact H3|]. eauto.
Qed.

(** A dialog gets at most one table, which is never empty and never replaced, however
    often the timer fires and however the answers of the gateway are ordered. *)
Theorem info_table_shown_once evs evs' d rows :
  tables (info_exec evs dialogs0) !! d = Some rows ->
  rows <> [] /\ tables (info_exec (evs ++ evs') dialogs0) !! d = Some rows.
Proof.
  intros H. assert (H0 : info_ok dialogs0) by (split; intros *; cbn; by rewrite lookup_empty).
  destruct (info_exec_ok evs _ H0) as [[H1 H2] _]. split; [by eapply H1|].
  unfold info_exec in *. rewrite fold_left_app. by apply info_exec_ok.
Qed.

(** ** Sizes *)

Lemma div_1024_exact q : (1024 <= q)%Q -> (fl64 q == q)%Q -> (fl64 (/ (1024 # 1) * q) == / (1024 # 1) * q)%Q.
Proof.
  intros Hq Hf. assert (Hp : (0 < q)%Q) by lra.
  assert (P : forall x, (0 < x)%Q -> fl64 x = fl64_pos x).
  { intros x Hx. unfold fl64. destruct (Qeqb x 0) eqn:E1; [q_norm; lra|]. destruct (Qltb 0 x) eqn:E2; [done|]. q_norm. lra. }
  rewrite P in Hf by done. rewrite P by (change (/ (1024 # 1))%Q with (1 # 1024)%Q; lra).
  destruct (expo_spec q Hp) as [_ Hs].
  assert (Hx : (10 <= expo q)%Z).
  { destruct (Z.le_gt_cases 10 (expo q)) as [|Hlt]; [done|]. exfalso.
    assert (H : (pow2 (expo q + 1) <= pow2 10)%Q) by (apply pow2_mono; lia). change (pow2 10) with (1024 # 1)%Q in H. lra. }
  set (e := ulp_expo q) in *. assert (He : (-42 <= e)%Z) by (unfold e, ulp_expo; lia).
  set (k := round_even (q * pow2 (- e))). assert (Ek : (q == inject_Z k * pow2 e)%Q) by (rewrite <- Hf; apply fl64_pos_eq).
  pose proof (pow2_pos e) as Pe.
  assert (Ku : (k <= 2 ^ 53)%Z).
  { pose proof (fl64_pos_upper q Hp) as U. rewrite Hf in U. fold e in U. rewrite Ek, Z.add_comm, pow2_plus, (pow2_Z 53) in U by lia.
    apply Qmult_le_r in U; [by rewrite <- Zle_Qle in U|done]. }
  assert (Kl : (0 < k)%Z).
  { rewrite Ek in Hp. destruct (Z.le_gt_cases k 0) as [Hk|]; [|done]. rewrite Zle_Qle in Hk. change (inject_Z 0) with 0%Q in Hk. nra. }
  apply (fl64_pos_grid _ k (e - 10)); [done|lia|]. rewrite Ek.
  assert (E10 : (pow2 e == pow2 (e - 10) * (1024 # 1))%Q).
  { change (1024 # 1)%Q with (pow2 10). rewrite <- pow2_plus. by replace (e - 10 + 10)%Z with e by lia. }
  rewrite E10. field.
Qed.

Definition pow1024 (u : nat) : Q := inject_Z (1024 ^ Z.of_nat u).

Lemma scale_bytes_spec fuel u q : (fl64 q == q)%Q -> (q < pow2 1024)%Q -> (0 < q)%Q -> (u = 0%nat \/ 1 <= q)%Q ->
  (u <= 4)%nat -> (4 - u < fuel)%nat ->
  exists q' u', scale_bytes fuel u (Fin q) = (Fin q', u') /\ (u <= u' <= 4)%nat /\ (0 < q')%Q /\
    (q == q' * pow1024 (u' - u))%Q /\ (u' = 0%nat \/ 1 <= q')%Q /\ (u' = 4%nat \/ q' < 1024)%Q.
Proof.
  revert u q. induction fuel as [|fuel IH]; intros u q Hf Hm Hp H1 Hu Hfuel; [lia|]. cbn [scale_bytes].
  assert (Stop : (u = 4%nat \/ q < 1024)%Q -> exists q' u', (Fin q, u) = (Fin q', u') /\ (u <= u' <= 4)%nat /\ (0 < q')%Q /\
    (q == q' * pow1024 (u' - u))%Q /\ (u' = 0%nat \/ 1 <= q')%Q /\ (u' = 4%nat \/ q' < 1024)%Q).
  { intros Hs. exists q, u. split_and!; try done; [lia..|]. rewrite Nat.sub_diag. unfold pow1024. change (inject_Z (1024 ^ Z.of_nat 0)) with 1%Q. ring. }
  change (num_le (num_Z 1024) (Fin q)) with (Qleb (inject_Z 1024) q).
  destruct (Qleb (inject_Z 1024) q) eqn:E; q_norm; [|apply Stop; by right]. change (inject_Z 1024) with (1024 # 1)%Q in E.
  change (length units - 1)%nat with 4%nat. case_bool_decide as Hlt; [|apply Stop; left; lia]. cbn [andb].
  pose proof (div_1024_exact q E Hf) as Hd.
  assert (exists r, num_div (Fin q) (1024 # 1) = Fin r /\ (r == / (1024 # 1) * q)%Q) as (r & -> & Er).
  { unfold num_div, num_scale, of_exact. eexists. split; [|exact Hd].
    assert ((fl64 (/ (1024 # 1) * q) < pow2 1024)%Q) as Hlt2 by (rewrite Hd; pose proof (pow2_pos 1024); change (/ (1024 # 1))%Q with (1 # 1024)%Q; lra).
    assert ((- pow2 1024 < fl64 (/ (1024 # 1) * q))%Q) as Hgt by (rewrite Hd; pose proof (pow2_pos 1024); change (/ (1024 # 1))%Q with (1 # 1024)%Q; lra).
    destruct (Qleb (pow2 1024) _) eqn:E1; q_norm; [lra|]. destruct (Qleb _ (- pow2 1024)) eqn:E2; q_norm; [lra|done]. }
  change (/ (1024 # 1))%Q with (1 # 1024)%Q in Er.
  destruct (IH (S u) r) as (q' & u' & -> & Hu' & Hq' & Eq & H5 & H6); try lia; try lra; try (by right; lra).
  - transitivity (fl64 (/ (1024 # 1) * q)); [apply Qle_antisym; apply fl64_mono; rewrite Er; apply Qle_refl|].
    rewrite Hd. symmetry. exact Er.
  - exists q', u'. split_and!; try done; try lia.
    assert (Eu : (u' - u = S (u' - S u))%nat) by lia. rewrite Eu. unfold pow1024.
    rewrite Nat2Z.inj_succ, Z.pow_succ_r, inject_Z_mult by lia. change (inject_Z 1024) with (1024 # 1)%Q.
    unfold pow1024 in Eq. rewrite Er in Eq. lra.
Qed.

(** A positive size is shown with the largest unit that leaves at least one (bytes
    apart) and, unless it is the terabyte, less than 1024 of it; the divisions of the loop
    lose nothing, so the number that is printed times the unit is the size itself. *)
Theorem model_size_unit v q : Number v = Fin q -> (0 < q < pow2 1024)%Q -> (fl64 q == q)%Q ->
  exists m u name, units !! u = Some name /\
    formatModelBytes v = (if decide (u = 0%nat) then show_num show_frac (num_round (Fin m)) else fixed 1 (Fin m)) ++ js " " ++ name /\
    (q == m * pow1024 u)%Q /\ (u = 0%nat \/ 1 <= m)%Q /\ (u = 4%nat \/ m < 1024)%Q.
Proof.
  intros E [H1 H2] Hf. unfold formatModelBytes. rewrite E. cbn [is_finite negb orb].
  destruct (num_le (Fin q) (num_Z 0)) eqn:Ez.
  { change (Qleb q (inject_Z 0) = true) in Ez. q_norm. change (inject_Z 0) with 0%Q in Ez. lra. }
  destruct (scale_bytes_spec (length units) 0 q Hf H2 H1 (or_introl eq_refl) ltac:(lia) ltac:(cbn; lia)) as (m & u & -> & Hu & Hm & Eq & H5 & H6).
  rewrite Nat.sub_0_r in Eq. destruct (lookup_lt_is_Some_2 units u) as [name En]; [cbn; lia|].
  exists m, u, name. by rewrite En.
Qed.

End Info.

Lemma model_size_unit_witness : exists m u name, units !! u = Some name /\
  formatModelBytes (fun _ => []) (VNum (num_Z 5368709120)) =
    (if decide (u = 0%nat) then show_num (fun _ => []) (num_round (Fin m)) else fixed (fun _ => []) 1 (Fin m)) ++ js " " ++ name /\
  (inject_Z 5368709120 == m * pow1024 u)%Q /\ (u = 0%nat \/ 1 <= m)%Q /\ (u = 4%nat \/ m < 1024)%Q.
Proof.
  refine (model_size_unit (fun _ => []) (VNum (num_Z 5368709120)) (inject_Z 5368709120) eq_refl _ _).
  - split; vm_compute; reflexivity.
  - vm_compute. reflexivity.
Defined.

(** 5 GiB; and one byte less than a mebibyte, which the rounding of the display turns into
    1024 kibibytes; sizes of models. *)
Example formatted_sizes :
  formatModelBytes (fun _ => []) (VNum (num_Z 5368709120)) = js "5.0 GB" /\
  formatModelBytes (fun _ => []) (VNum (num_Z 1048575)) = js "1024.0 KB" /\
  formatModelParameters (fun _ => []) (VNum (num_Z 7000000000)) = js "7B" /\
  formatModelParameters (fun _ => []) (VNum (num_Z 1540000000)) = js "1.5B" /\
  formatModelParameters (fun _ => []) (VNum (num_Z 72700000000)) = js "73B" /\
  formatModelParameters (fun _ => []) (VNum (num_Z 999999999)) = js "1000M".
Proof. vm_compute. done. Qed.

Definition sample_ticks : list info_event :=
  [Tick (Some (0%nat, false)) (VObj [(js "id", VStr (js "qwen"))]); Tick (Some (0%nat, false)) (VObj [(js "id", VStr (js "qwen"))]);
   Props 0 (Some (VObj [(js "n_ctx_train", VNum (num_Z 4096))]))].

Lemma info_table_shown_once_witness :
  let rows := [(js "Model", js "qwen"); (js "File path", js "qwen"); (js "Training context", js "4096 tokens")] in
  rows <> [] /\ tables (info_exec (fun _ => []) (js "en") (js "en") (sample_ticks ++ sample_ticks) dialogs0) !! 0%nat = Some rows.
Proof.
  refine (info_table_shown_once (fun _ => []) (js "en") (js "en") sample_ticks sample_ticks 0%nat _ _). vm_compute. reflexivity.
Defined.

(** ** The draft *)

Definition DRAFT_KEY : jsstring := js "cm_model_switch_draft".

(** The part of the model menu's [change] listener that keeps the draft; [None]: the page
    has no text area. *)
Definition keep_draft (draft : option jsstring) (st : area) : area :=
  match draft with
  | Some t => if truthy t then match area_set DRAFT_KEY t st with Ret st' => st' | Throw _ => st end else st
  | None => st
  end.

(** [restoreDraft(textarea)]: the store and the text area afterwards. *)
Definition restoreDraft (textarea : option jsstring) (st : area) : area * option jsstring :=
  match area_get DRAFT_KEY st with
  | Ret (Some draft) => (area_remove DRAFT_KEY st, (fun _ => draft) <$> textarea)
  | _ => (st, textarea)
  end.

(** A text that is not empty survives the reload of a model change: the new page's text
    area gets exactly it and the store forgets it, so that it is restored once. *)
Theorem draft_round_trip t old st : truthy t = true -> writable st = true ->
  let '(st', area) := restoreDraft (Some old) (keep_draft (Some t) st) in
  area = Some t /\ restoreDraft (Some old) st' = (st', Some old).
Proof.
  intros Ht Hw. apply andb_true_iff in Hw as [Hu Hf]. apply negb_true_iff in Hf.
  unfold keep_draft, area_set. rewrite Ht, Hu, Hf. unfold restoreDraft, area_get, area_remove. cbn [usable items full].
  rewrite lookup_insert_eq. split; [done|]. cbn [usable items full]. by rewrite lookup_delete_eq.
Qed.

Lemma draft_round_trip_witness :
  let '(st', area) := restoreDraft (Some []) (keep_draft (Some (js "hello")) (Area true false ∅)) in
  area = Some (js "hello") /\ restoreDraft (Some []) st' = (st', Some []).
Proof. refine (draft_round_trip (js "hello") [] (Area true false ∅) _ _); vm_compute; reflexivity. Defined.

(** The draft is removed before the text area is looked at: on a page that has none yet it
    is lost. *)
Example draft_is_lost_without_a_text_area :
  let '(st', _) := restoreDraft None (keep_draft (Some (js "hello")) (Area true false ∅)) in
  restoreDraft (Some []) st' = (st', Some []).
Proof. vm_compute. reflexivity. Qed.

(** ** The switch of the agent panel *)

Definition AGENT_PANEL_OPEN_KEY : jsstring := js "cm_agent_panel_open_v1".

Definition is_one (k : jsstring) (st : area) : bool :=
  match area_get k st with Ret (Some v) => seqb v (js "1") | _ => false end.

(** [setAgentSessionPanelOpen(open)]: the flag and the store. *)
Definition setAgentSessionPanelOpen (open : bool) (st : area) : bool * area :=
  let open' := is_one (js "cm_use_legacy_agent_popup") st && open in
  (open', match area_set AGENT_PANEL_OPEN_KEY (js (if open' then "1" else "0")) st with Ret st' => st' | Throw _ => st end).

(** [ensureAgentSessionPanel()], the part that restores the flag when the panel is built;
    [before] is the flag a store that throws leaves as it is. *)
Definition ensure_open (before : bool) (st : area) : bool * area :=
  setAgentSessionPanelOpen (match area_get AGENT_PANEL_OPEN_KEY st with Ret o => bool_decide (o = Some (js "1")) | Throw _ => before end) st.

Definition toggles (l : list bool) (s : bool * area) : bool * area := fold_left (fun s o => setAgentSessionPanelOpen o s.2) l s.

Lemma legacy_kept open st : is_one (js "cm_use_legacy_agent_popup") (setAgentSessionPanelOpen open st).2 = is_one (js "cm_use_legacy_agent_popup") st.
Proof.
  unfold setAgentSessionPanelOpen, area_set. cbn [snd]. destruct (usable st) eqn:E; [|done]. destruct (full st); [done|].
  unfold is_one, area_get. cbn [usable items]. rewrite E. by rewrite lookup_insert_ne by (vm_compute; discriminate).
Qed.

(** The legacy panel opens only for users who have switched it on: without the stored
    switch no sequence of clicks and reloads opens it, and with it the panel is open exactly
    when the last click asked for it. *)
Theorem panel_needs_the_legacy_switch l o before st :
  (toggles (l ++ [o]) (ensure_open before st)).1 = is_one (js "cm_use_legacy_agent_popup") st && o.
Proof.
  unfold toggles. rewrite fold_left_app. cbn [fold_left setAgentSessionPanelOpen fst]. f_equal.
  assert (L : forall l s, is_one (js "cm_use_legacy_agent_popup") (fold_left (fun s o => setAgentSessionPanelOpen o s.2) l s).2
    = is_one (js "cm_use_legacy_agent_popup") s.2).
  { intros l'. induction l' as [|b l' IH]; intros s; [done|]. cbn [fold_left]. by rewrite IH, legacy_kept. }
  rewrite L. apply legacy_kept.
Qed.

(** ** The status of the mesh *)

(** The address, the member of the answer and the variable of the page. *)
Definition mesh_sources : list (jsstring * jsstring * jsstring) :=
  (fun '(a, b, c) => (js a, js b, js c)) <$>
  [("/api/v1/mesh/sharding/plan", "sharding_plan", "cmMeshShardingPlan");
   ("/api/v1/mesh/cache/status", "distributed_model_cache", "cmMeshCacheStatus");
   ("/api/v1/mesh/stream/status", "p2p_stream_federation", "cmMeshStreamStatus");
   ("/api/v1/mesh/federation/clusters", "multi_cluster_federation", "cmMultiClusterFederation");
   ("/api/v1/mesh/zero_trust/status", "zero_trust_worker_communication", "cmZeroTrustStatus");
   ("/api/v1/mesh/video/compression/status", "adaptive_video_stream_compression", "cmAdaptiveVideoCompression")]%string.

(** [fetchMeshShardingPlan()]: the answer of the [i]-th request, [None] when it failed. *)
Definition on_mesh_answer (window : gmap jsstring jsval) (a : nat * option jsval) : gmap jsstring jsval :=
  match mesh_sources !! a.1, a.2 with
  | Some (_, member, var), Some d =>
      if vtruthy d && vtruthy (prop d member) then <[var := prop d member]> window else window
  | _, _ => window
  end.

(** The getters of [window.ComputeMeshSharding]. *)
Definition mesh_get (var : jsstring) (window : gmap jsstring jsval) : jsval := vor (default VUndef (window !! var)) VNull.

(** What the answers say about one variable. *)
Definition mesh_values (i : nat) (member : jsstring) (answers : list (nat * option jsval)) : list jsval :=
  omap (fun a => if decide (a.1 = i) then
                   match a.2 with Some d => if vtruthy d && vtruthy (prop d member) then Some (prop d member) else None | None => None end
                 else None) answers.

Lemma mesh_sources_distinct i j x y : mesh_sources !! i = Some x -> mesh_sources !! j = Some y -> x.2 = y.2 -> i = j.
Proof.
  assert (N : NoDup mesh_sources.*2) by (refine (bool_decide_unpack (NoDup mesh_sources.*2) _); vm_compute; exact I).
  intros Hi Hj E. eapply (NoDup_lookup _ _ _ x.2 N); rewrite list_lookup_fmap; [by rewrite Hi|by rewrite Hj, E].
Qed.

(** Whatever the order in which the answers of the six periodic requests arrive and
    whichever of them fail, each getter returns the latest value reported for its own
    variable, and [null] before the first. *)
Theorem mesh_getter_is_latest answers i path member var : mesh_sources !! i = Some (path, member, var) ->
  mesh_get var (fold_left on_mesh_answer answers ∅) = default VNull (last (mesh_values i member answers)).
Proof.
  intros Hi. assert (G : forall w, mesh_get var (fold_left on_mesh_answer answers w) = default (mesh_get var w) (last (mesh_values i member answers)));
    [|by rewrite G].
  induction answers as [|[j a] answers IH] using rev_ind; intros w; [done|].
  unfold mesh_values. rewrite fold_left_app, omap_app, last_app. cbn [fold_left omap list_omap fst snd]. unfold on_mesh_answer at 1. cbn [fst snd].
  destruct (decide (j = i)) as [->|Hne].
  - rewrite Hi. destruct a as [d|]; [|apply IH]. destruct (vtruthy d && vtruthy (prop d member)) eqn:E; [|apply IH].
    apply andb_true_iff in E as [_ E]. unfold mesh_get. rewrite lookup_insert_eq. cbn. by apply vor_l.
  - cbn [last]. fold (mesh_values i member answers). rewrite <- IH. destruct (mesh_sources !! j) as [[[p' m'] v']|] eqn:Ej; [|done]. destruct a as [d|]; [|done].
    destruct (_ && _); [|done]. unfold mesh_get. rewrite lookup_insert_ne; [done|]. intros ->. by apply Hne, (mesh_sources_distinct _ _ _ _ Ej Hi).
Qed.

Lemma mesh_getter_is_latest_witness :
  mesh_get (js "cmMeshCacheStatus") (fold_left on_mesh_answer
     [(1%nat, Some (VObj [(js "distributed_model_cache", VStr (js "old"))])); (0%nat, None);
      (1%nat, Some (VObj [(js "distributed_model_cache", VStr (js "new"))])); (1%nat, Some VNull)] ∅) = VStr (js "new").
Proof.
  refine (mesh_getter_is_latest _ 1%nat (js "/api/v1/mesh/cache/status") (js "distributed_model_cache") (js "cmMeshCacheStatus") _).
  vm_compute. reflexivity.
Defined.
