(* ===== verification/SelectorFetch.v ===== *)
(** * The whole path of a completion (webui/model-selector.js)

    The parts of the intercepted [fetch] composed as the source composes them: the request
    of [ModelRouting.v] with the body fitted by [ImageFit.v], and the answer localised by
    [MeshNotice.v], observed by [ModelInfo.v] and, when it comes from a node, with the
    addresses of generated pictures completed. *)
From Stdlib Require Import Lia NArith ZArith QArith.
From stdpp Require Import base numbers list gmap strings.
From S2P Require Import Prelude JsString JsNumber JsValue JsJson JsonRoundTrip MeshNotice ImageFit ModelChoice ModelRouting ModelInfo.

Section Fetch.
Context (url_pathname : jsstring -> option jsstring) (show_frac : Q -> jsstring) (origin htmlLang navLang : jsstring) {C : Collation}.
Context (fetch_blob : jsstring -> outcome jsstring (jsstring * Z * jsstring)) (readAsDataURL : file -> outcome jsstring jsstring)
  (bitmap : file -> option (positive * positive)) (context2d : bool)
  (toBlob : file -> Z -> Z -> output -> option Q -> option blob).

#[local] Abbreviation fit := (fitChatBody show_frac fetch_blob readAsDataURL bitmap context2d toBlob).
#[local] Abbreviation browser := (Pictures fetch_blob readAsDataURL bitmap context2d toBlob).

(** ** The request *)

(** The request [window.fetch(input, init)] makes. *)
Definition fetch_request (s : selection) (i : ModelRouting.input) (init : option options) : outcome jsstring sent :=
  intercept url_pathname show_frac origin browser s i init.

(** The selections the page can have: that of [initialize], those made in the menu, and the
    fallback to a model of the gateway. *)
Inductive picked : selection -> Prop :=
| picked_start answers slots probed st : picked (initialize show_frac origin answers slots probed st)
| picked_menu id s : picked s -> picked (select_model show_frac origin id s)
| picked_fallback s i o err g : picked s -> g ∈ models s -> prop g source_key = VStr origin ->
    picked (fall_back show_frac origin browser s i o err).1.

(** Requests go where the selected model is offered. *)
Lemma picked_route s m : picked s -> selectedModel s = Some m -> localNodeEndpoint s = route_of origin m.
Proof.
  intros H. revert m. induction H as [answers slots probed st|id s H IH|s i o err g H IH Hg Hs]; intros m.
  - unfold initialize. destruct (merged_models show_frac answers) as [|first ms]; [done|].
    cbv zeta. destruct (find_id _ _); intros [= <-]; done.
  - unfold select_model. destruct (find_id _ _); [|done]. intros [= <-]. done.
  - unfold fall_back. destruct (cross_route origin s) as [e|]; [|by apply IH].
    destruct (List.find _ (models s)) as [g'|] eqn:E.
    + intros [= <-]. apply List.find_some in E as [_ Hg'%strict_eq_str]. cbn. unfold route_of. rewrite Hg', seqb_refl.
      by destruct (truthy origin).
    + apply list_elem_of_In, (List.find_none _ _ E) in Hg. rewrite Hs in Hg. cbn [strict_eq] in Hg. by rewrite seqb_refl in Hg.
Qed.

(** ** The answer *)

(** The parts the transformer of [localizeMeshNoticeResponse] hands on. *)
Fixpoint transform_parts (carry : jsstring) (parts : list jsstring) (flush : jsstring) : list jsstring :=
  match parts with
  | [] => [on_end show_frac htmlLang navLang carry flush]
  | p :: r => (on_part show_frac htmlLang navLang carry p).1 :: transform_parts (on_part show_frac htmlLang navLang carry p).2 r flush
  end.

Definition response_ok (r : response) : bool := (200 <=? status r)%Z && (status r <=? 299)%Z.

(** The [try] block of a completion: the answer the page gets and the execution status;
    [Throw] where the answer of a node is not the JSON it announces, which leads to the
    fallback. *)
Definition deliver (s : selection) (r : response) (parts : list jsstring) (flush : jsstring) (x : execution)
    : outcome jsstring response * execution :=
  let r1 := localizeMeshNoticeResponse show_frac htmlLang navLang r parts flush in
  let x1 := observeExecutionResponse show_frac htmlLang navLang r1 x in
  match cross_route origin s with
  | Some node =>
      if response_ok r1 then
        if includes (js "application/json") (content_type r1) then
          match JSON_parse (body r1) with
          | Ret v => (Ret (Response (status r1) (without_headers [js "content-length"] (headers r1))
                             (rewrite_images node 0 (JSON_stringify show_frac v))),
                      observeExecutionPayload show_frac htmlLang navLang v x1)
          | Throw e => (Throw e, x1)
          end
        else if includes (js "text/event-stream") (content_type r1) then
          (Ret (Response (status r1) (headers r1) (rewrite_parts node (transform_parts [] parts flush))), x1)
        else (Ret r1, x1)
      else (Ret r1, x1)
  | None => (Ret r1, x1)
  end.

Lemma transform_parts_concat carry parts flush :
  concat (transform_parts carry parts flush) = transform show_frac htmlLang navLang carry parts flush.
Proof.
  revert carry. induction parts as [|p parts IH]; intros carry; cbn [transform_parts transform concat]; [apply app_nil_r|].
  by rewrite IH.
Qed.

Lemma observe_json r v x : includes (js "application/json") (content_type r) = true -> JSON_parse (body r) = Ret v ->
  observeExecutionPayload show_frac htmlLang navLang v (observeExecutionResponse show_frac htmlLang navLang r x)
  = observeExecutionResponse show_frac htmlLang navLang r x.
Proof.
  intros H E. unfold observeExecutionResponse. rewrite H, E, !observe_payload. by destruct (metadata_of v).
Qed.

(** A delivered answer changes the execution status exactly once: the line shows the
    last report of the localised answer, although the JSON of a node is observed twice; and
    the page gets the status code of the answer, with the localised body itself when it
    comes from the gateway. *)
Theorem delivered_answer_is_observed s r parts flush x :
  let r1 := localizeMeshNoticeResponse show_frac htmlLang navLang r parts flush in
  (deliver s r parts flush x).2 = from_option (report show_frac htmlLang navLang) x (last (reports r1)) /\
  (forall a, (deliver s r parts flush x).1 = Ret a -> status a = status r1) /\
  (cross_route origin s = None -> (deliver s r parts flush x).1 = Ret r1).
Proof.
  cbv zeta. set (r1 := localizeMeshNoticeResponse _ _ _ r parts flush).
  assert (One : observeExecutionResponse show_frac htmlLang navLang r1 x = from_option (report show_frac htmlLang navLang) x (last (reports r1))).
  { unfold observeExecutionResponse, reports. destruct (includes _ _).
    - destruct (JSON_parse (body r1)) as [v|]; [|done]. rewrite observe_payload. by destruct (metadata_of v).
    - destruct (includes _ _); [apply observe_lines|done]. }
  unfold deliver. fold r1. rewrite <- One. destruct (cross_route origin s) as [node|]; [|by cbn [fst snd]; split_and!; [|intros a [= <-]|]].
  destruct (response_ok r1); [|by cbn [fst snd]; split_and!; [|intros a [= <-]|]].
  destruct (includes (js "application/json") (content_type r1)) eqn:Ej.
  - destruct (JSON_parse (body r1)) as [v|e] eqn:Ep; cbn [fst snd]; [|by split_and!].
    split_and!; [by apply observe_json|by intros a [= <-]|done].
  - destruct (includes (js "text/event-stream") _); cbn [fst snd]; (split_and!; [done|intros a E; by inversion E|done]).
Qed.

(** C17: A chat request carries the selected model. However the selection came about (at the
    start, in the menu, or by the fallback to a model of the gateway), a completion request
    with a JSON body that is a chat or a prompt leaves with the caller's method and headers,
    and goes to the endpoint that offers the selected model, or to the caller's address when
    that is the gateway. Its body is the caller's object with the member [model] set to the
    identifier of the selected model and every other member as it was, provided that it holds
    no pictures or is not above the limit from which pictures are made smaller. *)
Theorem completion_carries_the_selected_model s m url method hs text fields :
  picked s -> selectedModel s = Some m ->
  isPropsUrl url_pathname (Address url) = false -> isCompletionUrl url_pathname (Address url) = true ->
  JSON_parse text = Ret (VObj fields) -> chat_body (VObj fields) = true ->
  let v := put (js "model") (prop m (js "id")) (VObj fields) in
  ((utf8_size (JSON_stringify show_frac v) <= maxChatRequestBytes)%Z \/ findImageDataUrls v = []) ->
  fetch_request s (Address url) (Some (Options method hs (Some (TextBody text))))
    = Ret (Sent (match route_of origin m with Some e => Address (e ++ js "/webui/chat/completions")%list | None => Address url end)
             (Some (Options method hs (Some (TextBody (JSON_stringify show_frac v)))))) /\
  prop v (js "model") = prop m (js "id") /\ forall k, k <> js "model" -> prop v k = prop (VObj fields) k.
Proof.
  intros Hk Hs Hp Hc Ht Hb v Hv. split_and!.
  - unfold fetch_request, intercept. rewrite Hp, Hc, Hs. cbn [andb].
    rewrite (routed_target origin s m url) by (by apply picked_route).
    unfold completion_options. cbv zeta. cbn [from_option id o_body o_method o_headers].
    destruct (with_model_small show_frac browser m text fields Ht Hb Hv) as [-> ->]. done.
  - apply (prop_put_eq (js "model") (prop m (js "id")) fields).
  - intros k Hne. by apply (prop_put_ne k (js "model") (prop m (js "id")) fields).
Qed.

(** C18: End to end, a chat request with pictures fits the gateway: whatever pictures the
    conversation holds, a completion request that leaves the page carries a text body in
    which only the model and the pictures differ from the caller's, and if it has pictures
    its UTF-8 size is at most the limit of the gateway. *)
Theorem sent_pictures_are_bounded s m url method hs text fields q :
  isPropsUrl url_pathname (Address url) = false -> isCompletionUrl url_pathname (Address url) = true ->
  selectedModel s = Some m -> JSON_parse text = Ret (VObj fields) -> chat_body (VObj fields) = true ->
  fetch_request s (Address url) (Some (Options method hs (Some (TextBody text)))) = Ret q ->
  let v := put (js "model") (prop m (js "id")) (VObj fields) in
  exists t us, with_options q = Some (Options method hs (Some (TextBody t))) /\
    t = JSON_stringify show_frac (replaceImages v us).1 /\ length us = length (findImageDataUrls v) /\
    (findImageDataUrls v <> [] -> (utf8_size t <= gatewayRequestLimitBytes)%Z).
Proof.
  intros Hp Hc Hs Ht Hb E. cbv zeta. set (v := put _ _ _). revert E. unfold fetch_request, intercept. rewrite Hp, Hc, Hs. cbn [andb].
  unfold completion_options, withSelectedModel. cbv zeta. cbn [from_option id o_body o_method o_headers]. destruct (truthy text) eqn:Et.
  2: { destruct text; [|done]. by vm_compute in Ht. }
  rewrite Ht, Hb. fold v. cbn [p_fetch p_read p_bitmap p_context2d p_toBlob]. destruct (fit v) as [t|e] eqn:Ef; [|done].
  destruct (fitChatBody_spec _ _ _ _ _ _ _ _ Ef) as [(us & Hl & ->) Hz].
  assert (Hne : truthy (JSON_stringify show_frac (replaceImages v us).1) = true).
  { assert (exists l, (replaceImages v us).1 = VObj l) as [l ->]; [|apply str_not_empty].
    unfold v. cbn [put replaceImages]. case_match. by eexists. }
  rewrite Hne. intros [= <-]. by exists (JSON_stringify show_frac (replaceImages v us).1), us.
Qed.

End Fetch.

Definition picture_text : jsstring := jsq "{`messages`:[{`url`:`data:image/png;base64,AA`}]}".
Definition picture_fields : list (jsstring * jsval) :=
  [(js "messages", VArr [VObj [(js "url", VStr (js "data:image/png;base64,AA"))]])].
Definition picture_sent : sent :=
  Sent (Address (js "http://127.0.0.1:8080/webui/chat/completions"))
    (Some (Options (Some (js "POST")) None
       (Some (TextBody (jsq "{`messages`:[{`url`:`data:image/png;base64,AA`}],`model`:`qwen2.5:7b`}"))))).

Lemma sent_pictures_are_bounded_witness :
  let v := put (js "model") (prop node_model (js "id")) (VObj picture_fields) in
  findImageDataUrls v = [js "data:image/png;base64,AA"] /\
  exists t us, with_options picture_sent = Some (Options (Some (js "POST")) None (Some (TextBody t))) /\
    t = JSON_stringify (fun _ => []) (replaceImages v us).1 /\ length us = length (findImageDataUrls v) /\
    (findImageDataUrls v <> [] -> (utf8_size t <= gatewayRequestLimitBytes)%Z).
Proof.
  split; [vm_compute; reflexivity|].
  refine (sent_pictures_are_bounded whole_path (fun _ => []) (js "https://mesh.example") (fun _ => Throw []) (fun _ => Throw [])
    (fun _ => None) false toy_blob (on_node [node_model]) node_model (js "/v1/chat/completions") (Some (js "POST")) None
    picture_text picture_fields picture_sent _ _ _ _ _ _); vm_compute; reflexivity.
Defined.

(** Two models, one of them of a node, and the node's chosen in the menu. *)
Definition two_catalogues : list (jsstring * option jsval) :=
  [(js "https://mesh.example", Some (VObj [(js "data", VArr [VObj [(js "id", VStr (js "gemma3:4b"))]])]));
   (js "http://127.0.0.1:8080", Some (VObj [(js "data", VArr [VObj [(js "id", VStr (js "qwen2.5:7b"))]])]))].

Definition node_chosen : selection :=
  select_model (fun _ => []) (js "https://mesh.example") (js "qwen2.5:7b")
    (initialize (fun _ => []) (js "https://mesh.example") two_catalogues None None (Some ∅)).

Lemma completion_carries_the_selected_model_witness :
  exists m, selectedModel node_chosen = Some m /\ prop m (js "id") = VStr (js "qwen2.5:7b") /\
  fetch_request whole_path (fun _ => []) (js "https://mesh.example") (fun _ => Throw []) (fun _ => Throw []) (fun _ => None) false toy_blob
    node_chosen (Address (js "/v1/chat/completions")) (Some (Options (Some (js "POST")) None (Some (TextBody sample_text))))
  = Ret (Sent (Address (js "http://127.0.0.1:8080/webui/chat/completions"))
           (Some (Options (Some (js "POST")) None (Some (TextBody (jsq "{`model`:`qwen2.5:7b`,`messages`:[],`stream`:true}")))))).
Proof.
  eexists. split; [vm_compute; reflexivity|]. split; [vm_compute; reflexivity|].
  refine (eq_trans (proj1 (completion_carries_the_selected_model whole_path (fun _ => []) (js "https://mesh.example")
    (fun _ => Throw []) (fun _ => Throw []) (fun _ => None) false toy_blob node_chosen _ (js "/v1/chat/completions")
    (Some (js "POST")) None sample_text sample_fields _ _ _ _ _ _ _)) _); try (vm_compute; reflexivity).
  - apply picked_menu, picked_start.
  - right. vm_compute. reflexivity.
Defined.
