(* ===== verification/MeshClient.v ===== *)
(** * Calls to the mesh and pictures of nodes (webui/model-selector.js)

    The functions of [window.ComputeMeshSharding] that post to the gateway; their requests
    go through the replaced [window.fetch] of ModelRouting.  [installImageTagRewriter] on
    the document as a tree. *)
From Stdlib Require Import Lia NArith ZArith QArith.
From stdpp Require Import base numbers list gmap strings.
From S2P Require Import Prelude JsString JsNumber JsValue JsJson JsonRoundTrip Dom ModelChoice ModelRouting.

Section Mesh.
Context (show_frac : Q -> jsstring).

(** ** The calls *)

(** The posting functions with their arguments. *)
Inductive mesh_call : Type :=
| CalculatePlan (modelId totalLayers modelVramBytes enableTp : jsval)
| ClearCache
| VerifyCache (modelId : jsval)
| SyncFederatedClusters (clusters : jsval)
| TuneVideoCompression (params : jsval).

Definition call_path (c : mesh_call) : jsstring :=
  js match c with
     | CalculatePlan _ _ _ _ => "/api/v1/mesh/sharding/calculate"
     | ClearCache => "/api/v1/mesh/cache/clear"
     | VerifyCache _ => "/api/v1/mesh/cache/verify"
     | SyncFederatedClusters _ => "/api/v1/mesh/federation/sync"
     | TuneVideoCompression _ => "/api/v1/mesh/video/compression/tune"
     end.

(** The object given to [JSON.stringify]. *)
Definition call_body (c : mesh_call) : option jsval :=
  match c with
  | CalculatePlan modelId totalLayers modelVramBytes enableTp =>
      Some (VObj [(js "model_id", vor modelId (VStr (js "Qwen/Qwen2.5-72B-Instruct-GGUF")));
                  (js "total_layers", vor totalLayers (VNum (num_Z 80)));
                  (js "model_vram_bytes", vor modelVramBytes (VNum (num_Z (42 * 1024 * 1024 * 1024))));
                  (js "enable_tensor_parallel", VBool (vtruthy enableTp))])
  | ClearCache => None
  | VerifyCache modelId => Some (VObj [(js "model_id", modelId)])
  | SyncFederatedClusters clusters => Some (VObj [(js "clusters", vor clusters (VArr []))])
  | TuneVideoCompression params => Some (vor params (VObj []))
  end.

Definition call_options (c : mesh_call) : options :=
  match call_body c with
  | None => Options (Some (js "POST")) None None
  | Some v => Options (Some (js "POST")) (Some [(js "Content-Type", js "application/json")]) (Some (TextBody (JSON_stringify show_frac v)))
  end.

(** What the arguments must be for the body to be faithful: values that JSON can express. *)
Definition expressible (v : jsval) : Prop := v = VUndef \/ json_normal v.
Definition call_ok (c : mesh_call) : Prop :=
  match c with
  | CalculatePlan a b d _ => expressible a /\ expressible b /\ expressible d
  | ClearCache => True
  | VerifyCache a => json_normal a
  | SyncFederatedClusters a | TuneVideoCompression a => expressible a
  end.

Lemma vor_normal v d : expressible v -> json_normal d -> json_normal (vor v d).
Proof. intros [->|H] Hd; [done|]. unfold vor. by destruct (vtruthy v). Qed.

Lemma lit_normal s : forallb (fun c => c <? 65536)%N s = true -> json_normal (VStr s).
Proof. intros H. constructor. by apply code_units_lit. Qed.

(** Objects with distinct literal names. *)
Lemma object_normal fs : bool_decide (NoDup fs.*1) = true -> forallb (fun e => forallb (fun c => c <? 65536)%N e.1) fs = true ->
  Forall json_normal fs.*2 -> json_normal (VObj fs).
Proof.
  intros H1%bool_decide_eq_true H2 H3. constructor; [done|]. rewrite forallb_forall in H2. rewrite Forall_fmap in H3. rewrite Forall_forall in *.
  intros e He. split; [|by apply H3]. by apply code_units_lit, H2, list_elem_of_In.
Qed.

Lemma call_body_normal c v : call_ok c -> call_body c = Some v -> json_normal v.
Proof.
  destruct c as [a b d e| |a|a|a]; cbn [call_ok call_body]; intros H [= <-].
  - destruct H as (Ha & Hb & Hd). apply object_normal; [by vm_compute|by vm_compute|]. cbn [fmap list_fmap snd].
    apply Forall_cons. split; [apply vor_normal; [exact Ha|apply lit_normal; by vm_compute]|].
    apply Forall_cons. split; [apply vor_normal; [exact Hb|apply normal_num; lia]|].
    apply Forall_cons. split; [apply vor_normal; [exact Hd|apply normal_num; lia]|].
    apply Forall_cons. split; [apply normal_bool|apply Forall_nil; exact I].
  - apply object_normal; [by vm_compute|by vm_compute|]. by repeat constructor.
  - apply object_normal; [by vm_compute|by vm_compute|]. repeat constructor. apply vor_normal; [done|]. by constructor.
  - apply vor_normal; [done|]. by apply object_normal.
Qed.

(** ** Their way through [fetch] *)

Section Sent.
Context (url_pathname : jsstring -> option jsstring) (origin : jsstring) (P : pictures).
(** [new URL(path, base).pathname] of an absolute path without query is the path. *)
Hypothesis (absolute : forall c, url_pathname (call_path c) = Some (call_path c)).

Lemma call_not_intercepted c :
  isCompletionUrl url_pathname (Address (call_path c)) = false /\ isPropsUrl url_pathname (Address (call_path c)) = false.
Proof.
  unfold isCompletionUrl, isPropsUrl, url_ends_in. cbn [raw_url]. rewrite absolute. by destruct c; vm_compute.
Qed.

(** Every call to the mesh leaves as it was made, whichever model is selected and whichever
    node was found, and its body reads back as the object of the call. *)
Theorem mesh_call_reaches_the_gateway c s : call_ok c ->
  intercept url_pathname show_frac origin P s (Address (call_path c)) (Some (call_options c))
    = Ret (Sent (Address (call_path c)) (Some (call_options c))) /\
  match o_body (call_options c) with
  | Some (TextBody t) => exists v, call_body c = Some v /\ JSON_parse t = Ret v
  | Some OtherBody => False
  | None => c = ClearCache
  end.
Proof.
  intros Hc. split.
  - unfold intercept. destruct (call_not_intercepted c) as [-> ->]. done.
  - unfold call_options. destruct (call_body c) as [v|] eqn:E; cbn [o_body]; [|by destruct c].
    exists v. split; [done|]. apply json_round_trip. by eapply call_body_normal.
Qed.
End Sent.
End Mesh.

(** No layers are planned as eighty. *)
Definition no_layers : mesh_call := CalculatePlan VUndef (VNum (num_Z 0)) VUndef (VBool true).

Lemma mesh_call_reaches_the_gateway_witness :
  intercept whole_path (fun _ => []) [] no_pictures (on_node [node_model]) (Address (call_path no_layers)) (Some (call_options (fun _ => []) no_layers))
    = Ret (Sent (Address (call_path no_layers)) (Some (call_options (fun _ => []) no_layers))) /\
  o_body (call_options (fun _ => []) no_layers)
    = Some (TextBody (jsq "{`model_id`:`Qwen/Qwen2.5-72B-Instruct-GGUF`,`total_layers`:80,`model_vram_bytes`:45097156608,`enable_tensor_parallel`:true}")).
Proof.
  split; [|vm_compute; reflexivity].
  apply (mesh_call_reaches_the_gateway (fun _ => []) whole_path [] no_pictures (fun c => eq_refl) no_layers (on_node [node_model])).
  split; [left; reflexivity|split; [right; apply normal_num; lia|left; reflexivity]].
Defined.

(** ** Pictures of a node *)

Definition generated : jsstring := js "/generated/".

(** [img\[src^="/generated/"\]] *)
Definition is_generated (t : jsstring) (a : list (jsstring * jsstring)) : bool :=
  seqb t (js "img") && from_option (starts_with generated) false (attr (js "src") a).

(** The callback of the observer of [installImageTagRewriter]; it watches the children only,
    so what it writes does not call it again. *)
Definition rewrite_img (endpoint t : jsstring) (a : list (jsstring * jsstring)) (v : jsstring) : list (jsstring * jsstring) * jsstring :=
  if is_generated t a then (set_attr (js "src") (endpoint ++ default [] (attr (js "src") a)) a, v) else (a, v).
Definition rewrite_tags (localNodeEndpoint : option jsstring) (origin : jsstring) (doc : node) : node :=
  match localNodeEndpoint with
  | Some e => if truthy e && negb (seqb origin e) then map_elems (rewrite_img e) doc else doc
  | None => doc
  end.

(** Whether a picture with a relative address is left. *)
Fixpoint left_over (n : node) : bool :=
  match n with Text _ => false | Elem t a _ cs => is_generated t a || existsb left_over cs end.

Section Rewrite.
Context (c : N) (e origin : jsstring) (Hc : c <> 47%N).

Lemma rewritten_done t a v : is_generated t (rewrite_img (c :: e) t a v).1 = false.
Proof.
  unfold rewrite_img. destruct (is_generated t a) eqn:E; [|done]. unfold is_generated. cbn [fst]. rewrite attr_set, seqb_refl.
  cbn [from_option]. rewrite andb_false_iff. right. change generated with (47%N :: js "generated/").
  cbn [app starts_with]. apply N.eqb_neq in Hc. by rewrite N.eqb_sym, Hc.
Qed.

(** Once the observer has run, no picture with a relative address is left, and a further run
    changes nothing; the address of a node begins with its scheme and not with a slash. *)
Theorem pictures_are_rewritten_once doc : seqb origin (c :: e) = false ->
  left_over (rewrite_tags (Some (c :: e)) origin doc) = false /\
  rewrite_tags (Some (c :: e)) origin (rewrite_tags (Some (c :: e)) origin doc) = rewrite_tags (Some (c :: e)) origin doc.
Proof.
  intros Ho. unfold rewrite_tags. rewrite Ho. cbn [truthy andb negb]. split.
  - induction doc as [s|t a v cs IH] using node_nested_ind; [done|]. cbn [map_elems left_over]. rewrite rewritten_done. cbn [orb].
    induction IH as [|x cs Hx _ IHcs]; [done|]. cbn [fmap list_fmap existsb]. by rewrite Hx.
  - apply map_elems_twice. intros t a v. unfold rewrite_img at 1. rewrite rewritten_done. by destruct (rewrite_img _ t a v).
Qed.
End Rewrite.

Lemma pictures_are_rewritten_once_witness :
  left_over (rewrite_tags (Some (js "http://127.0.0.1:8080")) (js "https://ai.example")
    (Elem (js "body") [] [] [Elem (js "img") [(js "src", js "/generated/image_1.png")] [] []])) = false.
Proof.
  apply (pictures_are_rewritten_once 104 (js "ttp://127.0.0.1:8080") (js "https://ai.example")); [intros H; discriminate H|vm_compute; reflexivity].
Defined.
