(* ===== verification/AgentPanel.v ===== *)
(** * The panel of the agent sessions (webui/model-selector.js)

    [ensureAgentSessionPanel]: the elements of the panel in the language of the page, and
    what its controls call in SelectorSessions, ModelInfo (the switch) and Handover (the agent
    button).  Styles are left out. *)
From Stdlib Require Import Lia NArith QArith.
From stdpp Require Import base numbers list gmap strings.
From S2P Require Import Prelude JsString JsNumber JsValue Dom SelectorTables SelectorLabels SelectorSessions.

Section Panel.
Context (htmlLang navLang : jsstring).

(** What a listener does: the panel is opened or closed, or an event of the sessions; the
    text field only renders the controls anew. *)
Inductive action : Type :=
| SetOpen (open : bool)
| ToggleOrLeave
| RenderControls
| ChangeSession
| SubmitTask (m : task_mode)
| ControlTask (action : jsstring).

(** [prefix + text]; a missing text is shown as [undefined]. *)
Definition labelled (prefix : string) (o : option jsstring) : jsstring := js prefix ++ default (js "undefined") o.

Definition control_button (label : jsstring) (more : list (jsstring * jsstring)) : node :=
  Elem (js "button") ((js "type", js "button") :: more) [] [Text label].

Definition aria (o : option jsstring) : jsstring * jsstring := (js "aria-label", labelled "" o).

Definition toggle_label : jsstring := labelled "✦ " (agentPanelText htmlLang navLang (js "open")).
Definition agentSessionToggle : node := control_button toggle_label [(js "id", js "cm-agent-toggle")].

(** The buttons of the panel: label, further attributes, what a click does. *)
Definition close_button : jsstring * list (jsstring * jsstring) * action :=
  (js "×", [(js "class", js "cm-agent-close"); aria (agentPanelText htmlLang navLang (js "close"))], SetOpen false).
Definition task_buttons : list (jsstring * list (jsstring * jsstring) * action) :=
  [(labelled "+ " (agentSessionText htmlLang navLang (js "create")), [], SubmitTask Create);
   (labelled "↻ " (agentSessionText htmlLang navLang (js "continueTask")), [], SubmitTask Continue)].
Definition control_button_of (prefix name : string) : jsstring * list (jsstring * jsstring) * action :=
  let t := agentControlText htmlLang navLang (js name) in (labelled prefix t, [aria t], ControlTask (js name)).
Definition control_buttons : list (jsstring * list (jsstring * jsstring) * action) :=
  [control_button_of "⏸ " "pause"; control_button_of "▶ " "resume"; control_button_of "× " "cancel"].

Definition row_of (l : list (jsstring * list (jsstring * jsstring) * action)) : node :=
  Elem (js "div") [] [] ((fun b => control_button b.1.1 b.1.2) <$> l).

(** The section with its header, the two rows of buttons and the places of the lists. *)
Definition agentSessionPanel : node :=
  let empty := Elem (js "div") [] [] [] in
  Elem (js "section") [(js "id", js "cm-agent-session-panel"); (js "aria-live", js "polite")] []
    [Elem (js "div") [(js "class", js "cm-agent-header")] []
       [Elem (js "div") [(js "class", js "cm-agent-heading")] []
          [Elem (js "div") [] [] [Text (labelled "" (agentSessionText htmlLang navLang (js "title")))];
           Elem (js "p") [] [] [Text (labelled "" (agentPanelText htmlLang navLang (js "help")))]];
        control_button close_button.1.1 close_button.1.2];
     Elem (js "select") [aria (agentSessionText htmlLang navLang (js "select"))] [] [];
     Elem (js "textarea") [(js "rows", js "2"); aria (agentSessionText htmlLang navLang (js "prompt"));
       (js "placeholder", labelled "" (agentSessionText htmlLang navLang (js "prompt")))] [] [];
     row_of task_buttons; row_of control_buttons;
     empty; empty; empty; empty; empty].

(** [ensureAgentSessionPanel()]: whether the panel exists, and the body of the document. *)
Definition ensureAgentSessionPanel (s : bool * option node) : bool * option node :=
  match s with
  | (false, Some body) => (true, Some (append_child agentSessionPanel (append_child agentSessionToggle body)))
  | _ => s
  end.

(** All controls of the panel with what they do. *)
Definition panel_buttons : list (jsstring * action) :=
  (toggle_label, ToggleOrLeave) :: ((fun b => (b.1.1, b.2)) <$> close_button :: task_buttons ++ control_buttons).
Definition other_listeners : list (string * action) := [("select", ChangeSession); ("textarea", RenderControls)]%string.

(** An action of the panel as an event of the sessions; [model] is the selected model. *)
Definition as_event (model : option jsval) (selected : jsstring) (a : action) : option SelectorSessions.event :=
  match a with
  | SubmitTask m => Some (SubmitClick m model)
  | ControlTask c => Some (ControlClick c)
  | ChangeSession => Some (Select selected)
  | SetOpen _ | ToggleOrLeave | RenderControls => None
  end.
End Panel.

(** ** The labels tell the buttons apart *)

(** The buttons of the panel show their labels in the order in which they are listed. *)
Fixpoint button_texts (n : node) : list jsstring :=
  match n with
  | Text _ => []
  | Elem t _ _ cs => if seqb t (js "button") then [textContent n] else cs ≫= button_texts
  end.

Definition panel_labels (locale : jsstring) : list jsstring :=
  let session k := labelled "" (or_text (l ← own locale (objects agentSessionLabels); own (js k) l) (own (js k) (english (objects agentSessionLabels)))) in
  let control k := labelled "" (label_in (objects agentControlLabels) locale (js k)) in
  [js "✦ " ++ labelled "" (label_in (objects agentPanelLabels) locale (js "open")); js "×";
   js "+ " ++ session "create"; js "↻ " ++ session "continueTask"; js "⏸ " ++ control "pause"; js "▶ " ++ control "resume"; js "× " ++ control "cancel"].

Lemma panel_labels_differ : forallb (fun l => bool_decide (NoDup (panel_labels l))) locales = true.
Proof. vm_compute. reflexivity. Qed.

(** In every language the seven buttons of the panel have seven different labels, the panel
    shows them in this order, and each of the five task buttons leads to its own request. *)
Theorem panel_buttons_are_distinct h n model selected :
  let labels := (panel_buttons h n).*1 in
  NoDup labels /\ labels = toggle_label h n :: button_texts (agentSessionPanel h n) /\
  omap (as_event model selected) (panel_buttons h n).*2 =
    [SubmitClick Create model; SubmitClick Continue model; ControlClick (js "pause"); ControlClick (js "resume"); ControlClick (js "cancel")].
Proof.
  intros labels. split; [|split].
  - pose proof (forallb_elem _ _ _ panel_labels_differ (agentSessionLocale_In h n)) as H. by apply bool_decide_eq_true in H.
  - unfold labels. cbn -[labelled agentSessionText agentControlText agentPanelText app]. by rewrite !app_nil_r.
  - reflexivity.
Qed.

(** The panel is built once. *)
Theorem panel_is_built_once h n s : ensureAgentSessionPanel h n (ensureAgentSessionPanel h n s) = ensureAgentSessionPanel h n s.
Proof. by destruct s as [[] [body|]]. Qed.
