(* ===== verification/SelectorStart.v ===== *)
(** * The start of the selector (webui/model-selector.js)

    [initialize] composed from its parts: the probe of [MeshDiscovery.v] finds endpoints,
    the pool asks the gateway and every endpoint for its catalogue, eight at a time, and
    [ModelChoice.v] merges the answers and selects a model. *)
From Stdlib Require Import Lia NArith ZArith QArith.
From stdpp Require Import base numbers list gmap strings.
From S2P Require Import Prelude JsString JsNumber JsValue MeshDiscovery ModelChoice.

(** [[window.location.origin].concat(meshEndpoints.filter(e => e !== window.location.origin))] *)
Definition catalogEndpoints (origin : jsstring) (mesh : list jsstring) : list jsstring :=
  origin :: List.filter (fun e => negb (seqb e origin)) mesh.

(** The answer of an endpoint's [/v1/models] with the endpoint. *)
Definition answers_of (endpoints : list jsstring) (rs : list (option (option jsval))) : list (jsstring * option jsval) :=
  zip_with (fun e r => (e, default None r)) endpoints rs.

Section Start.
Context (show_frac : Q -> jsstring) (origin : jsstring) {C : Collation}.

#[local] Abbreviation pool_event := (Pool.event (B := option jsval) (Err := jsstring)).

(** [initialize()] after the probe [p]: the pool runs with the settled requests [evs];
    [None] while its promise is pending.  The mapper catches its exceptions, so that the
    promise is never rejected; [slots] is the answer of [/slots]. *)
Definition start_up (p : Probe.probe) (evs : list pool_event) (slots : option jsval) (st : storage) : option selection :=
  let endpoints := catalogEndpoints origin (Probe.meshEndpoints p) in
  q ← Pool.exec (length endpoints) (Pool.start endpoints 8) evs;
  match Pool.promise q with
  | Some (Ret rs) => Some (initialize show_frac origin (answers_of endpoints rs) slots (Probe.localNodeEndpoint p) st)
  | _ => None
  end.

Lemma answers_of_map (world : jsstring -> option jsval) eps :
  answers_of eps (Some <$> imap (fun _ e => world e) eps) = (fun e => (e, world e)) <$> eps.
Proof.
  unfold answers_of. change (fun (_ : nat) (e : jsstring) => world e) with ((fun (_ : nat) => world)).
  replace (imap (fun _ => world) eps) with (world <$> eps).
  - induction eps as [|e eps IH]; [done|]. cbn. by rewrite <- IH.
  - induction eps as [|e eps IH]; [done|]. cbn. f_equal. exact IH.
Qed.

(** C11: The start does not depend on the order in which the catalogues arrive: when every
    endpoint has answered, in any order the pool of eight allows, the selection is that of
    asking them one after the other; and whatever the probe has found and the nodes answer,
    every model the gateway offers is in the list, by itself or as an entry with the same
    identifier that sorts not after it. *)
Theorem start_is_order_independent p (world : jsstring -> option jsval) evs slots st :
  let endpoints := catalogEndpoints origin (Probe.meshEndpoints p) in
  Pool.honest (fun e _ => world e) endpoints (Pool.start endpoints 8) evs -> length evs = length endpoints ->
  start_up p evs slots st
  = Some (initialize show_frac origin ((fun e => (e, world e)) <$> endpoints) slots (Probe.localNodeEndpoint p) st) /\
  (forall s m, start_up p evs slots st = Some s -> m ∈ catalogue origin (world origin) -> same_id m m = true ->
     exists e, e ∈ models s /\ same_id m e = true /\ compareModels show_frac e m <> Gt).
Proof.
  cbv zeta. set (endpoints := catalogEndpoints origin (Probe.meshEndpoints p)). intros Hh Hl.
  assert (E : start_up p evs slots st
    = Some (initialize show_frac origin ((fun e => (e, world e)) <$> endpoints) slots (Probe.localNodeEndpoint p) st)).
  { unfold start_up. fold endpoints. cbv zeta.
    destruct (pool_map (Err := jsstring) (fun e _ => world e) endpoints 8 evs Hh Hl) as (q & -> & Ep). cbn [mbind option_bind].
    by rewrite Ep, answers_of_map. }
  split; [exact E|]. intros s m Es Hm Hs. rewrite E in Es. injection Es as <-.
  assert (Em : forall a, models (initialize show_frac origin a slots (Probe.localNodeEndpoint p) st) = merged_models show_frac a).
  { intros a. unfold initialize. cbv zeta. destruct (merged_models show_frac a) as [|x l]; [done|].
    by destruct (find_id _ (x :: l)). }
  rewrite Em. apply merged_offers; [|done]. apply list_elem_of_bind. exists (origin, world origin). split; [exact Hm|].
  apply list_elem_of_here.
Qed.

End Start.

(** A node that was found beside the gateway; the node answers first. *)
Definition found : Probe.probe :=
  Probe.MkProbe true (Some Probe.Finished) (Some (js "http://127.0.0.1:8080")) [js "http://127.0.0.1:8080"; js "https://mesh.example"] [].

Definition catalogues (e : jsstring) : option jsval :=
  if seqb e (js "https://mesh.example") then Some (VObj [(js "data", VArr [VObj [(js "id", VStr (js "gemma3:4b"))]])])
  else if seqb e (js "http://127.0.0.1:8080") then Some (VObj [(js "data", VArr [VObj [(js "id", VStr (js "qwen2.5:7b"))]])])
  else None.

Definition node_first : list (Pool.event (B := option jsval) (Err := jsstring)) :=
  [Pool.Resolved 1 (catalogues (js "http://127.0.0.1:8080")); Pool.Resolved 0 (catalogues (js "https://mesh.example"))].

Lemma start_is_order_independent_witness :
  let endpoints := catalogEndpoints (js "https://mesh.example") (Probe.meshEndpoints found) in
  endpoints = [js "https://mesh.example"; js "http://127.0.0.1:8080"] /\
  start_up (fun _ => []) (js "https://mesh.example") found node_first None (Some ∅)
  = Some (initialize (fun _ => []) (js "https://mesh.example") ((fun e => (e, catalogues e)) <$> endpoints) None
            (Probe.localNodeEndpoint found) (Some ∅)).
Proof.
  split; [vm_compute; reflexivity|].
  refine (proj1 (start_is_order_independent (fun _ => []) (js "https://mesh.example") found catalogues node_first None (Some ∅) _ _)).
  - vm_compute. repeat split.
  - vm_compute. reflexivity.
Defined.
