(* ===== verification/Picker.v ===== *)
(** * The model picker in the page (webui/model-selector.js)

    [findModelInfoDialog], [repairModelInfoDialogLayout], [findModelInfoValueCell] and
    [mountPicker] on the document as a
    tree, and the mutation observer that runs [mountPicker] again after every change of the
    tree.  The picker is the element with the class [cm-model-picker], which no other code
    makes; elements are told by their paths.  The styles are those that
    [repairModelInfoDialogLayout] sets; the rows that [renderModelInfoFallback] adds to a
    dialog without any are in ModelInfo, and a dialog with a value cell has rows. *)
From Stdlib Require Import Lia NArith QArith.
From stdpp Require Import base numbers list gmap strings.
From S2P Require Import Prelude JsString JsNumber JsValue Dom SelectorStore ImageFit ModelChoice ModelInfo.

(** ** The search for the dialog *)

#[local] Abbreviation attributes := (list (jsstring * jsstring)).

Definition mentions (s : string) (n : node) : bool := includes_ci (js s) (textContent n).

(** The text in lower case letters of the pattern, as a whole. *)
Definition equals_ci (s : string) (t : jsstring) : bool := Nat.eqb (length t) (length (js s)) && starts_with_ci (js s) t.

(** The leaf with one of the two titles, a heading or inside the body. *)
Definition dialog_title (body : option (list nat)) (n : node) (p : list nat) : bool :=
  match at_path p n with
  | None => false
  | Some x =>
      let text := trim (textContent x) in
      (named ["h1"; "h2"; "h3"; "h4"; "h5"; "h6"] x || with_attr (js "role") (js "heading") x ||
       from_option (fun b => bool_decide (b `prefix_of` p) && negb (bool_decide (b = p))) false body) &&
      is_leaf x && (equals_ci "current model details and capabilities" text || equals_ci "model information" text)
  end.

(** [findModelInfoDialog()] *)
Definition findModelInfoDialog (n : node) : option (list nat) :=
  match List.find (dialog_title (find_path (named ["body"]) n) n) (paths n) with
  | None => None
  | Some p =>
      match closest (length p) (with_attr (js "role") (js "dialog")) p n with
      | Some d => Some d
      | None =>
          match (q ← parentElement p; r ← parentElement q; parentElement r) with
          | Some r => Some r
          | None => parentElement p
          end
      end
  end.

(** The first heading that mentions the model information. *)
Definition is_heading (n : node) : bool := named ["h1"; "h2"; "h3"] n || with_attr (js "role") (js "heading") n.
Definition find_title (n : node) : option (list nat) := find_path (fun x => is_heading x && mentions "model information" x) n.

(** The heading or the nearest of its nine ancestors that mentions the file path. *)
Fixpoint panel_of (depth : nat) (p : list nat) (n : node) : option (list nat) :=
  if from_option (mentions "file path") false (at_path p n) then Some p
  else match depth, parentElement p with S d, Some q => panel_of d q n | _, _ => None end.

(** The first descendant of the panel that is the label [Model]. *)
Definition label_of (panel : node) : option (list nat) :=
  List.find (fun p => from_option (fun x => is_leaf x && seqb (trim (textContent x)) (js "Model")) false (at_path p panel))
    (tail (paths panel)).

(** The elements among the children, other than the [i]-th, that show a text. *)
Definition shown_siblings (i : nat) (n : node) : list nat :=
  List.filter (fun j => negb (Nat.eqb i j) &&
      from_option (fun x => is_elem x && truthy (trim (textContent x))) false (children n !! j))
    (seq 0 (length (children n))).

(** The loop over the ancestors of the label. *)
Fixpoint beside (level : nat) (p : list nat) (n : node) : option (list nat) :=
  match level, last p, parentElement p with
  | S k, Some i, Some q =>
      match from_option (shown_siblings i) [] (at_path q n) with
      | j :: _ => Some (q ++ [j])
      | [] => beside k q n
      end
  | _, _, _ => None
  end.

(** [findModelInfoValueCell()] *)
Definition findModelInfoValueCell (n : node) : option (list nat) :=
  title ← find_title n;
  panel ← panel_of 9 title n;
  x ← at_path panel n;
  label ← label_of x;
  match beside 5 (panel ++ label) n with
  | Some cell => Some cell
  | None => parentElement (panel ++ label)
  end.

(** What [renderModelInfoFallback] sees: the dialog, and whether it already has the rows of
    the bundled table. *)
Definition is_fallback (n : node) : bool := with_attr (js "id") (js "cm-model-info-fallback") n.
Definition dialog_seen (n : node) : option (list nat * bool) :=
  d ← findModelInfoDialog n;
  x ← at_path d n;
  let fallback := match List.find (fun p => from_option is_fallback false (at_path p x)) (tail (paths x)) with Some _ => true | None => false end in
  Some (d, (mentions "file path" x || mentions "context size" x || mentions "dateipfad" x || mentions "kontextgroesse" x) && negb fallback).

(** ** The layout of the dialog *)

Definition set_styles (l : list (string * jsstring)) (a : attributes) : attributes :=
  fold_left (fun a e => set_attr (js "style." ++ js e.1) e.2 a) l a.

(** The styles an element of the dialog gets; [index] counts it among the elements of its
    parent. *)
Definition cell_styles (index : nat) (t : jsstring) (a : attributes) : attributes :=
  let a1 := if seqb t (js "table")
            then set_styles [("tableLayout", js "fixed"); ("width", js "100%"); ("maxWidth", js "100%")]%string a else a in
  let a2 := if seqb t (js "th") || seqb t (js "td") then
              let b := set_styles [("minWidth", js "0"); ("maxWidth", js "100%"); ("whiteSpace", js "normal");
                                   ("overflowWrap", js "anywhere"); ("wordBreak", js "break-word")]%string a1 in
              let c := if Nat.eqb index 0 then set_styles [("width", js "42%")]%string b else b in
              if Nat.eqb index 1 then set_styles [("width", js "58%")]%string c else c
            else a1 in
  if seqb t (js "pre") || seqb t (js "code")
  then set_styles [("display", js "block"); ("width", js "100%"); ("maxWidth", js "100%"); ("maxHeight", js "220px");
                   ("boxSizing", js "border-box"); ("whiteSpace", js "pre-wrap"); ("overflowWrap", js "anywhere");
                   ("overflowX", js "auto"); ("fontSize", js "11px")]%string a2
  else a2.

Fixpoint repair_below (index : nat) (n : node) : node :=
  match n with
  | Text s => Text s
  | Elem t a v cs =>
      Elem t (cell_styles index t a) v
        ((fix go (i : nat) (cs : list node) : list node :=
            match cs with [] => [] | c :: r => repair_below i c :: go (if is_elem c then S i else i) r end) O cs)
  end.

(** [repairModelInfoDialogLayout(dialog)]; [innerHeight] is the height of the window. *)
Definition repairModelInfoDialogLayout (innerHeight : Z) (dialog : node) : node :=
  match repair_below 2 dialog with
  | Text s => Text s
  | Elem t _ v cs =>
      match dialog with
      | Text s => Text s
      | Elem _ a _ _ =>
          let h := Z.max 240 ((if Z.eqb innerHeight 0 then 660 else innerHeight) - 24)%Z in
          let height := show_Z h ++ js "px" in
          let a1 := set_styles [("max-height", height); ("height", js "auto"); ("overflow-y", js "auto");
                                ("overflow-x", js "hidden"); ("min-width", js "0"); ("box-sizing", js "border-box")]%string a in
          Elem t (match attr (js "data-cm-initial-scroll-reset") a1 with
                  | Some (_ :: _) => a1
                  | _ => set_attr (js "scrollTop") (js "0") (set_attr (js "data-cm-initial-scroll-reset") (js "true") a1)
                  end) v cs
      end
  end.

(** *** The repair can be repeated *)

Lemma attr_styles k l a : (forall e, e ∈ l -> seqb k (js "style." ++ js e.1) = false) -> attr k (set_styles l a) = attr k a.
Proof.
  unfold set_styles. revert a. induction l as [|e l IH]; intros a H; [done|]. cbn [fold_left].
  rewrite IH by (intros x Hx; apply H; by right). rewrite attr_set, H; [done|by left].
Qed.

Definition set_scroll (x : jsstring) (n : node) : node :=
  match n with Text _ => n | Elem t a v cs => Elem t (set_attr (js "scrollTop") x a) v cs end.
Definition scroll_of (n : node) : option jsstring := match n with Text _ => None | Elem _ a _ _ => attr (js "scrollTop") a end.

(** The repair, which a timer repeats twice a second, moves the dialog to its top once only:
    afterwards a position the reader has scrolled to stays, also when the window changes. *)
Theorem repair_keeps_the_scroll_position h h' t a v cs x :
  attr (js "data-cm-initial-scroll-reset") a = None ->
  let d := repairModelInfoDialogLayout h (Elem t a v cs) in
  scroll_of d = Some (js "0") /\ scroll_of (repairModelInfoDialogLayout h' (set_scroll x d)) = Some x.
Proof.
  intros H. cbv zeta. 
  assert (Keep : forall (k : jsstring) (l : list (string * jsstring)), k ∈ [js "scrollTop"; js "data-cm-initial-scroll-reset"] -> forall e : string * jsstring, e ∈ l -> seqb k (js "style." ++ js e.1) = false).
  { intros k l' [->|[->|Hk%elem_of_nil]%elem_of_cons]%elem_of_cons e _; done. }
  assert (E : exists cs' a', repairModelInfoDialogLayout h (Elem t a v cs)
    = Elem t (set_attr (js "scrollTop") (js "0") (set_attr (js "data-cm-initial-scroll-reset") (js "true") a')) v cs').
  { unfold repairModelInfoDialogLayout. cbn [repair_below]. rewrite attr_styles by (apply Keep; set_solver). rewrite H. by do 2 eexists. }
  destruct E as (cs' & a' & ->). split; [cbn [scroll_of]; by rewrite attr_set|].
  unfold repairModelInfoDialogLayout. cbn [set_scroll repair_below]. rewrite attr_styles by (apply Keep; set_solver).
  rewrite !attr_set. change (seqb (js "data-cm-initial-scroll-reset") (js "scrollTop")) with false. cbv iota. rewrite seqb_refl. change (js "true") with (116%N :: js "rue") at 1. cbv iota.
  cbn [scroll_of]. rewrite attr_styles by (apply Keep; set_solver). by rewrite attr_set.
Qed.

Lemma repair_keeps_the_scroll_position_witness :
  let d := repairModelInfoDialogLayout 800 (Elem (js "div") [] [] []) in
  scroll_of d = Some (js "0") /\ scroll_of (repairModelInfoDialogLayout 400 (set_scroll (js "120") d)) = Some (js "120").
Proof. exact (repair_keeps_the_scroll_position 800 400 (js "div") [] [] [] (js "120") eq_refl). Defined.

(** ** The picker *)

Section Picker.
Context (show_frac : Q -> jsstring) (htmlLang navLang : jsstring) {C : Collation} (sel : selection).

(** [detached] is the picker while it is not in the tree. *)
Record page := Page { tree : node; detached : option node; lastReport : jsval; drafts : area }.

Definition is_picker (n : node) : bool :=
  match n with Elem _ a _ _ => has_class (js "cm-model-picker") a | Text _ => false end.
Definition is_status (n : node) : bool := with_attr (js "id") (js "cm-execution-status") n.

Definition picker_path (n : node) : option (list nat) := find_path is_picker n.

Definition remove_attr (k : jsstring) (a : attributes) : attributes := List.filter (fun e => negb (seqb k e.1)) a.

(** The badge with the route, as it is made with the picker. *)
Definition badge : node :=
  let span s := Elem (js "span") [] [] [Text s] in
  match localNodeEndpoint sel with
  | Some (_ :: _) =>
      Elem (js "div") [(js "id", js "cm-node-status-badge");
                       (js "title", js "Inferenz und Bildgenerierung laufen direkt ueber deine lokale GPU-Node ohne Router-Konfiguration.")] []
        [span (js "🟢"); Text (js " "); span (js "Lokale GPU-Node aktiv (P2P · Zero-Config)")]
  | _ =>
      Elem (js "div") [(js "id", js "cm-node-status-badge"); (js "title", js "Verbindung zum dezentralen ComputeMesh Netzwerk.")] []
        [span (js "☁️"); Text (js " "); span (js "ComputeMesh Cloud-Gateway")]
  end.

(** The picker around the line of the execution status. *)
Definition new_picker (status : node) : node :=
  Elem (js "div") [(js "class", js "cm-model-picker")] []
    [Elem (js "select") [(js "id", js "cm-model-select"); (js "aria-label", js "Model")] [] []; badge; status].

(** The line is hidden. *)
Definition hidden_status (n : option node) : node :=
  match n with
  | Some (Elem t a v cs) => Elem t (set_attr (js "hidden") [] (set_attr (js "id") (js "cm-execution-status") a)) v cs
  | _ => Elem (js "div") [(js "id", js "cm-execution-status"); (js "hidden", [])] [] []
  end.

(** Where an element is after the removal of another one; [None] when it was inside. *)
Fixpoint after_removal (removed p : list nat) : option (list nat) :=
  match removed, p with
  | [], _ => None
  | _, [] => Some []
  | i :: r, j :: q =>
      if Nat.eqb i j then match r with [] => None | _ => cons j <$> after_removal r q end
      else match r with [] => Some ((if Nat.ltb i j then pred j else j) :: q) | _ => Some p end
  end.

(** [updateExecutionStatus(lastExecution)] on the tree, and whether the tree changed. *)
Definition show_report (s : page) : page * bool :=
  if vtruthy (lastReport s) && is_object (lastReport s) then
    let '(line, title) := status_line show_frac htmlLang navLang (lastReport s) in
    let write n := match n with
                   | Elem t a v _ => Elem t (remove_attr (js "hidden") (set_attr (js "title") title a)) v [Text line]
                   | Text _ => n
                   end in
    match find_path is_status (tree s) with
    | Some p => (Page (alter_path write p (tree s)) (detached s) (lastReport s) (drafts s), true)
    | None =>
        match find_path (named ["body"]) (tree s) with
        | Some b =>
            let status := write (Elem (js "div") [(js "id", js "cm-execution-status"); (js "aria-live", js "polite")] [] []) in
            (Page (alter_path (fun n => with_children (children n ++ [status]) n) b (tree s)) (detached s) (lastReport s) (drafts s), true)
        | None => (s, false)
        end
    end
  else (s, false).

(** [renderOptions(select)] on the picker. *)
Definition options_of : list node :=
  (fun o : jsval * jsstring => Elem (js "option") [(js "value", to_str show_frac o.1)] [] [Text o.2]) <$> renderOptions show_frac sel.

Definition fill_options (n : node) : node :=
  match n with
  | Elem t a v (Elem st sa _ _ :: r) =>
      Elem t a v (Elem st sa (from_option (fun m => to_str show_frac (prop m (js "id"))) [] (selectedModel sel)) options_of :: r)
  | _ => n
  end.

(** [restoreDraft(document.querySelector('textarea'))] *)
Definition restore (s : page) : page :=
  let p := find_path (named ["textarea"]) (tree s) in
  let '(st, t) := restoreDraft (p ≫= fun p => (fun n => match n with Elem _ _ v _ => v | Text _ => [] end) <$> at_path p (tree s)) (drafts s) in
  let write n := match n, t with Elem x a _ cs, Some v => Elem x a v cs | _, _ => n end in
  Page (from_option (fun p => alter_path write p (tree s)) (tree s) p) (detached s) (lastReport s) st.

(** [valueCell.replaceChildren(picker)]: the picker leaves its old place. *)
Definition place (picker : node) (old : option (list nat)) (cell : list nat) (n : node) : node :=
  let n1 := alter_path (with_children [picker]) cell n in
  match old with
  | Some p => if bool_decide (cell `prefix_of` p) then n1 else remove_path p n1
  | None => n1
  end.

(** The picker and the status line it takes into itself, when it does not exist yet: the
    page, the place of the cell now, and whether the tree changed. *)
Definition make_picker (cell : list nat) (s : page) : page * option (list nat) * bool :=
  match picker_path (tree s), detached s with
  | None, None =>
      match find_path is_status (tree s) with
      | Some p => (Page (remove_path p (tree s)) (Some (new_picker (hidden_status (at_path p (tree s))))) (lastReport s) (drafts s),
                   after_removal p cell, true)
      | None => (Page (tree s) (Some (new_picker (hidden_status None))) (lastReport s) (drafts s), Some cell, false)
      end
  | _, _ => (s, Some cell, false)
  end.

(** [mountPicker()] after [renderModelInfoFallback]: the page, and whether the tree
    changed.  A cell inside the picker or the status line makes [replaceChildren] throw. *)
Definition mountPicker (s : page) : page * bool :=
  match models sel, findModelInfoValueCell (tree s) with
  | [], _ => (s, false)
  | _, None =>
      match picker_path (tree s) with
      | Some p => (Page (remove_path p (tree s)) (at_path p (tree s)) (lastReport s) (drafts s), true)
      | None => (s, false)
      end
  | _, Some cell0 =>
      let '(s1, cell, m1) := make_picker cell0 s in
      let '(s2, m2) := show_report s1 in
      let old := picker_path (tree s2) in
      match cell with
      | None => (s2, m1 || m2)
      | Some cell =>
          if bool_decide (old ≫= parentElement = Some cell) then (s2, m1 || m2)
          else if from_option (fun p => bool_decide (p `prefix_of` cell)) false old then (s2, m1 || m2)
          else
            match (match old with Some p => at_path p (tree s2) | None => detached s2 end) with
            | Some picker => (restore (Page (place (fill_options picker) old cell (tree s2)) None (lastReport s2) (drafts s2)), true)
            | None => (s2, m1 || m2)
            end
      end
  end.

(** The observer: [mountPicker] runs again after every run that changed the tree; [None]
    when that goes on for more than [fuel] runs. *)
Fixpoint observe (fuel : nat) (s : page) : option page :=
  match fuel with
  | O => None
  | S k => let '(s', mutated) := mountPicker s in if mutated then observe k s' else Some s'
  end.

(** ** When the observer comes to rest *)

#[local] Abbreviation reported s := (vtruthy (lastReport s) && is_object (lastReport s)).

Lemma show_report_idle s : reported s = false -> show_report s = (s, false).
Proof. unfold show_report. by intros ->. Qed.

Lemma make_picker_report cell s : lastReport (make_picker cell s).1.1 = lastReport s.
Proof. unfold make_picker. destruct (picker_path _), (detached s), (find_path is_status (tree s)); done. Qed.

Lemma show_report_kept s : lastReport (show_report s).1 = lastReport s.
Proof.
  unfold show_report. destruct (_ && _); [|done]. destruct (status_line _ _ _ _).
  destruct (find_path is_status _); [done|]. by destruct (find_path (named _) _).
Qed.

Lemma restore_report s : lastReport (restore s) = lastReport s.
Proof. unfold restore. by destruct (restoreDraft _ _). Qed.

Lemma mount_report s : lastReport (mountPicker s).1 = lastReport s.
Proof.
  unfold mountPicker. destruct (models sel); [done|]. destruct (findModelInfoValueCell _) as [cell0|]; [|by destruct (picker_path _)].
  pose proof (make_picker_report cell0 s) as E1. destruct (make_picker cell0 s) as [[s1 cell] m1]. cbn [fst] in E1.
  pose proof (show_report_kept s1) as E2. destruct (show_report s1) as [s2 m2]. cbn [fst] in E2.
  destruct cell as [cell|]; [|cbn; congruence]. destruct (bool_decide _); [cbn; congruence|].
  destruct (from_option _ _ _); [cbn; congruence|].
  destruct (match picker_path (tree s2) with Some _ => _ | None => _ end); cbn [fst]; [rewrite restore_report; cbn|]; congruence.
Qed.

Lemma busy_run s s' : mountPicker s = (s', false) -> reported s = true -> models sel <> [] ->
  find_path (named ["body"]) (tree s') <> None -> findModelInfoValueCell (tree s') = None.
Proof.
  unfold mountPicker. intros H Hr Hm Hb. destruct (models sel); [done|].
  destruct (findModelInfoValueCell (tree s)) as [cell0|] eqn:Ec; [|by destruct (picker_path (tree s)); simplify_eq].
  exfalso. pose proof (make_picker_report cell0 s) as E1. destruct (make_picker cell0 s) as [[s1 cell] m1]. cbn [fst] in E1.
  assert (E2 : exists s2 m2, show_report s1 = (s2, m2) /\ (m2 = true \/ (s2 = s1 /\ find_path (named ["body"]) (tree s1) = None))).
  { unfold show_report. rewrite E1, Hr. destruct (status_line _ _ _ _). destruct (find_path is_status (tree s1)); [do 2 eexists; split; [reflexivity|by left]|].
    destruct (find_path (named _) (tree s1)); do 2 eexists; (split; [reflexivity|]); [by left|by right]. }
  destruct E2 as (s2 & m2 & E2 & Hm2). rewrite E2 in H.
  assert (Out : (s2, m1 || m2) = (s', false) -> False).
  { intros [= <- F]. apply orb_false_iff in F as [_ F]. destruct Hm2 as [->|[-> N]]; [done|]. by rewrite N in Hb. }
  destruct cell as [cell|]; [|done]. destruct (bool_decide _); [done|]. destruct (from_option _ _ _); [done|].
  by destruct (match picker_path (tree s2) with Some _ => _ | None => _ end); simplify_eq.
Qed.

Lemma reported_rest fuel s s' : reported s = true -> models sel <> [] -> observe fuel s = Some s' ->
  find_path (named ["body"]) (tree s') <> None -> findModelInfoValueCell (tree s') = None.
Proof.
  revert s. induction fuel as [|fuel IH]; intros s Hr Hm; [done|]. cbn [observe].
  pose proof (mount_report s) as E. destruct (mountPicker s) as [s1 [|]] eqn:Em; cbn [fst] in E.
  - apply IH; [by rewrite E|done].
  - intros [= <-]. by apply (busy_run s).
Qed.

Lemma mounted_rest cell s : models sel <> [] -> findModelInfoValueCell (tree s) = Some cell ->
  picker_path (tree s) ≫= parentElement = Some cell -> reported s = false -> mountPicker s = (s, false).
Proof.
  intros Hm Hc Hp Hr. unfold mountPicker. rewrite Hc. destruct (models sel); [done|]. unfold make_picker.
  destruct (picker_path (tree s)) as [p|] eqn:Ep; [|done]. rewrite show_report_idle by done. rewrite Ep.
  by rewrite bool_decide_eq_true_2.
Qed.

(** C16: The mutation observer that keeps the picker in the model dialog, on any page with a
    body and with at least one model to choose from. Without an execution report it is at rest once the picker stands in the value
    cell of the dialog: its run changes nothing. Once a completion has reported where it ran,
    it comes to rest only on a page in which there is no value cell: as long as the dialog is
    open every run writes the status line again, which is a change of the tree and calls for
    another run. *)
Theorem observer_rests_only_without_a_report s :
  models sel <> [] ->
  (forall cell, findModelInfoValueCell (tree s) = Some cell ->
     picker_path (tree s) ≫= parentElement = Some cell -> reported s = false ->
     observe 1 s = Some s) /\
  (reported s = true -> forall fuel s', observe fuel s = Some s' ->
     find_path (named ["body"]) (tree s') <> None -> findModelInfoValueCell (tree s') = None).
Proof.
  intros Hm. split.
  - intros cell Hc Hp Hr. cbn [observe]. by rewrite (mounted_rest cell).
  - intros Hr fuel s'. by apply reported_rest.
Qed.

End Picker.

(** ** The dialog of the bundled page *)

#[local] Abbreviation el t cs := (Elem (js t) [] [] cs).

(** An open dialog with a table of two rows, the model and the path of its file, as an
    example of a page with a value cell; [cell] is what stands beside the label, [rest] the
    remaining page. *)
Definition the_dialog (cell : list node) : node :=
  Elem (js "div") [(js "role", js "dialog")] []
    [el "h2" [Text (js "Model Information")];
     el "table" [el "tr" [el "td" [Text (js "Model")]; el "td" cell];
                 el "tr" [el "td" [Text (js "File Path")]; el "td" [Text (js "/models/a.gguf")]]]].

Definition dialog_page (cell rest : list node) : node :=
  el "html" [el "head" []; el "body" (the_dialog cell :: rest)].

Definition the_cell : list nat := [1; 0; 1; 0; 1]%nat.

Definition shows_text (cs : list node) : bool := truthy (trim (concat (textContent <$> cs))).

Lemma includes_ci_r p a s : includes_ci p s = true -> includes_ci p (a ++ s) = true.
Proof. intros H. induction a as [|c a IH]; [done|]. cbn [app includes_ci]. by rewrite IH, orb_true_r. Qed.

Lemma dialog_title_found cell rest : find_title (dialog_page cell rest) = Some [1; 0; 0]%nat.
Proof. reflexivity. Qed.

Lemma dialog_mentions cell : mentions "file path" (the_dialog cell) = true.
Proof.
  unfold mentions, the_dialog. cbn [textContent fmap list_fmap concat]. rewrite <- !app_assoc.
  do 6 apply includes_ci_r. reflexivity.
Qed.

Lemma dialog_panel_found cell rest : panel_of 9 [1; 0; 0]%nat (dialog_page cell rest) = Some [1; 0]%nat.
Proof.
  cbn [panel_of]. change (at_path [1; 0; 0]%nat (dialog_page cell rest)) with (Some (el "h2" [Text (js "Model Information")])).
  cbn [from_option]. change (mentions "file path" (el "h2" [Text (js "Model Information")])) with false. cbv iota.
  cbn [parentElement removelast]. change (at_path [1; 0]%nat (dialog_page cell rest)) with (Some (the_dialog cell)).
  cbn [from_option]. by rewrite dialog_mentions.
Qed.

Lemma dialog_cell_found cell rest : shows_text cell = true -> findModelInfoValueCell (dialog_page cell rest) = Some the_cell.
Proof.
  intros H. unfold findModelInfoValueCell. rewrite dialog_title_found. cbn [mbind option_bind]. rewrite dialog_panel_found.
  cbn [mbind option_bind]. change (at_path [1; 0]%nat (dialog_page cell rest)) with (Some (the_dialog cell)). cbn [mbind option_bind].
  change (label_of (the_dialog cell)) with (Some [1; 0; 0]%nat). cbn [mbind option_bind].
  assert (E : beside 5 ([1; 0] ++ [1; 0; 0])%nat (dialog_page cell rest) = Some the_cell); [|by rewrite E].
  cbn [app beside last parentElement removelast].
  change (at_path [1; 0; 1; 0]%nat (dialog_page cell rest)) with (Some (el "tr" [el "td" [Text (js "Model")]; el "td" cell])).
  cbn [from_option]. unfold shown_siblings. cbn [children length seq List.filter lookup list_lookup from_option is_elem andb Nat.eqb negb textContent].
  unfold shows_text in H. by rewrite H.
Qed.

Lemma trim_shows s c : c ∈ s -> is_ws c = false -> truthy (trim s) = true.
Proof.
  intros Hin Hc. apply truthy_true. intros E. unfold trim in E.
  destruct (trim_end_prefix (trim_start s)) as (w & E1 & Hw). rewrite E in E1. cbn [app] in E1.
  destruct (trim_start_suffix s) as (w' & E2 & Hw'). rewrite E1 in E2. rewrite E2, elem_of_app in Hin.
  rewrite Forall_forall in Hw, Hw'. destruct Hin as [Hin|Hin]; [apply Hw' in Hin|apply Hw in Hin]; congruence.
Qed.


Section Dialog.
Context (show_frac : Q -> jsstring) (htmlLang navLang : jsstring) {C : Collation} (sel : selection).
Context (Hmodels : models sel <> []).

#[local] Abbreviation mount := (mountPicker show_frac htmlLang navLang sel).

(** The elements around the body's children have no class and no identifier. *)
Lemma page_search f cell rest : (forall t cs, f (el t cs) = false) ->
  find_path f (dialog_page cell rest) = cons 1%nat <$> find_children f 0 (the_dialog cell :: rest).
Proof.
  intros Hf. unfold dialog_page. rewrite find_path_elem, Hf. cbn [find_children]. rewrite (find_path_elem f _ _ _ []), Hf.
  cbn [find_children]. rewrite find_path_elem, Hf. cbn [find_children].
  destruct (find_path f (the_dialog cell)); [done|]. by destruct (find_children f 1 rest).
Qed.

Lemma picker_search cell rest : picker_path (dialog_page cell rest) = cons 1%nat <$> find_children is_picker 0 (the_dialog cell :: rest).
Proof. apply page_search. intros t cs. reflexivity. Qed.

Lemma picker_more cell rest x : picker_path (dialog_page cell rest) = None -> find_path is_picker x = None ->
  picker_path (dialog_page cell (rest ++ [x])) = None.
Proof.
  rewrite !picker_search. intros H Hx. destruct (find_children is_picker 0 (the_dialog cell :: rest)) eqn:E; [done|].
  change (the_dialog cell :: rest ++ [x]) with ((the_dialog cell :: rest) ++ [x]). by rewrite find_children_snoc.
Qed.

(** The picker with its options and a status line. *)
Definition picker_with (status : node) : node := fill_options show_frac sel (new_picker sel status).

Lemma picker_shows status : shows_text [picker_with status] = true.
Proof.
  unfold shows_text. apply (trim_shows _ 67%N); [|done]. cbn [fmap list_fmap concat picker_with fill_options new_picker textContent].
  rewrite app_nil_r. rewrite elem_of_app. right. rewrite elem_of_app. left. unfold badge.
  assert (H : forall l : jsstring, existsb (N.eqb 67) l = true -> 67%N ∈ l).
  { intros l H. apply existsb_exists in H as (x & Hx & E). apply N.eqb_eq in E. subst. by apply list_elem_of_In. }
  destruct (localNodeEndpoint sel) as [[|]|]; apply H; vm_compute; reflexivity.
Qed.

Lemma picker_found status rest : picker_path (dialog_page [picker_with status] rest) = Some (the_cell ++ [0%nat]).
Proof. reflexivity. Qed.

Lemma status_found status rest : is_status status = true ->
  find_path is_status (dialog_page [picker_with status] rest) = Some (the_cell ++ [0; 2]%nat).
Proof.
  intros H. rewrite page_search by done. cbn [find_children].
  assert (Ho : Forall (fun c => find_path is_status c = None) (options_of show_frac sel)).
  { unfold options_of. apply Forall_fmap, Forall_forall. intros o _. reflexivity. }
  assert (Hb : find_path is_status (badge sel) = None) by (unfold badge; destruct (localNodeEndpoint sel) as [[|]|]; reflexivity).
  assert (Hp : find_path is_status (picker_with status) = Some [2%nat]).
  { unfold picker_with, new_picker, fill_options. rewrite find_path_elem. change (is_status (Elem _ _ _ _)) with false at 1. cbv iota.
    cbn [find_children]. rewrite find_path_elem. change (is_status (Elem (js "select") _ _ _)) with false. cbv iota.
    rewrite find_children_none by done. rewrite Hb. destruct status; [done|]. by rewrite find_path_elem, H. }
  assert (Hd : find_path is_status (the_dialog [picker_with status]) = Some [1; 0; 1; 0; 2]%nat).
  { unfold the_dialog. do 6 (rewrite ?find_path_elem; cbn [find_children]). rewrite Hp. reflexivity. }
  by rewrite Hd.
Qed.

(** No draft waits for the text area. *)
Lemma restore_same s : (forall d, area_get DRAFT_KEY (drafts s) <> Ret (Some d)) -> restore s = s.
Proof.
  intros H. unfold restore, restoreDraft. destruct (find_path (named ["textarea"]) (tree s)) as [p|] eqn:E.
  - destruct (find_path_spec _ _ _ E) as (x & Hx & Hn). cbn [mbind option_bind]. rewrite Hx. cbn [fmap option_fmap option_map].
    assert (Hs : alter_path (fun n => match n with Elem t a _ cs => Elem t a (match x with Elem _ _ v _ => v | Text _ => [] end) cs | Text _ => n end) p (tree s) = tree s)
      by (apply (alter_path_id _ _ _ x Hx); by destruct x).
    destruct (area_get DRAFT_KEY (drafts s)) as [[d|]|] eqn:Ed; [by destruct (H d)| |]; cbn [from_option];
      (transitivity (Page (tree s) (detached s) (lastReport s) (drafts s)); [f_equal; etransitivity; [|exact Hs]; f_equal|by destruct s]).
  - cbn [mbind option_bind]. destruct (area_get DRAFT_KEY (drafts s)) as [[d|]|] eqn:Ed; [by destruct (H d)| |]; by destruct s.
Qed.

(** The page of the dialog before the first run. *)
Context (cell rest : list node) (report : jsval) (store : area).
Context (Hcell : shows_text cell = true)
  (Hpicker : picker_path (dialog_page cell rest) = None) (Hstatus : find_path is_status (dialog_page cell rest) = None)
  (Hdraft : forall d, area_get DRAFT_KEY store <> Ret (Some d)).

Definition opened : page := Page (dialog_page cell rest) None report store.

(** The dialog is opened when the line of an earlier report is in the body already. *)
Definition reopened (line : node) : page := Page (dialog_page cell (rest ++ [line])) None report store.

(** The first run, once the picker has been made around [status] and the line is gone. *)
Lemma mounting_run s status rest' m m' :
  findModelInfoValueCell (tree s) = Some the_cell ->
  make_picker sel the_cell s = (Page (dialog_page cell rest) (Some (new_picker sel status)) report store, Some the_cell, m') ->
  show_report show_frac htmlLang navLang (Page (dialog_page cell rest) (Some (new_picker sel status)) report store)
    = (Page (dialog_page cell rest') (Some (new_picker sel status)) report store, m) ->
  picker_path (dialog_page cell rest') = None ->
  mount s = (Page (dialog_page [picker_with status] rest') None report store, true).
Proof.
  intros Hc Hk Hr Hp. unfold mountPicker. rewrite Hc, Hk, Hr. destruct (models sel); [done|]. cbn [tree detached lastReport drafts].
  rewrite Hp. cbn [mbind option_bind from_option]. case_bool_decide; [done|]. rewrite restore_same by done. reflexivity.
Qed.

Lemma first_run rest' m : show_report show_frac htmlLang navLang (Page (dialog_page cell rest) (Some (new_picker sel (hidden_status None))) report store)
    = (Page (dialog_page cell rest') (Some (new_picker sel (hidden_status None))) report store, m) ->
  picker_path (dialog_page cell rest') = None ->
  mount opened = (Page (dialog_page [picker_with (hidden_status None)] rest') None report store, true).
Proof.
  apply (mounting_run opened (hidden_status None) rest' m false); [by apply dialog_cell_found|].
  unfold make_picker, opened. cbn [tree detached lastReport drafts]. by rewrite Hpicker, Hstatus.
Qed.

Lemma status_last line : is_status line = true ->
  find_path is_status (dialog_page cell (rest ++ [line])) = Some [1; S (length rest)]%nat.
Proof.
  intros Hl. rewrite page_search in Hstatus |- * by done.
  assert (E : find_children is_status 0 (the_dialog cell :: rest) = None) by (by destruct (find_children _ _ _)).
  change (the_dialog cell :: rest ++ [line]) with ((the_dialog cell :: rest) ++ [line]).
  rewrite (find_children_last is_status 0 _ line E); [done|]. destruct line; [done|]. by rewrite find_path_elem, Hl.
Qed.

Lemma second_run line rest' m : is_status line = true -> find_path is_picker line = None ->
  show_report show_frac htmlLang navLang (Page (dialog_page cell rest) (Some (new_picker sel (hidden_status (Some line)))) report store)
    = (Page (dialog_page cell rest') (Some (new_picker sel (hidden_status (Some line)))) report store, m) ->
  picker_path (dialog_page cell rest') = None ->
  mount (reopened line) = (Page (dialog_page [picker_with (hidden_status (Some line))] rest') None report store, true).
Proof.
  intros Hl Hn. apply (mounting_run (reopened line) _ rest' m true); [by apply dialog_cell_found|].
  unfold make_picker, reopened. cbn [tree detached lastReport drafts]. rewrite picker_more, (status_last line Hl) by done.
  assert (A : at_path [1; S (length rest)]%nat (dialog_page cell (rest ++ [line])) = Some line).
  { change (at_path [S (length rest)] (el "body" (the_dialog cell :: rest ++ [line])) = Some line).
    cbn [at_path children]. change ((the_dialog cell :: rest ++ [line]) !! S (length rest)) with ((rest ++ [line]) !! length rest).
    by rewrite list_lookup_middle. }
  assert (R : remove_path [1; S (length rest)]%nat (dialog_page cell (rest ++ [line])) = dialog_page cell rest).
  { change (dialog_page cell (delete (length rest) (rest ++ [line])) = dialog_page cell rest). by rewrite delete_middle, app_nil_r. }
  by rewrite A, R.
Qed.

Lemma hidden_is_status line : is_status line = true -> is_status (hidden_status (Some line)) = true.
Proof. unfold is_status. destruct line as [t|t a v cs]; [done|]. intros _. cbn. unfold has. by rewrite !attr_set. Qed.

(** Every later run finds the picker where it belongs. *)
Lemma later_run status status' rest' m : is_status status = true ->
  show_report show_frac htmlLang navLang (Page (dialog_page [picker_with status] rest') None report store)
    = (Page (dialog_page [picker_with status'] rest') None report store, m) ->
  mount (Page (dialog_page [picker_with status] rest') None report store)
  = (Page (dialog_page [picker_with status'] rest') None report store, m).
Proof.
  intros Hs Hr. unfold mountPicker. cbn [tree]. rewrite dialog_cell_found by apply picker_shows. destruct (models sel); [done|].
  unfold make_picker. cbn [tree detached lastReport drafts]. rewrite picker_found, Hr. cbn [tree]. rewrite picker_found. reflexivity.
Qed.

(** What [updateExecutionStatus] makes of a line. *)
Definition written (n : node) : node :=
  let '(line, title) := status_line show_frac htmlLang navLang report in
  match n with
  | Elem t a v _ => Elem t (remove_attr (js "hidden") (set_attr (js "title") title a)) v [Text line]
  | Text _ => n
  end.

Lemma attr_removed k k' a : seqb k k' = false -> attr k (remove_attr k' a) = attr k a.
Proof.
  intros H. unfold remove_attr, attr. f_equal. induction a as [|[x y] a IH]; [done|]. cbn [List.filter List.find fst].
  destruct (seqb k' x) eqn:E; cbn [negb List.find fst].
  - apply seqb_eq in E as <-. by rewrite H.
  - by rewrite IH.
Qed.

Lemma written_is_status n : is_status n = true -> is_status (written n) = true.
Proof.
  unfold written, is_status. destruct (status_line _ _ _ _) as [line title]. destruct n as [s|t a v cs]; [done|].
  cbn [with_attr]. unfold has. by rewrite attr_removed, attr_set by reflexivity.
Qed.

Lemma report_written status rest' : vtruthy report && is_object report = true -> is_status status = true ->
  show_report show_frac htmlLang navLang (Page (dialog_page [picker_with status] rest') None report store)
  = (Page (dialog_page [picker_with (written status)] rest') None report store, true).
Proof.
  intros Hr Hs. unfold show_report. cbn [lastReport tree detached drafts]. rewrite Hr, status_found by done.
  unfold written. destruct (status_line _ _ _ _) as [line title]. reflexivity.
Qed.

Lemma report_appended picker : vtruthy report && is_object report = true ->
  exists x, find_path is_picker x = None /\
  show_report show_frac htmlLang navLang (Page (dialog_page cell rest) picker report store)
  = (Page (dialog_page cell (rest ++ [x])) picker report store, true).
Proof.
  intros Hr. unfold show_report. cbn [lastReport tree detached drafts]. rewrite Hr, Hstatus.
  destruct (status_line _ _ _ _) as [line title]. eexists. split; [|reflexivity]. reflexivity.
Qed.

Lemma busy_forever status rest' : vtruthy report && is_object report = true -> is_status status = true ->
  forall fuel, observe show_frac htmlLang navLang sel fuel (Page (dialog_page [picker_with status] rest') None report store) = None.
Proof.
  intros Hr Hs fuel. revert status Hs. induction fuel as [|fuel IH]; intros status Hs; [done|]. cbn [observe].
  rewrite (later_run status (written status) rest' true); [apply IH; by apply written_is_status|done|by apply report_written].
Qed.

(** The dialog is opened before the first report: the picker is mounted beside the label,
    whatever the cell and the rest of the page hold, and the second run changes nothing. *)
Theorem dialog_without_a_report : vtruthy report && is_object report = false ->
  observe show_frac htmlLang navLang sel 2 opened
  = Some (Page (dialog_page [picker_with (hidden_status None)] rest) None report store).
Proof.
  intros Hr. cbn [observe]. rewrite (first_run rest false); [|by apply show_report_idle|done]. cbn [observe].
  by rewrite (later_run (hidden_status None) (hidden_status None) rest false); [|done|apply show_report_idle].
Qed.

(** A report arrives while the picker is mounted, or the dialog is opened after a report, whose
    line then is the last element of the body: the observer runs for ever. *)
Theorem dialog_with_a_report : vtruthy report && is_object report = true ->
  forall fuel,
  observe show_frac htmlLang navLang sel fuel (Page (dialog_page [picker_with (hidden_status None)] rest) None report store) = None /\
  forall line, is_status line = true -> find_path is_picker line = None ->
    observe show_frac htmlLang navLang sel fuel (reopened line) = None.
Proof.
  intros Hr fuel. split; [by apply busy_forever|]. intros line Hl Hn. destruct fuel as [|fuel]; [done|]. cbn [observe].
  destruct (report_appended (Some (new_picker sel (hidden_status (Some line)))) Hr) as (x & Hx & Er).
  rewrite (second_run line (rest ++ [x]) true); [|done|done|done|by apply picker_more]. apply busy_forever; [done|]. by apply hidden_is_status.
Qed.

End Dialog.

(** ** Concrete pages *)

Definition one_model : selection :=
  let m := VObj [(js "id", VStr (js "qwen2.5:7b"))] in Selection [m] (Some m) None (Some ∅) (false, false, false).
Definition executed : jsval := VObj [(js "model_id", VStr (js "qwen2.5:7b")); (js "provider_node_ids", VArr [VStr (js "node-1")])].
Definition bare_cell : list node := [Text (js "qwen2.5-7b.gguf")].

Definition report_line (t : string) : node :=
  Elem (js "div") [(js "id", js "cm-execution-status"); (js "aria-live", js "polite")] [] [Text (js t)].

(** The dialog with the mounted picker before a report, and a page without the dialog after
    one. *)
Definition mounted_page : page :=
  Page (dialog_page [picker_with (fun _ => []) one_model (hidden_status None)] []) None VNull (Area true false ∅).
Definition plain_page : page := Page (el "html" [el "body" [report_line "old"]]) None executed (Area true false ∅).

Lemma observer_rests_only_without_a_report_witness :
  observe (fun _ => []) (js "en") (js "en") one_model 1 mounted_page = Some mounted_page /\
  observe (fun _ => []) (js "en") (js "en") one_model 1 plain_page = Some plain_page /\
  findModelInfoValueCell (tree plain_page) = None.
Proof.
  split; [|split; [vm_compute; reflexivity|]].
  - apply (observer_rests_only_without_a_report (fun _ => []) (js "en") (js "en") one_model mounted_page ltac:(discriminate)) with the_cell;
      vm_compute; reflexivity.
  - apply (observer_rests_only_without_a_report (fun _ => []) (js "en") (js "en") one_model plain_page ltac:(discriminate)) with 1%nat;
      [vm_compute; reflexivity|vm_compute; reflexivity|vm_compute; discriminate].
Defined.

(** The dialog opened after a report, as far as it can be run. *)
Example reopened_dialog_keeps_running :
  observe (fun _ => []) (js "en") (js "en") one_model 60 (reopened bare_cell [] executed (Area true false ∅) (report_line "old")) = None.
Proof. vm_compute. reflexivity. Qed.

(** When the picker is made it takes the status line out of the tree, so that the report
    cannot find it and adds a second line with the same identifier to the body; the first of
    the two, in the picker, is written from then on and the other one keeps its text. *)
Example second_status_line :
  let s := opened bare_cell [Elem (js "div") [(js "id", js "cm-execution-status")] [] [Text (js "old")]] executed (Area true false ∅) in
  let s' := (mountPicker (fun _ => []) (js "en") (js "en") one_model s).1 in
  length (List.filter (fun p => from_option is_status false (at_path p (tree s'))) (paths (tree s'))) = 2%nat.
Proof. vm_compute. reflexivity. Qed.
