(* ===== verification/AgentState.v ===== *)
(** * The agent workspace (agent-workspace/state.js, app.js, composer.js)

    The shared [state] object, its loaders, and the coordinator: session selection,
    the 2.5 s event poll, turns, approvals.  An asynchronous function is a list of
    steps that runs up to the next request; a request and the body it returns are two
    events, and between them any other event may happen. *)
From Stdlib Require Import Lia ZArith QArith.
From stdpp Require Import base numbers list gmap strings.
From S2P Require Import Prelude JsString JsNumber JsValue Auth.

(** ** Requests *)

Inductive mode : Type := Queue | Steer.

Inductive request : Type :=
| GetSessions
| GetDetails (sessionId : jsstring)
| GetEvents (sessionId : jsstring) (afterSequence : num)
| GetArtifacts (sessionId : jsstring)
| PostTurn (sessionId prompt : jsstring) (m : mode)
| PostControl (sessionId action : jsstring)
| PostApproval (approvalId decision : jsstring)
| GetWorkspaces
| PostWorkspace (path : jsstring) (name : option jsstring) (node : jsval)
| GetModels
| PostSession (workspace : jsval) (model : jsval) (policy : jsstring).

(** What comes back: a response that is not [ok], a JSON body, or an exception (of
    [fetch] or of [resp.json()]). *)
Inductive reply : Type :=
| NotOk
| Body (data : jsval)
| Failed.

(** The address of a request, for [None] when [encodeURIComponent] throws. *)
Section Urls.
Context (show_frac : Q -> jsstring).

Definition session_url (sid rest : jsstring) : option jsstring :=
  (fun e => js "/v1/agents/sessions/" ++ e ++ rest) <$> encodeURIComponent sid.

Definition url (r : request) : option jsstring :=
  match r with
  | GetSessions => Some (js "/v1/agents/sessions?limit=100")
  | GetDetails sid => session_url sid []
  | GetEvents sid a => session_url sid (js "/events?after_sequence=" ++ show_num show_frac a ++ js "&limit=200")
  | GetArtifacts sid => session_url sid (js "/artifacts")
  | PostTurn sid _ Steer => session_url sid (js "/steer")
  | PostTurn sid _ Queue => session_url sid (js "/turns")
  | PostControl sid _ => session_url sid (js "/control")
  | PostApproval a _ => (fun e => js "/v1/agents/approvals/" ++ e) <$> encodeURIComponent a
  | GetWorkspaces | PostWorkspace _ _ _ => Some (js "/v1/fleet/workspaces")
  | GetModels => Some (js "/v1/models")
  | PostSession _ _ _ => Some (js "/v1/agents/sessions")
  end.

End Urls.

(** ** State *)

Record model := Model { m_id : jsval; m_name : jsval }.

Record store := Store {
  allSessions : list jsval;
  activeSessionId : jsval;
  activeSession : jsval;
  events : list jsval;
  artifacts : list jsval;
  eventCursor : num;
  nodes : list jsval;
  workspaces : list jsval;
  activeNodeId : jsval;
  activeWorkspaceId : jsval;
  activeWorkspace : jsval;
  models : list model;
}.

(** [const state = { ... }] *)
Definition store0 : store :=
  Store [] VNull VNull [] [] (num_Z 0) [] [] VNull VNull VNull [].

Definition set_sessions (l : list jsval) (s : store) : store :=
  Store l (activeSessionId s) (activeSession s) (events s) (artifacts s) (eventCursor s) (nodes s)
    (workspaces s) (activeNodeId s) (activeWorkspaceId s) (activeWorkspace s) (models s).
Definition set_active (id sess : jsval) (s : store) : store :=
  Store (allSessions s) id sess (events s) (artifacts s) (eventCursor s) (nodes s)
    (workspaces s) (activeNodeId s) (activeWorkspaceId s) (activeWorkspace s) (models s).
Definition set_events (ev : list jsval) (c : num) (s : store) : store :=
  Store (allSessions s) (activeSessionId s) (activeSession s) ev (artifacts s) c (nodes s)
    (workspaces s) (activeNodeId s) (activeWorkspaceId s) (activeWorkspace s) (models s).
Definition set_artifacts (l : list jsval) (s : store) : store :=
  Store (allSessions s) (activeSessionId s) (activeSession s) (events s) l (eventCursor s) (nodes s)
    (workspaces s) (activeNodeId s) (activeWorkspaceId s) (activeWorkspace s) (models s).
Definition set_fleet (ns ws : list jsval) (nid wid w : jsval) (s : store) : store :=
  Store (allSessions s) (activeSessionId s) (activeSession s) (events s) (artifacts s) (eventCursor s)
    ns ws nid wid w (models s).
Definition set_models (l : list model) (s : store) : store :=
  Store (allSessions s) (activeSessionId s) (activeSession s) (events s) (artifacts s) (eventCursor s)
    (nodes s) (workspaces s) (activeNodeId s) (activeWorkspaceId s) (activeWorkspace s) l.

(** ** What the loaders do with a body *)

(** [Array.isArray(data && data.k) ? data.k : []] *)
Definition list_at (data : jsval) (k : jsstring) : list jsval :=
  if vtruthy data then array_or_nil (prop data k) else [].

(** [e.sequence || 0] as [Math.max] converts it; an exception on [null]. *)
Definition seq_of (e : jsval) : outcome jsstring num :=
  (let* v := get e (js "sequence") in Ret (Number (vor v (VNum (num_Z 0)))))%js.

Fixpoint max_seq (es : list jsval) : outcome jsstring num :=
  match es with
  | [] => Ret NInf
  | e :: r => (let* a := seq_of e in let* b := max_seq r in Ret (num_max a b))%js
  end.

(** [loadEvents] after the body arrived: the new events it returns and the state. *)
Definition take_events (data : jsval) (s : store) : list jsval * store :=
  let newEvents := list_at data (js "events") in
  match newEvents with
  | [] => ([], s)
  | _ =>
      match max_seq newEvents with
      | Ret maxSeq =>
          let c := if num_lt (eventCursor s) maxSeq then maxSeq else eventCursor s in
          (newEvents, set_events (events s ++ newEvents) c s)
      | Throw _ => ([], s)
      end
  end.

Definition find_workspace (id : jsval) (ws : list jsval) : outcome jsstring (option jsval) :=
  (fix go ws :=
     match ws with
     | [] => Ret None
     | w :: r => (let* i := get w (js "id") in if strict_eq i id then Ret (Some w) else go r)%js
     end) ws.

(** [loadFleetWorkspaces] after the body arrived.  The first exception stops the
    function where it is thrown, keeping the assignments already made. *)
Definition take_fleet (data : jsval) (s : store) : store :=
  let ws := list_at data (js "workspaces") in
  let ns := list_at data (js "nodes") in
  let s1 := set_fleet ns ws (activeNodeId s) (activeWorkspaceId s) (activeWorkspace s) s in
  let given := if vtruthy data then prop data (js "active_node_id") else VUndef in
  let node : outcome jsstring jsval :=
    if vtruthy (activeNodeId s) then Ret (activeNodeId s)
    else if vtruthy given then Ret given
    else match ns with n :: _ => get n (js "node_id") | [] => Ret (activeNodeId s) end in
  match node with
  | Throw _ => s1
  | Ret nid =>
      let s2 := set_fleet ns ws nid (activeWorkspaceId s) (activeWorkspace s) s1 in
      if vtruthy (activeWorkspaceId s) then
        match find_workspace (activeWorkspaceId s) ws with
        | Throw _ => s2
        | Ret (Some w) => set_fleet ns ws nid (activeWorkspaceId s) (if vtruthy w then w else vor (default VUndef (head ws)) VNull) s2
        | Ret None => set_fleet ns ws nid (activeWorkspaceId s) (vor (default VUndef (head ws)) VNull) s2
        end
      else match ws with
           | w :: _ => match get w (js "id") with
                       | Ret i => set_fleet ns ws nid i w s2
                       | Throw _ => s2
                       end
           | [] => s2
           end
  end.

(** One entry of the model list; an exception on [null]. *)
Definition model_of (m : jsval) : outcome jsstring model :=
  match m with
  | VStr t => Ret (Model m m)
  | _ => (let* i := get m (js "id") in
          Ret (Model (vor i (vor (prop m (js "model")) (prop m (js "name"))))
                     (vor (prop m (js "name")) (vor i (prop m (js "model"))))))%js
  end.

Fixpoint models_of (l : list jsval) : outcome jsstring (list model) :=
  match l with
  | [] => Ret []
  | m :: r => (let* x := model_of m in let* xs := models_of r in Ret (x :: xs))%js
  end.

Definition fallback_models : list model :=
  (fun p => Model (VStr (js p.1)) (VStr (js p.2))) <$>
  [("qwen2.5-coder:32b", "Qwen 2.5 Coder 32B (Inference Engine)");
   ("deepseek-r1:70b", "DeepSeek R1 70B (P2P Cluster / Kimi RPC)");
   ("gemma3:4b", "Gemma 3 4B (Local CUDA / Node)");
   ("llama-3.3:70b", "Llama 3.3 70B (Mesh Reasoning)")]%string.

(** [loadModels] after the reply. *)
Definition take_models (r : reply) (s : store) : store :=
  match r with
  | Body data =>
      let d := if vtruthy data then prop data (js "data") else data in
      let raw := match d with VArr l => l | _ => list_at data (js "models") end in
      match models_of raw with
      | Ret ms => set_models ms s
      | Throw _ => set_models fallback_models s
      end
  | _ => set_models fallback_models s
  end.

(** ** Steps of the asynchronous functions *)

Inductive action : Type :=
| LoadSessions
| LoadDetails (sid : jsstring)
| LoadEvents (sid : jsstring) (from_start : bool)
| LoadEventsActive
| LoadArtifacts (sid : jsstring)
| LoadArtifactsActive
| LoadFleet
| LoadModels
| SubmitTurn (sid prompt : jsstring) (m : mode)
| DecideApproval (approvalId decision : jsstring)
| ControlSession (sid act : jsstring)
| RegisterWorkspace (path : jsstring) (name : option jsstring)
| CreateSession (workspaceId model_ : jsval) (policy : jsstring)
| Activate (newSession : jsval)
| RenderTimeline
| RenderInspector
| ShowSession (sid : jsstring).

(** A step and whether the function goes on only when the step had a result (new
    events, a success). *)
Record task := Task { pending : action; sent : request; strict : bool; rest : list (action * bool); then_select : option (option jsstring) }.

Record state := State {
  st : store;
  tasks : gmap nat task;
  next_id : nat;
  requests : list request;
  currentMode : mode;
  composer : option jsstring;
  alerts : nat;
  timeline : list jsval;
  inspector : list jsval;
  session_title : jsval;
  badge : jsstring;
}.

Definition set_st (x : store) (s : state) : state :=
  State x (tasks s) (next_id s) (requests s) (currentMode s) (composer s) (alerts s) (timeline s)
    (inspector s) (session_title s) (badge s).
Definition set_tasks (t : gmap nat task) (s : state) : state :=
  State (st s) t (next_id s) (requests s) (currentMode s) (composer s) (alerts s) (timeline s)
    (inspector s) (session_title s) (badge s).
Definition set_views (tl insp : list jsval) (ti : jsval) (b : jsstring) (s : state) : state :=
  State (st s) (tasks s) (next_id s) (requests s) (currentMode s) (composer s) (alerts s) tl insp ti b.

(** An identifier as the template literal of an address prints it. *)
Definition id_string (v : jsval) : jsstring := match v with VStr t => t | _ => [] end.

Definition sendable (r : request) : option request :=
  match url (fun _ => []) r with Some _ => Some r | None => None end.

(** The request a step sends; [None] when it sends none: the guards of the loaders
    ([if (!sessionId) return]), an exception of [encodeURIComponent], or a step that is
    not asynchronous. *)
Definition request_of (a : action) (x : store) : option request :=
  let guard sid r := if truthy sid then sendable r else None in
  match a with
  | LoadSessions => Some GetSessions
  | LoadDetails sid => guard sid (GetDetails sid)
  | LoadEvents sid true => guard sid (GetEvents sid (num_Z 0))
  | LoadEvents sid false => guard sid (GetEvents sid (eventCursor x))
  | LoadEventsActive =>
      let sid := id_string (activeSessionId x) in guard sid (GetEvents sid (eventCursor x))
  | LoadArtifacts sid => guard sid (GetArtifacts sid)
  | LoadArtifactsActive =>
      let sid := id_string (activeSessionId x) in guard sid (GetArtifacts sid)
  | LoadFleet => Some GetWorkspaces
  | LoadModels => Some GetModels
  | SubmitTurn sid p m => if truthy sid && truthy p then sendable (PostTurn sid p m) else None
  | DecideApproval a d => if truthy a && truthy d then sendable (PostApproval a d) else None
  | ControlSession sid act => if truthy sid && truthy act then sendable (PostControl sid act) else None
  | RegisterWorkspace path name =>
      if truthy path
      then Some (PostWorkspace (trim path) (match name with Some n => if truthy n then Some (trim n) else None | None => None end)
                   (activeNodeId x))
      else None
  | CreateSession w m policy =>
      Some (PostSession (vor w (activeWorkspaceId x))
              (vor m (match models x with mo :: _ => m_id mo | [] => VUndef end)) policy)
  | Activate _ | RenderTimeline | RenderInspector | ShowSession _ => None
  end.

Definition upper (s : jsstring) : jsstring :=
  (fun c => if (97 <=? c)%N && (c <=? 122)%N then (c - 32)%N else c) <$> s.

(** The steps that are not asynchronous; [false]: the function threw and stops. *)
Definition render (a : action) (s : state) : state * bool :=
  match a with
  | RenderTimeline => (set_views (events (st s)) (inspector s) (session_title s) (badge s) s, true)
  | RenderInspector => (set_views (timeline s) (artifacts (st s)) (session_title s) (badge s) s, true)
  | ShowSession sid =>
      let sess := activeSession (st s) in
      if vtruthy sess then
        let s1 := set_views (timeline s) (inspector s) (vor (prop sess (js "title")) (VStr sid)) (badge s) s in
        match vor (prop sess (js "status")) (VStr (js "ready")) with
        | VStr status => (set_views (timeline s1) (inspector s1) (session_title s1) (upper (lower status)) s1, true)
        | _ => (s1, false)
        end
      else (s, true)
  | Activate sess =>
      let sid := if vtruthy sess then prop sess (js "session_id") else VUndef in
      (if vtruthy sid then set_st (set_active sid sess (st s)) s else s, true)
  | _ => (s, true)
  end.

Definition is_render (a : action) : bool :=
  match a with Activate _ | RenderTimeline | RenderInspector | ShowSession _ => true | _ => false end.

(** Run a function from a list of steps up to its next request. *)
Fixpoint run_steps (plan : list (action * bool)) (s : state) : state :=
  match plan with
  | [] => s
  | (a, strict) :: r =>
      if is_render a then
        let '(s1, go) := render a s in if go then run_steps r s1 else s1
      else match request_of a (st s) with
           | Some q =>
               State (st s) (<[next_id s := Task a q strict r None]> (tasks s)) (S (next_id s))
                 (requests s ++ [q]) (currentMode s) (composer s) (alerts s) (timeline s) (inspector s)
                 (session_title s) (badge s)
           | None => if strict then s else run_steps r s
           end
  end.

(** ** The functions of app.js and composer.js *)

Definition select_steps (sid : jsstring) : list (action * bool) :=
  [(LoadDetails sid, false); (LoadEvents sid true, false); (LoadArtifacts sid, false);
   (ShowSession sid, false); (RenderTimeline, false); (RenderInspector, false)].

(** [selectSession(sessionId)] *)
Definition selectSession (sid : jsstring) (s : state) : state :=
  if truthy sid then
    run_steps (select_steps sid)
      (set_st (set_events [] (num_Z 0) (set_active (VStr sid) (activeSession (st s)) (st s))) s)
  else s.

(** The body of the [setInterval] callback. *)
Definition poll (s : state) : state :=
  if vtruthy (activeSessionId (st s)) then
    run_steps [(LoadEventsActive, true); (RenderTimeline, false); (LoadArtifactsActive, false); (RenderInspector, false)] s
  else s.

(** [handleApproval(approvalId, decision)] *)
Definition handleApproval (approvalId decision : jsstring) (s : state) : state :=
  run_steps [(DecideApproval approvalId decision, true); (LoadEventsActive, true); (RenderTimeline, false)] s.

(** [setMode(mode)] *)
Definition setMode (m : jsstring) (s : state) : state :=
  State (st s) (tasks s) (next_id s) (requests s) (if seqb m (js "steer") then Steer else Queue)
    (composer s) (alerts s) (timeline s) (inspector s) (session_title s) (badge s).

(** [handleSend()] *)
Definition handleSend (s : state) : state :=
  match composer s with
  | None => s
  | Some v =>
      let text := trim v in
      if negb (truthy text) then s
      else
        let sid := id_string (activeSessionId (st s)) in
        if negb (vtruthy (activeSessionId (st s))) then
          State (st s) (tasks s) (next_id s) (requests s) (currentMode s) (composer s) (S (alerts s))
            (timeline s) (inspector s) (session_title s) (badge s)
        else
          run_steps [(SubmitTurn sid text (currentMode s), true); (LoadEvents sid false, false); (RenderTimeline, false)]
            (State (st s) (tasks s) (next_id s) (requests s) (currentMode s) (Some []) (alerts s)
               (timeline s) (inspector s) (session_title s) (badge s))
  end.

(** [init()]: the session of the address, or the first one of the list. *)
Definition init (initialSessionId : option jsstring) (s : state) : state :=
  State (st s) (<[next_id s := Task LoadSessions GetSessions false [] (Some initialSessionId)]> (tasks s))
    (S (next_id s)) (requests s ++ [GetSessions]) (currentMode s) (composer s) (alerts s) (timeline s)
    (inspector s) (session_title s) (badge s).

(** ** Replies *)

(** The effect of a reply on the store and whether the step had a result. *)
Definition settle (a : action) (q : request) (r : reply) (x : store) : store * bool :=
  match a, r with
  | LoadSessions, Body d => (set_sessions (list_at d (js "sessions")) x, true)
  | LoadDetails sid, Body d => (set_active (VStr sid) d x, true)
  | LoadEvents _ _, Body d | LoadEventsActive, Body d =>
      let '(new, x') := take_events d x in (x', match new with [] => false | _ => true end)
  | LoadArtifacts _, Body d | LoadArtifactsActive, Body d => (set_artifacts (list_at d (js "artifacts")) x, true)
  | LoadFleet, Body d => (take_fleet d x, true)
  | LoadModels, _ => (take_models r x, true)
  | SubmitTurn _ _ _, Body _ | DecideApproval _ _, Body _ | ControlSession _ _, Body _
  | RegisterWorkspace _ _, Body _ | CreateSession _ _ _, Body _ => (x, true)
  | _, _ => (x, false)
  end.

(** The steps of [registerWorkspace] and [createSession] after their own reply. *)
Definition follow_up (a : action) (r : reply) : list (action * bool) :=
  match a, r with
  | RegisterWorkspace _ _, Body _ => [(LoadFleet, false)]
  | CreateSession _ _ _, Body d => [(LoadSessions, false); (Activate d, false)]
  | _, _ => []
  end.

Definition first_session (l : list jsval) : jsstring :=
  match l with e :: _ => id_string (prop e (js "session_id")) | [] => [] end.

Definition complete (id : nat) (r : reply) (s : state) : state :=
  match tasks s !! id with
  | None => s
  | Some t =>
      let '(x, ok) := settle (pending t) (sent t) r (st s) in
      let s1 := set_st x (set_tasks (delete id (tasks s)) s) in
      match then_select t with
      | Some initial =>
          let sid := match initial with Some i => if truthy i then i else first_session (allSessions x)
                                      | None => first_session (allSessions x) end in
          if ok || truthy (default [] initial) then selectSession sid s1 else s1
      | None => if strict t && negb ok then s1 else run_steps (follow_up (pending t) r ++ rest t) s1
      end
  end.

(** ** Events *)

Inductive event : Type :=
| Init (initialSessionId : option jsstring)
| Select (sid : jsstring)
| Poll
| Approve (approvalId decision : jsstring)
| Mode_ (m : jsstring)
| Type_ (v : jsstring)
| SendTurn
| Refresh (a : action)
| Reply (id : nat) (r : reply).

Definition step (s : state) (e : event) : state :=
  match e with
  | Init i => init i s
  | Select sid => selectSession sid s
  | Poll => poll s
  | Approve a d => handleApproval a d s
  | Mode_ m => setMode m s
  | Type_ v =>
      State (st s) (tasks s) (next_id s) (requests s) (currentMode s) ((fun _ => v) <$> composer s)
        (alerts s) (timeline s) (inspector s) (session_title s) (badge s)
  | SendTurn => handleSend s
  | Refresh a => run_steps [(a, false)] s
  | Reply id r => complete id r s
  end.

Definition exec (s : state) (es : list event) : state := fold_left step es s.

Definition state0 : state :=
  State store0 ∅ 0 [] Queue (Some []) 0 [] [] VUndef [].

(** ** Sequence numbers *)

Definition has_seq (e : jsval) (z : Z) : Prop := seq_of e = Ret (num_Z z).

Lemma num_lt_Z a b : num_lt (num_Z a) (num_Z b) = (a <? b)%Z.
Proof.
  apply eq_true_iff_eq. unfold num_Z. rewrite num_lt_finite, Z.ltb_lt. unfold Qlt. simpl. lia.
Qed.

Lemma num_max_Z a b : num_max (num_Z a) (num_Z b) = num_Z (Z.max a b).
Proof.
  unfold num_max. cbn [num_Z]. change (num_lt (Fin (inject_Z a)) (Fin (inject_Z b))) with (num_lt (num_Z a) (num_Z b)).
  rewrite num_lt_Z. destruct (a <? b)%Z eqn:E; bool_norm; unfold num_Z; do 2 f_equal; lia.
Qed.

(** The maximum of a page of events with sequence numbers. *)
Lemma max_seq_spec es zs :
  Forall2 has_seq es zs -> es <> [] ->
  exists m, max_seq es = Ret (num_Z m) /\ m ∈ zs /\ Forall (fun z => (z <= m)%Z) zs.
Proof.
  induction 1 as [|e z es zs He Hes IH]; [done|]. intros _. cbn [max_seq]. rewrite He. cbn [obind].
  destruct es as [|e' es].
  - inv Hes. simpl. exists z. repeat split; [set_solver|]. by repeat constructor.
  - destruct IH as (m & -> & Hin & Hm); [done|]. cbn [obind]. rewrite num_max_Z.
    exists (Z.max z m). repeat split.
    + destruct (Z.max_spec z m) as [[_ ->]|[_ ->]]; set_solver.
    + constructor; [lia|]. eapply Forall_impl; [exact Hm|]. simpl. lia.
Qed.

(** A body whose events all carry a sequence number. *)
Definition numbered (d : jsval) : Prop := exists zs, Forall2 has_seq (list_at d (js "events")) zs.

Definition numbered_reply (r : reply) : Prop := match r with Body d => numbered d | _ => True end.

(** The cursor is a number that no loaded event exceeds. *)
Definition covered (x : store) : Prop :=
  exists c, eventCursor x = num_Z c /\ Forall (fun e => exists z, has_seq e z /\ (z <= c)%Z) (events x).

Lemma take_events_covered d x : numbered d -> covered x -> covered (take_events d x).2.
Proof.
  intros [zs Hz] (c & Ec & Hc). unfold take_events. destruct (list_at d (js "events")) as [|e es] eqn:El.
  { by exists c. }
  destruct (max_seq_spec _ _ Hz) as (m & -> & Hin & Hm); [done|]. simpl. rewrite Ec, num_lt_Z.
  exists (Z.max c m). split.
  { destruct (c <? m)%Z eqn:E; bool_norm; simpl; f_equal; lia. }
  simpl. apply Forall_app. split.
  - eapply Forall_impl; [exact Hc|]. intros x0 (z & ? & ?). exists z. split; [done|lia].
  - apply Forall_forall. intros x0 [i Hx]%list_elem_of_lookup.
    destruct (Forall2_lookup_l _ _ _ _ _ Hz Hx) as (z & Hzin & Hs).
    exists z. split; [done|]. pose proof (Forall_lookup_1 _ _ _ _ Hm Hzin). simpl in *. lia.
Qed.

Lemma render_events a s :
  events (st (render a s).1) = events (st s) /\ eventCursor (st (render a s).1) = eventCursor (st s).
Proof.
  destruct a; simpl; try done.
  - by destruct (vtruthy (if vtruthy newSession then _ else _)).
  - destruct (vtruthy _); [|done]. by destruct (vor _ _).
Qed.

Lemma run_steps_events plan s :
  events (st (run_steps plan s)) = events (st s) /\ eventCursor (st (run_steps plan s)) = eventCursor (st s).
Proof.
  revert s. induction plan as [|[a b] plan IH]; intros s; simpl; [done|].
  destruct (is_render a).
  - pose proof (render_events a s) as [E1 E2]. destruct (render a s) as [s1 []]; simpl in *; [|done].
    destruct (IH s1) as [-> ->]. done.
  - destruct (request_of a (st s)); [done|]. destruct b; auto.
Qed.

Lemma take_fleet_events d x :
  events (take_fleet d x) = events x /\ eventCursor (take_fleet d x) = eventCursor x.
Proof.
  unfold take_fleet. cbv zeta.
  match goal with |- context [match ?n with Ret _ => _ | Throw _ => _ end] => destruct n as [nid|] end; [|done].
  destruct (vtruthy (activeWorkspaceId x)).
  - by destruct (find_workspace _ _) as [[w|]|].
  - destruct (list_at d (js "workspaces")) as [|w ws]; [done|]. by destruct (get w _).
Qed.

(** *** Invariants of the event list and its cursor *)

Section EventInvariant.
Context (I : list jsval -> num -> Prop) (ok : reply -> Prop).
Context (I_nil : I [] (num_Z 0)).
Context (I_take : forall d x, ok (Body d) -> I (events x) (eventCursor x) ->
  I (events (take_events d x).2) (eventCursor (take_events d x).2)).

Definition holds (x : store) : Prop := I (events x) (eventCursor x).

Lemma holds_same x x' : events x' = events x -> eventCursor x' = eventCursor x -> holds x -> holds x'.
Proof. unfold holds. by intros -> ->. Qed.

Lemma run_steps_holds plan s : holds (st s) -> holds (st (run_steps plan s)).
Proof. destruct (run_steps_events plan s). by apply holds_same. Qed.

Lemma select_holds sid s : holds (st s) -> holds (st (selectSession sid s)).
Proof. intros H. unfold selectSession. destruct (truthy sid); [|done]. by apply run_steps_holds. Qed.

Lemma settle_holds a q r x : ok r -> holds x -> holds (settle a q r x).1.
Proof.
  intros Hr H. destruct a, r; simpl; try done.
  - pose proof (I_take data x Hr H) as Ht. by destruct (take_events data x).
  - pose proof (I_take data x Hr H) as Ht. by destruct (take_events data x).
  - by destruct (take_fleet_events data x); apply (holds_same x).
  - unfold take_models. by destruct (models_of _).
Qed.

Lemma complete_holds id r s : ok r -> holds (st s) -> holds (st (complete id r s)).
Proof.
  intros Hr H. unfold complete. destruct (tasks s !! id) as [t|]; [|done].
  pose proof (settle_holds (pending t) (sent t) r (st s) Hr H) as Hs.
  destruct (settle _ _ _ _) as [x ok']. simpl in Hs. destruct (then_select t) as [i|].
  - destruct (_ || _); [by apply select_holds|done].
  - destruct (_ && _); [done|]. by apply run_steps_holds.
Qed.

Definition ok_event (e : event) : Prop := match e with Reply _ r => ok r | _ => True end.

Lemma holds_step s e : ok_event e -> holds (st s) -> holds (st (step s e)).
Proof.
  intros He H. destruct e; cbn [step]; try done.
  - by apply select_holds.
  - unfold poll. destruct (vtruthy _); [by apply run_steps_holds|done].
  - by apply run_steps_holds.
  - unfold handleSend. destruct (composer s) as [v|]; [|done]. destruct (negb _); [done|].
    destruct (negb _); [done|]. by apply run_steps_holds.
  - by apply run_steps_holds.
  - by apply complete_holds.
Qed.

Lemma holds_exec s es : Forall ok_event es -> holds (st s) -> holds (st (exec s es)).
Proof.
  intros Hes H. apply (fold_invariant step (fun s => holds (st s)) ok_event); [|done..].
  intros s' e He Hs. by apply holds_step.
Qed.

End EventInvariant.

Definition numbered_event (e : event) : Prop := match e with Reply _ r => numbered_reply r | _ => True end.

(** *** Events that can be rendered *)

Definition not_null (e : jsval) : Prop := match e with VUndef | VNull => False | _ => True end.

Lemma max_seq_not_null es n : max_seq es = Ret n -> Forall not_null es.
Proof.
  revert n. induction es as [|e es IH]; intros n H; [constructor|]. cbn [max_seq] in H.
  destruct (seq_of e) as [a|] eqn:Ea; [|done]. cbn [obind] in H.
  destruct (max_seq es) as [b|] eqn:Eb; [|done]. constructor; [|by eapply IH].
  by destruct e.
Qed.

(** Whatever the gateway sends, no entry of the event list is [null]: a page with such an
    entry is dropped as a whole. *)
Lemma events_not_null s es : Forall not_null (events (st s)) -> Forall not_null (events (st (exec s es))).
Proof.
  apply (holds_exec (fun l _ => Forall not_null l) (fun _ => True)); [constructor| |].
  - intros d x _ H. unfold take_events. destruct (list_at d (js "events")) as [|e l]; [done|].
    destruct (max_seq (e :: l)) as [m|] eqn:Em; [|done]. simpl. apply Forall_app. split; [done|].
    by eapply max_seq_not_null.
  - apply Forall_true. by intros [].
Qed.

(** ** Sequential polling *)

(** The event log of a session at the server, and the page the gateway returns for
    [after_sequence=c&limit=200]. *)
Definition log := list (Z * jsval).

Definition event_of (e : Z * jsval) : jsval :=
  VObj [(js "sequence", VNum (num_Z e.1)); (js "payload", e.2)].

Definition page_after (l : log) (c : Z) : jsval :=
  VObj [(js "events", VArr (event_of <$> take 200 (List.filter (fun e => c <? e.1)%Z l)))].

Fixpoint increasing (c : Z) (l : log) : Prop :=
  match l with
  | [] => True
  | e :: r => (c < e.1)%Z /\ increasing e.1 r
  end.

Lemma increasing_above c l : increasing c l -> Forall (fun e => (c < e.1)%Z) l.
Proof.
  revert c. induction l as [|e l IH]; simpl; intros c H; [constructor|]. destruct H as [H1 H2].
  constructor; [done|]. eapply Forall_impl; [by apply IH|]. simpl. lia.
Qed.

(** The sequence number of the last of the first [k] events. *)
Definition cursor_at (l : log) (k : nat) : Z := default 0%Z (fst <$> last (take k l)).

(** Behind the first [k] events are exactly the remaining ones. *)
Lemma filter_cursor l k :
  increasing 0 l -> List.filter (fun e => cursor_at l k <? e.1)%Z l = drop k l.
Proof.
  unfold cursor_at.
  assert (G : forall c, increasing c l ->
    List.filter (fun e => default c (fst <$> last (take k l)) <? e.1)%Z l = drop k l); [|by auto].
  revert k. induction l as [|e l IH]; intros k c H; [by rewrite drop_nil|].
  destruct H as [H1 H2]. destruct k as [|k].
  - simpl. replace (c <? e.1)%Z with true by (symmetry; by apply Z.ltb_lt). f_equal.
    clear IH.
    induction l as [|e' l IH]; [done|]. destruct H2 as [H2 H3]. simpl.
    replace (c <? e'.1)%Z with true by (symmetry; apply Z.ltb_lt; lia). f_equal. apply IH.
    destruct l; [done|]. simpl in *. split; [lia|tauto].
  - cbn [take drop]. assert (E : default c (fst <$> last (e :: take k l)) = default e.1 (fst <$> last (take k l))).
    { rewrite last_cons. by destruct (last (take k l)). }
    rewrite E. simpl.
    assert (Hge : (e.1 <= default e.1 (fst <$> last (take k l)))%Z).
    { destruct (last (take k l)) as [x|] eqn:El; simpl; [|lia].
      assert (Hx : x ∈ l) by (apply last_Some in El as [l' El]; rewrite <- (take_drop k l), El; set_solver).
      pose proof (increasing_above _ _ H2) as F. rewrite Forall_forall in F. specialize (F x Hx). simpl in F. lia. }
    replace (_ <? e.1)%Z with false by (symmetry; apply Z.ltb_ge; lia). by apply IH.
Qed.

Lemma event_of_seq e : has_seq (event_of e) e.1.
Proof.
  destruct e as [z p]. unfold has_seq.
  change (seq_of (event_of (z, p))) with (Ret (E := jsstring) (Number (vor (VNum (num_Z z)) (VNum (num_Z 0))))).
  unfold vor. cbn [vtruthy fst]. destruct (num_truthy (num_Z z)) eqn:E; [done|].
  cbn [num_truthy num_Z] in E. bool_norm. apply Qeqb_eq in E. unfold Qeq in E. simpl in E.
  assert (z = 0%Z) as -> by lia. done.
Qed.

Lemma max_seq_increasing c p :
  increasing c p -> p <> [] -> max_seq (event_of <$> p) = Ret (num_Z (default c (fst <$> last p))).
Proof.
  revert c. induction p as [|e p IH]; intros c H Hp; [done|]. destruct H as [H1 H2].
  rewrite fmap_cons. cbn [max_seq]. rewrite (event_of_seq e). cbn [obind]. rewrite last_cons.
  destruct p as [|e' p]; [reflexivity|]. rewrite (IH e.1 H2) by done. cbn [obind]. rewrite num_max_Z.
  destruct (last (e' :: p)) as [x|] eqn:El; [|by apply last_None in El]. simpl. do 2 f_equal.
  assert (x ∈ e' :: p) as Hx by (apply last_Some in El as [l' ->]; set_solver).
  pose proof (increasing_above _ _ H2) as F. rewrite Forall_forall in F. specialize (F x Hx). simpl in F. lia.
Qed.

Lemma increasing_drop c l k : increasing c l -> increasing (default c (fst <$> last (take k l))) (drop k l).
Proof.
  revert c k. induction l as [|e l IH]; intros c k H; [by destruct k|]. destruct k as [|k]; [done|].
  destruct H as [H1 H2]. cbn [take drop]. rewrite last_cons.
  specialize (IH e.1 k H2). by destruct (last (take k l)).
Qed.

Lemma increasing_take c l k : increasing c l -> increasing c (take k l).
Proof. revert c k. induction l as [|e l IH]; intros c [|k] H; try done. destruct H. split; [done|by apply IH]. Qed.

(** The cursor after a further page. *)
Lemma cursor_at_app l k :
  cursor_at l (k + 200) = default (cursor_at l k) (fst <$> last (take 200 (drop k l))).
Proof.
  unfold cursor_at. rewrite <- take_take_drop, last_app.
  by destruct (last (take 200 (drop k l))).
Qed.

(** The gateway: it answers the request that was sent, from the log [l] of session
    [sid]; [r] is its reply to every other request. *)
Definition serve (sid : jsstring) (l : log) (r : reply) (q : request) : reply :=
  match q with
  | GetEvents sid' (Fin c) => if seqb sid' sid then Body (page_after l (Qround.Qfloor c)) else NotOk
  | GetEvents _ _ => NotOk
  | _ => r
  end.

(** The reply to the request with number [id], when there is one. *)
Definition served (sid : jsstring) (l : log) (r : reply) (id : nat) (s : state) : state :=
  match tasks s !! id with
  | Some t => step s (Reply id (serve sid l r (sent t)))
  | None => s
  end.

(** One poll whose requests are answered before the next one starts: the request for
    events and the one for artifacts that follows new events. *)
Definition round (sid : jsstring) (l : log) (r : reply) (s : state) : state :=
  let s1 := step s Poll in
  served sid l r (next_id s1) (served sid l r (next_id s) s1).

(** An idle workspace that shows the first [k] events of the log. *)
Record shows (sid : jsstring) (l : log) (k : nat) (s : state) : Prop := Shows {
  shows_tasks : tasks s = ∅;
  shows_active : activeSessionId (st s) = VStr sid;
  shows_events : events (st s) = event_of <$> take k l;
  shows_cursor : eventCursor (st s) = num_Z (cursor_at l k);
}.

Definition poll_rest : list (action * bool) := [(RenderTimeline, false); (LoadArtifactsActive, false); (RenderInspector, false)].

Lemma sendable_some sid e q :
  encodeURIComponent sid = Some e ->
  (exists c, q = GetEvents sid c) \/ q = GetArtifacts sid -> sendable q = Some q.
Proof.
  intros E H. unfold sendable. destruct H as [[c ->] | ->]; simpl; unfold session_url; by rewrite E.
Qed.

Lemma poll_sends sid e l k s :
  truthy sid = true -> encodeURIComponent sid = Some e -> shows sid l k s ->
  tasks (step s Poll) = {[next_id s := Task LoadEventsActive (GetEvents sid (eventCursor (st s))) true poll_rest None]} /\
  next_id (step s Poll) = S (next_id s) /\ st (step s Poll) = st s.
Proof.
  intros Ht He [Hta Hac _ _]. simpl. unfold poll. rewrite Hac. simpl. rewrite Ht. simpl.
  rewrite Hac. simpl. rewrite Ht, (sendable_some sid e _ He) by eauto. simpl. by rewrite Hta.
Qed.

Lemma serve_page sid l r k c : increasing 0 l -> c = num_Z (cursor_at l k) ->
  exists d, serve sid l r (GetEvents sid c) = Body d /\
    list_at d (js "events") = event_of <$> take 200 (drop k l).
Proof.
  intros Hi ->. unfold serve, num_Z. rewrite seqb_refl, Qround.Qfloor_Z. eexists. split; [reflexivity|].
  rewrite <- (filter_cursor l k Hi). reflexivity.
Qed.

(** What the page does to the store. *)
Lemma take_page l k d x :
  increasing 0 l -> list_at d (js "events") = event_of <$> take 200 (drop k l) ->
  events x = event_of <$> take k l -> eventCursor x = num_Z (cursor_at l k) ->
  let '(new, x') := take_events d x in
  (new = [] <-> drop k l = []) /\ events x' = event_of <$> take (k + 200) l /\
  eventCursor x' = num_Z (cursor_at l (k + 200)) /\ activeSessionId x' = activeSessionId x.
Proof.
  intros Hi Hd He Hc. unfold take_events. rewrite Hd.
  pose proof (increasing_drop 0 l k Hi) as Hid. fold (cursor_at l k) in Hid.
  pose proof (increasing_take _ _ 200 Hid) as Hip. rewrite cursor_at_app, <- take_take_drop, fmap_app.
  destruct (drop k l) as [|a r] eqn:Ed.
  - simpl. by rewrite app_nil_r.
  - assert (Hp : take 200 (a :: r) <> []) by done.
    rewrite (max_seq_increasing _ _ Hip Hp). rewrite Hc, num_lt_Z. cbv zeta.
    destruct (last (take 200 (a :: r))) as [y|] eqn:El; [|by apply last_None in El].
    assert (Hy : (cursor_at l k < y.1)%Z).
    { pose proof (increasing_above _ _ Hip) as F. rewrite Forall_forall in F. apply F.
      apply last_Some in El as [l' ->]. set_solver. }
    cbn [fmap option_fmap option_map default from_option]. apply Z.ltb_lt in Hy.
    simpl. rewrite He, Hy. by split_and!.
Qed.

Lemma round_shows sid e l k r s :
  increasing 0 l -> truthy sid = true -> encodeURIComponent sid = Some e ->
  shows sid l k s -> shows sid l (k + 200) (round sid l r s).
Proof.
  intros Hi Ht He Hs. destruct (poll_sends sid e l k s Ht He Hs) as (E1 & E2 & E3).
  destruct Hs as [Hta Hac Hev Hcu]. unfold round. rewrite E2.
  destruct (serve_page sid l r k _ Hi Hcu) as (d & Es & Hd).
  set (s1 := step s Poll) in *. clearbody s1.
  pose proof (take_page l k d (st s) Hi Hd Hev Hcu) as Hp.
  unfold served at 2. rewrite E1, lookup_singleton_eq. cbn [sent]. rewrite Es.
  cbn [step]. unfold complete. rewrite E1, lookup_singleton_eq. cbn [pending sent settle then_select strict rest].
  rewrite E3. destruct (take_events d (st s)) as [new x]. destruct Hp as (Hn & He' & Hc' & Ha').
  destruct new as [|n0 new].
  - cbn [andb negb]. unfold served. cbn [tasks set_st set_tasks]. rewrite delete_singleton_eq, lookup_empty.
    split; simpl; [done|congruence|done|done].
  - cbn [andb negb follow_up app]. unfold poll_rest. cbn [run_steps is_render render set_views set_st set_tasks st request_of].
    cbn. rewrite Ha', Hac. cbn. rewrite Ht, (sendable_some sid e _ He) by auto. cbn. rewrite E2.
    unfold served. cbn [tasks]. rewrite lookup_insert_eq. cbn [sent serve step].
    unfold complete. cbn [tasks]. rewrite lookup_insert_eq. cbn [pending sent settle then_select strict rest].
    destruct r; cbn; (split; cbn; [by rewrite delete_insert_eq, delete_singleton_eq|congruence|done|done]).
Qed.

(** ** Claims *)

Definition evs (zs : list Z) : jsval := VObj [(js "events", VArr ((fun z => event_of (z, VNull)) <$> zs))].

Lemma numbered_evs zs : numbered (evs zs).
Proof.
  exists zs. change (list_at (evs zs) (js "events")) with ((fun z => event_of (z, VNull)) <$> zs).
  induction zs as [|z zs IH]; constructor; [|done]. apply (event_of_seq (z, VNull)).
Qed.

(** What a poll sends: nothing, or the request for the events behind the cursor. *)
Lemma poll_request q :
  requests (step q Poll) = requests q \/
  exists sid, requests (step q Poll) = requests q ++ [GetEvents sid (eventCursor (st q))].
Proof.
  simpl. unfold poll. destruct (vtruthy _); [|by left]. cbn [run_steps is_render request_of].
  destruct (truthy _); [|by left]. unfold sendable. destruct (url _ _); [|by left]. right. by eexists.
Qed.

Lemma poll_request_active q sid e :
  activeSessionId (st q) = VStr sid -> truthy sid = true -> encodeURIComponent sid = Some e ->
  requests (step q Poll) = requests q ++ [GetEvents sid (eventCursor (st q))].
Proof.
  intros Ha Ht He. simpl. unfold poll. rewrite Ha. simpl. rewrite Ht. simpl.
  rewrite Ha. simpl. by rewrite Ht, (sendable_some sid e _ He) by eauto.
Qed.

(** C24: When every event in the gateway's replies carries an integer sequence number (the
    condition [numbered_event]), then in every run of the workspace from a state whose cursor
    covers its events, such as the empty one, however replies of
    polls, selections, turns and approvals interleave, no poll asks again for an event that
    is already loaded: a poll sends either nothing or the one request for the events after
    sequence [c], where no loaded event has a number above [c], and it does send that
    request when a session is active. *)
Theorem cursor_covers_events s es :
  covered (st s) -> Forall numbered_event es ->
  let q := exec s es in
  exists c,
    Forall (fun e => exists z, has_seq e z /\ (z <= c)%Z) (events (st q)) /\
    (requests (step q Poll) = requests q \/
     exists sid, requests (step q Poll) = requests q ++ [GetEvents sid (num_Z c)]) /\
    (forall sid e, activeSessionId (st q) = VStr sid -> truthy sid = true -> encodeURIComponent sid = Some e ->
       requests (step q Poll) = requests q ++ [GetEvents sid (num_Z c)]).
Proof.
  intros H Hes q.
  assert (covered (st q)) as (c & Ec & Hc).
  { refine (holds_exec (fun l n => exists c, n = num_Z c /\ Forall (fun e => exists z, has_seq e z /\ (z <= c)%Z) l)
      numbered_reply _ _ s es Hes H).
    - exists 0%Z. split; [done|constructor].
    - intros d x Hd Hx. by apply take_events_covered. }
  exists c. rewrite <- Ec. split_and!; [done|apply poll_request|apply poll_request_active].
Qed.

Definition select_run : list event :=
  [Select (js "a"); Reply 0 (Body (VObj [])); Reply 1 (Body (evs [1; 2; 3]%Z)); Reply 2 NotOk; Poll;
   Reply 3 (Body (evs [4; 5]%Z))].

Lemma cursor_covers_events_witness :
  let q := exec state0 select_run in
  exists c, Forall (fun e => exists z, has_seq e z /\ (z <= c)%Z) (events (st q)) /\
    requests (step q Poll) = requests q ++ [GetEvents (js "a") (num_Z c)] /\ length (events (st q)) = 5%nat.
Proof.
  intros q. destruct (cursor_covers_events state0 select_run) as (c & H1 & _ & H3).
  - exists 0%Z. split; [done|constructor].
  - repeat (apply Forall_cons; split); try done; try apply numbered_evs. exists []. constructor.
  - exists c. split; [exact H1|]. split; [|by vm_compute].
    by apply (H3 (js "a") (js "a")); vm_compute.
Defined.

(** C6: Polls that are answered before the next one starts reconstruct the event log of
    the session: the gateway answers each request from the session and the sequence number
    the request names, and after [n] polls the workspace holds exactly the first [200 * n]
    events of the log, in order, without a duplicate or a gap. The log has increasing
    positive sequence numbers, and the workspace starts idle with the session selected and
    no event loaded. *)
Theorem sequential_polls_reconstruct_the_log sid e l r s n :
  increasing 0 l -> truthy sid = true -> encodeURIComponent sid = Some e -> shows sid l 0 s ->
  events (st (Nat.iter n (round sid l r) s)) = event_of <$> take (200 * n) l.
Proof.
  intros Hi Ht He Hs.
  assert (H : shows sid l (200 * n) (Nat.iter n (round sid l r) s)).
  { induction n as [|n IH]; [done|]. replace (200 * S n)%nat with (200 * n + 200)%nat by lia.
    simpl. by apply (round_shows sid e). }
  apply H.
Qed.

Definition idle_workspace : state := set_st (set_active (VStr (js "s1")) VNull store0) state0.

Definition short_log : log := [(1%Z, VNull); (4%Z, VStr (js "x")); (9%Z, VNull)].

Lemma sequential_polls_reconstruct_the_log_witness :
  events (st (Nat.iter 2 (round (js "s1") short_log NotOk) idle_workspace)) = event_of <$> short_log.
Proof.
  apply (sequential_polls_reconstruct_the_log (js "s1") (js "s1") short_log NotOk idle_workspace 2);
    [simpl; lia|done|by vm_compute|by split].
Defined.

(** Two polls in flight at the same time ask for the same events and append them
    twice. *)
Theorem overlapping_polls_duplicate_events :
  events (st (exec idle_workspace [Poll; Poll; Reply 0 (Body (evs [1; 2]%Z)); Reply 1 (Body (evs [1; 2]%Z))]))
  = (fun z => event_of (z, VNull)) <$> [1; 2; 1; 2]%Z.
Proof. vm_compute. reflexivity. Qed.

(** The reply of a poll for the session left behind is appended to the session
    selected since and moves its cursor, so that the next poll skips events of the new
    session. *)
Theorem stale_poll_corrupts_the_new_session :
  let s := exec idle_workspace
    [Poll; Select (js "s2"); Reply 0 (Body (evs [50]%Z)); Reply 1 (Body (VObj [])); Reply 3 (Body (evs [1; 2]%Z))] in
  activeSessionId (st s) = VStr (js "s2") /\
  events (st s) = (fun z => event_of (z, VNull)) <$> [50; 1; 2]%Z /\
  last (requests (step s Poll)) = Some (GetEvents (js "s2") (num_Z 50)).
Proof. vm_compute. done. Qed.

(** A turn is sent to the active session with the trimmed prompt and the mode of
    the composer; when it is refused or fails, the prompt is gone from the composer. *)
Theorem failed_turn_loses_the_prompt s v sid e r :
  composer s = Some v -> trim v <> [] -> activeSessionId (st s) = VStr sid -> truthy sid = true ->
  encodeURIComponent sid = Some e -> r = NotOk \/ r = Failed ->
  let s' := exec s [SendTurn; Reply (next_id s) r] in
  requests s' = requests s ++ [PostTurn sid (trim v) (currentMode s)] /\ composer s' = Some [].
Proof.
  intros Hc Ht Ha Hs He Hr. apply truthy_true in Ht.
  assert (Hq : forall x, request_of (SubmitTurn sid (trim v) (currentMode s)) x = Some (PostTurn sid (trim v) (currentMode s))).
  { intros x. cbn [request_of]. rewrite Hs, Ht. unfold sendable. cbn [andb url]. unfold session_url. rewrite He.
    by destruct (currentMode s). }
  unfold exec. cbn [fold_left step]. unfold handleSend. rewrite Hc. cbv zeta. rewrite Ht, Ha.
  cbn [negb vtruthy id_string]. rewrite Hs. cbn [negb run_steps is_render]. rewrite Hq.
  unfold complete. cbn [tasks]. rewrite lookup_insert_eq. by destruct Hr as [-> | ->].
Qed.

Lemma failed_turn_loses_the_prompt_witness :
  let s := step idle_workspace (Type_ (js " fix it ")) in
  composer (exec s [SendTurn; Reply 0 NotOk]) = Some [].
Proof.
  apply (failed_turn_loses_the_prompt (step idle_workspace (Type_ (js " fix it "))) (js " fix it ") (js "s1") (js "s1") NotOk);
    try done; auto.
Defined.
