(* ===== verification/AgentViews.v ===== *)
(** * Views of the agent workspace (timeline.js, sidebar.js, inspector.js)

    The HTML that the three components write for the store of AgentState.  Titles, tool
    output, file diffs and other texts of a session are data that agents and nodes
    produce; the theorems show which of them cannot change the markup and which can. *)
From Stdlib Require Import Lia ZArith QArith.
From stdpp Require Import base numbers list gmap strings.
From S2P Require Import Prelude JsString JsNumber JsValue JsJson Html I18n Auth AgentState.

Section Views.
(** [String] of numbers that are not integers; [formatTime], [toLocaleString] of numbers and
    dates (the host's locale); [toUpperCase], [toLowerCase] of arbitrary text. *)
Context (show_frac : Q -> jsstring) (formatTime : jsval -> jsstring)
  (toUpperCase toLowerCase : jsstring -> jsstring).

(** [escapeHtml(str)], the same in the three files *)
Definition esc (v : jsval) : jsstring := escape4 (to_str show_frac (vor v (VStr []))).

(** [JSON.stringify(v, null, 2)] *)
Fixpoint JSON_pretty (ind : jsstring) (v : jsval) : jsstring :=
  let inner := ind ++ js "  " in
  match v with
  | VArr [] => js "[]"
  | VArr l => js "[" ++ [10%N] ++ inner ++ join (js "," ++ [10%N] ++ inner) (map (JSON_pretty inner) l)
              ++ [10%N] ++ ind ++ js "]"
  | VObj fs =>
      match (fix go (fs : list (jsstring * jsval)) : list jsstring :=
               match fs with
               | [] => []
               | (k, x) :: r => if is_undef x then go r else (quote k ++ js ": " ++ JSON_pretty inner x) :: go r
               end) fs with
      | [] => js "{}"
      | ms => js "{" ++ [10%N] ++ inner ++ join (js "," ++ [10%N] ++ inner) ms ++ [10%N] ++ ind ++ js "}"
      end
  | _ => JSON_stringify show_frac v
  end.

(** ** Timeline *)

Inductive kind : Type := KUser | KAgent | KTool | KResult | KApproval | KDiff | KGeneric.

#[global] Instance kind_eq_dec : EqDecision kind.
Proof. solve_decision. Defined.

(** [evt.type || evt.event_type || 'unknown'], [evt.payload || evt.data || {}] *)
Definition event_type (evt : jsval) : jsval :=
  vor (prop evt (js "type")) (vor (prop evt (js "event_type")) (VStr (js "unknown"))).
Definition payload_of (evt : jsval) : jsval :=
  vor (prop evt (js "payload")) (vor (prop evt (js "data")) (VObj [])).

Definition is_type (v : jsval) (names : list string) : bool :=
  match v with VStr s => existsb (fun n => seqb s (js n)) names | _ => false end.

Definition kind_of (evt : jsval) : kind :=
  let t := event_type evt in
  if is_type t ["turn_start"; "user_message"] then KUser
  else if is_type t ["agent_message"; "assistant_message"] then KAgent
  else if is_type t ["tool_call"] then KTool
  else if is_type t ["tool_result"] then KResult
  else if is_type t ["approval_requested"] then KApproval
  else if is_type t ["diff"; "file_patch"] then KDiff
  else KGeneric.

(** [evt.sequence || ''] and the approval identifier, as the templates insert them. *)
Definition seq_text (evt : jsval) : jsstring := to_str show_frac (vor (prop evt (js "sequence")) (VStr [])).
Definition approvalId (evt : jsval) : jsstring :=
  to_str show_frac (vor (prop (payload_of evt) (js "approval_id")) (vor (prop evt (js "approval_id")) (VStr []))).

(** [renderEventCard(evt)] of an event that is not [null] *)
Definition event_pieces (evt : jsval) : list piece :=
  let payload := payload_of evt in
  match kind_of evt with
  | KUser =>
    [Lit (jsq "
        <div class=`timeline-card card-user`>
          <div class=`card-header`>
            <span>👤 User</span>
            <span class=`card-seq`>#");
     Hole (seq_text evt);
     Lit (jsq "</span>
          </div>
          <div class=`card-content`>");
     Hole (esc (vor (prop payload (js "prompt")) (vor (prop payload (js "text")) (VStr []))));
     Lit (js "</div>
        </div>
      ")]
  | KAgent =>
    [Lit (jsq "
        <div class=`timeline-card card-agent`>
          <div class=`card-header`>
            <span>🤖 Agent</span>
            <span class=`card-seq`>#");
     Hole (seq_text evt);
     Lit (jsq "</span>
          </div>
          <div class=`card-content`>");
     Hole (esc (vor (prop payload (js "text")) (vor (prop payload (js "content")) (VStr []))));
     Lit (js "</div>
        </div>
      ")]
  | KTool =>
    [Lit (jsq "
        <div class=`timeline-card card-tool`>
          <div class=`card-header`>
            <span>🔧 Tool: ");
     Hole (esc (vor (prop payload (js "tool_name")) (vor (prop payload (js "name")) (VStr (js "exec")))));
     Lit (jsq "</span>
            <span class=`card-seq`>#");
     Hole (seq_text evt);
     Lit (jsq "</span>
          </div>
          <div class=`card-content`>
            <pre class=`code-block`>");
     Hole (escape4 (JSON_pretty [] (vor (prop payload (js "args")) (vor (prop payload (js "parameters")) (VObj [])))));
     Lit (js "</pre>
          </div>
        </div>
      ")]
  | KResult =>
    [Lit (jsq "
        <div class=`timeline-card card-result`>
          <div class=`card-header`>
            <span>📋 Tool Result</span>
            <span class=`card-seq`>#");
     Hole (seq_text evt);
     Lit (jsq "</span>
          </div>
          <div class=`card-content`>
            <pre class=`terminal-block`>");
     Hole (esc (vor (prop payload (js "output")) (prop payload (js "result"))));
     Lit (js "</pre>
          </div>
        </div>
      ")]
  | KApproval =>
    [Lit (jsq "
        <div class=`timeline-card card-approval`>
          <div class=`card-header` style=`color: var(--accent-amber);`>
            <span>⚠️ Freigabe angefordert (Approval Required)</span>
            <span class=`card-seq`>#");
     Hole (seq_text evt);
     Lit (jsq "</span>
          </div>
          <div class=`card-content`>
            <p><strong>Aktion:</strong> ");
     Hole (esc (vor (prop payload (js "action")) (VStr (js "Side-effect operation"))));
     Lit (js "</p>
            <p><strong>Details:</strong> ");
     Hole (esc (vor (prop payload (js "description")) (VStr (JSON_stringify show_frac payload))));
     Lit (jsq "</p>
            <div style=`display: flex; gap: 0.5rem; margin-top: 0.75rem;`>
              <button class=`btn btn-primary btn-sm` onclick=`AgentApp.handleApproval('");
     Hole (approvalId evt);
     Lit (jsq "', 'approve')`>✓ Freigeben (Approve)</button>
              <button class=`btn btn-secondary btn-sm` onclick=`AgentApp.handleApproval('");
     Hole (approvalId evt);
     Lit (jsq "', 'reject')`>✕ Ablehnen (Reject)</button>
            </div>
          </div>
        </div>
      ")]
  | KDiff =>
    [Lit (jsq "
        <div class=`timeline-card card-diff`>
          <div class=`card-header`>
            <span>📝 File Diff: ");
     Hole (esc (vor (prop payload (js "path")) (VStr [])));
     Lit (jsq "</span>
            <span class=`card-seq`>#");
     Hole (seq_text evt);
     Lit (jsq "</span>
          </div>
          <div class=`card-content`>
            <pre class=`diff-block`>");
     Hole (esc (vor (prop payload (js "diff")) (vor (prop payload (js "patch")) (VStr []))));
     Lit (js "</pre>
          </div>
        </div>
      ")]
  | KGeneric =>
    [Lit (jsq "
      <div class=`timeline-card card-generic`>
        <div class=`card-header`>
          <span>ℹ️ ");
     Hole (esc (event_type evt));
     Lit (jsq "</span>
          <span class=`card-seq`>#");
     Hole (seq_text evt);
     Lit (jsq "</span>
        </div>
        <div class=`card-content`>");
     Hole (escape4 (JSON_stringify show_frac payload));
     Lit (js "</div>
      </div>
    ")]
  end.

Definition renderEventCard (evt : jsval) : outcome jsstring jsstring :=
  match evt with
  | VUndef | VNull => Throw (js "Cannot read properties of null or undefined")
  | _ => Ret (fill (event_pieces evt))
  end.

(** [events.map(renderEventCard).join('')] *)
Fixpoint render_all {A} (f : A -> outcome jsstring jsstring) (l : list A) : outcome jsstring jsstring :=
  match l with
  | [] => Ret []
  | x :: r => (let* h := f x in let* t := render_all f r in Ret (h ++ t))%js
  end.

Definition empty_timeline (l : lang) : list piece :=
  [Lit (jsq "<div style=`padding: 2rem; color: var(--text-muted); text-align: center; font-size: 0.9rem;`>");
     Lit (t_ l (js "emptyTimeline"));
     Lit (js "</div>")].

(** [renderTimeline(container)]: what it assigns to [innerHTML]. *)
Definition renderTimeline (l : lang) (events : list jsval) : outcome jsstring jsstring :=
  match events with
  | [] => Ret (fill (empty_timeline l))
  | _ => render_all renderEventCard events
  end.

(** ** Sidebar *)

Inductive tab : Type := TabActive | TabPinned | TabArchived.

Definition is_true (v : jsval) : bool := match v with VBool true => true | _ => false end.

(** A method of strings on a value: a [TypeError] on anything else. *)
Definition string_of (v : jsval) : outcome jsstring jsstring :=
  match v with VStr s => Ret s | _ => Throw (js "is not a function") end.

(** The filter of [renderSessionList] *)
Definition session_shown (t : tab) (query : jsstring) (s : jsval) : outcome jsstring bool :=
  (let* text := string_of (vor (prop s (js "title")) (vor (prop s (js "session_id")) (VStr []))) in
   Ret (if truthy query && negb (includes query (toLowerCase text)) then false
        else match t with
             | TabPinned => is_true (prop s (js "pinned"))
             | TabArchived => is_true (prop s (js "archived"))
             | TabActive => negb (vtruthy (prop s (js "archived")))
             end))%js.

Fixpoint filter_sessions (t : tab) (query : jsstring) (l : list jsval) : outcome jsstring (list jsval) :=
  match l with
  | [] => Ret []
  | s :: r =>
      (let* b := match s with VUndef | VNull => Throw (js "TypeError") | _ => session_shown t query s end in
       let* rest := filter_sessions t query r in
       Ret (if b then s :: rest else rest))%js
  end.

(** A session card; [lowered] and [uppered] are the status in lower and upper case. *)
Definition session_pieces (isActive : bool) (lowered uppered : jsstring) (s : jsval) : list piece :=
    [Lit (jsq "
        <div class=`sidebar-session-item session-card ");
     Hole (if isActive then js "active" else []);
     Lit (jsq "` data-id=`");
     Hole (to_str show_frac (prop s (js "session_id")));
     Lit (jsq "` onclick=`typeof selectSession === 'function' ? selectSession('");
     Hole (to_str show_frac (prop s (js "session_id")));
     Lit (js "') : AgentApp.selectSession('");
     Hole (to_str show_frac (prop s (js "session_id")));
     Lit (jsq "')`>
          <div style=`display: flex; justify-content: space-between; align-items: flex-start; gap: 0.5rem;`>
            <span class=`session-item-title session-title`>");
     Hole (esc (vor (prop s (js "title")) (prop s (js "session_id"))));
     Lit (jsq "</span>
            <span class=`status-badge ");
     Hole (js "status-" ++ lowered);
     Lit (jsq "`>");
     Hole uppered;
     Lit (jsq "</span>
          </div>
          <div class=`session-meta` style=`display: flex; gap: 0.35rem; font-size: 0.7rem; color: var(--studio-text-tertiary, #94a3b8);`>
            <span>");
     Hole (esc (vor (prop s (js "model")) (VStr (js "auto"))));
     Lit (js "</span>
            <span>·</span>
            <span>");
     Hole (formatTime (prop s (js "created_at")));
     Lit (js "</span>
          </div>
        </div>
      ")].

Definition session_card (activeSessionId s : jsval) : outcome jsstring jsstring :=
  (let* a := string_of (vor (prop s (js "status")) (VStr (js "ready"))) in
   let* b := string_of (vor (prop s (js "status")) (VStr (js "READY"))) in
   Ret (fill (session_pieces (strict_eq (prop s (js "session_id")) activeSessionId) (toLowerCase a) (toUpperCase b) s)))%js.

Definition empty_sessions (l : lang) : list piece :=
  [Lit (jsq "<div style=`padding: 1.5rem; color: var(--text-muted); font-size: 0.85rem; text-align: center;`>");
     Lit (t_ l (js "emptySessions"));
     Lit (js "</div>")].

(** [renderSessionList(container)] *)
Definition renderSessionList (l : lang) (t : tab) (search : option jsstring) (activeSessionId : jsval)
    (sessions : list jsval) : outcome jsstring jsstring :=
  let query := match search with Some v => toLowerCase v | None => [] end in
  (let* shown := filter_sessions t query sessions in
   match shown with
   | [] => Ret (fill (empty_sessions l))
   | _ => render_all (session_card activeSessionId) shown
   end)%js.

Definition no_nodes : list piece :=
  [Lit (jsq "
        <div class=`node-pill-status`>
          <span class=`status-indicator-dot online`></span>
          <span class=`node-name-label`>mifcom (cm-win-mifcom-rtx3080)</span>
        </div>
      ")].

Definition option_pieces (activeNodeId n : jsval) : list piece :=
  [Lit (jsq "
          <option value=`");
     Hole (esc (prop n (js "node_id")));
     Lit (jsq "` ");
     Lit (if strict_eq (prop n (js "node_id")) activeNodeId then js "selected" else []);
     Lit (js ">
            ");
     Hole (esc (vor (prop n (js "display_name")) (vor (prop n (js "node_name")) (prop n (js "node_id")))));
     Lit (js " ");
     Hole (if vtruthy (prop n (js "is_online")) then js "(Online)" else []);
     Lit (js "
          </option>
        ")].

(** [renderNodeSelector(container)] of nodes that are not [null] *)
Definition renderNodeSelector (activeNodeId : jsval) (nodes : list jsval) : list piece :=
  match nodes with
  | [] => no_nodes
  | _ => [Lit (jsq "
      <select class=`node-select-dropdown` onchange=`typeof selectNode === 'function' ? selectNode(this.value) : (AgentState.state.activeNodeId = this.value)`>
        ")]
         ++ (nodes ≫= option_pieces activeNodeId)
         ++ [Lit (js "
      </select>
    ")]
  end.

Definition no_workspaces : list piece :=
  [Lit (jsq "<div style=`padding: 1rem; color: var(--text-muted); font-size: 0.82rem; text-align: center;`>Keine Projekte auf Node registriert.</div>")].

Definition branch_pieces (w : jsval) : list piece :=
  if vtruthy (prop w (js "git_branch")) then
    [Lit (jsq "<span class=`project-branch-tag`>");
     Hole (esc (prop w (js "git_branch")));
     Lit (js "</span>")]
  else [].

Definition workspace_pieces (activeWorkspaceId w : jsval) : list piece :=
  let isActive := strict_eq (prop w (js "id")) activeWorkspaceId in
    [Lit (jsq "
        <div class=`sidebar-project-item ");
     Hole (if isActive then js "active" else []);
     Lit (jsq "` data-id=`");
     Hole (esc (prop w (js "id")));
     Lit (jsq "` onclick=`typeof selectWorkspace === 'function' ? selectWorkspace('");
     Hole (esc (prop w (js "id")));
     Lit (js "') : (AgentState.state.activeWorkspaceId = '");
     Hole (esc (prop w (js "id")));
     Lit (jsq "')`>
          <span class=`project-item-icon`>📁</span>
          <span class=`project-item-name` title=`");
     Hole (esc (prop w (js "path")));
     Lit (jsq "`>");
     Hole (esc (vor (prop w (js "name")) (prop w (js "id"))));
     Lit (js "</span>
          ")]
    ++ branch_pieces w ++ [Lit (js "
        </div>
      ")].

(** [renderWorkspacesList(container)] of workspaces that are not [null] *)
Definition renderWorkspacesList (activeWorkspaceId : jsval) (workspaces : list jsval) : list piece :=
  match workspaces with [] => no_workspaces | _ => workspaces ≫= workspace_pieces activeWorkspaceId end.

(** ** Inspector *)

Definition plan_step (idx : nat) (step : jsval) : list piece :=
  [Lit (jsq "
          <div class=`plan-step ");
     Hole (if vtruthy (prop step (js "completed")) then js "completed" else if vtruthy (prop step (js "active")) then js "active" else []);
     Lit (jsq "`>
            <span>");
     Hole (show_N (N.of_nat (S idx)));
     Lit (js ".</span>
            <span>");
     Hole (esc (vor (prop step (js "title")) (vor (prop step (js "description")) step)));
     Lit (js "</span>
          </div>
        ")].

Definition no_plan : list piece := [Lit (jsq "<span style=`color: var(--text-muted); font-size: 0.8rem;`>Kein Plan aktiv</span>")].

(** The plan of a session; steps that are not [null] *)
Definition plan_of (sess : jsval) : list jsval :=
  array_or_nil (vor (prop sess (js "plan"))
    (vor (prop (prop sess (js "metadata")) (js "plan")) (VArr []))).

Definition plan_pieces (sess : jsval) : list piece :=
  match plan_of sess with [] => no_plan | l => concat (imap plan_step l) end.

(** An artifact; [ref] is its encoded reference. *)
Definition artifact_pieces (ref : jsstring) (art : jsval) : list piece :=
  [Lit (jsq "
          <div class=`artifact-item`>
            <span class=`artifact-name`>");
     Hole (esc (vor (prop art (js "name")) (prop art (js "ref_id"))));
     Lit (jsq "</span>
            <a href=`/v1/agents/artifacts/");
     Hole ref;
     Lit (jsq "` download=`");
     Hole (esc (vor (prop art (js "name")) (VStr (js "artifact"))));
     Lit (jsq "` class=`btn btn-secondary btn-xs`>Download</a>
          </div>
        ")].

Definition no_artifacts : list piece := [Lit (jsq "<span style=`color: var(--text-muted); font-size: 0.8rem;`>Keine Artefakte erzeugt</span>")].

Definition metrics_pieces (tokens uppered created : jsstring) : list piece :=
  [Lit (jsq "
        <div class=`metric-row`><span>Tokens verwendet:</span><strong>");
     Hole tokens;
     Lit (jsq "</strong></div>
        <div class=`metric-row`><span>Status:</span><strong>");
     Hole uppered;
     Lit (jsq "</strong></div>
        <div class=`metric-row`><span>Erstellt:</span><span>");
     Hole created;
     Lit (js "</span></div>
      ")].

(** ** Safety of the timeline *)

Lemma esc_quiet k v : k = InText \/ k = InDouble -> quiet k (esc v).
Proof. apply escape4_quiet. Qed.

(** What the templates insert without escaping. *)
Definition plain_event (evt : jsval) : Prop :=
  60%N ∉ seq_text evt /\ (kind_of evt = KApproval -> 34%N ∉ approvalId evt).

Ltac view_hole :=
  match goal with
  | |- quiet _ (esc _) => apply esc_quiet; auto
  | |- quiet _ (escape4 _) => apply escape4_quiet; auto
  | |- quiet _ (js _) => cbn [quiet]; plain_lit
  | |- quiet _ [] => apply quiet_nil
  | H : _ |- quiet _ (seq_text _) => exact H
  | |- quiet _ (if ?b then _ else _) => destruct b; view_hole
  end.

Lemma event_holes evt : plain_event evt -> holes_ok InText (event_pieces evt).
Proof.
  intros [Hs Ha]. unfold event_pieces. cbv zeta. destruct (kind_of evt) eqn:E; template_ok; try view_hole;
    exact (Ha eq_refl).
Qed.

Lemma blank_event evt evt' : kind_of evt = kind_of evt' -> blank <$> event_pieces evt = blank <$> event_pieces evt'.
Proof. intros E. unfold event_pieces. cbv zeta. rewrite E. by destruct (kind_of evt'). Qed.

(** The markup of an event's card is decided by its kind alone: prompts, replies, tool
    names and arguments, tool output, diffs and payloads add no element and no attribute,
    as long as the sequence number and the approval identifier, which are inserted as they
    are, hold no angle bracket and no quotation mark. *)
Theorem event_card_markup evt evt' :
  kind_of evt = kind_of evt' -> plain_event evt -> plain_event evt' ->
  skeleton InText (fill (event_pieces evt)) = skeleton InText (fill (event_pieces evt'))
  /\ scan InText (fill (event_pieces evt)) = InText.
Proof.
  intros E H H'. destruct (fill_skeleton _ _ (event_holes evt H)) as [S1 S2].
  destruct (fill_skeleton _ _ (event_holes evt' H')) as [S3 _].
  rewrite S1, S2, S3, (blank_event evt evt' E). split; [done|].
  unfold event_pieces. cbv zeta. by destruct (kind_of evt').
Qed.

(** Rendering cannot fail on the events the workspace holds. *)
Lemma render_all_ret {A} (f : A -> outcome jsstring jsstring) l :
  Forall (fun x => exists h, f x = Ret h) l -> exists h, render_all f l = Ret h.
Proof.
  induction 1 as [|x l [h Hx] _ [t Ht]]; [by eexists|]. cbn. rewrite Hx. cbn. rewrite Ht. by eexists.
Qed.

(** In no run of the workspace, whatever the gateway answers, does rendering the timeline
    throw: entries that could make it are dropped with their page when they arrive. *)
Theorem timeline_never_throws l es :
  exists html, renderTimeline l (events (st (exec state0 es))) = Ret html.
Proof.
  pose proof (events_not_null state0 es (Forall_nil_2 _)) as H.
  destruct (events (st (exec state0 es))) as [|e r]; [by eexists|].
  apply render_all_ret. eapply Forall_impl; [exact H|]. intros evt Hn. unfold renderEventCard.
  destruct evt; try done; by eexists.
Qed.

(** ** Safety of the sidebar *)

Lemma workspace_holes a w : holes_ok InText (workspace_pieces a w).
Proof.
  unfold workspace_pieces, branch_pieces. cbv zeta.
  destruct (vtruthy (prop w (js "git_branch"))); cbn [app]; template_ok; view_hole.
Qed.

Lemma blank_workspace a a' w w' :
  vtruthy (prop w (js "git_branch")) = vtruthy (prop w' (js "git_branch")) ->
  blank <$> workspace_pieces a w = blank <$> workspace_pieces a' w'.
Proof.
  intros E. unfold workspace_pieces, branch_pieces. cbv zeta. rewrite E. by destruct (vtruthy (prop w' (js "git_branch"))).
Qed.

(** The markup of a project's entry depends only on whether the project has a branch:
    names, paths, branches and identifiers that a node registers cannot change it. *)
Theorem workspace_markup a a' w w' :
  vtruthy (prop w (js "git_branch")) = vtruthy (prop w' (js "git_branch")) ->
  skeleton InText (fill (workspace_pieces a w)) = skeleton InText (fill (workspace_pieces a' w')).
Proof.
  intros E. rewrite (proj1 (fill_skeleton _ _ (workspace_holes a w))).
  rewrite (proj1 (fill_skeleton _ _ (workspace_holes a' w'))). by rewrite (blank_workspace a a' w w' E).
Qed.

(** With an empty search, a session whose [archived] is a boolean is on exactly one of the
    tabs of active and archived sessions. *)
Theorem session_tabs_partition s b :
  prop s (js "archived") = VBool b -> is_string (vor (prop s (js "title")) (vor (prop s (js "session_id")) (VStr []))) = true ->
  session_shown TabActive [] s = Ret (negb b) /\ session_shown TabArchived [] s = Ret b.
Proof.
  intros E Hs. unfold session_shown. rewrite E.
  destruct (vor (prop s (js "title")) _); try done. cbn. by destruct b.
Qed.

End Views.

(** ** Concrete inputs *)

Definition frac0 (q : Q) : jsstring := [].

Definition evil_event : jsval :=
  VObj [(js "type", VStr (js "tool_result")); (js "sequence", VNum (num_Z 7));
        (js "payload", VObj [(js "output", VStr (jsq "</pre><script>alert(`1`)</script>"))])].
Definition calm_event : jsval :=
  VObj [(js "event_type", VStr (js "tool_result")); (js "data", VObj [(js "result", VStr (js "ok"))])].

Lemma event_card_markup_witness :
  skeleton InText (fill (event_pieces frac0 evil_event)) = skeleton InText (fill (event_pieces frac0 calm_event)).
Proof.
  apply (event_card_markup frac0); [vm_compute; reflexivity|split; [plain_lit|vm_compute; discriminate]..].
Defined.

Lemma workspace_markup_witness :
  let w := VObj [(js "id", VStr (js "w")); (js "name", VStr (jsq "`><b>"))] in
  let w' := VObj [(js "id", VStr (js "v"))] in
  skeleton InText (fill (workspace_pieces frac0 VNull w)) = skeleton InText (fill (workspace_pieces frac0 VNull w')).
Proof. intros w w'. apply workspace_markup. reflexivity. Defined.

(** The sequence number of an event is inserted as HTML: a string in its place becomes
    markup of the page. *)
Theorem event_sequence_is_html :
  let evt := VObj [(js "type", VStr (js "user_message")); (js "sequence", VStr (js "<script src=//e></script>"))] in
  includes (js "<script src=//e>") (skeleton InText (fill (event_pieces frac0 evt))) = true.
Proof. vm_compute. reflexivity. Qed.

(** The approval identifier is inserted into a script: an apostrophe in it ends the
    argument of [handleApproval] and what follows runs when the user decides. *)
Theorem approval_id_is_script :
  let evt := VObj [(js "type", VStr (js "approval_requested")); (js "approval_id", VStr (js "x');steal('y"))] in
  includes (jsq "onclick=`AgentApp.handleApproval('x');steal('y', 'reject')`") (fill (event_pieces frac0 evt)) = true.
Proof. vm_compute. reflexivity. Qed.

(** The identifier of a session is inserted into attributes as it is: a quotation mark in it
    adds an attribute. *)
Theorem session_id_breaks_attribute :
  let s := VObj [(js "session_id", VStr (jsq "a` onmouseover=`steal()"))] in
  includes (jsq "onmouseover=`") (skeleton InText (fill (session_pieces frac0 (fun _ => []) false (js "ready") (js "READY") s))) = true.
Proof. vm_compute. reflexivity. Qed.
