(* ===== verification/AgentInspector.v ===== *)
(** * The inspector of the agent workspace (inspector.js)

    [renderInspector] as a whole: it writes the goal, the plan, the artifacts and the
    metrics one after the other, each into an element that a page may lack, and an exception
    in between leaves the later ones as they were.  The templates are in [AgentViews.v]. *)
From Stdlib Require Import Lia NArith ZArith QArith.
From stdpp Require Import base numbers list gmap strings.
From S2P Require Import Prelude JsString JsNumber JsValue JsJson Html I18n Auth AgentState AgentViews.

Section Inspector.
(** [value.toLocaleString()], [new Date(value).toLocaleString()] with [Date.now()] for a
    missing value, [toUpperCase]. *)
Context (show_frac : Q -> jsstring) (toLocaleString showDate : jsval -> jsstring) (toUpperCase : jsstring -> jsstring).

(** The content of the four elements; [None] for one that the page lacks. *)
Record panels := Panels { goal : option jsstring; plan : option jsstring; arts : option jsstring; metrics : option jsstring }.

Definition nil_value (v : jsval) : bool := match v with VUndef | VNull => true | _ => false end.

(** [activeSession.goal || activeSession.title || '…'] *)
Definition goal_text (sess : jsval) : jsstring :=
  to_str show_frac (vor (prop sess (js "goal")) (vor (prop sess (js "title")) (VStr (js "Kein explizites Ziel hinterlegt")))).

(** The plan; a step that is [null] has no properties. *)
Definition plan_html (sess : jsval) : outcome jsstring jsstring :=
  if existsb nil_value (plan_of sess) then Throw (js "TypeError") else Ret (fill (plan_pieces show_frac sess)).

Definition artifact_html (art : jsval) : outcome jsstring jsstring :=
  if nil_value art then Throw (js "TypeError")
  else match encodeURIComponent (to_str show_frac (prop art (js "ref_id"))) with
       | Some ref => Ret (fill (artifact_pieces show_frac ref art))
       | None => Throw (js "URIError")
       end.

Definition artifacts_html (l : list jsval) : outcome jsstring jsstring :=
  match l with [] => Ret (fill no_artifacts) | _ => render_all artifact_html l end.

(** [(activeSession.usage && activeSession.usage.total_tokens) || activeSession.tokens_used || 0] *)
Definition tokens_of (sess : jsval) : jsval :=
  let usage := prop sess (js "usage") in
  vor (if vtruthy usage then prop usage (js "total_tokens") else usage) (vor (prop sess (js "tokens_used")) (VNum (num_Z 0))).

Definition metrics_html (sess : jsval) : outcome jsstring jsstring :=
  match string_of (vor (prop sess (js "status")) (VStr (js "READY"))) with
  | Ret status => Ret (fill (metrics_pieces (toLocaleString (tokens_of sess)) (toUpperCase status) (showDate (prop sess (js "created_at")))))
  | Throw e => Throw e
  end.

(** An element is written, unless it is missing; the code for a missing one does not run. *)
Definition write (html : outcome jsstring jsstring) (el : option jsstring) : outcome jsstring (option jsstring) :=
  match el with
  | None => Ret None
  | Some _ => match html with Ret h => Ret (Some h) | Throw e => Throw e end
  end.

(** [renderInspector()]: the elements, and the exception that ended it. *)
Definition renderInspector (activeSession : jsval) (artifacts : list jsval) (p : panels) : panels * option jsstring :=
  if negb (vtruthy activeSession) then (p, None)
  else
    let p1 := Panels ((fun _ => goal_text activeSession) <$> goal p) (plan p) (arts p) (metrics p) in
    match write (plan_html activeSession) (plan p1) with
    | Throw e => (p1, Some e)
    | Ret h =>
        let p2 := Panels (goal p1) h (arts p1) (metrics p1) in
        match write (artifacts_html artifacts) (arts p2) with
        | Throw e => (p2, Some e)
        | Ret h =>
            let p3 := Panels (goal p2) (plan p2) h (metrics p2) in
            match write (metrics_html activeSession) (metrics p3) with
            | Throw e => (p3, Some e)
            | Ret h => (Panels (goal p3) (plan p3) (arts p3) h, None)
            end
        end
    end.

(** ** What it shows *)

Definition encodes (art : jsval) : bool :=
  negb (nil_value art) && match encodeURIComponent (to_str show_frac (prop art (js "ref_id"))) with Some _ => true | None => false end.

Lemma artifacts_ret l : forallb encodes l = true ->
  artifacts_html l = Ret (match l with [] => fill no_artifacts | _ =>
    concat ((fun a => fill (artifact_pieces show_frac (default [] (encodeURIComponent (to_str show_frac (prop a (js "ref_id"))))) a)) <$> l) end).
Proof.
  intros H. unfold artifacts_html. destruct l as [|a l]; [done|]. revert H. generalize (a :: l) as k. intros k H.
  induction k as [|x k IH]; [done|]. cbn [forallb] in H. apply andb_true_iff in H as [Hx Hk]. cbn [render_all fmap list_fmap concat].
  unfold encodes in Hx. apply andb_true_iff in Hx as [Hn He]. apply negb_true_iff in Hn. unfold artifact_html at 1. rewrite Hn.
  destruct (encodeURIComponent _) as [ref|]; [|done]. cbn. by rewrite (IH Hk).
Qed.

(** A session whose plan has no empty step and whose status is a text is shown completely:
    goal, plan, every artifact in order and the metrics, in each element the page has; and
    what was shown before has no influence. *)
Theorem inspector_shows_the_session sess artifacts p :
  vtruthy sess = true -> existsb nil_value (plan_of sess) = false -> forallb encodes artifacts = true ->
  is_string (vor (prop sess (js "status")) (VStr (js "READY"))) = true ->
  exists h1 h2 h3, plan_html sess = Ret h1 /\ artifacts_html artifacts = Ret h2 /\ metrics_html sess = Ret h3 /\
  renderInspector sess artifacts p
  = (Panels ((fun _ => goal_text sess) <$> goal p) ((fun _ => h1) <$> plan p) ((fun _ => h2) <$> arts p) ((fun _ => h3) <$> metrics p), None).
Proof.
  intros Ht Hp Ha Hs. assert (E1 : plan_html sess = Ret (fill (plan_pieces show_frac sess))) by (unfold plan_html; by rewrite Hp).
  pose proof (artifacts_ret artifacts Ha) as E2.
  assert (E3 : exists h3, metrics_html sess = Ret h3).
  { unfold metrics_html. destruct (vor (prop sess (js "status")) _); try done. by eexists. }
  destruct E3 as [h3 E3]. do 3 eexists. split_and!; [exact E1|exact E2|exact E3|].
  unfold renderInspector. rewrite Ht, E1, E2, E3. cbn [negb goal plan arts metrics].
  destruct p as [[|] [|] [|] [|]]; reflexivity.
Qed.

(** An exception leaves everything after it as the previous session had it: an artifact
    that cannot be shown keeps the artifacts and the metrics of the session before. *)
Theorem failed_artifact_keeps_the_old_metrics sess artifacts p :
  vtruthy sess = true -> existsb nil_value (plan_of sess) = false -> arts p <> None -> existsb nil_value artifacts = true ->
  exists e, let '(p', err) := renderInspector sess artifacts p in
    err = Some e /\ arts p' = arts p /\ metrics p' = metrics p /\ goal p' = (fun _ => goal_text sess) <$> goal p.
Proof.
  intros Ht Hp Hel Ha. assert (E1 : plan_html sess = Ret (fill (plan_pieces show_frac sess))) by (unfold plan_html; by rewrite Hp).
  assert (E2 : exists e, artifacts_html artifacts = Throw e).
  { unfold artifacts_html. destruct artifacts as [|a l]; [done|]. revert Ha. generalize (a :: l) as k. intros k.
    induction k as [|x k IH]; [done|]. cbn [existsb render_all]. unfold artifact_html at 1. destruct (nil_value x); [by eexists|].
    intros Hk. destruct (IH Hk) as [e He]. destruct (encodeURIComponent _); [|by eexists]. cbn. rewrite He. by eexists. }
  destruct E2 as [e E2]. exists e. unfold renderInspector. rewrite Ht, E1, E2. cbn [negb goal plan arts metrics].
  destruct p as [g pl [ar|] me]; [|done]. cbn [write plan arts goal metrics]. by destruct pl.
Qed.

(** ** Markup *)

Lemma pct_quiet c : 34%N ∉ pct c.
Proof.
  assert (H : forall d, 34%N <> hex_upper d) by (intros d; unfold hex_upper; destruct (d <? 10)%N; lia).
  unfold pct. rewrite !not_elem_of_cons. split_and!; [done|apply H..|apply not_elem_of_nil].
Qed.

Lemma encoded_quiet s e : encodeURIComponent s = Some e -> 34%N ∉ e.
Proof.
  revert e. remember (length s) as n eqn:En. revert s En. induction n as [n IH] using lt_wf_ind. intros [|c r] -> e; cbn [encodeURIComponent].
  { intros [= <-]. apply not_elem_of_nil. }
  assert (Hr : forall e, encodeURIComponent r = Some e -> 34%N ∉ e) by (intros e'; apply (IH (length r)); cbn; auto; lia).
  pose proof pct_quiet as Hpct.
  destruct (c <? 128)%N.
  { destruct (encodeURIComponent r) as [t|]; [|done]. intros <-%(inj Some). rewrite elem_of_app. intros [H|H]; [|by apply (Hr t)].
    destruct (uri_unreserved c) eqn:E; [|by apply Hpct in H]. apply list_elem_of_singleton in H. subst. done. }
  destruct (c <? 2048)%N.
  { destruct (encodeURIComponent r) as [t|]; [|done]. intros <-%(inj Some). rewrite !elem_of_app. intros [H|[H|H]]; [by apply Hpct in H..|by apply (Hr t)]. }
  destruct (high_surrogate c).
  - destruct r as [|d r']; [done|]. destruct (low_surrogate d); [|done].
    destruct (encodeURIComponent r') as [t|] eqn:Et; [|done]. intros <-%(inj Some). rewrite !elem_of_app.
    intros [H|[H|[H|[H|H]]]]; [by apply Hpct in H..|]. apply (IH (length r') ltac:(cbn; lia) r' eq_refl t Et H).
  - destruct (low_surrogate c); [done|]. destruct (encodeURIComponent r) as [t|]; [|done]. intros <-%(inj Some). rewrite !elem_of_app.
    intros [H|[H|[H|H]]]; [by apply Hpct in H..|by apply (Hr t)].
Qed.

Lemma ret_inj {E A} (x y : A) : @Ret E A x = Ret y -> x = y.
Proof. congruence. Qed.

(** Names and references of artifacts cannot change the markup of their entries: it is the
    same for all artifacts, and leaves the following entry outside of tags. *)
Theorem artifact_markup a a' ha ha' : artifact_html a = Ret ha -> artifact_html a' = Ret ha' ->
  skeleton InText ha = skeleton InText ha' /\ scan InText ha = InText.
Proof.
  assert (G : forall a h, artifact_html a = Ret h -> skeleton InText h = skeleton InText (fill (blank <$> artifact_pieces show_frac [] VNull)) /\ scan InText h = InText).
  { intros x h. unfold artifact_html. destruct (nil_value x); [done|]. destruct (encodeURIComponent _) as [ref|] eqn:E; [|done].
    intros <-%ret_inj. assert (Hh : holes_ok InText (artifact_pieces show_frac ref x)).
    { unfold artifact_pieces. template_ok; first [apply esc_quiet; by auto|exact (encoded_quiet _ _ E)]. }
    destruct (fill_skeleton _ _ Hh) as [-> ->]. done. }
  intros H H'. destruct (G _ _ H) as [-> ->]. by destruct (G _ _ H') as [-> _].
Qed.

End Inspector.

(** ** Concrete sessions *)

Definition sample_session : jsval :=
  VObj [(js "title", VStr (js "Build")); (js "status", VStr (js "running"));
        (js "plan", VArr [VObj [(js "title", VStr (js "compile")); (js "completed", VBool true)]; VStr (js "test")])].
Definition sample_artifact : jsval := VObj [(js "ref_id", VStr (js "a/1")); (js "name", VStr (jsq "`><b>"))].

Lemma inspector_shows_the_session_witness :
  exists h1 h2 h3, plan_html frac0 sample_session = Ret h1 /\ artifacts_html frac0 [sample_artifact] = Ret h2 /\
  metrics_html (fun _ => []) (fun _ => []) id sample_session = Ret h3 /\
  renderInspector frac0 (fun _ => []) (fun _ => []) id sample_session [sample_artifact] (Panels (Some []) (Some []) None (Some []))
  = (Panels (Some (js "Build")) (Some h1) None (Some h3), None).
Proof. apply (inspector_shows_the_session frac0 (fun _ => []) (fun _ => []) id sample_session [sample_artifact]); vm_compute; reflexivity. Defined.

Lemma failed_artifact_keeps_the_old_metrics_witness :
  exists e, let '(p', err) := renderInspector frac0 (fun _ => []) (fun _ => []) id sample_session [VNull]
      (Panels (Some []) (Some []) (Some (js "old")) (Some (js "old"))) in
    err = Some e /\ arts p' = Some (js "old") /\ metrics p' = Some (js "old") /\ goal p' = Some (js "Build").
Proof.
  apply (failed_artifact_keeps_the_old_metrics frac0 (fun _ => []) (fun _ => []) id sample_session [VNull]
    (Panels (Some []) (Some []) (Some (js "old")) (Some (js "old")))); done.
Defined.

Lemma artifact_markup_witness : exists h h', artifact_html frac0 sample_artifact = Ret h /\
  artifact_html frac0 (VObj [(js "ref_id", VStr (js "b"))]) = Ret h' /\ skeleton InText h = skeleton InText h'.
Proof.
  eexists _, _. split; [reflexivity|]. split; [reflexivity|].
  exact (proj1 (artifact_markup frac0 sample_artifact (VObj [(js "ref_id", VStr (js "b"))]) _ _ eq_refl eq_refl)).
Defined.

(** The status of a session is inserted as HTML, in upper case. *)
Example session_status_is_html :
  let sess := VObj [(js "status", VStr (js "<IMG SRC=X>"))] in
  match metrics_html (fun _ => []) (fun _ => []) id sess with
  | Ret h => includes (js "<IMG SRC=X>") (skeleton InText h)
  | Throw _ => false
  end = true.
Proof. vm_compute. reflexivity. Qed.
