(* ===== verification/Handover.v ===== *)
(** * Identifiers handed from page to page

    The agent button of the model selector (webui/model-selector.js) puts the session and
    the model into the address it leaves for, [/agent].  The other address that carries an
    identifier, the one of the registration, is in PortalStart. *)
From Stdlib Require Import Lia NArith ZArith QArith.
From stdpp Require Import base numbers list gmap strings.
From S2P Require Import Prelude JsString JsNumber JsValue JsJson JsonRoundTrip I18n Auth UriRoundTrip Registration SnippetTables Snippets SelectorStore ModelInfo.

Section Handover.
Context (show_frac : Q -> jsstring) (lossy : jsstring -> jsstring).

(** [location.search] of the page an address leads to. *)
Definition search_of (target : jsstring) : jsstring := apos (63%N :: (cut 63 target).2).

(** ** The agent button *)

(** What a click does: it toggles the panel, or leaves the page. *)
Inductive click_result : Type := TogglePanel | Leave (target : jsstring) | ClickThrows.

(** The listener of the agent button; [model] is the identifier of the selected model. *)
Definition agent_click (local : area) (sessionId : jsstring) (model : option jsval) : click_result :=
  if is_one (js "cm_use_legacy_agent_popup") local then TogglePanel
  else
    match (if truthy sessionId then app (js "?session_id=") <$> encodeURIComponent sessionId else Some []) with
    | None => ClickThrows
    | Some session =>
        match model with
        | Some m =>
            if vtruthy m then
              match encodeURIComponent (to_str show_frac m) with
              | Some e => Leave (js "/agent" ++ session ++ js (if truthy sessionId then "&" else "?") ++ js "model=" ++ e)
              | None => ClickThrows
              end
            else Leave (js "/agent" ++ session)
        | None => Leave (js "/agent" ++ session)
        end
    end.

(** The address of a click, for texts that [encodeURIComponent] takes. *)
Lemma agent_click_address local sessionId m target :
  code_units sessionId -> well_formed sessionId = true -> truthy sessionId = true ->
  code_units m -> well_formed m = true -> truthy m = true ->
  agent_click local sessionId (Some (VStr m)) = Leave target ->
  exists e em, target = js "/agent?session_id=" ++ e ++ js "&model=" ++ em /\
    decodeURIComponent (apos e) = Some sessionId /\ decodeURIComponent (apos em) = Some m /\
    Forall (fun c => uri_char c = true) (apos e) /\ Forall (fun c => uri_char c = true) (apos em).
Proof.
  intros Hu Hw Ht Hu' Hw' Ht' Hc.
  destruct (uri_round_trip sessionId Hu Hw) as (e & He & _ & Hd & Hs & _).
  destruct (uri_round_trip m Hu' Hw') as (em & Hem & _ & Hdm & Hsm & _).
  unfold agent_click in Hc. destruct (is_one _ local); [done|]. rewrite Ht, He in Hc.
  cbn [fmap option_fmap option_map vtruthy to_str] in Hc. rewrite Ht', Hem in Hc. injection Hc as <-.
  exists e, em. split; [reflexivity|done].
Qed.

(** The address the agent button leaves for names the chosen session and the selected
    model: a page that reads the two parameters gets back the very identifiers, whatever
    characters they hold.  agent.html, the page behind [/agent], reads neither. *)
Theorem agent_button_names_the_session local sessionId m target :
  code_units sessionId -> well_formed sessionId = true -> truthy sessionId = true ->
  code_units m -> well_formed m = true -> truthy m = true ->
  agent_click local sessionId (Some (VStr m)) = Leave target ->
  let ps := search_params lossy (search_of target) in
  get_param (js "session_id") ps = Some sessionId /\ get_param (js "model") ps = Some m.
Proof.
  intros Hu Hw Ht Hu' Hw' Ht' Hc.
  destruct (agent_click_address _ _ _ _ Hu Hw Ht Hu' Hw' Ht' Hc) as (e & em & -> & Hd & Hdm & Hs & Hsm).
  assert (E : search_of (js "/agent?session_id=" ++ e ++ js "&model=" ++ em)
    = 63%N :: js "session_id" ++ 61%N :: apos e ++ 38%N :: js "model" ++ 61%N :: apos em ++ []).
  { unfold search_of. change (js "/agent?session_id=" ++ e ++ js "&model=" ++ em)
      with (js "/agent" ++ 63%N :: js "session_id=" ++ e ++ js "&model=" ++ em).
    change (cut 63 (js "/agent" ++ 63%N :: js "session_id=" ++ e ++ js "&model=" ++ em)).2
      with (js "session_id=" ++ e ++ js "&model=" ++ em).
    change (63%N :: js "session_id=" ++ e ++ js "&model=" ++ em) with (js "?session_id=" ++ e ++ js "&model=" ++ em).
    rewrite !apos_app, app_nil_r. reflexivity. }
  rewrite E, (params_cons lossy (js "session_id") _ sessionId) by (done || (right; by eexists)).
  change (drop 1 (38%N :: js "model" ++ 61%N :: apos em ++ [])) with (js "model" ++ 61%N :: apos em ++ []).
  rewrite (params_cons lossy (js "model") _ m) by (done || by left).
  split; [reflexivity|]. reflexivity.
Qed.
End Handover.

Definition odd_session : jsstring := js "s/1?a=b&c='ü 🚀".

Example agent_button_odd_session :
  agent_click (fun _ => []) (Area true false ∅) odd_session (Some (VStr (js "qwen2.5:7b")))
  = Leave (js "/agent?session_id=s%2F1%3Fa%3Db%26c%3D'%C3%BC%20%F0%9F%9A%80&model=qwen2.5%3A7b").
Proof. vm_compute. reflexivity. Qed.
