(* ===== verification/PortalStart.v ===== *)
(** * The start of a portal page (portal.js, portal-core.js)

    [initPortal] of portal-core.js runs when the document is parsed, [setupModalHooks] of
    portal.js when portal-core.js is loaded; which comes first depends on the page and on
    the network.  The two act on the page of Snippets (registration dialog, samples), the
    deposit dialog of Checkout and the language of I18n.  The requests that [initPortal]
    starts (prices, telemetry, models, marketplace) are only noted here. *)
From Stdlib Require Import Lia NArith ZArith QArith.
From stdpp Require Import base numbers list gmap strings.
From S2P Require Import Prelude JsString JsNumber JsValue JsJson Checkout Dom I18nTables I18n PageText Auth UriRoundTrip Registration SnippetTables Snippets Handover.

(** ** State *)

(** What [initPortal] calls and this file does not follow. *)
Inductive call : Type :=
| InitHeader | PlainChrome | LivePricing | MeshTelemetry | ModelCatalog | MarketplaceData
| Every (c : call) (ms : Z).

(** [notice]: [None] on a page without the playground, else the notice of the playground;
    [vision]: the label of the menu's entry for the vision model; [wrapped]: the hooks are
    set, which are the wrapper of [openModal], the listener of the role's menu (event [Sync]
    of Registration) and [compliantRegistration] as the handler of the form. *)
Record data := Data {
  initialized : bool;
  wrapped : bool;
  words : I18n.page;
  form : Snippets.page;
  deposit : Deposit.state;
  vision : option jsstring;
  notice : option (option jsstring);
  calls : list call;
}.

Definition set_words (w : I18n.page) (d : data) : data :=
  Data (initialized d) (wrapped d) w (form d) (deposit d) (vision d) (notice d) (calls d).
Definition set_form (p : Snippets.page) (d : data) : data :=
  Data (initialized d) (wrapped d) (words d) p (deposit d) (vision d) (notice d) (calls d).
Definition set_vision (v : option jsstring) (d : data) : data :=
  Data (initialized d) (wrapped d) (words d) (form d) (deposit d) v (notice d) (calls d).
Definition set_notice (n : option (option jsstring)) (d : data) : data :=
  Data (initialized d) (wrapped d) (words d) (form d) (deposit d) (vision d) n (calls d).

(** A piece of script: the page it leaves, and the exception that ended it. *)
Definition script : Type := data -> data * option jsstring.

Definition pure (f : data -> data) : script := fun d => (f d, None).
Definition seq (f g : script) : script :=
  fun d => let '(d', e) := f d in match e with Some _ => (d', e) | None => g d' end.
Declare Scope script_scope.
Delimit Scope script_scope with script.
Infix ";;;" := seq (at level 65, right associativity) : script_scope.
#[local] Open Scope script_scope.

Section Start.
Context (navLang timeZone hostname search : jsstring) (browserLangs : list jsstring)
        (lossy : jsstring -> jsstring) (ld : loaded).

Definition store_of (d : data) : storage := ls (reg (form d)).
Definition put_store (st : storage) (d : data) : data := set_form (with_reg (set_ls st (reg (form d))) (form d)) d.
Definition params : list (jsstring * jsstring) := search_params lossy search.

(** ** portal.js *)

(** [const lang = getLang(); ...] *)
Definition with_lang (k : lang -> data -> data) : script :=
  fun d => match getLang (window_lang (words d)) (store_of d) navLang with
           | Ret l => (k l d, None)
           | Throw e => (d, Some e)
           end.

Definition sync_controls : script :=
  with_lang (fun l d => set_form (with_reg (syncProviderControls l (reg (form d))) (form d)) d).

(** [clarifyVisionCapabilities()]; the language is asked for when there is an entry. *)
Definition vision_label (l : lang) : jsstring :=
  tr l (js "Qwen 2.5 VL 7B (Vision / Bildanalyse – keine Bildgenerierung)")
       (js "Qwen 2.5 VL 7B (Vision / image analysis – not image generation)").
Definition label_vision : script :=
  fun d => match vision d with
           | None => (d, None)
           | Some _ => with_lang (fun l => set_vision (Some (vision_label l))) d
           end.

(** The notice's markup; [`] stands for the quote. *)
Definition notice_html (l : lang) : jsstring :=
  tr l (jsq "🛡️ <strong style=`color:#cbd5e1`>Bild-KI Sicherheit:</strong> Vision-Modelle analysieren Bilder, erzeugen aber keine. Eine separate Bildgenerierung wird nur mit verpflichtender Prompt- und Output-Moderation, Minderjährigenschutz, Deepfake-Schutz und KI-Herkunftskennzeichnung freigeschaltet.")
       (jsq "🛡️ <strong style=`color:#cbd5e1`>Image AI safety:</strong> Vision models analyze images; they do not render images. Separate image generation is enabled only with mandatory prompt/output moderation, minor protection, deepfake safeguards and AI-origin provenance.").

(** [installImageSafetyNotice()] *)
Definition installImageSafetyNotice : script :=
  fun d => match notice d with
           | Some None => with_lang (fun l => set_notice (Some (Some (notice_html l)))) d
           | _ => (d, None)
           end.

(** [syncPortalStaticLanguage(lang)] on the two controls; the texts of the document are
    those of PageText.  The language is valid, so [getLang] is asked by the controls only. *)
Definition sync_static : script := sync_controls ;;; label_vision.

(** [openModal(role)] after the hooks are set, and before. *)
Definition core_open (role : jsstring) : script := pure (fun d => set_form (openModal_core role (form d)) d).
Definition open_dialog (role : jsstring) : script :=
  fun d =>
    if wrapped d then
      (core_open role ;;; pure (fun d => set_form (with_reg (set_role role (reg (form d))) (form d)) d) ;;; sync_controls) d
    else core_open role d.

(** [setupModalHooks()]; the last call has [getLang()] as its argument.  The link to the
    Android app, which it installs before that, is on the tree below. *)
Definition setupModalHooks : script :=
  pure (fun d => Data (initialized d) true (words d) (form d) (deposit d) (vision d) (notice d) (calls d)) ;;;
  sync_controls ;;; label_vision ;;; installImageSafetyNotice ;;; with_lang (fun _ d => d) ;;; sync_static.

(** ** portal-core.js *)

Definition call_out (cs : list call) : script :=
  pure (fun d => Data (initialized d) (wrapped d) (words d) (form d) (deposit d) (vision d) (notice d) (calls d ++ cs)).

(** [renderLivePlaygroundModels(_lastFetchedModels, ...)] inside [switchLanguage], before the
    catalogue has been fetched: the menu of the playground is emptied, and with it goes the
    entry of the vision model. *)
Definition emptied (v : option jsstring) : option jsstring := if has_models ld then None else v.

(** [switchLanguage(detectInitialLanguage())] *)
Definition with_store (w : I18n.page) (st : storage) : I18n.page :=
  I18n.Page (currentLang w) (window_lang w) (html_lang w) (elements w) (toggleBtn w) (btnDe_active w) (btnEn_active w) st (hooks w).
Definition start_language : script :=
  pure (fun d =>
    let '(l, st) := detectInitialLanguage (get_param (js "lang") params) browserLangs timeZone hostname (store_of d) in
    let w := I18n.switchLanguage ld (Some (lang_name l)) (with_store (words d) st) in
    put_store (store w) (set_words w (set_vision (emptied (vision d)) d))) ;;;
  (if has_static ld then sync_static else pure id).

(** The actions of the address. *)
Definition asks_for (v : string) : bool := bool_decide (get_param (js "action") params = Some (js v)).
Definition asked_role : jsstring :=
  if bool_decide (get_param (js "role") params = Some provider) then provider else js "consumer".
Definition follow_address : script :=
  pure (fun d => if asks_for "deposit"
                 then Data (initialized d) (wrapped d) (words d) (form d) (Deposit.openDepositModal (deposit d)) (vision d) (notice d) (calls d)
                 else d) ;;;
  (if asks_for "register" then open_dialog asked_role else pure id).

(** [initPortal()] *)
Definition initPortal : script :=
  fun d =>
    if initialized d then (d, None)
    else
      (pure (fun d => Data true (wrapped d) (words d) (form d) (deposit d) (vision d) (notice d) (calls d)) ;;;
       start_language ;;; call_out [InitHeader; PlainChrome] ;;; follow_address ;;;
       call_out [LivePricing; MeshTelemetry; ModelCatalog; MarketplaceData; Every MarketplaceData 20000; Every MeshTelemetry 15000] ;;;
       pure (fun d => set_form (init_samples (form d)) d)) d.

(** ** The scripts of the page *)

(** Where portal-core.js is: not asked for by portal.js, asked for the first or the second
    time, run, run and its [onload] with the hooks done, or given up. *)
Inductive loader : Type := Absent | Asked (again : bool) | Evaluated | Hooked | GaveUp.

(** [errors]: the exceptions that nobody caught. *)
Record site := Site { ready : bool; listening : bool; core : loader; contents : data; errors : list jsstring }.

Definition run_script (f : script) (s : site) : site :=
  let '(d, e) := f (contents s) in
  Site (ready s) (listening s) (core s) d (errors s ++ match e with Some e => [e] | None => [] end).

Definition at_stage (c : loader) (s : site) : site := Site (ready s) (listening s) c (contents s) (errors s).

(** [window.currentLang] when portal-core.js has run. *)
Definition evaluated (d : data) : data :=
  let w := words d in
  set_words (I18n.Page De (Some (js "de")) (html_lang w) (elements w) (toggleBtn w) (btnDe_active w) (btnEn_active w) (store w) (hooks w)) d.

(** portal-core.js runs; [initPortal] runs now or when the document is parsed. *)
Definition core_runs (s : site) : site :=
  let s1 := Site (ready s) (negb (ready s)) Evaluated (evaluated (contents s)) (errors s) in
  if ready s then run_script initPortal s1 else s1.

(** portal.js runs: the hooks are set now when portal-core.js is there. *)
Definition portal_js (s : site) : site :=
  match core s with
  | Evaluated => at_stage Hooked (run_script setupModalHooks s)
  | _ => at_stage (Asked false) s
  end.

Inductive event : Type := ContentLoaded | CoreRuns | CoreLoaded | CoreFails.

Definition step (s : site) (e : event) : site :=
  match e, core s with
  | ContentLoaded, _ =>
      if ready s then s
      else
        let s1 := Site true (listening s) (core s) (contents s) (errors s) in
        if listening s then run_script initPortal s1 else s1
  | CoreRuns, Asked _ => core_runs s
  | CoreLoaded, Evaluated => at_stage Hooked (run_script setupModalHooks s)
  | CoreFails, Asked again => at_stage (if again then GaveUp else Asked true) s
  | _, _ => s
  end.

Definition exec (s : site) (es : list event) : site := fold_left step es s.

(** The page as the parser meets its script elements: portal-core.js before portal.js, or
    portal.js alone. *)
Definition opened (core_first : bool) (d : data) : site :=
  let s := Site false false Absent d [] in portal_js (if core_first then core_runs s else s).

(** ** The two orders *)

(** The language of the page after [initPortal], and the store then. *)
Definition detected (st : storage) : lang * storage :=
  detectInitialLanguage (get_param (js "lang") params) browserLangs timeZone hostname st.
Definition start_lang (st : storage) : lang := (detected st).1.
Definition start_store (st : storage) : storage :=
  match setItem lang_key (lang_name (start_lang st)) (detected st).2 with Ret st' => st' | Throw _ => (detected st).2 end.

Lemma started_lang st : getLang (Some (lang_name (start_lang st))) (start_store st) navLang = Ret (start_lang st).
Proof.
  unfold start_store, start_lang, detected. destruct st as [m|].
  - destruct (detectInitialLanguage _ _ _ _ (Some m)) as [l st'] eqn:E. cbn [fst snd].
    assert (exists m', st' = Some m') as [m' ->].
    { unfold detectInitialLanguage in E. destruct (lang_of (get_param _ _)); cbn [setItem getItem] in E; [|destruct (lang_of (m !! lang_key))];
      simplify_eq; eauto. }
    cbn [setItem getLang]. rewrite lookup_insert_eq. by destruct l.
  - assert ((detectInitialLanguage (get_param (js "lang") params) browserLangs timeZone hostname None) = (De, None)) as ->; [|done].
    unfold detectInitialLanguage. destruct (lang_of _), (_ || _); done.
Qed.

Lemma german_lang st : getLang (Some (js "de")) st navLang = Ret De.
Proof. by destruct st. Qed.

Definition synced (l : lang) (p : Snippets.page) : Snippets.page := with_reg (syncProviderControls l (reg p)) p.
Definition with_role (r : jsstring) (p : Snippets.page) : Snippets.page := with_reg (set_role r (reg p)) p.
Definition stored (st : storage) (p : Snippets.page) : Snippets.page := with_reg (set_ls st (reg p)) p.

(** [destruct] of a page down to the fields the controls use. *)
Ltac split_page p := destruct p as [[? [] [] ? ? ? ? ? ? [] ? ? ? ? ?] ? ? ? ? ?].

Lemma synced_synced l l' p : synced l (synced l' p) = synced l p.
Proof. by split_page p. Qed.

Lemma synced_stored l st p : synced l (stored st p) = stored st (synced l p).
Proof. done. Qed.

Lemma synced_role l l' r p : synced l (with_role r (synced l' p)) = synced l (with_role r p).
Proof. by split_page p. Qed.

Lemma samples_synced l p : init_samples (synced l p) = synced l (init_samples p).
Proof.
  unfold init_samples. change (ls (reg (synced l p))) with (ls (reg p)). change (code (synced l p)) with (code p).
  destruct (ls (reg p)) as [m|]; [|done]. destruct (truthy _).
  - by destruct (updateCodeSnippetsWithKey _ _ _) as [[st c] t].
  - by destruct (renderPlaygroundSnippet _ _).
Qed.

(** The menu of the role stands in the dialog. *)
Definition dialog_whole (p : Snippets.page) : Prop := modal p = None -> roleEl (reg p) = None.

Lemma core_open_role r p : dialog_whole p -> with_role r (openModal_core r p) = openModal_core r p.
Proof.
  unfold dialog_whole, openModal_core. destruct (modal p) as [b|] eqn:E; intros H.
  - by split_page p.
  - specialize (H eq_refl). destruct p as [[] ? ? ? ? ?]. cbn in *. by subst.
Qed.

(** ** What the two functions do *)

Definition labelled (l : lang) (v : option jsstring) : option jsstring := (fun _ => vision_label l) <$> v.
Definition noticed (l : lang) (n : option (option jsstring)) : option (option jsstring) :=
  (fun t => Some (default (notice_html l) t)) <$> n.

Definition lang_now (d : data) : outcome jsstring lang := getLang (window_lang (words d)) (store_of d) navLang.

Lemma seq_ok f g d d' : f d = (d', None) -> (f ;;; g) d = g d'.
Proof. unfold seq. by intros ->. Qed.

Lemma seq_pure f g d : (pure f ;;; g) d = g (f d).
Proof. done. Qed.

Section Pieces.
Context (l : lang) (d : data) (Hl : lang_now d = Ret l).

Lemma with_lang_run k : with_lang k d = (k l d, None).
Proof. unfold with_lang. unfold lang_now in Hl. by rewrite Hl. Qed.

Lemma sync_run : sync_controls d = (set_form (synced l (form d)) d, None).
Proof. apply with_lang_run. Qed.

Lemma label_run : label_vision d = (set_vision (labelled l (vision d)) d, None).
Proof. unfold label_vision, labelled. destruct (vision d) eqn:E; [apply with_lang_run|]. destruct d. cbn in *. by subst. Qed.

Lemma notice_run : installImageSafetyNotice d = (set_notice (noticed l (notice d)) d, None).
Proof.
  unfold installImageSafetyNotice, noticed. destruct (notice d) as [[t|]|] eqn:E; [|apply with_lang_run|]; destruct d; cbn in *; by subst.
Qed.
End Pieces.

Lemma static_run l d : lang_now d = Ret l ->
  sync_static d = (set_vision (labelled l (vision d)) (set_form (synced l (form d)) d), None).
Proof. intros H. unfold sync_static. rewrite (seq_ok _ _ _ _ (sync_run l d H)). by rewrite label_run with (l := l) by exact H. Qed.

Lemma labelled_labelled l l' v : labelled l (labelled l' v) = labelled l v.
Proof. by destruct v. Qed.

Lemma labelled_emptied l l' v : labelled l (emptied (labelled l' v)) = labelled l (emptied v).
Proof. unfold emptied. destruct (has_models ld); [done|apply labelled_labelled]. Qed.

Lemma hooks_run l d : lang_now d = Ret l ->
  setupModalHooks d = (Data (initialized d) true (words d) (synced l (form d)) (deposit d) (labelled l (vision d)) (noticed l (notice d)) (calls d), None).
Proof.
  intros H. unfold setupModalHooks. rewrite seq_pure. erewrite seq_ok by (apply sync_run; exact H).
  erewrite seq_ok by (apply label_run; exact H). erewrite seq_ok by (apply notice_run; exact H).
  erewrite seq_ok by (apply with_lang_run; exact H). rewrite static_run with (l := l) by exact H.
  unfold set_vision, set_form, set_notice. cbn [vision form initialized wrapped words deposit notice calls]. by rewrite labelled_labelled, synced_synced.
Qed.

(** The dialog after the actions of the address. *)
Definition addressed (w : bool) (l : lang) (p : Snippets.page) : Snippets.page :=
  if asks_for "register" then
    if w then synced l (with_role asked_role (openModal_core asked_role p)) else openModal_core asked_role p
  else p.
Definition deposited (x : Deposit.state) : Deposit.state := if asks_for "deposit" then Deposit.openDepositModal x else x.

Lemma follow_run l d : lang_now d = Ret l ->
  follow_address d = (Data (initialized d) (wrapped d) (words d) (addressed (wrapped d) l (form d)) (deposited (deposit d)) (vision d) (notice d) (calls d), None).
Proof.
  intros H. unfold follow_address, deposited, addressed. rewrite seq_pure.
  set (d1 := if asks_for "deposit" then _ else d).
  assert (E : d1 = Data (initialized d) (wrapped d) (words d) (form d) (if asks_for "deposit" then Deposit.openDepositModal (deposit d) else deposit d)
                        (vision d) (notice d) (calls d)) by (unfold d1; destruct (asks_for "deposit"); by destruct d).
  rewrite E. clear d1 E. destruct (asks_for "register"); [|done]. unfold open_dialog. cbn [wrapped]. destruct (wrapped d); [|done].
  unfold core_open. rewrite !seq_pure. rewrite sync_run with (l := l); [done|]. unfold lang_now, store_of in *. cbn. rewrite <- H. f_equal. unfold openModal_core. by destruct (modal (form d)).
Qed.

Context (Hstatic : has_static ld = true).

Definition start_words (d : data) : I18n.page :=
  I18n.switchLanguage ld (Some (lang_name (start_lang (store_of d)))) (with_store (words d) (detected (store_of d)).2).

Lemma language_run d :
  let l := start_lang (store_of d) in
  let d' := Data (initialized d) (wrapped d) (start_words d) (synced l (stored (start_store (store_of d)) (form d))) (deposit d)
              (labelled l (emptied (vision d))) (notice d) (calls d) in
  start_language d = (d', None) /\ lang_now d' = Ret l.
Proof.
  intros l d'.
  assert (W : window_lang (start_words d) = Some (lang_name l)) by (unfold start_words, l; by destruct (start_lang _)).
  assert (S : store (start_words d) = start_store (store_of d)) by (unfold start_words, start_store; by destruct (start_lang _)).
  split.
  - unfold start_language. rewrite seq_pure, Hstatic. fold (detected (store_of d)).
    rewrite (surjective_pairing (detected (store_of d))). fold (start_lang (store_of d)). cbv zeta iota beta. fold (start_words d). rewrite S.
    rewrite (static_run l); [done|]. unfold lang_now. cbn [put_store set_form set_words words]. rewrite W. apply started_lang.
  - unfold lang_now, d'. cbn [words]. rewrite W. apply started_lang.
Qed.

Definition started_calls : list call :=
  [InitHeader; PlainChrome; LivePricing; MeshTelemetry; ModelCatalog; MarketplaceData; Every MarketplaceData 20000; Every MeshTelemetry 15000].

Lemma init_run d : initialized d = false ->
  let l := start_lang (store_of d) in
  initPortal d =
    (Data true (wrapped d) (start_words d)
       (init_samples (addressed (wrapped d) l (synced l (stored (start_store (store_of d)) (form d)))))
       (deposited (deposit d)) (labelled l (emptied (vision d))) (notice d) (calls d ++ started_calls), None).
Proof.
  intros Hi l. unfold initPortal. rewrite Hi, seq_pure. set (d0 := Data true _ _ _ _ _ _ _).
  destruct (language_run d0) as [H1 H2]. rewrite (seq_ok _ _ _ _ H1). unfold call_out. rewrite seq_pure.
  erewrite seq_ok by (apply follow_run; exact H2). rewrite seq_pure. unfold pure, set_form, started_calls.
  cbn [initialized wrapped words form deposit vision notice calls]. by rewrite <- app_assoc.
Qed.

Lemma samples_lang w p : getLang w (ls (reg (init_samples p))) navLang = getLang w (ls (reg p)) navLang.
Proof.
  unfold init_samples. destruct (ls (reg p)) as [m|] eqn:E; [|by rewrite E]. destruct (truthy _).
  - unfold updateCodeSnippetsWithKey. destruct (not_a_key _); [done|]. cbn [setItem].
    assert (getLang w (Some (<[cm_api_key := item_or_empty cm_api_key m]> m)) navLang = getLang w (Some m) navLang).
    { unfold getLang. rewrite lookup_insert_ne; [by destruct w|]. by vm_compute. }
    by destruct (renderPlaygroundSnippet _ _).
  - destruct (renderPlaygroundSnippet _ _); cbn; by rewrite E.
Qed.

Lemma addressed_ls w l p : ls (reg (addressed w l p)) = ls (reg p).
Proof. unfold addressed, openModal_core. destruct (asks_for _), w; [| |done|done]; by destruct (modal p). Qed.

(** The dialog is the same in both orders. *)
Lemma forms_agree l st p : dialog_whole p ->
  synced l (init_samples (addressed false l (synced l (stored st p)))) =
  init_samples (addressed true l (synced l (stored st (synced De p)))).
Proof.
  intros Hd. rewrite <- synced_stored, synced_synced. unfold addressed. destruct (asks_for "register").
  - rewrite core_open_role, <- samples_synced by done. done.
  - by rewrite <- samples_synced, synced_synced.
Qed.

Lemma lang_after_init d : initialized d = false -> lang_now (initPortal d).1 = Ret (start_lang (store_of d)).
Proof.
  intros Hi. rewrite (init_run d Hi). unfold lang_now, store_of. cbn [fst words form]. rewrite samples_lang, addressed_ls.
  replace (window_lang (start_words d)) with (Some (lang_name (start_lang (store_of d)))); [apply started_lang|].
  unfold start_words. by destruct (start_lang _).
Qed.

(** Setting the hooks before or after [initPortal] comes to the same but for the notice. *)
Lemma orders_agree d : initialized d = false -> wrapped d = false -> window_lang (words d) = Some (js "de") -> dialog_whole (form d) ->
  exists a b, initPortal d = (a, None) /\ setupModalHooks d = (b, None) /\
    exists a' b', setupModalHooks a = (a', None) /\ initPortal b = (b', None) /\ set_notice None a' = set_notice None b'.
Proof.
  intros Hi Hn Hw Hd. pose proof (lang_after_init d Hi) as Hl. rewrite (init_run d Hi) in *. cbn [fst] in Hl. do 2 eexists. split; [done|].
  split; [apply (hooks_run De); unfold lang_now; rewrite Hw; apply german_lang|].
  do 2 eexists. split; [by apply (hooks_run (start_lang (store_of d)))|split; [by apply init_run|]].
    unfold set_notice. cbn [initialized wrapped words form deposit vision notice calls].
    change (store_of (Data _ _ _ (synced De (form d)) _ _ _ _)) with (store_of d). rewrite labelled_labelled, labelled_emptied, <- forms_agree by done.
    by rewrite Hn.
Qed.

(** ** Every course of the start *)

Section Course.
Context (d0 : data) (Hi : initialized d0 = false) (Hn : wrapped d0 = false) (Hd : dialog_whole (form d0)).

Definition settled (d : data) : Prop :=
  d = (setupModalHooks (initPortal (evaluated d0)).1).1 \/ d = (initPortal (setupModalHooks (evaluated d0)).1).1.

Definition course (s : site) : Prop :=
  errors s = [] /\
  match core s with
  | Absent | Asked _ | GaveUp => contents s = d0 /\ listening s = false
  | Evaluated => if ready s then contents s = (initPortal (evaluated d0)).1 else listening s = true /\ contents s = evaluated d0
  | Hooked => if ready s then settled (contents s) else listening s = true /\ contents s = (setupModalHooks (evaluated d0)).1
  end.

Lemma quiet : exists a b a' b',
  initPortal (evaluated d0) = (a, None) /\ setupModalHooks (evaluated d0) = (b, None) /\
  setupModalHooks a = (a', None) /\ initPortal b = (b', None) /\ set_notice None a' = set_notice None b'.
Proof.
  destruct (orders_agree (evaluated d0) Hi Hn eq_refl Hd) as (a & b & Ha & Hb & a' & b' & H). exists a, b, a', b'. tauto.
Qed.

Lemma course_step s e : course s -> course (step s e).
Proof.
  destruct quiet as (a & b & a' & b' & Ha & Hb & Ha' & Hb' & _). unfold course, settled. rewrite Ha, Hb. cbn [fst]. rewrite Ha', Hb'.
  destruct s as [r l c d er]. cbn [ready listening core contents errors]. intros [-> H].
  destruct e, c, r; try destruct H as [H1 H2]; subst; cbn -[setupModalHooks initPortal evaluated];
    unfold core_runs, run_script; cbn -[setupModalHooks initPortal evaluated]; rewrite ?Ha, ?Hb, ?Ha', ?Hb'; cbn; auto.
  all: try (destruct again; cbn; auto).
Qed.

Lemma course_opened core_first : course (opened core_first d0).
Proof.
  destruct quiet as (a & b & _ & _ & _ & Hb & _). unfold course, opened, portal_js. destruct core_first; [|done].
  unfold core_runs, run_script. cbn -[setupModalHooks evaluated]. by rewrite Hb.
Qed.

Lemma course_exec core_first es : course (exec (opened core_first d0) es).
Proof.
  unfold exec. generalize (course_opened core_first). generalize (opened core_first d0). induction es as [|e es IH]; intros s H; [done|].
  apply IH, course_step, H.
Qed.

Lemma settled_same d : settled d -> set_notice None d = set_notice None (setupModalHooks (initPortal (evaluated d0)).1).1.
Proof.
  destruct quiet as (a & b & a' & b' & Ha & Hb & Ha' & Hb' & E). unfold settled. rewrite Ha, Hb. cbn [fst]. rewrite Ha', Hb'. cbn [fst].
  by intros [->| ->].
Qed.
(** The dialog at the end of the start. *)
Lemma settled_form d : settled d ->
  let l := start_lang (store_of d0) in
  form d = synced l (init_samples (addressed false l (synced l (stored (start_store (store_of d0)) (form d0))))).
Proof.
  intros H%settled_same l. apply (f_equal form) in H. cbn [form set_notice] in H. rewrite H.
  rewrite hooks_run with (l := l) by (by apply lang_after_init). rewrite init_run by done. cbn [fst form wrapped evaluated set_words]. by rewrite Hn.
Qed.
End Course.

(** C12: A page comes up the same way whatever the order in which its scripts arrive: for
    every course of events (portal-core.js before portal.js in the page, or loaded by it,
    with a failed attempt or without, before or after the document is parsed), when the
    document is parsed and the hooks are set no exception has been thrown, and the
    registration dialog, the deposit dialog, the samples, the stored values, the language,
    the entry of the vision model in the menu of the playground (gone once the menu has been
    emptied for the live models) and the requests started are those of the order
    [initPortal], [setupModalHooks].  The notice below the playground is the only
    exception. *)
Theorem start_up_is_order_independent d core_first es :
  initialized d = false -> wrapped d = false -> dialog_whole (form d) ->
  let s := exec (opened core_first d) es in
  ready s = true -> core s = Hooked ->
  errors s = [] /\ set_notice None (contents s) = set_notice None (setupModalHooks (initPortal (evaluated d)).1).1.
Proof.
  intros Hi Hn Hd s Hr Hc. destruct (course_exec d Hi Hn Hd core_first es) as [He H]. fold s in He, H. rewrite Hc, Hr in H.
  split; [done|]. by apply settled_same.
Qed.

End Start.

(** ** The redirect to the registration *)

Lemma set_ls_same r : r = set_ls (ls r) r.
Proof. by destruct r. Qed.

Lemma samples_keep p :
  modal (init_samples p) = modal p /\ location (init_samples p) = location p /\
  exists st, reg (init_samples p) = set_ls st (reg p).
Proof.
  unfold init_samples. destruct (ls (reg p)) as [m|] eqn:E; [|split_and!; [done|done|exists (ls (reg p)); apply set_ls_same]].
  destruct (truthy _).
  - destruct (updateCodeSnippetsWithKey _ _ _) as [[st c] t]. split_and!; [done|done|by exists st].
  - destruct (renderPlaygroundSnippet _ _); split_and!; try done; exists (ls (reg p)); apply set_ls_same.
Qed.

(** The address that a page without the dialog opens asks for the registration in the role. *)
Lemma redirect_address lossy role : role = js "consumer" \/ role = provider ->
  let search := search_of (js "/?action=register&role=" ++ role) in
  asks_for search lossy "register" = true /\ asked_role search lossy = role.
Proof. intros [-> | ->]; by vm_compute. Qed.

(** On a page without the registration dialog, a registration button leads to the
    dialog in the chosen role: the address it opens is read by the start page such that,
    whatever the order in which that page's scripts arrive, the dialog is open, its menu
    shows the role, the fields for providers are shown exactly for a provider, and the page
    does not navigate any further. *)
Theorem registration_button_opens_the_dialog l role p target navLang timeZone hostname browserLangs lossy ld d core_first es r b :
  role = js "consumer" \/ role = provider ->
  modal p = None -> last (location (Snippets.openModal l role p)) = Some target ->
  has_static ld = true -> initialized d = false -> wrapped d = false ->
  modal (form d) = Some b -> roleEl (reg (form d)) = Some r ->
  let s := exec navLang timeZone hostname (search_of target) browserLangs lossy ld
             (opened navLang timeZone hostname (search_of target) browserLangs lossy ld core_first d) es in
  ready s = true -> core s = Hooked ->
  let q := form (contents s) in
  modal q = Some true /\ roleEl (reg q) = Some role /\ location q = location (form d) /\
  providerFields (reg q) = (fun _ => if seqb role provider then js "flex" else js "none") <$> providerFields (reg (form d)).
Proof.
  intros Hrole Hp Ht Hs Hi Hn Hm Hr s Hready Hcore q.
  assert (target = js "/?action=register&role=" ++ role) as ->.
  { unfold Snippets.openModal, openModal_core in Ht. rewrite Hp in Ht. cbn [location with_reg reg] in Ht. rewrite last_snoc in Ht. by injection Ht as <-. }
  destruct (redirect_address lossy role Hrole) as [Ha Hk]. set (search := search_of _) in *.
  assert (Hw : dialog_whole (form d)) by (unfold dialog_whole; rewrite Hm; done).
  destruct (course_exec navLang timeZone hostname search browserLangs lossy ld Hs d Hi Hn Hw core_first es) as [_ H].
  fold s in H. rewrite Hcore, Hready in H. apply settled_form in H; [|done..]. fold q in H. rewrite H. clear H q.
  unfold addressed. rewrite Ha, Hk. set (l' := start_lang _ _ _ _ _ _). set (st := start_store _ _ _ _ _ _).
  destruct (samples_keep (openModal_core role (synced l' (stored st (form d))))) as (M & L & st' & R).
  set (x := openModal_core role (synced l' (stored st (form d)))) in *.
  unfold synced. cbn [modal location reg with_reg]. rewrite M, L, R. subst x. unfold openModal_core. cbn [modal synced stored with_reg]. rewrite Hm.
  cbn. rewrite Hr. destruct (providerFields (reg (form d))); destruct Hrole as [-> | ->]; done.
Qed.

(** ** Witnesses *)

(** A visitor who chose English comes to the start page with the playground. *)
Definition english_page : data :=
  Data false false demo_page (blank_page (Some {[lang_key := js "en"]})) Deposit.page_load (Some []) (Some None) [].
Definition all_loaded : loaded := Loaded true true false true false.
Definition no_dialog : Snippets.page :=
  Snippets.Page blank_form (Codes (js "curl_bash") None None (None, None)) None [] None [].

(** portal-core.js before the end of the document, after a failed attempt. *)
Definition early : list event := [CoreFails; CoreRuns; CoreLoaded; ContentLoaded].
Definition late : list event := [ContentLoaded; CoreRuns; CoreLoaded].

Lemma start_up_is_order_independent_witness :
  let run := exec [] [] [] [] [] id all_loaded (opened [] [] [] [] [] id all_loaded false english_page) early in
  errors run = [] /\ set_notice None (contents run) =
    set_notice None (setupModalHooks [] (initPortal [] [] [] [] [] id all_loaded (evaluated english_page)).1).1.
Proof.
  apply (start_up_is_order_independent [] [] [] [] [] id all_loaded eq_refl english_page false early);
    [reflexivity|reflexivity|intros H; discriminate H|vm_compute; reflexivity|vm_compute; reflexivity].
Defined.

Lemma registration_button_opens_the_dialog_witness :
  let target := js "/?action=register&role=provider" in
  let q := form (contents (exec [] [] [] (search_of target) [] id all_loaded
                   (opened [] [] [] (search_of target) [] id all_loaded false english_page) late)) in
  modal q = Some true /\ roleEl (reg q) = Some provider /\ location q = [] /\ providerFields (reg q) = None.
Proof.
  refine (registration_button_opens_the_dialog De provider no_dialog (js "/?action=register&role=provider") [] [] [] [] id all_loaded
    english_page false late provider false _ _ _ _ _ _ _ _ _ _);
    [right; reflexivity|reflexivity|vm_compute; reflexivity|reflexivity|reflexivity|reflexivity|reflexivity|reflexivity|vm_compute; reflexivity|vm_compute; reflexivity].
Defined.

(** The notice depends on the order: it is German when the hooks come first, whatever the
    language of the page. *)
Example notice_of_an_english_page :
  let run es := contents (exec [] [] [] [] [] id all_loaded (opened [] [] [] [] [] id all_loaded false english_page) es) in
  currentLang (words (run early)) = En /\ currentLang (words (run late)) = En /\
  notice (run early) = Some (Some (notice_html De)) /\ notice (run late) = Some (Some (notice_html En)).
Proof. vm_compute. split_and!; reflexivity. Qed.

(** ** The link to the Android app *)

Definition ANDROID_APK_URL : jsstring := js "https://mesh.inetconnector.com/downloads/ComputeMesh-Android.apk".

(** [a\[href*="ComputeMesh-Android.apk"\]] *)
Definition apk_link (t : jsstring) (a : list (jsstring * jsstring)) : bool :=
  seqb t (js "a") && from_option (includes (js "ComputeMesh-Android.apk")) false (attr (js "href") a).

Definition point_link (t : jsstring) (a : list (jsstring * jsstring)) (v : jsstring) : list (jsstring * jsstring) * jsstring :=
  if apk_link t a then (set_attr (js "rel") (js "noopener") (set_attr (js "href") ANDROID_APK_URL a), v) else (a, v).

(** [link.hasAttribute('download') || link.dataset.i18n === 'dl_android_btn'] *)
Definition android_button (n : node) : bool :=
  match n with
  | Text _ => false
  | Elem t a _ _ => apk_link t a && (bool_decide (is_Some (attr (js "download") a)) || has (js "data-i18n") (js "dl_android_btn") a)
  end.

Definition classed (c : string) (n : node) : bool := match n with Text _ => false | Elem _ a _ _ => has_class (js c) a end.

Definition direct_link : node :=
  Elem (js "a") [(js "class", js "cm-android-direct-link"); (js "href", ANDROID_APK_URL); (js "rel", js "noopener");
    (js "style", js "display:block;margin-top:.6rem;font-size:.72rem;overflow-wrap:anywhere;color:var(--accent-cyan);text-align:center;")] []
    [Text ANDROID_APK_URL].

(** [card.querySelector('.cm-android-direct-link')]: below the card. *)
Definition has_direct (card : node) : bool := if find_children (classed "cm-android-direct-link") 0 (children card) then true else false.

(** [installAndroidDownloadLink()] *)
Definition installAndroidDownloadLink (body : node) : node :=
  let links := map_elems point_link body in
  match find_path android_button links with
  | None => links
  | Some p =>
      match closest (length p) (classed "download-card") p links with
      | None => links
      | Some c =>
          match at_path c links with
          | Some card => if has_direct card then links else alter_path (append_child direct_link) c links
          | None => links
          end
      end
  end.

Lemma point_twice t a v : point_link t (point_link t a v).1 (point_link t a v).2 = point_link t a v.
Proof.
  unfold point_link. destruct (apk_link t a) eqn:E; cbn [fst snd]; [|by rewrite E].
  assert (apk_link t (set_attr (js "rel") (js "noopener") (set_attr (js "href") ANDROID_APK_URL a)) = true) as ->.
  { unfold apk_link in *. apply andb_true_iff in E as [-> _]. by rewrite !attr_set. }
  rewrite (set_attr_same (js "href")) by (by rewrite !attr_set). by rewrite set_attr_same by (by rewrite attr_set).
Qed.

Lemma shallow_button : shallow android_button.
Proof. done. Qed.
Lemma shallow_class c : shallow (classed c).
Proof. done. Qed.

Lemma has_direct_append card : is_elem card = true -> has_direct (append_child direct_link card) = true.
Proof.
  destruct card as [|t a v cs]; [done|]. intros _. unfold has_direct. cbn [append_child with_children children].
  generalize 0%nat. induction cs as [|x cs IH]; intros i; [by vm_compute|]. cbn [app find_children]. by destruct (find_path _ x).
Qed.

(** Doing it again changes nothing: the links stay, and there is one direct link. *)
Theorem android_link_installed_once body :
  installAndroidDownloadLink (installAndroidDownloadLink body) = installAndroidDownloadLink body.
Proof.
  unfold installAndroidDownloadLink at 2 3. cbv zeta. set (links := map_elems point_link body).
  assert (F : map_elems point_link links = links) by (apply map_elems_twice, point_twice).
  destruct (find_path android_button links) as [p|] eqn:Ep; [|unfold installAndroidDownloadLink; by rewrite F, Ep].
  destruct (closest _ _ p links) as [c|] eqn:Ec; [|unfold installAndroidDownloadLink; by rewrite F, Ep, Ec].
  destruct (at_path c links) as [card|] eqn:Ea; [|unfold installAndroidDownloadLink; by rewrite F, Ep, Ec, Ea].
  destruct (has_direct card) eqn:Ed; [unfold installAndroidDownloadLink; by rewrite F, Ep, Ec, Ea, Ed|].
  destruct (find_path_spec _ _ _ Ep) as (y & Hy & _).
  unfold installAndroidDownloadLink. rewrite map_elems_append, F. change (map_elems point_link direct_link) with direct_link.
  rewrite (find_path_append android_button _ _ _ shallow_button), Ep by (by vm_compute). rewrite (closest_append _ _ _ _ _ _ y (shallow_class _) Hy), Ec.
  rewrite (at_alter _ _ _ _ Ea), has_direct_append; [done|].
  destruct (closest_spec _ _ _ _ _ Ec) as (x & Hx & Hf). rewrite Ea in Hx. injection Hx as <-. by destruct card.
Qed.

