(* ===== verification/Pacman.v ===== *)
(** * The Pac-Man game (apps/pacman/game.js)

    The maze, the motion of Pac-Man with its direction buffer, the ghosts, pellets,
    lives, levels, the high score, the Konami code and the input handlers.  Coordinates
    and timers are JavaScript numbers: every operation rounds with [fl].  [Math.hypot]
    (whose result the language leaves to the implementation) and the random numbers of a
    frame are parameters.  Sound and drawing have no influence on the state; they are in
    PacmanView. *)
From Stdlib Require Import Lia ZArith QArith Qround Qabs Lqa.
From stdpp Require Import base numbers list gmap strings.
From S2P Require Import Prelude JsString JsNumber JsValue.

#[local] Open Scope Z_scope.

(** ** The maze *)

Definition TILE_SIZE : Z := 12.
Definition COLS : Z := 28.
Definition ROWS : Z := 31.

(** 0 corridor, 1 wall, 2 dot, 3 energizer, 4 ghost house, 5 ghost gate *)
Definition ORIGINAL_MAP : list (list Z) :=
  [[1; 1; 1; 1; 1; 1; 1; 1; 1; 1; 1; 1; 1; 1; 1; 1; 1; 1; 1; 1; 1; 1; 1; 1; 1; 1; 1; 1];
   [1; 2; 2; 2; 2; 2; 2; 2; 2; 2; 2; 2; 2; 1; 1; 2; 2; 2; 2; 2; 2; 2; 2; 2; 2; 2; 2; 1];
   [1; 2; 1; 1; 1; 1; 2; 1; 1; 1; 1; 1; 2; 1; 1; 2; 1; 1; 1; 1; 1; 2; 1; 1; 1; 1; 2; 1];
   [1; 3; 1; 1; 1; 1; 2; 1; 1; 1; 1; 1; 2; 1; 1; 2; 1; 1; 1; 1; 1; 2; 1; 1; 1; 1; 3; 1];
   [1; 2; 1; 1; 1; 1; 2; 1; 1; 1; 1; 1; 2; 1; 1; 2; 1; 1; 1; 1; 1; 2; 1; 1; 1; 1; 2; 1];
   [1; 2; 2; 2; 2; 2; 2; 2; 2; 2; 2; 2; 2; 2; 2; 2; 2; 2; 2; 2; 2; 2; 2; 2; 2; 2; 2; 1];
   [1; 2; 1; 1; 1; 1; 2; 1; 1; 2; 1; 1; 1; 1; 1; 1; 1; 1; 2; 1; 1; 2; 1; 1; 1; 1; 2; 1];
   [1; 2; 1; 1; 1; 1; 2; 1; 1; 2; 1; 1; 1; 1; 1; 1; 1; 1; 2; 1; 1; 2; 1; 1; 1; 1; 2; 1];
   [1; 2; 2; 2; 2; 2; 2; 1; 1; 2; 2; 2; 2; 1; 1; 2; 2; 2; 2; 1; 1; 2; 2; 2; 2; 2; 2; 1];
   [1; 1; 1; 1; 1; 1; 2; 1; 1; 1; 1; 1; 0; 1; 1; 0; 1; 1; 1; 1; 1; 2; 1; 1; 1; 1; 1; 1];
   [0; 0; 0; 0; 0; 1; 2; 1; 1; 1; 1; 1; 0; 1; 1; 0; 1; 1; 1; 1; 1; 2; 1; 0; 0; 0; 0; 0];
   [0; 0; 0; 0; 0; 1; 2; 1; 1; 0; 0; 0; 0; 0; 0; 0; 0; 0; 0; 1; 1; 2; 1; 0; 0; 0; 0; 0];
   [0; 0; 0; 0; 0; 1; 2; 1; 1; 0; 1; 1; 1; 5; 5; 1; 1; 1; 0; 1; 1; 2; 1; 0; 0; 0; 0; 0];
   [1; 1; 1; 1; 1; 1; 2; 1; 1; 0; 1; 4; 4; 4; 4; 4; 4; 1; 0; 1; 1; 2; 1; 1; 1; 1; 1; 1];
   [0; 0; 0; 0; 0; 0; 2; 0; 0; 0; 1; 4; 4; 4; 4; 4; 4; 1; 0; 0; 0; 2; 0; 0; 0; 0; 0; 0];
   [1; 1; 1; 1; 1; 1; 2; 1; 1; 0; 1; 4; 4; 4; 4; 4; 4; 1; 0; 1; 1; 2; 1; 1; 1; 1; 1; 1];
   [0; 0; 0; 0; 0; 1; 2; 1; 1; 0; 1; 1; 1; 1; 1; 1; 1; 1; 0; 1; 1; 2; 1; 0; 0; 0; 0; 0];
   [0; 0; 0; 0; 0; 1; 2; 1; 1; 0; 0; 0; 0; 0; 0; 0; 0; 0; 0; 1; 1; 2; 1; 0; 0; 0; 0; 0];
   [0; 0; 0; 0; 0; 1; 2; 1; 1; 0; 1; 1; 1; 1; 1; 1; 1; 1; 0; 1; 1; 2; 1; 0; 0; 0; 0; 0];
   [1; 1; 1; 1; 1; 1; 2; 1; 1; 0; 1; 1; 1; 1; 1; 1; 1; 1; 0; 1; 1; 2; 1; 1; 1; 1; 1; 1];
   [1; 2; 2; 2; 2; 2; 2; 2; 2; 2; 2; 2; 2; 1; 1; 2; 2; 2; 2; 2; 2; 2; 2; 2; 2; 2; 2; 1];
   [1; 2; 1; 1; 1; 1; 2; 1; 1; 1; 1; 1; 2; 1; 1; 2; 1; 1; 1; 1; 1; 2; 1; 1; 1; 1; 2; 1];
   [1; 2; 1; 1; 1; 1; 2; 1; 1; 1; 1; 1; 2; 1; 1; 2; 1; 1; 1; 1; 1; 2; 1; 1; 1; 1; 2; 1];
   [1; 3; 2; 2; 1; 1; 2; 2; 2; 2; 2; 2; 2; 0; 0; 2; 2; 2; 2; 2; 2; 2; 1; 1; 2; 2; 3; 1];
   [1; 1; 1; 2; 1; 1; 2; 1; 1; 2; 1; 1; 1; 1; 1; 1; 1; 1; 2; 1; 1; 2; 1; 1; 2; 1; 1; 1];
   [1; 1; 1; 2; 1; 1; 2; 1; 1; 2; 1; 1; 1; 1; 1; 1; 1; 1; 2; 1; 1; 2; 1; 1; 2; 1; 1; 1];
   [1; 2; 2; 2; 2; 2; 2; 1; 1; 2; 2; 2; 2; 1; 1; 2; 2; 2; 2; 1; 1; 2; 2; 2; 2; 2; 2; 1];
   [1; 2; 1; 1; 1; 1; 1; 1; 1; 1; 1; 1; 2; 1; 1; 2; 1; 1; 1; 1; 1; 1; 1; 1; 1; 1; 2; 1];
   [1; 2; 1; 1; 1; 1; 1; 1; 1; 1; 1; 1; 2; 1; 1; 2; 1; 1; 1; 1; 1; 1; 1; 1; 1; 1; 2; 1];
   [1; 2; 2; 2; 2; 2; 2; 2; 2; 2; 2; 2; 2; 2; 2; 2; 2; 2; 2; 2; 2; 2; 2; 2; 2; 2; 2; 1];
   [1; 1; 1; 1; 1; 1; 1; 1; 1; 1; 1; 1; 1; 1; 1; 1; 1; 1; 1; 1; 1; 1; 1; 1; 1; 1; 1; 1]].

Definition maze := list (list Z).

(** [map[row][col]]; reading beyond a row gives [undefined], which is none of the tile
    numbers the code compares with, as [-1] is none. *)
Definition tile (m : maze) (row col : Z) : Z :=
  if (row <? 0) || (col <? 0) then -1
  else default (-1) (m !! Z.to_nat row ≫= fun r => r !! Z.to_nat col).

Definition is_pellet (t : Z) : bool := (t =? 2) || (t =? 3).

(** [countPellets()] *)
Definition count_row (r : list Z) : nat := length (List.filter is_pellet r).
Definition countPellets (m : maze) : Z := Z.of_nat (list_sum (count_row <$> m)).

(** [map[row][col] = v] *)
Definition set_tile (m : maze) (row col : Z) (v : Z) : maze :=
  alter (fun r => <[Z.to_nat col := v]> r) (Z.to_nat row) m.

(** [isTileWalkable(col, row, isGhost, inHouse)] *)
Definition isTileWalkable (m : maze) (col row : Z) (isGhost inHouse : bool) : bool :=
  if (col <? 0) || (COLS <=? col) then true
  else if (row <? 0) || (ROWS <=? row) then false
  else
    let t := tile m row col in
    if t =? 1 then false
    else if t =? 4 then inHouse
    else if t =? 5 then isGhost
    else true.

(** ** State *)

Inductive facing : Type := FaceRight | FaceLeft | FaceDown | FaceUp.

Record pacman_t := Pacman {
  px : Q; py : Q;
  dirX : Z; dirY : Z;
  desiredDirX : Z; desiredDirY : Z;
  mouthAngle : Q; mouthDir : Z; rotation : facing;
}.

Inductive ghost_name : Type := Blinky | Pinky | Inky | Clyde.

Record ghost := Ghost {
  g_name : ghost_name;
  gx : Q; gy : Q;
  g_dirX : Z; g_dirY : Z;
  inHouse : bool;
  releaseDelay : Q;
  targetX : Q; targetY : Q;
}.

(** What [updateHUD] last wrote. *)
Record hud_t := Hud { scoreVal : Z; highScoreVal : num; hearts : Z; levelVal : Z; fruit : nat }.

Record state := State {
  map_ : maze;
  score : Z;
  highScore : num;
  lives : Z;
  level : Z;
  gameOver : bool;
  gameRunning : bool;
  roundTransition : bool;
  frightenedTimer : Q;
  invulnerableTimer : Q;
  konamiActivated : bool;
  totalPellets : Z;
  initialPelletCount : Z;
  lastFrameTime : Q;
  roundTimer : Q;
  wakaToggle : bool;
  pacman : pacman_t;
  ghosts : list ghost;
  konamiIndex : nat;
  hud : hud_t;
  banner : option jsstring;
  saved : option Z;
  timeouts : nat;
}.

(** Assignments to the global variables. *)
Definition set_pacman (pacman0 : pacman_t) (s : state) : state :=
  State (map_ s) (score s) (highScore s) (lives s) (level s) (gameOver s) (gameRunning s)
    (roundTransition s) (frightenedTimer s) (invulnerableTimer s) (konamiActivated s)
    (totalPellets s) (initialPelletCount s) (lastFrameTime s) (roundTimer s)
    (wakaToggle s) pacman0 (ghosts s) (konamiIndex s) (hud s) (banner s) (saved s)
    (timeouts s).

Definition set_ghosts (ghosts0 : list ghost) (s : state) : state :=
  State (map_ s) (score s) (highScore s) (lives s) (level s) (gameOver s) (gameRunning s)
    (roundTransition s) (frightenedTimer s) (invulnerableTimer s) (konamiActivated s)
    (totalPellets s) (initialPelletCount s) (lastFrameTime s) (roundTimer s)
    (wakaToggle s) (pacman s) ghosts0 (konamiIndex s) (hud s) (banner s) (saved s)
    (timeouts s).

Definition set_round (roundTimer0 : Q) (invulnerableTimer0 : Q) (s : state) : state :=
  State (map_ s) (score s) (highScore s) (lives s) (level s) (gameOver s) (gameRunning s)
    (roundTransition s) (frightenedTimer s) invulnerableTimer0 (konamiActivated s)
    (totalPellets s) (initialPelletCount s) (lastFrameTime s) roundTimer0 (wakaToggle s)
    (pacman s) (ghosts s) (konamiIndex s) (hud s) (banner s) (saved s) (timeouts s).

Definition set_hud (highScore0 : num) (hud0 : hud_t) (saved0 : option Z) (s : state) : state :=
  State (map_ s) (score s) highScore0 (lives s) (level s) (gameOver s) (gameRunning s)
    (roundTransition s) (frightenedTimer s) (invulnerableTimer s) (konamiActivated s)
    (totalPellets s) (initialPelletCount s) (lastFrameTime s) (roundTimer s)
    (wakaToggle s) (pacman s) (ghosts s) (konamiIndex s) hud0 (banner s) saved0
    (timeouts s).

Definition set_eaten (map_0 : maze) (score0 : Z) (totalPellets0 : Z) (s : state) : state :=
  State map_0 score0 (highScore s) (lives s) (level s) (gameOver s) (gameRunning s)
    (roundTransition s) (frightenedTimer s) (invulnerableTimer s) (konamiActivated s)
    totalPellets0 (initialPelletCount s) (lastFrameTime s) (roundTimer s) (wakaToggle s)
    (pacman s) (ghosts s) (konamiIndex s) (hud s) (banner s) (saved s) (timeouts s).

Definition set_frightened (frightenedTimer0 : Q) (s : state) : state :=
  State (map_ s) (score s) (highScore s) (lives s) (level s) (gameOver s) (gameRunning s)
    (roundTransition s) frightenedTimer0 (invulnerableTimer s) (konamiActivated s)
    (totalPellets s) (initialPelletCount s) (lastFrameTime s) (roundTimer s)
    (wakaToggle s) (pacman s) (ghosts s) (konamiIndex s) (hud s) (banner s) (saved s)
    (timeouts s).

Definition set_waka (wakaToggle0 : bool) (s : state) : state :=
  State (map_ s) (score s) (highScore s) (lives s) (level s) (gameOver s) (gameRunning s)
    (roundTransition s) (frightenedTimer s) (invulnerableTimer s) (konamiActivated s)
    (totalPellets s) (initialPelletCount s) (lastFrameTime s) (roundTimer s) wakaToggle0
    (pacman s) (ghosts s) (konamiIndex s) (hud s) (banner s) (saved s) (timeouts s).

Definition set_transition (level0 : Z) (roundTransition0 : bool) (banner0 : option jsstring) (timeouts0 : nat) (s : state) : state :=
  State (map_ s) (score s) (highScore s) (lives s) level0 (gameOver s) (gameRunning s)
    roundTransition0 (frightenedTimer s) (invulnerableTimer s) (konamiActivated s)
    (totalPellets s) (initialPelletCount s) (lastFrameTime s) (roundTimer s)
    (wakaToggle s) (pacman s) (ghosts s) (konamiIndex s) (hud s) banner0 (saved s)
    timeouts0.

Definition set_board (map_0 : maze) (totalPellets0 : Z) (initialPelletCount0 : Z) (s : state) : state :=
  State map_0 (score s) (highScore s) (lives s) (level s) (gameOver s) (gameRunning s)
    (roundTransition s) (frightenedTimer s) (invulnerableTimer s) (konamiActivated s)
    totalPellets0 initialPelletCount0 (lastFrameTime s) (roundTimer s) (wakaToggle s)
    (pacman s) (ghosts s) (konamiIndex s) (hud s) (banner s) (saved s) (timeouts s).

Definition set_lives (lives0 : Z) (s : state) : state :=
  State (map_ s) (score s) (highScore s) lives0 (level s) (gameOver s) (gameRunning s)
    (roundTransition s) (frightenedTimer s) (invulnerableTimer s) (konamiActivated s)
    (totalPellets s) (initialPelletCount s) (lastFrameTime s) (roundTimer s)
    (wakaToggle s) (pacman s) (ghosts s) (konamiIndex s) (hud s) (banner s) (saved s)
    (timeouts s).

Definition set_score (score0 : Z) (s : state) : state :=
  State (map_ s) score0 (highScore s) (lives s) (level s) (gameOver s) (gameRunning s)
    (roundTransition s) (frightenedTimer s) (invulnerableTimer s) (konamiActivated s)
    (totalPellets s) (initialPelletCount s) (lastFrameTime s) (roundTimer s)
    (wakaToggle s) (pacman s) (ghosts s) (konamiIndex s) (hud s) (banner s) (saved s)
    (timeouts s).

Definition set_over (gameOver0 : bool) (gameRunning0 : bool) (s : state) : state :=
  State (map_ s) (score s) (highScore s) (lives s) (level s) gameOver0 gameRunning0
    (roundTransition s) (frightenedTimer s) (invulnerableTimer s) (konamiActivated s)
    (totalPellets s) (initialPelletCount s) (lastFrameTime s) (roundTimer s)
    (wakaToggle s) (pacman s) (ghosts s) (konamiIndex s) (hud s) (banner s) (saved s)
    (timeouts s).

Definition set_konami (konamiActivated0 : bool) (konamiIndex0 : nat) (banner0 : option jsstring) (s : state) : state :=
  State (map_ s) (score s) (highScore s) (lives s) (level s) (gameOver s) (gameRunning s)
    (roundTransition s) (frightenedTimer s) (invulnerableTimer s) konamiActivated0
    (totalPellets s) (initialPelletCount s) (lastFrameTime s) (roundTimer s)
    (wakaToggle s) (pacman s) (ghosts s) konamiIndex0 (hud s) banner0 (saved s)
    (timeouts s).

Definition set_frame (lastFrameTime0 : Q) (s : state) : state :=
  State (map_ s) (score s) (highScore s) (lives s) (level s) (gameOver s) (gameRunning s)
    (roundTransition s) (frightenedTimer s) (invulnerableTimer s) (konamiActivated s)
    (totalPellets s) (initialPelletCount s) lastFrameTime0 (roundTimer s) (wakaToggle s)
    (pacman s) (ghosts s) (konamiIndex s) (hud s) (banner s) (saved s) (timeouts s).


Section Game.
Context {R : Rounding} (hypot : Q -> Q -> Q).

#[local] Open Scope Q_scope.

(** ** Speeds *)

Definition lit (q : Q) : Q := fl q.

Definition speedBonus (level : Z) : Q := Qmin2 (fl (inject_Z (level - 1) * lit (1 # 10))) 1.

(** [getLevelSpeeds()] *)
Definition pacmanSpeed (s : state) : Q :=
  fl (fl (2 + speedBonus (level s)) + (if konamiActivated s then lit (12 # 10) else 0)).
Definition ghostSpeed (s : state) : Q := fl (lit (12 # 10) + speedBonus (level s)).
Definition frightenedDuration (s : state) : Z := Z.max (450 - (level s - 1) * 35) 200.

(** ** Positions *)

(** [Math.floor(v / TILE_SIZE)] and [cell * TILE_SIZE + TILE_SIZE / 2] *)
Definition cell (v : Q) : Z := Qfloor (fl (v / 12)).
Definition centre (c : Z) : Q := fl (fl (inject_Z c * 12) + 6).

Definition pacman_start (p : pacman_t) : pacman_t :=
  Pacman 168 282 (-1) 0 (-1) 0 (mouthAngle p) (mouthDir p) FaceLeft.

Definition reset_ghost (i : nat) (g : ghost) : ghost :=
  match i with
  | 0%nat => Ghost (g_name g) 162 132 (-1) 0 false (releaseDelay g) (targetX g) (targetY g)
  | 1%nat => Ghost (g_name g) 162 168 0 (-1) true (releaseDelay g) (targetX g) (targetY g)
  | 2%nat => Ghost (g_name g) 138 168 0 (-1) true (releaseDelay g) (targetX g) (targetY g)
  | _ => Ghost (g_name g) 186 168 0 (-1) true (releaseDelay g) (targetX g) (targetY g)
  end.

(** [resetPositions()] *)
Definition resetPositions (s : state) : state :=
  set_ghosts (imap reset_ghost (ghosts s))
    (set_round 0 120 (set_pacman (pacman_start (pacman s)) s)).

(** ** The heads-up display *)

(** [updateHUD()] *)
Definition updateHUD (s : state) : state :=
  let better := num_lt (highScore s) (num_Z (score s)) in
  let hs := if better then num_Z (score s) else highScore s in
  set_hud hs (Hud (score s) hs (Z.max 0 (lives s)) (level s) (Z.to_nat (Z.min (level s - 1) 6)))
    (if better then Some (score s) else saved s) s.

(** ** Pac-Man *)

Definition set_pos (x y : Q) (p : pacman_t) : pacman_t :=
  Pacman x y (dirX p) (dirY p) (desiredDirX p) (desiredDirY p) (mouthAngle p) (mouthDir p) (rotation p).
Definition set_dir (dx dy : Z) (p : pacman_t) : pacman_t :=
  Pacman (px p) (py p) dx dy (desiredDirX p) (desiredDirY p) (mouthAngle p) (mouthDir p) (rotation p).
Definition set_desired (dx dy : Z) (p : pacman_t) : pacman_t :=
  Pacman (px p) (py p) (dirX p) (dirY p) dx dy (mouthAngle p) (mouthDir p) (rotation p).

(** 1. The desired direction: reversal anywhere, a turn near the centre of a junction. *)
Definition desired_turn (m : maze) (curCol curRow : Z) (cx cy moveDist : Q) (p : pacman_t) : pacman_t :=
  if ((desiredDirX p =? 0) && (desiredDirY p =? 0))%Z then p
  else if ((desiredDirX p =? - dirX p) && (desiredDirY p =? - dirY p))%Z then
    set_desired 0 0 (set_dir (desiredDirX p) (desiredDirY p) p)
  else if isTileWalkable m (curCol + desiredDirX p) (curRow + desiredDirY p) false false then
    let distToCenter := hypot (fl (px p - cx)) (fl (py p - cy)) in
    if Qleb distToCenter (Qmax2 (fl (moveDist * (3 # 2))) 6)
    then set_desired 0 0 (set_dir (desiredDirX p) (desiredDirY p) (set_pos cx cy p))
    else p
  else p.

Definition walkable_dir (m : maze) (curCol curRow : Z) (d : Z * Z) : bool :=
  isTileWalkable m (curCol + d.1) (curRow + d.2) false false.

(** 2. A wall ahead: stop at the centre and take the desired or the first open turn. *)
Definition wall_turn (m : maze) (curCol curRow : Z) (cx cy : Q) (p : pacman_t) : pacman_t :=
  if isTileWalkable m (curCol + dirX p) (curRow + dirY p) false false then p
  else
    let pastX := ((0 <? dirX p)%Z && Qleb cx (px p)) || ((dirX p <? 0)%Z && Qleb (px p) cx) in
    let pastY := ((0 <? dirY p)%Z && Qleb cy (py p)) || ((dirY p <? 0)%Z && Qleb (py p) cy) in
    if pastX || pastY || ((dirX p =? 0) && (dirY p =? 0))%Z then
      let p1 := set_pos cx cy p in
      let orthogonal : list (Z * Z) :=
        if negb (dirX p =? 0)%Z then [(0, -1); (0, 1)]%Z else [(-1, 0); (1, 0)]%Z in
      if negb ((desiredDirX p =? 0) && (desiredDirY p =? 0))%Z
         && isTileWalkable m (curCol + desiredDirX p) (curRow + desiredDirY p) false false
      then set_desired 0 0 (set_dir (desiredDirX p) (desiredDirY p) p1)
      else match List.filter (walkable_dir m curCol curRow) orthogonal with
           | d :: _ => set_dir d.1 d.2 p1
           | [] => set_dir 0 0 p1
           end
    else p.

Definition turn_rotation (p : pacman_t) : facing :=
  let r1 := if (0 <? dirX p)%Z then FaceRight else rotation p in
  let r2 := if (dirX p <? 0)%Z then FaceLeft else r1 in
  let r3 := if (0 <? dirY p)%Z then FaceDown else r2 in
  if (dirY p <? 0)%Z then FaceUp else r3.

(** The tunnel: [if (x < 0) x = 324; if (x > 324) x = 0]. *)
Definition warp (x : Q) : Q :=
  let x1 := if Qltb x 0 then 324 else x in
  if Qltb 324 x1 then 0 else x1.

(** 3. The move, locked to the centre line of the corridor. *)
Definition move (cx cy moveDist delta : Q) (lvl : Z) (p : pacman_t) : pacman_t :=
  if ((dirX p =? 0) && (dirY p =? 0))%Z then p
  else
    let x1 := fl (px p + fl (inject_Z (dirX p) * moveDist)) in
    let y1 := fl (py p + fl (inject_Z (dirY p) * moveDist)) in
    let '(x2, y2) := if negb (dirX p =? 0)%Z then (x1, cy) else (cx, y1) in
    let angle := fl (mouthAngle p + fl (fl (fl (lit (3 # 100) * inject_Z (mouthDir p)) * delta)
                                        * fl (1 + fl (inject_Z lvl * lit (1 # 10))))) in
    Pacman (warp x2) y2 (dirX p) (dirY p) (desiredDirX p) (desiredDirY p) angle
      (if Qltb (lit (45 # 100)) angle || Qltb angle (lit (5 # 100)) then - mouthDir p else mouthDir p)%Z
      (turn_rotation p).

(** 4. Eating. *)
Definition eat (s : state) : state :=
  let col := cell (px (pacman s)) in
  let row := cell (py (pacman s)) in
  if ((0 <=? col) && (col <? COLS) && (0 <=? row) && (row <? ROWS))%Z then
    let t := tile (map_ s) row col in
    if (t =? 2)%Z then
      updateHUD (set_waka (negb (wakaToggle s))
        (set_eaten (set_tile (map_ s) row col 0) (score s + 10) (totalPellets s - 1) s))
    else if (t =? 3)%Z then
      updateHUD (set_frightened (inject_Z (frightenedDuration s))
        (set_eaten (set_tile (map_ s) row col 0) (score s + 50) (totalPellets s - 1) s))
    else s
  else s.

Definition round_banner (lvl : Z) : jsstring :=
  js "⚡ RUNDE " ++ show_Z lvl ++ js " ERREICHT! TEMPO ERHÖHT 🚀".

(** 5. The end of a round; the new one starts in a timeout. *)
Definition finish_round (s : state) : state :=
  if ((totalPellets s <=? 0)%Z && negb (roundTransition s)) then
    set_transition (level s + 1) true (Some (round_banner (level s + 1))) (S (timeouts s)) s
  else s.

Definition new_round (s : state) : state :=
  match timeouts s with
  | O => s
  | S n =>
      let total := countPellets ORIGINAL_MAP in
      let s1 := resetPositions (set_board ORIGINAL_MAP total total s) in
      updateHUD (set_transition (level s1) false
        (if konamiActivated s1 then banner s1 else None) n s1)
  end.

(** [updatePacman(delta)] *)
Definition updatePacman (delta : Q) (s : state) : state :=
  let moveDist := fl (pacmanSpeed s * delta) in
  let s1 := set_round (roundTimer s)
    (if Qltb 0 (invulnerableTimer s) then fl (invulnerableTimer s - delta) else invulnerableTimer s) s in
  let curCol := cell (px (pacman s)) in
  let curRow := cell (py (pacman s)) in
  let cx := centre curCol in
  let cy := centre curRow in
  let p1 := desired_turn (map_ s) curCol curRow cx cy moveDist (pacman s) in
  let p2 := wall_turn (map_ s) curCol curRow cx cy p1 in
  let p3 := move cx cy moveDist delta (level s) p2 in
  finish_round (eat (set_pacman p3 s1)).

(** ** Ghosts *)

Definition set_ghost (i : nat) (g : ghost) (s : state) : state := set_ghosts (<[i := g]> (ghosts s)) s.

(** Targets: random when frightened, else by name. *)
Definition target (s : state) (r1 r2 : Q) (g : ghost) : Q * Q :=
  let p := pacman s in
  if Qltb 0 (frightenedTimer s) then
    (inject_Z (Qfloor (fl (r1 * 28)) * 12), inject_Z (Qfloor (fl (r2 * 31)) * 12))
  else match g_name g with
       | Blinky => (px p, py p)
       | Pinky => (fl (px p + inject_Z (dirX p * 4 * 12)), fl (py p + inject_Z (dirY p * 4 * 12)))
       | Inky =>
           match ghosts s with
           | b :: _ => (fl (px p + fl (px p - gx b)), fl (py p + fl (py p - gy b)))
           | [] => (px p, py p)
           end
       | Clyde =>
           if Qltb 96 (hypot (fl (gx g - px p)) (fl (gy g - py p))) then (px p, py p)
           else (0, 360)
       end.

Definition all_dirs : list (Z * Z) := [(1, 0); (-1, 0); (0, 1); (0, -1)]%Z.

(** Directions that do not reverse and whose next tile is open to a ghost. *)
Definition validDirs (m : maze) (g : ghost) : list (Z * Z) :=
  let gCol := cell (gx g) in
  let gRow := cell (gy g) in
  List.filter (fun d => negb ((d.1 =? - g_dirX g) && (d.2 =? - g_dirY g))%Z
                        && isTileWalkable m (gCol + d.1) (gRow + d.2) true (inHouse g)) all_dirs.

Definition dir_dist (g : ghost) (d : Z * Z) : Q :=
  hypot (fl (fl (gx g + inject_Z (d.1 * 12)) - targetX g)) (fl (fl (gy g + inject_Z (d.2 * 12)) - targetY g)).

(** [validDirs.sort(...)[0]]: the first of the nearest directions. *)
Definition best_dir (g : ghost) (ds : list (Z * Z)) : Z * Z :=
  match ds with
  | [] => (g_dirX g, g_dirY g)
  | d :: r => fold_left (fun b d => if Qltb (fl (dir_dist g d - dir_dist g b)) 0 then d else b) r d
  end.

Definition game_over (s : state) : state := set_over true false s.

(** A ghost that touches Pac-Man while he is vulnerable. *)
Definition collide (i : nat) (g : ghost) (s : state) : state :=
  let p := pacman s in
  let dist := hypot (fl (fl (gx g + 6) - px p)) (fl (fl (gy g + 6) - py p)) in
  if Qltb dist (fl (12 * lit (55 # 100))) && Qleb (invulnerableTimer s) 0 then
    if Qltb 0 (frightenedTimer s) then
      updateHUD (set_score (score s + 200 * level s)
        (set_ghost i (Ghost (g_name g) 162 168 (g_dirX g) (g_dirY g) true (fl (roundTimer s + 4)) (targetX g) (targetY g)) s))
    else if konamiActivated s then s
    else
      let s1 := updateHUD (set_lives (lives s - 1) s) in
      if (lives s1 <=? 0)%Z then game_over s1 else resetPositions s1
  else s.

(** The body of [ghosts.forEach]: the ghost is read from the state, which an earlier
    collision of the same frame may have reset. *)
Definition ghost_step (delta speed : Q) (rand : nat -> Q) (i : nat) (s : state) : state :=
  match ghosts s !! i with
  | None => s
  | Some g =>
      if inHouse g then
        let dotsEaten := inject_Z (initialPelletCount s - totalPellets s) in
        if Qleb (releaseDelay g) (roundTimer s) || Qleb (fl (releaseDelay g * 5)) dotsEaten then
          let y := fl (gy g - fl ((1 # 2) * delta)) in
          set_ghost i (if Qleb y 132
                       then Ghost (g_name g) (gx g) y (-1) 0 false (releaseDelay g) (targetX g) (targetY g)
                       else Ghost (g_name g) (gx g) y (g_dirX g) (g_dirY g) true (releaseDelay g) (targetX g) (targetY g)) s
        else s
      else
        let '(tx, ty) := target s (rand (2 * i)%nat) (rand (2 * i + 1)%nat) g in
        let g1 := Ghost (g_name g) (gx g) (gy g) (g_dirX g) (g_dirY g) false (releaseDelay g) tx ty in
        let d := best_dir g1 (validDirs (map_ s) g1) in
        let g2 := Ghost (g_name g) (warp (fl (gx g + fl (inject_Z d.1 * speed))))
                    (fl (gy g + fl (inject_Z d.2 * speed))) d.1 d.2 false (releaseDelay g) tx ty in
        collide i g2 (set_ghost i g2 s)
  end.

(** The timers that run before the ghosts move. *)
Definition ghost_timers (delta : Q) (s : state) : state :=
  let s1 := set_round (fl (roundTimer s + fl (delta / 60))) (invulnerableTimer s) s in
  if Qltb 0 (frightenedTimer s1) then set_frightened (fl (frightenedTimer s1 - delta)) s1 else s1.

(** The distance a ghost moves in this frame. *)
Definition currentSpeed (delta : Q) (s : state) : Q :=
  fl ((if Qltb 0 (frightenedTimer s) then fl (ghostSpeed s * lit (45 # 100)) else ghostSpeed s) * delta).

(** [updateGhosts(delta)] *)
Definition updateGhosts (delta : Q) (rand : nat -> Q) (s : state) : state :=
  if roundTransition s then s
  else
    let s2 := ghost_timers delta s in
    fold_left (fun s0 i => ghost_step delta (currentSpeed delta s2) rand i s0) (seq 0 4) s2.

(** ** The loop and the inputs *)

Definition frame_delta (now : Q) (s : state) : Q :=
  fl (Qmin2 (fl (fl (now - lastFrameTime s) / 1000)) (lit (5 # 100)) * 60).

(** [gameLoop(now)] *)
Definition gameLoop (now : Q) (rand : nat -> Q) (s : state) : state :=
  if gameRunning s then
    let delta := frame_delta now s in
    updateGhosts delta rand (updatePacman delta (set_frame now s))
  else s.

Definition KONAMI_CODE : list jsstring :=
  js <$> ["ArrowUp"; "ArrowUp"; "ArrowDown"; "ArrowDown"; "ArrowLeft"; "ArrowRight"; "ArrowLeft"; "ArrowRight"; "b"; "a"]%string.

Definition god_banner : jsstring := js "🌟 KONAMI GOD MODE: 30 LEBEN & HYPER TURBO SPEED! 🌟".

(** [activateKonamiMode()] *)
Definition activateKonamiMode (s : state) : state :=
  updateHUD (set_lives 30 (set_konami true (konamiIndex s) (Some god_banner) s)).

Definition set_konamiIndex (n : nat) (s : state) : state := set_konami (konamiActivated s) n (banner s) s.

(** [checkKonami(key)] *)
Definition checkKonami (key : jsstring) (s : state) : state :=
  match KONAMI_CODE !! konamiIndex s with
  | Some k =>
      if seqb (lower key) (lower k) then
        if Nat.eqb (S (konamiIndex s)) (length KONAMI_CODE)
        then set_konamiIndex 0 (activateKonamiMode (set_konamiIndex (S (konamiIndex s)) s))
        else set_konamiIndex (S (konamiIndex s)) s
      else set_konamiIndex 0 s
  | None => s
  end.

(** [queueDirection(dx, dy)] *)
Definition queueDirection (dx dy : Z) (s : state) : state := set_pacman (set_desired dx dy (pacman s)) s.

(** The [switch] of the [keydown] handler. *)
Definition key_dir (key : jsstring) : option (Z * Z) :=
  let among names := existsb (fun n => seqb key (js n)) names in
  if among ["ArrowUp"; "w"; "W"]%string then Some (0, -1)%Z
  else if among ["ArrowDown"; "s"; "S"]%string then Some (0, 1)%Z
  else if among ["ArrowLeft"; "a"; "A"]%string then Some (-1, 0)%Z
  else if among ["ArrowRight"; "d"; "D"]%string then Some (1, 0)%Z
  else None.

Definition keydown (key : jsstring) (s : state) : state :=
  let s1 := checkKonami key s in
  match key_dir key with Some d => queueDirection d.1 d.2 s1 | None => s1 end.

(** The direction of a swipe by [dx], [dy] pixels ([touchend]). *)
Definition swipe (dx dy : Q) : option (Z * Z) :=
  if Qltb (Qabs dy) (Qabs dx) then
    if Qltb 15 dx then Some (1, 0)%Z else if Qltb dx (-15 # 1) then Some (-1, 0)%Z else None
  else
    if Qltb 15 dy then Some (0, 1)%Z else if Qltb dy (-15 # 1) then Some (0, -1)%Z else None.

(** The start button. *)
Definition start (now : Q) (s : state) : state :=
  let total := countPellets ORIGINAL_MAP in
  let s1 := set_over false true (set_lives (if konamiActivated s then 30 else 5) (set_score 0 s)) in
  let s2 := set_transition 1 false (banner s1) (timeouts s1) s1 in
  set_frame now (updateHUD (resetPositions (set_board ORIGINAL_MAP total total s2))).

Inductive button : Type := BtnUp | BtnDown | BtnLeft | BtnRight | BtnA | BtnB.

(** The click listeners of the on-screen pad. *)
Definition press (b : button) (s : state) : state :=
  match b with
  | BtnUp => queueDirection 0 (-1) s
  | BtnDown => queueDirection 0 1 s
  | BtnLeft => queueDirection (-1) 0 s
  | BtnRight => queueDirection 1 0 s
  | BtnA => checkKonami (js "a") s
  | BtnB => checkKonami (js "b") s
  end.

Inductive event : Type :=
| Frame (now : Q) (rand : nat -> Q)
| Key (key : jsstring)
| Press (b : button)
| Swipe (dx dy : Q)
| Start (now : Q)
| Timeout.

Definition step (s : state) (e : event) : state :=
  match e with
  | Frame now rand => gameLoop now rand s
  | Key k => keydown k s
  | Press b => press b s
  | Swipe dx dy => match swipe dx dy with Some d => queueDirection d.1 d.2 s | None => s end
  | Start now => start now s
  | Timeout => new_round s
  end.

Definition exec (s : state) (es : list event) : state := fold_left step es s.

(** The state after the script has loaded; [stored] is the saved high score. *)
Definition init (stored : option jsstring) (now : Q) : state :=
  let total := countPellets ORIGINAL_MAP in
  let hs := parseInt10 (match stored with Some v => if truthy v then v else js "0" | None => js "0" end) in
  updateHUD (State ORIGINAL_MAP 0 hs 5 1 false false false 0 0 false total total now 0 false
    (Pacman 168 282 (-1) 0 (-1) 0 (lit (1 # 5)) 1 FaceLeft)
    [Ghost Blinky 162 132 (-1) 0 false 0 0 0; Ghost Pinky 162 168 0 (-1) true (7 # 2) 0 0;
     Ghost Inky 138 168 0 (-1) true 8 0 0; Ghost Clyde 186 168 0 (-1) true 14 0 0]
    0 (Hud 0 (num_Z 0) 0 0 0) None None 0).

(** ** The board: walls stay, pellets are counted *)

Definition eaten_tile (a b : Z) : Prop := b = a \/ (is_pellet a = true /\ b = 0%Z).
Definition eaten_from (m0 m : maze) : Prop := Forall2 (Forall2 eaten_tile) m0 m.

Definition board (s : state) : maze * Z * Z := (map_ s, totalPellets s, initialPelletCount s).

Definition board_ok (s : state) : Prop :=
  eaten_from ORIGINAL_MAP (map_ s)
  /\ totalPellets s = countPellets (map_ s)
  /\ initialPelletCount s = countPellets ORIGINAL_MAP.

Lemma eaten_refl m : eaten_from m m.
Proof.
  unfold eaten_from. apply Forall_Forall2_diag, Forall_true. intros r.
  apply Forall_Forall2_diag, Forall_true. intros a. by left.
Qed.

Lemma board_ok_of s s' : board s' = board s -> board_ok s -> board_ok s'.
Proof. intros E. unfold board in E. injection E as E1 E2 E3. unfold board_ok. by rewrite E1, E2, E3. Qed.

Lemma tile_lookup m row col t :
  tile m row col = t -> (0 <= t)%Z ->
  (0 <= row)%Z /\ (0 <= col)%Z /\
  exists r, m !! Z.to_nat row = Some r /\ r !! Z.to_nat col = Some t.
Proof.
  unfold tile. destruct ((row <? 0) || (col <? 0))%Z eqn:E; [intros <-; lia|].
  bool_norm. destruct (m !! Z.to_nat row) as [r|] eqn:Er; simpl; [|intros <-; lia].
  destruct (r !! Z.to_nat col) as [t'|] eqn:Et; simpl; [|intros <-; lia].
  intros -> _. repeat split; [lia..|eauto].
Qed.

Lemma count_row_insert r i t :
  r !! i = Some t -> is_pellet t = true -> count_row r = S (count_row (<[i := 0%Z]> r)).
Proof.
  revert i. induction r as [|a r IH]; intros [|i] H Hp; simplify_eq/=.
  - unfold count_row. simpl. by rewrite Hp.
  - unfold count_row in *. simpl. destruct (is_pellet a); simpl; by rewrite (IH i).
Qed.

Lemma count_alter m i r j t :
  m !! i = Some r -> r !! j = Some t -> is_pellet t = true ->
  list_sum (count_row <$> m) = S (list_sum (count_row <$> alter (<[j := 0%Z]>) i m)).
Proof.
  revert i. induction m as [|a m IH]; intros [|i] Hi Hj Hp; simplify_eq/=.
  - rewrite (count_row_insert r j t) by done. done.
  - rewrite (IH i) by done. lia.
Qed.

Lemma eaten_alter m0 m i r j t :
  eaten_from m0 m -> m !! i = Some r -> r !! j = Some t -> is_pellet t = true ->
  eaten_from m0 (alter (<[j := 0%Z]>) i m).
Proof.
  intros H Hi Hj Hp. unfold eaten_from in *. revert i Hi.
  induction H as [|r0 r1 m0 m Hr Hm IH]; intros [|i] Hi; simplify_eq/=; constructor; auto.
  clear IH Hm. revert j Hj. induction Hr as [|a b r0 r Hab Hr IH]; intros [|j] Hj; simplify_eq/=; constructor; auto.
  right. destruct Hab as [->|[? ->]]; [done|]. done.
Qed.

Lemma set_tile_eaten m0 m row col t :
  eaten_from m0 m -> tile m row col = t -> is_pellet t = true ->
  eaten_from m0 (set_tile m row col 0) /\ countPellets (set_tile m row col 0) = (countPellets m - 1)%Z.
Proof.
  intros He Ht Hp. destruct (tile_lookup m row col t Ht) as (_ & _ & r & Hr & Hc).
  { unfold is_pellet in Hp. apply orb_true_iff in Hp as [E|E]; apply Z.eqb_eq in E; lia. }
  split; [by eapply eaten_alter|].
  assert (E : list_sum (count_row <$> m) = S (list_sum (count_row <$> set_tile m row col 0)))
    by exact (count_alter m _ r _ t Hr Hc Hp).
  unfold countPellets. rewrite E. lia.
Qed.

Lemma board_updateHUD s : board (updateHUD s) = board s.
Proof. done. Qed.
Lemma board_resetPositions s : board (resetPositions s) = board s.
Proof. done. Qed.
Lemma board_collide i g s : board (collide i g s) = board s.
Proof. unfold collide. by split_ifs. Qed.
Lemma board_queueDirection dx dy s : board (queueDirection dx dy s) = board s.
Proof. done. Qed.
Lemma board_checkKonami k s : board (checkKonami k s) = board s.
Proof. unfold checkKonami. destruct (KONAMI_CODE !! konamiIndex s); [|done]. by split_ifs. Qed.

Lemma board_ghost_step delta v rand i s : board (ghost_step delta v rand i s) = board s.
Proof.
  unfold ghost_step. destruct (ghosts s !! i) as [g|]; [|done].
  destruct (inHouse g); [by split_ifs|]. destruct (target s _ _ g) as [tx ty].
  by rewrite board_collide.
Qed.

Lemma updateGhosts_invariant (I : state -> Prop) delta rand s :
  I s -> I (ghost_timers delta s) ->
  (forall v i s0, I s0 -> I (ghost_step delta v rand i s0)) -> I (updateGhosts delta rand s).
Proof.
  intros Hs Ht Hg. unfold updateGhosts. destruct (roundTransition s); [done|].
  apply (fold_invariant _ I (fun _ => True)); auto using Forall_true.
Qed.

Lemma board_updateGhosts delta rand s : board (updateGhosts delta rand s) = board s.
Proof.
  apply (updateGhosts_invariant (fun x => board x = board s)); [done|unfold ghost_timers; by split_ifs|].
  intros v i s0 E. by rewrite board_ghost_step.
Qed.

Lemma board_ok_eat s : board_ok s -> board_ok (eat s).
Proof.
  intros (He & Ht & Hi). unfold eat. split_ifs; [| |done|done]; bool_norm.
  all: assert (Hp : is_pellet (tile (map_ s) (cell (py (pacman s))) (cell (px (pacman s)))) = true)
    by (unfold is_pellet; rewrite Heqb0 || rewrite Heqb1; done).
  all: destruct (set_tile_eaten _ _ _ _ _ He eq_refl Hp) as [He' Hc'].
  all: repeat split; cbn; [done| |done]; rewrite Hc'; lia.
Qed.

Lemma board_ok_updatePacman delta s : board_ok s -> board_ok (updatePacman delta s).
Proof.
  intros H. unfold updatePacman. set (s1 := set_pacman _ _).
  assert (H1 : board_ok (eat s1)) by (apply board_ok_eat; done).
  clearbody s1. unfold finish_round. by destruct (_ && _).
Qed.

Definition fresh_board : maze * Z * Z := (ORIGINAL_MAP, countPellets ORIGINAL_MAP, countPellets ORIGINAL_MAP).

Lemma board_ok_fresh s : board s = fresh_board -> board_ok s.
Proof.
  intros E. unfold board, fresh_board in E. apply pair_equal_spec in E as [[E1 E2]%pair_equal_spec E3].
  unfold board_ok. rewrite E1, E2, E3. repeat split. apply eaten_refl.
Qed.

Lemma board_start now s : board (start now s) = fresh_board.
Proof. reflexivity. Qed.

Lemma board_new_round s : board (new_round s) = board s \/ board (new_round s) = fresh_board.
Proof. unfold new_round. destruct (timeouts s); [by left|right; reflexivity]. Qed.

Lemma board_ok_step s e : board_ok s -> board_ok (step s e).
Proof.
  intros H. destruct e as [now rand|k|b|dx dy|now|]; cbn [step].
  - unfold gameLoop. destruct (gameRunning s); [|done].
    apply (board_ok_of _ _ (board_updateGhosts _ _ _)), board_ok_updatePacman, H.
  - pose proof (board_ok_of _ _ (board_checkKonami k s) H) as Hk.
    unfold keydown. destruct (key_dir k); [|exact Hk]. exact (board_ok_of _ _ (board_queueDirection _ _ _) Hk).
  - destruct b; try exact H; exact (board_ok_of _ _ (board_checkKonami _ s) H).
  - destruct (swipe dx dy); exact H.
  - apply board_ok_fresh, board_start.
  - destruct (board_new_round s) as [E|E]; [exact (board_ok_of _ _ E H)|exact (board_ok_fresh _ E)].
Qed.

Lemma board_ok_init stored now : board_ok (init stored now).
Proof. apply board_ok_fresh. reflexivity. Qed.

(** Whatever the player and the timers do, the remaining-pellet counter is the number
    of pellets left in the maze, and the maze is the original one in which only dots and
    energizers have been cleared: no wall, gate or house tile ever changes. *)
Theorem pellets_are_counted stored now es :
  let s := exec (init stored now) es in
  totalPellets s = countPellets (map_ s)
  /\ initialPelletCount s = countPellets ORIGINAL_MAP
  /\ eaten_from ORIGINAL_MAP (map_ s).
Proof.
  intros s. assert (H : board_ok s) by
    (apply (fold_invariant step board_ok (fun _ => True)); auto using board_ok_step, board_ok_init, Forall_true).
  destruct H as (? & ? & ?). auto.
Qed.

(** ** Pac-Man stays on the path *)

(** The squares Pac-Man may stand on, in the original maze. *)
Definition open_tile (c r : Z) : bool := isTileWalkable ORIGINAL_MAP c r false false.

Lemma eaten_tile_lookup m0 m row col :
  eaten_from m0 m -> eaten_tile (tile m0 row col) (tile m row col).
Proof.
  intros H. unfold tile. destruct (_ || _); [by left|].
  destruct (m0 !! Z.to_nat row) as [r0|] eqn:E0, (m !! Z.to_nat row) as [r|] eqn:E; simpl.
  - pose proof (Forall2_lookup_lr _ _ _ _ _ _ H E0 E) as L.
    destruct (r0 !! Z.to_nat col) eqn:F0, (r !! Z.to_nat col) eqn:F; simpl;
      [exact (Forall2_lookup_lr _ _ _ _ _ _ L F0 F)| | |by left].
    all: apply Forall2_length in L.
    + apply lookup_lt_Some in F0. apply lookup_ge_None in F. lia.
    + apply lookup_lt_Some in F. apply lookup_ge_None in F0. lia.
  - apply Forall2_length in H. apply lookup_lt_Some in E0. apply lookup_ge_None in E. lia.
  - apply Forall2_length in H. apply lookup_lt_Some in E. apply lookup_ge_None in E0. lia.
  - by left.
Qed.

Lemma walkable_eaten m c r g h :
  eaten_from ORIGINAL_MAP m -> isTileWalkable m c r g h = isTileWalkable ORIGINAL_MAP c r g h.
Proof.
  intros H. unfold isTileWalkable. do 2 (destruct (_ || _); [done|]).
  destruct (eaten_tile_lookup _ _ r c H) as [->|[Hp ->]]; [done|].
  unfold is_pellet in Hp. apply orb_true_iff in Hp as [Hp|Hp]; apply Z.eqb_eq in Hp; rewrite Hp; done.
Qed.

(** Both ends of every row are open or both are closed, so the tunnel joins open squares. *)
Lemma tunnel_ends r : open_tile 0 r = open_tile 27 r.
Proof.
  destruct (decide (0 <= r < 31)%Z) as [H|H].
  - assert (A : forallb (fun r => Bool.eqb (open_tile 0 r) (open_tile 27 r)) (seqZ 0 31) = true)
      by (vm_compute; reflexivity).
    rewrite forallb_forall in A. apply Bool.eqb_prop, A. apply list_elem_of_In, elem_of_seqZ. lia.
  - unfold open_tile, isTileWalkable, COLS, ROWS.
    replace ((r <? 0) || (31 <=? r))%Z with true; [done|]. symmetry. apply orb_true_iff.
    destruct (Z.ltb_spec r 0); [by left|right]. apply Z.leb_le. lia.
Qed.

(** *** Squares and rounding *)

Lemma cell_ge v c : (Z.abs c <= 2 ^ 20)%Z -> inject_Z c * 12 <= v -> (c <= cell v)%Z.
Proof.
  intros Hc H. unfold cell. rewrite <- (Qfloor_Z c) at 1. apply Qfloor_resp_le.
  apply (fl_ge_of _ _ (c * 1024)); [unfold Qeq; simpl; lia|lia|]. apply Qle_shift_div_l; [lra|done].
Qed.

Lemma cell_lt v c n :
  (Z.abs n <= 2 ^ 30)%Z -> n # 1024 < inject_Z c -> v <= (n # 1024) * 12 -> (cell v < c)%Z.
Proof.
  intros Hn Hc H. unfold cell.
  assert (E : fl (v / 12) <= n # 1024) by (apply fl_le; [done|apply Qle_shift_div_r; [lra|done]]).
  rewrite Zlt_Qlt. apply Qle_lt_trans with (n # 1024); [|done].
  eapply Qle_trans; [apply Qfloor_le|done].
Qed.

Lemma cell_mono v w : v <= w -> (cell v <= cell w)%Z.
Proof.
  intros H. apply Qfloor_resp_le, fl_mono. apply Qmult_le_compat_r; [done|]. unfold Qle; simpl; lia.
Qed.

(** A position lies in its square up to the rounding of the division. *)
Lemma cell_bounds v :
  (Z.abs (cell v) <= 2 ^ 19)%Z ->
  inject_Z (cell v) * 12 - (1 # 64) < v /\ v < inject_Z (cell v) * 12 + 12.
Proof.
  set (c := cell v). intros Hc. split.
  - apply Qnot_le_lt. intros H. assert (cell v < c)%Z; [|subst c; lia].
    apply (cell_lt v c (c * 1024 - 1)); [lia| |].
    + unfold Qlt; simpl; lia.
    + assert (E : (c * 1024 - 1 # 1024) == inject_Z c - (1 # 1024)) by (unfold Qeq; simpl; lia).
      rewrite E. lra.
  - apply Qnot_le_lt. intros H. assert (c + 1 <= cell v)%Z; [|subst c; lia].
    apply cell_ge; [lia|]. rewrite inject_Z_plus. change (inject_Z 1) with 1. lra.
Qed.

Lemma centre_eq c : (Z.abs c <= 2 ^ 14)%Z -> centre c == inject_Z c * 12 + 6.
Proof.
  intros H. unfold centre.
  rewrite (fl_of (inject_Z c * 12) (c * 12 * 1024)); [|unfold Qeq; simpl; lia|lia].
  apply (fl_of _ ((c * 12 + 6) * 1024)); [unfold Qeq; simpl; lia|lia].
Qed.

(** One step along an axis: where it can end, for a step of at most 11/2 pixels. *)
Definition advance (v : Q) (d : Z) (m : Q) : Q := fl (v + fl (inject_Z d * m)).

Lemma advance_up v m c k :
  fl v == v -> 0 <= m <= 11 # 2 -> (Z.abs c <= 2 ^ 10)%Z -> (Z.abs k <= 2 ^ 10)%Z ->
  v <= inject_Z c * 12 + (k - 11 # 2) ->
  v <= advance v 1 m /\ advance v 1 m <= inject_Z c * 12 + (k # 2).
Proof.
  intros Hv [Hm0 Hm] Hc Hk H.
  assert (E : inject_Z 1 * m == m) by (change (inject_Z 1) with 1; ring).
  assert (M : 0 <= fl (inject_Z 1 * m) <= 11 # 2).
  { split; [apply (fl_ge_of _ _ 0)|apply (fl_le_of _ _ 5632)]; rewrite ?E; done || lia. }
  assert (K : (k - 11 # 2) == (k # 2) - (11 # 2)) by (unfold Qeq; simpl; lia).
  rewrite K in H. unfold advance. split.
  - rewrite <- Hv at 1. apply fl_mono. lra.
  - apply (fl_le_of _ _ ((c * 24 + k) * 512)); [unfold Qeq; simpl; lia|lia|lra].
Qed.

Lemma advance_down v m c k :
  fl v == v -> 0 <= m <= 11 # 2 -> (Z.abs c <= 2 ^ 10)%Z -> (Z.abs k <= 2 ^ 10)%Z ->
  inject_Z c * 12 + (k + 11 # 2) - (1 # 64) <= v ->
  advance v (-1) m <= v /\ inject_Z c * 12 + (k # 2) - (1 # 64) <= advance v (-1) m.
Proof.
  intros Hv [Hm0 Hm] Hc Hk H.
  assert (E : inject_Z (-1) * m == - m) by (change (inject_Z (-1)) with (-1); ring).
  assert (M : - (11 # 2) <= fl (inject_Z (-1) * m) <= 0).
  { split; [apply (fl_ge_of _ _ (-5632))|apply (fl_le_of _ _ 0)]; rewrite ?E; done || lia || lra. }
  assert (K : (k + 11 # 2) == (k # 2) + (11 # 2)) by (unfold Qeq; simpl; lia).
  rewrite K in H. unfold advance. split.
  - rewrite <- Hv at 2. apply fl_mono. lra.
  - apply (fl_ge_of _ _ ((c * 24 + k) * 512 - 16)); [unfold Qeq; simpl; lia|lia|lra].
Qed.

Lemma cell_below v c n :
  (Z.abs c <= 2 ^ 10)%Z -> (0 <= n < 24)%Z -> v <= inject_Z c * 12 + (n # 2) -> (cell v <= c)%Z.
Proof.
  intros Hc Hn H. enough (cell v < c + 1)%Z by lia.
  apply (cell_lt v (c + 1) (c * 1024 + 1023)); [lia|unfold Qlt; simpl; lia|].
  assert (E : (c * 1024 + 1023 # 1024) == inject_Z c + (1023 # 1024)) by (unfold Qeq; simpl; lia).
  assert (n # 2 <= 23 # 2) by (unfold Qle; simpl; lia).
  rewrite E. lra.
Qed.

(** What one step along an axis can do to the square: stay or enter the next one, and stay
    when the step starts before the centre line. *)
Lemma advance_cell v d m :
  (Z.abs (cell v) <= 2 ^ 9)%Z -> fl v == v -> 0 <= m <= 11 # 2 -> (d = 1 \/ d = -1)%Z ->
  (cell (advance v d m) = cell v \/ cell (advance v d m) = cell v + d)%Z
  /\ ((d = 1)%Z -> v < centre (cell v) ->
      cell (advance v d m) = cell v)
  /\ ((d = -1)%Z -> centre (cell v) < v -> cell (advance v d m) = cell v)
  /\ inject_Z (cell v) * 12 - 6 <= advance v d m <= inject_Z (cell v) * 12 + 18.
Proof.
  intros Hc Hv Hm Hd. destruct (cell_bounds v) as [B1 B2]; [lia|].
  rewrite (centre_eq (cell v)) by lia. set (c := cell v) in *. destruct Hd as [-> | ->].
  - destruct (advance_up v m c 35 Hv Hm) as [L U]; [lia|lia|change (35 - 11 # 2) with (24 # 2); lra|].
    pose proof (cell_mono _ _ L) as Lc. fold c in Lc.
    assert (Uc : (cell (advance v 1 m) <= c + 1)%Z).
    { apply (cell_below _ _ 11); [lia|lia|]. rewrite inject_Z_plus. change (inject_Z 1) with 1. lra. }
    split; [lia|split; [intros _ H|split; [done|lra]]].
    destruct (advance_up v m c 23 Hv Hm) as [_ U2]; [lia|lia|change (23 - 11 # 2) with (12 # 2); lra|].
    pose proof (cell_below _ c 23 ltac:(lia) ltac:(lia) U2). lia.
  - destruct (advance_down v m c (-11) Hv Hm) as [L U]; [lia|lia|change (-11 + 11 # 2) with (0 # 2); lra|].
    pose proof (cell_mono _ _ L) as Lc. fold c in Lc.
    assert (Uc : (c - 1 <= cell (advance v (-1) m))%Z).
    { apply cell_ge; [lia|]. unfold Z.sub. rewrite inject_Z_plus. change (inject_Z (- (1))) with (-1). lra. }
    split; [lia|split; [done|split; [intros _ H|lra]]].
    destruct (advance_down v m c 1 Hv Hm) as [_ U2]; [lia|lia|change (1 + 11 # 2) with (12 # 2); lra|].
    assert (c <= cell (advance v (-1) m))%Z; [|lia]. apply cell_ge; [lia|lra].
Qed.

Lemma cell_is v c n : (Z.abs c <= 2 ^ 10)%Z -> (0 <= n < 24)%Z -> v == inject_Z c * 12 + (n # 2) -> cell v = c.
Proof.
  intros Hc Hn E. assert (0 <= n # 2) by (unfold Qle; simpl; lia).
  pose proof (cell_below v c n Hc Hn ltac:(lra)). pose proof (cell_ge v c ltac:(lia) ltac:(lra)). lia.
Qed.

Lemma cell_centre c : (Z.abs c <= 2 ^ 10)%Z -> cell (centre c) = c.
Proof. intros H. apply (cell_is _ c 12); [done|lia|]. rewrite centre_eq by lia. lra. Qed.

Lemma fl_centre c : fl (centre c) == centre c.
Proof. apply fl_idem. Qed.

(** *** The invariant *)

Definition unit_dir (dx dy : Z) : Prop := In (dx, dy) ((0, 0)%Z :: all_dirs).

Record on_path (p : pacman_t) : Prop := {
  op_open : open_tile (cell (px p)) (cell (py p)) = true;
  op_x : 0 <= px p <= 330;
  op_flx : fl (px p) == px p;
  op_fly : fl (py p) == py p;
  op_dir : unit_dir (dirX p) (dirY p);
  op_desired : unit_dir (desiredDirX p) (desiredDirY p);
}.

Lemma unit_zero : unit_dir 0 0.
Proof. by left. Qed.

Lemma on_path_col p : on_path p -> (0 <= cell (px p) <= 27)%Z.
Proof.
  intros H. destruct (op_x p H). split; [apply cell_ge; [lia|change (inject_Z 0) with 0; lra]|].
  apply (cell_below _ _ 12); [lia|lia|]. change (inject_Z 27) with 27. lra.
Qed.

Lemma open_row c r : (0 <= c <= 27)%Z -> open_tile c r = true -> (0 <= r <= 30)%Z.
Proof.
  intros Hc. unfold open_tile, isTileWalkable, COLS, ROWS.
  replace ((c <? 0) || (28 <=? c))%Z with false by (symmetry; apply orb_false_iff; split; [apply Z.ltb_ge|apply Z.leb_gt]; lia).
  destruct ((r <? 0) || (31 <=? r))%Z eqn:E; [done|]. bool_norm. lia.
Qed.

Lemma on_path_row p : on_path p -> (0 <= cell (py p) <= 30)%Z.
Proof. intros H. apply (open_row (cell (px p))); [by apply on_path_col|apply H]. Qed.

(** Snapping to the centre of the square keeps the square. *)
Lemma on_path_snap p :
  on_path p -> on_path (set_pos (centre (cell (px p))) (centre (cell (py p))) p).
Proof.
  intros H. pose proof (on_path_col p H). pose proof (on_path_row p H).
  constructor; cbn; try apply H; try apply fl_centre.
  - rewrite !cell_centre by lia. apply H.
  - rewrite centre_eq by lia. assert (0 <= inject_Z (cell (px p)) <= 27); [|lra].
    change 27 with (inject_Z 27). change 0 with (inject_Z 0). rewrite <- !Zle_Qle. lia.
Qed.

Lemma on_path_set_dir dx dy p : unit_dir dx dy -> on_path p -> on_path (set_dir dx dy p).
Proof. intros Hd []. by constructor. Qed.

Lemma on_path_set_desired dx dy p : unit_dir dx dy -> on_path p -> on_path (set_desired dx dy p).
Proof. intros Hd []. by constructor. Qed.

(** The square is the same and Pac-Man is on it. *)
Definition same_cell (p p' : pacman_t) : Prop :=
  on_path p' /\ cell (px p') = cell (px p) /\ cell (py p') = cell (py p).

Lemma same_cell_snap p : on_path p -> same_cell p (set_pos (centre (cell (px p))) (centre (cell (py p))) p).
Proof.
  intros H. pose proof (on_path_col p H). pose proof (on_path_row p H).
  split; [by apply on_path_snap|]. cbn. by rewrite !cell_centre by lia.
Qed.

Lemma same_cell_take_desired p p' :
  same_cell p p' -> same_cell p (set_desired 0 0 (set_dir (desiredDirX p') (desiredDirY p') p')).
Proof.
  intros (H & E). split; [|done].
  apply on_path_set_desired; [apply unit_zero|]. apply on_path_set_dir; [apply H|done].
Qed.

Lemma desired_turn_ok m p moveDist :
  on_path p ->
  same_cell p (desired_turn m (cell (px p)) (cell (py p)) (centre (cell (px p))) (centre (cell (py p))) moveDist p).
Proof.
  intros H. assert (H0 : same_cell p p) by done. unfold desired_turn. split_ifs; try done.
  - by apply same_cell_take_desired.
  - apply (same_cell_take_desired p (set_pos _ _ p)), same_cell_snap, H.
Qed.

(** The way ahead is open, or the step ends before the far side of the square. *)
Definition clear_ahead (p : pacman_t) : Prop :=
  open_tile (cell (px p) + dirX p) (cell (py p) + dirY p) = true
  \/ (dirX p = 1%Z /\ px p < centre (cell (px p)))
  \/ (dirX p = (-1)%Z /\ centre (cell (px p)) < px p)
  \/ (dirY p = 1%Z /\ py p < centre (cell (py p)))
  \/ (dirY p = (-1)%Z /\ centre (cell (py p)) < py p).


Lemma first_open_dir (m : maze) c r (l : list (Z * Z)) d l' :
  List.filter (walkable_dir m c r) l = d :: l' -> In d l /\ isTileWalkable m (c + d.1) (r + d.2) false false = true.
Proof. intros E. apply (filter_In (walkable_dir m c r)). rewrite E. by left. Qed.

Lemma wall_turn_ok m p :
  eaten_from ORIGINAL_MAP m -> on_path p ->
  let p' := wall_turn m (cell (px p)) (cell (py p)) (centre (cell (px p))) (centre (cell (py p))) p in
  same_cell p p' /\ clear_ahead p'.
Proof.
  intros Hm H p'. assert (Hw : forall c r, isTileWalkable m c r false false = open_tile c r)
    by (intros; by apply walkable_eaten).
  pose proof (same_cell_snap p H) as Hs. subst p'. unfold wall_turn. rewrite !Hw.
  destruct (open_tile (cell (px p) + dirX p) (cell (py p) + dirY p)) eqn:Ho; [split; [done|by left]|].
  match goal with |- context [if ?b then _ else p] => destruct b eqn:Hb end.
  - set (p1 := set_pos _ _ p) in *. destruct (negb _ && _) eqn:Hd.
    + split; [by apply (same_cell_take_desired p p1)|]. left. destruct Hs as (_ & E1 & E2).
      apply andb_true_iff in Hd as [_ Hd]. change (open_tile (cell (px p1) + desiredDirX p) (cell (py p1) + desiredDirY p) = true).
      by rewrite E1, E2.
    + destruct (List.filter _ _) as [|d ds] eqn:Hf.
      * destruct Hs as (Hs & E1 & E2). split; [split; [apply on_path_set_dir; [apply unit_zero|done]|done]|].
        left. change (open_tile (cell (px p1) + 0) (cell (py p1) + 0) = true).
        rewrite !Z.add_0_r. apply Hs.
      * apply first_open_dir in Hf as [Hin Hd']. rewrite Hw in Hd'. destruct Hs as (Hs & E1 & E2). split.
        -- split; [apply on_path_set_dir; [|done]|done]. right.
           destruct (negb (dirX p =? 0)%Z); destruct Hin as [<-|[<-|[]]]; simpl; tauto.
        -- left. change (open_tile (cell (px p1) + d.1) (cell (py p1) + d.2) = true). by rewrite E1, E2.
  - split; [done|]. apply orb_false_iff in Hb as [Hb H0]. apply orb_false_iff in Hb as [Hx Hy].
    apply orb_false_iff in Hx as [Hx1 Hx2]. apply orb_false_iff in Hy as [Hy1 Hy2].
    destruct (op_dir p H) as [E|[E|[E|[E|[E|[]]]]]]; injection E as Ex Ey;
      unfold clear_ahead; rewrite <- Ex, <- Ey in *; cbn in Hx1, Hx2, Hy1, Hy2, H0; try discriminate H0; q_norm; tauto.
Qed.

(** *** The move *)

Lemma warp_id x : 0 <= x <= 324 -> warp x = x.
Proof.
  intros [H1 H2]. unfold warp. destruct (Qltb x 0) eqn:E; q_norm; [lra|].
  destruct (Qltb 324 x) eqn:E'; q_norm; [lra|done].
Qed.

Lemma warp_low x : x < 0 -> warp x = 324.
Proof. intros H. unfold warp. apply Qltb_lt in H. by rewrite H. Qed.

Lemma warp_high x : 324 < x -> warp x = 0.
Proof.
  intros H. unfold warp. replace (Qltb x 0) with false by (symmetry; apply Qltb_ge; lra).
  apply Qltb_lt in H. by rewrite H.
Qed.

Definition good_x (x : Q) (r : Z) : Prop :=
  open_tile (cell x) r = true /\ 0 <= x <= 330 /\ fl x == x.

Lemma good_x_0 r : open_tile 0 r = true -> good_x 0 r.
Proof.
  intros H. repeat split; [|lra|lra|by apply (fl_of 0 0)].
  rewrite (cell_is 0 0 0); [done|lia|lia|reflexivity].
Qed.

Lemma good_x_324 r : open_tile 27 r = true -> good_x 324 r.
Proof.
  intros H. repeat split; [|lra|lra|by apply (fl_of 324 331776)].
  rewrite (cell_is 324 27 0); [done|lia|lia|reflexivity].
Qed.

Lemma move_x x r d m :
  good_x x r -> 0 <= m <= 11 # 2 -> (d = 1 \/ d = -1)%Z ->
  open_tile (cell x + d) r = true \/ (d = 1%Z /\ x < centre (cell x)) \/ (d = (-1)%Z /\ centre (cell x) < x) ->
  good_x (warp (advance x d m)) r.
Proof.
  intros (Ho & Hx & Hf) Hm Hd Hc.
  assert (Hcell : (0 <= cell x <= 27)%Z).
  { split; [apply cell_ge; [lia|change (inject_Z 0) with 0; lra]|].
    apply (cell_below _ _ 12); [lia|lia|]. change (inject_Z 27) with 27. lra. }
  destruct (advance_cell x d m) as (A1 & A2 & A3 & A4); [lia|done|done|done|].
  assert (Hn : cell (advance x d m) = cell x \/ (cell (advance x d m) = cell x + d)%Z /\ open_tile (cell x + d) r = true).
  { destruct Hc as [Hc|[[E Hc]|[E Hc]]]; [|by auto..]. destruct A1; auto. }
  destruct (Qlt_le_dec (advance x d m) 0) as [L|L]; [|destruct (Qlt_le_dec 324 (advance x d m)) as [U|U]].
  - rewrite warp_low by done. apply good_x_324. rewrite <- tunnel_ends.
    assert (cell x = 0)%Z as <-; [|done].
    destruct (Z.le_gt_cases 1 (cell x)) as [H1|]; [|lia]. rewrite Zle_Qle in H1. change (inject_Z 1) with 1 in H1. lra.
  - rewrite warp_high by done. apply good_x_0. rewrite tunnel_ends.
    assert (H26 : (26 <= cell x)%Z).
    { destruct (Z.le_gt_cases 26 (cell x)) as [|H1]; [done|]. assert (H2 : (cell x <= 25)%Z) by lia.
      rewrite Zle_Qle in H2. change (inject_Z 25) with 25 in H2. lra. }
    assert (H27 : (27 <= cell (advance x d m))%Z) by (apply cell_ge; [lia|change (inject_Z 27) with 27; lra]).
    destruct Hn as [E|[E Ho']]; [replace 27%Z with (cell x) by lia; done|].
    destruct (Z.eq_dec (cell x) 27%Z) as [<-|]; [done|]. replace 27%Z with (cell x + d)%Z by lia. done.
  - rewrite warp_id by lra. repeat split; [|lra|lra|apply fl_idem]. destruct Hn as [-> |[-> ?]]; done.
Qed.

(** Vertically the column stays, also where its centre lies beyond the tunnel. *)
Lemma move_y_column c r : (0 <= c <= 27)%Z -> open_tile c r = true -> good_x (warp (centre c)) r.
Proof.
  intros Hc Ho. assert (Hcq : 0 <= inject_Z c <= 27) by (change 0 with (inject_Z 0); change 27 with (inject_Z 27); rewrite <- !Zle_Qle; lia).
  destruct (Z.eq_dec c 27%Z) as [->|Hne].
  - rewrite warp_high by (rewrite centre_eq by lia; change (inject_Z 27) with 27; lra).
    apply good_x_0. by rewrite tunnel_ends.
  - assert (H26 : inject_Z c <= 26) by (change 26 with (inject_Z 26); rewrite <- Zle_Qle; lia).
    rewrite warp_id by (rewrite centre_eq by lia; lra). repeat split; [by rewrite cell_centre by lia| | |apply fl_centre];
      rewrite centre_eq by lia; lra.
Qed.

Lemma move_y y c d m :
  open_tile c (cell y) = true -> (0 <= c <= 27)%Z -> fl y == y -> 0 <= m <= 11 # 2 -> (d = 1 \/ d = -1)%Z ->
  open_tile c (cell y + d) = true \/ (d = 1%Z /\ y < centre (cell y)) \/ (d = (-1)%Z /\ centre (cell y) < y) ->
  open_tile c (cell (advance y d m)) = true.
Proof.
  intros Ho Hc Hf Hm Hd Ha. pose proof (open_row c _ Hc Ho).
  destruct (advance_cell y d m) as (A1 & A2 & A3 & _); [lia|done|done|done|].
  destruct Ha as [Ha|[[E Ha]|[E Ha]]]; [destruct A1 as [-> | ->]; done|rewrite (A2 E Ha); done|rewrite (A3 E Ha); done].
Qed.

Lemma move_ok p m delta lvl :
  on_path p -> clear_ahead p -> 0 <= m <= 11 # 2 ->
  on_path (move (centre (cell (px p))) (centre (cell (py p))) m delta lvl p).
Proof.
  intros H Hc Hm. pose proof (on_path_col p H). pose proof (on_path_row p H). unfold move.
  assert (Hg : good_x (px p) (cell (py p))) by (destruct H; done).
  fold (advance (px p) (dirX p) m) (advance (py p) (dirY p) m).
  destruct (op_dir p H) as [E|E]; [injection E as Ex Ey; rewrite <- Ex, <- Ey; done|].
  assert (Hcase : (dirX p = 1 \/ dirX p = -1)%Z /\ dirY p = 0%Z \/ dirX p = 0%Z /\ (dirY p = 1 \/ dirY p = -1)%Z).
  { destruct E as [E|[E|[E|[E|[]]]]]; injection E as Ex Ey; lia. }
  clear E. unfold clear_ahead in Hc. destruct Hcase as [[Hx Hy]|[Hx Hy]].
  - replace (dirX p =? 0)%Z with false by (symmetry; apply Z.eqb_neq; lia). cbn [andb negb].
    assert (G : good_x (warp (advance (px p) (dirX p) m)) (cell (py p))).
    { apply move_x; [done|done|done|]. rewrite Hy, Z.add_0_r in Hc. destruct Hc as [?|[?|[?|[[? _]|[? _]]]]]; auto; lia. }
    destruct G as (G1 & G2 & G3). constructor; cbn; try apply H; try done; [|apply fl_centre].
    by rewrite cell_centre by lia.
  - replace (dirX p =? 0)%Z with true by (by rewrite Hx). cbn [andb negb]. replace (dirY p =? 0)%Z with false by (symmetry; apply Z.eqb_neq; lia).
    assert (Ho : open_tile (cell (px p)) (cell (advance (py p) (dirY p) m)) = true).
    { apply move_y; [apply H|done|apply H|done|done|]. rewrite Hx, Z.add_0_r in Hc.
      destruct Hc as [?|[[? _]|[[? _]|[?|?]]]]; auto; lia. }
    destruct (move_y_column _ _ ltac:(eassumption) Ho) as (G1 & G2 & G3).
    constructor; cbn; try apply H; try done. apply fl_idem.
Qed.

(** *** The whole game *)

(** The distance of a frame. *)
Definition frame_dist (now : Q) (s : state) : Q := fl (pacmanSpeed s * frame_delta now s).

Definition frame_ok (s : state) (e : event) : Prop :=
  match e with Frame now _ => 0 <= frame_dist now s <= 11 # 2 | _ => True end.

(** Every frame of the run moves Pac-Man by at most 11/2 pixels, less than half a square. *)
Fixpoint smooth (s : state) (es : list event) : Prop :=
  match es with
  | [] => True
  | e :: r => frame_ok s e /\ smooth (step s e) r
  end.

Definition path_ok (s : state) : Prop := on_path (pacman s) /\ board_ok s.

Lemma on_path_start p : on_path (pacman_start p).
Proof.
  constructor; cbn.
  - rewrite (cell_is 168 14 0), (cell_is 282 23 12); [vm_compute; reflexivity|lia|lia|reflexivity|lia|lia|reflexivity].
  - lra.
  - by apply (fl_of 168 172032).
  - by apply (fl_of 282 288768).
  - simpl. tauto.
  - simpl. tauto.
Qed.

Lemma pacman_collide i g s : pacman (collide i g s) = pacman s \/ pacman (collide i g s) = pacman_start (pacman s).
Proof. unfold collide. split_ifs; auto. Qed.

Lemma pacman_ghost_step delta v rand i s :
  pacman (ghost_step delta v rand i s) = pacman s
  \/ pacman (ghost_step delta v rand i s) = pacman_start (pacman s).
Proof.
  unfold ghost_step. destruct (ghosts s !! i) as [g|]; [|by left].
  destruct (inHouse g); [split_ifs; by left|]. destruct (target s _ _ g) as [tx ty].
  match goal with |- context [collide i ?g' ?s'] => destruct (pacman_collide i g' s') as [E|E]; auto end.
Qed.

Lemma on_path_updateGhosts delta rand s : on_path (pacman s) -> on_path (pacman (updateGhosts delta rand s)).
Proof.
  intros H. apply (updateGhosts_invariant (fun x => on_path (pacman x))); [done|unfold ghost_timers; by split_ifs|].
  intros v i s0 H0. destruct (pacman_ghost_step delta v rand i s0) as [-> | ->]; [done|apply on_path_start].
Qed.

Lemma pacman_eat s : pacman (eat s) = pacman s.
Proof. unfold eat. by split_ifs. Qed.

Lemma pacman_finish_round s : pacman (finish_round s) = pacman s.
Proof. unfold finish_round. by destruct (_ && _). Qed.

Lemma pacman_updatePacman delta s :
  pacman (updatePacman delta s) =
    let c := cell (px (pacman s)) in let r := cell (py (pacman s)) in
    let m := fl (pacmanSpeed s * delta) in
    move (centre c) (centre r) m delta (level s)
      (wall_turn (map_ s) c r (centre c) (centre r)
        (desired_turn (map_ s) c r (centre c) (centre r) m (pacman s))).
Proof. unfold updatePacman. by rewrite pacman_finish_round, pacman_eat. Qed.

Lemma on_path_updatePacman delta s :
  path_ok s -> 0 <= fl (pacmanSpeed s * delta) <= 11 # 2 -> on_path (pacman (updatePacman delta s)).
Proof.
  intros [H (Hm & _ & _)] Hd. rewrite pacman_updatePacman. cbv zeta.
  destruct (desired_turn_ok (map_ s) (pacman s) (fl (pacmanSpeed s * delta)) H) as (H1 & E1 & E2).
  set (p1 := desired_turn _ _ _ _ _ _ _) in *. rewrite <- E1, <- E2.
  destruct (wall_turn_ok (map_ s) p1 Hm H1) as [(H2 & F1 & F2) Hc].
  set (p2 := wall_turn _ _ _ _ _ _) in *. rewrite <- F1, <- F2. by apply move_ok.
Qed.

Lemma pacman_checkKonami k s : pacman (checkKonami k s) = pacman s.
Proof. unfold checkKonami. destruct (KONAMI_CODE !! konamiIndex s); [|done]. by split_ifs. Qed.

Lemma on_path_queue dx dy s : unit_dir dx dy -> on_path (pacman s) -> on_path (pacman (queueDirection dx dy s)).
Proof. intros Hu H. by apply on_path_set_desired. Qed.

Lemma key_dir_unit k d : key_dir k = Some d -> unit_dir d.1 d.2.
Proof.
  unfold key_dir. intros H. cbv zeta in H.
  repeat match type of H with (if ?b then _ else _) = _ => destruct b end;
    try discriminate H; injection H as <-; unfold unit_dir; simpl; tauto.
Qed.

Lemma swipe_unit dx dy d : swipe dx dy = Some d -> unit_dir d.1 d.2.
Proof. unfold swipe. intros H. split_ifs; simplify_eq; unfold unit_dir; simpl; tauto. Qed.

Lemma pacman_new_round s :
  pacman (new_round s) = pacman s \/ pacman (new_round s) = pacman_start (pacman s).
Proof. unfold new_round. destruct (timeouts s); [by left|by right]. Qed.

Lemma pacman_restart now s : pacman (start now s) = pacman_start (pacman s).
Proof. reflexivity. Qed.

Lemma path_ok_step s e :
  frame_ok s e -> path_ok s -> path_ok (step s e).
Proof.
  intros He [H Hb]. split; [|by apply board_ok_step].
  destruct e as [now rand|k|b|dx dy|now|]; cbn [step].
  - unfold gameLoop. destruct (gameRunning s); [|done].
    apply on_path_updateGhosts, on_path_updatePacman; done.
  - unfold keydown. pose proof (pacman_checkKonami k s) as Ek.
    destruct (key_dir k) as [d|] eqn:Ed; [|by rewrite Ek]. apply on_path_queue; [by apply (key_dir_unit k)|by rewrite Ek].
  - destruct b; cbn [press]; try (apply on_path_queue; [unfold unit_dir; simpl; tauto|done]); by rewrite pacman_checkKonami.
  - destruct (swipe dx dy) as [d|] eqn:Ed; [|done]. apply on_path_queue; [by apply (swipe_unit dx dy)|done].
  - rewrite pacman_restart. apply on_path_start.
  - destruct (pacman_new_round s) as [-> | ->]; [done|apply on_path_start].
Qed.

Lemma path_ok_exec es : forall s, smooth s es -> path_ok s -> path_ok (exec s es).
Proof.
  induction es as [|e es IH]; intros s Hs H; [done|]. destruct Hs as [He Hs].
  apply IH; [done|]. by apply path_ok_step.
Qed.

Lemma path_ok_init stored now : path_ok (init stored now).
Proof.
  split; [|apply board_ok_init].
  exact (on_path_start (Pacman 168 282 (-1) 0 (-1) 0 (lit (1 # 5)) 1 FaceLeft)).
Qed.

(** C19: As long as no frame moves Pac-Man by more than 11/2 pixels (at the top speed of 3
    pixels per tick that is a rate of 33 frames per second, at the 4.2 of the cheat code one
    of 46), he never stands on a wall,
    gate or house tile and never leaves the canvas, whatever keys, swipes, ghosts and
    timers do. *)
Theorem pacman_never_enters_a_wall stored now es :
  smooth (init stored now) es ->
  let s := exec (init stored now) es in
  isTileWalkable (map_ s) (cell (px (pacman s))) (cell (py (pacman s))) false false = true
  /\ (0 <= cell (px (pacman s)) < COLS)%Z /\ (0 <= cell (py (pacman s)) < ROWS)%Z.
Proof.
  intros Hs s. destruct (path_ok_exec es _ Hs (path_ok_init stored now)) as [H (Hm & _)]. fold s in H, Hm.
  rewrite (walkable_eaten _ _ _ _ _ Hm). pose proof (on_path_col _ H). pose proof (on_path_row _ H).
  unfold COLS, ROWS. repeat split; [apply H|lia..].
Qed.

(** ** Scores *)

(** The high score is a number that has not fallen below the initial one, and the last
    value stored is the current one. *)
Definition tracked (h0 : Q) (s : state) : Prop :=
  exists h, highScore s = Fin h /\ h0 <= h
    /\ match saved s with None => h = h0 | Some z => h = inject_Z z end.

Definition score_ok (h0 : Q) (s : state) : Prop :=
  tracked h0 s /\ match highScore s with Fin h => inject_Z (score s) <= h | _ => False end.

Lemma score_ok_HUD h0 s : tracked h0 s -> score_ok h0 (updateHUD s).
Proof.
  intros (h & E & Hle & Hs). unfold score_ok, tracked, updateHUD. cbn. rewrite E. unfold num_Z, num_lt.
  destruct (Qltb h (inject_Z (score s))) eqn:L; q_norm.
  - split; [exists (inject_Z (score s)); repeat split; lra|lra].
  - split; [exists h; auto|done].
Qed.

Lemma tracked_reset h0 s : tracked h0 s -> tracked h0 (resetPositions s).
Proof. done. Qed.
Lemma tracked_board h0 m a b s : tracked h0 s -> tracked h0 (set_board m a b s).
Proof. done. Qed.
Lemma tracked_transition h0 a b c d s : tracked h0 s -> tracked h0 (set_transition a b c d s).
Proof. done. Qed.
Lemma score_ok_frame h0 t s : score_ok h0 s -> score_ok h0 (set_frame t s).
Proof. done. Qed.

Lemma score_ok_of h0 s s' :
  highScore s' = highScore s -> saved s' = saved s -> score s' = score s -> score_ok h0 s -> score_ok h0 s'.
Proof. intros E1 E2 E3. unfold score_ok, tracked. by rewrite E1, E2, E3. Qed.

Lemma score_ok_collide h0 i g s : score_ok h0 s -> score_ok h0 (collide i g s).
Proof.
  intros H. pose proof (proj1 H) as Ht. unfold collide. split_ifs; try done.
  - by apply score_ok_HUD.
  - apply (score_ok_of _ (updateHUD (set_lives (lives s - 1) s))); [done..|]. by apply score_ok_HUD.
  - apply (score_ok_of _ (updateHUD (set_lives (lives s - 1) s))); [done..|]. by apply score_ok_HUD.
Qed.

Lemma score_ok_ghost_step h0 delta v rand i s : score_ok h0 s -> score_ok h0 (ghost_step delta v rand i s).
Proof.
  intros H. unfold ghost_step. destruct (ghosts s !! i) as [g|]; [|done].
  destruct (inHouse g); [by split_ifs|]. destruct (target s _ _ g) as [tx ty].
  by apply score_ok_collide.
Qed.

Lemma score_ok_updatePacman h0 delta s : score_ok h0 s -> score_ok h0 (updatePacman delta s).
Proof.
  intros H. unfold updatePacman. set (s1 := set_pacman _ _).
  assert (H1 : score_ok h0 s1) by done. clearbody s1. pose proof (proj1 H1) as Ht.
  assert (H2 : score_ok h0 (eat s1)) by (unfold eat; split_ifs; try done; by apply score_ok_HUD).
  unfold finish_round. by destruct (_ && _).
Qed.

Lemma score_ok_checkKonami h0 k s : score_ok h0 s -> score_ok h0 (checkKonami k s).
Proof.
  intros H. unfold checkKonami. destruct (KONAMI_CODE !! konamiIndex s); [|done].
  destruct (seqb _ _); [|done]. destruct (Nat.eqb _ _); [|done].
  apply (score_ok_of _ (activateKonamiMode (set_konamiIndex (S (konamiIndex s)) s))); [done..|].
  apply score_ok_HUD, H.
Qed.

Lemma score_ok_step h0 s e : score_ok h0 s -> score_ok h0 (step s e).
Proof.
  intros H. pose proof (proj1 H) as Ht. destruct e as [now rand|k|b|dx dy|now|]; cbn [step].
  - unfold gameLoop. destruct (gameRunning s); [|done].
    assert (H1 : score_ok h0 (updatePacman (frame_delta now s) (set_frame now s))) by (by apply score_ok_updatePacman).
    apply updateGhosts_invariant; [done|unfold ghost_timers; by split_ifs|]. intros. by apply score_ok_ghost_step.
  - pose proof (score_ok_checkKonami h0 k s H) as Hk. unfold keydown. by destruct (key_dir k).
  - destruct b; try done; by apply score_ok_checkKonami.
  - by destruct (swipe dx dy).
  - unfold start. cbv zeta. apply score_ok_frame, score_ok_HUD, tracked_reset, tracked_board, tracked_transition, Ht.
  - unfold new_round. destruct (timeouts s); [done|]. apply score_ok_HUD, tracked_transition, tracked_reset, tracked_board, Ht.
Qed.

(** When the stored high score is a number, the high score shown is always at least
    the score and the stored one, it never decreases below what was stored, and what
    [localStorage] holds is the value shown. *)
Theorem high_score_is_kept stored now h0 es :
  parseInt10 stored = Fin h0 -> truthy stored = true ->
  let s := exec (init (Some stored) now) es in
  exists h, highScore s = Fin h /\ h0 <= h /\ inject_Z (score s) <= h
    /\ match saved s with None => h = h0 | Some z => h = inject_Z z end.
Proof.
  intros Hp Ht s.
  assert (H : score_ok h0 s).
  { apply (fold_invariant step (score_ok h0) (fun _ => True)); auto using score_ok_step, Forall_true.
    unfold init. cbv zeta. rewrite Ht, Hp. apply score_ok_HUD. exists h0. repeat split. lra. }
  destruct H as [(h & E & Hle & Hs) Hsc]. rewrite E in Hsc. eauto.
Qed.

(** ** Lives *)

(** What decides whether a frame runs and how many lives are left. *)
Definition alive (s : state) : Prop := gameRunning s = true -> (0 < lives s)%Z /\ gameOver s = false.

(** During the ghosts' turn: no life lost yet, or one lost and the grace period running,
    or the game is over. *)
Definition life_lost (n : Z) (s : state) : Prop :=
  lives s = n \/ (lives s = (n - 1)%Z /\ 0 < invulnerableTimer s) \/ gameOver s = true.

Lemma alive_of s s' :
  lives s' = lives s -> gameOver s' = gameOver s -> gameRunning s' = gameRunning s -> alive s -> alive s'.
Proof. intros E1 E2 E3. unfold alive. by rewrite E1, E2, E3. Qed.

Lemma life_lost_of n s s' :
  lives s' = lives s -> gameOver s' = gameOver s -> invulnerableTimer s' = invulnerableTimer s ->
  life_lost n s -> life_lost n s'.
Proof. intros E1 E2 E3. unfold life_lost. by rewrite E1, E2, E3. Qed.

Lemma collide_life n i g s : life_lost n s -> alive s -> life_lost n (collide i g s) /\ alive (collide i g s).
Proof.
  intros H Ha. unfold collide. cbv zeta.
  destruct (Qltb _ _ && Qleb _ _) eqn:Hhit; [|done]. apply andb_true_iff in Hhit as [_ Hv]. q_norm.
  destruct (Qltb 0 (frightenedTimer s)); [done|]. destruct (konamiActivated s); [done|].
  destruct (lives (updateHUD (set_lives (lives s - 1) s)) <=? 0)%Z eqn:Hl; cbn in Hl; bool_norm.
  - split; [by right; right|done].
  - split; [|intros Hr; cbn in *; destruct (Ha Hr); split; [lia|done]].
    destruct H as [H|[[_ H]|H]]; [|lra|by right; right]. right. left. cbn. split; [lia|lra].
Qed.

Lemma ghost_step_life n delta v rand i s :
  life_lost n s /\ alive s -> life_lost n (ghost_step delta v rand i s) /\ alive (ghost_step delta v rand i s).
Proof.
  intros [H Ha]. unfold ghost_step. destruct (ghosts s !! i) as [g|]; [|done].
  destruct (inHouse g); [by split_ifs|]. destruct (target s _ _ g) as [tx ty].
  by apply collide_life.
Qed.

Lemma life_updatePacman delta s :
  lives (updatePacman delta s) = lives s /\ gameOver (updatePacman delta s) = gameOver s
  /\ gameRunning (updatePacman delta s) = gameRunning s.
Proof.
  unfold updatePacman. set (s1 := set_pacman _ _).
  assert (E : lives s1 = lives s /\ gameOver s1 = gameOver s /\ gameRunning s1 = gameRunning s) by done.
  clearbody s1. revert E. unfold finish_round, eat. by split_ifs.
Qed.

Lemma frame_life now rand s : alive s -> life_lost (lives s) (gameLoop now rand s) /\ alive (gameLoop now rand s).
Proof.
  intros Ha. unfold gameLoop. destruct (gameRunning s) eqn:Hr; [|split; [by left|done]].
  set (delta := frame_delta now s). destruct (life_updatePacman delta (set_frame now s)) as (E1 & E2 & E3).
  set (s1 := updatePacman delta _) in *. cbn in E1, E2, E3. clearbody s1.
  apply (updateGhosts_invariant (fun x => life_lost (lives s) x /\ alive x)).
  - split; [by left|by apply (alive_of s)].
  - unfold ghost_timers. split_ifs; split; try (by left); by apply (alive_of s).
  - intros. by apply ghost_step_life.
Qed.

Lemma alive_checkKonami k s : alive s -> alive (checkKonami k s).
Proof.
  intros Ha. unfold checkKonami. destruct (KONAMI_CODE !! konamiIndex s); [|done].
  destruct (seqb _ _); [|done]. destruct (Nat.eqb _ _); [|done].
  intros Hr. split; [reflexivity|by apply Ha].
Qed.

Lemma alive_step s e : alive s -> alive (step s e).
Proof.
  intros Ha. destruct e as [now rand|k|b|dx dy|now|]; cbn [step].
  - by apply frame_life.
  - pose proof (alive_checkKonami k s Ha) as Hk. unfold keydown. by destruct (key_dir k).
  - destruct b; try done; by apply alive_checkKonami.
  - by destruct (swipe dx dy).
  - intros _. unfold start. cbn. split; [by destruct (konamiActivated s)|done].
  - unfold new_round. destruct (timeouts s); [done|]. apply (alive_of s); [reflexivity..|done].
Qed.

(** While the game runs there is a life left and the game is not over, and one frame
    costs at most one life unless it ends the game: the grace period that starts with a
    loss protects Pac-Man from the other ghosts of the same frame. *)
Theorem a_frame_costs_one_life stored t0 es now rand :
  let s := exec (init stored t0) es in
  let s' := gameLoop now rand s in
  (gameRunning s = true -> (0 < lives s)%Z /\ gameOver s = false)
  /\ ((lives s' = lives s \/ lives s' = lives s - 1)%Z \/ gameOver s' = true).
Proof.
  intros s s'.
  assert (Ha : alive s) by (apply (fold_invariant step alive (fun _ => True)); auto using alive_step, Forall_true; done).
  split; [exact Ha|]. destruct (frame_life now rand s Ha) as [[H|[[H _]|H]] _]; fold s' in H; auto.
Qed.

(** ** The Konami code *)

(** What a key does to the recogniser: the next index and whether the code is complete. *)
Definition recognise (i : nat) (key : jsstring) : nat * bool :=
  match KONAMI_CODE !! i with
  | Some k => if seqb (lower key) (lower k) then if Nat.eqb (S i) 10 then (0%nat, true) else (S i, false) else (0%nat, false)
  | None => (i, false)
  end.

Definition typed (e : event) : option jsstring :=
  match e with
  | Key k => Some k
  | Press BtnA => Some (js "a")
  | Press BtnB => Some (js "b")
  | _ => None
  end.

(** The recogniser run over the keys of a run, other events left out. *)
Fixpoint recognised (i : nat) (on : bool) (es : list event) : nat * bool :=
  match es with
  | [] => (i, on)
  | e :: r =>
      match typed e with
      | Some k => let '(i', hit) := recognise i k in recognised i' (on || hit) r
      | None => recognised i on r
      end
  end.

Definition konami (s : state) : nat * bool := (konamiIndex s, konamiActivated s).

Lemma konami_checkKonami k s :
  konami (checkKonami k s) = let '(i, hit) := recognise (konamiIndex s) k in (i, konamiActivated s || hit).
Proof.
  unfold checkKonami, recognise. destruct (KONAMI_CODE !! konamiIndex s); [|by rewrite orb_false_r].
  change (length KONAMI_CODE) with 10%nat. split_ifs; cbn; by rewrite ?orb_false_r, ?orb_true_r.
Qed.

Lemma konami_ghost_step delta v rand i s : konami (ghost_step delta v rand i s) = konami s.
Proof.
  unfold ghost_step. destruct (ghosts s !! i) as [g|]; [|done].
  destruct (inHouse g); [by split_ifs|]. destruct (target s _ _ g) as [tx ty].
  unfold collide. by split_ifs.
Qed.

Lemma konami_updatePacman delta s : konami (updatePacman delta s) = konami s.
Proof.
  unfold updatePacman. set (s1 := set_pacman _ _). assert (E : konami s1 = konami s) by done.
  clearbody s1. rewrite <- E. unfold finish_round, eat. by split_ifs.
Qed.

Lemma konami_frame now rand s : konami (gameLoop now rand s) = konami s.
Proof.
  unfold gameLoop. destruct (gameRunning s); [|done]. set (delta := frame_delta now s).
  pose proof (konami_updatePacman delta (set_frame now s)) as E. set (s1 := updatePacman delta _) in *.
  change (konami (set_frame now s)) with (konami s) in E. clearbody s1.
  apply (updateGhosts_invariant (fun x => konami x = konami s)); [done|unfold ghost_timers; by split_ifs|].
  intros v i s0 E0. by rewrite konami_ghost_step.
Qed.

Lemma konami_step s e :
  konami (step s e) = match typed e with
                      | Some k => let '(i, hit) := recognise (konamiIndex s) k in (i, konamiActivated s || hit)
                      | None => konami s
                      end.
Proof.
  destruct e as [now rand|k|b|dx dy|now|]; cbn [step typed].
  - apply konami_frame.
  - rewrite <- konami_checkKonami. unfold keydown. by destruct (key_dir k).
  - destruct b; try done; apply konami_checkKonami.
  - by destruct (swipe dx dy).
  - reflexivity.
  - unfold new_round. by destruct (timeouts s).
Qed.

(** The cheat code is a finite automaton over the keys alone: frames, swipes, restarts
    and timers between the keys neither help nor disturb it, and its position stays
    inside the code. *)
Theorem konami_is_an_automaton stored now es :
  let s := exec (init stored now) es in
  (konamiIndex s, konamiActivated s) = recognised 0 false es /\ (konamiIndex s < length KONAMI_CODE)%nat.
Proof.
  assert (G : forall es s, konami (exec s es) = recognised (konamiIndex s) (konamiActivated s) es).
  { clear. induction es as [|e es IH]; intros s; [done|]. cbn [exec fold_left recognised].
    change (fold_left step es (step s e)) with (exec (step s e) es). rewrite IH.
    pose proof (konami_step s e) as E. destruct (typed e) as [k|]; [destruct (recognise _ k)|];
      injection E as -> ->; done. }
  intros s. assert (E : konami s = recognised 0 false es) by apply G. split; [exact E|].
  assert (B : forall es i on, (i < 10)%nat -> ((recognised i on es).1 < 10)%nat).
  { clear. induction es as [|e es IH]; intros i on Hi; [done|]. cbn [recognised].
    destruct (typed e) as [k|]; [|by apply IH]. unfold recognise.
    destruct (KONAMI_CODE !! i) eqn:Hk; [|apply lookup_ge_None in Hk; change (length KONAMI_CODE) with 10%nat in Hk; lia].
    split_ifs; apply IH; try lia. apply Nat.eqb_neq in Heqb0. lia. }
  change (length KONAMI_CODE) with 10%nat. specialize (B es 0%nat false ltac:(lia)). rewrite <- E in B. exact B.
Qed.

End Game.

(** ** A concrete [Math.hypot] and concrete runs *)

(** The distance rounded to a double, from an integer square root with 60 fractional bits. *)
Definition hypot64 (x y : Q) : Q :=
  fl64 (Z.sqrt (Qfloor ((x * x + y * y) * inject_Z (2 ^ 120))) # (2 ^ 60)).

(** [n] frames, [ms] milliseconds apart. *)
Fixpoint frames (t ms : Z) (n : nat) : list event :=
  match n with O => [] | S k => Frame (inject_Z (t + ms)) (fun _ => 0%Q) :: frames (t + ms) ms k end.

Definition demo_run : list event :=
  Start 0 :: frames 0 16 12 ++ Key (js "ArrowUp") :: frames 192 16 12 ++ [Press BtnRight; Swipe 0 40].

Definition frame_smooth (s : state) (e : event) : bool :=
  match e with Frame now _ => Qleb 0 (frame_dist now s) && Qleb (frame_dist now s) (11 # 2) | _ => true end.

Fixpoint smoothb (s : state) (es : list event) : bool :=
  match es with [] => true | e :: r => frame_smooth s e && smoothb (step hypot64 s e) r end.

Lemma frame_smooth_ok s e : frame_smooth s e = true -> frame_ok s e.
Proof. destruct e; try done. cbn. intros [? ?]%andb_true_iff. q_norm. done. Qed.

Lemma smoothb_ok es : forall s, smoothb s es = true -> smooth hypot64 s es.
Proof.
  induction es as [|e es IH]; intros s H; [exact I|]. cbn [smoothb] in H. apply andb_true_iff in H as [H1 H2].
  exact (conj (frame_smooth_ok s e H1) (IH _ H2)).
Qed.

Lemma pacman_never_enters_a_wall_witness :
  smooth hypot64 (init None 0) demo_run
  /\ (let s := exec hypot64 (init None 0) demo_run in
      isTileWalkable (map_ s) (cell (px (pacman s))) (cell (py (pacman s))) false false = true
      /\ (0 <= cell (px (pacman s)) < COLS)%Z /\ (0 <= cell (py (pacman s)) < ROWS)%Z).
Proof.
  assert (H : smooth hypot64 (init None 0) demo_run) by (apply smoothb_ok; vm_compute; reflexivity).
  split; [exact H|exact (pacman_never_enters_a_wall hypot64 None 0%Q demo_run H)].
Defined.

Lemma high_score_is_kept_witness :
  parseInt10 (js "320") = Fin 320 /\ truthy (js "320") = true
  /\ (let s := exec hypot64 (init (Some (js "320")) 0) demo_run in
      exists h, highScore s = Fin h /\ (320 <= h)%Q /\ (inject_Z (score s) <= h)%Q
        /\ match saved s with None => h = 320%Q | Some z => h = inject_Z z end).
Proof.
  assert (H1 : parseInt10 (js "320") = Fin 320) by (vm_compute; reflexivity).
  assert (H2 : truthy (js "320") = true) by reflexivity.
  split; [exact H1|split; [exact H2|exact (high_score_is_kept hypot64 (js "320") 0%Q 320%Q demo_run H1 H2)]].
Defined.

(** The keys of the code, a new game, and frames of 50 ms (the largest step the game
    computes with). *)
Definition turbo_run : list event := (Key <$> KONAMI_CODE) ++ Start 0 :: frames 0 50 11.

(** The bound on the step is needed: with the speed of the cheat code and frames of
    50 ms, the distance the loop clamps a slow frame to, Pac-Man runs through the wall
    left of column 6 in row 23. *)
Theorem slow_frames_cross_a_wall :
  let s := exec hypot64 (init None 0) turbo_run in
  konamiActivated s = true
  /\ (cell (px (pacman s)), cell (py (pacman s))) = (5, 23)%Z
  /\ tile (map_ s) 23 5 = 1%Z.
Proof. vm_compute. repeat split. Qed.

(** Typing one [ArrowUp] too many before the rest of the code does not activate it: the
    third one resets the recogniser and is not taken as a new start. *)
Example extra_up_is_not_forgiven :
  konamiActivated (exec hypot64 (init None 0) (Key (js "ArrowUp") :: (Key <$> KONAMI_CODE))) = false.
Proof. vm_compute. reflexivity. Qed.
