(* ===== verification/PacmanView.v ===== *)
(** * Picture and sound of the Pac-Man game (apps/pacman/game.js)

    [drawMap], [drawPacman] and [drawGhosts] as the shapes they put on the canvas, and the
    sound functions as the tones they schedule.  [Date.now()] is asked for every energizer
    and every ghost anew and is a parameter.  Sizes are the decimals of the source; angles
    are multiples of pi. *)
From Stdlib Require Import Lia ZArith QArith Qround Qabs Lqa.
From stdpp Require Import base numbers list gmap strings.
From S2P Require Import Prelude JsString JsNumber JsValue Pacman.

#[local] Open Scope Z_scope.

(** ** The canvas *)

Inductive shape : Type :=
| FillRect (color : jsstring) (x y w h : Q)
| StrokeRect (color : jsstring) (lineWidth x y w h : Q)
| Disc (color : jsstring) (x y r : Q).

Definition half : Q := 6.

(** The body of the two loops of [drawMap]; [now] is [Date.now()]. *)
Definition draw_tile (now r c t : Z) : list shape :=
  let x := inject_Z (c * TILE_SIZE) in
  let y := inject_Z (r * TILE_SIZE) in
  if t =? 1 then [FillRect (js "#0a1128") x y 12 12; StrokeRect (js "#2563eb") (3 # 2) (x + (1 # 2)) (y + (1 # 2)) 11 11]
  else if t =? 2 then [Disc (js "#ffb897") (x + half) (y + half) (18 # 10)]
  else if t =? 3 then [Disc (if now mod 400 <? 200 then js "#fbbf24" else js "#fff") (x + half) (y + half) (42 # 10)]
  else if t =? 5 then [FillRect (js "#f472b6") x (y + (9 # 2))%Q 12 3]
  else [].

(** [drawMap()] *)
Definition drawMap (now : Z -> Z -> Z) (m : maze) : list shape :=
  seqZ 0 ROWS ≫= fun r => seqZ 0 COLS ≫= fun c => draw_tile (now r c) r c (tile m r c).

Definition is_disc (s : shape) : bool := match s with Disc _ _ _ _ => true | _ => false end.
Definition discs (l : list shape) : nat := length (List.filter is_disc l).

Lemma discs_app a b : discs (a ++ b) = (discs a + discs b)%nat.
Proof. unfold discs. by rewrite List.filter_app, length_app. Qed.

Lemma discs_bind {A} (f : A -> list shape) l : discs (l ≫= f) = list_sum ((fun x => discs (f x)) <$> l).
Proof. induction l as [|x l IH]; [done|]. rewrite bind_cons, discs_app, IH. done. Qed.

Lemma discs_tile now r c t : discs (draw_tile now r c t) = if is_pellet t then 1%nat else 0%nat.
Proof.
  unfold draw_tile, is_pellet. destruct (t =? 1) eqn:E1; [apply Z.eqb_eq in E1; by subst|].
  destruct (t =? 2); [done|]. destruct (t =? 3); [done|]. by destruct (t =? 5).
Qed.

(** Sums over the indices of a list are sums over its elements. *)
Lemma sum_seqZ {A} (l : list A) (f : Z -> nat) (g : A -> nat) :
  (forall i x, l !! i = Some x -> f (Z.of_nat i) = g x) -> list_sum (f <$> seqZ 0 (Z.of_nat (length l))) = list_sum (g <$> l).
Proof.
  intros H. f_equal. apply list_eq. intros i. rewrite !list_lookup_fmap. destruct (l !! i) as [x|] eqn:E.
  - assert (i < length l)%nat by (by eapply lookup_lt_Some). rewrite lookup_seqZ_lt by lia. cbn [fmap option_fmap option_map]. rewrite Z.add_0_l. by rewrite (H i x E).
  - apply lookup_ge_None in E. by rewrite lookup_seqZ_ge by lia.
Qed.

(** The maze has 31 rows of 28 squares. *)
Definition rectangular (m : maze) : Prop := length m = 31%nat /\ Forall (fun r => length r = 28%nat) m.

Lemma tile_at m i j r t : m !! i = Some r -> r !! j = Some t -> tile m (Z.of_nat i) (Z.of_nat j) = t.
Proof.
  intros Hr Ht. unfold tile.
  replace ((Z.of_nat i <? 0) || (Z.of_nat j <? 0)) with false by (symmetry; apply orb_false_iff; rewrite !Z.ltb_ge; lia).
  rewrite !Nat2Z.id, Hr. cbn. by rewrite Ht.
Qed.

Lemma discs_row now m i r : m !! i = Some r -> length r = 28%nat ->
  discs (seqZ 0 COLS ≫= fun c => draw_tile (now (Z.of_nat i) c) (Z.of_nat i) c (tile m (Z.of_nat i) c)) = count_row r.
Proof.
  intros Hr Hl. rewrite discs_bind. change COLS with (Z.of_nat 28). rewrite <- Hl.
  rewrite (sum_seqZ r _ (fun t => if is_pellet t then 1%nat else 0%nat)).
  - clear. induction r as [|t r IH]; [done|]. rewrite fmap_cons. unfold list_sum in *. cbn [fold_right]. rewrite IH.
    unfold count_row. cbn [List.filter]. by destruct (is_pellet t).
  - intros j t Ht. by rewrite discs_tile, (tile_at m i j r t).
Qed.

Lemma discs_map now m : rectangular m -> Z.of_nat (discs (drawMap now m)) = countPellets m.
Proof.
  intros [Hl Hr]. unfold drawMap, countPellets. rewrite discs_bind. change ROWS with (Z.of_nat 31). rewrite <- Hl. f_equal.
  apply sum_seqZ. intros i r Er. apply discs_row; [done|]. by eapply Forall_lookup_1 in Hr.
Qed.

Lemma original_rectangular : rectangular ORIGINAL_MAP.
Proof. split; [done|]. by repeat constructor. Qed.

Lemma eaten_rectangular m : eaten_from ORIGINAL_MAP m -> rectangular m.
Proof.
  intros H. destruct original_rectangular as [Hl Hr]. split; [by rewrite <- (Forall2_length _ _ _ H)|].
  apply Forall_lookup. intros i r Er. destruct (Forall2_lookup_r _ _ _ _ _ H Er) as (r0 & E0 & Hrr).
  rewrite <- (Forall2_length _ _ _ Hrr). by eapply Forall_lookup_1 in Hr.
Qed.

(** The dots and energizers on the canvas are those that are left: in every state of the
    game the picture shows as many of them as the counter that ends the round. *)
Theorem drawn_pellets_are_those_left {R : Rounding} hypot stored t0 es now :
  let s := exec hypot (init stored t0) es in
  Z.of_nat (discs (drawMap now (map_ s))) = totalPellets s.
Proof.
  intros s. destruct (pellets_are_counted hypot stored t0 es) as (Ht & _ & He). fold s in Ht, He. rewrite Ht.
  apply discs_map. by apply eaten_rectangular.
Qed.

(** ** Pac-Man and the ghosts *)

(** The sector between two angles, turned and moved to a point. *)
Record pac_sprite := PacSprite { p_x : Q; p_y : Q; p_rotation : facing; p_color : jsstring; p_shadow : bool; p_radius : Q; p_from : Q; p_to : Q }.

Definition blinks (now ms : Z) : bool := (now / ms) mod 2 =? 0.

(** [drawPacman()] *)
Definition drawPacman (now : Z) (s : state) : option pac_sprite :=
  if Qltb 0 (invulnerableTimer s) && blinks now 100 then None
  else
    let p := pacman s in
    Some (PacSprite (px p) (py p) (rotation p) (if konamiActivated s then js "#f59e0b" else js "#fbbf24") (konamiActivated s)
            (11 # 2) (mouthAngle p) (fl64 (2 - mouthAngle p))).

Definition ghost_color (n : ghost_name) : jsstring :=
  js match n with Blinky => "#ef4444" | Pinky => "#ec4899" | Inky => "#06b6d4" | Clyde => "#f97316" end.

(** Relative to the ghost: the body, a half disc closed by two corners, and the discs of the
    eyes and pupils. *)
Record ghost_sprite := GhostSprite {
  s_x : Q; s_y : Q;
  s_color : jsstring; body_disc : Q * Q * Q; corners : list (Q * Q);
  eyes : list shape; pupils : list shape;
}.

(** The body of the loop of [drawGhosts]; the pupils look where the ghost goes. *)
Definition draw_ghost (now : Z) (frightened : Q) (g : ghost) : ghost_sprite :=
  let top := (half - (3 # 2))%Q in
  let pupil x := Disc (js "#000000") (fl64 (x + fl64 (inject_Z (g_dirX g) * (8 # 10)))) (fl64 (top + fl64 (inject_Z (g_dirY g) * (8 # 10)))) (9 # 10) in
  GhostSprite (gx g) (gy g)
    (if Qltb 0 frightened then if Qltb frightened 120 && blinks now 150 then js "#ffffff" else js "#2563eb"
     else ghost_color (g_name g))
    (half, top, 48 # 10)%Q [(half + (48 # 10), half + 5); (half - (48 # 10), half + 5)]%Q
    [Disc (js "#ffffff") (half - (18 # 10)) top (16 # 10); Disc (js "#ffffff") (half + (18 # 10)) top (16 # 10)]
    [pupil (half - (18 # 10))%Q; pupil (half + (18 # 10))%Q].

(** [drawGhosts()] *)
Definition drawGhosts (now : nat -> Z) (s : state) : list ghost_sprite :=
  imap (fun i g => draw_ghost (now i) (frightenedTimer s) g) (ghosts s).

(** The colour tells whether a ghost can be eaten: blue or white exactly while the ghosts
    are frightened, and white only at the end of that time. *)
Theorem ghost_colour_tells_the_mode now s i g sp :
  ghosts s !! i = Some g -> drawGhosts now s !! i = Some sp ->
  (s_color sp = ghost_color (g_name g) <-> Qltb 0 (frightenedTimer s) = false) /\
  (s_color sp = js "#ffffff" -> Qltb (frightenedTimer s) 120 = true).
Proof.
  intros Hg. unfold drawGhosts. rewrite list_lookup_imap, Hg. intros [= <-]. unfold draw_ghost. cbn [s_color].
  destruct (Qltb 0 (frightenedTimer s)), (Qltb (frightenedTimer s) 120), (blinks (now i) 150); cbn [andb]; destruct (g_name g);
    split; try split; try done; intros H; vm_compute in H; done.
Qed.

(** ** Sound *)

Inductive wave : Type := Square | Triangle | Sawtooth.
Record tone := Tone { freq : Q; duration : Q; type_ : wave; gainVal : Q; slideTo : option Q }.

(** Whether there is an audio context, and whether it is suspended, as a new one may be;
    [initAudio()]. *)
Inductive audio : Type := NoAudio | Suspended | Running.
Definition initAudio (a : audio) : audio :=
  match (match a with NoAudio => Suspended | _ => a end) with Suspended => Running | a' => a' end.

(** [playChipTone(...)]: what reaches the oscillator, with the lowest slide of 20 Hz. *)
Definition playChipTone (a : audio) (t : tone) : list tone :=
  match a with
  | NoAudio => []
  | _ => [Tone (freq t) (duration t) (type_ t) (gainVal t) (Qmax2 20 <$> slideTo t)]
  end.

(** The tunes: at which time, in milliseconds, which tone is asked for. *)
Definition tune : Type := list (Q * tone).

Definition every (ms : Q) (l : list tone) : tune := imap (fun i t => ((inject_Z (Z.of_nat i) * ms)%Q, t)) l.

(** [playWaka()]: the flag is toggled first. *)
Definition playWaka (wakaToggle : bool) : bool * tune :=
  (negb wakaToggle,
   [(0%Q, if negb wakaToggle then Tone 360 (8 # 100) Triangle (15 # 100) (Some 520%Q) else Tone 520 (8 # 100) Square (12 # 100) (Some 340%Q))]).
Definition playPowerPelletSound : tune := [(0%Q, Tone 750 (12 # 100) Sawtooth (14 # 100) (Some 450%Q))].
Definition playEatGhostSound : tune := every 45 ((fun f => Tone f (7 # 100) Square (18 # 100) None) <$> [300; 520; 780; 1100]%Q).

(** The notes of the intro start one after the other with pauses of 20 milliseconds. *)
Definition melody : list (Q * Q) :=
  [(49388 # 100, 12 # 100); (98777 # 100, 12 # 100); (73999 # 100, 12 # 100); (62225 # 100, 12 # 100); (98777 # 100, 10 # 100);
   (73999 # 100, 14 # 100); (62225 # 100, 22 # 100); (52325 # 100, 12 # 100); (10465 # 10, 12 # 100); (78399 # 100, 12 # 100);
   (65925 # 100, 12 # 100); (10465 # 10, 10 # 100); (78399 # 100, 14 # 100); (65925 # 100, 24 # 100)]%Q.
Fixpoint one_after_the_other (delay : Q) (l : list (Q * Q)) : tune :=
  match l with
  | [] => []
  | (f, d) :: r => (delay, Tone f d Square (16 # 100) None) :: one_after_the_other (Qred (delay + d * 1000 + 20)) r
  end.
Definition playIntroMusic : tune := one_after_the_other 0 melody.

Definition playDeathSound : tune :=
  every 65 ((fun f => Tone f (8 # 100) Sawtooth (16 # 100) (Some (f * (9 # 10))%Q))
            <$> [587; 554; 523; 493; 466; 440; 415; 392; 370; 349; 330; 311; 293; 220; 140]%Q).
Definition playRoundWinSound : tune :=
  every 110 ((fun f => Tone f (16 # 100) Square (18 # 100) None) <$> [52325 # 100; 65925 # 100; 78399 # 100; 104650 # 100; 131851 # 100]%Q).
Definition playKonamiFanfare : tune := every 80 ((fun f => Tone f (14 # 100) Square (22 # 100) None) <$> [330; 392; 659; 523; 587; 784]%Q).

(** What is heard of a tune. *)
Definition heard (a : audio) (t : tune) : tune := t ≫= fun e => pair e.1 <$> playChipTone a e.2.

Definition tunes : list tune :=
  [(playWaka true).2; (playWaka false).2; playPowerPelletSound; playEatGhostSound; playIntroMusic; playDeathSound; playRoundWinSound; playKonamiFanfare].

(** In the range of hearing, neither silent nor loud, sliding to a positive frequency as the
    audio interface demands, and over before [ms]. *)
Definition tone_ok (ms : Q) (e : Q * tone) : bool :=
  let t := e.2 in
  Qleb 126 (freq t) && Qleb (freq t) 1320 && Qltb 0 (gainVal t) && Qleb (gainVal t) (22 # 100) &&
  match slideTo t with Some f => Qleb 20 f | None => true end && Qleb 0 e.1 && Qleb (e.1 + 1000 * duration t) ms.

(** No tone sounds before the first gesture of the player has made the audio context, and
    afterwards every tone of every tune is audible and over within 2160 milliseconds. *)
Theorem tunes_are_audible t : t ∈ tunes ->
  heard NoAudio t = [] /\ length (heard (initAudio NoAudio) t) = length t /\
  forallb (tone_ok 2160) (heard (initAudio NoAudio) t) = true.
Proof.
  intros H. assert (E : forallb (fun t => forallb (tone_ok 2160) (heard Running t)) tunes = true) by (vm_compute; reflexivity).
  rewrite forallb_forall in E. split_and!.
  - unfold heard. clear. induction t as [|e t IH]; [done|]. cbn. exact IH.
  - unfold heard. clear. induction t as [|e t IH]; [done|]. cbn. by f_equal.
  - by apply E, list_elem_of_In.
Qed.

Lemma tunes_are_audible_witness : length (heard (initAudio NoAudio) playIntroMusic) = 14%nat.
Proof. apply (tunes_are_audible playIntroMusic). do 4 right. left. Defined.

