(* ===== verification/Base64.v ===== *)
(** * Base64 (ai-auth.html, fleet.html)

    [btoa] and [atob] of the browser on byte strings, and the two functions of the sign-in
    pages that carry the bytes of a passkey through JSON: [bytesToB64url] and
    [b64urlToBytes].  Bytes are numbers below 256, texts are code units. *)
From Stdlib Require Import Lia NArith ZifyN ZifyBool.
From stdpp Require Import base numbers list gmap strings.
From S2P Require Import Prelude JsString Auth UriRoundTrip.

#[local] Open Scope N_scope.

(** ** The alphabet *)

Definition b64_char (x : N) : N :=
  if x <? 26 then 65 + x
  else if x <? 52 then 97 + (x - 26)
  else if x <? 62 then 48 + (x - 52)
  else if x =? 62 then 43 else 47.

Definition b64_value (c : N) : option N :=
  if (65 <=? c) && (c <=? 90) then Some (c - 65)
  else if (97 <=? c) && (c <=? 122) then Some (c - 97 + 26)
  else if (48 <=? c) && (c <=? 57) then Some (c - 48 + 52)
  else if c =? 43 then Some 62
  else if c =? 47 then Some 63
  else None.

(** ** [btoa] *)

(** Three bytes are four digits of six bits; a last group of one or two bytes is filled
    up with zero bits. *)
Fixpoint sextets (bs : list N) : list N :=
  match bs with
  | a :: b :: c :: r =>
      a / 4 :: a mod 4 * 16 + b / 16 :: b mod 16 * 4 + c / 64 :: c mod 64 :: sextets r
  | [a; b] => [a / 4; a mod 4 * 16 + b / 16; b mod 16 * 4]
  | [a] => [a / 4; a mod 4 * 16]
  | [] => []
  end.

Definition pad (s : jsstring) : jsstring := s ++ replicate ((4 - length s mod 4) mod 4) 61.

(** [btoa(s)]: an [InvalidCharacterError] ([None]) on a unit above 255. *)
Definition btoa (s : jsstring) : option jsstring :=
  if forallb (fun c => c <? 256) s then Some (pad (b64_char <$> sextets s)) else None.

(** ** [atob] *)

(** Digits back to bytes; the bits that fill no byte are dropped. *)
Fixpoint bytes_of (xs : list N) : list N :=
  match xs with
  | w :: x :: y :: z :: r =>
      w * 4 + x / 16 :: x mod 16 * 16 + y / 4 :: y mod 4 * 64 + z :: bytes_of r
  | [w; x; y] => [w * 4 + x / 16; x mod 16 * 16 + y / 4]
  | [w; x] => [w * 4 + x / 16]
  | _ => []
  end.

(** The white space [atob] ignores. *)
Definition ascii_ws (c : N) : bool := existsb (N.eqb c) [9; 10; 12; 13; 32].

Definition drop_pad (s : jsstring) : jsstring :=
  match last s with Some c => if c =? 61 then take (length s - 1) s else s | None => s end.

Fixpoint values (s : jsstring) : option (list N) :=
  match s with
  | [] => Some []
  | c :: r => match b64_value c, values r with Some x, Some xs => Some (x :: xs) | _, _ => None end
  end.

(** [atob(s)]: white space is dropped, up to two padding characters of a text of whole
    groups too; [None] stands for the [InvalidCharacterError]. *)
Definition atob (s : jsstring) : option jsstring :=
  let t := List.filter (fun c => negb (ascii_ws c)) s in
  let u := if (length t mod 4 =? 0)%nat then drop_pad (drop_pad t) else t in
  if (length u mod 4 =? 1)%nat then None else bytes_of <$> values u.

(** ** The functions of the page *)

Definition replace_char (a b : N) (s : jsstring) : jsstring := (fun c => if c =? a then b else c) <$> s.

(** [s.replace(/=+$/, '')] *)
Fixpoint strip_pad (s : jsstring) : jsstring :=
  match s with
  | [] => []
  | c :: r => match strip_pad r with
              | [] => if c =? 61 then [] else [c]
              | t => c :: t
              end
  end.

(** [b64urlToBytes(b64url)]; the loop appends padding up to a multiple of four. *)
Definition b64urlToBytes (b64url : jsstring) : option (list N) :=
  atob (pad (replace_char 95 47 (replace_char 45 43 b64url))).

(** [bytesToB64url(buffer)]; [String.fromCharCode] of a byte is the unit of its number. *)
Definition bytesToB64url (buffer : list N) : option jsstring :=
  (fun t => strip_pad (replace_char 47 95 (replace_char 43 45 t))) <$> btoa buffer.

Example b64_example :
  bytesToB64url [251; 255; 0; 7] = Some (js "-_8ABw") /\ b64urlToBytes (js "-_8ABw") = Some [251; 255; 0; 7] /\
  b64urlToBytes (js "Zg==") = Some [102] /\ b64urlToBytes (js "Z") = None /\ b64urlToBytes (js "Z*g") = None.
Proof. vm_compute. done. Qed.

(** ** Facts *)

Definition is_byte (b : N) : Prop := b < 256.
Definition is_sextet (x : N) : Prop := x < 64.

(** Induction over groups of three bytes. *)
Lemma group_ind (P : list N -> Prop) :
  P [] -> (forall a, P [a]) -> (forall a b, P [a; b]) ->
  (forall a b c r, P r -> P (a :: b :: c :: r)) -> forall bs, P bs.
Proof.
  intros H0 H1 H2 H3. enough (G : forall n bs, (length bs < n)%nat -> P bs) by (intros bs; apply (G (S (length bs))); lia).
  induction n as [|n IH]; [lia|]. intros [|a [|b [|c r]]] Hl; [apply H0|apply H1|apply H2|].
  apply H3, IH. simpl in Hl. lia.
Qed.

Lemma sextets_small bs : Forall is_byte bs -> Forall is_sextet (sextets bs).
Proof.
  induction bs as [|a|a b|a b c r IH] using group_ind; intros H; cbn [sextets]; decompose_Forall_hyps;
    unfold is_byte, is_sextet in *; repeat (apply Forall_cons; split); try lia; auto.
Qed.

Lemma bytes_of_sextets bs : Forall is_byte bs -> bytes_of (sextets bs) = bs.
Proof.
  induction bs as [|a|a b|a b c r IH] using group_ind; intros H; cbn [sextets bytes_of]; decompose_Forall_hyps;
    unfold is_byte in *; repeat f_equal; try lia; auto.
Qed.

Lemma sextets_length bs : (length (sextets bs) mod 4 <> 1)%nat.
Proof.
  induction bs as [|a|a b|a b c r IH] using group_ind; cbn [sextets length]; try (simpl; lia).
  replace (S (S (S (S (length (sextets r)))))) with (length (sextets r) + 1 * 4)%nat by lia.
  by rewrite Nat.Div0.mod_add.
Qed.

Lemma byte_check (P : N -> bool) n : forallb P (N.of_nat <$> seq 0 n) = true -> forall x, x < N.of_nat n -> P x = true.
Proof.
  rewrite forallb_forall. intros H x Hx. apply H, list_elem_of_In, list_elem_of_fmap.
  exists (N.to_nat x). rewrite N2Nat.id. split; [done|]. apply elem_of_seq. lia.
Qed.

(** The digit as the page writes it. *)
Definition url_char (x : N) : N :=
  let c := b64_char x in let d := if c =? 43 then 45 else c in if d =? 47 then 95 else d.

Lemma url_char_spec x : is_sextet x ->
  (let c := url_char x in
   uri_unreserved c && negb (c =? 61)
   && bool_decide (b64_value (let d := if c =? 45 then 43 else c in if d =? 95 then 47 else d) = Some x)
   && negb (ascii_ws (let d := if c =? 45 then 43 else c in if d =? 95 then 47 else d))) = true.
Proof. intros H. revert x H. apply (byte_check _ 64). vm_compute. reflexivity. Qed.

Lemma strip_pad_app s n : 61 ∉ s -> strip_pad (s ++ replicate n 61) = s.
Proof.
  intros H. assert (R : strip_pad (replicate n 61) = []) by (induction n as [|n IH]; [done|cbn; by rewrite IH]).
  induction s as [|c s IH]; [done|]. cbn. apply not_elem_of_cons in H as [H1 H2].
  rewrite IH by done. destruct s; [|done]. destruct (c =? 61) eqn:E; [apply N.eqb_eq in E; congruence|done].
Qed.

Lemma replace_char_app a b s t : replace_char a b (s ++ t) = replace_char a b s ++ replace_char a b t.
Proof. apply fmap_app. Qed.

Lemma replace_char_pad a b n : a <> 61 -> replace_char a b (replicate n 61) = replicate n 61.
Proof.
  intros H. unfold replace_char. rewrite fmap_replicate. destruct (61 =? a) eqn:E; [|done].
  apply N.eqb_eq in E. congruence.
Qed.

(** What [bytesToB64url] writes, digit by digit. *)
Lemma bytesToB64url_digits bs : Forall is_byte bs -> bytesToB64url bs = Some (url_char <$> sextets bs).
Proof.
  intros H. unfold bytesToB64url, btoa.
  assert (forallb (fun c => c <? 256) bs = true) as ->.
  { apply forallb_forall. intros x Hx%list_elem_of_In. rewrite Forall_forall in H. apply N.ltb_lt, H, Hx. }
  cbn [fmap option_fmap option_map]. f_equal. unfold pad. rewrite !replace_char_app, !replace_char_pad by done.
  assert (E : replace_char 47 95 (replace_char 43 45 (b64_char <$> sextets bs)) = url_char <$> sextets bs).
  { unfold replace_char. by rewrite <- !list_fmap_compose. }
  rewrite E. apply strip_pad_app. intros (x & Hx & Hin)%list_elem_of_fmap.
  pose proof (sextets_small bs H) as Hs. rewrite Forall_forall in Hs. pose proof (url_char_spec x (Hs x Hin)) as C.
  cbv zeta in C. rewrite <- Hx in C. bool_norm. done.
Qed.

Lemma drop_pad_snoc s : drop_pad (s ++ [61]) = s.
Proof. unfold drop_pad. rewrite last_snoc, N.eqb_refl, length_app. simpl. by rewrite Nat.add_sub, take_app_length. Qed.

Lemma drop_pad_id s : 61 ∉ s -> drop_pad s = s.
Proof.
  intros H. unfold drop_pad. destruct (last s) as [c|] eqn:E; [|done]. apply last_Some in E as [l ->].
  destruct (c =? 61) eqn:Ec; [|done]. apply N.eqb_eq in Ec as ->. set_solver.
Qed.

(** A padded text of digits is read as the digits. *)
Lemma atob_pad s xs : 61 ∉ s -> Forall (fun c => ascii_ws c = false) s -> values s = Some xs ->
  (length s mod 4 <> 1)%nat -> atob (pad s) = Some (bytes_of xs).
Proof.
  intros H61 Hw Hv H1. set (n := length s) in *. assert (Hn : (n mod 4 < 4)%nat) by (apply Nat.mod_upper_bound; lia).
  unfold atob, pad. fold n.
  assert (F : List.filter (fun c => negb (ascii_ws c)) (s ++ replicate ((4 - n mod 4) mod 4) 61)
              = s ++ replicate ((4 - n mod 4) mod 4) 61).
  { apply List.forallb_filter_id, forallb_forall. intros c Hc%list_elem_of_In. apply elem_of_app in Hc as [Hc|Hc].
    - rewrite Forall_forall in Hw. by rewrite (Hw c Hc).
    - apply elem_of_replicate in Hc as [-> _]. done. }
  rewrite F. cbv zeta. rewrite length_app, length_replicate. fold n.
  assert (E0 : (((n + (4 - n mod 4) mod 4) mod 4 =? 0) = true)%nat).
  { apply Nat.eqb_eq. rewrite <- Nat.Div0.add_mod_idemp_l. destruct (n mod 4)%nat as [|[|[|[|k]]]]; try done. lia. }
  rewrite E0.
  assert (D : drop_pad (drop_pad (s ++ replicate ((4 - n mod 4) mod 4) 61)) = s).
  { destruct (n mod 4)%nat as [|[|[|[|k]]]]; [|done| | |lia]; cbn.
    - by rewrite app_nil_r, !drop_pad_id by (rewrite ?drop_pad_id; done).
    - change [61; 61] with ([61] ++ [61]). by rewrite app_assoc, !drop_pad_snoc.
    - by rewrite drop_pad_snoc, drop_pad_id. }
  rewrite D. fold n. destruct (n mod 4 =? 1)%nat eqn:E1; [apply Nat.eqb_eq in E1; congruence|]. by rewrite Hv.
Qed.

(** The standard digits of a text of the page. *)
Definition plain_digit (x : N) : N :=
  let c := url_char x in let d := if c =? 45 then 43 else c in if d =? 95 then 47 else d.

Lemma plain_digits xs : Forall is_sextet xs ->
  values (plain_digit <$> xs) = Some xs /\ Forall (fun c => ascii_ws c = false) (plain_digit <$> xs) /\ 61 ∉ plain_digit <$> xs.
Proof.
  induction 1 as [|x xs Hx H (IH1 & IH2 & IH3)]; [split_and!; [done|constructor|by intros ?%elem_of_nil]|].
  pose proof (url_char_spec x Hx) as C. cbv zeta in C. fold (plain_digit x) in C.
  apply andb_true_iff in C as [C Cw]. apply andb_true_iff in C as [_ Cv]. apply bool_decide_eq_true in Cv.
  rewrite fmap_cons. split_and!.
  - cbn [values]. by rewrite Cv, IH1.
  - constructor; [|done]. by apply negb_true_iff in Cw.
  - apply not_elem_of_cons. split; [|done]. intros E. rewrite <- E in Cv. discriminate Cv.
Qed.

Lemma unreserved_ascii c : uri_unreserved c = true -> c <? 128 = true.
Proof.
  unfold uri_unreserved, digit. cbn [existsb]. lia.
Qed.

Lemma encode_unreserved s : Forall (fun c => uri_unreserved c = true) s -> encodeURIComponent s = Some s.
Proof.
  induction 1 as [|c s Hc _ IH]; [done|]. cbn [encodeURIComponent]. by rewrite (unreserved_ascii c Hc), Hc, IH.
Qed.

(** What [bytesToB64url] wrote is read back. *)
Lemma b64urlToBytes_digits bs : Forall is_byte bs -> b64urlToBytes (url_char <$> sextets bs) = Some bs.
Proof.
  intros H. pose proof (sextets_small bs H) as Hs. unfold b64urlToBytes.
  assert (E : replace_char 95 47 (replace_char 45 43 (url_char <$> sextets bs)) = plain_digit <$> sextets bs).
  { unfold replace_char. by rewrite <- !list_fmap_compose. }
  rewrite E. destruct (plain_digits _ Hs) as (V & W & N61).
  rewrite (atob_pad _ (sextets bs)); [by rewrite bytes_of_sextets|done..|].
  rewrite length_fmap. apply sextets_length.
Qed.

(** C31: What the sign-in pages send for the bytes of a passkey is decoded to exactly those
    bytes, and its characters need no escaping in an address. *)
Theorem b64url_round_trip bs : Forall is_byte bs ->
  exists t, bytesToB64url bs = Some t /\ b64urlToBytes t = Some bs /\ encodeURIComponent t = Some t.
Proof.
  intros H. pose proof (sextets_small bs H) as Hs. exists (url_char <$> sextets bs).
  split_and!; [by apply bytesToB64url_digits|by apply b64urlToBytes_digits|].
  - apply encode_unreserved, Forall_fmap. eapply Forall_impl; [exact Hs|]. intros x Hx. cbn.
    pose proof (url_char_spec x Hx) as C. cbv zeta in C. by bool_norm.
Qed.

Lemma b64url_round_trip_witness :
  exists t, bytesToB64url [1; 255; 62; 0] = Some t /\ b64urlToBytes t = Some [1; 255; 62; 0] /\ encodeURIComponent t = Some t.
Proof. apply (b64url_round_trip [1; 255; 62; 0]). repeat constructor. Defined.
