(* ===== verification/StudioAuth.v ===== *)
(** * The sign-in page of the AI studio (ai-auth.html)

    The script of the page: its texts and tabs, the cleaning of a pasted key, the four ways
    to sign in (key, magic link, registration, passkey) cut at their [await]s, the listeners
    that take a text typed into an e-mail field for a key, and what the page does when it
    is loaded.  The elements of the page exist, since script and markup are one file; the
    key field, the status box and the check box are optional where the code asks for them.
    Whether the script runs at all is the subject of PageScripts. *)
From Stdlib Require Import Lia NArith QArith.
From stdpp Require Import base numbers list gmap strings.
From S2P Require Import Prelude JsString JsNumber JsValue JsJson I18n Auth UriRoundTrip Base64.

#[local] Open Scope js_scope.
#[local] Open Scope N_scope.

(** ** Texts *)

Definition studioI18n (l : lang) : list (jsstring * jsstring) :=
  match l with
  | De =>
      [ (js "badge", js "🚀 AI STUDIO GATEWAY")
      ; (js "title", js "Multi-Modell KI-Chat")
      ; (js "sub", js "Melde dich an oder erstelle einen Zugang, um sofort auf die professionelle Chatoberfläche zuzugreifen.")
      ; (js "tab_pk", js "Passkey")
      ; (js "tab_magic", js "Magic-Link")
      ; (js "tab_key", js "API-Key")
      ; (js "tab_reg", js "Neu")
      ; (js "lbl_key_input", js "Secret API-Key / Owner-Key")
      ; (js "lbl_remember_key", js "Auf diesem Gerät dauerhaft merken")
      ; (js "btn_key_login", js "AI Studio Chat öffnen ➔")
      ; (js "hint_key", js "🛡️ <strong>Sofortiger Chat-Zugriff:</strong> Gib deinen <code>cm_live_...</code>, <code>cm_sec_...</code> oder persönlichen API-Key ein, um direkt in den Multi-Modell KI-Chat zu starten.")
      ; (js "lbl_email_pk", js "E-Mail-Adresse für deinen Zugang")
      ; (js "btn_login_pk", js "Mit Passkey / Face ID anmelden")
      ; (js "btn_reg_pk", js "Neuen Passkey registrieren")
      ; (js "hint_pk", js "🔒 <strong>100% passwortlos:</strong> Sicherer Login via Face ID, Touch ID, Windows Hello oder Hardware-Sicherheitsschlüssel (YubiKey).")
      ; (js "lbl_email_magic", js "E-Mail-Adresse für Einmal-Link")
      ; (js "btn_magic", js "Sicheren Login-Link per E-Mail senden")
      ; (js "hint_magic", js "📬 Du erhältst einen kryptografisch signierten Einmal-Link direkt von <code>mesh@inetconnector.com</code>, der dich sofort einloggt.")
      ; (js "lbl_reg_email", js "Deine geschäftliche E-Mail-Adresse")
      ; (js "lbl_reg_terms", jsq "Ich akzeptiere die <a href=`https://mesh.inetconnector.com/terms` target=`_blank` style=`color: var(--accent-cyan);`>AGB</a> und <a href=`https://mesh.inetconnector.com/privacy` target=`_blank` style=`color: var(--accent-cyan);`>Datenschutzerklärung</a> (B2B-Nutzung).")
      ; (js "btn_instant_reg", js "Kostenlosen API-Key erstellen & starten")
      ; (js "hint_reg", js "🎁 <strong>Sofortiger Start:</strong> Dein API-Key wird in Sekunden generiert und du startest direkt im Studio mit Startguthaben.")
      ; (js "toggle_btn", js "🇩🇪 Deutsch")
      ; (js "key_missing", js "Bitte gib einen gültigen API- oder Owner-Key ein.")
      ; (js "magic_sent", js "Ein sicherer Login-Link wurde an deine E-Mail gesendet! Bitte prüfe dein Postfach.")
      ; (js "reg_success", js "API-Key erfolgreich erstellt! Weiterleitung ins AI Studio...") ]
  | En =>
      [ (js "badge", js "🚀 AI STUDIO GATEWAY")
      ; (js "title", js "Multi-Model AI Chat")
      ; (js "sub", js "Sign in or create free access to instantly enter the professional chat workspace.")
      ; (js "tab_pk", js "Passkey")
      ; (js "tab_magic", js "Magic-Link")
      ; (js "tab_key", js "API Key")
      ; (js "tab_reg", js "New")
      ; (js "lbl_key_input", js "Secret API Key / Owner Key")
      ; (js "lbl_remember_key", js "Remember on this device")
      ; (js "btn_key_login", js "Open AI Studio Chat ➔")
      ; (js "hint_key", js "🛡️ <strong>Instant Chat Access:</strong> Enter your <code>cm_live_...</code>, <code>cm_sec_...</code> or personal API Key to launch directly into the AI Studio.")
      ; (js "lbl_email_pk", js "Account Email Address")
      ; (js "btn_login_pk", js "Sign in with Passkey / Face ID")
      ; (js "btn_reg_pk", js "Register New Passkey")
      ; (js "hint_pk", js "🔒 <strong>100% passwordless:</strong> Secured via Face ID, Touch ID, Windows Hello, or hardware security keys (YubiKey).")
      ; (js "lbl_email_magic", js "Email Address for Magic-Link")
      ; (js "btn_magic", js "Send Secure Login Link via Email")
      ; (js "hint_magic", js "📬 You'll receive a cryptographically signed one-time login link from <code>mesh@inetconnector.com</code>.")
      ; (js "lbl_reg_email", js "Your Business Email Address")
      ; (js "lbl_reg_terms", jsq "I accept the <a href=`https://mesh.inetconnector.com/terms` target=`_blank` style=`color: var(--accent-cyan);`>Terms of Service</a> & <a href=`https://mesh.inetconnector.com/privacy` target=`_blank` style=`color: var(--accent-cyan);`>Privacy Policy</a> (B2B).")
      ; (js "btn_instant_reg", js "Generate Free API Key & Start")
      ; (js "hint_reg", js "🎁 <strong>Instant Start:</strong> Your API Key will be created in seconds, launching directly into the studio with free credits.")
      ; (js "toggle_btn", js "🇬🇧 English")
      ; (js "key_missing", js "Please enter a valid API or Owner Key.")
      ; (js "magic_sent", js "A secure login link was sent to your email! Please check your inbox.")
      ; (js "reg_success", js "API Key created successfully! Launching AI Studio...") ]
  end.

Definition d (l : lang) (key : jsstring) : jsstring := default [] (last_assoc key (studioI18n l)).

(** The elements [applyStudioLanguage] writes, with the entry of the table. *)
Definition label_ids : list (jsstring * jsstring) :=
  (fun e => (js e.1, js e.2)) <$>
  [("lang-toggle-btn", "toggle_btn"); ("lbl-badge", "badge"); ("lbl-title", "title"); ("lbl-sub", "sub");
   ("tab-lbl-key", "tab_key"); ("tab-lbl-passkey", "tab_pk"); ("tab-lbl-magic", "tab_magic");
   ("tab-lbl-register", "tab_reg"); ("lbl-key-input", "lbl_key_input"); ("lbl-remember-key", "lbl_remember_key");
   ("lbl-btn-key-login", "btn_key_login"); ("hint-key", "hint_key"); ("lbl-email-pk", "lbl_email_pk");
   ("lbl-btn-login-pk", "btn_login_pk"); ("lbl-btn-reg-pk", "btn_reg_pk"); ("hint-pk", "hint_pk");
   ("lbl-email-magic", "lbl_email_magic"); ("lbl-btn-magic", "btn_magic"); ("hint-magic", "hint_magic");
   ("lbl-reg-email", "lbl_reg_email"); ("lbl-reg-terms", "lbl_reg_terms"); ("lbl-btn-instant-reg", "btn_instant_reg");
   ("hint-reg", "hint_reg")]%string.

Definition studio_labels (l : lang) : list (jsstring * jsstring) := (fun e => (e.1, d l e.2)) <$> label_ids.

(** ** State *)

Record status := Status { st_class : jsstring; st_text : jsstring; st_display : jsstring }.

Record key_field := KeyField { kf_value : jsstring; kf_type : jsstring; kf_eye : jsstring }.

Record ui := UI {
  currentLang : lang;
  labels : list (jsstring * jsstring);
  active_tab : option jsstring;
  status_el : option status;
  keyInput : option key_field;
  remember : option bool;
  email_pk : jsstring;
  email_magic : jsstring;
  reg_email : jsstring;
}.

(** What the page sends.  The body of a registration is constant but for the address. *)
Record assertion := Assertion {
  as_id : jsstring; as_rawId : jsstring; as_type : jsstring; authenticatorData : jsstring;
  as_clientDataJSON : jsstring; signature : jsstring; userHandle : option jsstring;
}.
Record attestation := Attestation {
  at_id : jsstring; at_rawId : jsstring; at_type : jsstring; attestationObject : jsstring; at_clientDataJSON : jsstring;
}.
Inductive request : Type :=
| MagicLinkRequest (email : jsstring)
| PortalRegister (email role : jsstring) (tos_accepted : bool)
| LoginOptions (email : jsstring)
| LoginVerify (email : jsstring) (a : assertion)
| RegisterOptions (email : jsstring)
| RegisterVerify (email : jsstring) (a : attestation).

Definition endpoint (r : request) : jsstring :=
  match r with
  | MagicLinkRequest _ => js "/api/auth/magic-link/request"
  | PortalRegister _ _ _ => js "/api/portal/register"
  | LoginOptions _ => js "/api/auth/passkey/login-options"
  | LoginVerify _ _ => js "/api/auth/passkey/login-verify"
  | RegisterOptions _ => js "/api/auth/passkey/register-options"
  | RegisterVerify _ _ => js "/api/auth/passkey/register-verify"
  end.

(** What the authenticator answers; buffers are lists of bytes. *)
Record credential := Credential {
  cr_id : jsstring; cr_rawId : list N; cr_type : jsstring; cr_data : list N; cr_client : list N;
  cr_signature : list N; cr_user : option (list N);
}.

(** What [navigator.credentials] is asked with: the decoded fields and the options they
    were taken from. *)
Record public_key := PublicKey {
  challenge : list N; user_id : option (list N); credential_ids : list (list N); pk_options : jsval;
}.

Inductive flow : Type := Magic | Register | Login | Enroll.
Inductive stage : Type := AwaitReply | AwaitBody (ok : bool) | AwaitCredential | AwaitVerify | AwaitVerdict (ok : bool).
Record task := Task { t_flow : flow; t_stage : stage; t_email : jsstring; t_lang : lang }.

(** The pending [setTimeout]s: the launch, the key of a registration, the cleaning of a
    pasted key. *)
Inductive timer : Type := Launch (key : jsstring) | StoreKey (v : jsval) | CleanPaste.

Record page := Page {
  view : ui;
  ls : storage;
  jar : list cookie;
  timers : list timer;
  navs : list jsstring;
  inflight : gmap nat task;
  next_id : nat;
  requests : list request;
  prompts : list (flow * public_key);
}.

Definition set_view (u : ui) (p : page) : page :=
  Page u (ls p) (jar p) (timers p) (navs p) (inflight p) (next_id p) (requests p) (prompts p).
Definition set_store (st : storage) (j : list cookie) (p : page) : page :=
  Page (view p) st j (timers p) (navs p) (inflight p) (next_id p) (requests p) (prompts p).
Definition set_timers (t : list timer) (p : page) : page :=
  Page (view p) (ls p) (jar p) t (navs p) (inflight p) (next_id p) (requests p) (prompts p).
Definition replace_location (url : jsstring) (p : page) : page :=
  Page (view p) (ls p) (jar p) (timers p) (navs p ++ [url]) (inflight p) (next_id p) (requests p) (prompts p).
Definition set_inflight (f : gmap nat task) (p : page) : page :=
  Page (view p) (ls p) (jar p) (timers p) (navs p) f (next_id p) (requests p) (prompts p).
Definition send (r : request) (p : page) : page :=
  Page (view p) (ls p) (jar p) (timers p) (navs p) (inflight p) (next_id p) (requests p ++ [r]) (prompts p).
Definition ask (f : flow) (k : public_key) (p : page) : page :=
  Page (view p) (ls p) (jar p) (timers p) (navs p) (inflight p) (next_id p) (requests p) (prompts p ++ [(f, k)]).

Definition set_status (s : option status) (u : ui) : ui :=
  UI (currentLang u) (labels u) (active_tab u) s (keyInput u) (remember u) (email_pk u) (email_magic u) (reg_email u).
Definition set_key (k : option key_field) (u : ui) : ui :=
  UI (currentLang u) (labels u) (active_tab u) (status_el u) k (remember u) (email_pk u) (email_magic u) (reg_email u).
Definition set_tab (t : option jsstring) (u : ui) : ui :=
  UI (currentLang u) (labels u) t (status_el u) (keyInput u) (remember u) (email_pk u) (email_magic u) (reg_email u).
Definition set_lang (l : lang) (u : ui) : ui :=
  UI l (studio_labels l) (active_tab u) (status_el u) (keyInput u) (remember u) (email_pk u) (email_magic u) (reg_email u).

(** ** Small operations *)

(** [applyStudioLanguage(lang)] *)
Definition applyStudioLanguage (l : lang) (p : page) : page := set_view (set_lang l (view p)) p.

(** [toggleStudioLanguage()]; a blocked store is ignored. *)
Definition toggleStudioLanguage (p : page) : page :=
  let next := other (currentLang (view p)) in
  applyStudioLanguage next (set_store (insert lang_key (lang_name next) <$> ls p) (jar p) p).

Definition tab_names : list jsstring := [js "key"; js "passkey"; js "magic"; js "register"].

(** [switchStudioTab(tab)]: the active button and pane, none for a name without elements. *)
Definition switchStudioTab (tab : jsstring) (p : page) : page :=
  set_view (set_tab (if existsb (seqb tab) tab_names then Some tab else None) (view p)) p.

(** [showStatus(msg, type)] *)
Definition showStatus (msg type : jsstring) (p : page) : page :=
  set_view (set_status ((fun s =>
      if truthy msg then Status (js "ai-status-msg " ++ (if truthy type then type else js "error")) msg (js "block")
      else Status (st_class s) (st_text s) (js "none")) <$> status_el (view p)) (view p)) p.

(** [toggleKeyVisibility()] *)
Definition toggleKeyVisibility (p : page) : page :=
  set_view (set_key ((fun k =>
      if seqb (kf_type k) (js "password") then KeyField (kf_value k) (js "text") (js "👁️")
      else KeyField (kf_value k) (js "password") (js "🙈")) <$> keyInput (view p)) (view p)) p.

Section Page.
Context (show_frac : Q -> jsstring) (lossy : jsstring -> jsstring).
(** [window.location.hostname] *)
Context (hostname : jsstring).

(** [cleanApiKey(raw)] *)
Definition clean_text (raw : jsstring) : jsstring :=
  trim (first_line (trim (strip_bearer (trim (strip_quotes (trim raw)))))).
Definition cleanApiKey (raw : jsval) : jsstring := if vtruthy raw then clean_text (to_str show_frac raw) else [].

(** Whether the browser accepts a cookie with the domain of the portal from this host. *)
Definition in_domain : bool := seqb hostname (js "inetconnector.com") || ends_with (js ".inetconnector.com") hostname.

(** [setSubdomainCookie(name, value)]: an encoding error is ignored; a host whose name
    only ends with the letters of the domain has its cookie refused. *)
Definition setSubdomainCookie (name value : jsstring) (j : list cookie) : list cookie :=
  match encodeURIComponent value with
  | Some v =>
      if ends_with (js "inetconnector.com") hostname then
        if in_domain then set_cookie (Cookie name v (Some (js ".inetconnector.com"))) j else j
      else set_cookie (Cookie name v None) j
  | None => j
  end.

(** The storage part of [storeKeyAndLaunch]: [None] when it throws. *)
Definition store_parts (key : jsstring) (rem : bool) (st : storage) : option storage :=
  match st with
  | Some m =>
      let m1 := if rem then fold_left (fun m k => <[k := key]> m) Portal.key_names m else m in
      Some (Some (Portal.update_overrides show_frac (fold_left (Portal.update_config show_frac key) Portal.config_keys m1)))
  | None => if rem then None else Some None
  end.

(** [storeKeyAndLaunch(rawKey)] *)
Definition storeKeyAndLaunch (rawKey : jsval) (p : page) : page :=
  let key := cleanApiKey rawKey in
  if truthy key then
    let p1 := showStatus (js "✅ API-Key erkannt — Weiterleitung zum AI Studio...") (js "success") p in
    let rem := default true (remember (view p1)) in
    let p2 := match store_parts key rem (ls p1) with
              | Some st => set_store st (setSubdomainCookie (js "cm_fleet_session") key
                                           (setSubdomainCookie (js "cm_session") key (jar p1))) p1
              | None => p1
              end in
    set_timers (timers p2 ++ [Launch key]) p2
  else showStatus (d (currentLang (view p)) (js "key_missing")) (js "error") p.

Definition key_prefix (s : jsstring) : bool :=
  starts_with (js "cm_") s || starts_with (js "owner_") s || starts_with (js "sk-") s.
Definition looks_like_key (least : nat) (s : jsstring) : bool :=
  key_prefix s || (negb (existsb (N.eqb 64) s) && (least <=? length s)%nat).

(** [detectAndRedirectKey(val)] *)
Definition detectAndRedirectKey (val : jsstring) (p : page) : bool * page :=
  let clean := cleanApiKey (VStr val) in
  if truthy clean && looks_like_key 12 clean then
    let p1 := switchStudioTab (js "key") p in
    let p2 := set_view (set_key ((fun k => KeyField clean (kf_type k) (kf_eye k)) <$> keyInput (view p1)) (view p1)) p1 in
    (true, storeKeyAndLaunch (VStr clean) p2)
  else (false, p).

(** [handleKeyLogin(e)] *)
Definition handleKeyLogin (p : page) : page :=
  let key := default [] (kf_value <$> keyInput (view p)) in
  if truthy key then storeKeyAndLaunch (VStr key) p
  else showStatus (d (currentLang (view p)) (js "key_missing")) (js "error") p.

(** ** The requests *)

Definition pending_text (f : flow) : jsstring :=
  match f with
  | Magic => js "Sende Login-Link..." | Register => js "Generiere API-Key..."
  | Login => js "Starte Passkey-Authentifizierung..." | Enroll => js "Registriere Passkey..."
  end.
Definition catch_prefix (f : flow) : jsstring :=
  match f with
  | Magic | Register => js "Netzwerkfehler: "
  | Login => js "Passkey-Fehler: " | Enroll => js "Passkey-Registrierungsfehler: "
  end.
Definition reply_failure (f : flow) : jsstring :=
  match f with
  | Magic => js "Fehler beim Senden des Magic-Links" | Register => js "Registrierung fehlgeschlagen"
  | Login => js "Passkey-Optionen fehlgeschlagen" | Enroll => js "Fehler beim Vorbereiten des Passkeys"
  end.
Definition verdict_failure (f : flow) : jsstring :=
  match f with Login => js "Passkey-Verifikation fehlgeschlagen" | _ => js "Registrierung fehlgeschlagen" end.

Definition first_request (f : flow) (email : jsstring) : request :=
  match f with
  | Magic => MagicLinkRequest email
  | Register => PortalRegister email (js "consumer") true
  | Login => LoginOptions email
  | Enroll => RegisterOptions email
  end.

Definition field_of (f : flow) (u : ui) : jsstring :=
  match f with Magic => email_magic u | Register => reg_email u | Login | Enroll => email_pk u end.

(** The synchronous part of [handleMagicLink], [handleInstantRegister],
    [handlePasskeyLogin] and [handlePasskeyRegister]. *)
Definition submit (f : flow) (p : page) : page :=
  let email := trim (field_of f (view p)) in
  if truthy email then
    let '(launched, p1) := detectAndRedirectKey email p in
    if launched then p1
    else
      let p2 := send (first_request f email) (showStatus (pending_text f) (js "success") p1) in
      Page (view p2) (ls p2) (jar p2) (timers p2) (navs p2)
        (<[next_id p2 := Task f AwaitReply email (currentLang (view p2))]> (inflight p2)) (S (next_id p2))
        (requests p2) (prompts p2)
  else match f with
       | Enroll => showStatus (js "Bitte gib zuerst deine E-Mail-Adresse ein.") (js "error") p
       | _ => p
       end.

Definition finish (id : nat) (p : page) : page := set_inflight (delete id (inflight p)) p.
Definition go_on (id : nat) (t : task) (s : stage) (p : page) : page :=
  set_inflight (<[id := Task (t_flow t) s (t_email t) (t_lang t)]> (inflight p)) p.

(** The [catch] block; [name] is what [String(err)] starts with. *)
Definition on_reject (id : nat) (name message : jsstring) (p : page) : page :=
  match inflight p !! id with
  | Some t => finish id (showStatus (catch_prefix (t_flow t) ++ (if truthy message then message else name)) (js "error") p)
  | None => p
  end.

Definition on_response (id : nat) (ok : bool) (p : page) : page :=
  match inflight p !! id with
  | Some t => match t_stage t with
              | AwaitReply => go_on id t (AwaitBody ok) p
              | AwaitVerify => go_on id t (AwaitVerdict ok) p
              | _ => p
              end
  | None => p
  end.

(** [b64urlToBytes(v)] of a member of the reply. *)
Definition b64_member (v : jsval) : outcome jsstring (list N) :=
  match v with
  | VStr s => match b64urlToBytes s with
              | Some b => Ret b
              | None => Throw (js "The string to be decoded is not correctly encoded.")
              end
  | VNull | VUndef => let* _ := get v (js "replace") in Ret []
  | _ => Throw (js "b64url.replace is not a function")
  end.

Fixpoint b64_ids (l : list jsval) : outcome jsstring (list (list N)) :=
  match l with
  | [] => Ret []
  | c :: r => let* i := get c (js "id") in
              let* b := b64_member i in
              let* bs := b64_ids r in Ret (b :: bs)
  end.

(** The list of known credentials, when the reply has one. *)
Definition known_ids (v : jsval) : outcome jsstring (list (list N)) :=
  if vtruthy v then match v with VArr l => b64_ids l | _ => Throw (js "forEach is not a function") end else Ret [].

(** The decoding of [optData.options] before the call of the authenticator. *)
Definition decode_options (f : flow) (optData : jsval) : outcome jsstring public_key :=
  let* opts := get optData (js "options") in
  let* pk := get opts (js "publicKey") in
  let* c := get pk (js "challenge") in
  let* ch := b64_member c in
  match f with
  | Login => let* ids := known_ids (prop pk (js "allowCredentials")) in Ret (PublicKey ch None ids pk)
  | _ => let* u := get pk (js "user") in
         let* i := get u (js "id") in
         let* uid := b64_member i in
         let* ids := known_ids (prop pk (js "excludeCredentials")) in Ret (PublicKey ch (Some uid) ids pk)
  end.

Definition error_or (data : jsval) (fallback : jsstring) : outcome jsstring jsstring :=
  let* e := get data (js "error") in Ret (to_str show_frac (vor e (VStr fallback))).

(** An exception of the code after an [await] is caught by the same handler. *)
Definition caught (id : nat) (t : task) (m : outcome jsstring page) (p : page) : page :=
  match m with
  | Ret q => q
  | Throw msg => finish id (showStatus (catch_prefix (t_flow t) ++ (if truthy msg then msg else js "TypeError")) (js "error") p)
  end.

(** The body of the first reply of each flow. *)
Definition on_reply (id : nat) (t : task) (ok : bool) (data : jsval) (p : page) : outcome jsstring page :=
  let failed := let* e := error_or data (reply_failure (t_flow t)) in Ret (finish id (showStatus e (js "error") p)) in
  match t_flow t with
  | Magic => if ok then Ret (finish id (showStatus (d (t_lang t) (js "magic_sent")) (js "success") p)) else failed
  | Register =>
      if ok then
        let* k := get data (js "api_key") in
        if vtruthy k then
          let p1 := showStatus (d (t_lang t) (js "reg_success")) (js "success") p in
          Ret (finish id (set_timers (timers p1 ++ [StoreKey k]) p1))
        else failed
      else failed
  | f => if ok then let* k := decode_options f data in Ret (go_on id t AwaitCredential (ask f k p)) else failed
  end.

(** The body of the reply to a verification. *)
Definition on_verdict (id : nat) (t : task) (ok : bool) (data : jsval) (p : page) : outcome jsstring page :=
  let failed := let* e := error_or data (verdict_failure (t_flow t)) in Ret (finish id (showStatus e (js "error") p)) in
  if ok then
    let* o := get data (js "owner_key") in
    let k := vor o (prop data (js "api_key")) in
    if vtruthy k then Ret (finish id (storeKeyAndLaunch k p)) else failed
  else failed.

(** [await res.json()] resolves. *)
Definition on_body (id : nat) (data : jsval) (p : page) : page :=
  match inflight p !! id with
  | Some t => match t_stage t with
              | AwaitBody ok => caught id t (on_reply id t ok data p) p
              | AwaitVerdict ok => caught id t (on_verdict id t ok data p) p
              | _ => p
              end
  | None => p
  end.

(** [bytesToB64url] of a buffer; an array of bytes has no larger element. *)
Definition b64 (bs : list N) : jsstring := default [] (bytesToB64url bs).

Definition verify_request (f : flow) (email : jsstring) (c : credential) : request :=
  match f with
  | Login => LoginVerify email (Assertion (cr_id c) (b64 (cr_rawId c)) (cr_type c) (b64 (cr_data c)) (b64 (cr_client c))
                                  (b64 (cr_signature c)) (b64 <$> cr_user c))
  | _ => RegisterVerify email (Attestation (cr_id c) (b64 (cr_rawId c)) (cr_type c) (b64 (cr_data c)) (b64 (cr_client c)))
  end.

(** [await navigator.credentials.get/create(...)] resolves; it may resolve with [null]. *)
Definition on_credential (id : nat) (c : option credential) (p : page) : page :=
  match inflight p !! id with
  | Some t => match t_stage t with
              | AwaitCredential =>
                  match c with
                  | Some c => go_on id t AwaitVerify (send (verify_request (t_flow t) (t_email t) c) p)
                  | None => caught id t (let* _ := get VNull (js "id") in Ret p) p
                  end
              | _ => p
              end
  | None => p
  end.

(** ** Listeners and timers *)

Inductive field : Type := FieldPk | FieldMagic | FieldReg.

Definition write_field (f : field) (v : jsstring) (u : ui) : ui :=
  UI (currentLang u) (labels u) (active_tab u) (status_el u) (keyInput u) (remember u)
    (match f with FieldPk => v | _ => email_pk u end)
    (match f with FieldMagic => v | _ => email_magic u end)
    (match f with FieldReg => v | _ => reg_email u end).

(** The [input] listener of the e-mail fields, after the field got its new value. *)
Definition on_input (f : field) (value : jsstring) (p : page) : page :=
  let p1 := set_view (write_field f value (view p)) p in
  let val := trim value in
  if looks_like_key 16 val then snd (detectAndRedirectKey val p1) else p1.

(** The [paste] listener of the key field: the text arrives and is cleaned later. *)
Definition on_paste (value : jsstring) (p : page) : page :=
  let p1 := set_view (set_key ((fun k => KeyField value (kf_type k) (kf_eye k)) <$> keyInput (view p)) (view p)) p in
  set_timers (timers p1 ++ [CleanPaste]) p1.

Definition fire (t : timer) (p : page) : page :=
  match t with
  | Launch key => match encodeURIComponent key with
                  | Some e => replace_location (js "/webui/#key=" ++ e) p
                  | None => p
                  end
  | StoreKey v => storeKeyAndLaunch v p
  | CleanPaste =>
      set_view (set_key ((fun k => KeyField (cleanApiKey (VStr (kf_value k))) (kf_type k) (kf_eye k)) <$> keyInput (view p)) (view p)) p
  end.

(** The timer at position [i] is due. *)
Definition on_timer (i : nat) (p : page) : page :=
  match timers p !! i with
  | Some t => fire t (set_timers (delete i (timers p)) p)
  | None => p
  end.

(** ** Loading the page *)

Definition session_in (j : list cookie) : bool := includes (js "cm_session=") (cookie_string j).

(** [a || b || c] of three parameters of the fragment *)
Definition fragment_key (hash : jsstring) : jsstring :=
  let ps := search_params lossy (drop 1 hash) in
  let at_ k := default [] (get_param k ps) in
  if truthy (at_ (js "key")) then at_ (js "key")
  else if truthy (at_ (js "api_key")) then at_ (js "api_key") else at_ (js "token").

(** [init()]; the [catch] ignores a blocked store and a key that cannot be encoded. *)
Definition init (hash : jsstring) (p : page) : page :=
  let qKey := fragment_key hash in
  if truthy qKey then storeKeyAndLaunch (VStr qKey) p
  else match ls p with
       | Some m =>
           let key := first_item Portal.key_names m in
           if truthy key then
             match encodeURIComponent (cleanApiKey (VStr key)) with
             | Some e => replace_location (js "/webui/#key=" ++ e) p
             | None => applyStudioLanguage (currentLang (view p)) p
             end
           else if session_in (jar p) then replace_location (js "/webui/") p
           else applyStudioLanguage (currentLang (view p)) p
       | None => applyStudioLanguage (currentLang (view p)) p
       end.

(** ** Events *)

Inductive event : Type :=
| KeyTyped (v : jsstring)
| KeyLogin
| Submit (f : flow)
| Typed (f : field) (v : jsstring)
| Pasted (v : jsstring)
| Remember (b : bool)
| SwitchTab (t : jsstring)
| ToggleLanguage
| ToggleVisibility
| Response (id : nat) (ok : bool)
| Body (id : nat) (data : jsval)
| Answer (id : nat) (c : option credential)
| Reject (id : nat) (name message : jsstring)
| Timer (i : nat).

Definition step (p : page) (e : event) : page :=
  match e with
  | KeyTyped v => set_view (set_key ((fun k => KeyField v (kf_type k) (kf_eye k)) <$> keyInput (view p)) (view p)) p
  | KeyLogin => handleKeyLogin p
  | Submit f => submit f p
  | Typed f v => on_input f v p
  | Pasted v => on_paste v p
  | Remember b => set_view (let u := view p in UI (currentLang u) (labels u) (active_tab u) (status_el u) (keyInput u)
                              ((fun _ => b) <$> remember u) (email_pk u) (email_magic u) (reg_email u)) p
  | SwitchTab t => switchStudioTab t p
  | ToggleLanguage => toggleStudioLanguage p
  | ToggleVisibility => toggleKeyVisibility p
  | Response id ok => on_response id ok p
  | Body id data => on_body id data p
  | Answer id c => on_credential id c p
  | Reject id n m => on_reject id n m p
  | Timer i => on_timer i p
  end.

Definition exec (es : list event) (p : page) : page := fold_left step es p.

(** A visit of the page: [init] runs when it is loaded, then its listeners and timers. *)
Definition visit (hash : jsstring) (es : list event) (p : page) : page := exec es (init hash p).

(** Typing a text into a field, one character after the other. *)
Definition type_text (f : field) (text : jsstring) (p : page) : page :=
  exec ((fun n => Typed f (take n text)) <$> seq 1 (length text)) p.

End Page.

(** ** Facts about the cleaning *)

Lemma clean_text_id k : clean_key k = true -> clean_text k = k.
Proof.
  intros H. unfold clean_text.
  rewrite (clean_trim k H), (clean_quotes k H), (clean_trim k H), (clean_bearer k H), (clean_trim k H).
  rewrite no_break_first_line; [by apply clean_trim|].
  apply Forall_forall. intros c Hc. destruct (line_break c) eqn:E; [|done].
  apply line_break_ws in E. destruct (clean_char k H c Hc). congruence.
Qed.

Lemma cleanApiKey_id sf k : clean_key k = true -> cleanApiKey sf (VStr k) = k.
Proof. intros H. unfold cleanApiKey. cbn. destruct k as [|c k]; [done|]. by rewrite clean_text_id. Qed.

(** A key that can travel in a header: no line break, no white space at the ends. *)
Definition header_safe (k : jsstring) : Prop := 10 ∉ k /\ 13 ∉ k /\ ws_free_ends k.

Lemma clean_text_safe raw : header_safe (clean_text raw).
Proof.
  unfold clean_text. set (t := trim (strip_bearer _)). destruct (first_line_spec t) as [_ F].
  rewrite Forall_forall in F. split_and!; [intros H%elem_of_trim%F; done..|apply trim_ends].
Qed.

Lemma cleanApiKey_safe sf raw : header_safe (cleanApiKey sf raw).
Proof.
  unfold cleanApiKey. destruct (vtruthy raw); [apply clean_text_safe|].
  split_and!; [by intros ?%elem_of_nil..|done].
Qed.

(** ** What storing a key changes *)

Lemma store_launch_timers sf host k p :
  timers (storeKeyAndLaunch sf host k p) =
  timers p ++ (if truthy (cleanApiKey sf k) then [Launch (cleanApiKey sf k)] else []).
Proof.
  unfold storeKeyAndLaunch. destruct (truthy (cleanApiKey sf k)); [|cbn; by rewrite app_nil_r].
  cbv zeta. by destruct (store_parts _ _ _ _).
Qed.

Lemma store_launch_frame sf host k p :
  navs (storeKeyAndLaunch sf host k p) = navs p /\ requests (storeKeyAndLaunch sf host k p) = requests p /\
  inflight (storeKeyAndLaunch sf host k p) = inflight p.
Proof.
  unfold storeKeyAndLaunch. destruct (truthy (cleanApiKey sf k)); [|done].
  cbv zeta. by destruct (store_parts _ _ _ _).
Qed.

(** ** Typing an address *)

Section Typing.
Context (sf : Q -> jsstring) (host : jsstring).

Lemma typed_timers f v p : clean_key v = true ->
  timers (on_input sf host f v p) =
  timers p ++ (if truthy v && looks_like_key 16 v then [Launch v] else []).
Proof.
  intros H. unfold on_input. rewrite (clean_trim v H). destruct (looks_like_key 16 v) eqn:E; [|by rewrite andb_false_r, app_nil_r].
  rewrite andb_true_r. unfold detectAndRedirectKey. rewrite (cleanApiKey_id sf v H).
  assert (E12 : looks_like_key 12 v = true).
  { unfold looks_like_key in *. destruct (key_prefix v); [done|]. cbn [orb] in *. apply andb_true_iff in E as [-> E].
    apply Nat.leb_le in E. apply Nat.leb_le. lia. }
  rewrite E12, andb_true_r. destruct (truthy v) eqn:Ev; [|cbn; by rewrite app_nil_r].
  cbv zeta. cbn [snd]. rewrite store_launch_timers, (cleanApiKey_id sf v H), Ev. done.
Qed.

(** The cookies of a stored key. *)
Definition with_cookies (j : list cookie) (k : jsstring) : list cookie :=
  setSubdomainCookie host (js "cm_fleet_session") k (setSubdomainCookie host (js "cm_session") k j).

(** The page remembers keys and its store works. *)
Definition remembers (p : page) (m : gmap jsstring jsstring) : Prop :=
  ls p = Some m /\ default true (remember (view p)) = true.

Lemma store_parts_remembered k m : store_parts sf k true (Some m) = Some (Some (Portal.store_key sf k m)).
Proof. unfold store_parts, Portal.store_key. cbv zeta iota. reflexivity. Qed.

Lemma store_launch_remembers k p m : clean_key k = true -> truthy k = true -> remembers p m ->
  let q := storeKeyAndLaunch sf host (VStr k) p in
  remembers q (Portal.store_key sf k m) /\ jar q = with_cookies (jar p) k.
Proof.
  intros Hc Ht [Hl Hr]. unfold storeKeyAndLaunch. rewrite (cleanApiKey_id sf k Hc), Ht. cbv zeta.
  match goal with |- context [showStatus ?a ?b p] => set (p1 := showStatus a b p) end.
  assert (E : remember (view p1) = remember (view p) /\ ls p1 = ls p /\ jar p1 = jar p) by done.
  clearbody p1. destruct E as (E1 & E2 & E3). rewrite E1, Hr, E2, Hl, store_parts_remembered. unfold remembers, with_cookies.
  cbn [set_timers set_store ls jar view]. rewrite E1, E3. done.
Qed.

(** What one more character does to the store and the cookies. *)
Lemma typed_store f v p m : clean_key v = true -> remembers p m ->
  remembers (on_input sf host f v p) (if truthy v && looks_like_key 16 v then Portal.store_key sf v m else m) /\
  jar (on_input sf host f v p) = (if truthy v && looks_like_key 16 v then with_cookies (jar p) v else jar p).
Proof.
  intros H Hp. unfold on_input. rewrite (clean_trim v H).
  destruct (looks_like_key 16 v) eqn:E; [|rewrite andb_false_r; by split].
  rewrite andb_true_r. unfold detectAndRedirectKey. rewrite (cleanApiKey_id sf v H).
  assert (E12 : looks_like_key 12 v = true).
  { unfold looks_like_key in *. destruct (key_prefix v); [done|]. cbn [orb] in *. apply andb_true_iff in E as [-> E].
    apply Nat.leb_le in E. apply Nat.leb_le. lia. }
  rewrite E12, andb_true_r. destruct (truthy v) eqn:Ev; [|by split].
  cbv zeta. cbn [snd].
  match goal with |- remembers (storeKeyAndLaunch _ _ _ ?q) _ /\ _ => pose proof (store_launch_remembers v q m H Ev) as G end.
  apply G. exact Hp.
Qed.

Lemma clean_key_take n k : clean_key k = true -> clean_key (take n k) = true.
Proof.
  unfold clean_key. rewrite !forallb_forall. intros H c Hc%list_elem_of_In. apply H, list_elem_of_In.
  rewrite <- (take_drop n k). set_solver.
Qed.

(** The keys that are launched while a text is typed. *)
Definition launched_while_typing (a : jsstring) : list jsstring :=
  List.filter (looks_like_key 16) ((fun n => take n a) <$> seq 1 (length a)).

Lemma type_text_timers f a p : clean_key a = true ->
  timers (type_text sf host f a p) = timers p ++ (Launch <$> launched_while_typing a).
Proof.
  intros H. unfold type_text, launched_while_typing, exec.
  enough (G : forall ns p, (forall n, n ∈ ns -> (0 < n <= length a)%nat) ->
    timers (fold_left (step sf host) ((fun n => Typed f (take n a)) <$> ns) p) =
    timers p ++ (Launch <$> List.filter (looks_like_key 16) ((fun n => take n a) <$> ns))).
  { apply G. intros n Hn%elem_of_seq. lia. }
  induction ns as [|n ns IH]; intros q Hn; cbn [fmap list_fmap fold_left List.filter]; [by rewrite app_nil_r|].
  rewrite IH by (intros; apply Hn; by right).
  cbn [step]. rewrite typed_timers by (by apply clean_key_take).
  assert (truthy (take n a) = true) as ->.
  { apply truthy_true. intros E%(f_equal length). rewrite length_take in E. cbn in E.
    destruct (Hn n) as [? ?]; [by left|]. lia. }
  cbn [andb]. destruct (looks_like_key 16 (take n a)); [|by rewrite app_nil_r]. by rewrite <- app_assoc.
Qed.

Lemma step_typed f v p : step sf host p (Typed f v) = on_input sf host f v p.
Proof. reflexivity. Qed.

Lemma type_text_store f a p m : clean_key a = true -> remembers p m ->
  let q := type_text sf host f a p in
  ls q = Some (fold_left (fun m k => Portal.store_key sf k m) (launched_while_typing a) m) /\
  jar q = fold_left with_cookies (launched_while_typing a) (jar p).
Proof.
  intros H Hp. unfold type_text, launched_while_typing, exec. cbv zeta.
  generalize (Portal.store_key sf) (typed_store f). intros put typed. revert p m Hp.
  assert (Hn : forall n, n ∈ seq 1 (length a) -> truthy (take n a) = true).
  { intros n Hn%elem_of_seq. apply truthy_true. intros E%(f_equal length). rewrite length_take in E. cbn in E. lia. }
  induction (seq 1 (length a)) as [|n ns IH]; intros p m Hp; [by destruct Hp|].
  cbn [fmap list_fmap fold_left List.filter]. rewrite step_typed.
  destruct (typed (take n a) p m (clean_key_take n a H) Hp) as [T1 T2].
  rewrite (Hn n) in T1, T2 by (by left).
  destruct (IH ltac:(intros; apply Hn; by right) _ _ T1) as [I1 I2].
  rewrite I1, I2, T2. by destruct (looks_like_key 16 (take n a)).
Qed.

(** What is in the store at the end is the last piece that was taken for a key. *)
Lemma fold_store_key ks m k n : last ks = Some k -> n ∈ Portal.key_names ->
  fold_left (fun m k => Portal.store_key sf k m) ks m !! n = Some k.
Proof. intros [ks' ->]%last_Some Hn. rewrite fold_left_app. by apply store_key_lookup. Qed.

Lemma starts_with_take p a n : starts_with p (take n a) = true -> starts_with p a = true.
Proof.
  rewrite !starts_with_spec. intros [r E]. exists (r ++ drop n a). by rewrite app_assoc, <- E, take_drop.
Qed.

Lemma key_prefix_take a n : key_prefix (take n a) = true -> key_prefix a = true.
Proof.
  unfold key_prefix. rewrite !orb_true_iff. intros [[H|H]|H]; apply starts_with_take in H; tauto.
Qed.

Lemma key_prefix_take_false a n : key_prefix a = false -> key_prefix (take n a) = false.
Proof. intros H. destruct (key_prefix (take n a)) eqn:E; [|done]. apply key_prefix_take in E. congruence. Qed.

Context (l dom : jsstring) (Hat : 64 ∉ l).
Let a : jsstring := l ++ 64 :: dom.

Lemma has_at n : (length l < n)%nat -> existsb (N.eqb 64) (take n a) = true.
Proof.
  intros H. apply existsb_exists. exists 64. split; [|done]. apply list_elem_of_In. unfold a.
  rewrite take_app. apply elem_of_app. right. destruct (n - length l)%nat eqn:E; [lia|]. cbn. by left.
Qed.

Lemma no_at n : (n <= length l)%nat -> existsb (N.eqb 64) (take n a) = false.
Proof.
  intros H. unfold a. rewrite take_app_le by done. destruct (existsb (N.eqb 64) (take n l)) eqn:E; [|done].
  apply existsb_exists in E as (c & Hc%list_elem_of_In & Ec). apply N.eqb_eq in Ec as <-.
  destruct Hat. rewrite <- (take_drop n l). set_solver.
Qed.

Lemma typed_prefix_is_key n : key_prefix a = false ->
  looks_like_key 16 (take n a) = true <-> (16 <= n <= length l)%nat.
Proof.
  intros Hk. unfold looks_like_key. rewrite (key_prefix_take_false a n Hk). cbn [orb].
  rewrite andb_true_iff, negb_true_iff, Nat.leb_le, length_take. unfold a at 2. rewrite length_app. cbn [length].
  destruct (decide (n <= length l)%nat) as [Hn|Hn]; [rewrite no_at by done; intuition lia|].
  rewrite has_at by lia. intuition (discriminate || lia).
Qed.

Lemma filter_prefixes p (ns : list nat) :
  (forall n, n ∈ ns -> looks_like_key 16 (take n a) = p) ->
  List.filter (looks_like_key 16) ((fun n => take n a) <$> ns) = (if p then (fun n => take n a) <$> ns else []).
Proof.
  induction ns as [|n ns IH]; intros H; [by destruct p|]. cbn [fmap list_fmap List.filter].
  rewrite (H n) by (by left). rewrite IH by (intros; apply H; by right). by destruct p.
Qed.

Lemma prefix_is_no_key n : key_prefix a = false -> (n < 16 \/ length l < n)%nat -> looks_like_key 16 (take n a) = false.
Proof. intros Hk Hn. apply not_true_iff_false. rewrite typed_prefix_is_key by done. lia. Qed.

(** The pieces that are taken for keys: every one of sixteen characters or more before
    the at sign. *)
Lemma launched_exactly : key_prefix a = false ->
  launched_while_typing a = (fun n => take n l) <$> seq 16 (length l - 15).
Proof.
  intros Hk. unfold launched_while_typing.
  assert (El : (length a = length l + S (length dom))%nat) by (unfold a; by rewrite length_app).
  rewrite El, seq_app, fmap_app, List.filter_app.
  rewrite (filter_prefixes false (seq (1 + length l) _)), app_nil_r
    by (intros n Hn%elem_of_seq; apply prefix_is_no_key; [done|lia]).
  destruct (decide (16 <= length l)%nat) as [Hl|Hl].
  - replace (length l) with (15 + (length l - 15))%nat at 1 by lia. rewrite seq_app, fmap_app, List.filter_app.
    rewrite (filter_prefixes false (seq 1 15)) by (intros n Hn%elem_of_seq; apply prefix_is_no_key; [done|lia]).
    rewrite (filter_prefixes true) by (intros n Hn%elem_of_seq; apply typed_prefix_is_key; [done|lia]).
    apply list_fmap_ext. intros i n Hn%list_elem_of_lookup_2%elem_of_seq. unfold a. rewrite take_app_le by lia. done.
  - rewrite (filter_prefixes false) by (intros n Hn%elem_of_seq; apply prefix_is_no_key; [done|lia]).
    by replace (length l - 15)%nat with 0%nat by lia.
Qed.

Lemma last_launched_long : key_prefix a = false -> (16 <= length l)%nat -> last (launched_while_typing a) = Some l.
Proof.
  intros Hk Hl. rewrite launched_exactly by done. replace (length l - 15)%nat with (length l - 16 + 1)%nat by lia.
  rewrite seq_app, fmap_app, last_app. cbn. f_equal. apply take_ge. lia.
Qed.

Lemma last_launched_prefix : key_prefix a = true -> last (launched_while_typing a) = Some a.
Proof.
  intros Hk. unfold launched_while_typing.
  assert (El : (length a = pred (length a) + 1)%nat) by (unfold a; rewrite length_app; cbn [length]; lia).
  rewrite El, seq_app, fmap_app, List.filter_app, last_app. cbn [seq fmap list_fmap List.filter].
  replace (1 + pred (length a))%nat with (length a) by lia. rewrite firstn_all.
  unfold looks_like_key at 1. by rewrite Hk.
Qed.

End Typing.

(** C34: Typing an e-mail address (without white space or quotes) character by character
    into one of the e-mail fields of a page that remembers keys, whose store works and on
    which no other key is about to be launched. If the
    address does not start like a key and the part before the at sign has fewer than
    sixteen characters, nothing is launched and the store and the cookies stay as they
    were. If that part is longer, each of its prefixes from sixteen characters on is taken
    for a key and a departure with it is scheduled, the first one with the first sixteen
    characters; an address that starts like a key is launched too. In both cases every
    name of the user's key ends up with a piece of the address in place of the key: the part before the at sign, or the whole
    address if it starts like a key. *)
Theorem typing_an_address sf host f l dom p m :
  64 ∉ l -> clean_key (l ++ 64 :: dom) = true -> timers p = [] -> remembers p m ->
  let p' := type_text sf host f (l ++ 64 :: dom) p in
  (key_prefix (l ++ 64 :: dom) = false -> (length l < 16)%nat ->
     timers p' = [] /\ ls p' = ls p /\ jar p' = jar p) /\
  (key_prefix (l ++ 64 :: dom) = false -> (16 <= length l)%nat ->
     timers p' = (fun n => Launch (take n l)) <$> seq 16 (length l - 15) /\
     exists m', ls p' = Some m' /\ forall n, n ∈ Portal.key_names -> m' !! n = Some l) /\
  (key_prefix (l ++ 64 :: dom) = true ->
     timers p' <> [] /\
     exists m', ls p' = Some m' /\ forall n, n ∈ Portal.key_names -> m' !! n = Some (l ++ 64 :: dom)).
Proof.
  intros Hat Hc Ht Hp. cbv zeta. rewrite type_text_timers, Ht by done.
  destruct (type_text_store sf host f _ p m Hc Hp) as [-> ->]. cbn [app]. split_and!.
  - intros Hk Hl. rewrite (launched_exactly l dom Hat Hk). replace (length l - 15)%nat with 0%nat by lia.
    destruct Hp as [-> _]. done.
  - intros Hk Hl. split.
    + rewrite (launched_exactly l dom Hat Hk), <- list_fmap_compose. done.
    + eexists. split; [done|]. intros n Hn. apply fold_store_key; [|done]. by apply last_launched_long.
  - intros Hk. pose proof (last_launched_prefix l dom Hk) as L. split.
    + intros E%fmap_nil_inv. by rewrite E in L.
    + eexists. split; [done|]. intros n Hn. by apply fold_store_key.
Qed.

Definition empty_ui : ui :=
  UI De [] (Some (js "key")) (Some (Status [] [] [])) (Some (KeyField [] (js "text") (js "👁️"))) (Some true) [] [] [].
Definition empty_page : page := Page empty_ui (Some ∅) [] [] [] ∅ 0 [] [].

Definition no_fraction (_ : Q) : jsstring := [].

Lemma typing_an_address_witness :
  let p' := type_text no_fraction (js "ai.inetconnector.com") FieldMagic (js "maximiliane.must" ++ 64 :: js "firma.de") empty_page in
  timers p' = [Launch (js "maximiliane.must")] /\
  exists m', ls p' = Some m' /\ forall n, n ∈ Portal.key_names -> m' !! n = Some (js "maximiliane.must").
Proof.
  assert (Hat : 64 ∉ js "maximiliane.must") by plain_lit.
  destruct (typing_an_address no_fraction (js "ai.inetconnector.com") FieldMagic (js "maximiliane.must") (js "firma.de")
    empty_page ∅ Hat eq_refl eq_refl (conj eq_refl eq_refl)) as (_ & H & _).
  apply H; [vm_compute; reflexivity|vm_compute; repeat constructor].
Defined.

(** ** What the page sends and where it goes *)

(** The address of the studio with a key in its fragment. *)
Definition launch_address (u : jsstring) : Prop :=
  exists k e, k <> [] /\ header_safe k /\ encodeURIComponent k = Some e /\ u = js "/webui/#key=" ++ e.

Definition cred_bytes (c : credential) : Prop :=
  Forall is_byte (cr_rawId c) /\ Forall is_byte (cr_data c) /\ Forall is_byte (cr_client c) /\
  Forall is_byte (cr_signature c) /\ match cr_user c with Some u => Forall is_byte u | None => True end.

Definition decodes (t : jsstring) (bs : list N) : Prop := b64urlToBytes t = Some bs.

(** The request is the verification of credential [c]: every buffer can be read back. *)
Definition verifies (r : request) (c : credential) : Prop :=
  match r with
  | LoginVerify _ a =>
      as_id a = cr_id c /\ as_type a = cr_type c /\ decodes (as_rawId a) (cr_rawId c) /\
      decodes (authenticatorData a) (cr_data c) /\ decodes (as_clientDataJSON a) (cr_client c) /\
      decodes (signature a) (cr_signature c) /\
      match userHandle a, cr_user c with Some t, Some u => decodes t u | None, None => True | _, _ => False end
  | RegisterVerify _ a =>
      at_id a = cr_id c /\ at_type a = cr_type c /\ decodes (at_rawId a) (cr_rawId c) /\
      decodes (attestationObject a) (cr_data c) /\ decodes (at_clientDataJSON a) (cr_client c)
  | _ => True
  end.

Section Safety.
Context (sf : Q -> jsstring) (host : jsstring).
(** The credentials the authenticator answered with, and what [init] navigated to. *)
Context (answered : credential -> Prop) (first : list jsstring).

Definition good_timer (t : timer) : Prop := match t with Launch k => k <> [] /\ header_safe k | _ => True end.
Definition good_request (r : request) : Prop := exists c, answered c /\ verifies r c.
Definition is_verify (r : request) : bool :=
  match r with LoginVerify _ _ | RegisterVerify _ _ => true | _ => false end.

Record safe (p : page) : Prop := Safe {
  safe_navs : exists rest, navs p = first ++ rest /\ Forall launch_address rest;
  safe_timers : Forall good_timer (timers p);
  safe_requests : Forall (fun r => is_verify r = true -> good_request r) (requests p);
}.

(** The invariant is about these three fields only. *)
Lemma safe_same p q : navs q = navs p -> timers q = timers p -> requests q = requests p -> safe p -> safe q.
Proof. intros E1 E2 E3 [H1 H2 H3]. split; [by rewrite E1|by rewrite E2|by rewrite E3]. Qed.

Lemma safe_timer t p : good_timer t -> safe p -> safe (set_timers (timers p ++ [t]) p).
Proof. intros Ht [H1 H2 H3]. split; [done| |done]. apply Forall_app. by repeat constructor. Qed.

Lemma safe_send r p : (is_verify r = true -> good_request r) -> safe p -> safe (send r p).
Proof. intros Hr [H1 H2 H3]. split; [done..|]. apply Forall_app. by repeat constructor. Qed.

Lemma safe_status m t p : safe p -> safe (showStatus m t p).
Proof. by apply safe_same. Qed.

Lemma safe_finish id p : safe p -> safe (finish id p).
Proof. by apply safe_same. Qed.

Lemma safe_go_on id t s p : safe p -> safe (go_on id t s p).
Proof. by apply safe_same. Qed.

Lemma safe_store k p : safe p -> safe (storeKeyAndLaunch sf host k p).
Proof.
  intros H. destruct (store_launch_frame sf host k p) as (E1 & E2 & _). destruct H as [H1 H2 H3].
  split; [by rewrite E1| |by rewrite E2]. rewrite store_launch_timers. apply Forall_app. split; [done|].
  destruct (truthy (cleanApiKey sf k)) eqn:E; [|done]. apply truthy_true in E.
  repeat constructor; [done|apply cleanApiKey_safe..].
Qed.

Lemma safe_detect v p : safe p -> safe (snd (detectAndRedirectKey sf host v p)).
Proof.
  intros H. unfold detectAndRedirectKey. cbv zeta. destruct (_ && _); [|done]. cbn [snd].
  apply safe_store. by apply (safe_same p).
Qed.

Lemma b64_decodes bs : Forall is_byte bs -> decodes (b64 bs) bs.
Proof.
  intros H. unfold decodes, b64. rewrite (bytesToB64url_digits bs H). cbn [default].
  by apply b64urlToBytes_digits.
Qed.

Lemma verify_request_verifies f email c : cred_bytes c -> verifies (verify_request f email c) c.
Proof.
  intros (H1 & H2 & H3 & H4 & H5). destruct f; cbn; split_and!; try done; try by apply b64_decodes.
  destruct (cr_user c); cbn; [by apply b64_decodes|done].
Qed.

Lemma safe_caught id t m p : safe p -> (forall q, m = Ret q -> safe q) -> safe (caught id t m p).
Proof. intros H Hm. destruct m as [q|msg]; cbn; [by apply Hm|]. by apply safe_finish, safe_status. Qed.

Lemma safe_reply id t ok data p : safe p -> forall q, on_reply sf id t ok data p = Ret q -> safe q.
Proof.
  intros H q. unfold on_reply.
  assert (F : forall q', (let* e := error_or sf data (reply_failure (t_flow t)) in Ret (finish id (showStatus e (js "error") p))) = Ret q' -> safe q').
  { intros q'. destruct (error_or _ _ _); cbn; [|done]. intros [= <-]. by apply safe_finish, safe_status. }
  destruct (t_flow t), ok; try apply F; cbn [obind].
  - intros [= <-]. by apply safe_finish, safe_status.
  - destruct (get data _) as [k|]; cbn [obind]; [|done]. destruct (vtruthy k); [|apply F].
    intros [= <-]. apply safe_finish. refine (safe_timer _ (showStatus _ _ p) _ _); [done|by apply safe_status].
  - destruct (decode_options _ _) as [k|]; cbn [obind]; [|done]. intros [= <-]. apply safe_go_on. by apply (safe_same p).
  - destruct (decode_options _ _) as [k|]; cbn [obind]; [|done]. intros [= <-]. apply safe_go_on. by apply (safe_same p).
Qed.

Lemma safe_verdict id t ok data p : safe p -> forall q, on_verdict sf host id t ok data p = Ret q -> safe q.
Proof.
  intros H q. unfold on_verdict.
  assert (F : forall q', (let* e := error_or sf data (verdict_failure (t_flow t)) in Ret (finish id (showStatus e (js "error") p))) = Ret q' -> safe q').
  { intros q'. destruct (error_or _ _ _); cbn; [|done]. intros [= <-]. by apply safe_finish, safe_status. }
  destruct ok; [|apply F]. destruct (get data _) as [o|]; cbn [obind]; [|done]. cbv zeta.
  destruct (vtruthy _); [|apply F]. intros [= <-]. by apply safe_finish, safe_store.
Qed.

Lemma safe_submit f p : safe p -> safe (submit sf host f p).
Proof.
  intros H. unfold submit. cbv zeta. destruct (truthy _); [|destruct f; [done..|by apply safe_status]].
  pose proof (safe_detect (trim (field_of f (view p))) p H) as D.
  destruct (detectAndRedirectKey _ _ _ p) as [[|] p1]; cbn [snd] in D; [done|].
  apply (safe_same (send (first_request f (trim (field_of f (view p)))) (showStatus (pending_text f) (js "success") p1))); try done.
  apply safe_send; [by destruct f|]. by apply safe_status.
Qed.

Lemma safe_fire t p : good_timer t -> safe p -> safe (fire sf host t p).
Proof.
  intros Ht H. destruct t as [k|v|]; cbn [fire]; [|by apply safe_store|by apply (safe_same p)].
  destruct (encodeURIComponent k) as [e|] eqn:E; [|done]. destruct H as [(rest & H0 & H1) H2 H3]. split; [|done..].
  exists (rest ++ [js "/webui/#key=" ++ e]). cbn. rewrite H0, app_assoc. split; [done|].
  apply Forall_app. split; [done|]. repeat constructor. exists k, e. destruct Ht. done.
Qed.

Lemma safe_on_timer i p : safe p -> safe (on_timer sf host i p).
Proof.
  intros H. unfold on_timer. destruct (timers p !! i) as [t|] eqn:E; [|done]. destruct H as [H1 H2 H3]. apply safe_fire.
  - rewrite Forall_forall in H2. apply H2. by eapply list_elem_of_lookup_2.
  - split; [done| |done]. cbn. by apply Forall_delete.
Qed.

Definition answer_ok (e : event) : Prop :=
  match e with Answer _ (Some c) => answered c /\ cred_bytes c | _ => True end.

Lemma safe_step p e : answer_ok e -> safe p -> safe (step sf host p e).
Proof.
  intros Ha H. destruct e as [v| |f|f v|v|b|t| | |id ok|id data|id c|id n m|i]; cbn [step];
    try (by apply (safe_same p)).
  - unfold handleKeyLogin. cbv zeta. destruct (truthy _); [by apply safe_store|by apply safe_status].
  - by apply safe_submit.
  - unfold on_input. cbv zeta. destruct (looks_like_key _ _); [apply safe_detect|]; by apply (safe_same p).
  - unfold on_paste. cbv zeta. refine (safe_timer _ (set_view _ p) _ _); [done|by apply (safe_same p)].
  - unfold on_response. destruct (inflight p !! id) as [t|]; [|done]. destruct (t_stage t); try done; by apply safe_go_on.
  - unfold on_body. destruct (inflight p !! id) as [t|]; [|done].
    destruct (t_stage t); try done; apply safe_caught; [done|by apply safe_reply|done|by apply safe_verdict].
  - unfold on_credential. destruct (inflight p !! id) as [t|]; [|done]. destruct (t_stage t); try done.
    destruct c as [c|]; [|by apply safe_caught]. destruct Ha as [Ha Hb]. apply safe_go_on, safe_send; [|done].
    intros _. exists c. split; [done|]. by apply verify_request_verifies.
  - unfold on_reject. destruct (inflight p !! id) as [t|]; [|done]. by apply safe_finish, safe_status.
  - by apply safe_on_timer.
Qed.

End Safety.

(** What [init] goes to without a key of its own: the studio without a key when no key is
    stored and there is a session cookie, and the studio with an empty key when nothing is
    left of the stored one after cleaning. *)
Inductive load_address (sf : Q -> jsstring) (p : page) : jsstring -> Prop :=
| OnlyCookie m : ls p = Some m -> first_item Portal.key_names m = [] -> session_in (jar p) = true ->
    load_address sf p (js "/webui/")
| BlankKey m : ls p = Some m -> first_item Portal.key_names m <> [] ->
    cleanApiKey sf (VStr (first_item Portal.key_names m)) = [] -> load_address sf p (js "/webui/#key=").

(** The page after [init]: at most one navigation, nothing sent. *)
Lemma init_safe sf lossy host answered hash p :
  navs p = [] -> timers p = [] -> requests p = [] ->
  exists first, (first = [] \/ exists u, first = [u] /\ (launch_address u \/ load_address sf p u)) /\
    safe answered first (init sf lossy host hash p).
Proof.
  intros Hn Ht Hr.
  assert (S0 : safe answered [] p) by (split; [exists []; by rewrite Hn|by rewrite Ht|by rewrite Hr]).
  assert (Same : exists first, (first = [] \/ exists u, first = [u] /\ (launch_address u \/ load_address sf p u)) /\
    safe answered first (applyStudioLanguage (currentLang (view p)) p)).
  { exists []. split; [by left|]. by apply (safe_same answered [] p). }
  assert (Go : forall u, launch_address u \/ load_address sf p u ->
    exists first, (first = [] \/ exists u, first = [u] /\ (launch_address u \/ load_address sf p u)) /\
      safe answered first (replace_location u p)).
  { intros u Hu. exists [u]. split; [right; by exists u|].
    split; [exists []; cbn; by rewrite Hn|cbn; by rewrite Ht|cbn; by rewrite Hr]. }
  unfold init. cbv zeta. destruct (truthy (fragment_key lossy hash)).
  { exists []. split; [by left|]. by apply safe_store. }
  destruct (ls p) as [m|] eqn:El; [|done]. destruct (truthy (first_item Portal.key_names m)) eqn:Ek.
  - destruct (encodeURIComponent _) as [e|] eqn:Ee; [|done]. apply Go.
    destruct (cleanApiKey sf (VStr (first_item Portal.key_names m))) as [|c k] eqn:Ec.
    + right. cbn in Ee. simplify_eq. apply (BlankKey sf p m El); [by apply truthy_true|done].
    + left. exists (c :: k), e. split_and!; [done| |done|done]. rewrite <- Ec. apply cleanApiKey_safe.
  - destruct (session_in (jar p)) eqn:Ej; [|done]. apply Go. right. apply (OnlyCookie sf p m El); [|done].
    by destruct (first_item Portal.key_names m).
Qed.

(** C10: Whatever is stored when the sign-in page is loaded and whatever happens on it
    afterwards, in any order: it leaves for the studio with a cleaned, non-empty key in the
    fragment, with two exceptions that only the load of the page makes and makes at most
    once, first of all: without a stored key but with a session cookie it leaves for the
    studio without a key, and with a stored key of which cleaning leaves nothing it leaves
    with an empty one. Every verification it sends is that of a credential the authenticator
    answered with, each of whose buffers (of bytes) the receiver decodes to the same bytes. *)
Theorem sign_in_page_is_safe sf lossy host hash es p :
  navs p = [] -> timers p = [] -> requests p = [] ->
  Forall (answer_ok cred_bytes) es ->
  let p' := visit sf lossy host hash es p in
  (exists first rest, navs p' = first ++ rest /\ Forall launch_address rest /\
     (first = [] \/ exists u, first = [u] /\ (launch_address u \/ load_address sf p u))) /\
  forall r, r ∈ requests p' -> is_verify r = true ->
    exists id c, Answer id (Some c) ∈ es /\ verifies r c.
Proof.
  intros Hn Ht Hr Ha. cbv zeta. set (answered := fun c => exists id, Answer id (Some c) ∈ es).
  destruct (init_safe sf lossy host answered hash p Hn Ht Hr) as (first & Hf & Hi).
  assert (S : safe answered first (visit sf lossy host hash es p)).
  { unfold visit, exec. apply (fold_invariant (step sf host) (safe answered first) (answer_ok answered)); [|  |done].
    - intros s e He Hs. by apply safe_step.
    - rewrite Forall_forall in Ha |- *. intros e He. specialize (Ha e He).
      destruct e as [| | | | | | | | | | |id [c|]| |]; try done. destruct Ha as [Hb _]. split; [by exists id|done]. }
  destruct S as [(rest & S0 & S1) _ S3]. split; [by exists first, rest|]. intros r Hin Hv. rewrite Forall_forall in S3.
  destruct (S3 r Hin Hv) as (c & (id & Hid) & Hc). by exists id, c.
Qed.

Definition sample_credential : credential :=
  Credential (js "id1") [1; 2; 255] (js "public-key") [7] [123; 125] [9; 9; 9; 9] None.
Definition passkey_run : list event :=
  [Typed FieldPk (js "max@firma.de"); Submit Login; Response 0 true;
   Body 0 (VObj [(js "options", VObj [(js "publicKey", VObj [(js "challenge", VStr (js "AQID"))])])]);
   Answer 0 (Some sample_credential); Response 0 true; Body 0 (VObj [(js "owner_key", VStr (js "cm_sec_1"))]); Timer 0].

(** A visitor whose stored key is blank and who then signs in with a passkey. *)
Definition blank_page : page := set_store (Some {[js "cm_api_key" := js " "]}) [] empty_page.

Lemma sign_in_page_is_safe_witness :
  let p' := visit no_fraction id (js "ai.inetconnector.com") [] passkey_run blank_page in
  navs p' = [js "/webui/#key="; js "/webui/#key=cm_sec_1"] /\ length (requests p') = 2%nat /\
  (exists first rest, navs p' = first ++ rest /\ Forall launch_address rest /\
     (first = [] \/ exists u, first = [u] /\ (launch_address u \/ load_address no_fraction blank_page u))) /\
  (forall r, r ∈ requests p' -> is_verify r = true -> exists id c, Answer id (Some c) ∈ passkey_run /\ verifies r c).
Proof.
  cbv zeta. split; [vm_compute; reflexivity|]. split; [vm_compute; reflexivity|].
  apply (sign_in_page_is_safe no_fraction id (js "ai.inetconnector.com") [] passkey_run blank_page); try reflexivity.
  repeat constructor.
Defined.

(** An error that is a record instead of a text is shown as the name of its class. *)
Lemma structured_error_is_unreadable sf id t data p e :
  t_flow t = Magic -> get data (js "error") = Ret (VObj e) -> status_el (view p) <> None ->
  exists q, on_reply sf id t false data p = Ret q /\
    st_text <$> status_el (view q) = Some (js "[object Object]").
Proof.
  intros Hf Hd Hs. unfold on_reply, error_or. rewrite Hf, Hd. eexists. split; [reflexivity|].
  cbn. by destruct (status_el (view p)).
Qed.
