(* ===== verification/StudioHead.v ===== *)
(** * The first script of the studio page (webui/index.html)

    Before anything else the page of the studio looks for the user's key, in the five
    entries of the store and then in the session cookie, cleans it and writes it to every
    place the bundled user interface and the portal read.  Composed with the sign-in page:
    what a sign-in leaves behind in the browser. *)
From Stdlib Require Import Lia NArith QArith.
From stdpp Require Import base numbers list gmap strings.
From S2P Require Import Prelude JsString JsNumber JsValue JsJson JsonRoundTrip I18n Auth UriRoundTrip StudioAuth.

#[local] Open Scope N_scope.

(** ** The script *)

(** The flags that keep the onboarding dialog closed. *)
Definition setup_flags : list jsstring :=
  js <$> ["LlamaUi.mcpServersSetupDone"; "LlamaCppWebui.mcpServersSetupDone"; "ComputeMesh.mcpServersSetupDone";
          "mcp_modal_dismissed"; "mcp_setup_done"; "has_seen_mcp_modal"]%string.

Definition set_flags (m : gmap jsstring jsstring) : gmap jsstring jsstring :=
  fold_left (fun m k => <[k := js "true"]> m) setup_flags m.

(** The entries in the order in which the script writes them. *)
Definition written_names : list jsstring :=
  js <$> ["apiKey"; "cm_fleet_owner_key"; "cm_owner_key"; "cm_api_key"; "cm_token"]%string.

(** [a || b || ... || (cookieMatch && decodeURIComponent(cookieMatch[1]))]: [None] when the
    decoding throws. *)
Definition raw_key (m : gmap jsstring jsstring) (cookies : jsstring) : option jsstring :=
  let stored := first_item Portal.key_names m in
  if truthy stored then Some stored
  else match Agent.match_session cookies with
       | Some v => decodeURIComponent v
       | None => Some []
       end.

Section Head.
Context (show_frac : Q -> jsstring) (hostname : jsstring).

(** What the script does with a cleaned key. *)
Definition spread_key (cmKey : jsstring) (m : gmap jsstring jsstring) : gmap jsstring jsstring :=
  let m1 := fold_left (fun m k => <[k := cmKey]> m) written_names m in
  Portal.update_overrides show_frac (fold_left (Portal.update_config show_frac cmKey) Portal.config_keys m1).

(** The script in the head of the page: the store and the cookies after it. *)
Definition head_script (st : storage) (j : list cookie) : storage * list cookie :=
  match st with
  | None => (st, j)
  | Some m =>
      let m1 := set_flags m in
      match raw_key m1 (cookie_string j) with
      | Some raw =>
          let cmKey := normalize_key raw in
          if truthy raw && truthy cmKey then
            (Some (spread_key cmKey m1), setSubdomainCookie hostname (js "cm_session") cmKey j)
          else (Some m1, j)
      | None => (Some m1, j)
      end
  end.

End Head.

(** The second script sets the first three flags again, for a store that works. *)
Definition ensure_flags (st : storage) : storage :=
  (fun m => fold_left (fun m k => <[k := js "true"]> m) (take 3 setup_flags) m) <$> st.

(** ** Facts about the store *)

Lemma flags_keep m k : k ∉ setup_flags -> set_flags m !! k = m !! k.
Proof. apply fold_insert_other. Qed.

Lemma key_names_not_flags k : k ∈ Portal.key_names -> k ∉ setup_flags.
Proof.
  assert (C : forallb (fun k => bool_decide (k ∉ setup_flags)) Portal.key_names = true) by (vm_compute; reflexivity).
  rewrite forallb_forall in C. intros H%list_elem_of_In%C. by apply bool_decide_eq_true in H.
Qed.

Lemma written_names_same k : k ∈ Portal.key_names -> k ∈ written_names.
Proof.
  assert (C : forallb (fun k => bool_decide (k ∈ written_names)) Portal.key_names = true) by (vm_compute; reflexivity).
  rewrite forallb_forall in C. intros H%list_elem_of_In%C. by apply bool_decide_eq_true in H.
Qed.

Lemma first_item_ext ks m m' : (forall k, k ∈ ks -> m !! k = m' !! k) -> first_item ks m = first_item ks m'.
Proof.
  induction ks as [|k ks IH]; intros H; [done|]. cbn [first_item]. unfold item_or_empty at 1 2 3 4.
  rewrite (H k) by (by left). rewrite IH by (intros; apply H; by right). done.
Qed.

Lemma first_item_flags m : first_item Portal.key_names (set_flags m) = first_item Portal.key_names m.
Proof. apply first_item_ext. intros k Hk. by apply flags_keep, key_names_not_flags. Qed.

Lemma spread_key_lookup sf q m k : k ∈ Portal.key_names -> spread_key sf q m !! k = Some q.
Proof.
  intros Hk. destruct (key_names_apart k Hk) as [H1 H2]. unfold spread_key.
  rewrite update_overrides_other, fold_config_other by done. by apply fold_insert_lookup, written_names_same.
Qed.

(** ** Facts about the cookie *)

(** A pattern without a semicolon that occurs across a semicolon occurs before it. *)
Lemma starts_before p r t : 59 ∉ p -> starts_with p (r ++ 59 :: t) = true -> starts_with p r = true.
Proof.
  revert r. induction p as [|c p IH]; intros r H; [done|]. apply not_elem_of_cons in H as [Hc H].
  destruct r as [|e r]; cbn [app starts_with]; intros E%andb_true_iff; destruct E as [E1 E2].
  - apply N.eqb_eq in E1. congruence.
  - rewrite E1. cbn. by apply IH.
Qed.

Lemma trim_start_before r t : exists r', trim_start (r ++ 59 :: t) = r' ++ 59 :: t /\ (exists w, r = w ++ r').
Proof.
  induction r as [|c r (r' & E & w & Hw)]; cbn [app trim_start].
  - exists []. split; [done|by exists []].
  - destruct (is_ws c); [|exists (c :: r); split; [done|by exists []]].
    exists r'. split; [done|]. exists (c :: w). by rewrite Hw.
Qed.

Lemma includes_suffix p w r : includes p (w ++ r) = false -> starts_with p r = false.
Proof.
  intros H. destruct (starts_with p r) eqn:E; [|done]. apply starts_with_spec in E as [x ->].
  assert (includes p (w ++ p ++ x) = true); [|congruence]. apply includes_spec. by exists w, x.
Qed.

Lemma no_session_before w r t : includes (js "cm_session=") (w ++ r) = false -> Agent.value_at (r ++ 59 :: t) = None.
Proof.
  intros H. unfold Agent.value_at. destruct (starts_with _ (r ++ _)) eqn:E; [|done].
  apply starts_before in E; [|plain_lit]. rewrite (includes_suffix _ w r H) in E. done.
Qed.

Lemma scan_skips w r t : includes (js "cm_session=") (w ++ r) = false ->
  Agent.scan_cookie (r ++ 59 :: t) = Agent.scan_cookie (59 :: t).
Proof.
  revert w. induction r as [|c r IH]; intros w H; [done|]. cbn [app Agent.scan_cookie].
  assert (H' : includes (js "cm_session=") ((w ++ [c]) ++ r) = false) by (by rewrite <- app_assoc).
  destruct (c =? 59); [|exact (IH _ H')].
  destruct (trim_start_before r t) as (r' & -> & v & ->).
  rewrite (no_session_before ((w ++ [c]) ++ v) r' t); [exact (IH _ H')|by rewrite <- app_assoc].
Qed.

(** Behind cookies that do not mention a session, the session cookie is found. *)
Lemma match_appended pre v rest : includes (js "cm_session=") pre = false -> 59 ∉ v -> v <> [] ->
  rest = [] \/ (exists r, rest = 59 :: r) ->
  Agent.match_session (if truthy pre then pre ++ js "; " ++ js "cm_session=" ++ v ++ rest
                       else js "cm_session=" ++ v ++ rest) = Some v.
Proof.
  intros Hp Hv Hn Hr. apply truthy_true in Hn.
  assert (V : Agent.value_at (js "cm_session=" ++ v ++ rest) = Some v).
  { unfold Agent.value_at. rewrite starts_with_app, drop_app_length' by reflexivity.
    assert (split_on 59 (v ++ rest) = [v] \/ exists l, split_on 59 (v ++ rest) = v :: l) as [->|[l ->]].
    { destruct Hr as [->|[r ->]]; [rewrite app_nil_r; left; by apply split_on_single|right; eexists; by apply split_on_line]. }
    all: cbv iota beta zeta; cbn; by rewrite Hn. }
  unfold Agent.match_session. destruct (truthy pre) eqn:E; [|by rewrite V].
  change (js "; ") with [59; 32]. cbn [app].
  rewrite (no_session_before [] pre) by done. rewrite (scan_skips [] pre) by done. cbn [Agent.scan_cookie].
  change (59 =? 59) with true. cbv iota.
  assert (T : trim_start (32 :: js "cm_session=" ++ v ++ rest) = js "cm_session=" ++ v ++ rest) by reflexivity.
  rewrite T, V. done.
Qed.

(** ** The cookies a sign-in sets *)

Lemma includes_cons p c s : starts_with p (c :: s) = false -> includes p (c :: s) = includes p s.
Proof. intros H. cbn [includes] in *. by rewrite H. Qed.

(** A pattern without semicolon and blank lies within one cookie. *)
Lemma includes_sep p a b : p <> [] -> 59 ∉ p -> 32 ∉ p ->
  includes p (a ++ js "; " ++ b) = includes p a || includes p b.
Proof.
  intros Hn H59 H32. change (js "; ") with [59; 32]. cbn [app].
  assert (S1 : forall t, starts_with p (59 :: t) = false).
  { intros t. destruct p as [|c p]; [done|]. apply not_elem_of_cons in H59 as [H _]. cbn.
    destruct (c =? 59) eqn:E; [apply N.eqb_eq in E; congruence|done]. }
  assert (S2 : forall t, starts_with p (32 :: t) = false).
  { intros t. destruct p as [|c p]; [done|]. apply not_elem_of_cons in H32 as [H _]. cbn.
    destruct (c =? 32) eqn:E; [apply N.eqb_eq in E; congruence|done]. }
  induction a as [|c a IH].
  - assert (includes p [] = false) as -> by (by destruct p).
    cbn [app orb]. by rewrite !includes_cons by auto.
  - cbn [app includes]. rewrite IH. destruct (starts_with p (c :: a ++ 59 :: 32 :: b)) eqn:E.
    + rewrite app_comm_cons in E. apply starts_before in E; [|done]. by rewrite E.
    + destruct (starts_with p (c :: a)) eqn:E'; [|done]. apply starts_with_spec in E' as [r E'].
      rewrite app_comm_cons, E', <- app_assoc, starts_with_app in E. done.
Qed.

Lemma includes_join p l : p <> [] -> 59 ∉ p -> 32 ∉ p -> includes p (join (js "; ") l) = existsb (includes p) l.
Proof.
  intros Hn H59 H32. induction l as [|x l IH]; [by destruct p|]. cbn [existsb]. destruct l as [|y l].
  - cbn. by rewrite orb_false_r.
  - rewrite join_cons by done. by rewrite includes_sep, IH.
Qed.

Definition pair_text (c : cookie) : jsstring := c_name c ++ js "=" ++ c_value c.

Lemma session_in_some j : session_in j = existsb (fun c => includes (js "cm_session=") (pair_text c)) j.
Proof.
  unfold session_in, cookie_string. rewrite includes_join; [|done|plain_lit|plain_lit].
  induction j as [|c j IH]; [done|]. cbn [fmap list_fmap existsb]. by rewrite IH.
Qed.

Lemma session_name v dom : includes (js "cm_session=") (pair_text (Cookie (js "cm_session") v dom)) = true.
Proof. apply includes_spec. exists [], v. reflexivity. Qed.

Lemma filter_free f j : session_in j = false -> session_in (List.filter f j) = false.
Proof.
  rewrite !session_in_some. induction j as [|c j IH]; [done|]. cbn [existsb List.filter]. intros [H1 H2]%orb_false_iff.
  destruct (f c); cbn [existsb]; rewrite ?H1; auto.
Qed.

Lemma join_app sep a b : a <> [] -> b <> [] -> join sep (a ++ b) = join sep a ++ sep ++ join sep b.
Proof.
  intros Ha Hb. induction a as [|x a IH]; [done|]. destruct a as [|y a].
  - cbn [app]. by rewrite join_cons.
  - cbn [app] in *. rewrite join_cons by done. rewrite IH by done. rewrite (join_cons _ x) by done. by rewrite <- !app_assoc.
Qed.

(** After cookies without a session, the session cookie is the one that is read. *)
Lemma session_read j v dom more : session_in j = false -> 59 ∉ v -> v <> [] ->
  Agent.match_session (cookie_string (j ++ Cookie (js "cm_session") v dom :: more)) = Some v.
Proof.
  intros Hj Hv Hn. set (rest := match more with [] => [] | _ => js "; " ++ cookie_string more end).
  assert (E : cookie_string (j ++ Cookie (js "cm_session") v dom :: more) =
    if truthy (cookie_string j) then cookie_string j ++ js "; " ++ js "cm_session=" ++ v ++ rest else js "cm_session=" ++ v ++ rest).
  { assert (M : cookie_string (Cookie (js "cm_session") v dom :: more) = js "cm_session=" ++ v ++ rest).
    { unfold cookie_string, rest. rewrite fmap_cons. cbn [c_name c_value]. rewrite (app_assoc (js "cm_session")).
      change (js "cm_session" ++ js "=") with (js "cm_session="). destruct more as [|y more]; [cbn; by rewrite app_nil_r|].
      rewrite join_cons by done. by rewrite <- app_assoc. }
    destruct j as [|c j]; [exact M|].
    assert (truthy (cookie_string (c :: j)) = true) as ->.
    { unfold cookie_string. destruct c as [[|x n] w dm]; destruct j; reflexivity. }
    rewrite <- M. unfold cookie_string. by rewrite fmap_app, join_app. }
  rewrite E. apply match_appended; [done..|]. unfold rest. destruct more; [by left|right].
  change (js "; ") with [59; 32]. cbn [app]. eexists. reflexivity.
Qed.

Lemma apos_elem c s : c <> 39 -> c ∈ s -> c ∈ apos s.
Proof.
  intros Hc. induction s as [|d s IH]; [done|]. intros [->|H]%elem_of_cons; unfold apos; cbn [fmap list_fmap concat]; apply elem_of_app.
  - left. destruct (d =? 39) eqn:E; [apply N.eqb_eq in E; done|by left].
  - right. by apply IH.
Qed.

(** The hosts on which the page can set its cookies. *)
Definition cookie_host (h : jsstring) : bool := in_domain h || negb (ends_with (js "inetconnector.com") h).

(** Where a cookie of the page goes. *)
Definition cookie_domain (h : jsstring) : option jsstring :=
  if ends_with (js "inetconnector.com") h then Some (js ".inetconnector.com") else None.

Lemma subdomain_cookie h n k e j : cookie_host h = true -> encodeURIComponent k = Some e ->
  setSubdomainCookie h n k j = set_cookie (Cookie n e (cookie_domain h)) j.
Proof.
  unfold cookie_host, setSubdomainCookie, cookie_domain. intros H ->.
  destruct (ends_with _ h), (in_domain h); done.
Qed.

(** The two cookies of a sign-in, behind those that were there. *)
Lemma sign_in_cookies h k e j : cookie_host h = true -> session_in j = false -> encodeURIComponent k = Some e ->
  exists j', session_in j' = false /\
    setSubdomainCookie h (js "cm_fleet_session") k (setSubdomainCookie h (js "cm_session") k j) =
    j' ++ [Cookie (js "cm_session") e (cookie_domain h); Cookie (js "cm_fleet_session") e (cookie_domain h)].
Proof.
  intros Hh Hj He. rewrite !(subdomain_cookie h _ k e) by done. unfold set_cookie at 2. cbn [c_name c_domain].
  exists (List.filter (fun x => negb (same_cookie (js "cm_fleet_session") (cookie_domain h) x))
            (List.filter (fun x => negb (same_cookie (js "cm_session") (cookie_domain h) x)) j)).
  split; [by do 2 apply filter_free|]. unfold set_cookie. rewrite List.filter_app. cbn [List.filter].
  assert (same_cookie (c_name (Cookie (js "cm_fleet_session") e (cookie_domain h)))
            (c_domain (Cookie (js "cm_fleet_session") e (cookie_domain h))) (Cookie (js "cm_session") e (cookie_domain h)) = false)
    as -> by reflexivity.
  cbn [negb]. by rewrite <- app_assoc.
Qed.

(** ** Signing in *)

(** A visitor without key and session. *)
Definition stranger (p : page) (m : gmap jsstring jsstring) : Prop :=
  ls p = Some m /\ first_item Portal.key_names m = [] /\ session_in (jar p) = false /\
  navs p = [] /\ timers p = [] /\ keyInput (view p) <> None /\ remember (view p) <> None.

(** The form is shown to strangers, in their language. *)
Lemma init_shows_the_form sf lossy h hash p m : stranger p m -> fragment_key lossy hash = [] ->
  init sf lossy h hash p = applyStudioLanguage (currentLang (view p)) p.
Proof. intros (H1 & H2 & H3 & _) Hh. unfold init. by rewrite Hh, H1, H2, H3. Qed.

(** The events of a sign-in with a key. *)
Definition sign_in (raw : jsstring) (b : bool) : list event := [KeyTyped raw; Remember b; KeyLogin; Timer 0].

Section SignIn.
Context (sf : Q -> jsstring) (h raw k : jsstring).
Context (Hclean : cleanApiKey sf (VStr raw) = k) (Hne : k <> []).

Lemma raw_truthy : truthy raw = true.
Proof. destruct raw; [|done]. cbn in Hclean. by subst. Qed.

(** The page after the sign-in, before it is left. *)
Lemma sign_in_run p m b e : stranger p m -> encodeURIComponent k = Some e ->
  let q := exec sf h (sign_in raw b) p in
  navs q = [js "/webui/#key=" ++ e] /\
  ls q = default None (store_parts sf k b (ls p)) /\
  jar q = setSubdomainCookie h (js "cm_fleet_session") k (setSubdomainCookie h (js "cm_session") k (jar p)).
Proof.
  destruct p as [[lg lb tb stt kf rm e1 e2 e3] st jr tm nv fl ni rq pr].
  intros (H1 & H2 & H3 & H4 & H5 & H6 & H7) He. cbn [ls navs timers view keyInput remember] in *. subst st nv tm.
  destruct kf as [kf|]; [|done]. destruct rm as [r|]; [|done].
  assert (T : truthy k = true) by (by apply truthy_true).
  cbv zeta. unfold exec, sign_in. cbn [fold_left]. set (p1 := step sf h (step sf h _ (KeyTyped raw)) (Remember b)).
  assert (E : step sf h p1 KeyLogin = storeKeyAndLaunch sf h (VStr raw) p1).
  { cbn [step]. unfold handleKeyLogin. change (default [] (kf_value <$> keyInput (view p1))) with raw.
    cbv zeta. by rewrite raw_truthy. }
  rewrite E. unfold storeKeyAndLaunch. rewrite Hclean, T.
  assert (Er : remember (view (showStatus (js "✅ API-Key erkannt — Weiterleitung zum AI Studio...") (js "success") p1)) = Some b) by reflexivity.
  rewrite Er. cbv zeta. cbn [default from_option]. unfold id.
  change (ls (showStatus _ _ p1)) with (Some m). destruct (store_parts sf k b (Some m)) as [st|] eqn:Es; [|by cbn in Es].
  cbn [step]. unfold on_timer. cbn [timers set_timers set_store showStatus set_view p1 step lookup list_lookup app]. cbn [fire]. rewrite He.
  by split_and!.
Qed.

End SignIn.

Lemma flags_first m q : (forall n, n ∈ Portal.key_names -> m !! n = Some q) -> q <> [] ->
  first_item Portal.key_names (set_flags m) = q.
Proof.
  intros H Hq. rewrite first_item_flags. unfold Portal.key_names. apply first_item_hit; [|done]. apply H. mem.
Qed.

Lemma config_keeps_keys sf q m n : n ∈ Portal.key_names ->
  Portal.update_overrides sf (fold_left (Portal.update_config sf q) Portal.config_keys m) !! n = m !! n.
Proof.
  intros Hk. destruct (key_names_apart n Hk) as [H1 H2]. by rewrite update_overrides_other, fold_config_other.
Qed.

(** C36: A visitor without a key signs in with one: the page leaves for the studio, and once
    the studio page has loaded, all five entries of the store hold the key for good and
    the portal sends it, whether or not the visitor asked the page to remember it.  The
    sign-in page alone would have kept the choice. *)
Theorem remembering_makes_no_difference sf lossy h hash p m raw k b :
  stranger p m -> fragment_key lossy hash = [] -> cookie_host h = true ->
  cleanApiKey sf (VStr raw) = k -> clean_key k = true -> Forall (fun c => c < 128) k -> k <> [] ->
  let q := exec sf h (sign_in raw b) (init sf lossy h hash p) in
  let '(st, _) := head_script sf h (ls q) (jar q) in
  (exists e, encodeURIComponent k = Some e /\ navs q = [js "/webui/#key=" ++ e]) /\
  (exists m1, ls q = Some m1 /\ forall n, n ∈ Portal.key_names -> m1 !! n = (if b then Some k else m !! n)) /\
  (exists m2, st = Some m2 /\ forall n, n ∈ Portal.key_names -> m2 !! n = Some k) /\
  Portal.getActiveComputeMeshApiKey st = k.
Proof.
  intros Hs Hf Hh Hr Hc Ha Hn. cbv zeta. rewrite (init_shows_the_form sf lossy h hash p m) by done.
  destruct (encode_decode k Ha) as (e & He & H59 & Hd & Hen).
  assert (Hs' : stranger (applyStudioLanguage (currentLang (view p)) p) m) by exact Hs.
  destruct (sign_in_run sf h raw k Hr Hn _ m b e Hs' He) as (N & L & J).
  set (q := exec sf h (sign_in raw b) _) in *. destruct Hs as (H1 & H2 & H3 & _).
  cbn [applyStudioLanguage set_view ls jar] in L, J. rewrite H1 in L.
  destruct (sign_in_cookies h k e (jar p) Hh H3 He) as (j' & Hj' & Ej). rewrite Ej in J.
  set (m1 := Portal.update_overrides sf (fold_left (Portal.update_config sf k) Portal.config_keys
               (if b then fold_left (fun m k0 => <[k0 := k]> m) Portal.key_names m else m))).
  assert (L1 : ls q = Some m1) by exact L.
  assert (E1 : forall n, n ∈ Portal.key_names -> m1 !! n = (if b then Some k else m !! n)).
  { intros n Hin. unfold m1. rewrite config_keeps_keys by done. destruct b; [by apply fold_insert_lookup|done]. }
  assert (R : raw_key (set_flags m1) (cookie_string (jar q)) = Some k).
  { unfold raw_key. destruct b.
    - rewrite (flags_first m1 k) by done. apply truthy_true in Hn. by rewrite Hn.
    - rewrite first_item_flags, (first_item_ext _ m1 m E1), H2. cbn [truthy].
      rewrite J, session_read; [exact Hd|done|done|by apply Hen]. }
  unfold head_script. rewrite L1, R, (clean_normal k Hc). apply truthy_true in Hn as Tn. rewrite Tn. cbn [andb].
  split_and!; [by exists e|by exists m1| |].
  - eexists. split; [reflexivity|]. intros n. apply spread_key_lookup.
  - unfold Portal.getActiveComputeMeshApiKey, Portal.key_names.
    rewrite (first_item_hit _ _ _ k); [|apply spread_key_lookup; mem|done]. by rewrite Tn, (clean_normal k Hc).
Qed.

Lemma remembering_makes_no_difference_witness :
  let q := exec no_fraction (js "ai.inetconnector.com") (sign_in (jsq " `Bearer cm_live_7` ") false)
             (init no_fraction id (js "ai.inetconnector.com") [] empty_page) in
  let '(st, _) := head_script no_fraction (js "ai.inetconnector.com") (ls q) (jar q) in
  (exists m1, ls q = Some m1 /\ forall n, n ∈ Portal.key_names -> m1 !! n = None) /\
  Portal.getActiveComputeMeshApiKey st = js "cm_live_7".
Proof.
  assert (S : stranger empty_page ∅) by (split_and!; [reflexivity..|discriminate|discriminate]).
  assert (A : Forall (fun c => c < 128) (js "cm_live_7")).
  { rewrite <- (bool_decide_eq_true (Forall _ _)). vm_compute. reflexivity. }
  assert (C : cleanApiKey no_fraction (VStr (jsq " `Bearer cm_live_7` ")) = js "cm_live_7") by (vm_compute; reflexivity).
  pose proof (remembering_makes_no_difference no_fraction id (js "ai.inetconnector.com") [] empty_page ∅
    (jsq " `Bearer cm_live_7` ") (js "cm_live_7") false S eq_refl eq_refl C eq_refl A ltac:(discriminate)) as W.
  cbv zeta in W |- *. destruct (head_script _ _ _ _) as [st j].
  destruct W as (_ & (m1 & L & M) & _ & K). split; [|exact K].
  exists m1. split; [exact L|]. intros n Hn. rewrite (M n Hn). apply lookup_empty.
Defined.

(** C30: The session cookie the portal sets is read back by the agent workspace as exactly
    the same key, for every non-empty well-formed key without white space at its ends,
    whatever other cookies the browser holds before and after it, as long as the text of no
    earlier one contains the name of the session, and whatever else is stored, as long as no
    token is stored for the workspace. *)
Theorem session_cookie_round_trip q c j more m :
  code_units q -> well_formed q = true -> q <> [] -> trim q = q ->
  Portal.session_cookie q = Some c ->
  session_in (expire_cookie (js "cm_session") (Some (js ".inetconnector.com")) j) = false ->
  first_item Agent.token_names m = [] ->
  Agent.resolveAuthToken (Some m) (cookie_string (set_cookie c j ++ more)) = Some q.
Proof.
  intros Hu Hw Hn Ht Hc Hj Hm. destruct (uri_round_trip q Hu Hw) as (e & E & Hd & _ & Hs & Hl).
  unfold Portal.session_cookie in Hc. rewrite E in Hc. injection Hc as <-.
  unfold Agent.resolveAuthToken. rewrite Hm. cbn [truthy andb].
  assert (Ej : forall c, set_cookie c j ++ more = expire_cookie (c_name c) (c_domain c) j ++ c :: more).
  { intros c. unfold set_cookie, expire_cookie. by rewrite <- app_assoc. }
  rewrite Ej. cbn [c_name c_domain]. rewrite session_read; [|exact Hj| |].
  - rewrite Hd. cbn. by rewrite Ht.
  - intros H. apply (apos_elem 59) in H; [|done]. by apply (uri_free 59) in H.
  - intros ->. destruct q; [done|cbn in Hl; lia].
Qed.

Definition other_cookies : list cookie :=
  [Cookie (js "cm_session") (js "old") (Some (js ".inetconnector.com")); Cookie (js "lang") (js "de") None].

Lemma session_cookie_round_trip_witness :
  exists c, Portal.session_cookie (js "cm schlüssel;1") = Some c /\
  cookie_string (set_cookie c other_cookies ++ [Cookie (js "cm_fleet_session") (js "x") None])
    = js "lang=de; cm_session=cm%20schl%C3%BCssel%3B1; cm_fleet_session=x" /\
  Agent.resolveAuthToken (Some {[js "cm_lang" := js "de"]})
    (cookie_string (set_cookie c other_cookies ++ [Cookie (js "cm_fleet_session") (js "x") None])) = Some (js "cm schlüssel;1").
Proof.
  eexists. split; [vm_compute; reflexivity|]. split; [vm_compute; reflexivity|].
  apply (session_cookie_round_trip (js "cm schlüssel;1"));
    [apply code_units_lit; vm_compute; reflexivity|vm_compute; reflexivity|discriminate|vm_compute; reflexivity..].
Defined.
