(* ===== verification/PageScripts.v ===== *)
(** * The scripts of a page together (portal-core.js, agent.html, ai-auth.html, fleet.html, status.html)

    The pages load several classic scripts, which share one global scope.  Before a script
    runs, its top-level names are checked against those of the scripts before it: a [let]
    or [const] may not be declared twice nor meet a [var] or [function] of the same name,
    in either order; a clash is a [SyntaxError] and nothing of the script runs.  The
    tables list the top-level declarations of each script, in the order of the source, and
    the functions the markup of each page names in its event attributes. *)
From Stdlib Require Import Lia.
From stdpp Require Import base list gmap strings.
From S2P Require Import Prelude.

(** ** The global scope *)

(** [let], [const] and [class], or [var] and [function]. *)
Inductive kind : Type := Lexical | Hoisted.

#[export] Instance kind_eq_dec : EqDecision kind.
Proof. solve_decision. Defined.

Record decl := Decl { dc_name : string; dc_kind : kind }.

#[export] Instance decl_eq_dec : EqDecision decl.
Proof. solve_decision. Defined.

Definition mk (l : list (string * kind)) : list decl := (fun e => Decl e.1 e.2) <$> l.

Record scope := Scope { lexical : gset string; hoisted : gset string }.

Definition empty_scope : scope := Scope ∅ ∅.

(** One declaration of a script against the names that are there. *)
Definition clashes (s : scope) (d : decl) : bool :=
  match dc_kind d with
  | Lexical => bool_decide (dc_name d ∈ lexical s) || bool_decide (dc_name d ∈ hoisted s)
  | Hoisted => bool_decide (dc_name d ∈ lexical s)
  end.

Definition add_decl (s : scope) (d : decl) : scope :=
  match dc_kind d with
  | Lexical => Scope ({[dc_name d]} ∪ lexical s) (hoisted s)
  | Hoisted => Scope (lexical s) ({[dc_name d]} ∪ hoisted s)
  end.

(** Loading a script: whether it runs, and the scope after it. *)
Definition load_script (s : scope) (ds : list decl) : bool * scope :=
  if existsb (clashes s) ds then (false, s) else (true, fold_left add_decl ds s).

Fixpoint load_page (s : scope) (scripts : list (list decl)) : list bool * scope :=
  match scripts with
  | [] => ([], s)
  | ds :: r => let '(ok, s1) := load_script s ds in
               let '(oks, s2) := load_page s1 r in (ok :: oks, s2)
  end.

Definition defined (s : scope) (n : string) : bool := bool_decide (n ∈ lexical s) || bool_decide (n ∈ hoisted s).

(** ** The scripts *)

(** portal-core.js; portal.js declares nothing at its top level. *)
Definition core_decls : list decl :=
  mk
    [("translations", Hoisted); ("currentLang", Lexical); ("detectInitialLanguage", Hoisted);
    ("switchLanguage", Hoisted); ("plainPortalChrome", Hoisted); ("toggleLanguage", Hoisted);
    ("getActiveComputeMeshApiKey", Hoisted); ("hasActiveSession", Hoisted);
    ("handleAiSubdomainRouting", Hoisted); ("openWebUI", Hoisted); ("updateAuthStateUI", Hoisted);
    ("updateAuthNavBtn", Hoisted); ("handleAuthNavClick", Hoisted); ("ensureCausaMindMenuItem", Hoisted);
    ("initUnifiedPortalHeader", Hoisted); ("loadLivePricing", Hoisted); ("openModal", Hoisted);
    ("closeModal", Hoisted); ("handleRegistration", Hoisted); ("currentPlaygroundTab", Lexical);
    ("renderPlaygroundSnippet", Hoisted); ("switchPlaygroundCodeTab", Hoisted);
    ("updateCodeSnippetsWithKey", Hoisted); ("copyKey", Hoisted); ("copyPlaygroundCommand", Hoisted);
    ("copyPythonCode", Hoisted); ("copyLinuxCommand", Hoisted); ("openDepositModal", Hoisted);
    ("closeDepositModal", Hoisted); ("handleDepositSubmit", Hoisted); ("handleContactSubmit", Hoisted);
    ("playgroundChatHistory", Lexical); ("teaserRequestsRemaining", Lexical); ("teaserResetAtMs", Lexical);
    ("isPlaygroundInferencing", Lexical); ("formatInlineMarkdown", Hoisted); ("formatChatMarkdown", Hoisted);
    ("formatResetDuration", Hoisted); ("updateTeaserQuota", Hoisted); ("openTeaserConversionModal", Hoisted);
    ("closeTeaserConversionModal", Hoisted); ("copyCliCommand", Hoisted); ("clearPlaygroundChat", Hoisted);
    ("QUICK_PROMPTS", Lexical); ("applyQuickPrompt", Hoisted); ("handlePlaygroundKey", Hoisted);
    ("runPlaygroundPrompt", Hoisted); ("resizePlaygroundComposer", Hoisted);
    ("sendPlaygroundMessage", Hoisted); ("parseMeshTelemetryPayload", Hoisted);
    ("updateMeshTelemetryTicker", Hoisted); ("fetchMeshTelemetry", Hoisted); ("_portalInitialized", Lexical);
    ("initPortal", Hoisted); ("currentMarketFilters", Lexical); ("_lastFetchedNodes", Lexical);
    ("_marketplaceFetchState", Lexical); ("_lastFetchedModels", Lexical); ("_modelCatalogLoaded", Lexical);
    ("_currentModelCategory", Lexical); ("loadLiveModelCatalog", Hoisted);
    ("renderLivePlaygroundModels", Hoisted); ("renderLiveModelCards", Hoisted);
    ("loadRealMarketplaceData", Hoisted); ("renderRealMarketplaceCards", Hoisted);
    ("filterMarketplace", Hoisted); ("setMarketFilter", Hoisted); ("deployMarketplaceOffer", Hoisted);
    ("copyMarketCommand", Hoisted); ("filterModelCategory", Hoisted); ("selectModelInPlayground", Hoisted);
    ("copyModelApiSnippet", Hoisted); ("syncPlaygroundModel", Hoisted); ("DX_CODE_TEMPLATES", Lexical);
    ("currentDxTab", Lexical); ("switchDxTab", Hoisted); ("copyDxCode", Hoisted)].
Definition portal_decls : list decl := [].

(** The script of ai-auth.html. *)
Definition studio_decls : list decl :=
  mk
    [("currentLang", Hoisted); ("studioI18n", Hoisted); ("applyStudioLanguage", Hoisted);
    ("toggleStudioLanguage", Hoisted); ("switchStudioTab", Hoisted); ("showStatus", Hoisted);
    ("toggleKeyVisibility", Hoisted); ("cleanApiKey", Hoisted); ("setSubdomainCookie", Hoisted);
    ("storeKeyAndLaunch", Hoisted); ("detectAndRedirectKey", Hoisted); ("handleKeyLogin", Hoisted);
    ("handleMagicLink", Hoisted); ("handleInstantRegister", Hoisted); ("b64urlToBytes", Hoisted);
    ("bytesToB64url", Hoisted); ("handlePasskeyLogin", Hoisted); ("handlePasskeyRegister", Hoisted);
    ("ownerKeyEl", Hoisted)].

(** The functions its markup calls. *)
Definition studio_handlers : list string :=
    ["toggleStudioLanguage"; "switchStudioTab"; "handleKeyLogin"; "toggleKeyVisibility"; "handlePasskeyLogin";
    "handlePasskeyRegister"; "handleMagicLink"; "handleInstantRegister"]%string.

(** The script of agent.html. *)
Definition agent_decls : list decl :=
  mk
    [("activeSessionId", Lexical); ("allSessions", Lexical); ("authenticWorkspaces", Lexical);
    ("activeWorkspace", Lexical); ("activeNodeId", Lexical); ("eventCursor", Lexical);
    ("pollTimer", Lexical); ("currentPolicy", Lexical); ("currentModel", Lexical);
    ("projectFilterQuery", Lexical); ("toggleMenu", Hoisted); ("toggleSidebar", Hoisted);
    ("toggleRightRail", Hoisted); ("setPolicy", Hoisted); ("setModel", Hoisted);
    ("autoResizeTextarea", Hoisted); ("handleComposerKeyDown", Hoisted); ("toggleThought", Hoisted);
    ("showDiffModal", Hoisted); ("closeDiffModal", Hoisted); ("promptAddWorkspace", Hoisted);
    ("closeWorkspaceModal", Hoisted); ("applyPromptSnippet", Hoisted); ("filterWorkspaces", Hoisted);
    ("submitRegisterWorkspace", Hoisted); ("attachFilePrompt", Hoisted); ("toggleVoiceInput", Hoisted);
    ("startNewChat", Hoisted); ("fetchWithAuth", Hoisted); ("loadModels", Hoisted);
    ("renderModelMenu", Hoisted); ("loadFleetAndWorkspaces", Hoisted); ("renderWorkspaces", Hoisted);
    ("toggleSidebar", Hoisted); ("toggleRightRail", Hoisted); ("closeAllDrawers", Hoisted);
    ("currentWorkspaceActionId", Lexical); ("openWorkspaceOptions", Hoisted);
    ("showWorkspaceDetails", Hoisted); ("closeDetailsModal", Hoisted);
    ("confirmUnregisterWorkspace", Hoisted); ("openPhysicalDeleteModal", Hoisted);
    ("closePhysicalDeleteModal", Hoisted); ("submitPhysicalDeleteWorkspace", Hoisted);
    ("selectWorkspace", Hoisted); ("renderNodesRail", Hoisted); ("loadSessions", Hoisted);
    ("renderSessions", Hoisted); ("selectSession", Hoisted); ("pollEvents", Hoisted);
    ("appendEventsToStream", Hoisted); ("createMessageElement", Hoisted); ("submitPrompt", Hoisted);
    ("renameCurrentSession", Hoisted); ("archiveCurrentSession", Hoisted); ("deleteCurrentSession", Hoisted);
    ("formatMarkdown", Hoisted); ("escapeHtml", Hoisted); ("refreshServiceStatus", Hoisted);
    ("controlApplianceService", Hoisted)].

(** The functions its markup calls. *)
Definition agent_handlers : list string :=
    ["toggleLanguage"; "openDepositModal"; "openModal"; "handleAuthNavClick"; "closeAllDrawers";
    "promptAddWorkspace"; "loadFleetAndWorkspaces"; "toggleSidebar"; "startNewChat"; "filterWorkspaces";
    "toggleMenu"; "renameCurrentSession"; "archiveCurrentSession"; "deleteCurrentSession"; "toggleRightRail";
    "applyPromptSnippet"; "handleComposerKeyDown"; "autoResizeTextarea"; "attachFilePrompt"; "setPolicy";
    "setModel"; "toggleVoiceInput"; "submitPrompt"; "showDiffModal"; "controlApplianceService";
    "refreshServiceStatus"; "closeWorkspaceModal"; "submitRegisterWorkspace"; "closeDiffModal";
    "closeDetailsModal"; "closePhysicalDeleteModal"; "submitPhysicalDeleteWorkspace"]%string.

(** The script of fleet.html. *)
Definition fleet_decls : list decl :=
  mk
    [("isLoggedIn", Lexical); ("activeOwnerKey", Lexical); ("activeEmail", Lexical);
    ("activeNodesList", Lexical); ("refreshInterval", Lexical); ("getLang", Hoisted); ("fleetText", Hoisted);
    ("mcpGermanEnglish", Lexical); ("syncMcpLanguage", Hoisted); ("localizeAuditDetail", Hoisted);
    ("setLang", Hoisted); ("updateAuthNavBtn", Hoisted); ("handleAuthNavClick", Hoisted);
    ("b64urlToBytes", Hoisted); ("bytesToB64url", Hoisted); ("prepareCreationOptions", Hoisted);
    ("prepareRequestOptions", Hoisted); ("credentialToJSON", Hoisted); ("showMsg", Hoisted);
    ("getErrorMessage", Hoisted); ("switchAuthTab", Hoisted); ("switchCockpitView", Hoisted);
    ("masterAdminKey", Lexical); ("unlockMasterAdmin", Hoisted); ("lockMasterAdmin", Hoisted);
    ("loadAdminBannedFleets", Hoisted); ("renderBannedFleetsTable", Hoisted); ("doAdminBanFleet", Hoisted);
    ("doAdminUnbanFleet", Hoisted); ("loadKillswitchStatus", Hoisted); ("triggerEmergencyKill", Hoisted);
    ("resetFleetEmergencyKill", Hoisted); ("renewKillswitchLease", Hoisted); ("switchMcpApiTab", Hoisted);
    ("setMcpTestQuery", Hoisted); ("runMcpAgentTest", Hoisted); ("switchDevApiTab", Hoisted);
    ("updateDevApiSnippets", Hoisted); ("loadPayouts", Hoisted); ("renderPayouts", Hoisted);
    ("startStripeOnboarding", Hoisted); ("refreshStripeStatus", Hoisted); ("requestSettlement", Hoisted);
    ("doRegister", Hoisted); ("doLogin", Hoisted); ("doRequestMagicLink", Hoisted);
    ("verifyMagicLink", Hoisted); ("doDirectKeyLogin", Hoisted); ("doLogout", Hoisted);
    ("onLoggedIn", Hoisted); ("downloadOllamaScript", Hoisted); ("copyCmd", Hoisted); ("loadFleet", Hoisted);
    ("probeFleetNode", Hoisted); ("confirmDeleteNode", Hoisted); ("loadPasskeys", Hoisted);
    ("doAddAdditionalPasskey", Hoisted); ("deletePasskey", Hoisted); ("generateEnrollmentToken", Hoisted);
    ("loadAuditLog", Hoisted); ("onQuickServerSelect", Hoisted); ("copyOwnerKey", Hoisted);
    ("updateFleetPairQr", Hoisted); ("updateEmailUI", Hoisted); ("saveNotificationEmail", Hoisted);
    ("rotateOwnerKeyPrompt", Hoisted); ("openChatWindow", Hoisted); ("ALL_MCP_TOOLS", Lexical);
    ("currentFleetDisabledTools", Lexical); ("getMcpStorageKey", Hoisted); ("updateMcpUI", Hoisted);
    ("loadFleetMcpSettings", Hoisted); ("mcpSaveTimeout", Lexical); ("saveFleetMcpSettings", Hoisted);
    ("onMcpToolToggle", Hoisted); ("enableAllMcpTools", Hoisted); ("copyMcpConfigSnippet", Hoisted);
    ("copyMcpStartCmd", Hoisted); ("toggleComplianceEntityType", Hoisted);
    ("loadProviderCompliance", Hoisted); ("saveProviderProfile", Hoisted);
    ("submitTraderDeclaration", Hoisted); ("escapeHtml", Hoisted)].

(** The functions its markup calls. *)
Definition fleet_handlers : list string :=
    ["toggleLanguage"; "openDepositModal"; "openModal"; "handleAuthNavClick"; "switchAuthTab"; "doLogin";
    "doRegister"; "doRequestMagicLink"; "doDirectKeyLogin"; "switchCockpitView"; "openChatWindow";
    "onQuickServerSelect"; "loadFleet"; "startStripeOnboarding"; "refreshStripeStatus"; "requestSettlement";
    "toggleComplianceEntityType"; "saveProviderProfile"; "submitTraderDeclaration"; "saveNotificationEmail";
    "doAddAdditionalPasskey"; "generateEnrollmentToken"; "copyOwnerKey"; "rotateOwnerKeyPrompt";
    "updateFleetPairQr"; "copyCmd"; "switchDevApiTab"; "downloadOllamaScript"; "enableAllMcpTools";
    "onMcpToolToggle"; "copyMcpConfigSnippet"; "copyMcpStartCmd"; "triggerEmergencyKill";
    "resetFleetEmergencyKill"; "renewKillswitchLease"; "unlockMasterAdmin"; "doAdminBanFleet";
    "loadAdminBannedFleets"; "lockMasterAdmin"; "closeModal"; "handleRegistration"; "copyKey";
    "closeDepositModal"; "handleDepositSubmit"]%string.

(** The script of status.html. *)
Definition status_decls : list decl :=
  mk
    [("statusText", Hoisted); ("refreshLedgerExplorer", Hoisted); ("verifyReceiptFromInput", Hoisted)].

(** The functions its markup calls. *)
Definition status_handlers : list string :=
    ["toggleLanguage"; "openDepositModal"; "openModal"; "handleAuthNavClick"; "refreshLedgerExplorer";
    "verifyReceiptFromInput"]%string.

(** The pages: their scripts in the order of the markup. *)
Definition studio_page : list (list decl) := [core_decls; studio_decls].
Definition agent_page : list (list decl) := [agent_decls; core_decls; portal_decls].
Definition fleet_page : list (list decl) := [core_decls; portal_decls; fleet_decls].
Definition status_page : list (list decl) := [status_decls; core_decls; portal_decls].

(** Every script of the page runs and every function of the markup exists. *)
Definition page_works (scripts : list (list decl)) (handlers : list string) : bool :=
  let '(oks, s) := load_page empty_scope scripts in forallb id oks && forallb (defined s) handlers.

(** ** Facts *)

Definition below (s t : scope) : Prop := lexical s ⊆ lexical t /\ hoisted s ⊆ hoisted t.

#[export] Instance below_preorder : PreOrder below.
Proof. split; [done|]. intros x y z [? ?] [? ?]. split; set_solver. Qed.

Lemma add_decl_below s d : below s (add_decl s d).
Proof. unfold below, add_decl. destruct (dc_kind d); cbn; set_solver. Qed.

Lemma fold_below ds s : below s (fold_left add_decl ds s).
Proof.
  revert s. induction ds as [|d ds IH]; intros s; [done|]. cbn [fold_left].
  etransitivity; [apply add_decl_below|apply IH].
Qed.

(** Scripts only add names. *)
Lemma load_script_below s ds : below s (load_script s ds).2.
Proof. unfold load_script. destruct (existsb _ ds); [done|apply fold_below]. Qed.

Lemma load_page_below scripts s : below s (load_page s scripts).2.
Proof.
  revert s. induction scripts as [|ds r IH]; intros s; [done|]. cbn [load_page].
  pose proof (load_script_below s ds) as H. destruct (load_script s ds) as [ok s1]. cbn [snd] in H.
  specialize (IH s1). destruct (load_page s1 r) as [oks s2]. cbn [snd] in *. by etransitivity.
Qed.

(** A script that runs declares its names. *)
Lemma run_declares s ds n : (load_script s ds).1 = true -> Decl n Lexical ∈ ds -> n ∈ lexical (load_script s ds).2.
Proof.
  unfold load_script. destruct (existsb _ ds); [done|]. cbn [fst snd]. intros _. revert s.
  induction ds as [|d ds IH]; intros s H; [by apply elem_of_nil in H|]. cbn [fold_left].
  apply elem_of_cons in H as [<-|H]; [|by apply IH].
  apply (fold_below ds (add_decl s (Decl n Lexical))). cbn. set_solver.
Qed.

(** A script that declares a name taken by [let] does not run. *)
Lemma taken_name_refused s ds n k : n ∈ lexical s -> Decl n k ∈ ds -> (load_script s ds).1 = false.
Proof.
  intros H Hd. unfold load_script. assert (existsb (clashes s) ds = true) as ->; [|done].
  apply existsb_exists. exists (Decl n k). split; [by apply list_elem_of_In|].
  unfold clashes. destruct k; cbn; by rewrite (bool_decide_eq_true_2 _ H).
Qed.

(** ** Claims *)

(** C35: Once portal-core.js has run, the script of the sign-in page of the AI studio is
    refused, whatever is loaded before and in between, so that none of the functions its
    forms and buttons call exists; without portal-core.js it would run.  The scripts of
    the fleet, agent and status pages do run together with portal-core.js and define every
    function their markup calls. *)
Theorem studio_script_is_refused s between :
  (load_script s core_decls).1 = true ->
  (load_script (load_page (load_script s core_decls).2 between).2 studio_decls).1 = false /\
  (let '(oks, s') := load_page empty_scope studio_page in
   oks = [true; false] /\ forallb (fun n => negb (defined s' n)) studio_handlers = true) /\
  page_works [studio_decls] studio_handlers = true /\
  page_works fleet_page fleet_handlers = true /\
  page_works agent_page agent_handlers = true /\
  page_works status_page status_handlers = true.
Proof.
  intros H. split; [|vm_compute; repeat split].
  apply (taken_name_refused _ _ "currentLang"%string Hoisted).
  - apply load_page_below, run_declares; [done|]. rewrite <- (bool_decide_eq_true (_ ∈ _)). vm_compute. reflexivity.
  - rewrite <- (bool_decide_eq_true (_ ∈ _)). vm_compute. reflexivity.
Qed.

Lemma studio_script_is_refused_witness :
  (load_script (load_page (load_script empty_scope core_decls).2 [portal_decls; fleet_decls]).2 studio_decls).1 = false.
Proof. apply (studio_script_is_refused empty_scope [portal_decls; fleet_decls]). vm_compute. reflexivity. Defined.
