(* ===== verification/VoiceMode.v ===== *)
(** * The voice mode of the studio page (webui/index.html)

    The overlay that listens to the user and sends what it heard: the Android recogniser or
    the one of the browser, the microphone that drives the orb, the timer that sends a
    final result, and the buttons.  One state machine; permissions, results, frames and
    timers arrive in any order. *)
From Stdlib Require Import Lia Lra Psatz ZArith QArith Qminmax.
From stdpp Require Import base numbers list gmap strings.
From S2P Require Import Prelude JsString JsNumber JsValue.

(** ** State *)

(** What the browser offers: the bridge of the Android app with its start and stop
    functions, the recogniser class (and whether [start()] succeeds), the microphone,
    audio contexts, and the elements of the chat. *)
Record env := Env {
  bridge : option (bool * bool);
  speech_class : option bool;
  media : bool;
  audio_context : bool;
  has_textarea : bool;
  has_form : bool;
}.

(** Pending [setTimeout]s: the sending of a final result, the click on the submit button. *)
Inductive timer : Type := AutoSubmit | ClickSubmit.

Inductive native : Type := StartRecognition | StopRecognition.

(** Streams, audio contexts and recognisers are numbered; the [live_] lists hold those
    that were opened and not stopped. *)
Record voice := Voice {
  overlay : bool;
  is_active : bool;
  currentTranscript : jsstring;
  isListening : bool;
  placeholder_shown : bool;
  shown_text : jsstring;
  badge : jsstring;
  orb : option (jsstring * jsstring * jsstring);
  webSpeechInstance : option nat;
  live_speech : list nat;
  asked_mics : list nat;
  webAudioStream : option nat;
  live_streams : list nat;
  webAudioContext : option nat;
  live_contexts : list nat;
  animFrameId : bool;
  frames : nat;
  next_id : nat;
  timers : list timer;
  native_calls : list native;
  textarea : jsstring;
  submitted : list jsstring;
  sent : list jsstring;
}.

Definition initial : voice :=
  Voice false false [] false true [] (js "Ich höre zu...") None None [] [] None [] None [] false 0 0 [] [] [] [] [].

Definition set_ui (ov ac : bool) (tr_ : jsstring) (li ph : bool) (tx bd : jsstring) (v : voice) : voice :=
  Voice ov ac tr_ li ph tx bd (orb v) (webSpeechInstance v) (live_speech v) (asked_mics v) (webAudioStream v)
    (live_streams v) (webAudioContext v) (live_contexts v) (animFrameId v) (frames v) (next_id v) (timers v) (native_calls v)
    (textarea v) (submitted v) (sent v).
Definition set_orb (o : option (jsstring * jsstring * jsstring)) (v : voice) : voice :=
  Voice (overlay v) (is_active v) (currentTranscript v) (isListening v) (placeholder_shown v) (shown_text v) (badge v) o
    (webSpeechInstance v) (live_speech v) (asked_mics v) (webAudioStream v) (live_streams v) (webAudioContext v)
    (live_contexts v) (animFrameId v) (frames v) (next_id v) (timers v) (native_calls v) (textarea v) (submitted v) (sent v).
Definition set_speech (i : option nat) (l : list nat) (v : voice) : voice :=
  Voice (overlay v) (is_active v) (currentTranscript v) (isListening v) (placeholder_shown v) (shown_text v) (badge v)
    (orb v) i l (asked_mics v) (webAudioStream v) (live_streams v) (webAudioContext v)
    (live_contexts v) (animFrameId v) (frames v) (next_id v) (timers v) (native_calls v) (textarea v) (submitted v) (sent v).
Definition set_audio (asked : list nat) (st : option nat) (sts : list nat) (cx : option nat) (cxs : list nat) (fr : bool) (n : nat) (v : voice) : voice :=
  Voice (overlay v) (is_active v) (currentTranscript v) (isListening v) (placeholder_shown v) (shown_text v) (badge v)
    (orb v) (webSpeechInstance v) (live_speech v) asked st sts cx cxs fr n (next_id v) (timers v) (native_calls v)
    (textarea v) (submitted v) (sent v).
Definition fresh (v : voice) : voice :=
  Voice (overlay v) (is_active v) (currentTranscript v) (isListening v) (placeholder_shown v) (shown_text v) (badge v)
    (orb v) (webSpeechInstance v) (live_speech v) (asked_mics v) (webAudioStream v) (live_streams v) (webAudioContext v)
    (live_contexts v) (animFrameId v) (frames v) (S (next_id v)) (timers v) (native_calls v) (textarea v) (submitted v) (sent v).
Definition set_out (t : list timer) (nc : list native) (ta : jsstring) (su se : list jsstring) (v : voice) : voice :=
  Voice (overlay v) (is_active v) (currentTranscript v) (isListening v) (placeholder_shown v) (shown_text v) (badge v)
    (orb v) (webSpeechInstance v) (live_speech v) (asked_mics v) (webAudioStream v) (live_streams v) (webAudioContext v)
    (live_contexts v) (animFrameId v) (frames v) (next_id v) t nc ta su se.

Definition call_native (n : native) (v : voice) : voice :=
  set_out (timers v) (native_calls v ++ [n]) (textarea v) (submitted v) (sent v) v.
Definition add_timer (t : timer) (v : voice) : voice :=
  set_out (timers v ++ [t]) (native_calls v) (textarea v) (submitted v) (sent v) v.

Definition listening_text : jsstring := js "Ich höre zu...".

Section Voice.
Context {R : Rounding} (E : env).

(** ** The orb *)

(** The three styles [setOrbAmplitude] writes, with the roundings of the arithmetic. *)
Definition orb_scale (amp : Q) : Q := fl (1 + Qmin (fl (amp * fl (45 # 100))) (fl (55 # 100))).
Definition glow_scale (amp : Q) : Q := fl (1 + Qmin (fl (amp * fl (8 # 10))) (fl (9 # 10))).
Definition glow_opacity (amp : Q) : Q := fl ((1 # 2) + Qmin (fl (amp * (1 # 2))) (1 # 2)).

Definition setOrbAmplitude (amp : Q) (v : voice) : voice :=
  if overlay v then
    set_orb (Some (js "scale(" ++ toFixed 3 (orb_scale amp) ++ js ")",
                   js "scale(" ++ toFixed 3 (glow_scale amp) ++ js ")", toFixed 2 (glow_opacity amp))) v
  else v.

(** ** The microphone *)

(** [startWebAudioVisualizer()]: asks for the microphone. *)
Definition startWebAudioVisualizer (v : voice) : voice :=
  if media E then
    set_audio (asked_mics v ++ [next_id v]) (webAudioStream v) (live_streams v) (webAudioContext v) (live_contexts v)
      (animFrameId v) (frames v) (fresh v)
  else v.

(** [updateVis()] with the bytes of the analyser. *)
Definition updateVis (data : list N) (v : voice) : voice :=
  if isListening v then
    let sum := fold_left (fun a b => (a + Z.of_N b)%Z) data 0%Z in
    let avg := fl (inject_Z sum / inject_Z (Z.of_nat (length data))) in
    let v1 := setOrbAmplitude (fl (avg / 128)) v in
    set_audio (asked_mics v1) (webAudioStream v1) (live_streams v1) (webAudioContext v1) (live_contexts v1) true (S (frames v1)) v1
  else v.

(** The microphone is granted for request [id]; [data]: what the analyser reads first. *)
Definition on_mic (id : nat) (data : list N) (v : voice) : voice :=
  if existsb (Nat.eqb id) (asked_mics v) then
    let asked := List.filter (fun i => negb (Nat.eqb id i)) (asked_mics v) in
    let v1 := set_audio asked (Some id) (live_streams v ++ [id]) (webAudioContext v) (live_contexts v) (animFrameId v) (frames v) v in
    if audio_context E then
      let v2 := set_audio asked (Some id) (live_streams v1) (Some id) (live_contexts v1 ++ [id]) (animFrameId v1) (frames v1) v1 in
      updateVis data v2
    else v1
  else v.

(** The request is refused: only logged. *)
Definition on_mic_refused (id : nat) (v : voice) : voice :=
  set_audio (List.filter (fun i => negb (Nat.eqb id i)) (asked_mics v)) (webAudioStream v) (live_streams v)
    (webAudioContext v) (live_contexts v) (animFrameId v) (frames v) v.

(** A pending animation frame. *)
Definition on_frame (data : list N) (v : voice) : voice :=
  match frames v with
  | S n => updateVis data (set_audio (asked_mics v) (webAudioStream v) (live_streams v) (webAudioContext v)
                             (live_contexts v) (animFrameId v) n v)
  | O => v
  end.

Definition without (o : option nat) (l : list nat) : list nat :=
  match o with Some i => List.filter (fun j => negb (Nat.eqb i j)) l | None => l end.

(** [stopWebAudioVisualizer()] *)
Definition stopWebAudioVisualizer (v : voice) : voice :=
  setOrbAmplitude 0
    (set_audio (asked_mics v) None (without (webAudioStream v) (live_streams v)) None
       (without (webAudioContext v) (live_contexts v)) false (if animFrameId v then pred (frames v) else frames v) v).

(** ** Opening and closing *)

(** [window.__openVoiceMode()] *)
Definition openVoiceMode (v : voice) : voice :=
  let v1 := set_ui true true [] true true [] listening_text v in
  match bridge E with
  | Some (true, _) => call_native StartRecognition v1
  | _ =>
      let v2 := match speech_class E with
                | Some starts =>
                    set_speech (Some (next_id v1)) (if starts then live_speech v1 ++ [next_id v1] else live_speech v1) (fresh v1)
                | None => v1
                end in
      startWebAudioVisualizer v2
  end.

(** [handleTranscriptUpdate(text, isFinal)] *)
Definition handleTranscriptUpdate (text : jsstring) (v : voice) : voice :=
  if overlay v then set_ui (overlay v) (is_active v) text (isListening v) false text (badge v) v
  else set_ui (overlay v) (is_active v) text (isListening v) (placeholder_shown v) (shown_text v) (badge v) v.

(** [closeVoiceMode()] *)
Definition closeVoiceMode (v : voice) : voice :=
  let v1 := set_ui (overlay v) (if overlay v then false else is_active v) (currentTranscript v) false
              (placeholder_shown v) (shown_text v) (badge v) v in
  let v2 := match bridge E with Some (_, true) => call_native StopRecognition v1 | _ => v1 end in
  let v3 := set_speech None (without (webSpeechInstance v2) (live_speech v2)) v2 in
  stopWebAudioVisualizer v3.

(** [window.__sendComputeMeshPrompt(promptText)] *)
Definition sendComputeMeshPrompt (text : jsstring) (v : voice) : voice :=
  let v1 := set_out (timers v) (native_calls v) (textarea v) (submitted v) (sent v ++ [text]) v in
  if has_textarea E && has_form E then
    set_out (timers v1 ++ [ClickSubmit]) (native_calls v1) text (submitted v1) (sent v1) v1
  else v1.

(** [submitVoiceMode()] *)
Definition submitVoiceMode (v : voice) : voice :=
  let textToSend := trim (currentTranscript v) in
  let v1 := closeVoiceMode v in
  if truthy textToSend then sendComputeMeshPrompt textToSend v1 else v1.

(** The click on the orb. *)
Definition on_orb (v : voice) : voice := if truthy (trim (currentTranscript v)) then submitVoiceMode v else v.

(** ** Results *)

(** [(final || interim).trim()] of the results from [resultIndex] on. *)
Definition result_text (resultIndex : nat) (results : list (bool * jsstring)) : jsstring :=
  let new := drop resultIndex results in
  let text b := concat (snd <$> List.filter (fun r => Bool.eqb r.1 b) new) in
  trim (if truthy (text true) then text true else text false).

(** [webSpeechInstance.onresult] *)
Definition on_web_result (resultIndex : nat) (results : list (bool * jsstring)) (v : voice) : voice :=
  let text := result_text resultIndex results in
  if truthy text then handleTranscriptUpdate text v else v.

Definition set_badge (v : voice) : voice :=
  if overlay v then set_ui (overlay v) (is_active v) (currentTranscript v) (isListening v) (placeholder_shown v) (shown_text v) listening_text v
  else v.

(** [Math.max(0, Math.min(1.0, (rms + 2) / 10.0))] of [parseFloat(data) || 0] *)
Definition rms_level (data : jsstring) : Q :=
  match parseFloat data with
  | Fin q => Qmax 0 (Qmin 1 (fl (fl (q + 2) / 10)))
  | PInf => 1
  | NInf => 0
  | _ => Qmax 0 (Qmin 1 (fl (fl (0 + 2) / 10)))
  end.

(** [window.__onAndroidSpeechEvent(event, data)] *)
Definition onAndroidSpeechEvent (event data : jsstring) (v : voice) : voice :=
  if negb (isListening v) && negb (seqb event (js "onresult")) then v
  else if seqb event (js "onstart") then set_badge v
  else if seqb event (js "onrms") then setOrbAmplitude (rms_level data) v
  else if seqb event (js "onpartialresult") then setOrbAmplitude (fl (4 # 10)) (handleTranscriptUpdate data v)
  else if seqb event (js "onresult") then add_timer AutoSubmit (setOrbAmplitude (fl (6 # 10)) (handleTranscriptUpdate data v))
  else if seqb event (js "onerror") || seqb event (js "onend") then set_badge v
  else v.

(** The timer at position [i]. *)
Definition on_timer (i : nat) (v : voice) : voice :=
  match timers v !! i with
  | Some t =>
      let v1 := set_out (delete i (timers v)) (native_calls v) (textarea v) (submitted v) (sent v) v in
      match t with
      | AutoSubmit => if isListening v1 then submitVoiceMode v1 else v1
      | ClickSubmit => set_out (timers v1) (native_calls v1) (textarea v1) (submitted v1 ++ [textarea v1]) (sent v1) v1
      end
  | None => v
  end.

(** ** Events *)

Inductive event : Type :=
| Open
| CloseButton
| SubmitButton
| OrbClick
| WebResult (resultIndex : nat) (results : list (bool * jsstring))
| NativeEvent (name data : jsstring)
| MicGranted (id : nat) (data : list N)
| MicRefused (id : nat)
| Frame (data : list N)
| TimerDue (i : nat).

Definition step (v : voice) (e : event) : voice :=
  match e with
  | Open => openVoiceMode v
  | CloseButton => closeVoiceMode v
  | SubmitButton => submitVoiceMode v
  | OrbClick => on_orb v
  | WebResult i rs => on_web_result i rs v
  | NativeEvent n d => onAndroidSpeechEvent n d v
  | MicGranted id data => on_mic id data v
  | MicRefused id => on_mic_refused id v
  | Frame data => on_frame data v
  | TimerDue i => on_timer i v
  end.

Definition exec (es : list event) (v : voice) : voice := fold_left step es v.

End Voice.

(** ** Facts *)

Section Facts.
Context {R : Rounding} (E : env).

(** The fields the theorems speak of, apart from the look of the orb. *)
Record core := Core {
  co_overlay : bool; co_active : bool; co_listening : bool; co_speech : option nat; co_live_speech : list nat;
  co_asked : list nat; co_stream : option nat; co_streams : list nat; co_context : option nat; co_contexts : list nat;
  co_sent : list jsstring;
}.
Definition core_of (v : voice) : core :=
  Core (overlay v) (is_active v) (isListening v) (webSpeechInstance v) (live_speech v) (asked_mics v)
    (webAudioStream v) (live_streams v) (webAudioContext v) (live_contexts v) (sent v).

Lemma core_orb a v : core_of (setOrbAmplitude a v) = core_of v.
Proof. unfold setOrbAmplitude. by destruct (overlay v). Qed.

Lemma core_vis data v : core_of (updateVis data v) = core_of v.
Proof.
  unfold updateVis. destruct (isListening v); [|reflexivity]. cbv zeta.
  exact (core_orb _ v).
Qed.

Lemma core_frame data v : core_of (on_frame data v) = core_of v.
Proof. unfold on_frame. destruct (frames v); [done|]. by rewrite core_vis. Qed.

Lemma core_transcript t v : core_of (handleTranscriptUpdate t v) = core_of v.
Proof. unfold handleTranscriptUpdate. destruct (overlay v) eqn:O; unfold core_of; cbn; congruence. Qed.

Lemma core_badge v : core_of (set_badge v) = core_of v.
Proof. unfold set_badge. destruct (overlay v) eqn:O; unfold core_of; cbn; congruence. Qed.

Lemma core_add_timer t v : core_of (add_timer t v) = core_of v.
Proof. done. Qed.

Lemma core_native n d v : core_of (onAndroidSpeechEvent n d v) = core_of v.
Proof.
  unfold onAndroidSpeechEvent. repeat case_match; rewrite ?core_add_timer, ?core_badge, ?core_orb, ?core_transcript; done.
Qed.

Lemma core_web_result i rs v : core_of (on_web_result i rs v) = core_of v.
Proof. unfold on_web_result. cbv zeta. destruct (truthy _); [by rewrite core_transcript|done]. Qed.

Lemma core_close v :
  core_of (closeVoiceMode E v) =
  Core (overlay v) (if overlay v then false else is_active v) false None (without (webSpeechInstance v) (live_speech v))
    (asked_mics v) None (without (webAudioStream v) (live_streams v)) None (without (webAudioContext v) (live_contexts v)) (sent v).
Proof.
  unfold closeVoiceMode, stopWebAudioVisualizer. cbv zeta. rewrite core_orb. by destruct (bridge E) as [[? []]|].
Qed.

Lemma core_submit v : exists new,
  core_of (submitVoiceMode E v) =
  Core (overlay v) (if overlay v then false else is_active v) false None (without (webSpeechInstance v) (live_speech v))
    (asked_mics v) None (without (webAudioStream v) (live_streams v)) None (without (webAudioContext v) (live_contexts v)) (sent v ++ new)
  /\ new = (if truthy (trim (currentTranscript v)) then [trim (currentTranscript v)] else []).
Proof.
  eexists. split; [|reflexivity]. pose proof (core_close v) as C. unfold submitVoiceMode, sendComputeMeshPrompt. cbv zeta.
  destruct (truthy _); [|by rewrite app_nil_r].
  injection C as C1 C2 C3 C4 C5 C6 C7 C8 C9 C10 C11.
  destruct (has_textarea E && has_form E); unfold core_of; cbn; congruence.
Qed.

(** ** The orb *)

(** The orb never shrinks and grows by little more than half its size. *)
Lemma orb_is_bounded amp : (0 <= amp)%Q -> (1 <= orb_scale amp <= 1588 # 1024)%Q.
Proof.
  intros H. unfold orb_scale.
  assert (L : (0 <= fl (45 # 100))%Q) by (apply (fl_ge_of _ 0 0); [reflexivity|lia|lra]).
  assert (L1 : (0 <= fl (amp * fl (45 # 100)))%Q) by (apply (fl_ge_of _ 0 0); [reflexivity|lia|nra]).
  assert (L2 : (0 <= fl (55 # 100) <= 564 # 1024)%Q).
  { split; [apply (fl_ge_of _ 0 0); [reflexivity|lia|lra]|apply fl_le; [lia|lra]]. }
  pose proof (Q.min_glb _ _ _ L1 (proj1 L2)). pose proof (Q.le_min_r (fl (amp * fl (45 # 100))) (fl (55 # 100))).
  split; [apply (fl_ge_of _ 1 1024); [reflexivity|lia|lra]|apply fl_le; [lia|lra]].
Qed.

(** A reported loudness is a level between zero and one. *)
Lemma rms_level_is_bounded data : (0 <= rms_level data <= 1)%Q.
Proof.
  assert (G : forall x, (0 <= Qmax 0 (Qmin 1 x) <= 1)%Q).
  { intros x. split; [apply Q.le_max_l|]. apply Q.max_lub; [lra|apply Q.le_min_l]. }
  unfold rms_level. destruct (parseFloat data); try apply G; lra.
Qed.

(** ** The devices *)

Definition one (o : option nat) : list nat := match o with Some i => [i] | None => [] end.

(** What is open is what the variables name, and nothing outside the mode. *)
Record tidy (c : core) : Prop := Tidy {
  td_active : co_active c = co_listening c;
  td_overlay : co_listening c = true -> co_overlay c = true;
  td_streams : co_streams c = one (co_stream c);
  td_contexts : co_contexts c = one (co_context c);
  td_speech : co_live_speech c = [] \/ co_live_speech c = one (co_speech c);
  td_closed : co_listening c = false -> co_speech c = None /\ co_stream c = None /\ co_context c = None;
  td_asked : co_asked c = [] \/ exists i, co_asked c = [i] /\ co_stream c = None /\ co_context c = None;
}.

(** The user opens the closed mode when no question for the microphone is left, and
    grants it while the mode that asked is open. *)
Definition polite (v : voice) (e : event) : Prop :=
  match e with
  | Open => isListening v = false /\ asked_mics v = []
  | MicGranted _ _ => isListening v = true
  | _ => True
  end.

Lemma without_one o : without o (one o) = [].
Proof. destruct o as [i|]; [|done]. cbn. by rewrite Nat.eqb_refl. Qed.

Lemma tidy_closed v new : tidy (core_of v) ->
  tidy (Core (overlay v) (if overlay v then false else is_active v) false None (without (webSpeechInstance v) (live_speech v))
    (asked_mics v) None (without (webAudioStream v) (live_streams v)) None (without (webAudioContext v) (live_contexts v)) new).
Proof.
  intros [A O S1 S2 S3 C K]. cbn in *. split; cbn; try done.
  - destruct (overlay v) eqn:Eo; [done|]. destruct (isListening v); [|done]. by specialize (O eq_refl).
  - by rewrite S1, without_one.
  - by rewrite S2, without_one.
  - left. destruct S3 as [->| ->]; [by destruct (webSpeechInstance v)|apply without_one].
  - destruct K as [K|(i & K & _)]; [by left|right; by exists i].
Qed.

Lemma tidy_open v : isListening v = false -> asked_mics v = [] -> tidy (core_of v) -> tidy (core_of (openVoiceMode E v)).
Proof.
  intros L Q [A O S1 S2 S3 C K]. cbn in *. destruct (C L) as (C1 & C2 & C3). rewrite C2 in S1. rewrite C3 in S2.
  rewrite C1 in S3. assert (S3' : live_speech v = []) by (by destruct S3).
  unfold openVoiceMode, startWebAudioVisualizer. cbv zeta.
  destruct (bridge E) as [[[] ?]|], (speech_class E) as [[]|], (media E); split; cbn; rewrite ?Q, ?S1, ?S2, ?S3', ?C1, ?C2, ?C3; cbn; auto;
    try done; right; eexists; done.
Qed.

Lemma tidy_mic id data v : isListening v = true -> tidy (core_of v) -> tidy (core_of (on_mic E id data v)).
Proof.
  intros L [A O S1 S2 S3 C K]. unfold on_mic. destruct (existsb _ (asked_mics v)) eqn:Ex; [|by split]. cbn in *.
  destruct K as [K|(i & K & K1 & K2)]; [by rewrite K in Ex|]. rewrite K in Ex. cbn in Ex. rewrite orb_false_r in Ex.
  apply Nat.eqb_eq in Ex as <-. rewrite K1 in S1. rewrite K2 in S2. rewrite K. cbn [List.filter]. rewrite Nat.eqb_refl. cbn [negb].
  destruct (audio_context E); rewrite ?core_vis; split; cbn; rewrite ?S1, ?S2, ?K2; auto; try congruence.
Qed.

Lemma tidy_refused id v : tidy (core_of v) -> tidy (core_of (on_mic_refused id v)).
Proof.
  intros [A O S1 S2 S3 C K]. split; cbn in *; try done. destruct K as [K|(i & K & K1 & K2)]; rewrite K; [by left|].
  cbn. destruct (negb (id =? i)%nat); [right; by exists i|by left].
Qed.

Lemma tidy_step v e : polite v e -> tidy (core_of v) -> tidy (core_of (step E v e)).
Proof.
  intros P H. assert (Sub : tidy (core_of (submitVoiceMode E v))).
  { destruct (core_submit v) as (new & -> & _). by apply tidy_closed. }
  destruct e as [| | | |i rs|n d|id data|id|data|i]; cbn [step].
  - destruct P. by apply tidy_open.
  - rewrite core_close. by apply tidy_closed.
  - done.
  - unfold on_orb. by destruct (truthy _).
  - by rewrite core_web_result.
  - by rewrite core_native.
  - by apply tidy_mic.
  - by apply tidy_refused.
  - by rewrite core_frame.
  - unfold on_timer. destruct (timers v !! i) as [[|]|]; [|done..]. cbv zeta.
    set (v1 := set_out _ _ _ _ _ v). destruct (isListening v1); [|done].
    destruct (core_submit v1) as (new & -> & _). by apply tidy_closed.
Qed.

(** ** Prompts *)

(** The buttons are pressed while they can be seen. *)
Definition seen (v : voice) (e : event) : Prop :=
  match e with SubmitButton | OrbClick => isListening v = true | _ => True end.

Definition is_open (e : event) : bool := match e with Open => true | _ => false end.
Definition openings (es : list event) : nat := length (List.filter is_open es).

Definition budget (n : nat) (v : voice) : Prop := (length (sent v) + (if isListening v then 1 else 0) <= n)%nat.

Lemma budget_same n v w : core_of w = core_of v -> budget n v -> budget n w.
Proof. unfold budget. intros C. injection C as _ _ L _ _ _ _ _ _ _ S. by rewrite L, S. Qed.

Lemma budget_submit n v : isListening v = true -> budget n v -> budget n (submitVoiceMode E v).
Proof.
  unfold budget. intros L. destruct (core_submit v) as (new & C & N). injection C as _ _ L' _ _ _ _ _ _ _ S.
  rewrite L', S, L, length_app, N. destruct (truthy _); cbn; lia.
Qed.

Lemma budget_step n v e : seen v e -> budget n v -> budget (n + (if is_open e then 1 else 0)) (step E v e).
Proof.
  intros P H. destruct e as [| | | |i rs|m d|id data|id|data|i]; cbn [step is_open]; rewrite ?Nat.add_0_r.
  - revert H. unfold budget, openVoiceMode, startWebAudioVisualizer. cbv zeta.
    destruct (bridge E) as [[[] ?]|], (speech_class E), (media E); cbn; destruct (isListening v); lia.
  - revert H. unfold budget. pose proof (core_close v) as C. injection C as _ _ L _ _ _ _ _ _ _ S. rewrite L, S. lia.
  - by apply budget_submit.
  - unfold on_orb. destruct (truthy _); [by apply budget_submit|done].
  - by apply (budget_same n v); [apply core_web_result|].
  - by apply (budget_same n v); [apply core_native|].
  - unfold on_mic. destruct (existsb _ _); [|done]. cbv zeta. destruct (audio_context E); [|done].
    by eapply budget_same; [apply core_vis|].
  - done.
  - by apply (budget_same n v); [apply core_frame|].
  - unfold on_timer. destruct (timers v !! i) as [[|]|]; [|done..]. cbv zeta.
    set (v1 := set_out _ _ _ _ _ v). destruct (isListening v1) eqn:L; [|done]. by apply budget_submit.
Qed.

(** ** A grant that comes too late *)

Definition ends_mode (e : event) : bool :=
  match e with Open | CloseButton | SubmitButton | OrbClick => true | _ => false end.

Definition on_air (id : nat) (v : voice) : Prop := isListening v = false /\ id ∈ live_streams v.

Lemma on_air_same id v w : core_of w = core_of v -> on_air id v -> on_air id w.
Proof. unfold on_air. intros C. injection C as _ _ L _ _ _ _ S _ _ _. by rewrite L, S. Qed.

Lemma on_air_step id v e : ends_mode e = false -> on_air id v -> on_air id (step E v e).
Proof.
  intros P H. destruct e as [| | | |i rs|m d|id' data|id'|data|i]; try done; cbn [step].
  - by apply (on_air_same id v); [apply core_web_result|].
  - by apply (on_air_same id v); [apply core_native|].
  - unfold on_mic. destruct (existsb _ _); [|done]. cbv zeta. destruct H as [L S].
    destruct (audio_context E); [eapply on_air_same; [apply core_vis|]|]; (split; [done|]); cbn; set_solver.
  - by apply (on_air_same id v); [apply core_frame|].
  - unfold on_timer. destruct (timers v !! i) as [[|]|]; [|done..]. cbv zeta.
    set (v1 := set_out _ _ _ _ _ v). assert (L : isListening v1 = false) by apply H. by rewrite L.
Qed.

End Facts.

Definition polite_run {R : Rounding} (E : env) := run (fun v e v' => polite v e /\ v' = step E v e).
Definition seen_run {R : Rounding} (E : env) := run (fun v e v' => seen v e /\ v' = step E v e).

(** ** Claims *)


(** A microphone that is granted after the mode was closed stays open, whatever
    happens until the mode is opened or closed again. *)
Theorem late_grant_keeps_the_microphone {R : Rounding} E id data es v :
  isListening v = false -> id ∈ asked_mics v -> forallb (fun e => negb (ends_mode e)) es = true ->
  let w := exec E es (on_mic E id data v) in isListening w = false /\ id ∈ live_streams w.
Proof.
  intros L A Hes. cbv zeta. apply (fold_invariant (step E) (on_air id) (fun e => ends_mode e = false)).
  - intros s e. apply on_air_step.
  - rewrite forallb_forall in Hes. apply Forall_forall. intros e He%list_elem_of_In%Hes. by apply negb_true_iff in He.
  - unfold on_mic. assert (existsb (Nat.eqb id) (asked_mics v) = true) as ->.
    { apply existsb_exists. exists id. split; [by apply list_elem_of_In|apply Nat.eqb_refl]. }
    cbv zeta. destruct (audio_context E); [eapply on_air_same; [apply core_vis|]|]; (split; [done|]); cbn; set_solver.
Qed.

(** A mode that is closed and opened again before the first request for the microphone is
    answered gets two streams; the first one is still open when the mode is closed. *)
Example second_opening_leaks_a_stream {R : Rounding} :
  let v := exec (Env None (Some true) true true true true)
    [Open; CloseButton; Open; MicGranted 1 [128%N]; MicGranted 3 [128%N]; CloseButton] initial in
  isListening v = false /\ live_streams v = [1%nat].
Proof. vm_compute. auto. Qed.

(** C33: Each opening of the voice mode sends at most one prompt, as long as the buttons are
    pressed while the overlay is open. *)
Theorem one_prompt_per_opening {R : Rounding} E es v :
  seen_run E initial es v -> (length (sent v) <= openings es)%nat.
Proof.
  enough (G : forall n s, budget n s -> seen_run E s es v -> budget (n + openings es) v).
  { intros H. specialize (G 0%nat initial ltac:(unfold budget; cbn; lia) H). unfold budget in G. lia. }
  induction es as [|e es IH]; intros n s B H; inv H.
  - unfold openings. cbn. by rewrite Nat.add_0_r.
  - match goal with H : _ /\ _ |- _ => destruct H as [P ->] end.
    replace (n + openings (e :: es))%nat with (n + (if is_open e then 1 else 0) + openings es)%nat.
    + eapply IH; [|eassumption]. by apply budget_step.
    + unfold openings. cbn. destruct (is_open e); cbn; lia.
Qed.

(** What is dictated in two sentences is sent without the first one: the results of
    the recogniser replace each other. *)
Theorem dictation_sends_the_last_sentence {R : Rounding} E a b v :
  trim a <> [] -> trim b <> [] ->
  sent (exec E [WebResult 0 [(true, a)]; WebResult 1 [(true, a); (true, b)]; SubmitButton] v) = sent v ++ [trim b].
Proof.
  intros Ha Hb. unfold exec. cbn [fold_left]. set (v2 := step E (step E v _) _).
  assert (T : currentTranscript v2 = trim b).
  { assert (Tb : result_text 1 [(true, a); (true, b)] = trim b).
    { unfold result_text. cbn. rewrite app_nil_r. destruct b; [done|]. done. }
    unfold v2. set (v1 := step E v _). cbn [step]. unfold on_web_result. rewrite Tb.
    assert (truthy (trim b) = true) as -> by (by apply truthy_true).
    unfold handleTranscriptUpdate. by destruct (overlay v1). }
  assert (S : sent v2 = sent v).
  { assert (C : core_of v2 = core_of v) by (unfold v2; cbn [step]; by rewrite !core_web_result). by injection C. }
  cbn [step]. destruct (core_submit E v2) as (new & C & N). injection C as _ _ _ _ _ _ _ _ _ _ C. rewrite C, S, N, T, trim_idemp.
  apply truthy_true in Hb. by rewrite Hb.
Qed.

(** ** Instances *)

Definition browser_env : env := Env None (Some true) true true true true.
Definition app_env : env := Env (Some (true, true)) None false false true true.

Ltac run_it := repeat (eapply run_cons; [split; [vm_compute; tauto|reflexivity]|]); apply run_nil.


Lemma late_grant_keeps_the_microphone_witness :
  let v := exec browser_env [Open; CloseButton] initial in
  let w := exec browser_env [Frame [1%N]] (on_mic browser_env 1 [5%N] v) in isListening w = false /\ 1%nat ∈ live_streams w.
Proof.
  cbv zeta. apply (late_grant_keeps_the_microphone browser_env 1 [5%N] [Frame [1%N]]); [vm_compute; reflexivity| |reflexivity].
  vm_compute. by left.
Defined.

Lemma one_prompt_per_opening_witness :
  (length (sent (exec app_env [Open; NativeEvent (js "onresult") (js "hallo"); NativeEvent (js "onresult") (js "welt"); TimerDue 0; TimerDue 0] initial))
   <= openings [Open; NativeEvent (js "onresult") (js "hallo"); NativeEvent (js "onresult") (js "welt"); TimerDue 0; TimerDue 0])%nat.
Proof.
  apply (one_prompt_per_opening app_env). unfold seen_run, exec. cbn [fold_left]. run_it.
Defined.

Lemma dictation_sends_the_last_sentence_witness :
  sent (exec browser_env [WebResult 0 [(true, js "Fasse zusammen.")]; WebResult 1 [(true, js "Fasse zusammen."); (true, js " Auf Deutsch.")]; SubmitButton]
          (openVoiceMode browser_env initial)) = [js "Auf Deutsch."].
Proof.
  apply (dictation_sends_the_last_sentence browser_env (js "Fasse zusammen.") (js " Auf Deutsch.") (openVoiceMode browser_env initial));
    vm_compute; discriminate.
Defined.

(** Pressing the button again, with the keyboard, after the overlay has gone sends the
    transcript again. *)
Example submit_button_sends_again :
  sent (exec app_env [Open; NativeEvent (js "onpartialresult") (js "hallo"); SubmitButton; SubmitButton] initial) = [js "hallo"; js "hallo"].
Proof. vm_compute. reflexivity. Qed.

(** The timer of a result that was already sent closes the mode that was opened since. *)
Example stale_result_closes_the_next_mode :
  let v := exec app_env [Open; NativeEvent (js "onresult") (js "hallo"); SubmitButton; Open; TimerDue 0] initial in
  isListening v = false /\ sent v = [js "hallo"].
Proof. vm_compute. split; reflexivity. Qed.
