(* ===== verification/StudioPage.v ===== *)
(** * The additions of the studio page (webui/index.html)

    Besides the voice mode the page adds to the bundled chat: the classes that hide actions
    the model does not support (Module Modality), the guard of the file dialog (Module
    FilePicker), the recognition of voice and attachment buttons (Module Buttons), the
    side bar (Module Sidebar) and external links (Module Links). *)
From Stdlib Require Import Lia NArith QArith.
From stdpp Require Import base numbers list gmap strings.
From S2P Require Import Prelude JsString JsNumber JsValue ModelChoice.

#[local] Open Scope js_scope.

(** ** [cmUpdateModalityActions] *)

Module Modality.

Inductive stage : Type := AwaitSlots | AwaitJson.

(** The three classes of the document (no vision, audio, video), the selection of the
    model selector ([None]: the selector is not loaded; [VNull]: nothing selected), the
    queries of [/slots] under way. *)
Record state := State {
  classes : bool * bool * bool;
  selection : option jsval;
  inflight : gmap nat stage;
  next_id : nat;
}.

Section Modality.
Context (show_frac : Q -> jsstring).

(** The end of the [try] block for a known model; without the selector only text counts. *)
Definition show_model (m : jsval) (s : state) : state :=
  State (match selection s with Some _ => applyCapabilities show_frac m | None => (true, true, true) end)
    (selection s) (inflight s) (next_id s).

(** The [catch] block. *)
Definition hide_all (s : state) : state := State (true, true, true) (selection s) (inflight s) (next_id s).

Definition settle (id : nat) (s : state) : state := State (classes s) (selection s) (delete id (inflight s)) (next_id s).

(** [cmUpdateModalityActions()] up to its first [await]. *)
Definition cmUpdateModalityActions (s : state) : state :=
  match selection s with
  | Some m => if vtruthy m then show_model m s
              else State (classes s) (selection s) (<[next_id s := AwaitSlots]> (inflight s)) (S (next_id s))
  | None => State (classes s) (selection s) (<[next_id s := AwaitSlots]> (inflight s)) (S (next_id s))
  end.

Definition on_response (id : nat) (ok : bool) (s : state) : state :=
  match inflight s !! id with
  | Some AwaitSlots =>
      if ok then State (classes s) (selection s) (<[id := AwaitJson]> (inflight s)) (next_id s)
      else settle id (hide_all s)
  | _ => s
  end.

(** [{ id: Array.isArray(slots) && slots.length ? slots[0].model : '' }] *)
Definition slot_model (slots : jsval) : outcome jsstring jsval :=
  match slots with
  | VArr (x :: _) => let* m := get x (js "model") in Ret (VObj [(js "id", m)])
  | _ => Ret (VObj [(js "id", VStr [])])
  end.

Definition on_slots (id : nat) (slots : jsval) (s : state) : state :=
  match inflight s !! id with
  | Some AwaitJson => settle id (match slot_model slots with Ret m => show_model m s | Throw _ => hide_all s end)
  | _ => s
  end.

Definition on_reject (id : nat) (s : state) : state :=
  match inflight s !! id with Some _ => settle id (hide_all s) | None => s end.

(** A selection in the model selector: it applies the capabilities itself and announces
    the change. *)
Definition select (m : jsval) (s : state) : state :=
  match selection s with
  | Some _ => cmUpdateModalityActions (State (applyCapabilities show_frac m) (Some m) (inflight s) (next_id s))
  | None => s
  end.

Inductive event : Type :=
| Tick
| Select (m : jsval)
| Response (id : nat) (ok : bool)
| Slots (id : nat) (v : jsval)
| Reject (id : nat).

Definition step (s : state) (e : event) : state :=
  match e with
  | Tick => cmUpdateModalityActions s
  | Select m => select m s
  | Response id ok => on_response id ok s
  | Slots id v => on_slots id v s
  | Reject id => on_reject id s
  end.

Definition exec (es : list event) (s : state) : state := fold_left step es s.

Definition is_select (e : event) : bool := match e with Select _ => true | _ => false end.

End Modality.

(** After the choice of a model with no query under way, and whatever the network and the
    timers do until the next choice, the hidden actions are exactly those the model does
    not support. *)
Lemma chosen_model_rules sf m es s :
  selection s <> None -> vtruthy m = true -> inflight s = ∅ -> forallb (fun e => negb (is_select e)) es = true ->
  classes (exec sf es (select sf m s)) = applyCapabilities sf m.
Proof.
  intros Hs Hm Hi He. destruct (selection s) as [m0|] eqn:Es; [|done].
  set (I := fun s => classes s = applyCapabilities sf m /\ selection s = Some m /\ inflight s = ∅).
  enough (I (exec sf es (select sf m s))) by (by apply H).
  apply (fold_invariant (step sf) I (fun e => is_select e = false)).
  - intros t e Ht (C & S & F). destruct e as [|x|id ok|id v|id]; try done; cbn [step].
    + unfold cmUpdateModalityActions. rewrite S, Hm. unfold show_model. rewrite S. done.
    + unfold on_response. rewrite F, lookup_empty. done.
    + unfold on_slots. rewrite F, lookup_empty. done.
    + unfold on_reject. rewrite F, lookup_empty. done.
  - rewrite forallb_forall in He. apply Forall_forall. intros e H%list_elem_of_In%He. by apply negb_true_iff in H.
  - unfold select. rewrite Es. unfold cmUpdateModalityActions. cbn. rewrite Hm. done.
Qed.

(** The answer to a query that was sent before the choice hides the actions of the chosen
    model until the next tick. *)
Example stale_slots_hide_the_camera :
  let llava := VObj [(js "id", VStr (js "llava"))] in
  let s := State (false, false, false) (Some VNull) ∅ 0 in
  let es := [Tick; Response 0 true; Select llava; Slots 0 (VArr [VObj [(js "model", VStr (js "llama"))]])] in
  classes (exec (fun _ => []) es s) = (true, true, true) /\
  classes (exec (fun _ => []) (es ++ [Tick]) s) = (false, true, true).
Proof. vm_compute. split; reflexivity. Qed.

End Modality.

(** ** The guard of the file dialog *)

Module FilePicker.

(** The flag and the pending timers that reset it. *)
Record state := State { allow : bool; resets : nat; opened : nat }.

Inductive event : Type :=
| InputClick
| TriggerClick (is_upload_button : bool) (label : jsstring)
| ResetDue.

Definition opens_menu (is_upload_button : bool) (innerText : jsstring) : bool :=
  let label := lower (trim innerText) in
  is_upload_button || seqb label (js "dateien hinzufügen") || seqb label (js "add files").

(** The capturing click listener; a click that is not prevented opens the dialog. *)
Definition step (s : state) (e : event) : state :=
  match e with
  | InputClick => State false (resets s) (if allow s then S (opened s) else opened s)
  | TriggerClick b l =>
      if opens_menu b l then State false (resets s) (opened s) else State true (S (resets s)) (opened s)
  | ResetDue => match resets s with S n => State false n (opened s) | O => s end
  end.

Definition exec (es : list event) (s : state) : state := fold_left step es s.

Definition is_action (e : event) : bool := match e with TriggerClick b l => negb (opens_menu b l) | _ => false end.

(** A click on a file input opens the dialog at most once for every click on an action:
    the triggers of the attachment menu alone never do. *)
Lemma dialogs_need_actions es s : allow s = false ->
  (opened (exec es s) <= opened s + length (List.filter is_action es))%nat.
Proof.
  intros H. enough (G : forall s, (opened (exec es s) + (if allow (exec es s) then 1 else 0)
    <= opened s + (if allow s then 1 else 0) + length (List.filter is_action es))%nat).
  { specialize (G s). rewrite H in G. lia. }
  clear s H. unfold exec. induction es as [|e es IH]; intros s; cbn [fold_left List.filter length]; [lia|].
  etransitivity; [apply IH|]. destruct e as [|b l|]; cbn [step is_action].
  - destruct (allow s); cbn; lia.
  - destruct (opens_menu b l); cbn; destruct (allow s); lia.
  - destruct (resets s); cbn; destruct (allow s); lia.
Qed.

(** The timer of an earlier action takes back the permission of a later one. *)
Example early_reset_blocks_the_dialog :
  opened (exec [TriggerClick false (js "Bild"); TriggerClick false (js "Audio"); ResetDue; InputClick] (State false 0 0)) = 0%nat.
Proof. vm_compute. reflexivity. Qed.

End FilePicker.

(** ** Voice and attachment buttons *)

Module Buttons.

(** An element with what the functions read of it; [has_mic]: whether it contains one of
    the microphone icons of the selector. *)
Record elem := Elem {
  tag : jsstring; role : jsstring; pointer : bool; in_overlay : bool; el_type : jsstring;
  title : jsstring; aria : jsstring; text : jsstring; html : jsstring; has_mic : bool;
}.

(** A click target is the element and its ancestors, from the inside. *)
Definition target : Type := list elem.

Definition is_button (e : elem) : bool := seqb (tag e) (js "button") || seqb (role e) (js "button") || pointer e.
Definition is_clickable (e : elem) : bool := is_button e || seqb (tag e) (js "a").

(** [el.closest(selector)], with the ancestors of what was found. *)
Fixpoint closest (f : elem -> bool) (t : target) : option (elem * target) :=
  match t with
  | [] => None
  | e :: r => if f e then Some (e, t) else closest f r
  end.

Definition overlay_above (t : target) : bool := existsb in_overlay t.

Definition any (words : list string) (s : jsstring) : bool := existsb (fun w => includes (js w) s) words.

(** [isAttachButton(el)] *)
Definition isAttachButton (t : target) : bool :=
  if overlay_above t then false
  else match closest is_button t with
       | None => false
       | Some (b, _) =>
           seqb (trim (text b)) (js "+") || any ["lucide-plus"; "lucide-paperclip"] (html b)
           || any ["upload"; "datei"; "anhang"; "attach"; "plus"] (lower (aria b))
           || any ["upload"; "datei"; "anhang"; "attach"; "plus"] (lower (title b))
           || any ["M12 5v14"; "M5 12h14"] (html b)
       end.

Definition voice_words : list string := ["aufnahme"; "sprach"; "mic"; "voice"; "diktier"; "audio"].

(** [isVoiceButton(el)] *)
Definition isVoiceButton (t : target) : bool :=
  if overlay_above t then false
  else match closest is_clickable t with
       | None => false
       | Some (b, above) =>
           if seqb (el_type b) (js "submit") || isAttachButton above then false
           else
             any voice_words (lower (title b)) || any voice_words (lower (aria b))
             || existsb (fun w => seqb (lower (trim (text b))) (js w)) ["mic"; "sprache"; "aufnahme"; "voice"]
             || has_mic b || any ["lucide-mic"; "lucide-mic-off"; "M12 1a3"; "M19 10v2"] (html b)
       end.

(** [OpenFiles]: after 60 ms the file dialog opens, unless a menu is open then. *)
Inductive reaction : Type := OpenVoice | OpenFiles | Nothing.

(** The capturing click listener. *)
Definition on_click (t : target) : reaction :=
  if isVoiceButton t then OpenVoice else if isAttachButton t then OpenFiles else Nothing.

Lemma closest_button t b above : closest is_clickable t = Some (b, above) -> closest is_button t = closest is_button above.
Proof.
  induction t as [|e t IH]; cbn; [done|]. unfold is_clickable at 1. destruct (is_button e) eqn:Eb; cbn.
  - intros [= <- <-]. cbn. by rewrite Eb.
  - destruct (seqb (tag e) (js "a")); [intros [= <- <-]; cbn; by rewrite Eb|done].
Qed.

Lemma closest_overlay f t b above : closest f t = Some (b, above) -> overlay_above t = false -> overlay_above above = false.
Proof.
  unfold overlay_above. induction t as [|e t IH]; cbn; [done|]. destruct (f e); [intros [= <- <-]; done|].
  intros H [_ H2]%orb_false_iff. by apply IH.
Qed.

(** No click starts both the voice mode and the file dialog. *)
Lemma voice_excludes_attach t : isVoiceButton t = true -> isAttachButton t = false.
Proof.
  unfold isVoiceButton, isAttachButton at 2. destruct (overlay_above t) eqn:O; [done|].
  destruct (closest is_clickable t) as [[b above]|] eqn:C; [|done].
  destruct (seqb (el_type b) (js "submit") || isAttachButton above) eqn:A; [done|]. intros _.
  apply orb_false_iff in A as [_ A]. unfold isAttachButton in A.
  rewrite (closest_overlay _ _ _ _ C O) in A. by rewrite (closest_button _ _ _ C).
Qed.

(** Words that only contain the letters of a keyword count as well. *)
Example academic_mode_is_a_voice_button :
  isVoiceButton [Elem (js "button") [] false false [] (js "Academic mode") [] [] [] false] = true.
Proof. vm_compute. reflexivity. Qed.

End Buttons.

(** ** The side bar *)

Module Sidebar.

(** Whether the side bar of the chat is expanded (if there is one), whether the backdrop is
    active (once it was created), the pending timers of chosen conversations. *)
Record state := State { aside : option bool; backdrop : option bool; closings : nat }.

(** [window.__openSidebar()] *)
Definition openSidebar (s : state) : state :=
  match aside s with Some _ => State (Some true) (Some true) (closings s) | None => s end.

(** [window.__closeSidebar()] *)
Definition closeSidebar (s : state) : state :=
  State ((fun _ => false) <$> aside s) ((fun _ => false) <$> backdrop s) (closings s).

(** [window.__toggleSidebar()] *)
Definition toggleSidebar (s : state) : state :=
  match aside s with Some true => closeSidebar s | Some false => openSidebar s | None => s end.

Inductive event : Type :=
| Toggle
| OpenIt
| CloseIt
| BackdropClick
| CollapseClick
| ConversationClick
| ClosingDue.

(** [BackdropClick] reaches an existing backdrop, the two clicks inside the side bar the
    listener of the document. *)
Definition step (s : state) (e : event) : state :=
  match e with
  | Toggle => toggleSidebar s
  | OpenIt => openSidebar s
  | CloseIt => closeSidebar s
  | BackdropClick => match backdrop s with Some _ => closeSidebar s | None => s end
  | CollapseClick => match aside s with Some true => closeSidebar s | _ => s end
  | ConversationClick =>
      match aside s with Some true => State (aside s) (backdrop s) (S (closings s)) | _ => s end
  | ClosingDue => match closings s with S n => closeSidebar (State (aside s) (backdrop s) n) | O => s end
  end.

Definition exec (es : list event) (s : state) : state := fold_left step es s.

Definition covered (s : state) : bool := match backdrop s with Some true => true | _ => false end.
Definition expanded (s : state) : bool := match aside s with Some true => true | _ => false end.

(** The backdrop covers the chat exactly while the side bar is expanded. *)
Lemma backdrop_follows_the_sidebar es s : covered s = expanded s -> covered (exec es s) = expanded (exec es s).
Proof.
  intros H. apply (fold_invariant step (fun s => covered s = expanded s) (fun _ => True)); [|by apply Forall_true|done].
  intros [a b n] e _. unfold covered, expanded. destruct e, a as [[]|], b as [[]|], n; cbn; done.
Qed.

Lemma toggle_twice s : covered s = expanded s -> aside (toggleSidebar (toggleSidebar s)) = aside s.
Proof. destruct s as [[[]|] [[]|] n]; cbn; done. Qed.

End Sidebar.

(** ** External links *)

Module Links.

Inductive opening : Type := Bridge (url : jsstring) | SpeechBridge (url : jsstring) | NewWindow (url : jsstring) | Default.

(** [handleExternalLink(e)]; [hrefs]: the [href] attribute and the [data-external-url] of
    the nearest link; the flags tell which bridges can open addresses. *)
Definition handleExternalLink (hrefs : option (option jsstring * option jsstring)) (android speech : bool) : opening :=
  match hrefs with
  | None => Default
  | Some (a, b) =>
      let href := match a with Some t => if truthy t then t else default [] b | None => default [] b end in
      if negb (truthy href) then Default
      else if starts_with (js "http://") href || starts_with (js "https://") href then
        if includes (js "127.0.0.1") href || includes (js "localhost") href then Default
        else if android then Bridge href else if speech then SpeechBridge href else NewWindow href
      else Default
  end.

(** A link to another host that mentions the local one replaces the chat. *)
Example localhost_in_the_query_is_taken_for_local :
  handleExternalLink (Some (Some (js "https://example.com/?ref=localhost"), None)) true false = Default.
Proof. vm_compute. reflexivity. Qed.

End Links.
