(* ===== verification/FleetSession.v ===== *)
(** * Sessions of the fleet cockpit (fleet.html)

    Signing in with a key, a passkey or a mailed link, signing out, the reload of the
    session when the page opens, the rotation of the owner key, and the key that the
    commands of the cockpit send.  The functions are cut at their [await]s and run as one
    state machine; the replies of the gateway bring texts.  Composed with the portal, the
    agent workspace and the studio page, which share the store and the cookies. *)
From Stdlib Require Import Lia NArith QArith.
From stdpp Require Import base numbers list gmap strings.
From S2P Require Import Prelude JsString JsNumber JsValue JsJson I18n Auth UriRoundTrip StudioAuth StudioHead.

(** ** State *)

Inductive flow : Type := Login | Register.

(** An invocation waiting for the network or the authenticator. *)
Inductive task : Type :=
| Fleet
| Logout
| VerifyLink
| SavedMe (key : jsstring)
| SessionMe
| Rotate
| Begin (f : flow) (email : jsstring)
| Confirm (f : flow) (email : jsstring)
| Complete (f : flow) (email : jsstring).

(** A request with the owner key of its header. *)
Record request := Request { path : jsstring; key_header : option jsstring }.

Record cockpit := Cockpit {
  isLoggedIn : bool;
  activeOwnerKey : jsstring;
  activeEmail : jsstring;
  refreshing : bool;
  auth_hidden : bool;
  fleet_hidden : bool;
  owner_key_val : jsstring;
  samples_key : jsstring;
  message : jsstring * jsstring;
  key_field_value : jsstring;
  ls : storage;
  jar : list cookie;
  navs : list jsstring;
  tasks : gmap nat task;
  next_id : nat;
  requests : list request;
}.

Definition set_account (b : bool) (k e : jsstring) (r : bool) (c : cockpit) : cockpit :=
  Cockpit b k e r (auth_hidden c) (fleet_hidden c) (owner_key_val c) (samples_key c) (message c) (key_field_value c)
    (ls c) (jar c) (navs c) (tasks c) (next_id c) (requests c).
Definition set_view (ah fh : bool) (ov sk : jsstring) (c : cockpit) : cockpit :=
  Cockpit (isLoggedIn c) (activeOwnerKey c) (activeEmail c) (refreshing c) ah fh ov sk (message c) (key_field_value c)
    (ls c) (jar c) (navs c) (tasks c) (next_id c) (requests c).
Definition showMsg (text kind : jsstring) (c : cockpit) : cockpit :=
  Cockpit (isLoggedIn c) (activeOwnerKey c) (activeEmail c) (refreshing c) (auth_hidden c) (fleet_hidden c)
    (owner_key_val c) (samples_key c) (text, kind) (key_field_value c) (ls c) (jar c) (navs c) (tasks c) (next_id c) (requests c).
Definition set_field (v : jsstring) (c : cockpit) : cockpit :=
  Cockpit (isLoggedIn c) (activeOwnerKey c) (activeEmail c) (refreshing c) (auth_hidden c) (fleet_hidden c)
    (owner_key_val c) (samples_key c) (message c) v (ls c) (jar c) (navs c) (tasks c) (next_id c) (requests c).
Definition set_store (st : storage) (j : list cookie) (c : cockpit) : cockpit :=
  Cockpit (isLoggedIn c) (activeOwnerKey c) (activeEmail c) (refreshing c) (auth_hidden c) (fleet_hidden c)
    (owner_key_val c) (samples_key c) (message c) (key_field_value c) st j (navs c) (tasks c) (next_id c) (requests c).
Definition go_to (url : jsstring) (c : cockpit) : cockpit :=
  Cockpit (isLoggedIn c) (activeOwnerKey c) (activeEmail c) (refreshing c) (auth_hidden c) (fleet_hidden c)
    (owner_key_val c) (samples_key c) (message c) (key_field_value c) (ls c) (jar c) (navs c ++ [url]) (tasks c) (next_id c) (requests c).
Definition set_tasks (t : gmap nat task) (c : cockpit) : cockpit :=
  Cockpit (isLoggedIn c) (activeOwnerKey c) (activeEmail c) (refreshing c) (auth_hidden c) (fleet_hidden c)
    (owner_key_val c) (samples_key c) (message c) (key_field_value c) (ls c) (jar c) (navs c) t (next_id c) (requests c).

(** A request is sent without waiting for it here, or as task [t]. *)
Definition fetch (p : string) (k : option jsstring) (c : cockpit) : cockpit :=
  Cockpit (isLoggedIn c) (activeOwnerKey c) (activeEmail c) (refreshing c) (auth_hidden c) (fleet_hidden c)
    (owner_key_val c) (samples_key c) (message c) (key_field_value c) (ls c) (jar c) (navs c) (tasks c) (next_id c)
    (requests c ++ [Request (js p) k]).
Definition wait (t : task) (c : cockpit) : cockpit :=
  Cockpit (isLoggedIn c) (activeOwnerKey c) (activeEmail c) (refreshing c) (auth_hidden c) (fleet_hidden c)
    (owner_key_val c) (samples_key c) (message c) (key_field_value c) (ls c) (jar c) (navs c)
    (<[next_id c := t]> (tasks c)) (S (next_id c)) (requests c).
Definition done_task (id : nat) (c : cockpit) : cockpit := set_tasks (delete id (tasks c)) c.

(** [if (key) headers["X-Owner-Key"] = key] *)
Definition header (k : jsstring) : option jsstring := if truthy k then Some k else None.

Section Cockpit.
Context (show_frac : Q -> jsstring).
(** [window.location.hostname], and the [redirect] and [source] parameters of the address. *)
Context (hostname : jsstring) (redirect source : option jsstring) (l : lang).

(** A member of a reply that is a text; the gateway sends keys and addresses as texts. *)
Definition member_text (v : jsval) (k : string) : jsstring := match prop v (js k) with VStr s => s | _ => [] end.

(** [getErrorMessage(data, fallback)] *)
Definition getErrorMessage (data : jsval) (fallback : jsstring) : jsstring :=
  if negb (vtruthy data) then fallback
  else match data with
       | VStr s => s
       | _ =>
           match prop data (js "error") with
           | VStr s => s
           | (VObj _ | VArr _) as e =>
               to_str show_frac (vor (prop e (js "message")) (vor (prop e (js "detail")) (VStr (JSON_stringify show_frac e))))
           | _ => match prop data (js "message") with VStr s => s | _ => fallback end
           end
       end.

(** [loadFleet(isManual)] up to its [await]. *)
Definition loadFleet (c : cockpit) : cockpit := wait Fleet (fetch "/api/portal/fleet" (header (activeOwnerKey c)) c).

(** [updateDevApiSnippets(key)]: the key all code samples show. *)
Definition updateDevApiSnippets (key : jsstring) (c : cockpit) : cockpit :=
  set_view (auth_hidden c) (fleet_hidden c) (owner_key_val c)
    (if truthy key then key else if truthy (activeOwnerKey c) then activeOwnerKey c else js "<OWNER_KEY>") c.

(** [updateFleetPairQr()] *)
Definition updateFleetPairQr (c : cockpit) : cockpit :=
  let key := if truthy (activeOwnerKey c) then activeOwnerKey c else trim (owner_key_val c) in
  if truthy key && negb (seqb key (js "owner_...")) && negb (includes (js "<") key)
  then fetch "/api/portal/fleet/mobile/enrollment_token" (Some key) c else c.

(** What [onLoggedIn] shows for a reply with an owner key. *)
Definition show_owner_key (k : jsstring) (c : cockpit) : cockpit :=
  updateFleetPairQr
    (updateDevApiSnippets k
       (set_view (auth_hidden c) (fleet_hidden c) k (samples_key c) (set_account (isLoggedIn c) k (activeEmail c) (refreshing c) c))).

(** [onLoggedIn(data)], with whether it threw: reading a blocked store for a key, when
    neither the reply nor the page has one, does. *)
Definition onLoggedIn (data : jsval) (c : cockpit) : bool * cockpit :=
  let owner := member_text data "owner_key" in
  let c1 := set_view true false (owner_key_val c) (samples_key c)
              (set_account true (activeOwnerKey c) (activeEmail c) (refreshing c) c) in
  let reads := negb (truthy owner) && negb (truthy (activeOwnerKey c1)) in
  match ls c1, reads with
  | None, true => (true, c1)
  | _, _ =>
      if truthy (default [] redirect) then (false, go_to (default [] redirect) c1)
      else if seqb hostname (js "ai.inetconnector.com") || seqb (default [] source) (js "ai_studio") then
        (false, go_to (js "/webui/") c1)
      else
        let mail := member_text data "email" in
        let c2 := if truthy mail then set_account true (activeOwnerKey c1) mail (refreshing c1) c1 else c1 in
        let c3 := if truthy owner then show_owner_key owner c2 else updateDevApiSnippets (activeOwnerKey c2) c2 in
        let c4 := loadFleet c3 in
        (false, set_account (isLoggedIn c4) (activeOwnerKey c4) (activeEmail c4) true c4)
  end.

(** The same inside a [try] whose [catch] shows the error. *)
Definition log_in_caught (prefix : jsstring) (data : jsval) (c : cockpit) : cockpit :=
  let '(threw, c1) := onLoggedIn data c in
  if threw then showMsg (prefix ++ js "The operation is insecure.") (js "error") c1 else c1.

(** ** Signing in with a key *)

Definition config_sync (key : jsstring) (m : gmap jsstring jsstring) : gmap jsstring jsstring :=
  Portal.update_overrides show_frac (fold_left (Portal.update_config show_frac key) Portal.config_keys m).

(** [doDirectKeyLogin()]; [remember]: the check box.  A blocked store ends it after the key
    became active. *)
Definition doDirectKeyLogin (remember : bool) (c : cockpit) : cockpit :=
  let key := normalize_key (key_field_value c) in
  if negb (truthy key) then
    showMsg (tr l (js "Bitte Owner Key eingeben.") (js "Please enter an owner key.")) (js "error") c
  else
    let c1 := set_account (isLoggedIn c) key (activeEmail c) (refreshing c) c in
    match ls c1 with
    | None => c1
    | Some m =>
        let m1 := if remember then fold_left (fun m k => <[k := key]> m) Portal.key_names m
                  else delete (js "cm_fleet_owner_key") m in
        let j := setSubdomainCookie hostname (js "cm_fleet_session") key
                   (setSubdomainCookie hostname (js "cm_session") key (jar c1)) in
        snd (onLoggedIn (VObj [(js "owner_key", VStr key)]) (set_store (Some (config_sync key m1)) j c1))
    end.

(** ** Signing out *)

Definition portal_domain : jsstring := js ".inetconnector.com".

(** The four expired cookies; on another host the browser ignores those with the domain of
    the portal. *)
Definition expire_sessions (j : list cookie) : list cookie :=
  let at_domain n j := if in_domain hostname then expire_cookie (js n) (Some portal_domain) j else j in
  expire_cookie (js "cm_fleet_session") None (at_domain "cm_fleet_session"%string
    (expire_cookie (js "cm_session") None (at_domain "cm_session"%string j))).

(** [doLogout()] up to its [await]. *)
Definition doLogout (c : cockpit) : cockpit :=
  let c1 := set_account false [] [] (refreshing c) c in
  match ls c1 with
  | None => c1
  | Some m =>
      let m1 := fold_left (fun m k => delete k m) Portal.key_names m in
      let c2 := set_store (Some m1) (expire_sessions (jar c1)) c1 in
      wait Logout (fetch "/api/auth/logout" None (set_account false [] [] false c2))
  end.

(** Its end, whatever became of the request. *)
Definition logged_out (c : cockpit) : cockpit :=
  showMsg [] [] (set_view false true (owner_key_val c) (samples_key c) c).

(** ** Passkeys and mailed links *)

Definition no_email : jsstring := tr l (js "Bitte E-Mail-Adresse eingeben.") (js "Please enter an email address.").

(** A text without at sign that may be a key. *)
Definition key_like (s : jsstring) : bool :=
  negb (existsb (N.eqb 64) s) && (key_prefix s || (8 <=? length s)%nat).

(** [doLogin()] and [doRegister()] up to their first [await]; [supported]: whether the
    browser has passkeys, [remember]: the check box of the key form. *)
Definition start_passkey (f : flow) (field : jsstring) (supported remember : bool) (c : cockpit) : cockpit :=
  let email := trim field in
  if negb (truthy email) then showMsg no_email (js "error") c
  else if match f with Login => key_like email | Register => false end then
    doDirectKeyLogin remember (set_field email c)
  else if negb supported then
    showMsg (js "Dein Browser unterstützt keine Passkeys / WebAuthn. Bitte nutze den E-Mail Magic-Link.") (js "error") c
  else
    let c1 := showMsg (match f with
                       | Login => tr l (js "Lade Passkey-Daten...") (js "Loading passkey data...")
                       | Register => tr l (js "Erstelle Registrierung...") (js "Creating registration...")
                       end) (js "ok") c in
    wait (Begin f email) (fetch (match f with Login => "/api/auth/login/begin" | Register => "/api/auth/register/begin" end) None c1).

Definition failed_text (f : flow) : jsstring :=
  match f with Login => js "Login fehlgeschlagen." | Register => js "Registrierung fehlgeschlagen." end.

(** The reply to the first request; the options are prepared for the authenticator
    ([bad_options]: that this failed, with its message). *)
Definition on_begin (id : nat) (f : flow) (email : jsstring) (status : N) (ok : bool) (data : jsval) (bad_options : option jsstring)
    (c : cockpit) : cockpit :=
  let c1 := done_task id c in
  if negb ok then
    if match f with Login => (status =? 404)%N | Register => false end then
      showMsg (tr l (js "Kein Konto mit Passkey für diese E-Mail gefunden. Klicke auf '+ Neues Flotten-Konto registrieren' oder nutze den Magic-Link.")
                    (js "No account found. Please register or use Magic-Link.")) (js "error") c1
    else showMsg (getErrorMessage data (failed_text f)) (js "error") c1
  else match bad_options with
       | Some m => showMsg (js "Fehler: " ++ m) (js "error") c1
       | None =>
           let c2 := showMsg (match f with
                              | Login => tr l (js "Warte auf Passkey-Bestätigung (Windows Hello / Touch ID)...") (js "Waiting for passkey confirmation...")
                              | Register => tr l (js "Bitte Passkey / Biometrie bestätigen (Windows Hello / Touch ID)...") (js "Please confirm passkey / biometrics...")
                              end) (js "ok") c1 in
           set_tasks (<[id := Confirm f email]> (tasks c2)) c2
       end.

(** The authenticator answers, with a credential or [null]. *)
Definition on_confirm (id : nat) (f : flow) (email : jsstring) (given : bool) (c : cockpit) : cockpit :=
  if given then
    let c1 := fetch (match f with Login => "/api/auth/login/complete" | Register => "/api/auth/register/complete" end) None c in
    set_tasks (<[id := Complete f email]> (tasks c1)) c1
  else showMsg (match f with
                | Login => tr l (js "Login abgebrochen.") (js "Login cancelled.")
                | Register => tr l (js "Registrierung abgebrochen.") (js "Registration cancelled.")
                end) (js "error") (done_task id c).

Definition on_complete (id : nat) (f : flow) (ok : bool) (data : jsval) (c : cockpit) : cockpit :=
  let c1 := done_task id c in
  if negb ok then showMsg (getErrorMessage data (failed_text f)) (js "error") c1
  else
    let c2 := match f with
              | Login => c1
              | Register => showMsg (tr l (js "Konto erstellt und Passkey registriert!") (js "Account created and Passkey registered!")) (js "ok") c1
              end in
    log_in_caught (js "Fehler: ") data c2.

(** The [catch] of both functions. *)
Definition passkey_error (id : nat) (f : flow) (name msg : jsstring) (c : cockpit) : cockpit :=
  showMsg (if seqb name (js "NotAllowedError") then
             match f with
             | Login => tr l (js "Passkey-Login abgebrochen.") (js "Passkey login cancelled.")
             | Register => tr l (js "Passkey-Registrierung wurde abgebrochen oder Authentifikator-Timeout.") (js "Passkey registration cancelled.")
             end
           else js "Fehler: " ++ (if truthy msg then msg else name)) (js "error") (done_task id c).

(** [verifyMagicLink(token)] *)
Definition verifyMagicLink (c : cockpit) : cockpit :=
  wait VerifyLink (fetch "/api/auth/magic_link/verify" None
    (showMsg (tr l (js "Verifiziere E-Mail-Login...") (js "Verifying email login...")) (js "ok") c)).

Definition on_link (id : nat) (ok : bool) (data : jsval) (c : cockpit) : cockpit :=
  let c1 := done_task id c in
  if ok then log_in_caught (js "Fehler bei Link-Verifikation: ") data c1
  else showMsg (getErrorMessage data (js "Ungültiger oder abgelaufener Login-Link.")) (js "error") c1.

(** ** Loading the page *)

(** [initFleet()] up to its first [await]; a blocked store ends it. *)
Definition initFleet (magicToken : jsstring) (c : cockpit) : cockpit :=
  if truthy magicToken then verifyMagicLink c
  else match ls c with
       | None => c
       | Some m =>
           let savedKey := item_or_empty (js "cm_fleet_owner_key") m in
           if truthy savedKey then
             wait (SavedMe savedKey) (fetch "/api/auth/me" (Some savedKey)
               (set_field savedKey (set_account (isLoggedIn c) savedKey (activeEmail c) (refreshing c) c)))
           else wait SessionMe (fetch "/api/auth/me" None c)
       end.

(** The reply to [/api/auth/me]: a stored key opens the cockpit whatever the reply is. *)
Definition on_me (id : nat) (t : task) (reply : option jsval) (c : cockpit) : cockpit :=
  let c1 := done_task id c in
  match t, reply with
  | SavedMe k, Some data =>
      let '(threw, c2) := onLoggedIn data c1 in
      if threw then snd (onLoggedIn (VObj [(js "owner_key", VStr k)]) c2) else c2
  | SavedMe k, None => snd (onLoggedIn (VObj [(js "owner_key", VStr k)]) c1)
  | _, Some data =>
      let '(threw, c2) := onLoggedIn data c1 in
      if threw then set_view false (fleet_hidden c2) (owner_key_val c2) (samples_key c2)
                      (set_account false (activeOwnerKey c2) (activeEmail c2) (refreshing c2) c2)
      else c2
  | _, None => set_view false (fleet_hidden c1) (owner_key_val c1) (samples_key c1)
                 (set_account false (activeOwnerKey c1) (activeEmail c1) (refreshing c1) c1)
  end.

(** The reply to a load of the fleet, as far as it concerns the session. *)
Definition on_fleet (id : nat) (status : N) (c : cockpit) : cockpit :=
  let c1 := done_task id c in
  if (status =? 401)%N && negb (truthy (activeOwnerKey c1)) then
    set_view false true (owner_key_val c1) (samples_key c1) (set_account false [] (activeEmail c1) (refreshing c1) c1)
  else c1.

(** ** The owner key *)

(** The key of the commands: [activeOwnerKey || text of the page || stored key || ""];
    [None]: a blocked store throws. *)
Definition command_key (c : cockpit) : option jsstring :=
  if truthy (activeOwnerKey c) then Some (activeOwnerKey c)
  else if truthy (trim (owner_key_val c)) then Some (trim (owner_key_val c))
  else match ls c with Some m => Some (item_or_empty (js "cm_fleet_owner_key") m) | None => None end.

(** [triggerEmergencyKill()], [resetFleetEmergencyKill()], [renewKillswitchLease()],
    [requestSettlement()] and the other commands: the request with that key. *)
Definition command (p : string) (c : cockpit) : cockpit :=
  match command_key c with Some k => fetch p (header k) c | None => c end.

(** [rotateOwnerKeyPrompt()] after the confirmation, and its reply. *)
Definition rotateOwnerKey (c : cockpit) : cockpit :=
  wait Rotate (fetch "/api/auth/owner_key/rotate" (header (activeOwnerKey c)) c).

Definition on_rotated (id : nat) (newKey : jsstring) (c : cockpit) : cockpit :=
  let c1 := set_account (isLoggedIn c) newKey (activeEmail c) (refreshing c) (done_task id c) in
  match ls c1 with
  | None => c1
  | Some m =>
      let c2 := set_store (Some (<[js "cm_fleet_owner_key" := newKey]> m)) (jar c1) c1 in
      let c3 := set_view (auth_hidden c2) (fleet_hidden c2) newKey (samples_key c2) c2 in
      loadFleet (updateDevApiSnippets newKey c3)
  end.

(** ** Events *)

Inductive event : Type :=
| KeyLogin (field : jsstring) (remember : bool)
| Passkey (f : flow) (field : jsstring) (supported remember : bool)
| SignOut
| Tick
| RotateKey
| Command (p : string)
| BeginReply (id : nat) (status : N) (ok : bool) (data : jsval) (bad_options : option jsstring)
| Answer (id : nat) (given : bool)
| CompleteReply (id : nat) (ok : bool) (data : jsval)
| LinkReply (id : nat) (ok : bool) (data : jsval)
| MeReply (id : nat) (reply : option jsval)
| FleetReply (id : nat) (status : N)
| LogoutEnds (id : nat)
| Rotated (id : nat) (newKey : jsstring)
| Failed (id : nat) (name msg : jsstring).

(** A failed request: [catch] blocks that do nothing but end the function are those of the
    fleet and of the rotation. *)
Definition on_failed (id : nat) (t : task) (name msg : jsstring) (c : cockpit) : cockpit :=
  match t with
  | Fleet | Rotate => done_task id c
  | Logout => logged_out (done_task id c)
  | VerifyLink => showMsg (js "Fehler bei Link-Verifikation: " ++ (if truthy msg then msg else name)) (js "error") (done_task id c)
  | SavedMe _ | SessionMe => on_me id t None c
  | Begin f _ | Confirm f _ | Complete f _ => passkey_error id f name msg c
  end.

Definition step (c : cockpit) (e : event) : cockpit :=
  match e with
  | KeyLogin v r => doDirectKeyLogin r (set_field v c)
  | Passkey f v s r => start_passkey f v s r c
  | SignOut => doLogout c
  | Tick => if refreshing c then loadFleet c else c
  | RotateKey => rotateOwnerKey c
  | Command p => command p c
  | BeginReply id st ok data bad => match tasks c !! id with Some (Begin f m) => on_begin id f m st ok data bad c | _ => c end
  | Answer id g => match tasks c !! id with Some (Confirm f m) => on_confirm id f m g c | _ => c end
  | CompleteReply id ok data => match tasks c !! id with Some (Complete f _) => on_complete id f ok data c | _ => c end
  | LinkReply id ok data => match tasks c !! id with Some VerifyLink => on_link id ok data c | _ => c end
  | MeReply id r =>
      match tasks c !! id with Some (SavedMe k) => on_me id (SavedMe k) r c | Some SessionMe => on_me id SessionMe r c | _ => c end
  | FleetReply id st => match tasks c !! id with Some Fleet => on_fleet id st c | _ => c end
  | LogoutEnds id => match tasks c !! id with Some Logout => logged_out (done_task id c) | _ => c end
  | Rotated id k => match tasks c !! id with Some Rotate => on_rotated id k c | _ => c end
  | Failed id n m => match tasks c !! id with Some t => on_failed id t n m c | None => c end
  end.

Definition exec (es : list event) (c : cockpit) : cockpit := fold_left step es c.

End Cockpit.

(** ** The cockpit is shown only to those who are signed in *)

Section Shown.
Context (sf : Q -> jsstring) (host : jsstring) (redirect source : option jsstring) (l : lang).

(** The store works, the question for the session at the start is answered, identifiers
    are fresh; and a visible cockpit means a session, or a sign-out that is under way. *)
Record proper (c : cockpit) : Prop := Proper_ {
  pr_store : ls c <> None;
  pr_fresh : forall id t, tasks c !! id = Some t -> (id < next_id c)%nat;
  pr_asked : forall id, tasks c !! id <> Some SessionMe;
  pr_shown : fleet_hidden c = false -> isLoggedIn c = true \/ exists id, tasks c !! id = Some Logout;
}.

(** The fields of the invariant. *)
Lemma proper_same c c' : ls c' = ls c -> tasks c' = tasks c -> next_id c' = next_id c -> fleet_hidden c' = fleet_hidden c ->
  isLoggedIn c' = isLoggedIn c -> proper c -> proper c'.
Proof. intros E1 E2 E3 E4 E5 [H1 H2 H3 H4]. split; rewrite ?E1, ?E2, ?E3, ?E4, ?E5; done. Qed.

Lemma proper_wait t c : t <> SessionMe -> proper c -> proper (wait t c).
Proof.
  intros Ht [H1 H2 H3 H4]. split; cbn; [done|..].
  - intros id t' [[-> _]|[_ H]]%lookup_insert_Some; [lia|apply H2 in H; lia].
  - intros id [[_ E]|[_ H]]%lookup_insert_Some; [done|by apply (H3 id)].
  - intros F. destruct (H4 F) as [L|[id Hid]]; [by left|right]. exists id. rewrite lookup_insert_ne; [done|].
    apply H2 in Hid. lia.
Qed.

(** Ending a task that is not a sign-out. *)
Lemma proper_done id c t : tasks c !! id = Some t -> t <> Logout -> proper c -> proper (done_task id c).
Proof.
  intros Ht Hl [H1 H2 H3 H4]. split; cbn; [done|..].
  - intros i t' [_ H]%lookup_delete_Some. by eapply H2.
  - intros i [_ H]%lookup_delete_Some. by apply (H3 i).
  - intros F. destruct (H4 F) as [L|[i Hi]]; [by left|right]. exists i. rewrite lookup_delete_ne; [done|]. congruence.
Qed.

Lemma proper_task id t' c t : tasks c !! id = Some t -> t <> Logout -> t' <> SessionMe -> proper c ->
  proper (set_tasks (<[id := t']> (tasks c)) c).
Proof.
  intros Ht Hl Ht' [H1 H2 H3 H4]. split; cbn; [done|..].
  - intros i x [[-> _]|[_ H]]%lookup_insert_Some; by eapply H2.
  - intros i [[_ E]|[_ H]]%lookup_insert_Some; [done|by apply (H3 i)].
  - intros F. destruct (H4 F) as [L|[i Hi]]; [by left|right]. exists i. rewrite lookup_insert_ne; [done|]. congruence.
Qed.

(** Hiding the cockpit, or signing in. *)
Lemma proper_hidden c : ls c <> None -> (forall id t, tasks c !! id = Some t -> (id < next_id c)%nat) ->
  (forall id, tasks c !! id <> Some SessionMe) -> fleet_hidden c = true \/ isLoggedIn c = true -> proper c.
Proof. intros H1 H2 H3 H4. split; [done..|]. intros F. destruct H4 as [H|H]; [congruence|by left]. Qed.


Lemma proper_logged_in data c : proper c -> proper (snd (onLoggedIn host redirect source data c)).
Proof.
  intros [H1 H2 H3 H4]. unfold onLoggedIn. cbv zeta. set (c1 := set_view true false _ _ _).
  assert (P1 : proper c1) by (apply proper_hidden; try done; by right).
  destruct (ls c1) as [m|] eqn:El; [|by destruct H1].
  destruct (truthy (default [] redirect)); [by apply (proper_same c1)|].
  destruct (_ || _); [by apply (proper_same c1)|]. cbn [snd].
  set (c2 := if truthy (member_text data "email") then _ else c1).
  assert (P2 : proper c2) by (unfold c2; destruct (truthy _); [by apply (proper_same c1)|done]).
  set (c3 := if truthy (member_text data "owner_key") then _ else _).
  assert (P3 : proper c3).
  { unfold c3, show_owner_key, updateFleetPairQr. destruct (truthy (member_text data "owner_key")); [|by apply (proper_same c2)].
    cbv zeta. destruct (_ && _); by apply (proper_same c2). }
  apply (proper_same (loadFleet c3)); try done. apply proper_wait; [done|]. by apply (proper_same c3).
Qed.

Lemma proper_log_in_caught p data c : proper c -> proper (log_in_caught host redirect source p data c).
Proof.
  intros H. apply (proper_logged_in data) in H. unfold log_in_caught. destruct (onLoggedIn _ _ _ _ _) as [[] c1]; [|done].
  by apply (proper_same c1).
Qed.

Lemma proper_key_login r c : proper c -> proper (doDirectKeyLogin sf host redirect source l r c).
Proof.
  intros H. unfold doDirectKeyLogin. cbv zeta. destruct (negb _); [by apply (proper_same c)|].
  set (c1 := set_account _ _ _ _ c). assert (P1 : proper c1) by (by apply (proper_same c)).
  destruct (ls c1) as [m|] eqn:El; [|done]. apply proper_logged_in. destruct P1 as [H1 H2 H3 H4]. split; done.
Qed.

Lemma proper_sign_out c : proper c -> proper (doLogout host c).
Proof.
  intros [H1 H2 H3 H4]. unfold doLogout. cbv zeta. cbn [ls set_account]. destruct (ls c) as [m|] eqn:El; [|done].
  split; cbn; [done|..].
  - intros id t' [[-> _]|[_ H]]%lookup_insert_Some; [lia|apply H2 in H; lia].
  - intros id [[_ E]|[_ H]]%lookup_insert_Some; [done|by apply (H3 id)].
  - intros _. right. exists (next_id c). by rewrite lookup_insert_eq.
Qed.

Lemma proper_logged_out id c : proper c -> proper (logged_out (done_task id c)).
Proof.
  intros [H1 H2 H3 H4]. apply proper_hidden; cbn; [done|..|by left].
  - intros i t' [_ H]%lookup_delete_Some. by eapply H2.
  - intros i [_ H]%lookup_delete_Some. by apply (H3 i).
Qed.

Lemma proper_fetch p k c : proper c -> proper (fetch p k c).
Proof. by apply proper_same. Qed.

Lemma proper_msg t k c : proper c -> proper (showMsg t k c).
Proof. by apply proper_same. Qed.

Lemma proper_passkey f v s r c : proper c -> proper (start_passkey sf host redirect source l f v s r c).
Proof.
  intros H. unfold start_passkey. cbv zeta. destruct (negb (truthy _)); [by apply proper_msg|].
  destruct (match f with Login => _ | Register => _ end); [apply proper_key_login; by apply (proper_same c)|].
  destruct (negb s); [by apply proper_msg|]. apply proper_wait; [done|]. by apply proper_fetch, proper_msg.
Qed.

Lemma proper_begin id f m st ok data bad c : tasks c !! id = Some (Begin f m) -> proper c ->
  proper (on_begin sf l id f m st ok data bad c).
Proof.
  intros Ht H. assert (D : proper (done_task id c)) by (by eapply proper_done).
  unfold on_begin. cbv zeta. destruct (negb ok); [destruct (match f with Login => _ | Register => _ end); by apply proper_msg|].
  destruct bad; [by apply proper_msg|]. destruct D as [D1 D2 D3 D4]. destruct H as [H1 H2 H3 H4].
  split; cbn in *; [done|..].
  - intros i x [[-> _]|[_ H]]%lookup_insert_Some; [by eapply H2|by eapply D2].
  - intros i [[_ E]|[_ H]]%lookup_insert_Some; [done|by apply (D3 i)].
  - intros F. destruct (D4 F) as [L|[i Hi]]; [by left|right]. exists i. rewrite lookup_insert_ne; [done|].
    intros <-. by rewrite lookup_delete_eq in Hi.
Qed.

Lemma proper_fleet id st c : tasks c !! id = Some Fleet -> proper c -> proper (on_fleet id st c).
Proof.
  intros Ht H. assert (D : proper (done_task id c)) by (by eapply proper_done).
  unfold on_fleet. cbv zeta. destruct (_ && _); [|done]. destruct D as [D1 D2 D3 D4]. apply proper_hidden; try done. by left.
Qed.

Lemma proper_me id k r c : tasks c !! id = Some (SavedMe k) -> proper c -> proper (on_me host redirect source id (SavedMe k) r c).
Proof.
  intros Ht H. assert (D : proper (done_task id c)) by (by eapply proper_done).
  unfold on_me. destruct r as [data|]; [|by apply proper_logged_in]. pose proof (proper_logged_in data _ D) as P.
  destruct (onLoggedIn _ _ _ data _) as [[] c2]; [by apply proper_logged_in|done].
Qed.

Lemma proper_rotated id k c : tasks c !! id = Some Rotate -> proper c -> proper (on_rotated id k c).
Proof.
  intros Ht H. assert (D : proper (done_task id c)) by (by eapply proper_done).
  unfold on_rotated. cbv zeta. set (c1 := set_account _ _ _ _ (done_task id c)).
  assert (P1 : proper c1) by (by apply (proper_same (done_task id c))).
  destruct (ls c1) as [m|]; [|done]. apply proper_wait; [done|]. destruct P1 as [H1 H2 H3 H4]. split; done.
Qed.

Lemma proper_step c e : proper c -> proper (step sf host redirect source l c e).
Proof.
  intros H. destruct e as [v r|f v s r| | | |p|id st ok data bad|id g|id ok data|id ok data|id r|id st|id|id k|id n m]; cbn [step].
  - apply proper_key_login. by apply (proper_same c).
  - by apply proper_passkey.
  - by apply proper_sign_out.
  - destruct (refreshing c); [|done]. apply proper_wait; [done|by apply proper_fetch].
  - apply proper_wait; [done|by apply proper_fetch].
  - unfold command. destruct (command_key c); [by apply proper_fetch|done].
  - destruct (tasks c !! id) as [[]|] eqn:Et; try done. by apply proper_begin.
  - destruct (tasks c !! id) as [[]|] eqn:Et; try done. unfold on_confirm. destruct g.
    + apply (proper_task id _ _ (Confirm f email)); [exact Et|done|done|by apply proper_fetch].
    + apply proper_msg. by eapply proper_done.
  - destruct (tasks c !! id) as [[]|] eqn:Et; try done.
    assert (D : proper (done_task id c)) by (by eapply proper_done). unfold on_complete. cbv zeta.
    destruct (negb ok); [by apply proper_msg|]. apply proper_log_in_caught. destruct f; [done|by apply proper_msg].
  - destruct (tasks c !! id) as [[]|] eqn:Et; try done.
    assert (D : proper (done_task id c)) by (by eapply proper_done). unfold on_link. cbv zeta.
    destruct ok; [by apply proper_log_in_caught|by apply proper_msg].
  - destruct (tasks c !! id) as [[]|] eqn:Et; try done; [by apply proper_me|]. by destruct (pr_asked c H id).
  - destruct (tasks c !! id) as [[]|] eqn:Et; try done. by apply proper_fleet.
  - destruct (tasks c !! id) as [[]|] eqn:Et; try done. by apply proper_logged_out.
  - destruct (tasks c !! id) as [[]|] eqn:Et; try done. by apply proper_rotated.
  - destruct (tasks c !! id) as [[]|] eqn:Et; try done; cbn [on_failed]; try (by eapply proper_done).
    + by apply proper_logged_out.
    + apply proper_msg. by eapply proper_done.
    + by apply proper_me.
    + by destruct (pr_asked c H id).
    + apply proper_msg. by eapply proper_done.
    + apply proper_msg. by eapply proper_done.
    + apply proper_msg. by eapply proper_done.
Qed.

End Shown.

(** ** What a sign-out removes *)

Definition session_names : list jsstring := [js "cm_session"; js "cm_fleet_session"].

(** The cookies with the name of a session, and those that mention it, are the ones the
    pages set: for the host itself or for the domain of the portal. *)
Definition own_cookies (host : jsstring) (j : list cookie) : Prop :=
  forall c, c ∈ j ->
    (includes (js "cm_session=") (pair_text c) = true -> c_name c ∈ session_names) /\
    (c_name c ∈ session_names -> c_domain c = None \/ (c_domain c = Some portal_domain /\ in_domain host = true)).

Lemma fold_delete_lookup (ks : list jsstring) (m : gmap jsstring jsstring) k :
  fold_left (fun m k => delete k m) ks m !! k = if bool_decide (k ∈ ks) then None else m !! k.
Proof.
  revert m. induction ks as [|k' ks IH]; intros m; cbn [fold_left]; [done|]. rewrite IH.
  destruct (bool_decide_reflect (k ∈ ks)) as [H|H].
  - rewrite bool_decide_eq_true_2; [done|by right].
  - destruct (decide (k = k')) as [->|Hne].
    + rewrite lookup_delete_eq, bool_decide_eq_true_2; [done|by left].
    + rewrite lookup_delete_ne by done. rewrite bool_decide_eq_false_2; [done|]. by intros [->|?]%elem_of_cons.
Qed.

Lemma deleted_keys m : first_item Portal.key_names (fold_left (fun m k => delete k m) Portal.key_names m) = [].
Proof.
  rewrite (first_item_ext _ _ ∅); [reflexivity|]. intros k Hk. rewrite fold_delete_lookup, lookup_empty.
  by rewrite bool_decide_eq_true_2.
Qed.

Lemma elem_of_expire n d j c : c ∈ expire_cookie n d j <-> c ∈ j /\ same_cookie n d c = false.
Proof.
  unfold expire_cookie. rewrite !list_elem_of_In, filter_In, negb_true_iff. done.
Qed.

Lemma expire_own n d j c : c ∈ expire_cookie n d j -> c ∈ j /\ (c_name c = n -> c_domain c <> d).
Proof.
  intros [H N]%elem_of_expire. split; [done|]. intros <- <-. unfold same_cookie in N.
  rewrite seqb_refl, bool_decide_eq_true_2 in N; done.
Qed.

(** What is left of the cookies after the four expiries. *)
Lemma sessions_gone host j c : c ∈ expire_sessions host j ->
  c ∈ j /\ forall n, n ∈ session_names -> c_name c = n ->
    c_domain c <> None /\ (in_domain host = true -> c_domain c <> Some portal_domain).
Proof.
  unfold expire_sessions. cbv zeta. intros Hc. apply expire_own in Hc as [Hc F1].
  assert (Hc' : c ∈ expire_cookie (js "cm_session") None
      (if in_domain host then expire_cookie (js "cm_session") (Some portal_domain) j else j) /\
    (in_domain host = true -> c_name c = js "cm_fleet_session" -> c_domain c <> Some portal_domain)).
  { destruct (in_domain host); [|done]. apply expire_own in Hc as [Hc F2]. split; [done|by intros _]. }
  destruct Hc' as [Hs F2]. apply expire_own in Hs as [Hs S1].
  assert (Hj : c ∈ j /\ (in_domain host = true -> c_name c = js "cm_session" -> c_domain c <> Some portal_domain)).
  { destruct (in_domain host); [|done]. apply expire_own in Hs as [Hs S2]. split; [done|by intros _]. }
  destruct Hj as [Hj S2]. split; [done|]. unfold session_names.
  intros n [->|[->|[]%elem_of_nil]%elem_of_cons]%elem_of_cons Hn; split; auto.
Qed.

Lemma no_session_left host j c : own_cookies host j -> c ∈ expire_sessions host j -> c_name c ∉ session_names.
Proof.
  intros Ho Hc Hn. destruct (sessions_gone host j c Hc) as [Hj G]. destruct (G _ Hn eq_refl) as [G1 G2].
  destruct (Ho c Hj) as [_ D]. destruct (D Hn) as [?|[E I]]; [done|]. by apply (G2 I).
Qed.

Lemma sessions_expire host j : own_cookies host j -> session_in (expire_sessions host j) = false.
Proof.
  intros Ho. rewrite session_in_some. destruct (existsb _ (expire_sessions host j)) eqn:E; [|done].
  apply existsb_exists in E as (c & Hc%list_elem_of_In & Hin). destruct (no_session_left host j c Ho Hc).
  destruct (sessions_gone host j c Hc) as [Hj _]. by apply (Ho c Hj).
Qed.

Lemma no_session_no_match j : session_in j = false -> Agent.match_session (cookie_string j) = None.
Proof.
  intros H. unfold session_in in H.
  assert (V : forall r w, cookie_string j = w ++ r -> Agent.value_at r = None).
  { intros r w E. unfold Agent.value_at. rewrite E in H. by rewrite (includes_suffix _ _ _ H). }
  unfold Agent.match_session. rewrite (V (cookie_string j) []) by done.
  assert (G : forall r w, cookie_string j = w ++ r -> Agent.scan_cookie r = None).
  { induction r as [|c r IH]; intros w E; [done|]. cbn [Agent.scan_cookie].
    assert (E' : cookie_string j = (w ++ [c]) ++ r) by (by rewrite <- app_assoc).
    destruct (c =? 59)%N; [|by apply (IH (w ++ [c]))].
    destruct (trim_start_suffix r) as (x & Ex & _). rewrite (V (trim_start r) ((w ++ [c]) ++ x)); [by apply (IH (w ++ [c]))|].
    rewrite <- app_assoc, <- Ex. exact E'. }
  by apply (G _ []).
Qed.

(** ** Claims *)

(** C26: While the store works and the start of the page is over, the cockpit is visible
    only to a visitor who is signed in, or until the request of a sign-out is answered, in
    every order of clicks, replies and failures. *)
Theorem cockpit_shown_only_signed_in sf host redirect source l es c :
  proper c -> let c' := exec sf host redirect source l es c in
  fleet_hidden c' = false -> isLoggedIn c' = true \/ exists id, tasks c' !! id = Some Logout.
Proof.
  intros H. cbv zeta. unfold exec.
  assert (P : proper (fold_left (step sf host redirect source l) es c)); [|apply P].
  apply (fold_invariant (step sf host redirect source l) proper (fun _ => True)); [|by apply Forall_true|done].
  intros s e _ Hs. by apply proper_step.
Qed.

(** C14: Signing out of the cockpit, when the store works and the session cookies a script
    can see were set by the pages themselves, removes all five keys and every cookie named
    [cm_session] or [cm_fleet_session], and asks the gateway to end its own session, whose
    cookie no script can remove. Afterwards the portal has no key, the studio page finds
    none and the sign-in page shows its form. The agent workspace resolves none either,
    provided that no [cm_auth_token] and no [cm_session_token] is stored: these two entries
    stay. So do the settings of the studio, with the key in them. *)
Theorem sign_out_is_complete sf lossy host c m page :
  ls c = Some m -> own_cookies host (jar c) ->
  let c' := doLogout host c in
  isLoggedIn c' = false /\
  requests c' = requests c ++ [Request (js "/api/auth/logout") None] /\
  (forall ck, ck ∈ jar c' -> c_name ck ∉ session_names) /\
  Portal.getActiveComputeMeshApiKey (ls c') = [] /\
  (m !! js "cm_auth_token" = None -> m !! js "cm_session_token" = None ->
   Agent.resolveAuthToken (ls c') (cookie_string (jar c')) = None) /\
  (exists m', ls c' = Some m' /\ raw_key m' (cookie_string (jar c')) = Some [] /\
     (forall k, k ∉ Portal.key_names -> m' !! k = m !! k)) /\
  (StudioAuth.ls page = ls c' -> StudioAuth.jar page = jar c' ->
   init sf lossy host [] page = applyStudioLanguage (currentLang (view page)) page).
Proof.
  intros Hm Ho. cbv zeta. unfold doLogout. cbn [ls set_account]. rewrite Hm.
  set (m' := fold_left (fun m k => delete k m) Portal.key_names m). cbn [isLoggedIn ls jar set_store set_account fetch wait].
  pose proof (sessions_expire host (jar c) Ho) as Hj. pose proof (no_session_no_match _ Hj) as Hn.
  assert (F : first_item Portal.key_names m' = []) by apply deleted_keys.
  assert (K : forall k, k ∉ Portal.key_names -> m' !! k = m !! k).
  { intros k Hk. unfold m'. rewrite fold_delete_lookup. by rewrite bool_decide_eq_false_2. }
  assert (D : forall k, k ∈ Portal.key_names -> m' !! k = None).
  { intros k Hk. unfold m'. rewrite fold_delete_lookup. by rewrite bool_decide_eq_true_2. }
  split_and!; [done|done| | | | |].
  - intros ck Hck. by apply (no_session_left host (jar c)).
  - unfold Portal.getActiveComputeMeshApiKey. by rewrite F.
  - intros Ha Hs. unfold Agent.resolveAuthToken, Agent.token_names.
    rewrite first_item_miss by (rewrite K; [done|not_mem]). rewrite first_item_miss by (rewrite K; [done|not_mem]).
    rewrite first_item_miss by (apply D; mem). rewrite first_item_miss by (apply D; mem). cbn [first_item truthy andb]. by rewrite Hn.
  - exists m'. split; [done|]. split.
    + unfold raw_key. by rewrite F, Hn.
    + exact K.
  - intros Hl Hjar. unfold init. rewrite Hl, Hjar, F, Hj. done.
Qed.

(** A rotated owner key reaches only one of the five entries of the store: the portal
    sends the new key, the agent workspace goes on with the old one. *)
Theorem rotation_leaves_the_agent_on_the_old_key c m id old new cookies :
  ls c = Some m -> m !! js "cm_api_key" = Some old -> clean_key old = true -> old <> [] ->
  m !! js "cm_auth_token" = None -> m !! js "cm_session_token" = None ->
  clean_key new = true -> new <> [] ->
  let c' := on_rotated id new c in
  activeOwnerKey c' = new /\ Portal.getActiveComputeMeshApiKey (ls c') = new /\
  Agent.resolveAuthToken (ls c') cookies = Some old.
Proof.
  intros Hm Ho Hoc Hon H1 H2 Hc Hn. cbv zeta. unfold on_rotated. cbv zeta. cbn [ls done_task set_tasks set_account]. rewrite Hm.
  cbn [ls activeOwnerKey wait loadFleet fetch updateDevApiSnippets set_view set_store set_account done_task set_tasks].
  apply truthy_true in Hn as Tn. apply truthy_true in Hon as Ton. split_and!; [done| |].
  - unfold Portal.getActiveComputeMeshApiKey, Portal.key_names.
    rewrite (first_item_hit _ _ _ new); [|by rewrite lookup_insert_eq|done]. by rewrite Tn, (clean_normal new Hc).
  - unfold Agent.resolveAuthToken, Agent.token_names.
    rewrite first_item_miss by (by rewrite lookup_insert_ne). rewrite first_item_miss by (by rewrite lookup_insert_ne).
    rewrite (first_item_hit _ _ _ old); [|by rewrite lookup_insert_ne|done].
    by rewrite (clean_trim old Hoc), Ton, (clean_quotes old Hoc), (clean_bearer old Hoc).
Qed.

(** Any text signs in, and a gateway that refuses it does not sign out. *)
Lemma refused_key_stays_signed_in id st c :
  truthy (activeOwnerKey c) = true -> isLoggedIn (on_fleet id st c) = isLoggedIn c.
Proof. intros H. unfold on_fleet. cbv zeta. cbn [activeOwnerKey done_task set_tasks]. rewrite H, andb_false_r. done. Qed.

(** ** Instances *)

Definition portal_host : jsstring := js "mesh.inetconnector.com".
Definition signed_out : cockpit := Cockpit false [] [] false false true (js "owner_...") [] ([], []) [] (Some ∅) [] [] ∅ 0 [].
Definition no_frac_ (_ : Q) : jsstring := [].
(** The owner of a key, signed in and remembered. *)
Definition owner_store : gmap jsstring jsstring := fold_left (fun m k => <[k := js "inet-1"]> m) Portal.key_names ∅.
Definition owner_signed_in : cockpit :=
  Cockpit true (js "inet-1") [] true true false (js "inet-1") (js "inet-1") ([], []) (js "inet-1") (Some owner_store)
    [Cookie (js "cm_session") (js "inet-1") (Some portal_domain); Cookie (js "cm_fleet_session") (js "inet-1") (Some portal_domain);
     Cookie (js "cm_lang") (js "de") (Some portal_domain)] [] ∅ 0 [].

Lemma cockpit_shown_only_signed_in_witness :
  let c' := exec no_frac_ portal_host None None De [KeyLogin (js "inet-1") true; SignOut; LogoutEnds 1; FleetReply 0 401] signed_out in
  (fleet_hidden c' = false -> isLoggedIn c' = true \/ exists id, tasks c' !! id = Some Logout) /\ fleet_hidden c' = true.
Proof.
  split; [|vm_compute; reflexivity].
  apply (cockpit_shown_only_signed_in no_frac_ portal_host None None De _ signed_out).
  split; [discriminate|intros id t H; discriminate H|intros id H; discriminate H|discriminate].
Defined.

Lemma sign_out_is_complete_witness :
  let c' := doLogout portal_host owner_signed_in in
  Portal.getActiveComputeMeshApiKey (ls owner_signed_in) = js "inet-1" /\ length (jar owner_signed_in) = 3%nat /\
  Portal.getActiveComputeMeshApiKey (ls c') = [] /\ (forall ck, ck ∈ jar c' -> c_name ck ∉ session_names) /\
  Agent.resolveAuthToken (ls c') (cookie_string (jar c')) = None.
Proof.
  cbv zeta. split; [vm_compute; reflexivity|]. split; [vm_compute; reflexivity|].
  assert (O : own_cookies portal_host (jar owner_signed_in)).
  { assert (B : forallb (fun c =>
        (negb (includes (js "cm_session=") (pair_text c)) || bool_decide (c_name c ∈ session_names)) &&
        bool_decide (c_domain c = Some portal_domain)) (jar owner_signed_in) = true) by (vm_compute; reflexivity).
    rewrite forallb_forall in B. intros c Hc. apply list_elem_of_In, B in Hc.
    apply andb_true_iff in Hc as [H1 H2%bool_decide_eq_true]. split.
    - intros Hin. rewrite Hin in H1. cbn [negb orb] in H1. by apply bool_decide_eq_true in H1.
    - intros _. right. split; [done|vm_compute; reflexivity]. }
  pose proof (sign_out_is_complete no_frac_ id portal_host owner_signed_in owner_store empty_page
    ltac:(vm_compute; reflexivity) O) as (_ & _ & W1 & W2 & W3 & _).
  split_and!; [exact W2|exact W1|apply W3; vm_compute; reflexivity].
Defined.

Lemma rotation_leaves_the_agent_on_the_old_key_witness :
  let c' := on_rotated 5 (js "inet-2") owner_signed_in in
  Portal.getActiveComputeMeshApiKey (ls c') = js "inet-2" /\ Agent.resolveAuthToken (ls c') [] = Some (js "inet-1").
Proof.
  cbv zeta.
  apply (rotation_leaves_the_agent_on_the_old_key owner_signed_in owner_store 5 (js "inet-1") (js "inet-2") []);
    first [vm_compute; reflexivity|vm_compute; discriminate].
Defined.

(** The question for the session at the start, refused after the visitor signed in with a
    key, signs the visitor out of a cockpit that stays visible. *)
Example late_refusal_signs_out :
  let c := exec no_frac_ portal_host None None De [KeyLogin (js "inet-1") true; MeReply 0 None]
             (initFleet De [] (Cockpit false [] [] false false true (js "owner_...") [] ([], []) [] (Some ∅) [] [] ∅ 0 [])) in
  isLoggedIn c = false /\ fleet_hidden c = false.
Proof. vm_compute. split; reflexivity. Qed.

(** The address of the page decides where a sign-in leads, whatever the address says. *)
Example redirect_is_not_checked :
  navs (snd (onLoggedIn portal_host (Some (js "javascript:alert(1)")) None (VObj []) signed_out)) = [js "javascript:alert(1)"].
Proof. vm_compute. reflexivity. Qed.
