(* ===== verification/FleetTools.v ===== *)
(** * Tool settings of a fleet (fleet.html)

    The cockpit lets the owner of a fleet switch the tools of its agents on and off.  The
    list of switched-off tools lives in a variable, in the store of the browser (one entry
    per owner key) and at the gateway: choices are written to the store at once and sent
    to the gateway 300 ms after the last one; opening the view reads both. *)
From Stdlib Require Import Lia NArith QArith.
From stdpp Require Import base numbers list gmap strings.
From S2P Require Import Prelude JsString JsNumber JsValue JsJson JsonRoundTrip.

(** ** State *)

Definition ALL_MCP_TOOLS : list jsstring :=
  js <$> ["get_market_quote"; "get_live_news"; "get_current_weather"; "calculate_math"; "get_wikipedia_summary";
          "lookup_country_data"; "get_world_bank_stats"; "search_arxiv_papers"; "lookup_food_product";
          "lookup_software_package"; "get_recent_earthquakes"; "lookup_chemical_compound"; "lookup_word_definition";
          "lookup_train_schedule"; "convert_currency"; "get_time_and_calendar"; "get_distance_route"; "search_web";
          "fetch_web_content"; "lookup_network_host"; "deploy_local_webapp"; "list_deployed_webapps";
          "remove_deployed_webapp"]%string.

(** What the gateway is sent: the list and the owner key of body and header. *)
Record post := Post { p_disabled : list jsval; p_owner_key : jsstring }.

Inductive indicator : Type := Idle | Saving | Saved | SavedLocally.

(** [shown]: the switches of the tools, in the order of the table; [loads], [saves]: the
    requests under way. *)
Record state := State {
  activeOwnerKey : jsstring;
  currentFleetDisabledTools : list jsval;
  ls : storage;
  shown : list bool;
  activeCount : nat;
  mcpSaveTimeout : bool;
  mark : indicator;
  loads : gset nat;
  saves : gset nat;
  next_id : nat;
  posts : list post;
}.

Definition set_tools (d : list jsval) (st : storage) (s : state) : state :=
  State (activeOwnerKey s) d st (shown s) (activeCount s) (mcpSaveTimeout s) (mark s) (loads s) (saves s) (next_id s) (posts s).
Definition set_save (t : bool) (m : indicator) (s : state) : state :=
  State (activeOwnerKey s) (currentFleetDisabledTools s) (ls s) (shown s) (activeCount s) t m (loads s) (saves s) (next_id s) (posts s).

Definition is_tool (t : jsstring) (v : jsval) : bool := strict_eq v (VStr t).
Definition off (d : list jsval) (t : jsstring) : bool := existsb (is_tool t) d.

(** [updateMcpUI()] *)
Definition updateMcpUI (s : state) : state :=
  let on := (fun t => negb (off (currentFleetDisabledTools s) t)) <$> ALL_MCP_TOOLS in
  State (activeOwnerKey s) (currentFleetDisabledTools s) (ls s) on (length (List.filter id on)) (mcpSaveTimeout s) (mark s)
    (loads s) (saves s) (next_id s) (posts s).

(** [getMcpStorageKey()] *)
Definition getMcpStorageKey (s : state) : jsstring :=
  js "cm_fleet_mcp_disabled_" ++ (if truthy (activeOwnerKey s) then activeOwnerKey s else js "default").

Section Tools.
Context (show_frac : Q -> jsstring).

Definition stored (d : list jsval) (s : state) : storage :=
  insert (getMcpStorageKey s) (JSON_stringify show_frac (VArr d)) <$> ls s.

(** The first part of [loadFleetMcpSettings()]: the entry of the store, which only this
    page writes; a blocked store and a broken entry are ignored. *)
Definition read_cache (s : state) : state :=
  match ls s with
  | Some m =>
      let cached := item_or_empty (getMcpStorageKey s) m in
      if truthy cached then
        match JSON_parse cached with
        | Ret v => updateMcpUI (set_tools (array_or_nil v) (ls s) s)
        | Throw _ => s
        end
      else s
  | None => s
  end.

(** [loadFleetMcpSettings()] up to its [await]. *)
Definition loadFleetMcpSettings (s : state) : state :=
  let s1 := read_cache s in
  State (activeOwnerKey s1) (currentFleetDisabledTools s1) (ls s1) (shown s1) (activeCount s1) (mcpSaveTimeout s1) (mark s1)
    ({[next_id s1]} ∪ loads s1) (saves s1) (S (next_id s1)) (posts s1).

(** Its reply; [data]: the body of a successful one.  A blocked store leaves the switches
    as they were shown. *)
Definition on_settings (id : nat) (data : option jsval) (s : state) : state :=
  if bool_decide (id ∈ loads s) then
    let s1 := State (activeOwnerKey s) (currentFleetDisabledTools s) (ls s) (shown s) (activeCount s) (mcpSaveTimeout s) (mark s)
                (loads s ∖ {[id]}) (saves s) (next_id s) (posts s) in
    match data with
    | Some v =>
        match prop v (js "disabled_tools") with
        | VArr d =>
            match ls s1 with
            | Some _ => updateMcpUI (set_tools d (stored d s1) s1)
            | None => set_tools d (ls s1) s1
            end
        | _ => s1
        end
    | None => s1
    end
  else s.

(** [saveFleetMcpSettings()]: the new timer replaces the old one. *)
Definition saveFleetMcpSettings (s : state) : state :=
  set_save true Saving (set_tools (currentFleetDisabledTools s) (stored (currentFleetDisabledTools s) s) s).

(** The timer: what is sent is read now. *)
Definition on_save_timer (s : state) : state :=
  if mcpSaveTimeout s then
    State (activeOwnerKey s) (currentFleetDisabledTools s) (ls s) (shown s) (activeCount s) false (mark s) (loads s)
      ({[next_id s]} ∪ saves s) (S (next_id s)) (posts s ++ [Post (currentFleetDisabledTools s) (activeOwnerKey s)])
  else s.

Definition on_saved (id : nat) (ok : option bool) (s : state) : state :=
  if bool_decide (id ∈ saves s) then
    State (activeOwnerKey s) (currentFleetDisabledTools s) (ls s) (shown s) (activeCount s) (mcpSaveTimeout s)
      (match ok with Some true => Saved | Some false => mark s | None => SavedLocally end)
      (loads s) (saves s ∖ {[id]}) (next_id s) (posts s)
  else s.

(** [onMcpToolToggle(toolName, isChecked)] *)
Definition toggled (toolName : jsstring) (isChecked : bool) (d : list jsval) : list jsval :=
  if isChecked then List.filter (fun v => negb (is_tool toolName v)) d
  else if off d toolName then d else d ++ [VStr toolName].

Definition onMcpToolToggle (toolName : jsstring) (isChecked : bool) (s : state) : state :=
  saveFleetMcpSettings (updateMcpUI (set_tools (toggled toolName isChecked (currentFleetDisabledTools s)) (ls s) s)).

(** [enableAllMcpTools(enable)] *)
Definition enableAllMcpTools (enable : bool) (s : state) : state :=
  saveFleetMcpSettings (updateMcpUI (set_tools (if enable then [] else VStr <$> ALL_MCP_TOOLS) (ls s) s)).

Inductive event : Type :=
| Toggle (t : jsstring) (on : bool)
| All (on : bool)
| OpenView
| Settings (id : nat) (data : option jsval)
| SaveDue
| SaveReply (id : nat) (ok : option bool)
| SignIn (key : jsstring).

Definition step (s : state) (e : event) : state :=
  match e with
  | Toggle t on => onMcpToolToggle t on s
  | All on => enableAllMcpTools on s
  | OpenView => loadFleetMcpSettings s
  | Settings id data => on_settings id data s
  | SaveDue => on_save_timer s
  | SaveReply id ok => on_saved id ok s
  | SignIn k => State k (currentFleetDisabledTools s) (ls s) (shown s) (activeCount s) (mcpSaveTimeout s) (mark s) (loads s)
                  (saves s) (next_id s) (posts s)
  end.

Definition exec (es : list event) (s : state) : state := fold_left step es s.

End Tools.

(** ** The choices *)

Definition is_choice (e : event) : bool := match e with Toggle _ _ | All _ => true | _ => false end.

(** What the owner wants of a tool: the last choice that concerns it. *)
Definition chosen (wanted : jsstring -> bool) (e : event) : jsstring -> bool :=
  match e with
  | Toggle t on => fun u => if seqb u t then on else wanted u
  | All on => fun u => on || negb (existsb (seqb u) ALL_MCP_TOOLS)
  | _ => wanted
  end.

(** The contract of the view: what the owner wants, whether that still has to be sent, and
    what was sent. *)
Record contract := Contract { wanted : jsstring -> bool; unsent : bool; delivered : list (jsstring -> bool) }.

Definition contract_step (a : contract) (e : event) : contract :=
  match e with
  | Toggle _ _ | All _ => Contract (chosen (wanted a) e) true (delivered a)
  | SaveDue => if unsent a then Contract (wanted a) false (delivered a ++ [wanted a]) else a
  | _ => a
  end.

(** Choices, the delayed save, its replies and failed requests for the settings: what may
    happen besides a reply that brings settings, a new load of them and a change of the
    account. *)
Definition calm (e : event) : bool :=
  match e with Toggle _ _ | All _ | SaveDue | SaveReply _ _ | Settings _ None => true | _ => false end.

(** The abstract setting of a state. *)
Definition setting (s : state) (t : jsstring) : bool := negb (off (currentFleetDisabledTools s) t).

Lemma is_tool_eq t v : is_tool t v = true <-> v = VStr t.
Proof.
  unfold is_tool. destruct v as [| | |n|x| |]; try (split; [done|intros [=]]); unfold strict_eq.
  - split; [by destruct n|intros [=]].
  - rewrite seqb_eq. split; [by intros ->|by intros [=]].
Qed.

Lemma off_spec d t : off d t = true <-> VStr t ∈ d.
Proof.
  unfold off. rewrite existsb_exists. split.
  - intros (v & Hv%list_elem_of_In & E). apply is_tool_eq in E. by subst.
  - intros H. exists (VStr t). split; [by apply list_elem_of_In|by apply is_tool_eq].
Qed.

Lemma off_toggled t on d u : off (toggled t on d) u = if seqb u t then negb on else off d u.
Proof.
  apply eq_bool_prop_intro. rewrite !Is_true_true. unfold toggled. destruct on, (seqb u t) eqn:E.
  - apply seqb_eq in E as ->. split; [|done]. rewrite off_spec, list_elem_of_In, filter_In. intros [_ H].
    apply negb_true_iff in H. assert (is_tool t (VStr t) = true) by (by apply is_tool_eq). congruence.
  - rewrite !off_spec, !list_elem_of_In, filter_In. split; [by intros [? _]|]. intros H. split; [done|].
    apply negb_true_iff. destruct (is_tool t (VStr u)) eqn:Et; [|done]. apply is_tool_eq in Et as [= ->]. by rewrite seqb_refl in E.
  - apply seqb_eq in E as ->. split; [done|]. intros _. destruct (off d t) eqn:O; [done|]. apply off_spec. set_solver.
  - destruct (off d t) eqn:O; [done|]. rewrite !off_spec, elem_of_app, list_elem_of_singleton. split; [|by left].
    intros [H|[= ->]]; [done|]. by rewrite seqb_refl in E.
Qed.

Lemma off_all u : off (VStr <$> ALL_MCP_TOOLS) u = existsb (seqb u) ALL_MCP_TOOLS.
Proof.
  apply eq_bool_prop_intro. rewrite !Is_true_true, off_spec, existsb_exists, list_elem_of_fmap. split.
  - intros (x & [= ->] & Hx). exists x. split; [by apply list_elem_of_In|apply seqb_refl].
  - intros (x & Hx%list_elem_of_In & E). apply seqb_eq in E as ->. by exists x.
Qed.

Section Facts.
Context (sf : Q -> jsstring).

(** The switches show the list. *)
Definition faithful (s : state) : Prop :=
  shown s = setting s <$> ALL_MCP_TOOLS /\ activeCount s = length (List.filter (setting s) ALL_MCP_TOOLS).

Lemma filter_map {A} (f : A -> bool) (l : list A) : length (List.filter id (f <$> l)) = length (List.filter f l).
Proof.
  induction l as [|x l IH]; [done|]. rewrite fmap_cons. cbn [List.filter]. change (id (f x)) with (f x).
  destruct (f x); cbn [length]; by rewrite IH.
Qed.

Lemma faithful_ui s : faithful (updateMcpUI s).
Proof. split; [done|]. apply filter_map. Qed.

Lemma faithful_same s s' : currentFleetDisabledTools s' = currentFleetDisabledTools s -> shown s' = shown s ->
  activeCount s' = activeCount s -> faithful s -> faithful s'.
Proof. unfold faithful, setting. intros E1 E2 E3. by rewrite E1, E2, E3. Qed.

Lemma faithful_save s : faithful s -> faithful (saveFleetMcpSettings sf s).
Proof. by apply faithful_same. Qed.

Lemma faithful_step s e : ls s <> None -> faithful s -> faithful (step sf s e) /\ ls (step sf s e) <> None.
Proof.
  intros Hs H. destruct (ls s) as [m|] eqn:El; [|done]. destruct e as [t on|on| |id data| |id ok|k]; cbn [step].
  - split; [apply faithful_save, faithful_ui|]. cbn. by rewrite El.
  - split; [apply faithful_save, faithful_ui|]. cbn. by rewrite El.
  - assert (R : faithful (read_cache s) /\ ls (read_cache s) <> None).
    { unfold read_cache. rewrite El. cbv zeta. destruct (truthy _); [|by rewrite El].
      destruct (JSON_parse _); [|by rewrite El]. split; [apply faithful_ui|by cbn]. }
    destruct R as [R1 R2]. split; [by apply (faithful_same (read_cache s))|done].
  - unfold on_settings. destruct (bool_decide _); [|by rewrite El]. cbv zeta.
    set (s1 := State _ _ _ _ _ _ _ _ _ _ _). assert (P1 : faithful s1 /\ ls s1 <> None) by (split; [by apply (faithful_same s)|cbn; by rewrite El]).
    destruct data as [v|]; [|done]. destruct (prop v _); try done.
    assert (E1 : ls s1 = Some m) by exact El. rewrite E1. split; [apply faithful_ui|].
    change (stored sf l s1 <> None). unfold stored. by rewrite E1.
  - unfold on_save_timer. destruct (mcpSaveTimeout s); [|by rewrite El]. split; [by apply (faithful_same s)|cbn; by rewrite El].
  - unfold on_saved. destruct (bool_decide _); [|by rewrite El]. split; [by apply (faithful_same s)|cbn; by rewrite El].
  - split; [by apply (faithful_same s)|cbn; by rewrite El].
Qed.

(** One choice changes the setting as the owner wants it. *)
Lemma choice_setting s e t : is_choice e = true -> setting (step sf s e) t = chosen (setting s) e t.
Proof.
  destruct e as [u on|on| | | | |]; try done; intros _; cbn [step chosen]; unfold setting.
  - change (currentFleetDisabledTools (onMcpToolToggle sf u on s)) with (toggled u on (currentFleetDisabledTools s)).
    rewrite off_toggled. destruct (seqb t u); [by rewrite negb_involutive|done].
  - change (currentFleetDisabledTools (enableAllMcpTools sf on s)) with (if on then [] else VStr <$> ALL_MCP_TOOLS).
    destruct on; [done|]. by rewrite off_all.
Qed.

(** A request switches off what the owner wants off, for the owner [k]. *)
Definition sends (k : jsstring) (p : post) (w : jsstring -> bool) : Prop :=
  exists d, p = Post d k /\ forall t, off d t = negb (w t).

(** The state [s], whose first requests were [ps0], implements the contract [a]. *)
Record implements (k : jsstring) (ps0 : list post) (s : state) (a : contract) : Prop := Implements {
  impl_owner : activeOwnerKey s = k;
  impl_setting : forall t, setting s t = wanted a t;
  impl_timer : mcpSaveTimeout s = unsent a;
  impl_posts : exists ps, posts s = ps0 ++ ps /\ Forall2 (sends k) ps (delivered a);
}.

Lemma choice_frame s e : is_choice e = true ->
  posts (step sf s e) = posts s /\ mcpSaveTimeout (step sf s e) = true /\ activeOwnerKey (step sf s e) = activeOwnerKey s.
Proof. by destruct e. Qed.

Lemma implements_choice k ps0 s a e : is_choice e = true -> implements k ps0 s a ->
  implements k ps0 (step sf s e) (Contract (chosen (wanted a) e) true (delivered a)).
Proof.
  intros He [H1 H2 H3 H4]. destruct (choice_frame s e He) as (P & T & K). split; cbn [wanted unsent delivered].
  - by rewrite K.
  - intros t. rewrite choice_setting by done. destruct e; try done; cbn [chosen]; by rewrite ?H2.
  - done.
  - by rewrite P.
Qed.

Lemma implements_same k ps0 s s' a : activeOwnerKey s' = activeOwnerKey s ->
  currentFleetDisabledTools s' = currentFleetDisabledTools s -> mcpSaveTimeout s' = mcpSaveTimeout s -> posts s' = posts s ->
  implements k ps0 s a -> implements k ps0 s' a.
Proof. intros E1 E2 E3 E4 [H1 H2 H3 H4]. unfold setting in *. split; unfold setting; rewrite ?E1, ?E2, ?E3, ?E4; done. Qed.

Lemma implements_step k ps0 s a e : calm e = true -> implements k ps0 s a ->
  implements k ps0 (step sf s e) (contract_step a e).
Proof.
  intros He H. destruct e as [t on|on| |id [v|]| |id ok|k']; try done; cbn [contract_step].
  - by apply implements_choice.
  - by apply implements_choice.
  - cbn [step]. unfold on_settings. destruct (bool_decide _); [|done]. by apply (implements_same k ps0 s).
  - cbn [step]. unfold on_save_timer. destruct H as [H1 H2 H3 (ps & H4 & H5)]. rewrite H3.
    destruct (unsent a) eqn:Eu; [|split; [done..|congruence|by exists ps]].
    split; cbn; [done|done|done|]. exists (ps ++ [Post (currentFleetDisabledTools s) (activeOwnerKey s)]).
    rewrite H4, app_assoc. split; [done|]. apply Forall2_app; [done|]. constructor; [|constructor].
    eexists. rewrite H1. split; [done|]. intros t. rewrite <- (H2 t). unfold setting. by rewrite negb_involutive.
  - cbn [step]. unfold on_saved. destruct (bool_decide _); [|done]. by apply (implements_same k ps0 s).
Qed.

End Facts.

(** ** Claims *)

(** C15: The view of the tools refines its contract: from a state in which no save is
    waiting, and as long as no reply brings settings of
    the gateway, the settings are not loaded again and the account does not change, then in
    every order of choices (one tool or all at once), of the delayed save falling due, of
    its replies and of failed requests, the page holds what the owner wants, and it has sent,
    for this owner, one request for each time the save fell due after a choice, each
    switching off exactly the tools the owner wanted off at that time. A reply that brings
    settings may undo a choice (late_reply_undoes_the_choice), and a change of the account
    sends it for the next one (choice_is_sent_for_the_next_account). *)
Theorem settings_refine_the_choices sf es s :
  forallb calm es = true -> mcpSaveTimeout s = false ->
  let s' := exec sf es s in
  let a := fold_left contract_step es (Contract (setting s) false []) in
  (forall t, setting s' t = wanted a t) /\ mcpSaveTimeout s' = unsent a /\
  exists ps, posts s' = posts s ++ ps /\ Forall2 (sends (activeOwnerKey s)) ps (delivered a).
Proof.
  intros He Ht. cbv zeta.
  assert (I : implements (activeOwnerKey s) (posts s) (exec sf es s) (fold_left contract_step es (Contract (setting s) false []))).
  { assert (I0 : implements (activeOwnerKey s) (posts s) s (Contract (setting s) false []))
      by (split; [done..|exists []; split; [by rewrite app_nil_r|constructor]]).
    revert I0 He. unfold exec. generalize (activeOwnerKey s) (posts s) (Contract (setting s) false []). clear Ht. revert s.
    induction es as [|e es IH]; intros s k ps a I He; [done|]. cbn [forallb fold_left] in *.
    apply andb_true_iff in He as [He1 He2]. apply IH; [|done]. by apply implements_step. }
  destruct I as [_ I1 I2 I3]. done.
Qed.

(** While the store works, the switches and the number of active tools always show the
    list of the page. *)
Theorem switches_show_the_list sf es s :
  ls s <> None -> faithful s -> faithful (exec sf es s).
Proof.
  intros Hs Hf. assert (G : faithful (exec sf es s) /\ ls (exec sf es s) <> None); [|apply G].
  apply (fold_invariant (step sf) (fun s => faithful s /\ ls s <> None) (fun _ => True)); [|by apply Forall_true|done].
  intros x e _ [H1 H2]. by apply faithful_step.
Qed.

(** What was saved is there again after the page was loaded anew: the list of the same
    owner is read back from the store before the gateway answers. *)
Theorem settings_survive_a_reload sf s fresh m :
  ls s = Some m -> Forall json_normal (currentFleetDisabledTools s) ->
  activeOwnerKey fresh = activeOwnerKey s -> ls fresh = ls (saveFleetMcpSettings sf s) ->
  currentFleetDisabledTools (loadFleetMcpSettings fresh) = currentFleetDisabledTools s.
Proof.
  intros Hm Hn Hk Hl. unfold loadFleetMcpSettings. cbv zeta. cbn [currentFleetDisabledTools]. unfold read_cache.
  rewrite Hl. cbn [saveFleetMcpSettings set_save set_tools ls]. unfold stored. rewrite Hm. cbn [fmap option_fmap option_map].
  assert (K : getMcpStorageKey fresh = getMcpStorageKey s) by (unfold getMcpStorageKey; by rewrite Hk).
  cbv zeta. unfold item_or_empty. rewrite K, lookup_insert_eq. cbn [default from_option]. unfold id.
  assert (T : truthy (JSON_stringify sf (VArr (currentFleetDisabledTools s))) = true).
  { by destruct (currentFleetDisabledTools s). }
  rewrite T, json_round_trip by (by constructor). done.
Qed.

(** ** Instances *)

Definition new_page (key : jsstring) (st : storage) : state :=
  State key [] st ((fun _ => true) <$> ALL_MCP_TOOLS) (length ALL_MCP_TOOLS) false Idle ∅ ∅ 0 [].
Definition plain_frac (_ : Q) : jsstring := [].

(** Two saves, with a reply in between. *)
Definition choice_run : list event :=
  [Toggle (js "search_web") false; All true; Toggle (js "convert_currency") false; SaveDue; SaveReply 0 (Some true);
   Toggle (js "convert_currency") true; Toggle (js "calculate_math") false; SaveDue; SaveDue].

Lemma settings_refine_the_choices_witness :
  exists d1 d2, posts (exec plain_frac choice_run (new_page (js "inet-1") (Some ∅))) = [Post d1 (js "inet-1"); Post d2 (js "inet-1")] /\
    off d1 (js "convert_currency") = true /\ off d1 (js "search_web") = false /\
    off d2 (js "convert_currency") = false /\ off d2 (js "calculate_math") = true.
Proof.
  destruct (settings_refine_the_choices plain_frac choice_run (new_page (js "inet-1") (Some ∅)) ltac:(vm_compute; reflexivity) ltac:(vm_compute; reflexivity))
    as (_ & _ & ps & -> & O).
  inv O as [|p1 w1 ? ? (d1 & -> & O1) O2]. inv O2 as [|p2 w2 ? ? (d2 & -> & O3) O4]. inv O4.
  exists d1, d2. split; [reflexivity|]. rewrite !O1, !O3. vm_compute. repeat split; reflexivity.
Defined.

Lemma switches_show_the_list_witness :
  faithful (exec plain_frac [All false; Toggle (js "search_web") true] (new_page [] (Some ∅))).
Proof.
  apply (switches_show_the_list plain_frac); [discriminate|]. split; vm_compute; reflexivity.
Defined.

Lemma settings_survive_a_reload_witness :
  currentFleetDisabledTools (loadFleetMcpSettings (new_page (js "inet-1")
    (ls (saveFleetMcpSettings plain_frac (set_tools [VStr (js "search_web")] (Some ∅) (new_page (js "inet-1") (Some ∅)))))))
  = [VStr (js "search_web")].
Proof.
  apply (settings_survive_a_reload plain_frac (set_tools [VStr (js "search_web")] (Some ∅) (new_page (js "inet-1") (Some ∅)))
    (new_page (js "inet-1") _) ∅); [reflexivity| |reflexivity|reflexivity].
  apply Forall_singleton, normal_str, code_units_lit. vm_compute. reflexivity.
Defined.

(** A reply that was asked for before a choice takes the choice back, and the timer sends
    the old list. *)
Example late_reply_undoes_the_choice :
  let s := exec plain_frac [OpenView; Toggle (js "search_web") false;
             Settings 0 (Some (VObj [(js "disabled_tools", VArr [])])); SaveDue] (new_page (js "inet-1") (Some ∅)) in
  posts s = [Post [] (js "inet-1")].
Proof. vm_compute. reflexivity. Qed.

(** A choice that is followed by a change of the account within the delay is sent for the
    other account. *)
Example choice_is_sent_for_the_next_account :
  let s := exec plain_frac [Toggle (js "search_web") false; SignIn (js "inet-2"); SaveDue] (new_page (js "inet-1") (Some ∅)) in
  posts s = [Post [VStr (js "search_web")] (js "inet-2")].
Proof. vm_compute. reflexivity. Qed.
