(* ===== verification/AgentPage.v ===== *)
(** * The agent page (agent.html)

    Projects, sessions and the event stream of the page: its variables and the parts of the
    document they drive as one state, every function cut at its [await]s into a request and
    the handler of its reply, and events in any order.  Requests that cannot be built or
    sent (a lone surrogate in an address, a blocked store, a broken session cookie) run the
    [catch] block at once.  Texts the gateway sends are strings or absent; the model list,
    the node list and the service box are not part of the state. *)
From Stdlib Require Import Lia NArith ZArith QArith.
From stdpp Require Import base numbers list gmap strings.
From S2P Require Import Prelude JsString JsNumber JsValue Auth.

#[local] Open Scope js_scope.

(** ** Data *)

Record workspace := Workspace {
  ws_id : option jsstring;
  ws_name : option jsstring;
  ws_path : option jsstring;
  ws_node : option jsstring;
}.

Record session := Session { ss_id : jsstring; ss_title : option jsstring; ss_archived : bool }.

(** [a || b] for texts that may be absent. *)
Definition or_text (a b : option jsstring) : option jsstring :=
  match a with Some s => if truthy s then a else b | None => b end.

Definition same_text (a b : option jsstring) : bool := bool_decide (a = b).

(** [ws.name || ws.id] and [ws.name || ws.path] *)
Definition shown_name (w : workspace) : option jsstring := or_text (ws_name w) (ws_id w).
Definition api_name (w : workspace) : option jsstring := or_text (ws_name w) (ws_path w).

(** [a.id === b.id || a.path === b.path] *)
Definition same_workspace (a b : workspace) : bool :=
  same_text (ws_id a) (ws_id b) || same_text (ws_path a) (ws_path b).

(** What one event of a session shows. *)
Inductive row : Type :=
| UserRow (text : jsstring)
| ToolRow (elapsed tool : jsstring) (args : jsval)
| AgentRow (text : jsstring) (files : list (jsstring * jsstring * jsstring)).

(** The project tree: a notice, or the rows with their active mark. *)
Inductive tree : Type := NoProjects | NoMatch | Rows (rows : list (bool * workspace)).

(** ** Requests *)

Inductive call : Type :=
| GetFleet
| GetPortalFleet
| GetSessions (filter : jsstring)
| GetEvents (session after : jsstring)
| CreateSession (model input title : jsstring) (ws : option jsstring) (policy : jsstring)
| Turn (session input : jsstring)
| Metadata (session title : jsstring)
| ControlArchive (session : jsstring)
| DeleteSession (session : jsstring)
| RegisterWorkspace (path : jsstring) (name node : option jsstring)
| Unregister (id : jsstring)
| DeletePhysically (id confirm_name : jsstring).

(** The address; [None] when [encodeURIComponent] throws. *)
Definition url_of (c : call) : option jsstring :=
  match c with
  | GetFleet | RegisterWorkspace _ _ _ => Some (js "/api/v1/fleet/workspaces")
  | GetPortalFleet => Some (js "/api/portal/fleet")
  | GetSessions f =>
      if truthy f then app (js "/v1/agents/sessions?limit=50&workspace=") <$> encodeURIComponent f
      else Some (js "/v1/agents/sessions?limit=50")
  | GetEvents s a =>
      Some (js "/v1/agents/sessions/" ++ s ++ js "/events?after_sequence=" ++ a ++ js "&limit=50&wait_seconds=0")
  | CreateSession _ _ _ _ _ => Some (js "/v1/agents/sessions")
  | Turn s _ => Some (js "/v1/agents/sessions/" ++ s ++ js "/turns")
  | Metadata s _ => Some (js "/v1/agents/sessions/" ++ s ++ js "/metadata")
  | ControlArchive s => Some (js "/v1/agents/sessions/" ++ s ++ js "/control")
  | DeleteSession s => Some (js "/v1/agents/sessions/" ++ s)
  | Unregister i => app (js "/v1/fleet/workspaces/") <$> encodeURIComponent i
  | DeletePhysically i n =>
      match encodeURIComponent i, encodeURIComponent n with
      | Some a, Some b => Some (js "/v1/fleet/workspaces/" ++ a ++ js "?delete_physical=true&confirm_name=" ++ b)
      | _, _ => None
      end
  end.

(** What a request under way will do with its reply; [Sessions (Some s)]: a prompt that
    created the session [s] waits for the list. *)
Inductive task : Type :=
| Fleet
| PortalFleet
| Sessions (then_select : option jsstring)
| Poll
| Create (ws : option jsstring)
| SendTurn
| Rename
| Leave
| Registering
| Unregistering (id : jsstring) (w : workspace)
| Deleting (w : workspace).

Record request := Request { r_call : call; r_bearer : option jsstring }.

(** ** State *)

Record chat := Chat {
  activeSessionId : option jsstring;
  session_title : jsstring;
  stream : list row;
  eventCursor : jsval;
  pollTimer : bool;
}.

Record projects := Projects {
  authenticWorkspaces : list workspace;
  activeWorkspace : option workspace;
  projectFilterQuery : jsstring;
  activeNodeId : jsstring;
  project_tree : tree;
}.

(** [currentWorkspaceActionId] and the dialog of the physical deletion. *)
Record deletion := Deletion {
  actionId : option jsstring;
  dialog_open : bool;
  target_name : jsstring;
  target_path : jsstring;
  confirm_input : jsstring;
}.

Record page := Page {
  chat_of : chat;
  projects_of : projects;
  deletion_of : deletion;
  allSessions : list session;
  composer : jsstring;
  currentModel : jsstring;
  currentPolicy : jsstring;
  alerts : list jsstring;
  inflight : gmap nat task;
  next_id : nat;
  requests : list request;
}.

Definition set_chat (c : chat) (p : page) : page :=
  Page c (projects_of p) (deletion_of p) (allSessions p) (composer p) (currentModel p) (currentPolicy p) (alerts p)
    (inflight p) (next_id p) (requests p).
Definition set_projects (x : projects) (p : page) : page :=
  Page (chat_of p) x (deletion_of p) (allSessions p) (composer p) (currentModel p) (currentPolicy p) (alerts p)
    (inflight p) (next_id p) (requests p).
Definition set_deletion (x : deletion) (p : page) : page :=
  Page (chat_of p) (projects_of p) x (allSessions p) (composer p) (currentModel p) (currentPolicy p) (alerts p)
    (inflight p) (next_id p) (requests p).
Definition set_sessions (l : list session) (p : page) : page :=
  Page (chat_of p) (projects_of p) (deletion_of p) l (composer p) (currentModel p) (currentPolicy p) (alerts p)
    (inflight p) (next_id p) (requests p).
Definition set_composer (t : jsstring) (p : page) : page :=
  Page (chat_of p) (projects_of p) (deletion_of p) (allSessions p) t (currentModel p) (currentPolicy p) (alerts p)
    (inflight p) (next_id p) (requests p).
Definition alert (t : jsstring) (p : page) : page :=
  Page (chat_of p) (projects_of p) (deletion_of p) (allSessions p) (composer p) (currentModel p) (currentPolicy p)
    (alerts p ++ [t]) (inflight p) (next_id p) (requests p).
Definition set_tasks (f : gmap nat task) (n : nat) (r : list request) (p : page) : page :=
  Page (chat_of p) (projects_of p) (deletion_of p) (allSessions p) (composer p) (currentModel p) (currentPolicy p)
    (alerts p) f n r.
Definition done_with (id : nat) (p : page) : page := set_tasks (delete id (inflight p)) (next_id p) (requests p) p.

(** [setPolicy] and [setModel] *)
Definition set_choice (model policy : jsstring) (p : page) : page :=
  Page (chat_of p) (projects_of p) (deletion_of p) (allSessions p) (composer p) model policy (alerts p)
    (inflight p) (next_id p) (requests p).

Section Page.
Context (show_frac : Q -> jsstring).
(** [localStorage] and [document.cookie], which the page only reads. *)
Context (ls : storage) (cookies : jsstring).
(** The message of the exception when a request cannot be built or sent. *)
Context (unsent : jsstring).

(** The token of [fetchWithAuth]: [None] when it throws, [Some None] without a token. *)
Definition auth_token : option (option jsstring) :=
  match ls with
  | None => None
  | Some m =>
      let stored := first_item Agent.token_names m in
      let header t := if truthy t && truthy (trim t) then Some (trim t) else None in
      if truthy stored then Some (header stored)
      else match Agent.match_session cookies with
           | Some v => header <$> decodeURIComponent v
           | None => Some None
           end
  end.

(** [await fetchWithAuth(...)] for task [t]; [fail]: the [catch] block. *)
Definition fetch_or (c : call) (t : task) (fail : page -> page) (p : page) : page :=
  match url_of c, auth_token with
  | Some _, Some tok => set_tasks (<[next_id p := t]> (inflight p)) (S (next_id p)) (requests p ++ [Request c tok]) p
  | _, _ => fail p
  end.

(** ** The event stream *)

Definition mem (v : jsval) (k : string) : jsval := prop v (js k).

(** The number in [payload.elapsed_seconds.toFixed(1)]; a truthy value of another type has
    no [toFixed]. *)
Definition elapsed_text (v : jsval) : outcome jsstring jsstring :=
  if vtruthy v then
    match v with
    | VNum (Fin q) => Ret (toFixed 1 q ++ js "s lang gearbeitet")
    | VNum _ => Ret (to_str show_frac v ++ js "s lang gearbeitet")
    | _ => Throw (js "payload.elapsed_seconds.toFixed is not a function")
    end
  else Ret (js "gearbeitet").

(** A row of the card of edited files; [f.path] of [null] throws. *)
Definition file_row (f : jsval) : outcome jsstring (jsstring * jsstring * jsstring) :=
  let text v := if vtruthy v then to_str show_frac v else [] in
  let count v := to_str show_frac (vor v (VNum (num_Z 0))) in
  let* path := get f (js "path") in
  Ret (text (vor path (mem f "file")), count (mem f "additions"), count (mem f "deletions")).

(** [payload.files_edited.map(...)] *)
Fixpoint file_rows (l : list jsval) : outcome jsstring (list (jsstring * jsstring * jsstring)) :=
  match l with
  | [] => Ret []
  | f :: r => let* x := file_row f in let* xs := file_rows r in Ret (x :: xs)
  end.

(** [createMessageElement(ev)]: a row, nothing for other types, or an exception. *)
Definition createMessageElement (ev : jsval) : outcome jsstring (option row) :=
  let* t := get ev (js "event_type") in
  let* pl := get ev (js "payload") in
  let among ks := existsb (fun k => strict_eq t (VStr (js k))) ks in
  let str v := if vtruthy v then to_str show_frac v else [] in
  if among ["turn.created"; "turn_start"]%string then
    Ret (Some (UserRow (str (vor (mem pl "prompt") (vor (mem pl "message") (vor (mem pl "text") (VStr (js "Aufgabe übergeben"))))))))
  else if among ["tool.execution"; "tool.called"; "tool_call"]%string then
    let* e := elapsed_text (mem pl "elapsed_seconds") in
    Ret (Some (ToolRow e (str (vor (mem pl "tool_name") (vor (mem pl "name") (VStr (js "Werkzeug ausgeführt")))))
                 (vor (mem pl "arguments") (vor (mem pl "args") (VObj [])))))
  else if among ["turn.completed"; "agent_response"; "assistant.message"]%string then
    let* files := file_rows (array_or_nil (mem pl "files_edited")) in
    Ret (Some (AgentRow (str (vor (mem pl "text") (vor (mem pl "response") (mem pl "content")))) files))
  else Ret None.

(** [appendEventsToStream(events)]: what was appended and whether the loop ended early. *)
Fixpoint append_rows (evs : list jsval) : list row * bool :=
  match evs with
  | [] => ([], false)
  | ev :: r =>
      match createMessageElement ev with
      | Throw _ => ([], true)
      | Ret o => let '(rows, threw) := append_rows r in (option_list o ++ rows, threw)
      end
  end.

(** [clearTimeout(pollTimer); pollTimer = setTimeout(pollEvents, 2500)] *)
Definition arm_timer (p : page) : page :=
  let c := chat_of p in
  set_chat (Chat (activeSessionId c) (session_title c) (stream c) (eventCursor c) true) p.

(** [pollEvents()] up to its [await]. *)
Definition pollEvents (p : page) : page :=
  match activeSessionId (chat_of p) with
  | Some s =>
      if truthy s then fetch_or (GetEvents s (to_str show_frac (eventCursor (chat_of p)))) Poll arm_timer p else p
  | None => p
  end.

(** Its reply: [Some data] for a status of success with a readable body. *)
Definition on_poll (id : nat) (reply : option jsval) (p : page) : page :=
  let p1 := done_with id p in
  let c := chat_of p1 in
  arm_timer
    match reply with
    | Some data =>
        match mem data "events" with
        | VArr ((_ :: _) as evs) =>
            let '(rows, threw) := append_rows evs in
            set_chat (Chat (activeSessionId c) (session_title c) (stream c ++ rows)
                        (if threw then eventCursor c else vor (mem data "next_sequence") (eventCursor c)) (pollTimer c)) p1
        | _ => p1
        end
    | None => p1
    end.

(** The timer fires. *)
Definition on_timer (p : page) : page :=
  let c := chat_of p in
  if pollTimer c then
    pollEvents (set_chat (Chat (activeSessionId c) (session_title c) (stream c) (eventCursor c) false) p)
  else p.

(** [selectSession(sessionId)] *)
Definition selectSession (s : jsstring) (p : page) : page :=
  let title := match List.find (fun x => seqb (ss_id x) s) (allSessions p) with
               | Some x => default [] (or_text (ss_title x) (Some (ss_id x)))
               | None => session_title (chat_of p)
               end in
  pollEvents (set_chat (Chat (Some s) title [] (VNum (num_Z 0)) (pollTimer (chat_of p))) p).

(** [loadSessions(wsFilter)]; [k]: the session a new prompt selects afterwards. *)
Definition resume (k : option jsstring) (p : page) : page :=
  match k with Some s => selectSession s p | None => p end.
Definition loadSessions (f : option jsstring) (k : option jsstring) (p : page) : page :=
  fetch_or (GetSessions (default [] f)) (Sessions k) (resume k) p.
Definition on_sessions (id : nat) (k : option jsstring) (reply : option (list session)) (p : page) : page :=
  let p1 := done_with id p in
  resume k (match reply with Some l => set_sessions l p1 | None => p1 end).

(** [startNewChat()]: the timer and the requests under way stay. *)
Definition startNewChat (p : page) : page :=
  set_composer [] (set_chat (Chat None (js "Neuer Chat") [] (eventCursor (chat_of p)) (pollTimer (chat_of p))) p).

(** ** Projects *)

(** [(w.name || w.id || w.path || '').toLowerCase().includes(projectFilterQuery)] *)
Definition matches (q : jsstring) (w : workspace) : bool :=
  includes q (lower (default [] (or_text (ws_name w) (or_text (ws_id w) (ws_path w))))).

Definition set_tree (t : tree) (a : option workspace) (x : projects) : projects :=
  Projects (authenticWorkspaces x) a (projectFilterQuery x) (activeNodeId x) t.

(** [renderWorkspaces()] *)
Definition renderWorkspaces (p : page) : page :=
  let x := projects_of p in
  match authenticWorkspaces x with
  | [] => set_projects (set_tree NoProjects (activeWorkspace x) x) p
  | first :: _ =>
      let l := if truthy (projectFilterQuery x) then List.filter (matches (projectFilterQuery x)) (authenticWorkspaces x)
               else authenticWorkspaces x in
      match l with
      | [] => set_projects (set_tree NoMatch (activeWorkspace x) x) p
      | _ :: _ =>
          let a := match activeWorkspace x with
                   | Some w => if existsb (fun v => same_workspace v w) (authenticWorkspaces x) then w else first
                   | None => first
                   end in
          loadSessions (api_name a) None
            (set_projects (set_tree (Rows ((fun w => (same_workspace w a, w)) <$> l)) (Some a) x) p)
      end
  end.

Definition set_workspaces (l : list workspace) (a : option workspace) (x : projects) : projects :=
  Projects l a (projectFilterQuery x) (activeNodeId x) (project_tree x).

(** [filterWorkspaces(query)] *)
Definition filterWorkspaces (query : jsstring) (p : page) : page :=
  let x := projects_of p in
  renderWorkspaces (set_projects (Projects (authenticWorkspaces x) (activeWorkspace x) (trim (lower query)) (activeNodeId x) (project_tree x)) p).

(** [selectWorkspace(wsIdOrPath)] *)
Definition selectWorkspace (arg : jsstring) (p : page) : page :=
  let x := projects_of p in
  match List.find (fun w => same_text (ws_id w) (Some arg) || same_text (ws_path w) (Some arg)) (authenticWorkspaces x) with
  | Some w => renderWorkspaces (set_projects (set_workspaces (authenticWorkspaces x) (Some w) x) p)
  | None => p
  end.

(** [loadFleetAndWorkspaces()], its reply and that of the fallback. *)
Definition loadFleetAndWorkspaces (p : page) : page := fetch_or GetFleet Fleet id p.

Definition on_fleet (id : nat) (ok : bool) (l : list workspace) (node : jsstring) (p : page) : page :=
  let p1 := done_with id p in
  if ok then
    let x := projects_of p1 in
    renderWorkspaces (set_projects (Projects l (activeWorkspace x) (projectFilterQuery x) node (project_tree x)) p1)
  else fetch_or GetPortalFleet PortalFleet Datatypes.id p1.

(** The nodes with their workspaces; [{...w, node_id: n.node_id}]. *)
Definition on_portal_fleet (id : nat) (ok : bool) (nodes : list (option jsstring * list workspace)) (p : page) : page :=
  let p1 := done_with id p in
  if ok then
    let l := nodes ≫= fun n => (fun w => Workspace (ws_id w) (ws_name w) (ws_path w) n.1) <$> n.2 in
    renderWorkspaces (set_projects (set_workspaces l (activeWorkspace (projects_of p1)) (projects_of p1)) p1)
  else p1.

Definition by_id (i : jsstring) (l : list workspace) : option workspace :=
  List.find (fun w => same_text (ws_id w) (Some i)) l.

(** [w.id === id] for an identifier or [null]; an absent identifier is not [null]. *)
Definition has_id (i : option jsstring) (w : workspace) : bool :=
  match i with Some t => same_text (ws_id w) (Some t) | None => false end.

(** [w => w.id !== id] *)
Definition without_id (i : option jsstring) (l : list workspace) : list workspace :=
  List.filter (fun w => negb (has_id i w)) l.

(** Removing a workspace after a reply: the list, and the active workspace when it is the
    removed one. *)
Definition remove_workspace (i : option jsstring) (p : page) : page :=
  let x := projects_of p in
  let l := without_id i (authenticWorkspaces x) in
  let a := match activeWorkspace x with
           | Some w => if has_id i w then head l else Some w
           | None => None
           end in
  renderWorkspaces (set_projects (set_workspaces l a x) p).

Definition quoted (w : workspace) : jsstring := js "'" ++ default (js "undefined") (shown_name w) ++ js "'".

(** [confirmUnregisterWorkspace(wsId)]; [yes]: the answer of the dialog. *)
Definition unregister_failed (m : jsstring) (p : page) : page := alert (js "Netzwerkfehler: " ++ m) p.
Definition confirmUnregisterWorkspace (i : jsstring) (yes : bool) (p : page) : page :=
  match by_id i (authenticWorkspaces (projects_of p)) with
  | Some w => if yes then fetch_or (Unregister i) (Unregistering i w) (unregister_failed unsent) p else p
  | None => p
  end.

(** [err.detail || err.error || 'Serverfehler'] is the argument of the failed replies. *)
Definition on_unregistered (id : nat) (i : jsstring) (w : workspace) (ok : bool) (err : jsstring) (p : page) : page :=
  let p1 := done_with id p in
  if ok then
    alert (js "Workspace " ++ quoted w ++ js " wurde erfolgreich aus der Liste entfernt.") (remove_workspace (Some i) p1)
  else alert (js "Fehler beim Entfernen: " ++ err) p1.

(** [openPhysicalDeleteModal(wsId)] and [closePhysicalDeleteModal()] *)
Definition openPhysicalDeleteModal (i : jsstring) (p : page) : page :=
  match by_id i (authenticWorkspaces (projects_of p)) with
  | Some w => set_deletion (Deletion (Some i) true (default [] (shown_name w)) (default [] (ws_path w)) []) p
  | None => p
  end.
Definition closePhysicalDeleteModal (p : page) : page :=
  let x := deletion_of p in
  set_deletion (Deletion None false (target_name x) (target_path x) (confirm_input x)) p.
Definition type_confirmation (t : jsstring) (p : page) : page :=
  let x := deletion_of p in
  set_deletion (Deletion (actionId x) (dialog_open x) (target_name x) (target_path x) t) p.

(** [openWorkspaceOptions(wsId)] with what the prompt returned and, for the second choice,
    the answer of the confirmation; the first choice only shows details. *)
Definition openWorkspaceOptions (i : jsstring) (choice : jsstring) (yes : bool) (p : page) : page :=
  match by_id i (authenticWorkspaces (projects_of p)) with
  | Some _ =>
      let x := deletion_of p in
      let p1 := set_deletion (Deletion (Some i) (dialog_open x) (target_name x) (target_path x) (confirm_input x)) p in
      if seqb choice (js "2") then confirmUnregisterWorkspace i yes p1
      else if seqb choice (js "3") then openPhysicalDeleteModal i p1
      else p1
  | None => p
  end.

(** [submitPhysicalDeleteWorkspace()] up to its [await]. *)
Definition delete_failed (m : jsstring) (p : page) : page := alert (js "Netzwerkfehler beim Löschen: " ++ m) p.
Definition submitPhysicalDeleteWorkspace (p : page) : page :=
  match actionId (deletion_of p) with
  | Some i =>
      if truthy i then
        match by_id i (authenticWorkspaces (projects_of p)) with
        | Some w =>
            let inputName := trim (confirm_input (deletion_of p)) in
            if same_text (Some inputName) (shown_name w) then
              fetch_or (DeletePhysically i inputName) (Deleting w) (delete_failed unsent) p
            else alert (js "Der eingegebene Name ('" ++ inputName ++ js "') stimmt nicht exakt mit " ++ quoted w ++ js " überein! Abbruch.") p
        | None => p
        end
      else p
  | None => p
  end.

(** Its reply: [currentWorkspaceActionId] is read again, after the dialog was closed. *)
Definition on_deleted (id : nat) (w : workspace) (ok : bool) (err : jsstring) (p : page) : page :=
  let p1 := done_with id p in
  if ok then
    let p2 := closePhysicalDeleteModal p1 in
    alert (js "Projekt " ++ quoted w ++ js " und Verzeichnis auf der Festplatte wurden endgültig gelöscht.")
      (remove_workspace (actionId (deletion_of p2)) p2)
  else alert (js "Löschen fehlgeschlagen: " ++ err) p1.

(** [submitRegisterWorkspace()] with the two fields, and its reply. *)
Definition submitRegisterWorkspace (path name : jsstring) (p : page) : page :=
  let pathVal := trim path in
  let opt t := if truthy t then Some t else None in
  if truthy pathVal then
    fetch_or (RegisterWorkspace pathVal (opt (trim name)) (opt (activeNodeId (projects_of p)))) Registering
      (alert (js "Netzwerkfehler beim Registrieren des Workspaces")) p
  else alert (js "Bitte gib einen vollständigen lokalen Verzeichnispfad ein.") p.
Definition on_registered (id : nat) (ok : bool) (err : jsstring) (p : page) : page :=
  let p1 := done_with id p in
  if ok then loadFleetAndWorkspaces p1 else alert (js "Fehler beim Registrieren: " ++ err) p1.

(** ** Prompts *)

Definition session_failed : page -> page := alert (js "Netzwerkfehler beim Starten der Sitzung").
Definition turn_failed : page -> page := alert (js "Fehler beim Senden des Turns").

(** [submitPrompt()] up to its first [await]: the text leaves the composer at once. *)
Definition submitPrompt (p : page) : page :=
  let text := trim (composer p) in
  if truthy text then
    let p1 := set_composer [] p in
    let new_session :=
      let ws := match activeWorkspace (projects_of p1) with
                | Some w => api_name w
                | None => Some (js "default")
                end in
      fetch_or (CreateSession (currentModel p1) text (take 45 text) ws (currentPolicy p1)) (Create ws) session_failed p1 in
    match activeSessionId (chat_of p1) with
    | Some s => if truthy s then fetch_or (Turn s text) SendTurn turn_failed p1 else new_session
    | None => new_session
    end
  else p.

(** [applyPromptSnippet(text)], and [attachFilePrompt()] with the answer of the prompt. *)
Definition applyPromptSnippet (text : jsstring) (p : page) : page := set_composer text p.
Definition attachFilePrompt (path : jsstring) (p : page) : page :=
  if truthy (trim path) then set_composer (js "@" ++ trim path ++ js " " ++ composer p) p else p.

(** The created session ([None]: a refusal or a reply without one), and an accepted turn. *)
Definition on_created (id : nat) (ws : option jsstring) (ok : bool) (s : jsstring) (p : page) : page :=
  let p1 := done_with id p in
  if ok then loadSessions ws (if truthy s then Some s else None) p1 else p1.
Definition on_turn (id : nat) (ok : bool) (p : page) : page :=
  let p1 := done_with id p in if ok then pollEvents p1 else p1.

Definition active_name (p : page) : option jsstring := activeWorkspace (projects_of p) ≫= api_name.

(** [renameCurrentSession()] with the answer of the prompt, [archiveCurrentSession()] and
    [deleteCurrentSession()] after its confirmation; an exception is not caught. *)
Definition with_session (f : jsstring -> page -> page) (p : page) : page :=
  match activeSessionId (chat_of p) with Some s => if truthy s then f s p else p | None => p end.
Definition renameCurrentSession (title : jsstring) : page -> page :=
  with_session (fun s p =>
    if truthy (trim title) then
      let c := chat_of p in
      fetch_or (Metadata s (trim title)) Rename id
        (set_chat (Chat (activeSessionId c) (trim title) (stream c) (eventCursor c) (pollTimer c)) p)
    else p).
Definition archiveCurrentSession : page -> page := with_session (fun s => fetch_or (ControlArchive s) Leave id).
Definition deleteCurrentSession : page -> page := with_session (fun s => fetch_or (DeleteSession s) Leave id).

(** Their replies, whatever the status. *)
Definition on_renamed (id : nat) (p : page) : page := let p1 := done_with id p in loadSessions (active_name p1) None p1.
Definition on_left (id : nat) (p : page) : page :=
  let p1 := startNewChat (done_with id p) in loadSessions (active_name p1) None p1.

(** ** Events *)

Inductive event : Type :=
| DomLoaded
| NewChat
| Choose (model policy : jsstring)
| FilterTyped (query : jsstring)
| WorkspaceClick (arg : jsstring)
| SessionClick (s : jsstring)
| Typed (text : jsstring)
| Snippet (text : jsstring)
| Attach (path : jsstring)
| Submit
| Options (i choice : jsstring) (yes : bool)
| ConfirmTyped (text : jsstring)
| DeleteClick
| DialogClosed
| RegisterClick (path name : jsstring)
| RenameClick (title : jsstring)
| ArchiveClick
| DeleteSessionClick
| TimerDue
| FleetReply (id : nat) (ok : bool) (l : list workspace) (node : jsstring)
| PortalReply (id : nat) (ok : bool) (nodes : list (option jsstring * list workspace))
| SessionsReply (id : nat) (reply : option (list session))
| PollReply (id : nat) (reply : option jsval)
| CreateReply (id : nat) (ok : bool) (s : jsstring)
| Reply (id : nat) (ok : bool) (err : jsstring)
| Failed (id : nat) (message : jsstring).

(** The reply to the other requests. *)
Definition on_reply (id : nat) (ok : bool) (err : jsstring) (p : page) : page :=
  match inflight p !! id with
  | Some SendTurn => on_turn id ok p
  | Some Rename => on_renamed id p
  | Some Leave => on_left id p
  | Some Registering => on_registered id ok err p
  | Some (Unregistering i w) => on_unregistered id i w ok err p
  | Some (Deleting w) => on_deleted id w ok err p
  | _ => p
  end.

(** A request that fails: the [catch] blocks. *)
Definition on_failed (id : nat) (message : jsstring) (p : page) : page :=
  let p1 := done_with id p in
  match inflight p !! id with
  | Some Poll => on_poll id None p
  | Some (Sessions k) => on_sessions id k None p
  | Some (Create _) => session_failed p1
  | Some SendTurn => turn_failed p1
  | Some Registering => alert (js "Netzwerkfehler beim Registrieren des Workspaces") p1
  | Some (Unregistering _ _) => unregister_failed message p1
  | Some (Deleting _) => delete_failed message p1
  | _ => p1
  end.

Definition step (p : page) (e : event) : page :=
  match e with
  | DomLoaded => loadFleetAndWorkspaces p
  | NewChat => startNewChat p
  | Choose m pol => set_choice m pol p
  | FilterTyped q => filterWorkspaces q p
  | WorkspaceClick a => selectWorkspace a p
  | SessionClick s => selectSession s p
  | Typed t => set_composer t p
  | Snippet t => applyPromptSnippet t p
  | Attach a => attachFilePrompt a p
  | Submit => submitPrompt p
  | Options i c y => openWorkspaceOptions i c y p
  | ConfirmTyped t => type_confirmation t p
  | DeleteClick => submitPhysicalDeleteWorkspace p
  | DialogClosed => closePhysicalDeleteModal p
  | RegisterClick a n => submitRegisterWorkspace a n p
  | RenameClick t => renameCurrentSession t p
  | ArchiveClick => archiveCurrentSession p
  | DeleteSessionClick => deleteCurrentSession p
  | TimerDue => on_timer p
  | FleetReply id ok l n => match inflight p !! id with Some Fleet => on_fleet id ok l n p | _ => p end
  | PortalReply id ok ns => match inflight p !! id with Some PortalFleet => on_portal_fleet id ok ns p | _ => p end
  | SessionsReply id r => match inflight p !! id with Some (Sessions k) => on_sessions id k r p | _ => p end
  | PollReply id r => match inflight p !! id with Some Poll => on_poll id r p | _ => p end
  | CreateReply id ok s => match inflight p !! id with Some (Create ws) => on_created id ws ok s p | _ => p end
  | Reply id ok err => on_reply id ok err p
  | Failed id m => on_failed id m p
  end.

Definition exec (es : list event) (p : page) : page := fold_left step es p.

End Page.

(** ** What each operation leaves alone *)

Definition is_physical (c : call) : bool := match c with DeletePhysically _ _ => true | _ => false end.
Definition deletions (p : page) : list request := List.filter (fun r => is_physical (r_call r)) (requests p).

(** Neither the dialog nor the requests for a physical deletion change. *)
Definition undisturbed (p q : page) : Prop := deletion_of q = deletion_of p /\ deletions q = deletions p.

#[export] Instance delete_click_dec (e : event) : Decision (e = DeleteClick).
Proof. destruct e; first [by left|by right]. Defined.

Section Frame.
Context (sf : Q -> jsstring) (ls : storage) (cookies : jsstring) (unsent : jsstring).

#[local] Instance undisturbed_pre : PreOrder undisturbed.
Proof. split; [intros p; by split|]. intros p q r [H1 H2] [H3 H4]. split; congruence. Qed.

Lemma undisturbed_fetch c t fail p : is_physical c = false -> (forall q, undisturbed q (fail q)) ->
  undisturbed p (fetch_or ls cookies c t fail p).
Proof.
  intros Hc Hf. unfold fetch_or. destruct (url_of c), (auth_token ls cookies); try apply Hf.
  split; [done|]. unfold deletions. cbn. rewrite List.filter_app. cbn. by rewrite Hc, app_nil_r.
Qed.

Lemma undisturbed_poll p : undisturbed p (pollEvents sf ls cookies p).
Proof.
  unfold pollEvents. destruct (activeSessionId _) as [s|]; [|reflexivity]. destruct (truthy s); [|reflexivity].
  by apply undisturbed_fetch.
Qed.

Lemma undisturbed_select s p : undisturbed p (selectSession sf ls cookies s p).
Proof. unfold selectSession. etransitivity; [|apply undisturbed_poll]. by split. Qed.

Lemma undisturbed_resume k p : undisturbed p (resume sf ls cookies k p).
Proof. destruct k; [apply undisturbed_select|reflexivity]. Qed.

Lemma undisturbed_load f k p : undisturbed p (loadSessions sf ls cookies f k p).
Proof. apply undisturbed_fetch; [done|]. apply undisturbed_resume. Qed.

Lemma undisturbed_render p : undisturbed p (renderWorkspaces sf ls cookies p).
Proof.
  unfold renderWorkspaces. destruct (authenticWorkspaces _); [by split|].
  match goal with |- context [match ?l with [] => _ | _ :: _ => _ end] => destruct l end; [by split|].
  etransitivity; [|apply undisturbed_load]. by split.
Qed.

Lemma undisturbed_done id p : undisturbed p (done_with id p).
Proof. by split. Qed.

Lemma undisturbed_remove i p : undisturbed p (remove_workspace sf ls cookies i p).
Proof. unfold remove_workspace. etransitivity; [|apply undisturbed_render]. by split. Qed.

Lemma undisturbed_on_poll id r p : undisturbed p (on_poll sf id r p).
Proof.
  unfold on_poll. destruct r as [data|]; [|by split]. destruct (mem data "events") as [| | | | |[|ev l]|]; try by split.
  destruct (append_rows sf (ev :: l)). by split.
Qed.

Lemma undisturbed_unregister i y p : undisturbed p (confirmUnregisterWorkspace ls cookies unsent i y p).
Proof.
  unfold confirmUnregisterWorkspace. destruct (by_id i _); [|reflexivity]. destruct y; [|reflexivity].
  apply undisturbed_fetch; [done|]. by split.
Qed.

Lemma undisturbed_with_session f p : (forall s q, undisturbed q (f s q)) -> undisturbed p (with_session f p).
Proof. intros H. unfold with_session. destruct (activeSessionId _) as [s|]; [|reflexivity]. destruct (truthy s); [apply H|reflexivity]. Qed.

Lemma undisturbed_submit p : undisturbed p (submitPrompt ls cookies p).
Proof.
  unfold submitPrompt. destruct (truthy (trim (composer p))); [|reflexivity].
  assert (N : forall q, undisturbed p q -> undisturbed p (fetch_or ls cookies (CreateSession (currentModel q) (trim (composer p))
    (take 45 (trim (composer p))) match activeWorkspace (projects_of q) with Some w => api_name w | None => Some (js "default") end
    (currentPolicy q)) (Create match activeWorkspace (projects_of q) with Some w => api_name w | None => Some (js "default") end) session_failed q)).
  { intros q H. etransitivity; [exact H|]. apply undisturbed_fetch; [done|]. by split. }
  assert (E : undisturbed p (set_composer [] p)) by by split.
  destruct (activeSessionId _) as [s|]; [|by apply N]. destruct (truthy s); [|by apply N].
  etransitivity; [exact E|]. apply undisturbed_fetch; [done|]. by split.
Qed.

Lemma undisturbed_reply id ok err p : (forall w, inflight p !! id = Some (Deleting w) -> False) ->
  undisturbed p (on_reply sf ls cookies id ok err p).
Proof.
  intros Hd. unfold on_reply. destruct (inflight p !! id) as [[]|] eqn:E; try reflexivity.
  - unfold on_turn. destruct ok; [|by split]. etransitivity; [|apply undisturbed_poll]. by split.
  - unfold on_renamed. etransitivity; [|apply undisturbed_load]. by split.
  - unfold on_left. etransitivity; [|apply undisturbed_load]. by split.
  - unfold on_registered. destruct ok; [|by split]. etransitivity; [apply undisturbed_done|].
    apply undisturbed_fetch; [done|reflexivity].
  - unfold on_unregistered. destruct ok; [|by split]. etransitivity; [apply (undisturbed_done id)|].
    etransitivity; [apply undisturbed_remove|]. by split.
  - by destruct (Hd w).
Qed.

Lemma undisturbed_failed id m p : undisturbed p (on_failed sf ls cookies id m p).
Proof.
  unfold on_failed. destruct (inflight p !! id) as [[]|]; try by split.
  - unfold on_sessions. etransitivity; [|apply undisturbed_resume]. by split.
Qed.

Lemma deleted_frame id w ok err p :
  deletions (on_deleted sf ls cookies id w ok err p) = deletions p /\
  confirm_input (deletion_of (on_deleted sf ls cookies id w ok err p)) = confirm_input (deletion_of p).
Proof.
  unfold on_deleted. destruct ok; [|done].
  destruct (undisturbed_remove None (closePhysicalDeleteModal (done_with id p))) as [H1 H2].
  split; [exact H2|]. exact (f_equal confirm_input H1).
Qed.

Lemma delete_input p : confirm_input (deletion_of (step sf ls cookies unsent p DeleteClick)) = confirm_input (deletion_of p).
Proof.
  cbn [step]. unfold submitPhysicalDeleteWorkspace, fetch_or.
  repeat match goal with |- context [match ?x with _ => _ end] => destruct x end; done.
Qed.

(** Every event leaves the requests for deletions alone, except the click that confirms
    one, and the text field, except typing and opening the dialog. *)
Lemma step_frame p e : e <> DeleteClick ->
  deletions (step sf ls cookies unsent p e) = deletions p /\
  (confirm_input (deletion_of (step sf ls cookies unsent p e)) = confirm_input (deletion_of p)
   \/ confirm_input (deletion_of (step sf ls cookies unsent p e)) = []
   \/ exists t, e = ConfirmTyped t /\ confirm_input (deletion_of (step sf ls cookies unsent p e)) = t).
Proof.
  intros Hd.
  assert (U : forall q, undisturbed p q -> deletions q = deletions p /\
    (confirm_input (deletion_of q) = confirm_input (deletion_of p) \/ confirm_input (deletion_of q) = []
     \/ exists t, e = ConfirmTyped t /\ confirm_input (deletion_of q) = t)).
  { intros q [-> ->]. auto. }
  destruct e; cbn [step]; try done; try (apply U; by split);
    try match goal with |- context [match inflight p !! ?i with _ => _ end] =>
          destruct (inflight p !! i) as [[]|] eqn:E; try (apply U; reflexivity) end.
  - apply U, undisturbed_fetch; [done|reflexivity].
  - apply U. unfold filterWorkspaces. etransitivity; [|apply undisturbed_render]. by split.
  - apply U. unfold selectWorkspace. destruct (List.find _ _); [|reflexivity].
    etransitivity; [|apply undisturbed_render]. by split.
  - apply U, undisturbed_select.
  - apply U. unfold attachFilePrompt. by destruct (truthy (trim path)).
  - apply U, undisturbed_submit.
  - unfold openWorkspaceOptions. destruct (by_id i _) eqn:E; [|apply U; reflexivity].
    destruct (seqb choice (js "2")).
    + match goal with |- context [confirmUnregisterWorkspace _ _ _ _ _ ?q] => destruct (undisturbed_unregister i yes q) as [-> ->] end.
      split; [done|by left].
    + destruct (seqb choice (js "3")); [|split; [done|by left]].
      unfold openPhysicalDeleteModal. cbn [set_deletion projects_of]. rewrite E. split; [done|]. right. by left.
  - split; [done|]. right. right. by exists text.
  - split; [done|]. by left.
  - apply U. unfold submitRegisterWorkspace. destruct (truthy (trim path)); [|by split].
    apply undisturbed_fetch; [done|]. by split.
  - apply U, undisturbed_with_session. intros s q. destruct (truthy (trim title)); [|reflexivity].
    etransitivity; [|apply undisturbed_fetch; [done|reflexivity]]. by split.
  - apply U, undisturbed_with_session. intros s q. apply undisturbed_fetch; [done|reflexivity].
  - apply U, undisturbed_with_session. intros s q. apply undisturbed_fetch; [done|reflexivity].
  - apply U. unfold on_timer. destruct (pollTimer (chat_of p)); [|reflexivity]. etransitivity; [|apply undisturbed_poll]. by split.
  - apply U. unfold on_fleet. destruct ok.
    + etransitivity; [|apply undisturbed_render]. by split.
    + etransitivity; [apply (undisturbed_done id)|]. apply undisturbed_fetch; [done|reflexivity].
  - apply U. unfold on_portal_fleet. destruct ok; [|by split]. etransitivity; [|apply undisturbed_render]. by split.
  - apply U. unfold on_sessions. etransitivity; [|apply undisturbed_resume]. by destruct reply; split.
  - apply U, undisturbed_on_poll.
  - apply U. unfold on_created. destruct ok; [|by split]. etransitivity; [|apply undisturbed_load]. by split.
  - destruct (inflight p !! id) as [[]|] eqn:E; try (apply U, undisturbed_reply; intros ? ?; congruence).
    unfold on_reply. rewrite E. destruct (deleted_frame id w ok err p) as [D1 D2]. rewrite D1, D2. auto.
  - apply U, undisturbed_failed.
Qed.

(** The click sends at most one request, for a workspace whose name is in the field. *)
Lemma delete_click p r : r ∈ deletions (step sf ls cookies unsent p DeleteClick) ->
  r ∈ deletions p \/ exists i w n, r_call r = DeletePhysically i n /\ n <> [] /\ actionId (deletion_of p) = Some i
    /\ w ∈ authenticWorkspaces (projects_of p) /\ ws_id w = Some i /\ shown_name w = Some n
    /\ trim (confirm_input (deletion_of p)) = n
    /\ requests (step sf ls cookies unsent p DeleteClick) = requests p ++ [r].
Proof.
  cbn [step]. unfold submitPhysicalDeleteWorkspace. destruct (actionId (deletion_of p)) as [i|] eqn:Ei; [|by left].
  destruct (truthy i) eqn:Ti; [|by left]. destruct (by_id i _) as [w|] eqn:Ew; [|by left].
  destruct (same_text _ _) eqn:En; [|by left].
  unfold fetch_or. destruct (url_of _), (auth_token ls cookies); try by left.
  unfold deletions at 1. cbn [requests set_tasks]. rewrite List.filter_app. cbn [List.filter r_call is_physical].
  rewrite elem_of_app, list_elem_of_singleton. intros [H| ->]; [by left|]. right.
  apply find_In in Ew as [Hin Hw]. apply bool_decide_eq_true in Hw, En.
  exists i, w, (trim (confirm_input (deletion_of p))). split_and!; try done; [|by apply list_elem_of_In].
  intros E0. rewrite E0 in En. unfold shown_name, or_text in En. rewrite Hw in En.
  destruct (ws_name w) as [[|]|]; cbn in En; try done; injection En as <-; done.
Qed.

(** Where the text of the field comes from: it was typed, and the field was not touched
    since. *)
Lemma input_origin es p : trim (confirm_input (deletion_of p)) = [] ->
  let t := confirm_input (deletion_of (exec sf ls cookies unsent es p)) in
  trim t <> [] ->
  exists b1 b2, es = b1 ++ ConfirmTyped t :: b2 /\
    forall b b', b2 = b ++ b' -> confirm_input (deletion_of (exec sf ls cookies unsent (b1 ++ ConfirmTyped t :: b) p)) = t.
Proof.
  intros H0. induction es as [|e es IH] using rev_ind; [done|]. cbv zeta in *.
  assert (X : exec sf ls cookies unsent (es ++ [e]) p = step sf ls cookies unsent (exec sf ls cookies unsent es p) e)
    by (unfold exec; by rewrite fold_left_app).
  set (t := confirm_input (deletion_of (exec sf ls cookies unsent (es ++ [e]) p))).
  assert (K : t = confirm_input (deletion_of (exec sf ls cookies unsent es p)) -> trim t <> [] -> exists b1 b2,
    es ++ [e] = b1 ++ ConfirmTyped t :: b2 /\
    forall b b', b2 = b ++ b' -> confirm_input (deletion_of (exec sf ls cookies unsent (b1 ++ ConfirmTyped t :: b) p)) = t).
  { intros E Ht. rewrite <- E in IH. destruct (IH Ht) as (b1 & b2 & E1 & Hb). exists b1, (b2 ++ [e]).
    split; [rewrite E1; by rewrite <- app_assoc|]. intros b b' Eb.
    destruct b' as [|x b' _] using rev_ind.
    - rewrite app_nil_r in Eb. subst b. rewrite app_comm_cons, app_assoc, <- E1. done.
    - rewrite app_assoc in Eb. apply app_inj_tail in Eb as [Eb _]. by apply (Hb b b'). }
  destruct (decide (e = DeleteClick)) as [->|Hd].
  - apply K. unfold t. by rewrite X, delete_input.
  - destruct (step_frame (exec sf ls cookies unsent es p) e Hd) as [_ [E|[E|(t' & -> & E)]]].
    + apply K. unfold t. by rewrite X.
    + intros Ht. destruct Ht. unfold t. by rewrite X, E.
    + intros _. assert (Et : t' = t) by (unfold t; by rewrite X). exists es, []. rewrite Et. split; [done|].
      intros [|] ? Eb; [|done]. rewrite <- Et. unfold exec. rewrite fold_left_app. exact E.
Qed.

End Frame.

(** The click that sent the request for the deletion of [i] with the confirmed name [n], after
    the events [before]; [t] is the text of the field, typed after [b1] and not touched
    in [b2]. *)
Definition confirmed_click (sf : Q -> jsstring) ls cookies unsent (p : page) (i n : jsstring) tok
    (before b1 b2 : list event) (w : workspace) (t : jsstring) : Prop :=
  let q := exec sf ls cookies unsent before p in
  requests (step sf ls cookies unsent q DeleteClick) = requests q ++ [Request (DeletePhysically i n) tok] /\
  actionId (deletion_of q) = Some i /\ w ∈ authenticWorkspaces (projects_of q) /\ ws_id w = Some i /\
  shown_name w = Some n /\ n <> [] /\
  confirm_input (deletion_of q) = t /\ trim t = n /\
  before = b1 ++ ConfirmTyped t :: b2 /\
  forall b b', b2 = b ++ b' -> confirm_input (deletion_of (exec sf ls cookies unsent (b1 ++ ConfirmTyped t :: b) p)) = t.

(** C2: The agent page asks for the physical deletion of a project only after a
    confirmation. Whenever such a request for project [i] with the confirmed name [n] has
    been sent, it was sent by a click on the delete button at which the action was on [i], a
    project with that identifier was listed, and the text field held at that moment, up to
    surrounding white space, the name the page shows for the project, which is not empty.
    That text was typed by the user after the page was loaded, and between the typing and
    the click the field was never cleared or changed, so no dialog was opened in between.
    For any order of clicks, replies, failures and changes of the lists. *)
Theorem physical_deletion_is_confirmed sf ls cookies unsent es p i n tok :
  deletions p = [] -> trim (confirm_input (deletion_of p)) = [] ->
  Request (DeletePhysically i n) tok ∈ requests (exec sf ls cookies unsent es p) ->
  exists before after w t b1 b2, es = before ++ DeleteClick :: after /\
    confirmed_click sf ls cookies unsent p i n tok before b1 b2 w t.
Proof.
  intros H0 Hi H. assert (Hr : Request (DeletePhysically i n) tok ∈ deletions (exec sf ls cookies unsent es p)).
  { apply list_elem_of_In, filter_In. split; [by apply list_elem_of_In|done]. }
  clear H. induction es as [|e es IH] using rev_ind; [cbn in Hr; rewrite H0 in Hr; set_solver|].
  unfold exec in Hr. rewrite fold_left_app in Hr. cbn [fold_left] in Hr. fold (exec sf ls cookies unsent es p) in Hr.
  assert (K : Request (DeletePhysically i n) tok ∈ deletions (exec sf ls cookies unsent es p) -> exists before after w t b1 b2,
    es ++ [e] = before ++ DeleteClick :: after /\ confirmed_click sf ls cookies unsent p i n tok before b1 b2 w t).
  { intros H. destruct (IH H) as (b & a & w & t & b1 & b2 & -> & R). exists b, (a ++ [e]), w, t, b1, b2. by rewrite <- app_assoc. }
  destruct (decide (e = DeleteClick)) as [->|Hd].
  - apply delete_click in Hr as [Hr|(i' & w & n' & [= <- <-] & Hn & Ha & Hw & Hid & Hs & Ht & Hq)]; [by apply K|].
    destruct (input_origin sf ls cookies unsent es p Hi) as (b1 & b2 & E & Hb); [by rewrite Ht|].
    eexists es, [], w, _, b1, b2. split; [done|]. split_and!; done.
  - destruct (step_frame sf ls cookies unsent (exec sf ls cookies unsent es p) e Hd) as [E _]. rewrite E in Hr. by apply K.
Qed.

(** ** The list of projects after a deletion *)

Lemma fetch_projects ls cookies c t p : projects_of (fetch_or ls cookies c t id p) = projects_of p.
Proof. unfold fetch_or. by destruct (url_of c), (auth_token ls cookies). Qed.

Lemma load_projects sf ls cookies f p : projects_of (loadSessions sf ls cookies f None p) = projects_of p.
Proof. apply fetch_projects. Qed.

Lemma render_lists sf ls cookies p :
  authenticWorkspaces (projects_of (renderWorkspaces sf ls cookies p)) = authenticWorkspaces (projects_of p).
Proof.
  unfold renderWorkspaces. destruct (authenticWorkspaces (projects_of p)) eqn:E; [cbn; by rewrite E|].
  match goal with |- context [match ?l with [] => _ | _ :: _ => _ end] => destruct l end; [cbn; by rewrite E|].
  rewrite load_projects. cbn. by rewrite E.
Qed.

Lemma same_workspace_refl w : same_workspace w w = true.
Proof. unfold same_workspace, same_text. by rewrite bool_decide_true. Qed.

(** Rendering keeps an active workspace that is listed. *)
Lemma render_active sf ls cookies p a :
  activeWorkspace (projects_of p) = Some a -> a ∈ authenticWorkspaces (projects_of p) ->
  activeWorkspace (projects_of (renderWorkspaces sf ls cookies p)) = Some a.
Proof.
  intros Ha Hin. unfold renderWorkspaces. destruct (authenticWorkspaces (projects_of p)) as [|f r] eqn:E; [set_solver|].
  match goal with |- context [match ?l with [] => _ | _ :: _ => _ end] => destruct l end; [exact Ha|].
  rewrite load_projects. cbn [set_projects projects_of set_tree activeWorkspace]. rewrite Ha.
  replace (existsb (fun v => same_workspace v a) (f :: r)) with true; [done|]. symmetry. apply existsb_exists.
  exists a. split; [by apply list_elem_of_In|apply same_workspace_refl].
Qed.

Lemma without_nothing l : without_id None l = l.
Proof. induction l as [|w l IH]; [done|]. cbn. by rewrite <- IH at 2. Qed.

(** C37: After the physical deletion of a project the page goes on offering it.  The handler
    of the reply closes the dialog first, which resets the identifier it then removes from
    the list: the list is unchanged, an active project stays active, although the notice
    says that the directory was deleted, and the next prompt of a new chat is sent for
    the deleted project. *)
Theorem deleted_workspace_stays_listed sf ls cookies unsent p id w err text tok :
  inflight p !! id = Some (Deleting w) ->
  activeWorkspace (projects_of p) = Some w -> w ∈ authenticWorkspaces (projects_of p) ->
  auth_token ls cookies = Some tok -> truthy (trim text) = true ->
  let q := step sf ls cookies unsent p (Reply id true err) in
  authenticWorkspaces (projects_of q) = authenticWorkspaces (projects_of p) /\
  activeWorkspace (projects_of q) = Some w /\
  last (alerts q) = Some (js "Projekt " ++ quoted w ++ js " und Verzeichnis auf der Festplatte wurden endgültig gelöscht.") /\
  last (requests (exec sf ls cookies unsent [NewChat; Typed text; Submit] q))
  = Some (Request (CreateSession (currentModel q) (trim text) (take 45 (trim text)) (api_name w) (currentPolicy q)) tok).
Proof.
  intros Hi Ha Hin Ht Hx q.
  set (p2 := set_projects (set_workspaces (without_id None (authenticWorkspaces (projects_of p))) (Some w) (projects_of p))
               (closePhysicalDeleteModal (done_with id p))).
  assert (Eq : q = alert (js "Projekt " ++ quoted w ++ js " und Verzeichnis auf der Festplatte wurden endgültig gelöscht.")
                     (renderWorkspaces sf ls cookies p2)).
  { unfold q, step, on_reply. rewrite Hi. unfold on_deleted, remove_workspace. cbn. by rewrite Ha. }
  assert (El : authenticWorkspaces (projects_of q) = authenticWorkspaces (projects_of p)).
  { rewrite Eq. cbn [alert projects_of]. rewrite render_lists. apply without_nothing. }
  assert (Ew : activeWorkspace (projects_of q) = Some w).
  { rewrite Eq. cbn [alert projects_of]. apply render_active; [done|]. cbn. by rewrite without_nothing. }
  split_and!; [done|done| |].
  - rewrite Eq. apply last_snoc.
  - clearbody q. clear Eq. cbn [exec fold_left step]. unfold submitPrompt. cbn [composer set_composer]. rewrite Hx.
    unfold fetch_or. cbn [url_of activeSessionId chat_of set_composer startNewChat set_chat projects_of currentModel currentPolicy].
    rewrite Ht, Ew. apply last_snoc.
Qed.

(** ** Polling *)

Definition wants (p : page) : bool := match activeSessionId (chat_of p) with Some s => truthy s | None => false end.
Definition polling (p : page) : Prop := pollTimer (chat_of p) = true \/ exists id, inflight p !! id = Some Poll.
Definition numbered (p : page) : Prop := forall id t, inflight p !! id = Some t -> (id < next_id p)%nat.
Definition attended (p : page) : Prop := numbered p /\ (wants p = true -> polling p).

Section Polling.
Context (sf : Q -> jsstring) (ls : storage) (cookies : jsstring) (unsent : jsstring).

Lemma attended_same p q : activeSessionId (chat_of q) = activeSessionId (chat_of p) \/ activeSessionId (chat_of q) = None ->
  pollTimer (chat_of q) = pollTimer (chat_of p) -> inflight q = inflight p -> next_id q = next_id p -> attended p -> attended q.
Proof.
  unfold attended, numbered, wants, polling. intros Hs Ht Hi Hn [H1 H2]. rewrite Ht, Hi, Hn. split; [done|].
  destruct Hs as [-> | ->]; done.
Qed.

Lemma numbered_wait t r p : numbered p -> numbered (set_tasks (<[next_id p := t]> (inflight p)) (S (next_id p)) r p).
Proof. intros H id u. cbn. intros [[<- _]|[_ E]]%lookup_insert_Some; [lia|]. apply H in E. lia. Qed.

Lemma numbered_done id p : numbered p -> numbered (done_with id p).
Proof. intros H i t. cbn. intros [_ E]%lookup_delete_Some. by apply (H i t). Qed.

Lemma attended_fetch c t fail p : attended p -> attended (fail p) -> attended (fetch_or ls cookies c t fail p).
Proof.
  intros [H1 H2] Hf. unfold fetch_or. destruct (url_of c), (auth_token ls cookies); try exact Hf.
  split; [by apply numbered_wait|]. intros Hw. destruct (H2 Hw) as [Ht|[id Hp]]; [by left|]. right. exists id. cbn.
  rewrite lookup_insert_ne; [done|]. specialize (H1 _ _ Hp). lia.
Qed.

Lemma attended_arm p : numbered p -> attended (arm_timer p).
Proof. intros H. split; [exact H|]. intros _. by left. Qed.

Lemma attended_poll p : numbered p -> attended (pollEvents sf ls cookies p).
Proof.
  intros H. unfold pollEvents. destruct (activeSessionId (chat_of p)) as [s|] eqn:Es.
  2: { split; [done|]. unfold wants. by rewrite Es. }
  destruct (truthy s) eqn:Et; [|split; [done|]; unfold wants; by rewrite Es, Et].
  unfold fetch_or. destruct (url_of _), (auth_token ls cookies); try by apply attended_arm.
  split; [by apply numbered_wait|]. intros _. right. exists (next_id p). apply lookup_insert_eq.
Qed.

Lemma attended_done id t p : inflight p !! id = Some t -> t <> Poll -> attended p -> attended (done_with id p).
Proof.
  intros Hi Ht [H1 H2]. split; [by apply numbered_done|]. intros Hw. destruct (H2 Hw) as [|[j Hj]]; [by left|].
  right. exists j. cbn. rewrite lookup_delete_ne; [done|congruence].
Qed.

Lemma attended_select s p : numbered p -> attended (selectSession sf ls cookies s p).
Proof. intros H. by apply attended_poll. Qed.

Lemma attended_resume k p : attended p -> attended (resume sf ls cookies k p).
Proof. intros H. destruct k; [apply attended_select, H|done]. Qed.

Lemma attended_load f k p : attended p -> attended (loadSessions sf ls cookies f k p).
Proof. intros H. apply attended_fetch; [done|]. by apply attended_resume. Qed.

Lemma attended_render p : attended p -> attended (renderWorkspaces sf ls cookies p).
Proof.
  intros H. unfold renderWorkspaces. destruct (authenticWorkspaces _); [by apply (attended_same p); auto|].
  match goal with |- context [match ?l with [] => _ | _ :: _ => _ end] => destruct l end; [by apply (attended_same p); auto|].
  apply attended_load. by apply (attended_same p); auto.
Qed.

Lemma attended_remove i p : attended p -> attended (remove_workspace sf ls cookies i p).
Proof. intros H. apply attended_render. by apply (attended_same p); auto. Qed.

Lemma attended_on_poll id r p : numbered p -> attended (on_poll sf id r p).
Proof.
  intros H. apply attended_arm. destruct r as [data|]; [|by apply numbered_done].
  destruct (mem data "events") as [| | | | |[|ev l]|]; try by apply numbered_done.
  destruct (append_rows sf (ev :: l)). by apply numbered_done.
Qed.

Lemma attended_reply id ok err p : attended p -> attended (on_reply sf ls cookies id ok err p).
Proof.
  intros H. unfold on_reply. destruct (inflight p !! id) as [t|] eqn:E; [|done].
  assert (D : t <> Poll -> attended (done_with id p)) by (intros; by apply (attended_done id t)).
  destruct t; try done; specialize (D ltac:(done)).
  - unfold on_turn. destruct ok; [|done]. apply attended_poll, D.
  - by apply attended_load.
  - apply attended_load. by apply (attended_same (done_with id p)); auto.
  - unfold on_registered. destruct ok; [by apply attended_fetch|]. by apply (attended_same (done_with id p)); auto.
  - unfold on_unregistered. destruct ok; [|by apply (attended_same (done_with id p)); auto].
    eapply attended_same, (attended_remove (Some id0) (done_with id p) D); auto.
  - unfold on_deleted. destruct ok; [|by apply (attended_same (done_with id p)); auto].
    by eapply attended_same, (attended_remove None (closePhysicalDeleteModal (done_with id p))); auto.
Qed.

Lemma attended_failed id m p : attended p -> attended (on_failed sf ls cookies id m p).
Proof.
  intros H. unfold on_failed. destruct (inflight p !! id) as [t|] eqn:E.
  2: { split; [apply numbered_done, H|]. intros Hw. destruct (proj2 H Hw) as [|[j Hj]]; [by left|].
       right. exists j. cbn. rewrite lookup_delete_ne; [done|congruence]. }
  assert (D : t <> Poll -> attended (done_with id p)) by (intros; by apply (attended_done id t)).
  destruct t; try (apply attended_on_poll; apply H);
    specialize (D ltac:(done)); try done; try (by apply (attended_same (done_with id p)); auto).
  apply attended_resume. done.
Qed.

Lemma attended_step p e : attended p -> attended (step sf ls cookies unsent p e).
Proof.
  intros H.
  assert (S : forall q, activeSessionId (chat_of q) = activeSessionId (chat_of p) \/ activeSessionId (chat_of q) = None ->
    pollTimer (chat_of q) = pollTimer (chat_of p) -> inflight q = inflight p -> next_id q = next_id p -> attended q)
    by (intros q ? ? ? ?; by apply (attended_same p)).
  assert (W : forall f, (forall s, attended (f s p)) -> attended (with_session f p)).
  { intros f Hf. unfold with_session. destruct (activeSessionId _) as [s|]; [|done]. by destruct (truthy s). }
  destruct e; cbn [step]; try (by apply S; [first [by left|by right]| | |]);
    try match goal with |- context [match inflight p !! ?i with _ => _ end] =>
          destruct (inflight p !! i) as [[]|] eqn:E; try done;
          try assert (D : attended (done_with i p)) by (by eapply attended_done) end.
  - by apply attended_fetch.
  - apply attended_render. by apply S; [left| | |].
  - unfold selectWorkspace. destruct (List.find _ _); [|done]. apply attended_render. by apply S; [left| | |].
  - apply attended_select, H.
  - unfold attachFilePrompt. destruct (truthy (trim path)); [by apply S; [left| | |]|done].
  - unfold submitPrompt. destruct (truthy (trim (composer p))); [|done].
    case (activeSessionId _); [intros s; case (truthy s)|]; apply attended_fetch; by apply S; [left| | |].
  - unfold openWorkspaceOptions. destruct (by_id i _) eqn:E; [|done]. destruct (seqb choice (js "2")).
    + unfold confirmUnregisterWorkspace. cbn [set_deletion projects_of]. rewrite E. destruct yes; [|by apply S; [left| | |]].
      apply attended_fetch; by apply S; [left| | |].
    + destruct (seqb choice (js "3")); [|by apply S; [left| | |]]. unfold openPhysicalDeleteModal. cbn [set_deletion projects_of].
      rewrite E. by apply S; [left| | |].
  - unfold submitPhysicalDeleteWorkspace. destruct (actionId _) as [i|]; [|done]. destruct (truthy i); [|done].
    destruct (by_id i _); [|done]. destruct (same_text _ _); [|by apply S; [left| | |]]. apply attended_fetch; by apply S; [left| | |].
  - unfold submitRegisterWorkspace. destruct (truthy (trim path)); [|by apply S; [left| | |]]. apply attended_fetch; by apply S; [left| | |].
  - apply W. intros s. destruct (truthy (trim title)); [|done]. apply attended_fetch; by apply S; [left| | |].
  - apply W. intros s. by apply attended_fetch.
  - apply W. intros s. by apply attended_fetch.
  - unfold on_timer. destruct (pollTimer (chat_of p)); [|done]. apply attended_poll, H.
  - unfold on_fleet. destruct ok; [|by apply attended_fetch]. apply attended_render. by apply (attended_same (done_with id p)); [left| | | |].
  - unfold on_portal_fleet. destruct ok; [|done]. apply attended_render. by apply (attended_same (done_with id p)); [left| | | |].
  - apply attended_resume. destruct reply; [|done]. by apply (attended_same (done_with id p)); [left| | | |].
  - apply attended_on_poll, H.
  - unfold on_created. destruct ok; [|done]. by apply attended_load.
  - by apply attended_reply.
  - by apply attended_failed.
Qed.

End Polling.

(** C23: The session that is chosen on the agent page keeps being polled: after any sequence
    of clicks, replies, failures and timers the poll timer is set or a poll is under way
    whenever a session is chosen; every poll, whatever becomes of it, sets the timer again;
    and when the timer fires the events of the chosen session after the cursor are asked
    for. *)
Theorem selected_session_is_polled sf ls cookies unsent es p :
  attended p -> let q := exec sf ls cookies unsent es p in
  (wants q = true -> polling q) /\
  (forall id r m, inflight q !! id = Some Poll ->
     pollTimer (chat_of (step sf ls cookies unsent q (PollReply id r))) = true /\
     pollTimer (chat_of (step sf ls cookies unsent q (Failed id m))) = true) /\
  (forall s tok, activeSessionId (chat_of q) = Some s -> truthy s = true -> pollTimer (chat_of q) = true ->
     auth_token ls cookies = Some tok ->
     last (requests (step sf ls cookies unsent q TimerDue))
     = Some (Request (GetEvents s (to_str sf (eventCursor (chat_of q)))) tok)).
Proof.
  intros H q. split_and!.
  - apply (fold_invariant (step sf ls cookies unsent) attended (fun _ => True)); [|by apply Forall_true|done].
    intros ? ? _. apply attended_step.
  - intros id r m Hp. cbn [step]. rewrite Hp. split; [by destruct r|]. unfold on_failed. by rewrite Hp.
  - intros s tok Hs Ht Hp Ha. cbn [step]. unfold on_timer. rewrite Hp. unfold pollEvents. cbn [chat_of set_chat activeSessionId].
    rewrite Hs, Ht. unfold fetch_or. rewrite Ha. cbn [url_of requests set_tasks set_chat]. apply last_snoc.
Qed.

(** Nothing keeps two polls of the agent page apart.  A turn that is accepted while a
    poll is under way starts a second one with the same cursor; when both replies hold the
    same events, every row of them is shown twice. *)
Theorem overlapping_polls_repeat_events sf ls cookies unsent p s tok i j es n rows :
  activeSessionId (chat_of p) = Some s -> truthy s = true -> auth_token ls cookies = Some tok -> numbered p ->
  inflight p !! i = Some Poll -> inflight p !! j = Some SendTurn -> es <> [] -> append_rows sf es = (rows, false) ->
  let data := VObj [(js "events", VArr es); (js "next_sequence", n)] in
  let q := step sf ls cookies unsent p (Reply j true []) in
  last (requests q) = Some (Request (GetEvents s (to_str sf (eventCursor (chat_of p)))) tok) /\
  stream (chat_of (exec sf ls cookies unsent [PollReply i (Some data); PollReply (next_id p) (Some data)] q))
  = stream (chat_of p) ++ rows ++ rows.
Proof.
  intros Hs Ht Ha Hn Hi Hj He Hr data q.
  assert (Eq : q = set_tasks (<[next_id p := Poll]> (delete j (inflight p))) (S (next_id p))
                     (requests p ++ [Request (GetEvents s (to_str sf (eventCursor (chat_of p)))) tok]) (done_with j p)).
  { unfold q, step, on_reply. rewrite Hj. unfold on_turn, pollEvents. cbn [done_with set_tasks chat_of].
    rewrite Hs, Ht. unfold fetch_or. by rewrite Ha. }
  pose proof (Hn _ _ Hi) as Li. pose proof (Hn _ _ Hj) as Lj.
  assert (Hij : i <> j) by congruence.
  assert (D : mem data "events" = VArr es) by done.
  assert (P : forall x q, inflight q !! x = Some Poll -> stream (chat_of (step sf ls cookies unsent q (PollReply x (Some data))))
    = stream (chat_of q) ++ rows).
  { intros x q' Hx. cbn [step]. rewrite Hx. unfold on_poll. rewrite D. destruct es as [|e es]; [done|]. rewrite Hr. done. }
  split; [rewrite Eq; apply last_snoc|].
  unfold exec. cbn [fold_left]. rewrite P.
  - rewrite P; [rewrite Eq; by rewrite <- app_assoc|]. rewrite Eq. cbn [inflight set_tasks].
    rewrite lookup_insert_ne by lia. by rewrite lookup_delete_ne.
  - cbn [step]. rewrite Eq. cbn [inflight set_tasks]. rewrite lookup_insert_ne by lia. rewrite lookup_delete_ne by done. rewrite Hi.
    unfold on_poll. rewrite D. destruct es as [|e es]; [done|]. rewrite Hr. cbn.
    rewrite lookup_delete_ne by lia. apply lookup_insert_eq.
Qed.

(** ** Witnesses *)

Definition fresh_page : page :=
  Page (Chat None [] [] (VNum (num_Z 0)) false) (Projects [] None [] [] NoProjects) (Deletion None false [] [] []) []
    [] (js "qwen2.5-coder:32b") (js "interactive") [] ∅ 0 [].
Definition no_fraction_text (_ : Q) : jsstring := [].
Definition project (i n d : string) : workspace := Workspace (Some (js i)) (Some (js n)) (Some (js d)) None.
Definition key_store : storage := Some {[js "cm_api_key" := js "cm_live_1"]}.

(** Two projects are listed, the first is confirmed for deletion. *)
Definition deletion_run : list event :=
  [DomLoaded; FleetReply 0 true [project "a" "site" "C:\site"; project "b" "tools" "C:\tools"] (js "node");
   Options (js "a") (js "3") false; ConfirmTyped (js " site "); DeleteClick].

Lemma physical_deletion_is_confirmed_witness :
  requests (exec no_fraction_text key_store [] [] deletion_run fresh_page) !! 2%nat
    = Some (Request (DeletePhysically (js "a") (js "site")) (Some (js "cm_live_1"))) /\
  exists before after w t b1 b2, deletion_run = before ++ DeleteClick :: after /\
    confirmed_click no_fraction_text key_store [] [] fresh_page (js "a") (js "site") (Some (js "cm_live_1")) before b1 b2 w t.
Proof.
  split; [vm_compute; reflexivity|].
  apply (physical_deletion_is_confirmed no_fraction_text key_store [] [] deletion_run fresh_page (js "a") (js "site") (Some (js "cm_live_1")));
    [reflexivity|reflexivity|].
  apply (list_elem_of_lookup_2 _ 2). vm_compute. reflexivity.
Defined.

Lemma deleted_workspace_stays_listed_witness :
  let p := exec no_fraction_text key_store [] [] deletion_run fresh_page in
  let w := project "a" "site" "C:\site" in
  let q := step no_fraction_text key_store [] [] p (Reply 2 true []) in
  authenticWorkspaces (projects_of q) = authenticWorkspaces (projects_of p) /\ activeWorkspace (projects_of q) = Some w /\
  last (alerts q) = Some (js "Projekt " ++ quoted w ++ js " und Verzeichnis auf der Festplatte wurden endgültig gelöscht.") /\
  last (requests (exec no_fraction_text key_store [] [] [NewChat; Typed (js "go on"); Submit] q))
  = Some (Request (CreateSession (currentModel q) (trim (js "go on")) (take 45 (trim (js "go on"))) (api_name w) (currentPolicy q))
            (Some (js "cm_live_1"))).
Proof.
  intros p w q. apply (deleted_workspace_stays_listed no_fraction_text key_store [] [] p 2 w [] (js "go on") (Some (js "cm_live_1"))).
  - vm_compute. reflexivity.
  - vm_compute. reflexivity.
  - apply (list_elem_of_lookup_2 _ 0). vm_compute. reflexivity.
  - vm_compute. reflexivity.
  - vm_compute. reflexivity.
Defined.

Lemma fresh_attended : attended fresh_page.
Proof. split; [intros id t; cbn; by rewrite lookup_empty|done]. Qed.

Lemma selected_session_is_polled_witness :
  let q := exec no_fraction_text key_store [] [] [SessionClick (js "s1"); Failed 0 []; TimerDue] fresh_page in
  wants q = true /\ polling q.
Proof.
  cbv zeta. split; [vm_compute; reflexivity|].
  apply (selected_session_is_polled no_fraction_text key_store [] [] [SessionClick (js "s1"); Failed 0 []; TimerDue] fresh_page fresh_attended).
  vm_compute. reflexivity.
Defined.

(** A session with a poll and a turn under way. *)
Definition turn_page : page :=
  exec no_fraction_text key_store [] [] [SessionClick (js "s1"); Typed (js "hello"); Submit] fresh_page.
Definition turn_event : jsval :=
  VObj [(js "event_type", VStr (js "turn.created")); (js "payload", VObj [(js "prompt", VStr (js "hello"))])].

Lemma overlapping_polls_repeat_events_witness :
  let data := VObj [(js "events", VArr [turn_event]); (js "next_sequence", VNum (num_Z 1))] in
  let q := step no_fraction_text key_store [] [] turn_page (Reply 1 true []) in
  last (requests q) = Some (Request (GetEvents (js "s1") (to_str no_fraction_text (eventCursor (chat_of turn_page)))) (Some (js "cm_live_1"))) /\
  stream (chat_of (exec no_fraction_text key_store [] [] [PollReply 0 (Some data); PollReply (next_id turn_page) (Some data)] q))
  = stream (chat_of turn_page) ++ [UserRow (js "hello")] ++ [UserRow (js "hello")].
Proof.
  apply (overlapping_polls_repeat_events no_fraction_text key_store [] [] turn_page (js "s1") (Some (js "cm_live_1")) 0 1
           [turn_event] (VNum (num_Z 1)) [UserRow (js "hello")]); try (vm_compute; reflexivity); try done.
  assert (A : attended turn_page).
  { unfold turn_page. apply (fold_invariant (step no_fraction_text key_store [] []) attended (fun _ => True));
      [intros ? ? _; apply attended_step|by apply Forall_true|apply fresh_attended]. }
  apply A.
Defined.

(** ** Other behaviours *)

(** The options button of another project redirects an open dialog: the dialog names the
    directory of the first project, the request is for the second one, whose name is the
    same. *)
Example options_retarget_the_dialog :
  let l := [project "a" "site" "C:\site"; project "b" "site" "D:\site"] in
  let q := exec no_fraction_text key_store [] []
    [DomLoaded; FleetReply 0 true l []; Options (js "a") (js "3") false; Options (js "b") [] false;
     ConfirmTyped (js "site"); DeleteClick] fresh_page in
  target_path (deletion_of q) = js "C:\site" /\
  r_call <$> last (requests q) = Some (DeletePhysically (js "b") (js "site")).
Proof. vm_compute. split; reflexivity. Qed.

(** An event whose duration is a text stops the stream: the rows before it are appended at
    every poll and the cursor stays. *)
Lemma unreadable_event_repeats_the_rows sf id evs bad rest n rows p :
  append_rows sf evs = (rows, false) -> createMessageElement sf bad = Throw (js "payload.elapsed_seconds.toFixed is not a function") ->
  let q := on_poll sf id (Some (VObj [(js "events", VArr (evs ++ bad :: rest)); (js "next_sequence", n)])) p in
  stream (chat_of q) = stream (chat_of p) ++ rows /\ eventCursor (chat_of q) = eventCursor (chat_of p).
Proof.
  intros Hr Hb. cbv zeta. unfold on_poll.
  assert (A : forall l rs, append_rows sf l = (rs, false) -> append_rows sf (l ++ bad :: rest) = (rs, true)).
  { induction l as [|e l IH]; intros rs; cbn; [intros [= <-]; by rewrite Hb|].
    destruct (createMessageElement sf e); [|done]. destruct (append_rows sf l) as [r t] eqn:E. intros [= <- ->]. by rewrite (IH r). }
  specialize (A _ _ Hr). change (mem _ "events") with (VArr (evs ++ bad :: rest)).
  destruct (evs ++ bad :: rest) as [|e l] eqn:E; [by destruct evs|]. rewrite A. done.
Qed.

(** The reply to a poll of the session left is shown in the new chat. *)
Example late_events_reach_the_new_chat :
  let data := VObj [(js "events", VArr [turn_event]); (js "next_sequence", VNum (num_Z 1))] in
  let q := exec no_fraction_text key_store [] [] [SessionClick (js "s1"); NewChat; PollReply 0 (Some data)] fresh_page in
  activeSessionId (chat_of q) = None /\ stream (chat_of q) = [UserRow (js "hello")].
Proof. vm_compute. split; reflexivity. Qed.
