(* ===== verification/AgentRows.v ===== *)
(** * The project rows of the agent page (agent.html)

    The markup of a row of the project tree and what a click on it runs.  The identifier of
    a project is escaped for HTML and placed inside a string literal of an event attribute:
    the HTML parser undoes the escaping before the script is read. *)
From Stdlib Require Import Lia NArith ZArith QArith.
From stdpp Require Import base numbers list gmap strings.
From S2P Require Import Prelude JsString JsNumber JsValue JsJson Auth Html AgentPage.

#[local] Open Scope N_scope.

(** ** Markup *)

(** [escapeHtml(str)] *)
Definition escape_unit (c : N) : jsstring :=
  if c =? 38 then js "&amp;" else if c =? 60 then js "&lt;" else if c =? 62 then js "&gt;"
  else if c =? 34 then js "&quot;" else if c =? 39 then js "&#039;" else [c].
Definition escapeHtml (s : jsstring) : jsstring := map_chars escape_unit s.

(** For an absent text the function returns the empty one. *)
Definition escape_opt (o : option jsstring) : jsstring := escapeHtml (default [] o).

(** [(ws.registration_source || 'user_registered').toLowerCase()] selects the badge. *)
Definition srcBadge (source : option jsstring) : jsstring :=
  let src := lower (default (js "user_registered") (or_text source None)) in
  if seqb src (js "auto_discovered") then jsq "<span class=`source-badge badge-auto`>Auto-Scan</span>"
  else if seqb src (js "node_heartbeat") then jsq "<span class=`source-badge badge-node`>Node</span>"
  else jsq "<span class=`source-badge badge-local`>Lokal</span>".

Definition branchBadge (branch : option jsstring) : list piece :=
  match or_text branch None with
  | Some b => [Lit (jsq "<span class=`branch-badge`>"); Hole (escapeHtml b); Lit (js "</span>")]
  | None => []
  end.

Definition row_pieces (isActive : bool) (source branch : option jsstring) (w : workspace) : list piece :=
  [Lit (jsq "
          <div class=`tree-folder-item ");
    Lit (if isActive then js "active" else []);
    Lit (jsq "` onclick=`selectWorkspace('");
    Hole (escape_opt (or_text (ws_id w) (ws_path w)));
    Lit (jsq "')`>
            <div class=`folder-title-row` style=`flex: 1; min-width: 0;`>
              <span>📁</span>
              <span title=`");
    Hole (escape_opt (ws_path w));
    Lit (jsq "` style=`overflow: hidden; text-overflow: ellipsis; white-space: nowrap;`>");
    Hole (escape_opt (shown_name w));
    Lit (jsq "</span>
            </div>
            <div style=`display: flex; align-items: center; gap: 4px;`>
              ")]
  ++ [Lit (srcBadge source)]
  ++ [Lit (js "
              ")]
  ++ branchBadge branch
  ++ [Lit (jsq "
              <button class=`folder-actions-btn` title=`Optionen` onclick=`event.stopPropagation(); openWorkspaceOptions('");
    Hole (escape_opt (ws_id w));
    Lit (jsq "')`>•••</button>
            </div>
          </div>
        ")].

(** ** What a click runs *)

(** The value of an attribute as the HTML parser reads it; the escaped texts hold no other
    character references. *)
Fixpoint decode (fuel : nat) (s : jsstring) : jsstring :=
  match fuel, s with
  | O, _ | _, [] => []
  | S n, c :: r =>
      if starts_with (js "&amp;") s then 38 :: decode n (drop 5 s)
      else if starts_with (js "&lt;") s then 60 :: decode n (drop 4 s)
      else if starts_with (js "&gt;") s then 62 :: decode n (drop 4 s)
      else if starts_with (js "&quot;") s then 34 :: decode n (drop 6 s)
      else if starts_with (js "&#039;") s then 39 :: decode n (drop 6 s)
      else c :: decode n r
  end.
Definition attribute_value (s : jsstring) : jsstring := decode (length s) s.

(** The [onclick] attribute of the row as it is written. *)
Definition row_onclick (w : workspace) : jsstring :=
  js "selectWorkspace('" ++ escape_opt (or_text (ws_id w) (ws_path w)) ++ js "')".

(** Single-character escapes of a string literal; the others stand for themselves. *)
Definition simple_escape (c : N) : N :=
  if c =? 110 then 10 else if c =? 116 then 9 else if c =? 114 then 13 else if c =? 98 then 8
  else if c =? 102 then 12 else if c =? 118 then 11 else c.

(** The rest of a single-quoted literal: its value and what follows it.  Escapes with
    digits ([x], [u] and octal ones) are not read. *)
Fixpoint literal (s : jsstring) : option (jsstring * jsstring) :=
  match s with
  | [] => None
  | c :: r =>
      if c =? 39 then Some ([], r)
      else if (c =? 10) || (c =? 13) then None
      else if c =? 92 then
        match r with
        | d :: r' =>
            if (d =? 120) || (d =? 117) || ((48 <=? d) && (d <=? 55)) then None
            else match literal r' with
                 | Some (v, rest) => Some (if (d =? 10) || (d =? 13) then v else simple_escape d :: v, rest)
                 | None => None
                 end
        | [] => None
        end
      else match literal r with Some (v, rest) => Some (c :: v, rest) | None => None end
  end.

(** A script that is one call of [selectWorkspace] with a literal. *)
Definition called_with (script : jsstring) : option jsstring :=
  if starts_with (js "selectWorkspace('") script then
    match literal (drop 17 script) with
    | Some (v, rest) => if seqb rest (js ")") then Some v else None
    | None => None
    end
  else None.

(** ** The markup is that of the template *)

Lemma escape_quiet k s : k <> InTag -> quiet k (escapeHtml s).
Proof. intros Hk. destruct k; cbn; try done; apply escape_free; intros d; unfold escape_unit; escape_case. Qed.

Lemma row_holes a source branch w : holes_ok InText (row_pieces a source branch w).
Proof.
  unfold row_pieces, branchBadge, srcBadge, escape_opt.
  destruct a, (or_text branch None); repeat match goal with |- context [if seqb ?x ?y then _ else _] => destruct (seqb x y) end;
    cbn [app]; template_ok; by apply escape_quiet.
Qed.

(** Texts of a project do not change the elements and attributes of its row. *)
Lemma row_markup a source branch branch' w w' : or_text branch None = None <-> or_text branch' None = None ->
  skeleton InText (fill (row_pieces a source branch w)) = skeleton InText (fill (row_pieces a source branch' w')).
Proof.
  intros Hb. rewrite (proj1 (fill_skeleton _ _ (row_holes a source branch w))).
  rewrite (proj1 (fill_skeleton _ _ (row_holes a source branch' w'))). do 2 f_equal.
  unfold row_pieces, branchBadge. destruct (or_text branch None), (or_text branch' None); try done; naive_solver.
Qed.

(** The attribute is in the row. *)
Lemma fill_cons x ps : fill (x :: ps) = piece_text x ++ fill ps.
Proof. done. Qed.

Lemma starts_split p s : starts_with p s = true -> s = p ++ drop (length p) s.
Proof. revert s. induction p as [|c p IH]; intros [|d s]; cbn; try done. destruct (c =? d) eqn:E; [|done]. bool_norm. subst. intros H. f_equal. by apply IH. Qed.

Lemma regroup (b1 b2 b3 o s t c q l rest : jsstring) :
  b1 ++ b2 ++ (b3 ++ o ++ s) ++ t ++ ((c ++ q) ++ l) ++ rest = (b1 ++ b2 ++ b3) ++ o ++ (s ++ t ++ c) ++ q ++ (l ++ rest).
Proof. by rewrite <- !app_assoc. Qed.

Lemma row_has_onclick a source branch w : exists before after,
  fill (row_pieces a source branch w) = before ++ jsq "onclick=`" ++ row_onclick w ++ jsq "`" ++ after.
Proof.
  unfold row_pieces, row_onclick. generalize (escape_opt (or_text (ws_id w) (ws_path w))). intros t. cbn [app].
  do 5 rewrite fill_cons. cbn [piece_text].
  match goal with |- context [fill ?r] => generalize (fill r) end. intros rest.
  match goal with |- context [t ++ ?l ++ rest] => rewrite (starts_split (jsq "')`") l) by (vm_compute; reflexivity); generalize (drop (length (jsq "')`")) l) end.
  intros l. eexists _, _.
  replace (jsq "` onclick=`selectWorkspace('") with (jsq "` " ++ jsq "onclick=`" ++ js "selectWorkspace('") by (vm_compute; reflexivity).
  replace (jsq "')`") with (js "')" ++ jsq "`") by (vm_compute; reflexivity).
  apply regroup.
Qed.

(** ** The script is the text of the project *)

Lemma decode_plain n c r : c <> 38 -> decode (S n) (c :: r) = c :: decode n r.
Proof.
  intros H. assert (F : forall p, head p = Some 38 -> starts_with p (c :: r) = false).
  { intros [|x p] E; [done|]. injection E as ->. cbn [starts_with]. apply N.eqb_neq in H. rewrite N.eqb_sym in H. by rewrite H. }
  cbn [decode]. by rewrite !F by (vm_compute; reflexivity).
Qed.

Lemma decode_nil n : decode n [] = [].
Proof. by destruct n. Qed.

Lemma decode_no_reference s : 38 ∉ s -> forall n, (length s <= n)%nat -> decode n s = s.
Proof.
  induction s as [|c s IH]; intros H [|n] Hn; cbn [length] in Hn; try done; try lia.
  rewrite decode_plain, IH; [done| |lia|]; set_solver.
Qed.

Lemma decode_prefix a b : 38 ∉ a -> forall n, decode (length a + n) (a ++ b) = a ++ decode n b.
Proof.
  induction a as [|c a IH]; intros H n; [done|]. cbn [length app plus]. rewrite decode_plain, IH; [done| |]; set_solver.
Qed.

Lemma decode_escaped t b : forall n, decode (length t + n) (escapeHtml t ++ b) = t ++ decode n b.
Proof.
  induction t as [|c t IH]; intros n; [done|].
  change (escapeHtml (c :: t)) with (escape_unit c ++ escapeHtml t). rewrite <- app_assoc. unfold escape_unit.
  repeat match goal with |- context [if ?x then _ else _] => destruct x eqn:? end; bool_norm; subst;
    try (cbn; by rewrite IH).
  cbn [app length plus]. rewrite decode_plain by done. by rewrite IH.
Qed.

Lemma escape_longer t : (length t <= length (escapeHtml t))%nat.
Proof.
  induction t as [|c t IH]; [done|]. change (escapeHtml (c :: t)) with (escape_unit c ++ escapeHtml t).
  rewrite length_app. cbn [length]. enough (1 <= length (escape_unit c))%nat by lia.
  unfold escape_unit. repeat match goal with |- context [if ?x then _ else _] => destruct x end; apply Nat.leb_le; vm_compute; reflexivity.
Qed.

(** The parser hands the identifier to the script as it is. *)
Lemma onclick_value w : attribute_value (row_onclick w)
  = js "selectWorkspace('" ++ default [] (or_text (ws_id w) (ws_path w)) ++ js "')".
Proof.
  unfold attribute_value, row_onclick, escape_opt. set (t := default [] _). pose proof (escape_longer t) as Hl.
  assert (E : (length (js "selectWorkspace('" ++ escapeHtml t ++ js "')")
    = length (js "selectWorkspace('") + (length t + (length (escapeHtml t) - length t + 2)))%nat).
  { rewrite !length_app. change (length (js "')")) with 2%nat. lia. }
  rewrite E, decode_prefix, decode_escaped, (decode_no_reference (js "')")); [done| | |].
  - rewrite <- (bool_decide_eq_true (_ ∈ _)). by vm_compute.
  - change (length (js "')")) with 2%nat. lia.
  - rewrite <- (bool_decide_eq_true (_ ∈ _)). by vm_compute.
Qed.

(** Without apostrophe, backslash and line break. *)
Definition plain_text (t : jsstring) : Prop := Forall (fun c => c <> 39 /\ c <> 92 /\ c <> 10 /\ c <> 13) t.

Lemma literal_plain t r : plain_text t -> literal (t ++ 39 :: r) = Some (t, r).
Proof.
  induction 1 as [|c t (H1 & H2 & H3 & H4) _ IH]; [done|]. cbn [app literal].
  apply N.eqb_neq in H1, H2, H3, H4. by rewrite H1, H2, H3, H4, IH.
Qed.

Lemma called_with_plain t : plain_text t -> called_with (js "selectWorkspace('" ++ t ++ js "')") = Some t.
Proof.
  intros H. unfold called_with.
  replace (starts_with (js "selectWorkspace('") (js "selectWorkspace('" ++ t ++ js "')")) with true by (symmetry; reflexivity).
  change (drop 17 (js "selectWorkspace('" ++ t ++ js "')")) with (t ++ 39 :: js ")"). by rewrite literal_plain.
Qed.

Lemma select_finds sf ls cookies p w t :
  w ∈ authenticWorkspaces (projects_of p) -> or_text (ws_id w) (ws_path w) = Some t ->
  (forall v, v ∈ authenticWorkspaces (projects_of p) -> ws_id v = Some t \/ ws_path v = Some t -> v = w) ->
  activeWorkspace (projects_of (selectWorkspace sf ls cookies t p)) = Some w.
Proof.
  intros Hin Ht Hu. assert (Hw : ws_id w = Some t \/ ws_path w = Some t).
  { unfold or_text in Ht. destruct (ws_id w) as [i|]; [destruct (truthy i)|]; auto. }
  unfold selectWorkspace. destruct (List.find _ _) as [v|] eqn:E.
  - apply find_In in E as [Hv Hm]. apply list_elem_of_In in Hv.
    assert (v = w) as ->. { apply Hu; [done|]. apply orb_true_iff in Hm as [Hm|Hm]; apply bool_decide_eq_true in Hm; auto. }
    by apply render_active.
  - apply list_elem_of_In in Hin. pose proof (List.find_none _ _ E w Hin) as Hf. cbn in Hf.
    apply orb_false_iff in Hf as [H1 H2]. apply bool_decide_eq_false in H1, H2. naive_solver.
Qed.

(** C28: A click on the row of a listed project selects that project: through the escaping of
    the template, the HTML parser and the string literal of the event attribute the
    function receives the identifier of the project (its path when it has none), and the
    project becomes the active one.  It holds for every text without apostrophe, backslash
    and line break that belongs to no other listed project. *)
Theorem click_selects_the_project sf ls cookies unsent p w t :
  w ∈ authenticWorkspaces (projects_of p) -> or_text (ws_id w) (ws_path w) = Some t -> plain_text t ->
  (forall v, v ∈ authenticWorkspaces (projects_of p) -> ws_id v = Some t \/ ws_path v = Some t -> v = w) ->
  exists arg, called_with (attribute_value (row_onclick w)) = Some arg /\
    activeWorkspace (projects_of (step sf ls cookies unsent p (WorkspaceClick arg))) = Some w.
Proof.
  intros Hin Ht Hp Hu. exists t. rewrite onclick_value, Ht. split; [by apply called_with_plain|]. by apply select_finds.
Qed.

(** The identifier of a project can hold a script: since the HTML parser undoes the
    escaping, an identifier that closes the literal and the call makes a click on the row
    run the text after it, whatever that text is. *)
Theorem project_id_is_script w code :
  ws_id w = Some (js "');" ++ code ++ js ";('") ->
  attribute_value (row_onclick w) = js "selectWorkspace('');" ++ code ++ js ";('')".
Proof.
  intros H. rewrite onclick_value, H.
  change (default [] _) with (js "');" ++ code ++ js ";('"). rewrite <- !app_assoc. reflexivity.
Qed.

(** ** Witnesses *)

Definition listed : page :=
  exec no_fraction_text key_store [] [] [DomLoaded; FleetReply 0 true [project "a" "site" "C:\site"; project "b" "R&D" "C:\rd"] []] fresh_page.

Lemma click_selects_the_project_witness :
  exists arg, called_with (attribute_value (row_onclick (project "b" "R&D" "C:\rd"))) = Some arg /\
    activeWorkspace (projects_of (step no_fraction_text key_store [] [] listed (WorkspaceClick arg))) = Some (project "b" "R&D" "C:\rd").
Proof.
  assert (L : authenticWorkspaces (projects_of listed) = [project "a" "site" "C:\site"; project "b" "R&D" "C:\rd"]) by (vm_compute; reflexivity).
  apply (click_selects_the_project no_fraction_text key_store [] [] listed (project "b" "R&D" "C:\rd") (js "b")).
  - rewrite L. set_solver.
  - reflexivity.
  - repeat constructor; done.
  - rewrite L. intros v [-> | ->%list_elem_of_singleton]%elem_of_cons; [|done]. by intros [[=]|[=]].
Defined.

Lemma project_id_is_script_witness :
  attribute_value (row_onclick (Workspace (Some (js "');" ++ js "alert(1)" ++ js ";('")) None None None))
  = js "selectWorkspace('');" ++ js "alert(1)" ++ js ";('')".
Proof. apply (project_id_is_script (Workspace (Some (js "');" ++ js "alert(1)" ++ js ";('")) None None None) (js "alert(1)")). reflexivity. Defined.

(** A Windows path in place of a missing identifier loses its backslashes on the way, and
    nothing is selected. *)
Example windows_path_selects_nothing :
  let w := Workspace None (Some (js "rd")) (Some (js "C:\rd")) None in
  let p := exec no_fraction_text key_store [] [] [DomLoaded; FleetReply 0 true [project "a" "site" "C:\site"; w] []] fresh_page in
  called_with (attribute_value (row_onclick w)) = Some (js "C:" ++ [13] ++ js "d") /\
  step no_fraction_text key_store [] [] p (WorkspaceClick (js "C:" ++ [13] ++ js "d")) = p.
Proof. vm_compute. split; reflexivity. Qed.
