(* ===== verification/AgentMarkdown.v ===== *)
(** * The Markdown of the agent page (agent.html, [formatMarkdown])

    Replies of an agent are escaped and then go through six replacements.  Each pattern is
    a matcher over the subject, with the character before the position for the anchors;
    [replace_all] is the scan of a global replacement.  The theorem: whatever the reply,
    every [<] of the result opens one of the tags the function itself writes. *)
From Stdlib Require Import Lia NArith ZArith QArith.
From stdpp Require Import base numbers list gmap strings.
From S2P Require Import Prelude JsString JsNumber JsValue Markdown AgentRows.

#[local] Open Scope N_scope.

(** ** The function *)

(** What a pattern accepts at a position: the replacement and the length of the match. *)
Definition pattern : Type := option N -> jsstring -> option (jsstring * nat).

Fixpoint replace_at (m : pattern) (prev : option N) (skip : nat) (s : jsstring) : jsstring :=
  match s with
  | [] => []
  | c :: r =>
      match skip with
      | S k => replace_at m (Some c) k r
      | O => match m prev s with
             | Some (out, n) => out ++ replace_at m (Some c) (pred n) r
             | None => c :: replace_at m (Some c) 0 r
             end
      end
  end.
Definition replace_all (m : pattern) (s : jsstring) : jsstring := replace_at m None 0 s.

(** [(.*?)] before [d]: the shortest text without a line terminator. *)
Fixpoint lazy_to (d s : jsstring) : option jsstring :=
  if starts_with d s then Some []
  else match s with
       | [] => None
       | c :: r => if line_terminator c then None else cons c <$> lazy_to d r
       end.

(** The text between two delimiters [d] becomes the content of an element. *)
Definition between (d open close : jsstring) : pattern := fun _ s =>
  if starts_with d s then
    match lazy_to d (drop (length d) s) with
    | Some g => Some (open ++ g ++ close, (length d + length g + length d)%nat)
    | None => None
    end
  else None.

(** [^\s*mark\s+(.*$)] with flag [m]. *)
Definition item (mark : N) : pattern := fun prev s =>
  if match prev with Some c => line_terminator c | None => true end then
    let '(w, t) := span is_ws s in
    match t with
    | c :: r =>
        if c =? mark then
          let '(w2, u) := span is_ws r in
          match w2 with
          | [] => None
          | _ :: _ =>
              let g := (span (fun x => negb (line_terminator x)) u).1 in
              Some (js "<li>" ++ g ++ js "</li>", (length w + 1 + length w2 + length g)%nat)
          end
        else None
    | [] => None
    end
  else None.

(** [\n\n] *)
Definition blank_line : pattern := fun _ s =>
  if starts_with [10; 10] s then Some (js "<p></p>", 2%nat) else None.

(** [formatMarkdown(str)] *)
Definition formatMarkdown (str : jsstring) : jsstring :=
  if truthy str then
    replace_all blank_line
      (replace_all (item 42)
         (replace_all (item 8226)
            (replace_all (between [96] (js "<code>") (js "</code>"))
               (replace_all (between [42] (js "<em>") (js "</em>"))
                  (replace_all (between [42; 42] (js "<strong>") (js "</strong>"))
                     (escapeHtml str))))))
  else [].

Example format_example :
  formatMarkdown (js "**a** & `b`" ++ [10] ++ js "• <c>") = js "<strong>a</strong> &amp; <code>b</code>" ++ [10] ++ js "<li>&lt;c&gt;</li>".
Proof. vm_compute. reflexivity. Qed.

(** ** Tidy texts *)

Definition tags : list jsstring :=
  js <$> ["<strong>"; "</strong>"; "<em>"; "</em>"; "<code>"; "</code>"; "<li>"; "</li>"; "<p>"; "</p>"]%string.

(** Characters at which patterns start; none occurs in a tag. *)
Definition special (c : N) : bool := is_ws c || (c =? 42) || (c =? 96) || (c =? 8226).

(** Texts made of characters other than [<] and of the tags. *)
Inductive tidy : jsstring -> Prop :=
| tidy_nil : tidy []
| tidy_char c s : c <> 60 -> tidy s -> tidy (c :: s)
| tidy_tag t s : t ∈ tags -> tidy s -> tidy (t ++ s).
#[local] Hint Constructors tidy : core.

Lemma tags_shape t : t ∈ tags -> exists r, t = 60 :: r /\ 60 ∉ r /\ forall c, c ∈ t -> special c = false.
Proof.
  intros Ht. assert (H : forallb (fun t => match t with
      | c :: r => (c =? 60) && negb (bool_decide (60 ∈ r)) && forallb (fun c => negb (special c)) t
      | [] => false end) tags = true) by (vm_compute; reflexivity).
  rewrite forallb_forall in H. apply list_elem_of_In in Ht. specialize (H t Ht). destruct t as [|c r]; [done|].
  apply andb_true_iff in H as [H1 H2]. bool_norm. subst. exists r. split_and!; [done..|].
  rewrite forallb_forall in H2. intros c Hin. apply list_elem_of_In in Hin. specialize (H2 c Hin). by apply negb_true_iff in H2.
Qed.

Lemma tidy_app a b : tidy a -> tidy b -> tidy (a ++ b).
Proof. induction 1; cbn; intros Hb; [done|apply tidy_char; auto|rewrite <- app_assoc; apply tidy_tag; auto]. Qed.

Lemma tidy_plain s : 60 ∉ s -> tidy s.
Proof. induction s as [|c s IH]; [done|]. intros H. apply tidy_char; [set_solver|]. apply IH. set_solver. Qed.

Lemma tidy_tail c s : tidy (c :: s) -> tidy s.
Proof.
  inversion 1 as [|? ? ? Hs|t s' Ht Hs E]; subst; [done|]. destruct (tags_shape t Ht) as (r & -> & Hr & _).
  injection E as <- <-. apply tidy_app; [by apply tidy_plain|done].
Qed.

Lemma tidy_drop n s : tidy s -> tidy (drop n s).
Proof. revert s. induction n as [|n IH]; intros [|c s] H; try done. cbn. apply IH. by eapply tidy_tail. Qed.

(** What precedes a special character is tidy by itself. *)
Lemma tidy_cut a d b : special d = true -> tidy (a ++ d :: b) -> tidy a.
Proof.
  intros Hd H. remember (a ++ d :: b) as u eqn:E. revert a E.
  induction H as [|c s Hc Hs IH|t s Ht Hs IH]; intros a E; [by destruct a|destruct a as [|x a]; [done|]; injection E as -> ->; auto|].
  destruct (tags_shape t Ht) as (r & -> & Hr & Hsp).
  apply app_eq_app in E as (k & [[E1 E2]|[E1 E2]]).
  - destruct k as [|x k]; [rewrite app_nil_r in E1; subst; rewrite <- (app_nil_r (60 :: r)); auto|].
    exfalso. injection E2 as -> ->. assert (special x = false) by (apply Hsp; rewrite E1; set_solver). congruence.
  - subst. apply tidy_tag; [done|]. by apply IH.
Qed.

(** ** Replacements keep a text tidy *)

Definition good (m : pattern) : Prop := forall prev s out n, m prev s = Some (out, n) ->
  (exists c r, s = c :: r /\ special c = true) /\ (tidy s -> tidy out).

Lemma copied m a s : good m -> (forall c, c ∈ a -> special c = false) -> forall prev,
  exists prev', replace_at m prev 0 (a ++ s) = a ++ replace_at m prev' 0 s.
Proof.
  intros Hm. induction a as [|c a IH]; intros Ha prev; [by exists prev|]. cbn [app replace_at].
  destruct (IH ltac:(set_solver) (Some c)) as [prev' E].
  destruct (m prev (c :: a ++ s)) as [[out n]|] eqn:Em; [|exists prev'; by rewrite E].
  destruct (Hm _ _ _ _ Em) as [(c' & r & [= <- <-] & Hc) _]. rewrite Ha in Hc; [done|set_solver].
Qed.

Lemma replace_tidy_at m : good m -> forall n s, (length s <= n)%nat -> tidy s -> forall prev k, tidy (replace_at m prev k s).
Proof.
  intros Hm. induction n as [|n IH]; intros s Hl Hs prev k; [destruct s; [by destruct k|cbn in Hl; lia]|].
  destruct Hs as [|c s Hc Hs|t s Ht Hs].
  - by destruct k.
  - cbn in Hl. destruct k as [|k]; cbn [replace_at]; [|apply IH; [lia|done]].
    destruct (m prev (c :: s)) as [[out x]|] eqn:Em; [|apply tidy_char; [done|apply IH; [lia|done]]].
    apply tidy_app; [|apply IH; [lia|done]]. by apply (Hm _ _ _ _ Em); auto.
  - destruct (tags_shape t Ht) as (r & -> & Hr & Hsp). cbn in Hl. rewrite length_app in Hl. destruct k as [|k].
    + destruct (copied m (60 :: r) s Hm Hsp prev) as [prev' ->]. apply tidy_tag; [done|]. apply IH; [lia|done].
    + cbn [app replace_at]. apply IH; [rewrite length_app; lia|]. apply tidy_app; [by apply tidy_plain|done].
Qed.

Lemma replace_tidy m s : good m -> tidy s -> tidy (replace_all m s).
Proof. intros Hm Hs. by apply (replace_tidy_at m Hm (length s)). Qed.

(** ** The patterns *)

Lemma lazy_split d s g : lazy_to d s = Some g -> exists r, s = g ++ d ++ r.
Proof.
  revert g. induction s as [|c s IH]; intros g; cbn.
  - destruct (starts_with d []) eqn:E; [|done]. intros [= <-]. apply starts_with_spec in E as [r E]. by exists r.
  - destruct (starts_with d (c :: s)) eqn:E; [intros [= <-]; apply starts_with_spec in E as [r E]; by exists r|].
    destruct (line_terminator c); [done|]. destruct (lazy_to d s) as [g'|]; [|done]. intros [= <-].
    destruct (IH g' eq_refl) as [r ->]. by exists r.
Qed.

Lemma elem_of_tags t : existsb (seqb t) tags = true -> t ∈ tags.
Proof. intros (x & Hx & E)%existsb_exists. apply seqb_eq in E as ->. by apply list_elem_of_In. Qed.

Lemma tidy_wrapped open close g : open ∈ tags -> close ∈ tags -> tidy g -> tidy (open ++ g ++ close).
Proof. intros Ho Hc Hg. apply tidy_tag; [done|]. apply tidy_app; [done|]. rewrite <- (app_nil_r close). auto. Qed.

Lemma between_good d0 d open close : special d0 = true -> open ∈ tags -> close ∈ tags -> good (between (d0 :: d) open close).
Proof.
  intros Hd Ho Hc prev s out n. unfold between. destruct (starts_with (d0 :: d) s) eqn:E; [|done].
  apply starts_with_spec in E as [r ->]. rewrite drop_app_length. destruct (lazy_to (d0 :: d) r) as [g|] eqn:El; [|done].
  intros [= <- <-]. apply lazy_split in El as [r' ->]. split; [by exists d0, (d ++ g ++ (d0 :: d) ++ r')|].
  intros Hs. apply tidy_wrapped; [done..|].
  apply (tidy_drop (length (d0 :: d))) in Hs. rewrite drop_app_length in Hs. by apply tidy_cut in Hs.
Qed.

Lemma span_split p s : s = (span p s).1 ++ (span p s).2 /\ Forall (fun c => p c = true) (span p s).1
  /\ match (span p s).2 with c :: _ => p c = false | [] => True end.
Proof.
  induction s as [|c s (IH1 & IH2 & IH3)]; [done|]. cbn. destruct (p c) eqn:E; [|done].
  destruct (span p s) as [a b]. cbn in *. split_and!; [by f_equal|by constructor|done].
Qed.

Lemma terminator_special c : line_terminator c = true -> special c = true.
Proof. unfold line_terminator, special. intros H. repeat (apply orb_true_iff in H as [H|H]); bool_norm; subst; vm_compute; reflexivity. Qed.

Lemma item_good mark : special mark = true -> good (item mark).
Proof.
  intros Hk prev s out n. unfold item. destruct (match prev with Some _ => _ | None => _ end); [|done].
  destruct (span is_ws s) as [w t] eqn:E. pose proof (span_split is_ws s) as (S1 & S2 & _). rewrite E in S1, S2. cbn in S1, S2.
  destruct t as [|c r]; [done|]. destruct (c =? mark) eqn:Em; [|done]. bool_norm. subst c.
  destruct (span is_ws r) as [w2 u] eqn:E2. pose proof (span_split is_ws r) as (R1 & _ & _). rewrite E2 in R1. cbn in R1.
  destruct w2 as [|x w2]; [done|]. intros Hi.
  assert (Eo : out = js "<li>" ++ (span (fun x => negb (line_terminator x)) u).1 ++ js "</li>") by congruence. clear Hi. split.
  - rewrite S1. destruct w as [|y w]; [by exists mark, r|]. exists y, (w ++ mark :: r). split; [done|].
    apply Forall_cons in S2 as [H _]. unfold special. by rewrite H.
  - rewrite Eo, S1. intros Hs. apply (tidy_drop (length w)) in Hs. rewrite drop_app_length in Hs. apply tidy_tail in Hs.
    rewrite R1 in Hs. apply (tidy_drop (length (x :: w2))) in Hs. rewrite drop_app_length in Hs.
    destruct (span_split (fun x => negb (line_terminator x)) u) as (U1 & _ & U3).
    apply tidy_wrapped; [apply elem_of_tags; vm_compute; reflexivity..|].
    rewrite U1 in Hs. destruct (span _ u) as [g v]. cbn in *. destruct v as [|z v]; [by rewrite app_nil_r in Hs|].
    apply tidy_cut in Hs; [done|]. apply negb_false_iff in U3. by apply terminator_special.
Qed.

Lemma blank_good : good blank_line.
Proof.
  intros prev s out n. unfold blank_line. destruct (starts_with [10; 10] s) eqn:E; [|done]. intros [= <- <-].
  apply starts_with_spec in E as [r ->]. split; [by exists 10, (10 :: r)|]. intros _.
  change (js "<p></p>") with (js "<p>" ++ [] ++ js "</p>"). apply tidy_wrapped; [apply elem_of_tags; vm_compute; reflexivity..|done].
Qed.

Lemma escaped_tidy s : tidy (escapeHtml s).
Proof. apply tidy_plain. apply (escape_quiet Html.InText s). done. Qed.

Lemma tidy_formatted s : tidy (formatMarkdown s).
Proof.
  unfold formatMarkdown. destruct (truthy s); [|done].
  repeat first [apply replace_tidy|apply blank_good|apply item_good; [vm_compute; reflexivity]
    |apply between_good; [vm_compute; reflexivity|apply elem_of_tags; vm_compute; reflexivity..]|apply escaped_tidy].
Qed.

(** C32: Whatever an agent replies, every [<] in the markup the agent page shows for it opens
    one of the ten tags that [formatMarkdown] writes itself: the reply cannot bring an
    element of its own. *)
Theorem agent_reply_only_own_tags s a b :
  formatMarkdown s = a ++ 60 :: b -> exists t, t ∈ tags /\ starts_with t (60 :: b) = true.
Proof.
  intros E. pose proof (tidy_formatted s) as H. rewrite E in H. clear E.
  apply (tidy_drop (length a)) in H. rewrite drop_app_length in H.
  inversion H as [|? ? Hc|t s' Ht Hs Et]; [done|]. exists t. split; [done|]. apply starts_with_app.
Qed.

Lemma agent_reply_only_own_tags_witness :
  exists t, t ∈ tags /\ starts_with t (60 :: js "strong>&lt;img src=x&gt;</strong>") = true.
Proof.
  apply (agent_reply_only_own_tags (js "**<img src=x>**") [] (js "strong>&lt;img src=x&gt;</strong>")). vm_compute. reflexivity.
Defined.
