(* ===== verification/AgentBoxes.v ===== *)
(** * Menus, drawers, models, nodes and the service box of the agent page (agent.html)

    The parts of the page beside projects and sessions, a Module each.  A second definition
    of [toggleSidebar] and [toggleRightRail] in the script replaces the first. *)
From Stdlib Require Import Lia NArith ZArith QArith.
From stdpp Require Import base numbers list gmap strings.
From S2P Require Import Prelude JsString JsNumber JsValue Html AgentPage AgentRows.

#[local] Open Scope js_scope.

(** ** Dropdown menus *)

Module Menus.

(** The elements of class [codex-menu] with whether they are shown; identifiers of elements
    are distinct. *)
Definition state : Type := list (jsstring * bool).

Definition close_all (s : state) : state := (fun m => (m.1, false)) <$> s.

(** [toggleMenu(id)] *)
Definition toggleMenu (i : jsstring) (s : state) : state :=
  match List.find (fun m => seqb m.1 i) s with
  | Some (_, wasOpen) => (fun m => (m.1, seqb m.1 i && negb wasOpen)) <$> s
  | None => s
  end.

(** [MenuClick] is a click on the button of a menu, whose listener on the window finds a
    menu container around it; [setPolicy] and [setModel] close all menus. *)
Inductive event : Type := MenuClick (i : jsstring) | OutsideClick | InsideClick | Chosen.

Definition step (s : state) (e : event) : state :=
  match e with
  | MenuClick i => toggleMenu i s
  | OutsideClick | Chosen => close_all s
  | InsideClick => s
  end.

Definition shown (s : state) : list (jsstring * bool) := List.filter snd s.

Lemma shown_close s : shown (close_all s) = [].
Proof. induction s as [|m s IH]; [done|]. cbn. exact IH. Qed.

Lemma shown_only i b (s : state) : NoDup s.*1 -> (length (shown ((fun m : jsstring * bool => (m.1, seqb m.1 i && b)) <$> s)) <= 1)%nat.
Proof.
  induction s as [|m s IH]; [cbn; lia|]. intros [Hm Hs]%NoDup_cons. cbn [fmap list_fmap shown List.filter snd].
  destruct (seqb m.1 i && b) eqn:E; [|by apply IH]. apply andb_true_iff in E as [E _]. apply seqb_eq in E. subst i.
  replace (List.filter snd ((fun m0 : jsstring * bool => (m0.1, seqb m0.1 m.1 && b)) <$> s)) with (@nil (jsstring * bool)); [cbn; lia|].
  clear IH Hs. induction s as [|x s IH]; [done|]. cbn [fmap list_fmap List.filter snd].
  replace (seqb x.1 m.1) with false; [|symmetry; apply seqb_neq; intros E; apply Hm; rewrite E; by left].
  apply IH. intros H. apply Hm. by right.
Qed.

(** At most one menu is open. *)
Lemma one_menu_open es s : NoDup s.*1 -> (length (shown s) <= 1)%nat -> (length (shown (fold_left step es s)) <= 1)%nat.
Proof.
  intros Hn Hs. enough (H : NoDup (fold_left step es s).*1 /\ (length (shown (fold_left step es s)) <= 1)%nat) by apply H.
  apply (fold_invariant step (fun s => NoDup s.*1 /\ (length (shown s) <= 1)%nat) (fun _ => True));
    [|by apply Forall_true|done].
  assert (F : forall (f : jsstring * bool -> bool) (s : state), ((fun m => (m.1, f m)) <$> s).*1 = s.*1)
    by (intros f l; rewrite <- list_fmap_compose; by apply list_fmap_ext).
  intros t [i| | |] _ [H1 H2]; cbn [step]; try done.
  - unfold toggleMenu. destruct (List.find _ t) as [[]|]; [|done]. rewrite F. split; [done|]. by apply shown_only.
  - unfold close_all at 1. rewrite (F (fun _ => false)), shown_close. cbn. split; [done|lia].
  - unfold close_all at 1. rewrite (F (fun _ => false)), shown_close. cbn. split; [done|lia].
Qed.

End Menus.

(** ** Dialogs *)

Module Dialogs.

(** Whether the dialogs for differences, for a new project and for the details of a project
    are open. *)
Record state := State { diff : bool; add_project : bool; details : bool }.

Definition showDiffModal (s : state) : state := State true (add_project s) (details s).
Definition closeDiffModal (s : state) : state := State false (add_project s) (details s).
Definition promptAddWorkspace (s : state) : state := State (diff s) true (details s).
Definition closeWorkspaceModal (s : state) : state := State (diff s) false (details s).
(** [showWorkspaceDetails(wsId)] opens its dialog for a listed project only. *)
Definition showWorkspaceDetails (i : jsstring) (l : list workspace) (s : state) : state :=
  match by_id i l with Some _ => State (diff s) (add_project s) true | None => s end.
Definition closeDetailsModal (s : state) : state := State (diff s) (add_project s) false.

End Dialogs.

(** ** Drawers *)

Module Drawers.

Record state := State { sidebar_open : bool; collapsed : bool; rail_open : bool; backdrop : bool }.

(** [toggleSidebar()] and [toggleRightRail()]; [narrow]: [window.innerWidth <= 768]. *)
Definition toggleSidebar (narrow : bool) (s : state) : state :=
  if narrow then State (negb (sidebar_open s)) (collapsed s) false (negb (sidebar_open s))
  else State (sidebar_open s) (negb (collapsed s)) (rail_open s) (backdrop s).
Definition toggleRightRail (narrow : bool) (s : state) : state :=
  if narrow then State false (collapsed s) (negb (rail_open s)) (negb (rail_open s))
  else State (sidebar_open s) (collapsed s) (negb (rail_open s)) (backdrop s).

(** [closeAllDrawers()] *)
Definition closeAllDrawers (s : state) : state := State false (collapsed s) false false.

Inductive event : Type := SidebarButton | RailButton | CloseAll.

Definition step (narrow : bool) (s : state) (e : event) : state :=
  match e with
  | SidebarButton => toggleSidebar narrow s
  | RailButton => toggleRightRail narrow s
  | CloseAll => closeAllDrawers s
  end.

(** On a narrow window at most one drawer is open, and the backdrop is there exactly then. *)
Lemma one_drawer_open es s :
  sidebar_open s && rail_open s = false -> backdrop s = sidebar_open s || rail_open s ->
  let t := fold_left (step true) es s in
  sidebar_open t && rail_open t = false /\ backdrop t = sidebar_open t || rail_open t.
Proof.
  intros H1 H2. apply (fold_invariant (step true)
    (fun s => sidebar_open s && rail_open s = false /\ backdrop s = sidebar_open s || rail_open s) (fun _ => True));
    [|by apply Forall_true|done].
  by intros [[] c [] b] [] _ [? ?].
Qed.

(** A rail opened in a wide window has no backdrop when the window becomes narrow. *)
Example wide_rail_has_no_backdrop :
  let t := toggleRightRail false (State false false false false) in rail_open t = true /\ backdrop t = false.
Proof. done. Qed.

End Drawers.

(** ** The model menu *)

Module Models.

Record state := State { menu : list (jsval * jsval); currentModel : jsval; label : jsstring }.

(** An entry of the reply: identifier and name. *)
Definition model_of (m : jsval) : outcome jsstring (jsval * jsval) :=
  match m with
  | VStr _ => Ret (m, m)
  | _ =>
      let* i := get m (js "id") in
      let* d := get m (js "model") in
      let* n := get m (js "name") in
      Ret (vor i (vor d n), vor n (vor i d))
  end.

Fixpoint models_of (l : list jsval) : outcome jsstring (list (jsval * jsval)) :=
  match l with
  | [] => Ret []
  | m :: r => let* x := model_of m in let* xs := models_of r in Ret (x :: xs)
  end.

(** [Array.isArray(data && data.data) ? data.data : ...] *)
Definition raw_models (data : jsval) : list jsval :=
  match prop data (js "data") with
  | VArr l => l
  | _ => array_or_nil (prop data (js "models"))
  end.

Definition offline_menu : list (jsval * jsval) :=
  (fun e => (VStr (js e.1), VStr (js e.2))) <$>
  [("qwen2.5-coder:32b", "Qwen 2.5 Coder 32B (Inference Engine)"); ("deepseek-r1:70b", "DeepSeek R1 70B (P2P Mesh Reasoning)");
   ("gemma3:4b", "Gemma 3 4B (Local CUDA Node)"); ("llama-3.3:70b", "Llama 3.3 70B (High-Precision Instruct)")]%string.

(** [t.split(sep)[0]] *)
Fixpoint before_first (sep t : jsstring) : jsstring :=
  if starts_with sep t then []
  else match t with [] => [] | c :: r => c :: before_first sep r end.

(** [renderModelMenu(models)]; without a current model the first one is taken, if its name
    is a text. *)
Definition renderModelMenu (models : list (jsval * jsval)) (s : state) : state :=
  match models with
  | (i, n) :: _ =>
      if vtruthy (currentModel s) then State models (currentModel s) (label s)
      else State models i (match n with VStr t => before_first (js " (") t | _ => label s end)
  | [] => State models (currentModel s) (label s)
  end.

(** [loadModels()]: [None] for a refusal or a failure. *)
Definition loadModels (reply : option jsval) (s : state) : state :=
  match models_of <$> (raw_models <$> reply) with
  | Some (Ret ((_ :: _) as l)) => renderModelMenu l s
  | _ => renderModelMenu offline_menu s
  end.

(** The page starts with a model of its own; no reply changes it, whether or not the menu
    offers it. *)
Lemma menu_keeps_the_model reply s : vtruthy (currentModel s) = true ->
  currentModel (loadModels reply s) = currentModel s /\ label (loadModels reply s) = label s.
Proof.
  intros H. assert (R : forall l, currentModel (renderModelMenu l s) = currentModel s /\ label (renderModelMenu l s) = label s).
  { intros [|[i n] l]; unfold renderModelMenu; [done|]. by rewrite H. }
  unfold loadModels. destruct (models_of <$> (raw_models <$> reply)) as [[[|x l]|]|]; apply R.
Qed.

(** The menu is never empty. *)
Lemma menu_is_not_empty reply s : menu (loadModels reply s) <> [].
Proof.
  unfold loadModels, renderModelMenu.
  destruct (models_of <$> (raw_models <$> reply)) as [[[|[i n] l]|]|]; cbn; by destruct (vtruthy (currentModel s)).
Qed.

Example unoffered_model_stays :
  let s := loadModels (Some (VObj [(js "data", VArr [VStr (js "gemma3:4b")])]))
             (State [] (VStr (js "qwen2.5-coder:32b")) (js "Qwen 2.5 Coder")) in
  menu s = [(VStr (js "gemma3:4b"), VStr (js "gemma3:4b"))] /\ currentModel s = VStr (js "qwen2.5-coder:32b").
Proof. vm_compute. split; reflexivity. Qed.

End Models.

(** ** The nodes *)

Module Nodes.

Section Nodes.
Context (show_frac : Q -> jsstring).

(** [escapeHtml(x)] of a value. *)
Definition escape_val (v : jsval) : jsstring := if vtruthy v then escapeHtml (to_str show_frac v) else [].

Definition is_online (n : jsval) : bool := vtruthy (prop n (js "is_online")).

(** [(display_name || node_id || '').toLowerCase().includes('mifcom')] gives a fixed name. *)
Definition dispName (n : jsval) : jsval :=
  let v := vor (prop n (js "display_name")) (prop n (js "node_id")) in
  if includes (js "mifcom") (lower (if vtruthy v then to_str show_frac v else [])) then VStr (js "mifcoms (cm-win-mifcom-rtx3080)") else v.

(** [n.gpu_summary || (n.gpus && n.gpus[0]) || 'NVIDIA GeForce RTX 3080 10GB'] *)
Definition summary (n : jsval) : jsval :=
  vor (prop n (js "gpu_summary")) (vor (index_opt (prop n (js "gpus")) 0) (VStr (js "NVIDIA GeForce RTX 3080 10GB"))).

(** The memory of the node is inserted without escaping. *)
Definition vramText (n : jsval) : jsstring :=
  let v := prop n (js "vram_gb") in if vtruthy v then to_str show_frac v ++ js "GB VRAM" else [].

Definition node_row (n : jsval) : list piece :=
  [Lit (jsq "
          <div class=`node-item-clean`>
            <div>
              <div class=`node-name-label`>");
   Hole (escape_val (dispName n));
   Lit (jsq "</div>
              <div style=`font-size: 10px; color: var(--text-muted);`>");
   Hole (escape_val (summary n));
   Lit (js " ");
   Hole (if truthy (vramText n) then js "• " ++ vramText n else []);
   Lit (jsq "</div>
            </div>
            <div class=`node-status-tag ");
   Lit (if is_online n then js "online" else js "offline");
   Lit (jsq "`>");
   Lit (if is_online n then js "Bereit" else js "Offline");
   Lit (jsq "</div>
          </div>
        ")].

(** [renderNodesRail(nodes)]: the label, the rows and the node named in the side bar. *)
Definition count_label (nodes : list jsval) : jsstring :=
  show_N (N.of_nat (length (List.filter is_online nodes))) ++ js " Aktiv".
Definition primary (nodes : list jsval) : option jsval :=
  match List.filter is_online nodes with n :: _ => Some n | [] => head nodes end.
Definition renderNodesRail (nodes : list jsval) : jsstring :=
  match nodes with
  | [] => jsq "<div style=`font-size: 11px; color: var(--text-dim);`>Keine Inferenz-Knoten gefunden.</div>"
  | _ :: _ => concat ((fun n => fill (node_row n)) <$> nodes)
  end.

(** The node of the side bar is online when any is. *)
Lemma primary_online nodes : existsb is_online nodes = true -> exists n, primary nodes = Some n /\ is_online n = true.
Proof.
  intros (n & Hn & E)%existsb_exists. unfold primary. destruct (List.filter is_online nodes) as [|x l] eqn:F.
  - assert (H : In n (List.filter is_online nodes)) by (by apply filter_In). by rewrite F in H.
  - exists x. split; [done|]. assert (H : In x (List.filter is_online nodes)) by (rewrite F; by left). apply filter_In in H. apply H.
Qed.

(** Names and summaries cannot change the markup of a node whose memory is a number. *)
Lemma node_holes n : 60%N ∉ vramText n -> holes_ok InText (node_row n).
Proof.
  intros H. unfold node_row. assert (E : forall v, quiet InText (escape_val v)).
  { intros v. unfold escape_val. destruct (vtruthy v); [by apply escape_quiet|apply quiet_nil]. }
  destruct (is_online n); template_ok; try apply E;
    (destruct (truthy (vramText n)); [|apply quiet_nil]); cbn; rewrite elem_of_app; intros [Hx|Hx]; try done;
    revert Hx; rewrite <- (bool_decide_eq_true (_ ∈ _)); by vm_compute.
Qed.

End Nodes.

(** A text in the place of the memory becomes markup, and a node that reports no card is
    shown with one. *)
Example node_memory_is_html :
  let n := VObj [(js "node_id", VStr (js "n1")); (js "vram_gb", VStr (js "<img src=x>"))] in
  includes (js "• <img src=x>GB VRAM") (fill (node_row (fun _ => []) n)) = true /\
  summary n = VStr (js "NVIDIA GeForce RTX 3080 10GB").
Proof. vm_compute. split; reflexivity. Qed.

End Nodes.

(** ** The service box *)

Module Service.

(** The pill (its class and text) and the labels of mode, platform, name and port. *)
Record box := Box { pill : jsstring * jsstring; mode : jsstring; platform : jsstring; name : jsstring; port : jsstring }.

Section Service.
Context (show_frac : Q -> jsstring).

(** [refreshServiceStatus()] with the reply, [None] for a failure; all elements exist. *)
Definition refreshServiceStatus (l : lang) (reply : option jsval) (b : box) : box :=
  match reply with
  | Some data =>
      let isWin := strict_eq (prop data (js "platform")) (VStr (js "win32")) in
      let isInstalled := vtruthy (prop data (js "is_service_installed")) in
      let status := vor (prop data (js "service_status")) (VStr (js "UNKNOWN")) in
      let text k d := to_str show_frac (vor (prop data (js k)) (VStr (js d))) in
      let nm := text "service_name"%string (if isWin then "ComputeMeshNode" else "computemesh-node")%string in
      let b1 p m := Box p m (if isWin then js "Windows (x64)" else js "Linux (systemd)") nm (text "port"%string "8080"%string) in
      if strict_eq status (VStr (js "RUNNING")) then
        b1 (js "node-status-tag online",
            if isWin then tr l (js "SCM-Dienst aktiv") (js "SCM Service Active") else tr l (js "systemd aktiv") (js "systemd Active"))
           (tr l (js "Systemdienst (Hintergrund)") (js "System Service (Background)"))
      else if isInstalled then
        b1 (js "node-status-tag offline", tr l (js "Dienst gestoppt") (js "Service Stopped"))
           (tr l (js "Dienst installiert (inaktiv)") (js "Service Installed (Inactive)"))
      else
        b1 (js "node-status-tag online", tr l (js "Tray-Prozess aktiv") (js "Tray Process Active"))
           (tr l (js "Benutzer-App (Tray)") (js "User App (Tray)"))
  | None =>
      Box (js "node-status-tag online", tr l (js "Aktiv") (js "Active"))
        (tr l (js "Node Runner verbunden") (js "Node Runner Connected")) (platform b) (name b) (port b)
  end.

(** The pill is offline exactly for a service that is installed and not running. *)
Lemma offline_means_stopped l reply b :
  (refreshServiceStatus l reply b).(pill).1 = js "node-status-tag offline" <->
  exists data, reply = Some data /\ vtruthy (prop data (js "is_service_installed")) = true /\
    strict_eq (vor (prop data (js "service_status")) (VStr (js "UNKNOWN"))) (VStr (js "RUNNING")) = false.
Proof.
  destruct reply as [data|]; unfold refreshServiceStatus.
  - destruct (strict_eq (vor _ _) _) eqn:E1; [|destruct (vtruthy (prop data _)) eqn:E2]; cbn [pill fst].
    + split; [|intros (d & [= <-] & _ & ?); congruence]. intros H. apply seqb_eq in H. vm_compute in H. discriminate.
    + split; [intros _; by exists data|reflexivity].
    + split; [|intros (d & [= <-] & ? & _); congruence]. intros H. apply seqb_eq in H. vm_compute in H. discriminate.
  - cbn [pill fst]. split; [intros H; apply seqb_eq in H; vm_compute in H; discriminate|]. intros (d & E & _). discriminate E.
Qed.

(** The message of [controlApplianceService(action)]: its text and kind, whether it is
    shown, and the timers that hide it and that ask for the status again. *)
Inductive kind : Type := Pending | Success | Failure.
Record message := Message { m_text : jsstring; m_kind : kind; m_shown : bool; hiding : nat; refreshing : nat }.

Definition controlApplianceService (l : lang) (action : jsstring) (m : message) : message :=
  Message (tr l (js "Aktion '" ++ action ++ js "' wird ausgeführt...") (js "Running '" ++ action ++ js "'...")) Pending true
    (hiding m) (refreshing m).

(** Its reply, and a failure with the message of the exception. *)
Definition on_control (l : lang) (res : jsval) (m : message) : message :=
  let text v d := to_str show_frac (vor v (VStr d)) in
  let '(t, k) :=
    if vtruthy (prop res (js "success")) then (text (prop res (js "message")) (tr l (js "Erfolgreich") (js "Success")), Success)
    else (text (vor (prop res (js "message")) (prop res (js "error"))) (tr l (js "Fehlgeschlagen") (js "Failed")), Failure) in
  Message t k (m_shown m) (S (hiding m)) (S (refreshing m)).
Definition on_control_failed (l : lang) (e : jsstring) (m : message) : message :=
  Message (tr l (js "Fehler: ") (js "Error: ") ++ e) Failure (m_shown m) (S (hiding m)) (refreshing m).

(** A timer of four seconds hides whatever is shown then. *)
Definition on_hide (m : message) : message :=
  match hiding m with
  | S n => Message (m_text m) (m_kind m) false n (refreshing m)
  | O => m
  end.

End Service.

(** A status that cannot be read is shown as an active runner. *)
Example failed_status_is_active :
  let b := Box ([], []) [] [] [] [] in
  refreshServiceStatus (fun _ => []) En None b = Box (js "node-status-tag online", js "Active") (js "Node Runner Connected") [] [] [].
Proof. vm_compute. reflexivity. Qed.

(** The timer of the first action hides the message of the second. *)
Example old_timer_hides_the_message :
  let m := controlApplianceService De (js "stop") (on_control (fun _ => []) De (VObj [(js "success", VBool true)])
             (controlApplianceService De (js "start") (Message [] Pending false 0 0))) in
  m_shown m = true /\ m_kind m = Pending /\ m_shown (on_hide m) = false.
Proof. vm_compute. split_and!; reflexivity. Qed.

End Service.
