(* ===== verification/FleetCards.v ===== *)
(** * The node cards of the fleet cockpit (fleet.html, [loadFleet])

    What a card shows of a node, its links, the addresses tried for the local dashboard, and
    the complete markup as a template with holes.  The escaping of the page goes through the
    text of an element, which leaves quotation marks alone: it protects text, not
    attributes.  Identifiers, names, addresses and versions are texts; names of graphics
    cards are neither numbers nor names of inherited members of objects. *)
From Stdlib Require Import Lia NArith ZArith QArith.
From stdpp Require Import base numbers list gmap strings.
From S2P Require Import Prelude JsString JsNumber JsValue Html.

#[local] Open Scope N_scope.

(** ** Escaping *)

(** [div.textContent = s; return div.innerHTML]: the serializer escapes four characters. *)
Definition text_unit (c : N) : jsstring :=
  if c =? 38 then js "&amp;" else if c =? 60 then js "&lt;" else if c =? 62 then js "&gt;"
  else if c =? 160 then js "&nbsp;" else [c].
Definition escape_text (s : jsstring) : jsstring := map_chars text_unit s.

(** ** Graphics cards *)

(** [counts[name] = (counts[name] || 0) + 1] *)
Fixpoint count_in (name : jsstring) (l : list (jsstring * N)) : list (jsstring * N) :=
  match l with
  | [] => [(name, 1)]
  | (k, c) :: r => if seqb k name then (k, c + 1) :: r else (k, c) :: count_in name r
  end.

Definition inventory (n : jsval) (k : string) : jsval := prop (prop n (js "inventory")) (js k).

Section Card.
Context (show_frac : Q -> jsstring).
(** [new Date(v).toLocaleTimeString()] *)
Context (clock : jsval -> jsstring).
Context (l : lang).

Definition figure (v : jsval) : jsstring := to_str show_frac v.

(** [escapeHtml(v)] *)
Definition escape_val (v : jsval) : jsstring := if vtruthy v then escape_text (figure v) else [].

Definition gpu_name (g : jsval) : jsstring :=
  trim match g with
       | VStr s => s
       | _ => let m := prop g (js "model_name") in if vtruthy g && vtruthy m then figure m else js "GPU"
       end.

Definition gpu_counts (gs : list jsval) : list (jsstring * N) :=
  fold_left (fun a g => if truthy (gpu_name g) then count_in (gpu_name g) a else a) gs [].

(** [formatGpuSummary(gList)] *)
Definition formatGpuSummary (gs : list jsval) : jsstring :=
  match gs with
  | [] => tr l (js "CPU-only (Keine diskrete GPU)") (js "CPU-only (No discrete GPU)")
  | _ :: _ => join (js ", ") ((fun e => if 1 <? e.2 then show_N e.2 ++ js "x " ++ e.1 else e.1) <$> gpu_counts gs)
  end.

Definition rawGpus (n : jsval) : list jsval :=
  match prop (prop n (js "capabilities")) (js "gpus") with
  | VArr ((_ :: _) as a) => a
  | _ => array_or_nil (prop n (js "gpus"))
  end.

(** ** The node *)

Definition isOnline (n : jsval) : bool :=
  let v := prop n (js "is_online") in
  if is_undef v then strict_eq (prop n (js "status")) (VStr (js "online")) else vtruthy v.
Definition isMobile (n : jsval) : bool :=
  strict_eq (inventory n "host_architecture") (VStr (js "android_arm64"))
  || strict_eq (prop (prop n (js "software")) (js "client")) (VStr (js "ComputeMesh-Android"))
  || match prop n (js "node_id") with VStr i => starts_with (js "android-") i | _ => false end.

Definition no_gpu (n : jsval) : bool :=
  let v := prop n (js "gpu_count") in
  if is_undef v then match rawGpus n with [] => true | _ => false end else strict_eq v (VNum (num_Z 0)).
Definition displayGpu (n : jsval) : jsval :=
  if isMobile n then vor (inventory n "soc_model") (VStr (js "Android ARM64 CPU/NPU (MiniCPM5-2B)"))
  else vor (prop n (js "gpu_summary")) (VStr (formatGpuSummary (rawGpus n))).

Definition known (v : jsval) (d : Z) : jsval := if is_undef v then VNum (num_Z d) else v.
Definition hot (n : jsval) : bool := num_lt (num_Z 40) (Number (inventory n "temperature_c")).

Definition engineState (n : jsval) : jsval :=
  vor (prop n (js "model_runtime_state")) (vor (prop (prop n (js "model_runtime")) (js "state")) (VStr (js "stopped"))).
Definition engineError (n : jsval) : jsval :=
  vor (prop n (js "model_runtime_error")) (vor (prop (prop n (js "model_runtime")) (js "last_error")) (VStr [])).
Definition reason (n : jsval) : jsstring :=
  if strict_eq (engineState n) (VStr (js "running")) then tr l (js "Kein Modell geladen") (js "No model loaded")
  else tr l (js "Runtime gestoppt") (js "Runtime stopped").

Definition tflopsText (n : jsval) : jsstring :=
  match Number (vor (prop n (js "tflops")) (VNum (num_Z 0))) with
  | Fin q => if Qltb 0 q then toFixed 1 q ++ js " TFLOPS"
             else if strict_eq (prop n (js "compute_measurement")) (VStr (js "measuring"))
                  then tr l (js "⏳ Messung läuft...") (js "⏳ Measuring...")
                  else tr l (js "– (Nicht gemessen)") (js "– (Not measured)")
  | PInf => js "Infinity TFLOPS"
  | _ => if strict_eq (prop n (js "compute_measurement")) (VStr (js "measuring"))
         then tr l (js "⏳ Messung läuft...") (js "⏳ Measuring...")
         else tr l (js "– (Nicht gemessen)") (js "– (Not measured)")
  end.
Definition version (n : jsval) : jsval := vor (prop n (js "software_version")) (vor (prop n (js "version")) (VStr (js "1.2.x"))).
Definition heartbeat (n : jsval) : jsstring :=
  let v := prop n (js "updated_at") in if vtruthy v then clock v else js "–".

(** ** Links *)

Definition targetUrl (n : jsval) : jsstring :=
  let v := prop n (js "remote_url") in
  if vtruthy v then figure v else js "/node/" ++ figure (prop n (js "node_id")).
Definition dPort (n : jsval) : jsstring := figure (vor (prop n (js "dashboard_port")) (VNum (num_Z 8080))).
Definition lan_ips (n : jsval) : list jsval := array_or_nil (prop (prop n (js "network")) (js "lan_ips")).
Definition http (n : jsval) (ip : jsstring) : jsstring := js "http://" ++ ip ++ js ":" ++ dPort n.

Definition defaultLocalUrl (n : jsval) : jsstring :=
  let c := index_opt (prop n (js "candidate_local_urls")) 0 in
  if vtruthy c then figure c
  else match head (lan_ips n) with
       | Some ip => if vtruthy ip then http n (figure ip) else []
       | None => []
       end.

(** The addresses the page tries: those announced, then the network addresses that are not
    of the loopback net, and without any of them and without a link the local host. *)
Definition add_url (u : jsstring) (us : list jsstring) : list jsstring := if existsb (seqb u) us then us else us ++ [u].
Definition add_ip (n : jsval) (us : list jsstring) (ip : jsval) : list jsstring :=
  if vtruthy ip && negb (starts_with (js "127.") (figure ip)) then add_url (http n (figure ip)) us else us.
Definition candidateUrls (n : jsval) : list jsstring :=
  let us := fold_left (add_ip n) (lan_ips n) (figure <$> array_or_nil (prop n (js "candidate_local_urls"))) in
  match us with
  | [] => if truthy (defaultLocalUrl n) then [] else [http n (js "localhost"); http n (js "127.0.0.1")]
  | _ :: _ => us
  end.

(** [probeFleetNode(nodeId, candidates)]: the link after the attempts; [reach]: whether one
    of the two requests to an address succeeds in time. *)
Fixpoint probeFleetNode (reach : jsstring -> bool) (urls : list jsstring) (href : jsstring) : jsstring :=
  match urls with
  | [] => href
  | u :: r => if reach u then u else probeFleetNode reach r href
  end.

(** ** Markup *)

Definition display (n : jsval) : list piece :=
  let d := prop n (js "display_name") in
  if vtruthy d && negb (strict_eq d (prop n (js "node_id")))
  then [Hole (escape_val d); Lit (js " ("); Hole (escape_val (prop n (js "node_id"))); Lit (js ")")]
  else [Hole (escape_val (prop n (js "node_id")))].

Definition is_status (n : jsval) (s : string) : bool := strict_eq (prop n (js "status")) (VStr (js s)).

Definition statusBadge (n : jsval) : list piece :=
  if is_status n "quarantined" then [Lit (jsq "<div class=`status-pill quarantined` style=`background:rgba(239,68,68,0.2);color:#fca5a5;border:1px solid rgba(239,68,68,0.4);`><span class=`pulse-dot` style=`background:#ef4444;animation:none;`></span> ");
    Hole (tr l (js "Quarantäne") (js "Quarantined"));
    Lit (js "</div>")]
  else if isOnline n then [Lit (jsq "<div class=`status-pill online`><span class=`pulse-dot`></span> Online</div>")]
  else if is_status n "stale" then [Lit (jsq "<div class=`status-pill stale` style=`background:rgba(245,158,11,0.2);color:#fbbf24;border:1px solid rgba(245,158,11,0.4);`><span class=`pulse-dot` style=`background:#f59e0b;animation:none;`></span> ");
    Hole (tr l (js "Träge / Stale") (js "Stale"));
    Lit (js "</div>")]
  else [Lit (jsq "<div class=`status-pill offline` style=`background:rgba(100,116,139,0.2);color:#94a3b8;border:1px solid rgba(100,116,139,0.3);`><span class=`pulse-dot` style=`background:#64748b;animation:none;`></span> Offline / Standby</div>")].

Definition inferenceBadge (n : jsval) : list piece :=
  if vtruthy (prop n (js "inference_ready")) then [Lit (jsq "<div style=`display:inline-flex;align-items:center;gap:4px;background:rgba(16,185,129,0.15);border:1px solid rgba(16,185,129,0.35);color:#34d399;font-size:0.72rem;font-weight:700;padding:2px 8px;border-radius:9999px;margin-top:6px;`>🟢 ");
    Hole (tr l (js "Inferenz bereit") (js "Inference ready"));
    Lit (js "</div>")]
  else if isOnline n then [Lit (jsq "<div style=`display:inline-flex;align-items:center;gap:4px;background:rgba(245,158,11,0.15);border:1px solid rgba(245,158,11,0.35);color:#fbbf24;font-size:0.72rem;font-weight:700;padding:2px 8px;border-radius:9999px;margin-top:6px;` title=`");
    Hole (escape_val (vor (engineError n) (VStr (reason n))));
    Lit (jsq "`>🟡 ");
    Hole (tr l (js "Inferenz nicht bereit") (js "Inference not ready"));
    Lit (js " (");
    Hole (escape_val (VStr (reason n)));
    Lit (js ")</div>")]
  else [Lit (jsq "<div style=`display:inline-flex;align-items:center;gap:4px;background:rgba(100,116,139,0.2);border:1px solid rgba(100,116,139,0.3);color:#94a3b8;font-size:0.72rem;font-weight:700;padding:2px 8px;border-radius:9999px;margin-top:6px;`>⚪ ");
    Hole (tr l (js "Inferenz inaktiv") (js "Inference inactive"));
    Lit (js "</div>")].

Definition updateBadge (n : jsval) : list piece :=
  let u s := strict_eq (prop n (js "update_status")) (VStr (js s)) in
  if u "UP_TO_DATE"%string then [Lit (jsq "<span style=`color:#34d399;`>✓ ");
    Hole (tr l (js "Aktuell") (js "Up to date"));
    Lit (js "</span>")]
  else if u "UPDATE_AVAILABLE"%string then [Lit (jsq "<span style=`color:#38bdf8;`>⬆️ ");
    Hole (tr l (js "Update verfügbar") (js "Update available"));
    Lit (js "</span>")]
  else if u "BLOCKED/OFFLINE"%string then [Lit (jsq "<span style=`color:#94a3b8;`>");
    Hole (tr l (js "Offline") (js "Offline"));
    Lit (js "</span>")]
  else [Lit (jsq "<span style=`color:#f87171;`>");
    Hole (escape_val (vor (prop n (js "update_status")) (VStr (js "–"))));
    Lit (js "</span>")].

Definition mobileDetails (n : jsval) : list piece :=
  if isMobile n then [Lit (jsq "
              <div class=`node-spec-row` style=`color:#94a3b8;font-size:0.8rem;margin-top:4px;`>
                <span>Akku &amp; Wächter:</span>
                <strong style=`color:");
    Hole (if hot n then js "#f59e0b" else js "#10b981");
    Lit (jsq ";`>
                  🔋 ");
    Hole (figure (known (inventory n "battery_level") 100));
    Lit (js "% ");
    Hole (if vtruthy (inventory n "is_charging") then js "(🔌 Laden)" else []);
    Lit (js " &middot; 🌡️ ");
    Hole (figure (known (inventory n "temperature_c") 28));
    Lit (js "&deg;C
                </strong>
              </div>
            ")] else [].

Definition card (n : jsval) : list piece :=
  [Lit (jsq "
              <div>
                <div class=`node-card-header`>
                  <div>
                    <div class=`node-id-title`>")]
  ++ display n
  ++ [Lit (jsq "</div>
                    <div style=`font-size:0.75rem;color:#64748b;margin-top:2px;`>");
    Hole (tr l (js "Knoten-ID") (js "Node ID"));
    Lit (js ": ");
    Hole (escape_val (prop n (js "node_id")));
    Lit (js " &middot; ");
    Hole (if isOnline n then (if isMobile n then js "Mobile Node" else js "Live Stream") else tr l (js "Nicht erreichbar") (js "Unreachable"));
    Lit (js "</div>
                    ")]
  ++ inferenceBadge n
  ++ [Lit (js "
                  </div>
                  ")]
  ++ statusBadge n
  ++ [Lit (jsq "
                </div>

                <div class=`node-specs`>
                  <div class=`node-gpu-tag`>");
    Hole (if isMobile n then js "📱" else if no_gpu n then js "💻" else js "🎮");
    Lit (js " ");
    Hole (escape_val (displayGpu n));
    Lit (jsq "</div>
                  <div class=`node-spec-row`>
                    <span>");
    Hole (if isMobile n then js "RAM Pool:" else js "VRAM Pool:");
    Lit (js "</span>
                    <strong>");
    Hole (figure (vor (prop n (js "vram_gb")) (VNum (num_Z 0))));
    Lit (jsq " GB</strong>
                  </div>
                  <div class=`node-spec-row`>
                    <span>");
    Hole (tr l (js "Rechenleistung:") (js "Compute capacity:"));
    Lit (js "</span>
                    <strong>");
    Hole (tflopsText n);
    Lit (jsq "</strong>
                  </div>
                  <div class=`node-spec-row`>
                    <span>");
    Hole (tr l (js "Software-Version:") (js "Software Version:"));
    Lit (js "</span>
                    <strong>v");
    Hole (escape_val (version n));
    Lit (js " &middot; ")]
  ++ updateBadge n
  ++ [Lit (jsq "</strong>
                  </div>
                  <div class=`node-spec-row`>
                    <span>");
    Hole (tr l (js "Letzter Heartbeat:") (js "Last Heartbeat:"));
    Lit (js "</span>
                    <strong>");
    Hole (heartbeat n);
    Lit (jsq "</strong>
                  </div>
                  <div class=`node-spec-row`>
                    <span>");
    Hole (tr l (js "Job-Routing:") (js "Job Routing:"));
    Lit (js "</span>
                    <strong>")]
  ++ (if vtruthy (prop n (js "available_for_routing")) then [Lit (jsq "<span style=`color:#34d399;`>✓ ");
    Hole (tr l (js "Bereit") (js "Ready"));
    Lit (js "</span>")] else [Lit (jsq "<span style=`color:#94a3b8;`>✗ ");
    Hole (tr l (js "Gesperrt") (js "Blocked"));
    Lit (js "</span>")])
  ++ [Lit (js "</strong>
                  </div>
                  ")]
  ++ mobileDetails n
  ++ [Lit (jsq "
                </div>
              </div>

              <div>
                <div style=`display:flex;gap:0.5rem;align-items:center;`>
                  <a href=`");
    Hole (targetUrl n);
    Lit (jsq "` target=`_self` class=`btn btn-primary` style=`flex:1;text-align:center;display:block;padding:0.65rem 0.75rem;font-size:0.9rem;font-weight:600;text-decoration:none;`>
                    ⚡ ");
    Hole (tr l (js "Server Info →") (js "Server Info →"));
    Lit (jsq "
                  </a>
                  <button type=`button` class=`btn-node-delete` onclick=`confirmDeleteNode('");
    Hole (escape_val (prop n (js "node_id")));
    Lit (jsq "')` title=`");
    Hole (tr l (js "Knoten aus Flotte entfernen") (js "Remove node from fleet"));
    Lit (jsq "`>
                    <svg width=`18` height=`18` viewBox=`0 0 24 24` fill=`none` stroke=`currentColor` stroke-width=`2` stroke-linecap=`round` stroke-linejoin=`round`>
                      <polyline points=`3 6 5 6 21 6`></polyline>
                      <path d=`M19 6v14a2 2 0 0 1-2 2H7a2 2 0 0 1-2-2V6m3 0V4a2 2 0 0 1 2-2h4a2 2 0 0 1 2 2v2`></path>
                      <line x1=`10` y1=`11` x2=`10` y2=`17`></line>
                      <line x1=`14` y1=`11` x2=`14` y2=`17`></line>
                    </svg>
                  </button>
                </div>
                ")]
  ++ (if isOnline n && truthy (defaultLocalUrl n) then [Lit (jsq "
                  <a id=`btn-fleet-local-");
    Hole (escape_val (prop n (js "node_id")));
    Lit (jsq "` href=`");
    Hole (defaultLocalUrl n);
    Lit (jsq "` target=`_blank` rel=`noopener noreferrer` class=`btn-local-manage-fleet` title=`");
    Hole (tr l (js "Lokales Node-Management im Browser öffnen") (js "Open local node dashboard in browser"));
    Lit (jsq "`>
                    <span style=`display:inline-block;width:7px;height:7px;background:#34d399;border-radius:50%;margin-right:6px;box-shadow:0 0 6px #34d399;`></span>
                    ");
    Hole (tr l (js "⚙️ Node verwalten (Lokal) →") (js "⚙️ Manage Node (Local) →"));
    Lit (js "
                  </a>
                ")]
   else [Lit (jsq "
                  <button type=`button` disabled class=`btn-local-manage-fleet disabled` style=`width:100%;cursor:not-allowed;opacity:0.55;background:#334155;border-color:rgba(148,163,184,0.2);color:#94a3b8;box-shadow:none;pointer-events:none;` title=`");
    Hole (tr l (js "Knoten ist offline / nicht erreichbar") (js "Node is offline / unreachable"));
    Lit (jsq "`>
                    <span style=`display:inline-block;width:7px;height:7px;background:#64748b;border-radius:50%;margin-right:6px;`></span>
                    ");
    Hole (tr l (js "⚙️ Node verwalten (Offline)") (js "⚙️ Manage Node (Offline)"));
    Lit (js "
                  </button>
                ")])
  ++ [Lit (js "
              </div>
            ")].

End Card.

(** ** The summary counts the cards *)

Fixpoint counted (x : jsstring) (cs : list (jsstring * N)) : N :=
  match cs with
  | [] => 0
  | (k, c) :: r => if seqb k x then c + counted x r else counted x r
  end.

Lemma counted_in x y cs : counted x (count_in y cs) = counted x cs + (if seqb y x then 1 else 0).
Proof.
  induction cs as [|[k c] cs IH]; cbn [counted count_in]; [by destruct (seqb y x)|]. destruct (seqb k y) eqn:E; cbn [counted].
  - apply seqb_eq in E as ->. destruct (seqb y x); lia.
  - rewrite IH. destruct (seqb k x); lia.
Qed.

(** Each name stands once in the summary, with the number of cards that have it. *)
Lemma summary_counts_the_cards sf gs x : x <> [] ->
  counted x (gpu_counts sf gs) = N.of_nat (length (List.filter (fun g => seqb (gpu_name sf g) x) gs)).
Proof.
  intros Hx. unfold gpu_counts.
  enough (H : forall a, counted x (fold_left (fun a g => if truthy (gpu_name sf g) then count_in (gpu_name sf g) a else a) gs a)
    = counted x a + N.of_nat (length (List.filter (fun g => seqb (gpu_name sf g) x) gs))) by (rewrite H; done).
  induction gs as [|g gs IH]; intros a; cbn [fold_left List.filter length]; [lia|]. rewrite IH.
  destruct (truthy (gpu_name sf g)) eqn:T.
  - rewrite counted_in. destruct (seqb (gpu_name sf g) x); cbn [length]; lia.
  - replace (seqb (gpu_name sf g) x) with false; [done|]. symmetry. apply seqb_neq. intros E. rewrite E in T. by destruct x.
Qed.

(** ** Where the local dashboard is looked for *)

Lemma add_ips_origin sf n ips us u : u ∈ fold_left (add_ip sf n) ips us ->
  u ∈ us \/ exists ip, ip ∈ ips /\ starts_with (js "127.") (figure sf ip) = false /\ u = http sf n (figure sf ip).
Proof.
  revert us. induction ips as [|ip ips IH]; intros us; cbn [fold_left]; [auto|]. intros H. destruct (IH _ H) as [H1|(i & Hi & R)].
  2: { right. exists i. split; [by right|done]. }
  unfold add_ip, add_url in H1. destruct (vtruthy ip && negb _) eqn:E; [|by left].
  destruct (existsb _ us); [by left|]. apply elem_of_app in H1 as [H1| ->%list_elem_of_singleton]; [by left|].
  apply andb_true_iff in E as [_ E%negb_true_iff]. right. exists ip. split; [by left|done].
Qed.

(** An address that is tried was announced by the node, or is one of its network addresses
    outside the loopback net, or is the local host of a node that announced neither
    addresses nor a usable first network address. *)
Lemma candidates_origin sf n u : u ∈ candidateUrls sf n ->
  u ∈ figure sf <$> array_or_nil (prop n (js "candidate_local_urls")) \/
  (exists ip, ip ∈ lan_ips n /\ starts_with (js "127.") (figure sf ip) = false /\ u = http sf n (figure sf ip)) \/
  (defaultLocalUrl sf n = [] /\ (u = http sf n (js "localhost") \/ u = http sf n (js "127.0.0.1"))).
Proof.
  unfold candidateUrls. destruct (fold_left _ _ _) as [|v vs] eqn:E.
  - destruct (defaultLocalUrl sf n) eqn:D; cbn [truthy]; [|set_solver]. intros H. right. right. split; [done|]. set_solver.
  - rewrite <- E. intros [H|H]%add_ips_origin; auto.
Qed.

(** The first address that answers becomes the link. *)
Lemma probe_takes_the_first reach urls href : probeFleetNode reach urls href = default href (List.find reach urls).
Proof. induction urls as [|u r IH]; [done|]. cbn. by destruct (reach u). Qed.

(** Before that the link is the first network address, also when it is the loopback address
    and another one was announced. *)
Example loopback_becomes_the_link :
  let n := VObj [(js "is_online", VBool true);
                 (js "network", VObj [(js "lan_ips", VArr [VStr (js "127.0.0.1"); VStr (js "192.168.1.5")])])] in
  defaultLocalUrl (fun _ => []) n = js "http://127.0.0.1:8080" /\
  candidateUrls (fun _ => []) n = [js "http://192.168.1.5:8080"].
Proof. vm_compute. split; reflexivity. Qed.

(** ** The markup *)

Lemma escape_text_free s : 60 ∉ escape_text s.
Proof. apply escape_free. intros d. unfold text_unit. escape_case. Qed.

Lemma escape_val_text sf v : quiet InText (escape_val sf v).
Proof. unfold escape_val. destruct (vtruthy v); [apply escape_text_free|apply quiet_nil]. Qed.

Lemma free_check c s : existsb (N.eqb c) s = false -> c ∉ s.
Proof.
  intros H Hin. apply not_true_iff_false in H. apply H, existsb_exists. exists c. split; [by apply list_elem_of_In|apply N.eqb_refl].
Qed.

Lemma tflops_free l n : quiet InText (tflopsText l n).
Proof.
  assert (M : quiet InText (if strict_eq (prop n (js "compute_measurement")) (VStr (js "measuring"))
    then tr l (js "⏳ Messung läuft...") (js "⏳ Measuring...") else tr l (js "– (Nicht gemessen)") (js "– (Not measured)"))).
  { destruct (strict_eq _ _), l; apply free_check; vm_compute; reflexivity. }
  unfold tflopsText. destruct (Number _) as [q| | |]; try exact M.
  - destruct (Qltb 0 q); [|exact M]. cbn [quiet]. rewrite elem_of_app. intros [H|H]; [apply toFixed_plain in H; lia|].
    revert H. apply free_check. vm_compute. reflexivity.
  - apply free_check. vm_compute. reflexivity.
Qed.

(** A block of markup begins and ends in text. *)
Definition block (ps : list piece) : Prop := holes_ok InText ps /\ scan InText (fill (blank <$> ps)) = InText.

Lemma block_app a b : block a -> block b -> block (a ++ b).
Proof.
  intros [A1 A2] [B1 B2]. destruct (fill_skeleton a InText A1) as [_ E]. split.
  - apply holes_ok_app; [done|]. by rewrite E, A2.
  - rewrite fmap_app. unfold fill. rewrite bind_app. fold (fill (blank <$> a)) (fill (blank <$> b)). by rewrite scan_app, A2.
Qed.

(** What a node must not do: quotation marks in the texts that go into attributes, markup in
    the figures that are not escaped. *)
Record harmless (sf : Q -> jsstring) (clock : jsval -> jsstring) (l : lang) (n : jsval) : Prop := Harmless {
  ok_id : 34 ∉ escape_val sf (prop n (js "node_id"));
  ok_error : 34 ∉ escape_val sf (vor (engineError n) (VStr (reason l n)));
  ok_target : 34 ∉ targetUrl sf n;
  ok_local : 34 ∉ defaultLocalUrl sf n;
  ok_vram : 60 ∉ figure sf (vor (prop n (js "vram_gb")) (VNum (num_Z 0)));
  ok_battery : 60 ∉ figure sf (known (inventory n "battery_level") 100);
  ok_temperature : 60 ∉ figure sf (known (inventory n "temperature_c") 28);
  ok_clock : 60 ∉ heartbeat clock n;
}.

(** The holes of the template: fixed texts, escaped texts, and those of a harmless node. *)
Ltac fixed_hole :=
  repeat lazymatch goal with
  | |- quiet _ (if ?b then _ else _) => destruct b
  | |- quiet _ (tr ?l _ _) => destruct l; cbn [tr]
  end; apply free_check; vm_compute; reflexivity.

Ltac card_hole H :=
  lazymatch goal with
  | |- quiet InText (escape_val _ _) => apply escape_val_text
  | |- quiet InText (tflopsText _ _) => apply tflops_free
  | |- quiet InDouble (escape_val _ (prop _ _)) => exact (ok_id _ _ _ _ H)
  | |- quiet InDouble (escape_val _ (vor _ _)) => exact (ok_error _ _ _ _ H)
  | |- quiet _ (targetUrl _ _) => exact (ok_target _ _ _ _ H)
  | |- quiet _ (defaultLocalUrl _ _) => exact (ok_local _ _ _ _ H)
  | |- quiet _ (figure _ (vor _ _)) => exact (ok_vram _ _ _ _ H)
  | |- quiet _ (figure _ (known (inventory _ "battery_level") _)) => exact (ok_battery _ _ _ _ H)
  | |- quiet _ (figure _ (known _ _)) => exact (ok_temperature _ _ _ _ H)
  | |- quiet _ (heartbeat _ _) => exact (ok_clock _ _ _ _ H)
  | |- _ => fixed_hole
  end.

Ltac card_block H := split; [template_ok; card_hole H|vm_compute; reflexivity].

Section Markup.
Context (sf : Q -> jsstring) (clock : jsval -> jsstring) (l : lang) (n : jsval).
Context (H : harmless sf clock l n).

Lemma display_block : block (display sf n).
Proof. unfold display. destruct (vtruthy _ && _); card_block H. Qed.

Lemma status_block : block (statusBadge l n).
Proof. unfold statusBadge. destruct (is_status n "quarantined"), (isOnline n), (is_status n "stale"); card_block H. Qed.

Lemma inference_block : block (inferenceBadge sf l n).
Proof. unfold inferenceBadge. destruct (vtruthy _); [card_block H|]. destruct (isOnline n); card_block H. Qed.

Lemma update_block : block (updateBadge sf l n).
Proof.
  unfold updateBadge. cbv zeta. destruct (strict_eq _ (VStr (js "UP_TO_DATE"))); [card_block H|].
  destruct (strict_eq _ (VStr (js "UPDATE_AVAILABLE"))); [card_block H|].
  destruct (strict_eq _ (VStr (js "BLOCKED/OFFLINE"))); card_block H.
Qed.

Lemma mobile_block : block (mobileDetails sf n).
Proof. unfold mobileDetails. destruct (isMobile n); [card_block H|done]. Qed.

(** Then nothing a node reports changes the elements and attributes of its card. *)
Lemma card_block_ok : block (card sf clock l n).
Proof.
  unfold card.
  repeat first [apply block_app|apply display_block|apply inference_block|apply status_block|apply update_block|apply mobile_block];
    try (match goal with |- block (if ?b then _ else _) => destruct b end); card_block H.
Qed.

End Markup.

Theorem node_card_markup sf clock l n : harmless sf clock l n ->
  skeleton InText (fill (card sf clock l n)) = skeleton InText (fill (blank <$> card sf clock l n)).
Proof. intros H. apply fill_skeleton, card_block_ok, H. Qed.

(** The quotation mark of an engine error ends the attribute it is shown in. *)
Example engine_error_adds_a_handler :
  let n := VObj [(js "node_id", VStr (js "n1")); (js "is_online", VBool true);
                 (js "model_runtime_error", VStr (jsq "x` onmouseover=`alert(1)"))] in
  includes (jsq "title=`x` onmouseover=`alert(1)`>") (fill (card (fun _ => []) (fun _ => []) En n)) = true.
Proof. vm_compute. reflexivity. Qed.

(** A node as the gateway lists it is harmless. *)
Example listed_node_is_harmless :
  harmless (fun _ => []) (fun _ => js "12:00:00") De
    (VObj [(js "node_id", VStr (js "cm-win-1")); (js "is_online", VBool true); (js "vram_gb", VNum (num_Z 24));
           (js "updated_at", VStr (js "2026-01-01T00:00:00Z"));
           (js "network", VObj [(js "lan_ips", VArr [VStr (js "192.168.1.5")])])]).
Proof. split; apply free_check; vm_compute; reflexivity. Qed.
